(* ===== verification/_CoqProject ===== *)
-Q . S2P
Prelude.v
CLib.v
Posix.v
Kilo.v
Life.v
Search.v
Heron.v
Vfs.v
TlpiLib.v
FileRun.v
FileCopy.v
FileTee.v
LineIo.v
FileAppend.v
FileAtomic.v
FileDup.v
FileSeek.v
Users.v
Env.v
EnvSafe.v
Acl.v
AclSafe.v
AclSpec.v
SvShm.v
SvShmInv.v
SvShmRun.v
ProdCond.v
ProdCondSafe.v
Incr.v
IncrSafe.v
IncrRace.v
DtWorld.v
DtFiles.v
DtCache.v
DtProg.v
DtMain.v
DtSpec.v
DtTree.v
DtSync.v
DtFollow.v
DtMirror.v
TbTables.v
TbText.v
TbBuf.v
TbTrie.v
TbGlobal.v
TbOutput.v
TbPresent.v
TbTerm.v
TbApi.v
TbInput.v
TbEvent.v
TbTerminfo.v
TbInit.v
TbSession.v
