(* ===== verification/Prelude.v ===== *)
(** * stage0: a verification development

    The repository holds C programs written while learning: a terminal editor
    (src/stage0/kilo/kilo.c), Conway's game of life (src/stage0/life/main.c) and,
    beside it, the terminal library termbox2 it was tried with
    (src/stage0/life/termbox2.h), exercises on searching and arithmetic
    (src/stage0/modern_c) and on files (src/stage0/tlpi/fileio), and the programs
    of a book on system programming (src/stage0/tlpi/tlpi-dist), the largest of
    which, inotify_dtree.c, keeps track of directories.  This library models them
    function by function and proves what makes them correct.

    ** The files

    - [Prelude]: outcomes ([Ret], [Exit], [Blocked], [Fault]), the state monad
      the models are written in and its tactic [mrun], array access by [Z].
    - [CLib]: machine integers ([wraps], [wrapu]), [char] signedness, string
      literals, the parts of [printf] and [sscanf] the sources use.
    - [Posix]: the system calls.  What the kernel and the terminal answer is an
      arbitrary script in the record [sys], so a theorem about every [sys] is a
      theorem about every behaviour of the environment; written bytes are
      collected in [s_out].
    - [Kilo]: kilo.c.  [E] is the record of the global of that name;
      [editorReadKey], [getCursorPosition], [getWindowSize], [editorDrawRows],
      [editorRefreshScreen], [editorProcessKyepress] and [main] have the names
      they have in C, with [die] as [Exit] through the [atexit] handler.  The
      reply buffer and the append buffer are objects with a size
      ([set_byte], [load], [realloc], [memcpy]) and every [int] sum is checked.
    - [Life]: main.c.  The boards are lists of 180 * 45 cells; [update],
      [count_neighbors], [draw_board], the frame with its two buffers
      ([life_draw], [life_advance]) and [main] with its terminal set-up.
    - [Search], [Heron]: modern_c/control/binary_search.c and heron.c, with
      doubles as the Standard Library's floating-point specification.
    - [Vfs]: files, open files, descriptors and the calls on them ([call]), after
      POSIX: programs are trees of calls ([prog]), so that several can be run
      with their calls interleaved; a script says which calls fail or transfer
      less.
    - [TlpiLib]: the book's error functions and getInt, getLong (lib/).
    - [FileRun]: how each call of a program runs; [FileCopy] (copy.c, cp.c),
      [FileTee], [FileAppend], [FileAtomic] (atomic_append.c, alone and with
      others), [FileDup] (dup.c, verify_dup.c), [FileSeek] (seek_io.c,
      large_file.c, large_file2.c, t_readv.c, bad_exclusive_open.c), [LineIo]
      (sockets/rdwrn.c, read_line.c and read_line_buf.c, on pipes).
    - [Users]: user_groups/ugid_functions.c and getpwnam.c, with the password and
      group files as lists.  [Env], [EnvSafe]: the environment as an array of
      pointers (tlpi-dist/proc/setenv.c, setenv2 of proc/setenv.c, modify_env.c and
      the programs that show it) and as a finite map.
    - [Acl]: acl_update.c; [AclSafe], [AclSpec]: the lists it keeps, the texts it
      reads and what an update means.
    - [SvShm], [SvShmInv], [SvShmRun]: a writer and a reader that hand blocks over
      through shared memory with two semaphores (svshm_xfr_writer.c,
      svshm_xfr_reader.c, binary_sems.c): a step relation, its invariant, and that it
      ends.  [ProdCond], [ProdCondSafe]: prod_condvar.c, producers and a consumer with
      a condition variable.  [Incr]: thread_incr.c and the four programs that guard
      the counter, over the class [Lock]; [IncrSafe] proves them against the laws of
      that class ([LockLaws]), which each lock discharges, and [IncrRace] is about
      the program without a lock.
    - [DtWorld]: what inotify_dtree.c relies on: a tree of names, an inotify
      instance with its watches and queue, and the events that creating,
      removing and renaming put there ([fs_step]).  [DtFiles]: lemmas on names
      and trees.
    - [DtCache], [DtProg], [DtMain]: inotify_dtree.c: its state [dtree], the
      messages, the array of watches and the roots; walking trees, renaming and
      removing in the array and one event ([processNextInotifyEvent]); reading
      events, commands, options and [main].
    - [DtSpec]: a logic for these functions that ignores messages ([does]) and the
      array as a finite map ([holds]); [DtTree]: the tie between the map, the
      kernel's watches and a set of directories ([tied]), which the functions on
      subtrees move along; [DtSync]: each kind of event, reads and turns of the
      main loop; [DtFollow]: what an operation does to the tracked directories;
      [DtMirror]: the promises of the program.
    - [TbTables]: the constant tables of termbox2.h, entry for entry (terminal
      capabilities, keys, modifiers, UTF-8 lengths, widths).
    - [TbText]: UTF-8 ([tb_utf8_*]) and widths ([tb_wcwidth], [tb_iswprint_ex],
      [tb_cluster_width]).
    - [TbBuf]: [struct bytebuf], [struct tb_cell], [struct cellbuf] and their
      operations.  The build options [TB_OPT_EGC] and [TB_OPT_ATTR_W] are the
      class [config]: a theorem with [`{config}] holds for every build.
    - [TbTrie]: [struct cap_trie] with add, find and deinit, and
      [init_cap_trie].
    - [TbGlobal]: [struct tb_global], the state [tbw] of the library (the
      global, the system calls, the files and descriptors), and the numbers and
      cursor positions it sends.
    - [TbOutput], [TbPresent]: [send_attr], [send_sgr], [send_cluster],
      [send_clear] and [tb_present], with the terminal's reading of the
      attributes as their specification.
    - [TbTerm]: the terminal the library writes to: a grid of cells, a cursor
      and a pen, driven by the bytes it receives, with no result for a sequence
      it does not know.  [displays] relates it to the front buffer.
    - [TbApi]: the functions a program calls: cells, printing, modes, sizes,
      [resize_cellbufs].
    - [TbInput]: [extract_event] and all below it: keys, mouse reports, UTF-8,
      callbacks.
    - [TbEvent]: [wait_event], [tb_peek_event], [tb_poll_event], the size of the
      terminal, the SIGWINCH handler.
    - [TbTerminfo]: the search for a compiled entry, its parsing, the built-in
      terminals.
    - [TbInit]: [tb_init] and its variants, [tb_shutdown], [tb_deinit].
    - [TbSession]: a program that starts the library and draws ([draw_op]), with
      the invariant [session] that every call keeps.

    The files are used in the order of the list.  Cells and bytes are in
    [TbBuf]; [TbOutput] draws the back buffer against the front buffer into the
    output buffer; [TbEvent] fills the input buffer, which [TbInput] decodes
    with the trie [TbInit] built from the capabilities [TbTerminfo] found.

    ** How C is read

    A function that only computes is a function; one that has effects is a
    computation of type [M W A], a function of the state that gives an outcome
    and a state.  [Fault] is an access outside an object, a NULL dereference or
    a signed overflow, so that "the outcome is [Ret]" includes that the C is
    defined.  [int], [size_t], [uint32_t] and attributes are [Z] kept in range
    by writing the wrap-around, or the fault, where the C has it.  A pointer into
    a string is the rest of the object it points into.  Memory that [malloc]
    gives is an option of its contents; whether it succeeds is in the script of
    [sys].

    ** What is proved

    - [Kilo]: the start-up never leaves an object whatever the terminal answers,
      and in a window that fits ([window_fits]) no run of the editor leaves an
      object or overflows an [int], and the cursor never leaves the window
      ([unchecked_reply] shows what a size that does not fit does); keys are
      decoded however their bytes are split; a refresh writes the specified
      screen; whenever the program ends the terminal's attributes are as it
      found them.
    - [Life]: [update] is Conway's rule; after each frame the terminal shows the
      generation although only changes are written; the program never faults,
      ends with an escape, and restores the terminal.
    - [Search], [Heron]: binary and sequential search agree on sorted arrays (on
      the index too when no element is there twice);
      the initial guess for a negative number is not found.
    - [FileCopy], [FileTee], [FileAppend], [FileSeek], [FileDup]: for any failing
      and partial calls the files hold what the program's success says, and
      other files are untouched; [FileAtomic]: any number of processes append
      with their calls in any order and no byte is lost.
    - [TlpiLib]: a number is accepted exactly when it is one in its range.
    - [LineIo]: reads and writes of whole blocks survive partial transfers, and the
      two line readers give the same lines.
    - [EnvSafe]: setting and removing variables by moving pointers are insertion and
      deletion in a map; modify_env prints exactly the variables it is told.
    - [AclSafe], [AclSpec]: a file never gets an invalid list, parsing stays inside
      its arrays, printing an entry and parsing it are inverse, and an update is the
      one on maps.
    - [SvShmRun], [ProdCondSafe], [IncrSafe], [IncrRace]: for inputs and arguments
      whose sums are an [int], in every interleaving, whichever calls fail, nothing is lost, consumed twice or torn; without failures
      no schedule deadlocks or runs for ever (the number of steps is bounded); and
      without a lock the counter ends anywhere from two to the full sum, and nowhere
      else.
    - [DtMirror]: from the start on, and after any operations of other processes
      that spare the roots, the program comes to wait with a cache that has
      exactly the directories below the roots, each with the kernel's watch; a
      cache that is out of step is built anew.
    - [TbText], [TbBuf], [TbTrie]: UTF-8 round trip over 31 bits; the binary
      search of the width table is the linear one; the byte buffer is a queue
      under any allocation failures; resizing keeps what is shown; the trie
      decodes the key sequences of the built-in terminals and nothing else
      ([finds_exactly]).
    - [TbOutput], [TbPresent], [TbApi]: attributes are sent so that a terminal
      shows the documented colours; [tb_present] makes the front buffer equal to
      the back buffer and sends nothing the second time; printing puts each
      character at its column.
    - [TbTerm], [TbSession]: [tb_present] makes a terminal that shows the front
      buffer show the back buffer ([present_shows_back]); from a start on any
      screen, whatever a program sets, clears and presents ([draw_ok]: visible
      characters, documented attributes, the cursor on the screen), the terminal
      understands all that is sent and shows what the program asked for
      ([session_shows]).
    - [TbInput], [TbEvent]: each key, character and mouse report is decoded to
      its event, taking exactly its bytes, and [tb_poll_event] returns it however
      its bytes arrive, but for an escape that comes alone, which is a key of its
      own ([together]); decoding any input makes progress; a resize reaches the
      buffers and the program.
    - [TbTerminfo], [TbInit]: parsing reads back what the documented format
      stores and stays inside the file; the documented directories are searched
      in order; a start that does not run out of memory ([calm_start]) succeeds
      completely or closes every descriptor it opened, removes its signal handler
      and restores the attributes ([undone]), and a shutdown restores the
      terminal.

    Several theorems state flaws: the [int16_t] positions of
    [get_terminfo_string] ([terminfo_table_wraps]), the alt modifier that is lost
    when a character is split ([alt_lost_when_split]), unbounded numbers in mouse
    reports ([mouse_number_overflows]), a second start that is not refused
    ([second_start_loses_attributes]), a failed allocation in the trie
    ([failed_add_breaks_deinit]), sizes of a terminal that kilo.c does not check
    ([unchecked_reply]).

    ** Bounds and fuel

    Loops over a buffer or a table are structural or have as fuel the length of
    what they walk; theorems of totality show it suffices
    ([TbInput.decoding_progresses], [TbApi.print_total]).  A loop that waits for
    its environment has as fuel the length of the script it consumes: when the
    script ends the program would wait, which is the outcome [Blocked], not a
    result.  [Kilo.main] and [Life.main] take the number of turns as fuel; their
    theorems hold for every number.  Sizes in hypotheses ([room],
    [PTRDIFF_MAX], 2^59 bytes of input) keep the [size_t] arithmetic of the
    buffers from wrapping, which no machine reaches.  In the programs on files
    the fuel is above the number of bytes; [DtSync.enough] (2000) is above the
    number of events that fit into the buffer of inotify_dtree.c and the one
    repetition it allows, and [operation_followed] gives the turns.  The programs
    with threads have no fuel: they are step relations, and theorems bound the number
    of steps.

    ** Environment

    The script answers one call after another: [s_read], [s_write],
    [s_select], [s_winsz], [s_tc], [s_alloc] in [Posix], [e_open], [e_pipe],
    [e_sigaction], [e_file], [e_var], [e_isatty] in [TbGlobal].  A theorem whose
    hypothesis says a script is empty is about calls that succeed; the others
    hold for all scripts.

    ** Not modelled

    The sums [x + 1] and [y + 1] of [send_cursor_if] wrap for a cursor at [INT_MAX],
    which no screen has, and the generations of [Life] are counted without a bound.
    Signals between two instructions (the handler only writes to the resize pipe,
    which the model does between calls), [TB_OPT_LIBC_WCHAR], Darwin's
    directories, [vsnprintf] (the text of [tb_printf] is a parameter).  In
    [DtMirror] several operations between two turns of the main loop are not
    covered: the program's comments explain that its handling of them is
    heuristic; what it does when it notices is [out_of_step_recovers].  Names are
    not interpreted by [DtWorld]: there are no symbolic links, other file systems
    or names with trailing slashes.  In the programs with threads a load, a store or a
    call is one step and memory is sequentially consistent: with a lock the C is free
    of data races, and thread_incr.c without one is undefined behaviour for the
    standard; the model is what its volatile accesses do on the machines of the
    book.  unsetenv2 of tlpi/proc/setenv.c stops in the middle of a statement.  The
    other programs of tlpi/tlpi-dist, longjmp.c and mem_segments.c of tlpi/proc,
    memalloc and check_password.c of user_groups are demonstrations of single system
    calls; csapp and ostep hold fragments for reading their assembly. *)

From stdpp Require Import prelude list_numbers.
From Stdlib Require Import ZArith Lia.

Open Scope Z_scope.

Create HintDb stage0.
Create Rewrite HintDb stage0.

(** ** Outcomes and the state monad of the C programs *)

(** How a C computation can end: with a value, by [exit(3)], by waiting for
    input that the environment has not supplied, or by an access outside an
    object (undefined behaviour). *)
Inductive outcome (A : Type) : Type :=
| Ret (a : A)
| Exit (code : Z)
| Blocked
| Fault.
Arguments Ret {A} a.
Arguments Exit {A} code.
Arguments Blocked {A}.
Arguments Fault {A}.

(** A C function over the state [W] (its globals and the system around it). *)
Definition M (W A : Type) : Type := W -> outcome A * W.

Section Monad.
Context {W : Type}.

Definition ret {A} (a : A) : M W A := fun w => (Ret a, w).

Definition bind {A B} (m : M W A) (k : A -> M W B) : M W B := fun w =>
  match m w with
  | (Ret a, w') => k a w'
  | (Exit c, w') => (Exit c, w')
  | (Blocked, w') => (Blocked, w')
  | (Fault, w') => (Fault, w')
  end.

Definition exit_with {A} (c : Z) : M W A := fun w => (Exit c, w).
Definition blocked {A} : M W A := fun w => (Blocked, w).
Definition fault {A} : M W A := fun w => (Fault, w).
Definition get : M W W := fun w => (Ret w, w).
Definition put (w : W) : M W unit := fun _ => (Ret tt, w).
Definition modify (f : W -> W) : M W unit := fun w => (Ret tt, f w).
Definition gets {A} (f : W -> A) : M W A := fun w => (Ret (f w), w).

(** A memory access: [Fault] when the object has no such element. *)
Definition deref {A} (o : option A) : M W A :=
  match o with Some a => ret a | None => fault end.

End Monad.

Declare Scope prog_scope.
Delimit Scope prog_scope with prog.
Notation "'let*' x ':=' m 'in' k" := (bind m (fun x => k))
  (at level 10, x name, m at level 100, k at level 200,
   format "'[v' 'let*'  x  ':='  m  'in' '/' k ']'") : prog_scope.
Notation "'let*' ' p ':=' m 'in' k" := (bind m (fun x => match x with p => k end))
  (at level 10, p strict pattern, m at level 100, k at level 200) : prog_scope.
Notation "m ;;; k" := (bind m (fun _ => k))
  (at level 199, right associativity) : prog_scope.
Open Scope prog_scope.

(** Running a component of the state: the C code takes a pointer to it. *)
Definition zoom {W V A} (getv : W -> V) (setv : V -> W -> W) (m : M V A) : M W A :=
  fun w => match m (getv w) with (o, v) => (o, setv v w) end.

Lemma bind_ret {W A B} (m : M W A) (k : A -> M W B) w a w' :
  m w = (Ret a, w') -> bind m k w = k a w'.
Proof. intros H. unfold bind. by rewrite H. Qed.

Lemma bind_deref {W A B} (x : A) (k : A -> M W B) w : bind (deref (Some x)) k w = k x w.
Proof. done. Qed.

Lemma bind_exit {W A B} (m : M W A) (k : A -> M W B) w c w' :
  m w = (Exit c, w') -> bind m k w = (Exit c, w').
Proof. intros H. unfold bind. by rewrite H. Qed.

Lemma bind_blocked {W A B} (m : M W A) (k : A -> M W B) w w' :
  m w = (Blocked, w') -> bind m k w = (Blocked, w').
Proof. intros H. unfold bind. by rewrite H. Qed.

Lemma bind_inv_ret {W A B} (m : M W A) (k : A -> M W B) w b w' :
  bind m k w = (Ret b, w') -> exists a w1, m w = (Ret a, w1) /\ k a w1 = (Ret b, w').
Proof.
  unfold bind. destruct (m w) as [[a|c| |] w1] eqn:E; try discriminate.
  intros H. by exists a, w1.
Qed.

Lemma bind_assoc {W A B C} (m : M W A) (k : A -> M W B) (h : B -> M W C) w :
  bind (bind m k) h w = bind m (fun a => bind (k a) h) w.
Proof. unfold bind. by destruct (m w) as [[] ?]. Qed.

(** Closes a decidable goal on closed data by evaluation. *)
Ltac vm_decide := apply (bool_decide_unpack _); vm_compute; exact I.

Ltac mrun H := rewrite (bind_ret _ _ _ _ _ H).

(** ** Partial-correctness triples that exclude undefined behaviour *)

(** From a state where [P] holds, [m] never faults, and when it returns [Q]
    holds of the value and the state. *)
Definition triple {W A} (P : W -> Prop) (m : M W A) (Q : A -> W -> Prop) : Prop :=
  forall w, P w ->
  match m w with
  | (Ret a, w') => Q a w'
  | (Exit _, _) => True
  | (Blocked, _) => True
  | (Fault, _) => False
  end.

Lemma triple_ret {W A} (P : W -> Prop) (a : A) (Q : A -> W -> Prop) :
  (forall w, P w -> Q a w) -> triple P (ret a) Q.
Proof. intros H w Hw. by apply H. Qed.

Lemma triple_bind {W A B} (P : W -> Prop) (R : A -> W -> Prop) (Q : B -> W -> Prop)
    (m : M W A) (k : A -> M W B) :
  triple P m R -> (forall a, triple (R a) (k a) Q) -> triple P (bind m k) Q.
Proof.
  intros Hm Hk w Hw. specialize (Hm w Hw). unfold bind.
  destruct (m w) as [[a|c| |] w']; try done. by apply Hk.
Qed.

Lemma triple_conseq {W A} (P P' : W -> Prop) (Q Q' : A -> W -> Prop) (m : M W A) :
  triple P' m Q' -> (forall w, P w -> P' w) -> (forall a w, Q' a w -> Q a w) ->
  triple P m Q.
Proof.
  intros Hm HP HQ w Hw. specialize (Hm w (HP w Hw)).
  destruct (m w) as [[a|c| |] w']; try done. by apply HQ.
Qed.

Lemma triple_if {W A} (b : bool) (P : W -> Prop) (m1 m2 : M W A) Q :
  (b = true -> triple P m1 Q) -> (b = false -> triple P m2 Q) ->
  triple P (if b then m1 else m2) Q.
Proof. destruct b; intros H1 H2; [by apply H1|by apply H2]. Qed.

Lemma triple_exit {W A} (P : W -> Prop) c (Q : A -> W -> Prop) :
  triple P (exit_with c) Q.
Proof. by intros w _. Qed.

Lemma triple_pre {W A} (P : W -> Prop) (m : M W A) Q :
  (forall w, P w -> triple (fun w' => w' = w) m Q) -> triple P m Q.
Proof. intros H w Hw. by apply (H w Hw w). Qed.

(** ** Frame rules: what a computation leaves alone, however it ends *)

(** [m] does not change the component [f] of the state. *)
Definition keeps {W A V} (f : W -> V) (m : M W A) : Prop :=
  forall w, f (snd (m w)) = f w.

Lemma keeps_ret {W A V} (f : W -> V) (a : A) : keeps f (ret a).
Proof. by intros w. Qed.

Lemma keeps_exit {W A V} (f : W -> V) c : keeps f (exit_with c : M W A).
Proof. by intros w. Qed.

Lemma keeps_blocked {W A V} (f : W -> V) : keeps f (blocked : M W A).
Proof. by intros w. Qed.

Lemma keeps_fault {W A V} (f : W -> V) : keeps f (fault : M W A).
Proof. by intros w. Qed.

Lemma keeps_gets {W A V} (f : W -> V) (g : W -> A) : keeps f (gets g).
Proof. by intros w. Qed.

Lemma keeps_modify {W V} (f : W -> V) g : (forall w, f (g w) = f w) -> keeps f (modify g).
Proof. intros H w. apply H. Qed.

Lemma keeps_bind {W A B V} (f : W -> V) (m : M W A) (k : A -> M W B) :
  keeps f m -> (forall a, keeps f (k a)) -> keeps f (bind m k).
Proof.
  intros Hm Hk w. specialize (Hm w). unfold bind.
  destruct (m w) as [[a|c| |] w']; simpl in *; try done. by rewrite Hk.
Qed.

Lemma keeps_deref {W A V} (f : W -> V) (o : option A) : keeps f (deref o).
Proof. destruct o; by intros w. Qed.

Lemma keeps_if {W A V} (f : W -> V) (b : bool) (m1 m2 : M W A) :
  keeps f m1 -> keeps f m2 -> keeps f (if b then m1 else m2).
Proof. by destruct b. Qed.

Lemma keeps_comp {W A V V'} (f : W -> V) (g : V -> V') (m : M W A) :
  keeps f m -> keeps (fun w => g (f w)) m.
Proof. intros H w. by rewrite (H w). Qed.

(** A component reached through [zoom]. *)
Lemma keeps_zoom {W V A U} (getv : W -> V) setv (f : W -> U) (m : M V A) :
  (forall v w, f (setv v w) = f w) -> keeps f (zoom getv setv m).
Proof. intros H w. unfold zoom. destruct (m (getv w)) as [o v]. simpl. apply H. Qed.

Lemma keeps_zoom_in {W V A U} (getv : W -> V) setv (f : V -> U) (m : M V A) :
  (forall v w, getv (setv v w) = v) -> keeps f m ->
  keeps (fun w => f (getv w)) (zoom getv setv m).
Proof.
  intros H Hm w. unfold zoom. specialize (Hm (getv w)).
  destruct (m (getv w)) as [o v]. simpl in *. by rewrite H.
Qed.

Lemma zoom_ret {W V A} (getv : W -> V) setv (m : M V A) w a v :
  m (getv w) = (Ret a, v) -> zoom getv setv m w = (Ret a, setv v w).
Proof. intros H. unfold zoom. by rewrite H. Qed.

#[export] Hint Resolve keeps_ret keeps_exit keeps_blocked keeps_fault keeps_gets
  keeps_deref : stage0.

(** Splits a [keeps] goal along the structure of the program. *)
Ltac keeps_step :=
  lazymatch goal with
  | |- forall _, keeps _ _ => intros ?
  | |- keeps _ (bind _ _) => apply keeps_bind
  | |- keeps _ (match ?b with true => _ | false => _ end) => apply keeps_if
  | |- keeps _ (match ?x with _ => _ end) => destruct x
  | |- keeps _ (modify _) => apply keeps_modify; done
  end.
Ltac keeps := repeat (first [progress eauto with stage0 | keeps_step]).

(** ** Absence of undefined behaviour *)

(** [m] never faults, whatever the state. *)
Definition safe {W A} (m : M W A) : Prop := forall w, fst (m w) <> Fault.

(** Every value [m] returns satisfies [Q]. *)
Definition returns {W A} (m : M W A) (Q : A -> Prop) : Prop :=
  forall w a w', m w = (Ret a, w') -> Q a.

Lemma safe_ret {W A} (a : A) : safe (ret a : M W A).
Proof. by intros w. Qed.

Lemma safe_exit {W A} c : safe (exit_with c : M W A).
Proof. by intros w. Qed.

Lemma safe_blocked {W A} : safe (blocked : M W A).
Proof. by intros w. Qed.

Lemma safe_gets {W A} (g : W -> A) : safe (gets g).
Proof. by intros w. Qed.

Lemma safe_modify {W} (g : W -> W) : safe (modify g).
Proof. by intros w. Qed.

Lemma safe_deref {W A} (o : option A) : is_Some o -> safe (deref o : M W A).
Proof. by intros [a ->] w. Qed.

Lemma safe_bind_post {W A B} (Q : A -> Prop) (m : M W A) (k : A -> M W B) :
  safe m -> returns m Q -> (forall a, Q a -> safe (k a)) -> safe (bind m k).
Proof.
  intros Hm HQ Hk w. specialize (Hm w). unfold bind.
  destruct (m w) as [[a|c| |] w'] eqn:E; simpl in *; try done.
  apply Hk. by eapply HQ.
Qed.

Lemma safe_bind {W A B} (m : M W A) (k : A -> M W B) :
  safe m -> (forall a, safe (k a)) -> safe (bind m k).
Proof. intros Hm Hk. by apply (safe_bind_post (fun _ => True)). Qed.

Lemma safe_if {W A} (b : bool) (m1 m2 : M W A) :
  (b = true -> safe m1) -> (b = false -> safe m2) -> safe (if b then m1 else m2).
Proof. destruct b; auto. Qed.

Lemma safe_zoom {W V A} (getv : W -> V) setv (m : M V A) :
  safe m -> safe (zoom getv setv m).
Proof.
  intros H w. unfold zoom. specialize (H (getv w)).
  by destruct (m (getv w)) as [o v].
Qed.

Lemma returns_zoom {W V A} (getv : W -> V) setv (m : M V A) Q :
  returns m Q -> returns (zoom getv setv m) Q.
Proof.
  intros H w a w'. unfold zoom. destruct (m (getv w)) as [o v] eqn:E.
  intros [= -> _]. by eapply H.
Qed.

#[export] Hint Resolve safe_ret safe_exit safe_blocked safe_gets safe_modify
  safe_zoom returns_zoom : stage0.

Ltac safe_step :=
  lazymatch goal with
  | |- forall _, safe _ => intros ?
  | |- safe (bind _ _) => apply safe_bind
  | |- safe (match ?b with true => _ | false => _ end) => apply safe_if; intros
  | |- safe (match ?x with _ => _ end) => destruct x
  end.
Ltac safe := repeat (first [progress eauto with stage0 | safe_step]).

(** ** Lists *)

Section Lists.
Context {A : Type}.
Implicit Types l : list A.

(** [a[i]] with a C index: no element for a negative or too large index. *)
Definition zlookup (l : list A) (i : Z) : option A :=
  if i <? 0 then None else l !! Z.to_nat i.

(** [a[i] = x]: [None] when the index is outside the object. *)
Definition zupdate (l : list A) (i : Z) (x : A) : option (list A) :=
  if (0 <=? i) && (i <? Z.of_nat (length l)) then Some (<[Z.to_nat i := x]> l) else None.

Lemma zlookup_nonneg l i : 0 <= i -> zlookup l i = l !! Z.to_nat i.
Proof. intros H. unfold zlookup. destruct (Z.ltb_spec i 0); [lia|done]. Qed.

Lemma zlookup_is_Some l i :
  0 <= i < Z.of_nat (length l) -> exists x, zlookup l i = Some x.
Proof.
  intros H. rewrite zlookup_nonneg by lia. apply lookup_lt_is_Some. lia.
Qed.

Lemma zlookup_Some_range l i x :
  zlookup l i = Some x -> 0 <= i < Z.of_nat (length l).
Proof.
  unfold zlookup. destruct (Z.ltb_spec i 0); [done|].
  intros E%lookup_lt_Some. lia.
Qed.

Lemma zupdate_range l i x :
  0 <= i < Z.of_nat (length l) -> zupdate l i x = Some (<[Z.to_nat i := x]> l).
Proof.
  intros H. unfold zupdate.
  destruct (Z.leb_spec 0 i), (Z.ltb_spec i (Z.of_nat (length l))); try lia; done.
Qed.

Lemma zupdate_Some l i x l' :
  zupdate l i x = Some l' ->
  0 <= i < Z.of_nat (length l) /\ l' = <[Z.to_nat i := x]> l.
Proof.
  unfold zupdate.
  destruct (Z.leb_spec 0 i), (Z.ltb_spec i (Z.of_nat (length l))); try done.
  intros [= <-]. split; [lia|done].
Qed.

Lemma zlookup_insert_eq l i x :
  0 <= i < Z.of_nat (length l) -> zlookup (<[Z.to_nat i := x]> l) i = Some x.
Proof.
  intros H. rewrite zlookup_nonneg by lia. apply list_lookup_insert_eq. lia.
Qed.

Lemma zlookup_insert_ne l i j x :
  0 <= i -> i <> j -> zlookup (<[Z.to_nat i := x]> l) j = zlookup l j.
Proof.
  intros Hi Hne. unfold zlookup. destruct (Z.ltb_spec j 0); [done|].
  apply list_lookup_insert_ne. lia.
Qed.

End Lists.

Lemma take_insert_seq {A} (l : list A) (n : nat) (x : A) :
  (n < length l)%nat -> take (S n) (<[n := x]> l) = take n l ++ [x].
Proof.
  intros H. rewrite (take_S_r _ _ x); [|by apply list_lookup_insert_eq].
  by rewrite take_insert_ge by lia.
Qed.

(** ** Loops over an index range, with failing bodies *)

Fixpoint foldM {S I} (f : S -> I -> option S) (s : S) (l : list I) : option S :=
  match l with
  | [] => Some s
  | i :: l' => match f s i with Some s' => foldM f s' l' | None => None end
  end.

Lemma foldM_app {S I} (f : S -> I -> option S) s l1 l2 :
  foldM f s (l1 ++ l2) = match foldM f s l1 with Some s' => foldM f s' l2 | None => None end.
Proof. revert s. induction l1 as [|i l1 IH]; intros s; simpl; [done|]. by destruct (f s i). Qed.

Lemma foldM_ext {S I} (f g : S -> I -> option S) s l :
  (forall s i, i ∈ l -> f s i = g s i) -> foldM f s l = foldM g s l.
Proof.
  revert s. induction l as [|i l IH]; intros s H; simpl; [done|].
  rewrite H by by left. destruct (g s i); [|done]. apply IH. intros s' j Hj. apply H. by right.
Qed.

Lemma foldM_fmap {S I J} (f : S -> J -> option S) (g : I -> J) s l :
  foldM f s (g <$> l) = foldM (fun s i => f s (g i)) s l.
Proof. revert s. induction l as [|i l IH]; intros s; simpl; [done|]. by destruct (f s (g i)). Qed.

(** [for r < R, for c < C] visits the indices [r * C + c] in order. *)
Lemma foldM_nested {S} (F : S -> Z -> option S) s C (R : nat) :
  0 <= C ->
  foldM (fun s r => foldM (fun s c => F s (r * C + c)) s (seqZ 0 C)) s (seqZ 0 (Z.of_nat R)) =
  foldM F s (seqZ 0 (Z.of_nat R * C)).
Proof.
  intros HC. induction R as [|R IH]; [done|].
  rewrite seqZ_S, foldM_app, IH, Z.add_0_l.
  replace (Z.of_nat (Datatypes.S R) * C) with (Z.of_nat R * C + C) by lia.
  rewrite seqZ_app, foldM_app by lia.
  destruct (foldM F s (seqZ 0 (Z.of_nat R * C))) as [s'|]; [|done]. simpl.
  rewrite <- (foldM_fmap F (fun c => Z.of_nat R * C + c)).
  rewrite fmap_add_seqZ, Z.add_0_r, Z.add_0_l.
  by destruct (foldM F s' _).
Qed.

(** A loop [for i < k: l[i] = g (i)]. *)
Lemma foldM_fill {A} (g : Z -> A) (l : list A) (k : nat) :
  (k <= length l)%nat ->
  foldM (fun l i => zupdate l i (g i)) l (seqZ 0 (Z.of_nat k)) =
    Some ((g <$> seqZ 0 (Z.of_nat k)) ++ drop k l).
Proof.
  induction k as [|k IH]; intros Hk; [by rewrite drop_0|].
  rewrite seqZ_S, foldM_app, IH by lia. cbn [foldM]. rewrite Z.add_0_l.
  rewrite zupdate_range by (rewrite length_app, length_fmap, length_seqZ, length_drop; lia).
  f_equal. rewrite Nat2Z.id, fmap_app, insert_app_r_alt by
    (rewrite length_fmap, length_seqZ; lia).
  rewrite length_fmap, length_seqZ, Nat2Z.id, Nat.sub_diag, <- app_assoc. f_equal.
  destruct (drop k l) as [|x d] eqn:E.
  - apply (f_equal length) in E. rewrite length_drop in E. simpl in E. lia.
  - simpl. replace (Datatypes.S k) with (k + 1)%nat by lia.
    by rewrite <- drop_drop, E.
Qed.

Definition sumZ (l : list Z) : Z := foldr Z.add 0 l.

Lemma sumZ_app l1 l2 : sumZ (l1 ++ l2) = sumZ l1 + sumZ l2.
Proof. induction l1 as [|x l1 IH]; simpl; [done|]. unfold sumZ in *. lia. Qed.

(** A sum over a list. *)

Definition total {A} (f : A -> Z) (l : list A) : Z := sumZ (map f l).

#[global] Arguments total : simpl never.

Lemma total_cons {A} (f : A -> Z) x l : total f (x :: l) = f x + total f l.
Proof. done. Qed.

Lemma total_snoc {A} (f : A -> Z) l x : total f (l ++ [x]) = total f l + f x.
Proof. unfold total. rewrite map_app, sumZ_app. cbn. lia. Qed.

Lemma total_insert {A} (f : A -> Z) l i x y : l !! i = Some x -> total f (<[i := y]> l) = total f l - f x + f y.
Proof.
  intros Hi. rewrite <- (take_drop_middle l i x Hi) at 2. rewrite insert_take_drop by by eapply lookup_lt_Some.
  unfold total. rewrite !map_app, !sumZ_app. cbn. lia.
Qed.

Lemma total_le {A} (f g : A -> Z) l : Forall (fun x => f x <= g x) l -> total f l <= total g l.
Proof. induction 1 as [|x l Hx _ IH]; [done|]. rewrite !total_cons. lia. Qed.

Lemma total_eq {A} (f g : A -> Z) l : Forall (fun x => f x <= g x) l -> total g l <= total f l -> Forall (fun x => f x = g x) l.
Proof.
  induction 1 as [|x l Hx Hl IH]; intros Hs; [constructor|]. rewrite !total_cons in Hs. pose proof (total_le f g l Hl).
  constructor; [lia|]. apply IH. lia.
Qed.

Lemma total_lookup {A} (f : A -> Z) l i x : Forall (fun x => 0 <= f x) l -> l !! i = Some x -> f x <= total f l.
Proof.
  intros Hl. revert i. induction Hl as [|y l Hy Hl IH]; intros [|i] Hi; try done; rewrite total_cons.
  - injection Hi as ->. assert (0 <= total f l) by (clear - Hl; induction Hl; [done|]; rewrite total_cons; lia). lia.
  - specialize (IH i Hi). lia.
Qed.

Lemma total_nonneg {A} (f : A -> Z) l : Forall (fun x => 0 <= f x) l -> 0 <= total f l.
Proof. induction 1; [done|]. rewrite total_cons. lia. Qed.

(** The same loop that also adds up what it stores. *)
Lemma foldM_fill_sum (g : Z -> Z) (l : list Z) n (k : nat) :
  (k <= length l)%nat ->
  foldM (fun '(l, n) i =>
    match zupdate l i (g i) with Some l' => Some (l', n + g i) | None => None end)
    (l, n) (seqZ 0 (Z.of_nat k)) =
    Some ((g <$> seqZ 0 (Z.of_nat k)) ++ drop k l, n + sumZ (g <$> seqZ 0 (Z.of_nat k))).
Proof.
  induction k as [|k IH]; intros Hk; [simpl; by rewrite drop_0, Z.add_0_r|].
  pose proof (foldM_fill g l (Datatypes.S k) Hk) as Hf.
  rewrite seqZ_S in Hf |- *. rewrite foldM_app in Hf. rewrite foldM_app.
  rewrite (foldM_fill g l k) in Hf by lia. rewrite IH by lia.
  cbn [foldM] in Hf |- *. destruct (zupdate _ _ _) as [l'|]; [|done].
  injection Hf as ->. do 2 f_equal. rewrite fmap_app, sumZ_app. simpl. lia.
Qed.

(** ** Boolean tests of the source as propositions *)

Lemma ltb_case (a b : Z) : (a <? b) = true /\ a < b \/ (a <? b) = false /\ b <= a.
Proof. destruct (Z.ltb_spec a b); auto. Qed.

Ltac zbool :=
  repeat match goal with
  | H : (_ && _) = true |- _ => apply andb_true_iff in H; destruct H
  | H : (_ || _) = false |- _ => apply orb_false_iff in H; destruct H
  | H : (_ <? _) = true |- _ => apply Z.ltb_lt in H
  | H : (_ <? _) = false |- _ => apply Z.ltb_ge in H
  | H : (_ <=? _) = true |- _ => apply Z.leb_le in H
  | H : (_ <=? _) = false |- _ => apply Z.leb_gt in H
  | H : (_ =? _) = true |- _ => apply Z.eqb_eq in H
  | H : (_ =? _) = false |- _ => apply Z.eqb_neq in H
  | H : negb _ = true |- _ => apply negb_true_iff in H
  | H : negb _ = false |- _ => apply negb_false_iff in H
  end.

(** Case analysis on the comparisons of the goal, arithmetic closes what it can. *)
Ltac zcases :=
  repeat match goal with
  | |- context [?a <? ?b] => destruct (Z.ltb_spec a b)
  | |- context [?a <=? ?b] => destruct (Z.leb_spec a b)
  | |- context [?a =? ?b] => destruct (Z.eqb_spec a b)
  end; cbn [andb orb negb].

#[export] Hint Resolve zlookup_is_Some zlookup_insert_eq zlookup_insert_ne : stage0.
#[export] Hint Rewrite @zlookup_insert_eq @zlookup_insert_ne using lia : stage0.
