(* ===== verification/CLib.v ===== *)
(** * The C integers and the libc text functions the programs use

    Machine-width integers as [Z] with their wrap-around, [char] signedness,
    byte-string literals, and the parts of [printf] ([%d], [%s]) and [sscanf]
    ([%d]) the sources call.  A byte is a [Z] in [0, 256). *)

From stdpp Require Import prelude list_numbers strings.
From Stdlib Require Import ZArith Lia.
From S2P Require Import Prelude.
Open Scope Z_scope.

(** ** Machine integers *)

(** Conversion to an unsigned type of [w] bits. *)
Definition wrapu (w z : Z) : Z := z mod 2 ^ w.

(** Conversion to a two's-complement type of [w] bits. *)
Definition wraps (w z : Z) : Z := (z + 2 ^ (w - 1)) mod 2 ^ w - 2 ^ (w - 1).

(** A byte read through a (signed) [char]. *)
Definition schar (b : Z) : Z := wraps 8 b.

Definition INT_MAX : Z := 2147483647.
Definition INT_MIN : Z := -2147483648.

Definition is_byte (b : Z) : Prop := 0 <= b < 256.
Definition is_int (z : Z) : Prop := INT_MIN <= z <= INT_MAX.

#[export] Instance is_byte_dec b : Decision (is_byte b).
Proof. unfold is_byte. apply _. Defined.
#[export] Instance is_int_dec z : Decision (is_int z).
Proof. unfold is_int. apply _. Defined.

(** [+] and [*] on [int]: [None] when they overflow. *)
Definition iadd (a b : Z) : option Z := if decide (is_int (a + b)) then Some (a + b) else None.
Definition imul (a b : Z) : option Z := if decide (is_int (a * b)) then Some (a * b) else None.

Lemma iadd_int a b : is_int (a + b) -> iadd a b = Some (a + b).
Proof. intros H. unfold iadd. by rewrite decide_True. Qed.

Lemma iadd_overflow a b : ~ is_int (a + b) -> iadd a b = None.
Proof. intros H. unfold iadd. by rewrite decide_False. Qed.

Lemma imul_int a b : is_int (a * b) -> imul a b = Some (a * b).
Proof. intros H. unfold imul. by rewrite decide_True. Qed.

(** ** Byte strings *)

(** The bytes of a C string literal, without the terminator. *)
Fixpoint lit (s : string) : list Z :=
  match s with
  | EmptyString => []
  | String a s' => Z.of_N (Ascii.N_of_ascii a) :: lit s'
  end.

(** The bytes of ["\x1b" s]. *)
Definition esc (s : string) : list Z := 27 :: lit s.

(** The value of a hexadecimal digit. *)
Definition hex_val (b : Z) : Z :=
  if b <? 58 then b - 48 else if b <? 91 then b - 55 else b - 87.

(** The bytes of a literal written with three-digit octal and two-digit
    hexadecimal escapes, the only ones in the tables of the sources. *)
Fixpoint unescape (l : list Z) : list Z :=
  match l with
  | [] => []
  | b :: r =>
      if b =? 92 then
        match r with
        | d1 :: d2 :: d3 :: r' =>
            if d1 =? 120 then 16 * hex_val d2 + hex_val d3 :: unescape r'
            else 64 * (d1 - 48) + 8 * (d2 - 48) + (d3 - 48) :: unescape r'
        | _ => l
        end
      else b :: unescape r
  end.

Definition cs (s : string) : list Z := unescape (lit s).

(** [strlen]: the bytes before the first NUL (all of them when there is none). *)
Fixpoint cstr (l : list Z) : list Z :=
  match l with
  | [] => []
  | b :: l' => if b =? 0 then [] else b :: cstr l'
  end.

Definition bytes_eqb (a b : list Z) : bool := bool_decide (a = b).

(** [isspace] and [isdigit] in the C locale. *)
Definition isspace (b : Z) : bool := (b =? 32) || ((9 <=? b) && (b <=? 13)).
Definition isdigit (b : Z) : bool := (48 <=? b) && (b <=? 57).

(** ** Decimal output *)

Fixpoint udec_fuel (fuel : nat) (n : Z) (acc : list Z) : list Z :=
  match fuel with
  | O => acc
  | S f =>
      let acc' := (48 + n mod 10) :: acc in
      if n <? 10 then acc' else udec_fuel f (n / 10) acc'
  end.

(** The decimal digits of a natural number ([printf "%u"]). *)
Definition udec (n : Z) : list Z := udec_fuel (S (Z.to_nat (Z.log2 n))) n [].

(** [printf "%d"]. *)
Definition print_d (z : Z) : list Z := if z <? 0 then 45 :: udec (- z) else udec z.

(** ** Decimal input *)

Definition digit_val (b : Z) : Z := b - 48.

(** The value of a string of digits. *)
Definition undec (l : list Z) : Z := fold_left (fun a b => 10 * a + digit_val b) l 0.

Fixpoint span (f : Z -> bool) (l : list Z) : list Z * list Z :=
  match l with
  | [] => ([], [])
  | b :: l' => if f b then let '(p, r) := span f l' in (b :: p, r) else ([], l)
  end.

(** The value [sscanf] stores for [%d]: [strtol] saturates, the store keeps
    the low 32 bits. *)
Definition clamp64 (z : Z) : Z := Z.max (- 2 ^ 63) (Z.min (2 ^ 63 - 1) z).
Definition scan_store (z : Z) : Z := wraps 32 (clamp64 z).

(** [%d] of [sscanf]: white space is skipped, a sign is optional, at least one
    digit is required. *)
Definition scan_d (l : list Z) : option (Z * list Z) :=
  let l1 := snd (span isspace l) in
  let '(sgn, l2) :=
    match l1 with
    | 45 :: t => (-1, t)
    | 43 :: t => (1, t)
    | _ => (1, l1)
    end in
  let '(ds, rest) := span isdigit l2 in
  match ds with
  | [] => None
  | _ => Some (scan_store (sgn * undec ds), rest)
  end.

(** A literal byte of a [sscanf] format. *)
Definition scan_lit (c : Z) (l : list Z) : option (list Z) :=
  match l with
  | b :: t => if b =? c then Some t else None
  | [] => None
  end.

(** [sscanf (l, "%d;%d", &a, &b)]: the count and the values stored. *)
Definition sscanf_d_d (l : list Z) : Z * option Z * option Z :=
  match scan_d l with
  | None => (match l with [] => -1 | _ => 0 end, None, None)
  | Some (a, l1) =>
      match scan_lit 59 l1 with
      | None => (1, Some a, None)
      | Some l2 =>
          match scan_d l2 with
          | None => (1, Some a, None)
          | Some (b, _) => (2, Some a, Some b)
          end
      end
  end.

(** ** Lemmas *)

Lemma wrapu_range w z : 0 <= w -> 0 <= wrapu w z < 2 ^ w.
Proof. intros H. apply Z.mod_pos_bound. by apply Z.pow_pos_nonneg. Qed.

Lemma wrapu_id w z : 0 <= z < 2 ^ w -> wrapu w z = z.
Proof. apply Z.mod_small. Qed.

Lemma wraps_range w z : 0 < w -> - 2 ^ (w - 1) <= wraps w z < 2 ^ (w - 1).
Proof.
  intros H. unfold wraps.
  assert (2 ^ w = 2 * 2 ^ (w - 1)) as E.
  { rewrite <- Z.pow_succ_r by lia. f_equal. lia. }
  pose proof (Z.mod_pos_bound (z + 2 ^ (w - 1)) (2 ^ w)).
  pose proof (Z.pow_pos_nonneg 2 w). lia.
Qed.

Lemma wraps_id w z : 0 < w -> - 2 ^ (w - 1) <= z < 2 ^ (w - 1) -> wraps w z = z.
Proof.
  intros H Hz. unfold wraps.
  assert (2 ^ w = 2 * 2 ^ (w - 1)) as E.
  { rewrite <- Z.pow_succ_r by lia. f_equal. lia. }
  rewrite Z.mod_small by lia. lia.
Qed.

Lemma wraps32_id z : is_int z -> wraps 32 z = z.
Proof. unfold is_int, INT_MIN, INT_MAX. intros H. apply wraps_id; simpl; lia. Qed.

Lemma schar_small b : 0 <= b < 128 -> schar b = b.
Proof. intros H. apply wraps_id; simpl; lia. Qed.

Lemma schar_large b : 128 <= b < 256 -> schar b = b - 256.
Proof.
  intros H. unfold schar, wraps. change (2 ^ (8 - 1)) with 128. change (2 ^ 8) with 256.
  rewrite (Z.mod_eq _ 256) by lia.
  replace ((b + 128) / 256) with 1; [lia|].
  apply (Z.div_unique _ _ _ (b - 128)); lia.
Qed.

Lemma isdigit_spec b : isdigit b = true <-> 48 <= b <= 57.
Proof. unfold isdigit. rewrite andb_true_iff, !Z.leb_le. lia. Qed.

Lemma undec_snoc l b : undec (l ++ [b]) = 10 * undec l + digit_val b.
Proof. unfold undec. by rewrite fold_left_app. Qed.

Lemma undec_app l1 l2 :
  undec (l1 ++ l2) = undec l1 * 10 ^ Z.of_nat (length l2) + undec l2.
Proof.
  induction l2 as [|b l2 IH] using rev_ind.
  - rewrite app_nil_r. simpl. unfold undec at 3. simpl. lia.
  - rewrite app_assoc, !undec_snoc, IH, length_app. simpl.
    replace (Z.of_nat (length l2 + 1)) with (Z.succ (Z.of_nat (length l2))) by lia.
    rewrite Z.pow_succ_r by lia. lia.
Qed.

Lemma udec_fuel_app f n acc : udec_fuel f n acc = udec_fuel f n [] ++ acc.
Proof.
  revert n acc. induction f as [|f IH]; intros n acc; [done|]. simpl.
  destruct (n <? 10); [done|].
  rewrite (IH (n / 10) (_ :: acc)), (IH (n / 10) [_]). by rewrite <- app_assoc.
Qed.

Lemma udec_fuel_correct f n :
  0 <= n < 2 ^ Z.of_nat f -> (0 < f)%nat -> undec (udec_fuel f n []) = n.
Proof.
  revert n. induction f as [|f IH]; intros n Hn Hf; [lia|].
  simpl. rewrite udec_fuel_app.
  assert (2 ^ Z.of_nat (S f) = 2 * 2 ^ Z.of_nat f) as E.
  { rewrite Nat2Z.inj_succ, Z.pow_succ_r; lia. }
  destruct (Z.ltb_spec n 10).
  - unfold undec. simpl. unfold digit_val. rewrite Z.mod_small; lia.
  - rewrite undec_snoc. unfold digit_val.
    pose proof (Z.div_mod n 10) as Hdm.
    assert (n / 10 < 2 ^ Z.of_nat f).
    { apply Z.div_lt_upper_bound; [lia|].
      pose proof (Z.pow_pos_nonneg 2 (Z.of_nat f)). lia. }
    destruct f as [|f]; [simpl in *; lia|].
    rewrite IH; [lia| |lia]. split; [|done]. apply Z.div_pos; lia.
Qed.

Lemma udec_fuel_enough n :
  0 <= n -> n < 2 ^ Z.of_nat (S (Z.to_nat (Z.log2 n))).
Proof.
  intros Hn. rewrite Nat2Z.inj_succ, Z2Nat.id by apply Z.log2_nonneg.
  destruct (decide (n = 0)) as [->|]; [simpl; lia|]. apply Z.log2_spec. lia.
Qed.

(** Printing then reading a natural number gives it back. *)
Lemma undec_udec n : 0 <= n -> undec (udec n) = n.
Proof.
  intros Hn. apply udec_fuel_correct; [|lia]. split; [done|]. by apply udec_fuel_enough.
Qed.

Lemma udec_fuel_digits f n acc :
  0 <= n -> Forall (fun b => isdigit b = true) acc ->
  Forall (fun b => isdigit b = true) (udec_fuel f n acc).
Proof.
  revert n acc. induction f as [|f IH]; intros n acc Hn Ha; [done|]. simpl.
  assert (isdigit (48 + n mod 10) = true).
  { apply isdigit_spec. pose proof (Z.mod_pos_bound n 10). lia. }
  destruct (n <? 10); [by constructor|].
  apply IH; [apply Z.div_pos; lia|by constructor].
Qed.

Lemma udec_digits n : 0 <= n -> Forall (fun b => isdigit b = true) (udec n).
Proof. intros Hn. by apply udec_fuel_digits. Qed.

Lemma udec_nonnil n : udec n <> [].
Proof.
  unfold udec. simpl. destruct (n <? 10); [done|].
  rewrite udec_fuel_app. by destruct (udec_fuel _ _ _).
Qed.

Lemma udec_fuel_length f n acc k :
  0 <= n < 10 ^ Z.of_nat (S k) -> (length (udec_fuel f n acc) <= length acc + S k)%nat.
Proof.
  revert n acc k. induction f as [|f IH]; intros n acc k Hn; cbn [udec_fuel]; [lia|].
  destruct (Z.ltb_spec n 10); [simpl; lia|].
  destruct k as [|k]; [simpl in Hn; lia|].
  etransitivity; [apply (IH _ _ k)|simpl; lia]. split; [apply Z.div_pos; lia|].
  apply Z.div_lt_upper_bound; [lia|]. rewrite <- Z.pow_succ_r by lia.
  replace (Z.succ (Z.of_nat (S k))) with (Z.of_nat (S (S k))) by lia. apply Hn.
Qed.

(** A number below [10^(k+1)] has at most [k+1] digits. *)
Lemma udec_length n k : 0 <= n < 10 ^ Z.of_nat (S k) -> (length (udec n) <= S k)%nat.
Proof. intros H. by apply (udec_fuel_length _ _ []). Qed.

Lemma span_all f l r :
  Forall (fun b => f b = true) l ->
  (match r with [] => True | b :: _ => f b = false end) ->
  span f (l ++ r) = (l, r).
Proof.
  intros Hl Hr. induction Hl as [|b l Hb Hl IH]; simpl.
  - destruct r as [|b r]; [done|]. simpl. by rewrite Hr.
  - by rewrite Hb, IH.
Qed.

Lemma span_nil f b l : f b = false -> span f (b :: l) = ([], b :: l).
Proof. intros H. simpl. by rewrite H. Qed.

Lemma udec_head n : 0 <= n -> exists b l, udec n = b :: l /\ 48 <= b <= 57.
Proof.
  intros Hn. destruct (udec n) as [|b l] eqn:E; [by apply udec_nonnil in E|].
  exists b, l. split; [done|].
  pose proof (udec_digits n Hn) as H. rewrite E in H.
  apply Forall_cons in H as [H _]. by apply isdigit_spec.
Qed.

Lemma udec_fuel_lead f n :
  0 < n < 2 ^ Z.of_nat f -> exists b l, udec_fuel f n [] = b :: l /\ 49 <= b <= 57.
Proof.
  revert n. induction f as [|f IH]; intros n Hn; [simpl in Hn; lia|]. cbn [udec_fuel].
  rewrite Nat2Z.inj_succ, Z.pow_succ_r in Hn by lia. destruct (Z.ltb_spec n 10).
  - eexists _, []. split; [done|]. rewrite Z.mod_small; lia.
  - rewrite udec_fuel_app. destruct (IH (n / 10)) as (b & l & -> & Hb); [|by exists b, (l ++ [48 + n mod 10])].
    split; [apply Z.div_str_pos; lia|]. apply Z.div_lt_upper_bound; lia.
Qed.

(** A positive number does not begin with a zero. *)
Lemma udec_lead n : 0 < n -> exists b l, udec n = b :: l /\ 49 <= b <= 57.
Proof. intros Hn. apply udec_fuel_lead. split; [done|]. apply udec_fuel_enough. lia. Qed.

Lemma udec_not_R n b : 0 <= n -> b ∈ udec n -> 48 <= b <= 57.
Proof.
  intros Hn Hb. pose proof (udec_digits n Hn) as H. rewrite Forall_forall in H.
  by apply isdigit_spec, H.
Qed.

Lemma cstr_app_stop l r : Forall (fun b => b <> 0) l -> cstr (l ++ 0 :: r) = l.
Proof.
  induction 1 as [|b l Hb Hl IH]; [done|]. simpl. rewrite (proj2 (Z.eqb_neq b 0)) by done. by rewrite IH.
Qed.

Lemma cstr_app_nul l : (forall b, b ∈ l -> b <> 0) -> cstr (l ++ [0]) = l.
Proof.
  induction l as [|b l IH]; intros H; [done|]. simpl.
  rewrite (proj2 (Z.eqb_neq b 0)) by (apply H; by left).
  f_equal. apply IH. intros x Hx. apply H. by right.
Qed.

Lemma isspace_digit b : 48 <= b <= 57 -> isspace b = false.
Proof. intros H. unfold isspace. zcases; simpl; lia. Qed.

(** [%d] reads back a number printed with [%d] that is followed by a byte that
    is not a digit. *)
Lemma scan_d_udec n r :
  0 <= n <= INT_MAX ->
  (match r with [] => True | b :: _ => isdigit b = false end) ->
  scan_d (udec n ++ r) = Some (n, r).
Proof.
  intros Hn Hr. unfold scan_d.
  destruct (udec_head n) as (b & l & E & Hb); [lia|].
  pose proof (udec_digits n) as Hd. rewrite E in Hd |- *.
  rewrite <- app_comm_cons, span_nil by by apply isspace_digit. simpl snd.
  assert (b <> 45 /\ b <> 43) as [Hb1 Hb2] by lia.
  assert (match b :: l ++ r with
    | 45 :: t => (-1, t) | 43 :: t => (1, t) | _ => (1, b :: l ++ r) end
    = (1, b :: l ++ r)) as ->.
  { destruct b as [|p|p]; try done.
    do 6 (destruct p as [p|p|]; try done). }
  rewrite app_comm_cons, span_all; [|apply Hd; lia|done].
  unfold scan_store. rewrite <- E, undec_udec by lia.
  unfold INT_MAX in Hn. unfold clamp64.
  rewrite Z.mul_1_l, Z.min_r, Z.max_r, wraps32_id; [done| | |];
    unfold is_int, INT_MIN, INT_MAX; lia.
Qed.

Lemma sscanf_d_d_print a b r :
  0 <= a <= INT_MAX -> 0 <= b <= INT_MAX ->
  (match r with [] => True | c :: _ => isdigit c = false end) ->
  sscanf_d_d (udec a ++ 59 :: udec b ++ r) = (2, Some a, Some b).
Proof.
  intros Ha Hb Hr. unfold sscanf_d_d. rewrite scan_d_udec; [|lia|done].
  simpl. by rewrite scan_d_udec.
Qed.

Lemma lit_bytes s : Forall is_byte (lit s).
Proof.
  induction s as [|a s IH]; simpl; constructor; [|done].
  unfold is_byte. pose proof (Ascii.N_ascii_bounded a). lia.
Qed.

Lemma udec_bytes n : 0 <= n -> Forall is_byte (udec n).
Proof.
  intros Hn. eapply Forall_impl; [by apply udec_digits|].
  intros b Hb%isdigit_spec. unfold is_byte. lia.
Qed.

#[export] Hint Resolve lit_bytes udec_bytes udec_digits udec_nonnil : stage0.
