(* ===== verification/Posix.v ===== *)
(** * The system calls, as the programs see them

    The kernel and the terminal are not part of the repository: what they
    answer is an arbitrary script held in [sys], so a theorem about all [sys]
    is a theorem about every behaviour of the environment.  An exhausted
    script means success for allocations and writes, an error for the window
    size, and a wait for more input for [read] and [select]. *)

From stdpp Require Import prelude list_numbers.
From Stdlib Require Import ZArith Lia.
From S2P Require Import Prelude CLib.
Open Scope Z_scope.

Record termios := mk_termios {
  c_iflag : Z;
  c_oflag : Z;
  c_cflag : Z;
  c_lflag : Z;
  c_cc : list Z
}.

(** The outcome of one [read]: an error, or a chunk of bytes (an empty chunk
    is end of file, or a time-out of a terminal with [VTIME]). *)
Inductive read_ev :=
| RErr (e : Z)
| RData (bs : list Z).

Inductive write_ev :=
| WErr (e : Z)
| WPart (n : Z).

Inductive select_ev :=
| SelErr (e : Z)
| SelTimeout
| SelReady (tty resize : bool).

Record sys := mk_sys {
  s_errno : Z;
  s_alloc : list bool;
  s_read : list read_ev;
  s_write : list write_ev;
  s_select : list select_ev;
  s_winsz : list (Z + Z * Z);
  s_tc : list (option Z);
  s_tios : termios;
  s_out : list Z
}.

Definition set_errno e s := mk_sys e (s_alloc s) (s_read s) (s_write s) (s_select s)
  (s_winsz s) (s_tc s) (s_tios s) (s_out s).
Definition set_alloc a s := mk_sys (s_errno s) a (s_read s) (s_write s) (s_select s)
  (s_winsz s) (s_tc s) (s_tios s) (s_out s).
Definition set_read r s := mk_sys (s_errno s) (s_alloc s) r (s_write s) (s_select s)
  (s_winsz s) (s_tc s) (s_tios s) (s_out s).
Definition set_write w s := mk_sys (s_errno s) (s_alloc s) (s_read s) w (s_select s)
  (s_winsz s) (s_tc s) (s_tios s) (s_out s).
Definition set_select x s := mk_sys (s_errno s) (s_alloc s) (s_read s) (s_write s) x
  (s_winsz s) (s_tc s) (s_tios s) (s_out s).
Definition set_winsz x s := mk_sys (s_errno s) (s_alloc s) (s_read s) (s_write s)
  (s_select s) x (s_tc s) (s_tios s) (s_out s).
Definition set_tc x s := mk_sys (s_errno s) (s_alloc s) (s_read s) (s_write s)
  (s_select s) (s_winsz s) x (s_tios s) (s_out s).
Definition set_tios t s := mk_sys (s_errno s) (s_alloc s) (s_read s) (s_write s)
  (s_select s) (s_winsz s) (s_tc s) t (s_out s).
Definition set_out o s := mk_sys (s_errno s) (s_alloc s) (s_read s) (s_write s)
  (s_select s) (s_winsz s) (s_tc s) (s_tios s) o.

(** ** The calls *)

(** [malloc]/[realloc]: whether the next allocation succeeds. *)
Definition sys_alloc : M sys bool := fun s =>
  match s_alloc s with
  | [] => (Ret true, s)
  | b :: t => (Ret b, set_alloc t s)
  end.

(** [write (fd, bs, length bs)] to the terminal. *)
Definition sys_write (bs : list Z) : M sys Z := fun s =>
  match s_write s with
  | [] => (Ret (Z.of_nat (length bs)), set_out (s_out s ++ bs) s)
  | WErr e :: t => (Ret (-1), set_errno e (set_write t s))
  | WPart n :: t =>
      let k := Z.max 0 (Z.min n (Z.of_nat (length bs))) in
      (Ret k, set_out (s_out s ++ take (Z.to_nat k) bs) (set_write t s))
  end.

(** [read (fd, buf, n)]: the count and the bytes stored. *)
Definition sys_read (n : Z) : M sys (Z * list Z) := fun s =>
  match s_read s with
  | [] => (Blocked, s)
  | RErr e :: t => (Ret (-1, []), set_errno e (set_read t s))
  | RData bs :: t =>
      let got := take (Z.to_nat n) bs in
      let left := drop (Z.to_nat n) bs in
      (Ret (Z.of_nat (length got), got),
       set_read (match left with [] => t | _ => RData left :: t end) s)
  end.

Definition sys_select : M sys (Z * bool * bool) := fun s =>
  match s_select s with
  | [] => (Blocked, s)
  | SelErr e :: t => (Ret (-1, false, false), set_errno e (set_select t s))
  | SelTimeout :: t => (Ret (0, false, false), set_select t s)
  | SelReady a b :: t =>
      (Ret ((if a then 1 else 0) + (if b then 1 else 0), a, b), set_select t s)
  end.

(** [ioctl (fd, TIOCGWINSZ, &ws)]: the result, and (rows, columns). *)
Definition ENOTTY : Z := 25.
Definition sys_winsize : M sys (Z * (Z * Z)) := fun s =>
  match s_winsz s with
  | [] => (Ret (-1, (0, 0)), set_errno ENOTTY s)
  | inl e :: t => (Ret (-1, (0, 0)), set_errno e (set_winsz t s))
  | inr rc :: t => (Ret (0, rc), set_winsz t s)
  end.

Definition sys_tcgetattr : M sys (Z * termios) := fun s =>
  match s_tc s with
  | Some e :: t => (Ret (-1, s_tios s), set_errno e (set_tc t s))
  | None :: t => (Ret (0, s_tios s), set_tc t s)
  | [] => (Ret (0, s_tios s), s)
  end.

Definition sys_tcsetattr (t : termios) : M sys Z := fun s =>
  match s_tc s with
  | Some e :: r => (Ret (-1), set_errno e (set_tc r s))
  | None :: r => (Ret 0, set_tios t (set_tc r s))
  | [] => (Ret 0, set_tios t s)
  end.

Definition sys_errno : M sys Z := gets s_errno.

(** ** Lemmas *)

(** Calls never fault, and only [read] and [select] can wait. *)
Lemma sys_alloc_ret s : exists b s', sys_alloc s = (Ret b, s').
Proof. unfold sys_alloc. destruct (s_alloc s); eauto. Qed.

Lemma sys_alloc_nil s : s_alloc s = [] -> sys_alloc s = (Ret true, s).
Proof. intros H. unfold sys_alloc. by rewrite H. Qed.

Lemma sys_write_nil bs s :
  s_write s = [] ->
  sys_write bs s = (Ret (Z.of_nat (length bs)), set_out (s_out s ++ bs) s).
Proof. intros H. unfold sys_write. by rewrite H. Qed.

Lemma sys_write_ret bs s : exists n s', sys_write bs s = (Ret n, s').
Proof. unfold sys_write. destruct (s_write s) as [|[]]; eauto. Qed.

Lemma sys_read_1 b bs t s :
  s_read s = RData (b :: bs) :: t ->
  sys_read 1 s = (Ret (1, [b]), set_read (match bs with [] => t | _ => RData bs :: t end) s).
Proof. intros H. unfold sys_read. rewrite H. simpl. by rewrite drop_0. Qed.

(** ** Frames, safety and results *)

Lemma sys_read_safe n : safe (sys_read n).
Proof. intros s. unfold sys_read. by destruct (s_read s) as [|[]]. Qed.

Lemma sys_read_returns n :
  returns (sys_read n) (fun r => fst r = -1 /\ snd r = [] \/
    fst r = Z.of_nat (length (snd r)) /\ Z.of_nat (length (snd r)) <= Z.max 0 n).
Proof.
  intros s a s'. unfold sys_read.
  destruct (s_read s) as [|[e|bs] t]; try done; intros [= <- _]; [by left|right].
  split; [done|]. simpl. rewrite length_take. lia.
Qed.

(** A one-byte read that returns 1 has stored a byte. *)
Lemma sys_read_1_returns :
  returns (sys_read 1) (fun r => fst r = 1 -> is_Some (snd r !! 0%nat)).
Proof.
  intros s r s' H H1. destruct (sys_read_returns 1 s r s' H) as [[E _]|[E _]]; [lia|].
  apply lookup_lt_is_Some. lia.
Qed.

Lemma sys_alloc_safe : safe sys_alloc.
Proof. intros s. unfold sys_alloc. by destruct (s_alloc s). Qed.

Lemma sys_write_safe bs : safe (sys_write bs).
Proof. intros s. unfold sys_write. by destruct (s_write s) as [|[]]. Qed.

Lemma sys_select_safe : safe sys_select.
Proof. intros s. unfold sys_select. by destruct (s_select s) as [|[]]. Qed.

Lemma sys_winsize_safe : safe sys_winsize.
Proof. intros s. unfold sys_winsize. by destruct (s_winsz s) as [|[]]. Qed.

Lemma sys_tcgetattr_safe : safe sys_tcgetattr.
Proof. intros s. unfold sys_tcgetattr. by destruct (s_tc s) as [|[]]. Qed.

Lemma sys_tcsetattr_safe t : safe (sys_tcsetattr t).
Proof. intros s. unfold sys_tcsetattr. by destruct (s_tc s) as [|[]]. Qed.

Lemma sys_errno_safe : safe sys_errno.
Proof. by intros s. Qed.

#[export] Hint Resolve sys_read_safe sys_alloc_safe sys_write_safe sys_select_safe
  sys_winsize_safe sys_tcgetattr_safe sys_tcsetattr_safe sys_errno_safe : stage0.

(** The terminal attributes and the script of the attribute calls are only
    touched by the attribute calls. *)
Definition tty_part (s : sys) : termios * list (option Z) := (s_tios s, s_tc s).

Lemma sys_read_tty n : keeps tty_part (sys_read n).
Proof. intros s. unfold sys_read. by destruct (s_read s) as [|[]]. Qed.
Lemma sys_alloc_tty : keeps tty_part sys_alloc.
Proof. intros s. unfold sys_alloc. by destruct (s_alloc s). Qed.
Lemma sys_write_tty bs : keeps tty_part (sys_write bs).
Proof. intros s. unfold sys_write. by destruct (s_write s) as [|[]]. Qed.
Lemma sys_select_tty : keeps tty_part sys_select.
Proof. intros s. unfold sys_select. by destruct (s_select s) as [|[]]. Qed.
Lemma sys_winsize_tty : keeps tty_part sys_winsize.
Proof. intros s. unfold sys_winsize. by destruct (s_winsz s) as [|[]]. Qed.
Lemma sys_errno_tty : keeps tty_part sys_errno.
Proof. by intros s. Qed.

#[export] Hint Resolve sys_read_tty sys_alloc_tty sys_write_tty sys_select_tty
  sys_winsize_tty sys_errno_tty : stage0.
