(* ===== verification/Kilo.v ===== *)
(** * kilo/kilo.c: the terminal editor

    The editor's state is the global [E] (cursor, window size, saved terminal
    attributes) and the terminal; every function of kilo.c is a computation of
    the state monad of [Prelude] over it.  The buffers are objects of a fixed
    size (or of the size [realloc] gave them): an access outside one, a read of
    a byte that was never stored and an [int] that overflows are faults.
    [perror] writes to standard error, which is not part of the state. *)

From stdpp Require Import prelude list_numbers strings.
From Stdlib Require Import ZArith Lia.
From S2P Require Import Prelude CLib Posix.
Open Scope Z_scope.

(** ** Constants *)

Definition KILO_VERSION : string := "0.0.1".
Definition ESCSEQ : Z := 27.
Definition CLEAR_SCREEN : list Z := esc "[2J".
Definition CLEAR_LINE : list Z := esc "[K".
Definition CURSOR_TOPLEFT : list Z := esc "[H".
Definition CURSOR_BOTTOMRIGHT : list Z := esc "[999C" ++ esc "[999B".
Definition CURSOR_POS : list Z := esc "[6n".
Definition CURSOR_HIDE : list Z := esc "[?25l".
Definition CURSOR_SHOW : list Z := esc "[?25h".
Definition CRLF : list Z := [13; 10].

(** [snprintf (buf, sizeof buf, CURSOR_MOVE, y, x)] *)
Definition CURSOR_MOVE (y x : Z) : list Z :=
  take 31 (esc "[" ++ print_d y ++ lit ";" ++ print_d x ++ lit "H").

Definition CTRL_KEY (k : Z) : Z := Z.land k 31.

(** [enum editorKey] *)
Definition ARROW_LEFT : Z := 1000.
Definition ARROW_RIGHT : Z := 1001.
Definition ARROW_UP : Z := 1002.
Definition ARROW_DOWN : Z := 1003.

(** The termios flags of the system headers. *)
Definition BRKINT : Z := 2.
Definition ICRNL : Z := 256.
Definition INPCK : Z := 16.
Definition ISTRIP : Z := 32.
Definition IXON : Z := 1024.
Definition OPOST : Z := 1.
Definition CS8 : Z := 48.
Definition ECHO : Z := 8.
Definition ICANON : Z := 2.
Definition IEXTEN : Z := 32768.
Definition ISIG : Z := 1.
Definition VTIME : nat := 5.
Definition VMIN : nat := 6.
Definition EAGAIN : Z := 11.

(** ** State *)

(** [struct editorConfig] *)
Record editorConfig := mk_E {
  cx : Z;
  cy : Z;
  screenrows : Z;
  screencols : Z;
  orig_termios : termios
}.

(** The global [E], whether [disableRawMode] is registered with [atexit], and
    the system. *)
Record kilo := mk_kilo {
  E : editorConfig;
  atexit_disableRawMode : bool;
  ksys : sys
}.

Definition set_E e w := mk_kilo e (atexit_disableRawMode w) (ksys w).
Definition set_cx x w := set_E (mk_E x (cy (E w)) (screenrows (E w)) (screencols (E w))
  (orig_termios (E w))) w.
Definition set_cy y w := set_E (mk_E (cx (E w)) y (screenrows (E w)) (screencols (E w))
  (orig_termios (E w))) w.
Definition set_screenrows r w := set_E (mk_E (cx (E w)) (cy (E w)) r (screencols (E w))
  (orig_termios (E w))) w.
Definition set_screencols c w := set_E (mk_E (cx (E w)) (cy (E w)) (screenrows (E w)) c
  (orig_termios (E w))) w.
Definition set_orig_termios t w := set_E (mk_E (cx (E w)) (cy (E w)) (screenrows (E w))
  (screencols (E w)) t) w.
Definition set_atexit b w := mk_kilo (E w) b (ksys w).
Definition set_ksys s w := mk_kilo (E w) (atexit_disableRawMode w) s.

(** A system call of the editor. *)
Definition sysc {A} (m : M sys A) : M kilo A := zoom ksys set_ksys m.

(** ** Terminal *)

Definition WRITE_LIT (x : list Z) : M kilo Z := sysc (sys_write x).

Definition die {A} : M kilo A :=
  WRITE_LIT CLEAR_SCREEN ;;;
  WRITE_LIT CURSOR_TOPLEFT ;;;
  exit_with 1.

Definition disableRawMode : M kilo unit :=
  let* t := gets (fun w => orig_termios (E w)) in
  let* r := sysc (sys_tcsetattr t) in
  if r =? -1 then die else ret tt.

(** The raw attributes computed from the saved ones. *)
Definition raw_of (t : termios) : termios :=
  mk_termios
    (Z.land (c_iflag t) (Z.lnot (Z.lor (Z.lor (Z.lor (Z.lor BRKINT ICRNL) INPCK) ISTRIP) IXON)))
    (Z.land (c_oflag t) (Z.lnot OPOST))
    (Z.lor (c_cflag t) CS8)
    (Z.land (c_lflag t) (Z.lnot (Z.lor (Z.lor (Z.lor ECHO ICANON) IEXTEN) ISIG)))
    (<[VTIME := 1]> (<[VMIN := 0]> (c_cc t))).

Definition enableRawMode : M kilo unit :=
  let* ' (r, t) := sysc sys_tcgetattr in
  if r =? -1 then die else
  modify (set_orig_termios t) ;;;
  modify (set_atexit true) ;;;
  let raw := raw_of t in
  let* r := sysc (sys_tcsetattr raw) in
  if r =? -1 then die else ret tt.

(** [while ((nread = read (STDIN_FILENO, &c, 1)) != 1) ...]: every iteration
    that goes on consumes one answer of the terminal. *)
Fixpoint readKey_loop (fuel : nat) : M kilo Z :=
  match fuel with
  | O => blocked
  | S f =>
      let* ' (nread, bs) := sysc (sys_read 1) in
      if nread =? 1 then deref (bs !! 0%nat) else
      let* e := sysc sys_errno in
      if (nread =? -1) && negb (e =? EAGAIN) then die else readKey_loop f
  end.

(** The escape sequences of the arrow keys. *)
Definition arrow_key (seq0 seq1 : Z) : Z :=
  if seq0 =? 91 then
    if seq1 =? 65 then ARROW_UP
    else if seq1 =? 66 then ARROW_DOWN
    else if seq1 =? 67 then ARROW_RIGHT
    else if seq1 =? 68 then ARROW_LEFT
    else ESCSEQ
  else ESCSEQ.

Definition editorReadKey : M kilo Z :=
  let* n := gets (fun w => length (s_read (ksys w))) in
  let* c := readKey_loop (S n) in
  if schar c =? ESCSEQ then
    let* ' (n0, s0) := sysc (sys_read 1) in
    if negb (n0 =? 1) then ret ESCSEQ else
    let* seq0 := deref (s0 !! 0%nat) in
    let* ' (n1, s1) := sysc (sys_read 1) in
    if negb (n1 =? 1) then ret ESCSEQ else
    let* seq1 := deref (s1 !! 0%nat) in
    ret (arrow_key seq0 seq1)
  else ret (schar c).

(** An object in memory: its bytes, [None] before one is stored. *)
Definition object : Type := list (option Z).

Definition uninit (n : nat) : object := replicate n None.

(** [m[i]] *)
Definition load (m : object) (i : nat) : M kilo Z := deref (mjoin (m !! i)).

(** [m[i] = b] *)
Definition set_byte (m : object) (i : nat) (b : Z) : M kilo object :=
  if bool_decide (i < length m)%nat then ret (<[i := Some b]> m) else fault.

(** The string in an object: the bytes before the null byte, which it must have. *)
Fixpoint string_in (m : object) : option (list Z) :=
  match m with
  | Some b :: m => if b =? 0 then Some [] else (fun s => b :: s) <$> string_in m
  | _ => None
  end.

(** The loop [while (i < sizeof(buf) - 1)]: [i] and [buf] when it stops. *)
Fixpoint cursor_reply (fuel i : nat) (buf : object) : M kilo (nat * object) :=
  if negb (Z.of_nat i <? Z.of_nat (length buf) - 1) then ret (i, buf) else
  match fuel with
  | O => blocked
  | S fuel =>
      let* ' (n, bs) := sysc (sys_read 1) in
      if negb (n =? 1) then ret (i, buf) else
      let* b := deref (bs !! 0%nat) in
      let* buf := set_byte buf i b in
      if b =? 82 then ret (i, buf) else cursor_reply fuel (S i) buf
  end.

(** The result, and what is stored through [rows] and [cols]. *)
Definition getCursorPosition : M kilo (Z * option Z * option Z) :=
  let* w := WRITE_LIT CURSOR_POS in
  if negb (w =? Z.of_nat (length CURSOR_POS)) then ret (-1, None, None) else
  let* ' (i, buf) := cursor_reply 32 0 (uninit 32) in
  let* buf := set_byte buf i 0 in
  let* b0 := load buf 0 in
  if negb (b0 =? ESCSEQ) then ret (-1, None, None) else
  let* b1 := load buf 1 in
  if negb (b1 =? 91) then ret (-1, None, None) else
  let* reply := deref (string_in (drop 2 buf)) in
  let '(count, r, c) := sscanf_d_d reply in
  if negb (count =? 2) then ret (-1, r, c) else ret (0, r, c).

Definition getWindowSize : M kilo (Z * option Z * option Z) :=
  let* ' (r, (ws_row, ws_col)) := sysc sys_winsize in
  if (r =? -1) || (ws_col =? 0) then
    let* n := WRITE_LIT CURSOR_BOTTOMRIGHT in
    if negb (n =? Z.of_nat (length CURSOR_BOTTOMRIGHT)) then ret (-1, None, None) else
    getCursorPosition
  else ret (0, Some ws_row, Some ws_col).

(** ** Append buffer *)

(** NULL is an object without bytes: realloc takes both alike. *)
Record abuf := mk_abuf { ab_b : object; ab_len : Z }.
Definition ABUF_INIT : abuf := mk_abuf [] 0.

(** [realloc(m, n)]: the bytes are kept as far as they fit; [None] when it fails. *)
Definition realloc (m : object) (n : Z) : M kilo (option object) :=
  let* ok := sysc sys_alloc in
  ret (if ok : bool then Some (take (Z.to_nat n) (m ++ uninit (Z.to_nat n))) else None).

(** [memcpy(&m[off], s, len)]: both ranges have to be inside their objects. *)
Definition memcpy (m : object) (off : Z) (s : list Z) (len : Z) : M kilo object :=
  if (0 <=? off) && (0 <=? len) && (off + len <=? Z.of_nat (length m)) &&
     (len <=? Z.of_nat (length s))
  then ret (take (Z.to_nat off) m ++ map Some (take (Z.to_nat len) s) ++
            drop (Z.to_nat (off + len)) m)
  else fault.

Definition abAppend (ab : abuf) (s : list Z) (len : Z) : M kilo abuf :=
  let* n := deref (iadd (ab_len ab) len) in
  let* new := realloc (ab_b ab) n in
  match new with
  | None => ret ab
  | Some new =>
      let* new := memcpy new (ab_len ab) s len in
      let* n := deref (iadd (ab_len ab) len) in
      ret (mk_abuf new n)
  end.

(** A literal is an object with a null byte at its end, and so is a string. *)
Definition APPEND_LIT (ab : abuf) (x : list Z) : M kilo abuf :=
  abAppend ab (x ++ [0]) (Z.of_nat (length (x ++ [0])) - 1).
Definition APPEND_STR (ab : abuf) (x : list Z) : M kilo abuf :=
  abAppend ab (x ++ [0]) (Z.of_nat (length (cstr (x ++ [0])))).

(** The first [n] bytes of an object. *)
Definition bytes_of (m : object) (n : Z) : option (list Z) :=
  if n <=? Z.of_nat (length m) then mapM id (take (Z.to_nat n) m) else None.

(** ** Output *)

Definition welcome : list Z := take 79 (lit "Kilo editor -- version " ++ lit KILO_VERSION).
Definition welcomelen (cols : Z) : Z :=
  if cols <? Z.of_nat (length welcome) then cols else Z.of_nat (length welcome).

(** [while (padding--) ...]: a negative [padding] would never reach 0. *)
Fixpoint pad_loop (fuel : nat) (padding : Z) (ab : abuf) : M kilo abuf :=
  if padding =? 0 then ret ab else
  match fuel with
  | O => blocked
  | S f =>
      let* padding := deref (iadd padding (-1)) in
      let* ab := APPEND_LIT ab (lit " ") in pad_loop f padding ab
  end.

(** The body of the [for] loop of [editorDrawRows]. *)
Definition drawRow (rows cols y : Z) (ab : abuf) : M kilo abuf :=
  let* ab :=
    if y =? Z.quot rows 3 then
      let* d := deref (iadd cols (- welcomelen cols)) in
      let padding := Z.quot d 2 in
      let* ' (ab, padding) :=
        if negb (padding =? 0) then
          let* ab := APPEND_LIT ab (lit "~") in
          let* padding := deref (iadd padding (-1)) in ret (ab, padding)
        else ret (ab, padding) in
      let* ab := pad_loop (Z.to_nat padding) padding ab in
      APPEND_STR ab welcome
    else APPEND_LIT ab (lit "~") in
  let* ab := APPEND_LIT ab CLEAR_LINE in
  let* last := deref (iadd rows (-1)) in
  if y <? last then APPEND_LIT ab CRLF else ret ab.

(** [for (int y = 0; y < E.screenrows; y++)], [n] iterations left. *)
Fixpoint drawRows_loop (n : nat) (rows cols y : Z) (ab : abuf) : M kilo abuf :=
  match n with
  | O => ret ab
  | S n' =>
      let* ab := drawRow rows cols y ab in
      let* y := deref (iadd y 1) in drawRows_loop n' rows cols y ab
  end.

Definition editorDrawRows (ab : abuf) : M kilo abuf :=
  let* e := gets E in
  drawRows_loop (Z.to_nat (screenrows e)) (screenrows e) (screencols e) 0 ab.

Definition editorRefreshScreen : M kilo unit :=
  let* ab := APPEND_LIT ABUF_INIT CURSOR_HIDE in
  let* ab := APPEND_LIT ab CURSOR_TOPLEFT in
  let* ab := editorDrawRows ab in
  let* e := gets E in
  let* y := deref (iadd (cy e) 1) in
  let* x := deref (iadd (cx e) 1) in
  let* ab := APPEND_STR ab (CURSOR_MOVE y x) in
  let* ab := APPEND_LIT ab CURSOR_SHOW in
  let* bs := deref (bytes_of (ab_b ab) (ab_len ab)) in
  sysc (sys_write bs) ;;;
  ret tt.

(** ** Input *)

Definition editorMoveCursor (key : Z) : M kilo unit :=
  let* e := gets E in
  if key =? ARROW_LEFT then
    if negb (cx e =? 0) then let* x := deref (iadd (cx e) (-1)) in modify (set_cx x) else ret tt
  else if key =? ARROW_RIGHT then
    let* last := deref (iadd (screencols e) (-1)) in
    if negb (cx e =? last) then let* x := deref (iadd (cx e) 1) in modify (set_cx x) else ret tt
  else if key =? ARROW_UP then
    if negb (cy e =? 0) then let* y := deref (iadd (cy e) (-1)) in modify (set_cy y) else ret tt
  else if key =? ARROW_DOWN then
    let* last := deref (iadd (screenrows e) (-1)) in
    if negb (cy e =? last) then let* y := deref (iadd (cy e) 1) in modify (set_cy y) else ret tt
  else ret tt.

Definition editorProcessKyepress : M kilo unit :=
  let* c := editorReadKey in
  if c =? CTRL_KEY 113 then
    WRITE_LIT CLEAR_SCREEN ;;;
    WRITE_LIT CURSOR_TOPLEFT ;;;
    exit_with 0
  else if (c =? ARROW_UP) || (c =? ARROW_DOWN) || (c =? ARROW_LEFT) || (c =? ARROW_RIGHT) then
    editorMoveCursor c
  else ret tt.

(** ** Init *)

Definition store (o : option Z) (f : Z -> kilo -> kilo) : M kilo unit :=
  match o with Some v => modify (f v) | None => ret tt end.

Definition initEditor : M kilo unit :=
  modify (set_cx 0) ;;;
  modify (set_cy 0) ;;;
  let* ' (r, rows, cols) := getWindowSize in
  store rows set_screenrows ;;;
  store cols set_screencols ;;;
  if r =? -1 then die else ret tt.

(** The body of [while (1)] in [main]. *)
Definition editor_iteration : M kilo unit :=
  editorRefreshScreen ;;; editorProcessKyepress.

Fixpoint editor_loop (fuel : nat) : M kilo unit :=
  match fuel with
  | O => blocked
  | S f => editor_iteration ;;; editor_loop f
  end.

(** [exit] runs the registered handler. *)
Definition run_atexit (m : M kilo unit) : M kilo unit := fun w =>
  match m w with
  | (Exit c, w') =>
      if atexit_disableRawMode w'
      then match disableRawMode w' with
           | (Ret _, w'') => (Exit c, w'')
           | r => r
           end
      else (Exit c, w')
  | r => r
  end.

(** [main], with [fuel] iterations of its [while (1)]. *)
Definition main (fuel : nat) : M kilo unit :=
  run_atexit (enableRawMode ;;; initEditor ;;; editor_loop fuel).

(** ** Specifications *)

(** What the keyboard decoder promises on the byte stream: a key and the bytes
    it leaves.  [None] when the stream is too short to decide. *)
Definition decode_key (bs : list Z) : option (Z * list Z) :=
  match bs with
  | [] => None
  | c :: r =>
      if schar c =? ESCSEQ then
        match r with
        | s0 :: s1 :: r' => Some (arrow_key s0 s1, r')
        | _ => None
        end
      else Some (schar c, r)
  end.

(** The text of row [y], and the bytes [editorDrawRows] emits for it. *)
Definition row_text (rows cols y : Z) : list Z :=
  if y =? Z.quot rows 3 then
    let padding := Z.quot (cols - welcomelen cols) 2 in
    (if padding =? 0 then [] else lit "~" ++ replicate (Z.to_nat (padding - 1)) 32) ++ welcome
  else lit "~".

Definition row_bytes (rows cols y : Z) : list Z :=
  row_text rows cols y ++ CLEAR_LINE ++ (if y <? rows - 1 then CRLF else []).

Definition screen_bytes (e : editorConfig) : list Z :=
  CURSOR_HIDE ++ CURSOR_TOPLEFT ++
  concat (row_bytes (screenrows e) (screencols e) <$> seqZ 0 (screenrows e)) ++
  CURSOR_MOVE (cy e + 1) (cx e + 1) ++ CURSOR_SHOW.

Definition cursor_ok (w : kilo) : Prop :=
  0 <= cx (E w) < screencols (E w) /\ 0 <= cy (E w) < screenrows (E w).

(** The states at the head of the main loop. *)
Inductive editor_reach (w0 : kilo) : kilo -> Prop :=
| reach_init : editor_reach w0 w0
| reach_step w w' :
    editor_reach w0 w -> editor_iteration w = (Ret tt, w') -> editor_reach w0 w'.

(** ** Lemmas *)

Lemma set_ksys_id w : set_ksys (ksys w) w = w.
Proof. by destruct w. Qed.

Lemma sysc_ret {A} (m : M sys A) w a s :
  m (ksys w) = (Ret a, s) -> sysc m w = (Ret a, set_ksys s w).
Proof. intros H. by apply zoom_ret. Qed.

Lemma keeps_sysc_E {A} (m : M sys A) : keeps E (sysc m).
Proof. by apply keeps_zoom. Qed.

Lemma keeps_sysc_atexit {A} (m : M sys A) : keeps atexit_disableRawMode (sysc m).
Proof. by apply keeps_zoom. Qed.

Lemma keeps_sysc {A V} (f : sys -> V) (m : M sys A) :
  keeps f m -> keeps (fun w => f (ksys w)) (sysc m).
Proof. by apply keeps_zoom_in. Qed.

#[local] Hint Resolve keeps_sysc_E keeps_sysc_atexit : stage0.

Lemma keeps_die {A V} (f : kilo -> V) :
  (forall x, keeps f (WRITE_LIT x)) -> keeps f (die : M kilo A).
Proof. intros H. unfold die. keeps. Qed.
#[local] Hint Resolve keeps_die : stage0.

Lemma keeps_WRITE_LIT_E x : keeps E (WRITE_LIT x).
Proof. unfold WRITE_LIT. keeps. Qed.
#[local] Hint Resolve keeps_WRITE_LIT_E : stage0.

Lemma keeps_readKey_loop_E f : keeps E (readKey_loop f).
Proof. induction f as [|f IH]; simpl; keeps. Qed.
#[local] Hint Resolve keeps_readKey_loop_E : stage0.

Lemma keeps_editorReadKey_E : keeps E editorReadKey.
Proof. unfold editorReadKey. keeps. Qed.

Lemma keeps_set_byte {V} (f : kilo -> V) m i b : keeps f (set_byte m i b).
Proof. unfold set_byte. keeps. Qed.

Lemma keeps_load {V} (f : kilo -> V) m i : keeps f (load m i).
Proof. unfold load. keeps. Qed.

Lemma keeps_memcpy {V} (f : kilo -> V) m o l n : keeps f (memcpy m o l n).
Proof. unfold memcpy. keeps. Qed.
#[local] Hint Resolve keeps_set_byte keeps_load keeps_memcpy : stage0.

Lemma keeps_abAppend_E ab l n : keeps E (abAppend ab l n).
Proof. unfold abAppend, realloc. keeps. Qed.
#[local] Hint Resolve keeps_abAppend_E keeps_editorReadKey_E : stage0.

Lemma keeps_append_E ab l : keeps E (APPEND_LIT ab l) /\ keeps E (APPEND_STR ab l).
Proof. unfold APPEND_LIT, APPEND_STR. split; keeps. Qed.
#[local] Hint Extern 1 (keeps E (APPEND_LIT _ _)) => apply keeps_append_E : stage0.
#[local] Hint Extern 1 (keeps E (APPEND_STR _ _)) => apply keeps_append_E : stage0.

Lemma keeps_pad_loop_E f p ab : keeps E (pad_loop f p ab).
Proof. revert p ab. induction f as [|f IH]; intros p ab; simpl; keeps. Qed.
#[local] Hint Resolve keeps_pad_loop_E : stage0.

Lemma keeps_drawRow_E rows cols y ab : keeps E (drawRow rows cols y ab).
Proof. unfold drawRow. keeps. Qed.
#[local] Hint Resolve keeps_drawRow_E : stage0.

Lemma keeps_drawRows_loop_E n rows cols y ab : keeps E (drawRows_loop n rows cols y ab).
Proof. revert y ab. induction n as [|n IH]; intros y ab; simpl; keeps. Qed.
#[local] Hint Resolve keeps_drawRows_loop_E : stage0.

Lemma keeps_editorRefreshScreen_E : keeps E editorRefreshScreen.
Proof. unfold editorRefreshScreen, editorDrawRows. keeps. Qed.

(** *** Safety of the functions *)

Lemma sysc_safe {A} (m : M sys A) : safe m -> safe (sysc m).
Proof. apply safe_zoom. Qed.

Lemma sysc_returns {A} (m : M sys A) Q : returns m Q -> returns (sysc m) Q.
Proof. apply returns_zoom. Qed.
#[local] Hint Resolve sysc_safe sysc_returns : stage0.

(** Reading one byte and going on with it when the count is 1. *)
Lemma safe_read1 {A} (k : Z * list Z -> M kilo A) :
  (forall r, (fst r = 1 -> is_Some (snd r !! 0%nat)) -> safe (k r)) ->
  safe (bind (sysc (sys_read 1)) k).
Proof.
  intros H. eapply safe_bind_post; [eauto with stage0| |exact H].
  apply sysc_returns, sys_read_1_returns.
Qed.

Lemma WRITE_LIT_safe x : safe (WRITE_LIT x).
Proof. unfold WRITE_LIT. safe. Qed.
#[local] Hint Resolve WRITE_LIT_safe : stage0.

Lemma die_safe {A} : safe (die : M kilo A).
Proof. unfold die. safe. Qed.
#[local] Hint Resolve die_safe : stage0.

Lemma disableRawMode_safe : safe disableRawMode.
Proof. unfold disableRawMode. safe. Qed.

Lemma enableRawMode_safe : safe enableRawMode.
Proof. unfold enableRawMode. safe. Qed.

Lemma readKey_loop_safe f : safe (readKey_loop f).
Proof.
  induction f as [|f IH]; simpl; [safe|].
  apply safe_read1. intros [n bs] H. simpl in H. apply safe_if; intros Hn.
  - apply safe_deref, H. lia.
  - safe.
Qed.
#[local] Hint Resolve readKey_loop_safe : stage0.

Lemma editorReadKey_safe : safe editorReadKey.
Proof.
  unfold editorReadKey. apply safe_bind; [safe|]. intros n.
  apply safe_bind; [safe|]. intros c. apply safe_if; intros _; [|safe].
  apply safe_read1. intros [n0 s0] H0. simpl in H0.
  apply safe_if; intros Hn0; [safe|]. zbool.
  apply safe_bind; [by apply safe_deref, H0|]. intros q0.
  apply safe_read1. intros [n1 s1] H1. simpl in H1.
  apply safe_if; intros Hn1; [safe|]. zbool.
  apply safe_bind; [by apply safe_deref, H1|]. safe.
Qed.
#[local] Hint Resolve editorReadKey_safe : stage0.

(** What the loop of [getCursorPosition] leaves: [buf] with the bytes [l], the
    place for one more, and bytes that do not matter. *)
Definition replied (l : list Z) (buf : object) : Prop := exists x rest, buf = map Some l ++ x :: rest /\ length buf = 32%nat.

Lemma set_byte_middle l x rest b w : set_byte (map Some l ++ x :: rest) (length l) b w = (Ret (map Some l ++ Some b :: rest), w).
Proof.
  unfold set_byte. rewrite bool_decide_eq_true_2 by (rewrite length_app, length_map; simpl; lia).
  assert (<[length l := Some b]> (map Some l ++ x :: rest) = map Some l ++ Some b :: rest) as E.
  { rewrite <- (length_map Some l) at 1. by rewrite insert_app_r_alt, Nat.sub_diag by lia. }
  exact (f_equal (fun m => (Ret m, w)) E).
Qed.

Lemma replied_more l x y rest b : replied l (map Some l ++ x :: y :: rest) -> replied (l ++ [b]) (map Some l ++ Some b :: y :: rest).
Proof.
  intros (x' & r' & E & Hl). exists y, rest. rewrite map_app, <- app_assoc. split; [done|].
  rewrite length_app in *. simpl in *. lia.
Qed.

(** The loop stays inside [buf]. *)
Lemma cursor_reply_safe fuel : forall l buf w, replied l buf ->
  match cursor_reply fuel (length l) buf w with
  | (Ret (i, buf'), _) => exists l', i = length l' /\ replied l' buf'
  | (Fault, _) => False | _ => True end.
Proof.
  induction fuel as [|fuel IH]; intros l buf w Hr; pose proof Hr as (x & rest & -> & Hlen); cbn [cursor_reply];
    (destruct (Z.ltb_spec (Z.of_nat (length l)) (Z.of_nat (length (map Some l ++ x :: rest)) - 1)) as [Hlt|Hge]; cbn [negb]; [|by exists l]); [done|].
  unfold bind. pose proof (sys_read_1_returns (ksys w)) as H1. pose proof (sysc_safe (sys_read 1) (sys_read_safe 1) w) as Hs.
  unfold sysc, zoom in *. destruct (sys_read 1 (ksys w)) as [[[n bs]|c| |] k] eqn:Ek; try done.
  specialize (H1 _ _ eq_refl). cbn in H1. destruct (Z.eqb_spec n 1) as [->|Hn]; cbn [negb]; [|by exists l].
  destruct (H1 eq_refl) as [b Hb]. rewrite Hb. unfold deref, ret. rewrite set_byte_middle.
  destruct rest as [|y rest]; [rewrite Hlen in Hlt; rewrite length_app, length_map in Hlen; simpl in Hlen; lia|].
  destruct (b =? 82).
  - exists l. split; [done|]. exists (Some b), (y :: rest). split; [done|]. rewrite length_app in *. exact Hlen.
  - replace (S (length l)) with (length (l ++ [b])) by (rewrite length_app; simpl; lia). apply IH. by eapply replied_more.
Qed.

(** What a reply is read as. *)
Definition parse_reply (l : list Z) : Z * option Z * option Z :=
  match l with
  | b0 :: b1 :: l =>
      if negb (b0 =? ESCSEQ) then (-1, None, None) else if negb (b1 =? 91) then (-1, None, None) else
      let '(count, r, c) := sscanf_d_d (cstr l) in
      if negb (count =? 2) then (-1, r, c) else (0, r, c)
  | _ => (-1, None, None)
  end.

Lemma string_in_app l rest : string_in (map Some l ++ Some 0 :: rest) = Some (cstr l).
Proof. induction l as [|b l IH]; [done|]. simpl. destruct (b =? 0); [done|]. by rewrite IH. Qed.

(** The end of [getCursorPosition] reads only bytes that were stored. *)
Lemma parse_reply_runs l buf i w :
  replied l buf -> i = length l ->
  (let* buf := set_byte buf i 0 in
   let* b0 := load buf 0 in
   if negb (b0 =? ESCSEQ) then ret (-1, None, None) else
   let* b1 := load buf 1 in
   if negb (b1 =? 91) then ret (-1, None, None) else
   let* reply := deref (string_in (drop 2 buf)) in
   let '(count, r, c) := sscanf_d_d reply in
   if negb (count =? 2) then ret (-1, r, c) else ret (0, r, c)) w = (Ret (parse_reply l), w).
Proof.
  intros (x & rest & -> & _) ->. mrun (set_byte_middle l x rest 0 w). destruct l as [|b0 l]; [done|].
  mrun (eq_refl : load (map Some (b0 :: l) ++ Some 0 :: rest) 0 w = (Ret b0, w)). simpl.
  destruct (negb (b0 =? ESCSEQ)) eqn:E0; [by destruct l|]. destruct l as [|b1 l]; [done|].
  mrun (eq_refl : load (map Some (b0 :: b1 :: l) ++ Some 0 :: rest) 1 w = (Ret b1, w)).
  destruct (negb (b1 =? 91)); [done|]. match goal with |- context [string_in ?x] => change x with (map Some l ++ Some 0 :: rest) end. rewrite string_in_app.
  mrun (eq_refl : deref (Some (cstr l)) w = (Ret (cstr l), w)). destruct (sscanf_d_d (cstr l)) as [[count r] c]. by destruct (negb (count =? 2)).
Qed.

Lemma replied_none : replied [] (uninit 32).
Proof. by exists None, (replicate 31 None). Qed.

Lemma getCursorPosition_safe : safe getCursorPosition.
Proof.
  unfold getCursorPosition. apply safe_bind; [safe|]. intros n.
  apply safe_if; intros _; [safe|]. intros w. unfold bind at 1.
  pose proof (cursor_reply_safe 32 [] (uninit 32) w replied_none) as Hc. change (length []) with 0%nat in Hc.
  destruct (cursor_reply 32 0 (uninit 32) w) as [[[i buf]|c| |] w1]; try done.
  destruct Hc as (l & Hi & Hl). by rewrite (parse_reply_runs l buf i w1 Hl Hi).
Qed.
#[local] Hint Resolve getCursorPosition_safe : stage0.

Lemma initEditor_safe : safe initEditor.
Proof. unfold initEditor, getWindowSize, store. safe. Qed.
#[local] Hint Resolve initEditor_safe enableRawMode_safe : stage0.

(** *** The append buffer *)

(** The buffer whose contents are [l]. *)
Definition ab_of (l : list Z) : abuf := mk_abuf (map Some l) (Z.of_nat (length l)).

(** An append that fits stores the bytes, or nothing when there is no memory. *)
Lemma abAppend_runs l s n w :
  n = Z.of_nat (length s) -> Z.of_nat (length l) + n <= INT_MAX ->
  exists w', (abAppend (ab_of l) (s ++ [0]) n w = (Ret (ab_of (l ++ s)), w') \/ abAppend (ab_of l) (s ++ [0]) n w = (Ret (ab_of l), w')) /\
    (s_alloc (ksys w) = [] -> abAppend (ab_of l) (s ++ [0]) n w = (Ret (ab_of (l ++ s)), w)).
Proof.
  intros -> Hn. unfold abAppend. cbn [ab_len ab_b ab_of].
  rewrite (iadd_int (Z.of_nat (length l)) (Z.of_nat (length s))) by (unfold is_int, INT_MIN in *; lia).
  mrun (eq_refl : deref (Some (Z.of_nat (length l) + Z.of_nat (length s))) w = (Ret (Z.of_nat (length l) + Z.of_nat (length s)), w)).
  pose proof (sysc_safe sys_alloc sys_alloc_safe w) as Hs. unfold realloc.
  assert (forall w1, (let* new := memcpy (take (Z.to_nat (Z.of_nat (length l) + Z.of_nat (length s))) (map Some l ++ uninit (Z.to_nat (Z.of_nat (length l) + Z.of_nat (length s)))))
      (Z.of_nat (length l)) (s ++ [0]) (Z.of_nat (length s)) in
    let* n := deref (Some (Z.of_nat (length l) + Z.of_nat (length s))) in ret (mk_abuf new n)) w1 = (Ret (ab_of (l ++ s)), w1)) as Hcopy.
  { intros w1. assert (take (Z.to_nat (Z.of_nat (length l) + Z.of_nat (length s))) (map Some l ++ uninit (Z.to_nat (Z.of_nat (length l) + Z.of_nat (length s)))) = map Some l ++ uninit (length s)) as ->.
    { rewrite take_app_ge by (rewrite length_map; lia). f_equal. unfold uninit. rewrite take_replicate, length_map. f_equal. lia. }
    assert (memcpy (map Some l ++ uninit (length s)) (Z.of_nat (length l)) (s ++ [0]) (Z.of_nat (length s)) w1 = (Ret (map Some (l ++ s)), w1)) as E.
    { unfold memcpy, uninit. rewrite !length_app, length_map, length_replicate.
      assert ((0 <=? Z.of_nat (length l)) && (0 <=? Z.of_nat (length s)) && (Z.of_nat (length l) + Z.of_nat (length s) <=? Z.of_nat (length l + length s)) &&
        (Z.of_nat (length s) <=? Z.of_nat (length s + length [0])) = true) as -> by (rewrite !andb_true_iff; repeat split; apply Z.leb_le; lia).
      rewrite !Nat2Z.id. rewrite take_app_length' by by rewrite length_map. rewrite (take_app_length' s) by done.
      rewrite drop_ge by (rewrite length_app, length_map, length_replicate; lia). by rewrite app_nil_r, map_app. }
    mrun E. unfold bind, deref, ret, ab_of. by rewrite length_app, Nat2Z.inj_add. }
  assert (exists ok w1, sysc sys_alloc w = (Ret ok, w1) /\ (s_alloc (ksys w) = [] -> ok = true /\ w1 = w)) as (ok & w1 & Ea & Hok).
  { unfold sysc, zoom, sys_alloc. destruct (s_alloc (ksys w)); eexists _, _; (split; [reflexivity|]); [|done]. intros _. split; [done|apply set_ksys_id]. }
  rewrite bind_assoc. mrun Ea. exists w1. destruct ok.
  - match goal with |- context [bind (ret ?a) ?k w1] => change (bind (ret a) k w1) with (k a w1) end. cbv beta iota. rewrite Hcopy. split; [by left|].
    intros Ha. by destruct (Hok Ha) as [_ ->].
  - split; [by right|]. intros Ha. by destruct (Hok Ha).
Qed.

(** *** The keyboard *)

Lemma arrow_key_cases s0 s1 :
  arrow_key s0 s1 = ESCSEQ \/
  s0 = 91 /\ (s1 = 65 /\ arrow_key s0 s1 = ARROW_UP \/ s1 = 66 /\ arrow_key s0 s1 = ARROW_DOWN \/
              s1 = 67 /\ arrow_key s0 s1 = ARROW_RIGHT \/ s1 = 68 /\ arrow_key s0 s1 = ARROW_LEFT).
Proof. unfold arrow_key. zcases; tauto. Qed.

Lemma sysc_read_1 w b bs t :
  s_read (ksys w) = RData (b :: bs) :: t ->
  sysc (sys_read 1) w =
    (Ret (1, [b]), set_ksys (set_read (match bs with [] => t | _ => RData bs :: t end) (ksys w)) w).
Proof. intros H. apply sysc_ret, (sys_read_1 _ _ _ _ H). Qed.

(** *** The display *)

(** [m] appends [s]: all of it when memory is there, and otherwise at most as
    much; the editor's own state is not touched. *)
Definition appends (m : abuf -> M kilo abuf) (s : list Z) : Prop :=
  forall l w, Z.of_nat (length l) + Z.of_nat (length s) <= INT_MAX ->
  exists l' w', m (ab_of l) w = (Ret (ab_of l'), w') /\ (length l' <= length l + length s)%nat /\ E w' = E w /\
    (s_alloc (ksys w) = [] -> l' = l ++ s /\ w' = w).

Lemma appends_ext m m' s : (forall ab w, m' ab w = m ab w) -> appends m s -> appends m' s.
Proof. intros He Hm l w Hl. destruct (Hm l w Hl) as (l' & w' & H & R). exists l', w'. by rewrite He. Qed.

Lemma appends_bind m k s t : appends m s -> appends k t -> appends (fun ab => let* ab := m ab in k ab) (s ++ t).
Proof.
  intros Hm Hk l w Hl. rewrite length_app in Hl. destruct (Hm l w) as (l1 & w1 & E1 & L1 & F1 & A1); [lia|].
  destruct (Hk l1 w1) as (l2 & w2 & E2 & L2 & F2 & A2); [lia|]. exists l2, w2. rewrite (bind_ret _ _ _ _ _ E1), length_app.
  split; [done|]. split; [lia|]. split; [congruence|]. intros Ha. destruct (A1 Ha) as [-> ->]. destruct (A2 Ha) as [-> ->]. by rewrite app_assoc.
Qed.

Lemma appends_ret : appends ret [].
Proof. intros l w _. exists l, w. rewrite app_nil_r. simpl. split; [done|]. split; [lia|done]. Qed.

Lemma appends_if (b : bool) m k s t : appends m s -> appends k t -> appends (fun ab => if b then m ab else k ab) (if b then s else t).
Proof. by destruct b. Qed.

Lemma appends_deref {A} (k : A -> abuf -> M kilo abuf) o a s :
  o = Some a -> appends (k a) s -> appends (fun ab => let* a := deref o in k a ab) s.
Proof. intros ->. apply appends_ext. done. Qed.

Lemma lit_len s : Z.of_nat (length (s ++ [0])) - 1 = Z.of_nat (length s).
Proof. rewrite length_app. simpl. lia. Qed.

Lemma append_lit s : appends (fun ab => APPEND_LIT ab s) s.
Proof.
  intros l w Hl. unfold APPEND_LIT. rewrite lit_len.
  destruct (abAppend_runs l s (Z.of_nat (length s)) w eq_refl Hl) as (w' & H & Ha).
  assert (forall ab w1, abAppend (ab_of l) (s ++ [0]) (Z.of_nat (length s)) w = (Ret ab, w1) -> E w1 = E w) as HE.
  { intros ab w1 H1. pose proof (keeps_abAppend_E (ab_of l) (s ++ [0]) (Z.of_nat (length s)) w) as K. by rewrite H1 in K. }
  destruct (s_alloc (ksys w)) as [|b a] eqn:Ew.
  - exists (l ++ s), w. rewrite length_app. split; [by apply Ha|]. split; [lia|done].
  - destruct H as [H|H]; [exists (l ++ s), w'|exists l, w']; (split; [done|]; split; [rewrite ?length_app; lia|]; split; [by eapply HE|done]).
Qed.

Lemma append_str s : Forall (fun b => b <> 0) s -> appends (fun ab => APPEND_STR ab s) s.
Proof.
  intros Hs. apply (appends_ext (fun ab => APPEND_LIT ab s)); [|apply append_lit].
  intros ab w. unfold APPEND_STR, APPEND_LIT. rewrite lit_len, cstr_app_nul; [done|].
  intros b Hb. by apply (proj1 (Forall_forall _ _) Hs).
Qed.

Lemma welcome_string : Forall (fun b => b <> 0) welcome.
Proof. vm_decide. Qed.

Lemma print_d_string z : Forall (fun b => b <> 0) (print_d z).
Proof.
  assert (forall n, 0 <= n -> Forall (fun b => b <> 0) (udec n)) as Hd.
  { intros n Hn. eapply Forall_impl; [by apply udec_digits|]. intros b Hb%isdigit_spec. lia. }
  unfold print_d. destruct (Z.ltb_spec z 0); [constructor; [done|]|]; apply Hd; lia.
Qed.

Lemma cursor_move_string y x : Forall (fun b => b <> 0) (CURSOR_MOVE y x).
Proof.
  unfold CURSOR_MOVE. apply Forall_take. rewrite !Forall_app.
  split; [vm_decide|]. split; [apply print_d_string|]. split; [vm_decide|]. split; [apply print_d_string|vm_decide].
Qed.

Lemma pad_loop_appends f p : p = Z.of_nat f -> p <= INT_MAX -> appends (pad_loop f p) (replicate f 32).
Proof.
  revert p. induction f as [|f IH]; intros p Hp Hm; cbn [pad_loop].
  - rewrite (proj2 (Z.eqb_eq p 0)) by lia. apply appends_ret.
  - rewrite (proj2 (Z.eqb_neq p 0)) by lia. apply (appends_deref (fun p ab => let* ab := APPEND_LIT ab (lit " ") in pad_loop f p ab) _ (p - 1)).
    + apply iadd_int. unfold is_int, INT_MIN in *. lia.
    + apply (appends_bind _ _ [32]); [apply append_lit|]. apply IH; lia.
Qed.

Lemma padding_nonneg cols : 0 <= Z.quot (cols - welcomelen cols) 2.
Proof.
  apply Z.quot_pos; [|lia]. unfold welcomelen. destruct (Z.ltb_spec cols (Z.of_nat (length welcome))); lia.
Qed.

Lemma padding_int cols : is_int cols ->
  iadd cols (- welcomelen cols) = Some (cols - welcomelen cols) /\ Z.quot (cols - welcomelen cols) 2 <= Z.max 0 cols.
Proof.
  intros Hc. assert (0 <= cols - welcomelen cols <= Z.max 0 cols) as Hd
    by (unfold welcomelen; destruct (Z.ltb_spec cols (Z.of_nat (length welcome))); lia).
  split; [apply iadd_int; unfold is_int, INT_MIN, INT_MAX in *; lia|].
  etransitivity; [apply Z.quot_le_upper_bound with (q := cols - welcomelen cols); lia|lia].
Qed.

Lemma row_text_appends rows cols y : is_int cols ->
  appends (fun ab =>
    if y =? Z.quot rows 3 then
      let* d := deref (iadd cols (- welcomelen cols)) in
      let padding := Z.quot d 2 in
      let* ' (ab, padding) :=
        if negb (padding =? 0) then
          let* ab := APPEND_LIT ab (lit "~") in
          let* padding := deref (iadd padding (-1)) in ret (ab, padding)
        else ret (ab, padding) in
      let* ab := pad_loop (Z.to_nat padding) padding ab in
      APPEND_STR ab welcome
    else APPEND_LIT ab (lit "~")) (row_text rows cols y).
Proof.
  intros Hc. unfold row_text. apply appends_if; [|apply append_lit].
  destruct (padding_int cols Hc) as [He Hmax]. pose proof (padding_nonneg cols) as Hpad. cbv zeta.
  eapply appends_deref; [exact He|]. cbv beta.
  assert (Z.quot (cols - welcomelen cols) 2 <= INT_MAX) as Hm by (unfold is_int, INT_MAX in *; lia). clear Hmax.
  revert Hpad Hm. generalize (Z.quot (cols - welcomelen cols) 2) as p. intros p Hpad Hm.
  pose proof (append_str welcome welcome_string) as Hw.
  destruct (Z.eqb_spec p 0) as [->|Hp]; cbn [negb].
  - apply (appends_ext (fun ab => let* ab := pad_loop 0 0 ab in APPEND_STR ab welcome)); [done|].
    apply (appends_bind (pad_loop 0 0) _ []); [by apply pad_loop_appends|done].
  - apply (appends_ext (fun ab => let* ab := (let* ab := APPEND_LIT ab (lit "~") in pad_loop (Z.to_nat (p - 1)) (p - 1) ab) in APPEND_STR ab welcome)).
    { intros ab w. rewrite iadd_int by (unfold is_int, INT_MIN in *; lia). unfold bind. by destruct (APPEND_LIT ab (lit "~") w) as [[]]. }
    apply appends_bind; [|done]. apply appends_bind; [apply append_lit|]. apply pad_loop_appends; lia.
Qed.

Lemma drawRow_appends rows cols y : is_int (rows - 1) -> is_int cols -> appends (drawRow rows cols y) (row_bytes rows cols y).
Proof.
  intros Hr Hc. unfold drawRow, row_bytes. apply appends_bind; [by apply row_text_appends|].
  apply appends_bind; [apply append_lit|].
  apply (appends_deref (fun last ab => if y <? last then APPEND_LIT ab CRLF else ret ab) _ (rows - 1)); [by apply iadd_int|].
  apply appends_if; [apply append_lit|apply appends_ret].
Qed.

Lemma drawRows_loop_appends n rows cols y :
  is_int (rows - 1) -> is_int cols -> 0 <= y -> y + Z.of_nat n <= INT_MAX ->
  appends (drawRows_loop n rows cols y) (concat (row_bytes rows cols <$> seqZ y (Z.of_nat n))).
Proof.
  intros Hr Hc. revert y. induction n as [|n IH]; intros y Hy Hn; [apply appends_ret|].
  rewrite (seqZ_cons y) by lia. replace (Z.pred (Z.of_nat (S n))) with (Z.of_nat n) by lia. cbn [drawRows_loop].
  apply (appends_bind _ _ (row_bytes rows cols y)); [by apply drawRow_appends|].
  apply (appends_deref (fun y ab => drawRows_loop n rows cols y ab) _ (y + 1)).
  - apply iadd_int. unfold is_int, INT_MIN in *. lia.
  - apply IH; lia.
Qed.

(** The sizes with which the arithmetic of a refresh stays in [int]. *)
Definition drawable (e : editorConfig) : Prop :=
  0 <= screenrows e <= INT_MAX /\ is_int (screencols e) /\ is_int (cx e + 1) /\ is_int (cy e + 1) /\
  Z.of_nat (length (screen_bytes e)) <= INT_MAX.

Lemma bytes_of_all l : bytes_of (map Some l) (Z.of_nat (length l)) = Some l.
Proof.
  unfold bytes_of. rewrite length_map, Z.leb_refl, Nat2Z.id, take_ge by by rewrite length_map.
  apply mapM_Some. induction l as [|b l IH]; [constructor|]. by constructor.
Qed.

(** The frame that [editorRefreshScreen] collects before it writes. *)
Definition frame (e : editorConfig) (ab : abuf) : M kilo abuf :=
  let* ab := APPEND_LIT ab CURSOR_HIDE in
  let* ab := APPEND_LIT ab CURSOR_TOPLEFT in
  let* ab := drawRows_loop (Z.to_nat (screenrows e)) (screenrows e) (screencols e) 0 ab in
  let* y := deref (iadd (cy e) 1) in
  let* x := deref (iadd (cx e) 1) in
  let* ab := APPEND_STR ab (CURSOR_MOVE y x) in
  APPEND_LIT ab CURSOR_SHOW.

Lemma frame_appends e : drawable e -> appends (frame e) (screen_bytes e).
Proof.
  intros (Hr & Hc & Hx & Hy & Hl). unfold screen_bytes, frame.
  apply appends_bind; [apply append_lit|]. apply appends_bind; [apply append_lit|]. apply appends_bind.
  - pose proof (drawRows_loop_appends (Z.to_nat (screenrows e)) (screenrows e) (screencols e) 0) as H.
    rewrite Z2Nat.id in H by lia. apply H; unfold is_int, INT_MIN in *; lia.
  - eapply appends_deref; [exact (iadd_int _ _ Hy)|]. eapply appends_deref; [exact (iadd_int _ _ Hx)|].
    apply appends_bind; [apply append_str, cursor_move_string|apply append_lit].
Qed.

Lemma refresh_frame w : editorRefreshScreen w =
  (let* ab := frame (E w) ABUF_INIT in
   let* bs := deref (bytes_of (ab_b ab) (ab_len ab)) in
   sysc (sys_write bs) ;;; ret tt) w.
Proof.
  unfold editorRefreshScreen, editorDrawRows, frame. unfold bind.
  destruct (APPEND_LIT ABUF_INIT CURSOR_HIDE w) as [[ab|c| |] w1] eqn:E1; try done.
  pose proof (proj1 (keeps_append_E ABUF_INIT CURSOR_HIDE) w) as F1. rewrite E1 in F1. cbn in F1.
  destruct (APPEND_LIT ab CURSOR_TOPLEFT w1) as [[ab2|c| |] w2] eqn:E2; try done.
  pose proof (proj1 (keeps_append_E ab CURSOR_TOPLEFT) w1) as F2. rewrite E2 in F2. cbn in F2.
  unfold gets. rewrite F2, F1.
  pose proof (keeps_drawRows_loop_E (Z.to_nat (screenrows (E w))) (screenrows (E w)) (screencols (E w)) 0 ab2 w2) as F3.
  destruct (drawRows_loop _ _ _ _ ab2 w2) as [[ab3|c| |] w3]; try done. cbn in F3. rewrite F3, F2, F1.
  unfold deref, ret, fault. destruct (iadd (cy (E w)) 1), (iadd (cx (E w)) 1); try done.
  destruct (APPEND_STR ab3 _ w3) as [[]]; try done. 
Qed.

(** What [editorRefreshScreen] does: it writes once, the frame when memory is there. *)
Lemma editorRefreshScreen_runs w : drawable (E w) -> exists l w1,
  editorRefreshScreen w = (sysc (sys_write l) ;;; ret tt) w1 /\ E w1 = E w /\
  (s_alloc (ksys w) = [] -> l = screen_bytes (E w) /\ w1 = w).
Proof.
  intros Hd. destruct (frame_appends (E w) Hd [] w) as (l & w1 & He & _ & HE & Ha); [simpl; apply Hd|].
  exists l, w1. split; [|by split]. rewrite refresh_frame.
  rewrite (bind_ret _ _ _ _ _ (He : frame (E w) ABUF_INIT w = _)). cbn [ab_of ab_b ab_len]. by rewrite bytes_of_all.
Qed.

Lemma editorRefreshScreen_ok w :
  s_alloc (ksys w) = [] -> s_write (ksys w) = [] -> drawable (E w) ->
  editorRefreshScreen w =
    (Ret tt, set_ksys (set_out (s_out (ksys w) ++ screen_bytes (E w)) (ksys w)) w).
Proof.
  intros Ha Hw Hd. destruct (editorRefreshScreen_runs w Hd) as (l & w1 & -> & _ & H). destruct (H Ha) as [-> ->].
  by mrun (sysc_ret _ w _ _ (sys_write_nil (screen_bytes (E w)) (ksys w) Hw)).
Qed.

(** The length of the frame. *)
Lemma row_length rows cols y : 1 <= cols ->
  Z.of_nat (length (row_bytes rows cols y)) <= 6 + (if y =? Z.quot rows 3 then cols + 28 else 0).
Proof.
  intros Hc. unfold row_bytes, row_text. pose proof (padding_nonneg cols) as Hp.
  assert (Z.quot (cols - welcomelen cols) 2 <= cols) as Hq.
  { apply Z.quot_le_upper_bound; [lia|]. unfold welcomelen. destruct (Z.ltb_spec cols (Z.of_nat (length welcome))); lia. }
  assert (length (if (y <? rows - 1)%Z then CRLF else []) <= 2)%nat as H2 by (destruct (y <? rows - 1); simpl; lia).
  assert (length CLEAR_LINE = 3%nat /\ length welcome = 28%nat) as [H3 Hw] by done.
  rewrite !length_app, H3. destruct (y =? Z.quot rows 3); cbv zeta; [|simpl; lia].
  revert Hp Hq. generalize (Z.quot (cols - welcomelen cols) 2) as p. intros p Hp Hq. rewrite length_app, Hw.
  destruct (Z.eqb_spec p 0); [simpl; lia|]. rewrite length_app, length_replicate. simpl. lia.
Qed.

Lemma rows_length rows cols y n : 1 <= cols -> y <= Z.quot rows 3 ->
  Z.of_nat (length (concat (row_bytes rows cols <$> seqZ y (Z.of_nat n)))) <= 6 * Z.of_nat n + cols + 28.
Proof.
  intros Hc. revert y. assert (forall n y, Z.quot rows 3 < y -> Z.of_nat (length (concat (row_bytes rows cols <$> seqZ y (Z.of_nat n)))) <= 6 * Z.of_nat n) as Hlt.
  { clear n. induction n as [|n IH]; intros y Hy; [done|]. rewrite (seqZ_cons y) by lia. replace (Z.pred (Z.of_nat (S n))) with (Z.of_nat n) by lia.
    rewrite fmap_cons. cbn [concat]. rewrite length_app. specialize (IH (Z.succ y) ltac:(lia)).
    pose proof (row_length rows cols y Hc) as Hr. rewrite (proj2 (Z.eqb_neq y (Z.quot rows 3))) in Hr by lia. lia. }
  induction n as [|n IH]; intros y Hy; [simpl; lia|]. rewrite (seqZ_cons y) by lia. replace (Z.pred (Z.of_nat (S n))) with (Z.of_nat n) by lia.
  rewrite fmap_cons. cbn [concat]. rewrite length_app. pose proof (row_length rows cols y Hc) as Hr.
  destruct (Z.eqb_spec y (Z.quot rows 3)) as [Ey|Ey]; [specialize (Hlt n (Z.succ y) ltac:(lia))|specialize (IH (Z.succ y) ltac:(lia))]; lia.
Qed.

(** A window whose frame and cursor stay in [int]. *)
Definition window_fits (rows cols : Z) : Prop := 1 <= rows /\ 1 <= cols /\ 6 * rows + cols + 100 <= INT_MAX.

Lemma drawable_fits e :
  window_fits (screenrows e) (screencols e) -> 0 <= cx e < screencols e -> 0 <= cy e < screenrows e -> drawable e.
Proof.
  intros (Hr & Hc & Hb) Hx Hy. unfold drawable. assert (forall z, 0 <= z <= INT_MAX -> is_int z) as Hi by (unfold is_int, INT_MIN; lia).
  split; [lia|]. split; [apply Hi; lia|]. split; [apply Hi; lia|]. split; [apply Hi; lia|].
  unfold screen_bytes, CURSOR_MOVE. pose proof (rows_length (screenrows e) (screencols e) 0 (Z.to_nat (screenrows e)) Hc) as Hl.
  rewrite Z2Nat.id in Hl by lia. specialize (Hl ltac:(apply Z.quot_pos; lia)).
  assert (length CURSOR_HIDE = 6 /\ length CURSOR_TOPLEFT = 3 /\ length CURSOR_SHOW = 6)%nat as (H1 & H2 & H3) by done.
  rewrite !length_app, H1, H2, H3. pose proof (length_take (esc "[" ++ print_d (cy e + 1) ++ lit ";" ++ print_d (cx e + 1) ++ lit "H") 31) as Hm. lia.
Qed.

(** *** Terminal attributes *)

Definition ktty (w : kilo) : termios * list (option Z) := tty_part (ksys w).

Lemma keeps_sysc_tty {A} (m : M sys A) : keeps tty_part m -> keeps ktty (sysc m).
Proof. intros H. by apply (keeps_zoom_in ksys set_ksys tty_part). Qed.
#[local] Hint Resolve keeps_sysc_tty : stage0.

Lemma keeps_WRITE_LIT_tty x : keeps ktty (WRITE_LIT x).
Proof. unfold WRITE_LIT. keeps. Qed.
#[local] Hint Resolve keeps_WRITE_LIT_tty : stage0.

(** The parts of the state that only [enableRawMode] and [disableRawMode]
    change. *)
Definition saved (w : kilo) : (termios * list (option Z)) * termios * bool :=
  (ktty w, orig_termios (E w), atexit_disableRawMode w).

Lemma keeps_saved {A} (m : M kilo A) :
  keeps ktty m -> keeps (fun w => orig_termios (E w)) m -> keeps atexit_disableRawMode m ->
  keeps saved m.
Proof.
  intros H1 H2 H3 w. unfold saved. specialize (H1 w). specialize (H2 w). specialize (H3 w).
  simpl in *. by rewrite H1, H2, H3.
Qed.

Lemma keeps_saved_sysc {A} (m : M sys A) : keeps tty_part m -> keeps saved (sysc m).
Proof.
  intros H. apply keeps_saved; [eauto with stage0| |eauto with stage0].
  apply (keeps_comp E orig_termios). eauto with stage0.
Qed.
#[local] Hint Resolve keeps_saved_sysc : stage0.

Lemma keeps_saved_WRITE_LIT x : keeps saved (WRITE_LIT x).
Proof. unfold WRITE_LIT. keeps. Qed.
#[local] Hint Resolve keeps_saved_WRITE_LIT : stage0.

Lemma keeps_saved_readKey_loop f : keeps saved (readKey_loop f).
Proof. induction f as [|f IH]; simpl; keeps. Qed.
#[local] Hint Resolve keeps_saved_readKey_loop : stage0.

Lemma keeps_saved_cursor_reply f i buf : keeps saved (cursor_reply f i buf).
Proof. revert i buf. induction f as [|f IH]; intros i buf; cbn [cursor_reply]; keeps. Qed.
#[local] Hint Resolve keeps_saved_cursor_reply : stage0.

Lemma keeps_saved_initEditor : keeps saved initEditor.
Proof. unfold initEditor, getWindowSize, getCursorPosition, store. keeps. Qed.

Lemma keeps_saved_abAppend ab s n : keeps saved (abAppend ab s n).
Proof. unfold abAppend, realloc. keeps. Qed.
#[local] Hint Resolve keeps_saved_abAppend : stage0.

Lemma keeps_saved_append ab l : keeps saved (APPEND_LIT ab l) /\ keeps saved (APPEND_STR ab l).
Proof. unfold APPEND_LIT, APPEND_STR. split; keeps. Qed.
#[local] Hint Extern 1 (keeps saved (APPEND_LIT _ _)) => apply keeps_saved_append : stage0.
#[local] Hint Extern 1 (keeps saved (APPEND_STR _ _)) => apply keeps_saved_append : stage0.

Lemma keeps_saved_pad_loop f p ab : keeps saved (pad_loop f p ab).
Proof. revert p ab. induction f as [|f IH]; intros p ab; simpl; keeps. Qed.
#[local] Hint Resolve keeps_saved_pad_loop : stage0.

Lemma keeps_saved_drawRow rows cols y ab : keeps saved (drawRow rows cols y ab).
Proof. unfold drawRow. keeps. Qed.
#[local] Hint Resolve keeps_saved_drawRow : stage0.

Lemma keeps_saved_drawRows_loop n rows cols y ab : keeps saved (drawRows_loop n rows cols y ab).
Proof. revert y ab. induction n as [|n IH]; intros y ab; simpl; keeps. Qed.
#[local] Hint Resolve keeps_saved_drawRows_loop : stage0.

Lemma keeps_saved_iteration : keeps saved editor_iteration.
Proof.
  unfold editor_iteration, editorRefreshScreen, editorDrawRows, editorProcessKyepress,
    editorReadKey, editorMoveCursor. keeps.
Qed.
#[local] Hint Resolve keeps_saved_iteration keeps_saved_initEditor : stage0.

Lemma keeps_saved_loop f : keeps saved (editor_loop f).
Proof. induction f as [|f IH]; simpl; keeps. Qed.
#[local] Hint Resolve keeps_saved_loop : stage0.

Lemma enableRawMode_ok w :
  s_tc (ksys w) = [] ->
  enableRawMode w =
    (Ret tt, mk_kilo (mk_E (cx (E w)) (cy (E w)) (screenrows (E w)) (screencols (E w))
                        (s_tios (ksys w)))
                     true (set_tios (raw_of (s_tios (ksys w))) (ksys w))).
Proof.
  intros H. unfold enableRawMode.
  mrun (sysc_ret sys_tcgetattr w (0, s_tios (ksys w)) (ksys w)
    ltac:(unfold sys_tcgetattr; by rewrite H)).
  rewrite set_ksys_id. cbn [Z.eqb].
  mrun (eq_refl : modify (set_orig_termios (s_tios (ksys w))) w = (Ret tt, _)).
  match goal with |- bind (modify ?g) _ ?x = _ => mrun (eq_refl : modify g x = (Ret tt, g x)) end.
  cbv zeta.
  match goal with |- bind (sysc ?m) _ ?x = _ =>
    mrun (sysc_ret m x 0 (set_tios (raw_of (s_tios (ksys w))) (ksys x))
      ltac:(unfold sys_tcsetattr; simpl; by rewrite H)) end.
  reflexivity.
Qed.

Lemma disableRawMode_ok w :
  s_tc (ksys w) = [] ->
  disableRawMode w = (Ret tt, set_ksys (set_tios (orig_termios (E w)) (ksys w)) w).
Proof.
  intros H. unfold disableRawMode.
  mrun (eq_refl : gets (fun w => orig_termios (E w)) w = (Ret (orig_termios (E w)), w)).
  mrun (sysc_ret (sys_tcsetattr (orig_termios (E w))) w 0
    (set_tios (orig_termios (E w)) (ksys w)) ltac:(unfold sys_tcsetattr; by rewrite H)).
  reflexivity.
Qed.

(** *** Flag words *)

(** The positions of the bits set in a [k]-bit word. *)
Definition bits_of (m k : Z) : list Z := filter (fun i => Z.testbit m i = true) (seqZ 0 k).

Lemma testbit_bits_of m k n :
  0 <= m < 2 ^ k -> 0 <= n -> Z.testbit m n = bool_decide (n ∈ bits_of m k).
Proof.
  intros Hm Hn. unfold bits_of. apply eq_bool_prop_intro.
  rewrite bool_decide_spec, list_elem_of_filter, elem_of_seqZ, Is_true_true.
  split; [|tauto]. intros Hb. split; [done|]. split; [done|].
  apply Z.nle_gt. intros Hk.
  assert (Z.testbit m n = false) as E; [|congruence].
  destruct (decide (m = 0)) as [->|]; [apply Z.testbit_0_l|].
  apply Z.bits_above_log2; [lia|]. apply Z.log2_lt_pow2; [lia|].
  eapply Z.lt_le_trans; [apply Hm|]. apply Z.pow_le_mono_r; lia.
Qed.

Lemma clear_flags x m k n :
  0 <= m < 2 ^ k -> 0 <= n ->
  Z.testbit (Z.land x (Z.lnot m)) n = Z.testbit x n && negb (bool_decide (n ∈ bits_of m k)).
Proof.
  intros Hm Hn. rewrite Z.land_spec, Z.lnot_spec by done. by rewrite (testbit_bits_of m k).
Qed.

Lemma set_flags x m k n :
  0 <= m < 2 ^ k -> 0 <= n ->
  Z.testbit (Z.lor x m) n = Z.testbit x n || bool_decide (n ∈ bits_of m k).
Proof. intros Hm Hn. rewrite Z.lor_spec. by rewrite (testbit_bits_of m k). Qed.

(** *** The cursor *)

Lemma iadd_ret {A} a b (k : Z -> M kilo A) w r w' :
  (let* x := deref (iadd a b) in k x) w = (Ret r, w') -> k (a + b) w = (Ret r, w').
Proof. unfold iadd. by case_decide. Qed.

(** What a key does to the cursor, when it does not overflow. *)
Lemma editorMoveCursor_ret k w w' :
  editorMoveCursor k w = (Ret tt, w') ->
  (cursor_ok w -> cursor_ok w') /\ screenrows (E w') = screenrows (E w) /\ screencols (E w') = screencols (E w).
Proof.
  unfold editorMoveCursor. mrun (eq_refl : gets E w = (Ret (E w), w)). unfold cursor_ok. intros H.
  repeat match type of H with
    | (if ?b then _ else _) _ = _ => destruct b eqn:?
    | bind (deref (iadd _ _)) _ _ = _ => apply iadd_ret in H
    end; injection H as <-; cbn; zbool; lia.
Qed.

Lemma editorMoveCursor_safe k w :
  cursor_ok w -> is_int (screenrows (E w)) -> is_int (screencols (E w)) -> fst (editorMoveCursor k w) <> Fault.
Proof.
  intros [Hx Hy] Hr Hc. unfold is_int, INT_MIN in *. unfold editorMoveCursor, bind, gets, modify, ret. cbn [fst snd].
  rewrite !iadd_int by (unfold is_int, INT_MIN; lia). unfold deref. cbn. by repeat case_match.
Qed.

Definition window (w : kilo) : Z * Z := (screenrows (E w), screencols (E w)).

Lemma process_ret w w' :
  editorProcessKyepress w = (Ret tt, w') -> (cursor_ok w -> cursor_ok w') /\ window w' = window w.
Proof.
  unfold editorProcessKyepress. intros (c & w1 & Hc & H)%bind_inv_ret. pose proof (keeps_editorReadKey_E w) as HE. rewrite Hc in HE. cbn in HE.
  unfold cursor_ok, window. rewrite <- HE. destruct (c =? CTRL_KEY 113).
  { apply bind_inv_ret in H as (? & ? & _ & H). apply bind_inv_ret in H as (? & ? & _ & H). done. }
  destruct (_ || _); [|by injection H as <-]. apply editorMoveCursor_ret in H as (H1 & H2 & H3). split; [exact H1|]. by rewrite H2, H3.
Qed.

Lemma iteration_ret w w' :
  editor_iteration w = (Ret tt, w') -> (cursor_ok w -> cursor_ok w') /\ window w' = window w.
Proof.
  unfold editor_iteration. intros ([] & w1 & Hr & H)%bind_inv_ret. pose proof (keeps_editorRefreshScreen_E w) as HE. rewrite Hr in HE. cbn in HE.
  apply process_ret in H. unfold cursor_ok, window in *. by rewrite HE in H.
Qed.

Lemma process_safe w :
  cursor_ok w -> is_int (screenrows (E w)) -> is_int (screencols (E w)) -> fst (editorProcessKyepress w) <> Fault.
Proof.
  intros Hok Hr Hc. unfold editorProcessKyepress, bind at 1.
  pose proof (editorReadKey_safe w) as Hs. pose proof (keeps_editorReadKey_E w) as HE.
  destruct (editorReadKey w) as [[c|x| |] w1]; cbn in *; try done. destruct (c =? CTRL_KEY 113).
  - assert (safe (WRITE_LIT CLEAR_SCREEN ;;; WRITE_LIT CURSOR_TOPLEFT ;;; exit_with 0 : M kilo unit)) as H by safe. specialize (H w1). by destruct (bind _ _ w1) as [[]].
  - destruct (_ || _); [|done]. apply editorMoveCursor_safe; unfold cursor_ok in *; by rewrite HE.
Qed.

(** With a window that fits, an iteration does not fault. *)
Lemma iteration_safe w :
  cursor_ok w -> window_fits (screenrows (E w)) (screencols (E w)) -> fst (editor_iteration w) <> Fault.
Proof.
  intros Hok Hf. destruct (editorRefreshScreen_runs w) as (l & w1 & Hr & HE & _); [by apply drawable_fits; [|apply Hok..]|].
  unfold editor_iteration, bind at 1. rewrite Hr.
  assert (safe (sysc (sys_write l) ;;; ret tt)) as Hs by safe. specialize (Hs w1).
  assert (keeps E (sysc (sys_write l) ;;; ret tt)) as Hk by keeps. specialize (Hk w1).
  destruct (bind _ _ w1) as [[[]|x| |] w2]; cbn in *; try done.
  destruct Hf as (H1 & H2 & H3). unfold cursor_ok in *. rewrite <- HE, <- Hk in *.
  apply process_safe; [done|unfold is_int, INT_MIN; lia..].
Qed.

Lemma loop_safe fuel w :
  cursor_ok w -> window_fits (screenrows (E w)) (screencols (E w)) -> fst (editor_loop fuel w) <> Fault.
Proof.
  revert w. induction fuel as [|fuel IH]; intros w Hok Hf; [done|]. cbn [editor_loop]. unfold bind.
  pose proof (iteration_safe w Hok Hf) as Hs. destruct (editor_iteration w) as [[[]|x| |] w1] eqn:Ei; try done.
  apply iteration_ret in Ei as (Hok1 & [= Hr Hc]). apply IH; [by apply Hok1|]. by rewrite Hr, Hc.
Qed.

Lemma editor_reach_cursor w0 w :
  cursor_ok w0 -> editor_reach w0 w ->
  cursor_ok w /\ screenrows (E w) = screenrows (E w0) /\ screencols (E w) = screencols (E w0).
Proof.
  intros H0 Hr. induction Hr as [|w w' Hr (IH1 & IH2 & IH3) Hs]; [done|].
  apply iteration_ret in Hs as (Hc & [= H1 H2]). split; [by apply Hc|]. split; congruence.
Qed.

Lemma keeps_cursor_reply_E f i buf : keeps E (cursor_reply f i buf).
Proof. revert i buf. induction f as [|f IH]; intros i buf; cbn [cursor_reply]; keeps. Qed.
#[local] Hint Resolve keeps_cursor_reply_E : stage0.

Lemma keeps_getWindowSize_E : keeps E getWindowSize.
Proof. unfold getWindowSize, getCursorPosition. keeps. Qed.

Lemma initEditor_origin w : let w' := snd (initEditor w) in cx (E w') = 0 /\ cy (E w') = 0.
Proof.
  unfold initEditor.
  match goal with |- context [modify (set_cy 0) ;;; ?m] => set (rest := m) end.
  assert (keeps (fun w => (cx (E w), cy (E w))) rest) as Hk.
  { pose proof (fun A (m : M kilo A) => keeps_comp E (fun e => (cx e, cy e)) m) as Hc.
    subst rest. apply keeps_bind; [apply Hc, keeps_getWindowSize_E|]. intros [[r rows] cols].
    apply keeps_bind; [unfold store; keeps|]. intros _.
    apply keeps_bind; [unfold store; keeps|]. intros _. apply Hc. keeps. }
  mrun (eq_refl : modify (set_cx 0) w = (Ret tt, set_cx 0 w)).
  mrun (eq_refl : modify (set_cy 0) (set_cx 0 w) = (Ret tt, set_cy 0 (set_cx 0 w))).
  specialize (Hk (set_cy 0 (set_cx 0 w))). simpl in *. by injection Hk.
Qed.

(** *** Decoding keys and cursor reports *)

(** A script that delivers [bs], in chunks of any size and without a time-out
    or an error, before going on as [t]. *)
Inductive delivers (t : list read_ev) : list read_ev -> list Z -> Prop :=
| delivers_nil : delivers t t []
| delivers_chunk c bs l :
    c <> [] -> delivers t l bs -> delivers t (RData c :: l) (c ++ bs).

Lemma delivers_read t l b bs s :
  delivers t l (b :: bs) -> s_read s = l ->
  exists l', delivers t l' bs /\ sys_read 1 s = (Ret (1, [b]), set_read l' s) /\
             (length l' <= length l)%nat.
Proof.
  intros H. remember (b :: bs) as bbs eqn:Eb. destruct H as [|c bs' l Hc H]; [done|].
  destruct c as [|b' c]; [done|]. simpl in Eb. injection Eb as -> <-. intros Hs.
  eexists. split; [|split; [by apply sys_read_1|]].
  - destruct c as [|b1 c]; [done|]. by apply delivers_chunk.
  - destruct c; simpl; lia.
Qed.

Lemma delivers_sysc t b bs w :
  delivers t (s_read (ksys w)) (b :: bs) ->
  exists l', delivers t l' bs /\
    sysc (sys_read 1) w = (Ret (1, [b]), set_ksys (set_read l' (ksys w)) w).
Proof.
  intros H. destruct (delivers_read _ _ _ _ (ksys w) H eq_refl) as (l' & Hl & Hr & _).
  exists l'. split; [done|]. by apply sysc_ret.
Qed.

(** The state after reading up to [l]. *)
Definition with_read (l : list read_ev) (w : kilo) : kilo := set_ksys (set_read l (ksys w)) w.

Lemma with_read_twice l l' w : with_read l' (with_read l w) = with_read l' w.
Proof. done. Qed.

Lemma readKey_loop_delivers f t b bs w :
  delivers t (s_read (ksys w)) (b :: bs) ->
  exists l', delivers t l' bs /\ readKey_loop (S f) w = (Ret b, with_read l' w).
Proof.
  intros H. destruct (delivers_sysc _ _ _ _ H) as (l' & Hl & Hr).
  exists l'. split; [done|]. cbn [readKey_loop]. mrun Hr. done.
Qed.

Lemma editorReadKey_delivers t bs w k rest :
  decode_key bs = Some (k, rest) -> delivers t (s_read (ksys w)) bs ->
  exists l', delivers t l' rest /\ editorReadKey w = (Ret k, with_read l' w).
Proof.
  intros Hk H. unfold editorReadKey.
  mrun (eq_refl : gets (fun w => length (s_read (ksys w))) w = (Ret _, w)).
  destruct bs as [|c bs]; [done|]. simpl in Hk.
  destruct (readKey_loop_delivers (length (s_read (ksys w))) _ _ _ _ H) as (l1 & H1 & R1).
  mrun R1. destruct (schar c =? ESCSEQ).
  - destruct bs as [|b0 [|b1 bs]]; try done. injection Hk as <- <-.
    destruct (delivers_sysc t b0 (b1 :: bs) (with_read l1 w) H1) as (l2 & H2 & R2).
    mrun R2. cbn [negb Z.eqb Pos.eqb fst]. cbv beta iota.
    mrun (eq_refl : deref (Some b0) _ = (Ret b0, with_read l2 w)).
    destruct (delivers_sysc t b1 bs (with_read l2 w) H2) as (l3 & H3 & R3).
    mrun R3. by exists l3.
  - injection Hk as <- <-. by exists l1.
Qed.

Lemma cursor_reply_delivers n t w l buf bs rest :
  (length l + length bs < 31)%nat -> (length bs < n)%nat -> (forall b, b ∈ bs -> b <> 82) -> replied l buf ->
  delivers t (s_read (ksys w)) (bs ++ 82 :: rest) ->
  exists l' buf', delivers t l' rest /\ replied (l ++ bs) buf' /\
    cursor_reply n (length l) buf w = (Ret (length (l ++ bs), buf'), with_read l' w).
Proof.
  revert w l buf bs. induction n as [|n IH]; intros w l buf bs Hlen Hn Hb Hr H; [lia|].
  pose proof Hr as (x & r & -> & Hl). cbn [cursor_reply]. rewrite Hl, (proj2 (Z.ltb_lt (Z.of_nat (length l)) (Z.of_nat 32 - 1))) by lia. cbn [negb].
  assert (exists y r', r = y :: r') as (y & r' & ->).
  { destruct r as [|y r']; [|by eauto]. rewrite length_app, length_map in Hl. simpl in Hl. lia. }
  destruct bs as [|b bs]; cbn [app] in H; destruct (delivers_sysc _ _ _ _ H) as (l' & Hd & R); mrun R; cbn [negb Z.eqb Pos.eqb].
  - mrun (eq_refl : deref (Some 82) (with_read l' w) = (Ret 82, with_read l' w)). mrun (set_byte_middle l x (y :: r') 82 (with_read l' w)).
    cbn [Z.eqb Pos.eqb]. eexists l', _. split; [done|]. rewrite app_nil_r. split; [|done].
    eexists _, _. split; [reflexivity|]. rewrite length_app in *. exact Hl.
  - mrun (eq_refl : deref (Some b) (with_read l' w) = (Ret b, with_read l' w)). mrun (set_byte_middle l x (y :: r') b (with_read l' w)).
    rewrite (proj2 (Z.eqb_neq b 82)) by (apply Hb; by left).
    replace (S (length l)) with (length (l ++ [b])) by (rewrite length_app; simpl; lia).
    destruct (IH (with_read l' w) (l ++ [b]) (map Some l ++ Some b :: y :: r') bs) as (l2 & buf2 & Hd2 & Hr2 & ->).
    + rewrite length_app. simpl in *. lia.
    + simpl in Hn. lia.
    + intros z Hz. apply Hb. by right.
    + by eapply replied_more.
    + done.
    + exists l2, buf2. rewrite <- app_assoc in *. done.
Qed.

(** The reply of a terminal is read as [parse_reply] reads its bytes. *)
Lemma getCursorPosition_reads t bs rest w :
  (length bs < 31)%nat -> (forall b, b ∈ bs -> b <> 82) -> s_write (ksys w) = [] ->
  delivers t (s_read (ksys w)) (bs ++ 82 :: rest) ->
  exists l', delivers t l' rest /\
    getCursorPosition w = (Ret (parse_reply bs), with_read l' (set_ksys (set_out (s_out (ksys w) ++ CURSOR_POS) (ksys w)) w)).
Proof.
  intros Hl Hb Hw H. unfold getCursorPosition, WRITE_LIT.
  mrun (sysc_ret _ w _ _ (sys_write_nil CURSOR_POS (ksys w) Hw)). rewrite Z.eqb_refl. cbn [negb].
  destruct (cursor_reply_delivers 32 t (set_ksys (set_out (s_out (ksys w) ++ CURSOR_POS) (ksys w)) w) [] (uninit 32) bs rest)
    as (l' & buf' & Hd & Hr & R); [simpl; lia|lia|done|apply replied_none|done|].
  exists l'. split; [done|]. mrun R. by rewrite (parse_reply_runs bs buf' (length bs) _ Hr eq_refl).
Qed.

(** A state of the program: 24 rows of 80 columns when the terminal says so. *)
Definition demo (reads : list read_ev) (winsz : list (Z + Z * Z)) (rows cols : Z) : kilo :=
  mk_kilo (mk_E 0 0 rows cols (mk_termios 0 0 0 0 [])) false
    (mk_sys 0 [] reads [] [] winsz [] (mk_termios 1280 5 191 35387 (replicate 32 7)) []).

Lemma cstr_nonnul l : Forall (fun b => b <> 0) l -> cstr l = l.
Proof. induction 1 as [|b l Hb _ IH]; [done|]. simpl. rewrite (proj2 (Z.eqb_neq b 0) Hb). by rewrite IH. Qed.

Lemma run_atexit_safe m w : fst (m w) <> Fault -> fst (run_atexit m w) <> Fault.
Proof.
  unfold run_atexit. destruct (m w) as [[a|c| |] w']; try done. intros _. destruct (atexit_disableRawMode w'); [|done].
  pose proof (disableRawMode_safe w') as Hd. by destruct (disableRawMode w') as [[]].
Qed.

(** Neither size of the terminal's reply is checked: with this one the arrow to
    the right computes [INT_MIN - 1]. *)
Example unchecked_reply :
  fst (main 5 (demo [RData (esc "[1;-2147483648R"); RData (esc "[C")] [] 0 0)) = Fault.
Proof. vm_compute. reflexivity. Qed.

(** ** Properties *)

(** C25: no access of the editor leaves an object (the reply buffer, the
    append buffer, the strings) and no [int] overflows.  The start-up never
    faults, whatever the terminal answers; and when it finds a window that fits
    (at least one row and one column, and a frame of less than [INT_MAX] bytes)
    no run of [main] faults, on any script of reads, writes and failing
    allocations. *)
Theorem editor_never_faults w :
  fst ((enableRawMode ;;; initEditor) w) <> Fault /\
  forall fuel,
    (forall w1, (enableRawMode ;;; initEditor) w = (Ret tt, w1) ->
       1 <= screenrows (E w1) /\ 1 <= screencols (E w1) /\ 6 * screenrows (E w1) + screencols (E w1) + 100 <= INT_MAX) ->
    fst (main fuel w) <> Fault.
Proof.
  assert (safe (enableRawMode ;;; initEditor)) as Hs by safe. specialize (Hs w).
  split; [by destruct (bind _ _ w) as [[]]|]. intros fuel Hw. unfold main. apply run_atexit_safe.
  rewrite <- (bind_assoc enableRawMode (fun _ => initEditor) (fun _ => editor_loop fuel)). unfold bind at 1.
  destruct ((enableRawMode ;;; initEditor) w) as [[[]|x| |] w1] eqn:Ei; try done. specialize (Hw w1 eq_refl).
  apply loop_safe; [|done]. apply bind_inv_ret in Ei as (? & w2 & _ & Ei).
  destruct (initEditor_origin w2) as [Hx Hy]. rewrite Ei in Hx, Hy. cbn in Hx, Hy. unfold cursor_ok. lia.
Qed.

Lemma editor_never_faults_witness :
  let w := demo [RData (esc "[24;"); RData (lit "80R"); RData [27; 91; 66]; RErr 11; RData [17]] [] 0 0 in
  fst (main 5 w) <> Fault.
Proof.
  intros w. apply (proj2 (editor_never_faults w) 5%nat). intros w1 H. vm_compute in H. injection H as <-. vm_compute. 
  repeat split; discriminate.
Defined.

(** C26: every exit of the editor, by Ctrl-Q or by [die], leaves the terminal
    with the attributes it had at the start ([atexit] runs [disableRawMode]),
    when the attribute calls succeed. *)
Theorem exit_restores_terminal fuel w c w' :
  s_tc (ksys w) = [] -> main fuel w = (Exit c, w') ->
  s_tios (ksys w') = s_tios (ksys w).
Proof.
  intros Htc. unfold main, run_atexit. mrun (enableRawMode_ok w Htc).
  match goal with |- context [bind initEditor _ ?x] => set (w1 := x) end.
  assert (keeps saved (initEditor ;;; editor_loop fuel)) as Hk by keeps.
  specialize (Hk w1).
  destruct (bind _ _ w1) as [[a|c1| |] w2]; simpl in Hk; try done.
  unfold saved, ktty, tty_part in Hk. subst w1. simpl in Hk.
  injection Hk as _ Htc2 Ho Ha. rewrite Ha, disableRawMode_ok by congruence.
  intros [= _ <-]. simpl. congruence.
Qed.

Lemma exit_restores_terminal_witness :
  let w := demo [RData [27; 91; 66]; RErr 11; RData [17]] [inr (24, 80)] 0 0 in
  s_tios (ksys (snd (main 5 w))) = s_tios (ksys w).
Proof.
  intros w. apply (exit_restores_terminal 5 w 0 (snd (main 5 w))); [reflexivity|].
  vm_compute. reflexivity.
Defined.

(** [enableRawMode] clears exactly the flags it names (BRKINT, ICRNL, INPCK,
    ISTRIP, IXON; OPOST; ECHO, ICANON, IEXTEN, ISIG), sets CS8, sets VMIN to 0
    and VTIME to 1, and leaves every other bit and control character alone. *)
Theorem raw_attributes t n :
  0 <= n ->
  Z.testbit (c_iflag (raw_of t)) n =
    Z.testbit (c_iflag t) n && negb (bool_decide (n ∈ [1; 4; 5; 8; 10])) /\
  Z.testbit (c_oflag (raw_of t)) n =
    Z.testbit (c_oflag t) n && negb (bool_decide (n ∈ [0])) /\
  Z.testbit (c_cflag (raw_of t)) n =
    Z.testbit (c_cflag t) n || bool_decide (n ∈ [4; 5]) /\
  Z.testbit (c_lflag (raw_of t)) n =
    Z.testbit (c_lflag t) n && negb (bool_decide (n ∈ [0; 1; 3; 15])) /\
  (length (c_cc t) = 32%nat ->
   forall i, c_cc (raw_of t) !! i =
     if decide (i = VTIME) then Some 1 else if decide (i = VMIN) then Some 0 else c_cc t !! i).
Proof.
  intros Hn.
  split; [exact (clear_flags (c_iflag t) 1330 16 n ltac:(lia) Hn)|].
  split; [exact (clear_flags (c_oflag t) 1 16 n ltac:(lia) Hn)|].
  split; [exact (set_flags (c_cflag t) 48 16 n ltac:(lia) Hn)|].
  split; [exact (clear_flags (c_lflag t) 32779 16 n ltac:(lia) Hn)|].
  intros Hl i. unfold raw_of. cbn [c_cc]. unfold VTIME, VMIN.
  destruct (decide (i = 5%nat)) as [->|H5].
  { apply list_lookup_insert_eq. rewrite length_insert. lia. }
  rewrite list_lookup_insert_ne by done.
  destruct (decide (i = 6%nat)) as [->|H6]; [apply list_lookup_insert_eq; lia|].
  by rewrite list_lookup_insert_ne.
Qed.

Lemma raw_attributes_witness :
  let t := mk_termios 1280 5 191 35387 (replicate 32 7) in
  Z.testbit (c_iflag (raw_of t)) 8 =
    Z.testbit (c_iflag t) 8 && negb (bool_decide (8 ∈ [1; 4; 5; 8; 10])) /\
  Z.testbit (c_oflag (raw_of t)) 8 =
    Z.testbit (c_oflag t) 8 && negb (bool_decide (8 ∈ [0])) /\
  Z.testbit (c_cflag (raw_of t)) 8 =
    Z.testbit (c_cflag t) 8 || bool_decide (8 ∈ [4; 5]) /\
  Z.testbit (c_lflag (raw_of t)) 8 =
    Z.testbit (c_lflag t) 8 && negb (bool_decide (8 ∈ [0; 1; 3; 15])) /\
  (length (c_cc t) = 32%nat ->
   forall i, c_cc (raw_of t) !! i =
     if decide (i = VTIME) then Some 1 else if decide (i = VMIN) then Some 0 else c_cc t !! i).
Proof. intros t. apply (raw_attributes t 8). lia. Defined.

(** When [initEditor] has found a window of at least one row and one
    column, the cursor stays inside it for the whole run, and the window size
    does not change. *)
Theorem cursor_stays_in_window w0 w1 w :
  initEditor w0 = (Ret tt, w1) -> 1 <= screenrows (E w1) -> 1 <= screencols (E w1) ->
  editor_reach w1 w ->
  cursor_ok w /\ screenrows (E w) = screenrows (E w1) /\ screencols (E w) = screencols (E w1).
Proof.
  intros Hi Hr Hc. apply editor_reach_cursor. unfold cursor_ok.
  destruct (initEditor_origin w0) as [Hx Hy]. rewrite Hi in Hx, Hy. simpl in Hx, Hy. lia.
Qed.

Lemma cursor_stays_in_window_witness :
  let w1 := snd (initEditor (demo [RData [27; 91; 66]] [inr (24, 80)] 0 0)) in
  let w := snd (editor_iteration w1) in
  cy (E w) = 1 /\
  cursor_ok w /\ screenrows (E w) = screenrows (E w1) /\ screencols (E w) = screencols (E w1).
Proof.
  intros w1 w. split; [vm_compute; reflexivity|].
  apply (cursor_stays_in_window (demo [RData [27; 91; 66]] [inr (24, 80)] 0 0) w1 w).
  - vm_compute. reflexivity.
  - vm_compute. discriminate.
  - vm_compute. discriminate.
  - apply (reach_step w1 w1 w); [constructor|vm_compute; reflexivity].
Defined.

(** [editorReadKey] decodes the byte stream as [decode_key] does (plain
    bytes and the four arrow sequences), however the terminal cuts the stream
    into chunks, and consumes exactly the bytes of the key. *)
Theorem read_key_decodes t bs w k rest :
  decode_key bs = Some (k, rest) -> delivers t (s_read (ksys w)) bs ->
  exists l', delivers t l' rest /\ editorReadKey w = (Ret k, with_read l' w).
Proof. apply editorReadKey_delivers. Qed.

Lemma read_key_decodes_witness :
  let w := demo [RData [27]; RData [91; 67; 120]] [] 24 80 in
  exists l', delivers [] l' [120] /\ editorReadKey w = (Ret ARROW_RIGHT, with_read l' w).
Proof.
  intros w. apply (read_key_decodes [] [27; 91; 67; 120] w ARROW_RIGHT [120]); [reflexivity|].
  apply (delivers_chunk [] [27] [91; 67; 120]); [discriminate|].
  apply (delivers_chunk [] [91; 67; 120] []); [discriminate|constructor].
Defined.

(** A cursor report printed by a terminal for row [r] and column [c] is read
    back by [getCursorPosition] as [r] and [c], for all [int] values, and the
    bytes after it stay unread. *)
Theorem cursor_report_roundtrip t r c rest w :
  0 <= r <= INT_MAX -> 0 <= c <= INT_MAX -> s_write (ksys w) = [] ->
  delivers t (s_read (ksys w)) (esc "[" ++ udec r ++ lit ";" ++ udec c ++ lit "R" ++ rest) ->
  exists l', delivers t l' rest /\
    getCursorPosition w = (Ret (0, Some r, Some c),
      with_read l' (set_ksys (set_out (s_out (ksys w) ++ CURSOR_POS) (ksys w)) w)).
Proof.
  intros Hr Hc Hw H.
  pose proof (udec_length r 9) as Lr. pose proof (udec_length c 9) as Lc. unfold INT_MAX in Hr, Hc.
  set (body := udec r ++ lit ";" ++ udec c).
  assert (Forall (fun b => b <> 82 /\ b <> 0) body) as Hb.
  { assert (forall n, 0 <= n -> Forall (fun b => b <> 82 /\ b <> 0) (udec n)) as Hd.
    { intros n Hn. eapply Forall_impl; [by apply udec_digits|]. intros b Hb%isdigit_spec. lia. }
    subst body. rewrite !Forall_app. split; [apply Hd; lia|split; [vm_decide|apply Hd; lia]]. }
  assert (exists l', delivers t l' rest /\ getCursorPosition w = (Ret (parse_reply (esc "[" ++ body)),
    with_read l' (set_ksys (set_out (s_out (ksys w) ++ CURSOR_POS) (ksys w)) w))) as (l' & Hl & ->).
  { apply getCursorPosition_reads; [subst body; rewrite !length_app; simpl; lia| |done|].
    - intros b. rewrite elem_of_app. intros [Hin|Hin]; [|by apply (proj1 (Forall_forall _ _) Hb)].
      intros ->. revert Hin. vm_decide.
    - subst body. rewrite <- !app_assoc in *. exact H. }
  exists l'. split; [done|]. do 2 f_equal.
  change (parse_reply (esc "[" ++ body)) with (let '(count, r, c) := sscanf_d_d (cstr body) in if negb (count =? 2) then (-1, r, c) else (0, r, c)).
  rewrite cstr_nonnul by (by eapply Forall_impl; [exact Hb|]; intros b [_ H0]). subst body.
  pose proof (sscanf_d_d_print r c [] ltac:(unfold INT_MAX; lia) ltac:(unfold INT_MAX; lia) I) as Hs.
  rewrite app_nil_r in Hs. change (lit ";" ++ udec c) with (59 :: udec c). by rewrite Hs.
Qed.

Lemma cursor_report_roundtrip_witness :
  let w := demo [RData (esc "[" ++ lit "24"); RData (lit ";80R")] [] 0 0 in
  exists l', delivers [] l' [] /\
    getCursorPosition w = (Ret (0, Some 24, Some 80),
      with_read l' (set_ksys (set_out (s_out (ksys w) ++ CURSOR_POS) (ksys w)) w)).
Proof.
  intros w. apply (cursor_report_roundtrip [] 24 80 [] w);
    [unfold INT_MAX; lia|unfold INT_MAX; lia|reflexivity|].
  apply (delivers_chunk [] [27; 91; 50; 52] [59; 56; 48; 82]); [discriminate|].
  apply (delivers_chunk [] [59; 56; 48; 82] []); [discriminate|constructor].
Defined.

(** [editorRefreshScreen] writes the frame in one [write]: cursor hidden, home,
    each row with its line clear and no CRLF after the last, the cursor moved to
    its cell and shown. *)
Theorem refresh_draws_screen w :
  s_alloc (ksys w) = [] -> s_write (ksys w) = [] -> drawable (E w) ->
  editorRefreshScreen w =
    (Ret tt, set_ksys (set_out (s_out (ksys w) ++ screen_bytes (E w)) (ksys w)) w).
Proof. apply editorRefreshScreen_ok. Qed.

Lemma refresh_draws_screen_witness :
  let w := demo [] [] 3 30 in
  editorRefreshScreen w =
    (Ret tt, set_ksys (set_out (s_out (ksys w) ++ screen_bytes (E w)) (ksys w)) w).
Proof.
  apply (refresh_draws_screen (demo [] [] 3 30)); [reflexivity|reflexivity|].
  apply drawable_fits; repeat split; vm_compute; (reflexivity || discriminate).
Defined.

(** A drawn row fits in the window if and only if the banner does or the row
    is not the banner's: [welcomelen] is clamped to the width but the whole
    banner is appended. *)
Theorem row_fits_iff rows cols y :
  1 <= cols ->
  Z.of_nat (length (row_text rows cols y)) <= cols <->
  Z.of_nat (length welcome) <= cols \/ y <> Z.quot rows 3.
Proof.
  intros Hc. unfold row_text. destruct (Z.eqb_spec y (Z.quot rows 3)) as [->|Hy].
  - cbv zeta. pose proof (padding_nonneg cols) as Hp.
    rewrite length_app.
    assert (forall p, 0 <= p -> Z.of_nat (length (if p =? 0 then []
      else lit "~" ++ replicate (Z.to_nat (p - 1)) 32)) = p) as Hl.
    { intros p Hp'. destruct (Z.eqb_spec p 0) as [->|]; [done|].
      rewrite length_app, length_replicate. simpl. lia. }
    rewrite Nat2Z.inj_add, Hl by done. clear Hl.
    pose proof (Z.quot_mul_le (cols - welcomelen cols) 2) as Hq.
    pose proof (Z.mul_quot_le (cols - welcomelen cols) 2) as Hm.
    unfold welcomelen in *. destruct (Z.ltb_spec cols (Z.of_nat (length welcome))); lia.
  - simpl. split; [by right|]. lia.
Qed.

Lemma row_fits_iff_witness :
  Z.of_nat (length (row_text 24 20 8)) <= 20 <->
  Z.of_nat (length welcome) <= 20 \/ 8 <> Z.quot 24 3.
Proof. apply (row_fits_iff 24 20 8). lia. Defined.
