(* ===== verification/Life.v ===== *)
(** * life/main.c: Conway's game of life on a 180 by 45 board

    The board is a list of [SIZE] cells; reading or writing outside it is
    [None].  The main loop works on a record with the board, the two screen
    buffers, the counters and the system; standard output is the [s_out] of
    the system ([fflush] and the order of [printf] make it one stream). *)

From stdpp Require Import prelude list_numbers strings.
From Stdlib Require Import ZArith Lia.
From S2P Require Import Prelude CLib Posix.
Open Scope Z_scope.

Definition BOARD_COLS : Z := 180.
Definition BOARD_ROWS : Z := 45.
Definition SIZE : Z := BOARD_ROWS * BOARD_COLS.

(** ** The board *)

Definition init_board (board : list Z) : option (list Z) :=
  foldM (fun b i => zupdate b i 0) board (seqZ 0 SIZE).

Definition set_cell (board : list Z) (row col : Z) : option (list Z) :=
  zupdate board (row * BOARD_COLS + col) 1.

Definition populate_board (board : list Z) : option (list Z) :=
  foldM (fun b '(row, col) => set_cell b row col) board
    [(21, 90); (21, 91); (22, 89); (22, 90); (23, 90)].

(** The test that makes the loop of [count_neighbors] go on without counting. *)
Definition skipped (idx0 row col : Z) : bool :=
  (col <? 0) || (BOARD_COLS <=? col) || (row <? 0) || (BOARD_ROWS <=? row) ||
  (row * BOARD_COLS + col =? idx0).

Definition count_neighbors (board : list Z) (row0 col0 : Z) : option Z :=
  let idx0 := row0 * BOARD_COLS + col0 in
  foldM (fun count row =>
    foldM (fun count col =>
      if skipped idx0 row col then Some count
      else match zlookup board (row * BOARD_COLS + col) with
           | Some cell => Some (count + cell)
           | None => None
           end) count (seqZ (col0 - 1) 3)) 0 (seqZ (row0 - 1) 3).

(** The cell [update] writes for a cell and its count. *)
Definition next_cell (cell count : Z) : Z :=
  if negb (cell =? 0)
  then if (1 <? count) && (count <? 4) then 1 else 0
  else if count =? 3 then 1 else 0.

(** The new board, and the new value of [living_cells]. *)
Definition update (board : list Z) : option (list Z * Z) :=
  foldM (fun st row =>
    foldM (fun '(next_board, living_cells) col =>
      let idx := row * BOARD_COLS + col in
      match count_neighbors board row col, zlookup board idx with
      | Some count, Some cell =>
          let v := next_cell cell count in
          match zupdate next_board idx v with
          | Some next_board => Some (next_board, living_cells + v)
          | None => None
          end
      | _, _ => None
      end) st (seqZ 0 BOARD_COLS)) (board, 0) (seqZ 0 BOARD_ROWS).

Definition draw_board (board back : list Z) : option (list Z) :=
  foldM (fun back idx =>
    match zlookup board idx with
    | Some cell => zupdate back idx (if negb (cell =? 0) then 88 else 46)
    | None => None
    end) back (seqZ 0 SIZE).

(** [test]: the final values of its four assertions. *)
Definition test_board (board : list Z) : option (list Z) :=
  match init_board board with
  | Some b => foldM (fun b '(row, col) => set_cell b row col) b
      [(0, 1); (1, 0); (1, 1); (1, 2); (2, 0); (2, 2); (3, 0); (3, 1); (3, 2)]
  | None => None
  end.

Definition test (board : list Z) : option bool :=
  match test_board board with
  | Some b =>
      match count_neighbors b 0 0, count_neighbors b 2 0, count_neighbors b 2 1,
            count_neighbors b 0 9 with
      | Some n0, Some n1, Some n2, Some n3 =>
          Some ((n0 =? 3) && (n1 =? 4) && (n2 =? 8) && (n3 =? 0))
      | _, _, _, _ => None
      end
  | None => None
  end.

(** ** The program *)

Record life := mk_life {
  board : list Z;
  living_cells : Z;
  front : list Z;
  back : list Z;
  generation : Z;
  ch : Z;
  oldt : termios;
  stdin_flags : Z;
  lsys : sys
}.

Definition set_board b w := mk_life b (living_cells w) (front w) (back w) (generation w)
  (ch w) (oldt w) (stdin_flags w) (lsys w).
Definition set_living n w := mk_life (board w) n (front w) (back w) (generation w)
  (ch w) (oldt w) (stdin_flags w) (lsys w).
Definition set_front b w := mk_life (board w) (living_cells w) b (back w) (generation w)
  (ch w) (oldt w) (stdin_flags w) (lsys w).
Definition set_back b w := mk_life (board w) (living_cells w) (front w) b (generation w)
  (ch w) (oldt w) (stdin_flags w) (lsys w).
Definition set_generation n w := mk_life (board w) (living_cells w) (front w) (back w) n
  (ch w) (oldt w) (stdin_flags w) (lsys w).
Definition set_ch c w := mk_life (board w) (living_cells w) (front w) (back w) (generation w)
  c (oldt w) (stdin_flags w) (lsys w).
Definition set_oldt t w := mk_life (board w) (living_cells w) (front w) (back w) (generation w)
  (ch w) t (stdin_flags w) (lsys w).
Definition set_flags f w := mk_life (board w) (living_cells w) (front w) (back w) (generation w)
  (ch w) (oldt w) f (lsys w).
Definition set_lsys s w := mk_life (board w) (living_cells w) (front w) (back w) (generation w)
  (ch w) (oldt w) (stdin_flags w) s.

Definition lsysc {A} (m : M sys A) : M life A := zoom lsys set_lsys m.

Definition printf (bs : list Z) : M life unit :=
  modify (fun w => set_lsys (set_out (s_out (lsys w) ++ bs) (lsys w)) w).

Definition ICANON : Z := 2.
Definition ECHO : Z := 8.
Definition O_NONBLOCK : Z := 2048.
Definition VTIME : nat := 5.
Definition VMIN : nat := 6.

Definition noncanonical (t : termios) : termios :=
  mk_termios (c_iflag t) (c_oflag t) (c_cflag t)
    (Z.land (c_lflag t) (Z.lnot (Z.lor ICANON ECHO)))
    (<[VTIME := 0]> (<[VMIN := 1]> (c_cc t))).

(** The cursor jump and the character printed for a changed cell. *)
Definition draw_cell (i c : Z) : list Z :=
  let x := Z.rem i BOARD_COLS in
  let y := Z.quot i BOARD_COLS in
  esc "[" ++ print_d (y + 1) ++ lit ";" ++ print_d (x + 1) ++ lit "H" ++ [c].

(** [for (int i = 0; i < SIZE; i++) if (back[i] != front[i]) printf ...]: the
    cells printed, in order. *)
Definition changed (front back : list Z) : option (list (Z * Z)) :=
  foldM (fun ops i =>
    match zlookup back i, zlookup front i with
    | Some b, Some f => Some (if negb (b =? f) then ops ++ [(i, b)] else ops)
    | _, _ => None
    end) [] (seqZ 0 SIZE).

Definition draw_changed (ops : list (Z * Z)) : list Z :=
  concat ((fun '(i, c) => draw_cell i c) <$> ops).

Definition status_line (generation living : Z) : list Z :=
  esc "[999;1H" ++ lit "generation: " ++ print_d generation ++ [9] ++
  lit "living cells: " ++ print_d living.

(** What precedes the [while] loop: first the terminal and the flags of
    standard input.  The results of the calls are not tested: when [tcgetattr]
    fails, [oldt] keeps its indeterminate value. *)
Definition life_attributes : M life unit :=
  let* ' (r, t) := lsysc sys_tcgetattr in
  (if r =? 0 then modify (set_oldt t) else ret tt) ;;;
  let* old := gets oldt in
  let newt := noncanonical old in
  let* flags := gets stdin_flags in
  modify (set_flags (Z.lor flags O_NONBLOCK)) ;;;
  lsysc (sys_tcsetattr newt) ;;;
  ret tt.

(** Then the board, the buffers and the first output. *)
Definition life_boards : M life unit :=
  let* w := get in
  let* b := deref (init_board (board w)) in
  let* b := deref (populate_board b) in
  modify (set_board b) ;;;
  modify (set_front (replicate (Z.to_nat SIZE) 46)) ;;;
  modify (set_back (replicate (Z.to_nat SIZE) 46)) ;;;
  modify (set_generation 1) ;;;
  printf (esc "[2J" ++ esc "[?25l").

Definition life_setup : M life unit := life_attributes ;;; life_boards.

(** The body of the [while] loop up to the test of the key; the result is
    whether the loop is left by [break]. *)
Definition life_draw : M life bool :=
  modify (set_back (replicate (Z.to_nat SIZE) 46)) ;;;
  let* w := get in
  let* bk := deref (draw_board (board w) (back w)) in
  modify (set_back bk) ;;;
  let* ops := deref (changed (front w) bk) in
  printf (draw_changed ops) ;;;
  let* ' (n, bs) := lsysc (sys_read 1) in
  match bs with b :: _ => modify (set_ch (schar b)) | [] => ret tt end ;;;
  let* c := gets ch in
  ret (c =? 27).

(** The rest of the body: swap the buffers, compute the next generation. *)
Definition life_advance : M life unit :=
  let* w := get in
  modify (set_front (back w)) ;;;
  modify (set_back (front w)) ;;;
  let* ' (b, n) := deref (update (board w)) in
  modify (set_board b) ;;;
  modify (set_living n) ;;;
  modify (set_generation (generation w + 1)) ;;;
  printf (status_line (generation w + 1) n).

Fixpoint life_loop (fuel : nat) : M life unit :=
  match fuel with
  | O => blocked
  | S f =>
      let* brk := life_draw in
      if brk : bool then ret tt else life_advance ;;; life_loop f
  end.

(** What follows the loop; [flags] is the local of [main]. *)
Definition life_cleanup (flags : Z) : M life unit :=
  modify (set_flags flags) ;;;
  let* old := gets oldt in
  lsysc (sys_tcsetattr old) ;;;
  printf (esc "[999;1H") ;;;
  printf (esc "[?25h").

(** [main] without a [-t] argument, with [fuel] iterations of its loop. *)
Definition main (fuel : nat) : M life unit :=
  let* flags := gets stdin_flags in
  life_setup ;;;
  life_loop fuel ;;;
  life_cleanup flags.

(** ** Specification *)

(** The value of a cell, dead outside the board. *)
Definition cell_at (b : list Z) (row col : Z) : Z :=
  if (0 <=? row) && (row <? BOARD_ROWS) && (0 <=? col) && (col <? BOARD_COLS)
  then default 0 (zlookup b (row * BOARD_COLS + col)) else 0.

Definition neighbors (b : list Z) (row col : Z) : Z :=
  cell_at b (row - 1) (col - 1) + cell_at b (row - 1) col + cell_at b (row - 1) (col + 1) +
  cell_at b row (col - 1) + cell_at b row (col + 1) +
  cell_at b (row + 1) (col - 1) + cell_at b (row + 1) col + cell_at b (row + 1) (col + 1).

(** The rules of the README: a populated cell survives with two or three
    neighbors, an empty one becomes populated with three. *)
Definition conway (populated : bool) (n : Z) : bool :=
  if populated then (n =? 2) || (n =? 3) else n =? 3.

Definition board_ok (b : list Z) : Prop :=
  length b = Z.to_nat SIZE /\ Forall (fun c => c = 0 \/ c = 1) b.



Definition glyphs (b : list Z) : list Z :=
  (fun c => if negb (c =? 0) then 88 else 46) <$> b.

(** ** Lemmas *)

Ltac board_lia := unfold SIZE, BOARD_ROWS, BOARD_COLS in *; lia.

Lemma cell_at_in b row col :
  length b = Z.to_nat SIZE -> 0 <= row < BOARD_ROWS -> 0 <= col < BOARD_COLS ->
  zlookup b (row * BOARD_COLS + col) = Some (cell_at b row col).
Proof.
  intros Hl Hr Hc. unfold cell_at. zcases; try lia.
  destruct (zlookup_is_Some b (row * BOARD_COLS + col)) as [x ->]; [board_lia|done].
Qed.

(** One step of the loop of [count_neighbors]. *)
Lemma count_step b count row0 col0 row col :
  length b = Z.to_nat SIZE -> 0 <= row0 < BOARD_ROWS -> 0 <= col0 < BOARD_COLS ->
  (if skipped (row0 * BOARD_COLS + col0) row col then Some count
   else match zlookup b (row * BOARD_COLS + col) with
        | Some cell => Some (count + cell) | None => None end) =
  Some (count + if (row =? row0) && (col =? col0) then 0 else cell_at b row col).
Proof.
  intros Hl Hr Hc. unfold skipped.
  destruct ((col <? 0) || (BOARD_COLS <=? col) || (row <? 0) || (BOARD_ROWS <=? row)) eqn:Hout;
    simpl.
  - assert (cell_at b row col = 0) as ->.
    { unfold cell_at. revert Hout. zcases; simpl; try done; lia. }
    f_equal. case_match; lia.
  - apply orb_false_iff in Hout as [[[Ho1 Ho2]%orb_false_iff Ho3]%orb_false_iff Ho4].
    zbool. destruct (Z.eqb_spec (row * BOARD_COLS + col) (row0 * BOARD_COLS + col0)).
    + assert (row = row0 /\ col = col0) as [-> ->] by board_lia.
      rewrite !Z.eqb_refl. simpl. f_equal. lia.
    + rewrite cell_at_in by lia.
      destruct (Z.eqb_spec row row0), (Z.eqb_spec col col0); simpl; try done. by subst.
Qed.

Lemma seqZ_3 a : seqZ (a - 1) 3 = [a - 1; a; a + 1].
Proof.
  do 3 rewrite (seqZ_cons _) by lia. rewrite seqZ_nil by lia.
  repeat (f_equal; try lia).
Qed.

Lemma count_neighbors_spec b row0 col0 :
  length b = Z.to_nat SIZE -> 0 <= row0 < BOARD_ROWS -> 0 <= col0 < BOARD_COLS ->
  count_neighbors b row0 col0 = Some (neighbors b row0 col0).
Proof.
  intros Hl Hr Hc. unfold count_neighbors. rewrite !seqZ_3. cbn [foldM].
  do 9 (rewrite (count_step b _ row0 col0) by done; cbn beta iota).
  f_equal. unfold neighbors. rewrite !Z.eqb_refl.
  rewrite (proj2 (Z.eqb_neq (row0 - 1) row0)), (proj2 (Z.eqb_neq (row0 + 1) row0)),
    (proj2 (Z.eqb_neq (col0 - 1) col0)), (proj2 (Z.eqb_neq (col0 + 1) col0)) by lia.
  simpl. lia.
Qed.


Lemma index_join row col :
  0 <= row < BOARD_ROWS -> 0 <= col < BOARD_COLS ->
  0 <= row * BOARD_COLS + col < SIZE /\
  (row * BOARD_COLS + col) / BOARD_COLS = row /\ (row * BOARD_COLS + col) mod BOARD_COLS = col.
Proof.
  intros Hr Hc. split; [board_lia|].
  rewrite Z.add_comm, Z.div_add, Z.mod_add, Z.div_small, Z.mod_small by done. lia.
Qed.

(** The cell of the next generation at an index. *)
Definition next_at (b : list Z) (i : Z) : Z :=
  next_cell (cell_at b (i / BOARD_COLS) (i mod BOARD_COLS))
            (neighbors b (i / BOARD_COLS) (i mod BOARD_COLS)).

Definition next_board (b : list Z) : list Z := next_at b <$> seqZ 0 SIZE.

Lemma update_spec b :
  length b = Z.to_nat SIZE -> update b = Some (next_board b, sumZ (next_board b)).
Proof.
  intros Hl. unfold update.
  set (F := fun (st : list Z * Z) i =>
    match zupdate (fst st) i (next_at b i) with
    | Some l' => Some (l', snd st + next_at b i) | None => None end).
  transitivity (foldM (fun s r => foldM (fun s c => F s (r * BOARD_COLS + c)) s (seqZ 0 BOARD_COLS))
    (b, 0) (seqZ 0 BOARD_ROWS)).
  { apply foldM_ext. intros st row Hrow%elem_of_seqZ. apply foldM_ext.
    intros [nb lc] col Hcol%elem_of_seqZ. subst F. cbn beta iota zeta.
    destruct (index_join row col) as (_ & Hd & Hm); [lia|lia|].
    unfold next_at. rewrite Hd, Hm, count_neighbors_spec, cell_at_in by lia. done. }
  change (seqZ 0 BOARD_ROWS) with (seqZ 0 (Z.of_nat 45)).
  rewrite foldM_nested by done. subst F.
  change (Z.of_nat 45 * BOARD_COLS) with SIZE.
  replace SIZE with (Z.of_nat (Z.to_nat SIZE)) by (rewrite Z2Nat.id; done).
  pose proof (foldM_fill_sum (next_at b) b 0 (Z.to_nat SIZE) ltac:(lia)) as H.
  erewrite foldM_ext; [erewrite H|]; [|by intros []].
  rewrite Z.add_0_l, drop_ge, app_nil_r by lia.
  unfold next_board. by rewrite Z2Nat.id.
Qed.

Lemma length_next_board b : length (next_board b) = Z.to_nat SIZE.
Proof. unfold next_board. by rewrite length_fmap, length_seqZ. Qed.

Lemma next_board_lookup b i :
  0 <= i < SIZE -> zlookup (next_board b) i = Some (next_at b i).
Proof.
  intros Hi. rewrite zlookup_nonneg by lia. unfold next_board.
  rewrite list_lookup_fmap, lookup_seqZ_lt by lia. simpl. f_equal. f_equal. lia.
Qed.

Lemma cell_at_next b row col :
  0 <= row < BOARD_ROWS -> 0 <= col < BOARD_COLS ->
  cell_at (next_board b) row col = next_cell (cell_at b row col) (neighbors b row col).
Proof.
  intros Hr Hc. destruct (index_join row col Hr Hc) as (Hi & Hd & Hm).
  pose proof (cell_at_in (next_board b) row col (length_next_board b) Hr Hc) as E.
  rewrite next_board_lookup in E by done. injection E as <-.
  unfold next_at. by rewrite Hd, Hm.
Qed.

Lemma next_board_ok b : board_ok (next_board b).
Proof.
  split; [apply length_next_board|]. apply Forall_forall. intros c.
  unfold next_board. intros (i & -> & _)%list_elem_of_fmap.
  unfold next_at, next_cell. repeat case_match; auto.
Qed.

Lemma cell_at_binary b row col :
  Forall (fun c => c = 0 \/ c = 1) b -> cell_at b row col = 0 \/ cell_at b row col = 1.
Proof.
  intros H. unfold cell_at. case_match; [|by left].
  destruct (zlookup b _) as [c|] eqn:E; [|by left]. simpl.
  unfold zlookup in E. case_match; [done|].
  rewrite Forall_lookup in H. by eapply H.
Qed.

Lemma neighbors_range b row col :
  Forall (fun c => c = 0 \/ c = 1) b -> 0 <= neighbors b row col <= 8.
Proof.
  intros H. unfold neighbors.
  pose proof (fun r c => cell_at_binary b r c H) as Hc.
  repeat match goal with |- context [cell_at b ?r ?c] =>
    let n := fresh "n" in
    pose proof (Hc r c); set (n := cell_at b r c) in *; clearbody n end.
  lia.
Qed.

Lemma next_cell_conway cell n :
  cell = 0 \/ cell = 1 -> next_cell cell n = if conway (cell =? 1) n then 1 else 0.
Proof.
  intros [-> | ->]; unfold next_cell, conway; simpl; [done|].
  zcases; simpl; try done; lia.
Qed.

(** *** Drawing *)

Lemma SIZE_nat : Z.of_nat (Z.to_nat SIZE) = SIZE.
Proof. by rewrite Z2Nat.id. Qed.

Lemma draw_board_spec b bk :
  length b = Z.to_nat SIZE -> length bk = Z.to_nat SIZE ->
  draw_board b bk = Some (glyphs b).
Proof.
  intros Hb Hk. unfold draw_board.
  set (g := fun i => if negb (default 0 (zlookup b i) =? 0) then 88 else 46).
  transitivity (foldM (fun l i => zupdate l i (g i)) bk (seqZ 0 SIZE)).
  { apply foldM_ext. intros s i Hi%elem_of_seqZ.
    destruct (zlookup_is_Some b i) as [c Hc]; [lia|]. subst g. simpl. by rewrite Hc. }
  rewrite <- SIZE_nat, foldM_fill by lia. rewrite drop_ge, app_nil_r by lia.
  f_equal. rewrite SIZE_nat. apply list_eq. intros i. unfold glyphs.
  rewrite !list_lookup_fmap.
  destruct (decide (i < Z.to_nat SIZE)%nat) as [Hi|Hi].
  - rewrite lookup_seqZ_lt by lia. destruct (lookup_lt_is_Some_2 b i) as [c Hc]; [lia|].
    rewrite Hc. simpl. subst g. simpl.
    rewrite zlookup_nonneg by lia. replace (Z.to_nat (0 + Z.of_nat i)) with i by lia.
    by rewrite Hc.
  - rewrite lookup_seqZ_ge by lia. rewrite (lookup_ge_None_2 b) by lia. done.
Qed.

(** What the comparison loop prints at an index. *)
Definition diff_at (front back : list Z) (i : Z) : list (Z * Z) :=
  match zlookup back i, zlookup front i with
  | Some b, Some f => if negb (b =? f) then [(i, b)] else []
  | _, _ => []
  end.

Lemma changed_spec front back :
  length front = Z.to_nat SIZE -> length back = Z.to_nat SIZE ->
  changed front back = Some (concat (diff_at front back <$> seqZ 0 SIZE)).
Proof.
  intros Hf Hb. unfold changed.
  transitivity (foldM (fun ops i => Some (ops ++ diff_at front back i)) [] (seqZ 0 SIZE)).
  { apply foldM_ext. intros s i Hi%elem_of_seqZ.
    destruct (zlookup_is_Some back i) as [b Eb]; [lia|].
    destruct (zlookup_is_Some front i) as [f Ef]; [lia|].
    unfold diff_at. rewrite Eb, Ef. case_match; [done|by rewrite app_nil_r]. }
  assert (forall l acc, foldM (fun ops i => Some (ops ++ diff_at front back i)) acc l =
    Some (acc ++ concat (diff_at front back <$> l))) as H; [|by rewrite H].
  induction l as [|i l IH]; intros acc; simpl; [by rewrite app_nil_r|].
  by rewrite IH, <- app_assoc.
Qed.






(** *** The initial board *)

Lemma init_board_spec b :
  length b = Z.to_nat SIZE -> init_board b = Some (replicate (Z.to_nat SIZE) 0).
Proof.
  intros Hl. unfold init_board.
  rewrite <- SIZE_nat, (foldM_fill (fun _ => 0)) by lia.
  rewrite drop_ge, app_nil_r by lia. apply (f_equal Some). rewrite SIZE_nat.
  apply list_eq. intros i. rewrite list_lookup_fmap.
  destruct (decide (i < Z.to_nat SIZE)%nat).
  - rewrite lookup_seqZ_lt by lia. by rewrite lookup_replicate_2.
  - rewrite lookup_seqZ_ge by lia. symmetry. apply lookup_replicate_None. lia.
Qed.

Lemma board_ok_zero : board_ok (replicate (Z.to_nat SIZE) 0).
Proof. split; [apply length_replicate|]. apply Forall_replicate. by left. Qed.

Lemma set_cell_ok b row col :
  board_ok b -> 0 <= row < BOARD_ROWS -> 0 <= col < BOARD_COLS ->
  exists b', set_cell b row col = Some b' /\ board_ok b'.
Proof.
  intros [Hl Hf] Hr Hc. unfold set_cell.
  destruct (index_join row col Hr Hc) as (Hi & _).
  rewrite zupdate_range by lia. eexists. split; [done|].
  split; [by rewrite length_insert|]. apply Forall_insert; [done|by right].
Qed.

Lemma set_cells_ok b l :
  board_ok b -> Forall (fun '(r, c) => 0 <= r < BOARD_ROWS /\ 0 <= c < BOARD_COLS) l ->
  exists b', foldM (fun b '(row, col) => set_cell b row col) b l = Some b' /\ board_ok b'.
Proof.
  intros Hb Hl. revert b Hb. induction Hl as [|[r c] l [Hr Hc] _ IH]; intros b Hb; [by exists b|].
  destruct (set_cell_ok b r c Hb Hr Hc) as (b' & E & Hb'). simpl. rewrite E. by apply IH.
Qed.

Lemma populate_board_ok b : board_ok b -> exists b', populate_board b = Some b' /\ board_ok b'.
Proof.
  intros Hb. apply set_cells_ok; [done|]. repeat constructor; unfold BOARD_ROWS, BOARD_COLS; lia.
Qed.

Lemma set_cells_setup b :
  length b = Z.to_nat SIZE ->
  exists b1 b2, init_board b = Some b1 /\ populate_board b1 = Some b2 /\ board_ok b2.
Proof.
  intros Hl. destruct (populate_board_ok _ board_ok_zero) as (b2 & E & Hb).
  exists (replicate (Z.to_nat SIZE) 0), b2. exact (conj (init_board_spec b Hl) (conj E Hb)).
Qed.

(** *** The frames *)

(** What every iteration finds and leaves. *)
Definition life_inv (w : life) : Prop :=
  board_ok (board w) /\ length (front w) = Z.to_nat SIZE /\ length (back w) = Z.to_nat SIZE.


Lemma length_glyphs b : length (glyphs b) = length b.
Proof. apply length_fmap. Qed.







(** *** One frame *)

(** The state once the differences have been printed. *)
Definition drawn (w : life) : life :=
  set_lsys (set_out (s_out (lsys w) ++
      draw_changed (concat (diff_at (front w) (glyphs (board w)) <$> seqZ 0 SIZE))) (lsys w))
    (set_back (glyphs (board w)) w).

(** What [read (STDIN_FILENO, &ch, 1)] does to the state. *)
Definition after_key (bs : list Z) (w : life) : life :=
  match bs with b :: _ => set_ch (schar b) w | [] => w end.

Lemma life_draw_eq w :
  life_inv w ->
  life_draw w =
    match sys_read 1 (lsys (drawn w)) with
    | (Ret (_, bs), s) =>
        let w' := after_key bs (set_lsys s (drawn w)) in (Ret (ch w' =? 27), w')
    | (Exit c, s) => (Exit c, set_lsys s (drawn w))
    | (Blocked, s) => (Blocked, set_lsys s (drawn w))
    | (Fault, s) => (Fault, set_lsys s (drawn w))
    end.
Proof.
  intros ([Hb _] & Hf & _). unfold life_draw. set (c27 := 27).
  mrun (eq_refl : modify (set_back (replicate (Z.to_nat SIZE) 46)) w = (Ret tt, _)).
  match goal with |- bind get _ ?x = _ => mrun (eq_refl : get x = (Ret x, x)) end.
  cbn [board back set_back]. rewrite draw_board_spec by (done || apply length_replicate).
  match goal with |- bind _ _ ?x = _ =>
    mrun (eq_refl : deref (Some (glyphs (board w))) x = (Ret (glyphs (board w)), x)) end.
  match goal with |- bind (modify ?f) _ ?x = _ =>
    mrun (eq_refl : modify f x = (Ret tt, f x)) end.
  cbn [front set_back]. rewrite changed_spec by (done || by rewrite length_glyphs).
  set (ops := concat _).
  match goal with |- bind _ _ ?x = _ => mrun (eq_refl : deref (Some ops) x = (Ret ops, x)) end.
  unfold bind at 1. cbn [printf modify]. fold (drawn w).
  unfold bind at 1, lsysc, zoom.
  match goal with |- context [sys_read 1 ?x] => change x with (lsys (drawn w)) end.
  destruct (sys_read 1 (lsys (drawn w))) as [[[n bs]|c| |] s] eqn:E; try done.
  by destruct bs.
Qed.

Lemma glyphs_ok b : board_ok b -> length (glyphs b) = Z.to_nat SIZE.
Proof. intros [H _]. by rewrite length_glyphs. Qed.

Lemma life_draw_inv w r w' :
  life_inv w -> life_draw w = (Ret r, w') ->
  life_inv w' /\ r = (ch w' =? 27) /\ board w' = board w /\ back w' = glyphs (board w) /\
  s_out (lsys w') = s_out (lsys w) ++
    draw_changed (concat (diff_at (front w) (glyphs (board w)) <$> seqZ 0 SIZE)).
Proof.
  intros Hi. rewrite life_draw_eq by done. destruct Hi as (Hb & Hf & Hk).
  destruct (sys_read 1 (lsys (drawn w))) as [[[n bs]|c| |] s] eqn:E; try done.
  assert (s_out s = s_out (lsys (drawn w))) as Ho.
  { unfold sys_read in E. by destruct (s_read (lsys (drawn w))) as [|[]]; simplify_eq. }
  cbv zeta. intros H. apply pair_equal_spec in H as [H <-]. injection H as <-.
  split; [|split; [done|]].
  - unfold life_inv. destruct bs; simpl; auto using glyphs_ok.
  - by destruct bs.
Qed.

Lemma life_advance_eq w :
  life_inv w ->
  life_advance w = (Ret tt,
    set_lsys (set_out (s_out (lsys w) ++
        status_line (generation w + 1) (sumZ (next_board (board w)))) (lsys w))
      (set_generation (generation w + 1) (set_living (sumZ (next_board (board w)))
        (set_board (next_board (board w)) (set_back (front w) (set_front (back w) w)))))).
Proof.
  intros ([Hb _] & _). unfold life_advance, bind, get, modify, deref.
  rewrite update_spec by done. done.
Qed.

Lemma life_advance_inv w w' : life_inv w -> life_advance w = (Ret tt, w') -> life_inv w'.
Proof.
  intros Hi. rewrite life_advance_eq by done. destruct Hi as (_ & Hf & Hk).
  intros H. apply pair_equal_spec in H as [_ <-].
  split; [apply next_board_ok|done].
Qed.

Lemma life_loop_triple f : triple life_inv (life_loop f) (fun _ w => life_inv w).
Proof.
  induction f as [|f IH]; [by intros w _|]. cbn [life_loop].
  apply (triple_bind _ (fun _ w => life_inv w)).
  - intros w Hw. destruct (life_draw w) as [[r|c| |] w'] eqn:E; try done.
    + by destruct (life_draw_inv _ _ _ Hw E).
    + rewrite life_draw_eq in E by done.
      pose proof (sys_read_safe 1 (lsys (drawn w))) as Hs.
      by destruct (sys_read 1 _) as [[[]|c| |] s].
  - intros [|]; [by apply triple_ret|].
    apply (triple_bind _ (fun _ w => life_inv w)); [|by intros []].
    intros w Hw. destruct (life_advance w) as [o w'] eqn:E.
    pose proof E as E'. rewrite life_advance_eq in E' by done.
    apply pair_equal_spec in E' as [<- _]. by eapply life_advance_inv.
Qed.

Lemma lsysc_safe {A} (m : M sys A) : safe m -> safe (lsysc m).
Proof. apply safe_zoom. Qed.
#[local] Hint Resolve lsysc_safe : stage0.

Lemma keeps_lsysc_board {A} (m : M sys A) : keeps board (lsysc m).
Proof. by apply keeps_zoom. Qed.
#[local] Hint Resolve keeps_lsysc_board : stage0.


Lemma life_boards_eq w b1 b2 :
  init_board (board w) = Some b1 -> populate_board b1 = Some b2 ->
  life_boards w = (Ret tt,
    set_lsys (set_out (s_out (lsys w) ++ esc "[2J" ++ esc "[?25l") (lsys w))
      (set_generation 1 (set_back (replicate (Z.to_nat SIZE) 46)
        (set_front (replicate (Z.to_nat SIZE) 46) (set_board b2 w))))).
Proof.
  intros E1 E2. unfold life_boards, bind, get, modify. rewrite E1. cbn [deref ret].
  by rewrite E2.
Qed.

Lemma life_boards_inv w :
  length (board w) = Z.to_nat SIZE ->
  exists w', life_boards w = (Ret tt, w') /\ life_inv w' /\
    front w' = replicate (Z.to_nat SIZE) 46.
Proof.
  intros Hl. destruct (set_cells_setup _ Hl) as (b1 & b2 & E1 & E2 & Hb).
  eexists. split; [exact (life_boards_eq _ _ _ E1 E2)|].
  split; [|done]. split; [done|]. split; apply length_replicate.
Qed.

Lemma keeps_attributes_board : keeps board life_attributes.
Proof. unfold life_attributes. keeps. Qed.

Lemma life_attributes_safe : safe life_attributes.
Proof. unfold life_attributes. safe. Qed.

Lemma life_setup_triple :
  triple (fun w => length (board w) = Z.to_nat SIZE) life_setup
    (fun _ w => life_inv w /\ front w = replicate (Z.to_nat SIZE) 46).
Proof.
  unfold life_setup. eapply (triple_bind _ (fun _ w => length (board w) = Z.to_nat SIZE)).
  - intros w Hw. pose proof (life_attributes_safe w) as Hs.
    pose proof (keeps_attributes_board w) as Hk.
    destruct (life_attributes w) as [[]]; simpl in *; try done. by rewrite Hk.
  - intros _ w Hw. by destruct (life_boards_inv w Hw) as (w' & -> & H).
Qed.

Lemma life_cleanup_safe flags : safe (life_cleanup flags).
Proof. unfold life_cleanup, printf. safe. Qed.

(** *** The terminal and the flags of standard input *)

(** What the loop never touches. *)
Definition ltty (w : life) : termios * Z * (termios * list (option Z)) :=
  (oldt w, stdin_flags w, tty_part (lsys w)).

Lemma keeps_lsysc_ltty {A} (m : M sys A) : keeps tty_part m -> keeps ltty (lsysc m).
Proof.
  intros H w. specialize (H (lsys w)). unfold lsysc, zoom.
  destruct (m (lsys w)) as [o s]. unfold ltty. simpl in *. by rewrite H.
Qed.

Lemma keeps_get {W V} (f : W -> V) : keeps f get.
Proof. by intros w. Qed.

Lemma keeps_printf_ltty bs : keeps ltty (printf bs).
Proof. by intros w. Qed.
#[local] Hint Resolve keeps_lsysc_ltty keeps_get keeps_printf_ltty : stage0.

Lemma keeps_life_draw_ltty : keeps ltty life_draw.
Proof. unfold life_draw. keeps. Qed.

Lemma keeps_life_advance_ltty : keeps ltty life_advance.
Proof. unfold life_advance. keeps. Qed.
#[local] Hint Resolve keeps_life_draw_ltty keeps_life_advance_ltty : stage0.

Lemma keeps_life_loop_ltty f : keeps ltty (life_loop f).
Proof. induction f as [|f IH]; cbn [life_loop]; keeps. Qed.

Lemma keeps_life_boards_ltty : keeps ltty life_boards.
Proof. unfold life_boards. keeps. Qed.

Lemma setup_attributes w :
  s_tc (lsys w) = [] ->
  life_attributes w = (Ret tt,
    set_lsys (set_tios (noncanonical (s_tios (lsys w))) (lsys w))
      (set_flags (Z.lor (stdin_flags w) O_NONBLOCK) (set_oldt (s_tios (lsys w)) w))).
Proof.
  intros H. unfold life_attributes, lsysc, bind, zoom, sys_tcgetattr, sys_tcsetattr.
  rewrite H. simpl. by rewrite H.
Qed.




(** *** Leaving the loop *)

(** An answer to one [read] that is not the escape key. *)
Definition quiet (ev : read_ev) : Prop :=
  match ev with
  | RErr _ | RData [] => True
  | RData [c] => schar c <> 27
  | RData _ => False
  end.

Lemma life_loop_escape pre t w f :
  life_inv w -> ch w <> 27 -> Forall quiet pre ->
  s_read (lsys w) = pre ++ RData [27] :: t -> (length pre < f)%nat ->
  exists w', life_loop f w = (Ret tt, w').
Proof.
  intros Hi Hc Hq. revert w f Hi Hc.
  induction Hq as [|ev pre Hev Hq IH]; intros w f Hi Hc Hr Hf;
    (destruct f as [|f]; [simpl in Hf; lia|]); cbn [life_loop];
    unfold bind at 1; rewrite life_draw_eq by done; unfold sys_read at 1;
    change (s_read (lsys (drawn w))) with (s_read (lsys w)); rewrite Hr.
  - eexists. exact eq_refl.
  - assert (forall w', life_inv w' -> ch w' <> 27 -> s_read (lsys w') = pre ++ RData [27] :: t ->
      exists w'', (life_advance ;;; life_loop f) w' = (Ret tt, w'')) as Hgo.
    { intros w' Hi' Hc' Hr'. mrun (life_advance_eq w' Hi').
      apply IH; [|done|done|simpl in Hf; lia].
      by eapply life_advance_inv, life_advance_eq. }
    pose proof Hi as (Hb & Hfr & Hk).
    assert (forall s c, life_inv (set_ch c (set_lsys s (drawn w)))) as Hid
      by (intros; repeat split; try apply Hb; [exact Hfr|by apply glyphs_ok]).
    destruct ev as [e|[|c [|]]]; cbn [app]; try done; cbv zeta;
      cbn [after_key take drop Z.to_nat Pos.to_nat Pos.iter_op Nat.add];
      rewrite (proj2 (Z.eqb_neq _ 27)) by done; apply Hgo; try done;
      exact (Hid _ (ch w)).
Qed.

Lemma main_returns pre t w fuel :
  s_tc (lsys w) = [] -> length (board w) = Z.to_nat SIZE -> ch w <> 27 ->
  Forall quiet pre -> s_read (lsys w) = pre ++ RData [27] :: t -> (length pre < fuel)%nat ->
  exists w', main fuel w = (Ret tt, w').
Proof.
  intros Htc Hl Hc Hq Hr Hf. unfold main, life_setup.
  mrun (eq_refl : gets stdin_flags w = (Ret (stdin_flags w), w)).
  rewrite bind_assoc. mrun (setup_attributes w Htc).
  match goal with |- exists _, bind _ _ ?x = _ => set (w1 := x) end.
  destruct (set_cells_setup (board w1) Hl) as (b1 & b2 & E1 & E2 & Hb).
  mrun (life_boards_eq w1 b1 b2 E1 E2).
  match goal with |- exists _, bind _ _ ?x = _ => set (w2 := x) end.
  destruct (life_loop_escape pre t w2 fuel) as (w3 & E3); [|exact Hc|done|exact Hr|done|].
  { split; [exact Hb|]. split; apply length_replicate. }
  mrun E3. unfold life_cleanup, lsysc, bind, zoom, modify, gets, sys_tcsetattr, printf.
  destruct (s_tc (lsys (set_flags (stdin_flags w) w3))) as [|[]]; by eexists.
Qed.

(** A state at the start of [main]. *)
Definition blank_life (reads : list read_ev) : life :=
  mk_life (replicate (Z.to_nat SIZE) 0) 0 [] [] 0 0 (mk_termios 0 0 0 0 []) 0
    (mk_sys 0 [] reads [] [] [] [] (mk_termios 0 0 0 10 (replicate 32 7)) []).

(** A state at the head of the loop. *)
Definition start_life (reads : list read_ev) : life :=
  set_front (replicate (Z.to_nat SIZE) 46) (set_back (replicate (Z.to_nat SIZE) 46)
    (blank_life reads)).

Lemma start_life_inv reads : life_inv (start_life reads).
Proof. split; [exact board_ok_zero|]. split; apply length_replicate. Qed.

(** ** Properties *)

(** C1: [update] computes the next generation of the README on the bounded
    board: every cell becomes what the rules say of it and of its eight
    neighbors (dead outside the board), no access leaves the board, the new
    board is again a board of zeroes and ones, and [living_cells] is the number
    of its populated cells. *)
Theorem update_conway b :
  board_ok b ->
  exists b' n, update b = Some (b', n) /\ board_ok b' /\
    n = Z.of_nat (length (filter (fun c => c = 1) b')) /\
    forall row col, 0 <= row < BOARD_ROWS -> 0 <= col < BOARD_COLS ->
      cell_at b' row col =
        if conway (cell_at b row col =? 1) (neighbors b row col) then 1 else 0.
Proof.
  intros [Hl Hb]. exists (next_board b), (sumZ (next_board b)).
  split; [by apply update_spec|]. split; [apply next_board_ok|]. split.
  - destruct (next_board_ok b) as [_ Hn]. induction Hn as [|c l Hc _ IH]; [done|].
    rewrite filter_cons. destruct Hc as [-> | ->]; simpl; unfold sumZ in *; simpl; lia.
  - intros row col Hr Hc. rewrite cell_at_next by done.
    by apply next_cell_conway, cell_at_binary.
Qed.

Lemma update_conway_witness :
  exists b' n, update (replicate (Z.to_nat SIZE) 0) = Some (b', n) /\ board_ok b' /\
    n = Z.of_nat (length (filter (fun c => c = 1) b')) /\
    forall row col, 0 <= row < BOARD_ROWS -> 0 <= col < BOARD_COLS ->
      cell_at b' row col =
        if conway (cell_at (replicate (Z.to_nat SIZE) 0) row col =? 1)
             (neighbors (replicate (Z.to_nat SIZE) 0) row col) then 1 else 0.
Proof. exact (update_conway _ board_ok_zero). Defined.

(** [count_neighbors] of a cell of the board never reads outside it, also
    on the edges, and returns the number of populated cells among the eight
    around it. *)
Theorem count_neighbors_correct b row col :
  board_ok b -> 0 <= row < BOARD_ROWS -> 0 <= col < BOARD_COLS ->
  count_neighbors b row col = Some (neighbors b row col) /\ 0 <= neighbors b row col <= 8.
Proof.
  intros [Hl Hb] Hr Hc. split; [by apply count_neighbors_spec|by apply neighbors_range].
Qed.

Lemma count_neighbors_correct_witness :
  count_neighbors (replicate (Z.to_nat SIZE) 0) 0 179 =
    Some (neighbors (replicate (Z.to_nat SIZE) 0) 0 179) /\
  0 <= neighbors (replicate (Z.to_nat SIZE) 0) 0 179 <= 8.
Proof.
  apply (count_neighbors_correct _ 0 179 board_ok_zero); unfold BOARD_ROWS, BOARD_COLS; lia.
Defined.



(** [main] never leaves its arrays, whatever the terminal answers. *)
Theorem life_never_faults fuel w :
  length (board w) = Z.to_nat SIZE -> fst (main fuel w) <> Fault.
Proof.
  intros Hl. unfold main.
  assert (triple (fun w => length (board w) = Z.to_nat SIZE)
    (life_setup ;;; life_loop fuel ;;; life_cleanup (stdin_flags w)) (fun _ _ => True)) as H.
  { eapply triple_bind; [apply life_setup_triple|]. intros [].
    apply (triple_bind _ (fun _ w => life_inv w)).
    - eapply triple_conseq; [apply life_loop_triple| |done]. by intros ? [].
    - intros [] w' _. pose proof (life_cleanup_safe (stdin_flags w) w').
      by destruct (life_cleanup _ w') as [[]]. }
  specialize (H w Hl). mrun (eq_refl : gets stdin_flags w = (Ret (stdin_flags w), w)).
  by destruct (bind _ _ w) as [[]].
Qed.

Lemma life_never_faults_witness : fst (main 3 (blank_life [RErr 11; RData [27]])) <> Fault.
Proof. apply (life_never_faults 3 (blank_life [RErr 11; RData [27]])). reflexivity. Defined.

(** When the loop is left, the terminal attributes and the flags of
    standard input are those the program was started with. *)
Theorem life_restores_terminal fuel w w' :
  s_tc (lsys w) = [] -> length (board w) = Z.to_nat SIZE -> main fuel w = (Ret tt, w') ->
  s_tios (lsys w') = s_tios (lsys w) /\ stdin_flags w' = stdin_flags w.
Proof.
  intros Htc Hl. unfold main, life_setup.
  mrun (eq_refl : gets stdin_flags w = (Ret (stdin_flags w), w)).
  rewrite bind_assoc. mrun (setup_attributes w Htc).
  match goal with |- bind _ _ ?x = _ -> _ => set (w1 := x) end.
  intros (u & w2 & Hb & (v & w3 & Hloop & Hc)%bind_inv_ret)%bind_inv_ret.
  pose proof (keeps_life_boards_ltty w1) as K1. rewrite Hb in K1.
  pose proof (keeps_life_loop_ltty fuel w2) as K2. rewrite Hloop in K2.
  simpl in K1, K2. rewrite K1 in K2. unfold ltty, tty_part in K2. subst w1.
  simpl in K2. injection K2 as Ho Hf Ht Htc3.
  revert Hc. unfold life_cleanup, lsysc, bind, zoom, modify, gets, sys_tcsetattr, printf.
  simpl. rewrite Htc3, Htc. intros [= <-]. simpl. by rewrite Ho.
Qed.

Lemma life_restores_terminal_witness :
  let w := blank_life [RErr 11; RData [65]; RData [27]] in
  exists w', main 3 w = (Ret tt, w') /\
    s_tios (lsys w') = s_tios (lsys w) /\ stdin_flags w' = stdin_flags w.
Proof.
  intros w. destruct (main_returns [RErr 11; RData [65]] [] w 3) as (w' & E).
  - exact eq_refl.
  - apply length_replicate.
  - discriminate.
  - repeat constructor. vm_compute. discriminate.
  - exact eq_refl.
  - simpl. lia.
  - exists w'. split; [exact E|].
    exact (life_restores_terminal 3 w w' eq_refl (length_replicate _ _) E).
Defined.

(** The escape key ends the program: however the earlier reads went (no
    input, or other keys), the run returns in the frame that reads it. *)
Theorem escape_ends_program pre t w fuel :
  s_tc (lsys w) = [] -> length (board w) = Z.to_nat SIZE -> ch w <> 27 ->
  Forall quiet pre -> s_read (lsys w) = pre ++ RData [27] :: t -> (length pre < fuel)%nat ->
  exists w', main fuel w = (Ret tt, w').
Proof. apply main_returns. Qed.

Lemma escape_ends_program_witness :
  exists w', main 3 (blank_life [RErr 11; RData [65]; RData [27]]) = (Ret tt, w').
Proof.
  apply (escape_ends_program [RErr 11; RData [65]] [] (blank_life [RErr 11; RData [65]; RData [27]]) 3).
  - exact eq_refl.
  - apply length_replicate.
  - discriminate.
  - repeat constructor. vm_compute. discriminate.
  - exact eq_refl.
  - simpl. lia.
Defined.

(** The self-test of [-t] passes, whatever the board holds before. *)
Theorem self_test_passes b : length b = Z.to_nat SIZE -> test b = Some true.
Proof.
  intros Hl. unfold test, test_board. rewrite init_board_spec by done. vm_compute. reflexivity.
Qed.

Lemma self_test_passes_witness : test (replicate (Z.to_nat SIZE) 7) = Some true.
Proof. apply (self_test_passes (replicate (Z.to_nat SIZE) 7)). apply length_replicate. Defined.

(** [ch] is read before anything is stored in it when the first [read]
    finds no input: with an indeterminate value of 27 the first frame is the
    last one although no key was pressed. *)
Theorem stale_key_leaves_loop w e t :
  life_inv w -> s_read (lsys w) = RErr e :: t -> ch w = 27 ->
  exists w', life_draw w = (Ret true, w').
Proof.
  intros Hi Hr Hc. rewrite life_draw_eq by done.
  assert (s_read (lsys (drawn w)) = RErr e :: t) as E by exact Hr.
  unfold sys_read at 1. rewrite E. cbv beta iota zeta. unfold after_key at 1.
  eexists. f_equal. apply (f_equal Ret), Z.eqb_eq, Hc.
Qed.

Lemma stale_key_leaves_loop_witness :
  exists w', life_draw (set_ch 27 (start_life [RErr 11])) = (Ret true, w').
Proof.
  apply (stale_key_leaves_loop (set_ch 27 (start_life [RErr 11])) 11 []).
  - exact (start_life_inv [RErr 11]).
  - exact eq_refl.
  - exact eq_refl.
Defined.
