(* ===== verification/Search.v ===== *)
(** * modern_c/control/binary_search.c

    Sequential and binary search in an array of doubles, with the text they
    print.  Doubles are the IEEE 754 numbers of the Standard Library's
    specification with 53 bits of precision, comparisons included: the theorems
    speak about NaN, zeros and infinities too. *)

From stdpp Require Import prelude list_numbers strings.
From Stdlib Require Import ZArith Lia.
From Stdlib Require Import SpecFloat.
From S2P Require Import Prelude CLib.
Open Scope Z_scope.

(** ** Doubles *)

Definition double : Type := spec_float.

Definition double_of (n : Z) : double := binary_normalize 53 1024 n 0 false.
(** The double nearest to [n / d], for small [n] and [d]. *)
Definition ratio (n d : Z) : double := SFdiv 53 1024 (double_of n) (double_of d).

(** What is written to the standard output. *)
Definition printf (t : list Z) : M (list Z) unit := modify (fun out => out ++ t).

(** ** The searches *)

(** [n] elements are left from index [i] on; [index] is an [int], [i] a [size_t]. *)
Fixpoint sequential_loop (n : nat) (val : double) (array : list double) (i iteratrions : Z) : M (list Z) (Z * Z) :=
  match n with
  | O => ret (-1, iteratrions)
  | S n =>
      let* iteratrions := deref (iadd iteratrions 1) in
      let* x := deref (zlookup array i) in
      if SFeqb x val then ret (wraps 32 i, iteratrions)
      else sequential_loop n val array (i + 1) iteratrions
  end.

Definition sequential_search (val : double) (array : list double) (size : Z) : M (list Z) Z :=
  let* ' (index, iteratrions) := sequential_loop (Z.to_nat size) val array 0 0 in
  printf (lit "interations done: " ++ print_d iteratrions ++ [10]) ;;;
  ret index.

Fixpoint binary_loop (fuel : nat) (val : double) (array : list double) (low high iteratrions : Z) : M (list Z) (option Z * Z) :=
  match fuel with
  | O => blocked
  | S fuel =>
      if low <=? high then
        let* iteratrions := deref (iadd iteratrions 1) in
        let* sum := deref (iadd low high) in
        let mid := Z.quot sum 2 in
        let* guess := deref (zlookup array mid) in
        if SFeqb guess val then ret (Some mid, iteratrions) else
        let* ' (low, high) :=
          (if SFltb val guess then let* h := deref (iadd mid (-1)) in ret (low, h)
           else let* l := deref (iadd mid 1) in ret (l, high)) in
        printf (lit "low:" ++ print_d low ++ lit " high:" ++ print_d high ++ [10]) ;;;
        binary_loop fuel val array low high iteratrions
      else ret (None, iteratrions)
  end.

Definition binary_search (val : double) (array : list double) (size : Z) : M (list Z) Z :=
  let* high := deref (iadd size (-1)) in
  let* ' (found, iteratrions) := binary_loop (S (Z.to_nat size)) val array 0 high 0 in
  match found with
  | Some mid => ret mid
  | None =>
      printf (lit "interations done: " ++ print_d iteratrions ++ [10]) ;;;
      ret (-1)
  end.

Definition arr : list double :=
  [ratio 5 10; ratio 12 10; ratio 27 10; ratio 34 10; ratio 44 10; ratio 56 10; ratio 62 10; ratio 78 10; ratio 88 10;
   ratio 91 10].

(** [fmt_g] is the text of a double under [%g]. *)
Definition main (fmt_g : double -> list Z) : M (list Z) Z :=
  let val := ratio 91 10 in
  let* index := binary_search val arr 10 in
  (if negb (index =? -1) then
     let* x := deref (zlookup arr index) in
     printf (lit "arr[" ++ print_d index ++ lit "] = " ++ fmt_g x ++ [10])
   else printf (fmt_g val ++ lit " not found" ++ [10])) ;;;
  ret 0.

(** ** The order of doubles *)

Definition is_nan (f : double) : bool := match f with S754_nan => true | _ => false end.

(** Doubles other than NaN are ordered like these triples. *)
Definition rank (f : double) : Z * Z * Z :=
  match f with
  | S754_nan => (0, 0, 0)
  | S754_zero _ => (0, 0, 0)
  | S754_infinity s => (if s then -2 else 2, 0, 0)
  | S754_finite false m e => (1, e, Zpos m)
  | S754_finite true m e => (-1, - e, Zneg m)
  end.

Definition lex (p q : Z * Z * Z) : comparison :=
  let '(a, b, c) := p in let '(a', b', c') := q in
  match a ?= a' with Eq => match b ?= b' with Eq => c ?= c' | r => r end | r => r end.

Lemma compare_rank f g : is_nan f = false -> is_nan g = false -> SFcompare f g = Some (lex (rank f) (rank g)).
Proof.
  assert (forall m m', Pos.compare_cont Eq m m' = (Zpos m ?= Zpos m')) as Hm by done.
  destruct f as [s|s| |s m e], g as [s'|s'| |s' m' e']; intros Hf Hg; try done; destruct s; try done; try (by destruct s').
  destruct s'; [|done]. unfold SFcompare, lex, rank. rewrite Z.compare_opp, (Z.compare_antisym e e'). by destruct (e ?= e').
Qed.

Lemma compare_nan f g : is_nan f = true \/ is_nan g = true -> SFcompare f g = None.
Proof. destruct f, g; cbn; intros [H|H]; try done; by destruct s. Qed.

(** A double above [v] is above everything below it. *)
Lemma above_not_equal v g x : SFltb v g = true -> SFleb g x = true -> SFeqb x v = false.
Proof.
  unfold SFltb, SFleb, SFeqb. destruct (is_nan v) eqn:Nv; [by rewrite (compare_nan v g) by auto|].
  destruct (is_nan g) eqn:Ng; [by rewrite (compare_nan v g) by auto|].
  destruct (is_nan x) eqn:Nx; [by rewrite (compare_nan x v) by auto|].
  rewrite !compare_rank by done. destruct (rank v) as [[v1 v2] v3], (rank g) as [[g1 g2] g3], (rank x) as [[x1 x2] x3].
  cbn. repeat (match goal with |- context [?a ?= ?b] => destruct (Z.compare_spec a b) end; try done; try lia).
Qed.

(** A double that is neither equal to [v] nor above it is not equal to anything below it. *)
Lemma below_not_equal v g x : SFltb v g = false -> SFeqb g v = false -> SFleb x g = true -> SFeqb x v = false.
Proof.
  unfold SFltb, SFleb, SFeqb. destruct (is_nan v) eqn:Nv; [by rewrite (compare_nan x v) by auto|].
  destruct (is_nan g) eqn:Ng; [by rewrite (compare_nan x g) by auto|].
  destruct (is_nan x) eqn:Nx; [by rewrite (compare_nan x g) by auto|].
  rewrite !compare_rank by done. destruct (rank v) as [[v1 v2] v3], (rank g) as [[g1 g2] g3], (rank x) as [[x1 x2] x3].
  cbn. repeat (match goal with |- context [?a ?= ?b] => destruct (Z.compare_spec a b) end; try done; try lia).
Qed.

Lemma equal_trans v x y : SFeqb x v = true -> SFeqb y v = true -> SFeqb x y = true.
Proof.
  unfold SFeqb. destruct (is_nan v) eqn:Nv; [by rewrite (compare_nan x v) by auto|].
  destruct (is_nan x) eqn:Nx; [by rewrite (compare_nan x v) by auto|].
  destruct (is_nan y) eqn:Ny; [by rewrite (compare_nan y v) by auto|].
  rewrite !compare_rank by done. destruct (rank v) as [[v1 v2] v3], (rank y) as [[g1 g2] g3], (rank x) as [[x1 x2] x3].
  cbn. repeat (match goal with |- context [?a ?= ?b] => destruct (Z.compare_spec a b) end; try done; try lia).
Qed.

Lemma less_not_equal x y : SFltb x y = true -> SFeqb x y = false.
Proof. unfold SFltb, SFeqb. by destruct (SFcompare x y) as [[]|]. Qed.

(** ** The loops *)

Section Loop.
Variables (val : double) (array : list double) (size : Z).
Hypothesis Hlen : Z.of_nat (length array) = size.

(** The elements outside [low], ..., [high] are not the value. *)
Definition excluded (low high : Z) : Prop :=
  forall i x, zlookup array i = Some x -> i < low \/ high < i -> SFeqb x val = false.

(** Sorted, which excludes NaN. *)
Definition sorted : Prop :=
  forall i j x y, i <= j -> zlookup array i = Some x -> zlookup array j = Some y -> SFleb x y = true.

Definition absent : Prop := forall i x, zlookup array i = Some x -> SFeqb x val = false.

Lemma mid_bounds low high : 0 <= low <= high -> low <= Z.quot (low + high) 2 <= high.
Proof.
  intros H. rewrite Z.quot_div_nonneg by lia. split; [apply Z.div_le_lower_bound|apply Z.div_le_upper_bound]; lia.
Qed.

(** One iteration. *)
Lemma binary_step fuel low high it out :
  0 <= low <= high -> high < size -> high < INT_MAX -> low + high <= INT_MAX -> 0 <= it < INT_MAX ->
  exists guess, zlookup array (Z.quot (low + high) 2) = Some guess /\
    binary_loop (S fuel) val array low high it out =
      if SFeqb guess val then (Ret (Some (Z.quot (low + high) 2), it + 1), out)
      else let '(l, h) := if SFltb val guess then (low, Z.quot (low + high) 2 - 1) else (Z.quot (low + high) 2 + 1, high) in
        binary_loop fuel val array l h (it + 1)
          (out ++ lit "low:" ++ print_d l ++ lit " high:" ++ print_d h ++ [10]).
Proof.
  intros Hlow Hhigh Hmax Hsum Hit. pose proof (mid_bounds low high Hlow) as Hm. set (mid := Z.quot (low + high) 2) in *.
  destruct (zlookup_is_Some array mid) as [guess Eg]; [lia|]. exists guess. split; [done|].
  cbn [binary_loop]. rewrite (proj2 (Z.leb_le low high)) by lia.
  rewrite iadd_int, bind_deref by (unfold is_int, INT_MIN, INT_MAX in *; lia).
  rewrite iadd_int, bind_deref by (unfold is_int, INT_MIN, INT_MAX in *; lia). cbv zeta. fold mid.
  rewrite Eg, bind_deref. destruct (SFeqb guess val); [done|].
  destruct (SFltb val guess); rewrite iadd_int by (unfold is_int, INT_MIN, INT_MAX in *; lia); reflexivity.
Qed.

Lemma binary_loop_correct fuel low high it out :
  sorted -> size <= 2 ^ 30 -> 0 <= low -> high < size -> high - low < Z.of_nat fuel - 1 ->
  0 <= it -> it + (high - low) < INT_MAX -> low <= high + 1 -> excluded low high ->
  exists found it' out', binary_loop fuel val array low high it out = (Ret (found, it'), out') /\
    match found with
    | Some i => exists x, zlookup array i = Some x /\ SFeqb x val = true
    | None => absent
    end.
Proof.
  intros Hs Hsize. revert low high it out. induction fuel as [|fuel IH]; intros low high it out Hl Hh Hf Hi Hit Hlh He; [lia|].
  destruct (Z.leb_spec low high) as [Hle|Hgt].
  - destruct (binary_step fuel low high it out) as (guess & Eg & ->);
      [lia|lia|unfold INT_MAX in *; change (2 ^ 30) with 1073741824 in *; lia..|].
    pose proof (mid_bounds low high ltac:(lia)) as Hm. set (mid := Z.quot (low + high) 2) in *.
    destruct (SFeqb guess val) eqn:Eq; [by eexists _, _, _; split; [done|exists guess]|].
    destruct (SFltb val guess) eqn:El; apply IH; try lia.
    + intros i x Ex [H|H]; [by apply (He i x Ex); left|].
      apply (above_not_equal val guess x El). by apply (Hs mid i); [lia|..].
    + intros i x Ex [H|H]; [|by apply (He i x Ex); right].
      apply (below_not_equal val guess x El Eq). by apply (Hs i mid); [lia|..].
  - cbn [binary_loop]. rewrite (proj2 (Z.leb_gt low high)) by done. eexists None, it, out. split; [done|].
    intros i x Ex. apply (He i x Ex). lia.
Qed.

(** The value is above every element: [high] stays, and the last sum is that of
    twice the last index. *)
Lemma binary_loop_climbs fuel low it out :
  (forall i x, zlookup array i = Some x -> SFltb x val = true) ->
  0 <= low <= size - 1 -> size - 1 - low < Z.of_nat fuel -> INT_MAX < 2 * (size - 1) -> size <= INT_MAX ->
  0 <= it -> it + (size - low) < INT_MAX ->
  fst (binary_loop fuel val array low (size - 1) it out) = Fault.
Proof.
  intros Hv. revert low it out. induction fuel as [|fuel IH]; intros low it out Hl Hf Hbig Hsz Hi Hit; [lia|].
  destruct (decide (low + (size - 1) <= INT_MAX)) as [Hsum|Hsum].
  - destruct (binary_step fuel low (size - 1) it out) as (guess & Eg & ->); [lia..|].
    pose proof (mid_bounds low (size - 1) ltac:(lia)) as Hm.
    assert (Z.quot (low + (size - 1)) 2 < size - 1) as Hm2.
    { rewrite Z.quot_div_nonneg by lia. apply Z.div_lt_upper_bound; lia. }
    set (mid := Z.quot _ 2) in *. pose proof (Hv _ _ Eg) as Hlt.
    rewrite (less_not_equal _ _ Hlt).
    assert (SFltb val guess = false) as ->.
    { revert Hlt. unfold SFltb. destruct (is_nan val) eqn:Nv; [by rewrite (compare_nan guess val) by auto|].
      destruct (is_nan guess) eqn:Ng; [by rewrite (compare_nan guess val) by auto|].
      rewrite !compare_rank by done. destruct (rank val) as [[v1 v2] v3], (rank guess) as [[g1 g2] g3]. cbn.
      repeat (match goal with |- context [?a ?= ?b] => destruct (Z.compare_spec a b) end; try done; try lia). }
    apply IH; lia.
  - cbn [binary_loop]. rewrite (proj2 (Z.leb_le low (size - 1))) by lia.
    rewrite iadd_int, bind_deref by (unfold is_int, INT_MIN, INT_MAX in *; lia).
    rewrite iadd_overflow by (unfold is_int; lia). done.
Qed.

End Loop.

Lemma sequential_loop_spec n val array i it out :
  0 <= i -> i + Z.of_nat n = Z.of_nat (length array) -> 0 <= it -> it + Z.of_nat n <= INT_MAX ->
  exists index it', sequential_loop n val array i it out = (Ret (index, it'), out) /\
    (index = -1 /\ (forall k x, zlookup array k = Some x -> i <= k -> SFeqb x val = false) \/
     exists k x, zlookup array k = Some x /\ SFeqb x val = true /\ index = wraps 32 k /\
       (forall m y, zlookup array m = Some y -> i <= m < k -> SFeqb y val = false)).
Proof.
  revert i it. induction n as [|n IH]; intros i it Hi Hn Hit Hm; cbn [sequential_loop].
  { exists (-1), it. split; [done|]. left. split; [done|]. intros k x Hk Hik.
    pose proof (zlookup_Some_range _ _ _ Hk). lia. }
  rewrite iadd_int, bind_deref by (unfold is_int, INT_MIN; lia).
  destruct (zlookup_is_Some array i) as [x Ex]; [lia|]. rewrite Ex, bind_deref.
  destruct (SFeqb x val) eqn:E.
  - exists (wraps 32 i), (it + 1). split; [done|]. right. exists i, x. repeat (split; [done|]). lia.
  - destruct (IH (i + 1) (it + 1)) as (index & it' & Er & Hc); [lia..|]. exists index, it'. split; [done|].
    destruct Hc as [[-> Ha]|(k & y & Ek & Hy & -> & Hf)]; [left|right].
    + split; [done|]. intros k y Ey Hk. destruct (decide (k = i)) as [->|]; [congruence|]. apply (Ha k); [done|lia].
    + exists k, y. repeat (split; [done|]). intros m z Ez Hmi.
      destruct (decide (m = i)) as [->|]; [congruence|]. apply (Hf m); [done|lia].
Qed.

Lemma binary_search_spec val array size out :
  Z.of_nat (length array) = size -> size <= 2 ^ 30 -> sorted array ->
  exists i out', binary_search val array size out = (Ret i, out') /\
    (i = -1 /\ absent val array \/ exists x, zlookup array i = Some x /\ SFeqb x val = true).
Proof.
  intros Hlen Hsize Hs. unfold binary_search. change (2 ^ 30) with 1073741824 in *.
  rewrite iadd_int, bind_deref by (unfold is_int, INT_MIN, INT_MAX; lia).
  destruct (binary_loop_correct val array size Hlen (S (Z.to_nat size)) 0 (size + -1) 0 out Hs) as (found & it & out' & E & Hf);
    try (unfold INT_MAX; change (2 ^ 30) with 1073741824); try lia.
  - intros i x Ex Hi. pose proof (zlookup_Some_range _ _ _ Ex). lia.
  - mrun E. destruct found as [i|].
    + exists i, out'. split; [done|by right].
    + eexists _, _. split; [reflexivity|by left].
Qed.

(** ** Properties *)

(** C34: in a sorted array of at most 2^30 doubles, which may hold an element
    more than once, both searches end, and the binary search stays in the array
    and its sums in [int]; both return -1 exactly when no element equals the
    value, and otherwise an index of one that does, the sequential search the
    first; in an array in strictly increasing order they return the same index. *)
Theorem searches_agree val array size out :
  Z.of_nat (length array) = size -> size <= 2 ^ 30 -> sorted array ->
  exists i j o1 o2, sequential_search val array size out = (Ret i, o1) /\ binary_search val array size out = (Ret j, o2) /\
    (i = -1 /\ j = -1 /\ absent val array \/
     i <= j /\ (exists x, zlookup array i = Some x /\ SFeqb x val = true) /\ (exists y, zlookup array j = Some y /\ SFeqb y val = true) /\
     forall k z, k < i -> zlookup array k = Some z -> SFeqb z val = false) /\
    ((forall a b x y, a < b -> zlookup array a = Some x -> zlookup array b = Some y -> SFltb x y = true) -> i = j).
Proof.
  intros Hlen Hsize Hs. destruct (binary_search_spec val array size out Hlen Hsize Hs) as (j & o2 & E2 & H2).
  change (2 ^ 30) with 1073741824 in *.
  destruct (sequential_loop_spec (Z.to_nat size) val array 0 0 out) as (i & it & E1 & H1); [unfold INT_MAX; lia..|].
  eexists i, j, _, o2. split; [unfold sequential_search; by mrun E1|]. split; [done|]. clear E1 E2.
  destruct H1 as [[-> Ha]|(k & x & Ex & Hx & Hi & Hf)], H2 as [[-> Ha']|(y & Ey & Hy)]; [by split; [left|]| | |].
  - pose proof (zlookup_Some_range _ _ _ Ey) as Hj. by rewrite (Ha _ _ Ey) in Hy by lia.
  - by rewrite (Ha' _ _ Ex) in Hx.
  - pose proof (zlookup_Some_range _ _ _ Ex) as Hk. pose proof (zlookup_Some_range _ _ _ Ey) as Hj.
    rewrite wraps_id in Hi by (cbn; lia). subst i. split.
    + right. split; [apply Z.nlt_ge; intros Hjk; by rewrite (Hf j y Ey) in Hy by lia|].
      split; [by exists x|]. split; [by exists y|]. intros m z Hm Ez. apply (Hf m z Ez).
      pose proof (zlookup_Some_range _ _ _ Ez). lia.
    + intros Hlt. pose proof (equal_trans val x y Hx Hy) as H. pose proof (equal_trans val y x Hy Hx) as H'.
      destruct (Z.lt_trichotomy k j) as [Hkj|[->|Hkj]]; [|done|].
      * by rewrite (less_not_equal _ _ (Hlt k j x y Hkj Ex Ey)) in H.
      * by rewrite (less_not_equal _ _ (Hlt j k y x Hkj Ey Ex)) in H'.
Qed.

(** With equal elements the two searches may return different ones. *)
Definition twos : list double := [ratio 1 1; ratio 2 1; ratio 2 1; ratio 2 1].

Lemma twos_sorted : sorted twos.
Proof.
  assert (forallb (fun i => forallb (fun j => negb (i <=? j) ||
    match zlookup twos i, zlookup twos j with Some x, Some y => SFleb x y | _, _ => true end) (seqZ 0 4)) (seqZ 0 4) = true)
    as H1 by (vm_compute; reflexivity).
  intros i j x y Hij Ex Ey. pose proof (zlookup_Some_range _ _ _ Ex : 0 <= i < 4) as Hix. pose proof (zlookup_Some_range _ _ _ Ey : 0 <= j < 4) as Hjy.
  rewrite forallb_forall in H1.
  specialize (H1 i (proj1 (list_elem_of_In _ _) (proj2 (elem_of_seqZ 0 4 i) ltac:(lia)))). rewrite forallb_forall in H1.
  specialize (H1 j (proj1 (list_elem_of_In _ _) (proj2 (elem_of_seqZ 0 4 j) ltac:(lia)))).
  rewrite Ex, Ey, (proj2 (Z.leb_le i j)) in H1 by done. exact H1.
Qed.

Lemma searches_agree_witness :
  exists i j o1 o2, sequential_search (ratio 2 1) twos 4 [] = (Ret i, o1) /\ binary_search (ratio 2 1) twos 4 [] = (Ret j, o2) /\
    (i = -1 /\ j = -1 /\ absent (ratio 2 1) twos \/
     i <= j /\ (exists x, zlookup twos i = Some x /\ SFeqb x (ratio 2 1) = true) /\ (exists y, zlookup twos j = Some y /\ SFeqb y (ratio 2 1) = true) /\
     forall k z, k < i -> zlookup twos k = Some z -> SFeqb z (ratio 2 1) = false) /\
    ((forall a b x y, a < b -> zlookup twos a = Some x -> zlookup twos b = Some y -> SFltb x y = true) -> i = j).
Proof. apply (searches_agree (ratio 2 1) twos 4 []); [reflexivity|vm_compute; discriminate|exact twos_sorted]. Defined.

(** [low + high] overflows an [int] in every array of more than 2^30
    elements that are all below the value: the last sum is twice the last index. *)
Theorem binary_search_overflows val array size out :
  Z.of_nat (length array) = size -> 2 ^ 30 < size <= INT_MAX - 1 ->
  (forall i x, zlookup array i = Some x -> SFltb x val = true) ->
  fst (binary_search val array size out) = Fault.
Proof.
  intros Hlen Hsize Hv. change (2 ^ 30) with 1073741824 in *. unfold binary_search.
  rewrite iadd_int, bind_deref by (unfold is_int, INT_MIN; lia).
  pose proof (binary_loop_climbs val array size Hlen (S (Z.to_nat size)) 0 0 out Hv) as H.
  unfold bind. replace (size + -1) with (size - 1) by lia.
  destruct (binary_loop _ _ _ _ _ _ _) as [o out'] eqn:E. cbn [fst] in H.
  rewrite H by (unfold INT_MAX in *; lia). done.
Qed.

Lemma binary_search_overflows_witness :
  fst (binary_search (ratio 1 1) (replicate (Z.to_nat (2 ^ 30 + 1)) (ratio 1 2)) (2 ^ 30 + 1) []) = Fault.
Proof.
  apply binary_search_overflows.
  - rewrite length_replicate. rewrite Z2Nat.id; [reflexivity|]. vm_compute. discriminate.
  - vm_compute. split; [reflexivity|discriminate].
  - intros i x Ex. destruct (zlookup_Some_range _ _ _ Ex) as [Hi _]. rewrite zlookup_nonneg in Ex by done.
    apply lookup_replicate in Ex as [-> _]. vm_compute. reflexivity.
Defined.

Example main_prints : main (fun _ => lit "9.1") [] =
  (Ret 0, lit "low:5 high:9" ++ [10] ++ lit "low:8 high:9" ++ [10] ++ lit "low:9 high:9" ++ [10] ++ lit "arr[9] = 9.1" ++ [10]).
Proof. vm_compute. reflexivity. Qed.
