(* ===== verification/Heron.v ===== *)
(** * modern_c/control/heron.c

    Heron's approximation of the inverse of each argument.  [strtod] and the
    texts of [printf] are parameters; the arithmetic is that of IEEE 754. *)

From stdpp Require Import prelude list_numbers strings.
From Stdlib Require Import ZArith Lia.
From Stdlib Require Import SpecFloat.
From S2P Require Import Prelude CLib Search.
Open Scope Z_scope.

Definition fmul : double -> double -> double := SFmul 53 1024.
Definition fsub : double -> double -> double := SFsub 53 1024.
Definition fadd : double -> double -> double := SFadd 53 1024.

Definition one : double := double_of 1.
Definition two : double := double_of 2.
Definition half : double := ratio 1 2.

(** lower and upper iteration limits centered around 1.0 *)
Definition eps1m01 : double := fsub one half.
Definition eps1p01 : double := fadd one half.
Definition eps1m24 : double := fsub one (ratio 1 (2 ^ 24)).
Definition eps1p24 : double := fadd one (ratio 1 (2 ^ 24)).

Section Program.
Variables (strtod : list Z -> option double) (fmt_g fmt_e : double -> list Z) (fmt_f12 : double -> list Z).

(** compute initial guess *)
Fixpoint guess_loop (fuel : nat) (a x : double) : M (list Z) double :=
  match fuel with
  | O => blocked
  | S fuel =>
      printf (lit "x=" ++ fmt_e x ++ [10]) ;;;
      let prod := fmul a x in
      if SFltb prod eps1m01 then guess_loop fuel a (fmul x two)
      else if SFltb eps1p01 prod then guess_loop fuel a (fmul x half)
      else ret x
  end.

(** Heron approximation *)
Fixpoint heron_loop (fuel : nat) (a x : double) : M (list Z) double :=
  match fuel with
  | O => blocked
  | S fuel =>
      let prod := fmul a x in
      if SFltb prod eps1m24 || SFltb eps1p24 prod then heron_loop fuel a (fmul x (fsub two prod))
      else ret x
  end.

Definition argument (fuel : nat) (arg : list Z) : M (list Z) unit :=
  match strtod arg with
  | Some a =>
      let* x := guess_loop fuel a one in
      let* x := heron_loop fuel a x in
      printf (lit "heron: a=" ++ fmt_e a ++ lit "," ++ [9] ++ lit "x=" ++ fmt_e x ++ lit "," ++ [9] ++ lit "a*x=" ++
        fmt_f12 (fmul a x) ++ [10])
  | None => printf (lit "cannot convert " ++ arg ++ lit " into double." ++ [10])
  end.

(** [fuel] bounds the turns of each loop. *)
Fixpoint arguments (fuel : nat) (args : list (list Z)) : M (list Z) unit :=
  match args with
  | [] => ret tt
  | arg :: args => argument fuel arg ;;; arguments fuel args
  end.

Definition main (fuel : nat) (args : list (list Z)) : M (list Z) Z :=
  printf (lit "eps1mo1 = " ++ fmt_g eps1m01 ++ [10]) ;;;
  arguments fuel args ;;;
  ret 0.

End Program.

(** ** Signs *)

(** Not NaN, with the sign [s]. *)
Definition signed (s : bool) (f : double) : Prop :=
  match f with S754_zero s' | S754_infinity s' | S754_finite s' _ _ => s' = s | S754_nan => False end.

Lemma shr_1_nonneg mrs : 0 <= shr_m mrs -> 0 <= shr_m (shr_1 mrs).
Proof. destruct mrs as [[|[p|p|]|p] r s]; cbn; lia. Qed.

Lemma iter_nonneg p mrs : 0 <= shr_m mrs -> 0 <= shr_m (iter_pos shr_1 p mrs).
Proof.
  revert mrs. induction p as [p IH|p IH|]; intros mrs H; cbn [iter_pos];
    repeat (first [apply IH | apply shr_1_nonneg]); done.
Qed.

Lemma shr_fexp_nonneg m e l : 0 <= m -> 0 <= shr_m (fst (shr_fexp 53 1024 m e l)).
Proof.
  intros Hm. unfold shr_fexp, shr. assert (0 <= shr_m (shr_record_of_loc m l)) by (by destruct l as [|[]]).
  destruct (_ - _); cbn [fst]; [done|by apply iter_nonneg|done].
Qed.

Lemma round_signed s m e l : 0 <= m -> signed s (binary_round_aux 53 1024 s m e l).
Proof.
  intros Hm. unfold binary_round_aux. pose proof (shr_fexp_nonneg m e l Hm) as H1.
  destruct (shr_fexp 53 1024 m e l) as [mrs' e']. cbn [fst] in H1.
  set (m2 := round_nearest_even _ _). assert (0 <= m2) as H2.
  { subst m2. unfold round_nearest_even. repeat case_match; lia. }
  pose proof (shr_fexp_nonneg m2 e' loc_Exact H2) as H3.
  destruct (shr_fexp 53 1024 m2 e' loc_Exact) as [mrs'' e'']. cbn [fst] in H3.
  destruct (shr_m mrs''); [done| |lia]. by destruct (_ <=? _).
Qed.

(** A product whose factors are not zero and infinity has the product of their signs. *)
Lemma mul_finite_signed s m e t x : signed t x -> signed (xorb s t) (fmul (S754_finite s m e) x).
Proof. destruct x as [s'|s'| |s' m' e']; cbn [signed]; intros Hs; try done; subst s'; try done. apply round_signed. lia. Qed.

Lemma mul_signed_finite s x t m e : signed s x -> signed (xorb s t) (fmul x (S754_finite t m e)).
Proof. destruct x as [s'|s'| |s' m' e']; cbn [signed]; intros Hs; try done; subst s'; try done. apply round_signed. lia. Qed.

Lemma negative_below f : signed true f -> SFltb f eps1m01 = true.
Proof.
  assert (exists m e, eps1m01 = S754_finite false m e) as (m & e & ->) by (vm_compute; eauto).
  by destruct f as [[]|[]| |[] ? ?].
Qed.

Lemma two_signed s x : signed s x -> signed s (fmul x two).
Proof.
  assert (exists m e, two = S754_finite false m e) as (m & e & ->) by (vm_compute; eauto).
  intros H. pose proof (mul_signed_finite s x false m e H) as H'. by rewrite xorb_false_r in H'.
Qed.

(** ** Properties *)

Lemma guess_diverges fmt_e fuel m e x out :
  signed false x -> fst (guess_loop fmt_e fuel (S754_finite true m e) x out) = Blocked.
Proof.
  revert x out. induction fuel as [|fuel IH]; intros x out Hx; [done|]. cbn [guess_loop].
  rewrite (bind_ret _ _ out tt (out ++ (lit "x=" ++ fmt_e x ++ [10]))) by done.
  rewrite negative_below by (by apply (mul_finite_signed true m e false)). apply IH. by apply two_signed.
Qed.

(** For a negative number the initial guess is doubled for ever, since its
    product with the number stays below the limit: the program does not get past
    such an argument, however many turns it is given. *)
Theorem heron_negative_diverges strtod fmt_g fmt_e fmt_f12 before arg after m e out :
  strtod arg = Some (S754_finite true m e) ->
  Forall (fun s => strtod s = None) before ->
  forall fuel, fst (main strtod fmt_g fmt_e fmt_f12 fuel (before ++ arg :: after) out) = Blocked.
Proof.
  intros Harg Hb fuel. unfold main. rewrite (bind_ret _ _ out tt (out ++ (lit "eps1mo1 = " ++ fmt_g eps1m01 ++ [10]))) by done.
  generalize (out ++ (lit "eps1mo1 = " ++ fmt_g eps1m01 ++ [10])). clear out.
  assert (forall out, fst (arguments strtod fmt_e fmt_f12 fuel (before ++ arg :: after) out) = Blocked) as H.
  - induction Hb as [|b before Hb _ IH]; intros out; cbn [app arguments].
    + unfold argument. rewrite Harg. pose proof (guess_diverges fmt_e fuel m e one out) as Hg.
      unfold bind. destruct (guess_loop _ _ _ _ out) as [o out']. cbn [fst] in Hg. by rewrite Hg.
    + unfold argument at 1. rewrite Hb. exact (IH _).
  - intros out. specialize (H out). unfold bind. destruct (arguments _ _ _ _ _ out) as [o out']. cbn [fst] in H. by rewrite H.
Qed.

(** The number minus one, after an argument that is not a number. *)
Lemma heron_negative_diverges_witness :
  fst (main (fun s => if bool_decide (s = lit "-1") then Some (SFopp one) else None)
    (fun _ => []) (fun _ => []) (fun _ => []) 100 ([lit "x"] ++ lit "-1" :: [lit "2"]) []) = Blocked.
Proof.
  assert (exists m e, SFopp one = S754_finite true m e) as (m & e & Hone) by (vm_compute; eauto).
  apply (heron_negative_diverges _ _ _ _ [lit "x"] (lit "-1") [lit "2"] m e []).
  - rewrite <- Hone. reflexivity.
  - repeat constructor.
Defined.

(** The inverse of four, after three doublings down. *)
Example heron_four :
  fst ((let* x := guess_loop (fun _ => []) 9 (double_of 4) one in heron_loop 9 (double_of 4) x) []) = Ret (ratio 1 4).
Proof. vm_compute. reflexivity. Qed.
