(* ===== verification/Vfs.v ===== *)
(** * Files, descriptors and processes

    What the programs under tlpi use of the kernel and of stdio, after POSIX: a
    program is a tree of calls ([prog]), so that the same program can be run
    alone ([run]) and interleaved with others ([pstep]).  A script in each
    process says which calls fail or transfer less than they were asked to. *)

From stdpp Require Import prelude list_numbers strings gmap.
From Stdlib Require Import ZArith Lia.
From S2P Require Import Prelude CLib.
Open Scope Z_scope.

(** ** Numbers of <fcntl.h>, <errno.h> and <unistd.h> *)

Definition O_RDONLY : Z := 0.
Definition O_WRONLY : Z := 1.
Definition O_RDWR : Z := 2.
Definition O_ACCMODE : Z := 3.
Definition O_CREAT : Z := 64.
Definition O_EXCL : Z := 128.
Definition O_TRUNC : Z := 512.
Definition O_APPEND : Z := 1024.

Definition S_IRUSR : Z := 256.
Definition S_IWUSR : Z := 128.
Definition S_IRGRP : Z := 32.
Definition S_IWGRP : Z := 16.
Definition S_IRWXG : Z := 56.
Definition S_IROTH : Z := 4.
Definition S_IWOTH : Z := 2.

Definition SEEK_SET : Z := 0.
Definition SEEK_CUR : Z := 1.
Definition SEEK_END : Z := 2.

Definition ENOENT : Z := 2.
Definition EBADF : Z := 9.
Definition ENOMEM : Z := 12.
Definition EACCES : Z := 13.
Definition EEXIST : Z := 17.
Definition EINVAL : Z := 22.
Definition EMFILE : Z := 24.
Definition EFBIG : Z := 27.
Definition ESPIPE : Z := 29.
Definition ERANGE : Z := 34.

Definition OPEN_MAX : Z := 1024.
Definition OFF_MAX : Z := 2 ^ 63 - 1.
Definition PTRDIFF_MAX : Z := 2 ^ 63 - 1.
Definition EXIT_SUCCESS : Z := 0.
Definition EXIT_FAILURE : Z := 1.

Definition flag (flags f : Z) : bool := negb (Z.land flags f =? 0).

(** ** The state *)

(** A regular file; a terminal or pipe, with what can be read from it and what
    was written to it. *)
Inductive inode :=
| Reg (mode : Z) (data : list Z)
| Tty (inp out : list Z).

(** An open file description: offset and flags are shared by the descriptors
    that refer to it. *)
Record ofd := mk_ofd { o_ino : Z; o_off : Z; o_flags : Z }.

Record kern := mk_kern {
  k_names : gmap (list Z) Z;
  k_inodes : gmap Z inode;
  k_ofds : gmap Z ofd
}.

(** What a call does: it works, it transfers at most [n + 1] bytes, or it fails. *)
Inductive verdict := Fine | Short (n : nat) | Fails (e : Z).

(** A process; what it wrote to the stdio streams. *)
Record proc := mk_proc {
  p_fds : gmap Z Z;
  p_errno : Z;
  p_env : list (list Z);
  p_script : list verdict;
  p_out : list Z;
  p_err : list Z
}.

Definition set_p_fds v p := mk_proc v (p_errno p) (p_env p) (p_script p) (p_out p) (p_err p).
Definition set_p_errno v p := mk_proc (p_fds p) v (p_env p) (p_script p) (p_out p) (p_err p).
Definition set_p_env v p := mk_proc (p_fds p) (p_errno p) v (p_script p) (p_out p) (p_err p).
Definition set_p_script v p := mk_proc (p_fds p) (p_errno p) (p_env p) v (p_out p) (p_err p).
Definition set_p_out v p := mk_proc (p_fds p) (p_errno p) (p_env p) (p_script p) v (p_err p).
Definition set_p_err v p := mk_proc (p_fds p) (p_errno p) (p_env p) (p_script p) (p_out p) v.

Definition set_k_names v k := mk_kern v (k_inodes k) (k_ofds k).
Definition set_k_inodes v k := mk_kern (k_names k) v (k_ofds k).
Definition set_k_ofds v k := mk_kern (k_names k) (k_inodes k) v.

Definition state : Type := proc * kern.

(** ** Lowest unused numbers *)

Fixpoint lowest_from {A} (fuel : nat) (m : gmap Z A) (n : Z) : Z :=
  match fuel with
  | O => n
  | S fuel => match m !! n with Some _ => lowest_from fuel m (n + 1) | None => n end
  end.

Definition lowest {A} (m : gmap Z A) (n : Z) : Z := lowest_from (size m) m n.

Lemma lowest_from_spec {A} fuel (m : gmap Z A) n :
  n <= lowest_from fuel m n /\ (forall i, n <= i < lowest_from fuel m n -> is_Some (m !! i)) /\
  (m !! lowest_from fuel m n = None \/ lowest_from fuel m n = n + Z.of_nat fuel).
Proof.
  revert n. induction fuel as [|fuel IH]; intros n; cbn [lowest_from].
  { split; [lia|]. split; [lia|right; lia]. }
  destruct (m !! n) as [x|] eqn:E.
  - destruct (IH (n + 1)) as (H1 & H2 & H3). split; [lia|]. split.
    + intros i Hi. destruct (decide (i = n)) as [->|]; [by rewrite E|]. apply H2. lia.
    + destruct H3 as [|H3]; [by left|right; lia].
  - split; [lia|]. split; [lia|by left].
Qed.

(** The lowest number from [n] on that is not used. *)
Lemma lowest_spec {A} (m : gmap Z A) n :
  n <= lowest m n /\ m !! lowest m n = None /\ forall i, n <= i < lowest m n -> is_Some (m !! i).
Proof.
  unfold lowest. destruct (lowest_from_spec (size m) m n) as (H1 & H2 & [H3|H3]); [done|].
  split; [done|]. split; [|done]. rewrite H3 in *.
  destruct (m !! (n + Z.of_nat (size m))) as [x|] eqn:E; [exfalso|done].
  assert (list_to_set (seqZ n (Z.of_nat (size m) + 1)) ⊆@{gset Z} dom m) as Hs.
  { intros i. rewrite elem_of_list_to_set, elem_of_seqZ, elem_of_dom. intros Hi.
    destruct (decide (i = n + Z.of_nat (size m))) as [->|]; [by rewrite E|]. apply H2. lia. }
  apply subseteq_size in Hs. rewrite size_list_to_set, length_seqZ, size_dom in Hs by apply NoDup_seqZ. lia.
Qed.

(** ** Calls *)

Inductive call : Type -> Type :=
| Open (path : list Z) (flags mode : Z) : call Z
| Read (fd n : Z) : call (Z * list Z)
| Write (fd : Z) (bs : list Z) : call Z
| Lseek (fd off whence : Z) : call Z
| Close (fd : Z) : call Z
| DupFd (fd min : Z) : call Z
| GetFl (fd : Z) : call Z
| Malloc (n : Z) : call bool
| Errno : call Z
| SetErrno (e : Z) : call unit
| Getenv (name : list Z) : call (option (list Z))
| Print (bs : list Z) : call unit
| PrintErr (bs : list Z) : call unit.

(** The next verdict. *)
Definition next_verdict (p : proc) : verdict * proc :=
  match p_script p with
  | [] => (Fine, p)
  | v :: s => (v, set_p_script s p)
  end.

Definition fail (e : Z) (p : proc) (k : kern) : Z * state := (-1, (set_p_errno e p, k)).

(** The description a descriptor refers to, with its number. *)
Definition descr (fd : Z) (p : proc) (k : kern) : option (Z * ofd) :=
  d ← p_fds p !! fd; o ← k_ofds k !! d; Some (d, o).

Definition readable (o : ofd) : bool := negb (Z.land (o_flags o) O_ACCMODE =? O_WRONLY).
Definition writable (o : ofd) : bool := negb (Z.land (o_flags o) O_ACCMODE =? O_RDONLY).

Definition set_off (d off : Z) (o : ofd) (k : kern) : kern :=
  set_k_ofds (<[d := mk_ofd (o_ino o) off (o_flags o)]> (k_ofds k)) k.

Definition set_inode (i : Z) (n : inode) (k : kern) : kern := set_k_inodes (<[i := n]> (k_inodes k)) k.

Definition limit (v : verdict) (l : list Z) : list Z :=
  match v with Short n => take (S n) l | _ => l end.

(** Writing at an offset: a gap is filled with zeros; writing nothing does nothing. *)
Definition pwrite (data : list Z) (off : Z) (bs : list Z) : list Z :=
  let n := Z.to_nat off in
  match bs with
  | [] => data
  | _ => take n (data ++ replicate (n - length data) 0) ++ bs ++ drop (n + length bs) data
  end.

(** The inode [open] is about, created or truncated when it has to be. *)
Definition open_inode (path : list Z) (flags mode : Z) (k : kern) : Z + Z * kern :=
  match k_names k !! path with
  | None =>
      if flag flags O_CREAT then
        let i := lowest (k_inodes k) 0 in
        inr (i, set_k_names (<[path := i]> (k_names k)) (set_inode i (Reg mode []) k))
      else inl ENOENT
  | Some i =>
      if flag flags O_CREAT && flag flags O_EXCL then inl EEXIST else
      inr (i, match k_inodes k !! i with
              | Some (Reg m _) =>
                  if flag flags O_TRUNC && negb (Z.land flags O_ACCMODE =? O_RDONLY) then set_inode i (Reg m []) k else k
              | _ => k
              end)
  end.

(** The flags that stay with the description. *)
Definition open_flags (flags : Z) : Z := Z.land flags (Z.lnot (Z.lor O_CREAT (Z.lor O_EXCL O_TRUNC))).

Definition do_open (path : list Z) (flags mode : Z) (p : proc) (k : kern) : Z * state :=
  let fd := lowest (p_fds p) 0 in
  if OPEN_MAX <=? fd then fail EMFILE p k else
  match open_inode path flags mode k with
  | inl e => fail e p k
  | inr (i, k) =>
      let d := lowest (k_ofds k) 0 in
      (fd, (set_p_fds (<[fd := d]> (p_fds p)) p, set_k_ofds (<[d := mk_ofd i 0 (open_flags flags)]> (k_ofds k)) k))
  end.

Definition do_read (v : verdict) (fd n : Z) (p : proc) (k : kern) : (Z * list Z) * state :=
  match descr fd p k with
  | Some (d, o) =>
      if readable o then
        match k_inodes k !! o_ino o with
        | Some (Reg _ data) =>
            let bs := limit v (take (Z.to_nat n) (drop (Z.to_nat (o_off o)) data)) in
            ((Z.of_nat (length bs), bs), (p, set_off d (o_off o + Z.of_nat (length bs)) o k))
        | Some (Tty inp out) =>
            let bs := limit v (take (Z.to_nat n) inp) in
            ((Z.of_nat (length bs), bs), (p, set_inode (o_ino o) (Tty (drop (length bs) inp) out) k))
        | None => ((-1, []), (set_p_errno EBADF p, k))
        end
      else ((-1, []), (set_p_errno EBADF p, k))
  | None => ((-1, []), (set_p_errno EBADF p, k))
  end.

Definition do_write (v : verdict) (fd : Z) (bs : list Z) (p : proc) (k : kern) : Z * state :=
  match descr fd p k with
  | Some (d, o) =>
      if writable o then
        match k_inodes k !! o_ino o with
        | Some (Reg m data) =>
            let off := if flag (o_flags o) O_APPEND then Z.of_nat (length data) else o_off o in
            let bs := limit v bs in
            if OFF_MAX <? off + Z.of_nat (length bs) then fail EFBIG p k else
            (Z.of_nat (length bs),
             (p, set_off d (off + Z.of_nat (length bs)) o (set_inode (o_ino o) (Reg m (pwrite data off bs)) k)))
        | Some (Tty inp out) =>
            let bs := limit v bs in
            (Z.of_nat (length bs), (p, set_inode (o_ino o) (Tty inp (out ++ bs)) k))
        | None => fail EBADF p k
        end
      else fail EBADF p k
  | None => fail EBADF p k
  end.

Definition do_lseek (fd off whence : Z) (p : proc) (k : kern) : Z * state :=
  match descr fd p k with
  | Some (d, o) =>
      match k_inodes k !! o_ino o with
      | Some (Reg _ data) =>
          let base := if whence =? SEEK_SET then Some 0 else if whence =? SEEK_CUR then Some (o_off o)
            else if whence =? SEEK_END then Some (Z.of_nat (length data)) else None in
          match base with
          | Some b =>
              if (b + off <? 0) || (OFF_MAX <? b + off) then fail EINVAL p k
              else (b + off, (p, set_off d (b + off) o k))
          | None => fail EINVAL p k
          end
      | _ => fail ESPIPE p k
      end
  | None => fail EBADF p k
  end.

(** A descriptor is given back even when [close] reports an error. *)
Definition do_close (v : verdict) (fd : Z) (p : proc) (k : kern) : Z * state :=
  match p_fds p !! fd with
  | Some _ =>
      let p := set_p_fds (delete fd (p_fds p)) p in
      match v with Fails e => fail e p k | _ => (0, (p, k)) end
  | None => fail EBADF p k
  end.

Definition do_dupfd (fd min : Z) (p : proc) (k : kern) : Z * state :=
  match p_fds p !! fd with
  | Some d =>
      if (min <? 0) || (OPEN_MAX <=? min) then fail EINVAL p k else
      let new := lowest (p_fds p) min in
      if OPEN_MAX <=? new then fail EMFILE p k else
      (new, (set_p_fds (<[new := d]> (p_fds p)) p, k))
  | None => fail EBADF p k
  end.

Definition do_getfl (fd : Z) (p : proc) (k : kern) : Z * state :=
  match descr fd p k with
  | Some (_, o) => (o_flags o, (p, k))
  | None => fail EBADF p k
  end.

(** The value of a variable in a list of [name=value]. *)
Fixpoint getenv_in (name : list Z) (env : list (list Z)) : option (list Z) :=
  match env with
  | [] => None
  | s :: env => if bool_decide (take (S (length name)) s = name ++ [61]) then Some (drop (S (length name)) s)
                else getenv_in name env
  end.

(** What the kernel and the library do for a call. *)
Definition answer {R} (c : call R) (s : state) : R * state :=
  let '(p, k) := s in
  match c in call R return R * state with
  | Errno => (p_errno p, s)
  | SetErrno e => (tt, (set_p_errno e p, k))
  | Getenv name => (getenv_in name (p_env p), s)
  | Print bs => (tt, (set_p_out (p_out p ++ bs) p, k))
  | PrintErr bs => (tt, (set_p_err (p_err p ++ bs) p, k))
  | Open path flags mode =>
      let '(v, p) := next_verdict p in
      match v with Fails e => fail e p k | _ => do_open path flags mode p k end
  | Read fd n =>
      let '(v, p) := next_verdict p in
      match v with Fails e => ((-1, []), (set_p_errno e p, k)) | _ => do_read v fd n p k end
  | Write fd bs =>
      let '(v, p) := next_verdict p in
      match v with Fails e => fail e p k | _ => do_write v fd bs p k end
  | Lseek fd off whence =>
      let '(v, p) := next_verdict p in
      match v with Fails e => fail e p k | _ => do_lseek fd off whence p k end
  | Close fd =>
      let '(v, p) := next_verdict p in do_close v fd p k
  | DupFd fd min =>
      let '(v, p) := next_verdict p in
      match v with Fails e => fail e p k | _ => do_dupfd fd min p k end
  | GetFl fd =>
      let '(v, p) := next_verdict p in
      match v with Fails e => fail e p k | _ => do_getfl fd p k end
  | Malloc n =>
      let '(v, p) := next_verdict p in
      match v with
      | Fails _ => (false, (set_p_errno ENOMEM p, k))
      | _ => if PTRDIFF_MAX <? n then (false, (set_p_errno ENOMEM p, k)) else (true, (p, k))
      end
  end.

(** ** Programs *)

(** [Halt] is [exit], [Crash] undefined behaviour, [Spent] the end of the fuel. *)
Inductive prog (A : Type) : Type :=
| Done (a : A)
| Halt (c : Z)
| Crash
| Spent
| Vis {R : Type} (c : call R) (k : R -> prog A).
Arguments Done {A} a.
Arguments Halt {A} c.
Arguments Crash {A}.
Arguments Spent {A}.
Arguments Vis {A R} c k.

Fixpoint pbind {A B} (p : prog A) (k : A -> prog B) : prog B :=
  match p with
  | Done a => k a
  | Halt c => Halt c
  | Crash => Crash
  | Spent => Spent
  | Vis c h => Vis c (fun r => pbind (h r) k)
  end.

Definition sys {R} (c : call R) : prog R := Vis c Done.

Declare Scope file_scope.
Notation "'let!' x ':=' p 'in' k" := (pbind p (fun x => k))
  (at level 10, x name, p at level 100, k at level 200,
   format "'[v' 'let!'  x  ':='  p  'in' '/' k ']'") : file_scope.
Notation "'let!' ' x ':=' p 'in' k" := (pbind p (fun y => match y with x => k end))
  (at level 10, x strict pattern, p at level 100, k at level 200) : file_scope.
Notation "p ;;! k" := (pbind p (fun _ => k)) (at level 199, right associativity) : file_scope.
Open Scope file_scope.

(** A program run alone. *)
Fixpoint run {A} (p : prog A) : M state A :=
  match p with
  | Done a => ret a
  | Halt c => exit_with c
  | Crash => fault
  | Spent => blocked
  | Vis c k => fun s => let '(r, s') := answer c s in run (k r) s'
  end.

Lemma run_bind {A B} (p : prog A) (k : A -> prog B) s :
  run (pbind p k) s = bind (run p) (fun a => run (k a)) s.
Proof.
  revert s. induction p as [a|c| | |R c h IH]; intros s; try done.
  cbn [pbind run]. unfold bind. cbn [run]. destruct (answer c s) as [r s']. apply IH.
Qed.

Lemma run_call {A R} (c : call R) (k : R -> prog A) s r s' :
  answer c s = (r, s') -> run (pbind (sys c) k) s = run (k r) s'.
Proof. intros E. cbn [sys pbind run]. by rewrite E. Qed.

Lemma run_ret {A B} (p : prog A) (k : A -> prog B) s a s' :
  run p s = (Ret a, s') -> run (pbind p k) s = run (k a) s'.
Proof. intros E. rewrite run_bind. by mrun E. Qed.

Lemma run_exit {A B} (p : prog A) (k : A -> prog B) s c s' :
  run p s = (Exit c, s') -> run (pbind p k) s = (Exit c, s').
Proof. intros E. rewrite run_bind. by rewrite (bind_exit _ _ _ _ _ E). Qed.

(** ** What the calls do *)

Lemma next_verdict_spec p :
  exists v p', next_verdict p = (v, p') /\ p_fds p' = p_fds p /\ p_out p' = p_out p /\
    (p_script p = [] -> v = Fine /\ p' = p).
Proof.
  unfold next_verdict. destruct (p_script p) as [|v s] eqn:E; [by exists Fine, p|].
  eexists v, _. split; [done|]. split; [done|]. split; [done|]. discriminate.
Qed.

Lemma limit_spec v l :
  exists r, l = limit v l ++ r /\ (limit v l = [] -> l = []) /\ (v = Fine -> limit v l = l).
Proof.
  destruct v as [|n|e]; cbn [limit].
  - exists []. by rewrite app_nil_r.
  - exists (drop (S n) l). split; [by rewrite take_drop|]. split; [by destruct l|done].
  - exists []. by rewrite app_nil_r.
Qed.

(** Descriptor [fd] refers to description [d], of the regular file [i] with the
    given contents. *)
Record opened (fd d i off flags mode : Z) (data : list Z) (p : proc) (k : kern) : Prop := {
  op_fd : p_fds p !! fd = Some d;
  op_ofd : k_ofds k !! d = Some (mk_ofd i off flags);
  op_inode : k_inodes k !! i = Some (Reg mode data);
  op_off : 0 <= off
}.

Lemma opened_descr fd d i off flags mode data p k :
  opened fd d i off flags mode data p k -> descr fd p k = Some (d, mk_ofd i off flags).
Proof. intros []. unfold descr. rewrite op_fd0. cbn. by rewrite op_ofd0. Qed.

Lemma opened_proc fd d i off flags mode data p p' k :
  opened fd d i off flags mode data p k -> p_fds p' = p_fds p -> opened fd d i off flags mode data p' k.
Proof. intros [] E. constructor; by rewrite ?E. Qed.

(** Another description moves. *)
Lemma opened_set_off fd d i off flags mode data p k d' o' off' :
  opened fd d i off flags mode data p k -> d' <> d -> opened fd d i off flags mode data p (set_off d' off' o' k).
Proof. intros [] Hne. constructor; try done. cbn. by rewrite lookup_insert_ne. Qed.

Lemma opened_set_inode fd d i off flags mode data p k i' n :
  opened fd d i off flags mode data p k -> i' <> i -> opened fd d i off flags mode data p (set_inode i' n k).
Proof. intros [] Hne. constructor; try done. cbn. by rewrite lookup_insert_ne. Qed.

(** Reading: an error, or the next bytes, none only at the end. *)
Lemma read_spec fd d i off flags mode data p k n :
  opened fd d i off flags mode data p k -> Z.land flags O_ACCMODE <> O_WRONLY -> 0 < n ->
  exists p', p_fds p' = p_fds p /\ p_out p' = p_out p /\
    (answer (Read fd n) (p, k) = ((-1, []), (p', k)) /\ p_script p <> [] \/
     exists bs r, drop (Z.to_nat off) data = bs ++ r /\ (bs = [] -> r = []) /\ Z.of_nat (length bs) <= n /\
       answer (Read fd n) (p, k) =
         ((Z.of_nat (length bs), bs), (p', set_off d (off + Z.of_nat (length bs)) (mk_ofd i off flags) k))) /\
    (p_script p = [] -> p' = p).
Proof.
  intros Ho Hr Hn. destruct (next_verdict_spec p) as (v & p1 & Ev & Hf & Hout & Hfine).
  pose proof (opened_descr _ _ _ _ _ _ _ _ _ (opened_proc _ _ _ _ _ _ _ _ _ _ Ho Hf)) as Hd.
  cbn [answer]. rewrite Ev.
  assert (readable (mk_ofd i off flags) = true) as Hrd by (unfold readable; cbn; by rewrite (proj2 (Z.eqb_neq _ _))).
  assert (forall v, exists bs r, drop (Z.to_nat off) data = bs ++ r /\ (bs = [] -> r = []) /\ Z.of_nat (length bs) <= n /\
    do_read v fd n p1 k = ((Z.of_nat (length bs), bs), (p1, set_off d (off + Z.of_nat (length bs)) (mk_ofd i off flags) k))) as H.
  { intros v'. unfold do_read. rewrite Hd, Hrd. cbn [o_ino o_off]. rewrite (op_inode _ _ _ _ _ _ _ _ _ Ho).
    set (l := take (Z.to_nat n) (drop (Z.to_nat off) data)). destruct (limit_spec v' l) as (r & El & Hl & _).
    exists (limit v' l), (r ++ drop (Z.to_nat n) (drop (Z.to_nat off) data)). split.
    { rewrite app_assoc, <- El. subst l. by rewrite take_drop. }
    split; [|split; [|done]].
    - intros E. specialize (Hl E). rewrite E in El. rewrite Hl in El. cbn in El. subst r. subst l.
      apply (f_equal length) in Hl. rewrite length_take in Hl. cbn [length app] in *.
      rewrite drop_ge by lia. done.
    - assert (length (limit v' l) <= length l)%nat by (rewrite El at 2; rewrite length_app; lia).
      subst l. rewrite length_take in *. lia. }
  destruct v as [|m|e].
  - exists p1. split; [done|]. split; [done|]. split; [right; exact (H Fine)|]. intros Hs. by apply Hfine.
  - exists p1. split; [done|]. split; [done|]. split; [right; exact (H (Short m))|]. intros Hs. by apply Hfine.
  - exists (set_p_errno e p1). split; [done|]. split; [done|].
    assert (p_script p <> []) as Hne by (intros Hs; by destruct (Hfine Hs)).
    split; [left; by split|]. done.
Qed.

(** Writing: an error, or some of the bytes, at the end when appending. *)
Lemma write_spec fd d i off flags mode data p k bs :
  opened fd d i off flags mode data p k -> Z.land flags O_ACCMODE <> O_RDONLY ->
  let at_ := if flag flags O_APPEND then Z.of_nat (length data) else off in
  exists p', p_fds p' = p_fds p /\ p_out p' = p_out p /\
    (answer (Write fd bs) (p, k) = (-1, (p', k)) /\
       (p_script p <> [] \/ OFF_MAX < at_ + Z.of_nat (length bs)) \/
     exists w r, bs = w ++ r /\ (w = [] -> bs = []) /\ (p_script p = [] -> r = []) /\
       answer (Write fd bs) (p, k) = (Z.of_nat (length w),
         (p', set_off d (at_ + Z.of_nat (length w)) (mk_ofd i off flags)
            (set_inode i (Reg mode (pwrite data at_ w)) k)))) /\
    (p_script p = [] -> at_ + Z.of_nat (length bs) <= OFF_MAX -> p' = p).
Proof.
  intros Ho Hr at_. destruct (next_verdict_spec p) as (v & p1 & Ev & Hf & Hout & Hfine).
  pose proof (opened_descr _ _ _ _ _ _ _ _ _ (opened_proc _ _ _ _ _ _ _ _ _ _ Ho Hf)) as Hd.
  cbn [answer]. rewrite Ev.
  assert (writable (mk_ofd i off flags) = true) as Hrd by (unfold writable; cbn; by rewrite (proj2 (Z.eqb_neq _ _))).
  assert (forall v', v' = v -> let w := limit v' bs in do_write v' fd bs p1 k =
    if OFF_MAX <? at_ + Z.of_nat (length w) then fail EFBIG p1 k else
    (Z.of_nat (length w), (p1, set_off d (at_ + Z.of_nat (length w)) (mk_ofd i off flags)
            (set_inode i (Reg mode (pwrite data at_ w)) k)))) as H.
  { intros v' _. unfold do_write. rewrite Hd, Hrd. cbn [o_ino o_off o_flags]. by rewrite (op_inode _ _ _ _ _ _ _ _ _ Ho). }
  destruct (limit_spec v bs) as (r & El & Hl & Hfull).
  assert (length (limit v bs) <= length bs)%nat by (rewrite El at 2; rewrite length_app; lia).
  destruct v as [|m|e].
  3: { exists (set_p_errno e p1). split; [done|]. split; [done|].
    assert (p_script p <> []) as Hne by (intros Hs; by destruct (Hfine Hs)). split; [left; split; [done|by left]|done]. }
  1, 2: rewrite (H _ eq_refl); cbv zeta;
    destruct (decide (OFF_MAX < at_ + Z.of_nat (length bs))) as [Hbig|Hok].
  - cbn [limit]. rewrite (proj2 (Z.ltb_lt _ _) Hbig). exists (set_p_errno EFBIG p1). split; [done|]. split; [done|].
    split; [left; split; [done|by right]|lia].
  - cbn [limit]. rewrite (proj2 (Z.ltb_ge OFF_MAX _)) by lia. exists p1. split; [done|]. split; [done|].
    split; [right|by intros Hs; destruct (Hfine Hs)].
    exists bs, []. by rewrite app_nil_r.
  - destruct (Z.ltb_spec OFF_MAX (at_ + Z.of_nat (length (limit (Short m) bs)))) as [Hlt|Hge].
    + exists (set_p_errno EFBIG p1). split; [done|]. split; [done|].
      split; [left; split; [done|by right]|intros Hs; by destruct (Hfine Hs)].
    + exists p1. split; [done|]. split; [done|]. split; [right|by intros Hs; destruct (Hfine Hs)].
      exists (limit (Short m) bs), r. split; [done|]. split; [done|]. split; [|done]. intros Hs. by destruct (Hfine Hs).
  - rewrite (proj2 (Z.ltb_ge OFF_MAX _)) by lia. exists p1. split; [done|]. split; [done|].
    split; [right|by intros Hs; destruct (Hfine Hs)].
    exists (limit (Short m) bs), r. split; [done|]. split; [done|]. split; [|done]. intros Hs. by destruct (Hfine Hs).
Qed.

Lemma lowest_le {A} (m : gmap Z A) n : lowest m n <= n + Z.of_nat (size m).
Proof.
  unfold lowest. generalize (size m) as fuel. intros fuel. revert n. induction fuel as [|fuel IH]; intros n; cbn [lowest_from]; [lia|].
  destruct (m !! n); [specialize (IH (n + 1))|]; lia.
Qed.

Lemma open_spec path flags mode p k i k1 :
  open_inode path flags mode k = inr (i, k1) ->
  exists p', p_out p' = p_out p /\
    (answer (Open path flags mode) (p, k) = (-1, (p', k)) /\ p_fds p' = p_fds p /\
       (p_script p <> [] \/ OPEN_MAX <= Z.of_nat (size (p_fds p))) \/
     exists fd d, 0 <= fd /\ p_fds p !! fd = None /\ k_ofds k1 !! d = None /\ p_fds p' = <[fd := d]> (p_fds p) /\
       (p_script p = [] -> p' = set_p_fds (<[fd := d]> (p_fds p)) p) /\
       answer (Open path flags mode) (p, k) =
         (fd, (p', set_k_ofds (<[d := mk_ofd i 0 (open_flags flags)]> (k_ofds k1)) k1))).
Proof.
  intros E. destruct (next_verdict_spec p) as (v & p1 & Ev & Hf & Hout & Hfine).
  cbn [answer]. rewrite Ev.
  assert (do_open path flags mode p1 k = if OPEN_MAX <=? lowest (p_fds p) 0 then fail EMFILE p1 k else
    (lowest (p_fds p) 0, (set_p_fds (<[lowest (p_fds p) 0 := lowest (k_ofds k1) 0]> (p_fds p)) p1,
       set_k_ofds (<[lowest (k_ofds k1) 0 := mk_ofd i 0 (open_flags flags)]> (k_ofds k1)) k1))) as Ed.
  { unfold do_open. by rewrite Hf, E. }
  destruct (lowest_spec (p_fds p) 0) as (H0 & Hfd & _). destruct (lowest_spec (k_ofds k1) 0) as (_ & Hd & _).
  pose proof (lowest_le (p_fds p) 0) as Hle.
  assert (p_script p <> [] \/ v = Fine /\ p1 = p) as Hcase by (destruct (p_script p); [right; by apply Hfine|by left]).
  destruct v as [|m|e]; [..|exists (set_p_errno e p1); split; [done|]; left; by destruct Hcase as [|[? _]]; [repeat split; auto|]].
  all: rewrite Ed; destruct (Z.leb_spec OPEN_MAX (lowest (p_fds p) 0));
    [exists (set_p_errno EMFILE p1); split; [done|]; left; split; [done|]; split; [done|right; lia]|].
  all: eexists; split; [|right; exists (lowest (p_fds p) 0), (lowest (k_ofds k1) 0); do 3 (split; [done|]); split; [|split; [|done]]];
    [done|done|intros Hs; by destruct (Hfine Hs) as [? ->]].
Qed.

(** What an open gives. *)
Lemma opened_new fd d i flags mode data p k1 p' :
  p_fds p' = <[fd := d]> (p_fds p) -> k_inodes k1 !! i = Some (Reg mode data) ->
  opened fd d i 0 flags mode data p' (set_k_ofds (<[d := mk_ofd i 0 flags]> (k_ofds k1)) k1).
Proof. intros Hf Hi. constructor; [rewrite Hf; apply lookup_insert_eq|apply lookup_insert_eq|done|done]. Qed.

(** Earlier descriptors and descriptions are kept. *)
Lemma opened_keep fd d i off flags mode data p k1 p' fd' d' o :
  opened fd d i off flags mode data p k1 -> p_fds p !! fd' = None -> k_ofds k1 !! d' = None ->
  p_fds p' = <[fd' := d']> (p_fds p) ->
  opened fd d i off flags mode data p' (set_k_ofds (<[d' := o]> (k_ofds k1)) k1).
Proof.
  intros [] Hf Hd E. constructor; [| |done|done].
  - rewrite E, lookup_insert_ne; [done|]. intros ->. congruence.
  - cbn. rewrite lookup_insert_ne; [done|]. intros ->. congruence.
Qed.

Lemma close_spec fd d p k :
  p_fds p !! fd = Some d ->
  exists r p', answer (Close fd) (p, k) = (r, (p', k)) /\ p_fds p' = delete fd (p_fds p) /\ p_out p' = p_out p /\
    (r = 0 \/ r = -1 /\ p_script p <> []) /\ (p_script p = [] -> p' = set_p_fds (delete fd (p_fds p)) p).
Proof.
  intros Hd. destruct (next_verdict_spec p) as (v & p1 & Ev & Hf & Hout & Hfine).
  cbn [answer]. rewrite Ev. unfold do_close. rewrite Hf, Hd.
  destruct v as [|m|e]; (eexists _, _; split; [reflexivity|]); (split; [done|]); (split; [done|]).
  1, 2: split; [by left|]; intros Hs; by destruct (Hfine Hs) as [? ->].
  split; [right; split; [done|]|]; intros Hs; by destruct (Hfine Hs).
Qed.

(** The regular file a name stands for. *)
Definition file_at (k : kern) (name : list Z) : option (list Z) :=
  i ← k_names k !! name; n ← k_inodes k !! i; match n with Reg _ data => Some data | Tty _ _ => None end.

(** The offset of [lseek] is in range. *)
Lemma lseek_spec fd d i off flags mode data p k delta whence base :
  opened fd d i off flags mode data p k ->
  base = (if whence =? SEEK_SET then Some 0 else if whence =? SEEK_CUR then Some off
          else if whence =? SEEK_END then Some (Z.of_nat (length data)) else None) ->
  exists p', p_fds p' = p_fds p /\ p_out p' = p_out p /\ (p_script p = [] -> (exists b, base = Some b /\ 0 <= b + delta <= OFF_MAX) -> p' = p) /\
    (answer (Lseek fd delta whence) (p, k) = (-1, (p', k)) /\
       (p_script p <> [] \/ (forall b, base = Some b -> ~ 0 <= b + delta <= OFF_MAX)) \/
     exists b, base = Some b /\ 0 <= b + delta <= OFF_MAX /\
       answer (Lseek fd delta whence) (p, k) = (b + delta, (p', set_off d (b + delta) (mk_ofd i off flags) k))).
Proof.
  intros Ho Hb. destruct (next_verdict_spec p) as (v & p1 & Ev & Hf & Hout & Hfine).
  pose proof (opened_descr _ _ _ _ _ _ _ _ _ (opened_proc _ _ _ _ _ _ _ _ _ _ Ho Hf)) as Hd.
  cbn [answer]. rewrite Ev.
  assert (do_lseek fd delta whence p1 k = match base with
      | Some b => if (b + delta <? 0) || (OFF_MAX <? b + delta) then fail EINVAL p1 k
                  else (b + delta, (p1, set_off d (b + delta) (mk_ofd i off flags) k))
      | None => fail EINVAL p1 k end) as E.
  { unfold do_lseek. rewrite Hd. cbn [o_ino o_off]. by rewrite (op_inode _ _ _ _ _ _ _ _ _ Ho), <- Hb. }
  assert (p_script p <> [] \/ v = Fine /\ p1 = p) as Hcase by (destruct (p_script p); [right; by apply Hfine|by left]).
  destruct v as [|m|e].
  3: { exists (set_p_errno e p1). assert (p_script p <> []) as Hs by by destruct Hcase as [|[? _]].
    split; [done|]. split; [done|]. split; [done|]. left. split; [done|by left]. }
  1, 2: rewrite E; destruct base as [b|]; [destruct (decide (0 <= b + delta <= OFF_MAX)) as [Hr|Hr]|].
  all: try (rewrite (proj2 (Z.ltb_ge (b + delta) 0)), (proj2 (Z.ltb_ge OFF_MAX (b + delta))) by lia; cbn [orb];
    exists p1; split; [done|]; split; [done|]; split; [intros Hs _; by destruct (Hfine Hs)|]; right; by exists b).
  all: try (assert ((b + delta <? 0) || (OFF_MAX <? b + delta) = true) as ->
    by (destruct (Z.ltb_spec (b + delta) 0), (Z.ltb_spec OFF_MAX (b + delta)); try done; lia)).
  all: exists (set_p_errno EINVAL p1); split; [done|]; split; [done|]; split;
    [intros _ (b' & Hb' & Hr'); congruence|left; split; [done|right; intros b' Hb']; congruence].
Qed.

(** Names stand for inodes. *)
Definition kern_ok (k : kern) : Prop := forall name i, k_names k !! name = Some i -> is_Some (k_inodes k !! i).

Definition regular_or_absent (k : kern) (name : list Z) : Prop :=
  forall i, k_names k !! name = Some i -> exists m data, k_inodes k !! i = Some (Reg m data).

Definition content (k : kern) (name : list Z) : list Z := default [] (file_at k name).

Definition truncates (flags : Z) : bool := flag flags O_TRUNC && negb (Z.land flags O_ACCMODE =? O_RDONLY).

(** Two names of the same inode. *)
Definition same_file (k : kern) (a b : list Z) : Prop := exists i, k_names k !! a = Some i /\ k_names k !! b = Some i.

(** Only inode [i], which [name] stands for now, was changed. *)
Record changes (name : list Z) (i : Z) (k k' : kern) : Prop := {
  ch_name : k_names k' !! name = Some i;
  ch_names : forall n, n <> name -> k_names k' !! n = k_names k !! n;
  ch_inodes : forall j, j <> i -> k_inodes k' !! j = k_inodes k !! j;
  ch_new : forall n, k_names k !! n = Some i -> k_names k !! name = Some i;
  ch_reg : forall inp out, k_inodes k !! i <> Some (Tty inp out)
}.

Lemma changes_other name i k k' n :
  changes name i k k' -> n <> name -> ~ same_file k n name -> file_at k' n = file_at k n.
Proof.
  intros [] Hn Hs. unfold file_at. rewrite ch_names0 by done. destruct (k_names k !! n) as [j|] eqn:E; [|done]. cbn.
  rewrite ch_inodes0; [done|]. intros ->. apply Hs. exists i. split; [done|]. by eapply ch_new0.
Qed.

Lemma changes_trans name i k1 k2 k3 :
  changes name i k1 k2 -> k_names k3 = k_names k2 -> (forall j, j <> i -> k_inodes k3 !! j = k_inodes k2 !! j) ->
  changes name i k1 k3.
Proof.
  intros [] En Ei. constructor; rewrite ?En; [done|done| |done|done]. intros j Hj. by rewrite Ei, ch_inodes0.
Qed.

(** Opening a file to write it, which creates it when it is absent. *)
Lemma open_create name flags mode k :
  kern_ok k -> regular_or_absent k name -> flag flags O_CREAT = true -> flag flags O_EXCL = false ->
  exists i m k1, open_inode name flags mode k = inr (i, k1) /\ changes name i k k1 /\ k_ofds k1 = k_ofds k /\
    k_inodes k1 !! i = Some (Reg m (if truncates flags then [] else content k name)).
Proof.
  intros Hk Hr Hc He. unfold open_inode. rewrite Hc, He. cbn [andb]. fold (truncates flags).
  destruct (k_names k !! name) as [i|] eqn:En.
  - destruct (Hr i En) as (m & data & Ei). rewrite Ei. exists i, m. unfold content, file_at. rewrite En. cbn. rewrite Ei. cbn.
    destruct (truncates flags); (eexists; split; [reflexivity|]); (split; [constructor|split]); try done; cbn;
      try (intros inp out; congruence).
    + intros j Hj. by rewrite lookup_insert_ne.
    + apply lookup_insert_eq.
  - destruct (lowest_spec (k_inodes k) 0) as (_ & Hi & _). set (i := lowest (k_inodes k) 0) in *.
    exists i, mode. eexists. split; [reflexivity|]. split; [constructor|split]; cbn; try done.
    + apply lookup_insert_eq.
    + intros n Hn. by rewrite lookup_insert_ne.
    + intros j Hj. by rewrite lookup_insert_ne.
    + intros n Hn. destruct (Hk n i Hn) as [x Hx]. congruence.
    + intros inp out. congruence.
    + rewrite lookup_insert_eq. unfold content, file_at. rewrite En. by destruct (truncates flags).
Qed.

Lemma open_existing name i flags mode k :
  k_names k !! name = Some i -> flag flags O_CREAT = false -> truncates flags = false ->
  open_inode name flags mode k = inr (i, k).
Proof.
  intros En Hc Ht. unfold open_inode. rewrite En, Hc. cbn [andb]. fold (truncates flags). rewrite Ht.
  by destruct (k_inodes k !! i) as [[]|].
Qed.

(** ** Contents *)

Lemma pwrite_cons data off bs :
  bs <> [] -> pwrite data off bs = take (Z.to_nat off) (data ++ replicate (Z.to_nat off - length data) 0) ++ bs ++
    drop (Z.to_nat off + length bs) data.
Proof. by destruct bs. Qed.

(** Overwriting behind a prefix. *)
Lemma pwrite_prefix pre old bs :
  pwrite (pre ++ old) (Z.of_nat (length pre)) bs = pre ++ bs ++ drop (length bs) old.
Proof.
  destruct (decide (bs = [])) as [->|Hne]; [done|]. rewrite pwrite_cons by done. rewrite Nat2Z.id, length_app.
  replace (length pre - (length pre + length old))%nat with 0%nat by lia. cbn [replicate]. rewrite app_nil_r.
  rewrite take_app_length. f_equal. f_equal. by rewrite <- drop_drop, drop_app_length.
Qed.

Lemma pwrite_end data bs : pwrite data (Z.of_nat (length data)) bs = data ++ bs.
Proof. pose proof (pwrite_prefix data [] bs) as H. by rewrite !app_nil_r, drop_nil, app_nil_r in H. Qed.

Lemma length_pwrite data off bs :
  0 <= off -> bs <> [] ->
  Z.of_nat (length (pwrite data off bs)) = Z.max (Z.of_nat (length data)) (off + Z.of_nat (length bs)).
Proof.
  intros H Hne. rewrite pwrite_cons by done. rewrite !length_app, length_take, length_app, length_replicate, length_drop. lia.
Qed.

(** ** Processes that run together *)

(** One call of one of the programs. *)
Inductive pstep {A} : list (prog A * proc) * kern -> list (prog A * proc) * kern -> Prop :=
| pstep_call i R (c : call R) h p p' k k' r l :
    l !! i = Some (Vis c h, p) -> answer c (p, k) = (r, (p', k')) ->
    pstep (l, k) (<[i := (h r, p')]> l, k').

(** The order of the calls of a schedule. *)
Fixpoint schedule {A} (order : list nat) (s : list (prog A * proc) * kern) : option (list (prog A * proc) * kern) :=
  match order with
  | [] => Some s
  | i :: order =>
      match fst s !! i with
      | Some (Vis c h, p) =>
          let '(r, (p', k')) := answer c (p, snd s) in schedule order (<[i := (h r, p')]> (fst s), k')
      | _ => None
      end
  end.

Lemma schedule_steps {A} order (s s' : list (prog A * proc) * kern) :
  schedule order s = Some s' -> rtc pstep s s'.
Proof.
  revert s. induction order as [|i order IH]; intros s H; cbn [schedule] in H; [by injection H as ->|].
  destruct (fst s !! i) as [[[a|c| | |R c h] p]|] eqn:E; try done.
  destruct (answer c (p, snd s)) as [r [p' k']] eqn:Ea. eapply rtc_l; [|by apply IH].
  destruct s as [l k]. by eapply pstep_call.
Qed.
