(* ===== verification/TlpiLib.v ===== *)
(** * tlpi/tlpi-dist/lib: errors and numbers

    The functions of error_functions.c and get_num.c that the programs under
    tlpi share.  A format and its arguments are the formatted text; the texts of
    the C library's errors and the table of names the build generates are the
    class [libc]. *)

From stdpp Require Import prelude list_numbers strings gmap.
From Stdlib Require Import ZArith Lia.
From S2P Require Import Prelude CLib Vfs.
Open Scope Z_scope.

Class libc := {
  strerror : Z -> list Z;
  (** [ename] of ename.c.inc, up to [MAX_ENAME] *)
  ename : list (list Z)
}.

(** ** error_functions.c *)

Section Errors.
Context `{libc}.

Definition BUF_SIZE : Z := 500.

(** [snprintf] into a buffer of [BUF_SIZE] bytes. *)
Definition fitted (t : list Z) : list Z := take (Z.to_nat (BUF_SIZE - 1)) t.

(** [abort] is seen as status 134 by a shell. *)
Definition SIGABRT_STATUS : Z := 134.

Definition terminate {A} : prog A :=
  let! s := sys (Getenv (lit "EF_DUMPCORE")) in
  match s with
  | Some (_ :: _) => Halt SIGABRT_STATUS
  | _ => Halt EXIT_FAILURE
  end.

Definition outputError (useErr : bool) (err : Z) (msg : list Z) : prog unit :=
  let userMsg := fitted msg in
  let errText :=
    if useErr then
      fitted (lit " [" ++ (if (0 <? err) && (err <? Z.of_nat (length ename)) then ename !!! Z.to_nat err else lit "?UNKNOWN?")
        ++ lit " " ++ strerror err ++ lit "]")
    else lit ":" in
  sys (PrintErr (fitted (lit "ERROR" ++ errText ++ lit " " ++ userMsg ++ [10]))).

Definition errMsg (msg : list Z) : prog unit :=
  let! savedErrno := sys Errno in
  outputError true savedErrno msg ;;!
  sys (SetErrno savedErrno).

Definition errExit {A} (msg : list Z) : prog A :=
  let! errno := sys Errno in
  outputError true errno msg ;;!
  terminate.

Definition errExitEN {A} (errnum : Z) (msg : list Z) : prog A :=
  outputError true errnum msg ;;!
  terminate.

Definition fatal {A} (msg : list Z) : prog A :=
  outputError false 0 msg ;;!
  terminate.

Definition usageErr {A} (msg : list Z) : prog A :=
  sys (PrintErr (lit "Usage: " ++ msg)) ;;!
  Halt EXIT_FAILURE.

Definition cmdLineErr {A} (msg : list Z) : prog A :=
  sys (PrintErr (lit "Command-line usage error: " ++ msg)) ;;!
  Halt EXIT_FAILURE.

End Errors.

(** ** strtol *)

Definition LONG_MAX : Z := 2 ^ 63 - 1.
Definition LONG_MIN : Z := - 2 ^ 63.

Definition digit36 (b : Z) : Z :=
  if (48 <=? b) && (b <=? 57) then b - 48
  else if (97 <=? b) && (b <=? 122) then b - 87
  else if (65 <=? b) && (b <=? 90) then b - 55
  else 36.

(** The digits of a base at the front, their value, and what follows. *)
Definition strtol_digits (base : Z) (l : list Z) : option (Z * list Z) :=
  match span (fun b => digit36 b <? base) l with
  | ([], _) => None
  | (ds, r) => Some (fold_left (fun a b => base * a + digit36 b) ds 0, r)
  end.

(** The base a number is written in, and its digits. *)
Definition strtol_base (base : Z) (l : list Z) : Z * list Z :=
  match l with
  | 48 :: x :: d :: r =>
      if ((base =? 0) || (base =? 16)) && ((x =? 120) || (x =? 88)) && (digit36 d <? 16) then (16, d :: r)
      else (if base =? 0 then 8 else base, l)
  | 48 :: _ => (if base =? 0 then 8 else base, l)
  | _ => (if base =? 0 then 10 else base, l)
  end.

(** The value, what [endptr] points to, and whether it was out of range;
    without digits [endptr] is the argument. *)
Definition strtol (arg : list Z) (base : Z) : Z * list Z * bool :=
  let l := snd (span isspace arg) in
  let '(neg, l) := match l with 45 :: l => (true, l) | 43 :: l => (false, l) | _ => (false, l) end in
  let '(base, l) := strtol_base base l in
  match strtol_digits base l with
  | None => (0, arg, false)
  | Some (n, r) =>
      let v := if neg then - n else n in
      if LONG_MAX <? v then (LONG_MAX, r, true) else if v <? LONG_MIN then (LONG_MIN, r, true) else (v, r, false)
  end.

(** The standard library's conversion without a test. *)
Definition atoi (s : list Z) : Z := wraps 32 (fst (fst (strtol s 10))).

(** ** get_num.c *)

Definition GN_NONNEG : Z := 1.
Definition GN_GT_0 : Z := 2.
Definition GN_ANY_BASE : Z := 64.
Definition GN_BASE_8 : Z := 128.
Definition GN_BASE_16 : Z := 256.

(** [name] is [None] for NULL. *)
Definition gnFail {A} (fname msg arg : list Z) (name : option (list Z)) : prog A :=
  sys (PrintErr (fname ++ lit " error")) ;;!
  (match name with Some name => sys (PrintErr (lit " (in " ++ name ++ lit ")")) | None => Done tt end) ;;!
  sys (PrintErr (lit ": " ++ msg ++ [10])) ;;!
  (if negb (bool_decide (arg = [])) then sys (PrintErr (lit "        offending text: " ++ arg ++ [10])) else Done tt) ;;!
  Halt EXIT_FAILURE.

Definition getNum (fname arg : list Z) (flags : Z) (name : option (list Z)) : prog Z :=
  (if bool_decide (arg = []) then gnFail fname (lit "null or empty string") arg name else Done tt) ;;!
  let base := if flag flags GN_ANY_BASE then 0 else if flag flags GN_BASE_8 then 8
    else if flag flags GN_BASE_16 then 16 else 10 in
  sys (SetErrno 0) ;;!
  let '(res, endptr, range) := strtol arg base in
  (if range then sys (SetErrno ERANGE) else Done tt) ;;!
  let! errno := sys Errno in
  (if negb (errno =? 0) then gnFail fname (lit "strtol() failed") arg name else Done tt) ;;!
  (if negb (bool_decide (endptr = [])) then gnFail fname (lit "nonnumeric characters") arg name else Done tt) ;;!
  (if flag flags GN_NONNEG && (res <? 0) then gnFail fname (lit "negative value not allowed") arg name else Done tt) ;;!
  (if flag flags GN_GT_0 && (res <=? 0) then gnFail fname (lit "value must be > 0") arg name else Done tt) ;;!
  Done res.

Definition getLong (arg : list Z) (flags : Z) (name : option (list Z)) : prog Z := getNum (lit "getLong") arg flags name.

Definition getInt (arg : list Z) (flags : Z) (name : option (list Z)) : prog Z :=
  let! res := getNum (lit "getInt") arg flags name in
  (if (INT_MAX <? res) || (res <? INT_MIN) then gnFail (lit "getInt") (lit "integer out of range") arg name else Done tt) ;;!
  Done (wraps 32 res).

(** ** Running them *)

(** Something was written to the standard error, and nothing else happened. *)
Definition diagnosed (p p' : proc) : Prop :=
  p_fds p' = p_fds p /\ p_out p' = p_out p /\ exists t, t <> [] /\ p_err p' = p_err p ++ t.

(** A program that ends with a diagnosis. *)
Definition refuses {A} (q : prog A) : Prop :=
  forall p k, exists p', run q (p, k) = (Exit EXIT_FAILURE, (p', k)) /\ diagnosed p p'.

Lemma refuses_bind {A B} (q : prog A) (h : A -> prog B) : refuses q -> refuses (pbind q h).
Proof. intros Hq p k. destruct (Hq p k) as (p' & E & Hd). exists p'. split; [|done]. by apply run_exit. Qed.

Lemma gnFail_refuses {A} fname msg arg name : refuses (gnFail fname msg arg name : prog A).
Proof.
  intros p k. unfold gnFail.
  destruct name as [name|], (bool_decide (arg = [])); (eexists; split; [reflexivity|]); (split; [done|]; split; [done|]);
    cbn [p_err set_p_err]; rewrite <- ?app_assoc; eexists; (split; [|reflexivity]); destruct fname; discriminate.
Qed.

Lemma set_errno_refuses {A} e (q : prog A) : refuses q -> refuses (sys (SetErrno e) ;;! q).
Proof. intros Hq p k. destruct (Hq (set_p_errno e p) k) as (p' & E & Hd). by exists p'. Qed.

(** A program that ends with a status other than success, after messages only. *)
Definition dies {A} (q : prog A) : Prop :=
  forall p k, exists c p', run q (p, k) = (Exit c, (p', k)) /\ c <> EXIT_SUCCESS /\ p_fds p' = p_fds p /\ p_out p' = p_out p.

Lemma dies_bind {A B} (q : prog A) (h : A -> prog B) : dies q -> dies (pbind q h).
Proof. intros Hq p k. destruct (Hq p k) as (c & p' & E & Hd). exists c, p'. split; [|done]. by apply run_exit. Qed.

Lemma terminate_dies {A} : dies (terminate : prog A).
Proof.
  intros p k. unfold terminate. cbn [sys pbind run answer].
  destruct (getenv_in (lit "EF_DUMPCORE") (p_env p)) as [[|b l]|]; eexists _, p; by split.
Qed.

Lemma print_err_dies {A} t (q : prog A) : dies q -> dies (sys (PrintErr t) ;;! q).
Proof. intros Hq p k. destruct (Hq (set_p_err (p_err p ++ t) p) k) as (c & p' & E & Hd). by exists c, p'. Qed.

Lemma errExit_dies `{libc} {A} msg : dies (errExit msg : prog A).
Proof.
  intros p k. unfold errExit. cbn [sys pbind run answer].
  apply (print_err_dies (A:=A) _ terminate terminate_dies p k).
Qed.

Lemma fatal_dies `{libc} {A} msg : dies (fatal msg : prog A).
Proof. apply print_err_dies, terminate_dies. Qed.

Lemma halt_dies {A} c : c <> EXIT_SUCCESS -> dies (Halt c : prog A).
Proof. intros Hc p k. by exists c, p. Qed.

Lemma usageErr_dies {A} msg : dies (usageErr msg : prog A).
Proof. by apply print_err_dies, halt_dies. Qed.

Lemma cmdLineErr_dies {A} msg : dies (cmdLineErr msg : prog A).
Proof. by apply print_err_dies, halt_dies. Qed.

#[export] Hint Resolve dies_bind terminate_dies print_err_dies errExit_dies fatal_dies usageErr_dies cmdLineErr_dies : stage0.

Lemma refuses_dies {A} (q : prog A) : refuses q -> dies q.
Proof. intros Hq p k. destruct (Hq p k) as (p' & E & Hf & Ho & _). by exists EXIT_FAILURE, p'. Qed.

(** *** Numbers *)

(** The text is a number of the base the flags ask for, in the range of [long]
    and of the flags. *)
Definition number_base (flags : Z) : Z :=
  if flag flags GN_ANY_BASE then 0 else if flag flags GN_BASE_8 then 8 else if flag flags GN_BASE_16 then 16 else 10.

Definition accepts (flags : Z) (arg : list Z) (v : Z) : Prop :=
  arg <> [] /\ strtol arg (number_base flags) = (v, [], false) /\
  (flag flags GN_NONNEG = true -> 0 <= v) /\ (flag flags GN_GT_0 = true -> 0 < v).

Lemma getNum_accepts fname arg flags name v p k :
  accepts flags arg v -> run (getNum fname arg flags name) (p, k) = (Ret v, (set_p_errno 0 p, k)).
Proof.
  intros (Hne & E & Hn & Hg). unfold getNum. rewrite bool_decide_eq_false_2 by done. cbn [pbind].
  fold (number_base flags). rewrite E. cbn [sys pbind run answer set_p_errno p_errno].
  change (negb (0 =? 0)) with false. rewrite bool_decide_eq_true_2 by done. cbn [negb pbind run].
  assert (flag flags GN_NONNEG && (v <? 0) = false) as ->.
  { destruct (flag flags GN_NONNEG); [|done]. apply Z.ltb_ge. by apply Hn. }
  assert (flag flags GN_GT_0 && (v <=? 0) = false) as ->.
  { destruct (flag flags GN_GT_0); [|done]. apply Z.leb_gt. by apply Hg. }
  done.
Qed.

Lemma getNum_refuses fname arg flags name :
  (forall v, ~ accepts flags arg v) -> refuses (getNum fname arg flags name).
Proof.
  intros Hno. unfold getNum. case_bool_decide as Hne; [by apply refuses_bind, gnFail_refuses|]. cbn [pbind].
  fold (number_base flags). destruct (strtol arg (number_base flags)) as [[v r] range] eqn:E.
  intros p k. cbn [sys pbind run answer]. destruct range.
  { cbn [sys pbind run answer set_p_errno p_errno]. change (negb (ERANGE =? 0)) with true. cbv iota.
    destruct (gnFail_refuses (A:=unit) fname (lit "strtol() failed") arg name (set_p_errno ERANGE (set_p_errno 0 p)) k)
      as (p' & Ep & Hd). exists p'. split; [by apply run_exit|done]. }
  cbn [sys pbind run answer set_p_errno p_errno]. change (negb (0 =? 0)) with false. cbn [pbind].
  assert (forall msg (h : prog Z), exists p', run (gnFail (A:=unit) fname msg arg name ;;! h) (set_p_errno 0 p, k) =
    (Exit EXIT_FAILURE, (p', k)) /\ diagnosed p p') as Hf.
  { intros msg h. destruct (gnFail_refuses (A:=unit) fname msg arg name (set_p_errno 0 p) k) as (p' & Ep & Hd).
    exists p'. split; [by apply run_exit|done]. }
  case_bool_decide as Hr; cbn [negb]; [subst r; cbn [pbind]|by apply Hf].
  destruct (flag flags GN_NONNEG && (v <? 0)) eqn:E1; [by apply Hf|]. cbn [pbind].
  destruct (flag flags GN_GT_0 && (v <=? 0)) eqn:E2; [by apply Hf|]. exfalso.
  apply (Hno v). split; [done|]. split; [done|].
  split; intros Hfl; rewrite Hfl in *; cbn [andb] in *; zbool; lia.
Qed.

Lemma getInt_run fname arg flags p k :
  (exists v, accepts flags arg v /\ is_int v /\ run (getInt arg flags fname) (p, k) = (Ret v, (set_p_errno 0 p, k))) \/
  (forall v, accepts flags arg v -> ~ is_int v) /\
  exists p', run (getInt arg flags fname) (p, k) = (Exit EXIT_FAILURE, (p', k)) /\ diagnosed p p'.
Proof.
  destruct (strtol arg (number_base flags)) as [[v r] range] eqn:E.
  destruct (decide (arg <> [] /\ r = [] /\ range = false /\ (flag flags GN_NONNEG = true -> 0 <= v) /\
    (flag flags GN_GT_0 = true -> 0 < v))) as [(Hne & -> & -> & Hn & Hg)|Hno].
  - assert (accepts flags arg v) as Ha by done.
    destruct (decide (is_int v)) as [Hv|Hv].
    + left. exists v. split; [done|]. split; [done|]. unfold getInt. rewrite (run_ret _ _ _ _ _ (getNum_accepts _ _ _ _ _ p k Ha)).
      unfold is_int in Hv. rewrite (proj2 (Z.ltb_ge INT_MAX v)), (proj2 (Z.ltb_ge v INT_MIN)) by lia.
      cbn [orb pbind run]. by rewrite wraps32_id.
    + right. split.
      { intros v' (_ & E' & _) Hv'. rewrite E in E'. injection E' as ->. done. }
      unfold getInt. rewrite (run_ret _ _ _ _ _ (getNum_accepts _ _ _ _ _ p k Ha)).
      assert ((INT_MAX <? v) || (v <? INT_MIN) = true) as ->.
      { unfold is_int in Hv. destruct (Z.ltb_spec INT_MAX v), (Z.ltb_spec v INT_MIN); try done. lia. }
      destruct (gnFail_refuses (A:=unit) (lit "getInt") (lit "integer out of range") arg fname (set_p_errno 0 p) k)
        as (p' & Ep & Hd). exists p'. split; [by apply run_exit|done].
  - right. assert (forall v', ~ accepts flags arg v') as Hna.
    { intros v' (H1 & E' & H2 & H3). rewrite E in E'. injection E' as -> -> ->. by apply Hno. }
    split; [by intros v' H'; destruct (Hna v')|].
    destruct (refuses_bind _ (fun res => (if (INT_MAX <? res) || (res <? INT_MIN)
      then gnFail (lit "getInt") (lit "integer out of range") arg fname else Done tt) ;;! Done (wraps 32 res))
      (getNum_refuses (lit "getInt") arg flags fname Hna) p k) as (p' & Ep & Hd). by exists p'.
Qed.

(** *** Decimal numbers *)

Lemma digit36_digit b : isdigit b = true -> digit36 b = digit_val b.
Proof.
  intros H%isdigit_spec. unfold digit36. by rewrite (proj2 (Z.leb_le 48 b)), (proj2 (Z.leb_le b 57)) by lia.
Qed.

Lemma strtol_digits_udec n r :
  0 <= n -> match r with [] => True | b :: _ => (digit36 b <? 10) = false end ->
  strtol_digits 10 (udec n ++ r) = Some (n, r).
Proof.
  intros Hn Hr. unfold strtol_digits. pose proof (udec_digits n Hn) as Hd.
  rewrite (span_all (fun b => digit36 b <? 10)); [| |done].
  2: { eapply Forall_impl; [exact Hd|]. intros b Hb. rewrite digit36_digit by done. apply isdigit_spec in Hb.
       unfold digit_val. apply Z.ltb_lt. lia. }
  assert (forall l a, Forall (fun b => isdigit b = true) l ->
    fold_left (fun a b => 10 * a + digit36 b) l a = fold_left (fun a b => 10 * a + digit_val b) l a) as Hfold.
  { clear. induction l as [|b l IH]; intros a Hd; [done|]. apply Forall_cons in Hd as [Hb Hd]. cbn [fold_left].
    rewrite digit36_digit by done. by apply IH. }
  specialize (Hfold (udec n) 0 Hd). fold (undec (udec n)) in Hfold. rewrite undec_udec in Hfold by done.
  destruct (udec n) as [|b l] eqn:E; [by destruct (udec_nonnil n)|]. by rewrite Hfold.
Qed.

Lemma strtol_base_udec base n r :
  0 <= n -> base = 10 \/ base = 0 /\ (0 < n) ->
  strtol_base base (udec n ++ r) = (10, udec n ++ r).
Proof.
  intros Hn Hb. destruct (decide (n = 0)) as [->|].
  - destruct Hb as [->|[? ?]]; [|lia]. change (udec 0) with [48]. cbn [app strtol_base].
    by destruct r as [|x [|y r]].
  - destruct (udec_lead n) as (b & l & -> & Hl); [lia|]. cbn [app strtol_base].
    assert ((if base =? 0 then 10 else base) = 10) as -> by (by destruct Hb as [->|[-> _]]).
    destruct b as [|b|b]; try lia. do 6 (destruct b as [b|b|]; try done; try lia).
Qed.

(** [strtol] reads back what [%ld] prints. *)
Lemma strtol_print_d n base r :
  LONG_MIN <= n <= LONG_MAX -> base = 10 \/ base = 0 /\ n <> 0 ->
  match r with [] => True | b :: _ => (digit36 b <? 10) = false end ->
  strtol (print_d n ++ r) base = (n, r, false).
Proof.
  intros Hn Hb Hr. unfold strtol, print_d. destruct (Z.ltb_spec n 0) as [Hlt|Hge].
  - cbn [app span isspace]. change (isspace 45) with false. cbv iota. cbn [snd].
    rewrite strtol_base_udec by lia. rewrite strtol_digits_udec by (done || lia). rewrite Z.opp_involutive.
    by rewrite (proj2 (Z.ltb_ge LONG_MAX n)), (proj2 (Z.ltb_ge n LONG_MIN)) by lia.
  - destruct (udec_head n Hge) as (b & l & E & Hbl).
    assert (snd (span isspace (udec n ++ r)) = udec n ++ r) as ->.
    { rewrite E. cbn [app]. by rewrite span_nil by by apply isspace_digit. }
    rewrite E. cbn [app]. assert (match b :: l ++ r with 45 :: l0 => (true, l0) | 43 :: l0 => (false, l0) | _ => (false, b :: l ++ r) end
      = (false, b :: l ++ r)) as ->.
    { destruct b as [|b|b]; try lia. do 6 (destruct b as [b|b|]; try done; try lia). }
    rewrite app_comm_cons, <- E. rewrite strtol_base_udec by lia.
    rewrite strtol_digits_udec by done.
    by rewrite (proj2 (Z.ltb_ge LONG_MAX n)), (proj2 (Z.ltb_ge n LONG_MIN)) by lia.
Qed.

Lemma strtol_zero base : base = 10 \/ base = 0 -> strtol (print_d 0) base = (0, [], false).
Proof. by intros [->| ->]. Qed.

Lemma strtol_any n base : LONG_MIN <= n <= LONG_MAX -> base = 10 \/ base = 0 -> strtol (print_d n) base = (n, [], false).
Proof.
  intros Hn Hb. destruct (decide (n = 0)) as [->|]; [by apply strtol_zero|].
  rewrite <- (app_nil_r (print_d n)). apply strtol_print_d; [done| |done]. destruct Hb as [->| ->]; [by left|by right].
Qed.

Lemma print_d_nonnil n : print_d n <> [].
Proof. unfold print_d. destruct (n <? 0); [done|apply udec_nonnil]. Qed.

(** ** Properties *)

(** C38: [getInt] gives the number an argument stands for exactly when all of it is
    a number in the base the flags ask for and in the ranges of [int] and of the
    flags; otherwise a diagnosis is written and the program ends with status 1. *)
Theorem get_int_checked arg flags name p k :
  (exists v, accepts flags arg v /\ is_int v /\ run (getInt arg flags name) (p, k) = (Ret v, (set_p_errno 0 p, k))) \/
  (forall v, accepts flags arg v -> ~ is_int v) /\
  exists p', run (getInt arg flags name) (p, k) = (Exit EXIT_FAILURE, (p', k)) /\ diagnosed p p'.
Proof. apply getInt_run. Qed.

(** [getLong] reads back every [long] printed in decimal, in the default base
    and in any base, when the flags allow its sign. *)
Theorem get_long_roundtrip n flags name p k :
  LONG_MIN <= n <= LONG_MAX -> number_base flags = 10 \/ number_base flags = 0 ->
  (flag flags GN_NONNEG = true -> 0 <= n) -> (flag flags GN_GT_0 = true -> 0 < n) ->
  run (getLong (print_d n) flags name) (p, k) = (Ret n, (set_p_errno 0 p, k)).
Proof.
  intros Hn Hb H1 H2. apply getNum_accepts. split; [apply print_d_nonnil|]. split; [by apply strtol_any|]. done.
Qed.

Definition no_proc : proc := mk_proc ∅ 0 [] [] [] [].
Definition no_kern : kern := mk_kern ∅ ∅ ∅.

Lemma get_long_roundtrip_witness :
  run (getLong (print_d (-9223372036854775808)) GN_ANY_BASE None) (no_proc, no_kern) =
    (Ret (-9223372036854775808), (set_p_errno 0 no_proc, no_kern)).
Proof.
  apply get_long_roundtrip.
  - split; vm_compute; discriminate.
  - by right.
  - vm_compute. discriminate.
  - vm_compute. discriminate.
Defined.

Example get_hex : fst (run (getInt (lit "0x1F") GN_ANY_BASE None) (no_proc, no_kern)) = Ret 31.
Proof. vm_compute. reflexivity. Qed.

Example get_junk : fst (run (getInt (lit "12k") 0 (Some (lit "size"))) (no_proc, no_kern)) = Exit 1 /\
  p_err (fst (snd (run (getInt (lit "12k") 0 (Some (lit "size"))) (no_proc, no_kern)))) =
    lit "getInt error (in size): nonnumeric characters" ++ [10] ++ lit "        offending text: 12k" ++ [10].
Proof. vm_compute. split; reflexivity. Qed.
