(* ===== verification/FileRun.v ===== *)
(** * Running programs on files

    What the programs of tlpi/fileio share: their arguments, and how a program
    that checks each call goes on, for every script of the calls. *)

From stdpp Require Import prelude list_numbers strings gmap.
From Stdlib Require Import ZArith Lia.
From S2P Require Import Prelude CLib Vfs TlpiLib.
Open Scope Z_scope.

(** [argv[i]]; past the end it is NULL. *)
Definition arg (argv : list (list Z)) (i : Z) : prog (list Z) :=
  match zlookup argv i with Some s => Done s | None => Crash end.

Definition argc (argv : list (list Z)) : Z := Z.of_nat (length argv).

(** [strcmp(argv[1], "--help") == 0] *)
Definition is_help (a : list Z) : bool := bool_decide (a = lit "--help").

(** [if (c) m;] where [m] does not return *)
Definition when (c : bool) (m : prog unit) : prog unit := if c then m else Done tt.

Definition rw_rw_rw : Z :=
  Z.lor S_IRUSR (Z.lor S_IWUSR (Z.lor S_IRGRP (Z.lor S_IWGRP (Z.lor S_IROTH S_IWOTH)))).

(** ** Running *)

Lemma run_when_no {A} (c : bool) m (h : prog A) s : c = false -> run (when c m ;;! h) s = run h s.
Proof. by intros ->. Qed.

Lemma run_when_dies {A} (c : bool) m (h : prog A) p k :
  c = true -> dies m ->
  exists e p', run (when c m ;;! h) (p, k) = (Exit e, (p', k)) /\ e <> EXIT_SUCCESS /\ p_fds p' = p_fds p /\ p_out p' = p_out p.
Proof.
  intros -> Hm. destruct (Hm p k) as (e & p' & E & Hd). exists e, p'. split; [|done]. by apply run_exit.
Qed.

(** A part of a program ended: with a failure, or as [Q] says. *)
Definition ended {A} (o : outcome A) (Q : A -> Prop) : Prop :=
  match o with Ret n => Q n | Exit c => c <> EXIT_SUCCESS | _ => False end.

(** Only the file written to changes. *)
Record kept (i : Z) (k k' : kern) : Prop := {
  kp_names : k_names k' = k_names k;
  kp_inodes : forall j, j <> i -> k_inodes k' !! j = k_inodes k !! j
}.

Lemma kept_refl i k : kept i k k.
Proof. done. Qed.

Lemma kept_trans i k1 k2 k3 : kept i k1 k2 -> kept i k2 k3 -> kept i k1 k3.
Proof. intros [] []. constructor; [congruence|]. intros j Hj. by rewrite kp_inodes1, kp_inodes0. Qed.

Lemma kept_off i d off o k : kept i k (set_off d off o k).
Proof. done. Qed.

Lemma kept_inode i n k : kept i k (set_inode i n k).
Proof. constructor; [done|]. intros j Hj. cbn. by rewrite lookup_insert_ne. Qed.

#[export] Hint Resolve kept_refl kept_off kept_inode : stage0.

(** Reading, and going on with what was read. *)
Lemma run_read {A} fd d i off flags mode data p k n (h : Z * list Z -> prog A) :
  opened fd d i off flags mode data p k -> Z.land flags O_ACCMODE <> O_WRONLY -> 0 < n ->
  exists p', p_fds p' = p_fds p /\ (p_script p = [] -> p' = p) /\
    (run (let! x := sys (Read fd n) in h x) (p, k) = run (h (-1, [])) (p', k) /\ p_script p <> [] \/
     exists bs r, drop (Z.to_nat off) data = bs ++ r /\ (bs = [] -> r = []) /\ Z.of_nat (length bs) <= n /\
       run (let! x := sys (Read fd n) in h x) (p, k) = run (h (Z.of_nat (length bs), bs))
         (p', set_off d (off + Z.of_nat (length bs)) (mk_ofd i off flags) k)).
Proof.
  intros Ho Hf Hn. destruct (read_spec _ _ _ _ _ _ _ p k n Ho Hf Hn) as (p' & Hp & _ & Hc & Hcalm).
  exists p'. split; [done|]. split; [done|]. destruct Hc as [[E Hs]|(bs & r & Ed & Hb & Hl & E)].
  - left. split; [|done]. by rewrite (run_call _ _ _ _ _ E).
  - right. exists bs, r. do 3 (split; [done|]). by rewrite (run_call _ _ _ _ _ E).
Qed.

(** Writing with a test of the result that fails for everything but a complete
    transfer. *)
Lemma run_write {A} fd d i off flags mode data p k bs (bad : Z -> bool) m (h : prog A) :
  opened fd d i off flags mode data p k -> Z.land flags O_ACCMODE <> O_RDONLY ->
  dies m -> bs <> [] -> bad (-1) = true ->
  (forall w r, bs = w ++ r -> w <> [] -> bad (Z.of_nat (length w)) = bool_decide (r <> [])) ->
  let at_ := if flag flags O_APPEND then Z.of_nat (length data) else off in
  at_ + Z.of_nat (length bs) <= OFF_MAX ->
  let q := let! n := sys (Write fd bs) in when (bad n) m ;;! h in
  exists p', p_fds p' = p_fds p /\
    ((exists e k', run q (p, k) = (Exit e, (p', k')) /\ e <> EXIT_SUCCESS /\ kept i k k' /\ p_script p <> []) \/
     run q (p, k) = run h (p', set_off d (at_ + Z.of_nat (length bs)) (mk_ofd i off flags)
            (set_inode i (Reg mode (pwrite data at_ bs)) k)) /\ (p_script p = [] -> p' = p)).
Proof.
  intros Ho Hf Hm Hbs Hbad1 Hbad at_ Hoff q. subst q.
  destruct (write_spec _ _ _ _ _ _ _ p k bs Ho Hf) as (p1 & Hp1 & _ & Hc & Hcalm). fold at_ in Hc, Hcalm.
  destruct Hc as [[E Hs]|(w & r & Ebs & Hw & Hr & E)]; rewrite (run_call _ _ _ _ _ E).
  - destruct (run_when_dies (bad (-1)) m h p1 k Hbad1 Hm) as (e & p2 & E2 & He & Hf2 & _).
    exists p2. split; [congruence|]. left. exists e, k. split; [done|]. split; [done|]. split; [done|].
    destruct Hs as [|]; [done|lia].
  - assert (w <> []) as Hwne by (intros ->; by specialize (Hw eq_refl)). specialize (Hbad w r Ebs Hwne).
    set (k1 := set_off _ _ _ _) in *. assert (kept i k k1) as Hk by (eapply kept_trans; [apply kept_inode|apply kept_off]).
    destruct (decide (r = [])) as [->|Hne].
    + rewrite app_nil_r in Ebs. subst w. exists p1. split; [done|]. right. split; [|intros Hs; by apply Hcalm].
      by apply run_when_no.
    + rewrite bool_decide_eq_true_2 in Hbad by done.
      destruct (run_when_dies _ m h p1 k1 Hbad Hm) as (e & p2 & E2 & He & Hf2 & _).
      exists p2. split; [congruence|]. left. exists e, k1. split; [done|]. split; [done|]. split; [done|].
      intros Hs. by apply Hr in Hs.
Qed.

Lemma run_open {A} path flags mode p k i k1 m (h : Z -> prog A) :
  open_inode path flags mode k = inr (i, k1) -> dies m ->
  let q := let! fd := sys (Open path flags mode) in when (fd =? -1) m ;;! h fd in
  exists p',
    ((exists e, run q (p, k) = (Exit e, (p', k)) /\ e <> EXIT_SUCCESS /\
       (p_script p <> [] \/ OPEN_MAX <= Z.of_nat (size (p_fds p)))) \/
     exists fd d, 0 <= fd /\ p_fds p !! fd = None /\ k_ofds k1 !! d = None /\ p_fds p' = <[fd := d]> (p_fds p) /\
       (p_script p = [] -> p' = set_p_fds (<[fd := d]> (p_fds p)) p) /\
       run q (p, k) = run (h fd) (p', set_k_ofds (<[d := mk_ofd i 0 (open_flags flags)]> (k_ofds k1)) k1)).
Proof.
  intros Hi Hm q. subst q. destruct (open_spec path flags mode p k i k1 Hi) as (p1 & _ & [(E & Hf & Hs)|H]).
  - rewrite (run_call _ _ _ _ _ E). destruct (run_when_dies (-1 =? -1) m (h (-1)) p1 k eq_refl Hm) as (e & p2 & E2 & He & _).
    exists p2. left. by exists e.
  - destruct H as (fd & d & Hfd & Hnf & Hnd & Hp & Hc & E). exists p1. right. exists fd, d. do 5 (split; [done|]).
    rewrite (run_call _ _ _ _ _ E). apply run_when_no. apply Z.eqb_neq. lia.
Qed.

Lemma run_close {A} fd d p k m (h : prog A) :
  p_fds p !! fd = Some d -> dies m ->
  let q := let! r := sys (Close fd) in when (r =? -1) m ;;! h in
  exists p', p_fds p' = delete fd (p_fds p) /\
    ((exists e, run q (p, k) = (Exit e, (p', k)) /\ e <> EXIT_SUCCESS /\ p_script p <> []) \/
     run q (p, k) = run h (p', k) /\ (p_script p = [] -> p_script p' = [])).
Proof.
  intros Hd Hm q. subst q. destruct (close_spec fd d p k Hd) as (r & p1 & E & Hf & _ & Hr & Hc).
  rewrite (run_call _ _ _ _ _ E). destruct Hr as [->|[-> Hs]].
  - exists p1. split; [done|]. right. split; [done|]. intros Hs. rewrite (Hc Hs). done.
  - destruct (run_when_dies (-1 =? -1) m h p1 k eq_refl Hm) as (e & p2 & E2 & He & Hf2 & _).
    exists p2. split; [congruence|]. left. by exists e.
Qed.

(** The status a program ends with, by [exit] or by returning from [main]. *)
Definition outcome_status (r : outcome Z * state) (c : Z) (p' : proc) (k' : kern) : Prop :=
  r = (Ret c, (p', k')) \/ r = (Exit c, (p', k')).

(** Both descriptors are closed at the end. *)
Lemma run_close_two {A} fd1 d1 fd2 d2 p k m1 m2 (h : prog A) :
  p_fds p !! fd1 = Some d1 -> p_fds p !! fd2 = Some d2 -> fd1 <> fd2 -> dies m1 -> dies m2 ->
  let q := let! r := sys (Close fd1) in when (r =? -1) m1 ;;!
           let! r := sys (Close fd2) in when (r =? -1) m2 ;;! h in
  exists p', (exists e, run q (p, k) = (Exit e, (p', k)) /\ e <> EXIT_SUCCESS /\ p_script p <> []) \/
    run q (p, k) = run h (p', k).
Proof.
  intros H1 H2 Hne Hm1 Hm2 q. subst q.
  destruct (run_close fd1 d1 p k m1 (let! r := sys (Close fd2) in when (r =? -1) m2 ;;! h) H1 Hm1)
    as (p1 & Hp1 & [(e & -> & He & Hs)|[-> Hc1]]); [exists p1; left; by exists e|].
  destruct (run_close fd2 d2 p1 k m2 h) as (p2 & Hp2 & [(e & -> & He & Hs)|[-> Hc2]]); [| done | |].
  - by rewrite Hp1, lookup_delete_ne.
  - exists p2. left. exists e. split; [done|]. split; [done|]. intros Hs'. by rewrite Hc1 in Hs.
  - exists p2. by right.
Qed.

Lemma same_file_refl k a i : k_names k !! a = Some i -> same_file k a a.
Proof. intros E. by exists i. Qed.

(** Only the file [new] stands for may have changed. *)
Definition only_changed (new : list Z) (k k' : kern) : Prop :=
  forall n, n <> new -> ~ same_file k n new -> file_at k' n = file_at k n.

Lemma only_changed_kept new i k k1 k2 : changes new i k k1 -> kept i k1 k2 -> only_changed new k k2.
Proof.
  intros Hc [En Ei] n Hn Hs. apply (changes_other new i); [|done..]. by apply (changes_trans _ _ _ k1).
Qed.

Lemma only_changed_same new k k' : k_names k' = k_names k -> k_inodes k' = k_inodes k -> only_changed new k k'.
Proof. intros E1 E2 n _ _. unfold file_at. by rewrite E1, E2. Qed.

Lemma file_at_written new i m data k k1 k2 :
  changes new i k k1 -> kept i k1 k2 -> k_inodes k2 !! i = Some (Reg m data) -> file_at k2 new = Some data.
Proof. intros Hc Hk Ei. unfold file_at. rewrite (kp_names _ _ _ Hk), (ch_name _ _ _ _ Hc). cbn. by rewrite Ei. Qed.

(** Neither failures nor partial transfers, and room for [n] more descriptors. *)
Definition calm (n : Z) (p : proc) : Prop := p_script p = [] /\ Z.of_nat (size (p_fds p)) + n <= OPEN_MAX.

Lemma run_lseek {A} fd d i off flags mode data p k delta whence b m (h : Z -> prog A) :
  opened fd d i off flags mode data p k ->
  (if whence =? SEEK_SET then Some 0 else if whence =? SEEK_CUR then Some off
   else if whence =? SEEK_END then Some (Z.of_nat (length data)) else None) = Some b ->
  0 <= b + delta <= OFF_MAX -> dies m ->
  let q := let! r := sys (Lseek fd delta whence) in when (r =? -1) m ;;! h r in
  exists p', p_fds p' = p_fds p /\
    ((exists e, run q (p, k) = (Exit e, (p', k)) /\ e <> EXIT_SUCCESS /\ p_script p <> []) \/
     run q (p, k) = run (h (b + delta)) (p', set_off d (b + delta) (mk_ofd i off flags) k) /\ (p_script p = [] -> p' = p)).
Proof.
  intros Ho Hb Hr Hm q. subst q.
  destruct (lseek_spec _ _ _ _ _ _ _ p k delta whence _ Ho eq_refl) as (p1 & Hp1 & _ & Hc & [[E Hs]|(b' & Hb' & _ & E)]);
    rewrite (run_call _ _ _ _ _ E).
  - destruct (run_when_dies (-1 =? -1) m (h (-1)) p1 k eq_refl Hm) as (e & p2 & E2 & He & Hp2 & _).
    exists p2. split; [congruence|]. left. exists e. split; [done|]. split; [done|].
    destruct Hs as [|Hs]; [done|]. by destruct (Hs b Hb).
  - rewrite Hb in Hb'. injection Hb' as <-. exists p1. split; [done|]. right.
    split; [apply run_when_no, Z.eqb_neq; lia|]. intros Hs. apply Hc; [done|]. by exists b.
Qed.

Lemma set_off_id d off o k : k_ofds k !! d = Some o -> o_off o = off -> set_off d off o k = k.
Proof. intros E <-. destruct k, o. unfold set_off, set_k_ofds. cbn in *. by rewrite insert_id. Qed.

Lemma run_tell {A} fd d i off flags mode data p k m (h : Z -> prog A) :
  opened fd d i off flags mode data p k -> off <= OFF_MAX -> dies m ->
  let q := let! r := sys (Lseek fd 0 SEEK_CUR) in when (r =? -1) m ;;! h r in
  exists p', p_fds p' = p_fds p /\
    ((exists e, run q (p, k) = (Exit e, (p', k)) /\ e <> EXIT_SUCCESS /\ p_script p <> []) \/
     run q (p, k) = run (h off) (p', k) /\ (p_script p = [] -> p' = p)).
Proof.
  intros Ho Hoff Hm. pose proof (op_off _ _ _ _ _ _ _ _ _ Ho).
  destruct (run_lseek fd d i off flags mode data p k 0 SEEK_CUR off m h Ho eq_refl) as (p1 & Hp & H1); [lia|done|].
  exists p1. split; [done|]. destruct H1 as [H1|[E H1]]; [by left|right]. split; [|done]. cbv zeta. rewrite E, Z.add_0_r.
  rewrite set_off_id; [done| |done]. apply (op_ofd _ _ _ _ _ _ _ _ _ Ho).
Qed.

Tactic Notation "run_tell" constr(Ho) "as" simple_intropattern(pat) :=
  lazymatch goal with
  | |- context [run (pbind (sys (Lseek ?fd 0 SEEK_CUR)) (fun r => pbind (when (r =? -1) ?m) (fun _ => @?h r))) (?p, ?k)] =>
      destruct (run_tell fd _ _ _ _ _ _ p k m h Ho) as pat; [lia|auto with stage0|..]
  end.

Tactic Notation "run_seek" constr(Ho) "as" simple_intropattern(pat) :=
  lazymatch goal with
  | |- context [run (pbind (sys (Lseek ?fd ?d SEEK_SET)) (fun r => pbind (when (r =? -1) ?m) (fun _ => @?h r))) (?p, ?k)] =>
      destruct (run_lseek fd _ _ _ _ _ _ p k d SEEK_SET 0 m h Ho eq_refl) as pat; [lia|auto with stage0|..]
  end.

Tactic Notation "run_read" constr(Ho) "as" simple_intropattern(pat) :=
  lazymatch goal with
  | |- context [run (pbind (sys (Read _ ?n)) ?h) (?p, ?k)] =>
      destruct (run_read _ _ _ _ _ _ _ p k n h Ho) as pat; [done|done|..]
  end.

Tactic Notation "run_write" constr(Ho) "as" simple_intropattern(pat) :=
  lazymatch goal with
  | |- context [run (pbind (sys (Write _ ?bs)) (fun n => pbind (when (@?bad n) ?m) (fun _ => ?h))) (?p, ?k)] =>
      destruct (run_write _ _ _ _ _ _ _ p k bs bad m h Ho) as pat; [done|auto with stage0|..]
  end.

(** A C library for examples. *)
Definition demo_libc : libc := {| strerror := fun _ => []; ename := [] |}.

(** ** perror *)

Section Perror.
Context `{libc}.

Definition perror (s : list Z) : prog unit :=
  let! errno := sys Errno in
  sys (PrintErr (s ++ lit ": " ++ strerror errno ++ [10])).

(** [perror(s); exit(EXIT_FAILURE);] *)
Definition perror_exit {A} (s : list Z) : prog A := perror s ;;! Halt EXIT_FAILURE.

Lemma perror_exit_dies {A} s : dies (perror_exit s : prog A).
Proof. intros p k. by eexists _, _. Qed.

End Perror.

#[export] Hint Resolve perror_exit_dies : stage0.

(** ** Files before and after *)

Lemma file_at_opened name i m data k : k_names k !! name = Some i -> k_inodes k !! i = Some (Reg m data) -> file_at k name = Some data.
Proof. intros E1 E2. unfold file_at. rewrite E1. cbn. by rewrite E2. Qed.

Lemma open_absent a flags mode p k :
  k_names k !! a = None -> flag flags O_CREAT = false -> exists p1, answer (Open a flags mode) (p, k) = (-1, (p1, k)).
Proof.
  intros En Hc. cbn [answer]. destruct (next_verdict p) as [[] p1]; try (by eexists);
    (unfold do_open; destruct (OPEN_MAX <=? _); [by eexists|]; unfold open_inode; rewrite En, Hc; by eexists).
Qed.

Lemma changes_refl a i m data k : k_names k !! a = Some i -> k_inodes k !! i = Some (Reg m data) -> changes a i k k.
Proof. intros En Ei. split; [done|done|done|done|]. intros inp out. congruence. Qed.
