(* ===== verification/FileCopy.v ===== *)
(** * tlpi/fileio: copying

    copy.c and cp.c, run against the files of [Vfs]: what they leave in the files
    for every script of failures and partial transfers. *)

From stdpp Require Import prelude list_numbers strings gmap.
From Stdlib Require Import ZArith Lia.
From S2P Require Import Prelude CLib Vfs TlpiLib FileRun.
Open Scope Z_scope.

Section Programs.
Context `{libc}.

(** *** copy.c *)

Definition COPY_BUF_SIZE : Z := 1024.

Fixpoint copy_loop (fuel : nat) (inputFd outputFd : Z) : prog Z :=
  match fuel with
  | O => Spent
  | S fuel =>
      let! ' (numRead, buf) := sys (Read inputFd COPY_BUF_SIZE) in
      if 0 <? numRead then
        let! n := sys (Write outputFd buf) in
        when (negb (n =? numRead)) (fatal (lit "write() returned error or partial write occurred")) ;;!
        copy_loop fuel inputFd outputFd
      else Done numRead
  end.

Definition copy (fuel : nat) (argv : list (list Z)) : prog unit :=
  (if negb (argc argv =? 3) then let! a0 := arg argv 0 in usageErr (a0 ++ lit " old-file new-file" ++ [10])
   else let! a1 := arg argv 1 in
     when (is_help a1) (let! a0 := arg argv 0 in usageErr (a0 ++ lit " old-file new-file" ++ [10]))) ;;!
  let! a1 := arg argv 1 in
  let! a2 := arg argv 2 in
  let! inputFd := sys (Open a1 O_RDONLY 0) in
  when (inputFd =? -1) (errExit (lit "opening file " ++ a1)) ;;!
  let openFlags := Z.lor O_CREAT (Z.lor O_WRONLY O_TRUNC) in
  let! outputFd := sys (Open a2 openFlags rw_rw_rw) in
  when (outputFd =? -1) (errExit (lit "opening file " ++ a2)) ;;!
  let! numRead := copy_loop fuel inputFd outputFd in
  when (numRead =? -1) (errExit (lit "read")) ;;!
  let! r := sys (Close inputFd) in
  when (r =? -1) (errExit (lit "close input")) ;;!
  let! r := sys (Close outputFd) in
  when (r =? -1) (errExit (lit "close output")) ;;!
  Halt EXIT_SUCCESS.

(** *** cp.c *)

(** The value of [inHole] after the first byte behind a hole. *)
Definition cp_seek (src_fd dst_fd : Z) : prog bool :=
  let! currSrcOffset := sys (Lseek src_fd 0 SEEK_CUR) in
  when (currSrcOffset =? -1) (errExit (lit "lseek")) ;;!
  let! currDstOffset := sys (Lseek dst_fd 0 SEEK_CUR) in
  when (currDstOffset =? -1) (errExit (lit "lseek")) ;;!
  if negb (currSrcOffset =? currDstOffset) then
    let! currDstOffset := sys (Lseek dst_fd (currSrcOffset - 1) SEEK_SET) in
    when (currDstOffset =? -1) (errExit (lit "lseek")) ;;!
    Done false
  else Done true.

Fixpoint cp_loop (fuel : nat) (src_fd dst_fd : Z) (inHole : bool) : prog unit :=
  match fuel with
  | O => Spent
  | S fuel =>
      let! ' (numRead, buf) := sys (Read src_fd 1) in
      if negb (numRead =? 0) then
        when (numRead =? -1) (errExit (lit "read")) ;;!
        let! c := (match buf with c :: _ => Done c | [] => Crash end) in
        if c =? 0 then cp_loop fuel src_fd dst_fd true else
        let! inHole := (if inHole then cp_seek src_fd dst_fd else Done inHole) in
        let! numWritten := sys (Write dst_fd [c]) in
        when (negb (numWritten =? 1)) (errExit (lit "write")) ;;!
        cp_loop fuel src_fd dst_fd inHole
      else Done tt
  end.

Definition cp (fuel : nat) (argv : list (list Z)) : prog Z :=
  (if negb (argc argv =? 3) then let! a0 := arg argv 0 in usageErr (a0 ++ lit " source_file dest_file")
   else let! a1 := arg argv 1 in
     when (is_help a1) (let! a0 := arg argv 0 in usageErr (a0 ++ lit " source_file dest_file"))) ;;!
  let! a1 := arg argv 1 in
  let! a2 := arg argv 2 in
  let! src_fd := sys (Open a1 O_RDONLY 0) in
  when (src_fd =? -1) (errExit (lit "open")) ;;!
  let! dst_fd := sys (Open a2 (Z.lor O_RDWR O_CREAT) rw_rw_rw) in
  when (dst_fd =? -1) (errExit (lit "open")) ;;!
  cp_loop fuel src_fd dst_fd false ;;!
  let! r := sys (Close src_fd) in
  when (r =? -1) (errExit (lit "close")) ;;!
  let! r := sys (Close dst_fd) in
  when (r =? -1) (errExit (lit "close")) ;;!
  Done EXIT_SUCCESS.

End Programs.

(** ** Between two files *)

(** The two files of a copy: [pre] was transferred, [rest] is left, of which the
    bytes from the offsets on are [rest] and [old]. *)
Record transfer (fd1 d1 i1 fd2 d2 i2 fl m1 m2 : Z) (pre rest out : list Z) (off2 : Z) (p : proc) (k : kern) : Prop := {
  tr_src : opened fd1 d1 i1 (Z.of_nat (length pre)) O_RDONLY m1 (pre ++ rest) p k;
  tr_dst : opened fd2 d2 i2 off2 fl m2 out p k;
  tr_d : d1 <> d2;
  tr_i : i1 <> i2
}.

Lemma transfer_proc fd1 d1 i1 fd2 d2 i2 fl m1 m2 pre rest out off2 p p' k :
  transfer fd1 d1 i1 fd2 d2 i2 fl m1 m2 pre rest out off2 p k -> p_fds p' = p_fds p ->
  transfer fd1 d1 i1 fd2 d2 i2 fl m1 m2 pre rest out off2 p' k.
Proof. intros [] E. constructor; try done; by eapply opened_proc. Qed.

(** Bytes are read. *)
Lemma transfer_read fd1 d1 i1 fd2 d2 i2 fl m1 m2 pre bs rest out off2 p k :
  transfer fd1 d1 i1 fd2 d2 i2 fl m1 m2 pre (bs ++ rest) out off2 p k ->
  transfer fd1 d1 i1 fd2 d2 i2 fl m1 m2 (pre ++ bs) rest out off2 p
    (set_off d1 (Z.of_nat (length pre) + Z.of_nat (length bs)) (mk_ofd i1 (Z.of_nat (length pre)) O_RDONLY) k).
Proof.
  intros []. constructor; try done.
  - rewrite length_app, Nat2Z.inj_add, <- app_assoc. destruct tr_src0. constructor; try done; [|lia].
    cbn. by rewrite lookup_insert_eq.
  - by apply opened_set_off.
Qed.

(** Bytes are written. *)
Lemma transfer_write fd1 d1 i1 fd2 d2 i2 fl m1 m2 pre rest out off2 w off2' out' p k :
  transfer fd1 d1 i1 fd2 d2 i2 fl m1 m2 pre rest out off2 p k ->
  out' = pwrite out (if flag fl O_APPEND then Z.of_nat (length out) else off2) w ->
  off2' = (if flag fl O_APPEND then Z.of_nat (length out) else off2) + Z.of_nat (length w) ->
  transfer fd1 d1 i1 fd2 d2 i2 fl m1 m2 pre rest out' off2' p
    (set_off d2 off2' (mk_ofd i2 off2 fl) (set_inode i2 (Reg m2 out') k)).
Proof.
  intros [] Eo Ef. constructor; try done.
  - apply opened_set_off; [|done]. by apply opened_set_inode.
  - destruct tr_dst0. constructor; try done; cbn; rewrite ?lookup_insert_eq; try done.
    subst off2'. destruct (flag fl O_APPEND); lia.
Qed.

Lemma transfer_seek fd1 d1 i1 fd2 d2 i2 fl m1 m2 pre rest out off2 off2' p k :
  transfer fd1 d1 i1 fd2 d2 i2 fl m1 m2 pre rest out off2 p k -> 0 <= off2' ->
  transfer fd1 d1 i1 fd2 d2 i2 fl m1 m2 pre rest out off2' p (set_off d2 off2' (mk_ofd i2 off2 fl) k).
Proof.
  intros [] Hoff. constructor; try done; [by apply opened_set_off|].
  destruct tr_dst0. constructor; try done. cbn. by rewrite lookup_insert_eq.
Qed.

(** Two opens: the source and a destination that is created when absent. *)
Lemma run_open_two {A} a1 a2 fl p k i1 m1 src f1 f2 (h : Z -> Z -> prog A) :
  kern_ok k -> k_names k !! a1 = Some i1 -> k_inodes k !! i1 = Some (Reg m1 src) ->
  regular_or_absent k a2 -> ~ same_file k a1 a2 -> a1 <> a2 ->
  flag fl O_CREAT = true -> flag fl O_EXCL = false -> dies f1 -> dies f2 ->
  let q := let! fd1 := sys (Open a1 O_RDONLY 0) in when (fd1 =? -1) f1 ;;!
           let! fd2 := sys (Open a2 fl rw_rw_rw) in when (fd2 =? -1) f2 ;;! h fd1 fd2 in
  (exists e p' k', run q (p, k) = (Exit e, (p', k')) /\ e <> EXIT_SUCCESS /\ k_names k' = k_names k /\ k_inodes k' = k_inodes k /\
     (p_script p <> [] \/ OPEN_MAX <= Z.of_nat (size (p_fds p)) + 1)) \/
  exists p' k' fd1 d1 fd2 d2 i2 m2, run q (p, k) = run (h fd1 fd2) (p', k') /\ fd1 <> fd2 /\
    transfer fd1 d1 i1 fd2 d2 i2 (open_flags fl) m1 m2 [] src (if truncates fl then [] else content k a2) 0 p' k' /\
    changes a2 i2 k k' /\ (p_script p = [] -> p_script p' = []).
Proof.
  intros Hk En1 Ei1 Hra Hns Hne Hcr Hex Hf1 Hf2 q. subst q.
  destruct (run_open a1 O_RDONLY 0 p k i1 k f1 (fun fd1 => let! fd2 := sys (Open a2 fl rw_rw_rw) in
    when (fd2 =? -1) f2 ;;! h fd1 fd2) (open_existing a1 i1 O_RDONLY 0 k En1 eq_refl eq_refl) Hf1)
    as (p1 & [(e & E & He & Hs)|(fd1 & d1 & Hfd & Hnf & Hnd & Hp1 & Hc1 & ->)]).
  { left. exists e, p1, k. do 4 (split; [done|]). destruct Hs; [by left|right; lia]. }
  set (k1 := set_k_ofds _ k). destruct (open_create a2 fl rw_rw_rw k1) as (i2 & m2 & k2 & Eo & Hch & Hof & Hin);
    [exact Hk|exact Hra|done|done|].
  destruct (run_open a2 fl rw_rw_rw p1 k1 i2 k2 f2 (fun fd2 => h fd1 fd2) Eo Hf2)
    as (p2 & [(e & E & He & Hs)|(fd2 & d2 & Hfd2 & Hnf2 & Hnd2 & Hp2 & Hc2 & ->)]).
  { left. exists e, p2, k1. do 4 (split; [done|]).
    destruct (p_script p) eqn:Esc; [right|by left]. specialize (Hc1 eq_refl). subst p1. cbn [p_fds p_script set_p_fds] in Hs. destruct Hs as [Hs|Hs]; [by rewrite Esc in Hs|].
     rewrite map_size_insert, Hnf in Hs. cbn in Hs. lia. }
  right. exists p2. eexists _, fd1, d1, fd2, d2, i2, m2. split; [reflexivity|].
  assert (p_fds p1 !! fd1 = Some d1) as Hl1 by (rewrite Hp1; apply lookup_insert_eq).
  assert (fd1 <> fd2) as Hfne by (intros ->; congruence). split; [done|].
  assert (i1 <> i2) as Hine.
  { intros ->. apply Hns. exists i2. split; [done|]. by apply (ch_new _ _ _ _ Hch a1). }
  assert (k_ofds k2 !! d1 = Some (mk_ofd i1 0 0)) as Hd1 by (rewrite Hof; apply lookup_insert_eq).
  split; [constructor|].
  - apply (opened_keep _ _ _ _ _ _ _ p1 _ _ fd2 d2); [|done..]. constructor; [done|exact Hd1| |done].
    rewrite (ch_inodes _ _ _ _ Hch) by done. exact Ei1.
  - by apply (opened_new fd2 d2 i2 _ _ _ p1).
  - intros ->. congruence.
  - done.
  - split; [by destruct Hch|]. intros Hs. rewrite (Hc1 Hs) in Hc2. by rewrite Hc2.
Qed.

(** A file to copy, and a name that is absent or another regular file. *)
Record two_files (k : kern) (old new : list Z) (src : list Z) : Prop := {
  tf_kern : kern_ok k;
  tf_old : exists i m, k_names k !! old = Some i /\ k_inodes k !! i = Some (Reg m src);
  tf_new : regular_or_absent k new;
  tf_other : ~ same_file k old new;
  tf_help : is_help old = false;
  tf_small : Z.of_nat (length src) <= OFF_MAX
}.

(** What a loop between two files has to do, whatever follows it. *)
Definition transfers (fl : Z) (src : list Z) (result : list Z -> list Z) (body : Z -> Z -> forall A, prog A -> prog A) : Prop :=
  forall A (h : prog A) fd1 d1 i1 fd2 d2 i2 m1 m2 old p k,
    transfer fd1 d1 i1 fd2 d2 i2 (open_flags fl) m1 m2 [] src (if truncates fl then [] else old) 0 p k ->
    exists p' k', p_fds p' = p_fds p /\ kept i2 k k' /\
      ((exists e, run (body fd1 fd2 A h) (p, k) = (Exit e, (p', k')) /\ e <> EXIT_SUCCESS /\ p_script p <> []) \/
       run (body fd1 fd2 A h) (p, k) = run h (p', k') /\ k_inodes k' !! i2 = Some (Reg m2 (result old)) /\
         (p_script p = [] -> p_script p' = [])).

(** Opening both files, the loop, and closing them. *)
Lemma run_transfer {A} a1 a2 fl p k src f1 f2 f3 f4 result body (h : prog A) :
  two_files k a1 a2 src -> flag fl O_CREAT = true -> flag fl O_EXCL = false -> dies f1 -> dies f2 -> dies f3 -> dies f4 ->
  transfers fl src result body ->
  let q := let! fd1 := sys (Open a1 O_RDONLY 0) in when (fd1 =? -1) f1 ;;!
           let! fd2 := sys (Open a2 fl rw_rw_rw) in when (fd2 =? -1) f2 ;;!
           body fd1 fd2 A (let! r := sys (Close fd1) in when (r =? -1) f3 ;;!
                           let! r := sys (Close fd2) in when (r =? -1) f4 ;;! h) in
  exists p' k', only_changed a2 k k' /\
    ((exists e, run q (p, k) = (Exit e, (p', k')) /\ e <> EXIT_SUCCESS /\ ~ calm 2 p) \/
     run q (p, k) = run h (p', k') /\ file_at k' a2 = Some (result (content k a2))).
Proof.
  intros [Hk (i1 & m1 & En & Ei) Hr Hns Hh Hsm] Hcr Hex Hf1 Hf2 Hf3 Hf4 Hb q. subst q.
  assert (a1 <> a2) as Hne by (intros ->; by apply Hns, (same_file_refl _ _ i1)).
  destruct (run_open_two a1 a2 fl p k i1 m1 src f1 f2 (fun fd1 fd2 =>
      body fd1 fd2 A (let! r := sys (Close fd1) in when (r =? -1) f3 ;;!
                      let! r := sys (Close fd2) in when (r =? -1) f4 ;;! h)) Hk En Ei Hr Hns Hne Hcr Hex Hf1 Hf2)
    as [(e & p1 & k1 & -> & He & Hkn & Hki & Hs)|(p1 & k1 & fd1 & d1 & fd2 & d2 & i2 & m2 & -> & Hfd & Ht & Hch & Hc1)].
  { exists p1, k1. split; [by apply only_changed_same|]. left. exists e. split; [done|]. split; [done|].
    intros [Hs1 Hs2]. destruct Hs; [done|lia]. }
  set (fin := let! r := sys (Close fd1) in _). destruct (Hb A fin _ _ _ _ _ _ _ _ _ _ _ Ht)
    as (p2 & k2 & Hp2 & Hk2 & [(e & -> & He & Hs)|(-> & Hi2 & Hc2)]).
  { exists p2, k2. split; [by eapply only_changed_kept|]. left. exists e. split; [done|]. split; [done|].
    intros [Hs1 _]. by apply Hs, Hc1. }
  destruct (run_close_two fd1 d1 fd2 d2 p2 k2 f3 f4 h) as (p3 & [(e & E & He & Hs)|E]); [| |done..| |].
  - rewrite Hp2. apply (op_fd _ _ _ _ _ _ _ _ _ (tr_src _ _ _ _ _ _ _ _ _ _ _ _ _ _ _ Ht)).
  - rewrite Hp2. apply (op_fd _ _ _ _ _ _ _ _ _ (tr_dst _ _ _ _ _ _ _ _ _ _ _ _ _ _ _ Ht)).
  - exists p3, k2. split; [by eapply only_changed_kept|]. left. exists e. split; [exact E|]. split; [done|].
    intros [Hs1 _]. by apply Hs, Hc2, Hc1.
  - exists p3, k2. split; [by eapply only_changed_kept|]. right. split; [exact E|].
    by eapply file_at_written.
Qed.

(** ** copy.c *)

Section CopyLoop.
Context `{libc}.
Variables (fd1 d1 i1 fd2 d2 i2 m1 m2 : Z) (src : list Z).
Hypothesis Hsmall : Z.of_nat (length src) <= OFF_MAX.

Lemma copy_loop_spec fuel pre rest p k :
  transfer fd1 d1 i1 fd2 d2 i2 O_WRONLY m1 m2 pre rest pre (Z.of_nat (length pre)) p k ->
  src = pre ++ rest -> (length rest < fuel)%nat ->
  exists o p' k', run (copy_loop fuel fd1 fd2) (p, k) = (o, (p', k')) /\ p_fds p' = p_fds p /\ kept i2 k k' /\
    ended o (fun n => n = 0 /\ k_inodes k' !! i2 = Some (Reg m2 src) \/ n = -1) /\
    (p_script p = [] -> o = Ret 0 /\ p' = p).
Proof.
  revert pre rest p k. induction fuel as [|fuel IH]; intros pre rest p k Ht Hsrc Hf; [lia|]. cbn [copy_loop].
  run_read (tr_src _ _ _ _ _ _ _ _ _ _ _ _ _ _ _ Ht) as
    (p1 & Hp1 & Hcalm & [[-> Hs]|(bs & r & Er & Hnil & _ & ->)]).
  { exists (Ret (-1)), p1, k. split; [done|]. split; [done|]. split; [done|]. split; [by right|done]. }
  rewrite Nat2Z.id, drop_app_length in Er. subst rest.
  pose proof (transfer_proc _ _ _ _ _ _ _ _ _ _ _ _ _ p p1 _ (transfer_read _ _ _ _ _ _ _ _ _ _ _ _ _ _ _ _ Ht) Hp1) as Ht1.
  set (k1 := set_off d1 _ _ k) in *. destruct (decide (bs = [])) as [->|Hbs].
  { rewrite (Hnil eq_refl) in Hsrc. rewrite !app_nil_r in Hsrc. subst pre.
    exists (Ret 0), p1, k1. split; [done|]. split; [done|]. split; [done|]. split; [|intros Hs; by split; [|apply Hcalm]].
    left. split; [done|]. apply (op_inode _ _ _ _ _ _ _ _ _ (tr_dst _ _ _ _ _ _ _ _ _ _ _ _ _ _ _ Ht1)). }
  rewrite (proj2 (Z.ltb_lt 0 _)) by (destruct bs; [done|cbn; lia]).
  run_write (tr_dst _ _ _ _ _ _ _ _ _ _ _ _ _ _ _ Ht1) as (p2 & Hp2 & Hc); [done| | | |].
  { by rewrite (proj2 (Z.eqb_neq (-1) _)) by lia. }
  { intros w r' -> Hw. rewrite length_app. case_bool_decide as Hr; destruct r'; cbn [length]; try done.
    - by rewrite (proj2 (Z.eqb_neq _ _)) by lia.
    - by rewrite Nat.add_0_r, Z.eqb_refl. }
  { change (flag O_WRONLY O_APPEND) with false. cbv iota. subst src. rewrite !length_app in Hsmall. lia. }
  change (flag O_WRONLY O_APPEND) with false in Hc. cbv iota in Hc. rewrite pwrite_end in Hc.
  destruct Hc as [(e & k' & -> & He & Hk & Hs)|[-> Hcalm2]].
  { exists (Exit e), p2, k'. split; [done|]. split; [congruence|]. split; [by apply (kept_trans _ _ k1)|]. split; [done|].
    intros Hs'. by rewrite (Hcalm Hs') in Hs. }
  set (k2 := set_off d2 _ _ _).
  destruct (IH (pre ++ bs) r p2 k2) as (o & p3 & k3 & E3 & Hf3 & Hk3 & He3 & Hc3).
  { rewrite length_app, Nat2Z.inj_add. apply (transfer_proc _ _ _ _ _ _ _ _ _ _ _ _ _ p1 p2); [|done].
    apply (transfer_write _ _ _ _ _ _ _ _ _ _ _ _ _ bs _ _ _ _ Ht1); change (flag O_WRONLY O_APPEND) with false; cbv iota;
      [by rewrite pwrite_end|done]. }
  { by rewrite <- app_assoc. }
  { rewrite length_app in Hf. destruct bs; [done|]. cbn [length] in Hf. lia. }
  exists o, p3, k3. split; [done|]. split; [congruence|]. split.
  { apply (kept_trans _ _ k1); [apply kept_off|]. apply (kept_trans _ _ k2); [|done]. eapply kept_trans; [apply kept_inode|apply kept_off]. }
  split; [done|]. intros Hs. assert (p2 = p) as -> by (rewrite Hcalm2; [by apply Hcalm|by rewrite (Hcalm Hs)]). by apply Hc3.
Qed.

End CopyLoop.

Definition copy_flags : Z := Z.lor O_CREAT (Z.lor O_WRONLY O_TRUNC).

Lemma copy_transfers `{libc} fuel m src :
  (length src < fuel)%nat -> Z.of_nat (length src) <= OFF_MAX -> dies m ->
  transfers copy_flags src (fun _ => src) (fun fd1 fd2 A h =>
    let! numRead := copy_loop fuel fd1 fd2 in when (numRead =? -1) m ;;! h).
Proof.
  intros Hf Hsm Hm A h fd1 d1 i1 fd2 d2 i2 m1 m2 old p k Ht.
  destruct (copy_loop_spec fd1 d1 i1 fd2 d2 i2 m1 m2 src Hsm fuel [] src p k Ht eq_refl Hf)
    as (o & p1 & k1 & E & Hp & Hkk & He & Hc).
  destruct o as [n|c| |]; cbn [ended] in He; try done.
  - rewrite (run_ret _ _ _ _ _ E). destruct He as [[-> Hi]| ->].
    + exists p1, k1. split; [done|]. split; [done|]. right. split; [done|]. split; [done|].
      intros Hs. by destruct (Hc Hs) as [_ ->].
    + destruct (run_when_dies (-1 =? -1) m h p1 k1 eq_refl Hm) as (e & p2 & E2 & He2 & Hp2 & _).
      exists p2, k1. split; [congruence|]. split; [done|]. left. exists e. split; [done|]. split; [done|].
      intros Hs. by destruct (Hc Hs).
  - exists p1, k1. split; [done|]. split; [done|]. left. exists c. split; [by apply run_exit|]. split; [done|].
    intros Hs. by destruct (Hc Hs).
Qed.

(** ** cp.c *)

(** What copying with holes makes of the file that was there: bytes of zero are
    not written, nor does the file grow by those at the end. *)
Definition all_zero (l : list Z) : bool := forallb (fun b => b =? 0) l.

Fixpoint with_holes (src old : list Z) : list Z :=
  match src with
  | [] => old
  | c :: src' =>
      if all_zero src then old
      else (if c =? 0 then default 0 (head old) else c) :: with_holes src' (tail old)
  end.

Lemma with_holes_zero src old : all_zero src = true -> with_holes src old = old.
Proof. intros H. destruct src as [|c src]; [done|]. unfold with_holes; fold with_holes. by rewrite H. Qed.

Lemma with_holes_snoc_0 src old : with_holes (src ++ [0]) old = with_holes src old.
Proof.
  revert old. induction src as [|a src IH]; intros old; [done|]. cbn [app with_holes].
  assert (all_zero (a :: src ++ [0]) = all_zero (a :: src)) as ->.
  { unfold all_zero. cbn. by rewrite forallb_app, andb_true_r. }
  destruct (all_zero (a :: src)); [done|]. by rewrite IH.
Qed.

Lemma pwrite_S x l n bs : pwrite (x :: l) (Z.of_nat (S n)) bs = x :: pwrite l (Z.of_nat n) bs.
Proof. destruct bs; [done|]. unfold pwrite. rewrite !Nat2Z.id. cbn [app length Nat.sub take drop]. done. Qed.

Lemma pwrite_nil_S n bs : bs <> [] -> pwrite [] (Z.of_nat (S n)) bs = 0 :: pwrite [] (Z.of_nat n) bs.
Proof.
  intros Hbs. rewrite !pwrite_cons by done. rewrite !Nat2Z.id. cbn [length app]. rewrite !Nat.sub_0_r, !drop_nil, !app_nil_r.
  by rewrite !take_ge by (rewrite length_replicate; lia).
Qed.

Lemma with_holes_snoc src old c :
  c <> 0 -> with_holes (src ++ [c]) old = pwrite (with_holes src old) (Z.of_nat (length src)) [c].
Proof.
  intros Hc. revert old. induction src as [|a src IH]; intros old; cbn [app with_holes length].
  { unfold all_zero. cbn [forallb]. rewrite (proj2 (Z.eqb_neq c 0)) by done. cbn [andb]. by destruct old. }
  assert (all_zero (a :: src ++ [c]) = false) as ->.
  { unfold all_zero. cbn [forallb]. rewrite forallb_app. cbn. rewrite (proj2 (Z.eqb_neq c 0)) by done. by rewrite !andb_false_r. }
  destruct (all_zero (a :: src)) eqn:E; [|by rewrite pwrite_S, IH].
  unfold all_zero in E. cbn [forallb] in E. apply andb_prop in E as [Ea Es]. rewrite Ea, IH, with_holes_zero by done.
  destruct old as [|o old]; cbn [head tail default]; [by rewrite pwrite_nil_S|by rewrite pwrite_S].
Qed.

Section CpLoop.
Context `{libc}.
Variables (fd1 d1 i1 fd2 d2 i2 m1 m2 : Z) (src old : list Z).
Hypothesis Hsmall : Z.of_nat (length src) <= OFF_MAX.

Lemma cp_seek_spec pre c rest out off2 p k :
  transfer fd1 d1 i1 fd2 d2 i2 O_RDWR m1 m2 (pre ++ [c]) rest out off2 p k ->
  off2 < Z.of_nat (length pre) -> Z.of_nat (length pre) < OFF_MAX ->
  exists o p' k', run (cp_seek fd1 fd2) (p, k) = (o, (p', k')) /\ p_fds p' = p_fds p /\ kept i2 k k' /\
    ended o (fun b => b = false /\ transfer fd1 d1 i1 fd2 d2 i2 O_RDWR m1 m2 (pre ++ [c]) rest out (Z.of_nat (length pre)) p' k') /\
    (p_script p = [] -> o = Ret false /\ p' = p).
Proof.
  intros Ht Hlt Hsm. unfold cp_seek.
  assert (Z.of_nat (length (pre ++ [c])) = Z.of_nat (length pre) + 1) as Hl by (rewrite length_app; cbn; lia).
  run_tell (tr_src _ _ _ _ _ _ _ _ _ _ _ _ _ _ _ Ht) as (p1 & Hp1 & [(e & -> & He & Hs)|[-> Hc1]]).
  { by exists (Exit e), p1, k. }
  pose proof (transfer_proc _ _ _ _ _ _ _ _ _ _ _ _ _ p p1 _ Ht Hp1) as Ht1.
  run_tell (tr_dst _ _ _ _ _ _ _ _ _ _ _ _ _ _ _ Ht1) as (p2 & Hp2 & [(e & -> & He & Hs)|[-> Hc2]]).
  { exists (Exit e), p2, k. split; [done|]. split; [congruence|]. split; [done|]. split; [done|]. intros Hs'. by rewrite Hc1 in Hs. }
  pose proof (transfer_proc _ _ _ _ _ _ _ _ _ _ _ _ _ p1 p2 _ Ht1 Hp2) as Ht2.
  rewrite (proj2 (Z.eqb_neq _ off2)) by lia. cbn [negb].
  run_seek (tr_dst _ _ _ _ _ _ _ _ _ _ _ _ _ _ _ Ht2) as (p3 & Hp3 & [(e & -> & He & Hs)|[-> Hc3]]).
  { exists (Exit e), p3, k. split; [done|]. split; [congruence|]. split; [done|]. split; [done|].
    intros Hs'. specialize (Hc1 Hs'). subst p1. specialize (Hc2 Hs'). by subst p2. }
  eexists (Ret false), p3, _. split; [reflexivity|]. split; [congruence|]. split; [apply kept_off|].
  split.
  - split; [done|]. replace (0 + (Z.of_nat (length (pre ++ [c])) - 1)) with (Z.of_nat (length pre)) by lia.
    apply (transfer_proc _ _ _ _ _ _ _ _ _ _ _ _ _ p2 p3); [|done]. eapply transfer_seek; [exact Ht2|lia].
  - intros Hs. split; [done|]. specialize (Hc1 Hs). subst p1. specialize (Hc2 Hs). subst p2. by apply Hc3.
Qed.

(** The state between two bytes: what is written is what is behind the holes, and
    [inHole] tells whether there are zeros behind it. *)
Definition at_hole (inHole : bool) (pre : list Z) (off2 : Z) : Prop :=
  if inHole then off2 < Z.of_nat (length pre) else off2 = Z.of_nat (length pre).

Lemma cp_write_spec {A} pre c rest p k (h : prog A) :
  transfer fd1 d1 i1 fd2 d2 i2 O_RDWR m1 m2 (pre ++ [c]) rest (with_holes pre old) (Z.of_nat (length pre)) p k ->
  c <> 0 -> Z.of_nat (length pre) < OFF_MAX ->
  let q := let! n := sys (Write fd2 [c]) in when (negb (n =? 1)) (errExit (lit "write")) ;;! h in
  exists p' k', p_fds p' = p_fds p /\ kept i2 k k' /\
    ((exists e, run q (p, k) = (Exit e, (p', k')) /\ e <> EXIT_SUCCESS /\ p_script p <> []) \/
     run q (p, k) = run h (p', k') /\ (p_script p = [] -> p' = p) /\
     transfer fd1 d1 i1 fd2 d2 i2 O_RDWR m1 m2 (pre ++ [c]) rest (with_holes (pre ++ [c]) old)
       (Z.of_nat (length (pre ++ [c]))) p' k').
Proof.
  intros Ht Hc0 Hsm q. subst q.
  run_write (tr_dst _ _ _ _ _ _ _ _ _ _ _ _ _ _ _ Ht) as (p2 & Hp2 & Hc); [done|done| | |].
  { intros [|x w] r E Hw; [done|]. injection E as -> E. destruct w; [|done]. cbn in E. subst r. done. }
  { change (flag O_RDWR O_APPEND) with false. cbv iota. cbn [length]. lia. }
  change (flag O_RDWR O_APPEND) with false in Hc. cbv iota in Hc.
  destruct Hc as [(e & k' & E & He & Hk & Hs)|[E Hcalm]].
  { exists p2, k'. split; [done|]. split; [done|]. left. by exists e. }
  eexists p2, _. split; [done|]. split; [eapply kept_trans; [apply kept_inode|apply kept_off]|]. right. split; [exact E|].
  split; [done|]. apply (transfer_proc _ _ _ _ _ _ _ _ _ _ _ _ _ p p2); [|done].
  rewrite with_holes_snoc by done. rewrite length_app, Nat2Z.inj_add. eapply transfer_write; [exact Ht|done|done].
Qed.

Lemma cp_skip_spec inHole pre c rest out off2 p k :
  transfer fd1 d1 i1 fd2 d2 i2 O_RDWR m1 m2 (pre ++ [c]) rest out off2 p k ->
  at_hole inHole pre off2 -> Z.of_nat (length pre) < OFF_MAX ->
  exists o p' k', run (if inHole then cp_seek fd1 fd2 else Done inHole) (p, k) = (o, (p', k')) /\ p_fds p' = p_fds p /\ kept i2 k k' /\
    ended o (fun b => b = false /\ transfer fd1 d1 i1 fd2 d2 i2 O_RDWR m1 m2 (pre ++ [c]) rest out (Z.of_nat (length pre)) p' k') /\
    (p_script p = [] -> o = Ret false /\ p' = p).
Proof.
  intros Ht Hh Hsm. destruct inHole; cbn [at_hole] in Hh; [by apply (cp_seek_spec pre c rest out off2)|].
  subst off2. by exists (Ret false), p, k.
Qed.

Lemma cp_loop_spec fuel pre rest off2 inHole p k :
  transfer fd1 d1 i1 fd2 d2 i2 O_RDWR m1 m2 pre rest (with_holes pre old) off2 p k ->
  at_hole inHole pre off2 -> src = pre ++ rest -> (length rest < fuel)%nat ->
  exists o p' k', run (cp_loop fuel fd1 fd2 inHole) (p, k) = (o, (p', k')) /\ p_fds p' = p_fds p /\ kept i2 k k' /\
    ended o (fun _ => k_inodes k' !! i2 = Some (Reg m2 (with_holes src old))) /\
    (p_script p = [] -> o = Ret tt /\ p' = p).
Proof.
  revert pre rest off2 inHole p k. induction fuel as [|fuel IH]; intros pre rest off2 inHole p k Ht Hh Hsrc Hf; [lia|].
  cbn [cp_loop]. pose proof (op_off _ _ _ _ _ _ _ _ _ (tr_dst _ _ _ _ _ _ _ _ _ _ _ _ _ _ _ Ht)) as Hoff.
  run_read (tr_src _ _ _ _ _ _ _ _ _ _ _ _ _ _ _ Ht) as
    (p1 & Hp1 & Hcalm & [[-> Hs]|(bs & r & Er & Hnil & Hlen & ->)]).
  { change (negb (-1 =? 0)) with true. cbv iota.
    match goal with |- context [run (pbind (when ?c ?m) (fun _ => ?h)) _] =>
      destruct (run_when_dies c m h p1 k eq_refl (errExit_dies _)) as (e & p2 & E2 & He & Hp2 & _) end.
    exists (Exit e), p2, k. split; [done|]. split; [congruence|]. split; [done|]. by split. }
  rewrite Nat2Z.id, drop_app_length in Er. subst rest.
  pose proof (transfer_proc _ _ _ _ _ _ _ _ _ _ _ _ _ p p1 _ (transfer_read _ _ _ _ _ _ _ _ _ _ _ _ _ _ _ _ Ht) Hp1) as Ht1.
  set (k1 := set_off d1 _ _ k) in *. assert (kept i2 k k1) as Hk1 by apply kept_off.
  destruct bs as [|c [|c' bs]]; [|clear Hlen Hnil|cbn in Hlen; lia].
  { rewrite (Hnil eq_refl) in Hsrc. rewrite !app_nil_r in Hsrc. rewrite app_nil_r in Ht1. subst pre.
    exists (Ret tt), p1, k1. split; [done|]. split; [done|]. split; [done|].
    split; [|intros Hs; by split; [|apply Hcalm]]. cbn [ended].
    apply (op_inode _ _ _ _ _ _ _ _ _ (tr_dst _ _ _ _ _ _ _ _ _ _ _ _ _ _ _ Ht1)). }
  change (negb (Z.of_nat (length [c]) =? 0)) with true. cbv iota. rewrite run_when_no by done. cbn [pbind].
  assert (src = (pre ++ [c]) ++ r) as Hsrc' by by rewrite <- app_assoc.
  assert (Z.of_nat (length pre) < OFF_MAX) as Hpre by (rewrite Hsrc in Hsmall; rewrite !length_app in Hsmall; cbn in Hsmall; lia).
  assert (length r < fuel)%nat as Hf' by (cbn in Hf; lia).
  destruct (Z.eqb_spec c 0) as [->|Hc0].
  { destruct (IH (pre ++ [0]) r off2 true p1 k1) as (o & p' & k' & E & Hp' & Hk' & He & Hc); [| |done..|].
    { by rewrite with_holes_snoc_0. }
    { cbn [at_hole]. rewrite length_app. cbn. destruct inHole; cbn [at_hole] in Hh; lia. }
    exists o, p', k'. split; [done|]. split; [congruence|]. split; [by eapply kept_trans|]. split; [done|].
    intros Hs. specialize (Hcalm Hs). subst p1. by apply Hc. }
  destruct (cp_skip_spec inHole pre c r _ off2 p1 k1 Ht1 Hh Hpre) as (o & p2 & k2 & E2 & Hp2 & Hk2 & He2 & Hc2).
  destruct o as [b|e| |]; cbn [ended] in He2; try done.
  2: { exists (Exit e), p2, k2. split; [by apply run_exit|]. split; [congruence|]. split; [by eapply kept_trans|]. split; [done|].
    intros Hs. specialize (Hcalm Hs). subst p1. by destruct (Hc2 Hs). }
  destruct He2 as [-> Ht2]. rewrite (run_ret _ _ _ _ _ E2).
  destruct (cp_write_spec pre c r p2 k2 (cp_loop fuel fd1 fd2 false) Ht2 Hc0 Hpre)
    as (p3 & k3 & Hp3 & Hk3 & [(e & E & He & Hs)|(E & Hc3 & Ht3)]); rewrite E.
  { exists (Exit e), p3, k3. split; [done|]. split; [congruence|]. split; [by eapply kept_trans; [eapply kept_trans|]|].
    split; [done|]. intros Hs'. specialize (Hcalm Hs'). subst p1. by destruct (Hc2 Hs') as [_ ->]. }
  destruct (IH (pre ++ [c]) r _ false p3 k3 Ht3 eq_refl Hsrc' Hf') as (o & p4 & k4 & E4 & Hp4 & Hk4 & He4 & Hc4).
  exists o, p4, k4. split; [done|]. split; [congruence|].
  split; [by eapply kept_trans; [eapply kept_trans; [eapply kept_trans|]|]|]. split; [done|].
  intros Hs. specialize (Hcalm Hs). subst p1. destruct (Hc2 Hs) as [_ ->]. specialize (Hc3 Hs). subst p3. by apply Hc4.
Qed.

End CpLoop.

Definition cp_flags : Z := Z.lor O_RDWR O_CREAT.

Lemma cp_transfers `{libc} fuel src :
  (length src < fuel)%nat -> Z.of_nat (length src) <= OFF_MAX ->
  transfers cp_flags src (with_holes src) (fun fd1 fd2 A h => cp_loop fuel fd1 fd2 false ;;! h).
Proof.
  intros Hf Hsm A h fd1 d1 i1 fd2 d2 i2 m1 m2 old p k Ht.
  destruct (cp_loop_spec fd1 d1 i1 fd2 d2 i2 m1 m2 src old Hsm fuel [] src 0 false p k Ht eq_refl eq_refl Hf)
    as (o & p1 & k1 & E & Hp & Hkk & He & Hc).
  exists p1, k1. split; [done|]. split; [done|]. destruct o as [[]|c| |]; cbn [ended] in He; try done.
  - right. rewrite (run_ret _ _ _ _ _ E). split; [done|]. split; [done|]. intros Hs. by destruct (Hc Hs) as [_ ->].
  - left. exists c. split; [by apply run_exit|]. split; [done|]. intros Hs. by destruct (Hc Hs).
Qed.

(** ** Properties *)

(** [copy] ends, for any failures and partial transfers of its calls, with a
    status of success only when the new file holds exactly the bytes of the old
    one; it changes no other file, and it succeeds when no call fails. *)
Theorem copy_copies `{libc} fuel p k a0 old new src :
  two_files k old new src -> (length src < fuel)%nat ->
  exists c p' k', run (copy fuel [a0; old; new]) (p, k) = (Exit c, (p', k')) /\
    (c = EXIT_SUCCESS -> file_at k' new = Some src) /\ only_changed new k k' /\ (calm 2 p -> c = EXIT_SUCCESS).
Proof.
  intros Htf Hf. unfold copy. change (argc [a0; old; new] =? 3) with true. change (arg [a0; old; new] 1) with (Done old : prog (list Z)).
  change (arg [a0; old; new] 2) with (Done new : prog (list Z)). cbn [negb pbind]. rewrite (tf_help _ _ _ _ Htf). cbn [when pbind]. fold copy_flags.
  destruct (run_transfer old new copy_flags p k src (errExit (lit "opening file " ++ old)) (errExit (lit "opening file " ++ new))
    (errExit (lit "close input")) (errExit (lit "close output")) _ _ (Halt EXIT_SUCCESS : prog unit) Htf eq_refl eq_refl
    (errExit_dies _) (errExit_dies _) (errExit_dies _) (errExit_dies _) 
    (copy_transfers fuel (errExit (lit "read")) src Hf (tf_small _ _ _ _ Htf) (errExit_dies _)))
    as (p' & k' & Hoc & [(e & E & He & Hc)|[E Hfile]]).
  - exists e, p', k'. by split; [exact E|].
  - exists EXIT_SUCCESS, p', k'. by split; [exact E|].
Qed.

(** C36: [cp] ends, for any failures and partial transfers of its calls, with a
    status of success only when the bytes of the source other than zero are
    where they belong; between them, before them and behind them the destination
    has what it had, or zeros where it grew: nothing is truncated, and zeros at
    the end of the source are not copied. *)
Theorem cp_copies_data `{libc} fuel p k a0 old new src :
  two_files k old new src -> (length src < fuel)%nat ->
  exists c p' k', outcome_status (run (cp fuel [a0; old; new]) (p, k)) c p' k' /\
    (c = EXIT_SUCCESS -> file_at k' new = Some (with_holes src (content k new))) /\ only_changed new k k' /\
    (calm 2 p -> c = EXIT_SUCCESS).
Proof.
  intros Htf Hf. unfold cp. change (argc [a0; old; new] =? 3) with true. change (arg [a0; old; new] 1) with (Done old : prog (list Z)).
  change (arg [a0; old; new] 2) with (Done new : prog (list Z)). cbn [negb pbind]. rewrite (tf_help _ _ _ _ Htf). cbn [when pbind]. fold cp_flags.
  destruct (run_transfer old new cp_flags p k src (errExit (lit "open")) (errExit (lit "open"))
    (errExit (lit "close")) (errExit (lit "close")) _ _ (Done EXIT_SUCCESS : prog Z) Htf eq_refl eq_refl
    (errExit_dies _) (errExit_dies _) (errExit_dies _) (errExit_dies _)
    (cp_transfers fuel src Hf (tf_small _ _ _ _ Htf)))
    as (p' & k' & Hoc & [(e & E & He & Hc)|[E Hfile]]).
  - exists e, p', k'. split; [right; exact E|done].
  - exists EXIT_SUCCESS, p', k'. split; [left; exact E|done].
Qed.


(** *** Two files named a and b *)

Definition demo_kern (a b : list Z) : kern := mk_kern {[lit "a" := 0; lit "b" := 1]} {[0 := Reg 420 a; 1 := Reg 420 b]} ∅.

Lemma demo_two_files a b : Z.of_nat (length a) <= OFF_MAX -> two_files (demo_kern a b) (lit "a") (lit "b") a.
Proof.
  intros Ha. assert (forall n i, k_names (demo_kern a b) !! n = Some i -> i = 0 \/ i = 1) as Hn.
  { intros n i. unfold demo_kern. cbn [k_names]. rewrite lookup_insert_Some, lookup_singleton_Some. intuition. }
  split; [| by exists 0, 420| |by intros (i & H1 & H2); vm_compute in H1, H2; congruence|done|done].
  - intros n i H. destruct (Hn n i H) as [->| ->]; cbn; [by eexists|by eexists].
  - intros i H. destruct (Hn _ i H) as [->| ->]; by eexists _, _.
Qed.

(** Copying a longer file over a shorter one. *)
Lemma copy_copies_witness :
  exists c p' k', run (copy (H:=demo_libc) 8 [lit "copy"; lit "a"; lit "b"]) (no_proc, demo_kern (lit "hello") (lit "xy")) = (Exit c, (p', k')) /\
    (c = EXIT_SUCCESS -> file_at k' (lit "b") = Some (lit "hello")) /\
    only_changed (lit "b") (demo_kern (lit "hello") (lit "xy")) k' /\ (calm 2 no_proc -> c = EXIT_SUCCESS).
Proof.
  apply copy_copies.
  - apply demo_two_files. vm_compute. discriminate.
  - cbn. lia.
Defined.

(** A hole inside the file, one at its end, and a longer destination. *)
Lemma cp_copies_data_witness :
  exists c p' k', outcome_status (run (cp (H:=demo_libc) 8 [lit "cp"; lit "a"; lit "b"])
      (no_proc, demo_kern [65; 0; 0; 66; 0] (lit "uvwxyz"))) c p' k' /\
    (c = EXIT_SUCCESS -> file_at k' (lit "b") = Some (with_holes [65; 0; 0; 66; 0] (content (demo_kern [65; 0; 0; 66; 0] (lit "uvwxyz")) (lit "b")))) /\
    only_changed (lit "b") (demo_kern [65; 0; 0; 66; 0] (lit "uvwxyz")) k' /\ (calm 2 no_proc -> c = EXIT_SUCCESS).
Proof.
  apply cp_copies_data.
  - apply demo_two_files. vm_compute. discriminate.
  - cbn. lia.
Defined.

Example cp_keeps_old_data : with_holes [65; 0; 0; 66; 0] (lit "uvwxyz") = lit "AvwByz".
Proof. reflexivity. Qed.

Example cp_new_file : with_holes [0; 65; 0; 0; 66; 0; 0] [] = [0; 65; 0; 0; 66].
Proof. reflexivity. Qed.
