(* ===== verification/FileTee.v ===== *)
(** * tlpi/fileio: tee

    tee.c, which copies its standard input to its standard output and a file,
    run against the files and pipes of [Vfs]. *)

From stdpp Require Import prelude list_numbers strings gmap.
From Stdlib Require Import ZArith Lia.
From S2P Require Import Prelude CLib Vfs TlpiLib FileRun.
Open Scope Z_scope.

Section Programs.
Context `{libc}.

(** *** tee.c *)

Definition STDIN_FILENO : Z := 0.
Definition STDOUT_FILENO : Z := 1.

Fixpoint tee_loop (fuel : nat) (fd : Z) : prog unit :=
  match fuel with
  | O => Spent
  | S fuel =>
      let! ' (numRead, buf) := sys (Read STDIN_FILENO 1) in
      if negb (numRead =? 0) then
        when (numRead =? -1) (errExit (lit "read")) ;;!
        let! c := (match buf with c :: _ => Done c | [] => Crash end) in
        let! numWritten := sys (Write STDOUT_FILENO [c]) in
        when (numWritten =? -1) (errExit (lit "write")) ;;!
        let! numWritten := sys (Write fd [c]) in
        when (numWritten =? -1) (errExit (lit "write")) ;;!
        tee_loop fuel fd
      else Done tt
  end.

Definition tee (fuel : nat) (argv : list (list Z)) : prog Z :=
  let usage := let! a0 := arg argv 0 in usageErr (a0 ++ lit " [-a] file" ++ [10]) in
  (if (3 <? argc argv) || (argc argv <? 2) then usage
   else let! a1 := arg argv 1 in
     when ((argc argv =? 3) && negb (bool_decide (a1 = lit "-a")) || is_help a1) usage) ;;!
  let! a1 := arg argv 1 in
  let! file := (if argc argv =? 2 then Done a1 else arg argv 2) in
  let flags := Z.lor O_RDWR O_CREAT in
  let flags := if bool_decide (a1 = lit "-a") then Z.lor flags O_APPEND else flags in
  let! fd := sys (Open file flags rw_rw_rw) in
  when (fd =? -1) (errExit (lit "open")) ;;!
  tee_loop fuel fd ;;!
  let! r := sys (Close fd) in
  when (r =? -1) (errExit (lit "close")) ;;!
  Done EXIT_SUCCESS.

End Programs.


(** ** Pipes *)

(** Descriptor [fd] refers to a pipe or terminal. *)
Record piped (fd d i off flags : Z) (inp out : list Z) (p : proc) (k : kern) : Prop := {
  pi_fd : p_fds p !! fd = Some d;
  pi_ofd : k_ofds k !! d = Some (mk_ofd i off flags);
  pi_inode : k_inodes k !! i = Some (Tty inp out)
}.

Lemma piped_proc fd d i off flags inp out p p' k :
  piped fd d i off flags inp out p k -> p_fds p' = p_fds p -> piped fd d i off flags inp out p' k.
Proof. intros [] E. constructor; by rewrite ?E. Qed.

Lemma piped_descr fd d i off flags inp out p k :
  piped fd d i off flags inp out p k -> descr fd p k = Some (d, mk_ofd i off flags).
Proof. intros []. unfold descr. rewrite pi_fd0. cbn. by rewrite pi_ofd0. Qed.

Lemma set_inode_id i n k : k_inodes k !! i = Some n -> set_inode i n k = k.
Proof. intros E. destruct k. unfold set_inode, set_k_inodes. cbn in *. by rewrite insert_id. Qed.

Lemma limit_one v (c : Z) : limit v [c] = [c].
Proof. destruct v as [|n|]; [done| |done]. by destruct n. Qed.

(** Reading one byte of what is in a pipe; nothing is there when it is at its end. *)
Lemma pipe_read_1 fd d i off flags inp out p k :
  piped fd d i off flags inp out p k -> Z.land flags O_ACCMODE <> O_WRONLY ->
  exists p', p_fds p' = p_fds p /\ (p_script p = [] -> p' = p) /\
    (answer (Read fd 1) (p, k) = ((-1, []), (p', k)) /\ p_script p <> [] \/
     inp = [] /\ answer (Read fd 1) (p, k) = ((0, []), (p', k)) \/
     exists c r, inp = c :: r /\ answer (Read fd 1) (p, k) = ((1, [c]), (p', set_inode i (Tty r out) k))).
Proof.
  intros Ho Hr. destruct (next_verdict_spec p) as (v & p1 & Ev & Hf & _ & Hfine).
  pose proof (piped_descr _ _ _ _ _ _ _ _ _ (piped_proc _ _ _ _ _ _ _ _ _ _ Ho Hf)) as Hd.
  cbn [answer]. rewrite Ev.
  assert (readable (mk_ofd i off flags) = true) as Hrd by (unfold readable; cbn; by rewrite (proj2 (Z.eqb_neq _ _))).
  assert (do_read v fd 1 p1 k = match inp with
    | [] => ((0, []), (p1, k)) | c :: r => ((1, [c]), (p1, set_inode i (Tty r out) k)) end) as E.
  { unfold do_read. rewrite Hd, Hrd. cbn [o_ino o_off]. rewrite (pi_inode _ _ _ _ _ _ _ _ _ Ho).
    change (Z.to_nat 1) with 1%nat. destruct inp as [|c r]; cbn [take].
    - assert (limit v [] = []) as -> by by destruct v. cbn [length drop]. by rewrite set_inode_id by apply Ho.
    - rewrite take_0, limit_one. done. }
  destruct v as [|m|e].
  - exists p1. split; [done|]. split; [intros Hs; by apply Hfine|]. right. rewrite E. destruct inp as [|c r]; [by left|right; by exists c, r].
  - exists p1. split; [done|]. split; [intros Hs; by apply Hfine|]. right. rewrite E. destruct inp as [|c r]; [by left|right; by exists c, r].
  - exists (set_p_errno e p1). split; [done|]. assert (p_script p <> []) as Hne by (intros Hs; by destruct (Hfine Hs)).
    split; [done|]. left. by split.
Qed.

Lemma pipe_write_1 fd d i off flags inp out p k c :
  piped fd d i off flags inp out p k -> Z.land flags O_ACCMODE <> O_RDONLY ->
  exists p', p_fds p' = p_fds p /\ (p_script p = [] -> p' = p) /\
    (answer (Write fd [c]) (p, k) = (-1, (p', k)) /\ p_script p <> [] \/
     answer (Write fd [c]) (p, k) = (1, (p', set_inode i (Tty inp (out ++ [c])) k))).
Proof.
  intros Ho Hr. destruct (next_verdict_spec p) as (v & p1 & Ev & Hf & _ & Hfine).
  pose proof (piped_descr _ _ _ _ _ _ _ _ _ (piped_proc _ _ _ _ _ _ _ _ _ _ Ho Hf)) as Hd.
  cbn [answer]. rewrite Ev.
  assert (writable (mk_ofd i off flags) = true) as Hrd by (unfold writable; cbn; by rewrite (proj2 (Z.eqb_neq _ _))).
  assert (do_write v fd [c] p1 k = (1, (p1, set_inode i (Tty inp (out ++ [c])) k))) as E.
  { unfold do_write. rewrite Hd, Hrd. cbn [o_ino o_off]. rewrite (pi_inode _ _ _ _ _ _ _ _ _ Ho). by rewrite limit_one. }
  destruct v as [|m|e].
  - exists p1. split; [done|]. split; [intros Hs; by apply Hfine|]. by right.
  - exists p1. split; [done|]. split; [intros Hs; by apply Hfine|]. by right.
  - exists (set_p_errno e p1). split; [done|]. assert (p_script p <> []) as Hne by (intros Hs; by destruct (Hfine Hs)).
    split; [done|]. left. by split.
Qed.

(** ** tee *)

(** What is in the file after [done] was written. *)
Definition tee_file (app : bool) (old done : list Z) : list Z :=
  if app then old ++ done else done ++ drop (length done) old.

Lemma piped_set_off fd d i off flags inp out p k d' o' off' :
  piped fd d i off flags inp out p k -> d' <> d -> piped fd d i off flags inp out p (set_off d' off' o' k).
Proof. intros [] Hne. constructor; try done. cbn. by rewrite lookup_insert_ne. Qed.

Lemma piped_set_inode fd d i off flags inp out p k i' n :
  piped fd d i off flags inp out p k -> i' <> i -> piped fd d i off flags inp out p (set_inode i' n k).
Proof. intros [] Hne. constructor; try done. cbn. by rewrite lookup_insert_ne. Qed.

Lemma piped_new_inode fd d i off flags inp out inp' out' p k :
  piped fd d i off flags inp out p k -> piped fd d i off flags inp' out' p (set_inode i (Tty inp' out') k).
Proof. intros []. constructor; try done. cbn. by rewrite lookup_insert_eq. Qed.

Section TeeLoop.
Context `{libc}.
Variables (din iin oin fin dout iout oout fout fd d i m : Z) (app : bool) (old out0 inp0 outin : list Z) (max : Z).

Definition tee_flags : Z := if app then Z.lor O_RDWR O_APPEND else O_RDWR.

(** [done] was copied, [rest] is still in the pipe. *)
Record teeing (done rest : list Z) (off : Z) (p : proc) (k : kern) : Prop := {
  te_in : piped STDIN_FILENO din iin oin fin rest outin p k;
  te_out : piped STDOUT_FILENO dout iout oout fout inp0 (out0 ++ done) p k;
  te_file : opened fd d i off tee_flags m (tee_file app old done) p k;
  te_off : app = true \/ off = Z.of_nat (length done)
}.

Hypothesis Hinodes : iin <> iout /\ iin <> i /\ iout <> i.
Hypothesis Hdescr : din <> d /\ dout <> d.
Hypothesis Hin : Z.land fin O_ACCMODE <> O_WRONLY.
Hypothesis Hout : Z.land fout O_ACCMODE <> O_RDONLY.

Lemma teeing_proc done rest off p p' k : teeing done rest off p k -> p_fds p' = p_fds p -> teeing done rest off p' k.
Proof. intros [] E. constructor; [by eapply piped_proc|by eapply piped_proc|by eapply opened_proc|done]. Qed.

(** The regular files other than the one written to are as they were. *)
Definition regular_at (k : kern) (j : Z) : option (list Z) :=
  match k_inodes k !! j with Some (Reg _ data) => Some data | _ => None end.

Definition tee_kept (k k' : kern) : Prop :=
  k_names k' = k_names k /\ forall j, j <> i -> regular_at k' j = regular_at k j.

Lemma tee_kept_trans k1 k2 k3 : tee_kept k1 k2 -> tee_kept k2 k3 -> tee_kept k1 k3.
Proof. intros [E1 H1] [E2 H2]. split; [congruence|]. intros j ?. by rewrite H2, H1. Qed.

Lemma tee_kept_pipe j inp out inp' out' k : k_inodes k !! j = Some (Tty inp out) -> tee_kept k (set_inode j (Tty inp' out') k).
Proof.
  intros E. split; [done|]. intros j' _. unfold regular_at. cbn.
  destruct (decide (j' = j)) as [->|]; [by rewrite lookup_insert_eq, E|by rewrite lookup_insert_ne].
Qed.

Lemma tee_kept_kept k k' : kept i k k' -> tee_kept k k'.
Proof. intros Hk. split; [apply Hk|]. intros j Hj. unfold regular_at. by rewrite (kp_inodes _ _ _ Hk). Qed.

Lemma tee_file_snoc done c :
  pwrite (tee_file app old done) (if app then Z.of_nat (length (tee_file app old done)) else Z.of_nat (length done)) [c] =
  tee_file app old (done ++ [c]).
Proof.
  unfold tee_file. destruct app; [by rewrite pwrite_end, app_assoc|]. rewrite pwrite_prefix, drop_drop, length_app.
  by rewrite <- app_assoc.
Qed.

(** One byte goes through. *)
Lemma tee_byte {A} done c rest off p k (h : prog A) :
  teeing done (c :: rest) off p k -> Z.of_nat (length old) + Z.of_nat (length done) < OFF_MAX ->
  let q := let! n := sys (Write STDOUT_FILENO [c]) in when (n =? -1) (errExit (lit "write")) ;;!
           let! n := sys (Write fd [c]) in when (n =? -1) (errExit (lit "write")) ;;! h in
  exists p' k', p_fds p' = p_fds p /\ tee_kept k k' /\
    ((exists e, run q (p, set_inode iin (Tty rest outin) k) = (Exit e, (p', k')) /\ e <> EXIT_SUCCESS /\ p_script p <> []) \/
     run q (p, set_inode iin (Tty rest outin) k) = run h (p', k') /\ (p_script p = [] -> p' = p) /\
     exists off', teeing (done ++ [c]) rest off' p' k').
Proof.
  intros [Ti To Tf Hoff] Hmax q. subst q. destruct Hinodes as (H1 & H2 & H3), Hdescr as [H4 H5].
  set (k1 := set_inode iin _ k). assert (tee_kept k k1) as Hk1 by (eapply tee_kept_pipe, Ti).
  assert (piped STDIN_FILENO din iin oin fin rest outin p k1) as Ti1 by (by eapply piped_new_inode).
  assert (piped STDOUT_FILENO dout iout oout fout inp0 (out0 ++ done) p k1) as To1 by (by eapply piped_set_inode).
  assert (opened fd d i off tee_flags m (tee_file app old done) p k1) as Tf1 by (by apply opened_set_inode).
  destruct (pipe_write_1 _ _ _ _ _ _ _ p k1 c To1 Hout) as (p1 & Hp1 & Hc1 & [[E Hs]|E]); rewrite (run_call _ _ _ _ _ E).
  { match goal with |- context [run (pbind (when ?b ?x) (fun _ => ?h)) _] =>
      destruct (run_when_dies b x h p1 k1 eq_refl (errExit_dies _)) as (e & p2 & E2 & He & Hp2 & _) end.
    exists p2, k1. split; [congruence|]. split; [done|]. left. by exists e. }
  rewrite run_when_no by done. set (k2 := set_inode iout _ k1).
  assert (tee_kept k k2) as Hk2 by (eapply tee_kept_trans; [done|eapply tee_kept_pipe, To1]).
  assert (opened fd d i off tee_flags m (tee_file app old done) p1 k2) as Tf2
    by (eapply opened_proc; [by apply opened_set_inode|done]).
  assert (flag tee_flags O_APPEND = app) as Happ by (unfold tee_flags; by destruct app).
  match goal with |- context [run (pbind (sys (Write fd ?bs)) (fun n => pbind (when (@?bad n) ?x) (fun _ => ?h))) (?p, ?k)] =>
    destruct (run_write _ _ _ _ _ _ _ p k bs bad x h Tf2) as (p2 & Hp2 & Hc2) end;
    [unfold tee_flags; by destruct app|auto with stage0|done|done| | |].
  { intros [|x w] r Ew Hw; [done|]. injection Ew as -> Ew. destruct w; [|done]. cbn in Ew. by subst r. }
  { rewrite Happ. cbn [length]. unfold tee_file. destruct app; [rewrite length_app; lia|]. destruct Hoff as [|Hoff]; [done|]. lia. }
  rewrite Happ in Hc2. destruct Hc2 as [(e & k' & E2 & He & Hk & Hs)|[E2 Hcalm]].
  { exists p2, k'. split; [congruence|]. split.
    - eapply tee_kept_trans; [exact Hk2|by apply tee_kept_kept].
    - left. exists e. split; [exact E2|]. split; [done|]. intros Hs'. by rewrite (Hc1 Hs') in Hs. }
  match type of E2 with _ = run _ (_, ?K) => exists p2, K end. split; [congruence|]. split.
  { eapply tee_kept_trans; [exact Hk2|]. apply tee_kept_kept. eapply kept_trans; [apply kept_inode|apply kept_off]. }
  right. split; [exact E2|]. split; [intros Hs; rewrite Hcalm; [by apply Hc1|by rewrite Hc1]|].
  eexists. apply (teeing_proc _ _ _ p p2); [|congruence]. constructor.
  - by apply piped_set_off; [apply piped_set_inode; [apply piped_set_inode|]|].
  - apply piped_set_off; [apply piped_set_inode|]; [|done|done]. rewrite app_assoc. by eapply piped_new_inode.
  - assert ((if app then Z.of_nat (length (tee_file app old done)) else off) =
      (if app then Z.of_nat (length (tee_file app old done)) else Z.of_nat (length done))) as ->.
    { destruct app; [done|]. by destruct Hoff. }
    rewrite tee_file_snoc. destruct Tf2. constructor; cbn; rewrite ?lookup_insert_eq; try done.
    + by rewrite <- Hp1.
    + destruct app; lia.
  - destruct app; [by left|right]. by rewrite length_app, Nat2Z.inj_add.
Qed.

Lemma tee_loop_spec fuel input done rest off p k :
  teeing done rest off p k -> input = done ++ rest -> Z.of_nat (length old) + Z.of_nat (length input) <= OFF_MAX ->
  (length rest < fuel)%nat ->
  exists o p' k', run (tee_loop fuel fd) (p, k) = (o, (p', k')) /\ p_fds p' = p_fds p /\ tee_kept k k' /\
    ended o (fun _ => exists off', teeing input [] off' p' k') /\ (p_script p = [] -> o = Ret tt /\ p' = p).
Proof.
  intros Ht Hin' Hmax Hf. revert done rest off p k Ht Hin' Hf.
  induction fuel as [|fuel IH]; intros done rest off p k Ht Einput Hf; [lia|]. cbn [tee_loop].
  destruct (pipe_read_1 _ _ _ _ _ _ _ p k (te_in _ _ _ _ _ Ht) Hin)
    as (p1 & Hp1 & Hc1 & [[E Hs]|[[-> E]|(c & r & -> & E)]]); rewrite (run_call _ _ _ _ _ E).
  - change (negb (-1 =? 0)) with true. cbv iota.
    match goal with |- context [run (pbind (when ?b ?x) (fun _ => ?h)) _] =>
      destruct (run_when_dies b x h p1 k eq_refl (errExit_dies _)) as (e & p2 & E2 & He & Hp2 & _) end.
    exists (Exit e), p2, k. split; [done|]. split; [congruence|]. by repeat split.
  - rewrite app_nil_r in Einput. subst input. exists (Ret tt), p1, k. split; [done|]. split; [done|]. split; [done|].
    split; [|intros Hs; by split; [|apply Hc1]]. exists off. by eapply teeing_proc.
  - change (negb (1 =? 0)) with true. cbv iota. rewrite run_when_no by done. cbn [pbind].
    destruct (tee_byte done c r off p1 k (tee_loop fuel fd)) as (p2 & k2 & Hp2 & Hk2 & H2).
    { by eapply teeing_proc. }
    { subst input. rewrite length_app in Hmax. cbn [length] in Hmax. lia. }
    destruct H2 as [(e & E2 & He & Hs)|(E2 & Hc2 & off' & Ht2)]; cbv zeta in E2; rewrite E2.
    { exists (Exit e), p2, k2. split; [done|]. split; [congruence|]. split; [done|]. split; [done|].
      intros Hs'. by rewrite (Hc1 Hs') in Hs. }
    destruct (IH (done ++ [c]) r off' p2 k2 Ht2) as (o & p3 & k3 & E3 & Hp3 & Hk3 & He3 & Hc3).
    { by rewrite <- app_assoc. }
    { cbn [length] in Hf. lia. }
    exists o, p3, k3. split; [done|]. split; [congruence|]. split; [by eapply tee_kept_trans|]. split; [done|].
    intros Hs. specialize (Hc1 Hs). subst p1. specialize (Hc2 Hs). subst p2. by apply Hc3.
Qed.

End TeeLoop.

(** ** Properties *)

(** The standard streams are pipes, and the file is a regular one or does not exist. *)
Record tee_start (app : bool) (file input inp0 out0 : list Z) (iout : Z) (p : proc) (k : kern) : Prop := {
  ts_streams : exists din iin oin fin outin dout oout fout,
    piped STDIN_FILENO din iin oin fin input outin p k /\ piped STDOUT_FILENO dout iout oout fout inp0 out0 p k /\
    iin <> iout /\ Z.land fin O_ACCMODE <> O_WRONLY /\ Z.land fout O_ACCMODE <> O_RDONLY;
  ts_kern : kern_ok k;
  ts_file : regular_or_absent k file;
  ts_fits : Z.of_nat (length (content k file)) + Z.of_nat (length input) <= OFF_MAX;
  ts_name : app = false -> file <> lit "-a" /\ is_help file = false
}.

Lemma only_changed_tee file i k k1 k2 : changes file i k k1 -> tee_kept i k1 k2 -> only_changed file k k2.
Proof.
  intros Hc [En Ei] n Hn Hs. rewrite <- (changes_other file i k k1 n Hc Hn Hs). unfold file_at. rewrite En.
  destruct (k_names k1 !! n) as [j|] eqn:E; [|done]. cbn. assert (j <> i) as Hj.
  { intros ->. apply Hs. exists i. rewrite (ch_names _ _ _ _ Hc) in E by done. split; [done|]. by eapply ch_new. }
  specialize (Ei j Hj). unfold regular_at in Ei. by destruct (k_inodes k2 !! j) as [[]|], (k_inodes k1 !! j) as [[]|]; cbn; congruence.
Qed.

(** A pipe stays what it was when another file is opened. *)
Lemma piped_after_open fd0 d0 i0 off0 fl0 inp out file i k k1 fd d o p p1 :
  changes file i k k1 -> k_ofds k1 = k_ofds k -> p_fds p !! fd = None -> k_ofds k1 !! d = None -> p_fds p1 = <[fd := d]> (p_fds p) ->
  piped fd0 d0 i0 off0 fl0 inp out p k ->
  piped fd0 d0 i0 off0 fl0 inp out p1 (set_k_ofds (<[d := o]> (k_ofds k1)) k1) /\ i0 <> i /\ d0 <> d.
Proof.
  intros Hch Hofd Hnf Hnd Hp1 [P1 P2 P3]. assert (i0 <> i) as Hne by (intros ->; by destruct (ch_reg _ _ _ _ Hch inp out)).
  assert (d0 <> d) as Hned by (intros ->; congruence). split; [constructor|done].
  - rewrite Hp1, lookup_insert_ne; [done|]. congruence.
  - cbn. rewrite lookup_insert_ne by done. by rewrite Hofd.
  - by rewrite <- P3; apply (ch_inodes _ _ _ _ Hch).
Qed.

(** What [tee] does after its arguments are read. *)
Lemma tee_copy_spec `{libc} fuel app file input inp0 out0 iout p k :
  tee_start app file input inp0 out0 iout p k -> (length input < fuel)%nat ->
  let flags := if app then Z.lor (Z.lor O_RDWR O_CREAT) O_APPEND else Z.lor O_RDWR O_CREAT in
  exists c p' k', outcome_status (run (let! fd := sys (Open file flags rw_rw_rw) in
      when (fd =? -1) (errExit (lit "open")) ;;!
      tee_loop fuel fd ;;!
      let! r := sys (Close fd) in
      when (r =? -1) (errExit (lit "close")) ;;! Done EXIT_SUCCESS) (p, k)) c p' k' /\
    (c = EXIT_SUCCESS -> file_at k' file = Some (tee_file app (content k file) input) /\
       k_inodes k' !! iout = Some (Tty inp0 (out0 ++ input))) /\
    only_changed file k k' /\ (calm 1 p -> c = EXIT_SUCCESS).
Proof.
  intros [(din & iin & oin & fin & outin & dout & oout & fout & Hi & Ho & Hio & Hfi & Hfo) Hk Hr Hfit Hname] Hf flags.
  destruct (open_create file flags rw_rw_rw k Hk Hr) as (i & m & k1 & Eo & Hch & Hofd & Hino);
    [by destruct app|by destruct app|].
  assert (truncates flags = false) as Htr by by destruct app. rewrite Htr in Hino.
  destruct (run_open file flags rw_rw_rw p k i k1 (errExit (lit "open")) (fun fd => tee_loop fuel fd ;;!
      let! r := sys (Close fd) in when (r =? -1) (errExit (lit "close")) ;;! Done EXIT_SUCCESS) Eo (errExit_dies _))
    as (p1 & [(e & E & He & Hs)|(fd & d & Hfd & Hnf & Hnd & Hp1 & Hc1 & E)]).
  { exists e, p1, k. split; [right; exact E|]. split; [done|]. split; [by apply only_changed_same|].
    intros [Hs1 Hs2]. destruct Hs; [done|lia]. }
  set (k2 := set_k_ofds _ k1) in *.
  pose proof (fun fd0 d0 i0 off0 fl0 inp out => piped_after_open fd0 d0 i0 off0 fl0 inp out file i k k1 fd d (mk_ofd i 0 (open_flags flags)) p p1
    Hch Hofd Hnf Hnd Hp1) as Hpi. fold k2 in Hpi.
  destruct (Hpi _ _ _ _ _ _ _ Hi) as (Hi' & Hii & Hdi). destruct (Hpi _ _ _ _ _ _ _ Ho) as (Ho' & Hoi & Hdo). clear Hpi.
  destruct (tee_loop_spec din iin oin fin dout iout oout fout fd d i m app (content k file) out0 inp0 outin
    (conj Hio (conj Hii Hoi)) (conj Hdi Hdo) Hfi Hfo fuel input [] input 0 p1 k2) as (o & p2 & k3 & E2 & Hp2 & Hk2 & He2 & Hc2).
  { constructor; [done|by rewrite app_nil_r| |by right]. assert (tee_file app (content k file) [] = content k file) as ->.
    { unfold tee_file. destruct app; [apply app_nil_r|done]. }
    replace (tee_flags app) with (open_flags flags) by by destruct app. by apply (opened_new fd d i _ _ _ p). }
  { done. }
  { done. }
  { done. }
  assert (only_changed file k k3) as Hoc by (by eapply only_changed_tee).
  destruct o as [[]|e| |]; cbn [ended] in He2; try done.
  2: { exists e, p2, k3. split; [right; cbv zeta in E; rewrite E; by apply run_exit|]. split; [done|]. split; [done|].
       intros [Hs _]. specialize (Hc1 Hs). subst p1. by destruct Hc2. }
  destruct He2 as (off' & Ht2). rewrite (run_ret _ _ _ _ _ E2) in E. cbv zeta in E.
  destruct (run_close fd d p2 k3 (errExit (lit "close")) (Done EXIT_SUCCESS)) as (p3 & Hp3 & Hc3); [|apply errExit_dies|].
  { rewrite Hp2, Hp1. apply lookup_insert_eq. }
  destruct Hc3 as [(e & E3 & He & Hs)|[E3 Hc3]]; cbv zeta in E3; rewrite E3 in E.
  - exists e, p3, k3. split; [right; exact E|]. split; [done|]. split; [done|].
    intros [Hs' _]. specialize (Hc1 Hs'). subst p1. destruct Hc2 as [_ ->]; [done|]. done.
  - exists EXIT_SUCCESS, p3, k3. split; [left; exact E|]. split; [|done]. intros _. split; [|apply (te_out _ _ _ _ _ _ _ _ _ _ _ _ _ _ _ _ _ _ _ _ _ _ Ht2)].
    unfold file_at. destruct Hk2 as [En _]. rewrite En. cbn. rewrite (ch_name _ _ _ _ Hch). cbn.
    by rewrite (op_inode _ _ _ _ _ _ _ _ _ (te_file _ _ _ _ _ _ _ _ _ _ _ _ _ _ _ _ _ _ _ _ _ _ Ht2)).
Qed.

Definition tee_args (app : bool) (a0 file : list Z) : list (list Z) := if app then [a0; lit "-a"; file] else [a0; file].

(** For any failures of its calls, [tee] ends with a status of success only
    when all of its input went to the standard output and to the file: at its end
    with the option -a, otherwise over its beginning, what was behind staying
    there.  It changes no other file, and it succeeds when no call fails. *)
Theorem tee_copies `{libc} fuel app a0 file input inp0 out0 iout p k :
  tee_start app file input inp0 out0 iout p k -> (length input < fuel)%nat ->
  exists c p' k', outcome_status (run (tee fuel (tee_args app a0 file)) (p, k)) c p' k' /\
    (c = EXIT_SUCCESS -> file_at k' file = Some (tee_file app (content k file) input) /\
       k_inodes k' !! iout = Some (Tty inp0 (out0 ++ input))) /\
    only_changed file k k' /\ (calm 1 p -> c = EXIT_SUCCESS).
Proof.
  intros Hs Hf. destruct (tee_copy_spec fuel app file input inp0 out0 iout p k Hs Hf) as (c & p' & k' & E & H1).
  exists c, p', k'. split; [|done]. destruct app; [exact E|].
  destruct (ts_name _ _ _ _ _ _ _ _ Hs eq_refl) as [Hn Hh]. unfold tee. cbn [tee_args].
  change ((3 <? argc [a0; file]) || (argc [a0; file] <? 2)) with false. change (argc [a0; file] =? 3) with false.
  change (arg [a0; file] 1) with (Done file : prog (list Z)). change (argc [a0; file] =? 2) with true.
  cbn [pbind andb orb]. rewrite Hh, bool_decide_eq_false_2 by done. exact E.
Qed.

(** A pipe with [inp], another one, and a file named b. *)
Definition tee_proc : proc := mk_proc {[0 := 0; 1 := 1]} 0 [] [] [] [].
Definition tee_kern (inp old : list Z) : kern :=
  mk_kern {[lit "b" := 2]} {[0 := Tty inp []; 1 := Tty [] []; 2 := Reg 420 old]} {[0 := mk_ofd 0 0 O_RDONLY; 1 := mk_ofd 1 0 O_WRONLY]}.

Lemma tee_copies_witness :
  exists c p' k', outcome_status (run (tee (H:=demo_libc) 3 (tee_args false (lit "tee") (lit "b"))) (tee_proc, tee_kern (lit "xy") (lit "old"))) c p' k' /\
    (c = EXIT_SUCCESS -> file_at k' (lit "b") = Some (tee_file false (content (tee_kern (lit "xy") (lit "old")) (lit "b")) (lit "xy")) /\
       k_inodes k' !! 1 = Some (Tty [] ([] ++ lit "xy"))) /\
    only_changed (lit "b") (tee_kern (lit "xy") (lit "old")) k' /\ (calm 1 tee_proc -> c = EXIT_SUCCESS).
Proof.
  apply tee_copies; [|cbn; lia]. assert (forall n i, k_names (tee_kern (lit "xy") (lit "old")) !! n = Some i -> i = 2) as Hn.
  { intros n i. unfold tee_kern. cbn [k_names]. rewrite lookup_singleton_Some. intuition. }
  split.
  - exists 0, 0, 0, O_RDONLY, [], 1, 0, O_WRONLY. split; [by constructor|]. by split; [constructor|].
  - intros n i H. rewrite (Hn n i H). by eexists.
  - intros i H. rewrite (Hn _ i H). by eexists _, _.
  - vm_compute. discriminate.
  - done.
Defined.

Example tee_keeps_tail : tee_file false (lit "old") (lit "xy") = lit "xyd".
Proof. reflexivity. Qed.
