(* ===== verification/LineIo.v ===== *)
(** * tlpi/tlpi-dist/sockets: input and output in blocks and lines

    rdwrn.c, read_line.c and read_line_buf.c, run against the pipes of [Vfs]: calls
    are interrupted, fail and transfer less than they are asked to as the script of the
    process says.  A buffer is the list of its bytes, and writing past it crashes. *)

From stdpp Require Import prelude list_numbers strings gmap.
From Stdlib Require Import ZArith Lia.
From S2P Require Import Prelude CLib Vfs FileRun FileTee.
Open Scope Z_scope.
Set Warnings "-clear-no-such-hyp".

Definition EINTR : Z := 4.
Definition NEWLINE : Z := 10.

(** [bs] stored from [buf + at]. *)
Definition store (buf : list Z) (at_ : Z) (bs : list Z) : prog (list Z) :=
  if Z.of_nat (length buf) <? at_ + Z.of_nat (length bs) then Crash
  else Done (take (Z.to_nat at_) buf ++ bs ++ drop (Z.to_nat at_ + length bs) buf).

(** ** rdwrn.c *)

(** The results come with the buffer. *)
Fixpoint readn_loop (fuel : nat) (fd n totRead : Z) (buf : list Z) : prog (Z * list Z) :=
  match fuel with
  | O => Spent
  | S fuel =>
      if totRead <? n then
        let! ' (numRead, bs) := sys (Read fd (n - totRead)) in
        let! buf := store buf totRead bs in
        if numRead =? 0 then Done (totRead, buf)
        else if numRead =? -1 then
          let! errno := sys Errno in
          if errno =? EINTR then readn_loop fuel fd n totRead buf else Done (-1, buf)
        else readn_loop fuel fd n (totRead + numRead) buf
      else Done (totRead, buf)
  end.

Definition readn (fuel : nat) (fd : Z) (buffer : list Z) (n : Z) : prog (Z * list Z) :=
  readn_loop fuel fd n 0 buffer.

(** [buf] is what is not yet written. *)
Fixpoint writen_loop (fuel : nat) (fd n totWritten : Z) (buf : list Z) : prog Z :=
  match fuel with
  | O => Spent
  | S fuel =>
      if totWritten <? n then
        let! bs := (if Z.of_nat (length buf) <? n - totWritten then Crash else Done (take (Z.to_nat (n - totWritten)) buf)) in
        let! numWritten := sys (Write fd bs) in
        if numWritten <=? 0 then
          let! interrupted := (if numWritten =? -1 then let! errno := sys Errno in Done (errno =? EINTR) else Done false) in
          if interrupted then writen_loop fuel fd n totWritten buf else Done (-1)
        else writen_loop fuel fd n (totWritten + numWritten) (drop (Z.to_nat numWritten) buf)
      else Done totWritten
  end.

Definition writen (fuel : nat) (fd : Z) (buffer : list Z) (n : Z) : prog Z :=
  writen_loop fuel fd n 0 buffer.

(** ** read_line.c *)

Fixpoint read_line_loop (fuel : nat) (fd n totRead : Z) (buf : list Z) : prog (Z * list Z) :=
  match fuel with
  | O => Spent
  | S fuel =>
      let! ' (numRead, bs) := sys (Read fd 1) in
      let finish (totRead : Z) (buf : list Z) := (let! buf := store buf totRead [0] in Done (totRead, buf)) in
      if numRead =? -1 then
        let! errno := sys Errno in
        if errno =? EINTR then read_line_loop fuel fd n totRead buf else Done (-1, buf)
      else if numRead =? 0 then
        if totRead =? 0 then Done (0, buf) else finish totRead buf
      else
        let! ch := (match bs with ch :: _ => Done ch | [] => Crash end) in
        let! ' (totRead, buf) :=
          (if totRead <? n - 1 then let! buf := store buf totRead [ch] in Done (totRead + 1, buf)
           else Done (totRead, buf)) in
        if ch =? NEWLINE then finish totRead buf else read_line_loop fuel fd n totRead buf
  end.

(** [buffer] is [None] for NULL. *)
Definition readLine (fuel : nat) (fd : Z) (buffer : option (list Z)) (n : Z) : prog (Z * list Z) :=
  match buffer with
  | Some buf => if n <=? 0 then sys (SetErrno EINVAL) ;;! Done (-1, buf) else read_line_loop fuel fd n 0 buf
  | None => sys (SetErrno EINVAL) ;;! Done (-1, [])
  end.

(** ** read_line_buf.c *)

Definition RL_MAX_BUF : Z := 10.

Record ReadLineBuf := mk_rlbuf { rl_fd : Z; rl_buf : list Z; rl_next : Z; rl_len : Z }.

Definition readLineBufInit (fd : Z) (rlbuf : ReadLineBuf) : ReadLineBuf := mk_rlbuf fd (rl_buf rlbuf) 0 0.

(** The next block when nothing is left; whether there is something. *)
Definition rl_fill (rlbuf : ReadLineBuf) : prog (ReadLineBuf * Z) :=
  if rl_len rlbuf <=? rl_next rlbuf then
    let! ' (len, bs) := sys (Read (rl_fd rlbuf) RL_MAX_BUF) in
    let! buf := store (rl_buf rlbuf) 0 bs in
    if (len =? -1) || (len =? 0) then Done (mk_rlbuf (rl_fd rlbuf) buf (rl_next rlbuf) len, len)
    else Done (mk_rlbuf (rl_fd rlbuf) buf 0 len, 1)
  else Done (rlbuf, 1).

Fixpoint read_line_buf_loop (fuel : nat) (rlbuf : ReadLineBuf) (buffer : list Z) (n cnt : Z) : prog (Z * list Z * ReadLineBuf) :=
  match fuel with
  | O => Spent
  | S fuel =>
      let! ' (rlbuf, r) := rl_fill rlbuf in
      if r =? -1 then Done (-1, buffer, rlbuf)
      else if r =? 0 then Done (cnt, buffer, rlbuf)
      else
        let! c := (match zlookup (rl_buf rlbuf) (rl_next rlbuf) with Some c => Done c | None => Crash end) in
        let rlbuf := mk_rlbuf (rl_fd rlbuf) (rl_buf rlbuf) (rl_next rlbuf + 1) (rl_len rlbuf) in
        let! ' (cnt, buffer) :=
          (if cnt <? n then let! buffer := store buffer cnt [c] in Done (cnt + 1, buffer) else Done (cnt, buffer)) in
        if c =? NEWLINE then Done (cnt, buffer, rlbuf) else read_line_buf_loop fuel rlbuf buffer n cnt
  end.

Definition readLineBuf (fuel : nat) (rlbuf : ReadLineBuf) (buffer : option (list Z)) (n : Z) : prog (Z * list Z * ReadLineBuf) :=
  match buffer with
  | Some buf => if n <=? 0 then sys (SetErrno EINVAL) ;;! Done (-1, buf, rlbuf) else read_line_buf_loop fuel rlbuf buf n 0
  | None => sys (SetErrno EINVAL) ;;! Done (-1, [], rlbuf)
  end.

(** ** Pipes *)

Lemma pipe_read fd d i off flags inp out p k n :
  piped fd d i off flags inp out p k -> Z.land flags O_ACCMODE <> O_WRONLY -> 0 < n ->
  exists p', p_fds p' = p_fds p /\ p_script p' = tail (p_script p) /\
    ((exists e, answer (Read fd n) (p, k) = ((-1, []), (p', k)) /\ head (p_script p) = Some (Fails e) /\ p_errno p' = e) \/
     exists bs r, inp = bs ++ r /\ (bs = [] -> inp = []) /\ Z.of_nat (length bs) <= n /\ p_errno p' = p_errno p /\
       answer (Read fd n) (p, k) = ((Z.of_nat (length bs), bs), (p', set_inode i (Tty r out) k))).
Proof.
  intros Ho Hr Hn. set (p1 := match p_script p with [] => p | _ :: s => set_p_script s p end).
  assert (p_fds p1 = p_fds p /\ p_script p1 = tail (p_script p) /\ p_errno p1 = p_errno p) as (Hf & Hs & He).
  { subst p1. destruct (p_script p) eqn:E; cbn; [by rewrite E|done]. }
  pose proof (piped_proc _ _ _ _ _ _ _ _ _ _ Ho Hf) as Ho1. pose proof (piped_descr _ _ _ _ _ _ _ _ _ Ho1) as Hd.
  assert (readable (mk_ofd i off flags) = true) as Hrd by (unfold readable; cbn; by rewrite (proj2 (Z.eqb_neq _ _))).
  assert (forall v, exists bs r, inp = bs ++ r /\ (bs = [] -> inp = []) /\ Z.of_nat (length bs) <= n /\
    do_read v fd n p1 k = ((Z.of_nat (length bs), bs), (p1, set_inode i (Tty r out) k))) as Hread.
  { intros v. unfold do_read. rewrite Hd, Hrd. cbn [o_ino]. rewrite (pi_inode _ _ _ _ _ _ _ _ _ Ho).
    destruct (limit_spec v (take (Z.to_nat n) inp)) as (r & El & Hne & _). set (bs := limit v (take (Z.to_nat n) inp)) in *.
    assert (inp = bs ++ (r ++ drop (Z.to_nat n) inp)) as Ei by (rewrite app_assoc, <- El; by rewrite take_drop).
    exists bs, (r ++ drop (Z.to_nat n) inp). split; [done|]. split; [|split].
    - intros Hb. specialize (Hne Hb). destruct inp; [done|]. replace (Z.to_nat n) with (S (Z.to_nat n - 1)) in Hne by lia. done.
    - apply (f_equal length) in El. rewrite length_app, length_take in El. lia.
    - do 3 f_equal. rewrite Ei at 1. by rewrite drop_app_length. }
  cbn [answer]. unfold next_verdict. subst p1. destruct (p_script p) as [|v s].
  { exists p. split; [done|]. split; [done|]. right. destruct (Hread Fine) as (bs & r & H1 & H2 & H3 & H4). exists bs, r. by rewrite H4. }
  destruct v as [|m|e].
  - exists (set_p_script s p). split; [done|]. split; [done|]. right. destruct (Hread Fine) as (bs & r & H1 & H2 & H3 & H4). exists bs, r. by rewrite H4.
  - exists (set_p_script s p). split; [done|]. split; [done|]. right. destruct (Hread (Short m)) as (bs & r & H1 & H2 & H3 & H4). exists bs, r. by rewrite H4.
  - exists (set_p_errno e (set_p_script s p)). split; [done|]. split; [done|]. left. by exists e.
Qed.

Lemma pipe_write fd d i off flags inp out p k bs :
  piped fd d i off flags inp out p k -> Z.land flags O_ACCMODE <> O_RDONLY ->
  exists p', p_fds p' = p_fds p /\ p_script p' = tail (p_script p) /\
    ((exists e, answer (Write fd bs) (p, k) = (-1, (p', k)) /\ head (p_script p) = Some (Fails e) /\ p_errno p' = e) \/
     exists w r, bs = w ++ r /\ (w = [] -> bs = []) /\ p_errno p' = p_errno p /\
       answer (Write fd bs) (p, k) = (Z.of_nat (length w), (p', set_inode i (Tty inp (out ++ w)) k))).
Proof.
  intros Ho Hr. set (p1 := match p_script p with [] => p | _ :: s => set_p_script s p end).
  assert (p_fds p1 = p_fds p) as Hf by (subst p1; by destruct (p_script p)).
  pose proof (piped_proc _ _ _ _ _ _ _ _ _ _ Ho Hf) as Ho1. pose proof (piped_descr _ _ _ _ _ _ _ _ _ Ho1) as Hd.
  assert (writable (mk_ofd i off flags) = true) as Hrd by (unfold writable; cbn; by rewrite (proj2 (Z.eqb_neq _ _))).
  assert (forall v, exists w r, bs = w ++ r /\ (w = [] -> bs = []) /\
    do_write v fd bs p1 k = (Z.of_nat (length w), (p1, set_inode i (Tty inp (out ++ w)) k))) as Hwrite.
  { intros v. unfold do_write. rewrite Hd, Hrd. cbn [o_ino]. rewrite (pi_inode _ _ _ _ _ _ _ _ _ Ho).
    destruct (limit_spec v bs) as (r & El & Hne & _). by exists (limit v bs), r. }
  cbn [answer]. unfold next_verdict. subst p1. destruct (p_script p) as [|v s] eqn:Es.
  { exists p. split; [done|]. split; [done|]. right. destruct (Hwrite Fine) as (w & r & H1 & H2 & H3). exists w, r. by rewrite H3. }
  destruct v as [|m|e].
  - exists (set_p_script s p). split; [done|]. split; [done|]. right. destruct (Hwrite Fine) as (w & r & H1 & H2 & H3). exists w, r. by rewrite H3.
  - exists (set_p_script s p). split; [done|]. split; [done|]. right. destruct (Hwrite (Short m)) as (w & r & H1 & H2 & H3). exists w, r. by rewrite H3.
  - exists (set_p_errno e (set_p_script s p)). split; [done|]. split; [done|]. left. by exists e.
Qed.

(** ** Blocks *)

(** No call fails but for interruptions. *)
Definition undisturbed (s : list verdict) : Prop := Forall (fun v => match v with Fails e => e = EINTR | _ => True end) s.

Lemma undisturbed_tail s : undisturbed s -> undisturbed (tail s).
Proof. unfold undisturbed. intros Hs. destruct Hs; [constructor|done]. Qed.

Lemma undisturbed_head s e : undisturbed s -> head s = Some (Fails e) -> e = EINTR.
Proof. intros Hs. destruct Hs; cbn; [done|]. by intros [= ->]. Qed.

Lemma head_length {A} (s : list A) x : head s = Some x -> length s = S (length (tail s)).
Proof. by destruct s. Qed.

Lemma tail_length {A} (s : list A) : (length (tail s) <= length s)%nat.
Proof. destruct s; cbn; lia. Qed.

Lemma store_run {A} buf t bs (h : list Z -> prog A) s : (t + length bs <= length buf)%nat ->
  run (pbind (store buf (Z.of_nat t) bs) h) s = run (h (take t buf ++ bs ++ drop (t + length bs) buf)) s.
Proof. intros Hl. unfold store. rewrite (proj2 (Z.ltb_ge _ _)) by lia. by rewrite Nat2Z.id. Qed.

(** [t] bytes are in the buffer, and [bs] come behind them. *)
Definition filled (buf : list Z) (t : nat) (bs : list Z) : list Z := take t buf ++ bs ++ drop (t + length bs) buf.

Lemma filled_length buf t bs : (t + length bs <= length buf)%nat -> length (filled buf t bs) = length buf.
Proof. intros Hl. unfold filled. rewrite !length_app, length_take, length_drop. lia. Qed.

Lemma filled_filled buf t bs cs : (t + length bs + length cs <= length buf)%nat ->
  filled (filled buf t bs) (t + length bs) cs = filled buf t (bs ++ cs).
Proof.
  intros Hl. unfold filled. assert (length (take t buf ++ bs) = t + length bs)%nat as Ha by (rewrite length_app, length_take; lia).
  rewrite (app_assoc (take t buf) bs). rewrite take_app_length' by done.
  rewrite (drop_app_ge (take t buf ++ bs)) by lia. rewrite drop_drop, Ha, length_app, <- !app_assoc. do 4 f_equal. lia.
Qed.

Lemma filled_nil buf t : filled buf t [] = buf.
Proof. unfold filled. cbn. rewrite Nat.add_0_r. apply take_drop. Qed.

Section Pipe.
Context (fd d i off flags : Z).

Local Abbreviation at_pipe := (piped fd d i off flags).

Lemma readn_loop_spec fuel : forall n t buf inp out p k,
  at_pipe inp out p k -> Z.land flags O_ACCMODE <> O_WRONLY -> (t <= n <= length buf)%nat -> (n - t + length (p_script p) < fuel)%nat ->
  exists r bs rest p' k', run (readn_loop fuel fd (Z.of_nat n) (Z.of_nat t) buf) (p, k) = (Ret (r, filled buf t bs), (p', k')) /\
    inp = bs ++ rest /\ at_pipe rest out p' k' /\ kept i k k' /\
    (r = Z.of_nat (t + length bs) /\ ((t + length bs)%nat = n \/ (t + length bs < n)%nat /\ rest = []) \/
     r = -1 /\ (t + length bs < n)%nat /\ p_errno p' <> EINTR /\ ~ undisturbed (p_script p)).
Proof.
  induction fuel as [|fuel IH]; intros n t buf inp out p k Ho Hr Hn Hf; [lia|]. cbn [readn_loop].
  destruct (Z.ltb_spec (Z.of_nat t) (Z.of_nat n)) as [Hlt|Hge].
  2:{ exists (Z.of_nat t), [], inp, p, k. rewrite filled_nil. split; [done|]. split; [done|]. split; [done|]. split; [done|]. left. cbn. split; [lia|left; lia]. }
  destruct (pipe_read fd d i off flags inp out p k (Z.of_nat n - Z.of_nat t) Ho Hr ltac:(lia)) as (p' & Hfds & Hsc & [(e & Ha & Hh & He)|(bs & rest & Hi & Hne & Hlen & Her & Ha)]).
  - erewrite run_call by exact Ha. cbn beta iota. rewrite store_run by (cbn; lia). fold (filled buf t []). rewrite filled_nil. cbn [Z.eqb Pos.eqb].
    rewrite (run_call Errno _ _ (p_errno p') (p', k)) by done. rewrite He. pose proof (head_length _ _ Hh).
    pose proof (piped_proc _ _ _ _ _ _ _ _ _ _ Ho Hfds) as Ho'. destruct (Z.eqb_spec e EINTR) as [->|Hint].
    + destruct (IH n t buf inp out p' k Ho' Hr Hn) as (r & bs & rest & p2 & k2 & Hrun & Hi & Hp & Hk & Hres); [rewrite Hsc; lia|].
      exists r, bs, rest, p2, k2. split; [exact Hrun|]. split; [done|]. split; [done|]. split; [done|].
      destruct Hres as [Hres|(Hr1 & Hr2 & Hr3 & Hr4)]; [by left|right]. split; [done|]. split; [done|]. split; [done|].
      intros Hu. apply Hr4. rewrite Hsc. by apply undisturbed_tail.
    + exists (-1), [], inp, p', k. rewrite filled_nil. split; [done|]. split; [done|]. split; [done|]. split; [done|]. right.
      split; [done|]. split; [cbn; lia|]. split; [congruence|]. intros Hu. apply Hint. by apply (undisturbed_head (p_script p)).
  - erewrite run_call by exact Ha. cbn beta iota. rewrite store_run by lia. fold (filled buf t bs).
    pose proof (piped_new_inode _ _ _ _ _ _ _ rest out _ _ (piped_proc _ _ _ _ _ _ _ _ _ _ Ho Hfds)) as Ho'.
    destruct (Z.eqb_spec (Z.of_nat (length bs)) 0) as [H0|H0].
    + destruct bs; [|cbn in H0; lia]. specialize (Hne eq_refl). subst inp. cbn in Hne. subst rest.
      exists (Z.of_nat t), [], [], p', (set_inode i (Tty [] out) k). split; [done|]. split; [done|]. split; [done|].
      split; [apply kept_inode|]. left. cbn. split; [lia|right; split; [lia|done]].
    + rewrite (proj2 (Z.eqb_neq _ (-1))) by lia. replace (Z.of_nat t + Z.of_nat (length bs)) with (Z.of_nat (t + length bs)) by lia.
      pose proof (tail_length (p_script p)).
      destruct (IH n (t + length bs)%nat (filled buf t bs) rest out p' _ Ho' Hr) as (r & cs & rest' & p2 & k2 & Hrun & Hi2 & Hp & Hk & Hres);
        [rewrite filled_length; lia|rewrite Hsc; lia|].
      rewrite filled_filled in Hrun.
      2:{ destruct Hres as [(_ & Hres)|(_ & Hres & _)]; lia. }
      exists r, (bs ++ cs), rest', p2, k2. split; [exact Hrun|]. split; [rewrite Hi, Hi2; by rewrite app_assoc|]. split; [done|].
      split; [eapply kept_trans; [apply kept_inode|exact Hk]|]. rewrite length_app, Nat.add_assoc.
      destruct Hres as [Hres|(Hr1 & Hr2 & Hr3 & Hr4)]; [by left|right]. split; [done|]. split; [done|]. split; [done|].
      intros Hu. apply Hr4. rewrite Hsc. by apply undisturbed_tail.
Qed.

Lemma writen_loop_spec fuel : forall n t buf inp out p k,
  at_pipe inp out p k -> Z.land flags O_ACCMODE <> O_RDONLY -> (t <= n)%nat -> (n - t <= length buf)%nat -> (n - t + length (p_script p) < fuel)%nat ->
  exists r w rest p' k', run (writen_loop fuel fd (Z.of_nat n) (Z.of_nat t) buf) (p, k) = (Ret r, (p', k')) /\
    buf = w ++ rest /\ at_pipe inp (out ++ w) p' k' /\ kept i k k' /\
    (r = Z.of_nat n /\ (t + length w)%nat = n \/ r = -1 /\ (t + length w < n)%nat /\ p_errno p' <> EINTR /\ ~ undisturbed (p_script p)).
Proof.
  induction fuel as [|fuel IH]; intros n t buf inp out p k Ho Hr Htn Hn Hf; [lia|]. cbn [writen_loop].
  destruct (Z.ltb_spec (Z.of_nat t) (Z.of_nat n)) as [Hlt|Hge].
  2:{ exists (Z.of_nat t), [], buf, p, k. rewrite app_nil_r. split; [done|]. split; [done|]. split; [done|]. split; [done|]. left. cbn. lia. }
  rewrite (proj2 (Z.ltb_ge (Z.of_nat (length buf)) _)) by lia. cbn [pbind]. replace (Z.to_nat (Z.of_nat n - Z.of_nat t)) with (n - t)%nat by lia.
  destruct (pipe_write fd d i off flags inp out p k (take (n - t) buf) Ho Hr) as (p' & Hfds & Hsc & [(e & Ha & Hh & He)|(w & r & Hb & Hne & Her & Ha)]).
  - erewrite run_call by exact Ha. cbn [Z.leb Z.compare Z.eqb Pos.eqb]. change (pbind (let! errno := sys Errno in Done (errno =? EINTR)) ?h) with (let! errno := sys Errno in h (errno =? EINTR)).
    rewrite (run_call Errno _ _ (p_errno p') (p', k)) by done. rewrite He. pose proof (head_length _ _ Hh).
    pose proof (piped_proc _ _ _ _ _ _ _ _ _ _ Ho Hfds) as Ho'. destruct (Z.eqb_spec e EINTR) as [->|Hint].
    + destruct (IH n t buf inp out p' k Ho' Hr Htn Hn) as (r & w & rest & p2 & k2 & Hrun & Hi & Hp & Hk & Hres); [rewrite Hsc; lia|].
      exists r, w, rest, p2, k2. split; [exact Hrun|]. split; [done|]. split; [done|]. split; [done|].
      destruct Hres as [Hres|(Hr1 & Hr2 & Hr3 & Hr4)]; [by left|right]. split; [done|]. split; [done|]. split; [done|].
      intros Hu. apply Hr4. rewrite Hsc. by apply undisturbed_tail.
    + exists (-1), [], buf, p', k. rewrite app_nil_r. split; [done|]. split; [done|]. split; [done|]. split; [done|]. right.
      split; [done|]. split; [cbn; lia|]. split; [congruence|]. intros Hu. apply Hint. by apply (undisturbed_head (p_script p)).
  - erewrite run_call by exact Ha. pose proof (piped_new_inode _ _ _ _ _ _ _ inp (out ++ w) _ _ (piped_proc _ _ _ _ _ _ _ _ _ _ Ho Hfds)) as Ho'.
    assert (length w > 0)%nat as Hw. { destruct w; [|cbn; lia]. specialize (Hne eq_refl). apply (f_equal length) in Hne. rewrite length_take in Hne. cbn in Hne. lia. }
    rewrite (proj2 (Z.leb_gt _ _)) by lia. rewrite Nat2Z.id. replace (Z.of_nat t + Z.of_nat (length w)) with (Z.of_nat (t + length w)) by lia.
    assert (buf = w ++ drop (length w) buf) as Hbuf.
    { assert (buf = w ++ (r ++ drop (n - t) buf)) as E by (rewrite app_assoc, <- Hb; by rewrite take_drop). rewrite E at 2. by rewrite drop_app_length. }
    assert (length w <= n - t)%nat as Hwn. { apply (f_equal length) in Hb. rewrite length_take, length_app in Hb. lia. }
    pose proof (tail_length (p_script p)).
    destruct (IH n (t + length w)%nat (drop (length w) buf) inp (out ++ w) p' _ Ho' Hr) as (r2 & w2 & rest & p2 & k2 & Hrun & Hi & Hp & Hk & Hres);
      [lia|rewrite length_drop; lia|rewrite Hsc; lia|].
    exists r2, (w ++ w2), rest, p2, k2. split; [exact Hrun|]. split; [rewrite Hbuf, Hi at 1; by rewrite app_assoc|]. split; [by rewrite app_assoc|].
    split; [eapply kept_trans; [apply kept_inode|exact Hk]|]. rewrite length_app, Nat.add_assoc.
    destruct Hres as [Hres|(Hr1 & Hr2 & Hr3 & Hr4)]; [by left|right]. split; [done|]. split; [done|]. split; [done|].
    intros Hu. apply Hr4. rewrite Hsc. by apply undisturbed_tail.
Qed.
End Pipe.

(** ** Lines *)

(** The first line, with its newline when there is one. *)
Fixpoint line (s : list Z) : list Z :=
  match s with
  | [] => []
  | c :: s => if c =? NEWLINE then [c] else c :: line s
  end.

Fixpoint lines (s : list Z) : list (list Z) :=
  match s with
  | [] => []
  | c :: s => if c =? NEWLINE then [c] :: lines s else match lines s with [] => [[c]] | l :: ls => (c :: l) :: ls end
  end.

Definition after_line (s : list Z) : list Z := drop (length (line s)) s.

Lemma lines_cons s : s <> [] -> lines s = line s :: lines (after_line s).
Proof.
  unfold after_line. induction s as [|c s IH]; [done|]. intros _. cbn [lines line]. destruct (c =? NEWLINE); [done|].
  cbn [length drop]. destruct s as [|c2 s]; [done|]. by rewrite IH.
Qed.

Lemma line_length s : (length (line s) <= length s)%nat.
Proof. induction s as [|c s IH]; cbn; [lia|]. destruct (c =? NEWLINE); cbn; lia. Qed.

Section PipeLines.
Context (fd d i off flags : Z).

Local Abbreviation at_pipe := (piped fd d i off flags).

(** What [readLine] stores when [t] bytes of [n] are stored: nothing at the end of
    the input when there are none, not even a terminator. *)
Definition line_stored (n t : nat) (buf inp : list Z) : list Z :=
  let got := take (n - 1 - t) (line inp) in
  if bool_decide ((t + length got)%nat = 0%nat /\ NEWLINE ∉ inp) then buf else filled buf t (got ++ [0]).

Lemma read_line_loop_spec fuel : forall n t buf inp out p k,
  at_pipe inp out p k -> Z.land flags O_ACCMODE <> O_WRONLY -> (t < n <= length buf)%nat -> (length (line inp) + length (p_script p) < fuel)%nat ->
  exists r buf' rest p' k', run (read_line_loop fuel fd (Z.of_nat n) (Z.of_nat t) buf) (p, k) = (Ret (r, buf'), (p', k')) /\
    at_pipe rest out p' k' /\ kept i k k' /\ (length (p_script p') <= length (p_script p))%nat /\ (undisturbed (p_script p) -> undisturbed (p_script p')) /\
    (rest = after_line inp /\ r = Z.of_nat (t + length (take (n - 1 - t) (line inp))) /\ buf' = line_stored n t buf inp \/
     r = -1 /\ p_errno p' <> EINTR /\ ~ undisturbed (p_script p)).
Proof.
  induction fuel as [|fuel IH]; intros n t buf inp out p k Ho Hr Hn Hf; [lia|]. cbn [read_line_loop].
  destruct (pipe_read fd d i off flags inp out p k 1 Ho Hr ltac:(lia)) as (p' & Hfds & Hsc & [(e & Ha & Hh & He)|(bs & rest & Hi & Hne & Hlen & Her & Ha)]).
  - erewrite run_call by exact Ha. cbn [Z.eqb Pos.eqb]. rewrite (run_call Errno _ _ (p_errno p') (p', k)) by done. rewrite He. pose proof (head_length _ _ Hh).
    pose proof (piped_proc _ _ _ _ _ _ _ _ _ _ Ho Hfds) as Ho'. destruct (Z.eqb_spec e EINTR) as [->|Hint].
    + destruct (IH n t buf inp out p' k Ho' Hr Hn) as (r & buf' & rest & p2 & k2 & Hrun & Hp & Hk & Hl & Hu & Hres); [rewrite Hsc; lia|].
      exists r, buf', rest, p2, k2. split; [exact Hrun|]. split; [done|]. split; [done|]. rewrite Hsc in *. split; [lia|].
      split; [intros Hu'; by apply Hu, undisturbed_tail|].
      destruct Hres as [Hres|(Hr1 & Hr2 & Hr3)]; [by left|right]. split; [done|]. split; [done|]. intros Hu'. by apply Hr3, undisturbed_tail.
    + exists (-1), buf, inp, p', k. split; [done|]. split; [done|]. split; [done|]. rewrite Hsc. split; [lia|]. split; [apply undisturbed_tail|]. right.
      split; [done|]. split; [congruence|]. intros Hu. apply Hint. by apply (undisturbed_head (p_script p)).
  - erewrite run_call by exact Ha. pose proof (piped_new_inode _ _ _ _ _ _ _ rest out _ _ (piped_proc _ _ _ _ _ _ _ _ _ _ Ho Hfds)) as Ho'.
    pose proof (tail_length (p_script p)) as Htl. cbn beta iota zeta. rewrite (proj2 (Z.eqb_neq _ (-1))) by lia. destruct bs as [|c bs].
    + specialize (Hne eq_refl). subst inp. cbn in Hne. subst rest. change (Z.of_nat (length (@nil Z)) =? 0) with true. cbn iota.
      assert (line_stored n t buf [] = if Z.of_nat t =? 0 then buf else filled buf t [0]) as Hst.
      { unfold line_stored. cbn [line]. rewrite take_nil. cbn [length app]. destruct (Z.eqb_spec (Z.of_nat t) 0) as [H0|H0].
        - rewrite bool_decide_eq_true_2; [done|]. split; [lia|apply not_elem_of_nil].
        - rewrite bool_decide_eq_false_2; [done|lia]. }
      destruct (Z.of_nat t =? 0) eqn:Et.
      * apply Z.eqb_eq in Et. exists 0, buf, [], p', (set_inode i (Tty [] out) k). split; [done|]. split; [done|]. split; [apply kept_inode|]. rewrite Hsc. split; [lia|].
        split; [apply undisturbed_tail|]. left. split; [done|]. split; [cbn; rewrite take_nil; cbn; lia|done].
      * rewrite store_run by (cbn; lia). fold (filled buf t [0]). exists (Z.of_nat t), (filled buf t [0]), [], p', (set_inode i (Tty [] out) k).
        split; [done|]. split; [done|]. split; [apply kept_inode|]. rewrite Hsc. split; [lia|]. split; [apply undisturbed_tail|].
        left. split; [done|]. split; [cbn; rewrite take_nil; cbn; lia|done].
    + destruct bs; [|cbn [length] in Hlen; lia]. cbn [app] in Hi. subst inp. change (Z.of_nat (length [c]) =? 0) with false. cbn [pbind]. cbn iota.
      assert (exists t2 buf2, (t2 = t /\ buf2 = buf /\ n = S t \/ t2 = S t /\ buf2 = filled buf t [c] /\ (S t < n)%nat) /\
        forall h, run (let! ' (totRead, buf) := (if Z.of_nat t <? Z.of_nat n - 1 then let! buf := store buf (Z.of_nat t) [c] in Done (Z.of_nat t + 1, buf) else Done (Z.of_nat t, buf)) in h totRead buf)
          (p', set_inode i (Tty rest out) k) = run (h (Z.of_nat t2) buf2 : prog (Z * list Z)) (p', set_inode i (Tty rest out) k)) as (t2 & buf2 & Hcase & Hstep).
      { destruct (Z.ltb_spec (Z.of_nat t) (Z.of_nat n - 1)).
        - exists (S t), (filled buf t [c]). split; [right; split; [done|split; [done|lia]]|]. intros h. unfold store. rewrite (proj2 (Z.ltb_ge _ _)) by (cbn; lia). cbn [pbind]. rewrite Nat2Z.id. unfold filled.
          by replace (Z.of_nat (S t)) with (Z.of_nat t + 1) by lia.
        - exists t, buf. split; [left; split; [done|split; [done|lia]]|done]. }
      rewrite (Hstep (fun totRead buf => if c =? NEWLINE then _ else _)). clear Hstep.
      assert (length buf2 = length buf) as Hl2 by (destruct Hcase as [(_ & -> & _)|(_ & -> & _)]; [done|apply filled_length; cbn; lia]).
      unfold after_line. cbn [line]. destruct (Z.eqb_spec c NEWLINE) as [->|Hc].
      * rewrite store_run by (cbn; lia). fold (filled buf2 t2 [0]). exists (Z.of_nat t2), (filled buf2 t2 [0]), rest, p', (set_inode i (Tty rest out) k).
        split; [done|]. split; [done|]. split; [apply kept_inode|]. rewrite Hsc. split; [lia|]. split; [apply undisturbed_tail|]. left. cbn [length drop].
        unfold line_stored. rewrite bool_decide_eq_false_2 by (intros [_ Hx]; apply Hx; by left). cbn [line]. rewrite Z.eqb_refl.
        destruct Hcase as [(-> & -> & ->)|(-> & -> & Hlt)].
        -- replace (S t - 1 - t)%nat with 0%nat by lia. cbn. split; [done|]. split; [lia|done].
        -- destruct (n - 1 - t)%nat as [|m] eqn:Em; [lia|]. cbn [take length]. rewrite take_nil. split; [done|]. split; [cbn; lia|].
           replace (S t) with (t + length [NEWLINE])%nat by (cbn; lia). apply filled_filled. cbn; lia.
      * cbn [length] in *. cbn [line] in Hf. rewrite (proj2 (Z.eqb_neq c NEWLINE) Hc) in Hf. cbn [length] in Hf.
        destruct (IH n t2 buf2 rest out p' _ Ho' Hr) as (r & buf' & rest' & p2 & k2 & Hrun & Hp & Hk & Hl & Hu & Hres); [destruct Hcase; lia|rewrite Hsc; lia|].
        exists r, buf', rest', p2, k2. split; [exact Hrun|]. split; [done|]. split; [eapply kept_trans; [apply kept_inode|exact Hk]|]. rewrite Hsc in *. split; [lia|].
        split; [intros Hu'; by apply Hu, undisturbed_tail|].
        destruct Hres as [(H1 & H2 & H3)|(Hr1 & Hr2 & Hr3)]; [left|right; split; [done|]; split; [done|]; intros Hu'; by apply Hr3, undisturbed_tail].
        split; [done|]. rewrite H2, H3. unfold line_stored. cbn [line]. rewrite (proj2 (Z.eqb_neq c NEWLINE) Hc).
        assert ((NEWLINE ∉ c :: rest) <-> (NEWLINE ∉ rest)) as Hnl by (rewrite not_elem_of_cons; naive_solver).
        destruct Hcase as [(-> & -> & ->)|(-> & -> & Hlt)].
        -- replace (S t - 1 - t)%nat with 0%nat by lia. cbn [take length]. split; [done|]. by rewrite (bool_decide_ext _ _ (and_iff_compat_l _ Hnl)) || (do 2 case_bool_decide; try done; tauto).
        -- destruct (n - 1 - t)%nat as [|m] eqn:Em; [lia|]. replace (n - 1 - S t)%nat with m by lia. cbn [take length]. split; [lia|].
           rewrite !bool_decide_eq_false_2 by lia. replace (S t) with (t + length [c])%nat by (cbn; lia).
           rewrite filled_filled; [done|]. rewrite length_app, length_take. cbn. lia.
Qed.
End PipeLines.

(** ** Lines from blocks *)

(** No call fails, not even by an interruption. *)
Definition smooth (s : list verdict) : Prop := Forall (fun v => match v with Fails _ => False | _ => True end) s.

Lemma smooth_tail s : smooth s -> smooth (tail s).
Proof. unfold smooth. intros Hs. destruct Hs; [constructor|done]. Qed.

Lemma smooth_head s e : smooth s -> head s <> Some (Fails e).
Proof. intros Hs. destruct Hs as [|v s Hv Hs]; cbn; [done|]. by intros [= ->]. Qed.

Lemma smooth_undisturbed s : smooth s -> undisturbed s.
Proof. intros Hs. eapply Forall_impl; [exact Hs|]. by intros []. Qed.

(** The bytes that were read and not yet given out. *)
Definition pending (rl : ReadLineBuf) : list Z := drop (Z.to_nat (rl_next rl)) (take (Z.to_nat (rl_len rl)) (rl_buf rl)).

Record rl_ok (rl : ReadLineBuf) : Prop := {
  rl_size : length (rl_buf rl) = Z.to_nat RL_MAX_BUF;
  rl_next_nonneg : 0 <= rl_next rl;
  rl_len_max : rl_len rl <= RL_MAX_BUF
}.

Lemma pending_nil rl : rl_len rl <= rl_next rl -> pending rl = [].
Proof. intros Hl. unfold pending. apply drop_ge. rewrite length_take. lia. Qed.

Lemma pbind_sys {A B R} (c : call R) (f : R -> prog A) (h : A -> prog B) :
  pbind (pbind (sys c) f) h = pbind (sys c) (fun r => pbind (f r) h).
Proof. done. Qed.

Section PipeBlocks.
Context (fd d i off flags : Z).

Local Abbreviation at_pipe := (piped fd d i off flags).

Lemma rl_fill_spec {A} rl inp out p k (h : ReadLineBuf * Z -> prog A) :
  rl_ok rl -> rl_fd rl = fd -> at_pipe inp out p k -> Z.land flags O_ACCMODE <> O_WRONLY ->
  exists r rl' rest p' k', run (pbind (rl_fill rl) h) (p, k) = run (h (rl', r)) (p', k') /\
    rl_ok rl' /\ rl_fd rl' = fd /\ at_pipe rest out p' k' /\ kept i k k' /\ (smooth (p_script p) -> smooth (p_script p')) /\
    (r = 1 /\ rl_next rl' < rl_len rl' /\ pending rl' ++ rest = pending rl ++ inp \/
     r = 0 /\ pending rl ++ inp = [] /\ pending rl' ++ rest = [] \/
     r = -1 /\ ~ smooth (p_script p)).
Proof.
  intros [H1 H2 H3] Hfd Ho Hr. unfold rl_fill. destruct (Z.leb_spec (rl_len rl) (rl_next rl)) as [Hle|Hlt].
  2:{ exists 1, rl, inp, p, k. split; [done|]. split; [done|]. split; [done|]. split; [done|]. split; [done|]. split; [done|]. left. split; [done|]. split; [lia|done]. }
  assert (RL_MAX_BUF = 10) as HM by done.
  rewrite (pending_nil rl Hle), Hfd.
  destruct (pipe_read fd d i off flags inp out p k RL_MAX_BUF Ho Hr ltac:(done)) as (p' & Hfds & Hsc & [(e & Ha & Hh & He)|(bs & rest & Hi & Hne & Hlen & Her & Ha)]).
  - exists (-1), (mk_rlbuf fd (rl_buf rl) (rl_next rl) (-1)), inp, p', k. split.
    { rewrite pbind_sys, (run_call _ _ _ _ _ Ha). cbn beta iota. unfold store at 1. rewrite (proj2 (Z.ltb_ge _ _)) by (cbn; lia). cbn [pbind Z.eqb Pos.eqb orb].
      by rewrite drop_0. }
    split; [split; cbn; [done|done|lia]|]. split; [done|]. split; [by apply (piped_proc _ _ _ _ _ _ _ p)|]. split; [done|].
    split; [rewrite Hsc; apply smooth_tail|]. right. right. split; [done|]. intros Hs. by apply (smooth_head _ e Hs).
  - pose proof (piped_new_inode _ _ _ _ _ _ _ rest out _ _ (piped_proc _ _ _ _ _ _ _ _ _ _ Ho Hfds)) as Ho'.
    assert (run (pbind (let! ' (len, bs) := sys (Read fd RL_MAX_BUF) in
        let! buf := store (rl_buf rl) 0 bs in
        if (len =? -1) || (len =? 0) then Done (mk_rlbuf fd buf (rl_next rl) len, len) else Done (mk_rlbuf fd buf 0 len, 1)) h) (p, k) =
      run (h (if Z.of_nat (length bs) =? 0 then (mk_rlbuf fd (filled (rl_buf rl) 0 bs) (rl_next rl) (Z.of_nat (length bs)), Z.of_nat (length bs))
              else (mk_rlbuf fd (filled (rl_buf rl) 0 bs) 0 (Z.of_nat (length bs)), 1))) (p', set_inode i (Tty rest out) k)) as ->.
    { rewrite pbind_sys, (run_call _ _ _ _ _ Ha). cbn beta iota. unfold store at 1.
      rewrite (proj2 (Z.ltb_ge _ _)) by lia. cbn [pbind]. rewrite (proj2 (Z.eqb_neq _ (-1))) by lia. cbn [orb]. by destruct (Z.of_nat (length bs) =? 0). }
    assert (length (filled (rl_buf rl) 0 bs) = Z.to_nat RL_MAX_BUF) as Hlf by (rewrite filled_length; lia).
    destruct (Z.eqb_spec (Z.of_nat (length bs)) 0) as [H0|H0].
    + destruct bs; [|cbn in H0; lia]. specialize (Hne eq_refl). subst inp. cbn in Hne. subst rest.
      eexists _, _, [], p', _. split; [done|]. split; [split; cbn [rl_buf rl_next rl_len]; [done|done|cbn; lia]|]. split; [done|]. split; [done|]. split; [apply kept_inode|].
      split; [rewrite Hsc; apply smooth_tail|]. right. left. split; [done|]. split; [done|]. rewrite pending_nil; [done|cbn; lia].
    + eexists _, _, rest, p', _. split; [done|]. split; [split; cbn [rl_buf rl_next rl_len]; [done|lia|lia]|]. split; [done|]. split; [done|]. split; [apply kept_inode|].
      split; [rewrite Hsc; apply smooth_tail|]. left. split; [done|]. cbn [rl_next rl_len]. split; [lia|]. unfold pending. cbn [rl_next rl_len rl_buf].
      rewrite Nat2Z.id, drop_0. unfold filled. rewrite take_0. cbn [app]. by rewrite take_app_length, Hi.
Qed.

Lemma pending_next rl : rl_ok rl -> rl_next rl < rl_len rl ->
  exists c, zlookup (rl_buf rl) (rl_next rl) = Some c /\ pending rl = c :: pending (mk_rlbuf (rl_fd rl) (rl_buf rl) (rl_next rl + 1) (rl_len rl)).
Proof.
  intros [H1 H2 H3] Hlt. assert (RL_MAX_BUF = 10) as HM by done. destruct (zlookup_is_Some (rl_buf rl) (rl_next rl)) as [c Hc]; [lia|].
  exists c. split; [done|]. rewrite zlookup_nonneg in Hc by done. unfold pending. cbn [rl_next rl_len rl_buf].
  replace (Z.to_nat (rl_next rl + 1)) with (S (Z.to_nat (rl_next rl))) by lia. apply drop_S. rewrite lookup_take_lt by lia. done.
Qed.

Lemma read_line_buf_loop_spec fuel : forall n t rl buf inp out p k,
  rl_ok rl -> rl_fd rl = fd -> at_pipe inp out p k -> Z.land flags O_ACCMODE <> O_WRONLY -> (t <= n <= length buf)%nat ->
  (length (line (pending rl ++ inp)) < fuel)%nat ->
  exists r buf' rl' rest p' k', run (read_line_buf_loop fuel rl buf (Z.of_nat n) (Z.of_nat t)) (p, k) = (Ret (r, buf', rl'), (p', k')) /\
    rl_ok rl' /\ rl_fd rl' = fd /\ at_pipe rest out p' k' /\ kept i k k' /\ (smooth (p_script p) -> smooth (p_script p')) /\
    (pending rl' ++ rest = after_line (pending rl ++ inp) /\ r = Z.of_nat (t + length (take (n - t) (line (pending rl ++ inp)))) /\
       buf' = filled buf t (take (n - t) (line (pending rl ++ inp))) \/
     r = -1 /\ ~ smooth (p_script p)).
Proof.
  induction fuel as [|fuel IH]; intros n t rl buf inp out p k Hrl Hfd Ho Hr Hn Hf; [lia|]. cbn [read_line_buf_loop].
  destruct (rl_fill_spec rl inp out p k (fun x => match x with (rlbuf, r) =>
      if r =? -1 then Done (-1, buf, rlbuf)
      else if r =? 0 then Done (Z.of_nat t, buf, rlbuf)
      else
        let! c := (match zlookup (rl_buf rlbuf) (rl_next rlbuf) with Some c => Done c | None => Crash end) in
        let! ' (cnt, buffer) :=
          (if Z.of_nat t <? Z.of_nat n then let! buffer := store buf (Z.of_nat t) [c] in Done (Z.of_nat t + 1, buffer) else Done (Z.of_nat t, buf)) in
        if c =? NEWLINE then Done (cnt, buffer, mk_rlbuf (rl_fd rlbuf) (rl_buf rlbuf) (rl_next rlbuf + 1) (rl_len rlbuf))
        else read_line_buf_loop fuel (mk_rlbuf (rl_fd rlbuf) (rl_buf rlbuf) (rl_next rlbuf + 1) (rl_len rlbuf)) buffer (Z.of_nat n) cnt end)
      Hrl Hfd Ho Hr) as (r & rl1 & rest & p1 & k1 & Hrun & Hrl1 & Hfd1 & Ho1 & Hk1 & Hs1 & [(-> & Hlt & Hp)|[(-> & Hp & Hp')|(-> & Hns)]]).
  - cbv zeta. rewrite Hrun. clear Hrun. cbn [Z.eqb]. destruct (pending_next rl1 Hrl1 Hlt) as (c & Hc & Hpc). rewrite Hc. cbn [pbind]. rewrite <- Hp, Hpc. cbn [app].
    set (rl2 := mk_rlbuf (rl_fd rl1) (rl_buf rl1) (rl_next rl1 + 1) (rl_len rl1)) in *.
    assert (rl_ok rl2) as Hrl2 by (destruct Hrl1; subst rl2; split; cbn; [done|lia|done]).
    assert (exists t2 buf2, (t2 = t /\ buf2 = buf /\ n = t \/ t2 = S t /\ buf2 = filled buf t [c] /\ (t < n)%nat) /\
      forall h, run (let! ' (cnt, buffer) := (if Z.of_nat t <? Z.of_nat n then let! buffer := store buf (Z.of_nat t) [c] in Done (Z.of_nat t + 1, buffer) else Done (Z.of_nat t, buf)) in h cnt buffer)
          (p1, k1) = run (h (Z.of_nat t2) buf2 : prog (Z * list Z * ReadLineBuf)) (p1, k1)) as (t2 & buf2 & Hcase & Hstep).
    { destruct (Z.ltb_spec (Z.of_nat t) (Z.of_nat n)).
      - exists (S t), (filled buf t [c]). split; [right; split; [done|split; [done|lia]]|]. intros h. unfold store. rewrite (proj2 (Z.ltb_ge _ _)) by (cbn; lia). cbn [pbind]. rewrite Nat2Z.id. unfold filled.
        by replace (Z.of_nat (S t)) with (Z.of_nat t + 1) by lia.
      - exists t, buf. split; [left; split; [done|split; [done|lia]]|done]. }
    rewrite (Hstep (fun cnt buffer => if c =? NEWLINE then _ else _)). clear Hstep.
    assert (length buf2 = length buf) as Hl2 by (destruct Hcase as [(_ & -> & _)|(_ & -> & Hx)]; [done|apply filled_length; cbn; lia]).
    rewrite <- Hp, Hpc in Hf. cbn [app] in Hf. unfold after_line. cbn [line] in *. destruct (Z.eqb_spec c NEWLINE) as [->|Hne].
    + eexists _, _, rl2, rest, p1, k1. split; [done|]. split; [done|]. split; [done|]. split; [done|]. split; [done|]. split; [done|]. left. split; [done|].
      destruct Hcase as [(-> & -> & ->)|(-> & -> & Hlt')].
      * rewrite Nat.sub_diag. cbn. rewrite filled_nil. split; [lia|done].
      * destruct (n - t)%nat as [|m] eqn:Em; [lia|]. cbn [take]. rewrite take_nil. cbn. split; [lia|done].
    + cbn [length] in Hf. destruct (IH n t2 rl2 buf2 rest out p1 k1 Hrl2 Hfd1 Ho1 Hr) as (r & buf' & rl' & rest' & p' & k' & Hrun & H1 & H2 & H3 & H4 & H5 & Hres);
        [destruct Hcase; lia|lia|].
      exists r, buf', rl', rest', p', k'. split; [exact Hrun|]. split; [done|]. split; [done|]. split; [done|]. split; [by eapply kept_trans|]. split; [auto|].
      destruct Hres as [(Hx & Hy & Hz)|(Hx & Hy)]; [left|right; split; [done|]; auto]. split; [done|]. rewrite Hy, Hz.
      destruct Hcase as [(-> & -> & ->)|(-> & -> & Hlt')].
      * rewrite Nat.sub_diag. cbn [take]. done.
      * destruct (n - t)%nat as [|m] eqn:Em; [lia|]. replace (n - S t)%nat with m by lia. cbn [take length]. split; [lia|].
        replace (S t) with (t + length [c])%nat by (cbn; lia). rewrite filled_filled; [done|]. cbn. rewrite length_take. lia.
  - cbv zeta. rewrite Hrun. cbn [Z.eqb]. rewrite Hp. exists (Z.of_nat t), buf, rl1, rest, p1, k1. split; [done|]. split; [done|]. split; [done|]. split; [done|]. split; [done|]. split; [done|].
    left. split; [done|]. cbn [line]. rewrite take_nil, filled_nil. cbn. split; [lia|done].
  - cbv zeta. rewrite Hrun. cbn [Z.eqb Pos.eqb]. exists (-1), buf, rl1, rest, p1, k1. split; [done|]. split; [done|]. split; [done|]. split; [done|]. split; [done|]. split; [done|]. by right.
Qed.
End PipeBlocks.

(** ** What the functions do *)

(** The lines a program gets that calls one of the two functions until nothing comes,
    [count] times at most. *)
Fixpoint collect_readLine (count fuel : nat) (fd n : Z) : prog (list (list Z)) :=
  match count with
  | O => Done []
  | S count =>
      let! ' (r, buf) := readLine fuel fd (Some (replicate (Z.to_nat n) 0)) n in
      if r <=? 0 then Done [] else
      let! ls := collect_readLine count fuel fd n in Done (take (Z.to_nat r) buf :: ls)
  end.

Fixpoint collect_readLineBuf (count fuel : nat) (rlbuf : ReadLineBuf) (n : Z) : prog (list (list Z)) :=
  match count with
  | O => Done []
  | S count =>
      let! ' (r, buf, rlbuf) := readLineBuf fuel rlbuf (Some (replicate (Z.to_nat n) 0)) n in
      if r <=? 0 then Done [] else
      let! ls := collect_readLineBuf count fuel rlbuf n in Done (take (Z.to_nat r) buf :: ls)
  end.

Lemma line_nonnil s : s <> [] -> (0 < length (line s))%nat.
Proof. destruct s as [|c s]; [done|]. intros _. cbn. destruct (c =? NEWLINE); cbn; lia. Qed.

Lemma after_line_length s : (length (after_line s) <= length s)%nat.
Proof. unfold after_line. rewrite length_drop. lia. Qed.

Lemma take_filled buf l r : (length l <= length buf)%nat -> take (length l) (filled buf 0 (l ++ r)) = l.
Proof. intros _. unfold filled. rewrite take_0, <- app_assoc. cbn [app]. apply take_app_length. Qed.

Section Whole.
Context (fd d i off flags : Z).

Local Abbreviation at_pipe := (piped fd d i off flags).

(** [readn] takes the next [n] bytes from a pipe into the buffer, or all there are
    before its end, whatever parts they come in and however often it is interrupted; it
    returns -1 only for another error. *)
Theorem readn_reads n buf inp out p k fuel :
  at_pipe inp out p k -> Z.land flags O_ACCMODE <> O_WRONLY -> (n <= length buf)%nat -> (n + length (p_script p) < fuel)%nat ->
  exists r bs rest p' k', run (readn fuel fd buf (Z.of_nat n)) (p, k) = (Ret (r, bs ++ drop (length bs) buf), (p', k')) /\
    inp = bs ++ rest /\ at_pipe rest out p' k' /\ kept i k k' /\
    (r = Z.of_nat (length bs) /\ (length bs = n \/ (length bs < n)%nat /\ rest = []) \/
     r = -1 /\ (length bs < n)%nat /\ p_errno p' <> EINTR /\ ~ undisturbed (p_script p)).
Proof.
  intros Ho Hr Hn Hf. destruct (readn_loop_spec fd d i off flags fuel n 0 buf inp out p k Ho Hr) as (r & bs & rest & p' & k' & Hrun & Hrest); [lia|lia|].
  exists r, bs, rest, p', k'. split; [exact Hrun|exact Hrest].
Qed.

(** [writen] writes the first [n] bytes of the buffer, whatever parts are taken and
    however often it is interrupted; when it returns -1, for another error, a beginning of
    them is written. *)
Theorem writen_writes n buf inp out p k fuel :
  at_pipe inp out p k -> Z.land flags O_ACCMODE <> O_RDONLY -> (n <= length buf)%nat -> (n + length (p_script p) < fuel)%nat ->
  exists r m p' k', run (writen fuel fd buf (Z.of_nat n)) (p, k) = (Ret r, (p', k')) /\
    at_pipe inp (out ++ take m buf) p' k' /\ kept i k k' /\
    (r = Z.of_nat n /\ m = n \/ r = -1 /\ (m < n)%nat /\ p_errno p' <> EINTR /\ ~ undisturbed (p_script p)).
Proof.
  intros Ho Hr Hn Hf. destruct (writen_loop_spec fd d i off flags fuel n 0 buf inp out p k Ho Hr) as (r & w & rest & p' & k' & Hrun & Hb & Ho' & Hk & Hres); [lia..|].
  exists r, (length w), p', k'. split; [exact Hrun|]. split; [rewrite Hb; by rewrite take_app_length|]. split; [done|]. exact Hres.
Qed.

(** [readLine] takes one line from a pipe and keeps its first [n - 1] bytes, terminated;
    at the end of the input it returns 0 and leaves the buffer alone. *)
Theorem read_line_reads n buf inp out p k fuel :
  at_pipe inp out p k -> Z.land flags O_ACCMODE <> O_WRONLY -> (0 < n <= length buf)%nat -> (length inp + length (p_script p) < fuel)%nat ->
  exists r buf' rest p' k', run (readLine fuel fd (Some buf) (Z.of_nat n)) (p, k) = (Ret (r, buf'), (p', k')) /\
    at_pipe rest out p' k' /\ kept i k k' /\
    (rest = after_line inp /\ r = Z.of_nat (length (take (n - 1) (line inp))) /\ buf' = line_stored n 0 buf inp \/
     r = -1 /\ p_errno p' <> EINTR /\ ~ undisturbed (p_script p)).
Proof.
  intros Ho Hr Hn Hf. unfold readLine. rewrite (proj2 (Z.leb_gt _ _)) by lia. pose proof (line_length inp).
  destruct (read_line_loop_spec fd d i off flags fuel n 0 buf inp out p k Ho Hr Hn) as (r & buf' & rest & p' & k' & Hrun & Ho' & Hk & _ & _ & Hres); [lia|].
  exists r, buf', rest, p', k'. split; [exact Hrun|]. split; [done|]. split; [done|]. by rewrite Nat.sub_0_r in Hres.
Qed.

Lemma collect_readLine_spec count : forall fuel n inp out p k,
  at_pipe inp out p k -> Z.land flags O_ACCMODE <> O_WRONLY -> undisturbed (p_script p) -> (1 < n)%nat ->
  Forall (fun l => (length l < n)%nat) (lines inp) -> (length inp + length (p_script p) < fuel)%nat ->
  exists s, run (collect_readLine count fuel fd (Z.of_nat n)) (p, k) = (Ret (take count (lines inp)), s).
Proof.
  induction count as [|count IH]; intros fuel n inp out p k Ho Hr Hu Hn Hl Hf; [by exists (p, k)|]. cbn [collect_readLine]. rewrite Nat2Z.id.
  pose proof (line_length inp). unfold readLine. rewrite (proj2 (Z.leb_gt _ _)) by lia.
  destruct (read_line_loop_spec fd d i off flags fuel n 0 (replicate n 0) inp out p k Ho Hr) as (r & buf' & rest & p' & k' & Hrun & Ho' & Hk & Hsl & Hu' & [(-> & -> & ->)|(_ & _ & Hno)]);
    [rewrite length_replicate; lia|lia| |done].
  rewrite (run_ret _ _ _ _ _ Hrun). cbn beta iota. rewrite Nat.sub_0_r. destruct inp as [|c inp].
  { exists (p', k'). cbn [line]. by rewrite take_nil. }
  pose proof (line_nonnil (c :: inp) ltac:(done)) as Hpos. rewrite lines_cons in Hl |- * by done. apply Forall_cons in Hl as [Hll Hl].
  rewrite take_ge by lia. rewrite (proj2 (Z.leb_gt _ _)) by lia.
  pose proof (after_line_length (c :: inp)).
  destruct (IH fuel n (after_line (c :: inp)) out p' k' Ho' Hr (Hu' Hu) Hn Hl ltac:(lia)) as [s Hs]. exists s. rewrite (run_ret _ _ _ _ _ Hs).
  cbn [take run]. unfold ret. do 3 f_equal. rewrite Nat2Z.id. unfold line_stored. rewrite Nat.sub_0_r, (take_ge (line (c :: inp))) by lia.
  rewrite bool_decide_eq_false_2 by lia. apply take_filled. rewrite length_replicate. lia.
Qed.

Lemma collect_readLineBuf_spec count : forall fuel n rl inp out p k,
  rl_ok rl -> rl_fd rl = fd -> at_pipe inp out p k -> Z.land flags O_ACCMODE <> O_WRONLY -> smooth (p_script p) -> (0 < n)%nat ->
  Forall (fun l => (length l <= n)%nat) (lines (pending rl ++ inp)) -> (length (pending rl ++ inp) < fuel)%nat ->
  exists s, run (collect_readLineBuf count fuel rl (Z.of_nat n)) (p, k) = (Ret (take count (lines (pending rl ++ inp))), s).
Proof.
  induction count as [|count IH]; intros fuel n rl inp out p k Hrl Hfd Ho Hr Hu Hn Hl Hf; [by exists (p, k)|]. cbn [collect_readLineBuf]. rewrite Nat2Z.id.
  pose proof (line_length (pending rl ++ inp)). unfold readLineBuf. rewrite (proj2 (Z.leb_gt _ _)) by lia.
  destruct (read_line_buf_loop_spec fd d i off flags fuel n 0 rl (replicate n 0) inp out p k Hrl Hfd Ho Hr) as (r & buf' & rl' & rest & p' & k' & Hrun & Hrl' & Hfd' & Ho' & Hk & Hu' & [(Hrest & -> & ->)|(_ & Hno)]);
    [rewrite length_replicate; lia|lia| |done].
  rewrite (run_ret _ _ _ _ _ Hrun). cbn beta iota. rewrite Nat.sub_0_r in *. destruct (decide (pending rl ++ inp = [])) as [E|E].
  { rewrite E. exists (p', k'). cbn [line lines]. by rewrite !take_nil. }
  pose proof (line_nonnil _ E) as Hpos. rewrite lines_cons in Hl |- * by done. apply Forall_cons in Hl as [Hll Hl].
  rewrite !(take_ge (line _)) by lia. rewrite (proj2 (Z.leb_gt _ _)) by lia.
  pose proof (after_line_length (pending rl ++ inp)). rewrite <- Hrest in *.
  destruct (IH fuel n rl' rest out p' k' Hrl' Hfd' Ho' Hr (Hu' Hu) Hn Hl ltac:(lia)) as [s Hs]. exists s. rewrite (run_ret _ _ _ _ _ Hs).
  cbn [take run]. unfold ret. do 3 f_equal. rewrite Nat2Z.id. rewrite <- (app_nil_r (line (pending rl ++ inp))) at 2. apply take_filled. rewrite length_replicate. lia.
Qed.

(** C39: from pipes with the same input, whose lines fit, calling [readLine] and calling
    [readLineBuf] on an initialised structure give the same lines, those of the input,
    when no call fails: interruptions only disturb [readLineBuf]. *)
Theorem line_readers_agree count n rl inp out1 out2 p1 k1 p2 k2 fuel1 fuel2 :
  at_pipe inp out1 p1 k1 -> at_pipe inp out2 p2 k2 -> Z.land flags O_ACCMODE <> O_WRONLY ->
  undisturbed (p_script p1) -> smooth (p_script p2) -> length (rl_buf rl) = Z.to_nat RL_MAX_BUF ->
  (1 < n)%nat -> Forall (fun l => (length l < n)%nat) (lines inp) ->
  (length inp + length (p_script p1) < fuel1)%nat -> (length inp < fuel2)%nat ->
  exists s1 s2, run (collect_readLine count fuel1 fd (Z.of_nat n)) (p1, k1) = (Ret (take count (lines inp)), s1) /\
    run (collect_readLineBuf count fuel2 (readLineBufInit fd rl) (Z.of_nat n)) (p2, k2) = (Ret (take count (lines inp)), s2).
Proof.
  intros Ho1 Ho2 Hr Hu Hs Hrl Hn Hl Hf1 Hf2.
  destruct (collect_readLine_spec count fuel1 n inp out1 p1 k1 Ho1 Hr Hu Hn Hl Hf1) as [s1 H1].
  assert (rl_ok (readLineBufInit fd rl)) as Hok by by split.
  destruct (collect_readLineBuf_spec count fuel2 n (readLineBufInit fd rl) inp out2 p2 k2 Hok eq_refl Ho2 Hr Hs) as [s2 H2]; [lia| |done|].
  { eapply Forall_impl; [exact Hl|]. cbn. lia. }
  by exists s1, s2.
Qed.
End Whole.

(** *** Examples *)

Definition line_kern (inp : list Z) : kern := mk_kern ∅ {[7 := Tty inp []]} {[3 := mk_ofd 7 0 O_RDWR]}.
Definition line_proc (s : list verdict) : proc := mk_proc {[0 := 3]} 0 [] s [] [].

Lemma demo_pipe inp s : piped 0 3 7 0 O_RDWR inp [] (line_proc s) (line_kern inp).
Proof. by split. Qed.

(** An interruption ends [readLineBuf], a full buffer has no terminator. *)
Example read_line_buf_interrupted : fst (run (collect_readLineBuf 1 9 (mk_rlbuf 0 (replicate 10 0) 0 0) 5) (line_proc [Fails EINTR], line_kern (lit "ab"))) = Ret [].
Proof. by vm_compute. Qed.

Lemma readn_reads_witness :
  exists r bs rest p' k', run (readn 20 0 (replicate 8 0) 6) (line_proc [Short 1; Fails EINTR; Short 0], line_kern (lit "abcdefgh")) = (Ret (r, bs ++ drop (length bs) (replicate 8 0)), (p', k')) /\
    lit "abcdefgh" = bs ++ rest /\ r = 6.
Proof.
  destruct (readn_reads 0 3 7 0 O_RDWR 6 (replicate 8 0) (lit "abcdefgh") [] _ _ 20 (demo_pipe _ [Short 1; Fails EINTR; Short 0]) ltac:(done)) as (r & bs & rest & p' & k' & Hrun & Hi & _ & _ & Hres);
    [cbn; lia|cbn; lia|].
  exists r, bs, rest, p', k'. split; [exact Hrun|]. split; [exact Hi|]. destruct Hres as [(-> & [Hl|(Hl & ->)])|(_ & _ & _ & Hu)].
  - by rewrite Hl.
  - rewrite app_nil_r in Hi. subst bs. cbn in Hl. lia.
  - destruct Hu. repeat constructor.
Defined.

Lemma writen_writes_witness :
  exists r m p' k', run (writen 20 0 (lit "hello!") 5) (line_proc [Short 1; Fails EINTR], line_kern []) = (Ret r, (p', k')) /\ r = 5 /\ piped 0 3 7 0 O_RDWR [] (take m (lit "hello!")) p' k'.
Proof.
  destruct (writen_writes 0 3 7 0 O_RDWR 5 (lit "hello!") [] [] _ _ 20 (demo_pipe _ [Short 1; Fails EINTR]) ltac:(done)) as (r & m & p' & k' & Hrun & Hp & _ & Hres); [cbn; lia|cbn; lia|].
  exists r, m, p', k'. split; [exact Hrun|]. destruct Hres as [(-> & _)|(_ & _ & _ & Hu)]; [by split|]. destruct Hu. repeat constructor.
Defined.

Lemma read_line_reads_witness :
  exists r buf' rest p' k', run (readLine 20 0 (Some (replicate 4 0)) 4) (line_proc [Fails EINTR], line_kern (lit "abcdef" ++ [10; 120])) = (Ret (r, buf'), (p', k')) /\ r = 3 /\ rest = [120] /\
    piped 0 3 7 0 O_RDWR rest [] p' k' /\ buf' = lit "abc" ++ [0].
Proof.
  destruct (read_line_reads 0 3 7 0 O_RDWR 4 (replicate 4 0) (lit "abcdef" ++ [10; 120]) [] _ _ 20 (demo_pipe _ [Fails EINTR]) ltac:(done)) as (r & buf' & rest & p' & k' & Hrun & Hp & _ & Hres); [cbn; lia|cbn; lia|].
  exists r, buf', rest, p', k'. split; [exact Hrun|]. destruct Hres as [(-> & -> & ->)|(_ & _ & Hu)]; [|destruct Hu; repeat constructor].
  split; [reflexivity|]. split; [reflexivity|]. split; [exact Hp|]. by vm_compute.
Defined.

Lemma line_readers_agree_witness :
  exists s1 s2, run (collect_readLine 5 30 0 8) (line_proc [Fails EINTR], line_kern (lit "one" ++ 10 :: lit "two")) = (Ret [lit "one" ++ [10]; lit "two"], s1) /\
    run (collect_readLineBuf 5 30 (readLineBufInit 0 (mk_rlbuf 9 (replicate 10 7) 3 5)) 8) (line_proc [Short 1; Short 0], line_kern (lit "one" ++ 10 :: lit "two")) = (Ret [lit "one" ++ [10]; lit "two"], s2).
Proof.
  apply (line_readers_agree 0 3 7 0 O_RDWR 5 8 (mk_rlbuf 9 (replicate 10 7) 3 5) (lit "one" ++ 10 :: lit "two") [] [] (line_proc [Fails EINTR]) (line_kern (lit "one" ++ 10 :: lit "two"))
    (line_proc [Short 1; Short 0]) (line_kern (lit "one" ++ 10 :: lit "two")) 30 30); first [apply demo_pipe | by repeat constructor | cbn; lia | done].
Defined.
