(* ===== verification/FileAppend.v ===== *)
(** * tlpi/fileio: appending

    append.c, whose writes go to the end of a file whatever it seeks to. *)

From stdpp Require Import prelude list_numbers strings gmap.
From Stdlib Require Import ZArith Lia.
From S2P Require Import Prelude CLib Vfs TlpiLib FileRun.
Open Scope Z_scope.

(** ** getopt *)

(** An argument [getopt] takes as options: a dash and something behind it. *)
Definition is_option (a : list Z) : bool := match a with 45 :: _ :: _ => true | _ => false end.

(** The order [getopt] gives to the arguments: the options, with the argument that
    ends them, and the others. *)
Fixpoint permuted (l : list (list Z)) : list (list Z) * list (list Z) :=
  match l with
  | [] => ([], [])
  | a :: l =>
      if bool_decide (a = lit "--") then ([a], l) else
      let '(os, ns) := permuted l in
      if is_option a then (a :: os, ns) else (os, a :: ns)
  end.

Section Programs.
Context `{libc}.

(** *** append.c *)

Definition usageError {A} (progName : list Z) : prog A :=
  sys (Print (lit "Usage: " ++ progName ++ lit " filename [stuff to be written]" ++ [10])) ;;!
  Halt EXIT_FAILURE.

(** The letters of one argument. *)
Fixpoint append_letters (a0 : list Z) (l : list Z) : prog unit :=
  match l with
  | [] => Done tt
  | c :: l =>
      (if c =? 104 then usageError a0
       else sys (PrintErr (a0 ++ lit ": invalid option -- '" ++ [c] ++ lit "'" ++ [10]))) ;;!
      append_letters a0 l
  end.

Fixpoint append_options (a0 : list Z) (os : list (list Z)) : prog unit :=
  match os with
  | [] => Done tt
  | o :: os =>
      (if bool_decide (o = lit "--") then Done tt else append_letters a0 (tail o)) ;;!
      append_options a0 os
  end.

Fixpoint append_loop (fd : Z) (words : list (list Z)) : prog unit :=
  match words with
  | [] => Done tt
  | w :: words =>
      let! numWritten := sys (Write fd w) in
      sys (Print (print_d numWritten ++ lit " bytes written" ++ [10])) ;;!
      when (numWritten =? -1) (perror_exit (lit "write")) ;;!
      append_loop fd words
  end.

Definition append (argv : list (list Z)) : prog Z :=
  let! a0 := arg argv 0 in
  (if argc argv <? 2 then usageError a0
   else let! a1 := arg argv 1 in when (is_help a1) (usageError a0)) ;;!
  let '(os, ns) := permuted (tail argv) in
  append_options a0 os ;;!
  let argv := a0 :: os ++ ns in
  let optind := 1 + Z.of_nat (length os) in
  let! a1 := arg argv 1 in
  let! fd := sys (Open a1 (Z.lor O_WRONLY O_APPEND) 0) in
  when (fd =? -1) (perror_exit (lit "open")) ;;!
  let! offset := sys (Lseek fd 0 SEEK_SET) in
  when (offset =? -1) (perror_exit (lit "lseek")) ;;!
  append_loop fd (drop (Z.to_nat (optind + 1)) argv) ;;!
  let! status := sys (Close fd) in
  when (status =? -1) (perror_exit (lit "close")) ;;!
  Done EXIT_SUCCESS.

End Programs.

(** ** append.c *)

Section Append.
Context `{libc}.

Lemma usageError_run {A} a0 p k : run (usageError a0 : prog A) (p, k) =
  (Exit EXIT_FAILURE, (set_p_out (p_out p ++ lit "Usage: " ++ a0 ++ lit " filename [stuff to be written]" ++ [10]) p, k)).
Proof. done. Qed.

(** The options only write messages, or end the program. *)
Definition talks (q : prog unit) : Prop :=
  forall p k, exists o p', run q (p, k) = (o, (p', k)) /\ ended o (fun _ => p_fds p' = p_fds p /\ p_script p' = p_script p).

Lemma talks_bind q h : talks q -> talks h -> talks (q ;;! h).
Proof.
  intros Hq Hh p k. destruct (Hq p k) as (o & p1 & E & He). destruct o as [[]|c| |]; cbn [ended] in He; try done.
  - rewrite (run_ret _ _ _ _ _ E). destruct (Hh p1 k) as (o & p2 & E2 & He2). exists o, p2. split; [done|].
    destruct o as [[]|c| |]; cbn [ended] in *; try done. destruct He, He2. split; congruence.
  - exists (Exit c), p1. split; [by apply run_exit|done].
Qed.

Lemma talks_options a0 os : talks (append_options a0 os).
Proof.
  assert (forall l, talks (append_letters a0 l)) as Hl.
  { induction l as [|c l IH]; [by intros p k; eexists _, _|]. cbn [append_letters]. apply talks_bind; [|done].
    intros p k. destruct (c =? 104); by eexists _, _. }
  induction os as [|o os IH]; [by intros p k; eexists _, _|]. cbn [append_options]. apply talks_bind; [|done].
  case_bool_decide; [by intros p k; eexists _, _|done].
Qed.

Lemma no_pieces (words : list (list Z)) : Forall2 (fun w s => s `prefix_of` w) words (replicate (length words) []).
Proof. induction words; cbn; constructor; [apply prefix_nil|done]. Qed.

Lemma concat_nils {A} n : concat (replicate n []) = ([] : list A).
Proof. by induction n. Qed.

Variables (fd d i m : Z).

(** What the loop leaves: a part of each word, all of them when nothing goes wrong. *)
Lemma append_loop_spec words off data p k :
  opened fd d i off (Z.lor O_WRONLY O_APPEND) m data p k ->
  exists o p' k' pieces off', run (append_loop fd words) (p, k) = (o, (p', k')) /\ p_fds p' = p_fds p /\ kept i k k' /\
    Forall2 (fun w s => s `prefix_of` w) words pieces /\
    opened fd d i off' (Z.lor O_WRONLY O_APPEND) m (data ++ concat pieces) p' k' /\ ended o (fun _ => True) /\
    (p_script p = [] -> Z.of_nat (length data + length (concat words)) <= OFF_MAX -> o = Ret tt /\ pieces = words /\ p_script p' = []).
Proof.
  revert off data p k. induction words as [|w words IH]; intros off data p k Ho.
  { exists (Ret tt), p, k, [], off. cbn. rewrite app_nil_r. do 3 (split; [done|]). split; [constructor|]. by split. }
  cbn [append_loop]. pose proof (op_off _ _ _ _ _ _ _ _ _ Ho) as Hoff.
  destruct (write_spec _ _ _ _ _ _ _ p k w Ho) as (p1 & Hp1 & _ & Hc & Hcalm); [done|].
  change (flag (Z.lor O_WRONLY O_APPEND) O_APPEND) with true in *. cbv iota in *.
  assert (forall n (h : prog unit), run (sys (Print n) ;;! h) (p1, k) = run h (set_p_out (p_out p1 ++ n) p1, k)) as Hpr by done.
  destruct Hc as [[E Hs]|(s & r & -> & Hs & Hr & E)]; rewrite (run_call _ _ _ _ _ E).
  - destruct (run_when_dies (-1 =? -1) (perror_exit (lit "write")) (append_loop fd words) (set_p_out (p_out p1 ++ (print_d (-1) ++ lit " bytes written" ++ [10])) p1) k eq_refl (perror_exit_dies _))
      as (e & p2 & E2 & He & Hp2 & _).
    exists (Exit e), p2, k, (replicate (S (length words)) []), off. split; [exact E2|]. cbn [p_fds set_p_out] in Hp2.
    split; [congruence|]. split; [done|]. split.
    { apply (no_pieces (w :: words)). }
    rewrite concat_nils, app_nil_r. split; [by eapply opened_proc; [exact Ho|congruence]|]. split; [done|].
    intros Hs' Hm. destruct Hs as [|Hs]; [done|]. cbn [concat] in Hm. rewrite length_app in Hm. lia.
  - rewrite pwrite_end in E. rewrite pwrite_end.
    set (k1 := set_off _ _ _ _).
    assert (opened fd d i (Z.of_nat (length data) + Z.of_nat (length s)) (Z.lor O_WRONLY O_APPEND) m (data ++ s) p1 k1) as Ho1.
    { destruct Ho. constructor; cbn; rewrite ?lookup_insert_eq; [by rewrite Hp1|done|done|lia]. }
    set (p2 := set_p_out (p_out p1 ++ (print_d (Z.of_nat (length s)) ++ lit " bytes written" ++ [10])) p1).
    destruct (IH _ _ p2 k1 (opened_proc _ _ _ _ _ _ _ p1 p2 _ Ho1 eq_refl)) as (o & p3 & k3 & pieces & off' & E3 & Hp3 & Hk3 & Hf & Ho3 & He & Hc3).
    exists o, p3, k3, (s :: pieces), off'. split.
    { change (run (when (Z.of_nat (length s) =? -1) (perror_exit (lit "write")) ;;! append_loop fd words) (p2, k1) = (o, (p3, k3))).
      rewrite run_when_no; [done|]. apply Z.eqb_neq. lia. }
    split; [subst p2; cbn in Hp3; congruence|]. split.
    { eapply kept_trans; [|done]. eapply kept_trans; [apply kept_inode|apply kept_off]. }
    split; [constructor; [by eexists|done]|]. split; [by cbn; rewrite app_assoc|]. split; [done|].
    intros Hs' Hm. specialize (Hr Hs'). subst r. rewrite app_nil_r in *. cbn [concat] in Hm. rewrite length_app in Hm.
    specialize (Hcalm Hs' ltac:(lia)). subst p1. destruct Hc3 as (-> & -> & Hs3); [done|rewrite length_app; lia|]. done.
Qed.

End Append.

(** The file [append] opens, and what it writes to it. *)
Definition append_order (argv : list (list Z)) : list (list Z) :=
  take 1 argv ++ fst (permuted (tail argv)) ++ snd (permuted (tail argv)).
Definition append_target (argv : list (list Z)) : list Z := default [] (append_order argv !! 1%nat).
Definition append_words (argv : list (list Z)) : list (list Z) := drop (length (fst (permuted (tail argv))) + 2) (append_order argv).

(** What is promised of a run that appends words to a file; under condition [C]
    all of them. *)
Definition appends (C : Prop) (a1 : list Z) (words : list (list Z)) (p : proc) (k : kern) (r : outcome Z * state) : Prop :=
  exists c p' k' pieces, outcome_status r c p' k' /\ only_changed a1 k k' /\
    Forall2 (fun w s => s `prefix_of` w) words pieces /\
    (forall old, file_at k a1 = Some old -> file_at k' a1 = Some (old ++ concat pieces)) /\
    (calm 1 p -> C -> is_Some (file_at k a1) -> Z.of_nat (length (content k a1) + length (concat words)) <= OFF_MAX ->
       c = EXIT_SUCCESS /\ pieces = words).

(** It ended before anything was written. *)
Lemma appends_nothing (C : Prop) a1 words p k e p' k' :
  k_names k' = k_names k -> k_inodes k' = k_inodes k -> (calm 1 p -> C -> file_at k a1 = None) ->
  appends C a1 words p k (Exit e, (p', k')).
Proof.
  intros En Ei Hc. exists e, p', k', (replicate (length words) []). split; [by right|]. split; [by apply only_changed_same|].
  split; [apply no_pieces|]. split.
  - intros old E. rewrite concat_nils, app_nil_r. unfold file_at in *. by rewrite En, Ei.
  - intros Hs HC [x Hx]. specialize (Hc Hs HC). congruence.
Qed.

(** What [append] does after its options. *)
Lemma append_body `{libc} a1 words p k :
  regular_or_absent k a1 ->
  appends True a1 words p k (run (
      let! fd := sys (Open a1 (Z.lor O_WRONLY O_APPEND) 0) in
      when (fd =? -1) (perror_exit (lit "open")) ;;!
      let! offset := sys (Lseek fd 0 SEEK_SET) in
      when (offset =? -1) (perror_exit (lit "lseek")) ;;!
      append_loop fd words ;;!
      let! status := sys (Close fd) in
      when (status =? -1) (perror_exit (lit "close")) ;;!
      Done EXIT_SUCCESS) (p, k)).
Proof.
  intros Hr. destruct (k_names k !! a1) as [i|] eqn:En.
  2: { destruct (open_absent a1 (Z.lor O_WRONLY O_APPEND) 0 p k En eq_refl) as (p1 & E). rewrite (run_call _ _ _ _ _ E).
    match goal with |- context [run (pbind (when ?b ?x) (fun _ => ?h)) _] =>
      destruct (run_when_dies b x h p1 k eq_refl (perror_exit_dies _)) as (e & p2 & -> & _) end.
    apply appends_nothing; [done|done|]. intros _ _. unfold file_at. by rewrite En. }
  destruct (Hr i En) as (m & data & Ei). pose proof (file_at_opened _ _ _ _ _ En Ei) as Hfile.
  match goal with |- context [run (pbind (sys (Open ?a ?fl ?md)) (fun r => pbind (when (r =? -1) ?m) (fun _ => @?h r))) (?p, ?k)] =>
    destruct (run_open a fl md p k i k m h (open_existing a1 i fl 0 k En eq_refl eq_refl) (perror_exit_dies _))
      as (p1 & [(e & -> & He & Hs)|(fd & d & Hfd & Hnf & Hnd & Hp1 & Hc1 & ->)]) end.
  { apply appends_nothing; [done|done|]. intros [Hs1 Hs2] _. destruct Hs; [done|lia]. }
  set (k1 := set_k_ofds _ k).
  assert (opened fd d i 0 (Z.lor O_WRONLY O_APPEND) m data p1 k1) as Ho by (by apply (opened_new fd d i _ _ _ p)).
  match goal with |- context [run (pbind (sys (Lseek ?fd ?dl SEEK_SET)) (fun r => pbind (when (r =? -1) ?m) (fun _ => @?h r))) (?p, ?k)] =>
    destruct (run_lseek fd d i 0 _ _ data p k dl SEEK_SET 0 m h Ho eq_refl ltac:(done) (perror_exit_dies _))
      as (p2 & Hp2 & [(e & -> & He & Hs)|[-> Hc2]]) end.
  { apply appends_nothing; [done|done|]. intros [Hs1 _] _. by rewrite (Hc1 Hs1) in Hs. }
  set (k2 := set_off d _ _ k1).
  assert (opened fd d i 0 (Z.lor O_WRONLY O_APPEND) m data p2 k2) as Ho2.
  { destruct Ho. constructor; cbn; rewrite ?lookup_insert_eq; [by rewrite Hp2|done..]. }
  destruct (append_loop_spec fd d i m words 0 data p2 k2 Ho2) as (o & p3 & k3 & pieces & off' & E3 & Hp3 & Hk3 & Hf & Ho3 & He & Hc3).
  assert (only_changed a1 k k3) as Hoc.
  { apply (only_changed_kept a1 i k k2); [|done]. apply (changes_trans _ _ _ k); [by eapply changes_refl|done..]. }
  assert (file_at k3 a1 = Some (data ++ concat pieces)) as Hfile3.
  { eapply file_at_opened; [by rewrite (kp_names _ _ _ Hk3)|apply (op_inode _ _ _ _ _ _ _ _ _ Ho3)]. }
  assert (forall old, file_at k a1 = Some old -> file_at k3 a1 = Some (old ++ concat pieces)) as Hall by congruence.
  assert (calm 1 p -> p_script p2 = []) as Hcalm.
  { intros [Hs _]. specialize (Hc1 Hs). subst p1. by rewrite (Hc2 Hs). }
  assert (Z.of_nat (length (content k a1) + length (concat words)) <= OFF_MAX ->
    Z.of_nat (length data + length (concat words)) <= OFF_MAX) as Hlen by (unfold content; by rewrite Hfile).
  destruct o as [[]|e| |]; cbn [ended] in He; try done.
  2: { rewrite (run_exit _ _ _ _ _ E3). exists e, p3, k3, pieces. split; [by right|]. do 3 (split; [done|]).
       intros Hs _ _ Hm. by destruct (Hc3 (Hcalm Hs) (Hlen Hm)). }
  rewrite (run_ret _ _ _ _ _ E3).
  match goal with |- context [run (pbind (sys (Close ?fd)) (fun r => pbind (when (r =? -1) ?m) (fun _ => ?h))) (?p, ?k)] =>
    destruct (run_close fd d p k m h (op_fd _ _ _ _ _ _ _ _ _ Ho3) (perror_exit_dies _)) as (p4 & Hp4 & [(e & -> & He4 & Hs)|[-> Hc4]]) end.
  - exists e, p4, k3, pieces. split; [by right|]. do 3 (split; [done|]). intros Hs' _ _ Hm. by destruct (Hc3 (Hcalm Hs') (Hlen Hm)) as (_ & _ & ?).
  - exists EXIT_SUCCESS, p4, k3, pieces. split; [by left|]. do 3 (split; [done|]). intros Hs' _ _ Hm. by destruct (Hc3 (Hcalm Hs') (Hlen Hm)) as (_ & ? & _).
Qed.

(** Arguments without options. *)
Definition plain_args (argv : list (list Z)) : Prop :=
  2 <= argc argv /\ Forall (fun a => is_option a = false) (tail argv).

Lemma plain_permuted l : Forall (fun a => is_option a = false) l -> permuted l = ([], l).
Proof.
  induction 1 as [|a l Ha Hl IH]; [done|]. cbn [permuted]. rewrite bool_decide_eq_false_2 by by intros ->. by rewrite IH, Ha.
Qed.

Lemma permuted_length l : (length (fst (permuted l)) + length (snd (permuted l)) = length l)%nat.
Proof.
  induction l as [|a l IH]; [done|]. cbn [permuted]. case_bool_decide; [done|]. destruct (permuted l) as [os ns].
  destruct (is_option a); cbn in *; lia.
Qed.

Lemma arg_first (a0 a1 : list Z) l : arg (a0 :: a1 :: l) 1 = Done a1.
Proof. done. Qed.

Lemma appends_proc (C : Prop) a1 words p p' k r :
  appends True a1 words p' k r -> (C -> p_script p' = p_script p /\ p_fds p' = p_fds p) -> appends C a1 words p k r.
Proof.
  intros (c & q & k' & pieces & H1 & H2 & H3 & H4 & H5) Hs. exists c, q, k', pieces. do 4 (split; [done|]).
  intros Hc HC. destruct (Hs HC) as [E1 E2]. apply H5; [|done]. unfold calm in *. by rewrite E1, E2.
Qed.

(** ** Properties *)

(** Whatever its arguments and whatever fails or is written in part, [append]
    only makes the file it opens longer, although it seeks to the start first: at
    its end come parts of the words, in order, and all of every word when no call
    fails and there are no options. *)
Theorem append_only_grows `{libc} argv p k :
  argv <> [] -> regular_or_absent k (append_target argv) ->
  exists c p' k' pieces, outcome_status (run (append argv) (p, k)) c p' k' /\ only_changed (append_target argv) k k' /\
    Forall2 (fun w s => s `prefix_of` w) (append_words argv) pieces /\
    (forall old, file_at k (append_target argv) = Some old -> file_at k' (append_target argv) = Some (old ++ concat pieces)) /\
    (calm 1 p -> plain_args argv -> is_Some (file_at k (append_target argv)) ->
     Z.of_nat (length (content k (append_target argv)) + length (concat (append_words argv))) <= OFF_MAX ->
     c = EXIT_SUCCESS /\ pieces = append_words argv).
Proof.
  intros Hne Hr. change (appends (plain_args argv) (append_target argv) (append_words argv) p k (run (append argv) (p, k))).
  destruct argv as [|a0 [|a1 rest]]; [done| |].
  { apply appends_nothing; [done|done|]. by intros _ [Hl _]. }
  clear Hne. set (t := append_target _) in *. set (ws := append_words _).
  unfold append. change (arg (a0 :: a1 :: rest) 0) with (Done a0 : prog (list Z)). rewrite arg_first. cbn [pbind].
  assert ((argc (a0 :: a1 :: rest) <? 2) = false) as -> by (apply Z.ltb_ge; unfold argc; cbn [length]; lia). cbn [pbind].
  destruct (is_help a1) eqn:Eh.
  { unfold is_help in Eh. apply bool_decide_eq_true in Eh. subst a1. apply appends_nothing; [done|done|].
    intros _ [_ Hp]. cbn [tail] in Hp. by apply Forall_cons in Hp as [? _]. }
  cbn [when pbind]. subst t ws. unfold append_target, append_words, append_order in *. cbn [take tail] in *.
  pose proof (plain_permuted (a1 :: rest)) as Hplain.
  destruct (permuted (a1 :: rest)) as [os ns] eqn:Ep. cbn [fst snd app] in *.
  destruct (talks_options a0 os p k) as (o & p1 & E & He). destruct o as [[]|c| |]; cbn [ended] in He; try done.
  2: { rewrite (run_exit _ _ _ _ _ E). apply appends_nothing; [done|done|]. intros _ [_ Hp].
       specialize (Hplain Hp). injection Hplain as -> ->. by cbn in E. }
  rewrite (run_ret _ _ _ _ _ E). destruct (os ++ ns) as [|b l] eqn:El.
  { apply (f_equal (@length _)) in El. pose proof (permuted_length (a1 :: rest)) as Hl. rewrite Ep in Hl. cbn in Hl.
    rewrite length_app in El. cbn in El. lia. }
  rewrite arg_first. cbn [pbind]. cbn in Hr.
  replace (Z.to_nat (1 + Z.of_nat (length os) + 1)) with (length os + 2)%nat by lia.
  eapply appends_proc; [by apply append_body|]. intros _. destruct He. done.
Qed.

Definition one_file (data : list Z) : kern := mk_kern {[lit "b" := 0]} {[0 := Reg 420 data]} ∅.

Lemma one_file_name data n i : k_names (one_file data) !! n = Some i -> i = 0.
Proof. unfold one_file. cbn [k_names]. rewrite lookup_singleton_Some. intuition. Qed.

Lemma append_only_grows_witness :
  let argv := [lit "append"; lit "b"; lit "xy"; lit "z"] in
  exists c p' k' pieces, outcome_status (run (append (H:=demo_libc) argv) (no_proc, one_file (lit "old"))) c p' k' /\
    only_changed (append_target argv) (one_file (lit "old")) k' /\
    Forall2 (fun w s => s `prefix_of` w) (append_words argv) pieces /\
    (forall old, file_at (one_file (lit "old")) (append_target argv) = Some old -> file_at k' (append_target argv) = Some (old ++ concat pieces)) /\
    (calm 1 no_proc -> plain_args argv -> is_Some (file_at (one_file (lit "old")) (append_target argv)) ->
     Z.of_nat (length (content (one_file (lit "old")) (append_target argv)) + length (concat (append_words argv))) <= OFF_MAX ->
     c = EXIT_SUCCESS /\ pieces = append_words argv).
Proof.
  intros argv. apply append_only_grows; [done|]. intros i H. rewrite (one_file_name _ _ i H). by eexists _, _.
Defined.

(** An option is opened as a file: the name used is [argv[1]], not [argv[optind]]. *)
Example append_opens_option :
  append_target [lit "append"; lit "-x"; lit "b"; lit "data"] = lit "-x" /\
  append_words [lit "append"; lit "-x"; lit "b"; lit "data"] = [lit "data"].
Proof. by split. Qed.
