(* ===== verification/FileAtomic.v ===== *)
(** * tlpi/fileio: atomic appends

    atomic_append.c run by any number of processes on the same file, their calls
    interleaved in any order: with O_APPEND no byte is lost, with a seek before
    each write bytes are. *)

From stdpp Require Import prelude list_numbers strings gmap.
From Stdlib Require Import ZArith Lia.
From S2P Require Import Prelude CLib Vfs TlpiLib FileRun.
Open Scope Z_scope.

Section Programs.
Context `{libc}.

Definition atomic_perms : Z :=
  Z.lor S_IRUSR (Z.lor S_IWUSR (Z.lor S_IRGRP (Z.lor S_IWUSR (Z.lor S_IROTH S_IWOTH)))).

(** [for (long i = 0; i < val; i++)]; [n] turns are left. *)
Fixpoint atomic_loop (n : nat) (fd : Z) (isSeek : bool) : prog unit :=
  match n with
  | O => Done tt
  | S n =>
      (if isSeek then let! r := sys (Lseek fd 0 SEEK_END) in when (r =? -1) (perror_exit (lit "lseek"))
       else Done tt) ;;!
      let! written := sys (Write fd [0]) in
      when (negb (written =? 1)) (perror_exit (lit "write")) ;;!
      atomic_loop n fd isSeek
  end.

Definition atomic_append (argv : list (list Z)) : prog Z :=
  when ((argc argv <? 3) || (4 <? argc argv))
    (let! a0 := arg argv 0 in
     sys (Print (lit "Usage: " ++ a0 ++ lit " filename num-butes [x]" ++ [10])) ;;! Halt EXIT_FAILURE) ;;!
  let! isSeek := (if argc argv =? 4 then let! a3 := arg argv 3 in Done (bool_decide (a3 = lit "x")) else Done false) in
  let flags := Z.lor O_WRONLY O_CREAT in
  let flags := if isSeek then flags else Z.lor flags O_APPEND in
  let! a1 := arg argv 1 in
  let! fd := sys (Open a1 flags atomic_perms) in
  when (fd =? -1) (perror_exit (lit "open")) ;;!
  sys (SetErrno 0) ;;!
  let! a2 := arg argv 2 in
  let '(val, endptr, range) := strtol a2 0 in
  when range (sys (SetErrno ERANGE)) ;;!
  let! errno := sys Errno in
  when (errno =? ERANGE) (perror_exit (lit "strtol")) ;;!
  when (bool_decide (endptr = a2)) (sys (PrintErr (lit "No digits were found" ++ [10])) ;;! Halt EXIT_FAILURE) ;;!
  atomic_loop (Z.to_nat val) fd isSeek ;;!
  let! r := sys (Close fd) in
  when (negb (r =? 0)) (perror_exit (lit "close")) ;;!
  Done EXIT_SUCCESS.

End Programs.

(** ** What one process does while others run *)

Section Appenders.
Context `{libc}.
Variables (file old : list Z).

(** [total] zeros were appended to the file. *)
Definition appended (total : nat) (k : kern) : Prop :=
  match k_names k !! file with
  | None => total = 0%nat /\ old = []
  | Some i => exists m, k_inodes k !! i = Some (Reg m (old ++ replicate total 0))
  end.

(** The file and the open descriptions stay what they are. *)
Definition stable (k k' : kern) : Prop :=
  (forall i, k_names k !! file = Some i -> k_names k' !! file = Some i) /\
  forall d o, k_ofds k !! d = Some o -> exists o', k_ofds k' !! d = Some o' /\ o_ino o' = o_ino o /\ o_flags o' = o_flags o.

Lemma stable_refl k : stable k k.
Proof. split; [done|]. intros d o E. by exists o. Qed.

Lemma stable_trans k1 k2 k3 : stable k1 k2 -> stable k2 k3 -> stable k1 k3.
Proof.
  intros [N1 O1] [N2 O2]. split; [auto|]. intros d o E. destruct (O1 d o E) as (o' & E' & I' & F').
  destruct (O2 d o' E') as (o2 & E2 & I2 & F2). exists o2. split; [done|]. split; congruence.
Qed.

(** A process that has written [w] of [n] bytes, whatever the others do before
    each of its calls: it ends, and with success only when all were written. *)
Fixpoint behaves (n : nat) (q : prog Z) (p : proc) (k : kern) (w : nat) : Prop :=
  match q with
  | Done c => c = EXIT_SUCCESS /\ w = n
  | Halt c => c <> EXIT_SUCCESS /\ (w <= n)%nat
  | Crash => False
  | Spent => False
  | Vis c h =>
      forall k1 total, stable k k1 -> appended total k1 ->
      exists w', stable k1 (snd (snd (answer c (p, k1)))) /\ appended (total + w') (snd (snd (answer c (p, k1)))) /\
        behaves n (h (fst (answer c (p, k1)))) (fst (snd (answer c (p, k1)))) (snd (snd (answer c (p, k1)))) (w + w')
  end.

Lemma behaves_stable n q p k k' w : behaves n q p k w -> stable k k' -> behaves n q p k' w.
Proof.
  destruct q as [a|c| | |R c h]; try done. cbn [behaves]. intros Hb Hs k1 total Hs1 Ha. apply Hb; [by eapply stable_trans|done].
Qed.

(** A call that leaves the files alone. *)
Lemma behaves_quiet {R} (c : call R) n (h : R -> prog Z) p k w :
  (forall k1, snd (snd (answer c (p, k1))) = k1) ->
  (forall k1, stable k k1 -> behaves n (h (fst (answer c (p, k1)))) (fst (snd (answer c (p, k1)))) k1 w) ->
  behaves n (pbind (sys c) h) p k w.
Proof.
  intros Hq Hh k1 total Hs Ha. exists 0%nat. rewrite Nat.add_0_r, Hq, Nat.add_0_r. split; [apply stable_refl|]. split; [done|].
  by apply Hh.
Qed.

Lemma behaves_exit n s (h : unit -> prog Z) p k w : (w <= n)%nat -> behaves n (pbind (perror_exit s) h) p k w.
Proof.
  intros Hw. unfold perror_exit, perror. cbn [sys pbind]. apply (behaves_quiet Errno); [done|]. intros k1 _.
  apply (behaves_quiet (PrintErr _)); [done|]. intros k2 _. done.
Qed.

Lemma behaves_when n b s (h : prog Z) p k w :
  (w <= n)%nat -> (b = false -> behaves n h p k w) -> behaves n (when b (perror_exit s) ;;! h) p k w.
Proof. intros Hw Hh. destruct b; [by apply behaves_exit|by apply Hh]. Qed.

(** A descriptor of the file that appends. *)
Definition appender (fd : Z) (p : proc) (k : kern) : Prop :=
  exists d o, p_fds p !! fd = Some d /\ k_ofds k !! d = Some o /\ k_names k !! file = Some (o_ino o) /\
    o_flags o = Z.lor O_WRONLY O_APPEND.

Lemma appender_stable fd p k k' : appender fd p k -> stable k k' -> appender fd p k'.
Proof.
  intros (d & o & E1 & E2 & E3 & E4) [N O]. destruct (O d o E2) as (o' & E' & I' & F'). exists d, o'.
  split; [done|]. split; [done|]. rewrite I', F'. split; [by apply N|done].
Qed.

Lemma appender_proc fd p p' k : appender fd p k -> p_fds p' = p_fds p -> appender fd p' k.
Proof. intros (d & o & E1 & H1) E. exists d, o. by rewrite E. Qed.

Lemma limit_zero v : limit v [0] = [0].
Proof. destruct v as [|n|]; [done| |done]. by destruct n. Qed.

(** A write: it fails and changes nothing, or the file has one more byte. *)
Lemma append_write fd p k total :
  appender fd p k -> appended total k ->
  exists r p' k', answer (Write fd [0]) (p, k) = (r, (p', k')) /\ p_fds p' = p_fds p /\ stable k k' /\
    (r = -1 /\ appended total k' \/ r = 1 /\ appended (total + 1) k').
Proof.
  intros (d & o & E1 & E2 & E3 & E4) Ha. destruct (next_verdict_spec p) as (v & p1 & Ev & Hf & _ & _).
  cbn [answer]. rewrite Ev.
  assert (descr fd p1 k = Some (d, o)) as Hd by (unfold descr; rewrite Hf, E1; cbn; by rewrite E2).
  assert (writable o = true) as Hw by (unfold writable; by rewrite E4).
  unfold appended in Ha. rewrite E3 in Ha. destruct Ha as (m & Ei).
  assert (appended total k) as Ha by (unfold appended; rewrite E3; by exists m).
  assert (exists r p' k', do_write v fd [0] p1 k = (r, (p', k')) /\ p_fds p' = p_fds p /\ stable k k' /\
    (r = -1 /\ appended total k' \/ r = 1 /\ appended (total + 1) k')) as Hdo.
  { unfold do_write. rewrite Hd, Hw, Ei, limit_zero, E4. change (flag (Z.lor O_WRONLY O_APPEND) O_APPEND) with true. cbv iota.
    destruct (OFF_MAX <? _); [eexists (-1), _, k; split; [done|]; split; [done|]; split; [apply stable_refl|by left]|].
    eexists 1, p1, _. split; [done|]. split; [done|]. split.
    - split; [done|]. cbn. intros d' o' E'. destruct (decide (d' = d)) as [->|Hne].
      + rewrite lookup_insert_eq. replace o' with o by congruence. by eexists.
      + rewrite lookup_insert_ne by done. by exists o'.
    - right. split; [done|]. unfold appended, set_off, set_inode, set_k_ofds, set_k_inodes. cbn [k_names k_inodes o_ino]. rewrite E3, lookup_insert_eq, pwrite_end. exists m.
      by rewrite replicate_add, app_assoc. }
  destruct v as [|x|e]; [exact Hdo|exact Hdo|].
  eexists (-1), _, k. split; [done|]. split; [done|]. split; [apply stable_refl|by left].
Qed.

Lemma behaves_loop n r fd (h : prog Z) p k w :
  appender fd p k -> (w + r = n)%nat ->
  (forall p' k', appender fd p' k' -> p_fds p' = p_fds p -> behaves n h p' k' n) ->
  behaves n (atomic_loop r fd false ;;! h) p k w.
Proof.
  revert p k w. induction r as [|r IH]; intros p k w Hm Hn Hh; cbn [atomic_loop pbind].
  { replace w with n by lia. by apply Hh. }
  intros k1 total Hs Ha. pose proof (appender_stable _ _ _ _ Hm Hs) as Hm1.
  destruct (append_write fd p k1 total Hm1 Ha) as (x & p' & k' & -> & Hp & Hs1 & Hx). cbn [fst snd].
  assert (forall q : prog unit, pbind (pbind (when (negb (x =? 1)) (perror_exit (lit "write"))) (fun _ => q)) (fun _ => h) =
    (when (negb (x =? 1)) (perror_exit (lit "write")) ;;! (q ;;! h))) as Hassoc by (intros q; by destruct (negb (x =? 1))).
  destruct Hx as [[-> Ha1]|[-> Ha1]].
  - exists 0%nat. rewrite Nat.add_0_r. split; [done|]. split; [done|]. rewrite Nat.add_0_r. apply (behaves_exit n). lia.
  - exists 1%nat. split; [done|]. split; [done|]. cbn [negb Z.eqb when pbind].
    apply IH; [|lia|].
    + eapply appender_proc; [by eapply appender_stable|done].
    + intros p2 k2 Hm2 Hp2. apply Hh; [done|congruence].
Qed.

Definition append_flags : Z := Z.lor (Z.lor O_WRONLY O_CREAT) O_APPEND.

(** Opening the file: a failure, or a descriptor that appends; it may be created. *)
Lemma append_open mode p k total :
  appended total k ->
  exists r p' k', answer (Open file append_flags mode) (p, k) = (r, (p', k')) /\ stable k k' /\ appended total k' /\
    (r = -1 \/ r <> -1 /\ appender r p' k').
Proof.
  intros Ha. destruct (next_verdict_spec p) as (v & p1 & Ev & Hf & _ & _). cbn [answer]. rewrite Ev.
  assert (exists r p' k', do_open file append_flags mode p1 k = (r, (p', k')) /\ stable k k' /\ appended total k' /\
    (r = -1 \/ r <> -1 /\ appender r p' k')) as Hdo.
  { unfold do_open. destruct (OPEN_MAX <=? _); [eexists (-1), _, k; split; [done|]; split; [apply stable_refl|]; split; [done|by left]|].
    destruct (lowest_spec (p_fds p1) 0) as (Hfd & _). set (fd := lowest (p_fds p1) 0) in *.
    assert (exists i k1, open_inode file append_flags mode k = inr (i, k1) /\ k_names k1 !! file = Some i /\ k_ofds k1 = k_ofds k /\
      appended total k1 /\ (forall j, k_names k !! file = Some j -> j = i)) as (i & k1 & -> & En & Eo & Ha1 & Hj).
    { unfold open_inode. change (flag append_flags O_CREAT) with true. change (flag append_flags O_EXCL) with false.
      change (flag append_flags O_TRUNC) with false. cbn [andb]. destruct (k_names k !! file) as [i|] eqn:En.
      - exists i, k. split; [by destruct (k_inodes k !! i) as [[]|]|]. split; [done|]. split; [done|]. split; [done|]. congruence.
      - eexists _, _. split; [reflexivity|]. unfold set_inode, set_k_names, set_k_inodes. cbn [k_names k_inodes k_ofds].
        split; [apply lookup_insert_eq|]. split; [done|]. split; [|done].
        unfold appended in *. cbn [k_names k_inodes]. rewrite En in Ha. destruct Ha as [-> ->].
        rewrite lookup_insert_eq. exists mode. by rewrite lookup_insert_eq. }
    destruct (lowest_spec (k_ofds k1) 0) as (_ & Hd & _). set (d := lowest (k_ofds k1) 0) in *.
    eexists fd, _, _. split; [reflexivity|]. split; [split|split].
    - intros j Ej. cbn. by rewrite (Hj j Ej).
    - intros d' o E. cbn. rewrite lookup_insert_ne; [exists o; by rewrite Eo|]. intros <-. rewrite Eo in Hd. congruence.
    - exact Ha1.
    - right. split; [lia|]. exists d, (mk_ofd i 0 (open_flags append_flags)). cbn. by rewrite !lookup_insert_eq. }
  destruct v as [|x|e]; [exact Hdo|exact Hdo|].
  eexists (-1), _, k. split; [done|]. split; [apply stable_refl|]. split; [done|by left].
Qed.

Lemma atomic_append_eq a0 num :
  atomic_append [a0; file; num] =
  (let! fd := sys (Open file append_flags atomic_perms) in
   when (fd =? -1) (perror_exit (lit "open")) ;;!
   sys (SetErrno 0) ;;!
   let '(val, endptr, range) := strtol num 0 in
   when range (sys (SetErrno ERANGE)) ;;!
   let! errno := sys Errno in
   when (errno =? ERANGE) (perror_exit (lit "strtol")) ;;!
   when (bool_decide (endptr = num)) (sys (PrintErr (lit "No digits were found" ++ [10])) ;;! Halt EXIT_FAILURE) ;;!
   atomic_loop (Z.to_nat val) fd false ;;!
   let! r := sys (Close fd) in
   when (negb (r =? 0)) (perror_exit (lit "close")) ;;!
   Done EXIT_SUCCESS).
Proof. reflexivity. Qed.

(** The whole program, with the option or without. *)
Lemma behaves_atomic_append a0 num val rest p k :
  strtol num 0 = (val, rest, false) -> rest <> num ->
  behaves (Z.to_nat val) (atomic_append [a0; file; num]) p k 0.
Proof.
  intros Hnum Hrest. rewrite atomic_append_eq. intros k1 total Hs Ha.
  destruct (append_open atomic_perms p k1 total Ha) as (fd & p1 & k2 & -> & Hs2 & Ha2 & Hfd). cbn [fst snd].
  exists 0%nat. rewrite Nat.add_0_r. split; [done|]. split; [done|]. cbn [Nat.add].
  apply behaves_when; [lia|]. intros Hne%Z.eqb_neq. destruct Hfd as [|[_ Hm]]; [done|].
  apply (behaves_quiet (SetErrno 0)); [done|]. intros k3 Hs3. cbn [answer fst snd].
  rewrite Hnum. cbn [when pbind].
  apply (behaves_quiet Errno); [done|]. intros k4 Hs4. cbn [answer fst snd p_errno set_p_errno].
  change (0 =? ERANGE) with false. cbn [when pbind]. rewrite bool_decide_eq_false_2 by done. cbn [pbind].
  apply behaves_loop; [|lia|].
  { apply (appender_proc _ p1); [|done]. eapply appender_stable; [|exact Hs4]. by eapply appender_stable. }
  intros p' k' (d & o & E & _) _. apply (behaves_quiet (Close fd)).
  - intros k5. cbn [answer]. destruct (next_verdict_spec p') as (v & p2 & -> & Hf2 & _). unfold do_close. rewrite Hf2, E. by destruct v.
  - intros k5 _. generalize (fst (answer (Close fd) (p', k5))). intros r. apply behaves_when; [lia|]. by intros _.
Qed.

End Appenders.

(** ** All of them *)

Section Interleaving.
Context `{libc}.
Variables (file old a0 : list Z).

(** A process: the text of the number of bytes, the number, and its state. *)
Definition starting (r : list Z * Z * proc) : prog Z * proc :=
  let '(num, val, p) := r in (atomic_append [a0; file; num], p).

Definition wanted (r : list Z * Z * proc) : nat := Z.to_nat (snd (fst r)).

Definition number_ok (r : list Z * Z * proc) : Prop :=
  exists rest, strtol (fst (fst r)) 0 = (snd (fst r), rest, false) /\ rest <> fst (fst r).

(** [ws] says how many bytes each process has written. *)
Record counted (runs : list (list Z * Z * proc)) (ws : list nat) (s : list (prog Z * proc) * kern) : Prop := {
  co_length : length ws = length runs;
  co_file : appended file old (sum_list ws) (snd s);
  co_each : forall j q p, fst s !! j = Some (q, p) -> exists r w, runs !! j = Some r /\ ws !! j = Some w /\
    behaves file old (wanted r) q p (snd s) w
}.

Lemma sum_list_add ws j w x : ws !! j = Some w -> sum_list (<[j := (w + x)%nat]> ws) = (sum_list ws + x)%nat.
Proof.
  revert j. induction ws as [|y ws IH]; intros [|j] E; [done|done|injection E as ->; cbn; lia|].
  change (y + sum_list (<[j:=(w + x)%nat]> ws) = y + sum_list ws + x)%nat. rewrite (IH j E). lia.
Qed.

Lemma counted_step runs ws s s' : counted runs ws s -> pstep s s' -> exists ws', counted runs ws' s'.
Proof.
  intros [Hl Hf He] Hstep. destruct Hstep as [j R c h p p' k k' r l Ej Ea]. cbn [fst snd] in *.
  destruct (He j _ _ Ej) as (rn & w & Er & Ew & Hb). cbn [behaves] in Hb.
  destruct (Hb k (sum_list ws) (stable_refl file k) Hf) as (x & Hs & Ha & Hb'). rewrite Ea in Hs, Ha, Hb'. cbn [fst snd] in *.
  exists (<[j := (w + x)%nat]> ws). split; cbn [fst snd].
  - by rewrite length_insert.
  - by rewrite (sum_list_add _ _ _ _ Ew).
  - intros j' q' p2 E'. destruct (decide (j' = j)) as [->|Hne].
    + rewrite list_lookup_insert_eq in E' by (by eapply lookup_lt_Some). injection E' as <- <-.
      exists rn, (w + x)%nat. split; [done|]. split; [|done]. apply list_lookup_insert_eq. by eapply lookup_lt_Some.
    + rewrite list_lookup_insert_ne in E' by done. destruct (He j' q' p2 E') as (r2 & w2 & Er2 & Ew2 & Hb2).
      exists r2, w2. split; [done|]. rewrite list_lookup_insert_ne by done. split; [done|]. by eapply behaves_stable.
Qed.

Lemma counted_steps runs ws s s' : counted runs ws s -> rtc pstep s s' -> exists ws', counted runs ws' s'.
Proof.
  intros Hc Hs. revert ws Hc. induction Hs as [s|s1 s2 s3 H1 _ IH]; intros ws Hc; [by exists ws|].
  destruct (counted_step _ _ _ _ Hc H1) as (ws' & Hc'). by apply (IH ws').
Qed.

Lemma counted_start runs k :
  Forall number_ok runs -> regular_or_absent k file -> content k file = old ->
  counted runs (replicate (length runs) 0%nat) (map starting runs, k).
Proof.
  intros Hn Hr Ho. assert (forall n, sum_list (replicate n 0%nat) = 0%nat) as Hsum by (by induction n).
  split; cbn [fst snd].
  - by rewrite length_replicate.
  - rewrite Hsum. unfold appended. unfold content, file_at in Ho. destruct (k_names k !! file) as [i|] eqn:En.
    + destruct (Hr i En) as (m & data & Ei). cbn in Ho. rewrite Ei in Ho. cbn in Ho. subst data. exists m. by rewrite Ei, app_nil_r.
    + by subst old.
  - intros j q p Ej. rewrite list_lookup_fmap in Ej. destruct (runs !! j) as [[[num val] p0]|] eqn:Er; [|done]. injection Ej as <- <-.
    exists (num, val, p0), 0%nat. split; [done|]. split; [apply lookup_replicate; split; [done|by eapply lookup_lt_Some]|].
    destruct (Forall_lookup_1 _ _ _ _ Hn Er) as (rest & E1 & E2). cbn [fst snd] in *. by eapply behaves_atomic_append.
Qed.

Lemma behaves_le n q p k w total : appended file old total k -> behaves file old n q p k w -> (w <= n)%nat.
Proof.
  revert p k w total. induction q as [c|c| | |R c h IH]; intros p k w total Ha Hb; cbn [behaves] in Hb; try done; try lia.
  destruct (Hb k total (stable_refl file k) Ha) as (x & _ & Ha' & Hb'). specialize (IH _ _ _ _ _ Ha' Hb'). lia.
Qed.

End Interleaving.

(** ** Properties *)

(** C35: any number of processes append zeros to the same file, which may not exist
    yet, and their calls are interleaved in any order and fail in any way: at
    every moment the file holds what was in it and one zero for each byte that
    one of them has written, and each of them has written as many as it was asked
    to when it ends with success; none crashes. *)
Theorem appends_interleave `{libc} file a0 runs k l k' :
  Forall number_ok runs -> regular_or_absent k file ->
  rtc pstep (map (starting file a0) runs, k) (l, k') ->
  exists ws, length ws = length runs /\ content k' file = content k file ++ replicate (sum_list ws) 0 /\
    forall j q p, l !! j = Some (q, p) -> exists r w, runs !! j = Some r /\ ws !! j = Some w /\ (w <= wanted r)%nat /\
      match q with
      | Done c => c = EXIT_SUCCESS /\ w = wanted r
      | Halt c => c <> EXIT_SUCCESS
      | Vis _ _ => True
      | Crash | Spent => False
      end.
Proof.
  intros Hn Hr Hs. destruct (counted_steps file (content k file) runs _ _ _ (counted_start file _ a0 runs k Hn Hr eq_refl) Hs) as (ws & [Hl Hf He]).
  cbn [fst snd] in *. exists ws. split; [done|]. split.
  - unfold appended in Hf. unfold content at 1, file_at. destruct (k_names k' !! file) as [i|] eqn:En; cbn.
    + destruct Hf as (m & ->). done.
    + destruct Hf as [-> ->]. done.
  - intros j q p E. destruct (He j q p E) as (r & w & Er & Ew & Hb). exists r, w. split; [done|]. split; [done|].
    split; [by eapply behaves_le|]. destruct q as [c|c| | |R c h]; cbn [behaves] in Hb; try done. by destruct Hb.
Qed.

(** Two processes, of which the second starts when the first has written a byte. *)
Definition two_runs : list (list Z * Z * proc) := [(lit "2", 2, no_proc); (lit "1", 1, no_proc)].
Definition two_order : list nat := [0; 0; 0; 0; 1; 1; 1; 1; 0; 0; 1]%nat.

Definition finished (s : option (list (prog Z * proc) * kern)) : option (list (option Z) * list Z) :=
  s ← s; Some (map (fun q => match fst q with Done c => Some c | _ => None end) (fst s), content (snd s) (lit "b")).

Lemma two_runs_steps `{libc} : exists l k', rtc pstep (map (starting (lit "b") (lit "a.out")) two_runs, mk_kern ∅ ∅ ∅) (l, k').
Proof.
  destruct (schedule two_order (map (starting (lit "b") (lit "a.out")) two_runs, mk_kern ∅ ∅ ∅)) as [[l k']|] eqn:E;
    [|by vm_compute in E].
  exists l, k'. by apply schedule_steps in E.
Qed.

Lemma appends_interleave_witness :
  let _ := demo_libc in
  exists l k', rtc pstep (map (starting (lit "b") (lit "a.out")) two_runs, mk_kern ∅ ∅ ∅) (l, k') /\
  exists ws, length ws = length two_runs /\
    content k' (lit "b") = content (mk_kern ∅ ∅ ∅) (lit "b") ++ replicate (sum_list ws) 0 /\
    forall j q p, l !! j = Some (q, p) -> exists r w, two_runs !! j = Some r /\ ws !! j = Some w /\ (w <= wanted r)%nat /\
      match q with
      | Done c => c = EXIT_SUCCESS /\ w = wanted r
      | Halt c => c <> EXIT_SUCCESS
      | Vis _ _ => True
      | Crash | Spent => False
      end.
Proof.
  intros L. destruct (two_runs_steps (H:=L)) as (l & k' & Hs). exists l, k'. split; [exact Hs|].
  eapply appends_interleave; [|by intros i E|exact Hs].
  constructor; [|constructor; [|constructor]]; exists []; by split.
Defined.

(** Both end, and all three bytes are in the file. *)
Example two_runs_end : finished (schedule two_order (map (starting (H:=demo_libc) (lit "b") (lit "a.out")) two_runs, mk_kern ∅ ∅ ∅)) =
  Some ([Some 0; Some 0], [0; 0; 0]).
Proof. vm_compute. reflexivity. Qed.

(** With the argument x the end of the file is sought before each byte: when a
    second process writes between the seek and the write of a first one, both end
    with success and one of the two bytes is lost. *)
Example seek_loses_byte :
  finished (schedule [0; 0; 0; 0; 1; 1; 1; 1; 1; 1; 0; 0]%nat
    (replicate 2 (atomic_append (H:=demo_libc) [lit "a.out"; lit "b"; lit "1"; lit "x"], no_proc), mk_kern ∅ ∅ ∅)) =
  Some ([Some 0; Some 0], [0]).
Proof. vm_compute. reflexivity. Qed.
