(* ===== verification/FileDup.v ===== *)
(** * tlpi/fileio: duplicating descriptors

    dup.c and verify_dup.c: the replacements for dup and dup2, against what POSIX
    says of dup2, and what duplicated descriptors share. *)

From stdpp Require Import prelude list_numbers strings gmap.
From Stdlib Require Import ZArith Lia.
From S2P Require Import Prelude CLib Vfs TlpiLib FileRun.
Open Scope Z_scope.

Section Programs.
Context `{libc}.

(** *** dup.c *)

Definition my_dup (oldfd : Z) : prog Z :=
  let! newfd := sys (DupFd oldfd oldfd) in
  Done newfd.

Definition my_dup2 (oldfd newfd : Z) : prog Z :=
  if oldfd =? newfd then
    let! r := sys (GetFl oldfd) in
    if r =? -1 then sys (SetErrno EBADF) ;;! Done (-1) else Done newfd
  else
    let! r := sys (GetFl newfd) in
    (if negb (r =? -1) then
       sys (Print (lit "closing exising fd: " ++ print_d newfd ++ [10])) ;;!
       let! _r := sys (Close newfd) in Done tt
     else Done tt) ;;!
    let! newfd := sys (DupFd oldfd newfd) in
    Done newfd.

Definition dup_main : prog Z :=
  let! fd := sys (Open (lit "tfile") (Z.lor O_RDWR O_APPEND) 0) in
  when (fd =? -1) (perror_exit (lit "open")) ;;!
  let! newfd := my_dup2 fd 10 in
  when (newfd =? -1) (perror_exit (lit "my_dup")) ;;!
  sys (Print (lit "oldfd: " ++ print_d fd ++ lit ", newfd: " ++ print_d newfd ++ [10])) ;;!
  let! written := sys (Write newfd (lit "the text")) in
  when (written =? -1) (perror_exit (lit "write")) ;;!
  let! r := sys (Close fd) in
  when (r =? -1) (perror_exit (lit "close")) ;;!
  (if negb (fd =? newfd) then let! r := sys (Close newfd) in when (r =? -1) (perror_exit (lit "close")) else Done tt) ;;!
  Done EXIT_SUCCESS.

(** *** verify_dup.c *)

Definition verify_perms : Z := Z.lor S_IRUSR (Z.lor S_IWUSR (Z.lor S_IRGRP S_IRWXG)).

(** The letters of [%x]. *)
Definition print_x (n : Z) : list Z :=
  let digit d := if d <? 10 then 48 + d else 87 + d in
  let fix go (fuel : nat) (n : Z) (acc : list Z) :=
    match fuel with
    | O => acc
    | S fuel => if n <? 16 then digit n :: acc else go fuel (n / 16) (digit (n mod 16) :: acc)
    end in
  go 8%nat (wrapu 32 n) [].

Definition verify_dup : prog Z :=
  let! fd := sys (Open (lit "tfile") (Z.lor O_RDWR O_CREAT) verify_perms) in
  when (fd =? -1) (perror_exit (lit "open")) ;;!
  let! newfd := sys (DupFd fd 0) in
  when (newfd =? -1) (perror_exit (lit "dup")) ;;!
  let str := lit "test input" in
  let! numWritten := sys (Write fd str) in
  when (negb (numWritten =? Z.of_nat (length str))) (perror_exit (lit "write")) ;;!
  let! offset := sys (Lseek fd 0 SEEK_CUR) in
  when (offset =? -1) (perror_exit (lit "lseek")) ;;!
  let! new_offset := sys (Lseek newfd 0 SEEK_CUR) in
  when (new_offset =? -1) (perror_exit (lit "lseek")) ;;!
  sys (Print (lit "offest: " ++ print_d offset ++ [10])) ;;!
  when (negb (offset =? new_offset))
    (sys (Print (lit "file offset of duplicated file descriptor differs from the original." ++ [10]))) ;;!
  let! flags := sys (GetFl fd) in
  when (flags =? -1) (perror_exit (lit "fcntl")) ;;!
  let! new_flags := sys (GetFl fd) in
  when (new_flags =? -1) (perror_exit (lit "fcntl")) ;;!
  let accessMode := Z.land flags O_ACCMODE in
  sys (Print (lit "access mode: " ++ print_x accessMode ++ [10])) ;;!
  sys (Print (lit "flags: " ++ print_x flags ++ [10])) ;;!
  when (negb (flags =? new_flags))
    (sys (Print (lit "file status flags of duplicated file descriptor differs from the original." ++ [10]))) ;;!
  let! r := sys (Close fd) in
  when (r =? -1) (perror_exit (lit "close")) ;;!
  let! r := sys (Close newfd) in
  when (r =? -1) (perror_exit (lit "close")) ;;!
  Done EXIT_SUCCESS.

End Programs.

(** ** dup2 *)

(** What POSIX says of dup2: the result, and what the descriptors refer to; an
    invalid argument changes nothing. *)
Definition posix_dup2 (oldfd newfd : Z) (fds : gmap Z Z) : option (gmap Z Z) :=
  d ← fds !! oldfd;
  if (newfd <? 0) || (OPEN_MAX <=? newfd) then None else Some (<[newfd := d]> fds).

(** Descriptors refer to open descriptions, whose flags are not negative. *)
Definition fds_ok (p : proc) (k : kern) : Prop :=
  forall fd d, p_fds p !! fd = Some d -> 0 <= fd < OPEN_MAX /\ exists o, k_ofds k !! d = Some o /\ 0 <= o_flags o.

Lemma lowest_unused {A} (m : gmap Z A) n : m !! n = None -> lowest m n = n.
Proof.
  intros E. destruct (lowest_spec m n) as (H1 & _ & H2). destruct (decide (lowest m n = n)) as [|Hne]; [done|].
  destruct (H2 n) as [x Hx]; [lia|congruence].
Qed.

Lemma getfl_spec fd p k :
  fds_ok p k -> p_script p = [] ->
  match p_fds p !! fd with
  | Some _ => exists fl, answer (GetFl fd) (p, k) = (fl, (p, k)) /\ fl <> -1
  | None => answer (GetFl fd) (p, k) = (-1, (set_p_errno EBADF p, k))
  end.
Proof.
  intros Hok Hs. cbn [answer]. unfold next_verdict, do_getfl, descr. rewrite Hs. destruct (p_fds p !! fd) as [d|] eqn:E; [|done].
  destruct (Hok fd d E) as (_ & o & Eo & Hfl). cbn. rewrite Eo. exists (o_flags o). split; [done|lia].
Qed.

Lemma dupfd_spec fd min p k :
  p_script p = [] -> p_fds p !! min = None ->
  answer (DupFd fd min) (p, k) =
    match p_fds p !! fd with
    | Some d => if (min <? 0) || (OPEN_MAX <=? min) then (-1, (set_p_errno EINVAL p, k))
                else (min, (set_p_fds (<[min := d]> (p_fds p)) p, k))
    | None => (-1, (set_p_errno EBADF p, k))
    end.
Proof.
  intros Hs Hm. cbn [answer]. unfold next_verdict, do_dupfd. rewrite Hs. destruct (p_fds p !! fd) as [d|]; [|done].
  destruct (Z.ltb_spec min 0); [done|]. destruct (Z.leb_spec OPEN_MAX min); [done|]. cbn [orb].
  rewrite lowest_unused by done. by rewrite (proj2 (Z.leb_gt OPEN_MAX min)) by lia.
Qed.

(** ** Properties *)

(** When the system calls work, [my_dup2] does what dup2 does on every pair of
    descriptors of which the first is open and the second a possible one: the
    second refers to the same description, whatever it referred to before.  With
    invalid arguments it returns -1, but what the second descriptor referred to
    is closed when the first one is not open. *)
Theorem my_dup2_is_dup2 oldfd newfd p k :
  fds_ok p k -> p_script p = [] ->
  exists r p', run (my_dup2 oldfd newfd) (p, k) = (Ret r, (p', k)) /\
    match posix_dup2 oldfd newfd (p_fds p) with
    | Some fds => r = newfd /\ p_fds p' = fds
    | None => r = -1 /\ (p_fds p !! oldfd = None /\ p_errno p' = EBADF /\ p_fds p' = (if oldfd =? newfd then p_fds p else delete newfd (p_fds p)) \/
                         is_Some (p_fds p !! oldfd) /\ p_errno p' = EINVAL /\ p_fds p' = p_fds p)
    end.
Proof.
  intros Hok Hs. unfold my_dup2, posix_dup2. destruct (Z.eqb_spec oldfd newfd) as [->|Hne].
  - pose proof (getfl_spec newfd p k Hok Hs) as Hg. destruct (p_fds p !! newfd) as [d|] eqn:E.
    + destruct Hg as (fl & Eg & Hfl). rewrite (run_call _ _ _ _ _ Eg), (proj2 (Z.eqb_neq fl (-1))) by done.
      destruct (Hok newfd d E) as (Hr & _). cbn [mbind option_bind].
      rewrite (proj2 (Z.ltb_ge newfd 0)), (proj2 (Z.leb_gt OPEN_MAX newfd)) by lia. cbn [orb].
      eexists newfd, p. split; [done|]. split; [done|]. by rewrite insert_id.
    + rewrite (run_call _ _ _ _ _ Hg). eexists (-1), _. split; [reflexivity|]. by split; [|left].
  - pose proof (getfl_spec newfd p k Hok Hs) as Hg.
    assert (exists p1, run (let! r := sys (GetFl newfd) in
        (if negb (r =? -1) then sys (Print (lit "closing exising fd: " ++ print_d newfd ++ [10])) ;;!
           let! _r := sys (Close newfd) in Done tt else Done tt) ;;!
        let! newfd := sys (DupFd oldfd newfd) in Done newfd) (p, k) = run (let! newfd := sys (DupFd oldfd newfd) in Done newfd) (p1, k) /\
      p_script p1 = [] /\ p_fds p1 = delete newfd (p_fds p)) as (p1 & -> & Hs1 & Hf1).
    { destruct (p_fds p !! newfd) as [d|] eqn:E.
      - destruct Hg as (fl & Eg & Hfl). rewrite (run_call _ _ _ _ _ Eg), (proj2 (Z.eqb_neq fl (-1))) by done.
        eexists. cbn [negb sys pbind run answer]. unfold next_verdict. cbn [p_script set_p_out]. rewrite Hs.
        unfold do_close. cbn [p_fds set_p_out]. rewrite E. cbn [run pbind]. by split.
      - rewrite (run_call _ _ _ _ _ Hg). eexists. split; [reflexivity|]. split; [done|]. cbn. by rewrite delete_id. }
    assert (p_fds p1 !! newfd = None) as Hn1 by (by rewrite Hf1, lookup_delete_eq).
    pose proof (dupfd_spec oldfd newfd p1 k Hs1 Hn1) as Ed. rewrite (run_call _ _ _ _ _ (surjective_pairing _)).
    rewrite Ed. rewrite Hf1, lookup_delete_ne by done. destruct (p_fds p !! oldfd) as [d|] eqn:Eo; cbn [mbind option_bind fst snd].
    + destruct ((newfd <? 0) || (OPEN_MAX <=? newfd)) eqn:Er; cbn [fst snd].
      * eexists (-1), _. split; [reflexivity|]. split; [done|]. right. split; [by eexists|]. split; [done|]. cbn.
        rewrite Hf1. apply delete_id. destruct (p_fds p !! newfd) as [d'|] eqn:E'; [|done].
        destruct (Hok newfd d' E') as (Hr & _). rewrite (proj2 (Z.ltb_ge newfd 0)), (proj2 (Z.leb_gt OPEN_MAX newfd)) in Er by lia. done.
      * eexists newfd, _. split; [reflexivity|]. split; [done|]. cbn. by rewrite insert_delete_eq.
    + eexists (-1), _. split; [reflexivity|]. split; [done|]. by left.
Qed.

(** A process with two descriptors of two files. *)
Definition dup_proc : proc := mk_proc {[0 := 0; 3 := 1]} 0 [] [] [] [].
Definition dup_kern : kern :=
  mk_kern {[lit "tfile" := 0]} {[0 := Reg 420 (lit "old"); 1 := Reg 420 []]} {[0 := mk_ofd 0 0 O_RDONLY; 1 := mk_ofd 1 0 O_RDWR]}.

Lemma dup_fds_ok : fds_ok dup_proc dup_kern.
Proof.
  intros fd d. unfold dup_proc. cbn [p_fds]. rewrite lookup_insert_Some, lookup_singleton_Some.
  intros [[<- <-]|[_ [<- <-]]]; (split; [by split|]); by eexists.
Qed.

Lemma my_dup2_is_dup2_witness :
  exists r p', run (my_dup2 3 0) (dup_proc, dup_kern) = (Ret r, (p', dup_kern)) /\
    match posix_dup2 3 0 (p_fds dup_proc) with
    | Some fds => r = 0 /\ p_fds p' = fds
    | None => r = -1 /\ (p_fds dup_proc !! 3 = None /\ p_errno p' = EBADF /\
                           p_fds p' = (if 3 =? 0 then p_fds dup_proc else delete 0 (p_fds dup_proc)) \/
                         is_Some (p_fds dup_proc !! 3) /\ p_errno p' = EINVAL /\ p_fds p' = p_fds dup_proc)
    end.
Proof. apply my_dup2_is_dup2; [apply dup_fds_ok|reflexivity]. Defined.

(** A first descriptor that is not open: the second one is lost. *)
Example my_dup2_closes :
  fst (run (my_dup2 7 0) (dup_proc, dup_kern)) = Ret (-1) /\
  p_fds (fst (snd (run (my_dup2 7 0) (dup_proc, dup_kern)))) !! 0 = None.
Proof. vm_compute. by split. Qed.

(** [my_dup] gives the lowest unused descriptor above its argument, dup the lowest one. *)
Example my_dup_not_lowest :
  fst (run (my_dup 3) (dup_proc, dup_kern)) = Ret 4 /\ fst (run (sys (DupFd 3 0)) (dup_proc, dup_kern)) = Ret 1.
Proof. vm_compute. by split. Qed.

Example dup_main_appends :
  let '(o, (p, k)) := run (dup_main (H:=demo_libc)) (dup_proc, dup_kern) in
  o = Ret 0 /\ p_out p = lit "oldfd: 1, newfd: 10" ++ [10] /\ file_at k (lit "tfile") = Some (lit "oldthe text").
Proof. vm_compute. by repeat split. Qed.

Example verify_dup_output :
  let '(o, (p, k)) := run (verify_dup (H:=demo_libc)) (dup_proc, dup_kern) in
  o = Ret 0 /\ p_out p = lit "offest: 10" ++ [10] ++ lit "access mode: 2" ++ [10] ++ lit "flags: 2" ++ [10] /\
  file_at k (lit "tfile") = Some (lit "test input").
Proof. vm_compute. by repeat split. Qed.
