(* ===== verification/FileSeek.v ===== *)
(** * tlpi/fileio: offsets

    seek_io.c against an abstract file with an offset, large_file.c and
    large_file2.c, t_readv.c, and bad_exclusive_open.c with the race it warns of. *)

From stdpp Require Import prelude list_numbers strings gmap.
From Stdlib Require Import ZArith Lia.
From S2P Require Import Prelude CLib Vfs TlpiLib FileRun.
Open Scope Z_scope.

Section Programs.
Context `{libc}.

(** *** seek_io.c *)

Definition isprint (b : Z) : bool := (32 <=? b) && (b <=? 126).

(** [%02x] *)
Definition print_02x (b : Z) : list Z :=
  let digit d := if d <? 10 then 48 + d else 87 + d in [digit (b / 16); digit (b mod 16)].

Fixpoint seek_show (text : bool) (buf : list Z) : prog unit :=
  match buf with
  | [] => Done tt
  | b :: buf =>
      sys (Print (if text then [if isprint b then b else 63] else print_02x b ++ lit " ")) ;;!
      seek_show text buf
  end.

Definition seek_command (fd : Z) (a : list Z) : prog unit :=
  let operand := tail a in
  match head a with
  | Some c =>
      if (c =? 114) || (c =? 82) then
        let! len := getLong operand GN_ANY_BASE (Some a) in
        let len := wrapu 64 len in
        let! buf := sys (Malloc len) in
        when (negb buf) (errExit (lit "malloc")) ;;!
        let! ' (numRead, buf) := sys (Read fd len) in
        when (numRead =? -1) (errExit (lit "read")) ;;!
        if numRead =? 0 then sys (Print (a ++ lit ": end-of-file" ++ [10]))
        else sys (Print (a ++ lit ": ")) ;;! seek_show (c =? 114) buf ;;! sys (Print [10])
      else if c =? 119 then
        let! numWritten := sys (Write fd operand) in
        when (numWritten =? -1) (errExit (lit "write")) ;;!
        sys (Print (a ++ lit ": wrote " ++ print_d numWritten ++ lit " bytes" ++ [10]))
      else if c =? 115 then
        let! offset := getLong operand GN_ANY_BASE (Some a) in
        let! r := sys (Lseek fd offset SEEK_SET) in
        when (r =? -1) (errExit (lit "lseek")) ;;!
        sys (Print (a ++ lit ": seek succeeded" ++ [10]))
      else cmdLineErr (lit "Argument must start with [rRws]: " ++ a ++ [10])
  | None => cmdLineErr (lit "Argument must start with [rRws]: " ++ a ++ [10])
  end.

Fixpoint seek_loop (fd : Z) (args : list (list Z)) : prog unit :=
  match args with
  | [] => Done tt
  | a :: args => seek_command fd a ;;! seek_loop fd args
  end.

Definition seek_io (argv : list (list Z)) : prog unit :=
  let usage := let! a0 := arg argv 0 in usageErr (a0 ++ lit " file {r<length>|R<length>|w<string>|s<offset>}..." ++ [10]) in
  (if argc argv <? 3 then usage else let! a1 := arg argv 1 in when (is_help a1) usage) ;;!
  let! a1 := arg argv 1 in
  let! fd := sys (Open a1 (Z.lor O_RDWR O_CREAT) rw_rw_rw) in
  when (fd =? -1) (errExit (lit "open")) ;;!
  seek_loop fd (drop 2 argv) ;;!
  let! r := sys (Close fd) in
  when (r =? -1) (errExit (lit "close")) ;;!
  Halt EXIT_SUCCESS.

(** *** large_file.c and large_file2.c *)

Definition atoll (s : list Z) : Z := fst (fst (strtol s 10)).

(** [suffix] is 64 for the functions of the old interface. *)
Definition large_program (suffix : list Z) (argv : list (list Z)) : prog unit :=
  let usage := let! a0 := arg argv 0 in usageErr (a0 ++ lit " pathname offset" ++ [10]) in
  (if negb (argc argv =? 3) then usage else let! a1 := arg argv 1 in when (is_help a1) usage) ;;!
  let! a1 := arg argv 1 in
  let! a2 := arg argv 2 in
  let! fd := sys (Open a1 (Z.lor O_RDWR O_CREAT) (Z.lor S_IRUSR S_IWUSR)) in
  when (fd =? -1) (errExit (lit "open" ++ suffix)) ;;!
  let off := atoll a2 in
  let! r := sys (Lseek fd off SEEK_SET) in
  when (r =? -1) (errExit (lit "lseek" ++ suffix)) ;;!
  let! r := sys (Write fd (lit "test")) in
  when (r =? -1) (errExit (lit "write")) ;;!
  Halt EXIT_SUCCESS.

Definition large_file : list (list Z) -> prog unit := large_program (lit "64").
Definition large_file2 : list (list Z) -> prog unit := large_program [].

(** *** t_readv.c *)

(** [sizeof(struct stat)] on x86-64 *)
Definition STAT_SIZE : Z := 144.
Definition INT_SIZE : Z := 4.
Definition STR_SIZE : Z := 100.

Definition t_readv (argv : list (list Z)) : prog unit :=
  let usage := let! a0 := arg argv 0 in usageErr (a0 ++ lit " file" ++ [10]) in
  (if negb (argc argv =? 2) then usage else let! a1 := arg argv 1 in when (is_help a1) usage) ;;!
  let! a1 := arg argv 1 in
  let! fd := sys (Open a1 O_RDONLY 0) in
  when (fd =? -1) (errExit (lit "open")) ;;!
  let totRequired := STAT_SIZE + INT_SIZE + STR_SIZE in
  let! ' (numRead, _bufs) := sys (Read fd totRequired) in
  when (numRead =? -1) (errExit (lit "readv")) ;;!
  when (numRead <? totRequired) (sys (Print (lit "Read fewer bytes than requested" ++ [10]))) ;;!
  sys (Print (lit "total bytes requested: " ++ print_d totRequired ++ lit "; bytes read: " ++ print_d numRead ++ [10])) ;;!
  Halt EXIT_SUCCESS.

(** *** bad_exclusive_open.c *)

Definition bad_exclusive_open (pid : Z) (argv : list (list Z)) : prog unit :=
  let usage := let! a0 := arg argv 0 in usageErr (a0 ++ lit " file" ++ [10]) in
  (if argc argv <? 2 then usage else let! a1 := arg argv 1 in when (is_help a1) usage) ;;!
  let! a1 := arg argv 1 in
  let say t := sys (Print (lit "[PID " ++ print_d pid ++ lit "] " ++ t ++ [10])) in
  let! fd := sys (Open a1 O_WRONLY 0) in
  (if negb (fd =? -1) then
     say (lit "File " ++ [34] ++ a1 ++ [34] ++ lit " already exists") ;;!
     let! _r := sys (Close fd) in Done tt
   else
     let! errno := sys Errno in
     if negb (errno =? ENOENT) then errExit (lit "open")
     else
       say (lit "File " ++ [34] ++ a1 ++ [34] ++ lit " doesn't exist yet") ;;!
       when (2 <? argc argv) (say (lit "Done sleeping")) ;;!
       let! fd := sys (Open a1 (Z.lor O_WRONLY O_CREAT) (Z.lor S_IRUSR S_IWUSR)) in
       when (fd =? -1) (errExit (lit "open")) ;;!
       say (lit "Created file " ++ [34] ++ a1 ++ [34] ++ lit " exclusively")) ;;!
  Halt EXIT_SUCCESS.

End Programs.

(** ** An abstract file with an offset *)

Inductive seek_op := OpRead (text : bool) (n : Z) | OpWrite (s : list Z) | OpSeek (off : Z).

Definition file_state : Type := list Z * Z.

(** What an argument asks for. *)
Definition asks (a : list Z) (op : seek_op) : Prop :=
  match op with
  | OpRead text n => head a = Some (if text then 114 else 82) /\ accepts GN_ANY_BASE (tail a) n
  | OpWrite s => head a = Some 119 /\ tail a = s
  | OpSeek off => head a = Some 115 /\ accepts GN_ANY_BASE (tail a) off
  end.

Definition op_possible (op : seek_op) (f : file_state) : Prop :=
  match op with
  | OpRead _ n => 0 <= n <= PTRDIFF_MAX
  | OpWrite s => snd f + Z.of_nat (length s) <= OFF_MAX
  | OpSeek off => 0 <= off <= OFF_MAX
  end.

Definition op_bytes (n : Z) (f : file_state) : list Z := take (Z.to_nat n) (drop (Z.to_nat (snd f)) (fst f)).

Definition op_file (op : seek_op) (f : file_state) : file_state :=
  match op with
  | OpRead _ n => (fst f, snd f + Z.of_nat (length (op_bytes n f)))
  | OpWrite s => (pwrite (fst f) (snd f) s, snd f + Z.of_nat (length s))
  | OpSeek off => (fst f, off)
  end.

Definition shown (text : bool) (bs : list Z) : list Z :=
  concat (map (fun b => if text then [if isprint b then b else 63] else print_02x b ++ lit " ") bs).

Definition op_output (a : list Z) (op : seek_op) (f : file_state) : list Z :=
  a ++ lit ": " ++ match op with
  | OpRead text n => match op_bytes n f with [] => lit "end-of-file" | bs => shown text bs end
  | OpWrite s => lit "wrote " ++ print_d (Z.of_nat (length s)) ++ lit " bytes"
  | OpSeek _ => lit "seek succeeded"
  end ++ [10].

(** Arguments, what they ask for, the output and the file at the end. *)
Inductive file_ops : list (list Z) -> file_state -> list Z -> file_state -> Prop :=
| ops_nil f : file_ops [] f [] f
| ops_cons a op args f out f' :
    asks a op -> op_possible op f -> file_ops args (op_file op f) out f' ->
    file_ops (a :: args) f (op_output a op f ++ out) f'.

Section SeekIo.
Context `{libc}.
Variables (fd d i m : Z).

Lemma opened_off off off' data data' p p' k :
  opened fd d i off O_RDWR m data p k -> p_fds p' = p_fds p -> 0 <= off' ->
  opened fd d i off' O_RDWR m data' p' (set_off d off' (mk_ofd i off O_RDWR) (set_inode i (Reg m data') k)).
Proof. intros [] E Hoff. constructor; cbn; rewrite ?lookup_insert_eq; [by rewrite E|done..]. Qed.

Lemma calm_read off data p k n :
  opened fd d i off O_RDWR m data p k -> p_script p = [] ->
  answer (Read fd n) (p, k) = (let bs := op_bytes n (data, off) in
    (Z.of_nat (length bs), bs, (p, set_off d (off + Z.of_nat (length bs)) (mk_ofd i off O_RDWR) k))).
Proof.
  intros Ho Hs. cbn [answer]. unfold next_verdict, do_read. rewrite Hs, (opened_descr _ _ _ _ _ _ _ _ _ Ho).
  change (readable (mk_ofd i off O_RDWR)) with true. cbn [o_ino o_off]. by rewrite (op_inode _ _ _ _ _ _ _ _ _ Ho).
Qed.

Lemma calm_write off data p k s :
  opened fd d i off O_RDWR m data p k -> p_script p = [] -> off + Z.of_nat (length s) <= OFF_MAX ->
  answer (Write fd s) (p, k) =
    (Z.of_nat (length s), (p, set_off d (off + Z.of_nat (length s)) (mk_ofd i off O_RDWR) (set_inode i (Reg m (pwrite data off s)) k))).
Proof.
  intros Ho Hs Hm. cbn [answer]. unfold next_verdict, do_write. rewrite Hs, (opened_descr _ _ _ _ _ _ _ _ _ Ho).
  change (writable (mk_ofd i off O_RDWR)) with true. cbn [o_ino o_off]. rewrite (op_inode _ _ _ _ _ _ _ _ _ Ho).
  change (flag (o_flags (mk_ofd i off O_RDWR)) O_APPEND) with false. cbv iota. cbn [limit].
  by rewrite (proj2 (Z.ltb_ge OFF_MAX _)) by lia.
Qed.

Lemma calm_seek off data p k off' :
  opened fd d i off O_RDWR m data p k -> p_script p = [] -> 0 <= off' <= OFF_MAX ->
  answer (Lseek fd off' SEEK_SET) (p, k) = (off', (p, set_off d off' (mk_ofd i off O_RDWR) k)).
Proof.
  intros Ho Hs Hm. cbn [answer]. unfold next_verdict, do_lseek. rewrite Hs, (opened_descr _ _ _ _ _ _ _ _ _ Ho).
  cbn [o_ino]. rewrite (op_inode _ _ _ _ _ _ _ _ _ Ho). cbn [Z.eqb SEEK_SET].
  by rewrite (proj2 (Z.ltb_ge _ 0)), (proj2 (Z.ltb_ge OFF_MAX _)) by lia.
Qed.

Lemma seek_show_run text bs p k :
  run (seek_show text bs) (p, k) = (Ret tt, (set_p_out (p_out p ++ shown text bs) p, k)).
Proof.
  revert p. induction bs as [|b bs IH]; intros p; cbn [seek_show].
  - unfold shown. cbn. rewrite app_nil_r. by destruct p.
  - cbn [sys pbind run answer]. rewrite IH. unfold shown. cbn [map concat p_out set_p_out]. by rewrite <- app_assoc.
Qed.

(** The state after an operation; [errno] may have been cleared. *)
Definition ready (p : proc) (out : list Z) (p' : proc) : Prop :=
  p_fds p' = p_fds p /\ p_script p' = [] /\ p_out p' = p_out p ++ out.

Lemma seek_command_run a op f p k :
  opened fd d i (snd f) O_RDWR m (fst f) p k -> p_script p = [] -> asks a op -> op_possible op f ->
  exists p' k', run (seek_command fd a) (p, k) = (Ret tt, (p', k')) /\ ready p (op_output a op f) p' /\ kept i k k' /\
    opened fd d i (snd (op_file op f)) O_RDWR m (fst (op_file op f)) p' k'.
Proof.
  destruct f as [data off]. intros Ho Hs Ha Hp. cbn [fst snd] in Ho. pose proof (op_off _ _ _ _ _ _ _ _ _ Ho) as Hoff.
  unfold seek_command, op_output. destruct op as [text n|s|o]; cbn [asks op_possible op_file fst snd] in *.
  - destruct Ha as [Eh Hn]. rewrite Eh. replace (((if text then 114 else 82) =? 114) || ((if text then 114 else 82) =? 82)) with true by by destruct text.
    unfold getLong. rewrite (run_ret _ _ _ _ _ (getNum_accepts _ _ _ _ _ p k Hn)).
    rewrite wrapu_id by (unfold PTRDIFF_MAX in Hp; lia).
    set (p1 := set_p_errno 0 p). assert (opened fd d i off O_RDWR m data p1 k) as Ho1 by (by eapply opened_proc).
    assert (answer (Malloc n) (p1, k) = (true, (p1, k))) as Em.
    { cbn [answer]. unfold next_verdict. cbn [p_script p1 set_p_errno]. rewrite Hs. by rewrite (proj2 (Z.ltb_ge PTRDIFF_MAX n)) by lia. }
    rewrite (run_call _ _ _ _ _ Em). cbn [negb when pbind].
    rewrite (run_call _ _ _ _ _ (calm_read off data p1 k n Ho1 Hs)). set (bs := op_bytes n (data, off)).
    assert (forall p', p_fds p' = p_fds p -> opened fd d i (off + Z.of_nat (length bs)) O_RDWR m data p'
      (set_off d (off + Z.of_nat (length bs)) (mk_ofd i off O_RDWR) k)) as Ho2.
    { intros p' E. destruct Ho. constructor; cbn; rewrite ?lookup_insert_eq; [by rewrite E|done|done|lia]. }
    rewrite (proj2 (Z.eqb_neq _ (-1))) by lia. cbn [when pbind]. destruct bs as [|b bs'].
    + eexists _, _. split; [reflexivity|]. split; [split; [done|]; split; [done|]; cbn [p_out set_p_out set_p_errno]; rewrite <- ?app_assoc; reflexivity|]. split; [apply kept_off|by apply Ho2].
    + rewrite (proj2 (Z.eqb_neq _ 0)) by (cbn [length]; lia). cbn [sys pbind run answer].
      rewrite (run_ret _ _ _ _ _ (seek_show_run _ (b :: bs') _ _)). cbn [sys pbind run answer].
      eexists _, _. split; [reflexivity|]. split; [|split; [apply kept_off|by apply Ho2]].
      split; [done|]. split; [done|]. cbn [p_out set_p_out p1 set_p_errno].
      replace ((if text then 114 else 82) =? 114) with text by by destruct text. by rewrite <- !app_assoc.
  - destruct Ha as [Eh <-]. rewrite Eh. cbn [Z.eqb orb Pos.eqb].
    rewrite (run_call _ _ _ _ _ (calm_write off data p k (tail a) Ho Hs Hp)).
    rewrite (proj2 (Z.eqb_neq _ (-1))) by lia. cbn [when pbind sys run answer].
    eexists _, _. split; [reflexivity|]. split; [split; [done|]; split; [done|]; cbn [p_out set_p_out set_p_errno]; rewrite <- ?app_assoc; reflexivity|].
    split; [eapply kept_trans; [apply kept_inode|apply kept_off]|]. apply (opened_off _ _ data _ p); [done|done|lia].
  - destruct Ha as [Eh Hn]. rewrite Eh. cbn [Z.eqb orb Pos.eqb]. unfold getLong.
    rewrite (run_ret _ _ _ _ _ (getNum_accepts _ _ _ _ _ p k Hn)). set (p1 := set_p_errno 0 p).
    assert (opened fd d i off O_RDWR m data p1 k) as Ho1 by (by eapply opened_proc).
    rewrite (run_call _ _ _ _ _ (calm_seek off data p1 k o Ho1 Hs Hp)).
    rewrite (proj2 (Z.eqb_neq _ (-1))) by lia. cbn [when pbind sys run answer].
    eexists _, _. split; [reflexivity|]. split; [split; [done|]; split; [done|]; cbn [p_out set_p_out set_p_errno]; rewrite <- ?app_assoc; reflexivity|].
    split; [apply kept_off|]. destruct Ho. constructor; cbn; rewrite ?lookup_insert_eq; [done|done|done|lia].
Qed.

Lemma seek_loop_run args f out f' p k :
  file_ops args f out f' -> opened fd d i (snd f) O_RDWR m (fst f) p k -> p_script p = [] ->
  exists p' k', run (seek_loop fd args) (p, k) = (Ret tt, (p', k')) /\ ready p out p' /\ kept i k k' /\
    opened fd d i (snd f') O_RDWR m (fst f') p' k'.
Proof.
  intros Hops. revert p k. induction Hops as [f|a op args f out f' Ha Hp _ IH]; intros p k Ho Hs; cbn [seek_loop].
  - exists p, k. split; [done|]. split; [|done]. split; [done|]. split; [done|]. by rewrite app_nil_r.
  - destruct (seek_command_run a op f p k Ho Hs Ha Hp) as (p1 & k1 & E1 & (F1 & S1 & O1) & K1 & Ho1).
    rewrite (run_ret _ _ _ _ _ E1). destruct (IH p1 k1 Ho1 S1) as (p2 & k2 & E2 & (F2 & S2 & O2) & K2 & Ho2).
    exists p2, k2. split; [done|]. split; [|split; [by eapply kept_trans|done]].
    split; [congruence|]. split; [done|]. by rewrite O2, O1, app_assoc.
Qed.

End SeekIo.

(** ** Properties *)

(** C37: when the system calls work, [seek_io] does to the file what its arguments
    ask for, in order, starting at offset 0 of a file that is created if need be:
    its output is what reads, writes and seeks on an abstract file with an offset
    give, and the file ends up with the contents of that file. *)
Theorem seek_io_refines `{libc} a0 file args out f' p k :
  kern_ok k -> regular_or_absent k file -> is_help file = false -> calm 1 p -> args <> [] ->
  file_ops args (content k file, 0) out f' ->
  exists p' k', run (seek_io (a0 :: file :: args)) (p, k) = (Exit EXIT_SUCCESS, (p', k')) /\
    p_out p' = p_out p ++ out /\ file_at k' file = Some (fst f') /\ only_changed file k k'.
Proof.
  intros Hk Hr Hh [Hs Hsize] Hargs Hops. unfold seek_io.
  assert ((argc (a0 :: file :: args) <? 3) = false) as ->.
  { apply Z.ltb_ge. unfold argc. destruct args; [done|]. cbn [length]. lia. }
  change (arg (a0 :: file :: args) 1) with (Done file : prog (list Z)). cbn [pbind]. rewrite Hh. cbn [when pbind].
  change (drop 2 (a0 :: file :: args)) with args.
  destruct (open_create file (Z.lor O_RDWR O_CREAT) rw_rw_rw k Hk Hr eq_refl eq_refl) as (i & m & k1 & Eo & Hch & Hofd & Hino).
  change (truncates (Z.lor O_RDWR O_CREAT)) with false in Hino. cbv iota in Hino.
  destruct (run_open file (Z.lor O_RDWR O_CREAT) rw_rw_rw p k i k1 (errExit (lit "open")) (fun fd => seek_loop fd args ;;!
      let! r := sys (Close fd) in when (r =? -1) (errExit (lit "close")) ;;! Halt EXIT_SUCCESS : prog unit) Eo (errExit_dies _))
    as (p1 & [(e & E & He & Hs')|(fd & d & Hfd & Hnf & Hnd & Hp1 & Hc1 & E)]); [destruct Hs'; [done|lia]|].
  cbv zeta in E. rewrite E. clear E. specialize (Hc1 Hs). set (k2 := set_k_ofds _ k1).
  assert (opened fd d i 0 O_RDWR m (content k file) p1 k2) as Ho by (by apply (opened_new fd d i _ _ _ p)).
  assert (p_script p1 = []) as Hs1 by (by subst p1).
  destruct (seek_loop_run fd d i m args (content k file, 0) out f' p1 k2 Hops Ho Hs1) as (p2 & k3 & E2 & (F2 & S2 & O2) & K2 & Ho2).
  rewrite (run_ret _ _ _ _ _ E2).
  destruct (close_spec fd d p2 k3 (op_fd _ _ _ _ _ _ _ _ _ Ho2)) as (r & p3 & E3 & Hf3 & Hout3 & _ & Hc3).
  rewrite (run_call _ _ _ _ _ E3). specialize (Hc3 S2).
  assert (r = 0) as ->.
  { cbn [answer] in E3. unfold next_verdict, do_close in E3. rewrite S2, (op_fd _ _ _ _ _ _ _ _ _ Ho2) in E3. by injection E3. }
  eexists p3, k3. split; [reflexivity|]. split; [rewrite Hout3, O2; by subst p1|].
  assert (kept i k1 k3) as K3 by (by apply (kept_trans i k1 k2 k3)).
  split; [|by apply (only_changed_kept file i k k1)].
  apply (file_at_written file i m (fst f') k k1 k3 Hch K3). apply (op_inode _ _ _ _ _ _ _ _ _ Ho2).
Qed.

(** Writing, going back and reading, of a file that does not exist yet. *)
Definition seek_args : list (list Z) := [lit "wabc"; lit "s1"; lit "r4"; lit "s5"; lit "wz"; lit "s0x2"; lit "R9"].
Definition seek_out : list Z :=
  lit "wabc: wrote 3 bytes" ++ [10] ++ lit "s1: seek succeeded" ++ [10] ++ lit "r4: bc" ++ [10] ++ lit "s5: seek succeeded" ++ [10] ++
  lit "wz: wrote 1 bytes" ++ [10] ++ lit "s0x2: seek succeeded" ++ [10] ++ lit "R9: 63 00 00 7a " ++ [10].

Lemma seek_io_refines_witness :
  let _ := demo_libc in
  exists p' k', run (seek_io (lit "seek_io" :: lit "f" :: seek_args)) (no_proc, no_kern) = (Exit EXIT_SUCCESS, (p', k')) /\
    p_out p' = p_out no_proc ++ seek_out /\ file_at k' (lit "f") = Some (fst (lit "abc" ++ [0; 0] ++ lit "z", 6)) /\ only_changed (lit "f") no_kern k'.
Proof.
  intros L. apply seek_io_refines; [by intros n i E|by intros i E|done|done|done|].
  eassert (file_ops seek_args (content no_kern (lit "f"), 0) _ _) as Hops.
  { eapply (ops_cons _ (OpWrite (lit "abc"))); [by split|by vm_compute|].
    eapply (ops_cons _ (OpSeek 1)); [by repeat split|by vm_compute|].
    eapply (ops_cons _ (OpRead true 4)); [by repeat split|by vm_compute|].
    eapply (ops_cons _ (OpSeek 5)); [by repeat split|by vm_compute|].
    eapply (ops_cons _ (OpWrite (lit "z"))); [by split|by vm_compute|].
    eapply (ops_cons _ (OpSeek 2)); [by repeat split|by vm_compute|].
    eapply (ops_cons _ (OpRead false 9)); [by repeat split|by vm_compute|].
    apply ops_nil. }
  vm_compute in Hops. vm_compute. exact Hops.
Defined.

(** A negative length is a huge one for malloc; a length of zero looks like the end. *)
Example seek_negative : fst (run (seek_io (H:=demo_libc) [lit "seek_io"; lit "f"; lit "r-1"]) (no_proc, no_kern)) = Exit 1.
Proof. vm_compute. reflexivity. Qed.

(** Two processes that both say they created the file. *)
Definition says (s : option (list (prog unit * proc) * kern)) : option (list (list Z)) :=
  s ← s; Some (map (fun q => p_out (snd q)) (fst s)).

Definition claims_creation (pid : Z) : list Z :=
  lit "[PID " ++ print_d pid ++ lit "] Created file " ++ [34] ++ lit "f" ++ [34] ++ lit " exclusively" ++ [10].

Example both_exclusive :
  let race := [0; 0; 0; 0; 1; 1; 1; 1; 1; 0; 0]%nat in
  says (schedule race
    ([(bad_exclusive_open (H:=demo_libc) 1 [lit "bad"; lit "f"; lit "x"], no_proc); (bad_exclusive_open (H:=demo_libc) 2 [lit "bad"; lit "f"], no_proc)], no_kern)) =
  Some [lit "[PID 1] File " ++ [34] ++ lit "f" ++ [34] ++ lit " doesn't exist yet" ++ [10] ++ lit "[PID 1] Done sleeping" ++ [10] ++ claims_creation 1;
        lit "[PID 2] File " ++ [34] ++ lit "f" ++ [34] ++ lit " doesn't exist yet" ++ [10] ++ claims_creation 2].
Proof. vm_compute. reflexivity. Qed.

(** The four bytes end up at the offset, behind zeros when the file was shorter. *)
Example large_file_writes :
  file_at (snd (snd (run (large_file2 (H:=demo_libc) [lit "large"; lit "f"; lit "3"]) (no_proc, no_kern)))) (lit "f") =
  Some ([0; 0; 0] ++ lit "test").
Proof. vm_compute. reflexivity. Qed.
