(* ===== verification/Users.v ===== *)
(** * tlpi/user_groups: users and groups

    ugid_functions.c and getpwnam.c, with the password and group files as lists of
    their entries. *)

From stdpp Require Import prelude list_numbers strings.
From Stdlib Require Import ZArith Lia.
From S2P Require Import Prelude CLib Vfs TlpiLib.
Open Scope Z_scope.

(** [struct passwd] and the parts of [struct group] that are used. *)
Record passwd := mk_passwd {
  pw_name : list Z; pw_passwd : list Z; pw_uid : Z; pw_gid : Z;
  pw_gecos : list Z; pw_dir : list Z; pw_shell : list Z
}.

Record group := mk_group { gr_name : list Z; gr_gid : Z }.

(** The two files. *)
Class userdb := { users : list passwd; groups : list group }.

(** ** ugid_functions.c *)

Section Ids.
Context `{userdb}.

Definition getpwuid (uid : Z) : option passwd := find (fun e => pw_uid e =? uid) users.
Definition getpwnam (name : list Z) : option passwd := find (fun e => bool_decide (pw_name e = name)) users.
Definition getgrgid (gid : Z) : option group := find (fun e => gr_gid e =? gid) groups.
Definition getgrnam (name : list Z) : option group := find (fun e => bool_decide (gr_name e = name)) groups.

(** [(uid_t) -1] *)
Definition NO_ID : Z := wrapu 32 (-1).

Definition userNameFromId (uid : Z) : option (list Z) :=
  match getpwuid uid with None => None | Some pwd => Some (pw_name pwd) end.

(** [name] is [None] for NULL. *)
Definition userIdFromName (name : option (list Z)) : Z :=
  match name with
  | None | Some [] => NO_ID
  | Some name =>
      let '(v, endptr, _) := strtol name 10 in
      if bool_decide (endptr = []) then wrapu 32 v else
      match getpwnam name with None => NO_ID | Some pwd => pw_uid pwd end
  end.

Definition groupNameFromId (gid : Z) : option (list Z) :=
  match getgrgid gid with None => None | Some grp => Some (gr_name grp) end.

Definition groupIdFromName (name : option (list Z)) : Z :=
  match name with
  | None | Some [] => NO_ID
  | Some name =>
      let '(v, endptr, _) := strtol name 10 in
      if bool_decide (endptr = []) then wrapu 32 v else
      match getgrnam name with None => NO_ID | Some grp => gr_gid grp end
  end.

(** ** getpwnam.c *)

(** Where getpwent is in the file: [None] when it is closed. *)
Definition reading : Type := option (list passwd).

Definition getpwent : M reading (option passwd) :=
  let* s := get in
  match default users s with
  | [] => put (Some []) ;;; ret None
  | e :: rest => put (Some rest) ;;; ret (Some e)
  end.

Definition setpwent : M reading unit := put (Some users).
Definition endpwent : M reading unit := put None.

Fixpoint getpwnam2 (fuel : nat) (name : list Z) : M reading (option passwd) :=
  match fuel with
  | O => blocked
  | S fuel =>
      let* pwd := getpwent in
      match pwd with
      | Some pwd =>
          if bool_decide (pw_name pwd = name) then setpwent ;;; ret (Some pwd)
          else getpwnam2 fuel name
      | None => endpwent ;;; ret None
      end
  end.

(** What the program prints. *)
Definition show_passwd (pwd : passwd) : list Z :=
  pw_name pwd ++ lit ":" ++ pw_passwd pwd ++ lit ":" ++ print_d (wraps 32 (pw_uid pwd)) ++ lit ":" ++ print_d (wraps 32 (pw_gid pwd)) ++
  lit ":" ++ pw_gecos pwd ++ lit ":" ++ pw_dir pwd ++ lit ":" ++ pw_shell pwd ++ [10].

Definition main (fuel : nat) : M reading (list Z) :=
  let* pwd := getpwnam2 fuel (lit "bakhtik") in
  ret (match pwd with Some pwd => show_passwd pwd | None => [] end).

End Ids.

(** ** Names and numbers *)

(** A database as administrators keep it: names are not numbers and not used
    twice, and the numbers are not used twice and fit. *)
Definition textual (n : list Z) : Prop := n <> [] /\ snd (fst (strtol n 10)) <> [].

Record userdb_ok `{userdb} : Prop := {
  ok_names : NoDup (map pw_name users);
  ok_uids : NoDup (map pw_uid users);
  ok_text : Forall (fun e => textual (pw_name e)) users;
  ok_range : Forall (fun e => 0 <= pw_uid e < NO_ID) users
}.

Lemma find_nodup {A B} `{EqDecision B} (f : A -> B) (p : A -> bool) (l : list A) e :
  (forall x, p x = true <-> f x = f e) -> NoDup (map f l) -> e ∈ l -> find p l = Some e.
Proof.
  intros Hp. induction l as [|x l IH]; [by intros _ ?%elem_of_nil|]. cbn. intros [Hx Hnd]%NoDup_cons He.
  destruct (p x) eqn:E.
  - apply Hp in E. apply elem_of_cons in He as [->|He]; [done|]. exfalso. apply Hx. rewrite E. apply list_elem_of_In, in_map. by apply list_elem_of_In.
  - apply elem_of_cons in He as [->|He]; [|by apply IH]. exfalso. assert (p x = true) by (by apply Hp). congruence.
Qed.

Lemma numeric_name n : LONG_MIN <= n <= LONG_MAX -> strtol (print_d n) 10 = (n, [], false).
Proof. intros Hn. apply strtol_any; [done|by left]. Qed.

Lemma number_id `{userdb} n : LONG_MIN <= n <= LONG_MAX -> userIdFromName (Some (print_d n)) = wrapu 32 n.
Proof.
  intros Hn. unfold userIdFromName. destruct (print_d n) as [|b l] eqn:E; [by destruct (print_d_nonnil n)|].
  rewrite <- E, numeric_name by done. done.
Qed.

Lemma number_gid `{userdb} n : LONG_MIN <= n <= LONG_MAX -> groupIdFromName (Some (print_d n)) = wrapu 32 n.
Proof.
  intros Hn. unfold groupIdFromName. destruct (print_d n) as [|b l] eqn:E; [by destruct (print_d_nonnil n)|].
  rewrite <- E, numeric_name by done. done.
Qed.

(** A user's name leads to the number and the number to the name, and the number
    written in decimal stands for itself. *)
Theorem user_id_roundtrip `{userdb} e :
  userdb_ok -> e ∈ users ->
  userIdFromName (Some (pw_name e)) = pw_uid e /\ userNameFromId (pw_uid e) = Some (pw_name e) /\
  userIdFromName (Some (print_d (pw_uid e))) = pw_uid e.
Proof.
  intros [Hn Hu Ht Hr] He. rewrite Forall_forall in Ht, Hr. specialize (Ht e He) as [Hne Ht]. specialize (Hr e He) as Hr'. cbn in Hr'.
  assert (NO_ID = 2 ^ 32 - 1) as HN by done. repeat split.
  - unfold userIdFromName. destruct (pw_name e) as [|b l] eqn:E; [done|]. rewrite <- E in *.
    destruct (strtol (pw_name e) 10) as [[v r] range]. cbn in Ht. rewrite bool_decide_eq_false_2 by done.
    unfold getpwnam. rewrite (find_nodup pw_name _ users e); [done|intros x; apply bool_decide_eq_true|done|done].
  - unfold userNameFromId, getpwuid. rewrite (find_nodup pw_uid _ users e); [done|intros x; apply Z.eqb_eq|done|done].
  - rewrite number_id by (unfold LONG_MIN, LONG_MAX; lia). apply wrapu_id. lia.
Qed.

(** A number that does not fit stands for another user: the check of [strtol]'s
    range is missing, and 4294967296 is the superuser. *)
Theorem large_id_wraps `{userdb} n k :
  0 <= n < 2 ^ 32 -> 0 <= k -> n + k * 2 ^ 32 <= LONG_MAX -> userIdFromName (Some (print_d (n + k * 2 ^ 32))) = n.
Proof.
  intros Hn Hk Hl. rewrite number_id by (unfold LONG_MIN in *; lia). unfold wrapu. rewrite Z.mod_add by done. by apply Z.mod_small.
Qed.

(** ** Looking through the file *)

Lemma getpwnam2_rest `{userdb} fuel name rest :
  (length rest < fuel)%nat ->
  getpwnam2 fuel name (Some rest) =
    match find (fun e => bool_decide (pw_name e = name)) rest with
    | Some e => (Ret (Some e), Some users)
    | None => (Ret None, None)
    end.
Proof.
  revert rest. induction fuel as [|fuel IH]; intros rest Hf; [lia|]. destruct rest as [|e rest]; cbn in *; [done|].
  unfold bind, getpwent, get, put, ret. cbn. unfold bind. cbn. case_bool_decide; [done|]. apply IH. lia.
Qed.

(** Getpwnam2 finds what getpwnam finds, one time after the other; after other
    reads of the file it only looks at the rest. *)
Theorem getpwnam2_correct `{userdb} fuel name (s : reading) :
  (length users < fuel)%nat -> s = None \/ s = Some users ->
  exists s', getpwnam2 fuel name s = (Ret (getpwnam name), s') /\ (s' = None \/ s' = Some users).
Proof.
  intros Hf Hs. assert (getpwent (None : reading) = getpwent (Some users)) as E by (unfold getpwent, bind, get; cbn; by destruct users).
  assert (getpwnam2 fuel name s = getpwnam2 fuel name (Some users)) as ->.
  { destruct Hs as [-> | ->]; [|done]. destruct fuel; [lia|]. cbn. unfold bind. by rewrite E. }
  rewrite getpwnam2_rest by done. unfold getpwnam. destruct (find _ users); eauto.
Qed.

(** *** Examples *)

Definition demo_users : userdb := {|
  users := [mk_passwd (lit "root") (lit "x") 0 0 [] (lit "/root") (lit "/bin/sh"); mk_passwd (lit "ann") (lit "x") 1000 1000 [] (lit "/home/ann") (lit "/bin/sh")];
  groups := [mk_group (lit "root") 0; mk_group (lit "users") 100]
|}.

Lemma demo_users_ok : @userdb_ok demo_users.
Proof.
  split; [by apply (bool_decide_eq_true_1 (NoDup _)); vm_compute..| |].
  - repeat constructor; by vm_compute.
  - repeat constructor; cbn; unfold NO_ID; vm_compute; done.
Qed.

Lemma user_id_roundtrip_witness :
  mk_passwd (lit "ann") (lit "x") 1000 1000 [] (lit "/home/ann") (lit "/bin/sh") ∈ @users demo_users /\
  @userIdFromName demo_users (Some (lit "ann")) = 1000.
Proof.
  assert (mk_passwd (lit "ann") (lit "x") 1000 1000 [] (lit "/home/ann") (lit "/bin/sh") ∈ @users demo_users) as Hin by (apply list_elem_of_In; right; by left).
  split; [exact Hin|]. exact (proj1 (@user_id_roundtrip demo_users _ demo_users_ok Hin)).
Defined.

Lemma large_id_wraps_witness : @userIdFromName demo_users (Some (lit "4294967296")) = 0.
Proof.
  apply (@large_id_wraps demo_users 0 1); [lia|lia|unfold LONG_MAX; lia].
Defined.

Lemma getpwnam2_correct_witness :
  exists s', @getpwnam2 demo_users 5 (lit "ann") None = (Ret (@getpwnam demo_users (lit "ann")), s') /\ (s' = None \/ s' = Some (@users demo_users)).
Proof. apply (@getpwnam2_correct demo_users 5 (lit "ann") None); [cbn; lia|by left]. Defined.

(** An entry that was read before is missed. *)
Example getpwnam2_misses : fst (@getpwnam2 demo_users 5 (lit "root") (Some (tail (@users demo_users)))) = Ret None.
Proof. reflexivity. Qed.
