(* ===== verification/Env.v ===== *)
(** * tlpi/proc: the environment

    tlpi-dist/proc/setenv.c, the function [setenv2] of tlpi/proc/setenv.c, and
    modify_env.c, display_env.c, t_getenv.c and necho.c.  The array [environ] has a cell
    for each pointer; what the programs write into strings they do not write again, so a
    cell holds the bytes of its string. *)

From stdpp Require Import prelude list_numbers strings gmap.
From Stdlib Require Import ZArith Lia.
From S2P Require Import Prelude CLib Vfs TlpiLib.
Open Scope Z_scope.
Set Warnings "-clear-no-such-hyp".

(** [environ] is [None] for NULL.  [allocs] are the allocations to come: [false] fails,
    and those after the end succeed. *)
Record world := mk_world {
  environ : option (list (option (list Z)));
  errno : Z;
  allocs : list bool;
  out : list Z
}.

Definition set_environ v w := mk_world v (errno w) (allocs w) (out w).
Definition set_errno v w := mk_world (environ w) v (allocs w) (out w).
Definition set_allocs v w := mk_world (environ w) (errno w) v (out w).
Definition set_out v w := mk_world (environ w) (errno w) (allocs w) v.

Definition EINVAL : Z := 22.
Definition ENOMEM : Z := 12.

(** ** The standard library *)

(** An allocation; errno is set when it fails. *)
Definition allocate : M world bool := fun w =>
  match allocs w with
  | [] => (Ret true, w)
  | true :: l => (Ret true, set_allocs l w)
  | false :: l => (Ret false, set_errno ENOMEM (set_allocs l w))
  end.

(** [strncmp(a, b, n) == 0] *)
Definition strncmp_eq (a b : list Z) (n : nat) : bool := bool_decide (take n (a ++ [0]) = take n (b ++ [0])).

(** [strchr(s, '=') != NULL] *)
Definition has_equals (s : list Z) : bool := existsb (fun b => b =? 61) s.

(** The strings before the first null pointer. *)
Fixpoint entries (cells : list (option (list Z))) : list (list Z) :=
  match cells with Some s :: cells => s :: entries cells | _ => [] end.

Definition cells_of (l : list (list Z)) : list (option (list Z)) := map Some l ++ [None].
Definition env_list (w : world) : list (list Z) := match environ w with Some cells => entries cells | None => [] end.

Definition getenv (name : list Z) : M world (option (list Z)) := gets (fun w => getenv_in name (env_list w)).

(** Does the string [s] define [name]? *)
Definition defines (name s : list Z) : bool := bool_decide (take (S (length name)) s = name ++ [61]).

(** The first definition of a name is replaced, or the new one is the last. *)
Fixpoint define (name s : list Z) (l : list (list Z)) : list (list Z) :=
  match l with
  | [] => [s]
  | e :: l => if defines name e then s :: l else e :: define name s l
  end.

Definition undefine (name : list Z) (l : list (list Z)) : list (list Z) := List.filter (fun e => negb (defines name e)) l.

Definition add (name s : list Z) : M world unit := modify (fun w => set_environ (Some (cells_of (define name s (env_list w)))) w).

Definition remove (name : list Z) : M world unit := modify (fun w =>
  match environ w with None => w | Some cells => set_environ (Some (cells_of (undefine name (entries cells)))) w end).

(** putenv of the GNU library: a string without an equals sign removes a variable, as
    unsetenv does, which refuses the empty name. *)
Definition putenv (s : list Z) : M world Z :=
  if has_equals s then
    let* ok := allocate in
    if ok : bool then add (fst (span (fun b => negb (b =? 61)) s)) s ;;; ret 0 else ret (-1)
  else (if bool_decide (s = []) then modify (set_errno EINVAL) else remove s) ;;; ret 0.

Definition clearenv : M world unit := modify (set_environ None).

Definition libc_unsetenv (name : list Z) : M world Z :=
  if bool_decide (name = []) || has_equals name then modify (set_errno EINVAL) ;;; ret (-1)
  else remove name ;;; ret 0.

Definition libc_setenv (name value : list Z) (overwrite : Z) : M world Z :=
  if bool_decide (name = []) || has_equals name then modify (set_errno EINVAL) ;;; ret (-1) else
  let* old := getenv name in
  if (match old with Some _ => true | None => false end) && (overwrite =? 0) then ret 0 else
  let* ok := allocate in
  if ok : bool then add name (name ++ [61] ++ value) ;;; ret 0 else ret (-1).

(** ** tlpi-dist/proc/setenv.c *)

(** The pointer in a cell of [environ], and a store into one. *)
Definition cell (i : nat) : M world (option (list Z)) := let* cells := gets environ in let* cells := deref cells in deref (cells !! i).
Definition set_cell (i : nat) (v : option (list Z)) : M world unit :=
  let* cells := gets environ in let* cells := deref cells in
  if bool_decide (i < length cells)%nat then modify (set_environ (Some (<[i := v]> cells))) else fault.

(** The loop that removes the entry at [sp] by moving those after it. *)
Fixpoint shift (fuel sp : nat) : M world unit :=
  match fuel with
  | O => blocked
  | S fuel =>
      let* c := cell sp in
      match c with
      | None => ret tt
      | Some _ => let* next := cell (S sp) in set_cell sp next ;;; shift fuel (S sp)
      end
  end.

Fixpoint unset_loop (fuel : nat) (name : list Z) (ep : nat) : M world unit :=
  match fuel with
  | O => blocked
  | S fuel =>
      let* c := cell ep in
      match c with
      | None => ret tt
      | Some e =>
          let len := length name in
          let* found := if strncmp_eq e name len then let* b := deref ((e ++ [0]) !! len) in ret (b =? 61) else ret false in
          if found : bool then (let* cells := gets environ in shift (S (length (default [] cells))) ep) ;;; unset_loop fuel name ep
          else unset_loop fuel name (S ep)
      end
  end.

(** [name] is [None] for NULL. *)
Definition unsetenv (name : option (list Z)) : M world Z :=
  match name with
  | None | Some [] => modify (set_errno EINVAL) ;;; ret (-1)
  | Some name =>
      if has_equals name then modify (set_errno EINVAL) ;;; ret (-1) else
      let* cells := gets environ in
      unset_loop (S (length (default [] cells))) name 0 ;;; ret 0
  end.

Definition setenv (name value : option (list Z)) (overwrite : Z) : M world Z :=
  match name, value with
  | None, _ | Some [], _ => modify (set_errno EINVAL) ;;; ret (-1)
  | Some name, value =>
      if has_equals name then modify (set_errno EINVAL) ;;; ret (-1) else
      match value with
      | None => modify (set_errno EINVAL) ;;; ret (-1)
      | Some value =>
          let* old := getenv name in
          if (match old with Some _ => true | None => false end) && (overwrite =? 0) then ret 0 else
          unsetenv (Some name) ;;;
          let* es := allocate in
          if negb es then ret (-1) else
          let* r := putenv (name ++ [61] ++ value) in
          ret (if negb (r =? 0) then -1 else 0)
      end
  end.

(** ** tlpi/proc/setenv.c *)

(** What snprintf returns for a string. *)
Definition snprintf_len (s : list Z) : Z := if INT_MAX <? Z.of_nat (length s) then -1 else Z.of_nat (length s).

Definition setenv2 (name value : list Z) (overwrite : Z) : M world Z :=
  let s := name ++ [61] ++ value in
  let n := snprintf_len s in
  if n <? 0 then ret (-1) else
  let size := n + 1 in
  let* buf := allocate in
  if negb buf then ret (-1) else
  let n := snprintf_len s in
  if negb (n =? size - 1) then ret (-1) else
  let* old := if overwrite =? 0 then getenv name else ret None in
  match old with
  | Some _ => ret 0
  | None => let* r := putenv s in if negb (r =? 0) then ret (-1) else ret 0
  end.

(** ** modify_env.c, display_env.c, t_getenv.c and necho.c *)

Definition puts (s : list Z) : M world unit := modify (fun w => set_out (out w ++ s ++ [10]) w).

(** The loop over [environ], which must not be NULL. *)
Fixpoint show_loop (fuel ep : nat) : M world unit :=
  match fuel with
  | O => blocked
  | S fuel =>
      let* c := cell ep in
      match c with None => ret tt | Some s => puts s ;;; show_loop fuel (S ep) end
  end.

Definition display_env : M world unit :=
  (let* cells := gets environ in show_loop (S (length (default [] cells))) 0) ;;; exit_with EXIT_SUCCESS.

(** [args] are the arguments without the program's name; what errExit writes to the
    standard error is left out. *)
Fixpoint put_args (args : list (list Z)) : M world unit :=
  match args with
  | [] => ret tt
  | a :: args => let* r := putenv a in if negb (r =? 0) then exit_with EXIT_FAILURE else put_args args
  end.

Definition modify_env (args : list (list Z)) : M world unit :=
  clearenv ;;;
  put_args args ;;;
  (let* r := libc_setenv (lit "GREET") (lit "Hello world") 0 in if r =? -1 then exit_with EXIT_FAILURE else ret tt) ;;;
  libc_unsetenv (lit "BYE") ;;;
  display_env.

Definition t_getenv (args : list (list Z)) : M world unit :=
  match args with
  | [a] =>
      if bool_decide (a = lit "--help") then exit_with EXIT_FAILURE else
      let* val := getenv a in
      puts (default (lit "No such variable") val) ;;; exit_with EXIT_SUCCESS
  | _ => exit_with EXIT_FAILURE
  end.

(** [arg_max] is what sysconf gives. *)
Fixpoint echo_loop (j : Z) (argv : list (list Z)) : M world unit :=
  match argv with
  | [] => ret tt
  | a :: argv => puts (lit "argv[" ++ print_d j ++ lit "] = " ++ a) ;;; echo_loop (j + 1) argv
  end.

Definition necho (arg_max : Z) (argv : list (list Z)) : M world unit :=
  puts (lit "ARG_MAX: " ++ print_d arg_max ++ lit " bytes.") ;;; echo_loop 0 argv ;;; exit_with EXIT_SUCCESS.
