(* ===== verification/EnvSafe.v ===== *)
(** * tlpi/proc: the environment is a map

    What the functions of Env do to the variables, as a finite map from names to
    values. *)

From stdpp Require Import prelude list_numbers strings gmap.
From Stdlib Require Import ZArith Lia.
From S2P Require Import Prelude CLib Vfs TlpiLib Env.
Open Scope Z_scope.
Set Warnings "-clear-no-such-hyp".

(** ** The variables *)

(** The name and the value a string defines. *)
Definition entry_of (s : list Z) : option (list Z * list Z) :=
  match span (fun b => negb (b =? 61)) s with (n, _ :: v) => Some (n, v) | _ => None end.

Definition add_entry (s : list Z) (m : gmap (list Z) (list Z)) : gmap (list Z) (list Z) :=
  match entry_of s with Some (n, v) => <[n := v]> m | None => m end.

(** The first definition of a name counts. *)
Definition env_map (l : list (list Z)) : gmap (list Z) (list Z) := foldr add_entry ∅ l.

Definition vars (w : world) : gmap (list Z) (list Z) := env_map (env_list w).

(** A string of C, not empty and without an equals sign. *)
Definition valid_name (name : list Z) : Prop := name <> [] /\ has_equals name = false /\ Forall (fun b => b <> 0) name.

Lemma has_equals_spec s : has_equals s = false <-> Forall (fun b => negb (b =? 61) = true) s.
Proof.
  unfold has_equals. induction s as [|b s IH]; cbn; [by split|]. rewrite Forall_cons, <- IH. destruct (b =? 61); cbn; [|tauto]. split; [done|by intros [? _]].
Qed.

Lemma entry_of_app n v : has_equals n = false -> entry_of (n ++ [61] ++ v) = Some (n, v).
Proof. intros Hn%has_equals_spec. unfold entry_of. by rewrite span_all. Qed.

Lemma span_app f (l : list Z) : l = fst (span f l) ++ snd (span f l).
Proof. induction l as [|b l IH]; [done|]. cbn. destruct (f b); [|done]. destruct (span f l). cbn in *. by rewrite <- IH. Qed.

Lemma span_fst f (l : list Z) : Forall (fun b => f b = true) (fst (span f l)).
Proof. induction l as [|b l IH]; [by constructor|]. cbn. destruct (f b) eqn:E; [|by constructor]. destruct (span f l). by constructor. Qed.

Lemma span_snd f (l : list Z) : match snd (span f l) with [] => True | b :: _ => f b = false end.
Proof. induction l as [|b l IH]; [done|]. cbn. destruct (f b) eqn:E; [by destruct (span f l)|done]. Qed.

Lemma entry_of_Some s n v : entry_of s = Some (n, v) -> s = n ++ [61] ++ v /\ has_equals n = false.
Proof.
  unfold entry_of. intros E. pose proof (span_app (fun b => negb (b =? 61)) s) as Hs. pose proof (span_fst (fun b => negb (b =? 61)) s) as Hf. pose proof (span_snd (fun b => negb (b =? 61)) s) as Hb.
  destruct (span _ s) as [n' [|b v']]; [done|]. injection E as -> ->. cbn in *. destruct (Z.eqb_spec b 61) as [->|]; [|done].
  split; [done|]. by apply has_equals_spec.
Qed.

(** The only name a string defines. *)
Lemma defines_entry name s : has_equals name = false -> defines name s = match entry_of s with Some (n, _) => bool_decide (n = name) | None => false end.
Proof.
  intros Hn. unfold defines. assert (take (S (length name)) s = name ++ [61] -> exists v, entry_of s = Some (name, v)) as Ht.
  { intros Ht. exists (drop (S (length name)) s). rewrite <- (take_drop (S (length name)) s) at 1. rewrite Ht, <- app_assoc. by apply entry_of_app. }
  destruct (entry_of s) as [[n v]|] eqn:E.
  - apply bool_decide_ext. split.
    + intros [v' Hv]%Ht. by injection Hv.
    + intros ->. apply entry_of_Some in E as [-> _]. rewrite app_assoc. apply take_app_length'. rewrite length_app. cbn. lia.
  - apply bool_decide_eq_false_2. intros [v Hv]%Ht. done.
Qed.

Lemma env_map_cons s l : env_map (s :: l) = add_entry s (env_map l).
Proof. done. Qed.

Lemma undefine_cons name s l : undefine name (s :: l) = if defines name s then undefine name l else s :: undefine name l.
Proof. unfold undefine. cbn. by destruct (defines name s). Qed.

Lemma getenv_map name l : has_equals name = false -> getenv_in name l = env_map l !! name.
Proof.
  intros Hn. induction l as [|s l IH]; [done|]. cbn [getenv_in env_map foldr]. change (foldr add_entry ∅ l) with (env_map l).
  pose proof (defines_entry name s Hn) as Hd. unfold defines in Hd. rewrite Hd. clear Hd. unfold add_entry. destruct (entry_of s) as [[n v]|] eqn:E; [|done].
  apply entry_of_Some in E as [-> Hn']. case_bool_decide as Ed.
  - subst n. rewrite lookup_insert_eq. f_equal. rewrite app_assoc. apply drop_app_length'. rewrite length_app. cbn. lia.
  - by rewrite lookup_insert_ne.
Qed.

Lemma undefine_map name l : has_equals name = false -> env_map (undefine name l) = delete name (env_map l).
Proof.
  intros Hn. induction l as [|s l IH]; [symmetry; apply delete_empty|]. rewrite undefine_cons, defines_entry, env_map_cons by done.
  destruct (entry_of s) as [[n v]|] eqn:E.
  - case_bool_decide as Ed; rewrite ?env_map_cons, IH; unfold add_entry; rewrite E; [subst n; by rewrite delete_insert_eq|by rewrite delete_insert_ne].
  - rewrite env_map_cons, IH. unfold add_entry. by rewrite E.
Qed.

Lemma define_map name v l : has_equals name = false -> env_map (define name (name ++ [61] ++ v) l) = <[name := v]> (env_map l).
Proof.
  intros Hn. induction l as [|s l IH]; cbn [define]; [rewrite env_map_cons; unfold add_entry; by rewrite entry_of_app|].
  rewrite defines_entry by done. destruct (entry_of s) as [[n u]|] eqn:E.
  - case_bool_decide as Ed; rewrite !env_map_cons, ?IH; unfold add_entry; rewrite ?entry_of_app, E by done; [subst n; by rewrite insert_insert_eq|by apply insert_insert_ne].
  - rewrite !env_map_cons, IH. unfold add_entry. by rewrite E.
Qed.

(** ** The loops of unsetenv *)

(** The array holds the strings [l] and a null pointer. *)
Definition holds (cells : list (option (list Z))) (l : list (list Z)) : Prop := exists post, cells = map Some l ++ None :: post.

Lemma entries_of_cells l post : entries (map Some l ++ None :: post) = l.
Proof. induction l as [|s l IH]; [done|]. cbn. by rewrite IH. Qed.

Lemma holds_entries cells l : holds cells l -> entries cells = l.
Proof. intros [post ->]. apply entries_of_cells. Qed.

Lemma run_cell w cells i c : environ w = Some cells -> cells !! i = Some c -> cell i w = (Ret c, w).
Proof. intros He Hi. unfold cell, bind, gets, deref, ret. by rewrite He, Hi. Qed.

Lemma run_set_cell w cells i v : environ w = Some cells -> (i < length cells)%nat -> set_cell i v w = (Ret tt, set_environ (Some (<[i := v]> cells)) w).
Proof. intros He Hi. unfold set_cell, bind, gets, deref, ret. rewrite He. by rewrite bool_decide_eq_true_2. Qed.

Lemma lookup_at {A} (pre : list A) x post : (pre ++ x :: post) !! length pre = Some x.
Proof. by rewrite lookup_app_r, Nat.sub_diag. Qed.

Lemma lookup_next {A} (pre : list A) a b post : (pre ++ a :: b :: post) !! S (length pre) = Some b.
Proof.
  replace (pre ++ a :: b :: post) with ((pre ++ [a]) ++ b :: post) by (by rewrite <- app_assoc).
  replace (S (length pre)) with (length (pre ++ [a])) by (rewrite length_app; cbn; lia). apply lookup_at.
Qed.

Lemma insert_at {A} (pre : list A) x y post : <[length pre := y]> (pre ++ x :: post) = pre ++ y :: post.
Proof. induction pre as [|z pre IH]; [done|]. change (z :: <[length pre := y]> (pre ++ x :: post) = z :: pre ++ y :: post). by rewrite IH. Qed.

(** One cell is moved. *)
Lemma move_cell w pre x y post :
  environ w = Some (pre ++ Some x :: y :: post) ->
  forall fuel, shift (S fuel) (length pre) w = shift fuel (S (length pre)) (set_environ (Some (pre ++ y :: y :: post)) w).
Proof.
  intros He fuel. cbn [shift]. mrun (run_cell w _ _ _ He (lookup_at pre _ _)). mrun (run_cell w _ _ _ He (lookup_next pre _ _ _)).
  assert (length pre < length (pre ++ Some x :: y :: post))%nat as Hl by (rewrite length_app; cbn; lia).
  mrun (run_set_cell w _ _ y He Hl). by rewrite insert_at.
Qed.

(** One string is removed. *)
Lemma shift_removes l : forall fuel pre x post w,
  (length l + 1 < fuel)%nat -> environ w = Some (pre ++ Some x :: map Some l ++ None :: post) ->
  shift fuel (length pre) w = (Ret tt, set_environ (Some (pre ++ map Some l ++ None :: None :: post)) w).
Proof.
  induction l as [|y l IH]; intros [|fuel] pre x post w Hf He; try (cbn in Hf; lia); cbn [map app] in He; rewrite (move_cell w pre x _ _ He fuel).
  - destruct fuel as [|fuel]; [cbn in Hf; lia|]. cbn [shift]. by mrun (run_cell (set_environ (Some (pre ++ None :: None :: post)) w) _ _ _ eq_refl (lookup_next pre _ _ _)).
  - replace (S (length pre)) with (length (pre ++ [Some y])) by (rewrite length_app; cbn; lia).
    rewrite (IH fuel (pre ++ [Some y]) y post); [| cbn in Hf; lia |cbn; by rewrite <- app_assoc]. by rewrite <- app_assoc.
Qed.

(** What begins like a name is as long. *)
Lemma strncmp_length name s : Forall (fun b => b <> 0) name -> strncmp_eq s name (length name) = true -> take (length name) s = name.
Proof.
  unfold strncmp_eq. rewrite (take_app_length' name) by done. intros Hn Ht%bool_decide_eq_true.
  destruct (decide (length name <= length s)%nat) as [Hl|Hl]; [by rewrite take_app_le in Ht by lia|].
  exfalso. assert ((s ++ [0]) !! length s = Some 0) as Hz by apply lookup_at. rewrite <- (lookup_take_lt _ (length name)), Ht in Hz by lia.
  exact (proj1 (Forall_lookup _ _) Hn _ _ Hz eq_refl).
Qed.

(** The test of unsetenv finds the definitions of the name. *)
Lemma run_found name s w :
  Forall (fun b => b <> 0) name ->
  (if strncmp_eq s name (length name) then let* b := deref ((s ++ [0]) !! length name) in ret (b =? 61) else ret false) w = (Ret (defines name s), w : world).
Proof.
  intros Hn. destruct (strncmp_eq s name (length name)) eqn:E.
  - apply strncmp_length in E; [|done]. assert (s = name ++ drop (length name) s) as Es by (rewrite <- E at 1; by rewrite take_drop).
    unfold defines. rewrite Es. rewrite <- app_assoc, (lookup_app_r name) by lia. rewrite Nat.sub_diag.
    destruct (drop (length name) s) as [|b r]; cbn [app]; unfold bind, deref, ret; cbn.
    + repeat f_equal. rewrite app_nil_r. symmetry. apply bool_decide_eq_false_2. intros Ht. apply (f_equal length) in Ht. rewrite length_take, length_app in Ht. change (length [61]) with 1%nat in Ht. lia.
    + repeat f_equal. rewrite <- (Nat.add_1_r (length name)), take_app_add. cbn [take]. destruct (Z.eqb_spec b 61) as [->|Hb]; [by rewrite bool_decide_eq_true_2|].
      rewrite bool_decide_eq_false_2; [done|]. intros Ht. apply app_inv_head in Ht. congruence.
  - unfold ret. repeat f_equal. unfold defines. symmetry. apply bool_decide_eq_false_2. intros Ht. unfold strncmp_eq in E. apply bool_decide_eq_false in E. apply E.
    assert (length name < length s)%nat as Hl by (apply (f_equal length) in Ht; rewrite length_take, length_app in Ht; change (length [61]) with 1%nat in Ht; lia).
    apply (f_equal (take (length name))) in Ht. rewrite take_take, Nat.min_l, take_app_length' in Ht by (done || lia).
    by rewrite take_app_le, (take_app_length' name) by (done || lia).
Qed.

Lemma unset_removes name l : Forall (fun b => b <> 0) name -> forall fuel pre post w,
  (length l < fuel)%nat -> environ w = Some (map Some pre ++ map Some l ++ None :: post) ->
  exists post', unset_loop fuel name (length pre) w = (Ret tt, set_environ (Some (map Some pre ++ map Some (undefine name l) ++ None :: post')) w).
Proof.
  intros Hn. induction l as [|s l IH]; intros [|fuel] pre post w Hf He; try (cbn in Hf; lia); cbn [map app] in He; cbn [unset_loop];
    rewrite <- (length_map Some pre); mrun (run_cell w _ _ _ He (lookup_at (map Some pre) _ _)).
  - exists post. cbn. unfold ret, set_environ. rewrite <- He. by destruct w.
  - mrun (run_found name s w Hn). rewrite undefine_cons. destruct (defines name s).
    + rewrite bind_assoc. mrun (eq_refl : gets environ w = (Ret (environ w), w)). rewrite He.
      assert (shift (S (length (default [] (Some (map Some pre ++ Some s :: map Some l ++ None :: post))))) (length (map Some pre)) w =
        (Ret tt, set_environ (Some (map Some pre ++ map Some l ++ None :: None :: post)) w)) as Hs.
      { apply (shift_removes l _ _ s post w); [|done]. cbn. rewrite !length_app. cbn. rewrite length_app, !length_map. cbn. lia. }
      mrun Hs. rewrite length_map.
      destruct (IH fuel pre (None :: post) (set_environ (Some (map Some pre ++ map Some l ++ None :: None :: post)) w)) as [post' E]; [cbn in Hf; lia|done|].
      exists post'. exact E.
    + rewrite length_map. destruct (IH fuel (pre ++ [s]) post w) as [post' E]; [cbn in Hf; lia|by rewrite map_app, <- app_assoc|].
      exists post'. rewrite length_app, Nat.add_1_r in E. rewrite E. cbn [map]. by rewrite map_app, <- app_assoc.
Qed.

(** [environ] is an array that ends. *)
Definition env_ok (w : world) : Prop := exists cells, environ w = Some cells /\ holds cells (env_list w).

(** Everything but [environ] is the same, and it holds [l]. *)
Definition env_set (l : list (list Z)) (w w' : world) : Prop :=
  exists cells, w' = set_environ (Some cells) w /\ holds cells l.

Lemma env_set_ok l w w' : env_set l w w' -> env_ok w' /\ env_list w' = l.
Proof.
  intros (cells & -> & Hc). unfold env_ok, env_list. cbn. rewrite (holds_entries _ _ Hc). split; [by exists cells|done].
Qed.

Lemma unsetenv_runs name w : valid_name name -> env_ok w -> exists w', unsetenv (Some name) w = (Ret 0, w') /\ env_set (undefine name (env_list w)) w w'.
Proof.
  intros (Hne & Heq & Hn) (cells & He & post & Hc). unfold unsetenv. destruct name as [|b name]; [done|]. rewrite Heq.
  mrun (eq_refl : gets environ w = (Ret (environ w), w)). rewrite He. subst cells.
  destruct (unset_removes (b :: name) (env_list w) Hn (S (length (map Some (env_list w) ++ None :: post))) [] post w) as [post' E]; [rewrite length_app, length_map; cbn; lia|done|].
  eexists. split; [mrun E; done|]. eexists. split; [done|]. by exists post'.
Qed.

(** ** The other functions *)

Definition plenty (n : nat) (w : world) : Prop := Forall (fun b => b = true) (take n (allocs w)).

Lemma run_allocate w : exists ok w', allocate w = (Ret ok, w') /\ environ w' = environ w /\ out w' = out w /\
  (forall n, plenty (S n) w -> ok = true /\ plenty n w').
Proof.
  unfold allocate, plenty. destruct (allocs w) as [|[] l] eqn:E; (do 2 eexists; split; [done|]; split; [done|]; split; [done|]); intros n Hn; cbn in *.
  - rewrite E. split; [done|]. by destruct n.
  - by apply Forall_cons in Hn as [_ Hn].
  - by apply Forall_cons in Hn as [? _].
Qed.

Lemma name_of_entry name value : has_equals name = false -> fst (span (fun b => negb (b =? 61)) (name ++ [61] ++ value)) = name.
Proof. intros Hn%has_equals_spec. by rewrite span_all. Qed.

Lemma has_equals_entry name value : has_equals (name ++ [61] ++ value) = true.
Proof. unfold has_equals. rewrite !existsb_app. cbn. by rewrite orb_true_r. Qed.

Lemma cells_of_set l w : env_set l w (set_environ (Some (cells_of l)) w).
Proof. eexists. split; [done|]. by exists []. Qed.

(** putenv of a definition. *)
Lemma putenv_entry name value w :
  has_equals name = false -> exists r w', putenv (name ++ [61] ++ value) w = (Ret r, w') /\ out w' = out w /\
  (r = 0 /\ env_ok w' /\ env_list w' = define name (name ++ [61] ++ value) (env_list w) \/ r = -1 /\ environ w' = environ w) /\
  (forall n, plenty (S n) w -> r = 0 /\ plenty n w').
Proof.
  intros Hn. destruct (run_allocate w) as (ok & w1 & Ea & He & Ho & Hp). unfold putenv. rewrite has_equals_entry. mrun Ea. destruct ok.
  - rewrite name_of_entry by done. do 2 eexists. split; [done|]. split; [done|]. split; [|intros n Hpl; destruct (Hp n Hpl); by split].
    left. split; [done|]. assert (env_list w = env_list w1) as -> by (unfold env_list; by rewrite He). exact (env_set_ok _ _ _ (cells_of_set _ w1)).
  - do 2 eexists. split; [done|]. split; [done|]. split; [by right|]. intros n Hpl. by destruct (Hp n Hpl).
Qed.

Lemma env_ok_same w w' : environ w' = environ w -> env_ok w -> env_ok w'.
Proof. unfold env_ok, env_list. by intros ->. Qed.

Lemma vars_same w w' : environ w' = environ w -> vars w' = vars w.
Proof. unfold vars, env_list. by intros ->. Qed.

Lemma getenv_runs name w : has_equals name = false -> getenv name w = (Ret (vars w !! name), w).
Proof. intros Hn. unfold getenv, gets, vars. by rewrite getenv_map. Qed.

(** What a call that sets a variable makes of the variables. *)
Definition set_var (name value : list Z) (overwrite : Z) (m : gmap (list Z) (list Z)) : gmap (list Z) (list Z) :=
  if decide (overwrite = 0 /\ is_Some (m !! name)) then m else <[name := value]> m.

Lemma kept (old : option (list Z)) overwrite :
  (match old with Some _ => true | None => false end) && (overwrite =? 0) = bool_decide (overwrite = 0 /\ is_Some old).
Proof.
  destruct old as [v|]; cbn [andb].
  - destruct (Z.eqb_spec overwrite 0); symmetry; [apply bool_decide_eq_true_2; split; [done|by eexists]|apply bool_decide_eq_false_2; tauto].
  - symmetry. apply bool_decide_eq_false_2. intros [_ [? ?]]. done.
Qed.

Lemma setenv_runs name value overwrite w :
  valid_name name -> env_ok w -> exists r w', setenv (Some name) (Some value) overwrite w = (Ret r, w') /\ env_ok w' /\ out w' = out w /\
  (r = 0 /\ vars w' = set_var name value overwrite (vars w) \/ r = -1 /\ vars w' = delete name (vars w)) /\
  (plenty 2 w -> r = 0).
Proof.
  intros Hv Hok. destruct (unsetenv_runs name w Hv Hok) as (w1 & E1 & H1). destruct Hv as (Hne & Heq & Hn).
  unfold setenv. destruct name as [|b0 name0] eqn:En; [done|]. rewrite <- En in *. clear En b0 name0. rewrite Heq. mrun (getenv_runs name w Heq).
  rewrite kept. unfold set_var. case_bool_decide as Hk.
  { do 2 eexists. split; [done|]. split; [done|]. split; [done|]. split; [left; split; [done|by rewrite decide_True]|done]. }
  mrun E1. destruct (env_set_ok _ _ _ H1) as [Hok1 Hl1]. destruct H1 as (cells & Hw1 & _).
  assert (vars w1 = delete name (vars w)) as Hv1 by (unfold vars; by rewrite Hl1, undefine_map).
  destruct (run_allocate w1) as (ok & w2 & Ea & He & Ho & Hp). mrun Ea. assert (out w1 = out w) as Ho1 by by rewrite Hw1.
  destruct ok; cbn [negb].
  - destruct (putenv_entry name value w2 Heq) as (r & w3 & Ep & Ho3 & Hr & Hp3). mrun Ep. do 2 eexists. split; [done|].
    destruct Hr as [(-> & Hok3 & Hl3)|[-> He3]]; cbn.
    + split; [done|]. split; [congruence|]. split; [|done]. left. split; [done|]. rewrite decide_False by done. unfold vars at 1. rewrite Hl3, define_map by done.
      change (env_map (env_list w2)) with (vars w2). by rewrite (vars_same w1 w2 He), Hv1, insert_delete_eq.
    + split; [apply (env_ok_same w1); [congruence|done]|]. split; [congruence|]. split; [right; split; [done|]; rewrite <- Hv1; apply vars_same; congruence|].
      intros Hpl. rewrite Hw1 in Hp. destruct (Hp 1%nat Hpl) as [_ Hpl2]. by destruct (Hp3 0%nat Hpl2).
  - do 2 eexists. split; [done|]. split; [by apply (env_ok_same w1)|]. split; [congruence|]. split; [right; split; [done|]; rewrite <- Hv1; by apply vars_same|].
    intros Hpl. rewrite Hw1 in Hp. by destruct (Hp 1%nat Hpl).
Qed.

Lemma setenv2_runs name value overwrite w :
  has_equals name = false -> env_ok w -> Z.of_nat (length (name ++ [61] ++ value)) <= INT_MAX ->
  exists r w', setenv2 name value overwrite w = (Ret r, w') /\ env_ok w' /\ out w' = out w /\
  (r = 0 /\ vars w' = set_var name value overwrite (vars w) \/ r = -1 /\ vars w' = vars w) /\
  (plenty 2 w -> r = 0).
Proof.
  intros Heq Hok Hlen. unfold setenv2. assert (snprintf_len (name ++ [61] ++ value) = Z.of_nat (length (name ++ [61] ++ value))) as -> by (unfold snprintf_len; by rewrite (proj2 (Z.ltb_ge _ _))).
  rewrite (proj2 (Z.ltb_ge _ 0)) by lia. destruct (run_allocate w) as (ok & w1 & Ea & He & Ho & Hp). mrun Ea. destruct ok; cbn [negb].
  2: { do 2 eexists. split; [done|]. split; [by apply (env_ok_same w)|]. split; [done|]. split; [right; split; [done|by apply vars_same]|]. intros Hpl. by destruct (Hp 1%nat Hpl). }
  rewrite (proj2 (Z.eqb_eq _ _)) by lia. cbn [negb].
  assert ((if overwrite =? 0 then getenv name else ret None) w1 = (Ret (if overwrite =? 0 then vars w1 !! name else None), w1)) as Eo by (destruct (overwrite =? 0); [by apply getenv_runs|done]).
  mrun Eo. rewrite (vars_same w w1 He). unfold set_var. destruct (if overwrite =? 0 then vars w !! name else None) as [v|] eqn:Ev.
  - destruct (Z.eqb_spec overwrite 0); [|done]. do 2 eexists. split; [done|]. split; [by apply (env_ok_same w)|]. split; [done|]. split; [left; split; [done|]|done].
    rewrite decide_True by (split; [done|by eexists]). by apply vars_same.
  - assert (~ (overwrite = 0 /\ is_Some (vars w !! name))) as Hk by (intros [-> [v Hv]]; cbn in Ev; congruence). rewrite decide_False by done.
    destruct (putenv_entry name value w1 Heq) as (r & w2 & Ep & Ho2 & Hr & Hp2). mrun Ep. destruct Hr as [(-> & Hok2 & Hl2)|[-> He2]]; cbn.
    + do 2 eexists. split; [done|]. split; [done|]. split; [congruence|]. split; [left; split; [done|]|done]. unfold vars at 1. rewrite Hl2, define_map by done.
      f_equal. by apply vars_same.
    + do 2 eexists. split; [done|]. split; [apply (env_ok_same w); [congruence|done]|]. split; [congruence|]. split; [right; split; [done|]; apply vars_same; congruence|].
      intros Hpl. destruct (Hp 1%nat Hpl) as [_ Hpl1]. by destruct (Hp2 0%nat Hpl1).
Qed.

(** ** modify_env *)

(** Each string defines another variable. *)
Fixpoint distinct (l : list (list Z)) : Prop :=
  match l with
  | [] => True
  | s :: l => (exists n v, entry_of s = Some (n, v) /\ env_map l !! n = None) /\ distinct l
  end.

Definition show_var (x : list Z * list Z) : list Z := x.1 ++ [61] ++ x.2.

Lemma distinct_shows l : distinct l -> l ≡ₚ map show_var (map_to_list (env_map l)).
Proof.
  induction l as [|s l IH]; [intros _; change (env_map []) with (∅ : gmap (list Z) (list Z)); by rewrite map_to_list_empty|]. intros [(n & v & E & Hn) Hd]. rewrite env_map_cons. unfold add_entry. rewrite E.
  rewrite map_to_list_insert by done. cbn [map]. rewrite <- IH by done. apply entry_of_Some in E as [-> _]. done.
Qed.

Lemma define_distinct name v l : has_equals name = false -> distinct l -> distinct (define name (name ++ [61] ++ v) l).
Proof.
  intros Hn. induction l as [|s l IH]; cbn [define distinct].
  - intros _. split; [|done]. exists name, v. split; [by apply entry_of_app|done].
  - intros [(n & u & E & Hl) Hd]. rewrite defines_entry, E by done. case_bool_decide as En; cbn [distinct].
    + subst n. split; [|done]. exists name, v. split; [by apply entry_of_app|done].
    + split; [|by apply IH]. exists n, u. split; [done|]. by rewrite define_map, lookup_insert_ne.
Qed.

Lemma undefine_distinct name l : has_equals name = false -> distinct l -> distinct (undefine name l).
Proof.
  intros Hn. induction l as [|s l IH]; [done|]. intros [(n & u & E & Hl) Hd]. rewrite undefine_cons. destruct (defines name s); [by apply IH|].
  split; [|by apply IH]. exists n, u. split; [done|]. rewrite undefine_map by done. by apply lookup_delete_None; right.
Qed.

(** Nothing fails, and the array is what the library keeps. *)
Definition kept_env (w : world) : Prop := distinct (env_list w) /\ allocs w = [] /\ match environ w with Some cells => holds cells (env_list w) | None => True end.

(** An argument of the program. *)
Definition put_var (m : gmap (list Z) (list Z)) (a : list Z) : gmap (list Z) (list Z) :=
  match entry_of a with
  | Some (n, v) => <[n := v]> m
  | None => if bool_decide (a = []) then m else delete a m
  end.

Lemma entry_of_None a : entry_of a = None -> has_equals a = false.
Proof.
  intros E. destruct (has_equals a) eqn:H; [|done]. exfalso. unfold entry_of in E.
  pose proof (span_app (fun b => negb (b =? 61)) a) as Ha. pose proof (span_fst (fun b => negb (b =? 61)) a) as Hf.
  destruct (span _ a) as [n [|b v]]; [|done]. cbn in *. rewrite app_nil_r in Ha. subst n. apply has_equals_spec in Hf. congruence.
Qed.

Lemma add_keeps name v w : has_equals name = false -> kept_env w ->
  let w' := set_environ (Some (cells_of (define name (name ++ [61] ++ v) (env_list w)))) w in
  kept_env w' /\ vars w' = <[name := v]> (vars w) /\ is_Some (environ w').
Proof.
  intros Hn (Hd & Ha & _) w'. destruct (env_set_ok _ w w' (cells_of_set _ w)) as [(cells & He & Hh) Hl]. split; [|split].
  - split; [rewrite Hl; by apply define_distinct|]. split; [done|]. by rewrite He.
  - unfold vars. by rewrite Hl, define_map.
  - by rewrite He.
Qed.

Lemma remove_keeps name w : has_equals name = false -> kept_env w ->
  exists w', remove name w = (Ret tt, w') /\ kept_env w' /\ vars w' = delete name (vars w) /\ out w' = out w /\ (is_Some (environ w) -> is_Some (environ w')).
Proof.
  intros Hn (Hd & Ha & Hh). unfold remove, modify. destruct (environ w) as [cells|] eqn:He.
  - assert (entries cells = env_list w) as -> by (unfold env_list; by rewrite He). eexists. split; [done|].
    destruct (env_set_ok _ w _ (cells_of_set (undefine name (env_list w)) w)) as [(cells' & He' & Hh') Hl]. split; [|split; [|split; [done|by eexists]]].
    + split; [rewrite Hl; by apply undefine_distinct|]. split; [done|]. by rewrite He'.
    + unfold vars. by rewrite Hl, undefine_map.
  - exists w. split; [done|]. split; [split; [done|]; split; [done|]; by rewrite He|]. split; [|done]. unfold vars, env_list. rewrite He. symmetry. apply delete_empty.
Qed.

Lemma putenv_var a w : kept_env w -> exists w', putenv a w = (Ret 0, w') /\ kept_env w' /\ vars w' = put_var (vars w) a /\ out w' = out w.
Proof.
  intros Hk. unfold putenv, put_var. destruct (entry_of a) as [[n v]|] eqn:E.
  - apply entry_of_Some in E as [-> Hn]. rewrite has_equals_entry. pose proof Hk as (_ & Ha & _).
    assert (allocate w = (Ret true, w)) as Eal by (unfold allocate; by rewrite Ha). mrun Eal. rewrite name_of_entry by done.
    destruct (add_keeps n v w Hn Hk) as (H1 & H2 & _). by eexists.
  - apply entry_of_None in E. rewrite E. case_bool_decide; [by eexists|]. destruct (remove_keeps a w E Hk) as (w' & Er & H1 & H2 & H3 & _). exists w'. split; [by mrun Er|done].
Qed.

Lemma put_args_vars args : forall w, kept_env w -> exists w', put_args args w = (Ret tt, w') /\ kept_env w' /\ vars w' = fold_left put_var args (vars w) /\ out w' = out w.
Proof.
  induction args as [|a args IH]; intros w Hk; [by exists w|]. cbn [put_args fold_left].
  destruct (putenv_var a w Hk) as (w1 & E1 & Hk1 & Hv1 & Ho1). mrun E1. cbn [Z.eqb negb].
  destruct (IH w1 Hk1) as (w2 & E2 & Hk2 & Hv2 & Ho2). exists w2. rewrite E2, Hv2, Hv1. split; [done|]. split; [done|]. split; [done|congruence].
Qed.

(** The loop prints every string. *)
Lemma show_prints l : forall fuel pre post w, (length l < fuel)%nat -> environ w = Some (map Some pre ++ map Some l ++ None :: post) ->
  show_loop fuel (length pre) w = (Ret tt, set_out (out w ++ concat (map (fun s => s ++ [10]) l)) w).
Proof.
  induction l as [|s l IH]; intros [|fuel] pre post w Hf He; try (cbn in Hf; lia); cbn [map app] in He; cbn [show_loop];
    rewrite <- (length_map Some pre); mrun (run_cell w _ _ _ He (lookup_at (map Some pre) _ _)).
  - cbn. rewrite app_nil_r. by destruct w.
  - mrun (eq_refl : puts s w = (Ret tt, set_out (out w ++ s ++ [10]) w)). replace (S (length (map Some pre))) with (length (pre ++ [s])) by (rewrite length_app, length_map; cbn; lia).
    rewrite (IH fuel (pre ++ [s]) post); [| cbn in Hf; lia |cbn; by rewrite map_app, <- app_assoc]. cbn [out set_out map concat]. by rewrite <- !app_assoc.
Qed.

Lemma display_prints w : env_ok w -> exists w', display_env w = (Exit EXIT_SUCCESS, w') /\ out w' = out w ++ concat (map (fun s => s ++ [10]) (env_list w)).
Proof.
  intros (cells & He & post & Hc). unfold display_env. rewrite bind_assoc. mrun (eq_refl : gets environ w = (Ret (environ w), w)). rewrite He. cbn [default]. subst cells.
  assert (length (env_list w) < S (length (map Some (env_list w) ++ None :: post)))%nat as Hf by (rewrite length_app, length_map; cbn; lia).
  eexists. split; [mrun (show_prints (env_list w) _ [] post w Hf He); done|done].
Qed.

(** The variables that modify_env is to show. *)
Definition GREET : list Z := lit "GREET".
Definition BYE : list Z := lit "BYE".
Definition modified (args : list (list Z)) : gmap (list Z) (list Z) := delete BYE (set_var GREET (lit "Hello world") 0 (fold_left put_var args ∅)).

(** C7: [setenv] and [unsetenv], written with pointers into [environ], and [setenv2] do
    to the variables what the operations of a finite map do, and [getenv] reads the map;
    without memory [setenv2] changes nothing, but [setenv] removes the old value. *)
Theorem environment_is_map name value overwrite w :
  valid_name name -> env_ok w -> Z.of_nat (length (name ++ [61] ++ value)) <= INT_MAX ->
  getenv name w = (Ret (vars w !! name), w) /\
  (exists w', unsetenv (Some name) w = (Ret 0, w') /\ env_ok w' /\ vars w' = delete name (vars w)) /\
  (exists r w', setenv (Some name) (Some value) overwrite w = (Ret r, w') /\ env_ok w' /\ (plenty 2 w -> r = 0) /\
    (r = 0 /\ vars w' = set_var name value overwrite (vars w) \/ r = -1 /\ vars w' = delete name (vars w))) /\
  (exists r w', setenv2 name value overwrite w = (Ret r, w') /\ env_ok w' /\ (plenty 2 w -> r = 0) /\
    (r = 0 /\ vars w' = set_var name value overwrite (vars w) \/ r = -1 /\ vars w' = vars w)).
Proof.
  intros Hv Hok Hlen. pose proof Hv as (_ & Heq & _). split; [by apply getenv_runs|]. split; [|split].
  - destruct (unsetenv_runs name w Hv Hok) as (w1 & E1 & H1). exists w1. destruct (env_set_ok _ _ _ H1) as [Hok1 Hl1]. split; [done|]. split; [done|].
    unfold vars. by rewrite Hl1, undefine_map.
  - destruct (setenv_runs name value overwrite w Hv Hok) as (r & w1 & E1 & Hok1 & _ & Hr & Hp). eauto 10.
  - destruct (setenv2_runs name value overwrite w Heq Hok Hlen) as (r & w1 & E1 & Hok1 & _ & Hr & Hp). eauto 10.
Qed.

(** C8: with enough memory modify_env ends with success after a line for each variable of
    its arguments, where a later one replaces an earlier one and an argument without an
    equals sign removes its variable, for GREET in any case, and for no variable BYE. *)
Theorem modify_env_shows args w :
  allocs w = [] -> exists l w', modify_env args w = (Exit EXIT_SUCCESS, w') /\
    out w' = out w ++ concat (map (fun s => s ++ [10]) l) /\ l ≡ₚ map show_var (map_to_list (modified args)).
Proof.
  intros Ha. unfold modify_env. mrun (eq_refl : clearenv w = (Ret tt, set_environ None w)).
  destruct (put_args_vars args (set_environ None w)) as (w1 & E1 & Hk1 & Hv1 & Ho1); [done|]. mrun E1.
  assert (exists w2, libc_setenv GREET (lit "Hello world") 0 w1 = (Ret 0, w2) /\ kept_env w2 /\ vars w2 = set_var GREET (lit "Hello world") 0 (vars w1) /\ out w2 = out w1 /\ is_Some (environ w2)) as (w2 & E2 & Hk2 & Hv2 & Ho2 & Hs2).
  { unfold libc_setenv. change (bool_decide (GREET = []) || has_equals GREET) with false. cbv iota. mrun (getenv_runs GREET w1 eq_refl). rewrite kept. unfold set_var. case_bool_decide as Hk.
    - exists w1. rewrite decide_True by done. split; [done|]. split; [done|]. split; [done|]. split; [done|]. destruct Hk as [_ Hk]. unfold vars, env_list in Hk.
      destruct (environ w1); [by eexists|]. by destruct Hk.
    - rewrite decide_False by done. assert (allocate w1 = (Ret true, w1)) as Eal by (unfold allocate; destruct Hk1 as (_ & Hal & _); by rewrite Hal). mrun Eal.
      destruct (add_keeps GREET (lit "Hello world") w1 eq_refl Hk1) as (H1 & H2 & H3). eexists. split; [done|]. split; [exact H1|]. split; [exact H2|]. split; [done|exact H3]. }
  assert ((let* r := libc_setenv (lit "GREET") (lit "Hello world") 0 in if r =? -1 then exit_with EXIT_FAILURE else ret tt) w1 = (Ret tt, w2)) as Eg by by mrun E2.
  mrun Eg.
  assert (exists w3, libc_unsetenv BYE w2 = (Ret 0, w3) /\ kept_env w3 /\ vars w3 = delete BYE (vars w2) /\ out w3 = out w2 /\ is_Some (environ w3)) as (w3 & E3 & Hk3 & Hv3 & Ho3 & Hs3).
  { destruct (remove_keeps BYE w2 eq_refl Hk2) as (w3 & E3 & H1 & H2 & H3 & H4). exists w3. split; [|split; [done|split; [done|split; [done|by apply H4]]]].
    unfold libc_unsetenv. change (bool_decide (BYE = []) || has_equals BYE) with false. cbv iota. by mrun E3. }
  mrun E3. destruct (display_prints w3) as (w4 & E4 & Ho4).
  { destruct Hs3 as [cells Hc]. exists cells. split; [done|]. destruct Hk3 as (_ & _ & Hh). by rewrite Hc in Hh. }
  exists (env_list w3), w4. split; [exact E4|]. split; [rewrite Ho4; f_equal; rewrite Ho3, Ho2, Ho1; done|].
  rewrite (distinct_shows (env_list w3)) by apply Hk3. change (env_map (env_list w3)) with (vars w3). rewrite Hv3, Hv2, Hv1. done.
Qed.

(** A name that is NULL, empty or holds an equals sign is refused, and so is a value
    that is NULL. *)
Theorem setenv_refuses name value overwrite w :
  match name with Some n => ~ (n <> [] /\ has_equals n = false) | None => True end \/ value = None ->
  setenv name value overwrite w = (Ret (-1), set_errno EINVAL w).
Proof.
  intros Hr. unfold setenv. destruct name as [[|b n]|]; [done| |done]. destruct (has_equals (b :: n)) eqn:E; [done|].
  destruct value as [v|]; [|done]. exfalso. destruct Hr as [Hr|Hr]; [|done]. by apply Hr.
Qed.

(** *** Examples *)

Definition demo_env (l : list (list Z)) : world := mk_world (Some (cells_of l)) 0 [] [].

(** Both definitions of a name are removed, and the array keeps its size. *)
Example unsetenv_example : snd (unsetenv (Some (lit "A")) (demo_env [lit "A=1"; lit "AB=2"; lit "A=3"; lit "B=4"])) =
  mk_world (Some [Some (lit "AB=2"); Some (lit "B=4"); None; None; None]) 0 [] [].
Proof. vm_compute. reflexivity. Qed.

(** After clearenv, setenv follows a null pointer. *)
Example setenv_after_clearenv : fst ((clearenv ;;; setenv (Some (lit "A")) (Some (lit "1")) 1) (demo_env [])) = Fault.
Proof. vm_compute. reflexivity. Qed.

(** Without memory for the new string, setenv has already removed the old one. *)
Example setenv_without_memory :
  (fun r => (fst r, env_list (snd r))) (setenv (Some (lit "A")) (Some (lit "2")) 1 (mk_world (Some (cells_of [lit "A=1"])) 0 [false] [])) = (Ret (-1), []).
Proof. vm_compute. reflexivity. Qed.

(** setenv2 does not look at the name: this one sets A. *)
Example setenv2_unchecked :
  (fun r => (fst r, env_list (snd r))) (setenv2 (lit "A=B") (lit "C") 1 (demo_env [])) = (Ret 0, [lit "A=B=C"]).
Proof. vm_compute. reflexivity. Qed.

Lemma environment_is_map_witness :
  exists r w', setenv2 (lit "SPIDER") (lit "WOMAN") 1 (demo_env [lit "SPIDER=MAN"; lit "SPIDER=PIG"]) = (Ret r, w') /\ env_ok w' /\
    (plenty 2 (demo_env [lit "SPIDER=MAN"; lit "SPIDER=PIG"]) -> r = 0) /\
    (r = 0 /\ vars w' = set_var (lit "SPIDER") (lit "WOMAN") 1 (vars (demo_env [lit "SPIDER=MAN"; lit "SPIDER=PIG"])) \/
     r = -1 /\ vars w' = vars (demo_env [lit "SPIDER=MAN"; lit "SPIDER=PIG"])).
Proof.
  assert (valid_name (lit "SPIDER")) as Hv by (split; [discriminate|]; split; [reflexivity|]; repeat constructor; discriminate).
  assert (env_ok (demo_env [lit "SPIDER=MAN"; lit "SPIDER=PIG"])) as Hok by (eexists; split; [reflexivity|by exists []]).
  assert (Z.of_nat (length (lit "SPIDER" ++ [61] ++ lit "WOMAN")) <= INT_MAX) as Hl by (vm_compute; discriminate).
  exact (proj2 (proj2 (proj2 (environment_is_map (lit "SPIDER") (lit "WOMAN") 1 _ Hv Hok Hl)))).
Defined.

Lemma setenv_refuses_witness : setenv (Some (lit "A=B")) (Some (lit "C")) 1 (demo_env []) = (Ret (-1), set_errno EINVAL (demo_env [])).
Proof. apply setenv_refuses. left. intros [_ H]. discriminate. Defined.

Lemma modify_env_shows_witness : exists l w', modify_env [lit "A=1"; lit "BYE=2"; lit "A=3"] (demo_env [lit "HOME=/"]) = (Exit EXIT_SUCCESS, w') /\
  out w' = out (demo_env [lit "HOME=/"]) ++ concat (map (fun s => s ++ [10]) l) /\ l ≡ₚ map show_var (map_to_list (modified [lit "A=1"; lit "BYE=2"; lit "A=3"])).
Proof. exact (modify_env_shows [lit "A=1"; lit "BYE=2"; lit "A=3"] (demo_env [lit "HOME=/"]) eq_refl). Defined.
