(* ===== verification/Acl.v ===== *)
(** * tlpi/tlpi-dist/acl: acl_update.c

    The program that changes access control lists: the parsing of specifications,
    the changes of lists and [main].  A list of the ACL library is the list of its
    entries and an entry a position in it; what the library computes from whole
    lists is the class [libacl].  [EF_DUMPCORE] is not set. *)

From stdpp Require Import prelude list_numbers strings gmap.
From Stdlib Require Import ZArith Lia.
From S2P Require Import Prelude CLib Vfs TlpiLib Users.
Open Scope Z_scope.

(** ** Lists *)

Inductive acl_tag := ACL_UNDEFINED_TAG | ACL_USER_OBJ | ACL_USER | ACL_GROUP_OBJ | ACL_GROUP | ACL_MASK | ACL_OTHER.

#[export] Instance acl_tag_eq_dec : EqDecision acl_tag.
Proof. solve_decision. Defined.

Definition tag_number (t : acl_tag) : nat :=
  match t with
  | ACL_UNDEFINED_TAG => 0 | ACL_USER_OBJ => 1 | ACL_USER => 2 | ACL_GROUP_OBJ => 3
  | ACL_GROUP => 4 | ACL_MASK => 5 | ACL_OTHER => 6
  end.

#[export] Program Instance acl_tag_countable : Countable acl_tag :=
  inj_countable tag_number
    (fun n => nth_error [ACL_UNDEFINED_TAG; ACL_USER_OBJ; ACL_USER; ACL_GROUP_OBJ; ACL_GROUP; ACL_MASK; ACL_OTHER] n) _.
Next Obligation. by intros []. Qed.

Definition ACL_EXECUTE : Z := 1.
Definition ACL_WRITE : Z := 2.
Definition ACL_READ : Z := 4.

(** [struct AccessControlEntry], and the entries of the library's lists. *)
Record ace := mk_ace { ace_tag : acl_tag; ace_qual : Z; ace_perms : Z }.

#[export] Instance ace_eq_dec : EqDecision ace.
Proof. solve_decision. Defined.

(** Tags that need a qualifier. *)
Definition qualified (t : acl_tag) : bool := match t with ACL_USER | ACL_GROUP => true | _ => false end.

(** What an entry is for. *)
Definition ace_key (e : ace) : acl_tag * Z := (ace_tag e, if qualified (ace_tag e) then ace_qual e else 0).

(** The union of the permissions the mask limits. *)
Definition mask_perms (l : list ace) : Z :=
  fold_right Z.lor 0 (map ace_perms (filter (fun e => ace_tag e = ACL_USER \/ ace_tag e = ACL_GROUP \/ ace_tag e = ACL_GROUP_OBJ) l)).

(** A list that acl_valid accepts, after its manual page. *)
Definition acl_sound (l : list ace) : Prop :=
  NoDup (map ace_key l) /\ (forall t, t = ACL_USER_OBJ \/ t = ACL_GROUP_OBJ \/ t = ACL_OTHER -> t ∈ map ace_tag l) /\
  (ACL_USER ∈ map ace_tag l \/ ACL_GROUP ∈ map ace_tag l -> ACL_MASK ∈ map ace_tag l) /\ ACL_UNDEFINED_TAG ∉ map ace_tag l.

(** acl_calc_mask and acl_valid. *)
Class libacl := {
  calc_mask : list ace -> list ace;
  acl_valid : list ace -> bool;
  calc_mask_spec : forall l, exists q, calc_mask l ≡ₚ mk_ace ACL_MASK q (mask_perms l) :: filter (fun e => ace_tag e <> ACL_MASK) l;
  acl_valid_spec : forall l, acl_valid l = true <-> acl_sound l
}.

(** The access list and the default list of each file; the results of the calls that
    can fail, 0 for success, all of them when there are no more. *)
Record aclw := mk_aclw {
  w_files : gmap (list Z) (list ace * list ace);
  w_script : list Z;
  w_out : list Z;
  w_err : list Z
}.

Definition set_w_files v w := mk_aclw v (w_script w) (w_out w) (w_err w).
Definition set_w_script v w := mk_aclw (w_files w) v (w_out w) (w_err w).
Definition set_w_out v w := mk_aclw (w_files w) (w_script w) v (w_err w).
Definition set_w_err v w := mk_aclw (w_files w) (w_script w) (w_out w) v.

Inductive operation := unspecifiedOp | modifyEntries | removeEntries | removeDefaultACL | checkValidACL.

#[export] Instance operation_eq_dec : EqDecision operation.
Proof. solve_decision. Defined.

Definition MAX_ENTRIES : Z := 10000.

(** [strchr]: what is before the character, and what is behind it. *)
Fixpoint strchr (c : Z) (l : list Z) : list Z * option (list Z) :=
  match l with
  | [] => ([], None)
  | x :: l => if x =? c then ([], Some l) else let '(a, b) := strchr c l in (x :: a, b)
  end.

Section Program.
Context `{libc} `{userdb} `{libacl}.

Definition eprint (t : list Z) : M aclw unit := modify (fun w => set_w_err (w_err w ++ t) w).

(** ** Errors *)

Definition next_result : M aclw Z :=
  let* w := get in
  match w_script w with [] => ret 0 | e :: s => put (set_w_script s w) ;;; ret e end.

Definition errExit {A} (e : Z) (msg : list Z) : M aclw A :=
  eprint (fitted (lit "ERROR" ++ fitted (lit " [" ++
    (if (0 <? e) && (e <? Z.of_nat (length ename)) then ename !!! Z.to_nat e else lit "?UNKNOWN?") ++ lit " " ++ strerror e ++ lit "]")
    ++ lit " " ++ fitted msg ++ [10])) ;;;
  exit_with EXIT_FAILURE.

Definition fatal {A} (msg : list Z) : M aclw A :=
  eprint (fitted (lit "ERROR" ++ lit ":" ++ lit " " ++ fitted msg ++ [10])) ;;; exit_with EXIT_FAILURE.

(** A call of the library that can only fail. *)
Definition call (msg : list Z) : M aclw unit :=
  let* e := next_result in if e =? 0 then ret tt else errExit e msg.

Definition usageError {A} (progName : list Z) (msg : option (list Z)) (shortUsage : bool) : M aclw A :=
  (match msg with Some msg => eprint (msg ++ [10]) | None => ret tt end) ;;;
  if shortUsage then
    eprint (lit "Type '" ++ progName ++ lit " --help' for usage information" ++ [10]) ;;; exit_with EXIT_FAILURE
  else
    eprint (lit "Usage: " ++ progName ++ lit " -m acl [-d] [-n] file..." ++ [10]) ;;;
    eprint (lit "   or: " ++ progName ++ lit " -x acl [-d] [-n] file..." ++ [10]) ;;;
    eprint (lit "   or: " ++ progName ++ lit " -k file..." ++ [10; 10]) ;;;
    eprint (lit "   or: " ++ progName ++ lit " -V acl" ++ [10; 10]) ;;;
    eprint (lit "      -m  Modify/create ACL entries" ++ [10]) ;;;
    eprint (lit "      -x  Remove ACL entries" ++ [10]) ;;;
    eprint (lit "      -k  Remove default ACL" ++ [10; 10]) ;;;
    eprint (lit "      -V  Check validity of 'acl'" ++ [10; 10]) ;;;
    eprint (lit "      'acl' consists of one or more comma-separated entries of the form:" ++ [10]) ;;;
    eprint (lit "      " ++ [10] ++ lit "            tag:[qualifier][:[perms]]" ++ [10; 10]) ;;;
    eprint (lit "            'perms' are specified only for -m" ++ [10; 10]) ;;;
    eprint (lit "      -d  Apply operation to default ACL" ++ [10]) ;;;
    eprint (lit "      -n  Don't recalculate mask entry" ++ [10]) ;;;
    eprint (lit "            NOTE: if you specify this option and have specified" ++ [10]) ;;;
    eprint (lit "            the -m option, then you may encounter errors if the" ++ [10]) ;;;
    eprint (lit "            file does not already have a mask entry." ++ [10]) ;;;
    exit_with EXIT_FAILURE.

(** ** Parsing *)

Fixpoint parsePerms (l : list Z) (perms : Z) : M aclw (bool * Z) :=
  match l with
  | [] => ret (true, perms)
  | c :: l =>
      if c =? 114 then parsePerms l (Z.lor perms ACL_READ)
      else if c =? 119 then parsePerms l (Z.lor perms ACL_WRITE)
      else if c =? 120 then parsePerms l (Z.lor perms ACL_EXECUTE)
      else if negb (c =? 45) then
        eprint (lit "Bad character in permissions string: " ++ [c; 10]) ;;; ret (false, perms)
      else parsePerms l perms
  end.

Definition parseTag (t : list Z) (hasQual : bool) : option acl_tag :=
  if bool_decide (t = lit "u") || bool_decide (t = lit "user") then Some (if hasQual then ACL_USER else ACL_USER_OBJ)
  else if bool_decide (t = lit "g") || bool_decide (t = lit "group") then Some (if hasQual then ACL_GROUP else ACL_GROUP_OBJ)
  else if bool_decide (t = lit "o") || bool_decide (t = lit "other") then Some ACL_OTHER
  else if bool_decide (t = lit "m") || bool_decide (t = lit "mask") then Some ACL_MASK
  else None.

(** [*ace] before and after. *)
Definition parseEntrySpec (entryStr : list Z) (e : ace) (permsReqd : bool) : M aclw (bool * ace) :=
  let '(tagStr, colon1) := strchr 58 entryStr in
  match colon1 with
  | None => eprint (lit "Missing initial colon in ACL entry: " ++ entryStr ++ [10]) ;;; ret (false, e)
  | Some rest =>
      let hasQual := match rest with [] => false | c :: _ => negb (c =? 58) end in
      let '(qualStr, colon2) := strchr 58 rest in
      let hasPerms := match colon2 with Some (_ :: _) => true | _ => false end in
      if hasPerms && negb permsReqd then eprint (lit "Cannot specify permissions here" ++ [10]) ;;; ret (false, e)
      else if negb hasPerms && permsReqd then eprint (lit "Must specify permissions" ++ [10]) ;;; ret (false, e)
      else
        match parseTag tagStr hasQual with
        | None => eprint (lit "Bad tag: " ++ tagStr ++ [10]) ;;; ret (false, e)
        | Some t =>
            let qual := match t with
              | ACL_USER => userIdFromName (Some qualStr)
              | ACL_GROUP => groupIdFromName (Some qualStr)
              | _ => 0
              end in
            let e := mk_ace t qual (ace_perms e) in
            if qualified t && (wraps 32 qual =? -1) then
              eprint ((if bool_decide (t = ACL_USER) then lit "Bad user ID: " else lit "Bad group ID: ") ++ qualStr ++ [10]) ;;;
              ret (false, e)
            else
              match colon2 with
              | Some ((_ :: _) as perms) =>
                  let* ' (ok, p) := parsePerms perms 0 in ret (ok, mk_ace t qual p)
              | _ => ret (true, e)
              end
        end
  end.

Fixpoint parse_loop (fuel : nat) (n : Z) (nextEntry : list Z) (aclist : list ace) (permsReqd : bool) : M aclw (Z * list ace) :=
  match fuel with
  | O => blocked
  | S fuel =>
      if MAX_ENTRIES <=? n then eprint (lit "Too many entries in ACL" ++ [10]) ;;; ret (-1, aclist) else
      let '(entry, comma) := strchr 44 nextEntry in
      let* e := deref (zlookup aclist n) in
      let* ' (ok, e) := parseEntrySpec entry e permsReqd in
      let* aclist := deref (zupdate aclist n e) in
      if negb ok then ret (-1, aclist) else
      match comma with
      | None => ret (n + 1, aclist)
      | Some nextEntry => parse_loop fuel (n + 1) nextEntry aclist permsReqd
      end
  end.

Definition parseACL (aclStr : list Z) (aclist : list ace) (permsReqd : bool) : M aclw (Z * list ace) :=
  parse_loop (S (length aclStr)) 0 aclStr aclist permsReqd.

(** ** Changing a list *)

(** The entry is the [j]-th, or NULL. *)
Fixpoint findEntry (l : list ace) (j : nat) (t : acl_tag) (qual : Z) : M aclw (option nat) :=
  call (lit "acl_get_entry") ;;;
  match l with
  | [] => ret None
  | e :: l =>
      call (lit "acl_get_tag_type") ;;;
      if bool_decide (t = ace_tag e) then
        if qualified t then
          call (lit "acl_get_qualifier") ;;;
          if qual =? ace_qual e then call (lit "acl_free") ;;; ret (Some j)
          else call (lit "acl_free") ;;; findEntry l (S j) t qual
        else ret (Some j)
      else findEntry l (S j) t qual
  end.

Definition add_perm (p perms set : Z) : M aclw Z :=
  if flag perms p then call (lit "acl_add_perm") ;;; ret (Z.lor set p) else ret set.

Definition set_ace (l : list ace) (j : nat) (f : ace -> ace) : M aclw (list ace) :=
  let* e := deref (l !! j) in ret (<[j := f e]> l).

Definition setPerms (l : list ace) (j : nat) (perms : Z) : M aclw (list ace) :=
  call (lit "acl_get_permset") ;;;
  call (lit "acl_clear_perms") ;;;
  let* set := add_perm ACL_READ perms 0 in
  let* set := add_perm ACL_WRITE perms set in
  let* set := add_perm ACL_EXECUTE perms set in
  call (lit "acl_set_permset") ;;;
  set_ace l j (fun e => mk_ace (ace_tag e) (ace_qual e) set).

Definition get_file (file : list Z) (dflt : bool) : M aclw (list ace) :=
  call (lit "acl_get_file") ;;;
  let* w := get in
  match w_files w !! file with
  | Some (a, d) => ret (if dflt then d else a)
  | None => errExit ENOENT (lit "acl_get_file")
  end.

Definition set_file (file : list Z) (dflt : bool) (l : list ace) : M aclw unit :=
  call (lit "acl_set_file") ;;;
  let* w := get in
  match w_files w !! file with
  | Some (a, d) => modify (set_w_files (<[file := if dflt then (a, l) else (l, d)]> (w_files w)))
  | None => errExit ENOENT (lit "acl_set_file")
  end.

(** One entry of the specification. *)
Definition apply_entry (acl : list ace) (op : operation) (e : ace) : M aclw (list ace) :=
  let* entry := findEntry acl 0 (ace_tag e) (ace_qual e) in
  if bool_decide (op = removeEntries) then
    match entry with
    | Some j => call (lit "acl_delete_entry") ;;; ret (take j acl ++ drop (S j) acl)
    | None => ret acl
    end
  else
    match entry with
    | Some j => setPerms acl j (ace_perms e)
    | None =>
        call (lit "acl_create_entry") ;;;
        let j := length acl in
        let acl := acl ++ [mk_ace ACL_UNDEFINED_TAG 0 0] in
        call (lit "acl_set_tag_type") ;;;
        let* acl := set_ace acl j (fun x => mk_ace (ace_tag e) (ace_qual x) (ace_perms x)) in
        let* acl :=
          (if qualified (ace_tag e) then
             call (lit "acl_set_qualifier") ;;;
             set_ace acl j (fun x => mk_ace (ace_tag x) (ace_qual e) (ace_perms x))
           else ret acl) in
        setPerms acl j (ace_perms e)
    end.

Fixpoint update_loop (file : list Z) (dflt : bool) (acl : list ace) (l : list ace) (op : operation) (recalcMask : bool) : M aclw unit :=
  match l with
  | [] => ret tt
  | e :: l =>
      let* acl := apply_entry acl op e in
      let* acl := (if recalcMask then call (lit "acl_calc_mask") ;;; ret (calc_mask acl) else ret acl) in
      (if acl_valid acl then ret tt else errExit EINVAL (lit "acl_valid")) ;;;
      set_file file dflt acl ;;;
      update_loop file dflt acl l op recalcMask
  end.

Definition updateACL (file : list Z) (useDefaultACL : bool) (numEntries : Z) (aclist : list ace) (op : operation) (recalcMask : bool) : M aclw unit :=
  let* acl := get_file file useDefaultACL in
  update_loop file useDefaultACL acl (take (Z.to_nat numEntries) aclist) op recalcMask ;;;
  call (lit "acl_free").

(** ** main *)

(** The letters of an argument of options: d, k and n stand alone, those of m, x and
    V take the rest of the argument, or the next one; anything else is a question
    mark, with what getopt writes. *)
Fixpoint option_letters (l : list Z) (next : list (list Z)) : list (Z * list Z) * list (list Z) :=
  match l with
  | [] => ([], next)
  | c :: l =>
      if (c =? 100) || (c =? 107) || (c =? 110) then let '(os, next) := option_letters l next in ((c, []) :: os, next)
      else if (c =? 109) || (c =? 120) || (c =? 86) then
        match l, next with
        | _ :: _, _ => ([(c, l)], next)
        | [], a :: next => ([(c, a)], next)
        | [], [] => ([(63, lit "option requires an argument -- '" ++ [c] ++ lit "'")], [])
        end
      else ([(63, lit "invalid option -- '" ++ [c] ++ lit "'")], next)
  end.

(** The options, and the other arguments in the order getopt gives. *)
Fixpoint parse_options (fuel : nat) (argv : list (list Z)) : list (Z * list Z) * list (list Z) :=
  match fuel, argv with
  | O, _ | _, [] => ([], argv)
  | S fuel, a :: argv =>
      if bool_decide (a = lit "--") then ([], argv) else
      match a with
      | 45 :: c :: r =>
          let '(os, argv) := option_letters (c :: r) argv in
          let '(os', ns) := parse_options fuel argv in (os ++ os', ns)
      | _ => let '(os, ns) := parse_options fuel argv in (os, a :: ns)
      end
  end.

(** The local variables the options set. *)
Record settings := mk_settings { o_op : operation; o_recalc : bool; o_dflt : bool; o_cnt : Z; o_spec : option (list Z) }.

Fixpoint set_options (a0 : list Z) (l : list (Z * list Z)) (s : settings) : M aclw settings :=
  match l with
  | [] => ret s
  | (c, a) :: l =>
      let* s :=
        (if c =? 109 then ret (mk_settings modifyEntries (o_recalc s) (o_dflt s) (o_cnt s + 1) (Some a))
         else if c =? 120 then ret (mk_settings removeEntries (o_recalc s) (o_dflt s) (o_cnt s + 1) (Some a))
         else if c =? 107 then ret (mk_settings removeDefaultACL (o_recalc s) (o_dflt s) (o_cnt s + 1) (o_spec s))
         else if c =? 86 then ret (mk_settings checkValidACL (o_recalc s) (o_dflt s) (o_cnt s + 1) (Some a))
         else if c =? 100 then ret (mk_settings (o_op s) (o_recalc s) true (o_cnt s) (o_spec s))
         else if c =? 110 then ret (mk_settings (o_op s) false (o_dflt s) (o_cnt s) (o_spec s))
         else
           eprint (a0 ++ lit ": " ++ a ++ [10]) ;;;
           usageError a0 (Some (lit "Bad option" ++ [10])) true) in
      set_options a0 l s
  end.

Definition delete_default (file : list Z) : M aclw unit :=
  call (lit "acl_delete_def_file: " ++ file) ;;;
  let* w := get in
  match w_files w !! file with
  | Some (a, _) => modify (set_w_files (<[file := (a, [])]> (w_files w)))
  | None => errExit ENOENT (lit "acl_delete_def_file: " ++ file)
  end.

Fixpoint update_files (files : list (list Z)) (s : settings) (numEntries : Z) (aclist : list ace) : M aclw unit :=
  match files with
  | [] => ret tt
  | file :: files =>
      (if bool_decide (o_op s = removeDefaultACL) then delete_default file
       else if bool_decide (o_op s = modifyEntries) || bool_decide (o_op s = removeEntries) then
         updateACL file (o_dflt s) numEntries aclist (o_op s) (o_recalc s)
       else fatal (lit "Bad logic!")) ;;;
      update_files files s numEntries aclist
  end.

(** [aclist] is what the array holds at first. *)
Definition main (aclist : list ace) (argv : list (list Z)) : M aclw unit :=
  let* a0 := deref (head argv) in
  (if (Z.of_nat (length argv) <? 2) || bool_decide (argv !! 1%nat = Some (lit "--help")) then usageError a0 None false else ret tt) ;;;
  let '(os, files) := parse_options (length argv) (tail argv) in
  let* s := set_options a0 os (mk_settings unspecifiedOp true false 0 None) in
  (if negb (o_cnt s =? 1) then usageError a0 (Some (lit "Specify exactly one of -m, -x, -k, or -V" ++ [10])) true else ret tt) ;;;
  (if bool_decide (o_op s = checkValidACL) && o_dflt s then usageError a0 (Some (lit "Can't specify -d with -V" ++ [10])) true else ret tt) ;;;
  (if bool_decide (o_op s = checkValidACL) then
     let* spec := deref (o_spec s) in
     let* ' (n, _) := parseACL spec aclist true in
     if n =? -1 then fatal (lit "Bad ACL entry specification")
     else modify (fun w => set_w_out (w_out w ++ lit "ACL is valid" ++ [10]) w) ;;; exit_with EXIT_SUCCESS
   else ret tt) ;;;
  let* ' (numEntries, aclist) :=
    (if bool_decide (o_op s = modifyEntries) || bool_decide (o_op s = removeEntries) then
       let* spec := deref (o_spec s) in
       let* ' (n, aclist) := parseACL spec aclist (bool_decide (o_op s = modifyEntries)) in
       if n =? -1 then usageError a0 (Some (lit "Bad ACL specification" ++ [10])) true else ret (n, aclist)
     else ret (0, aclist)) in
  update_files files s numEntries aclist ;;;
  exit_with EXIT_SUCCESS.

End Program.

(** *** An instance of the library *)

(** [acl_sound] with its three entries one by one. *)
Definition acl_parts (l : list ace) : Prop :=
  NoDup (map ace_key l) /\ (ACL_USER_OBJ ∈ map ace_tag l /\ ACL_GROUP_OBJ ∈ map ace_tag l /\ ACL_OTHER ∈ map ace_tag l) /\
  (ACL_USER ∈ map ace_tag l \/ ACL_GROUP ∈ map ace_tag l -> ACL_MASK ∈ map ace_tag l) /\ ACL_UNDEFINED_TAG ∉ map ace_tag l.

Lemma acl_sound_alt l : acl_sound l <-> acl_parts l.
Proof.
  unfold acl_sound, acl_parts. split; [intros (H1 & H2 & H3 & H4)|intros (H1 & (H2 & H2' & H2'') & H3 & H4)].
  - split; [done|]. split; [split; [|split]; apply H2; tauto|by split].
  - split; [done|]. split; [by intros t [-> | [-> | ->]]|by split].
Qed.

#[export] Instance acl_parts_dec l : Decision (acl_parts l).
Proof. unfold acl_parts. solve_decision. Defined.

#[export] Instance acl_sound_dec l : Decision (acl_sound l).
Proof. destruct (decide (acl_parts l)) as [Hp|Hp]; [left; by apply acl_sound_alt|right; by intros Hs%acl_sound_alt]. Defined.

Lemma demo_mask_spec l : exists q, mk_ace ACL_MASK 0 (mask_perms l) :: filter (fun e => ace_tag e <> ACL_MASK) l ≡ₚ
  mk_ace ACL_MASK q (mask_perms l) :: filter (fun e => ace_tag e <> ACL_MASK) l.
Proof. by exists 0. Qed.

Definition demo_libacl : libacl := {|
  calc_mask := fun l => mk_ace ACL_MASK 0 (mask_perms l) :: filter (fun e => ace_tag e <> ACL_MASK) l;
  acl_valid := fun l => bool_decide (acl_sound l);
  calc_mask_spec := demo_mask_spec;
  acl_valid_spec := fun l => bool_decide_eq_true (acl_sound l)
|}.

Definition demo_acl : list ace := [mk_ace ACL_USER_OBJ 0 6; mk_ace ACL_GROUP_OBJ 0 4; mk_ace ACL_OTHER 0 4].
Definition demo_world : aclw := mk_aclw {[lit "f" := (demo_acl, [])]} [] [] [].
Definition demo_array : list ace := replicate (Z.to_nat MAX_ENTRIES) (mk_ace ACL_UNDEFINED_TAG 0 0).

Lemma demo_length : length demo_array = Z.to_nat MAX_ENTRIES.
Proof. apply length_replicate. Qed.
