(* ===== verification/AclSafe.v ===== *)
(** * tlpi/tlpi-dist/acl: what acl_update never does

    Whatever the arguments and whichever calls fail, acl_update ends, stays in its
    array, stores only valid lists and leaves the files it is not given alone. *)

From stdpp Require Import prelude list_numbers strings gmap.
From Stdlib Require Import ZArith Lia.
From S2P Require Import Prelude CLib Vfs TlpiLib FileRun Users Acl.
Open Scope Z_scope.
Set Warnings "-clear-no-such-hyp".

(** ** Lists of entries *)

Definition valid_lists (F : gmap (list Z) (list ace * list ace)) : Prop :=
  map_Forall (fun _ p => acl_sound (fst p) /\ (acl_sound (snd p) \/ snd p = [])) F.

(** What a run does to the files when it may change those of [fs]. *)
Definition careful (fs : list (list Z)) (F F' : gmap (list Z) (list ace * list ace)) : Prop :=
  (valid_lists F -> valid_lists F') /\ forall f, f ∉ fs -> F' !! f = F !! f.

#[export] Instance careful_preorder fs : PreOrder (careful fs).
Proof. split; [done|]. intros F1 F2 F3 [H1 H1'] [H2 H2']. split; [auto|]. intros f Hf. by rewrite H2', H1'. Qed.

(** [m] ends, with a result of [Q] or, if it [may], by leaving the program. *)
Definition steps {A} (may : Prop) (fs : list (list Z)) (m : M aclw A) (Q : A -> Prop) : Prop :=
  forall w, match fst (m w) with Ret a => Q a | Exit _ => may | _ => False end /\ careful fs (w_files w) (w_files (snd (m w))).

Lemma steps_ret {A} may fs (a : A) (Q : A -> Prop) : Q a -> steps may fs (ret a) Q.
Proof. intros H w. by split. Qed.

Lemma steps_exit {A} (may : Prop) fs c (Q : A -> Prop) : may -> steps may fs (exit_with c) Q.
Proof. intros H w. by split. Qed.

Lemma steps_quiet may fs g (Q : unit -> Prop) : Q tt -> (forall w, w_files (g w) = w_files w) -> steps may fs (modify g) Q.
Proof. intros HQ H w. split; [done|]. cbn. by rewrite H. Qed.

Lemma steps_bind {A B} may fs (m : M aclw A) (k : A -> M aclw B) (R : A -> Prop) Q :
  steps may fs m R -> (forall a, R a -> steps may fs (k a) Q) -> steps may fs (bind m k) Q.
Proof.
  intros Hm Hk w. destruct (Hm w) as [H1 H2]. unfold bind. destruct (m w) as [[a|c| |] w']; cbn in *; try done.
  destruct (Hk a H1 w') as [H3 H4]. split; [done|]. by trans (w_files w').
Qed.

Lemma steps_seq {A B} may fs (m : M aclw A) (k : A -> M aclw B) Q :
  steps may fs m (fun _ => True) -> (forall a, steps may fs (k a) Q) -> steps may fs (bind m k) Q.
Proof. intros Hm Hk. eapply steps_bind; [exact Hm|auto]. Qed.

Lemma steps_weaken {A} may fs (m : M aclw A) (R Q : A -> Prop) : steps may fs m R -> (forall a, R a -> Q a) -> steps may fs m Q.
Proof. intros Hm H w. destruct (Hm w) as [H1 H2]. split; [|done]. destruct (fst (m w)); auto. Qed.

Lemma steps_subset {A} may fs fs' (m : M aclw A) Q : fs ⊆ fs' -> steps may fs m Q -> steps may fs' m Q.
Proof. intros Hs H w. destruct (H w) as (H1 & H2 & H3). split; [done|]. split; [done|]. intros f Hf. apply H3. set_solver. Qed.

Lemma steps_deref {A} may fs (o : option A) (Q : A -> Prop) a : o = Some a -> Q a -> steps may fs (deref o) Q.
Proof. intros -> HQ. by apply steps_ret. Qed.

Section Steps.
Context `{libc} `{userdb} `{libacl}.
Variable fs : list (list Z).

Lemma steps_eprint may t (Q : unit -> Prop) : Q tt -> steps may fs (eprint t) Q.
Proof. intros HQ. by apply steps_quiet. Qed.

Lemma steps_errExit {A} e msg (Q : A -> Prop) : steps True fs (errExit e msg) Q.
Proof. apply steps_seq; [by apply steps_eprint|intros; by apply steps_exit]. Qed.

Lemma steps_fatal {A} msg (Q : A -> Prop) : steps True fs (fatal msg) Q.
Proof. apply steps_seq; [by apply steps_eprint|intros; by apply steps_exit]. Qed.

Lemma steps_call msg (Q : unit -> Prop) : Q tt -> steps True fs (call msg) Q.
Proof.
  intros HQ. apply steps_seq.
  - intros w. unfold next_result, bind, get. destruct (w_script w) eqn:E; cbn; by split.
  - intros e. destruct (e =? 0); [by apply steps_ret|apply steps_errExit].
Qed.

Lemma steps_usageError {A} p msg b (Q : A -> Prop) : steps True fs (usageError p msg b) Q.
Proof.
  unfold usageError. apply steps_seq; [destruct msg; [by apply steps_eprint|by apply steps_ret]|]. intros _.
  destruct b; repeat (apply steps_seq; [by apply steps_eprint|intros _]); by apply steps_exit.
Qed.
End Steps.

#[export] Hint Resolve steps_eprint steps_errExit steps_fatal steps_call steps_usageError steps_exit : stage0.
#[export] Hint Extern 1 (steps _ _ (ret _) _) => apply steps_ret : stage0.

(** Follows the program. *)
Ltac steps_step :=
  lazymatch goal with
  | |- forall _, steps _ _ _ _ => intros ?
  | |- steps _ _ (bind _ _) _ => apply steps_seq
  | |- steps _ _ (match ?x with _ => _ end) _ => destruct x eqn:?
  end.
Ltac steps := repeat (first [progress (eauto 3 with stage0) | steps_step]).

(** ** Parsing *)

(** An entry as the parser makes it. *)
Definition parsed (permsReqd : bool) (e : ace) : Prop :=
  ace_tag e <> ACL_UNDEFINED_TAG /\ (if qualified (ace_tag e) then wraps 32 (ace_qual e) <> -1 else ace_qual e = 0) /\
  (permsReqd = true -> 0 <= ace_perms e < 8).

Section Parsing.
Context `{libc} `{userdb} `{libacl}.
Variable may : Prop.
Variable fs : list (list Z).

Lemma lor_perms p q : 0 <= p < 8 -> 0 <= q < 8 -> 0 <= Z.lor p q < 8.
Proof.
  intros Hp Hq. assert (0 <= Z.lor p q) by (apply Z.lor_nonneg; lia). split; [done|].
  destruct (decide (Z.lor p q = 0)) as [->|]; [done|]. apply (Z.log2_lt_pow2 _ 3); [lia|]. rewrite Z.log2_lor by lia.
  pose proof (Z.log2_le_mono p 7 ltac:(lia)). pose proof (Z.log2_le_mono q 7 ltac:(lia)). change (Z.log2 7) with 2 in *. lia.
Qed.

Lemma parsePerms_steps l p : 0 <= p < 8 -> steps may fs (parsePerms l p) (fun r => 0 <= snd r < 8).
Proof.
  revert p. induction l as [|c l IH]; intros p Hp; cbn [parsePerms]; [by apply steps_ret|].
  repeat case_match; try (apply IH; apply lor_perms; [done|vm_compute; split; congruence]).
  - apply steps_seq; [by apply steps_eprint|intros _; by apply steps_ret].
  - by apply IH.
Qed.

Lemma parseTag_defined t b tag : parseTag t b = Some tag -> tag <> ACL_UNDEFINED_TAG.
Proof. unfold parseTag. intros Ht ->. repeat case_match; congruence. Qed.

Lemma parseEntrySpec_steps s e b :
  steps may fs (parseEntrySpec s e b) (fun r => fst r = true -> parsed b (snd r)).
Proof.
  unfold parseEntrySpec. destruct (strchr 58 s) as [tagStr [rest|]];
    [|by apply steps_seq; [apply steps_eprint|intros _; apply steps_ret]].
  destruct (strchr 58 rest) as [qualStr colon2]. cbv zeta.
  set (hp := match colon2 with Some (_ :: _) => true | _ => false end).
  destruct (hp && negb b) eqn:E1; [by apply steps_seq; [apply steps_eprint|intros _; apply steps_ret]|].
  destruct (negb hp && b) eqn:E2; [by apply steps_seq; [apply steps_eprint|intros _; apply steps_ret]|].
  destruct (parseTag tagStr _) as [t|] eqn:Et; [|by apply steps_seq; [apply steps_eprint|intros _; apply steps_ret]].
  apply parseTag_defined in Et. set (q := match t with ACL_USER => _ | _ => _ end).
  assert (forall p, qualified t && (wraps 32 q =? -1) = false -> (b = true -> 0 <= p < 8) -> parsed b (mk_ace t q p)) as Hok.
  { intros p Hq Hp. split; [done|]. split; [|done]. cbn. subst q. by destruct t; cbn in *; try done; apply Z.eqb_neq in Hq. }
  clearbody q.
  destruct (qualified t && (wraps 32 q =? -1)) eqn:E3; [by apply steps_seq; [apply steps_eprint|intros _; apply steps_ret]|].
  destruct colon2 as [[|c l]|].
  - apply steps_ret. intros _. apply Hok; [done|]. by destruct b.
  - eapply steps_bind; [by apply parsePerms_steps|]. intros [ok p] Hp. apply steps_ret. intros _. by apply Hok.
  - apply steps_ret. intros _. apply Hok; [done|]. by destruct b.
Qed.

(** How many commas there are. *)
Fixpoint commas (l : list Z) : nat :=
  match l with [] => 0%nat | c :: l => ((if (c =? 44)%Z then 1 else 0) + commas l)%nat end.

Lemma strchr_spec c l : match strchr c l with
  | (a, None) => a = l /\ c ∉ l
  | (a, Some b) => l = a ++ c :: b /\ c ∉ a
  end.
Proof.
  induction l as [|x l IH]; cbn; [split; [done|apply not_elem_of_nil]|]. destruct (Z.eqb_spec x c) as [->|Hx].
  { split; [done|apply not_elem_of_nil]. }
  destruct (strchr c l) as [a [b|]]; destruct IH as [-> IH]; (split; [done|]); rewrite not_elem_of_cons; auto.
Qed.

Lemma commas_app a b : commas (a ++ b) = (commas a + commas b)%nat.
Proof. induction a as [|x a IH]; cbn; [done|]. rewrite IH. lia. Qed.

Lemma commas_none a : 44 ∉ a -> commas a = 0%nat.
Proof.
  induction a as [|x a IH]; cbn; [done|]. rewrite not_elem_of_cons. intros [Hx Ha]. rewrite (IH Ha).
  by rewrite (proj2 (Z.eqb_neq x 44)) by congruence.
Qed.

(** The entries of the array that the loop leaves alone, and those it fills. *)
Definition parsed_into (b : bool) (l : list ace) (n : nat) (r : Z * list ace) (m : nat) : Prop :=
  length (snd r) = length l /\ take n (snd r) = take n l /\
  (fst r = -1 \/ fst r = Z.of_nat (n + S m) /\ fst r <= MAX_ENTRIES /\
     drop (n + S m) (snd r) = drop (n + S m) l /\ Forall (parsed b) (take (S m) (drop n (snd r)))).

Lemma parse_loop_steps fuel n s l b :
  (length s < fuel)%nat -> length l = Z.to_nat MAX_ENTRIES -> (n <= length l)%nat ->
  steps may fs (parse_loop fuel (Z.of_nat n) s l b) (fun r => parsed_into b l n r (commas s)).
Proof.
  revert n s l. induction fuel as [|fuel IH]; intros n s l Hf Hl Hn; [lia|]. cbn [parse_loop].
  assert (0 < MAX_ENTRIES) by done.
  destruct (Z.leb_spec MAX_ENTRIES (Z.of_nat n)).
  { apply steps_seq; [by apply steps_eprint|]. intros _. apply steps_ret. split; [done|]. split; [done|]. by left. }
  assert (n < length l)%nat as Hlt by lia.
  pose proof (strchr_spec 44 s) as Hs. destruct (strchr 44 s) as [entry comma].
  destruct (lookup_lt_is_Some_2 l n Hlt) as [e He].
  assert (zlookup l (Z.of_nat n) = Some e) as -> by (rewrite zlookup_nonneg by lia; by rewrite Nat2Z.id).
  eapply steps_bind; [by apply (steps_deref may fs (Some e) (fun x => x = e) e)|]. intros ? ->.
  eapply steps_bind; [apply parseEntrySpec_steps|]. intros [ok e'] He'. cbn in He'.
  assert (zupdate l (Z.of_nat n) e' = Some (<[n := e']> l)) as ->.
  { rewrite zupdate_range by lia. by rewrite Nat2Z.id. }
  eapply steps_bind; [by apply (steps_deref may fs (Some (<[n := e']> l)) (fun x => x = <[n := e']> l) (<[n := e']> l))|]. intros ? ->.
  destruct ok; cbn [negb].
  2:{ apply steps_ret. split; cbn [fst snd]; [by rewrite length_insert|]. split; [by rewrite take_insert_ge by lia|]. by left. }
  assert (drop n (<[n:=e']> l) = e' :: drop (S n) l) as Hd.
  { rewrite (drop_S _ e') by (apply list_lookup_insert_eq; lia). by rewrite drop_insert_lt by lia. }
  destruct comma as [nxt|].
  - destruct Hs as [-> Hc]. replace (Z.of_nat n + 1) with (Z.of_nat (S n)) by lia.
    eapply steps_weaken; [apply (IH (S n) nxt (<[n := e']> l)); [rewrite length_app in Hf; cbn in Hf; lia|by rewrite length_insert|rewrite length_insert; lia]|].
    rewrite commas_app. cbn [commas]. rewrite (commas_none entry) by done. cbn [Z.eqb Pos.eqb].
    intros [k l'] (P1 & P2 & P3). cbn [fst snd] in *. rewrite length_insert in P1. split; [done|]. split.
    { transitivity (take n (take (S n) l')); [by rewrite take_take, Nat.min_l by lia|]. rewrite P2, take_take, Nat.min_l by lia. by rewrite take_insert_ge by lia. }
    destruct P3 as [P3|(P3 & P4 & P5 & P6)]; [by left|right]. cbn [fst snd] in *.
    replace (n + S (0 + (1 + commas nxt)))%nat with (S n + S (commas nxt))%nat by lia. split; [done|]. split; [done|]. split.
    { rewrite P5. by rewrite drop_insert_lt by lia. }
    assert (drop n l' = e' :: drop (S n) l') as Hd'.
    { assert (l' !! n = Some e') as Hx. { rewrite <- (lookup_take_lt l' (S n)) by lia. rewrite P2, lookup_take_lt by lia. apply list_lookup_insert_eq. lia. }
      by apply drop_S. }
    rewrite Hd'. cbn [take plus]. constructor; [by apply He'|done].
  - destruct Hs as [-> Hc]. apply steps_ret. rewrite commas_none by done. split; cbn [fst snd]; [by rewrite length_insert|]. split; [by rewrite take_insert_ge by lia|].
    right. cbn [fst snd]. split; [lia|]. split; [lia|]. split; [by rewrite drop_insert_lt by lia|].
    rewrite Hd. cbn. constructor; [by apply He'|constructor].
Qed.

Lemma parseACL_steps s l b :
  length l = Z.to_nat MAX_ENTRIES ->
  steps may fs (parseACL s l b) (fun r => parsed_into b l 0 r (commas s)).
Proof. intros Hl. apply (parse_loop_steps (S (length s)) 0 s l b); [lia|done|lia]. Qed.
End Parsing.

(** ** Updating *)

Section Updating.
Context `{libc} `{userdb} `{libacl}.
Variable fs : list (list Z).

Lemma findEntry_steps l j t q :
  steps True fs (findEntry l j t q) (fun r => forall k, r = Some k -> (j <= k < j + length l)%nat).
Proof.
  revert j. induction l as [|e l IH]; intros j; cbn [findEntry]; (apply steps_seq; [by apply steps_call|intros _]).
  { by apply steps_ret. }
  apply steps_seq; [by apply steps_call|intros _].
  assert (steps True fs (findEntry l (S j) t q) (fun r => forall k, r = Some k -> (j <= k < j + length (e :: l))%nat)) as IH'.
  { eapply steps_weaken; [apply IH|]. intros r Hr k Hk. specialize (Hr k Hk). cbn. lia. }
  assert (steps True fs (ret (Some j) : M aclw _) (fun r => forall k, r = Some k -> (j <= k < j + length (e :: l))%nat)) as Hj.
  { apply steps_ret. intros k [= <-]. cbn. lia. }
  case_bool_decide; [|done]. destruct (qualified t); [|done].
  apply steps_seq; [by apply steps_call|intros _]. by case_match; (apply steps_seq; [by apply steps_call|intros _]).
Qed.

Lemma set_ace_steps l j f :
  (j < length l)%nat -> steps True fs (set_ace l j f) (fun l' => length l' = length l).
Proof.
  intros [e He]%lookup_lt_is_Some_2. unfold set_ace. rewrite He.
  apply steps_seq; [by apply (steps_deref _ _ _ _ e)|]. intros e'. apply steps_ret, length_insert.
Qed.

Lemma setPerms_steps l j p : (j < length l)%nat -> steps True fs (setPerms l j p) (fun _ => True).
Proof.
  intros Hj. unfold setPerms, add_perm. do 2 (apply steps_seq; [by apply steps_call|intros _]).
  do 3 (apply steps_seq; [case_match; [apply steps_seq; [by apply steps_call|intros; by apply steps_ret]|by apply steps_ret]|intros ?]).
  apply steps_seq; [by apply steps_call|intros _]. eapply steps_weaken; [by apply set_ace_steps|done].
Qed.

Lemma apply_entry_steps l op e : steps True fs (apply_entry l op e) (fun _ => True).
Proof.
  unfold apply_entry. eapply steps_bind; [apply findEntry_steps|]. intros entry Hentry. case_bool_decide.
  { destruct entry; [apply steps_seq; [by apply steps_call|intros _]|]; by apply steps_ret. }
  destruct entry as [j|]; [apply setPerms_steps; specialize (Hentry j eq_refl); lia|].
  do 2 (apply steps_seq; [by apply steps_call|intros _]). eapply steps_bind; [apply set_ace_steps; rewrite length_app; cbn; lia|].
  intros l1 Hl1. rewrite length_app in Hl1. cbn in Hl1. eapply (steps_bind _ _ _ _ (fun l2 => length l2 = length l1)).
  - destruct (qualified _); [|by apply steps_ret]. apply steps_seq; [by apply steps_call|intros _]. apply set_ace_steps. lia.
  - intros l2 Hl2. apply setPerms_steps. lia.
Qed.

Lemma set_file_steps f d l : f ∈ fs -> acl_sound l -> steps True fs (set_file f d l) (fun _ => True).
Proof.
  intros Hf Hl. unfold set_file. apply steps_seq; [by apply steps_call|intros _]. intros w. unfold bind, get. cbn.
  destruct (w_files w !! f) as [[a b]|] eqn:E; [|apply steps_errExit]. split; [done|]. split.
  - intros Hv. cbn. apply map_Forall_insert_2; [|done]. specialize (Hv _ _ E). cbn in Hv. by destruct d; cbn; tauto.
  - intros g Hg. cbn. rewrite lookup_insert_ne; [done|]. by intros ->.
Qed.

Lemma get_file_steps f d : steps True fs (get_file f d) (fun _ => True).
Proof.
  unfold get_file. apply steps_seq; [by apply steps_call|intros _]. intros w. unfold bind, get. cbn.
  destruct (w_files w !! f) as [[a b]|]; [by split|apply steps_errExit].
Qed.

Lemma update_loop_steps f d acl l op rc : f ∈ fs -> steps True fs (update_loop f d acl l op rc) (fun _ => True).
Proof.
  intros Hf. revert acl. induction l as [|e l IH]; intros acl; cbn [update_loop]; [by apply steps_ret|].
  apply steps_seq; [apply apply_entry_steps|]. intros acl1.
  apply steps_seq; [destruct rc; [apply steps_seq; [by apply steps_call|intros; by apply steps_ret]|by apply steps_ret]|]. intros acl2.
  apply (steps_bind _ _ _ _ (fun _ => acl_sound acl2)).
  { destruct (acl_valid acl2) eqn:E; [apply steps_ret; by apply acl_valid_spec|apply steps_errExit]. }
  intros _ Hs. apply steps_seq; [by apply set_file_steps|intros _; apply IH].
Qed.

Lemma updateACL_steps f d n l op rc : f ∈ fs -> steps True fs (updateACL f d n l op rc) (fun _ => True).
Proof.
  intros Hf. unfold updateACL. apply steps_seq; [apply get_file_steps|]. intros acl.
  apply steps_seq; [by apply update_loop_steps|intros _; by apply steps_call].
Qed.

Lemma delete_default_steps f : f ∈ fs -> steps True fs (delete_default f) (fun _ => True).
Proof.
  intros Hf. unfold delete_default. apply steps_seq; [by apply steps_call|intros _]. intros w. unfold bind, get. cbn.
  destruct (w_files w !! f) as [[a b]|] eqn:E; [|apply steps_errExit]. split; [done|]. split.
  - intros Hv. cbn. apply map_Forall_insert_2; [|done]. specialize (Hv _ _ E). cbn in *. tauto.
  - intros g Hg. cbn. rewrite lookup_insert_ne; [done|]. by intros ->.
Qed.

Lemma update_files_steps files s n l : files ⊆ fs -> steps True fs (update_files files s n l) (fun _ => True).
Proof.
  induction files as [|f files IH]; intros Hs; cbn [update_files]; [by apply steps_ret|].
  apply steps_seq; [|intros _; apply IH; set_solver].
  case_bool_decide; [apply delete_default_steps; set_solver|]. case_match; [apply updateACL_steps; set_solver|apply steps_fatal].
Qed.

(** An operation that needs a specification has one. *)
Definition specified (s : settings) : Prop :=
  o_op s = modifyEntries \/ o_op s = removeEntries \/ o_op s = checkValidACL -> is_Some (o_spec s).

Lemma set_options_steps a0 l s : specified s -> steps True fs (set_options a0 l s) specified.
Proof.
  revert s. induction l as [|[c a] l IH]; intros s Hs; cbn [set_options]; [by apply steps_ret|].
  apply (steps_bind _ _ _ _ specified); [|apply IH].
  repeat case_match; first [apply steps_ret; unfold specified in *; cbn; first [done | intros; naive_solver]
    | apply steps_seq; [by apply steps_eprint|intros; apply steps_usageError]].
Qed.
End Updating.

Lemma option_letters_rest l next : snd (option_letters l next) ⊆ next.
Proof. revert next. induction l as [|c l IH]; intros next; cbn; [done|]. repeat case_match; simplify_eq/=; try set_solver. specialize (IH next). rewrite H0 in IH. done. Qed.

Lemma parse_options_rest fuel argv : snd (parse_options fuel argv) ⊆ argv.
Proof.
  revert argv. induction fuel as [|fuel IH]; intros [|a argv]; cbn [parse_options]; [done..|]. case_bool_decide; [cbn [snd]; set_solver|].
  assert (snd (let '(os, ns) := parse_options fuel argv in (os, a :: ns)) ⊆ a :: argv) as Hplain.
  { specialize (IH argv). destruct (parse_options fuel argv) as [os ns]. cbn [fst snd] in *. set_solver. }
  destruct a as [|b [|c r]]; [done|by destruct b as [|p|p]; try done; do 6 (destruct p as [p|p|]; try done)|]. destruct (decide (b = 45)) as [->|Hb].
  - pose proof (option_letters_rest (c :: r) argv) as Ho. destruct (option_letters (c :: r) argv) as [os rest]. cbn [snd] in Ho.
    specialize (IH rest). destruct (parse_options fuel rest) as [os' ns]. cbn [fst snd] in *. intros x Hx. apply list_elem_of_further. exact (Ho x (IH x Hx)).
  - destruct b as [|p|p]; try done; do 6 (destruct p as [p|p|]; try done).
Qed.

Section Main.
Context `{libc} `{userdb} `{libacl}.

(** C4: Whatever its arguments and whichever calls fail, acl_update ends and stores
    only valid lists: if every access list was valid, and every default list valid or
    empty, they are afterwards, and the files that are not arguments keep theirs. *)
Theorem main_keeps_lists_valid argv aclist w :
  argv <> [] -> length aclist = Z.to_nat MAX_ENTRIES -> valid_lists (w_files w) ->
  exists c w', main aclist argv w = (Exit c, w') /\ valid_lists (w_files w') /\
    forall f, f ∉ argv -> w_files w' !! f = w_files w !! f.
Proof.
  intros Ha Hl Hv. assert (steps True argv (main aclist argv) (fun _ : unit => False)) as Hm.
  2:{ destruct (Hm w) as (H2 & H3 & H4). destruct (main aclist argv w) as [[|c| |] w']; try done. exists c, w'. auto. }
  destruct argv as [|a0 argv]; [done|]. unfold main. eapply steps_bind; [by apply (steps_deref _ _ _ (fun x => x = a0) a0)|]. intros ? ->.
  apply steps_seq; [case_match; [apply steps_usageError|by apply steps_ret]|intros _].
  pose proof (parse_options_rest (length (a0 :: argv)) argv) as Hrest. cbn [tail].
  destruct (parse_options (length (a0 :: argv)) argv) as [os files]. cbn [snd] in Hrest.
  eapply steps_bind; [apply set_options_steps; by intros [|[|]]|]. intros s Hs.
  do 2 (apply steps_seq; [case_match; [apply steps_usageError|by apply steps_ret]|intros _]).
  apply steps_seq.
  { case_bool_decide as Hop; [|by apply steps_ret]. destruct Hs as [spec Hspec]; [tauto|].
    eapply steps_bind; [by apply (steps_deref _ _ _ (fun x => x = spec) spec)|]. intros ? ->.
    eapply steps_bind; [by apply parseACL_steps|]. intros [n l'] _. case_match; [apply steps_fatal|].
    apply steps_seq; [by apply steps_quiet|intros _; by apply steps_exit]. }
  intros _. apply steps_seq.
  { destruct (bool_decide (o_op s = modifyEntries) || bool_decide (o_op s = removeEntries)) eqn:Hop; [|by apply steps_ret].
    destruct Hs as [spec Hspec]; [rewrite orb_true_iff, !bool_decide_eq_true in Hop; tauto|].
    eapply steps_bind; [by apply (steps_deref _ _ _ (fun x => x = spec) spec)|]. intros ? ->.
    eapply steps_bind; [by apply parseACL_steps|]. intros [n l'] _. case_match; [apply steps_usageError|by apply steps_ret]. }
  intros [n l']. apply steps_seq; [apply update_files_steps; intros x Hx; apply list_elem_of_further; by apply Hrest|].
  intros _. by apply steps_exit.
Qed.

(** C40: [parseACL] stays inside its array of [MAX_ENTRIES] entries, however long its
    argument: it returns -1, or the number of entries, one more than there are
    commas, all of them well-formed and the rest of the array untouched. *)
Theorem parse_acl_bounds s l b w :
  length l = Z.to_nat MAX_ENTRIES ->
  exists n l' w', parseACL s l b w = (Ret (n, l'), w') /\ length l' = length l /\
    (n = -1 \/ n = Z.of_nat (S (commas s)) /\ n <= MAX_ENTRIES /\
       Forall (parsed b) (take (Z.to_nat n) l') /\ drop (Z.to_nat n) l' = drop (Z.to_nat n) l).
Proof.
  intros Hl. destruct (parseACL_steps False [] s l b Hl w) as [H2 _]. destruct (parseACL s l b w) as [[[n l']|c| |] w']; try done.
  exists n, l', w'. split; [done|]. destruct H2 as (H2 & _ & H3). split; [done|]. destruct H3 as [H3|(H3 & H4 & H5 & H6)]; [by left|right].
  cbn [fst snd] in *. rewrite H3, Nat2Z.id. rewrite <- H3. split; [done|]. split; [done|]. by split.
Qed.
End Main.

(** *** Examples *)

Lemma demo_valid : valid_lists (w_files demo_world).
Proof.
  apply map_Forall_singleton. split; [|by right]. apply (bool_decide_unpack _). by vm_compute.
Qed.

Lemma main_keeps_lists_valid_witness :
  exists c w', @main demo_libc demo_users demo_libacl demo_array [lit "acl_update"; lit "-x"; lit "u:"; lit "f"] demo_world = (Exit c, w') /\ valid_lists (w_files w').
Proof.
  destruct (@main_keeps_lists_valid demo_libc demo_users demo_libacl [lit "acl_update"; lit "-x"; lit "u:"; lit "f"] demo_array demo_world ltac:(done) demo_length demo_valid) as (c & w' & Hr & Hv & _).
  exists c, w'. split; [exact Hr|exact Hv].
Defined.

Lemma parse_acl_bounds_witness :
  exists n l' w', @parseACL demo_users (lit "u::rwx,g::r-x,o::---") demo_array true demo_world = (Ret (n, l'), w') /\ length l' = length demo_array.
Proof.
  destruct (@parse_acl_bounds demo_users (lit "u::rwx,g::r-x,o::---") demo_array true demo_world demo_length) as (n & l' & w' & Hr & Hl & _).
  exists n, l', w'. split; [exact Hr|exact Hl].
Defined.
