(* ===== verification/AclSpec.v ===== *)
(** * tlpi/tlpi-dist/acl: what acl_update does

    The entries that are written are those that are read back, and an update of a
    list, when no call fails, is an update of a finite map from what an entry is for to
    its permissions. *)

From stdpp Require Import prelude list_numbers strings gmap.
From Stdlib Require Import ZArith Lia.
From S2P Require Import Prelude CLib Vfs TlpiLib FileRun Users Acl.
Open Scope Z_scope.
Set Warnings "-clear-no-such-hyp".

(** ** Access lists as maps *)

(** What the mask limits. *)
Definition limited (t : acl_tag) : Prop := t = ACL_USER \/ t = ACL_GROUP \/ t = ACL_GROUP_OBJ.

Definition mask_of (m : gmap (acl_tag * Z) Z) : Z := map_fold (fun k p acc => if decide (limited (fst k)) then Z.lor p acc else acc) 0 m.

Definition valid_rights (m : gmap (acl_tag * Z) Z) : Prop :=
  is_Some (m !! (ACL_USER_OBJ, 0)) /\ is_Some (m !! (ACL_GROUP_OBJ, 0)) /\ is_Some (m !! (ACL_OTHER, 0)) /\
  (map_Exists (fun k _ => qualified (fst k) = true) m -> is_Some (m !! (ACL_MASK, 0))) /\
  map_Forall (fun k _ => fst k <> ACL_UNDEFINED_TAG) m.

#[export] Instance valid_rights_dec m : Decision (valid_rights m).
Proof. unfold valid_rights. solve_decision. Defined.

Definition change_rights (op : operation) (e : ace) (m : gmap (acl_tag * Z) Z) : gmap (acl_tag * Z) Z :=
  if bool_decide (op = removeEntries) then delete (ace_key e) m else <[ace_key e := Z.land (ace_perms e) 7]> m.

(** The entries one after the other, as long as the result is valid. *)
Fixpoint update_rights (op : operation) (recalcMask : bool) (m : gmap (acl_tag * Z) Z) (l : list ace) : bool * gmap (acl_tag * Z) Z :=
  match l with
  | [] => (true, m)
  | e :: l =>
      let m1 := change_rights op e m in
      let m2 := if recalcMask then <[(ACL_MASK, 0) := mask_of m1]> m1 else m1 in
      if decide (valid_rights m2) then update_rights op recalcMask m2 l else (false, m)
  end.

(** A list of entries is a map when no two are for the same. *)
Definition to_rights (l : list ace) : gmap (acl_tag * Z) Z := list_to_map (map (fun e => (ace_key e, ace_perms e)) l).
Definition shows (l : list ace) (m : gmap (acl_tag * Z) Z) : Prop := NoDup (map ace_key l) /\ to_rights l = m.

Lemma keys_fst l : (map (fun e => (ace_key e, ace_perms e)) l).*1 = map ace_key l.
Proof. induction l as [|e l IH]; cbn; [done|]. by f_equal. Qed.

Lemma shows_perm l l' m : l ≡ₚ l' -> shows l m -> shows l' m.
Proof.
  intros Hp [Hn <-]. split; [by rewrite <- Hp|]. symmetry. apply list_to_map_proper; [by rewrite keys_fst|by rewrite Hp].
Qed.

Lemma shows_cons e l m : shows (e :: l) m <-> (ace_key e ∉ map ace_key l) /\ exists m0, shows l m0 /\ m = <[ace_key e := ace_perms e]> m0.
Proof.
  unfold shows. cbn [map]. rewrite NoDup_cons. split.
  - intros [[H1 H2] <-]. split; [done|]. by exists (to_rights l).
  - intros (H1 & m0 & [H2 <-] & ->). by split.
Qed.

Lemma shows_absent l m k : shows l m -> ((k ∉ map ace_key l) <-> m !! k = None).
Proof. intros [_ <-]. unfold to_rights. rewrite <- keys_fst. split; [apply not_elem_of_list_to_map_1|apply not_elem_of_list_to_map_2]. Qed.

Lemma shows_present l m k : shows l m -> (k ∈ map ace_key l <-> is_Some (m !! k)).
Proof.
  intros Hs. pose proof (shows_absent l m k Hs) as Ha. destruct (m !! k); split; intros Hk; try done.
  - destruct (decide (k ∈ map ace_key l)) as [|Hn]; [done|]. by apply Ha in Hn.
  - by destruct (proj2 Ha eq_refl).
Qed.

Lemma list_split {A} (l : list A) j x : l !! j = Some x -> l ≡ₚ x :: (take j l ++ drop (S j) l).
Proof. intros Hj. rewrite <- (take_drop_middle l j x Hj) at 1. by rewrite Permutation_middle. Qed.

Lemma shows_insert l m j e p : l !! j = Some e -> shows l m ->
  shows (<[j := mk_ace (ace_tag e) (ace_qual e) p]> l) (<[ace_key e := p]> m).
Proof.
  intros Hj Hs. rewrite insert_take_drop by by eapply lookup_lt_Some.
  apply (shows_perm (mk_ace (ace_tag e) (ace_qual e) p :: (take j l ++ drop (S j) l))); [by rewrite Permutation_middle|].
  apply (shows_perm _ _ _ (list_split l j e Hj)), shows_cons in Hs as (H1 & m0 & H2 & ->).
  apply shows_cons. split; [done|]. exists m0. split; [done|]. apply insert_insert_eq.
Qed.

Lemma shows_delete l m j e : l !! j = Some e -> shows l m -> shows (take j l ++ drop (S j) l) (delete (ace_key e) m).
Proof.
  intros Hj Hs. apply (shows_perm _ _ _ (list_split l j e Hj)), shows_cons in Hs as (H1 & m0 & H2 & ->).
  rewrite delete_insert_id; [done|]. by apply (shows_absent (take j l ++ drop (S j) l) m0).
Qed.

Lemma shows_filter l m : shows l m -> shows (filter (fun e => ace_tag e <> ACL_MASK) l) (delete (ACL_MASK, 0) m).
Proof.
  revert m. induction l as [|e l IH]; intros m Hs.
  { destruct Hs as [_ <-]. split; [constructor|]. cbn. by rewrite delete_empty. }
  apply shows_cons in Hs as (H1 & m0 & H2 & ->). specialize (IH m0 H2).
  assert (forall k, k ∉ map ace_key l -> k ∉ map ace_key (filter (fun e => ace_tag e <> ACL_MASK) l)) as Hf.
  { intros k.  intros Hk (x & -> & Hx)%list_elem_of_fmap.
    apply Hk, list_elem_of_fmap. exists x. split; [done|]. by apply list_elem_of_filter in Hx as [_ Hx]. }
  destruct (decide (ace_tag e = ACL_MASK)) as [Ht|Ht].
  - rewrite filter_cons_False by tauto. assert (ace_key e = (ACL_MASK, 0)) as -> by (unfold ace_key; by rewrite Ht). by rewrite delete_insert_eq.
  - rewrite filter_cons_True by done. assert (ace_key e <> (ACL_MASK, 0)) as Hk by (unfold ace_key; by intros [= ? _]).
    rewrite delete_insert_ne by done. apply shows_cons. split; [by apply Hf|]. by exists (delete (ACL_MASK, 0) m0).
Qed.

Lemma mask_of_insert m k p : m !! k = None -> mask_of (<[k := p]> m) = if decide (limited (fst k)) then Z.lor p (mask_of m) else mask_of m.
Proof.
  intros Hk. unfold mask_of. rewrite map_fold_insert_L; [done| |done]. intros k1 k2 z1 z2 y _ _ _.
  destruct (decide (limited k1.1)), (decide (limited k2.1)); [|done..]. by rewrite !Z.lor_assoc, (Z.lor_comm z1).
Qed.

Lemma shows_mask l m : shows l m -> mask_perms l = mask_of m.
Proof.
  revert m. induction l as [|e l IH]; intros m Hs.
  { by destruct Hs as [_ <-]. }
  apply shows_cons in Hs as (H1 & m0 & H2 & ->). rewrite mask_of_insert by by apply (shows_absent l). rewrite <- (IH m0 H2).
  unfold mask_perms. cbn [ace_key fst]. destruct (decide (limited (ace_tag e))) as [Hl|Hl].
  - rewrite filter_cons_True by (unfold limited in Hl; tauto). done.
  - by rewrite filter_cons_False by (unfold limited in Hl; tauto).
Qed.

Lemma shows_calc_mask `{libacl} l m : shows l m -> shows (calc_mask l) (<[(ACL_MASK, 0) := mask_of m]> m).
Proof.
  intros Hs. destruct (calc_mask_spec l) as [q Hq]. apply (shows_perm _ _ _ (symmetry Hq)). apply shows_cons.
  pose proof (shows_filter l m Hs) as Hf. split.
  - apply (shows_absent _ _ _ Hf). apply lookup_delete_eq.
  - exists (delete (ACL_MASK, 0) m). split; [done|]. cbn [ace_key ace_perms]. rewrite insert_delete_eq. by rewrite (shows_mask l m Hs).
Qed.

(** *** Validity *)

Lemma key_tag l t : qualified t = false -> (t ∈ map ace_tag l <-> (t, 0) ∈ map ace_key l).
Proof.
  intros Ht. rewrite !list_elem_of_fmap. split; intros (e & He & Hl); exists e; split; try done.
  - unfold ace_key. rewrite <- He, Ht. done.
  - unfold ace_key in He. congruence.
Qed.

Lemma key_exists l m P : shows l m -> ((exists t, P t /\ t ∈ map ace_tag l) <-> map_Exists (fun k _ => P (fst k)) m).
Proof.
  intros Hs. split.
  - intros (t & Ht & (e & -> & He)%list_elem_of_fmap). assert (ace_key e ∈ map ace_key l) as Hk by (apply list_elem_of_fmap; by exists e).
    apply (shows_present l m _ Hs) in Hk as [p Hp]. exists (ace_key e), p. by split.
  - intros (k & p & Hk & HP). assert (k ∈ map ace_key l) as (e & -> & He)%list_elem_of_fmap by (by apply (shows_present l m _ Hs)).
    exists (ace_tag e). split; [done|]. apply list_elem_of_fmap. by exists e.
Qed.

Lemma shows_sound l m : shows l m -> (acl_sound l <-> valid_rights m).
Proof.
  intros Hs. unfold acl_sound, valid_rights. destruct (Hs) as [Hn _].
  assert (forall t, qualified t = false -> (t ∈ map ace_tag l <-> is_Some (m !! (t, 0)))) as Ht.
  { intros t Ht. rewrite key_tag by done. by apply shows_present. }
  rewrite <- !Ht by done. pose proof (key_exists l m (fun t => qualified t = true) Hs) as He. cbn in He. rewrite <- He.
  pose proof (key_exists l m (fun t => t = ACL_UNDEFINED_TAG) Hs) as Hu. cbn in Hu.
  assert ((ACL_UNDEFINED_TAG ∉ map ace_tag l) <-> map_Forall (fun k _ => fst k <> ACL_UNDEFINED_TAG) m) as ->.
  { split.
    - intros Hno k p Hk Hf. apply Hno. destruct (proj2 Hu) as (t & -> & Hin); [by exists k, p|done].
    - intros Hall Hin. destruct (proj1 Hu) as (k & p & Hk & Hf); [by exists ACL_UNDEFINED_TAG|]. by apply (Hall k p Hk). }
  split.
  - intros (_ & H1 & H2 & H3). do 3 (split; [by apply H1; tauto|]). split; [|done]. intros ([] & Hq & Hin); try done; apply H2; tauto.
  - intros (H1 & H2 & H3 & H4 & H5). split; [done|]. split; [intros t [-> | [-> | ->]]; done|]. split; [|done].
    intros [Hin|Hin]; apply H4; (eexists; split; [|exact Hin]; done).
Qed.

(** ** updateACL *)

Section Update.
Context `{libc} `{userdb} `{libacl}.

(** No call fails. *)
Definition fine (w : aclw) : Prop := w_script w = [].

Lemma call_fine msg w : fine w -> call msg w = (Ret tt, w).
Proof. intros Hw. unfold call, next_result, bind, get. by rewrite Hw. Qed.

Lemma call_run {A} msg (k : unit -> M aclw A) w : fine w -> bind (call msg) k w = k tt w.
Proof. intros Hw. by rewrite (bind_ret _ _ _ _ _ (call_fine msg w Hw)). Qed.

Lemma findEntry_fine l j t q p w : fine w ->
  exists r, findEntry l j t q w = (Ret r, w) /\
    match r with
    | Some k => exists i e, k = (j + i)%nat /\ l !! i = Some e /\ ace_key e = ace_key (mk_ace t q p) /\ ace_tag e = t
    | None => ace_key (mk_ace t q p) ∉ map ace_key l
    end.
Proof.
  intros Hw. revert j. induction l as [|e l IH]; intros j; cbn [findEntry]; rewrite call_run by done.
  { exists None. split; [done|apply not_elem_of_nil]. }
  rewrite call_run by done.
  assert (ace_key (mk_ace t q p) <> ace_key e -> exists r, findEntry l (S j) t q w = (Ret r, w) /\
    match r with
    | Some k => exists i e', k = (j + i)%nat /\ (e :: l) !! i = Some e' /\ ace_key e' = ace_key (mk_ace t q p) /\ ace_tag e' = t
    | None => ace_key (mk_ace t q p) ∉ map ace_key (e :: l)
    end) as Hgo.
  { intros Hk. destruct (IH (S j)) as (r & Hr & Hm). exists r. split; [done|]. destruct r as [k|].
    - destruct Hm as (i & e' & -> & Hi). exists (S i), e'. split; [lia|done].
    - cbn [map]. by apply not_elem_of_cons. }
  case_bool_decide as Ht; [subst t|apply Hgo; unfold ace_key; by intros [= ? _]].
  unfold ace_key in *. cbn [ace_tag ace_qual] in *. destruct (qualified (ace_tag e)) eqn:Hq.
  - rewrite call_run by done. destruct (Z.eqb_spec q (ace_qual e)) as [->|Hne]; rewrite call_run by done; [|apply Hgo; congruence].
    exists (Some j). split; [done|]. exists 0%nat, e. rewrite Hq. split; [lia|done].
  - exists (Some j). split; [done|]. exists 0%nat, e. rewrite Hq. split; [lia|done].
Qed.

Lemma perms_bits p : Z.lor (Z.lor (if flag p ACL_READ then Z.lor 0 ACL_READ else 0) (if flag p ACL_WRITE then ACL_WRITE else 0)) (if flag p ACL_EXECUTE then ACL_EXECUTE else 0) = Z.land p 7.
Proof.
  unfold flag. change ACL_READ with (Z.land 7 4). change ACL_WRITE with (Z.land 7 2). change ACL_EXECUTE with (Z.land 7 1). rewrite !Z.land_assoc.
  assert (0 <= Z.land p 7 < 8) as Hr by (change 7 with (Z.ones 3); rewrite Z.land_ones by lia; apply Z.mod_pos_bound; lia).
  generalize dependent (Z.land p 7). intros r Hr.
  assert (r = 0 \/ r = 1 \/ r = 2 \/ r = 3 \/ r = 4 \/ r = 5 \/ r = 6 \/ r = 7) as Hc by lia.
  by destruct Hc as [-> | [-> | [-> | [-> | [-> | [-> | [-> | ->]]]]]]].
Qed.

Lemma add_perm_fine q p s w : fine w -> add_perm q p s w = (Ret (Z.lor s (if flag p q then q else 0)), w).
Proof. intros Hw. unfold add_perm. destruct (flag p q); [by rewrite call_run|by rewrite Z.lor_0_r]. Qed.

Lemma set_ace_fine l j e f w : l !! j = Some e -> set_ace l j f w = (Ret (<[j := f e]> l), w).
Proof. intros Hj. unfold set_ace. by rewrite Hj. Qed.

Lemma setPerms_fine l j e p w : fine w -> l !! j = Some e ->
  setPerms l j p w = (Ret (<[j := mk_ace (ace_tag e) (ace_qual e) (Z.land p 7)]> l), w).
Proof.
  intros Hw Hj. unfold setPerms. rewrite !call_run by done.
  do 3 rewrite (bind_ret _ _ _ _ _ (add_perm_fine _ _ _ w Hw)). rewrite call_run by done. erewrite set_ace_fine by exact Hj.
  rewrite <- perms_bits. by destruct (flag p ACL_READ).
Qed.

Lemma insert_last {A} (l : list A) x y : <[length l := y]> (l ++ [x]) = l ++ [y].
Proof. rewrite insert_app_r_alt by done. by rewrite Nat.sub_diag. Qed.

(** One entry changes the map it is for. *)
Lemma apply_entry_fine l m op e w : fine w -> shows l m -> ace_tag e <> ACL_UNDEFINED_TAG ->
  exists l', apply_entry l op e w = (Ret l', w) /\ shows l' (change_rights op e m).
Proof.
  intros Hw Hs Ht. unfold apply_entry, change_rights.
  destruct (findEntry_fine l 0 (ace_tag e) (ace_qual e) (ace_perms e) w Hw) as (r & Hr & Hm). rewrite (bind_ret _ _ _ _ _ Hr). clear Hr.
  assert (mk_ace (ace_tag e) (ace_qual e) (ace_perms e) = e) as He by by destruct e. rewrite He in Hm. case_bool_decide.
  - destruct r as [j|].
    + destruct Hm as (i & e' & -> & Hi & Hk & _). rewrite call_run by done. eexists. split; [done|]. rewrite <- Hk. by apply shows_delete.
    + exists l. split; [done|]. rewrite delete_id; [done|]. by apply (shows_absent l m).
  - destruct r as [j|].
    + destruct Hm as (i & e' & -> & Hi & Hk & _). eexists. split; [by apply setPerms_fine|]. rewrite <- Hk. by apply shows_insert.
    + rewrite !call_run by done. erewrite bind_ret by (apply set_ace_fine; by rewrite list_lookup_middle). rewrite insert_last. cbn [ace_tag ace_qual ace_perms].
      exists (l ++ [mk_ace (ace_tag e) (if qualified (ace_tag e) then ace_qual e else 0) (Z.land (ace_perms e) 7)]). split.
      * destruct (qualified (ace_tag e)).
        -- rewrite bind_assoc, call_run by done. erewrite bind_ret by (apply set_ace_fine; by rewrite list_lookup_middle). rewrite insert_last. cbn [ace_tag ace_qual ace_perms].
           erewrite setPerms_fine by first [done | by rewrite list_lookup_middle]. by rewrite insert_last.
        -- unfold ret at 1. unfold bind. erewrite setPerms_fine by first [done | by rewrite list_lookup_middle]. by rewrite insert_last.
      * set (e' := mk_ace _ _ _). assert (ace_key e' = ace_key e) as Hk' by (unfold ace_key; cbn; by destruct (qualified (ace_tag e))).
        apply (shows_perm (e' :: l)); [apply Permutation_cons_append|]. apply shows_cons. rewrite Hk'. split; [done|]. by exists m.
Qed.

(** The lists of a file after an update. *)
Definition with_list (dflt : bool) (p : list ace * list ace) (l : list ace) : list ace * list ace := if dflt then (fst p, l) else (l, snd p).
Definition the_list (dflt : bool) (p : list ace * list ace) : list ace := if dflt then snd p else fst p.

Lemma set_file_fine file dflt l p w : fine w -> w_files w !! file = Some p ->
  set_file file dflt l w = (Ret tt, set_w_files (<[file := with_list dflt p l]> (w_files w)) w).
Proof. intros Hw Hf. unfold set_file. rewrite call_run by done. unfold bind, get. rewrite Hf. by destruct p, dflt. Qed.

Lemma update_loop_fine file dflt op rc p l : forall acl m w, fine w -> w_files w !! file = Some p ->
  shows (the_list dflt p) m -> acl = the_list dflt p -> Forall (fun e => ace_tag e <> ACL_UNDEFINED_TAG) l ->
  exists acl' w', update_loop file dflt acl l op rc w = (if fst (update_rights op rc m l) then Ret tt else Exit EXIT_FAILURE, w') /\
    fine w' /\ w_files w' = <[file := with_list dflt p acl']> (w_files w) /\ shows acl' (snd (update_rights op rc m l)) /\ w_out w' = w_out w.
Proof.
  intros acl m w Hw Hf Hs Hacl Hl. revert p acl m w Hw Hf Hs Hacl.
  induction l as [|e l IH]; intros p acl m w Hw Hf Hs Hacl; cbn [update_loop update_rights].
  { exists (the_list dflt p), w. split; [done|]. split; [done|]. split; [|done]. rewrite insert_id; [done|]. rewrite Hf. by destruct p, dflt. }
  apply Forall_cons in Hl as [Ht Hl]. rewrite <- Hacl in Hs. destruct (apply_entry_fine acl m op e w Hw Hs Ht) as (acl1 & Ha1 & Hs1). rewrite (bind_ret _ _ _ _ _ Ha1).
  set (m2 := if rc then <[(ACL_MASK, 0) := mask_of (change_rights op e m)]> (change_rights op e m) else change_rights op e m).
  assert (exists acl2, (if rc then call (lit "acl_calc_mask") ;;; ret (calc_mask acl1) else ret acl1) w = (Ret acl2, w) /\ shows acl2 m2) as (acl2 & Ha2 & Hs2).
  { subst m2. destruct rc; [|by exists acl1]. exists (calc_mask acl1). split; [by rewrite call_run|]. by apply shows_calc_mask. }
  rewrite (bind_ret _ _ _ _ _ Ha2). pose proof (acl_valid_spec acl2) as Hv. rewrite (shows_sound acl2 m2 Hs2) in Hv.
  destruct (decide (valid_rights m2)) as [Hm|Hm].
  - rewrite (proj2 Hv Hm). rewrite (bind_ret _ _ _ _ _ (eq_refl : ret tt w = (Ret tt, w))). rewrite (bind_ret _ _ _ _ _ (set_file_fine file dflt acl2 p w Hw Hf)).
    set (w1 := set_w_files _ w). set (p1 := with_list dflt p acl2).
    destruct (IH Hl p1 acl2 m2 w1) as (acl' & w' & Hr & Hw' & Hf' & Hs' & Ho); [done|apply lookup_insert_eq|subst p1; by destruct dflt|subst p1; by destruct dflt|].
    exists acl', w'. split; [exact Hr|]. split; [done|]. split; [|done]. rewrite Hf'. cbn. rewrite insert_insert_eq. subst p1. by destruct dflt.
  - destruct (acl_valid acl2); [by destruct Hm; apply Hv|]. exists acl. eexists. split; [done|]. cbn [fst snd]. split; [done|]. split; [|done].
    cbn. rewrite insert_id; [done|]. rewrite Hf, Hacl. by destruct p, dflt.
Qed.
End Update.

(** ** What is written is read back *)

(** An entry that can be written with numbers. *)
Definition writable (e : ace) : Prop :=
  ace_tag e <> ACL_UNDEFINED_TAG /\ (if qualified (ace_tag e) then 0 <= ace_qual e < NO_ID else ace_qual e = 0) /\ 0 <= ace_perms e < 8.

Definition show_tag (t : acl_tag) : list Z :=
  match t with
  | ACL_USER | ACL_USER_OBJ => lit "user" | ACL_GROUP | ACL_GROUP_OBJ => lit "group"
  | ACL_MASK => lit "mask" | ACL_OTHER => lit "other" | ACL_UNDEFINED_TAG => []
  end.

Definition show_perms (p : Z) : list Z :=
  [if flag p ACL_READ then 114 else 45; if flag p ACL_WRITE then 119 else 45; if flag p ACL_EXECUTE then 120 else 45].

(** With permissions or without. *)
Definition show_entry (perms : bool) (e : ace) : list Z :=
  show_tag (ace_tag e) ++ 58 :: (if qualified (ace_tag e) then print_d (ace_qual e) else []) ++ (if perms then 58 :: show_perms (ace_perms e) else []).

Fixpoint show_acl (perms : bool) (l : list ace) : list Z :=
  match l with
  | [] => []
  | [e] => show_entry perms e
  | e :: l => show_entry perms e ++ 44 :: show_acl perms l
  end.

(** What parsing leaves where [old] was. *)
Definition reads (perms : bool) (e old : ace) : ace := mk_ace (ace_tag e) (ace_qual e) (if perms then ace_perms e else ace_perms old).

Lemma strchr_found c a b : c ∉ a -> strchr c (a ++ c :: b) = (a, Some b).
Proof.
  induction a as [|x a IH]; cbn; [by rewrite Z.eqb_refl|]. rewrite not_elem_of_cons. intros [Hx Ha].
  rewrite (proj2 (Z.eqb_neq x c)) by congruence. by rewrite IH.
Qed.

Lemma strchr_missing c a : c ∉ a -> strchr c a = (a, None).
Proof.
  induction a as [|x a IH]; cbn; [done|]. rewrite not_elem_of_cons. intros [Hx Ha].
  rewrite (proj2 (Z.eqb_neq x c)) by congruence. by rewrite IH.
Qed.

Lemma digits_only n c : 0 <= n -> ~ 48 <= c <= 57 -> c ∉ print_d n.
Proof.
  intros Hn Hc Hin. unfold print_d in Hin. rewrite (proj2 (Z.ltb_ge n 0)) in Hin by done. by apply udec_not_R in Hin.
Qed.

Lemma tag_only t c : c = 58 \/ c = 44 -> c ∉ show_tag t.
Proof. intros [-> | ->]; destruct t; apply (bool_decide_unpack _); by vm_compute. Qed.

Section Reading.
Context `{libc} `{userdb} `{libacl}.

Lemma parsePerms_show p w : 0 <= p < 8 -> parsePerms (show_perms p) 0 w = (Ret (true, p), w).
Proof.
  intros Hr. assert (p = 0 \/ p = 1 \/ p = 2 \/ p = 3 \/ p = 4 \/ p = 5 \/ p = 6 \/ p = 7) as Hc by lia.
  by destruct Hc as [-> | [-> | [-> | [-> | [-> | [-> | [-> | ->]]]]]]].
Qed.

Lemma writable_qual e : writable e -> qualified (ace_tag e) = true ->
  wrapu 32 (ace_qual e) = ace_qual e /\ (wraps 32 (ace_qual e) =? -1) = false /\ LONG_MIN <= ace_qual e <= LONG_MAX /\ 0 <= ace_qual e.
Proof.
  intros (_ & Hq & _) Hk. rewrite Hk in Hq. assert (NO_ID = 2 ^ 32 - 1) as HN by done.
  split; [apply wrapu_id; lia|]. split; [|unfold LONG_MIN, LONG_MAX; lia]. apply Z.eqb_neq. unfold wraps. intros E.
  assert ((ace_qual e + 2 ^ (32 - 1)) mod 2 ^ 32 = 2 ^ 31 - 1) as E2 by lia.
  pose proof (Z.div_mod (ace_qual e + 2 ^ (32 - 1)) (2 ^ 32) ltac:(lia)) as E3. rewrite E2 in E3. lia.
Qed.

Lemma parseTag_show t b : t <> ACL_UNDEFINED_TAG -> b = qualified t -> parseTag (show_tag t) b = Some t.
Proof. intros Ht ->. by destruct t. Qed.

Lemma parse_entry_show b e old w : writable e -> parseEntrySpec (show_entry b e) old b w = (Ret (true, reads b e old), w).
Proof.
  intros He. unfold parseEntrySpec, show_entry. rewrite strchr_found by (apply tag_only; by left).
  set (qs := if qualified (ace_tag e) then print_d (ace_qual e) else []).
  assert (58 ∉ qs) as Hqs. { subst qs. destruct (qualified (ace_tag e)) eqn:Hq; [|apply not_elem_of_nil]. apply digits_only; [by apply writable_qual|lia]. }
  set (ps := if b then 58 :: show_perms (ace_perms e) else []).
  assert (match qs ++ ps with [] => false | c :: _ => negb (c =? 58) end = qualified (ace_tag e)) as ->.
  { subst qs ps. destruct (qualified (ace_tag e)) eqn:Hq; [|by destruct b].
    pose proof (print_d_nonnil (ace_qual e)). destruct (print_d (ace_qual e)) as [|c l]; [done|]. cbn. apply not_elem_of_cons in Hqs as [Hc _].
    by rewrite (proj2 (Z.eqb_neq c 58)) by congruence. }
  assert (strchr 58 (qs ++ ps) = (qs, if b then Some (show_perms (ace_perms e)) else None)) as ->.
  { subst ps. destruct b; [by apply strchr_found|]. rewrite app_nil_r. by apply strchr_missing. }
  cbv zeta. rewrite (parseTag_show (ace_tag e)) by (apply He || done).
  assert (match ace_tag e with ACL_USER => userIdFromName (Some qs) | ACL_GROUP => groupIdFromName (Some qs) | _ => 0 end = ace_qual e) as ->.
  { subst qs. destruct (qualified (ace_tag e)) eqn:Hq.
    - destruct (writable_qual e He Hq) as (Hw & _ & Hl & _). destruct (ace_tag e); try done; by rewrite ?number_id, ?number_gid.
    - destruct He as (_ & Hq' & _). rewrite Hq in Hq'. by destruct (ace_tag e). }
  assert (qualified (ace_tag e) && (wraps 32 (ace_qual e) =? -1) = false) as ->.
  { destruct (qualified (ace_tag e)) eqn:Hq; [|done]. by apply writable_qual. }
  destruct b; [|done]. change ((let* ' (ok, p) := parsePerms (show_perms (ace_perms e)) 0 in ret (ok, mk_ace (ace_tag e) (ace_qual e) p)) w = (Ret (true, reads true e old), w)).
  rewrite (bind_ret _ _ _ _ _ (parsePerms_show (ace_perms e) w (proj2 (proj2 He)))). done.
Qed.

Lemma entry_no_comma b e : writable e -> 44 ∉ show_entry b e.
Proof.
  intros He. unfold show_entry. rewrite !not_elem_of_app || rewrite not_elem_of_app. split; [apply tag_only; by right|].
  apply not_elem_of_cons. split; [done|]. apply not_elem_of_app. split.
  - destruct (qualified (ace_tag e)) eqn:Hq; [|apply not_elem_of_nil]. apply digits_only; [by apply writable_qual|lia].
  - destruct b; [|apply not_elem_of_nil]. unfold show_perms. rewrite !not_elem_of_cons.
    split; [done|]. do 3 (split; [by case_match|]). apply not_elem_of_nil.
Qed.

Lemma parse_loop_show b es : forall fuel n l w, es <> [] -> Forall writable es -> length l = Z.to_nat MAX_ENTRIES ->
  (n + length es <= length l)%nat -> (length es <= fuel)%nat ->
  parse_loop fuel (Z.of_nat n) (show_acl b es) l b w =
    (Ret (Z.of_nat (n + length es), take n l ++ zip_with (reads b) es (drop n l) ++ drop (n + length es) l), w).
Proof.
  induction es as [|e es IH]; intros fuel n l w Hne Hall Hl Hn Hf; [done|]. destruct fuel as [|fuel]; [cbn in Hf; lia|]. cbn [length] in *.
  apply Forall_cons in Hall as [He Hall]. assert (n < length l)%nat as Hlt by lia. destruct (lookup_lt_is_Some_2 l n Hlt) as [old Hold].
  assert (MAX_ENTRIES = 10000) as HM by done. cbn [parse_loop]. rewrite (proj2 (Z.leb_gt MAX_ENTRIES (Z.of_nat n))) by lia.
  assert (strchr 44 (show_acl b (e :: es)) = (show_entry b e, match es with [] => None | _ => Some (show_acl b es) end)) as ->.
  { pose proof (entry_no_comma b e He). destruct es; [by apply strchr_missing|]. by apply strchr_found. }
  rewrite zlookup_nonneg, Nat2Z.id, Hold, bind_deref by lia. rewrite (bind_ret _ _ _ _ _ (parse_entry_show b e old w He)).
  rewrite zupdate_range, Nat2Z.id, bind_deref by lia. cbn [negb]. rewrite (drop_S l old n Hold). cbn [zip_with].
  assert (take (S n) (<[n := reads b e old]> l) = take n l ++ [reads b e old]) as Htk by by apply take_insert_seq.
  destruct es as [|e2 es].
  - unfold ret. do 3 f_equal; [cbn; lia|]. cbn [zip_with length]. rewrite <- (take_drop (S n) (<[n := reads b e old]> l)), Htk, drop_insert_lt by lia.
    rewrite <- app_assoc. cbn. by replace (n + 1)%nat with (S n) by lia.
  - replace (Z.of_nat n + 1) with (Z.of_nat (S n)) by lia. rewrite IH by first [done | by rewrite length_insert | rewrite ?length_insert; cbn [length] in *; lia].
    rewrite Htk, !drop_insert_lt by lia. replace (S n + length (e2 :: es))%nat with (n + S (length (e2 :: es)))%nat by lia. by rewrite <- !app_assoc.
Qed.

Lemma show_acl_length b es : (length es <= S (length (show_acl b es)))%nat.
Proof.
  induction es as [|e [|e2 es] IH]; cbn [length]; [lia|lia|]. change (show_acl b (e :: e2 :: es)) with (show_entry b e ++ 44 :: show_acl b (e2 :: es)).
  rewrite length_app. cbn [length] in *. lia.
Qed.

Lemma parse_acl_show b es l w :
  es <> [] -> Forall writable es -> length l = Z.to_nat MAX_ENTRIES -> Z.of_nat (length es) <= MAX_ENTRIES ->
  parseACL (show_acl b es) l b w = (Ret (Z.of_nat (length es), zip_with (reads b) es l ++ drop (length es) l), w).
Proof.
  intros Hne Hall Hl Hn. assert (MAX_ENTRIES = 10000) as HM by done.
  apply (parse_loop_show b es (S (length (show_acl b es))) 0 l w); [done..|cbn; lia|apply show_acl_length].
Qed.

(** [parseACL] reads back every list of entries written in the documented form,
    with permissions or without, into the front of its array. *)
Theorem acl_text_roundtrip b es l w :
  es <> [] -> Forall writable es -> length l = Z.to_nat MAX_ENTRIES -> Z.of_nat (length es) <= MAX_ENTRIES ->
  parseACL (show_acl b es) l b w = (Ret (Z.of_nat (length es), zip_with (reads b) es l ++ drop (length es) l), w).
Proof. apply parse_acl_show. Qed.
End Reading.

(** ** The program *)

Section Whole.
Context `{libc} `{userdb} `{libacl}.

Lemma update_parsed op rc b es : forall l m, (length es <= length l)%nat ->
  (op = modifyEntries /\ b = true \/ op = removeEntries /\ b = false) ->
  update_rights op rc m (zip_with (reads b) es l) = update_rights op rc m es.
Proof.
  induction es as [|e es IH]; intros [|x l] m Hl Hop; [done|done|cbn in Hl; lia|]. cbn [zip_with update_rights].
  assert (change_rights op (reads b e x) m = change_rights op e m) as -> by by destruct Hop as [[-> ->] | [-> ->]].
  cbn in Hl. rewrite (IH l) by (lia || done). done.
Qed.

Lemma updateACL_fine file dflt op rc n aclist p m w : fine w -> w_files w !! file = Some p -> shows (the_list dflt p) m ->
  Forall (fun e => ace_tag e <> ACL_UNDEFINED_TAG) (take (Z.to_nat n) aclist) ->
  exists acl' w', updateACL file dflt n aclist op rc w =
      (if fst (update_rights op rc m (take (Z.to_nat n) aclist)) then Ret tt else Exit EXIT_FAILURE, w') /\
    fine w' /\ w_files w' = <[file := with_list dflt p acl']> (w_files w) /\
    shows acl' (snd (update_rights op rc m (take (Z.to_nat n) aclist))) /\ w_out w' = w_out w.
Proof.
  intros Hw Hf Hs Hl. unfold updateACL.
  assert (get_file file dflt w = (Ret (the_list dflt p), w)) as Hg.
  { unfold get_file. rewrite call_run by done. unfold bind, get. rewrite Hf. by destruct p. }
  rewrite (bind_ret _ _ _ _ _ Hg).
  destruct (update_loop_fine file dflt op rc p _ _ m w Hw Hf Hs eq_refl Hl) as (acl' & w' & Hr & Hw' & Hrest).
  exists acl', w'. split; [|by split]. destruct (fst _).
  - rewrite (bind_ret _ _ _ _ _ Hr). by apply call_fine.
  - by rewrite (bind_exit _ _ _ _ _ Hr).
Qed.

Definition op_letter (op : operation) : list Z := if bool_decide (op = modifyEntries) then lit "-m" else lit "-x".

(** What is not taken for options. *)
Definition plain (file : list Z) : Prop := match file with 45 :: _ => False | _ => True end.

Lemma parse_options_end fuel : parse_options fuel [] = ([], []).
Proof. by destruct fuel. Qed.

Lemma parse_options_plain fuel file : plain file -> parse_options (S fuel) [file] = ([], [file]).
Proof.
  intros Hp. cbn [parse_options]. rewrite parse_options_end, bool_decide_eq_false_2 by by intros ->.
  destruct file as [|[|c|c] l]; try done. by do 6 (destruct c as [c|c|]; try done).
Qed.

Lemma parse_options_flag (c : Z) fuel argv : c = 100 \/ c = 110 ->
  parse_options (S fuel) ([45; c] :: argv) = ((c, []) :: fst (parse_options fuel argv), snd (parse_options fuel argv)).
Proof. intros [-> | ->]; cbn [parse_options]; (rewrite bool_decide_eq_false_2 by done); cbn; by destruct (parse_options fuel argv). Qed.

Lemma parse_options_arg (c : Z) fuel spec argv : c = 109 \/ c = 120 ->
  parse_options (S fuel) ([45; c] :: spec :: argv) = ((c, spec) :: fst (parse_options fuel argv), snd (parse_options fuel argv)).
Proof. intros [-> | ->]; cbn [parse_options]; (rewrite bool_decide_eq_false_2 by done); cbn; by destruct (parse_options fuel argv). Qed.

Definition options (dflt rc : bool) (op : operation) (spec : list Z) : list (list Z) :=
  (if dflt then [lit "-d"] else []) ++ (if rc then [] else [lit "-n"]) ++ [if bool_decide (op = modifyEntries) then lit "-m" else lit "-x"; spec].

(** What getopt makes of them. *)
Definition letters (dflt rc : bool) (op : operation) (spec : list Z) : list (Z * list Z) :=
  (if dflt then [(100, [])] else []) ++ (if rc then [] else [(110, [])]) ++ [(if bool_decide (op = modifyEntries) then 109 else 120, spec)].

Lemma options_read dflt rc op spec file fuel : op = modifyEntries \/ op = removeEntries -> plain file -> (4 <= fuel)%nat ->
  parse_options fuel (options dflt rc op spec ++ [file]) =
    (letters dflt rc op spec, [file]).
Proof.
  intros Hop Hp Hf. do 4 (destruct fuel as [|fuel]; [lia|]). unfold options, letters.
  change (lit "-d") with [45; 100]. change (lit "-n") with [45; 110]. change (lit "-m") with [45; 109]. change (lit "-x") with [45; 120].
  destruct Hop as [-> | ->]; [rewrite bool_decide_eq_true_2 by done|rewrite bool_decide_eq_false_2 by done]; destruct dflt, rc; cbn [app];
    rewrite ?parse_options_flag by auto; rewrite parse_options_arg, parse_options_plain by auto; done.
Qed.

Lemma set_options_read a0 dflt rc op spec w : op = modifyEntries \/ op = removeEntries ->
  set_options a0 (letters dflt rc op spec)
    (mk_settings unspecifiedOp true false 0 None) w = (Ret (mk_settings op rc dflt 1 (Some spec)), w).
Proof.
  unfold letters. intros [-> | ->]; [rewrite bool_decide_eq_true_2 by done|rewrite bool_decide_eq_false_2 by done]; by destruct dflt, rc.
Qed.

Lemma writable_tags es : Forall writable es -> Forall (fun e => ace_tag e <> ACL_UNDEFINED_TAG) es.
Proof. intros Hall. eapply Forall_impl; [exact Hall|]. by intros e []. Qed.

Lemma reads_tags b es l : Forall (fun e => ace_tag e <> ACL_UNDEFINED_TAG) es -> Forall (fun e => ace_tag e <> ACL_UNDEFINED_TAG) (zip_with (reads b) es l).
Proof. intros Hall. revert l. induction Hall as [|e es He Hall IH]; intros [|x l]; cbn; constructor; auto. Qed.

(** C3: With -m, or -x, entries in the documented form and a file, when no call
    fails, acl_update reads the file's access list, or with -d its default list, as a
    finite map, inserts or deletes the entries one after the other, with the mask
    calculated after each unless -n is given, and leaves the result in the file; at the
    first entry whose result is not valid it stops with what it has stored before. *)
Theorem acl_update_refines a0 op dflt rc es file aclist p m w :
  op = modifyEntries \/ op = removeEntries -> es <> [] -> Z.of_nat (length es) <= MAX_ENTRIES -> Forall writable es -> plain file ->
  length aclist = Z.to_nat MAX_ENTRIES -> fine w -> w_files w !! file = Some p -> shows (the_list dflt p) m ->
  let '(ok, m') := update_rights op rc m es in
  exists acl' w', main aclist (a0 :: options dflt rc op (show_acl (bool_decide (op = modifyEntries)) es) ++ [file]) w =
      (Exit (if ok then EXIT_SUCCESS else EXIT_FAILURE), w') /\
    w_files w' = <[file := with_list dflt p acl']> (w_files w) /\ shows acl' m'.
Proof.
  intros Hop Hne Hmax Hes Hp Hl Hw Hf Hs. set (b := bool_decide (op = modifyEntries)). assert (MAX_ENTRIES = 10000) as HM by done.
  set (l' := zip_with (reads b) es aclist ++ drop (length es) aclist).
  assert (take (Z.to_nat (Z.of_nat (length es))) l' = zip_with (reads b) es aclist) as Htk.
  { rewrite Nat2Z.id. apply take_app_length'. rewrite length_zip_with. lia. }
  destruct (updateACL_fine file dflt op rc (Z.of_nat (length es)) l' p m w Hw Hf Hs) as (acl' & w' & Hr & _ & Hf' & Hs' & _).
  { rewrite Htk. by apply reads_tags, writable_tags. }
  rewrite Htk, update_parsed in Hr, Hs' by (lia || (subst b; destruct Hop as [-> | ->]; by auto)).
  destruct (update_rights op rc m es) as [ok m']. cbn [fst snd] in *. exists acl', w'. split; [|by split].
  unfold main. cbn [head]. rewrite bind_deref. cbn [tail].
  rewrite (bind_ret _ _ w tt w).
  2:{ cbn [length]. assert (2 <= length (options dflt rc op (show_acl b es) ++ [file]))%nat as Hlen by (unfold options; rewrite !length_app; cbn; lia).
    rewrite (proj2 (Z.ltb_ge _ 2)) by lia. rewrite bool_decide_eq_false_2; [done|]. unfold options. by destruct dflt, rc, Hop as [-> | ->]. }
  rewrite options_read by first [done | cbn [length]; unfold options; rewrite !length_app; cbn; lia].
  rewrite (bind_ret _ _ _ _ _ (set_options_read a0 dflt rc op _ w Hop)).
  cbn [o_cnt o_op o_dflt o_spec o_recalc]. rewrite (bind_ret _ _ w tt w) by done.
  assert (bool_decide (op = checkValidACL) = false) as -> by by destruct Hop as [-> | ->].
  do 2 rewrite (bind_ret _ _ w tt w) by done.
  assert (bool_decide (op = modifyEntries) || bool_decide (op = removeEntries) = true) as Hor by by destruct Hop as [-> | ->].
  rewrite Hor. fold b. rewrite (bind_ret _ _ w (Z.of_nat (length es), l') w).
  2:{ rewrite bind_deref. rewrite (bind_ret _ _ _ _ _ (parse_acl_show b es aclist w Hne Hes Hl Hmax)). by rewrite (proj2 (Z.eqb_neq _ (-1))) by lia. }
  cbn [update_files o_op o_dflt o_recalc]. assert (bool_decide (op = removeDefaultACL) = false) as -> by by destruct Hop as [-> | ->].
  rewrite Hor. destruct ok.
  - rewrite bind_assoc, (bind_ret _ _ _ _ _ Hr). done.
  - rewrite bind_assoc. by rewrite (bind_exit _ _ _ _ _ Hr).
Qed.
End Whole.

(** *** Examples *)

Definition demo_entries : list ace := [mk_ace ACL_USER 1000 6; mk_ace ACL_GROUP_OBJ 0 5].

Lemma demo_writable : Forall writable demo_entries.
Proof. repeat constructor; cbn; try done; unfold NO_ID; vm_compute; done. Qed.

Example demo_text : show_acl true demo_entries = lit "user:1000:rw-,group::r-x".
Proof. reflexivity. Qed.

Example demo_updated :
  update_rights modifyEntries true (to_rights demo_acl) demo_entries =
    (true, list_to_map [((ACL_USER_OBJ, 0), 6); ((ACL_GROUP_OBJ, 0), 5); ((ACL_OTHER, 0), 4); ((ACL_USER, 1000), 6); ((ACL_MASK, 0), 7)]).
Proof. by vm_compute. Qed.

Lemma acl_text_roundtrip_witness :
  @parseACL demo_users (lit "user:1000:rw-,group::r-x") demo_array true demo_world = (Ret (2, demo_entries ++ drop 2 demo_array), demo_world).
Proof. exact (@acl_text_roundtrip demo_users true demo_entries demo_array demo_world ltac:(done) demo_writable demo_length ltac:(done)). Defined.

Lemma acl_update_refines_witness :
  exists acl' w', @main demo_libc demo_users demo_libacl demo_array [lit "acl_update"; lit "-m"; lit "user:1000:rw-,group::r-x"; lit "f"] demo_world = (Exit 0, w') /\
    w_files w' = {[lit "f" := (acl', [])]} /\ to_rights acl' !! (ACL_MASK, 0) = Some 7.
Proof.
  assert (shows demo_acl (to_rights demo_acl)) as Hs by (split; [apply (bool_decide_unpack _); by vm_compute|done]).
  pose proof (@acl_update_refines demo_libc demo_users demo_libacl (lit "acl_update") modifyEntries false true demo_entries (lit "f") demo_array (demo_acl, []) (to_rights demo_acl) demo_world
    (or_introl eq_refl) ltac:(done) ltac:(done) demo_writable I demo_length eq_refl eq_refl Hs) as Hm.
  rewrite demo_updated in Hm. destruct Hm as (acl' & w' & Hr & Hf & _ & Hm). exists acl', w'.
  assert (lit "acl_update" :: options false true modifyEntries (show_acl (bool_decide (modifyEntries = modifyEntries)) demo_entries) ++ [lit "f"] =
    [lit "acl_update"; lit "-m"; lit "user:1000:rw-,group::r-x"; lit "f"]) as Ha by reflexivity.
  rewrite Ha in Hr. split; [exact Hr|]. split; [rewrite Hf; apply insert_singleton_eq|]. rewrite Hm. reflexivity.
Defined.
