(* ===== verification/SvShm.v ===== *)
(** * tlpi/tlpi-dist/svshm: a transfer through shared memory

    svshm_xfr_writer.c and svshm_xfr_reader.c with binary_sems.c: two processes that take
    turns on a shared memory segment, one statement at a time in any order.  A [choice]
    says how the next call of a process ends; a process that waits has no step. *)

From stdpp Require Import prelude list_numbers strings.
From Stdlib Require Import ZArith Lia.
From S2P Require Import Prelude CLib Vfs.
Open Scope Z_scope.
Set Warnings "-clear-no-such-hyp".

(** ** Semaphores and shared memory *)

Definition BUF_SIZE : Z := 1024.

(** [struct shmseg] *)
Record shmseg := mk_seg { cnt : Z; buf : list Z }.

(** The values of the two semaphores of the set, and the segment, when they exist. *)
Record ipc := mk_ipc { sems : option (Z * Z); shm : option shmseg }.

Inductive sem := WRITE_SEM | READ_SEM.

(** A call goes on, with at most [n + 1] bytes; a signal interrupts it; it fails. *)
Inductive choice := Goes (n : nat) | Interrupted | Fails.

Definition sem_val (v : Z * Z) (n : sem) : Z := match n with WRITE_SEM => fst v | READ_SEM => snd v end.
Definition sem_set (v : Z * Z) (n : sem) (x : Z) : Z * Z := match n with WRITE_SEM => (x, snd v) | READ_SEM => (fst v, x) end.
Definition set_sems (v : option (Z * Z)) (s : ipc) : ipc := mk_ipc v (shm s).
Definition set_shm (v : option shmseg) (s : ipc) : ipc := mk_ipc (sems s) v.

(** *** binary_sems.c *)

Definition bsRetryOnEintr : bool := true.

Definition semctl_setval (c : choice) (n : sem) (x : Z) (s : ipc) : Z * ipc :=
  match c, sems s with
  | Goes _, Some v => (0, set_sems (Some (sem_set v n x)) s)
  | _, _ => (-1, s)
  end.

Definition initSemAvailable (c : choice) (n : sem) (s : ipc) : Z * ipc := semctl_setval c n 1 s.
Definition initSemInUse (c : choice) (n : sem) (s : ipc) : Z * ipc := semctl_setval c n 0 s.

(** Nothing while the semaphore is in use; no result when the call is made again. *)
Definition reserveSem (c : choice) (n : sem) (s : ipc) : option (option Z * ipc) :=
  match c, sems s with
  | Fails, _ | _, None => Some (Some (-1), s)
  | Interrupted, _ => Some (if negb bsRetryOnEintr then Some (-1) else None, s)
  | Goes _, Some v => if 0 <? sem_val v n then Some (Some 0, set_sems (Some (sem_set v n (sem_val v n - 1))) s) else None
  end.

(** An increment never waits. *)
Definition releaseSem (c : choice) (n : sem) (s : ipc) : Z * ipc :=
  match c, sems s with
  | Goes _, Some v => (0, set_sems (Some (sem_set v n (sem_val v n + 1))) s)
  | _, _ => (-1, s)
  end.

(** ** The writer *)

(** Its statements; [W_crash] after an overflow. *)
Inductive wpc :=
| W_semget | W_init_write | W_init_read | W_shmget | W_shmat
| W_reserve | W_read | W_release | W_test | W_incr
| W_last | W_rmid | W_shmdt | W_shm_rmid | W_exit (c : Z) | W_crash.

(** [w_in] is what its standard input still gives. *)
Record writer := mk_writer { w_pc : wpc; w_bytes : Z; w_xfrs : Z; w_in : list Z }.

Definition w_goto (pc : wpc) (w : writer) : writer := mk_writer pc (w_bytes w) (w_xfrs w) (w_in w).

(** errExit when a call has returned -1. *)
Definition w_unless (r : Z) (pc : wpc) (w : writer) : writer := w_goto (if r =? -1 then W_exit EXIT_FAILURE else pc) w.

(** A call that only succeeds or fails. *)
Definition plain_call (c : choice) : Z := match c with Goes _ => 0 | _ => -1 end.

Definition writer_step (c : choice) (w : writer) (s : ipc) : option (writer * ipc) :=
  match w_pc w with
  | W_semget =>
      Some (match c with
        | Goes _ => (w_goto W_init_write w, set_sems (Some (default (0, 0) (sems s))) s)
        | _ => (w_goto (W_exit EXIT_FAILURE) w, s) end)
  | W_init_write => let '(r, s) := initSemAvailable c WRITE_SEM s in Some (w_unless r W_init_read w, s)
  | W_init_read => let '(r, s) := initSemInUse c READ_SEM s in Some (w_unless r W_shmget w, s)
  | W_shmget =>
      Some (match c with
        | Goes _ => (w_goto W_shmat w, set_shm (Some (default (mk_seg 0 (replicate (Z.to_nat BUF_SIZE) 0)) (shm s))) s)
        | _ => (w_goto (W_exit EXIT_FAILURE) w, s) end)
  | W_shmat => Some (w_unless (plain_call c) W_reserve w, s)
  | W_reserve =>
      match reserveSem c WRITE_SEM s with
      | None => None
      | Some (None, s) => Some (w, s)
      | Some (Some r, s) => Some (w_unless r W_read w, s)
      end
  | W_read =>
      match shm s with
      | None => None
      | Some g =>
          let '(r, bs) := match c with Goes n => let bs := take (Nat.min (S n) (Z.to_nat BUF_SIZE)) (w_in w) in (Z.of_nat (length bs), bs) | _ => (-1, []) end in
          Some (w_unless r W_release (mk_writer W_read (w_bytes w) (w_xfrs w) (drop (length bs) (w_in w))),
                set_shm (Some (mk_seg r (bs ++ drop (length bs) (buf g)))) s)
      end
  | W_release => let '(r, s) := releaseSem c READ_SEM s in Some (w_unless r W_test w, s)
  | W_test => match shm s with None => None | Some g => Some (w_goto (if cnt g =? 0 then W_last else W_incr) w, s) end
  | W_incr =>
      match shm s with
      | None => None
      | Some g =>
          Some (match iadd (w_xfrs w) 1, iadd (w_bytes w) (cnt g) with
            | Some x, Some b => mk_writer W_reserve b x (w_in w)
            | _, _ => w_goto W_crash w end, s)
      end
  | W_last =>
      match reserveSem c WRITE_SEM s with
      | None => None
      | Some (None, s) => Some (w, s)
      | Some (Some r, s) => Some (w_unless r W_rmid w, s)
      end
  | W_rmid => Some (w_unless (plain_call c) W_shmdt w, match c with Goes _ => set_sems None s | _ => s end)
  | W_shmdt => Some (w_unless (plain_call c) W_shm_rmid w, s)
  | W_shm_rmid => Some (w_unless (plain_call c) (W_exit EXIT_SUCCESS) w, match c with Goes _ => set_shm None s | _ => s end)
  | W_exit _ | W_crash => None
  end.

(** ** The reader *)

Inductive rpc :=
| R_semget | R_shmget | R_shmat
| R_reserve | R_test | R_write | R_release
| R_shmdt | R_last | R_exit (c : Z) | R_crash.

#[export] Instance rpc_eq_dec : EqDecision rpc.
Proof. solve_decision. Defined.

(** [r_out] is what it has written to its standard output. *)
Record reader := mk_reader { r_pc : rpc; r_bytes : Z; r_xfrs : Z; r_out : list Z }.

Definition r_goto (pc : rpc) (r : reader) : reader := mk_reader pc (r_bytes r) (r_xfrs r) (r_out r).
Definition r_unless (v : Z) (pc : rpc) (r : reader) : reader := r_goto (if v =? -1 then R_exit EXIT_FAILURE else pc) r.

Definition reader_step (c : choice) (r : reader) (s : ipc) : option (reader * ipc) :=
  match r_pc r with
  | R_semget => Some (r_unless (match sems s with Some _ => plain_call c | None => -1 end) R_shmget r, s)
  | R_shmget => Some (r_unless (match shm s with Some _ => plain_call c | None => -1 end) R_shmat r, s)
  | R_shmat => Some (r_unless (match shm s with Some _ => plain_call c | None => -1 end) R_reserve r, s)
  | R_reserve =>
      match reserveSem c READ_SEM s with
      | None => None
      | Some (None, s) => Some (r, s)
      | Some (Some v, s) => Some (r_unless v R_test r, s)
      end
  | R_test =>
      match shm s with
      | None => None
      | Some g =>
          Some (if cnt g =? 0 then r_goto R_shmdt r else
                match iadd (r_bytes r) (cnt g) with
                | Some b => mk_reader R_write b (r_xfrs r) (r_out r)
                | None => r_goto R_crash r end, s)
      end
  | R_write =>
      match shm s with
      | None => None
      | Some g =>
          let bs := take (Z.to_nat (cnt g)) (buf g) in
          let '(v, bs) := match c with Goes n => let bs := take (S n) bs in (Z.of_nat (length bs), bs) | _ => (-1, []) end in
          Some (r_goto (if negb (v =? cnt g) then R_exit EXIT_FAILURE else R_release) (mk_reader R_write (r_bytes r) (r_xfrs r) (r_out r ++ bs)), s)
      end
  | R_release =>
      let '(v, s) := releaseSem c WRITE_SEM s in
      Some (if v =? -1 then r_goto (R_exit EXIT_FAILURE) r else
            match iadd (r_xfrs r) 1 with
            | Some x => mk_reader R_reserve (r_bytes r) x (r_out r)
            | None => r_goto R_crash r end, s)
  | R_shmdt => Some (r_unless (plain_call c) R_last r, s)
  | R_last => let '(v, s) := releaseSem c WRITE_SEM s in Some (r_unless v (R_exit EXIT_SUCCESS) r, s)
  | R_exit _ | R_crash => None
  end.

(** ** Both *)

Record state := mk_state { st_w : writer; st_r : reader; st_ipc : ipc }.

Inductive step : choice -> state -> state -> Prop :=
| step_writer c w r s w' s' : writer_step c w s = Some (w', s') -> step c (mk_state w r s) (mk_state w' r s')
| step_reader c w r s r' s' : reader_step c r s = Some (r', s') -> step c (mk_state w r s) (mk_state w r' s').

Definition any_step (x y : state) : Prop := exists c, step c x y.

(** Both are started, with nothing left over from other runs. *)
Definition start (data : list Z) : state :=
  mk_state (mk_writer W_semget 0 0 data) (mk_reader R_semget 0 0 []) (mk_ipc None None).
