(* ===== verification/SvShmInv.v ===== *)
(** * tlpi/tlpi-dist/svshm: the invariant of the two processes

    What always holds under every interleaving, with calls that fail anywhere, and that
    the steps of the writer keep it. *)

From stdpp Require Import prelude list_numbers strings relations.
From Stdlib Require Import ZArith Lia.
From S2P Require Import Prelude CLib Vfs SvShm.
Open Scope Z_scope.
Set Warnings "-clear-no-such-hyp".

(** ** The turn *)

(** Who has taken a semaphore and not given one back. *)
Definition w_hold (pc : wpc) : Z := match pc with W_read | W_release | W_rmid => 1 | _ => 0 end.
Definition r_hold (pc : rpc) : Z := match pc with R_test | R_write | R_release | R_shmdt | R_last => 1 | _ => 0 end.

Definition value (n : sem) (s : ipc) : Z := match sems s with Some v => sem_val v n | None => 0 end.

Definition turns (w : writer) (r : reader) (s : ipc) : Z := value WRITE_SEM s + value READ_SEM s + w_hold (w_pc w) + r_hold (r_pc r).

(** The block in the segment that is not yet written out. *)
Definition w_loaded (pc : wpc) : bool := match pc with W_release => true | _ => false end.
Definition r_loaded (pc : rpc) : bool := match pc with R_test | R_write => true | _ => false end.
Definition loaded (w : writer) (r : reader) (s : ipc) : bool := w_loaded (w_pc w) || (value READ_SEM s =? 1) || r_loaded (r_pc r).

Definition block (s : ipc) : list Z := match shm s with Some g => take (Z.to_nat (cnt g)) (buf g) | None => [] end.
Definition inflight (w : writer) (r : reader) (s : ipc) : list Z := if loaded w r s then block s else [].

Definition setting_up (pc : wpc) : bool := match pc with W_semget | W_init_write | W_init_read | W_shmget | W_shmat => true | _ => false end.
Definition early (pc : rpc) : bool := match pc with R_semget | R_shmget => true | R_exit c => negb (c =? 0) | _ => false end.
Definition final (pc : rpc) : bool := match pc with R_shmdt | R_last => true | R_exit c => c =? 0 | _ => false end.

(** A block in the segment; an empty one comes with the end of the input. *)
Definition block_ok (w : writer) (s : ipc) : Prop :=
  match shm s with Some g => 0 <= cnt g <= Z.of_nat (length (buf g)) /\ (cnt g = 0 -> w_in w = []) | None => False end.

(** After the empty block. *)
Definition at_end (w : writer) (r : reader) (s : ipc) : Prop :=
  turns w r s = 0 \/ value READ_SEM s = 1 /\ final (r_pc r) = false \/ r_pc r = R_test \/ r_pc r = R_shmdt \/ r_pc r = R_last \/
  value WRITE_SEM s = 1 /\ r_pc r = R_exit EXIT_SUCCESS.

(** What the writer has counted, [n] bytes but. *)
Definition counted (data : list Z) (w : writer) (n : Z) : Prop :=
  w_bytes w + n + Z.of_nat (length (w_in w)) = Z.of_nat (length data) /\ 0 <= w_xfrs w <= w_bytes w.

Definition w_inv (data : list Z) (w : writer) (r : reader) (s : ipc) : Prop :=
  let fresh := w_bytes w = 0 /\ w_xfrs w = 0 /\ w_in w = data /\ r_out r = [] in
  match w_pc w with
  | W_semget => s = mk_ipc None None /\ fresh /\ early (r_pc r) = true
  | W_init_write => s = mk_ipc (Some (0, 0)) None /\ fresh /\ early (r_pc r) = true
  | W_init_read | W_shmget => s = mk_ipc (Some (1, 0)) None /\ fresh /\ early (r_pc r) = true
  | W_shmat => sems s = Some (1, 0) /\ is_Some (shm s) /\ fresh /\ (early (r_pc r) = true \/ r_pc r = R_shmat \/ r_pc r = R_reserve)
  | W_reserve =>
      is_Some (sems s) /\ is_Some (shm s) /\ counted data w 0 /\ final (r_pc r) = false /\
      (value READ_SEM s = 1 \/ r_loaded (r_pc r) = true -> 0 < default 0 (cnt <$> shm s))
  | W_read => is_Some (sems s) /\ is_Some (shm s) /\ counted data w 0 /\ final (r_pc r) = false
  | W_release => is_Some (sems s) /\ block_ok w s /\ counted data w (default 0 (cnt <$> shm s)) /\ final (r_pc r) = false
  | W_test =>
      is_Some (sems s) /\ block_ok w s /\ counted data w (default 0 (cnt <$> shm s)) /\
      (if default 0 (cnt <$> shm s) =? 0 then at_end w r s else final (r_pc r) = false)
  | W_incr =>
      is_Some (sems s) /\ block_ok w s /\ counted data w (default 0 (cnt <$> shm s)) /\ 0 < default 0 (cnt <$> shm s) /\ final (r_pc r) = false
  | W_last => is_Some (sems s) /\ block_ok w s /\ default 0 (cnt <$> shm s) = 0 /\ counted data w 0 /\ at_end w r s
  | W_rmid => is_Some (sems s) /\ is_Some (shm s) /\ w_in w = [] /\ counted data w 0 /\ r_pc r = R_exit EXIT_SUCCESS
  | W_shmdt | W_shm_rmid => sems s = None /\ is_Some (shm s) /\ w_in w = [] /\ counted data w 0 /\ r_pc r = R_exit EXIT_SUCCESS
  | W_exit c => c = EXIT_SUCCESS -> sems s = None /\ shm s = None /\ w_in w = [] /\ counted data w 0 /\ r_pc r = R_exit EXIT_SUCCESS
  | W_crash => False
  end.

(** What the reader has written, but for [n] bytes it has counted. *)
Definition written (r : reader) (n : Z) : Prop := r_bytes r = Z.of_nat (length (r_out r)) + n /\ 0 <= r_xfrs r.

Definition r_inv (data : list Z) (w : writer) (r : reader) (s : ipc) : Prop :=
  match r_pc r with
  | R_semget | R_shmget => r_out r = [] /\ written r 0 /\ r_xfrs r <= r_bytes r
  | R_shmat => is_Some (shm s) /\ r_out r = [] /\ written r 0 /\ r_xfrs r <= r_bytes r
  | R_reserve => is_Some (shm s) /\ written r 0 /\ r_xfrs r <= r_bytes r
  | R_test => block_ok w s /\ written r 0 /\ r_xfrs r <= r_bytes r
  | R_write => block_ok w s /\ 0 < default 0 (cnt <$> shm s) /\ written r (default 0 (cnt <$> shm s)) /\ r_xfrs r < r_bytes r
  | R_release => is_Some (shm s) /\ written r 0 /\ r_xfrs r < r_bytes r
  | R_shmdt | R_last => is_Some (shm s) /\ r_out r = data /\ written r 0 /\ r_xfrs r <= r_bytes r
  | R_exit c => c = EXIT_SUCCESS -> r_out r = data /\ written r 0 /\ r_xfrs r <= r_bytes r
  | R_crash => False
  end.

Record inv (data : list Z) (w : writer) (r : reader) (s : ipc) : Prop := {
  i_turns : 0 <= value WRITE_SEM s /\ 0 <= value READ_SEM s /\ turns w r s <= 1;
  i_prefix : r_out r `prefix_of` data;
  i_flow : data = r_out r ++ inflight w r s ++ w_in w \/ turns w r s = 0 /\ setting_up (w_pc w) = false;
  i_block : value READ_SEM s = 1 -> block_ok w s;
  i_writer : w_inv data w r s;
  i_reader : r_inv data w r s
}.

(** ** Every step keeps the invariant *)

Lemma final_early pc : early pc = true -> final pc = false.
Proof. destruct pc as [| | | | | | | | |c|]; cbn; try done. by destruct (c =? 0). Qed.

(** Splits what is known, evaluates, and leaves arithmetic. *)
Ltac known1 :=
  repeat match goal with
  | H : _ /\ _ |- _ => destruct H
  | H : is_Some _ |- _ => destruct H as [? ?]
  | H : Some _ = Some _ |- _ => injection H as H
  | H : mk_ipc _ _ = mk_ipc _ _ |- _ => injection H as H
  | H : (_, _) = (_, _) |- _ => injection H as H
  | H : ?x = ?x -> _ |- _ => specialize (H eq_refl)
  | H : _ \/ ?x = ?x -> _ |- _ => specialize (H (or_intror eq_refl))
  | H : negb _ = true |- _ => apply negb_true_iff in H
  | H : negb _ = false |- _ => apply negb_false_iff in H
  | H : (_ =? _) = true |- _ => apply Z.eqb_eq in H
  | H : (_ =? _) = false |- _ => apply Z.eqb_neq in H
  | H : (_ <? _) = true |- _ => apply Z.ltb_lt in H
  | H : (_ <? _) = false |- _ => apply Z.ltb_ge in H
  end; simplify_eq/=.
Ltac known := known1; known1.

Ltac crunch := unfold w_inv, r_inv, at_end, EXIT_SUCCESS, EXIT_FAILURE, turns, value, inflight, loaded, block, block_ok, counted, written, at_end, w_unless, w_goto in *; cbn in *; known.

(** Proves what evaluation and arithmetic prove, choosing disjuncts. *)
Ltac fin :=
  lazymatch goal with
  | |- _ /\ _ => split; fin
  | |- is_Some (Some _) => eexists; reflexivity
  | |- _ -> _ => intros ?; known; fin
  | |- (_ =? _) = false => apply Z.eqb_neq; fin
  | |- (_ =? _) = true => apply Z.eqb_eq; fin
  | |- if ?b then _ else _ => destruct b eqn:?; known; fin
  | H : if ?b then _ else _ |- _ => destruct b eqn:?; known; fin
  | H : _ \/ _ |- _ => first [assumption | destruct H; known; fin]
  | |- _ \/ _ => first [solve [left; fin] | solve [right; fin]]
  | |- _ => first [done | lia | congruence | tauto]
  end.

Ltac split_inv := (split; [| | | | |]); crunch; fin.

Section Writer.
Context (data : list Z) (Hdata : Z.of_nat (length data) <= INT_MAX).

Lemma setup_step c w r s w' s' :
  setting_up (w_pc w) = true -> inv data w r s -> writer_step c w s = Some (w', s') -> inv data w' r s'.
Proof.
  destruct w as [pc b x i], r as [rp rb rx ro], s as [se sh]. intros Hpc [(Ha & Hb & Ht) Hp Hf Hbl Hw Hr] Hs.
  destruct pc; try done; unfold writer_step, initSemAvailable, initSemInUse, semctl_setval in Hs; cbn in *; known; destruct c as [n| |]; known;
    destruct rp; try done; crunch;
    (split; [| | | | |]); crunch; fin.
Qed.

Lemma reserve_step c w r s w' s' :
  w_pc w = W_reserve \/ w_pc w = W_last -> inv data w r s -> writer_step c w s = Some (w', s') -> inv data w' r s'.
Proof.
  destruct w as [pc b x i], r as [rp rb rx ro], s as [[[va vb]|] [g|]]; intros Hpc [(Ha & Hb & Ht) Hp Hf Hbl Hw Hr] Hs;
  (destruct pc; try (by destruct Hpc)); unfold writer_step, reserveSem, bsRetryOnEintr in Hs; cbn in *; known; try (by destruct H); destruct c as [n| |]; known;
    try (destruct (Z.ltb_spec 0 va); [|discriminate]); known;
    destruct rp; try done; crunch; split_inv.
Qed.

(** A step that neither moves a turn nor a block. *)
Lemma quiet_step w w' r s :
  inv data w r s -> w_hold (w_pc w') = w_hold (w_pc w) -> w_loaded (w_pc w') = w_loaded (w_pc w) -> w_in w' = w_in w ->
  setting_up (w_pc w') = false -> w_inv data w' r s -> inv data w' r s.
Proof.
  intros [Ht Hp Hf Hbl Hw Hr] H1 H2 H3 H4 H5. split; [|done| | |done|].
  - unfold turns in *. by rewrite H1.
  - unfold inflight, loaded, turns in *. rewrite H1, H2, H3. destruct Hf as [Hf|[Hf _]]; [by left|by right].
  - intros Hv. specialize (Hbl Hv). unfold block_ok in *. by rewrite H3.
  - unfold r_inv, block_ok in *. by rewrite H3.
Qed.

Lemma quiet_steps c w r s w' s' :
  w_pc w = W_test \/ w_pc w = W_incr \/ w_pc w = W_shmdt -> inv data w r s ->
  writer_step c w s = Some (w', s') -> inv data w' r s'.
Proof.
  intros Hpc Hi Hs. pose proof (i_writer _ _ _ _ Hi) as Hw. destruct w as [pc b x i], s as [se [g|]].
  2:{ cbn in Hpc. destruct Hpc as [-> | [-> | ->]]; cbn in *; try done. by destruct Hw as (_ & [? ?] & _). }
  cbn in Hpc. destruct Hpc as [-> | [-> | ->]]; unfold writer_step in Hs; cbn in Hs, Hw.
  - simplify_eq/=. apply (quiet_step _ _ _ _ Hi); try done; destruct (Z.eqb_spec (cnt g) 0); try done.
    + crunch. fin.
    + crunch. fin.
  - unfold iadd in Hs. crunch. rewrite !decide_True by (split; unfold INT_MIN in *; lia).
    apply (quiet_step _ _ _ _ Hi); try done. crunch. fin.
  - destruct c; crunch; apply (quiet_step _ _ _ _ Hi); try done; crunch; fin.
Qed.

Lemma release_step c w r s w' s' :
  w_pc w = W_release -> inv data w r s -> writer_step c w s = Some (w', s') -> inv data w' r s'.
Proof.
  destruct w as [pc b x i], r as [rp rb rx ro], s as [[[va vb]|] [g|]]; intros Hpc [(Ha & Hb & Ht) Hp Hf Hbl Hw Hr] Hs;
  cbn in Hpc; subst pc; unfold writer_step, releaseSem in Hs; cbn in *; known.
  assert (va = 0 /\ vb = 0 /\ r_hold rp = 0) as (-> & -> & Hh) by (unfold turns in Ht; cbn in Ht; destruct rp; cbn in *; lia).
  assert (data = ro ++ take (Z.to_nat (cnt g)) (buf g) ++ i) as Hd by (destruct Hf as [Hf|[Hf _]]; [exact Hf|unfold turns in Hf; cbn in Hf; lia]).
  destruct c as [n| |]; injection Hs as <- <-; (split; [crunch; lia|done| | | |]).
  - left. exact Hd.
  - done.
  - cbn. destruct (Z.eqb_spec (cnt g) 0); crunch; fin.
  - destruct rp; try done; crunch; fin.
  - right. crunch; lia.
  - done.
  - by cbn.
  - destruct rp; try done; crunch; fin.
  - right. crunch; lia.
  - done.
  - by cbn.
  - destruct rp; try done; crunch; fin.
Qed.

Lemma read_step c w r s w' s' :
  w_pc w = W_read -> inv data w r s -> writer_step c w s = Some (w', s') -> inv data w' r s'.
Proof.
  destruct w as [pc b x i], r as [rp rb rx ro], s as [[[va vb]|] [g|]]; intros Hpc [(Ha & Hb & Ht) Hp Hf Hbl Hw Hr];
  cbn in Hpc; subst pc; cbn in Hw, Ha, Hb; known; intros Hs; unfold writer_step in Hs; cbn [w_pc shm w_in w_bytes w_xfrs buf] in Hs.
  assert (va = 0 /\ vb = 0 /\ r_hold rp = 0) as (-> & -> & Hh) by (unfold turns in Ht; cbn in Ht; destruct rp; cbn in *; lia).
  assert (r_loaded rp = false) as Hrl by by destruct rp.
  assert (data = ro ++ i) as Hd.
  { destruct Hf as [Hf|[Hf _]]; [|unfold turns in Hf; cbn in Hf; lia]. unfold inflight, loaded in Hf. by destruct rp. }
  destruct c as [n| |].
  - set (bs := take (Nat.min (S n) (Z.to_nat BUF_SIZE)) i) in *. injection Hs as <- <-.
    assert (i = bs ++ drop (length bs) i) as Hi.
    { subst bs. generalize (Nat.min (S n) (Z.to_nat BUF_SIZE)). intros m. rewrite <- (take_drop m i) at 1. f_equal. rewrite length_take.
      destruct (decide (m <= length i)%nat); [by rewrite Nat.min_l|]. by rewrite !drop_ge by lia. }
    assert (bs = [] -> i = []) as Hnil by (subst bs; by destruct i).
    assert (length i = length bs + length (drop (length bs) i))%nat as Hli by (rewrite Hi at 1; apply length_app).
    clearbody bs. unfold w_unless, w_goto. rewrite (proj2 (Z.eqb_neq (Z.of_nat (length bs)) (-1))) by lia. cbn [w_bytes w_xfrs w_in].
    assert (Z.of_nat (length bs) = 0 -> drop (length bs) i = []) as Hz by (intros Hz; destruct bs; [by rewrite (Hnil eq_refl)|cbn in Hz; lia]).
    split; [unfold turns in *; cbn in *; lia|done| |done| |].
    + left. unfold inflight, loaded, block. cbn. rewrite Nat2Z.id, take_app_length. rewrite <- Hi. exact Hd.
    + cbn. unfold block_ok, counted in *. cbn in *. split; [done|]. split; [split; [rewrite length_app; lia|done]|]. split; [lia|tauto].
    + destruct rp; try done; crunch; fin.
  - injection Hs as <- <-. split; [unfold turns in *; cbn in *; lia|done| |done|by cbn|].
    + right. unfold turns. cbn. lia.
    + destruct rp; try done; crunch; fin.
  - injection Hs as <- <-. split; [unfold turns in *; cbn in *; lia|done| |done|by cbn|].
    + right. unfold turns. cbn. lia.
    + destruct rp; try done; crunch; fin.
Qed.

Lemma remove_step c w r s w' s' :
  w_pc w = W_rmid \/ w_pc w = W_shm_rmid -> inv data w r s -> writer_step c w s = Some (w', s') -> inv data w' r s'.
Proof.
  destruct w as [pc b x i], r as [rp rb rx ro], s as [[[va vb]|] [g|]]; intros Hpc [(Ha & Hb & Ht) Hp Hf Hbl Hw Hr] Hs;
  cbn in Hpc; destruct Hpc as [-> | ->]; unfold writer_step in Hs; cbn in Hs, Hw; known; try (by destruct H);
    destruct c as [n| |]; crunch; (split; [crunch; fin|done| | | |]); crunch; fin.
Qed.

Lemma writer_keeps c w r s w' s' : inv data w r s -> writer_step c w s = Some (w', s') -> inv data w' r s'.
Proof.
  intros Hi Hs. destruct (w_pc w) eqn:Hpc.
  1-5: by apply (setup_step c w r s); [rewrite Hpc|..].
  - apply (reserve_step c w r s); auto.
  - by apply (read_step c w r s).
  - by apply (release_step c w r s).
  - apply (quiet_steps c w r s); auto.
  - apply (quiet_steps c w r s); auto.
  - apply (reserve_step c w r s); auto.
  - apply (remove_step c w r s); auto.
  - apply (quiet_steps c w r s); auto.
  - apply (remove_step c w r s); auto.
  - unfold writer_step in Hs. by rewrite Hpc in Hs.
  - unfold writer_step in Hs. by rewrite Hpc in Hs.
Qed.
End Writer.
