(* ===== verification/SvShmRun.v ===== *)
(** * tlpi/tlpi-dist/svshm: the transfer is right

    The steps of the reader keep the invariant too; and without failures, every run of
    the two processes ends with the input copied. *)

From stdpp Require Import prelude list_numbers strings relations.
From Stdlib Require Import ZArith Lia.
From S2P Require Import Prelude CLib Vfs SvShm SvShmInv.
Open Scope Z_scope.
Set Warnings "-clear-no-such-hyp".

Section Reader.
Context (data : list Z) (Hdata : Z.of_nat (length data) <= INT_MAX).

Lemma open_step c w r s r' s' :
  r_pc r = R_semget \/ r_pc r = R_shmget \/ r_pc r = R_shmat -> inv data w r s -> reader_step c r s = Some (r', s') -> inv data w r' s'.
Proof.
  destruct w as [pc b x i], r as [rp rb rx ro], s as [se sh]; intros Hpc [Ht Hp Hf Hbl Hw Hr] Hs; cbn in Hpc.
  assert (exists rp', r' = mk_reader rp' rb rx ro /\ s' = mk_ipc se sh /\
    (rp' = R_exit 1 \/ rp = R_semget /\ rp' = R_shmget /\ is_Some se \/ rp = R_shmget /\ rp' = R_shmat /\ is_Some sh \/ rp = R_shmat /\ rp' = R_reserve)) as (rp' & -> & -> & Hrp).
  { destruct Hpc as [-> | [-> | ->]]; unfold reader_step in Hs; cbn in Hs; [destruct se|destruct sh|destruct sh]; destruct c; cbn in Hs; injection Hs as <- <-; eexists; (split; [done|]); (split; [done|]); eauto 10. }
  clear Hs. assert (r_hold rp' = 0 /\ r_loaded rp' = false /\ r_hold rp = 0 /\ r_loaded rp = false) as (E1 & E2 & E3 & E4) by (destruct Hpc as [-> | [-> | ->]]; destruct Hrp as [-> | [(? & -> & _)|[(? & -> & _)|(? & ->)]]]; done).
  split; [|done| |done| |].
  - unfold turns in *. cbn in *. rewrite E1. by rewrite E3 in Ht.
  - unfold inflight, loaded, turns in *. cbn in *. rewrite E1, E2. by rewrite E3, E4 in Hf.
  - unfold w_inv, at_end, turns in *. cbn in *. rewrite E1. rewrite E3 in Hw. destruct Hpc as [-> | [-> | ->]]; destruct Hrp as [-> | [(? & -> & ?)|[(? & -> & ?)|(? & ->)]]]; try done;
      destruct pc; crunch; fin.
  - destruct Hpc as [-> | [-> | ->]]; destruct Hrp as [-> | [(? & -> & ?)|[(? & -> & ?)|(? & ->)]]]; try done; crunch; fin.
Qed.

Lemma wait_step c w r s r' s' :
  r_pc r = R_reserve -> inv data w r s -> reader_step c r s = Some (r', s') -> inv data w r' s'.
Proof.
  destruct w as [pc b x i], r as [rp rb rx ro], s as [[[va vb]|] sh]; intros Hpc [(Ha & Hb & Ht) Hp Hf Hbl Hw Hr] Hs; cbn in Hpc; subst rp;
  unfold reader_step, reserveSem, bsRetryOnEintr in Hs; cbn in Hs.
  - destruct c as [n| |]; [destruct (Z.ltb_spec 0 vb); [|discriminate]| |]; injection Hs as <- <-.
    + assert (va = 0 /\ vb = 1 /\ w_hold pc = 0) as (-> & -> & Hh) by (unfold turns in Ht; cbn in *; destruct pc; cbn in *; lia).
      specialize (Hbl eq_refl). split; [unfold turns; cbn; lia|done| |done| |].
      * destruct Hf as [Hf|[Hf _]]; [|unfold turns in Hf; cbn in Hf; lia]. left. destruct pc; cbn in *; done.
      * destruct pc; try done; crunch; fin.
      * crunch. fin.
    + by split.
    + split; [unfold turns in *; cbn in *; lia|done| |done| |].
      * unfold inflight, loaded, turns in *. cbn in *. destruct Hf as [Hf|[Hf Hx]]; [by left|right; split; [lia|done]].
      * destruct pc; try done; crunch; fin.
      * crunch. fin.
  - assert (r' = r_goto (R_exit 1) (mk_reader R_reserve rb rx ro) /\ s' = mk_ipc None sh) as [-> ->] by (destruct c; by injection Hs as <- <-).
    split; [unfold turns in *; cbn in *; lia|done| |done| |].
    + unfold inflight, loaded, turns in *. cbn in *. destruct Hf as [Hf|[Hf Hx]]; [by left|right; split; [lia|done]].
    + destruct pc; try done; crunch; fin.
    + crunch. fin.
Qed.

(** What holds while the reader has its turn. *)
Lemma reader_turn w r s : inv data w r s -> r_hold (r_pc r) = 1 ->
  value WRITE_SEM s = 0 /\ value READ_SEM s = 0 /\ w_hold (w_pc w) = 0 /\ setting_up (w_pc w) = false /\
  data = r_out r ++ (if r_loaded (r_pc r) then block s else []) ++ w_in w.
Proof.
  intros [(Ha & Hb & Ht) Hp Hf Hbl Hw Hr] Hh.
  assert (value WRITE_SEM s = 0 /\ value READ_SEM s = 0 /\ w_hold (w_pc w) = 0) as (E1 & E2 & E3) by (unfold turns in Ht; destruct (w_pc w); cbn in *; lia).
  split; [done|]. split; [done|]. split; [done|].
  assert (w_loaded (w_pc w) = false) as E4 by by destruct (w_pc w). split.
  { unfold w_inv in Hw. unfold value in E1. destruct (w_pc w); try done; destruct Hw as (Hw & Hx); try (rewrite Hw in E1; done);
      destruct Hx as [_ Hx]; destruct (r_pc r) as [| | | | | | | | |e|]; try done; cbn in Hh; lia. }
  destruct Hf as [Hf|[Hf _]]; [|unfold turns in Hf; lia]. unfold inflight, loaded in Hf. by rewrite E2, E4 in Hf.
Qed.

Lemma test_step c w r s r' s' :
  r_pc r = R_test -> inv data w r s -> reader_step c r s = Some (r', s') -> inv data w r' s'.
Proof.
  intros Hpc Hi Hs. destruct (reader_turn w r s Hi) as (E1 & E2 & E3 & E4 & Hd); [by rewrite Hpc|]. destruct Hi as [Ht Hp _ Hbl Hw Hr].
  destruct w as [pc b x i], r as [rp rb rx ro], s as [se [g|]]; cbn in Hpc; subst rp; unfold reader_step in Hs; cbn in Hs; [|done]. cbn in Hd, E3, E4.
  unfold r_inv, block_ok, written in Hr. cbn in Hr. destruct Hr as ((Hg & Hend) & (Hrb & Hrx) & Hx).
  destruct (Z.eqb_spec (cnt g) 0) as [H0|H0].
  - injection Hs as <- <-. rewrite (Hend H0), app_nil_r in Hd. unfold block in Hd. cbn in Hd. rewrite H0 in Hd. cbn in Hd. rewrite app_nil_r in Hd.
    split; [unfold turns in *; cbn in *; lia|done| |done| |].
    + left. unfold inflight, loaded. cbn. rewrite E2. rewrite (Hend H0). destruct pc; try done; cbn; by rewrite app_nil_r.
    + destruct pc; try done; crunch; fin.
    + cbn. subst ro. done.
  - assert (length ro + length (take (Z.to_nat (cnt g)) (buf g)) + length i = length data)%nat as Hlen by (rewrite Hd at 1; rewrite !length_app; unfold block; cbn; lia).
    rewrite length_take in Hlen. unfold iadd in Hs. rewrite decide_True in Hs by (split; unfold INT_MIN in *; lia). injection Hs as <- <-.
    split; [unfold turns in *; cbn in *; lia|done| |done| |].
    + left. unfold inflight, loaded. cbn. rewrite E2. by destruct pc.
    + destruct pc; try done; crunch; fin.
    + cbn. unfold block_ok, written. cbn. split; [done|]. lia.
Qed.

Lemma write_step c w r s r' s' :
  r_pc r = R_write -> inv data w r s -> reader_step c r s = Some (r', s') -> inv data w r' s'.
Proof.
  intros Hpc Hi Hs. destruct (reader_turn w r s Hi) as (E1 & E2 & E3 & E4 & Hd); [by rewrite Hpc|]. destruct Hi as [Ht Hp _ Hbl Hw Hr].
  destruct w as [pc b x i], r as [rp rb rx ro], s as [se [g|]]; cbn in Hpc; subst rp; unfold reader_step in Hs; cbn [r_pc shm] in Hs; [|done]. cbn in Hd, E3, E4.
  unfold r_inv, block_ok, written in Hr. cbn in Hr. destruct Hr as ((Hg & Hend) & Hpos & (Hrb & Hrx) & Hx). unfold block in Hd. cbn in Hd.
  set (bs := take (Z.to_nat (cnt g)) (buf g)) in *.
  assert (Z.of_nat (length bs) = cnt g) as Hlb by (subst bs; rewrite length_take; lia).
  assert (exists v ws rest, bs = ws ++ rest /\ (v = cnt g -> ws = bs) /\ r' = r_goto (if negb (v =? cnt g) then R_exit EXIT_FAILURE else R_release) (mk_reader R_write rb rx (ro ++ ws)) /\ s' = mk_ipc se (Some g)) as (v & ws & rest & Hbs & Hv & -> & ->).
  { destruct c as [n| |]; injection Hs as <- <-.
    - exists (Z.of_nat (length (take (S n) bs))), (take (S n) bs), (drop (S n) bs). split; [by rewrite take_drop|]. split; [|done]. intros Hv. apply take_ge.
      rewrite length_take in Hv. lia.
    - exists (-1), [], bs. split; [done|]. split; [lia|by rewrite app_nil_r].
    - exists (-1), [], bs. split; [done|]. split; [lia|by rewrite app_nil_r]. }
  clearbody bs. split; [destruct (negb (v =? cnt g)); unfold turns in *; cbn in *; lia| | |done| |].
  - cbn. rewrite Hd, Hbs. exists (rest ++ i). by rewrite <- !app_assoc.
  - destruct (Z.eqb_spec v (cnt g)) as [Hvc|Hvc]; cbn [negb].
    + left. unfold inflight, loaded. cbn. rewrite E2, (Hv Hvc), <- app_assoc. by destruct pc.
    + right. unfold turns. cbn. split; [lia|done].
  - destruct (negb (v =? cnt g)); destruct pc; try done; crunch; fin.
  - destruct (Z.eqb_spec v (cnt g)) as [Hvc|Hvc]; cbn [negb]; [|by cbn]. rewrite (Hv Hvc). cbn. unfold written. cbn. rewrite length_app. split; [done|]. lia.
Qed.

Lemma give_step c w r s r' s' :
  r_pc r = R_release \/ r_pc r = R_shmdt \/ r_pc r = R_last -> inv data w r s -> reader_step c r s = Some (r', s') -> inv data w r' s'.
Proof.
  intros Hpc Hi Hs. destruct (reader_turn w r s Hi) as (E1 & E2 & E3 & E4 & Hd); [by destruct Hpc as [-> | [-> | ->]]|]. destruct Hi as [Ht Hp _ Hbl Hw Hr].
  destruct w as [pc b x i], r as [rp rb rx ro], s as [se sh]; cbn in Hpc, Hd, E3, E4.
  assert (exists l, data = ro ++ l) as [l Hl] by (destruct Hpc as [-> | [-> | ->]]; by exists i).
  destruct Hpc as [-> | [-> | ->]]; cbn in Hd; unfold reader_step, releaseSem in Hs; cbn in Hs.
  - assert (rx + 1 <= INT_MAX /\ 0 <= rx /\ rb = Z.of_nat (length ro) /\ rx < rb /\ is_Some sh) as (Hrx & Hrx0 & Hrb & Hxb & Hsh).
    { cbn in Hr. unfold written in Hr. cbn in Hr. destruct Hr as (? & [? ?] & ?). apply (f_equal length) in Hl. rewrite length_app in Hl. split; [lia|]. repeat split; try lia. done. }
    unfold iadd in Hs. rewrite decide_True in Hs by (split; unfold INT_MIN in *; lia).
    destruct c as [n| |]; [destruct se as [[va vb]|]| |]; cbn in Hs, E1, E2; injection Hs as <- <-; subst; (split; [unfold turns in *; cbn in *; lia|done| |done| |]).
    + left. destruct pc; cbn in *; done.
    + destruct pc; try done; crunch; fin.
    + cbn. unfold written. cbn. split; [done|]. lia.
    + right. unfold turns. cbn. split; [cbn in *; lia|done].
    + destruct pc; try done; crunch; fin.
    + by cbn.
    + right. unfold turns. cbn in *. split; [lia|done].
    + destruct pc; try done; crunch; fin.
    + by cbn.
    + right. unfold turns. cbn in *. split; [lia|done].
    + destruct pc; try done; crunch; fin.
    + by cbn.
  - destruct c as [n| |]; injection Hs as <- <-; (split; [unfold turns in *; cbn in *; lia|done| |done| |]).
    + left. unfold inflight, loaded. cbn. rewrite E2. by destruct pc.
    + destruct pc; try done; crunch; fin.
    + crunch. fin.
    + right. unfold turns. cbn in *. split; [lia|done].
    + destruct pc; try done; crunch; fin.
    + by cbn.
    + right. unfold turns. cbn in *. split; [lia|done].
    + destruct pc; try done; crunch; fin.
    + by cbn.
  - destruct c as [n| |]; [destruct se as [[va vb]|]| |]; cbn in Hs, E1, E2; injection Hs as <- <-; subst; (split; [unfold turns in *; cbn in *; lia|done| |done| |]).
    + left. destruct pc; cbn in *; done.
    + destruct pc; try done; crunch; fin.
    + crunch. fin.
    + right. unfold turns. cbn. split; [cbn in *; lia|done].
    + destruct pc; try done; crunch; fin.
    + by cbn.
    + right. unfold turns. cbn in *. split; [lia|done].
    + destruct pc; try done; crunch; fin.
    + by cbn.
    + right. unfold turns. cbn in *. split; [lia|done].
    + destruct pc; try done; crunch; fin.
    + by cbn.
Qed.

Lemma reader_keeps c w r s r' s' : inv data w r s -> reader_step c r s = Some (r', s') -> inv data w r' s'.
Proof.
  intros Hi Hs. destruct (r_pc r) eqn:Hpc; try (by apply (open_step c w r s); auto).
  - by apply (wait_step c w r s).
  - by apply (test_step c w r s).
  - by apply (write_step c w r s).
  - apply (give_step c w r s); auto.
  - apply (give_step c w r s); auto.
  - apply (give_step c w r s); auto.
  - unfold reader_step in Hs. by rewrite Hpc in Hs.
  - unfold reader_step in Hs. by rewrite Hpc in Hs.
Qed.
End Reader.

(** ** Every interleaving *)

Lemma start_inv data : inv data (st_w (start data)) (st_r (start data)) (st_ipc (start data)).
Proof.
  split; cbn.
  - unfold turns. cbn. lia.
  - apply prefix_nil.
  - by left.
  - done.
  - done.
  - unfold written. cbn. split; [done|]. lia.
Qed.

Lemma steps_inv data x y : Z.of_nat (length data) <= INT_MAX -> rtc any_step x y ->
  inv data (st_w x) (st_r x) (st_ipc x) -> inv data (st_w y) (st_r y) (st_ipc y).
Proof.
  intros Hd Hxy. induction Hxy as [x|x y z [c Hs] _ IH]; [done|]. intros Hi. apply IH. destruct Hs; cbn in *.
  - by eapply writer_keeps.
  - by eapply reader_keeps.
Qed.

(** C13: for an input of at most [INT_MAX] bytes, in every interleaving of writer and
    reader, started with nothing left over from other runs, and whichever calls fail or
    transfer less: what the reader has written is
    a beginning of the writer's input; nobody reads the block while it is written; neither
    counter overflows; a reader that ends with success has copied and counted everything,
    and so has the reader when the writer ends with success, which has removed the
    semaphores and the segment. *)
Theorem transfer_safe data st :
  Z.of_nat (length data) <= INT_MAX -> rtc any_step (start data) st ->
  r_out (st_r st) `prefix_of` data /\
  (w_pc (st_w st) = W_read -> r_loaded (r_pc (st_r st)) = false) /\
  w_pc (st_w st) <> W_crash /\ r_pc (st_r st) <> R_crash /\
  (r_pc (st_r st) = R_exit EXIT_SUCCESS -> r_out (st_r st) = data /\ r_bytes (st_r st) = Z.of_nat (length data)) /\
  (w_pc (st_w st) = W_exit EXIT_SUCCESS ->
     r_pc (st_r st) = R_exit EXIT_SUCCESS /\ w_bytes (st_w st) = Z.of_nat (length data) /\ st_ipc st = mk_ipc None None).
Proof.
  intros Hd Hst. pose proof (steps_inv data _ _ Hd Hst (start_inv data)) as Hi. clear Hst. destruct Hi as [Ht Hp _ _ Hw Hr]. destruct st as [w r s]. cbn in *.
  split; [done|]. split.
  { intros Hwp. unfold turns in Ht. rewrite Hwp in Ht. destruct (r_pc r); cbn in *; try done; lia. }
  split; [intros Hx; unfold w_inv in Hw; by rewrite Hx in Hw|]. split; [intros Hx; unfold r_inv in Hr; by rewrite Hx in Hr|]. split.
  - intros Hx. unfold r_inv in Hr. rewrite Hx in Hr. destruct (Hr eq_refl) as (Ho & [Hb _] & _). split; [done|]. rewrite Ho in Hb. lia.
  - intros Hx. unfold w_inv in Hw. rewrite Hx in Hw. destruct (Hw eq_refl) as (H1 & H2 & H3 & [H4 _] & H5). split; [done|]. rewrite H3 in H4. cbn in H4.
    split; [lia|]. destruct s; cbn in *; congruence.
Qed.

(** ** Without failures *)

(** A step in which every call succeeds and the reader's write transfers everything. *)
Inductive good_step : state -> state -> Prop :=
| good_writer n w r s w' s' : writer_step (Goes n) w s = Some (w', s') -> good_step (mk_state w r s) (mk_state w' r s')
| good_reader n w r s r' s' : BUF_SIZE <= Z.of_nat (S n) -> reader_step (Goes n) r s = Some (r', s') -> good_step (mk_state w r s) (mk_state w r' s').

(** The reader is started when the writer has set everything up. *)
Definition launched (data : list Z) : state :=
  mk_state (mk_writer W_reserve 0 0 data) (mk_reader R_semget 0 0 []) (mk_ipc (Some (1, 0)) (Some (mk_seg 0 (replicate (Z.to_nat BUF_SIZE) 0)))).

Definition finished (data : list Z) (st : state) : Prop :=
  w_pc (st_w st) = W_exit EXIT_SUCCESS /\ r_pc (st_r st) = R_exit EXIT_SUCCESS /\ r_out (st_r st) = data /\
  w_bytes (st_w st) = Z.of_nat (length data) /\ r_bytes (st_r st) = Z.of_nat (length data) /\ st_ipc st = mk_ipc None None.

(** Nothing has failed. *)
Record healthy (w : writer) (r : reader) (s : ipc) : Prop := {
  h_writer : match w_pc w with W_exit c => c = EXIT_SUCCESS | pc => setting_up pc = false end;
  h_reader : match r_pc r with R_exit c => c = EXIT_SUCCESS | _ => True end;
  h_turns : sems s = None \/ turns w r s = 1;
  h_buf : match shm s with Some g => length (buf g) = Z.to_nat BUF_SIZE | None => True end
}.

(** How many steps there may still be. *)
Definition w_steps (w : writer) (s : ipc) : nat :=
  let l := length (w_in w) in
  let empty := match shm s with Some g => cnt g =? 0 | None => true end in
  (match w_pc w with
  | W_reserve => 5 * l + 8 | W_read => 5 * l + 7
  | W_release => if empty then 6 else 5 * l + 11
  | W_test => if empty then 5 else 5 * l + 10
  | W_incr => 5 * l + 9
  | W_last => 4 | W_rmid => 3 | W_shmdt => 2 | W_shm_rmid => 1 | _ => 0
  end)%nat.

Definition r_steps (data : list Z) (r : reader) : nat :=
  let l := (length data - length (r_out r))%nat in
  (match r_pc r with
  | R_semget => 4 * l + 7 | R_shmget => 4 * l + 6 | R_shmat => 4 * l + 5
  | R_reserve => 4 * l + 4 | R_test => 4 * l + 3 | R_write => 4 * l + 2 | R_release => 4 * l + 5
  | R_shmdt => 2 | R_last => 1 | _ => 0
  end)%nat.

Definition steps_left (data : list Z) (st : state) : nat := (w_steps (st_w st) (st_ipc st) + r_steps data (st_r st))%nat.

Section Good.
Context (data : list Z) (Hdata : Z.of_nat (length data) <= INT_MAX).

Lemma good_any x y : good_step x y -> any_step x y.
Proof. intros []; eexists; by constructor. Qed.

Lemma good_keeps x y : good_step x y -> inv data (st_w x) (st_r x) (st_ipc x) -> inv data (st_w y) (st_r y) (st_ipc y).
Proof. intros Hs. apply (steps_inv data); [done|]. by apply rtc_once, good_any. Qed.

Lemma read_block n (i : list Z) : exists bs, take (Nat.min (S n) (Z.to_nat BUF_SIZE)) i = bs /\ (length bs <= Z.to_nat BUF_SIZE)%nat /\
  (length (drop (length bs) i) + length bs = length i)%nat /\ (bs = [] -> i = []).
Proof.
  eexists. split; [done|]. rewrite length_drop, length_take. split; [lia|]. split; [lia|]. by destruct i.
Qed.

Lemma writer_healthy n w r s w' s' :
  inv data w r s -> healthy w r s -> writer_step (Goes n) w s = Some (w', s') -> healthy w' r s' /\ (w_steps w' s' < w_steps w s)%nat.
Proof.
  intros Hi [H1 H2 H3 H4] Hs. pose proof (i_writer _ _ _ _ Hi) as Hw. pose proof (i_turns _ _ _ _ Hi) as Ht. clear Hi.
  destruct w as [pc b x i], s as [se sh]; destruct pc; cbn in H1; try done; cbn in Hw.
  - destruct Hw as ([[va vb] ->] & [g ->] & _). unfold writer_step, reserveSem in Hs. cbn in Hs. destruct (0 <? va); [|done]. injection Hs as <- <-.
    split; [split; cbn; try done|cbn; lia]. right. destruct H3 as [|H3]; [done|]. unfold turns in *. cbn in *. lia.
  - destruct Hw as ([[va vb] ->] & [g ->] & _). unfold writer_step in Hs. cbn [w_pc shm w_in w_bytes w_xfrs] in Hs.
    destruct (read_block n i) as (bs & E & Hl & Hli & Hnil). cbv zeta in Hs. rewrite E in Hs. injection Hs as <- <-. unfold w_unless. rewrite (proj2 (Z.eqb_neq _ (-1))) by lia.
    split; [split; cbn; try done|cbn].
    + cbn in H4. rewrite length_app, length_drop. lia.
    + destruct (Z.eqb_spec (Z.of_nat (length bs)) 0); lia.
  - destruct Hw as ([[va vb] ->] & Hw). unfold writer_step, releaseSem in Hs. cbn in Hs. injection Hs as <- <-.
    split; [split; cbn; try done|cbn; destruct sh as [g|]; [destruct (cnt g =? 0)|]; lia]. right. destruct H3 as [|H3]; [done|]. unfold turns in *. cbn in *. lia.
  - destruct Hw as ([[va vb] ->] & Hw & _). unfold writer_step in Hs. cbn in Hs. destruct sh as [g|]; [|done]. injection Hs as <- <-. destruct (cnt g =? 0) eqn:E.
    + split; [split; cbn; try done|cbn; rewrite E; lia].
    + split; [split; cbn; try done|cbn; rewrite E; lia].
  - destruct Hw as ([[va vb] ->] & Hw & [Hc Hx] & Hpos & _). unfold writer_step in Hs. destruct sh as [g|]; [|done]. cbn in Hs, Hc, Hx, Hpos, Hw.
    unfold iadd in Hs. rewrite !decide_True in Hs by (split; unfold INT_MIN in *; lia). injection Hs as <- <-.
    split; [split; cbn; try done|cbn; lia].
  - destruct Hw as ([[va vb] ->] & Hw & _). unfold writer_step, reserveSem in Hs. cbn in Hs. destruct (0 <? va); [|done]. injection Hs as <- <-.
    split; [split; cbn; try done|cbn; lia]. right. destruct H3 as [|H3]; [done|]. unfold turns in *. cbn in *. lia.
  - unfold writer_step in Hs. cbn in Hs. injection Hs as <- <-. split; [split; cbn; try done; by left|cbn; lia].
  - unfold writer_step in Hs. cbn in Hs. injection Hs as <- <-. destruct Hw as (-> & _). split; [split; cbn; try done; by left|cbn; lia].
  - unfold writer_step in Hs. cbn in Hs. injection Hs as <- <-. destruct Hw as (-> & _). split; [split; cbn; try done; by left|cbn; lia].
Qed.

Lemma reader_healthy n w r s r' s' :
  BUF_SIZE <= Z.of_nat (S n) -> inv data w r s -> healthy w r s -> reader_step (Goes n) r s = Some (r', s') ->
  healthy w r' s' /\ (w_steps w s' + r_steps data r' < w_steps w s + r_steps data r)%nat.
Proof.
  intros Hn Hi [H1 H2 H3 H4] Hs.
  (* while the reader has not ended, the semaphores and the segment are there *)
  assert (r_pc r <> R_exit EXIT_SUCCESS -> exists v g, s = mk_ipc (Some v) (Some g)) as Hex.
  { intros Hx. pose proof (i_writer _ _ _ _ Hi) as Hw. destruct w as [pc b x i], s as [se sh]. unfold w_inv, block_ok in Hw. cbn in *.
    destruct pc; try done; known; try (by destruct H); try (by (destruct sh; [|done]); eexists _, _); try (by eexists _, _); try (by destruct Hx). }
  pose proof (i_turns _ _ _ _ Hi) as Ht. pose proof (i_prefix _ _ _ _ Hi) as [rest Hp]. pose proof (i_reader _ _ _ _ Hi) as Hr. pose proof (reader_turn data w r s Hi) as Hturn. clear Hi.
  destruct r as [pc b x o]; destruct pc; cbn in H2; try (subst c; done); cbn in Hr, Hp; unfold reader_step in Hs;
    (destruct Hex as ([va vb] & g & ->); [done|]); cbn in Hs; cbn in H3, H4; destruct H3 as [|H3]; try done.
  - injection Hs as <- <-. split; [split; cbn; try done; by right|unfold w_steps, r_steps; cbn; lia].
  - injection Hs as <- <-. split; [split; cbn; try done; by right|unfold w_steps, r_steps; cbn; lia].
  - injection Hs as <- <-. split; [split; cbn; try done; by right|unfold w_steps, r_steps; cbn; lia].
  - destruct (0 <? vb); [|done]. injection Hs as <- <-. split; [split; cbn; try done|unfold w_steps, r_steps; cbn; lia]. right. unfold turns in *. cbn in *. lia.
  - destruct Hturn as (_ & _ & _ & _ & Hd); [done|]. unfold block in Hd. cbn in Hd. unfold block_ok, written in Hr. cbn in Hr.
    destruct (cnt g =? 0).
    + injection Hs as <- <-. split; [split; cbn; try done; by right|unfold w_steps, r_steps; cbn; lia].
    + apply (f_equal length) in Hd. rewrite !length_app, length_take in Hd. unfold iadd in Hs. rewrite decide_True in Hs by (split; unfold INT_MIN in *; lia).
      injection Hs as <- <-. split; [split; cbn; try done; by right|unfold w_steps, r_steps; cbn; lia].
  - destruct Hturn as (_ & _ & _ & _ & Hd); [done|]. unfold block in Hd. cbn in Hd. unfold block_ok, written in Hr. cbn in Hr.
    destruct Hr as ((Hg & _) & Hpos & _). apply (f_equal length) in Hd. rewrite !length_app, length_take in Hd.
    assert (BUF_SIZE = 1024) as HB by done.
    set (bs := take (S n) (take (Z.to_nat (cnt g)) (buf g))) in *. assert (Z.of_nat (length bs) = cnt g) as Hlb by (subst bs; rewrite !length_take; lia).
    assert ((Z.of_nat (length bs) =? cnt g) = true) as E by (by apply Z.eqb_eq). change (firstn _ _) with bs in Hs.
    assert (r' = r_goto R_release (mk_reader R_write b x (o ++ bs)) /\ s' = mk_ipc (Some (va, vb)) (Some g)) as [-> ->] by (rewrite E in Hs; cbn in Hs; injection Hs as <- <-; done).
    clearbody bs. split; [split; cbn; try done; by right|]. unfold w_steps, r_steps. cbn. rewrite length_app. lia.
  - unfold iadd in Hs. unfold written in Hr. cbn in Hr. apply (f_equal length) in Hp. rewrite length_app in Hp. rewrite decide_True in Hs by (split; unfold INT_MIN in *; lia).
    injection Hs as <- <-. split; [split; cbn; try done|unfold w_steps, r_steps; cbn; lia]. right. unfold turns in *. cbn in *. lia.
  - injection Hs as <- <-. split; [split; cbn; try done; by right|unfold w_steps, r_steps; cbn; lia].
  - injection Hs as <- <-. split; [split; cbn; try done|unfold w_steps, r_steps; cbn; lia]. right. unfold turns in *. cbn in *. lia.
Qed.

Lemma good_progress w r s : inv data w r s -> healthy w r s -> finished data (mk_state w r s) \/ exists y, good_step (mk_state w r s) y.
Proof.
  intros Hi [H1 H2 H3 H4].
  assert (forall x, writer_step (Goes 0) w s = Some x -> finished data (mk_state w r s) \/ exists y, good_step (mk_state w r s) y) as Hwr.
  { intros [w' s'] Hx. right. eexists. by apply (good_writer 0). }
  assert (forall x, reader_step (Goes (Z.to_nat BUF_SIZE)) r s = Some x -> finished data (mk_state w r s) \/ exists y, good_step (mk_state w r s) y) as Hrd.
  { intros [r' s'] Hx. right. eexists. apply (good_reader (Z.to_nat BUF_SIZE)); [done|exact Hx]. }
  (* the reader can go on unless it waits for a turn or has ended *)
  assert (is_Some (sems s) -> is_Some (shm s) -> final (r_pc r) = false \/ r_hold (r_pc r) = 1 -> r_pc r <> R_reserve \/ 0 < value READ_SEM s ->
    finished data (mk_state w r s) \/ exists y, good_step (mk_state w r s) y) as Hgo.
  { intros [[va vb] Hv] [g Hg] Hf Hw. pose proof (i_reader _ _ _ _ Hi) as Hr. destruct r as [pc b x o], s as [se sh]. cbn in Hv, Hg. subst se sh. cbn in *.
    unfold reader_step in Hrd. destruct pc; cbn in Hrd, H2, Hr; try done; try (by eapply Hrd).
    - destruct Hw as [|Hw]; [done|]. rewrite (proj2 (Z.ltb_lt 0 vb)) in Hrd by (unfold value in Hw; cbn in Hw; lia). by eapply Hrd.
    - subst c. by destruct Hf. }
  pose proof (i_writer _ _ _ _ Hi) as Hw. pose proof (i_turns _ _ _ _ Hi) as Ht. pose proof (i_reader _ _ _ _ Hi) as Hr.
  assert (w_pc w = W_reserve \/ w_pc w = W_last -> is_Some (sems s) -> is_Some (shm s) -> 0 < value WRITE_SEM s -> finished data (mk_state w r s) \/ exists y, good_step (mk_state w r s) y) as Hgow.
  { intros Hpc [[va vb] Hv] [g Hg] Hpos. destruct w as [pc b x i], s as [se sh]. cbn in *. subst. unfold writer_step in Hwr. unfold value in Hpos. cbn in Hpos.
    destruct Hpc as [-> | ->]; cbn in Hwr; rewrite (proj2 (Z.ltb_lt 0 va)) in Hwr by lia; by eapply Hwr. }
  unfold w_inv, block_ok, at_end, turns in *. destruct (w_pc w) eqn:Hpc; try done.
  - destruct Hw as (Hs & Hg & _ & Hf & _). destruct (decide (0 < value WRITE_SEM s)); [apply Hgow; auto|].
    destruct H3 as [H3|H3]; [rewrite H3 in Hs; by destruct Hs|]. apply Hgo; auto. cbn in H3. destruct (decide (r_pc r = R_reserve)) as [E|]; [right|by left].
    rewrite E in H3. cbn in H3. lia.
  - destruct Hw as ([v Hs] & [g Hg] & _). unfold writer_step in Hwr. rewrite Hpc, Hg in Hwr. by eapply Hwr.
  - destruct Hw as ([v Hs] & _). unfold writer_step, releaseSem in Hwr. rewrite Hpc, Hs in Hwr. by eapply Hwr.
  - destruct Hw as (_ & Hg & _). destruct (shm s) as [g|] eqn:Eg; [|done]. unfold writer_step in Hwr. rewrite Hpc, Eg in Hwr. by eapply Hwr.
  - destruct Hw as (_ & Hg & _). destruct (shm s) as [g|] eqn:Eg; [|done]. unfold writer_step in Hwr. rewrite Hpc, Eg in Hwr. by eapply Hwr.
  - destruct Hw as (Hs & Hg & _ & _ & Hend). assert (is_Some (shm s)) as Hg' by by destruct (shm s).
    destruct H3 as [H3|H3]; [rewrite H3 in Hs; by destruct Hs|].
    destruct Hend as [He|[[He Hf]|[He|[He|[He|[He He']]]]]]; [lia|apply Hgo; auto; right; lia|apply Hgo; auto; rewrite He; auto..|apply Hgow; auto; lia].
  - unfold writer_step in Hwr. rewrite Hpc in Hwr. by eapply Hwr.
  - unfold writer_step in Hwr. rewrite Hpc in Hwr. by eapply Hwr.
  - unfold writer_step in Hwr. rewrite Hpc in Hwr. by eapply Hwr.
  - left. destruct (Hw H1) as (E1 & E2 & E3 & [E4 _] & E5). unfold finished. cbn. rewrite E3 in E4. cbn in E4. unfold r_inv in Hr. rewrite E5 in Hr.
    destruct (Hr eq_refl) as (Ho & [Hb _] & _). rewrite Ho in Hb. subst c. split; [done|]. split; [done|]. split; [done|]. split; [lia|]. split; [lia|]. destruct s; cbn in *; congruence.
Qed.
End Good.

Lemma launched_inv data : inv data (st_w (launched data)) (st_r (launched data)) (st_ipc (launched data)).
Proof.
  split; cbn.
  - unfold turns. cbn. lia.
  - apply prefix_nil.
  - by left.
  - done.
  - unfold counted. cbn. split; [done|]. split; [done|]. split; [lia|]. split; [done|]. by intros [|].
  - unfold written. cbn. split; [done|]. lia.
Qed.

Lemma launched_healthy data : healthy (st_w (launched data)) (st_r (launched data)) (st_ipc (launched data)).
Proof. split; cbn; try done. by right. Qed.

Lemma good_runs data n x y : Z.of_nat (length data) <= INT_MAX -> nsteps good_step n x y ->
  inv data (st_w x) (st_r x) (st_ipc x) -> healthy (st_w x) (st_r x) (st_ipc x) ->
  inv data (st_w y) (st_r y) (st_ipc y) /\ healthy (st_w y) (st_r y) (st_ipc y) /\ (n + steps_left data y <= steps_left data x)%nat.
Proof.
  intros Hd Hxy. induction Hxy as [x|n x y z Hs _ IH]; intros Hi Hh; [done|].
  pose proof (good_keeps data Hd x y Hs Hi) as Hi'.
  assert (healthy (st_w y) (st_r y) (st_ipc y) /\ (steps_left data y < steps_left data x)%nat) as [Hh' Hl].
  { unfold steps_left. destruct Hs as [m w r s w' s' Hs|m w r s r' s' Hm Hs]; cbn in *.
    - destruct (writer_healthy data Hd m w r s w' s' Hi Hh Hs). split; [done|]. lia.
    - by apply (reader_healthy data Hd m w r s r' s'). }
  destruct (IH Hi' Hh') as (H1 & H2 & H3). split; [done|]. split; [done|]. lia.
Qed.

(** C6: when no call fails and the reader is started after the writer has set up, no
    interleaving deadlocks or goes on for ever: after any [n] steps there is another
    one or both have ended with the input copied, counted and the objects removed, and
    [n] is at most nine for each byte and fifteen more, whatever sizes the reads have. *)
Theorem transfer_completes data n st :
  Z.of_nat (length data) <= INT_MAX -> nsteps good_step n (launched data) st ->
  (n <= 9 * length data + 15)%nat /\ (finished data st \/ exists st', good_step st st').
Proof.
  intros Hd Hn. destruct (good_runs data n _ _ Hd Hn (launched_inv data) (launched_healthy data)) as (Hi & Hh & Hl). split.
  - cbn in Hl. lia.
  - destruct st. by apply good_progress.
Qed.

(** *** Examples *)

(** The transfer of three bytes, the reader only when the writer waits. *)
Fixpoint run_both (fuel : nat) (w : writer) (r : reader) (s : ipc) : state :=
  match fuel with
  | O => mk_state w r s
  | S fuel =>
      match writer_step (Goes 1) w s with
      | Some (w, s) => run_both fuel w r s
      | None => match reader_step (Goes 1023) r s with Some (r, s) => run_both fuel w r s | None => mk_state w r s end
      end
  end.

Example demo_transfer : let st := run_both 99 (mk_writer W_semget 0 0 [7; 8; 9]) (mk_reader R_semget 0 0 []) (mk_ipc None None) in
  finished [7; 8; 9] st /\ w_xfrs (st_w st) = 2 /\ r_xfrs (st_r st) = 2.
Proof. vm_compute. done. Qed.

(** A reader started first ends with an error, and the writer then waits for ever. *)
Example early_reader : reader_step (Goes 0) (st_r (start [7])) (st_ipc (start [7])) = Some (mk_reader (R_exit 1) 0 0 [], mk_ipc None None).
Proof. reflexivity. Qed.

(** A run: the writer goes on when it can, otherwise the reader. *)
Definition next (st : state) : option state :=
  match writer_step (Goes 1023) (st_w st) (st_ipc st) with
  | Some (w', s') => Some (mk_state w' (st_r st) s')
  | None =>
      match reader_step (Goes 1023) (st_r st) (st_ipc st) with
      | Some (r', s') => Some (mk_state (st_w st) r' s')
      | None => None
      end
  end.

Fixpoint schedule (n : nat) (st : state) : option state :=
  match n with O => Some st | S n => match next st with Some st' => schedule n st' | None => None end end.

Lemma next_move st st' : next st = Some st' -> good_step st st'.
Proof.
  destruct st as [w r s]. unfold next. cbn [st_w st_r st_ipc]. destruct (writer_step _ w s) as [[w' s']|] eqn:Ew.
  - intros [= <-]. by eapply good_writer.
  - destruct (reader_step _ r s) as [[r' s']|] eqn:Er; [|done]. intros [= <-]. by apply (good_reader 1023).
Qed.

Lemma schedule_moves n st st' : schedule n st = Some st' -> nsteps good_step n st st'.
Proof.
  revert st. induction n as [|n IH]; intros st; simpl; [intros [= <-]; constructor|].
  destruct (next st) as [x|] eqn:E; [|done]. intros H. econstructor; [by apply next_move|by apply IH].
Qed.

Definition after (n : nat) (st : state) : state := default st (schedule n st).

Lemma bytes_few (l : list Z) : (length l <= 3)%nat -> Z.of_nat (length l) <= INT_MAX.
Proof. unfold INT_MAX. lia. Qed.

(** At the end of the run both have ended with success, and everything is copied and counted. *)
Lemma transfer_safe_witness :
  let st := after 29 (start [7; 8; 9]) in
  w_pc (st_w st) = W_exit EXIT_SUCCESS /\ r_pc (st_r st) = R_exit EXIT_SUCCESS /\ r_out (st_r st) = [7; 8; 9] /\
  r_bytes (st_r st) = 3 /\ w_bytes (st_w st) = 3 /\ st_ipc st = mk_ipc None None.
Proof.
  intros st. assert (schedule 29 (start [7; 8; 9]) = Some st) as E by (vm_compute; reflexivity).
  assert (rtc any_step (start [7; 8; 9]) st) as Hs.
  { apply (rtc_subrel good_step); [apply good_any|]. by eapply rtc_nsteps_2, schedule_moves. }
  assert (w_pc (st_w st) = W_exit EXIT_SUCCESS) as Hw by (vm_compute; reflexivity).
  destruct (transfer_safe [7; 8; 9] st (bytes_few [7; 8; 9] (le_n 3)) Hs) as (_ & _ & _ & _ & H1 & H2).
  destruct (H2 Hw) as (Hr & Hb & Hi). destruct (H1 Hr) as [Ho Hn]. repeat (split; [done|]). done.
Defined.

(** In the middle of a run: another step is there. *)
Lemma transfer_completes_witness :
  r_pc (st_r (after 10 (launched [7; 8]))) = R_write /\ exists st', good_step (after 10 (launched [7; 8])) st'.
Proof.
  split; [vm_compute; reflexivity|].
  assert (schedule 10 (launched [7; 8]) = Some (after 10 (launched [7; 8]))) as E by (vm_compute; reflexivity).
  assert (Z.of_nat (length [7; 8]) <= INT_MAX) as H by (by apply bytes_few, le_S).
  destruct (proj2 (transfer_completes [7; 8] 10 _ H (schedule_moves _ _ _ E))) as [(Hf & _)|Hs];
    [vm_compute in Hf; discriminate|exact Hs].
Defined.
