(* ===== verification/ProdCond.v ===== *)
(** * tlpi/tlpi-dist/threads: producers and a consumer

    prod_condvar.c: any number of threads that produce units and a main thread that
    consumes them, with a mutex and a condition variable, one statement at a time in any
    order.  A failing call ends the process. *)

From stdpp Require Import prelude list_numbers strings relations.
From Stdlib Require Import ZArith Lia.
From S2P Require Import Prelude CLib Vfs TlpiLib.
Open Scope Z_scope.
Set Warnings "-clear-no-such-hyp".

(** ** The program *)

Inductive ppc := P_loop | P_lock | P_incr | P_unlock | P_signal | P_end.

#[export] Instance ppc_eq_dec : EqDecision ppc.
Proof. solve_decision. Defined.

(** A thread that runs [producer]. *)
Record producer := mk_producer { p_pc : ppc; p_j : Z; p_cnt : Z }.

(** The main thread; [M_waiting] is in pthread_cond_wait and [M_woken] there too, but
    only waits for the mutex. *)
Inductive mpc :=
| M_create (args : list (list Z)) | M_lock | M_test | M_waiting | M_woken | M_consume | M_unlock | M_done.

Inductive owner := Main | Producer (i : nat).
Inductive status := Running | Exited (c : Z) | Crashed.

(** The globals, the threads and the local variables of [main]. *)
Record state := mk_state {
  mtx : option owner;
  avail : Z;
  producers : list producer;
  m_pc : mpc;
  totRequired : Z;
  numConsumed : Z;
  m_done : bool;
  st_status : status
}.

Definition set_mtx v s := mk_state v (avail s) (producers s) (m_pc s) (totRequired s) (numConsumed s) (m_done s) (st_status s).
Definition set_avail v s := mk_state (mtx s) v (producers s) (m_pc s) (totRequired s) (numConsumed s) (m_done s) (st_status s).
Definition set_producers v s := mk_state (mtx s) (avail s) v (m_pc s) (totRequired s) (numConsumed s) (m_done s) (st_status s).
Definition set_m_pc v s := mk_state (mtx s) (avail s) (producers s) v (totRequired s) (numConsumed s) (m_done s) (st_status s).
Definition set_totRequired v s := mk_state (mtx s) (avail s) (producers s) (m_pc s) v (numConsumed s) (m_done s) (st_status s).
Definition set_consumed n d s := mk_state (mtx s) (avail s) (producers s) (m_pc s) (totRequired s) n d (st_status s).
Definition set_status v s := mk_state (mtx s) (avail s) (producers s) (m_pc s) (totRequired s) (numConsumed s) (m_done s) v.

Definition crash (s : state) : state := set_status Crashed s.

(** One statement of the [i]-th producer; [None] when it waits for the mutex or has
    ended. *)
Definition producer_step (i : nat) (p : producer) (s : state) : option state :=
  let goto (pc : ppc) (s : state) := set_producers (<[i := mk_producer pc (p_j p) (p_cnt p)]> (producers s)) s in
  match p_pc p with
  | P_loop => Some (goto (if p_j p <? p_cnt p then P_lock else P_end) s)
  | P_lock => match mtx s with None => Some (goto P_incr (set_mtx (Some (Producer i)) s)) | Some _ => None end
  | P_incr => Some (match iadd (avail s) 1 with Some a => goto P_unlock (set_avail a s) | None => crash s end)
  | P_unlock => Some (goto P_signal (set_mtx None s))
  | P_signal =>
      let s := set_producers (<[i := mk_producer P_loop (p_j p + 1) (p_cnt p)]> (producers s)) s in
      Some (match m_pc s with M_waiting => set_m_pc M_woken s | _ => s end)
  | P_end => None
  end.

Definition main_step (s : state) : option state :=
  match m_pc s with
  | M_create [] => Some (set_m_pc M_lock s)
  | M_create (a :: args) =>
      Some (match iadd (totRequired s) (atoi a) with
        | Some t => set_m_pc (M_create args) (set_totRequired t (set_producers (producers s ++ [mk_producer P_loop 0 (atoi a)]) s))
        | None => crash s end)
  | M_lock => match mtx s with None => Some (set_m_pc M_test (set_mtx (Some Main) s)) | Some _ => None end
  | M_test => Some (if avail s =? 0 then set_m_pc M_waiting (set_mtx None s) else set_m_pc M_consume s)
  | M_waiting => None
  | M_woken => match mtx s with None => Some (set_m_pc M_test (set_mtx (Some Main) s)) | Some _ => None end
  | M_consume =>
      Some (if 0 <? avail s then
              match iadd (numConsumed s) 1, iadd (avail s) (-1) with
              | Some n, Some a => set_consumed n (totRequired s <=? n) (set_avail a s)
              | _, _ => crash s end
            else set_m_pc M_unlock s)
  | M_unlock => Some (set_m_pc M_done (set_mtx None s))
  | M_done => Some (if m_done s then set_status (Exited EXIT_SUCCESS) s else set_m_pc M_lock s)
  end.

(** A step of a thread in which no call fails. *)
Inductive thread_step : state -> state -> Prop :=
| step_main s s' : st_status s = Running -> main_step s = Some s' -> thread_step s s'
| step_producer i p s s' : st_status s = Running -> producers s !! i = Some p -> producer_step i p s = Some s' -> thread_step s s'.

(** Any step: pthread_cond_wait may return without a signal, and a call may fail. *)
Inductive step : state -> state -> Prop :=
| step_thread s s' : thread_step s s' -> step s s'
| step_spurious s : st_status s = Running -> m_pc s = M_waiting -> step s (set_m_pc M_woken s)
| step_failure s : st_status s = Running -> step s (set_status (Exited EXIT_FAILURE) s).

(** [args] are the command-line arguments, without the program's name. *)
Definition start (args : list (list Z)) : state := mk_state None 0 [] (M_create args) 0 0 false Running.
