(* ===== verification/ProdCondSafe.v ===== *)
(** * tlpi/tlpi-dist/threads: what the consumer gets

    An invariant of prod_condvar.c: no unit is lost or consumed twice, no wakeup is lost,
    and without failures the main thread ends when it has consumed everything. *)

From stdpp Require Import prelude list_numbers strings relations.
From Stdlib Require Import ZArith Lia.
From S2P Require Import Prelude CLib Vfs TlpiLib ProdCond.
Open Scope Z_scope.
Set Warnings "-clear-no-such-hyp".

(** ** The invariant *)

(** The units a thread has made available. *)
Definition produced (p : producer) : Z := p_j p + (match p_pc p with P_unlock | P_signal => 1 | _ => 0 end).

Definition p_critical (pc : ppc) : bool := match pc with P_incr | P_unlock => true | _ => false end.
Definition m_critical (pc : mpc) : bool := match pc with M_test | M_consume | M_unlock => true | _ => false end.

(** It has to signal. *)
Definition signalling (p : producer) : Prop := p_pc p = P_unlock \/ p_pc p = P_signal.

Definition p_ok (p : producer) : Prop :=
  0 <= p_j p /\ match p_pc p with P_loop => p_j p <= p_cnt p | P_end => p_j p = p_cnt p | _ => p_j p < p_cnt p end.

Definition remaining (pc : mpc) : list (list Z) := match pc with M_create args => args | _ => [] end.

Definition m_ok (s : state) : Prop :=
  match m_pc s with
  | M_create _ => numConsumed s = 0
  | M_lock | M_test | M_waiting | M_woken => numConsumed s < totRequired s
  | M_consume => avail s = 0 -> m_done s = (totRequired s <=? numConsumed s)
  | M_unlock | M_done => m_done s = (totRequired s <=? numConsumed s)
  end.

Record inv (units : Z) (s : state) : Prop := {
  v_sum : numConsumed s + avail s = total produced (producers s);
  v_units : total p_cnt (producers s) + total atoi (remaining (m_pc s)) = units;
  v_args : Forall (fun a => 0 <= atoi a) (remaining (m_pc s));
  v_required : totRequired s = total p_cnt (producers s);
  v_nonneg : 0 <= avail s /\ 0 <= numConsumed s;
  v_producers : Forall p_ok (producers s);
  v_mtx_p : forall i p, producers s !! i = Some p -> (p_critical (p_pc p) = true <-> mtx s = Some (Producer i));
  v_mtx_i : forall i, mtx s = Some (Producer i) -> is_Some (producers s !! i);
  v_mtx_m : m_critical (m_pc s) = true <-> mtx s = Some Main;
  v_main : m_ok s;
  v_wakeup : m_pc s = M_waiting -> 0 < avail s -> exists i p, producers s !! i = Some p /\ signalling p;
  v_status : match st_status s with Exited c => c = EXIT_SUCCESS -> m_pc s = M_done /\ m_done s = true | Crashed => False | Running => True end
}.

Lemma produced_le p : p_ok p -> 0 <= produced p <= p_cnt p.
Proof. unfold p_ok, produced. destruct (p_pc p); lia. Qed.

Lemma produced_total s units : inv units s -> total produced (producers s) <= total p_cnt (producers s).
Proof. intros Hi. apply total_le. eapply Forall_impl; [apply Hi|]. intros p Hp. by apply produced_le. Qed.

Section Keeps.
Context (units : Z) (Hpos : 0 < units <= INT_MAX).

Lemma units_bound s : inv units s -> total p_cnt (producers s) <= units.
Proof.
  intros Hi. assert (0 <= total atoi (remaining (m_pc s))).
  { pose proof (v_args _ _ Hi) as Ha. clear Hi. induction Ha as [|a l Ha _ IH]; [done|]. rewrite total_cons. lia. }
  pose proof (v_units _ _ Hi). lia.
Qed.

(** A thread moves, with what it does to the other parts of the state. *)
Lemma thread_moves s i p pc j :
  inv units s -> producers s !! i = Some p -> p_ok (mk_producer pc j (p_cnt p)) ->
  produced (mk_producer pc j (p_cnt p)) = produced p -> p_critical pc = p_critical (p_pc p) -> (signalling p -> signalling (mk_producer pc j (p_cnt p))) ->
  inv units (set_producers (<[i := mk_producer pc j (p_cnt p)]> (producers s)) s).
Proof.
  intros Hi Hp Hok Hprod Hcrit Hsig. destruct Hi. split; cbn; try done.
  - rewrite (total_insert _ _ _ p) by done. lia.
  - rewrite (total_insert _ _ _ p) by done. cbn. lia.
  - rewrite (total_insert _ _ _ p) by done. cbn. lia.
  - apply Forall_insert; [done|done].
  - intros i' p' Hp'. destruct (decide (i' = i)) as [->|Hne].
    + rewrite list_lookup_insert_eq in Hp' by by eapply lookup_lt_Some. injection Hp' as <-. cbn. rewrite Hcrit. by apply v_mtx_p0.
    + rewrite list_lookup_insert_ne in Hp' by done. by apply v_mtx_p0.
  - intros i' Hm. destruct (v_mtx_i0 i' Hm) as [x Hx]. apply lookup_lt_is_Some. rewrite length_insert. by eapply lookup_lt_Some.
  - intros Hw Ha. destruct (v_wakeup0 Hw Ha) as (i' & p' & Hp' & Hs'). destruct (decide (i' = i)) as [->|Hne].
    + exists i. eexists. split; [apply list_lookup_insert_eq; by eapply lookup_lt_Some|]. apply Hsig. by simplify_eq.
    + exists i', p'. by rewrite list_lookup_insert_ne.
Qed.

(** A thread takes or gives the mutex, and may add a unit. *)
Lemma mutex_moves s i p pc m a :
  inv units s -> producers s !! i = Some p -> p_ok (mk_producer pc (p_j p) (p_cnt p)) -> m_critical (m_pc s) = false ->
  (forall k q, producers s !! k = Some q -> k <> i -> p_critical (p_pc q) = false) ->
  (m = None /\ p_critical pc = false \/ m = Some (Producer i) /\ p_critical pc = true) ->
  0 <= a -> a - avail s = produced (mk_producer pc (p_j p) (p_cnt p)) - produced p ->
  (signalling p -> signalling (mk_producer pc (p_j p) (p_cnt p))) -> (avail s < a -> signalling (mk_producer pc (p_j p) (p_cnt p))) ->
  (m_pc s = M_consume -> a = avail s) ->
  inv units (set_producers (<[i := mk_producer pc (p_j p) (p_cnt p)]> (producers s)) (set_mtx m (set_avail a s))).
Proof.
  intros Hi Hp Hok Hmc Hoth Hm Ha Hd Hsig Hsig2 Hc. destruct Hi. split; cbn; try done.
  - rewrite (total_insert _ _ _ p) by done. lia.
  - rewrite (total_insert _ _ _ p) by done. cbn. lia.
  - rewrite (total_insert _ _ _ p) by done. cbn. lia.
  - split; [lia|tauto].
  - by apply Forall_insert.
  - intros i' p' Hp'. destruct (decide (i' = i)) as [->|Hne].
    + rewrite list_lookup_insert_eq in Hp' by by eapply lookup_lt_Some. injection Hp' as <-. cbn. by destruct Hm as [[-> ->]|[-> ->]]; split.
    + rewrite list_lookup_insert_ne in Hp' by done. rewrite (Hoth i' p' Hp' Hne). destruct Hm as [[-> _]|[-> _]]; [by split|]. split; [done|]. intros [= ?]. congruence.
  - intros i' Hm'. destruct Hm as [[-> _]|[-> _]]; [done|]. injection Hm' as ->. apply lookup_lt_is_Some. rewrite length_insert. by eapply lookup_lt_Some.
  - rewrite Hmc. by destruct Hm as [[-> _]|[-> _]]; split.
  - unfold m_ok in *. cbn. destruct (m_pc s); try done.
  - intros Hw Ha'. destruct (decide (0 < avail s)) as [Hav|Hav].
    + destruct (v_wakeup0 Hw Hav) as (i' & p' & Hp' & Hs'). destruct (decide (i' = i)) as [->|Hne].
      * exists i. eexists. split; [apply list_lookup_insert_eq; by eapply lookup_lt_Some|]. apply Hsig. by simplify_eq.
      * exists i', p'. by rewrite list_lookup_insert_ne.
    + exists i. eexists. split; [apply list_lookup_insert_eq; by eapply lookup_lt_Some|]. apply Hsig2. lia.
Qed.

(** Nobody else is in the critical region. *)
Lemma free_mutex s : inv units s -> mtx s = None -> m_critical (m_pc s) = false /\ forall k q, producers s !! k = Some q -> p_critical (p_pc q) = false.
Proof.
  intros Hi Hm. split.
  - pose proof (v_mtx_m _ _ Hi) as H. rewrite Hm in H. destruct (m_critical _); [|done]. discriminate (proj1 H eq_refl).
  - intros k q Hq. pose proof (v_mtx_p _ _ Hi k q Hq) as H. rewrite Hm in H. destruct (p_critical _); [|done]. discriminate (proj1 H eq_refl).
Qed.

Lemma held_mutex s i p : inv units s -> producers s !! i = Some p -> p_critical (p_pc p) = true ->
  mtx s = Some (Producer i) /\ m_critical (m_pc s) = false /\ forall k q, producers s !! k = Some q -> k <> i -> p_critical (p_pc q) = false.
Proof.
  intros Hi Hp Hc. pose proof (proj1 (v_mtx_p _ _ Hi i p Hp) Hc) as Hm. split; [done|]. split.
  - pose proof (v_mtx_m _ _ Hi) as H. rewrite Hm in H. destruct (m_critical _); [|done]. discriminate (proj1 H eq_refl).
  - intros k q Hq Hne. pose proof (v_mtx_p _ _ Hi k q Hq) as H. rewrite Hm in H. destruct (p_critical (p_pc q)); [|done]. pose proof (proj1 H eq_refl). congruence.
Qed.

(** The waiting thread comes back. *)
Lemma wake_keeps s : inv units s -> m_pc s = M_waiting -> inv units (set_m_pc M_woken s).
Proof.
  intros [] Hw. split; cbn; try done.
  - by rewrite Hw in v_units0.
  - rewrite <- v_mtx_m0, Hw. done.
  - unfold m_ok in *. by rewrite Hw in v_main0.
  - destruct (st_status s); try done. intros Hc. destruct (v_status0 Hc). congruence.
Qed.

(** A thread that has signalled. *)
Lemma signal_moves s i j c :
  inv units s -> m_pc s <> M_waiting -> producers s !! i = Some (mk_producer P_signal j c) -> p_ok (mk_producer P_signal j c) ->
  inv units (set_producers (<[i := mk_producer P_loop (j + 1) c]> (producers s)) s).
Proof.
  intros [] Hnw Hp Hok. unfold p_ok in Hok. cbn in Hok. split; cbn; try done.
  - rewrite (total_insert _ _ _ _ _ Hp). unfold produced at 2 3. cbn. lia.
  - rewrite (total_insert _ _ _ _ _ Hp). cbn. lia.
  - rewrite (total_insert _ _ _ _ _ Hp). cbn. lia.
  - apply Forall_insert; [done|]. unfold p_ok. cbn. lia.
  - intros i' p' Hp'. destruct (decide (i' = i)) as [->|Hne].
    + rewrite list_lookup_insert_eq in Hp' by by eapply lookup_lt_Some. injection Hp' as <-. cbn. by apply (v_mtx_p0 i _ Hp).
    + rewrite list_lookup_insert_ne in Hp' by done. by apply v_mtx_p0.
  - intros i' Hm. destruct (v_mtx_i0 i' Hm) as [x Hx]. apply lookup_lt_is_Some. rewrite length_insert. by eapply lookup_lt_Some.
Qed.

Lemma producer_keeps s i p s' :
  inv units s -> producers s !! i = Some p -> producer_step i p s = Some s' -> inv units s'.
Proof.
  intros Hi Hp Hs. pose proof (proj1 (Forall_lookup _ _) (v_producers _ _ Hi) i p Hp) as Hok.
  destruct p as [pc j c]. unfold producer_step in Hs. cbn in Hs. destruct pc; cbn in Hok.
  - injection Hs as <-. unfold p_ok in Hok. cbn in Hok. destruct (Z.ltb_spec j c).
    + apply (thread_moves s i _ P_lock j Hi Hp); try done; [by unfold p_ok; cbn; lia|by intros [|]].
    + apply (thread_moves s i _ P_end j Hi Hp); try done; [by unfold p_ok; cbn; lia|by intros [|]].
  - destruct (mtx s) eqn:Hm; [done|]. injection Hs as <-. destruct (free_mutex s Hi Hm) as [Hmc Hpc].
    assert (set_mtx (Some (Producer i)) s = set_mtx (Some (Producer i)) (set_avail (avail s) s)) as E by by destruct s. rewrite E.
    apply (mutex_moves s i _ P_incr (Some (Producer i)) (avail s) Hi Hp); try done.
    + intros k q Hq _. by apply (Hpc k).
    + by right.
    + apply Hi.
    + unfold produced. cbn. lia.
    + by intros [|].
    + lia.
  - destruct (held_mutex s i _ Hi Hp eq_refl) as (Hm & Hmc & Hpc). unfold p_ok in Hok. cbn in Hok. pose proof (units_bound s Hi). pose proof (produced_total s units Hi).
    destruct (v_nonneg _ _ Hi). pose proof (v_sum _ _ Hi).
    assert (avail s < INT_MAX) as Hlt.
    { assert (total produced (producers s) < total p_cnt (producers s)); [|lia]. clear Hs.
      assert (produced (mk_producer P_incr j c) < c) as Hx by (unfold produced; cbn; lia).
      pose proof (total_insert produced _ i _ (mk_producer P_end c c) Hp) as E1. pose proof (total_insert p_cnt _ i _ (mk_producer P_end c c) Hp) as E2.
      assert (total produced (<[i := mk_producer P_end c c]> (producers s)) <= total p_cnt (<[i := mk_producer P_end c c]> (producers s))) as Hle.
      { apply total_le, Forall_insert; [|unfold produced; cbn; lia]. eapply Forall_impl; [apply Hi|]. intros q Hq. by apply produced_le. }
      assert (produced (mk_producer P_end c c) = c) as E3 by (unfold produced; cbn; lia). rewrite E3 in E1. cbn in E2. lia. }
    unfold iadd in Hs. rewrite decide_True in Hs by (split; unfold INT_MIN in *; lia). injection Hs as <-.
    assert (set_avail (avail s + 1) s = set_mtx (Some (Producer i)) (set_avail (avail s + 1) s)) as E by (destruct s; cbn in *; by subst). rewrite E.
    apply (mutex_moves s i _ P_unlock (Some (Producer i)) (avail s + 1) Hi Hp); try done.
    + by right.
    + lia.
    + unfold produced. cbn. lia.
    + intros _. by left.
    + intros _. by left.
    + intros Hx. by rewrite Hx in Hmc.
  - injection Hs as <-. destruct (held_mutex s i _ Hi Hp eq_refl) as (Hm & Hmc & Hpc).
    assert (set_mtx None s = set_mtx None (set_avail (avail s) s)) as E by by destruct s. rewrite E.
    apply (mutex_moves s i _ P_signal None (avail s) Hi Hp); try done.
    + by left.
    + apply Hi.
    + unfold produced. cbn. lia.
    + intros _. by right.
    + lia.
  - injection Hs as <-. destruct (m_pc s) eqn:Hpc; try (apply signal_moves; [done|by rewrite Hpc|done|done]).
    apply (signal_moves (set_m_pc M_woken s)); [by apply wake_keeps|done|done|done].
  - done.
Qed.

(** The main thread takes or gives the mutex. *)
Lemma main_moves s pc m :
  inv units s -> remaining (m_pc s) = [] -> remaining pc = [] -> pc <> M_waiting \/ avail s = 0 -> st_status s = Running ->
  (m = None /\ m_critical pc = false \/ m = Some Main /\ m_critical pc = true) ->
  (forall k q, producers s !! k = Some q -> p_critical (p_pc q) = false) -> m_ok (set_m_pc pc s) ->
  inv units (set_m_pc pc (set_mtx m s)).
Proof.
  intros [] Hr Hr' Hw Hst Hm Hp Hok. split; cbn; try done.
  - by rewrite Hr'; rewrite Hr in v_units0.
  - by rewrite Hr'.
  - intros i p Hi. rewrite (Hp i p Hi). by destruct Hm as [[-> _]|[-> _]]; split.
  - intros i Hi. by destruct Hm as [[-> _]|[-> _]].
  - by destruct Hm as [[-> ->]|[-> ->]]; split.
  - intros Hx Ha. destruct Hw as [Hw|Hw]; [done|lia].
  - by rewrite Hst.
Qed.

Lemma main_holds s : inv units s -> m_critical (m_pc s) = true -> mtx s = Some Main /\ forall k q, producers s !! k = Some q -> p_critical (p_pc q) = false.
Proof.
  intros Hi Hc. pose proof (proj1 (v_mtx_m _ _ Hi) Hc) as Hm. split; [done|]. intros k q Hq. pose proof (v_mtx_p _ _ Hi k q Hq) as H. rewrite Hm in H.
  destruct (p_critical (p_pc q)); [|done]. discriminate (proj1 H eq_refl).
Qed.

Lemma main_keeps s s' : inv units s -> st_status s = Running -> main_step s = Some s' -> inv units s'.
Proof.
  intros Hi Hst Hs. unfold main_step in Hs. pose proof (v_main _ _ Hi) as Hok. unfold m_ok in Hok. destruct (m_pc s) as [[|a args]| | | | | | |] eqn:Hpc.
  - injection Hs as <-. destruct Hi. rewrite Hpc in *. cbn in *. split; cbn; try done.
    + unfold m_ok. cbn. unfold total in v_units0 at 2. cbn in v_units0. lia.
    + by rewrite Hst.
  - pose proof (units_bound s Hi) as Hub. destruct Hi. rewrite Hpc in *. cbn in *. apply Forall_cons in v_args0 as [Ha Hargs]. rewrite total_cons in v_units0.
    assert (0 <= total atoi args) by (clear - Hargs; induction Hargs; [done|]; rewrite total_cons; lia).
    assert (0 <= total p_cnt (producers s)) by (pose proof (total_le (fun _ => 0) p_cnt (producers s)) as Hle; clear - v_producers0 Hle;
      assert (forall l : list producer, total (fun _ => 0) l = 0) as Hz by (induction l; [done|]; rewrite total_cons; lia); rewrite Hz in Hle; apply Hle;
      eapply Forall_impl; [exact v_producers0|]; intros p Hp; pose proof (produced_le p Hp); lia).
    unfold iadd in Hs. rewrite decide_True in Hs by (split; unfold INT_MIN in *; lia). injection Hs as <-. split; cbn; try done.
    + rewrite total_snoc. unfold produced at 2. cbn. lia.
    + rewrite total_snoc. cbn. lia.
    + rewrite total_snoc. cbn. lia.
    + apply Forall_app. split; [done|]. constructor; [|constructor]. unfold p_ok. cbn. lia.
    + intros i p Hp. apply lookup_snoc_Some in Hp as [[_ Hp]|[-> <-]]; [by apply v_mtx_p0|]. cbn. split; [done|]. intros Hm.
      destruct (v_mtx_i0 _ Hm) as [q Hq]. apply lookup_lt_Some in Hq. lia.
    + intros i Hm. destruct (v_mtx_i0 i Hm) as [q Hq]. exists q. by apply lookup_app_l_Some.
    + by rewrite Hst.
  - destruct (mtx s) eqn:Hm; [done|]. injection Hs as <-. destruct (free_mutex s Hi Hm) as [_ Hp].
    apply main_moves; try done; try exact Hok; [by rewrite Hpc|by left|by right].
  - injection Hs as <-. destruct (main_holds s Hi) as [Hm Hp]; [by rewrite Hpc|]. destruct (Z.eqb_spec (avail s) 0) as [H0|H0].
    + apply main_moves; try done; try exact Hok; [by rewrite Hpc|by right|by left].
    + assert (set_m_pc M_consume s = set_m_pc M_consume (set_mtx (Some Main) s)) as -> by (destruct s; cbn in *; by subst).
      apply main_moves; try done; try exact Hok; [by rewrite Hpc|by left|by right|intros Hz; cbn in Hz; by destruct H0].
  - done.
  - destruct (mtx s) eqn:Hm; [done|]. injection Hs as <-. destruct (free_mutex s Hi Hm) as [_ Hp].
    apply main_moves; try done; try exact Hok; [by rewrite Hpc|by left|by right].
  - injection Hs as <-. destruct (main_holds s Hi) as [Hm Hp]; [by rewrite Hpc|]. pose proof (units_bound s Hi). pose proof (produced_total s units Hi). pose proof (v_sum _ _ Hi). destruct (v_nonneg _ _ Hi).
    destruct (Z.ltb_spec 0 (avail s)) as [Hlt|Hge].
    + unfold iadd. rewrite !decide_True by (split; unfold INT_MIN in *; lia). destruct Hi. split; cbn; try done.
      * lia.
      * lia.
      * unfold m_ok. cbn. by rewrite Hpc.
      * rewrite Hpc. done.
      * by rewrite Hst.
    + assert (set_m_pc M_unlock s = set_m_pc M_unlock (set_mtx (Some Main) s)) as -> by (destruct s; cbn in *; by subst).
      apply main_moves; try done; try exact Hok; [by rewrite Hpc|by left|by right|]. unfold m_ok. cbn. apply Hok. lia.
  - injection Hs as <-. destruct (main_holds s Hi) as [Hm Hp]; [by rewrite Hpc|].
    apply main_moves; try done; try exact Hok; [by rewrite Hpc|by left|by left].
  - injection Hs as <-. destruct (m_done s) eqn:Hd.
    + destruct Hi. split; try done.
    + destruct Hi. split; cbn; try done.
      * by rewrite Hpc in v_units0.
      * by rewrite <- v_mtx_m0, Hpc.
      * unfold m_ok. cbn. symmetry in Hok. apply Z.leb_gt in Hok. lia.
      * by rewrite Hst.
Qed.

Lemma step_keeps s s' : inv units s -> step s s' -> inv units s'.
Proof.
  intros Hi Hs. destruct Hs as [s s' [s0 s1 Hst Hm|s0 i p s1 Hst Hp Hm]|s Hst Hw|s Hst].
  - by eapply main_keeps.
  - by eapply producer_keeps.
  - by apply wake_keeps.
  - destruct Hi. split; try done.
Qed.

Lemma steps_keep s s' : inv units s -> rtc step s s' -> inv units s'.
Proof. intros Hi Hs. induction Hs as [|x y z Hxy _ IH]; [done|]. apply IH. by eapply step_keeps. Qed.
End Keeps.

(** ** Every interleaving *)

Lemma prod_start_inv args : Forall (fun a => 0 <= atoi a) args -> inv (total atoi args) (start args).
Proof. intros Ha. by split. Qed.

(** C10: for arguments that are not negative and whose sum is positive and an [int], in every
    interleaving, with spurious wakeups and failing calls: nothing overflows; the units
    consumed and those available are those produced; no two threads are in the critical
    region; and when the process ends with success, every unit was produced and consumed. *)
Theorem consumer_gets_all args s :
  Forall (fun a => 0 <= atoi a) args -> 0 < total atoi args <= INT_MAX -> rtc step (start args) s ->
  st_status s <> Crashed /\ 0 <= avail s /\ numConsumed s + avail s = total produced (producers s) /\
  (m_critical (m_pc s) = true -> forall i p, producers s !! i = Some p -> p_critical (p_pc p) = false) /\
  (forall i p k q, producers s !! i = Some p -> producers s !! k = Some q -> p_critical (p_pc p) = true -> p_critical (p_pc q) = true -> i = k) /\
  (st_status s = Exited EXIT_SUCCESS ->
     numConsumed s = total atoi args /\ avail s = 0 /\ Forall (fun p => produced p = p_cnt p) (producers s)).
Proof.
  intros Ha Hu Hs. pose proof (steps_keep _ Hu _ _ (prod_start_inv args Ha) Hs) as Hi. clear Hs. split.
  { intros Hc. pose proof (v_status _ _ Hi) as Hst. by rewrite Hc in Hst. }
  split; [apply Hi|]. split; [apply Hi|]. split; [intros Hc; by apply (main_holds _ s Hi)|]. split.
  { intros i p k q Hp Hq Hcp Hcq. pose proof (proj1 (v_mtx_p _ _ Hi i p Hp) Hcp). pose proof (proj1 (v_mtx_p _ _ Hi k q Hq) Hcq). congruence. }
  intros Hx. pose proof (v_status _ _ Hi) as Hst. rewrite Hx in Hst. destruct (Hst eq_refl) as [Hpc Hd].
  pose proof (v_main _ _ Hi) as Hok. unfold m_ok in Hok. rewrite Hpc, Hd in Hok. symmetry in Hok. apply Z.leb_le in Hok.
  pose proof (v_units _ _ Hi) as Hun. rewrite Hpc in Hun. unfold total in Hun at 2. cbn in Hun.
  pose proof (v_required _ _ Hi). pose proof (v_sum _ _ Hi). pose proof (produced_total s _ Hi). destruct (v_nonneg _ _ Hi).
  split; [lia|]. split; [lia|]. apply total_eq; [|lia]. eapply Forall_impl; [apply Hi|]. intros p Hp. by apply produced_le.
Qed.

(** ** Without failures *)

(** How many steps there may still be. *)
Definition p_left (p : producer) : Z :=
  5 * (p_cnt p - p_j p) + match p_pc p with P_loop => 1 | P_lock => 0 | P_incr => -1 | P_unlock => -2 | P_signal => -3 | P_end => 0 end.

Definition m_left (s : state) : Z :=
  match st_status s with
  | Running =>
      match m_pc s with
      | M_create _ => 3 | M_lock => 2 | M_test => 1 | M_waiting => 0 | M_woken => 2
      | M_consume => if 0 <? avail s then 0 else 5
      | M_unlock => 4 | M_done => 3
      end
  | _ => 0
  end.

Definition steps_left (units : Z) (s : state) : Z :=
  9 * (total p_left (producers s) + total (fun a => 5 * atoi a + 2) (remaining (m_pc s))) + 8 * (units - numConsumed s) + m_left s.

Section Alive.
Context (units : Z) (Hpos : 0 < units <= INT_MAX).

Lemma crashed s : ~ inv units (crash s).
Proof. intros Hi. exact (v_status _ _ Hi). Qed.

Lemma p_left_nonneg p : p_ok p -> 0 <= p_left p.
Proof. unfold p_ok, p_left. destruct (p_pc p); lia. Qed.

Lemma m_left_range s : 0 <= m_left s <= 5.
Proof. unfold m_left. destruct (st_status s); [|lia|lia]. destruct (m_pc s); try lia. destruct (0 <? avail s); lia. Qed.

Lemma steps_left_nonneg s : inv units s -> 0 <= steps_left units s.
Proof.
  intros Hi. unfold steps_left. pose proof (m_left_range s). pose proof (units_bound units s Hi). pose proof (produced_total s units Hi). pose proof (v_sum _ _ Hi). destruct (v_nonneg _ _ Hi).
  assert (0 <= total p_left (producers s)) by (apply total_nonneg; eapply Forall_impl; [apply Hi|]; intros p Hp; by apply p_left_nonneg).
  assert (0 <= total (fun a => 5 * atoi a + 2) (remaining (m_pc s))) by (apply total_nonneg; eapply Forall_impl; [apply Hi|]; cbn; lia). lia.
Qed.

Lemma producer_left s i p s' :
  inv units s -> st_status s = Running -> producers s !! i = Some p -> producer_step i p s = Some s' -> inv units s' -> steps_left units s' < steps_left units s.
Proof.
  intros Hi Hst Hp Hs Hi'. destruct p as [pc j c].
  assert (forall pc' j' q, remaining (m_pc q) = remaining (m_pc s) -> numConsumed q = numConsumed s -> producers q = <[i := mk_producer pc' j' c]> (producers s) ->
    9 * (p_left (mk_producer pc' j' c) - p_left (mk_producer pc j c)) + m_left q < m_left s -> steps_left units q < steps_left units s) as Hgo.
  { intros pc' j' q E1 E2 E3 Hl. unfold steps_left. rewrite E1, E2, E3, (total_insert p_left _ _ _ _ Hp). lia. }
  pose proof (m_left_range s). pose proof (m_left_range s'). unfold producer_step in Hs. cbn in Hs. destruct pc.
  - injection Hs as <-. apply (Hgo (if j <? c then P_lock else P_end) j); [done|done|done|].
    pose proof (proj1 (Forall_lookup _ _) (v_producers _ _ Hi) i _ Hp) as Hok. unfold p_ok in Hok. cbn in Hok. unfold p_left, m_left. cbn.
    destruct (Z.ltb_spec j c); cbn; lia.
  - destruct (mtx s); [done|]. injection Hs as <-. apply (Hgo P_incr j); [done|done|done|]. unfold p_left in *. cbn in *. lia.
  - destruct (iadd (avail s) 1).
    + injection Hs as <-. apply (Hgo P_unlock j); [done|done|done|]. unfold p_left in *. cbn in *. lia.
    + injection Hs as <-. by apply crashed in Hi'.
  - injection Hs as <-. apply (Hgo P_signal j); [done|done|done|]. unfold p_left in *. cbn in *. lia.
  - injection Hs as <-. cbn in *. apply (Hgo P_loop (j + 1)); [destruct (m_pc s) eqn:E; cbn; by rewrite ?E|by destruct (m_pc s)|by destruct (m_pc s)|]. unfold p_left in *. cbn in *. lia.
  - done.
Qed.

Lemma main_left s s' : inv units s -> st_status s = Running -> main_step s = Some s' -> inv units s' -> steps_left units s' < steps_left units s.
Proof.
  intros Hi Hst Hs Hi'. unfold main_step in Hs. unfold steps_left, m_left. destruct (m_pc s) as [[|a args]| | | | | | |] eqn:Hpc; rewrite Hst.
  - injection Hs as <-. cbn. rewrite Hst. lia.
  - destruct (iadd _ _); injection Hs as <-; [|by apply crashed in Hi']. cbn. rewrite Hst, total_snoc, total_cons. unfold p_left at 2. cbn. lia.
  - destruct (mtx s); [done|]. injection Hs as <-. cbn. rewrite Hst. lia.
  - injection Hs as <-. destruct (Z.eqb_spec (avail s) 0); cbn; rewrite Hst; [lia|]. destruct (v_nonneg _ _ Hi). rewrite (proj2 (Z.ltb_lt 0 (avail s))) by lia. lia.
  - done.
  - destruct (mtx s); [done|]. injection Hs as <-. cbn. rewrite Hst. lia.
  - injection Hs as <-. destruct (0 <? avail s) eqn:E.
    + destruct (iadd (numConsumed s) 1) as [n|] eqn:E1; [|by apply crashed in Hi']. destruct (iadd (avail s) (-1)) as [a|] eqn:E2; [|by apply crashed in Hi'].
      cbn. rewrite Hst, Hpc. unfold iadd in E1. destruct (decide _) in E1; [|done]. injection E1 as <-. cbn. destruct (0 <? a); lia.
    + cbn. rewrite Hst. lia.
  - injection Hs as <-. cbn. rewrite Hst. lia.
  - injection Hs as <-. destruct (m_done s); cbn; rewrite ?Hst, ?Hpc; cbn; lia.
Qed.

Lemma thread_status s s' : thread_step s s' -> inv units s' -> st_status s' = Running \/ st_status s' = Exited EXIT_SUCCESS.
Proof.
  intros Hs Hi'. assert (st_status s' <> Crashed) as Hc by (intros Hc; pose proof (v_status _ _ Hi') as Hv; by rewrite Hc in Hv).
  clear Hi'. destruct Hs as [s s' Hst Hm|s i p s' Hst Hp Hm].
  - unfold main_step in Hm. repeat case_match; simplify_eq/=; auto.
  - unfold producer_step in Hm. repeat case_match; simplify_eq/=; auto.
Qed.

(** A thread in the critical region can leave it. *)
Lemma critical_goes s i p : st_status s = Running -> producers s !! i = Some p -> p_critical (p_pc p) = true \/ signalling p -> exists s', thread_step s s'.
Proof.
  intros Hst Hp Hc. assert (is_Some (producer_step i p s)) as [s' Hs']; [|exists s'; by eapply step_producer].
  unfold producer_step, signalling in *. destruct (p_pc p); first [by destruct Hc as [Hc|[Hc|Hc]]|by eexists].
Qed.

Lemma mutex_progress s : inv units s -> st_status s = Running -> m_critical (m_pc s) = false -> is_Some (mtx s) -> exists s', thread_step s s'.
Proof.
  intros Hi Hst Hc [[|i] Hm].
  - pose proof (proj2 (v_mtx_m _ _ Hi) Hm). congruence.
  - destruct (v_mtx_i _ _ Hi i Hm) as [p Hp]. apply (critical_goes s i p Hst Hp). left. by apply (v_mtx_p _ _ Hi i p Hp).
Qed.

Lemma thread_progress s : inv units s -> st_status s = Running -> exists s', thread_step s s'.
Proof.
  intros Hi Hst. assert (is_Some (main_step s) -> exists s', thread_step s s') as Hmain by (intros [s' Hs']; exists s'; by apply step_main).
  unfold main_step in Hmain. pose proof (v_main _ _ Hi) as Hok. unfold m_ok in Hok. destruct (m_pc s) as [[|a args]| | | | | | |] eqn:Hpc; try (by apply Hmain).
  - destruct (mtx s) eqn:Hm; [|by apply Hmain]. apply mutex_progress; [done|done|by rewrite Hpc|by rewrite Hm].
  - destruct (decide (0 < avail s)) as [Ha|Ha].
    { destruct (v_wakeup _ _ Hi Hpc Ha) as (i & p & Hp & Hsig). apply (critical_goes s i p Hst Hp). by right. }
    destruct (mtx s) eqn:Hm; [apply mutex_progress; [done|done|by rewrite Hpc|by rewrite Hm]|].
    destruct (decide (Exists (fun p => p_pc p <> P_end) (producers s))) as [He|He].
    + apply Exists_exists in He as (p & [i Hp]%list_elem_of_lookup & Hend). assert (is_Some (producer_step i p s)) as [s' Hs']; [|exists s'; by eapply step_producer].
      unfold producer_step. rewrite Hm. destruct (p_pc p); first [by destruct Hend|by eexists].
    + exfalso. assert (total produced (producers s) = total p_cnt (producers s)) as E.
      { apply Z.le_antisymm; [by apply (produced_total s units)|]. apply total_le. apply Forall_forall. intros p Hp.
        assert (p_pc p = P_end) as Hend by (destruct (p_pc p) eqn:E; try done; destruct He; apply Exists_exists; exists p; by rewrite E).
        pose proof (proj1 (Forall_forall _ _) (v_producers _ _ Hi) p Hp) as Hpok. unfold p_ok in Hpok. unfold produced. rewrite Hend in *. lia. }
      pose proof (v_sum _ _ Hi). pose proof (v_required _ _ Hi). destruct (v_nonneg _ _ Hi). lia.
  - destruct (mtx s) eqn:Hm; [|by apply Hmain]. apply mutex_progress; [done|done|by rewrite Hpc|by rewrite Hm].
Qed.

Lemma thread_runs n s s' : nsteps thread_step n s s' -> inv units s -> st_status s = Running \/ st_status s = Exited EXIT_SUCCESS ->
  inv units s' /\ (st_status s' = Running \/ st_status s' = Exited EXIT_SUCCESS) /\ Z.of_nat n + steps_left units s' <= steps_left units s.
Proof.
  induction 1 as [s|n s1 s2 s3 Hs _ IH]; intros Hi Hst; [split; [done|]; split; [done|]; lia|].
  pose proof (step_keeps units Hpos _ _ Hi (step_thread _ _ Hs)) as Hi2. destruct (IH Hi2 (thread_status _ _ Hs Hi2)) as (H1 & H2 & H3). split; [done|]. split; [done|].
  assert (steps_left units s2 < steps_left units s1); [|lia]. destruct Hs as [s s' Hr Hm|s i p s' Hr Hp Hm]; [by apply main_left|by eapply producer_left].
Qed.
End Alive.

(** C9: for arguments that are not negative and whose sum is positive and an [int], no
    wakeup is lost: in every interleaving in which no call fails, as long as the process
    has not ended with success, some thread has a step; and it does end, after at most 53
    steps for each unit and 18 for each thread, and 3 more. *)
Theorem consumer_finishes args n s :
  Forall (fun a => 0 <= atoi a) args -> 0 < total atoi args <= INT_MAX -> nsteps thread_step n (start args) s ->
  Z.of_nat n <= 53 * total atoi args + 18 * Z.of_nat (length args) + 3 /\
  (st_status s = Exited EXIT_SUCCESS \/ exists s', thread_step s s').
Proof.
  intros Ha Hu Hs. destruct (thread_runs _ Hu n _ _ Hs (prod_start_inv args Ha) (or_introl eq_refl)) as (Hi & Hst & Hl). split.
  - pose proof (steps_left_nonneg _ s Hi). unfold steps_left in Hl at 2. cbn in Hl.
    assert (total (fun a => 5 * atoi a + 2) args = 5 * total atoi args + 2 * Z.of_nat (length args)) as E.
    { clear. induction args as [|a l IH]; [done|]. rewrite !total_cons, IH. cbn [length]. lia. }
    rewrite E in Hl. change (total p_left []) with 0 in Hl. lia.
  - destruct Hst as [Hst|Hst]; [right|by left]. by apply (thread_progress (total atoi args) s).
Qed.

(** *** Examples *)

(** With a sum of zero the main thread waits for a unit that nobody makes. *)
Example nothing_required : exists s, rtc thread_step (start []) s /\ st_status s = Running /\ forall s', ~ thread_step s s'.
Proof.
  exists (mk_state None 0 [] M_waiting 0 0 false Running). split; [|split; [done|]].
  - do 3 (eapply rtc_l; [by apply step_main|]). apply rtc_refl.
  - intros s' Hs. inversion Hs as [? ? _ Hm|? i p ? _ Hp _]; [done|by destruct i].
Qed.

(** A run: the main thread goes on when it can, otherwise the first producer that can. *)
Definition next (s : state) : option state :=
  match st_status s with
  | Running =>
      match main_step s with
      | Some s' => Some s'
      | None => foldr (fun x y => match x with Some _ => x | None => y end) None (imap (fun i p => producer_step i p s) (producers s))
      end
  | _ => None
  end.

Fixpoint schedule (n : nat) (s : state) : option state :=
  match n with O => Some s | S n => match next s with Some s' => schedule n s' | None => None end end.

Lemma next_turn s s' : next s = Some s' -> thread_step s s'.
Proof.
  unfold next. destruct (st_status s) eqn:Hst; [|done..]. destruct (main_step s) as [x|] eqn:Em; [intros [= <-]; by apply step_main|].
  intros H. assert (Some s' ∈ imap (fun i p => producer_step i p s) (producers s)) as Hin.
  { induction (imap _ _) as [|[x|] l IH]; [done| |]; simpl in H; [rewrite H; by left|right; by apply IH]. }
  apply elem_of_lookup_imap in Hin as (i & p & E & Hp). by apply (step_producer i p).
Qed.

Lemma schedule_turns n s s' : schedule n s = Some s' -> nsteps thread_step n s s'.
Proof.
  revert s. induction n as [|n IH]; intros s; simpl; [intros [= <-]; constructor|].
  destruct (next s) as [x|] eqn:E; [|done]. intros H. econstructor; [by apply next_turn|by apply IH].
Qed.

Definition finish (n : nat) : state := default (start []) (schedule n (start [lit "2"; lit "1"])).

Lemma two_and_one : Forall (fun a => 0 <= atoi a) [lit "2"; lit "1"] /\ 0 < total atoi [lit "2"; lit "1"] <= INT_MAX.
Proof. split; [repeat constructor; by vm_compute|by vm_compute]. Qed.

Lemma finish_steps n : (n <= 43)%nat -> nsteps thread_step n (start [lit "2"; lit "1"]) (finish n).
Proof.
  intros Hn. apply schedule_turns.
  assert (forallb (fun n => match schedule n (start [lit "2"; lit "1"]) with Some _ => true | None => false end) (seq 0 44) = true)
    as H by (vm_compute; reflexivity).
  rewrite forallb_forall in H. specialize (H n ltac:(apply in_seq; lia)). unfold finish. by destruct (schedule n _).
Qed.

(** With the arguments 2 and 1, at the end of the run: success, and the three units are consumed. *)
Lemma consumer_gets_all_witness :
  st_status (finish 43) = Exited EXIT_SUCCESS /\ numConsumed (finish 43) = total atoi [lit "2"; lit "1"] /\ avail (finish 43) = 0 /\
  Forall (fun p => produced p = p_cnt p) (producers (finish 43)).
Proof.
  assert (st_status (finish 43) = Exited EXIT_SUCCESS) as Hx by (vm_compute; reflexivity).
  assert (rtc step (start [lit "2"; lit "1"]) (finish 43)) as Hs.
  { apply (rtc_subrel thread_step); [intros; by apply step_thread|]. by eapply rtc_nsteps_2, finish_steps. }
  split; [exact Hx|]. exact (proj2 (proj2 (proj2 (proj2 (proj2 (consumer_gets_all _ _ (proj1 two_and_one) (proj2 two_and_one) Hs))))) Hx).
Defined.

(** The consumer waits, and some thread goes on. *)
Lemma consumer_finishes_witness : m_pc (finish 20) = M_waiting /\ exists s', thread_step (finish 20) s'.
Proof.
  split; [vm_compute; reflexivity|].
  destruct (proj2 (consumer_finishes _ 20 (finish 20) (proj1 two_and_one) (proj2 two_and_one) (finish_steps 20 ltac:(lia)))) as [Hx|Hx];
    [vm_compute in Hx; discriminate|exact Hx].
Defined.
