(* ===== verification/Incr.v ===== *)
(** * tlpi/tlpi-dist/threads: two threads and a counter

    thread_incr.c, where two threads increment a variable without a lock, and the four
    programs that guard it: thread_incr_mutex.c, thread_incr_spinlock.c,
    thread_incr_rwlock.c and psem/thread_incr_psem.c.  A load, an addition, a store and
    each call is a step, in any order; a failing call ends the process.  The programs
    with a lock are one program over a class of locks, with an instance for each. *)

From stdpp Require Import prelude list_numbers strings relations.
From Stdlib Require Import ZArith Lia.
From S2P Require Import Prelude CLib Vfs TlpiLib.
Open Scope Z_scope.
Set Warnings "-clear-no-such-hyp".

(** ** Locks *)

(** [new_lock] is the value a lock starts with: by a static initializer, or by a call
    in [main].  [acquire] is [None] when the thread waits, [release] when what
    happens is not defined. *)
Class Lock (L : Type) := {
  static_lock : bool;
  new_lock : L;
  acquire : nat -> L -> option L;
  release : nat -> L -> option L
}.

(** A mutex and a spin lock know who holds them. *)
Definition unlocked : option nat := None.
Definition own_lock (i : nat) (l : option nat) : option (option nat) := match l with None => Some (Some i) | Some _ => None end.
Definition own_unlock (i : nat) (l : option nat) : option (option nat) := if decide (l = Some i) then Some None else None.

Record mutex := Mutex { mutex_owner : option nat }.
Definition mutex_lock : Lock mutex := {|
  static_lock := true;
  new_lock := Mutex None;
  acquire i l := Mutex <$> own_lock i (mutex_owner l);
  release i l := Mutex <$> own_unlock i (mutex_owner l)
|}.
#[export] Existing Instance mutex_lock.

Record spinlock := Spinlock { spin_owner : option nat }.
Definition spinlock_lock : Lock spinlock := {|
  static_lock := false;
  new_lock := Spinlock None;
  acquire i l := Spinlock <$> own_lock i (spin_owner l);
  release i l := Spinlock <$> own_unlock i (spin_owner l)
|}.
#[export] Existing Instance spinlock_lock.

(** A read-write lock: who reads and who writes. *)
Record rwlock := Rwlock { rw_readers : list nat; rw_writer : option nat }.
Definition wrlock (i : nat) (l : rwlock) : option rwlock :=
  match rw_readers l, rw_writer l with [], None => Some (Rwlock [] (Some i)) | _, _ => None end.
Definition rw_unlock (i : nat) (l : rwlock) : option rwlock :=
  if decide (rw_writer l = Some i) then Some (Rwlock (rw_readers l) None)
  else match list_find (eq i) (rw_readers l) with Some (k, _) => Some (Rwlock (delete k (rw_readers l)) (rw_writer l)) | None => None end.
Definition rwlock_lock : Lock rwlock := {|
  static_lock := false;
  new_lock := Rwlock [] None;
  acquire := wrlock;
  release := rw_unlock
|}.
#[export] Existing Instance rwlock_lock.

(** A semaphore is its value. *)
Record sem := Sem { sem_value : Z }.
Definition sem_lock : Lock sem := {|
  static_lock := false;
  new_lock := Sem 1;
  acquire _ l := if 0 <? sem_value l then Some (Sem (sem_value l - 1)) else None;
  release _ l := Some (Sem (sem_value l + 1))
|}.
#[export] Existing Instance sem_lock.

(** ** The programs *)

Inductive tpc := T_loop | T_lock | T_load | T_incr | T_store | T_unlock | T_end.

#[export] Instance tpc_eq_dec : EqDecision tpc.
Proof. solve_decision. Defined.

(** A thread that runs [threadFunc]. *)
Record thread := mk_thread { t_pc : tpc; t_j : Z; t_loc : Z }.

Inductive mpc := M_init | M_create1 | M_create2 | M_join1 | M_join2 | M_print | M_done.

Inductive status := Running | Exited (c : Z) | Crashed.

(** [lock] is [None] before it is initialized, or when there is none; [printed] is what
    [main] printed. *)
Record state (L : Type) := mk_state {
  glob : Z;
  lock : option L;
  threads : list thread;
  m_pc : mpc;
  printed : option Z;
  st_status : status
}.
Arguments mk_state {L}.
Arguments glob {L}.
Arguments lock {L}.
Arguments threads {L}.
Arguments m_pc {L}.
Arguments printed {L}.
Arguments st_status {L}.

Definition set_glob {L} v (s : state L) : state L := mk_state v (lock s) (threads s) (m_pc s) (printed s) (st_status s).
Definition set_lock {L} v (s : state L) : state L := mk_state (glob s) v (threads s) (m_pc s) (printed s) (st_status s).
Definition set_threads {L} v (s : state L) : state L := mk_state (glob s) (lock s) v (m_pc s) (printed s) (st_status s).
Definition set_m_pc {L} v (s : state L) : state L := mk_state (glob s) (lock s) (threads s) v (printed s) (st_status s).
Definition set_printed {L} v (s : state L) : state L := mk_state (glob s) (lock s) (threads s) (m_pc s) v (st_status s).
Definition set_status {L} v (s : state L) : state L := mk_state (glob s) (lock s) (threads s) (m_pc s) (printed s) v.
Definition crash {L} (s : state L) : state L := set_status Crashed s.

(** The number of turns, from the argument if there is one. *)
Definition num_loops (arg : option (list Z)) : prog Z :=
  match arg with Some a => getInt a GN_GT_0 (Some (lit "num-loops")) | None => Done 10000000 end.

Section Program.
Context (loops : Z).

Definition goto {L} (i : nat) (t : thread) (s : state L) : state L := set_threads (<[i := t]> (threads s)) s.

(** The three statements that increment the counter; what follows is [next]. *)
Definition increment {L} (i : nat) (t : thread) (next : thread) (s : state L) : option (state L) :=
  match t_pc t with
  | T_load => Some (goto i (mk_thread T_incr (t_j t) (glob s)) s)
  | T_incr => Some (match iadd (t_loc t) 1 with Some v => goto i (mk_thread T_store (t_j t) v) s | None => crash s end)
  | T_store => Some (goto i next (set_glob (t_loc t) s))
  | _ => None
  end.

(** A statement of [threadFunc] in thread_incr.c. *)
Definition plain_step {L} (i : nat) (t : thread) (s : state L) : option (state L) :=
  match t_pc t with
  | T_loop => Some (goto i (mk_thread (if t_j t <? loops then T_load else T_end) (t_j t) (t_loc t)) s)
  | T_lock | T_unlock | T_end => None
  | T_load | T_incr | T_store => increment i t (mk_thread T_loop (t_j t + 1) (t_loc t)) s
  end.

(** A statement of [threadFunc] in the other programs; [None] when the thread waits for
    the lock or has ended. *)
Definition guarded_step `{Lock L} (i : nat) (t : thread) (s : state L) : option (state L) :=
  match t_pc t with
  | T_loop => Some (goto i (mk_thread (if t_j t <? loops then T_lock else T_end) (t_j t) (t_loc t)) s)
  | T_lock =>
      match lock s with
      | None => Some (crash s)
      | Some l => match acquire i l with Some l => Some (goto i (mk_thread T_load (t_j t) (t_loc t)) (set_lock (Some l) s)) | None => None end
      end
  | T_unlock =>
      Some (match l ← lock s; release i l with
        | None => crash s
        | Some l => goto i (mk_thread T_loop (t_j t + 1) (t_loc t)) (set_lock (Some l) s) end)
  | T_end => None
  | T_load | T_incr | T_store => increment i t (mk_thread T_unlock (t_j t) (t_loc t)) s
  end.

Definition new_thread : thread := mk_thread T_loop 0 0.

(** Has the [i]-th thread ended? *)
Definition ended {L} (i : nat) (s : state L) : bool := match threads s !! i with Some t => match t_pc t with T_end => true | _ => false end | None => false end.

(** A statement of [main] after its first; [init] is what the lock is initialized with. *)
Definition main_step {L} (init : option L) (s : state L) : option (state L) :=
  match m_pc s with
  | M_init => Some (set_m_pc M_create1 (set_lock init s))
  | M_create1 => Some (set_m_pc M_create2 (set_threads (threads s ++ [new_thread]) s))
  | M_create2 => Some (set_m_pc M_join1 (set_threads (threads s ++ [new_thread]) s))
  | M_join1 => if ended 0 s then Some (set_m_pc M_join2 s) else None
  | M_join2 => if ended 1 s then Some (set_m_pc M_print s) else None
  | M_print => Some (set_m_pc M_done (set_printed (Some (glob s)) s))
  | M_done => Some (set_status (Exited EXIT_SUCCESS) s)
  end.

(** A step in which no call fails, and any step. *)
Inductive fine_step {L} (init : option L) (tstep : nat -> thread -> state L -> option (state L)) : state L -> state L -> Prop :=
| step_main s s' : st_status s = Running -> main_step init s = Some s' -> fine_step init tstep s s'
| step_thread i t s s' : st_status s = Running -> threads s !! i = Some t -> tstep i t s = Some s' -> fine_step init tstep s s'.

Inductive step {L} (init : option L) (tstep : nat -> thread -> state L -> option (state L)) : state L -> state L -> Prop :=
| step_fine s s' : fine_step init tstep s s' -> step init tstep s s'
| step_failure s : st_status s = Running -> step init tstep s (set_status (Exited EXIT_FAILURE) s).
End Program.

(** thread_incr.c *)
Definition plain_start : state unit := mk_state 0 None [] M_create1 None Running.
Definition thread_incr (loops : Z) : state unit -> state unit -> Prop := step None (plain_step loops).

(** The other programs. *)
Definition guarded_start (L : Type) `{Lock L} : state L :=
  if static_lock then mk_state 0 (Some new_lock) [] M_create1 None Running else mk_state 0 None [] M_init None Running.
Definition guarded_fine (L : Type) `{Lock L} (loops : Z) : state L -> state L -> Prop := fine_step (Some new_lock) (guarded_step loops).
Definition guarded (L : Type) `{Lock L} (loops : Z) : state L -> state L -> Prop := step (Some new_lock) (guarded_step loops).

Definition thread_incr_mutex : Z -> state mutex -> state mutex -> Prop := guarded mutex.
Definition thread_incr_spinlock : Z -> state spinlock -> state spinlock -> Prop := guarded spinlock.
Definition thread_incr_rwlock : Z -> state rwlock -> state rwlock -> Prop := guarded rwlock.
Definition thread_incr_psem : Z -> state sem -> state sem -> Prop := guarded sem.

(** ** What a lock promises *)

(** [held l o]: the lock [l] is held by the thread [o], or free. *)
Class LockLaws (L : Type) `{Lock L} := {
  held : L -> option nat -> Prop;
  held_new : held new_lock None;
  held_acquire i l o l' : held l o -> acquire i l = Some l' -> o = None /\ held l' (Some i);
  held_free i l : held l None -> is_Some (acquire i l);
  held_release i l : held l (Some i) -> exists l', release i l = Some l' /\ held l' None
}.

#[export] Instance mutex_laws : LockLaws mutex.
Proof.
  refine {| held l o := mutex_owner l = o |}.
  - done.
  - intros i [x] o l' Hl Ha. cbn in *. subst x. destruct o; [done|]. by injection Ha as <-.
  - intros i [x] Hl. cbn in *. subst x. by eexists.
  - intros i [x] Hl. cbn in *. subst x. unfold own_unlock. rewrite decide_True by done. by eexists.
Defined.

#[export] Instance spinlock_laws : LockLaws spinlock.
Proof.
  refine {| held l o := spin_owner l = o |}.
  - done.
  - intros i [x] o l' Hl Ha. cbn in *. subst x. destruct o; [done|]. by injection Ha as <-.
  - intros i [x] Hl. cbn in *. subst x. by eexists.
  - intros i [x] Hl. cbn in *. subst x. unfold own_unlock. rewrite decide_True by done. by eexists.
Defined.

#[export] Instance rwlock_laws : LockLaws rwlock.
Proof.
  refine {| held l o := rw_readers l = [] /\ rw_writer l = o |}.
  - done.
  - intros i [r w] o l' [Hr Hw] Ha. unfold acquire, rwlock_lock, wrlock in Ha. cbn in *. subst. destruct o; [done|]. by injection Ha as <-.
  - intros i [r w] [Hr Hw]. cbn in *. subst. by eexists.
  - intros i [r w] [Hr Hw]. cbn in *. subst. unfold rw_unlock. rewrite decide_True by done. by eexists.
Defined.

#[export] Instance sem_laws : LockLaws sem.
Proof.
  refine {| held l o := sem_value l = match o with Some _ => 0 | None => 1 end |}.
  - done.
  - intros i [v] o l' Hl Ha. cbn in *. subst v. destruct o; [done|]. by injection Ha as <-.
  - intros i [v] Hl. cbn in *. subst v. by eexists.
  - intros i [v] Hl. cbn in *. subst v. by eexists.
Defined.
