(* ===== verification/IncrSafe.v ===== *)
(** * tlpi/tlpi-dist/threads: no update is lost under a lock

    For every lock that keeps the promise of [LockLaws], the two threads add up exactly,
    unless the sum does not fit in an int, and they always finish. *)

From stdpp Require Import prelude list_numbers strings relations.
From Stdlib Require Import ZArith Lia.
From S2P Require Import Prelude CLib Vfs TlpiLib Incr.
Open Scope Z_scope.
Set Warnings "-clear-no-such-hyp".

(** The number of turns is a positive int. *)
Lemma num_loops_range arg p k loops w : run (num_loops arg) (p, k) = (Ret loops, w) -> 0 < loops <= INT_MAX.
Proof.
  destruct arg as [a|]; cbn [num_loops].
  - destruct (getInt_run (Some (lit "num-loops")) a GN_GT_0 p k) as [(v & (_ & _ & _ & Hv) & Hi & E)|(_ & p' & E & _)]; rewrite E; [|done].
    intros [= <- <-]. unfold is_int in Hi. specialize (Hv eq_refl). lia.
  - intros [= <- <-]. unfold INT_MAX. lia.
Qed.

(** ** The invariant *)

Definition critical (pc : tpc) : bool := match pc with T_load | T_incr | T_store | T_unlock => true | _ => false end.

(** The increments a thread has stored. *)
Definition stored (t : thread) : Z := t_j t + (match t_pc t with T_unlock => 1 | _ => 0 end).

Definition t_ok (loops g : Z) (t : thread) : Prop :=
  0 <= t_j t /\
  match t_pc t with
  | T_loop => t_j t <= loops
  | T_end => t_j t = loops
  | T_incr => t_j t < loops /\ t_loc t = g
  | T_store => t_j t < loops /\ t_loc t = g + 1 /\ t_loc t <= INT_MAX
  | _ => t_j t < loops
  end.

Definition lock_ok `{LockLaws L} (l : L) (ths : list thread) : Prop :=
  exists o, held l o /\ (forall k u, ths !! k = Some u -> critical (t_pc u) = true <-> o = Some k) /\ (forall k, o = Some k -> is_Some (ths !! k)).

Definition created (pc : mpc) : nat := match pc with M_init | M_create1 => 0 | M_create2 => 1 | _ => 2 end.

Record inv `{LockLaws L} (loops : Z) (s : state L) : Prop := {
  v_created : length (threads s) = created (m_pc s);
  v_glob : glob s = total stored (threads s) /\ glob s <= INT_MAX;
  v_threads : Forall (t_ok loops (glob s)) (threads s);
  v_lock : match lock s with None => m_pc s = M_init | Some l => lock_ok l (threads s) end;
  v_joined : match m_pc s with M_join2 => ended 0 s = true | M_print | M_done => ended 0 s = true /\ ended 1 s = true | _ => True end;
  v_printed : printed s = match m_pc s with M_done => Some (2 * loops) | _ => None end;
  v_status : match st_status s with Running => True | Exited c => c = EXIT_SUCCESS -> m_pc s = M_done | Crashed => INT_MAX < 2 * loops end
}.

Section Guarded.
Context `{LockLaws L} (loops : Z) (Hpos : 0 < loops).

Lemma lock_ok_same (l : L) ths i t t' : lock_ok l ths -> ths !! i = Some t -> critical (t_pc t') = critical (t_pc t) -> lock_ok l (<[i := t']> ths).
Proof.
  intros (o & Hh & Hc & Ho) Hi E. exists o. split; [done|]. split.
  - intros k u Hk. destruct (decide (k = i)) as [->|Hne].
    + rewrite list_lookup_insert_eq in Hk by by eapply lookup_lt_Some. injection Hk as <-. rewrite E. by apply Hc.
    + rewrite list_lookup_insert_ne in Hk by done. by apply Hc.
  - intros k Hk. destruct (Ho k Hk) as [x Hx]. apply lookup_lt_is_Some. rewrite length_insert. by eapply lookup_lt_Some.
Qed.

Lemma lock_ok_acquire (l l' : L) ths i t t' :
  lock_ok l ths -> acquire i l = Some l' -> ths !! i = Some t -> critical (t_pc t') = true -> lock_ok l' (<[i := t']> ths).
Proof.
  intros (o & Hh & Hc & Ho) Ha Hi Ht. destruct (held_acquire i l o l' Hh Ha) as [-> Hh']. exists (Some i). split; [done|]. split.
  - intros k u Hk. destruct (decide (k = i)) as [->|Hne].
    + rewrite list_lookup_insert_eq in Hk by by eapply lookup_lt_Some. injection Hk as <-. by rewrite Ht.
    + rewrite list_lookup_insert_ne in Hk by done. rewrite (Hc k u Hk). split; [done|congruence].
  - intros k [= <-]. apply lookup_lt_is_Some. rewrite length_insert. by eapply lookup_lt_Some.
Qed.

Lemma lock_ok_release (l : L) ths i t t' :
  lock_ok l ths -> ths !! i = Some t -> critical (t_pc t) = true -> critical (t_pc t') = false ->
  exists l', release i l = Some l' /\ lock_ok l' (<[i := t']> ths).
Proof.
  intros (o & Hh & Hc & Ho) Hi Ht Ht'. pose proof (proj1 (Hc i t Hi) Ht) as ->. destruct (held_release i l Hh) as (l' & E & Hh').
  exists l'. split; [done|]. exists None. split; [done|]. split; [|done].
  intros k u Hk. destruct (decide (k = i)) as [->|Hne].
  - rewrite list_lookup_insert_eq in Hk by by eapply lookup_lt_Some. injection Hk as <-. by rewrite Ht'.
  - rewrite list_lookup_insert_ne in Hk by done. rewrite (Hc k u Hk). split; [intros [= ?]; congruence|done].
Qed.

(** A critical thread is the only one. *)
Lemma lock_ok_alone (l : L) ths i t k u :
  lock_ok l ths -> ths !! i = Some t -> critical (t_pc t) = true -> ths !! k = Some u -> k <> i -> critical (t_pc u) = false.
Proof.
  intros (o & _ & Hc & _) Hi Ht Hk Hne. pose proof (proj1 (Hc i t Hi) Ht) as ->. destruct (critical (t_pc u)) eqn:E; [|done].
  pose proof (proj1 (Hc k u Hk) E). congruence.
Qed.

Lemma t_ok_outside g g' t : t_ok loops g t -> critical (t_pc t) = false -> t_ok loops g' t.
Proof. unfold t_ok. destruct (t_pc t); done. Qed.

Lemma has_lock (s : state L) i t : inv loops s -> threads s !! i = Some t -> exists l, lock s = Some l /\ lock_ok l (threads s).
Proof.
  intros Hi Ht. pose proof (v_lock _ _ Hi) as Hl. destruct (lock s) as [l|]; [by exists l|].
  pose proof (v_created _ _ Hi) as Hc. rewrite Hl in Hc. destruct (threads s); [by destruct i|done].
Qed.

Lemma ended_insert (s : state L) k i t t' g (l : option L) pc pr st :
  threads s !! i = Some t -> t_pc t <> T_end -> ended k s = true -> ended k (mk_state g l (<[i := t']> (threads s)) pc pr st) = true.
Proof.
  intros Hi Ht. unfold ended. cbn. destruct (decide (k = i)) as [->|Hne]; [|by rewrite list_lookup_insert_ne].
  rewrite Hi. by destruct (t_pc t).
Qed.

(** A thread moves. *)
Lemma moves (s : state L) i t t' g (l : L) :
  inv loops s -> threads s !! i = Some t -> t_pc t <> T_end -> t_ok loops g t' ->
  (g = glob s \/ critical (t_pc t) = true) -> g - glob s = stored t' - stored t -> g <= INT_MAX -> lock_ok l (<[i := t']> (threads s)) ->
  inv loops (mk_state g (Some l) (<[i := t']> (threads s)) (m_pc s) (printed s) (st_status s)).
Proof.
  intros Hi Ht Hne Hok Hg Hd Hmax Hl. destruct (has_lock s i t Hi Ht) as (l0 & _ & Hl0). destruct Hi as [Hcr [Hgl Hm] Hth _ Hj Hpr Hst]. split; cbn; try done.
  - by rewrite length_insert.
  - split; [|done]. rewrite (total_insert _ _ _ _ _ Ht). lia.
  - apply Forall_lookup. intros k u Hk. destruct (decide (k = i)) as [->|Hki].
    + rewrite list_lookup_insert_eq in Hk by by eapply lookup_lt_Some. by injection Hk as <-.
    + rewrite list_lookup_insert_ne in Hk by done. pose proof (proj1 (Forall_lookup _ _) Hth k u Hk) as Hu.
      destruct Hg as [->|Hc]; [done|]. eapply t_ok_outside; [done|]. exact (lock_ok_alone l0 _ i t k u Hl0 Ht Hc Hk Hki).
  - destruct (m_pc s); try done; [by eapply ended_insert| |]; (split; eapply ended_insert; naive_solver).
Qed.

Lemma crash_ok (s : state L) : inv loops s -> INT_MAX < 2 * loops -> inv loops (crash s).
Proof. intros [] Hm. split; try done. Qed.

Lemma stored_le g t : t_ok loops g t -> 0 <= stored t <= loops.
Proof. unfold t_ok, stored. destruct (t_pc t); lia. Qed.

(** The sum when a thread has not finished. *)
Lemma glob_below (s : state L) i t : inv loops s -> threads s !! i = Some t -> stored t < loops -> glob s < 2 * loops.
Proof.
  intros Hi Ht Hlt. destruct (v_glob _ _ Hi) as [Hg _]. pose proof (v_created _ _ Hi) as Hc. pose proof (v_threads _ _ Hi) as Hth.
  assert (created (m_pc s) <= 2)%nat as Hle by (destruct (m_pc s); cbn; lia). rewrite <- Hc in Hle. rewrite Hg. clear Hg Hc Hi.
  assert (forall k u, threads s !! k = Some u -> 0 <= stored u <= loops) as Hall by (intros k u Hk; eapply stored_le; exact (proj1 (Forall_lookup _ _) Hth k u Hk)).
  destruct (threads s) as [|a [|b [|]]]; cbn in Hle; [by destruct i| | |lia].
  - rewrite total_cons. change (total stored []) with 0. pose proof (Hall 0%nat a eq_refl). destruct i as [|[|]]; [|done|done]. injection Ht as <-. lia.
  - rewrite !total_cons. change (total stored []) with 0. pose proof (Hall 0%nat a eq_refl). pose proof (Hall 1%nat b eq_refl).
    destruct i as [|[|[|]]]; [| |done|done]; injection Ht as <-; lia.
Qed.

Ltac move_parts :=
  first [done | by left | by right | unfold t_ok, is_int in *; cbn; lia | unfold stored; cbn; lia | by eapply lock_ok_same | by eapply lock_ok_acquire].

Lemma guarded_keeps (s : state L) i t s' :
  inv loops s -> threads s !! i = Some t -> guarded_step loops i t s = Some s' -> inv loops s'.
Proof.
  intros Hi Ht Hs. destruct (has_lock s i t Hi Ht) as (l & El & Hl). pose proof (proj1 (Forall_lookup _ _) (v_threads _ _ Hi) i t Ht) as Hok.
  destruct (v_glob _ _ Hi) as [_ Hmax]. destruct t as [pc j loc]. unfold guarded_step, increment in Hs. unfold t_ok in Hok. cbn in Hs, Hok. rewrite ?El in Hs. destruct pc.
  - injection Hs as <-. unfold goto, set_threads. rewrite El. destruct (Z.ltb_spec j loops); apply (moves s i (mk_thread T_loop j loc)); move_parts.
  - destruct (acquire i l) as [l'|] eqn:Ea; [|done]. injection Hs as <-. apply (moves s i (mk_thread T_lock j loc)); move_parts.
  - injection Hs as <-. unfold goto, set_threads. rewrite El. apply (moves s i (mk_thread T_load j loc)); move_parts.
  - destruct Hok as (Hj & Hlt & ->). pose proof (glob_below s i _ Hi Ht) as Hb. unfold stored in Hb. cbn in Hb.
    assert (0 <= glob s) as Hnn.
    { destruct (v_glob _ _ Hi) as [-> _]. apply total_nonneg. eapply Forall_impl; [exact (v_threads _ _ Hi)|]. intros u Hu. by apply (stored_le _ u Hu). }
    unfold iadd in Hs. destruct (decide _) as [Hd|Hd] in Hs; injection Hs as <-.
    + unfold goto, set_threads. rewrite El. apply (moves s i (mk_thread T_incr j (glob s))); move_parts.
    + apply crash_ok; [done|]. unfold is_int, INT_MIN in Hd. lia.
  - destruct Hok as (Hj & Hlt & -> & Hloc). injection Hs as <-. unfold goto, set_threads, set_glob. cbn. rewrite El. apply (moves s i (mk_thread T_store j (glob s + 1))); move_parts.
  - destruct (lock_ok_release l _ i _ (mk_thread T_loop (j + 1) loc) Hl Ht eq_refl eq_refl) as (l' & Er & Hl'). cbn in Hs. rewrite Er in Hs. injection Hs as <-.
    apply (moves s i (mk_thread T_unlock j loc)); move_parts.
  - done.
Qed.

Lemma new_lock_ok : lock_ok (new_lock : L) [].
Proof. exists None. split; [apply held_new|]. split; [by intros k u Hk; destruct k|done]. Qed.

Lemma lock_ok_create (l : L) ths : lock_ok l ths -> lock_ok l (ths ++ [new_thread]).
Proof.
  intros (o & Hh & Hc & Ho). exists o. split; [done|]. split.
  - intros k u Hk. apply lookup_snoc_Some in Hk as [[_ Hk]|[-> <-]]; [by apply Hc|]. cbn. split; [done|]. intros ->.
    destruct (Ho _ eq_refl) as [x Hx]. apply lookup_lt_Some in Hx. lia.
  - intros k Hk. destruct (Ho k Hk) as [x Hx]. exists x. by apply lookup_app_l_Some.
Qed.

(** [main] makes a thread. *)
Lemma create_keeps (s : state L) pc :
  inv loops s -> st_status s = Running -> m_pc s <> M_init -> created pc = S (created (m_pc s)) ->
  match pc with M_create2 | M_join1 => True | _ => False end -> printed s = None ->
  inv loops (set_m_pc pc (set_threads (threads s ++ [new_thread]) s)).
Proof.
  intros [Hcr [Hgl Hm] Hth Hl Hj Hpr Hst] Hr Hni Hc Hpc Hp. split; cbn.
  - rewrite length_app, Hcr, Hc. cbn. lia.
  - split; [|done]. rewrite total_snoc. unfold stored at 2. cbn. lia.
  - apply Forall_app. split; [done|]. constructor; [|constructor]. unfold t_ok. cbn. lia.
  - destruct (lock s); [by apply lock_ok_create|done].
  - by destruct pc.
  - rewrite Hp. by destruct pc.
  - by rewrite Hr.
Qed.

(** All the increments were stored when both threads have ended. *)
Lemma ended_stored (s : state L) : inv loops s -> ended 0 s = true -> ended 1 s = true -> created (m_pc s) = 2%nat -> glob s = 2 * loops.
Proof.
  intros [Hcr [Hgl _] Hth _ _ _ _] He0 He1 Hc. rewrite Hc in Hcr. rewrite Hgl. unfold ended in *.
  destruct (threads s) as [|[pa ja la] [|[pb jb lb] [|]]]; try done. cbn in *. apply Forall_cons in Hth as [Ha Hth]. apply Forall_cons in Hth as [Hb _].
  unfold t_ok in *. cbn in *. destruct pa; try done. destruct pb; try done. rewrite !total_cons. unfold stored. cbn. change (total _ []) with 0. lia.
Qed.

Lemma guarded_main_keeps (s s' : state L) : inv loops s -> st_status s = Running -> main_step (Some new_lock) s = Some s' -> inv loops s'.
Proof.
  intros Hi Hr Hs. unfold main_step in Hs. pose proof (v_printed _ _ Hi) as Hp. destruct (m_pc s) eqn:Hpc.
  - injection Hs as <-. destruct Hi as [Hcr Hgl Hth Hl Hj _ Hst]. rewrite Hpc in *. cbn in Hcr. split; cbn; try done.
    + apply nil_length_inv in Hcr. rewrite Hcr. apply new_lock_ok.
    + by rewrite Hr.
  - injection Hs as <-. apply create_keeps; try done; by rewrite Hpc.
  - injection Hs as <-. apply create_keeps; try done; by rewrite Hpc.
  - destruct (ended 0 s) eqn:E; [|done]. injection Hs as <-. destruct Hi as [Hcr Hgl Hth Hl Hj _ Hst]. rewrite Hpc in *. split; cbn; try done; [by destruct (lock s)|by rewrite Hr].
  - destruct (ended 1 s) eqn:E; [|done]. injection Hs as <-. destruct Hi as [Hcr Hgl Hth Hl Hj _ Hst]. rewrite Hpc in *. split; cbn; try done; [by destruct (lock s)|by rewrite Hr].
  - injection Hs as <-. pose proof (v_joined _ _ Hi) as Hj. rewrite Hpc in Hj. destruct Hj as [He0 He1]. pose proof (ended_stored s Hi He0 He1) as Hg. rewrite Hpc in Hg. specialize (Hg eq_refl).
    destruct Hi as [Hcr Hgl Hth Hl Hj _ Hst]. rewrite Hpc in *. split; cbn; try done; [by destruct (lock s)|by rewrite Hg|by rewrite Hr].
  - injection Hs as <-. destruct Hi as [Hcr Hgl Hth Hl Hj _ Hst]. split; cbn; try done; by rewrite Hpc.
Qed.

Lemma guarded_fine_keeps (s s' : state L) : inv loops s -> guarded_fine L loops s s' -> inv loops s'.
Proof. intros Hi Hs. destruct Hs as [s s' Hr Hm|i t s s' Hr Ht Hm]; [by eapply guarded_main_keeps|by eapply guarded_keeps]. Qed.

Lemma guarded_run_keeps (s s' : state L) : rtc (guarded L loops) s s' -> inv loops s -> inv loops s'.
Proof.
  induction 1 as [|s1 s2 s3 Hs _ IH]; [done|]. intros Hi. apply IH. destruct Hs as [s1 s2 Hs|s1 Hr]; [by eapply guarded_fine_keeps|].
  destruct Hi. split; try done.
Qed.

Lemma guarded_start_inv : inv loops (guarded_start L).
Proof.
  unfold guarded_start. destruct static_lock; split; cbn; done || (by apply new_lock_ok) || (by constructor).
Qed.

(** ** Progress *)

(** How many steps there may still be. *)
Definition t_left (t : thread) : Z :=
  6 * (loops - t_j t) + match t_pc t with T_loop => 1 | T_lock => 0 | T_load => -1 | T_incr => -2 | T_store => -3 | T_unlock => -4 | T_end => 0 end.

Definition m_left (s : state L) : Z :=
  match st_status s with
  | Running =>
      match m_pc s with
      | M_init => 7 + 2 * (6 * loops + 1) | M_create1 => 6 + 2 * (6 * loops + 1) | M_create2 => 5 + (6 * loops + 1)
      | M_join1 => 4 | M_join2 => 3 | M_print => 2 | M_done => 1
      end
  | _ => 0
  end.

Definition steps_left (s : state L) : Z := total t_left (threads s) + m_left s.

Lemma left_nonneg (s : state L) : inv loops s -> 0 <= steps_left s.
Proof.
  intros Hi. unfold steps_left. assert (0 <= total t_left (threads s)).
  { apply total_nonneg. eapply Forall_impl; [exact (v_threads _ _ Hi)|]. intros t Ht. unfold t_ok, t_left in *. destruct (t_pc t); lia. }
  unfold m_left. destruct (st_status s); [|lia|lia]. destruct (m_pc s); lia.
Qed.

Lemma guarded_left (s : state L) i t s' :
  inv loops s -> st_status s = Running -> threads s !! i = Some t -> guarded_step loops i t s = Some s' -> steps_left s' < steps_left s.
Proof.
  intros Hi Hr Ht Hs. pose proof (proj1 (Forall_lookup _ _) (v_threads _ _ Hi) i t Ht) as Hok.
  assert (forall t' g l, t_left t' < t_left t -> steps_left (mk_state g l (<[i := t']> (threads s)) (m_pc s) (printed s) (st_status s)) < steps_left s) as Hgo.
  { intros t' g l Hl. unfold steps_left, m_left. cbn. rewrite (total_insert _ _ _ _ _ Ht). lia. }
  assert (steps_left (crash s) < steps_left s) as Hcrash by (unfold steps_left, m_left; cbn; rewrite Hr; destruct (m_pc s); lia).
  destruct t as [pc j loc]. unfold guarded_step, increment in Hs. unfold t_ok in Hok. cbn in Hs, Hok.
  destruct pc; repeat case_match; simplify_eq; try exact Hcrash; apply Hgo; unfold t_left; cbn; repeat case_match; try lia.
Qed.

Lemma guarded_main_left (s s' : state L) : st_status s = Running -> main_step (Some new_lock) s = Some s' -> steps_left s' < steps_left s.
Proof.
  intros Hr Hs. unfold main_step in Hs. unfold steps_left, m_left. destruct (m_pc s); repeat case_match; simplify_eq; cbn in *; rewrite ?Hr, ?total_snoc; change (t_left new_thread) with (6 * (loops - 0) + 1); lia.
Qed.

(** A thread that has not ended can go on, or the one that holds the lock can. *)
Lemma thread_goes (s : state L) i t : inv loops s -> st_status s = Running -> threads s !! i = Some t -> t_pc t <> T_end -> exists s', guarded_fine L loops s s'.
Proof.
  intros Hi Hr Ht Hne. destruct (has_lock s i t Hi Ht) as (l & El & o & Hh & Hc & Ho).
  assert (forall k u, threads s !! k = Some u -> is_Some (guarded_step loops k u s) -> exists s', guarded_fine L loops s s') as Hgo by (intros k u Hk [s' Hs']; exists s'; by eapply step_thread).
  assert (forall k u, threads s !! k = Some u -> critical (t_pc u) = true -> exists s', guarded_fine L loops s s') as Hcr.
  { intros k u Hk Hu. apply (Hgo k u Hk). unfold guarded_step, increment. destruct (t_pc u); try done; by eexists. }
  destruct (t_pc t) eqn:Hpc; try (apply (Hcr i t Ht); by rewrite Hpc).
  - apply (Hgo i t Ht). unfold guarded_step. rewrite Hpc. by eexists.
  - destruct o as [k|].
    + destruct (Ho k eq_refl) as [u Hu]. apply (Hcr k u Hu). by apply (Hc k u Hu).
    + destruct (held_free i l Hh) as [l' Hl']. apply (Hgo i t Ht). unfold guarded_step. rewrite Hpc, El, Hl'. by eexists.
Qed.

Lemma guarded_goes (s : state L) : inv loops s -> st_status s = Running -> exists s', guarded_fine L loops s s'.
Proof.
  intros Hi Hr. assert (is_Some (main_step (Some new_lock) s) -> exists s', guarded_fine L loops s s') as Hm by (intros [s' Hs']; exists s'; by apply step_main).
  assert (forall k, (k < length (threads s))%nat -> ended k s = true \/ exists s', guarded_fine L loops s s') as Ht.
  { intros k [t Hk]%lookup_lt_is_Some. destruct (decide (t_pc t = T_end)) as [E|E]; [left; unfold ended; by rewrite Hk, E|right]. by eapply thread_goes. }
  pose proof (v_created _ _ Hi) as Hc. unfold main_step in Hm. destruct (m_pc s); try (apply Hm; by eexists).
  - destruct (Ht 0%nat) as [E|E]; [rewrite Hc; cbn; lia| |done]. apply Hm. rewrite E. by eexists.
  - destruct (Ht 1%nat) as [E|E]; [rewrite Hc; cbn; lia| |done]. apply Hm. rewrite E. by eexists.
Qed.

Lemma guarded_fine_status (s s' : state L) : guarded_fine L loops s s' -> st_status s' = Running \/ st_status s' = Exited EXIT_SUCCESS \/ st_status s' = Crashed.
Proof.
  intros Hs. destruct Hs as [s s' Hr Hm|i t s s' Hr Ht Hm].
  - unfold main_step in Hm. repeat case_match; simplify_eq/=; auto.
  - unfold guarded_step, increment in Hm. repeat case_match; simplify_eq/=; auto.
Qed.

Definition fine (st : status) : Prop := st = Running \/ st = Exited EXIT_SUCCESS \/ st = Crashed.

Lemma guarded_runs n (s s' : state L) :
  nsteps (guarded_fine L loops) n s s' -> inv loops s -> fine (st_status s) -> inv loops s' /\ fine (st_status s') /\ Z.of_nat n + steps_left s' <= steps_left s.
Proof.
  induction 1 as [s|n s1 s2 s3 Hs _ IH]; intros Hi Hst; [split; [done|]; split; [done|lia]|].
  pose proof (guarded_fine_keeps _ _ Hi Hs) as Hi2. destruct (IH Hi2 (guarded_fine_status _ _ Hs)) as (Hi3 & Hst3 & Hl).
  split; [done|]. split; [done|]. assert (steps_left s2 < steps_left s1); [|lia].
  destruct Hs as [s s' Hr Hm|i t s s' Hr Ht Hm]; [by apply guarded_main_left|by eapply guarded_left].
Qed.
End Guarded.

(** ** The programs *)

(** What is printed, in every interleaving and whichever calls fail. *)
Definition exact `{Lock L} (program : Z -> state L -> state L -> Prop) (loops : Z) : Prop := forall s, rtc (program loops) (guarded_start L) s ->
  (forall i t k u, threads s !! i = Some t -> threads s !! k = Some u -> critical (t_pc t) = true -> critical (t_pc u) = true -> i = k) /\
  (printed s = None \/ printed s = Some (2 * loops)) /\
  (st_status s = Exited EXIT_SUCCESS -> printed s = Some (2 * loops)) /\
  (st_status s = Crashed -> INT_MAX < 2 * loops).

(** There is a next step until the program has ended, in a bounded number of steps. *)
Definition finishes (L : Type) `{Lock L} (loops : Z) : Prop := forall n s, nsteps (guarded_fine L loops) n (guarded_start L) s ->
  Z.of_nat n <= 12 * loops + 9 /\ (st_status s = Exited EXIT_SUCCESS \/ st_status s = Crashed \/ exists s', guarded_fine L loops s s').

Lemma laws_exact `{LockLaws L} loops : 0 < loops -> exact (guarded L) loops.
Proof.
  intros Hpos s Hs. pose proof (guarded_run_keeps loops Hpos _ _ Hs (guarded_start_inv loops)) as Hi. split; [|split; [|split]].
  - intros i t k u Ht Hu Hct Hcu. destruct (has_lock loops s i t Hi Ht) as (l & _ & Hl). destruct (decide (k = i)) as [->|Hne]; [done|].
    pose proof (lock_ok_alone l _ i t k u Hl Ht Hct Hu Hne). congruence.
  - rewrite (v_printed _ _ Hi). destruct (m_pc s); auto.
  - intros E. pose proof (v_status _ _ Hi) as Hst. rewrite E in Hst. by rewrite (v_printed _ _ Hi), (Hst eq_refl).
  - intros E. pose proof (v_status _ _ Hi) as Hst. by rewrite E in Hst.
Qed.

Lemma laws_finish `{LockLaws L} loops : 0 < loops -> finishes L loops.
Proof.
  intros Hpos n s Hs. pose proof (guarded_start_inv loops) as Hi0.
  destruct (guarded_runs loops Hpos n _ _ Hs Hi0) as (Hi & Hst & Hl); [left; unfold guarded_start; by destruct static_lock|]. split.
  - pose proof (left_nonneg loops Hpos s Hi). assert (steps_left loops (guarded_start L) <= 12 * loops + 9); [|lia].
    unfold steps_left, guarded_start, m_left. destruct static_lock; cbn; change (total _ []) with 0; lia.
  - destruct Hst as [Hst|[Hst|Hst]]; [|by left|by right; left]. right. right. by apply guarded_goes.
Qed.

(** C12: with a mutex, a spin lock, a read-write lock or a semaphore, in every interleaving
    and whichever calls fail, the two threads are never both between the calls of the lock,
    and what is printed is twice the number of turns; only a sum that is not an int
    overflows. *)
Theorem guarded_exact arg p k loops w :
  run (num_loops arg) (p, k) = (Ret loops, w) ->
  exact thread_incr_mutex loops /\ exact thread_incr_spinlock loops /\ exact thread_incr_rwlock loops /\ exact thread_incr_psem loops.
Proof. intros Hn. destruct (num_loops_range _ _ _ _ _ Hn) as [Hpos _]. split; [|split; [|split]]; by apply laws_exact. Qed.

(** With each of the four locks, while no call fails, some thread has a step until the
    program has ended, after at most 12 steps for each turn and 9 more. *)
Theorem guarded_finishes arg p k loops w :
  run (num_loops arg) (p, k) = (Ret loops, w) -> finishes mutex loops /\ finishes spinlock loops /\ finishes rwlock loops /\ finishes sem loops.
Proof. intros Hn. destruct (num_loops_range _ _ _ _ _ Hn) as [Hpos _]. split; [|split; [|split]]; by apply laws_finish. Qed.

Lemma guarded_exact_witness : exact thread_incr_mutex 3 /\ exact thread_incr_spinlock 3 /\ exact thread_incr_rwlock 3 /\ exact thread_incr_psem 3.
Proof. exact (guarded_exact (Some (lit "3")) no_proc no_kern 3 _ eq_refl). Defined.

Lemma guarded_finishes_witness : finishes mutex 10000000 /\ finishes spinlock 10000000 /\ finishes rwlock 10000000 /\ finishes sem 10000000.
Proof. exact (guarded_finishes None no_proc no_kern 10000000 _ eq_refl). Defined.
