(* ===== verification/IncrRace.v ===== *)
(** * tlpi/tlpi-dist/threads: updates are lost without a lock

    Exactly which numbers thread_incr.c can print. *)

From stdpp Require Import prelude list_numbers strings relations.
From Stdlib Require Import ZArith Lia.
From S2P Require Import Prelude CLib Vfs TlpiLib Incr IncrSafe.
Open Scope Z_scope.
Set Warnings "-clear-no-such-hyp".

(** ** What every interleaving keeps *)

(** [sum] is the number of stores so far.  What a thread has read is at least 1 when it
    has stored before. *)
Definition r_ok (loops sum : Z) (t : thread) : Prop :=
  0 <= t_j t /\
  match t_pc t with
  | T_loop => t_j t <= loops
  | T_end => t_j t = loops
  | T_load => t_j t < loops
  | T_incr => t_j t < loops /\ Z.min 1 (t_j t) <= t_loc t <= sum
  | T_store => t_j t < loops /\ Z.min 2 (t_j t + 1) <= t_loc t <= sum + 1
  | T_lock | T_unlock => False
  end.

(** The counter is at most the number of stores, and at least two when the last store was
    not the first of its thread. *)
Definition counts (g : Z) (ths : list thread) : Prop :=
  0 <= g <= total t_j ths /\ (total t_j ths = 0 \/ exists i t, ths !! i = Some t /\ 1 <= t_j t /\ Z.min 2 (t_j t) <= g).

Record race (loops : Z) (s : state unit) : Prop := {
  r_created : length (threads s) = created (m_pc s) /\ m_pc s <> M_init;
  r_counts : counts (glob s) (threads s);
  r_threads : Forall (r_ok loops (total t_j (threads s))) (threads s);
  r_joined : match m_pc s with M_join2 => ended 0 s = true | M_print | M_done => ended 0 s = true /\ ended 1 s = true | _ => True end;
  r_printed : match m_pc s with M_done => exists v, printed s = Some v /\ Z.min 2 loops <= v <= 2 * loops | _ => printed s = None end;
  r_status : st_status s = Crashed -> INT_MAX < 2 * loops
}.

Section Race.
Context (loops : Z) (Hpos : 0 < loops).

Lemma r_ok_later sum sum' t : sum <= sum' -> r_ok loops sum t -> r_ok loops sum' t.
Proof. unfold r_ok. destruct (t_pc t); lia. Qed.

Lemma r_ok_j sum t : r_ok loops sum t -> 0 <= t_j t <= loops.
Proof. unfold r_ok. destruct (t_pc t); lia. Qed.

Lemma race_sum s i t : race loops s -> threads s !! i = Some t -> t_j t <= total t_j (threads s) <= loops + t_j t.
Proof.
  intros Hi Ht. destruct (r_created _ _ Hi) as [Hc _]. pose proof (r_threads _ _ Hi) as Hth. set (S := total t_j (threads s)) in Hth at 1. clearbody S.
  assert (created (m_pc s) <= 2)%nat as Hle by (destruct (m_pc s); cbn; lia). rewrite <- Hc in Hle. clear Hc Hi.
  assert (forall k u, threads s !! k = Some u -> 0 <= t_j u <= loops) as Hall by (intros k u Hk; eapply r_ok_j; exact (proj1 (Forall_lookup _ _) Hth k u Hk)).
  destruct (threads s) as [|a [|b [|]]]; cbn in Hle; [by destruct i| | |lia].
  - rewrite total_cons. change (total t_j []) with 0. pose proof (Hall 0%nat a eq_refl). destruct i as [|[|]]; [|done|done]. injection Ht as <-. lia.
  - rewrite !total_cons. change (total t_j []) with 0. pose proof (Hall 0%nat a eq_refl). pose proof (Hall 1%nat b eq_refl).
    destruct i as [|[|[|]]]; [| |done|done]; injection Ht as <-; lia.
Qed.

(** The counter is at least 1 for a thread that has stored. *)
Lemma counts_low g ths i t : counts g ths -> Forall (fun t => 0 <= t_j t) ths -> ths !! i = Some t -> Z.min 1 (t_j t) <= g.
Proof.
  intros [Hg [Hz|(k & u & _ & Hu & Hl)]] Hall Hi; [|lia]. pose proof (total_lookup t_j ths i t Hall Hi). lia.
Qed.

(** A thread moves without a store, or with one. *)
Lemma race_moves s i t t' g :
  race loops s -> threads s !! i = Some t -> t_pc t <> T_end ->
  r_ok loops (total t_j (threads s) + t_j t' - t_j t) t' ->
  (g = glob s /\ t_j t' = t_j t \/ t_j t' = t_j t + 1 /\ Z.min 2 (t_j t') <= g <= total t_j (threads s) + 1) ->
  race loops (mk_state g (lock s) (<[i := t']> (threads s)) (m_pc s) (printed s) (st_status s)).
Proof.
  intros Hi Ht Hne Hok Hg. pose proof (race_sum s i t Hi Ht) as Hsum. destruct Hi as [[Hcr Hni] [Hgl Hlo] Hth Hj Hpr Hst].
  pose proof (proj1 (Forall_lookup _ _) Hth i t Ht) as Hokt. pose proof (r_ok_j _ _ Hokt).
  assert (total t_j (<[i := t']> (threads s)) = total t_j (threads s) + t_j t' - t_j t) as E by (rewrite (total_insert _ _ _ _ _ Ht); lia).
  split; cbn; try done.
  - by rewrite length_insert.
  - unfold counts. rewrite E. split; [lia|]. destruct Hg as [[-> Ej]|[Ej Hg]].
    + destruct Hlo as [Hz|(k & u & Hk & Hu & Hl)]; [left; lia|right]. destruct (decide (k = i)) as [->|Hki].
      * exists i, t'. rewrite list_lookup_insert_eq by by eapply lookup_lt_Some. replace u with t in * by congruence. rewrite Ej. done.
      * exists k, u. by rewrite list_lookup_insert_ne.
    + right. exists i, t'. rewrite list_lookup_insert_eq by by eapply lookup_lt_Some. split; [done|]. lia.
  - apply Forall_insert; [|by rewrite E]. eapply Forall_impl; [exact Hth|]. intros u. apply r_ok_later. rewrite E. lia.
  - destruct (m_pc s); try done; [by eapply ended_insert|destruct Hj; split; by eapply ended_insert|destruct Hj; split; by eapply ended_insert].
Qed.

Ltac race_parts := first [done | by left | unfold r_ok in *; cbn; lia | right; cbn; lia].

Lemma plain_keeps s i t s' : race loops s -> threads s !! i = Some t -> plain_step loops i t s = Some s' -> race loops s'.
Proof.
  intros Hi Ht Hs. pose proof (race_sum s i t Hi Ht) as Hsum. pose proof (proj1 (Forall_lookup _ _) (r_threads _ _ Hi) i t Ht) as Hok.
  assert (Z.min 1 (t_j t) <= glob s) as Hlow.
  { eapply counts_low; [apply Hi| |done]. eapply Forall_impl; [exact (r_threads _ _ Hi)|]. intros u Hu. by apply (r_ok_j _ u Hu). }
  destruct (r_counts _ _ Hi) as [Hgl _]. destruct t as [pc j loc]. unfold plain_step, increment in Hs. unfold r_ok in Hok. cbn in Hs, Hok, Hsum, Hlow. destruct pc; try done.
  - injection Hs as <-. destruct (Z.ltb_spec j loops); apply (race_moves s i (mk_thread T_loop j loc)); race_parts.
  - injection Hs as <-. apply (race_moves s i (mk_thread T_load j loc)); race_parts.
  - unfold iadd in Hs. destruct (decide _) as [Hd|Hd] in Hs; injection Hs as <-.
    + apply (race_moves s i (mk_thread T_incr j loc)); race_parts.
    + destruct Hi. split; try done. intros _. unfold is_int, INT_MIN in Hd. lia.
  - injection Hs as <-. apply (race_moves s i (mk_thread T_store j loc)); race_parts.
Qed.

Lemma race_create s pc :
  race loops s -> created pc = S (created (m_pc s)) -> match pc with M_create2 | M_join1 => True | _ => False end -> printed s = None ->
  race loops (set_m_pc pc (set_threads (threads s ++ [new_thread]) s)).
Proof.
  intros [[Hcr Hni] [Hgl Hlo] Hth Hj Hpr Hst] Hc Hpc Hp. assert (total t_j (threads s ++ [new_thread]) = total t_j (threads s)) as E by (rewrite total_snoc; cbn; lia).
  split; cbn; try done.
  - rewrite length_app, Hcr, Hc. cbn. split; [lia|]. by destruct pc.
  - unfold counts. rewrite E. split; [done|]. destruct Hlo as [Hz|(k & u & Hk & Hu)]; [by left|right]. exists k, u. split; [by apply lookup_app_l_Some|done].
  - rewrite E. apply Forall_app. split; [done|]. constructor; [|constructor]. unfold r_ok. cbn. lia.
  - by destruct pc.
  - rewrite Hp. by destruct pc.
Qed.

Lemma race_ended s : race loops s -> ended 0 s = true -> ended 1 s = true -> created (m_pc s) = 2%nat -> Z.min 2 loops <= glob s <= 2 * loops.
Proof.
  intros [[Hcr _] [Hgl Hlo] Hth _ _ _] H0 H1 Hc. rewrite Hc in Hcr. unfold ended in *.
  destruct (threads s) as [|[pa ja la] [|[pb jb lb] [|]]]; try done. cbn in *. apply Forall_cons in Hth as [Ha Hth]. apply Forall_cons in Hth as [Hb _].
  unfold r_ok in *. cbn in *. destruct pa; try done. destruct pb; try done. rewrite !total_cons in *. change (total _ []) with 0 in *. cbn in *.
  destruct Hlo as [Hz|(k & u & Hk & Hu & Hl)]; [lia|]. destruct k as [|[|k]]; [| |done]; injection Hk as <-; cbn in *; lia.
Qed.

Lemma race_main s s' : race loops s -> main_step None s = Some s' -> race loops s'.
Proof.
  intros Hi Hs. unfold main_step in Hs. pose proof (r_printed _ _ Hi) as Hp. pose proof (r_created _ _ Hi) as [_ Hni]. pose proof (r_joined _ _ Hi) as Hj. destruct (m_pc s) eqn:Hpc.
  - done.
  - injection Hs as <-. apply race_create; try done; by rewrite Hpc.
  - injection Hs as <-. apply race_create; try done; by rewrite Hpc.
  - destruct (ended 0 s) eqn:E; [|done]. injection Hs as <-. destruct Hi as [Hcr Hgl Hth _ _ Hst]. rewrite Hpc in *. by split; cbn; [destruct Hcr|..].
  - destruct (ended 1 s) eqn:E; [|done]. injection Hs as <-. destruct Hi as [Hcr Hgl Hth _ _ Hst]. rewrite Hpc in *. by split; cbn; [destruct Hcr|..].
  - injection Hs as <-. destruct Hj as [H0 H1]. pose proof (race_ended s Hi H0 H1) as Hg. rewrite Hpc in Hg. specialize (Hg eq_refl).
    destruct Hi as [Hcr Hgl Hth _ _ Hst]. rewrite Hpc in *. split; cbn; try done; [by destruct Hcr|by exists (glob s)].
  - injection Hs as <-. destruct Hi as [Hcr Hgl Hth _ _ Hst]. rewrite Hpc in *. split; cbn; try done; by rewrite Hpc.
Qed.

Lemma race_run s s' : rtc (thread_incr loops) s s' -> race loops s -> race loops s'.
Proof.
  induction 1 as [|s1 s2 s3 Hs _ IH]; [done|]. intros Hi. apply IH. destruct Hs as [s1 s2 Hs|s1 Hr].
  - destruct Hs as [s s' Hr Hm|i t s s' Hr Ht Hm]; [by eapply race_main|by eapply plain_keeps].
  - destruct Hi. by split.
Qed.

Lemma race_start : race loops plain_start.
Proof. split; cbn; try done. split; [done|by left]. Qed.

(** ** Schedules *)

(** The two threads run; with [b] the first is [x]. *)
Definition both (b : bool) (g : Z) (x y : thread) : state unit := mk_state g None (if b then [x; y] else [y; x]) M_join1 None Running.

Lemma both_sym b g x y : both b g x y = both (negb b) g y x.
Proof. by destruct b. Qed.

Lemma both_runs (b : bool) g x y x' g' :
  plain_step loops (if b then 0 else 1)%nat x (both b g x y) = Some (both b g' x' y) -> thread_incr loops (both b g x y) (both b g' x' y).
Proof. intros Hs. apply step_fine. eapply step_thread; [done| |exact Hs]. by destruct b. Qed.

Lemma run_test (b : bool) g j l y : j < loops -> thread_incr loops (both b g (mk_thread T_loop j l) y) (both b g (mk_thread T_load j l) y).
Proof. intros Hj. apply both_runs. unfold plain_step. cbn. rewrite (proj2 (Z.ltb_lt _ _)) by done. by destruct b. Qed.

Lemma run_load b g j l y : thread_incr loops (both b g (mk_thread T_load j l) y) (both b g (mk_thread T_incr j g) y).
Proof. apply both_runs. by destruct b. Qed.

Lemma run_store b g j l y : 0 <= l < INT_MAX ->
  rtc (thread_incr loops) (both b g (mk_thread T_incr j l) y) (both b (l + 1) (mk_thread T_loop (j + 1) (l + 1)) y).
Proof.
  intros Hl. eapply rtc_l; [apply (both_runs b g _ y (mk_thread T_store j (l + 1)) g)|apply rtc_once, both_runs].
  - unfold plain_step, increment, iadd. cbn. rewrite decide_True by (unfold is_int, INT_MIN in *; lia). by destruct b.
  - by destruct b.
Qed.

(** A thread that runs alone counts. *)
Lemma run_alone n : forall b g j l y, 0 <= g -> g + Z.of_nat n <= INT_MAX -> j + Z.of_nat n <= loops ->
  exists l', rtc (thread_incr loops) (both b g (mk_thread T_loop j l) y) (both b (g + Z.of_nat n) (mk_thread T_loop (j + Z.of_nat n) l') y).
Proof.
  induction n as [|n IH]; intros b g j l y Hg Hmax Hj.
  - exists l. rewrite !Z.add_0_r. done.
  - destruct (IH b (g + 1) (j + 1) (g + 1) y) as [l' Hl']; [lia|lia|lia|]. exists l'.
    replace (g + Z.of_nat (S n)) with (g + 1 + Z.of_nat n) by lia. replace (j + Z.of_nat (S n)) with (j + 1 + Z.of_nat n) by lia.
    eapply rtc_l; [apply run_test; lia|]. eapply rtc_l; [apply run_load|]. etrans; [apply run_store; lia|exact Hl'].
Qed.

Lemma run_end b g j l y : j = loops -> thread_incr loops (both b g (mk_thread T_loop j l) y) (both b g (mk_thread T_end j l) y).
Proof. intros ->. apply both_runs. unfold plain_step. cbn. rewrite (proj2 (Z.ltb_ge _ _)) by done. by destruct b. Qed.

Lemma both_start : rtc (thread_incr loops) plain_start (both true 0 new_thread new_thread).
Proof. do 2 (eapply rtc_l; [by apply step_fine, step_main|]). apply rtc_refl. Qed.

Lemma both_print b g l l' : exists s, rtc (thread_incr loops) (both b g (mk_thread T_loop loops l) (mk_thread T_loop loops l')) s /\ printed s = Some g /\ st_status s = Exited EXIT_SUCCESS.
Proof.
  eexists. split.
  - eapply rtc_l; [by apply run_end|]. rewrite both_sym. eapply rtc_l; [by apply run_end|]. rewrite both_sym, negb_involutive.
    do 4 (eapply rtc_l; [apply step_fine, step_main; [done|by destruct b]|]). apply rtc_refl.
  - by destruct b.
Qed.
Definition prints (v : Z) : Prop := exists s, rtc (thread_incr loops) plain_start s /\ st_status s = Exited EXIT_SUCCESS /\ printed s = Some v.

(** What a schedule of two threads at their last test prints. *)
Lemma prints_both (b : bool) g l l' : rtc (thread_incr loops) plain_start (both b g (mk_thread T_loop loops l) (mk_thread T_loop loops l')) -> prints g.
Proof. intros Hs. destruct (both_print b g l l') as (s & Hs' & Hp & Hx). exists s. split; [by etrans|done]. Qed.

Context (Hmax : 2 * loops <= INT_MAX).

(** The first thread has read the counter and waits, while the second counts to [d]. *)
Lemma first_waits d : 0 <= d <= loops ->
  exists l, rtc (thread_incr loops) plain_start (both true 1 (mk_thread T_loop 1 1) (mk_thread T_loop d l)).
Proof.
  intros Hd. destruct (run_alone (Z.to_nat d) false 0 0 0 (mk_thread T_incr 0 0)) as [l Hl]; [lia|lia|lia|].
  rewrite Z2Nat.id in Hl by lia. exists l. etrans; [apply both_start|]. eapply rtc_l; [by apply run_test|]. eapply rtc_l; [apply run_load|].
  rewrite (both_sym true). etrans; [exact Hl|]. rewrite both_sym. apply (run_store true d 0 0). unfold INT_MAX. lia.
Qed.

(** The first store undoes [d] of the second thread. *)
Lemma lose_some d : 0 <= d <= loops -> prints (2 * loops - d).
Proof.
  intros Hd. destruct (first_waits d Hd) as [l Hl]. destruct (run_alone (Z.to_nat (loops - 1)) true 1 1 1 (mk_thread T_loop d l)) as [l0 H0]; [lia|lia|lia|].
  destruct (run_alone (Z.to_nat (loops - d)) false loops d l (mk_thread T_loop loops l0)) as [l1 H1]; [lia|lia|lia|].
  rewrite !Z2Nat.id in H0 by lia. rewrite !Z2Nat.id in H1 by lia. replace (1 + (loops - 1)) with loops in H0 by lia.
  replace (d + (loops - d)) with loops in H1 by lia. replace (loops + (loops - d)) with (2 * loops - d) in H1 by lia.
  apply (prints_both false _ l1 l0). etrans; [exact Hl|]. etrans; [exact H0|]. rewrite both_sym. exact H1.
Qed.

(** And the second thread's last store undoes all of the first's but [k]. *)
Lemma lose_most k : 0 <= k <= loops - 1 -> prints (2 + k).
Proof.
  intros Hk. destruct (first_waits (loops - 1)) as [l Hl]; [lia|].
  destruct (run_alone (Z.to_nat (loops - 1 - k)) true 1 1 1 (mk_thread T_incr (loops - 1) 1)) as [l0 H0]; [lia|lia|lia|].
  destruct (run_alone (Z.to_nat k) true 2 (loops - k) l0 (mk_thread T_loop loops 2)) as [l1 H1]; [lia|lia|lia|].
  rewrite !Z2Nat.id in H0 by lia. rewrite !Z2Nat.id in H1 by lia.
  replace (1 + (loops - 1 - k)) with (loops - k) in H0 by lia. replace (loops - k + k) with loops in H1 by lia.
  apply (prints_both true _ l1 2). etrans; [exact Hl|]. rewrite both_sym. eapply rtc_l; [apply run_test; lia|]. eapply rtc_l; [apply run_load|].
  rewrite both_sym. etrans; [exact H0|]. rewrite both_sym.
  assert (rtc (thread_incr loops) (both false (loops - k) (mk_thread T_incr (loops - 1) 1) (mk_thread T_loop (loops - k) l0))
    (both false 2 (mk_thread T_loop loops 2) (mk_thread T_loop (loops - k) l0))) as Hst.
  { pose proof (run_store false (loops - k) (loops - 1) 1 (mk_thread T_loop (loops - k) l0)) as Hst. replace (loops - 1 + 1) with loops in Hst by lia. apply Hst. unfold INT_MAX. lia. }
  etrans; [exact Hst|]. rewrite both_sym. exact H1.
Qed.

Lemma prints_range v : Z.min 2 loops <= v <= 2 * loops -> prints v.
Proof.
  intros Hv. destruct (decide (loops <= v)) as [Hl|Hl].
  - replace v with (2 * loops - (2 * loops - v)) by lia. apply lose_some. lia.
  - replace v with (2 + (v - 2)) by lia. apply lose_most. lia.
Qed.
End Race.

(** C11: without a lock updates are lost, and it is known how many can be: the numbers
    that thread_incr.c prints, over all the interleavings, are those from 2 (from 1 with a
    single turn) to twice the number of turns, and nothing overflows. *)
Theorem thread_incr_prints arg p k loops w :
  run (num_loops arg) (p, k) = (Ret loops, w) -> 2 * loops <= INT_MAX ->
  (forall v, prints loops v <-> Z.min 2 loops <= v <= 2 * loops) /\
  (forall s, rtc (thread_incr loops) plain_start s -> st_status s <> Crashed).
Proof.
  intros Hn Hmax. destruct (num_loops_range _ _ _ _ _ Hn) as [Hpos _]. split.
  - intros v. split; [|by apply prints_range]. intros (s & Hs & _ & Hp). pose proof (race_run loops Hpos _ _ Hs (race_start loops)) as Hi.
    pose proof (r_printed _ _ Hi) as Hr. destruct (m_pc s); try congruence. destruct Hr as (v' & E & Hv). congruence.
  - intros s Hs Hc. pose proof (r_status _ _ (race_run loops Hpos _ _ Hs (race_start loops)) Hc). lia.
Qed.

(** Ten million turns each, and the counter is at two. *)
Lemma thread_incr_prints_witness : prints 10000000 2.
Proof.
  apply (proj1 (thread_incr_prints None no_proc no_kern 10000000 _ eq_refl ltac:(by vm_compute))). split; vm_compute; discriminate.
Defined.
