(* ===== verification/DtWorld.v ===== *)
(** * The world of inotify_dtree

    A file system seen as names of files, an inotify instance with its watches and
    its queue of events, after the manual page inotify(7), and what the operations
    on directories put into that queue. *)

From stdpp Require Import prelude list_numbers strings gmap.
From Stdlib Require Import ZArith Lia.
From S2P Require Import Prelude CLib Vfs.
Open Scope Z_scope.

(** ** Numbers of <sys/inotify.h> and <limits.h> *)

Definition IN_MOVED_FROM : Z := 64.
Definition IN_MOVED_TO : Z := 128.
Definition IN_CREATE : Z := 256.
Definition IN_DELETE_SELF : Z := 1024.
Definition IN_MOVE_SELF : Z := 2048.
Definition IN_UNMOUNT : Z := 8192.
Definition IN_Q_OVERFLOW : Z := 16384.
Definition IN_IGNORED : Z := 32768.
Definition IN_ONLYDIR : Z := 16777216.
Definition IN_ISDIR : Z := 1073741824.

Definition PATH_MAX : Z := 4096.
Definition NAME_MAX : Z := 255.
(** [sizeof(struct inotify_event)] *)
Definition EVENT_SIZE : Z := 16.

Definition EINTR : Z := 4.

(** ** Names *)

Definition path : Type := list Z.

(** [%s/%s] *)
Definition join (p n : path) : path := p ++ 47 :: n.

(** The name [q] is [p], or a name below it. *)
Definition below (p q : path) : bool :=
  bool_decide (take (length p) q = p) && match drop (length p) q with [] => true | c :: _ => c =? 47 end.

(** The name [q], below [p], when [p] is called [p']. *)
Definition rebase (p p' q : path) : path := p' ++ drop (length p) q.

(** ** Files and watches *)

Inductive kind := Dir | File.

#[export] Instance kind_eq_dec : EqDecision kind.
Proof. solve_decision. Defined.

Abbreviation files := (gmap path (Z * kind)).

(** [struct inotify_event]; [e_len] is the length of the padded name. *)
Record event := mk_event { e_wd : Z; e_mask : Z; e_cookie : Z; e_len : Z; e_name : list Z }.

Definition e_size (e : event) : Z := EVENT_SIZE + e_len e.

Definition sizes (l : list event) : Z := sumZ (map e_size l).

(** An inotify instance: each watched inode has one watch descriptor and a mask. *)
Record inst := mk_inst { i_watches : gmap Z (Z * Z); i_next : Z; i_queue : list event }.

(** The files, the instance and the descriptor that refers to it; the results of
    the calls that can fail, 0 for success, all of them when there are no more. *)
Record sysw := mk_sysw {
  s_files : files;
  s_next_ino : Z;
  s_cookie : Z;
  s_inst : option inst;
  s_fd : Z;
  s_script : list Z
}.

Definition set_s_files v k := mk_sysw v (s_next_ino k) (s_cookie k) (s_inst k) (s_fd k) (s_script k).
Definition set_s_next_ino v k := mk_sysw (s_files k) v (s_cookie k) (s_inst k) (s_fd k) (s_script k).
Definition set_s_cookie v k := mk_sysw (s_files k) (s_next_ino k) v (s_inst k) (s_fd k) (s_script k).
Definition set_s_inst v k := mk_sysw (s_files k) (s_next_ino k) (s_cookie k) v (s_fd k) (s_script k).
Definition set_s_script v k := mk_sysw (s_files k) (s_next_ino k) (s_cookie k) (s_inst k) (s_fd k) v.

Definition set_i_watches v i := mk_inst v (i_next i) (i_queue i).
Definition set_i_queue v i := mk_inst (i_watches i) (i_next i) v.

Definition is_dir (fs : files) (p : path) : Prop := exists ino, fs !! p = Some (ino, Dir).

(** The length of a name in an event: its bytes, a zero and padding. *)
Definition padded (n : list Z) : Z :=
  match n with [] => 0 | _ => 16 * ((Z.of_nat (length n) + 16) / 16) end.

(** *** The calls *)

(** inotify_add_watch: the watch descriptor, or an error number. *)
Definition sys_add_watch (p : path) (mask : Z) (k : sysw) : (Z + Z) * sysw :=
  match s_inst k with
  | None => (inl EBADF, k)
  | Some i =>
      match s_files k !! p with
      | Some (ino, Dir) =>
          match i_watches i !! ino with
          | Some (wd, _) => (inr wd, set_s_inst (Some (set_i_watches (<[ino := (wd, mask)]> (i_watches i)) i)) k)
          | None => (inr (i_next i), set_s_inst (Some (mk_inst (<[ino := (i_next i, mask)]> (i_watches i)) (i_next i + 1) (i_queue i))) k)
          end
      | Some (_, File) => (inl 20, k)
      | None => (inl ENOENT, k)
      end
  end.

Definition ignored (wd : Z) : event := mk_event wd IN_IGNORED 0 0 [].

(** The inode a watch descriptor is for. *)
Definition watched (wd : Z) (i : inst) : option Z :=
  fst <$> find (fun '(_, (wd', _)) => wd' =? wd) (map_to_list (i_watches i)).

(** inotify_rm_watch, which is followed by an event. *)
Definition sys_rm_watch (wd : Z) (k : sysw) : option Z * sysw :=
  match s_inst k with
  | None => (Some EBADF, k)
  | Some i =>
      match watched wd i with
      | Some ino => (None, set_s_inst (Some (mk_inst (delete ino (i_watches i)) (i_next i) (i_queue i ++ [ignored wd]))) k)
      | None => (Some EINVAL, k)
      end
  end.

(** The events at the front of the queue that fit into [n] bytes. *)
Fixpoint fitting (n : Z) (q : list event) : list event * list event :=
  match q with
  | [] => ([], [])
  | e :: q' => if (e_size e <=? n) then let '(a, b) := fitting (n - e_size e) q' in (e :: a, b) else ([], q)
  end.

(** ** What happens to directories *)

Definition emit (ino mask cookie : Z) (n : list Z) (i : inst) : inst :=
  match i_watches i !! ino with
  | Some (wd, m) => if flag m mask then set_i_queue (i_queue i ++ [mk_event wd mask cookie (padded n) n]) i else i
  | None => i
  end.

(** An event about a directory has [IN_ISDIR] besides. *)
Definition emit_entry (ino mask cookie : Z) (kd : kind) (n : list Z) (i : inst) : inst :=
  match i_watches i !! ino with
  | Some (wd, m) =>
      if flag m mask then
        set_i_queue (i_queue i ++ [mk_event wd (match kd with Dir => Z.lor mask IN_ISDIR | File => mask end) cookie (padded n) n]) i
      else i
  | None => i
  end.

(** The inode is gone, and its watch with it. *)
Definition emit_deleted (ino : Z) (i : inst) : inst :=
  match i_watches i !! ino with
  | Some (wd, m) =>
      let i := emit ino IN_DELETE_SELF 0 [] i in
      mk_inst (delete ino (i_watches i)) (i_next i) (i_queue i ++ [ignored wd])
  | None => i
  end.

(** What nftw visits: the name and all that is below it, in an order that is not
    specified within a directory. *)
Definition subtree (fs : files) (p : path) : list (path * kind) :=
  map (fun '(x, (_, kd)) => (x, kd)) (filter (fun xn => below p (fst xn) = true) (map_to_list fs)).

Class nftw_order := {
  walk : files -> path -> list (path * kind);
  walk_subtree : forall fs p, walk fs p ≡ₚ subtree fs p
}.

Definition on_inst (f : inst -> inst) (k : sysw) : sysw := set_s_inst (f <$> s_inst k) k.

(** Operations of other processes: something is created, removed or renamed. *)
Inductive fs_op :=
| Create (kd : kind) (p : path) (n : list Z)
| Remove (p : path) (n : list Z)
| Rename (p : path) (n : list Z) (q : path) (m : list Z).

(** The names after a renaming. *)
Definition renamed (old new : path) (fs : files) : files :=
  kmap (fun x => if below old x then rebase old new x else x) fs.

Definition name_ok (n : list Z) : Prop := n <> [] /\ ~ (47 ∈ n) /\ ~ (0 ∈ n) /\ Z.of_nat (length n) <= NAME_MAX.

(** One operation: it works on existing directories, a directory that is removed
    is empty, a new name is not used yet and not below the old one. *)
Inductive fs_step : fs_op -> sysw -> sysw -> Prop :=
| step_create kd p n pino k :
    s_files k !! p = Some (pino, Dir) -> name_ok n -> s_files k !! join p n = None ->
    fs_step (Create kd p n) k
      (on_inst (emit_entry pino IN_CREATE 0 kd n)
        (set_s_next_ino (s_next_ino k + 1) (set_s_files (<[join p n := (s_next_ino k, kd)]> (s_files k)) k)))
| step_remove p n ino kd k :
    s_files k !! join p n = Some (ino, kd) -> name_ok n ->
    (forall x, is_Some (s_files k !! x) -> (below (join p n) x) = true -> x = join p n) ->
    fs_step (Remove p n) k
      (on_inst (emit_deleted ino) (set_s_files (delete (join p n) (s_files k)) k))
| step_rename p n q m pino qino ino kd k :
    s_files k !! p = Some (pino, Dir) -> s_files k !! q = Some (qino, Dir) ->
    s_files k !! join p n = Some (ino, kd) -> s_files k !! join q m = None ->
    name_ok n -> name_ok m -> (below (join p n) q) = false ->
    fs_step (Rename p n q m) k
      (on_inst (fun i => emit ino IN_MOVE_SELF 0 [] (emit_entry qino IN_MOVED_TO (s_cookie k) kd m (emit_entry pino IN_MOVED_FROM (s_cookie k) kd n i)))
        (set_s_cookie (s_cookie k + 1) (set_s_files (renamed (join p n) (join q m) (s_files k)) k))).
