(* ===== verification/DtFiles.v ===== *)
(** * Names and trees

    The lemmas about names of files and about what operations do to a tree. *)

From stdpp Require Import prelude list_numbers strings gmap.
From Stdlib Require Import ZArith Lia.
From S2P Require Import Prelude CLib Vfs DtWorld.
Open Scope Z_scope.

(** ** Names *)

Lemma below_spec p q : below p q = true <-> exists r, q = p ++ r /\ (r = [] \/ exists n, r = 47 :: n).
Proof.
  unfold below. rewrite andb_true_iff, bool_decide_eq_true. split.
  - intros [E H]. exists (drop (length p) q). split; [rewrite <- E at 1; by rewrite take_drop|].
    destruct (drop (length p) q) as [|c r]; [by left|right]. apply Z.eqb_eq in H. subst c. by exists r.
  - intros (r & -> & H). rewrite take_app_length, drop_app_length. split; [done|]. by destruct H as [->|[n ->]].
Qed.

Lemma below_refl p : below p p = true.
Proof. apply below_spec. exists []. rewrite app_nil_r. split; [done|by left]. Qed.

Lemma below_join p n : below p (join p n) = true.
Proof. apply below_spec. exists (47 :: n). split; [done|right; by exists n]. Qed.

Lemma below_trans p q r : below p q = true -> below q r = true -> below p r = true.
Proof.
  rewrite !below_spec. intros (a & -> & Ha) (b & -> & Hb). exists (a ++ b). rewrite app_assoc. split; [done|].
  destruct Ha as [->|[n ->]]; [done|right]. by exists (n ++ b).
Qed.

Lemma below_length p q : below p q = true -> (length p <= length q)%nat.
Proof. rewrite below_spec. intros (r & -> & _). rewrite length_app. lia. Qed.

Lemma below_antisym p q : below p q = true -> below q p = true -> p = q.
Proof.
  rewrite !below_spec. intros (a & -> & _) (b & E & _). apply (f_equal length) in E. rewrite !length_app in E.
  destruct a; [by rewrite app_nil_r|cbn in E; lia].
Qed.

Lemma not_below_join p n : below (join p n) p = false.
Proof.
  destruct (below (join p n) p) eqn:E; [|done]. apply below_length in E. unfold join in E. rewrite length_app in E. cbn in E. lia.
Qed.

(** Two names above the same one. *)
Lemma below_linear a b z : below a z = true -> below b z = true -> below a b = true \/ below b a = true.
Proof.
  rewrite !below_spec. intros (u & -> & Hu) (v & E & Hv).
  apply app_eq_inv in E as [(k & -> & ->)|(k & -> & ->)]; [right|left]; exists k; (split; [done|]);
    destruct k as [|c k]; [by left| |by left|]; right; exists k; [destruct Hv as [E|[n E]]|destruct Hu as [E|[n E]]]; cbn in E; congruence.
Qed.

(** The name a file has in its directory has no slash. *)
Lemma below_join_inv r p n : below r (join p n) = true -> ~ (47 ∈ n) -> r = join p n \/ below r p = true.
Proof.
  intros H Hn. destruct (below_linear r p (join p n) H (below_join p n)) as [|Hp]; [by right|].
  apply below_spec in Hp as (u & -> & Hu). destruct Hu as [->|[x ->]]; [right; rewrite app_nil_r; apply below_refl|left].
  apply below_spec in H as (v & E & Hv). unfold join in *. rewrite <- app_assoc in E. apply app_inv_head in E.
  injection E as ->. destruct Hv as [->|[y ->]]; [by rewrite app_nil_r|]. destruct Hn. set_solver.
Qed.

Lemma join_inj p n p' n' : join p n = join p' n' -> ~ (47 ∈ n) -> ~ (47 ∈ n') -> p = p' /\ n = n'.
Proof.
  intros E Hn Hn'. assert (below p (join p' n') = true) as H1 by (rewrite <- E; apply below_join).
  assert (below p' (join p n) = true) as H2 by (rewrite E; apply below_join).
  apply below_join_inv in H1 as [H1|H1]; [| |done].
  { assert (length p = length p + S (length n))%nat; [|lia]. rewrite H1 at 1. rewrite <- E. unfold join. by rewrite length_app. }
  apply below_join_inv in H2 as [H2|H2]; [| |done].
  { assert (length p' = length p' + S (length n'))%nat; [|lia]. rewrite H2 at 1. rewrite E. unfold join. by rewrite length_app. }
  pose proof (below_antisym _ _ H1 H2) as ->. unfold join in E. apply app_inv_head in E. by injection E as ->.
Qed.

(** Every name below another one is a name in some directory there. *)
Lemma below_last p q : below p q = true -> q <> p -> exists q' n, q = join q' n /\ ~ (47 ∈ n) /\ below p q' = true.
Proof.
  rewrite below_spec. intros (r & -> & Hr) Hne. destruct Hr as [->|[x ->]]; [by rewrite app_nil_r in Hne|]. clear Hne.
  revert p. induction x as [x IH] using (induction_ltof1 _ (@length Z)). intros p.
  destruct (decide (47 ∈ x)) as [Hin|Hin].
  - apply list_elem_of_split in Hin as (a & b & ->). destruct (IH b ltac:(unfold ltof; rewrite length_app; cbn; lia) (p ++ 47 :: a)) as (q' & n & E & Hn & Hb).
    exists q', n. split; [|split; [done|]].
    + rewrite <- E, <- app_assoc. done.
    + eapply below_trans; [|exact Hb]. apply below_spec. exists (47 :: a). split; [done|right; by exists a].
  - exists p, x. split; [done|]. split; [done|apply below_refl].
Qed.

Lemma rebase_below p p' q : below p q = true -> below p' (rebase p p' q) = true.
Proof.
  rewrite !below_spec. intros (r & -> & H). exists r. unfold rebase. by rewrite drop_app_length.
Qed.

Lemma rebase_app p p' r : rebase p p' (p ++ r) = p' ++ r.
Proof. unfold rebase. by rewrite drop_app_length. Qed.

Lemma rebase_inv p p' q : below p' q = true -> exists x, below p x = true /\ rebase p p' x = q.
Proof.
  rewrite below_spec. intros (r & -> & H). exists (p ++ r). split; [apply below_spec; by exists r|apply rebase_app].
Qed.

Lemma rebase_inj p p' q1 q2 : below p q1 = true -> below p q2 = true -> rebase p p' q1 = rebase p p' q2 -> q1 = q2.
Proof.
  rewrite !below_spec. intros (r1 & -> & _) (r2 & -> & _). rewrite !rebase_app. intros E. apply app_inv_head in E. by subst.
Qed.

Lemma rebase_join p p' q n : below p q = true -> rebase p p' (join q n) = join (rebase p p' q) n.
Proof. rewrite below_spec. intros (r & -> & _). unfold join. rewrite <- app_assoc, !rebase_app, <- app_assoc. done. Qed.

(** ** Trees *)

(** Entries are in directories, directories have inodes of their own, and names
    are short enough. *)
Record files_ok (fs : files) (next : Z) : Prop := {
  f_parent : forall p n x, fs !! join p n = Some x -> ~ (47 ∈ n) -> is_dir fs p;
  f_inode : forall p q ino kd, fs !! p = Some (ino, Dir) -> fs !! q = Some (ino, kd) -> q = p;
  f_next : forall p ino kd, fs !! p = Some (ino, kd) -> ino < next;
  f_short : forall p x, fs !! p = Some x -> Z.of_nat (length p) < PATH_MAX
}.

(** There is nothing below a name that is not used, nor below a file. *)
Lemma nothing_below fs next p q :
  files_ok fs next -> ~ is_dir fs p -> below p q = true -> q <> p -> fs !! q = None.
Proof.
  intros Hok Hno. induction q as [q IH] using (induction_ltof1 _ (@length Z)). intros Hb Hne.
  destruct (fs !! q) as [x|] eqn:E; [exfalso|done]. destruct (below_last p q Hb Hne) as (q' & n & -> & Hn & Hb').
  destruct (f_parent _ _ Hok _ _ _ E Hn) as [ino Hd]. destruct (decide (q' = p)) as [->|Hne'].
  - apply Hno. by exists ino.
  - rewrite IH in Hd; [done| |done|done]. unfold ltof, join. rewrite length_app. cbn. lia.
Qed.

(** *** Renaming *)

Definition move (old new x : path) : path := if below old x then rebase old new x else x.

Lemma move_inj fs next old new x y :
  files_ok fs next -> fs !! new = None -> is_Some (fs !! x) -> is_Some (fs !! y) -> move old new x = move old new y -> x = y.
Proof.
  intros Hok Hnew Hx Hy E. assert (forall a b, is_Some (fs !! b) -> below old a = true -> rebase old new a = b -> False) as H.
  { intros a b [v Hb] Ha <-. destruct (decide (rebase old new a = new)) as [E'|Hne]; [congruence|].
    rewrite (nothing_below fs next new) in Hb; [done|done| |by apply rebase_below|done]. intros [ino Hd]. congruence. }
  unfold move in E. destruct (below old x) eqn:Ex, (below old y) eqn:Ey; [by eapply rebase_inj|exfalso..|done]; [by eapply H|].
  eapply H; [exact Hx|exact Ey|done].
Qed.

Lemma renamed_lookup fs next old new z v :
  files_ok fs next -> fs !! new = None ->
  renamed old new fs !! z = Some v <-> exists x, fs !! x = Some v /\ move old new x = z.
Proof.
  intros Hok Hnew. unfold renamed, kmap. etrans; [symmetry; apply (elem_of_list_to_map (M := gmap path))|].
  - rewrite <- list_fmap_compose. apply NoDup_fmap_2_strong; [|apply NoDup_map_to_list].
    intros [x v1] [y v2] Hx%elem_of_map_to_list Hy%elem_of_map_to_list E. cbn in E.
    assert (x = y) as -> by (by eapply move_inj). f_equal. congruence.
  - rewrite list_elem_of_fmap. split.
    + intros ([x v'] & [= -> ->] & Hx). exists x. by apply elem_of_map_to_list in Hx.
    + intros (x & Hx & <-). exists (x, v). split; [done|]. by apply elem_of_map_to_list.
Qed.
