(* ===== verification/DtCache.v ===== *)
(** * inotify_dtree: the cache of watches

    The state of inotify_dtree.c, its messages, its array of watched directories
    and the names of the roots it monitors. *)

From stdpp Require Import prelude list_numbers strings gmap.
From Stdlib Require Import ZArith Lia.
From S2P Require Import Prelude CLib Vfs TlpiLib DtWorld.
Open Scope Z_scope.

(** ** The state *)

(** The options; [None] for a file that is not given. *)
Record opts := mk_opts {
  verboseMask : Z;
  checkCache : bool;
  dumpCache : bool;
  readBufferSize : Z;
  stopFile : option path;
  abortOnCacheProblem : bool
}.

Record watch := mk_watch { wd : Z; wpath : path }.

(** [cacheSize] is the length of [wlCache], [numRootDirs] that of [rootDirPaths]. *)
Record dtree := mk_dt {
  opt : opts;
  logfp : option (list Z);
  inotifyReadCnt : Z;
  wlCache : list watch;
  rootDirPaths : list (option path);
  ignoreRootDirs : Z;
  dirCnt : Z;
  reinitCnt : Z;
  overflowCnt : Z;
  out : list Z;
  err : list Z;
  written : list (path * list Z);
  lines : list (list Z);
  sysk : sysw
}.

Definition set_opt v d := mk_dt v (logfp d) (inotifyReadCnt d) (wlCache d) (rootDirPaths d) (ignoreRootDirs d) (dirCnt d) (reinitCnt d) (overflowCnt d) (out d) (err d) (written d) (lines d) (sysk d).
Definition set_logfp v d := mk_dt (opt d) v (inotifyReadCnt d) (wlCache d) (rootDirPaths d) (ignoreRootDirs d) (dirCnt d) (reinitCnt d) (overflowCnt d) (out d) (err d) (written d) (lines d) (sysk d).
Definition set_inotifyReadCnt v d := mk_dt (opt d) (logfp d) v (wlCache d) (rootDirPaths d) (ignoreRootDirs d) (dirCnt d) (reinitCnt d) (overflowCnt d) (out d) (err d) (written d) (lines d) (sysk d).
Definition set_wlCache v d := mk_dt (opt d) (logfp d) (inotifyReadCnt d) v (rootDirPaths d) (ignoreRootDirs d) (dirCnt d) (reinitCnt d) (overflowCnt d) (out d) (err d) (written d) (lines d) (sysk d).
Definition set_rootDirPaths v d := mk_dt (opt d) (logfp d) (inotifyReadCnt d) (wlCache d) v (ignoreRootDirs d) (dirCnt d) (reinitCnt d) (overflowCnt d) (out d) (err d) (written d) (lines d) (sysk d).
Definition set_ignoreRootDirs v d := mk_dt (opt d) (logfp d) (inotifyReadCnt d) (wlCache d) (rootDirPaths d) v (dirCnt d) (reinitCnt d) (overflowCnt d) (out d) (err d) (written d) (lines d) (sysk d).
Definition set_dirCnt v d := mk_dt (opt d) (logfp d) (inotifyReadCnt d) (wlCache d) (rootDirPaths d) (ignoreRootDirs d) v (reinitCnt d) (overflowCnt d) (out d) (err d) (written d) (lines d) (sysk d).
Definition set_reinitCnt v d := mk_dt (opt d) (logfp d) (inotifyReadCnt d) (wlCache d) (rootDirPaths d) (ignoreRootDirs d) (dirCnt d) v (overflowCnt d) (out d) (err d) (written d) (lines d) (sysk d).
Definition set_overflowCnt v d := mk_dt (opt d) (logfp d) (inotifyReadCnt d) (wlCache d) (rootDirPaths d) (ignoreRootDirs d) (dirCnt d) (reinitCnt d) v (out d) (err d) (written d) (lines d) (sysk d).
Definition set_out v d := mk_dt (opt d) (logfp d) (inotifyReadCnt d) (wlCache d) (rootDirPaths d) (ignoreRootDirs d) (dirCnt d) (reinitCnt d) (overflowCnt d) v (err d) (written d) (lines d) (sysk d).
Definition set_err v d := mk_dt (opt d) (logfp d) (inotifyReadCnt d) (wlCache d) (rootDirPaths d) (ignoreRootDirs d) (dirCnt d) (reinitCnt d) (overflowCnt d) (out d) v (written d) (lines d) (sysk d).
Definition set_written v d := mk_dt (opt d) (logfp d) (inotifyReadCnt d) (wlCache d) (rootDirPaths d) (ignoreRootDirs d) (dirCnt d) (reinitCnt d) (overflowCnt d) (out d) (err d) v (lines d) (sysk d).
Definition set_lines v d := mk_dt (opt d) (logfp d) (inotifyReadCnt d) (wlCache d) (rootDirPaths d) (ignoreRootDirs d) (dirCnt d) (reinitCnt d) (overflowCnt d) (out d) (err d) (written d) v (sysk d).
Definition set_sysk v d := mk_dt (opt d) (logfp d) (inotifyReadCnt d) (wlCache d) (rootDirPaths d) (ignoreRootDirs d) (dirCnt d) (reinitCnt d) (overflowCnt d) (out d) (err d) (written d) (lines d) v.

Definition numRootDirs (d : dtree) : Z := Z.of_nat (length (rootDirPaths d)).

(** ** The library *)

Definition mwhen (c : bool) (m : M dtree unit) : M dtree unit := if c then m else ret tt.

Definition printf (t : list Z) : M dtree unit := modify (fun d => set_out (out d ++ t) d).
Definition eprintf (t : list Z) : M dtree unit := modify (fun d => set_err (err d ++ t) d).

(** [fprintf(logfp, ...)]; [logfp] must not be NULL. *)
Definition logprintf (t : list Z) : M dtree unit :=
  let* f := gets logfp in
  let* f := deref f in
  modify (set_logfp (Some (f ++ t))).

(** Running a call of the kernel. *)
Definition ksys {A} (f : sysw -> A * sysw) : M dtree A := fun d =>
  let '(a, k) := f (sysk d) in (Ret a, set_sysk k d).

(** The error of the next call that can fail. *)
Definition next_error (k : sysw) : Z * sysw :=
  match s_script k with [] => (0, k) | e :: s => (e, set_s_script s k) end.

(** [%4d] *)
Definition print_4d (n : Z) : list Z := replicate (4 - length (print_d n)) 32 ++ print_d n.

Section Program.
Context `{libc}.
(** What a slot that realloc has added holds. *)
Variable garbage : Z -> watch.

(** The macro [errExit]. *)
Definition errExitM {A} (msg : list Z) (e : Z) : M dtree A :=
  eprintf (msg ++ lit ": " ++ strerror e ++ [10]) ;;; exit_with EXIT_FAILURE.

Definition VB_BASIC : Z := 1.
Definition VB_NOISY : Z := 2.

Definition logMessage (vb_mask : Z) (t : list Z) : M dtree unit :=
  let* o := gets opt in
  mwhen ((vb_mask =? 0) || flag vb_mask (verboseMask o)) (eprintf t) ;;;
  let* f := gets logfp in
  match f with Some _ => logprintf t | None => ret tt end.

(** ** The cache *)

Definition slot_at (j : Z) : M dtree watch :=
  let* l := gets wlCache in deref (zlookup l j).

Definition set_slot (j : Z) (x : watch) : M dtree unit :=
  let* l := gets wlCache in
  let* l := deref (zupdate l j x) in
  modify (set_wlCache l).

(** [strncpy(wlCache[j].path, p, PATH_MAX)] *)
Definition store_path (p : path) : path := take (Z.to_nat PATH_MAX) p.

Definition freeCache : M dtree unit := modify (set_wlCache []).

Fixpoint dump_loop (j cnt : Z) (l : list watch) : M dtree Z :=
  match l with
  | [] => ret cnt
  | x :: l =>
      if 0 <=? wd x then
        logprintf (print_d j ++ lit ": wd = " ++ print_d (wd x) ++ lit "; " ++ wpath x ++ [10]) ;;;
        dump_loop (j + 1) (cnt + 1) l
      else dump_loop (j + 1) cnt l
  end.

Definition dumpCacheToLog : M dtree unit :=
  let* l := gets wlCache in
  let* cnt := dump_loop 0 0 l in
  logprintf (lit "Total entries: " ++ print_d cnt ++ [10]).

(** The file is created; [abort] is seen as status 134. *)
Definition createStopFileAndAbort {A} : M dtree A :=
  let* o := gets opt in
  let* f := deref (stopFile o) in
  modify (fun d => set_written (written d ++ [(f, [])]) d) ;;;
  dumpCacheToLog ;;;
  exit_with SIGABRT_STATUS.

Definition lstat_of (p : path) : M dtree (option (Z * kind)) :=
  gets (fun d => s_files (sysk d) !! p).

Fixpoint consistency_loop (j failures : Z) (l : list watch) : M dtree Z :=
  match l with
  | [] => ret failures
  | x :: l =>
      if 0 <=? wd x then
        let* sb := lstat_of (wpath x) in
        match sb with
        | None =>
            logMessage 0 (lit "checkCacheConsistency: stat: [slot = " ++ print_d j ++ lit "; wd = " ++ print_d (wd x) ++ lit "] " ++
              wpath x ++ lit ": " ++ strerror ENOENT ++ [10]) ;;;
            consistency_loop (j + 1) (failures + 1) l
        | Some (_, File) =>
            logMessage 0 (lit "checkCacheConsistency: " ++ wpath x ++ lit " is not a directory" ++ [10]) ;;;
            exit_with EXIT_FAILURE
        | Some (_, Dir) => consistency_loop (j + 1) failures l
        end
      else consistency_loop (j + 1) failures l
  end.

Definition checkCacheConsistency : M dtree unit :=
  let* l := gets wlCache in
  let* failures := consistency_loop 0 0 l in
  mwhen (0 <? failures) (logMessage VB_NOISY (lit "checkCacheConsistency: " ++ print_d failures ++ lit " failures" ++ [10])).

Fixpoint find_loop (f : watch -> bool) (j : Z) (l : list watch) : Z :=
  match l with
  | [] => -1
  | x :: l => if f x then j else find_loop f (j + 1) l
  end.

Definition findWatch (w : Z) : M dtree Z :=
  let* l := gets wlCache in ret (find_loop (fun x => wd x =? w) 0 l).

Definition findWatchChecked (w : Z) : M dtree Z :=
  let* slot := findWatch w in
  if 0 <=? slot then ret slot else
  logMessage 0 (lit "Could not find watch " ++ print_d w ++ [10]) ;;;
  let* o := gets opt in
  if abortOnCacheProblem o then createStopFileAndAbort else ret (-1).

Definition markCacheSlotEmpty (slot : Z) : M dtree unit :=
  let* x := slot_at slot in
  logMessage VB_NOISY (lit "        markCacheSlotEmpty: slot = " ++ print_d slot ++ lit ";  wd = " ++ print_d (wd x) ++
    lit "; path = " ++ wpath x ++ [10]) ;;;
  set_slot slot (mk_watch (-1) []).

Definition ALLOC_INCR : Z := 200.

Fixpoint empty_loop (n : nat) (j : Z) : M dtree unit :=
  match n with
  | O => ret tt
  | S n => markCacheSlotEmpty j ;;; empty_loop n (j + 1)
  end.

Definition findEmptyCacheSlot : M dtree Z :=
  let* l := gets wlCache in
  let j := find_loop (fun x => wd x =? -1) 0 l in
  if 0 <=? j then ret j else
  let cacheSize := Z.of_nat (length l) + ALLOC_INCR in
  let* e := ksys next_error in
  if negb (e =? 0) then errExitM (lit "realloc") e else
  modify (set_wlCache (l ++ map garbage (seqZ (Z.of_nat (length l)) ALLOC_INCR))) ;;;
  empty_loop (Z.to_nat ALLOC_INCR) (cacheSize - ALLOC_INCR) ;;;
  ret (cacheSize - ALLOC_INCR).

Definition addWatchToCache (w : Z) (pathname : path) : M dtree Z :=
  let* slot := findEmptyCacheSlot in
  set_slot slot (mk_watch w (store_path pathname)) ;;;
  ret slot.

Definition pathnameToCacheSlot (pathname : path) : M dtree Z :=
  let* l := gets wlCache in
  ret (find_loop (fun x => (0 <=? wd x) && bool_decide (wpath x = pathname)) 0 l).

Definition pathnameInCache (pathname : path) : M dtree bool :=
  let* j := pathnameToCacheSlot pathname in ret (0 <=? j).

(** ** The roots *)

Fixpoint count_roots (argv : list path) : M dtree unit :=
  match argv with
  | [] => ret tt
  | p :: argv =>
      let* sb := lstat_of p in
      match sb with
      | None => eprintf (lit "lstat() failed on '" ++ p ++ lit "'" ++ [10]) ;;; exit_with EXIT_FAILURE
      | Some (_, File) => eprintf (lit "'" ++ p ++ lit "' is not a directory" ++ [10]) ;;; exit_with EXIT_FAILURE
      | Some (_, Dir) => count_roots argv
      end
  end.

(** The root looked at last is compared with those before it. *)
Fixpoint duplicate_loop (p : path) (ino : Z) (seen : list (path * Z)) : M dtree unit :=
  match seen with
  | [] => ret tt
  | (q, ino') :: seen =>
      if ino =? ino' then
        eprintf (lit "Duplicate filesystem objects: " ++ p ++ lit ", " ++ q ++ [10]) ;;; exit_with EXIT_FAILURE
      else duplicate_loop p ino seen
  end.

Fixpoint copy_loop (seen : list (path * Z)) (argv : list path) : M dtree unit :=
  match argv with
  | [] => ret tt
  | p :: argv =>
      let* e := ksys next_error in
      if negb (e =? 0) then errExitM (lit "strdup") e else
      modify (fun d => set_rootDirPaths (rootDirPaths d ++ [Some p]) d) ;;;
      let* sb := lstat_of p in
      match sb with
      | None => errExitM (lit "lstat") ENOENT
      | Some (ino, _) => duplicate_loop p ino seen ;;; copy_loop (seen ++ [(p, ino)]) argv
      end
  end.

Definition copyRootDirPaths (argv : list path) : M dtree unit :=
  count_roots argv ;;;
  let* e := ksys next_error in
  if negb (e =? 0) then errExitM (lit "calloc") e else
  let* e := ksys next_error in
  if negb (e =? 0) then errExitM (lit "calloc") e else
  modify (set_rootDirPaths []) ;;;
  copy_loop [] argv ;;;
  modify (set_ignoreRootDirs 0).

Fixpoint root_loop (p : path) (j : nat) (l : list (option path)) : option nat :=
  match l with
  | [] => None
  | Some r :: l => if bool_decide (p = r) then Some j else root_loop p (S j) l
  | None :: l => root_loop p (S j) l
  end.

Definition findRootDirPath (p : path) : M dtree (option nat) :=
  let* l := gets rootDirPaths in ret (root_loop p 0 l).

Definition isRootDirPath (p : path) : M dtree bool :=
  let* r := findRootDirPath p in ret (bool_decide (is_Some r)).

Definition zapRootDirPath (p : path) : M dtree unit :=
  printf (lit "zapRootDirPath: " ++ p ++ [10]) ;;;
  let* r := findRootDirPath p in
  match r with
  | None => eprintf (lit "zapRootDirPath(): path not found!" ++ [10]) ;;; exit_with EXIT_FAILURE
  | Some j =>
      modify (fun d => set_rootDirPaths (<[j := None]> (rootDirPaths d)) d) ;;;
      modify (fun d => set_ignoreRootDirs (ignoreRootDirs d + 1) d) ;;;
      let* d := get in
      mwhen (ignoreRootDirs d =? numRootDirs d)
        (eprintf (lit "No more root paths left to monitor; bye!" ++ [10]) ;;; exit_with EXIT_SUCCESS)
  end.

End Program.
