(* ===== verification/DtProg.v ===== *)
(** * inotify_dtree: the program

    Walking trees, changing cached names, handling events and commands: the rest
    of inotify_dtree.c. *)

From stdpp Require Import prelude list_numbers strings gmap.
From Stdlib Require Import ZArith Lia.
From S2P Require Import Prelude CLib Vfs TlpiLib DtWorld DtCache.
Open Scope Z_scope.

Section Program.
Context `{libc} `{nftw_order}.
Variables (garbage : Z -> watch).
(** The text of [%p]. *)
Variable pointer : list Z -> list Z.

(** ** Events *)

Definition mask_names : list (Z * list Z) :=
  [(IN_ISDIR, lit "IN_ISDIR "); (IN_CREATE, lit "IN_CREATE "); (IN_DELETE_SELF, lit "IN_DELETE_SELF ");
   (IN_MOVE_SELF, lit "IN_MOVE_SELF "); (IN_MOVED_FROM, lit "IN_MOVED_FROM "); (IN_MOVED_TO, lit "IN_MOVED_TO ");
   (IN_IGNORED, lit "IN_IGNORED "); (IN_Q_OVERFLOW, lit "IN_Q_OVERFLOW "); (IN_UNMOUNT, lit "IN_UNMOUNT ")].

Fixpoint display_mask (mask : Z) (l : list (Z * list Z)) : M dtree unit :=
  match l with
  | [] => ret tt
  | (bit, t) :: l => mwhen (flag mask bit) (logMessage VB_NOISY t) ;;; display_mask mask l
  end.

Definition displayInotifyEvent (ev : event) : M dtree unit :=
  logMessage VB_NOISY (lit "==> wd = " ++ print_d (e_wd ev) ++ lit "; ") ;;;
  mwhen (0 <? e_cookie ev) (logMessage VB_NOISY (lit "cookie = " ++ print_4d (e_cookie ev) ++ lit "; ")) ;;;
  logMessage VB_NOISY (lit "mask = ") ;;;
  display_mask (e_mask ev) mask_names ;;;
  logMessage VB_NOISY [10] ;;;
  mwhen (0 <? e_len ev) (logMessage VB_NOISY (lit "        name = " ++ e_name ev ++ [10])).

(** ** Trees *)

Definition sys_add (p : path) (mask : Z) (k : sysw) : (Z + Z) * sysw :=
  let '(e, k) := next_error k in
  if e =? 0 then sys_add_watch p mask k else (inl e, k).

Definition traverseTree (pathname : path) (kd : kind) : M dtree unit :=
  if negb (bool_decide (kd = Dir)) then ret tt else
  let flags := Z.lor IN_CREATE (Z.lor IN_MOVED_FROM (Z.lor IN_MOVED_TO IN_DELETE_SELF)) in
  let* root := isRootDirPath pathname in
  let flags := if root then Z.lor flags IN_MOVE_SELF else flags in
  let* r := ksys (sys_add pathname (Z.lor flags IN_ONLYDIR)) in
  match r with
  | inl e =>
      logMessage VB_BASIC (lit "inotify_add_watch: " ++ pathname ++ lit ": " ++ strerror e ++ [10]) ;;;
      if e =? ENOENT then ret tt else exit_with EXIT_FAILURE
  | inr w =>
      let* j := findWatch w in
      if 0 <=? j then logMessage VB_BASIC (lit "WD " ++ print_d w ++ lit " already in cache (" ++ pathname ++ lit ")" ++ [10])
      else
        modify (fun d => set_dirCnt (dirCnt d + 1) d) ;;;
        let* slot := addWatchToCache garbage w pathname in
        logMessage VB_NOISY (lit "    watchDir: wd = " ++ print_d w ++ lit " [cache slot: " ++ print_d slot ++ lit "]; " ++ pathname ++ [10])
  end.

Fixpoint nftw_loop (l : list (path * kind)) : M dtree unit :=
  match l with
  | [] => ret tt
  | (p, kd) :: l => traverseTree p kd ;;; nftw_loop l
  end.

Definition watchDir (pathname : path) : M dtree Z :=
  modify (set_dirCnt 0) ;;;
  let* fs := gets (fun d => s_files (sysk d)) in
  (match fs !! pathname with
   | None => logMessage VB_BASIC (lit "nftw: " ++ pathname ++ lit ": " ++ strerror ENOENT ++
               lit " (directory probably deleted before we could watch)" ++ [10])
   | Some _ => nftw_loop (walk fs pathname)
   end) ;;;
  gets dirCnt.

Definition watchSubtree (p : path) : M dtree unit :=
  let* cnt := watchDir p in
  logMessage VB_BASIC (lit "    watchSubtree: " ++ p ++ lit ": " ++ print_d cnt ++ lit " entries added" ++ [10]).

(** [snprintf] into an array of [n] bytes. *)
Definition fit (n : Z) (t : list Z) : list Z := take (Z.to_nat (n - 1)) t.

Fixpoint rewrite_loop (n : nat) (j : Z) (fullPath newPrefix : path) : M dtree unit :=
  match n with
  | O => ret tt
  | S n =>
      let* x := slot_at j in
      (if below fullPath (wpath x) then
         let t := newPrefix ++ drop (length fullPath) (wpath x) in
         let newPath := fit PATH_MAX t in
         mwhen (PATH_MAX <? Z.of_nat (length t)) (logMessage VB_BASIC (lit "Truncated pathname: " ++ newPath ++ [10])) ;;;
         set_slot j (mk_watch (wd x) (store_path newPath)) ;;;
         logMessage VB_NOISY (lit "    wd " ++ print_d (wd x) ++ lit " [cache slot " ++ print_d j ++ lit "] ==> " ++ newPath ++ [10])
       else ret tt) ;;;
      rewrite_loop n (j + 1) fullPath newPrefix
  end.

Definition rewriteCachedPaths (oldPathPrefix oldName newPathPrefix newName : path) : M dtree unit :=
  let fullPath := fit PATH_MAX (join oldPathPrefix oldName) in
  let newPrefix := fit PATH_MAX (join newPathPrefix newName) in
  logMessage VB_BASIC (lit "Rename: " ++ fullPath ++ lit " ==> " ++ newPrefix ++ [10]) ;;;
  let* l := gets wlCache in
  rewrite_loop (length l) 0 fullPath newPrefix.

(** [pn] is NULL when strdup fails; the result is the count, or -1. *)
Fixpoint zap_loop (n : nat) (j cnt : Z) (pn : option path) : M dtree Z :=
  match n with
  | O => ret cnt
  | S n =>
      let* x := slot_at j in
      if 0 <=? wd x then
        let* p := deref pn in
        if below p (wpath x) then
          logMessage VB_NOISY (lit "    removing watch: wd = " ++ print_d (wd x) ++ lit " (" ++ wpath x ++ lit ")" ++ [10]) ;;;
          let* r := ksys (sys_rm_watch (wd x)) in
          match r with
          | Some e =>
              logMessage 0 (lit "inotify_rm_watch wd = " ++ print_d (wd x) ++ lit " (" ++ wpath x ++ lit "): " ++ strerror e ++ [10]) ;;;
              ret (-1)
          | None => markCacheSlotEmpty j ;;; zap_loop n (j + 1) (cnt + 1) pn
          end
        else zap_loop n (j + 1) cnt pn
      else zap_loop n (j + 1) cnt pn
  end.

Definition zapSubtree (p : path) : M dtree Z :=
  logMessage VB_NOISY (lit "Zapping subtree: " ++ p ++ [10]) ;;;
  let* e := ksys next_error in
  let* l := gets wlCache in
  zap_loop (length l) 0 0 (if e =? 0 then Some p else None).

Definition sys_close (fd : Z) (k : sysw) : unit * sysw := (tt, if fd =? s_fd k then set_s_inst None k else k).

(** inotify_init: the descriptor, or an error. *)
Definition sys_init (k : sysw) : (Z + Z) * sysw :=
  let '(e, k) := next_error k in
  if e =? 0 then (inr (s_fd k), set_s_inst (Some (mk_inst ∅ 1 [])) k) else (inl e, k).

Fixpoint watch_roots (l : list (option path)) : M dtree unit :=
  match l with
  | [] => ret tt
  | Some r :: l => watchSubtree r ;;; watch_roots l
  | None :: l => watch_roots l
  end.

Definition live_count (l : list watch) : Z := Z.of_nat (length (filter (fun x => 0 <= wd x) l)).

Definition reinitialize (oldInotifyFd : Z) : M dtree Z :=
  (if 0 <=? oldInotifyFd then
     ksys (sys_close oldInotifyFd) ;;;
     modify (fun d => set_reinitCnt (reinitCnt d + 1) d) ;;;
     let* n := gets reinitCnt in
     logMessage 0 (lit "Reinitializing cache and inotify FD (reinitCnt = " ++ print_d n ++ lit ")" ++ [10])
   else
     logMessage 0 (lit "Initializing cache" ++ [10]) ;;;
     modify (set_reinitCnt 0)) ;;;
  let* r := ksys sys_init in
  match r with
  | inl e => errExitM (lit "inotify_init") e
  | inr inotifyFd =>
      logMessage VB_BASIC (lit "    new inotifyFd = " ++ print_d inotifyFd ++ [10]) ;;;
      freeCache ;;;
      let* roots := gets rootDirPaths in
      watch_roots roots ;;;
      let* l := gets wlCache in
      mwhen (0 <=? oldInotifyFd) (logMessage 0 (lit "Rebuilt cache with " ++ print_d (live_count l) ++ lit " entries" ++ [10])) ;;;
      ret inotifyFd
  end.

(** ** One event *)

(** How much of the buffer was processed: a number of events, all of it because
    the cache was built anew, or nothing because more has to be read. *)
Inductive consumed := Took (n : nat) | All | Again.

Definition INOTIFY_READ_BUF_LEN : Z := 100 * (EVENT_SIZE + NAME_MAX + 1).

Definition rebuild (inotifyFd : Z) : M dtree (Z * consumed) :=
  let* fd := reinitialize inotifyFd in ret (fd, All).

(** The slot of the event's directory; for some events it is not set. *)
Definition event_slot (slot : option Z) : M dtree watch :=
  let* j := deref slot in slot_at j.

(** What is done at the end. *)
Definition finish (fd : Z) (c : consumed) : M dtree (Z * consumed) :=
  let* o := gets opt in
  mwhen (checkCache o) checkCacheConsistency ;;;
  mwhen (dumpCache o) dumpCacheToLog ;;;
  ret (fd, c).

Definition created_event (ev : event) (slot : option Z) : M dtree unit :=
  let* x := event_slot slot in
  let fullPath := fit (PATH_MAX + NAME_MAX) (join (wpath x) (e_name ev)) in
  logMessage VB_BASIC (lit "Directory creation on wd " ++ print_d (e_wd ev) ++ lit ": " ++ fullPath ++ [10]) ;;;
  let* cached := pathnameInCache fullPath in
  mwhen (negb cached) (watchSubtree fullPath).

Definition deleted_event (ev : event) (slot : option Z) : M dtree unit :=
  let* x := event_slot slot in
  logMessage VB_BASIC (lit "Clearing watchlist item " ++ print_d (e_wd ev) ++ lit " (" ++ wpath x ++ lit ")" ++ [10]) ;;;
  let* root := isRootDirPath (wpath x) in
  mwhen root (zapRootDirPath (wpath x)) ;;;
  let* j := deref slot in
  markCacheSlotEmpty j.

Definition moved_event (inotifyFd : Z) (ev : event) (slot : option Z) (rest : list event) (firstTry : bool) : M dtree (Z * consumed) :=
  let zap :=
    let* x := event_slot slot in
    logMessage VB_NOISY (lit "MOVED_OUT: " ++ pointer (wpath x) ++ lit " " ++ pointer (e_name ev) ++ [10]) ;;;
    logMessage VB_NOISY (lit "firstTry = " ++ print_d (if firstTry then 1 else 0) ++ lit "; remaining bytes = " ++ print_d (sizes rest) ++ [10]) ;;;
    let fullPath := fit (PATH_MAX + NAME_MAX) (join (wpath x) (e_name ev)) in
    let* cnt := zapSubtree fullPath in
    if cnt =? -1 then rebuild inotifyFd else finish inotifyFd (Took 1) in
  match rest with
  | nextEv :: _ =>
      if flag (e_mask nextEv) IN_MOVED_TO && (e_cookie nextEv =? e_cookie ev) then
        let* nextSlot := findWatchChecked (e_wd nextEv) in
        if nextSlot =? -1 then rebuild inotifyFd else
        let* x := event_slot slot in
        let* y := slot_at nextSlot in
        rewriteCachedPaths (wpath x) (e_name ev) (wpath y) (e_name nextEv) ;;;
        finish inotifyFd (Took 2)
      else zap
  | [] =>
      if negb firstTry then zap
      else logMessage VB_NOISY (lit "HANGING IN_MOVED_FROM" ++ [10]) ;;; ret (inotifyFd, Again)
  end.

Definition overflow_event (inotifyFd : Z) : M dtree (Z * consumed) :=
  modify (fun d => set_overflowCnt (overflowCnt d + 1) d) ;;;
  let* d := get in
  logMessage 0 (lit "Queue overflow (" ++ print_d (overflowCnt d) ++ lit ") (inotifyReadCnt = " ++ print_d (inotifyReadCnt d) ++ lit ")" ++ [10]) ;;;
  let* fd := reinitialize inotifyFd in
  finish fd All.

Definition unmounted_event (slot : option Z) : M dtree unit :=
  let* x := event_slot slot in
  logMessage 0 (lit "Filesystem unmounted: " ++ wpath x ++ [10]) ;;;
  let* j := deref slot in
  markCacheSlotEmpty j.

Definition root_moved_event (inotifyFd : Z) (slot : option Z) : M dtree (Z * consumed) :=
  let* x := event_slot slot in
  logMessage 0 (lit "Root path moved: " ++ wpath x ++ [10]) ;;;
  zapRootDirPath (wpath x) ;;;
  let* cnt := zapSubtree (wpath x) in
  if cnt =? -1 then rebuild inotifyFd else finish inotifyFd (Took 1).

Definition processNextInotifyEvent (inotifyFd : Z) (ev : event) (rest : list event) (firstTry : bool) : M dtree (Z * consumed) :=
  displayInotifyEvent ev ;;;
  let known := negb (e_wd ev =? -1) && negb (flag (e_mask ev) IN_IGNORED) in
  let* evCacheSlot := (if known then let* j := findWatchChecked (e_wd ev) in ret (Some j) else ret None) in
  if bool_decide (evCacheSlot = Some (-1)) then rebuild inotifyFd else
  let mask := e_mask ev in
  if flag mask IN_ISDIR && flag mask (Z.lor IN_CREATE IN_MOVED_TO) then
    created_event ev evCacheSlot ;;; finish inotifyFd (Took 1)
  else if flag mask IN_DELETE_SELF then
    deleted_event ev evCacheSlot ;;; finish inotifyFd (Took 1)
  else if Z.land mask (Z.lor IN_MOVED_FROM IN_ISDIR) =? Z.lor IN_MOVED_FROM IN_ISDIR then
    moved_event inotifyFd ev evCacheSlot rest firstTry
  else if flag mask IN_Q_OVERFLOW then overflow_event inotifyFd
  else if flag mask IN_UNMOUNT then unmounted_event evCacheSlot ;;; finish inotifyFd (Took 1)
  else if flag mask IN_MOVE_SELF then
    let* x := event_slot evCacheSlot in
    let* root := isRootDirPath (wpath x) in
    if root then root_moved_event inotifyFd evCacheSlot else finish inotifyFd (Took 1)
  else finish inotifyFd (Took 1).

End Program.
