(* ===== verification/DtMain.v ===== *)
(** * inotify_dtree: reading events, commands and options

    processInotifyEvents, executeCommand and main of inotify_dtree.c. *)

From stdpp Require Import prelude list_numbers strings gmap.
From Stdlib Require Import ZArith Lia.
From S2P Require Import Prelude CLib Vfs TlpiLib DtWorld DtCache DtProg.
Open Scope Z_scope.

Section Program.
Context `{libc} `{nftw_order}.
Variables (garbage : Z -> watch) (pointer : list Z -> list Z).

(** ** Reading *)

(** read on the instance: an error, or events that fit; it blocks when there are
    none. *)
Definition sys_read_events (n : Z) : M dtree (Z + list event) :=
  let* e := ksys next_error in
  if negb (e =? 0) then ret (inl e) else
  let* i := gets (fun d => s_inst (sysk d)) in
  match i with
  | None => ret (inl EBADF)
  | Some i =>
      match i_queue i with
      | [] => blocked
      | _ =>
          let '(got, later) := fitting n (i_queue i) in
          match got with
          | [] => ret (inl EINVAL)
          | _ => modify (fun d => set_sysk (set_s_inst (Some (set_i_queue later i)) (sysk d)) d) ;;; ret (inr got)
          end
      end
  end.

(** The second read, which an alarm interrupts when nothing comes. *)
Definition sys_read_more (n : Z) : M dtree (Z + list event) :=
  let* i := gets (fun d => s_inst (sysk d)) in
  match i with
  | Some (mk_inst _ _ []) => let* e := ksys next_error in ret (inl (if e =? 0 then EINTR else e))
  | _ => sys_read_events n
  end.

Fixpoint events_loop (fuel : nat) (inotifyFd : Z) (evs : list event) (firstTry : bool) : M dtree Z :=
  match evs with
  | [] => ret inotifyFd
  | ev :: rest =>
      match fuel with
      | O => blocked
      | S fuel =>
          let* ' (inotifyFd, c) := processNextInotifyEvent garbage pointer inotifyFd ev rest firstTry in
          match c with
          | Took n => events_loop fuel inotifyFd (drop n evs) true
          | All => ret inotifyFd
          | Again =>
              let* r := sys_read_more (INOTIFY_READ_BUF_LEN - sizes evs) in
              match r with
              | inl e =>
                  if negb (e =? EINTR) then errExitM (lit "read") e else
                  logMessage VB_NOISY ([10] ++ lit "==========> SECONDARY Read got nothing" ++ [10]) ;;;
                  events_loop fuel inotifyFd evs false
              | inr more =>
                  modify (fun d => set_inotifyReadCnt (inotifyReadCnt d + 1) d) ;;;
                  let* n := gets inotifyReadCnt in
                  logMessage VB_NOISY ([10] ++ lit "==========> SECONDARY Read " ++ print_d n ++ lit ": got " ++
                    print_d (sizes more) ++ lit " bytes" ++ [10]) ;;;
                  events_loop fuel inotifyFd (evs ++ more) false
              end
          end
      end
  end.

Definition processInotifyEvents (fuel : nat) (inotifyFd : Z) : M dtree Z :=
  let* e := ksys next_error in
  if negb (e =? 0) then errExitM (lit "sigaction") e else
  let* o := gets opt in
  let cnt := if 0 <? readBufferSize o then readBufferSize o else INOTIFY_READ_BUF_LEN in
  let* r := sys_read_events cnt in
  match r with
  | inl e => errExitM (lit "read") e
  | inr evs =>
      (if INOTIFY_READ_BUF_LEN <? sizes evs then fault else ret tt) ;;;
      modify (fun d => set_inotifyReadCnt (inotifyReadCnt d + 1) d) ;;;
      let* n := gets inotifyReadCnt in
      logMessage VB_NOISY ([10] ++ lit "==========> Read " ++ print_d n ++ lit ": got " ++ print_d (sizes evs) ++ lit " bytes" ++ [10]) ;;;
      events_loop fuel inotifyFd evs true
  end.

(** ** Commands *)

Definition displayCommandList : M dtree unit :=
  printf (lit "Commands:" ++ [10]) ;;;
  printf (lit "0        Rebuild cache" ++ [10]) ;;;
  printf (lit "a path   Add/refresh pathname watches and cache" ++ [10]) ;;;
  printf (lit "c        Verify cached pathnames" ++ [10]) ;;;
  printf (lit "d        Toggle cache dumping" ++ [10]) ;;;
  printf (lit "l        List cached pathnames" ++ [10]) ;;;
  printf (lit "q        Quit" ++ [10]) ;;;
  printf (lit "v [n]    Toggle/set verbose level for messages to stderr" ++ [10]) ;;;
  printf (lit "             0 = no messages" ++ [10]) ;;;
  printf (lit "             1 = basic messages" ++ [10]) ;;;
  printf (lit "             2 = verbose messages" ++ [10]) ;;;
  printf (lit "             3 = basic and verbose messages" ++ [10]) ;;;
  printf (lit "w file   Write directory list to file" ++ [10]) ;;;
  printf (lit "x        Toggle cache checking" ++ [10]) ;;;
  printf (lit "z path   Zap pathname and watches from cache" ++ [10]).

Fixpoint exist_loop (cmd j cnt failures : Z) (l : list watch) : M dtree (Z * Z) :=
  match l with
  | [] => ret (cnt, failures)
  | x :: l =>
      if 0 <=? wd x then
        let* sb := lstat_of (wpath x) in
        match sb with
        | None =>
            mwhen (cmd =? 99) (logMessage VB_BASIC (lit "stat: [slot = " ++ print_d j ++ lit "; wd = " ++ print_d (wd x) ++
              lit "] " ++ wpath x ++ lit ": " ++ strerror ENOENT ++ [10])) ;;;
            exist_loop cmd (j + 1) cnt (failures + 1) l
        | Some (_, File) =>
            mwhen (cmd =? 99) (logMessage 0 (wpath x ++ lit " is not a directory" ++ [10])) ;;;
            exit_with EXIT_FAILURE
        | Some (_, Dir) =>
            mwhen (cmd =? 99) (logMessage VB_NOISY (lit "OK: [slot = " ++ print_d j ++ lit "; wd = " ++ print_d (wd x) ++
              lit "] " ++ wpath x ++ [10])) ;;;
            exist_loop cmd (j + 1) (cnt + 1) failures l
        end
      else exist_loop cmd (j + 1) cnt failures l
  end.

Definition checkAllCachedPathnamesExist (cmd : Z) : M dtree unit :=
  let* l := gets wlCache in
  let* ' (cnt, failures) := exist_loop cmd 0 0 0 l in
  logMessage 0 (lit "Successfully verified " ++ print_d cnt ++ lit " entries" ++ [10]) ;;;
  logMessage 0 (lit "Failures: " ++ print_d failures ++ [10]).

Fixpoint list_loop (j cnt : Z) (l : list watch) : M dtree Z :=
  match l with
  | [] => ret cnt
  | x :: l =>
      if 0 <=? wd x then
        logMessage 0 (print_d j ++ lit ": " ++ print_d (wd x) ++ lit " " ++ wpath x ++ [10]) ;;;
        list_loop (j + 1) (cnt + 1) l
      else list_loop (j + 1) cnt l
  end.

(** [sscanf(line, "%c %s\n", &cmd, arg)]: the second word, if there is one. *)
Definition scan_command (line : list Z) : option (Z * option (list Z)) :=
  match line with
  | [] => None
  | c :: r =>
      let a := fst (span (fun b => negb (isspace b)) (snd (span isspace r))) in
      Some (c, match a with [] => None | _ => Some a end)
  end.

Definition MAX_LINE : Z := 100.

Definition with_opt (f : opts -> opts) : M dtree unit := modify (fun d => set_opt (f (opt d)) d).

Definition on_off (b : bool) : list Z := (if b then lit "on" else lit "off") ++ [10].

Definition command_v (arg : option (list Z)) : M dtree unit :=
  match arg with
  | Some a => with_opt (fun o => mk_opts (atoi a) (checkCache o) (dumpCache o) (readBufferSize o) (stopFile o) (abortOnCacheProblem o))
  | None =>
      with_opt (fun o => mk_opts (if verboseMask o =? 0 then 1 else 0) (checkCache o) (dumpCache o) (readBufferSize o) (stopFile o) (abortOnCacheProblem o)) ;;;
      let* o := gets opt in
      printf (on_off (negb (verboseMask o =? 0)))
  end.

(** The file is opened anew; writing to it when that failed is a fault. *)
Definition command_w (arg : option (list Z)) : M dtree unit :=
  let* f := deref arg in
  let* e := ksys next_error in
  mwhen (negb (e =? 0)) (eprintf (lit "fopen: " ++ strerror e ++ [10])) ;;;
  let* l := gets wlCache in
  let live := filter (fun x => 0 <= wd x) l in
  if e =? 0 then modify (fun d => set_written (written d ++ [(f, concat (map (fun x => wpath x ++ [10]) live))]) d)
  else fault.

Definition command_a (inotifyFd : Z) (arg : option (list Z)) : M dtree unit :=
  let* a := deref arg in
  let* cnt := zapSubtree a in
  (if cnt =? 0 then logMessage VB_BASIC (lit "Adding new subtree: " ++ a ++ [10])
   else logMessage VB_BASIC (lit "Zapped: " ++ a ++ lit ", " ++ print_d cnt ++ lit " entries" ++ [10])) ;;;
  watchSubtree garbage a.

Definition command_z (arg : option (list Z)) : M dtree unit :=
  let* a := deref arg in
  let* cnt := zapSubtree a in
  logMessage VB_BASIC (lit "Zapped: " ++ a ++ lit ", " ++ print_d cnt ++ lit " entries" ++ [10]).

Definition command_d : M dtree unit :=
  with_opt (fun o => mk_opts (verboseMask o) (checkCache o) (negb (dumpCache o)) (readBufferSize o) (stopFile o) (abortOnCacheProblem o)) ;;;
  let* o := gets opt in printf (on_off (dumpCache o)).

Definition command_x : M dtree unit :=
  with_opt (fun o => mk_opts (verboseMask o) (negb (checkCache o)) (dumpCache o) (readBufferSize o) (stopFile o) (abortOnCacheProblem o)) ;;;
  let* o := gets opt in printf (on_off (checkCache o)).

(** One read of the standard input: it blocks when nothing was typed, and the end
    of the input is an empty chunk. *)
Definition executeCommand (inotifyFd : Z) : M dtree Z :=
  let* ls := gets lines in
  match ls with
  | [] => blocked
  | [] :: _ => printf (lit "bye!" ++ [10]) ;;; exit_with EXIT_FAILURE
  | chunk :: ls =>
      let got := take (Z.to_nat MAX_LINE) chunk in
      modify (set_lines (match drop (Z.to_nat MAX_LINE) chunk with [] => ls | r => r :: ls end)) ;;;
      let line := fst (span (fun b => negb (b =? 0)) (removelast got)) in
      match scan_command line with
      | None => ret inotifyFd
      | Some (cmd, arg) =>
          if cmd =? 97 then command_a inotifyFd arg ;;; ret inotifyFd
          else if (cmd =? 99) || (cmd =? 67) then checkAllCachedPathnamesExist cmd ;;; ret inotifyFd
          else if cmd =? 108 then
            let* l := gets wlCache in
            let* cnt := list_loop 0 0 l in
            logMessage VB_BASIC (lit "Total entries: " ++ print_d cnt ++ [10]) ;;; ret inotifyFd
          else if cmd =? 113 then exit_with EXIT_SUCCESS
          else if cmd =? 118 then command_v arg ;;; ret inotifyFd
          else if cmd =? 100 then command_d ;;; ret inotifyFd
          else if cmd =? 120 then command_x ;;; ret inotifyFd
          else if cmd =? 119 then command_w arg ;;; ret inotifyFd
          else if cmd =? 122 then command_z arg ;;; ret inotifyFd
          else if cmd =? 48 then ksys (sys_close inotifyFd) ;;; reinitialize garbage (-1)
          else printf (lit "Unrecognized command: " ++ [cmd; 10]) ;;; displayCommandList ;;; ret inotifyFd
      end
  end.

(** ** main *)

Definition usageError {A} (pname : list Z) : M dtree A :=
  eprintf (lit "Usage: " ++ pname ++ lit " [options] directory-path..." ++ [10; 10]) ;;;
  eprintf (lit "    -v lvl   Display logging information" ++ [10]) ;;;
  eprintf (lit "    -l file  Send logging information to a file" ++ [10]) ;;;
  eprintf (lit "    -x       Check cache consistency after each operation" ++ [10]) ;;;
  eprintf (lit "    -d       Dump cache to log after every operation" ++ [10]) ;;;
  eprintf (lit "    -b size  Set buffer size for read() from inotify FD" ++ [10]) ;;;
  eprintf (lit "    -a file  Abort when cache inconsistency detected, and create 'stop' file" ++ [10]) ;;;
  exit_with EXIT_FAILURE.

(** The letters of an argument of options: those of d and x stand alone, those of
    a, l, v and b take the rest of the argument, or the next one.  The result is
    the options up to an error, and what follows when there is none. *)
Fixpoint option_letters (l : list Z) (next : list (list Z)) : list (Z * list Z) * option (list (list Z)) :=
  match l with
  | [] => ([], Some next)
  | c :: l =>
      if (c =? 100) || (c =? 120) then let '(os, next) := option_letters l next in ((c, []) :: os, next)
      else if (c =? 97) || (c =? 108) || (c =? 118) || (c =? 98) then
        match l, next with
        | _ :: _, _ => ([(c, l)], Some next)
        | [], a :: next => ([(c, a)], Some next)
        | [], [] => ([], None)
        end
      else ([], None)
  end.

(** The options, and the other arguments in the order getopt gives. *)
Fixpoint parse_options (fuel : nat) (argv : list (list Z)) : list (Z * list Z) * option (list (list Z)) :=
  match fuel, argv with
  | O, _ | _, [] => ([], Some argv)
  | S fuel, a :: argv =>
      if bool_decide (a = lit "--") then ([], Some argv) else
      match a with
      | 45 :: c :: r =>
          match option_letters (c :: r) argv with
          | (os, Some argv) => let '(os', ns) := parse_options fuel argv in (os ++ os', ns)
          | (os, None) => (os, None)
          end
      | _ => let '(os, ns) := parse_options fuel argv in (os, cons a <$> ns)
      end
  end.

Fixpoint set_options (l : list (Z * list Z)) : M dtree unit :=
  match l with
  | [] => ret tt
  | (c, a) :: l =>
      (if c =? 97 then with_opt (fun o => mk_opts (verboseMask o) (checkCache o) (dumpCache o) (readBufferSize o) (Some a) true)
       else if c =? 120 then with_opt (fun o => mk_opts (verboseMask o) true (dumpCache o) (readBufferSize o) (stopFile o) (abortOnCacheProblem o))
       else if c =? 100 then with_opt (fun o => mk_opts (verboseMask o) (checkCache o) true (readBufferSize o) (stopFile o) (abortOnCacheProblem o))
       else if c =? 118 then with_opt (fun o => mk_opts (atoi a) (checkCache o) (dumpCache o) (readBufferSize o) (stopFile o) (abortOnCacheProblem o))
       else if c =? 98 then with_opt (fun o => mk_opts (verboseMask o) (checkCache o) (dumpCache o) (atoi a) (stopFile o) (abortOnCacheProblem o))
       else
         let* e := ksys next_error in
         if negb (e =? 0) then errExitM (lit "fopen") e else modify (set_logfp (Some []))) ;;;
      set_options l
  end.

(** Which of the two descriptors are readable; the call blocks when none is. *)
Definition sys_select : M dtree (bool * bool) :=
  let* e := ksys next_error in
  if negb (e =? 0) then errExitM (lit "select") e else
  let* d := get in
  let typed := negb (bool_decide (lines d = [])) in
  let events := match s_inst (sysk d) with Some i => negb (bool_decide (i_queue i = [])) | None => false end in
  if typed || events then ret (typed, events) else blocked.

Fixpoint main_loop (turns fuel : nat) (a0 : list Z) (inotifyFd : Z) : M dtree Z :=
  match turns with
  | O => ret inotifyFd
  | S turns =>
      let* ' (typed, events) := sys_select in
      let* fd := (if typed then let* fd := executeCommand inotifyFd in printf (a0 ++ lit "> ") ;;; ret fd else ret inotifyFd) in
      let* fd := (if events then processInotifyEvents fuel fd else ret fd) in
      main_loop turns fuel a0 fd
  end.

Definition main (turns fuel : nat) (argv : list (list Z)) : M dtree Z :=
  with_opt (fun _ => mk_opts 0 false false 0 None false) ;;;
  let* a0 := deref (head argv) in
  let '(os, dirs) := parse_options (length argv) (tail argv) in
  set_options os ;;;
  match dirs with
  | None | Some [] => usageError a0
  | Some dirs =>
      copyRootDirPaths dirs ;;;
      let* inotifyFd := reinitialize garbage (-1) in
      printf (a0 ++ lit "> ") ;;;
      main_loop turns fuel a0 inotifyFd
  end.

End Program.
