(* ===== verification/DtSpec.v ===== *)
(** * inotify_dtree: the cache as a finite map

    A logic for the functions of inotify_dtree that does not look at what they
    print, and the array of watches as a map from watch descriptors to names. *)

From stdpp Require Import prelude list_numbers strings gmap.
From Stdlib Require Import ZArith Lia.
From S2P Require Import Prelude CLib Vfs TlpiLib DtWorld DtCache DtProg.
Open Scope Z_scope.

(** ** What a function does, its messages aside *)

Record core := mk_core {
  c_opt : opts;
  c_cache : list watch;
  c_roots : list (option path);
  c_ignore : Z;
  c_reinit : Z;
  c_lines : list (list Z);
  c_sys : sysw
}.

Definition core_of (d : dtree) : core :=
  mk_core (opt d) (wlCache d) (rootDirPaths d) (ignoreRootDirs d) (reinitCnt d) (lines d) (sysk d).

Definition with_cache l c := mk_core (c_opt c) l (c_roots c) (c_ignore c) (c_reinit c) (c_lines c) (c_sys c).
Definition with_sys k c := mk_core (c_opt c) (c_cache c) (c_roots c) (c_ignore c) (c_reinit c) (c_lines c) k.
Definition with_reinit n c := mk_core (c_opt c) (c_cache c) (c_roots c) (c_ignore c) n (c_lines c) (c_sys c).

(** The function returns, with a value and a state for which [Q] holds. *)
Definition does {A} (m : M dtree A) (c : core) (Q : A -> core -> Prop) : Prop :=
  forall d, core_of d = c -> exists a d', m d = (Ret a, d') /\ Q a (core_of d').

Section Rules.
Context {A B : Type}.

Lemma does_ret (a : A) c (Q : A -> core -> Prop) : Q a c -> does (ret a) c Q.
Proof. intros H d <-. exists a, d. done. Qed.

Lemma does_bind (m : M dtree A) (k : A -> M dtree B) c Q :
  does m c (fun a c' => does (k a) c' Q) -> does (bind m k) c Q.
Proof.
  intros Hm d Hd. destruct (Hm d Hd) as (a & d1 & E & Hk). destruct (Hk d1 eq_refl) as (b & d2 & E2 & HQ).
  exists b, d2. split; [|done]. by rewrite (bind_ret _ _ _ _ _ E).
Qed.

Lemma does_mono (m : M dtree A) c (R Q : A -> core -> Prop) :
  does m c R -> (forall a c', R a c' -> Q a c') -> does m c Q.
Proof. intros Hm H d Hd. destruct (Hm d Hd) as (a & d1 & E & HR). exists a, d1. auto. Qed.

Lemma does_gets (f : dtree -> A) (g : core -> A) c Q :
  (forall d, f d = g (core_of d)) -> Q (g c) c -> does (gets f) c Q.
Proof. intros H HQ d <-. exists (f d), d. split; [done|by rewrite H]. Qed.

Lemma does_gets_any (f : dtree -> A) c (Q : A -> core -> Prop) : (forall a, Q a c) -> does (gets f) c Q.
Proof. intros H d <-. by exists (f d), d. Qed.

Lemma does_modify (f : dtree -> dtree) (g : core -> core) c (Q : unit -> core -> Prop) :
  (forall d, core_of (f d) = g (core_of d)) -> Q tt (g c) -> does (modify f) c Q.
Proof. intros H HQ d <-. exists tt, (f d). split; [done|by rewrite H]. Qed.

Lemma does_deref (a : A) c (Q : A -> core -> Prop) : Q a c -> does (deref (Some a)) c Q.
Proof. apply does_ret. Qed.

Lemma does_ksys (f : sysw -> A * sysw) c (Q : A -> core -> Prop) :
  Q (fst (f (c_sys c))) (with_sys (snd (f (c_sys c))) c) -> does (ksys f) c Q.
Proof.
  intros H d <-. unfold ksys. cbn in H. destruct (f (sysk d)) as [a k]. by exists a, (set_sysk k d).
Qed.

End Rules.

Lemma does_when (b : bool) (m : M dtree unit) c (Q : unit -> core -> Prop) :
  (if b then does m c Q else Q tt c) -> does (mwhen b m) c Q.
Proof. destruct b; cbn; [done|apply does_ret]. Qed.

Lemma does_printf t c (Q : unit -> core -> Prop) : Q tt c -> does (printf t) c Q.
Proof. apply does_modify with (g := id); done. Qed.

Lemma does_log v t c (Q : unit -> core -> Prop) : Q tt c -> does (logMessage v t) c Q.
Proof.
  intros HQ d <-. unfold logMessage, mwhen, eprintf, logprintf.
  destruct d as [o f ? ? ? ? ? ? ? ? ? ? ? ?], ((v =? 0) || flag v (verboseMask o)) eqn:E, f; unfold bind, gets, modify, ret;
    cbn; rewrite E; (eexists tt, _; split; [reflexivity|exact HQ]).
Qed.

(** Running a function one step at a time. *)
Ltac does_gets_step :=
  first [ refine (does_gets _ (fun c => c_cache c) _ _ (fun _ => eq_refl) _)
        | refine (does_gets _ (fun c => c_opt c) _ _ (fun _ => eq_refl) _)
        | refine (does_gets _ (fun c => c_roots c) _ _ (fun _ => eq_refl) _)
        | refine (does_gets _ (fun c => c_reinit c) _ _ (fun _ => eq_refl) _)
        | refine (does_gets _ (fun c => c_lines c) _ _ (fun _ => eq_refl) _)
        | refine (does_gets _ (fun c => s_files (c_sys c)) _ _ (fun _ => eq_refl) _)
        | refine (does_gets _ (fun c => s_inst (c_sys c)) _ _ (fun _ => eq_refl) _) ].

(** One statement: what is left is what follows it. *)
Ltac does_prim :=
  lazymatch goal with
  | |- does (ret _) _ _ => apply does_ret
  | |- does (gets _) _ _ => does_gets_step
  | |- does (logMessage _ _) _ _ => apply does_log
  | |- does (printf _) _ _ => apply does_printf
  | |- does (deref (Some _)) _ _ => apply does_deref
  | |- does (ksys _) _ _ => apply does_ksys
  | |- does (mwhen _ _) _ _ => apply does_when
  end.

Ltac does_step :=
  lazymatch goal with
  | |- does (bind _ _) _ _ => apply does_bind; try does_prim
  | _ => does_prim
  end; cbv beta.

Ltac does_steps := repeat does_step; cbv beta.

(** ** The cache represents a map *)

(** Each slot is empty or one of the map's entries, and each entry has one slot. *)
Record holds (l : list watch) (m : gmap Z path) : Prop := {
  h_slot : forall j x, l !! j = Some x -> x = mk_watch (-1) [] \/ 0 <= wd x /\ m !! wd x = Some (wpath x);
  h_entry : forall w p, m !! w = Some p -> 0 <= w /\ exists j, l !! j = Some (mk_watch w p);
  h_once : forall j j' x x', l !! j = Some x -> l !! j' = Some x' -> wd x = wd x' -> 0 <= wd x -> j = j'
}.

Lemma holds_nil : holds [] ∅.
Proof. split; [by intros [] ?|by intros w p ?%lookup_empty_Some|by intros []]. Qed.

Section Find.
Context (f : watch -> bool).

Lemma slot_loop_spec k l :
  0 <= k -> (exists j x, find_loop f k l = k + Z.of_nat j /\ l !! j = Some x /\ f x = true)
  \/ find_loop f k l = -1 /\ forall j x, l !! j = Some x -> f x = false.
Proof.
  revert k. induction l as [|x l IH]; intros k Hk; cbn; [right; done|].
  destruct (f x) eqn:E; [left; exists 0%nat, x; cbn; split; [lia|done]|].
  destruct (IH (k + 1)) as [(j & y & -> & Hj & Hy)|[-> Hno]]; [lia|left; exists (S j), y; cbn; split; [lia|done]|right].
  split; [done|]. intros [|j] y; cbn; [naive_solver|apply Hno].
Qed.

End Find.

Lemma zlookup_nat {A} (l : list A) (j : nat) : zlookup l (Z.of_nat j) = l !! j.
Proof. rewrite zlookup_nonneg by lia. by rewrite Nat2Z.id. Qed.

Lemma does_slot_at c j x (Q : watch -> core -> Prop) : c_cache c !! j = Some x -> Q x c -> does (slot_at (Z.of_nat j)) c Q.
Proof. intros Hj HQ. unfold slot_at. does_step. rewrite zlookup_nat, Hj. by apply does_deref. Qed.

Lemma does_set_slot c j x (Q : unit -> core -> Prop) :
  (j < length (c_cache c))%nat -> Q tt (with_cache (<[j := x]> (c_cache c)) c) -> does (set_slot (Z.of_nat j) x) c Q.
Proof.
  intros Hj HQ. unfold set_slot. does_step. rewrite zupdate_range by lia. rewrite Nat2Z.id. does_step.
  by apply does_modify with (g := with_cache (<[j := x]> (c_cache c))).
Qed.

(** *** Changes of slots *)

Definition empty_slot : watch := mk_watch (-1) [].

Lemma holds_insert l m j w p :
  holds l m -> l !! j = Some empty_slot -> 0 <= w -> m !! w = None -> holds (<[j := mk_watch w p]> l) (<[w := p]> m).
Proof.
  intros [Hs He Ho] Hj Hw Hm. pose proof (lookup_lt_Some _ _ _ Hj) as Hl. split.
  - intros i x [(-> & <- & _)|[Hne Hx]]%list_lookup_insert_Some; [right; cbn; split; [done|apply lookup_insert_eq]|].
    destruct (Hs i x Hx) as [|[? E]]; [by left|right]. split; [done|]. rewrite lookup_insert_ne by congruence. done.
  - intros w' p' [[<- <-]|[Hne E]]%lookup_insert_Some; [split; [done|exists j; by rewrite list_lookup_insert_eq]|].
    destruct (He w' p' E) as [? [i Hi]]. split; [done|]. exists i. rewrite list_lookup_insert_ne; [done|]. intros <-.
    rewrite Hj in Hi. injection Hi as <- _. lia.
  - assert (forall i x, i <> j -> l !! i = Some x -> wd x = w -> False) as Hno.
    { intros i x _ Hx E. destruct (Hs i x Hx) as [->|[_ E']]; [cbn in E; lia|congruence]. }
    intros i i' x x' [(-> & <- & _)|[Hn Hx]]%list_lookup_insert_Some [(-> & <- & _)|[Hn' Hx']]%list_lookup_insert_Some; cbn;
      [done|intros E _; exfalso; by eapply Hno|intros E _; exfalso; by eapply Hno|by eapply Ho].
Qed.

Lemma holds_delete l m j x :
  holds l m -> l !! j = Some x -> 0 <= wd x -> holds (<[j := empty_slot]> l) (delete (wd x) m).
Proof.
  intros [Hs He Ho] Hj Hw. split.
  - intros i y [(-> & <- & _)|[Hne Hy]]%list_lookup_insert_Some; [by left|].
    destruct (Hs i y Hy) as [|[? E]]; [by left|right]. split; [done|]. rewrite lookup_delete_ne; [done|].
    intros E'. apply Hne. by eapply Ho.
  - intros w p [Hne E]%lookup_delete_Some. destruct (He w p E) as [? [i Hi]]. split; [done|]. exists i.
    rewrite list_lookup_insert_ne; [done|]. intros <-. rewrite Hj in Hi. by injection Hi as ->.
  - intros i i' y y' [(-> & <- & _)|[Hn Hy]]%list_lookup_insert_Some [(-> & <- & _)|[Hn' Hy']]%list_lookup_insert_Some; cbn;
      [done|lia|lia|by eapply Ho].
Qed.

Lemma holds_grow l m n : holds l m -> holds (l ++ replicate n empty_slot) m.
Proof.
  intros [Hs He Ho].
  assert (forall j x, (l ++ replicate n empty_slot) !! j = Some x -> l !! j = Some x \/ x = empty_slot) as H.
  { intros j x [|[_ Hx]]%lookup_app_Some; [by left|right]. by apply lookup_replicate in Hx as [-> _]. }
  split.
  - intros j x [Hx| ->]%H; [by eapply Hs|by left].
  - intros w p Hw. destruct (He w p Hw) as [? [j Hj]]. split; [done|]. exists j. by apply lookup_app_l_Some.
  - intros i i' y y' [Hy| ->]%H [Hy'| ->]%H; cbn; [by eapply Ho|lia..].
Qed.

(** Names changed in all slots, those of empty slots apart. *)
Lemma holds_fmap l m (f : path -> path) :
  holds l m -> f [] = [] -> holds ((fun x => mk_watch (wd x) (f (wpath x))) <$> l) (f <$> m).
Proof.
  intros [Hs He Ho] Hf. split.
  - intros j x. rewrite list_lookup_fmap. intros (y & Hy & ->)%fmap_Some. destruct (Hs j y Hy) as [->|[? E]]; [left; cbn; by rewrite Hf|right].
    cbn. split; [done|]. by rewrite lookup_fmap, E.
  - intros w p. rewrite lookup_fmap. intros (q & Hq & ->)%fmap_Some. destruct (He w q Hq) as [? [j Hj]]. split; [done|].
    exists j. by rewrite list_lookup_fmap, Hj.
  - intros i i' x x'. rewrite !list_lookup_fmap. intros (y & Hy & ->)%fmap_Some (y' & Hy' & ->)%fmap_Some. cbn. by apply Ho.
Qed.

(** *** Looking for a slot *)

Lemma find_wd l m w p :
  holds l m -> m !! w = Some p -> exists j, find_loop (fun x => wd x =? w) 0 l = Z.of_nat j /\ l !! j = Some (mk_watch w p).
Proof.
  intros H Hw. destruct (h_entry _ _ H w p Hw) as [Hp [j Hj]].
  destruct (slot_loop_spec (fun x => wd x =? w) 0 l ltac:(lia)) as [(i & x & -> & Hi & E)|[_ Hno]].
  - apply Z.eqb_eq in E. exists i. split; [done|]. rewrite Hi. rewrite (h_once _ _ H i j x _ Hi Hj) in Hi by (cbn; lia). congruence.
  - specialize (Hno j _ Hj). cbn in Hno. lia.
Qed.

Lemma find_wd_none l m w : holds l m -> 0 <= w -> m !! w = None -> find_loop (fun x => wd x =? w) 0 l = -1.
Proof.
  intros H Hp Hw. destruct (slot_loop_spec (fun x => wd x =? w) 0 l ltac:(lia)) as [(i & x & -> & Hi & E)|[-> _]]; [exfalso|done].
  apply Z.eqb_eq in E. subst w. destruct (h_slot _ _ H i x Hi) as [->|[_ E]]; [cbn in Hp; lia|congruence].
Qed.

Lemma find_path l m p :
  holds l m -> (0 <=? find_loop (fun x => (0 <=? wd x) && bool_decide (wpath x = p)) 0 l) = true <-> exists w, m !! w = Some p.
Proof.
  intros H. destruct (slot_loop_spec (fun x => (0 <=? wd x) && bool_decide (wpath x = p)) 0 l ltac:(lia)) as [(i & x & -> & Hi & E)|[-> Hno]].
  - rewrite andb_true_iff, bool_decide_eq_true in E. destruct E as [E <-]. split; [intros _|intros _; apply Z.leb_le; lia].
    destruct (h_slot _ _ H i x Hi) as [->|[_ ?]]; [done|by exists (wd x)].
  - split; [done|]. intros [w Hw]. destruct (h_entry _ _ H w p Hw) as [Hp [j Hj]]. specialize (Hno j _ Hj). cbn in Hno.
    apply andb_false_iff in Hno as [?|Hno]; [lia|]. by apply bool_decide_eq_false in Hno.
Qed.
