(* ===== verification/DtTree.v ===== *)
(** * inotify_dtree: watching trees

    The cache and the watches of the kernel are tied to each other, and the
    functions that add and remove whole subtrees keep them so. *)

From stdpp Require Import prelude list_numbers strings gmap.
From Stdlib Require Import ZArith Lia.
From S2P Require Import Prelude CLib Vfs TlpiLib DtWorld DtFiles DtCache DtProg DtSpec.
Open Scope Z_scope.
Set Warnings "-clear-no-such-hyp".

(** ** The tie *)

(** What is watched on a directory: a root has one more event. *)
Definition mask_of (roots : list (option path)) (p : path) : Z :=
  let m := Z.lor IN_CREATE (Z.lor IN_MOVED_FROM (Z.lor IN_MOVED_TO IN_DELETE_SELF)) in
  Z.lor (if bool_decide (Some p ∈ roots) then Z.lor m IN_MOVE_SELF else m) IN_ONLYDIR.

(** The directories in [S], names with their inodes, are the ones with a watch, and
    the map has their names. *)
Record mirror (S : path -> Z -> Prop) (roots : list (option path)) (m : gmap Z path) (i : inst) : Prop := {
  r_map : forall w p, m !! w = Some p <-> exists ino k, S p ino /\ i_watches i !! ino = Some (w, k);
  r_mask : forall p ino, S p ino -> exists w, i_watches i !! ino = Some (w, mask_of roots p);
  r_back : forall ino x, i_watches i !! ino = Some x -> exists p, S p ino;
  r_inj : forall ino ino' w k k', i_watches i !! ino = Some (w, k) -> i_watches i !! ino' = Some (w, k') -> ino = ino';
  r_next : forall ino w k, i_watches i !! ino = Some (w, k) -> 1 <= w < i_next i;
  r_start : 1 <= i_next i
}.

Definition tied (S : path -> Z -> Prop) (roots : list (option path)) (l : list watch) (i : inst) : Prop :=
  exists m, holds l m /\ mirror S roots m i.

(** A name has one inode and an inode one name. *)
Definition one_to_one (S : path -> Z -> Prop) : Prop :=
  (forall p ino ino', S p ino -> S p ino' -> ino = ino') /\ (forall p p' ino, S p ino -> S p' ino -> p = p').

Definition dir_at (fs : files) (p : path) (ino : Z) : Prop := fs !! p = Some (ino, Dir).

Lemma dirs_one_to_one fs next : files_ok fs next -> one_to_one (dir_at fs).
Proof.
  intros Hok. split; unfold dir_at; [congruence|]. intros p p' ino Hp Hp'. symmetry. by eapply (f_inode _ _ Hok).
Qed.

Lemma one_to_one_sub (S S' : path -> Z -> Prop) : (forall p ino, S p ino -> S' p ino) -> one_to_one S' -> one_to_one S.
Proof. intros H [H1 H2]. split; eauto. Qed.

Lemma mirror_ext (S S' : path -> Z -> Prop) roots m i :
  (forall p ino, S p ino <-> S' p ino) -> mirror S roots m i -> mirror S' roots m i.
Proof.
  intros H [Hm Hk Hb Hi Hn Hs]. split; [| | |done..].
  - intros w p. rewrite Hm. by setoid_rewrite H.
  - intros p ino Hp%H. by apply Hk.
  - intros ino x Hx. destruct (Hb ino x Hx) as [p Hp]. exists p. by apply H.
Qed.

Lemma tied_ext S S' roots l i : (forall p ino, S p ino <-> S' p ino) -> tied S roots l i -> tied S' roots l i.
Proof. intros H (m & Hl & Hm). exists m. split; [done|]. by eapply mirror_ext. Qed.

Lemma mirror_queue S roots m i q : mirror S roots m i -> mirror S roots m (set_i_queue q i).
Proof. by intros []. Qed.

Lemma tied_queue S roots l i q : tied S roots l i -> tied S roots l (set_i_queue q i).
Proof. intros (m & Hl & Hm). exists m. split; [done|]. by apply mirror_queue. Qed.

Lemma tied_none roots : tied (fun _ _ => False) roots [] (mk_inst ∅ 1 []).
Proof.
  exists ∅. split; [apply holds_nil|]. split; cbn; [|done|..|lia].
  - intros w p. rewrite lookup_empty. split; [done|]. by intros (? & ? & [] & _).
  - intros ? ?. by rewrite lookup_empty.
  - intros ? ? ? ? ?. by rewrite lookup_empty.
  - intros ? ? ?. by rewrite lookup_empty.
Qed.

(** One more directory. *)
Definition plus (S : path -> Z -> Prop) (p : path) (ino : Z) : path -> Z -> Prop :=
  fun q k => S q k \/ q = p /\ k = ino.

Lemma mirror_new S roots m i p ino :
  one_to_one (plus S p ino) -> mirror S roots m i -> i_watches i !! ino = None ->
  mirror (plus S p ino) roots (<[i_next i := p]> m)
    (mk_inst (<[ino := (i_next i, mask_of roots p)]> (i_watches i)) (i_next i + 1) (i_queue i)).
Proof.
  intros [H1 H2] [Hm Hk Hb Hi Hn Hs] Hw.
  assert (forall q k, S q k -> k <> ino) as Hne.
  { intros q k Hq ->. destruct (Hk q ino Hq) as [w E]. congruence. }
  split; cbn; [| | | | |lia].
  - intros w q. rewrite lookup_insert_Some, Hm. split.
    + intros [[<- <-]|[Hd (k & a & Hq & E)]]; [exists ino, (mask_of roots p); split; [by right|apply lookup_insert_eq]|].
      exists k, a. split; [by left|]. rewrite lookup_insert_ne; [done|]. intros <-. by eapply Hne.
    + intros (k & a & Hq & [[<- [= <- <-]]|[Hd E]]%lookup_insert_Some).
      * left. split; [done|]. destruct Hq as [Hq|[-> _]]; [by destruct (Hne _ _ Hq)|done].
      * right. destruct Hq as [Hq|[-> ->]]; [|congruence]. split; [|by exists k, a]. apply Hn in E. lia.
  - intros q k [Hq|[-> ->]]; [|eexists; apply lookup_insert_eq]. destruct (Hk q k Hq) as [w E]. exists w.
    rewrite lookup_insert_ne; [done|]. intros <-. by eapply Hne.
  - intros k x [[<- _]|[_ E]]%lookup_insert_Some; [exists p; by right|]. destruct (Hb k x E) as [q Hq]. exists q. by left.
  - intros k k' w a a' [[<- [= <- <-]]|[_ E]]%lookup_insert_Some [[<- E']|[_ E']]%lookup_insert_Some; [done| | |by eapply Hi].
    + apply Hn in E'. lia.
    + injection E' as <- <-. apply Hn in E. lia.
  - intros k w a [[<- [= <- <-]]|[_ E]]%lookup_insert_Some; [lia|]. apply Hn in E. lia.
Qed.

(** A directory that is watched already. *)
Lemma mirror_again S roots m i p ino x :
  one_to_one (plus S p ino) -> mirror S roots m i -> i_watches i !! ino = Some x ->
  S p ino /\ x = (fst x, mask_of roots p) /\ m !! fst x = Some p.
Proof.
  intros [H1 H2] [Hm Hk Hb Hi Hn Hs] Hx. destruct (Hb ino x Hx) as [q Hq].
  assert (q = p) as -> by (apply (H2 q p ino); [by left|by right]). destruct (Hk p ino Hq) as [w E].
  split; [done|]. rewrite Hx in E. injection E as ->. split; [done|]. apply Hm. by exists ino, (mask_of roots p).
Qed.

Lemma mirror_fresh S roots m i : mirror S roots m i -> m !! i_next i = None.
Proof.
  intros H. destruct (m !! i_next i) as [p|] eqn:E; [exfalso|done]. apply (r_map _ _ _ _ H) in E as (ino & k & _ & E).
  apply (r_next _ _ _ _ H) in E. lia.
Qed.

(** Some directories less. *)
Lemma mirror_less S roots m i p ino w k :
  one_to_one S -> mirror S roots m i -> S p ino -> i_watches i !! ino = Some (w, k) -> forall q,
  mirror (fun x y => S x y /\ y <> ino) roots (delete w m) (mk_inst (delete ino (i_watches i)) (i_next i) q).
Proof.
  intros [H1 H2] [Hm Hk Hb Hi Hn Hs] Hp Hw qu. split; cbn; [| | | | |done].
  - intros v q. rewrite lookup_delete_Some, Hm. split.
    + intros [Hd (j & a & Hq & E)]. assert (j <> ino) as Hne by congruence. exists j, a. by rewrite lookup_delete_ne.
    + intros (j & a & [Hq Hne] & [_ E]%lookup_delete_Some). split; [|by exists j, a]. intros <-. apply Hne. by eapply Hi.
  - intros q j [Hq Hne]. rewrite lookup_delete_ne by done. by apply Hk.
  - intros j x [Hne E]%lookup_delete_Some. destruct (Hb j x E) as [q Hq]. exists q. done.
  - intros j j' v a a' [_ E]%lookup_delete_Some [_ E']%lookup_delete_Some. by eapply Hi.
  - intros j v a [_ E]%lookup_delete_Some. by eapply Hn.
Qed.

(** ** Functions of the cache *)

(** The state with another cache and instance. *)
Definition at_ (c : core) (l : list watch) (i : inst) : core :=
  mk_core (c_opt c) l (c_roots c) (c_ignore c) (c_reinit c) (c_lines c) (set_s_inst (Some i) (c_sys c)).

Lemma root_loop_spec p j l : is_Some (root_loop p j l) <-> Some p ∈ l.
Proof.
  revert j. induction l as [|[r|] l IH]; intros j; cbn; [rewrite elem_of_nil; by split; [intros []|]| |].
  - rewrite elem_of_cons. case_bool_decide as E; [subst r; split; [by left|by eexists]|]. rewrite IH. split; [by right|].
    intros [[= ->]|?]; done.
  - rewrite IH, elem_of_cons. split; [by right|]. by intros [|].
Qed.

Section Functions.
Context `{libc} `{nftw_order} (garbage : Z -> watch).
Implicit Types (c : core) (l : list watch) (i : inst) (m : gmap Z path) (p : path).

Lemma does_isRootDirPath c p (Q : bool -> core -> Prop) :
  Q (bool_decide (Some p ∈ c_roots c)) c -> does (isRootDirPath p) c Q.
Proof.
  intros HQ. unfold isRootDirPath, findRootDirPath. does_steps.
  rewrite (bool_decide_ext _ (Some p ∈ c_roots c)); [exact HQ|apply root_loop_spec].
Qed.

Lemma does_findWatch c w (Q : Z -> core -> Prop) :
  Q (find_loop (fun x => wd x =? w) 0 (c_cache c)) c -> does (findWatch w) c Q.
Proof. intros HQ. unfold findWatch. by does_steps. Qed.

Lemma does_findWatchChecked c w m p (Q : Z -> core -> Prop) :
  holds (c_cache c) m -> m !! w = Some p ->
  (forall j, c_cache c !! j = Some (mk_watch w p) -> Q (Z.of_nat j) c) -> does (findWatchChecked w) c Q.
Proof.
  intros Hl Hw HQ. destruct (find_wd _ _ _ _ Hl Hw) as (j & E & Hj). unfold findWatchChecked. apply does_bind, does_findWatch.
  rewrite E. destruct (Z.leb_spec 0 (Z.of_nat j)); [|lia]. by apply does_ret, HQ.
Qed.

Lemma does_mark c l i j x (Q : unit -> core -> Prop) :
  l !! j = Some x -> Q tt (at_ c (<[j := empty_slot]> l) i) -> does (markCacheSlotEmpty (Z.of_nat j)) (at_ c l i) Q.
Proof.
  intros Hj HQ. unfold markCacheSlotEmpty. apply does_bind. eapply does_slot_at; [exact Hj|]. does_step.
  apply does_set_slot; [by eapply lookup_lt_Some|]. done.
Qed.

Lemma does_pathnameInCache c m p (Q : bool -> core -> Prop) :
  holds (c_cache c) m -> (forall b, b = true <-> (exists w, m !! w = Some p) -> Q b c) -> does (pathnameInCache p) c Q.
Proof.
  intros Hl HQ. unfold pathnameInCache, pathnameToCacheSlot. does_steps. apply HQ. by apply find_path.
Qed.

(** Growing the array empties the new slots. *)
Lemma does_empty_loop c l i n k (Q : unit -> core -> Prop) :
  (k + n <= length l)%nat -> Q tt (at_ c (take k l ++ replicate n empty_slot ++ drop (k + n) l) i) ->
  does (empty_loop n (Z.of_nat k)) (at_ c l i) Q.
Proof.
  revert k l. induction n as [|n IH]; intros k l Hl HQ; cbn.
  - apply does_ret. rewrite Nat.add_0_r in HQ. cbn in HQ. by rewrite take_drop in HQ.
  - destruct (lookup_lt_is_Some_2 l k) as [x Hx]; [lia|]. apply does_bind. eapply does_mark; [exact Hx|].
    replace (Z.of_nat k + 1) with (Z.of_nat (S k)) by lia. apply IH; [rewrite length_insert; lia|].
    rewrite (take_S_r _ _ empty_slot) by (apply list_lookup_insert_eq; lia). rewrite take_insert_ge by lia.
    rewrite drop_insert_lt by lia. rewrite <- app_assoc. replace (S k + n)%nat with (k + S n)%nat by lia. exact HQ.
Qed.

Lemma does_findEmptyCacheSlot c l i m (Q : Z -> core -> Prop) :
  s_script (c_sys c) = [] -> holds l m ->
  (forall j l', holds l' m -> l' !! j = Some empty_slot -> Q (Z.of_nat j) (at_ c l' i)) ->
  does (findEmptyCacheSlot garbage) (at_ c l i) Q.
Proof.
  intros Hs Hl HQ. unfold findEmptyCacheSlot. does_step. cbn [at_ c_cache].
  destruct (slot_loop_spec (fun x => wd x =? -1) 0 l ltac:(lia)) as [(j & x & -> & Hj & E)|[-> _]].
  - destruct (Z.leb_spec 0 (0 + Z.of_nat j)); [|lia]. apply does_ret. apply HQ; [done|]. rewrite Hj.
    destruct (h_slot _ _ Hl j x Hj) as [->|[? _]]; [done|]. apply Z.eqb_eq in E. lia.
  - cbn [Z.leb Z.compare]. does_step. unfold next_error. cbn [at_ c_sys s_script set_s_inst]. rewrite Hs. cbn [fst snd Z.eqb negb].
    apply does_bind. set (g := map garbage _). 
    apply does_modify with (g := with_cache (l ++ g)); [done|]. apply does_bind.
    replace (Z.of_nat (length l) + ALLOC_INCR - ALLOC_INCR) with (Z.of_nat (length l)) by lia.
    assert (length g = Z.to_nat ALLOC_INCR) as Hg by (unfold g; rewrite length_map, length_seqZ; done).
    apply (does_empty_loop c (l ++ g) i); [rewrite length_app, Hg; lia|]. apply does_ret.
    rewrite take_app_length, drop_ge, app_nil_r by (rewrite length_app, Hg; lia).
    apply HQ; [by apply holds_grow|]. rewrite lookup_app_r, Nat.sub_diag by lia. done.
Qed.

Lemma does_addWatchToCache c l i m w p (Q : Z -> core -> Prop) :
  s_script (c_sys c) = [] -> holds l m -> 0 <= w -> m !! w = None -> Z.of_nat (length p) < PATH_MAX ->
  (forall n l', holds l' (<[w := p]> m) -> Q n (at_ c l' i)) -> does (addWatchToCache garbage w p) (at_ c l i) Q.
Proof.
  intros Hs Hl Hw Hm Hp HQ. unfold addWatchToCache. apply does_bind. eapply does_findEmptyCacheSlot; [done|done|].
  intros j l' Hl' Hj. apply does_bind. apply does_set_slot; [by eapply lookup_lt_Some|]. apply does_ret.
  unfold store_path. rewrite take_ge by (unfold PATH_MAX in *; lia). apply (HQ _ (<[j := mk_watch w p]> l')).
  by apply holds_insert.
Qed.

(** ** Adding a tree *)

Lemma does_traverse_file c p (Q : unit -> core -> Prop) : Q tt c -> does (traverseTree garbage p File) c Q.
Proof. apply does_ret. Qed.

Lemma does_traverse_dir c l i S p ino (Q : unit -> core -> Prop) :
  s_script (c_sys c) = [] -> tied S (c_roots c) l i -> dir_at (s_files (c_sys c)) p ino ->
  one_to_one (plus S p ino) -> Z.of_nat (length p) < PATH_MAX ->
  (forall l' i', tied (plus S p ino) (c_roots c) l' i' -> i_queue i' = i_queue i -> Q tt (at_ c l' i')) ->
  does (traverseTree garbage p Dir) (at_ c l i) Q.
Proof.
  intros Hs (m & Hl & Hm) Hd H11 Hp HQ. unfold traverseTree. cbn [bool_decide decide_rel negb]. rewrite bool_decide_eq_true_2 by done. cbn [negb].
  apply does_bind, does_isRootDirPath. cbn [at_ c_roots]. 
  match goal with |- context [sys_add p ?k] => change k with (mask_of (c_roots c) p) end. does_step.
  unfold sys_add, next_error. cbn [at_ c_sys s_script set_s_inst]. rewrite Hs. cbn [Z.eqb].
  unfold sys_add_watch. cbn [s_inst s_files set_s_inst]. rewrite Hd. destruct (i_watches i !! ino) as [[w k]|] eqn:Ew; cbn [fst snd].
  - destruct (mirror_again _ _ _ _ _ _ _ H11 Hm Ew) as (HS & [= ->] & Hw). cbn [fst] in *. apply does_bind, does_findWatch.
    destruct (find_wd _ _ _ _ Hl Hw) as (j & E & Hj). cbn [with_sys at_ c_cache]. rewrite E.
    destruct (Z.leb_spec 0 (Z.of_nat j)); [|lia]. apply does_log. rewrite insert_id by done.
    apply (HQ l (set_i_watches (i_watches i) i)); [|done]. exists m. split; [done|]. apply (mirror_ext S); [|by destruct i].
    intros q z. split; [by left|]. by intros [|[-> ->]].
  - pose proof (mirror_fresh _ _ _ _ Hm) as Hf. pose proof (r_start _ _ _ _ Hm) as H1. apply does_bind, does_findWatch.
    cbn [with_sys at_ c_cache]. rewrite (find_wd_none l m) by (try done; lia). cbn [Z.leb Z.compare].
    apply does_bind. apply does_modify with (g := id); [done|]. unfold id. apply does_bind.
    eapply does_addWatchToCache with (m := m); [done|done|lia|done|done|]. intros n l' Hl'. apply does_log.
    apply HQ; [|done]. exists (<[i_next i := p]> m). split; [done|]. by apply mirror_new.
Qed.

(** The directories of a list of files. *)
Definition plus_list (fs : files) (S : path -> Z -> Prop) (t : list (path * kind)) : path -> Z -> Prop :=
  fun p ino => S p ino \/ (p, Dir) ∈ t /\ dir_at fs p ino.

Lemma does_nftw_loop c l i S t (Q : unit -> core -> Prop) :
  s_script (c_sys c) = [] -> files_ok (s_files (c_sys c)) (s_next_ino (c_sys c)) -> tied S (c_roots c) l i ->
  (forall p ino, S p ino -> dir_at (s_files (c_sys c)) p ino) ->
  (forall p kd, (p, kd) ∈ t -> exists ino, s_files (c_sys c) !! p = Some (ino, kd)) ->
  (forall l' i', tied (plus_list (s_files (c_sys c)) S t) (c_roots c) l' i' -> i_queue i' = i_queue i -> Q tt (at_ c l' i')) ->
  does (nftw_loop garbage t) (at_ c l i) Q.
Proof.
  intros Hs Hok. set (fs := s_files (c_sys c)) in *. revert S l i. induction t as [|[p kd] t IH]; intros S l i Ht HS Hf HQ; cbn.
  - apply does_ret, HQ; [|done]. eapply tied_ext; [|exact Ht]. intros q z. unfold plus_list. rewrite elem_of_nil. split; [by left|by intros [|[[] _]]].
  - apply does_bind. destruct (Hf p kd ltac:(by left)) as [ino E].
    assert (forall q a, (q, a) ∈ t -> exists z, fs !! q = Some (z, a)) as Hf' by (intros q a Hq; apply Hf; by right).
    destruct kd.
    + assert (forall q z, plus S p ino q z -> dir_at fs q z) as HS' by (intros q z [|[-> ->]]; [by apply HS|done]).
      eapply does_traverse_dir; [done|exact Ht|exact E| |by eapply (f_short _ _ Hok)|].
      { eapply one_to_one_sub; [exact HS'|]. by eapply dirs_one_to_one. }
      intros l' i' Ht' Hq. apply (IH (plus S p ino)); [done|done|done|]. intros l2 i2 Ht2 Hq2. apply HQ; [|congruence].
      eapply tied_ext; [|exact Ht2]. intros q z. unfold plus_list, plus. rewrite elem_of_cons. unfold dir_at in *. naive_solver.
    + apply does_traverse_file. apply (IH S); [done|done|done|]. intros l2 i2 Ht2 Hq2. apply HQ; [|done].
      eapply tied_ext; [|exact Ht2]. intros q z. unfold plus_list. rewrite elem_of_cons. naive_solver.
Qed.

Lemma elem_of_walk fs p q kd : (q, kd) ∈ walk fs p <-> below p q = true /\ exists ino, fs !! q = Some (ino, kd).
Proof.
  rewrite (walk_subtree fs p). unfold subtree. rewrite list_elem_of_fmap. split.
  - intros ([x [ino k]] & [= -> ->] & [Hb Hx%elem_of_map_to_list]%list_elem_of_filter). split; [done|by exists ino].
  - intros [Hb [ino E]]. exists (q, (ino, kd)). split; [done|]. apply list_elem_of_filter. split; [done|]. by apply elem_of_map_to_list.
Qed.

(** The directories in [S] and those at a name and below it. *)
Definition plus_tree (fs : files) (S : path -> Z -> Prop) (p : path) : path -> Z -> Prop :=
  fun q ino => S q ino \/ below p q = true /\ dir_at fs q ino.

Lemma does_watchSubtree c l i S p (Q : unit -> core -> Prop) :
  s_script (c_sys c) = [] -> files_ok (s_files (c_sys c)) (s_next_ino (c_sys c)) -> tied S (c_roots c) l i ->
  (forall q ino, S q ino -> dir_at (s_files (c_sys c)) q ino) ->
  (forall l' i', tied (plus_tree (s_files (c_sys c)) S p) (c_roots c) l' i' -> i_queue i' = i_queue i -> Q tt (at_ c l' i')) ->
  does (watchSubtree garbage p) (at_ c l i) Q.
Proof.
  intros Hs Hok Ht HS HQ. unfold watchSubtree, watchDir. apply does_bind, does_bind. apply does_modify with (g := id); [done|].
  unfold id. does_step. cbn [at_ c_sys s_files set_s_inst]. apply does_bind. set (fs := s_files (c_sys c)) in *.
  destruct (fs !! p) as [x|] eqn:E.
  - apply (does_nftw_loop _ _ _ S); [done|done|done|done|by intros q kd [_ ?]%elem_of_walk|].
    intros l' i' Ht' Hq. apply does_gets_any. intros cnt. apply does_log. apply HQ; [|done]. eapply tied_ext; [|exact Ht'].
    intros q z. unfold plus_list, plus_tree, dir_at, fs in *. rewrite elem_of_walk. naive_solver.
  - apply does_log. apply does_gets_any. intros cnt. apply does_log. apply HQ; [|done]. eapply tied_ext; [|exact Ht].
    intros q z. unfold plus_tree, dir_at. split; [by left|]. intros [|[Hb Hq]]; [done|exfalso].
    destruct (decide (q = p)) as [->|Hne]; [congruence|]. rewrite (nothing_below fs _ p q Hok) in Hq; [done| |done|done].
    intros [ino Hi]. congruence.
Qed.

(** What is to be watched: the directories below the roots. *)
Definition tracked (roots : list (option path)) (p : path) : Prop := exists r, Some r ∈ roots /\ below r p = true.

Definition tracked_dir (fs : files) (roots : list (option path)) : path -> Z -> Prop :=
  fun p ino => tracked roots p /\ dir_at fs p ino.

Lemma does_watch_roots c l i S rs (Q : unit -> core -> Prop) :
  s_script (c_sys c) = [] -> files_ok (s_files (c_sys c)) (s_next_ino (c_sys c)) -> tied S (c_roots c) l i ->
  (forall q ino, S q ino -> dir_at (s_files (c_sys c)) q ino) ->
  (forall l' i', tied (fun p ino => S p ino \/ tracked_dir (s_files (c_sys c)) rs p ino) (c_roots c) l' i' -> i_queue i' = i_queue i ->
     Q tt (at_ c l' i')) ->
  does (watch_roots garbage rs) (at_ c l i) Q.
Proof.
  intros Hs Hok. set (fs := s_files (c_sys c)) in *. revert S l i. induction rs as [|[r|] rs IH]; intros S l i Ht HS HQ; cbn.
  - apply does_ret, HQ; [|done]. eapply tied_ext; [|exact Ht]. intros q z. unfold tracked_dir, tracked. setoid_rewrite elem_of_nil. naive_solver.
  - apply does_bind. apply (does_watchSubtree c l i S); [done|done|done|done|]. fold fs. intros l' i' Ht' Hq.
    apply (IH (plus_tree fs S r)); [done|unfold plus_tree; naive_solver|]. intros l2 i2 Ht2 Hq2. apply HQ; [|congruence].
    eapply tied_ext; [|exact Ht2]. intros q z. unfold tracked_dir, tracked, plus_tree. setoid_rewrite elem_of_cons. naive_solver.
  - apply (IH S); [done|done|]. intros l2 i2 Ht2 Hq2. apply HQ; [|done].
    eapply tied_ext; [|exact Ht2]. intros q z. unfold tracked_dir, tracked. setoid_rewrite elem_of_cons. naive_solver.
Qed.

(** ** Building the cache anew *)

Lemma does_build c (b : bool) (Q : Z -> core -> Prop) :
  s_script (c_sys c) = [] -> files_ok (s_files (c_sys c)) (s_next_ino (c_sys c)) ->
  (forall l i, tied (tracked_dir (s_files (c_sys c)) (c_roots c)) (c_roots c) l i -> i_queue i = [] ->
     Q (s_fd (c_sys c)) (at_ c l i)) ->
  does (let* r := ksys sys_init in
    match r with
    | inl e => errExitM (lit "inotify_init") e
    | inr inotifyFd =>
        logMessage VB_BASIC (lit "    new inotifyFd = " ++ print_d inotifyFd ++ [10]) ;;;
        freeCache ;;;
        let* roots := gets rootDirPaths in
        watch_roots garbage roots ;;;
        let* l := gets wlCache in
        mwhen b (logMessage 0 (lit "Rebuilt cache with " ++ print_d (live_count l) ++ lit " entries" ++ [10])) ;;;
        ret inotifyFd
    end) c Q.
Proof.
  intros Hs Hok HQ. does_step. unfold sys_init, next_error. rewrite Hs. cbn [Z.eqb fst snd].
  does_step. apply does_bind. apply does_modify with (g := with_cache []); [done|]. does_step. apply does_bind.
  apply (does_watch_roots c [] (mk_inst ∅ 1 []) (fun _ _ => False)); [done|done|apply tied_none|done|].
  intros l i Ht Hq. does_step. apply does_bind, does_when.
  assert (tied (tracked_dir (s_files (c_sys c)) (c_roots c)) (c_roots c) l i) as Ht' by (eapply tied_ext; [|exact Ht]; naive_solver).
  destruct b; [apply does_log|]; apply does_ret; by apply HQ.
Qed.

Lemma does_reinitialize c fd (Q : Z -> core -> Prop) :
  s_script (c_sys c) = [] -> files_ok (s_files (c_sys c)) (s_next_ino (c_sys c)) ->
  (forall n l i, tied (tracked_dir (s_files (c_sys c)) (c_roots c)) (c_roots c) l i -> i_queue i = [] ->
     Q (s_fd (c_sys c)) (at_ (with_reinit n c) l i)) ->
  does (reinitialize garbage fd) c Q.
Proof.
  intros Hs Hok HQ. unfold reinitialize. apply does_bind. destruct (Z.leb_spec 0 fd).
  - do 2 does_step. cbn [sys_close fst snd]. apply does_modify with (g := fun c => with_reinit (c_reinit c + 1) c); [done|].
    do 2 does_step. destruct (fd =? s_fd (c_sys c)); refine (does_build _ _ _ _ _ _); try done; intros l i; apply HQ.
  - does_step. apply does_modify with (g := with_reinit 0); [done|]. refine (does_build _ _ _ _ _ _); [done..|]. intros l i. apply HQ.
Qed.

(** ** Changing names *)

Definition rename_slot (f g : path) (x : watch) : watch := mk_watch (wd x) (move f g (wpath x)).

Lemma does_rewrite_loop c l i f g n k (Q : unit -> core -> Prop) :
  (forall x, x ∈ drop k l -> Z.of_nat (length (move f g (wpath x))) < PATH_MAX) -> (k + n = length l)%nat ->
  Q tt (at_ c (take k l ++ map (rename_slot f g) (drop k l)) i) ->
  does (rewrite_loop n (Z.of_nat k) f g) (at_ c l i) Q.
Proof.
  revert k l. induction n as [|n IH]; intros k l Hshort Hl HQ; cbn.
  - apply does_ret. rewrite drop_ge, app_nil_r, take_ge in HQ by lia. exact HQ.
  - destruct (lookup_lt_is_Some_2 l k) as [x Hx]; [lia|]. apply does_bind. eapply does_slot_at; [exact Hx|].
    rewrite (drop_S l x k Hx) in Hshort. pose proof (Hshort x ltac:(by left)) as Hx'.
    assert (forall l', take (S k) l' = take k l ++ [rename_slot f g x] -> drop (S k) l' = drop (S k) l ->
      Q tt (at_ c (take (S k) l' ++ map (rename_slot f g) (drop (S k) l')) i)) as HQ'.
    { intros l' -> ->. rewrite (drop_S l x k Hx) in HQ. by rewrite <- app_assoc. }
    apply does_bind. replace (Z.of_nat k + 1) with (Z.of_nat (S k)) by lia. destruct (below f (wpath x)) eqn:Eb.
    + unfold move, rebase in Hx'. rewrite Eb in Hx'. set (t := g ++ drop (length f) (wpath x)) in *.
      assert (fit PATH_MAX t = t) as -> by (unfold fit; apply take_ge; unfold PATH_MAX in *; lia).
      assert (store_path t = t) as -> by (unfold store_path; apply take_ge; unfold PATH_MAX in *; lia).
      apply does_bind, does_when. destruct (Z.ltb_spec PATH_MAX (Z.of_nat (length t))); [lia|].
      apply does_bind. apply does_set_slot; [by eapply lookup_lt_Some|]. apply does_log. cbn [c_cache at_].
      apply (IH (S k) (<[k := mk_watch (wd x) t]> l)).
      * rewrite drop_insert_lt by lia. intros y Hy. apply Hshort. by right.
      * rewrite length_insert. lia.
      * apply HQ'; [|by rewrite drop_insert_lt by lia]. rewrite (take_S_r _ _ (mk_watch (wd x) t)) by (apply list_lookup_insert_eq; lia).
        rewrite take_insert_ge by lia. unfold rename_slot, move. by rewrite Eb.
    + apply does_ret. apply (IH (S k) l); [intros y Hy; apply Hshort; by right|lia|]. apply HQ'; [|done]. rewrite (take_S_r _ _ x) by done.
      unfold rename_slot, move. rewrite Eb. by destruct x.
Qed.

(** The names of a set of directories after a renaming. *)
Definition moved (S : path -> Z -> Prop) (f g : path) : path -> Z -> Prop :=
  fun p ino => exists x, S x ino /\ move f g x = p.

Lemma move_nil n f g : move (join f n) g [] = [].
Proof.
  unfold move. destruct (below (join f n) []) eqn:E; [|done]. apply below_length in E. unfold join in E. rewrite length_app in E. cbn in E. lia.
Qed.

Lemma mirror_moved S roots m i f g :
  mirror S roots m i ->
  (forall x, Some x ∈ roots -> below f x = false) -> (forall x, Some x ∈ roots -> below g x = false) ->
  mirror (moved S f g) roots (move f g <$> m) i.
Proof.
  intros [Hm Hk Hb Hi Hn Hs] Hf Hg. split; [| | |done..].
  - intros w p. rewrite lookup_fmap, fmap_Some. unfold moved. split.
    + intros (x & (ino & k & HS & E)%Hm & ->). exists ino, k. split; [by exists x|done].
    + intros (ino & k & (x & HS & <-) & E). exists x. split; [apply Hm; by exists ino, k|done].
  - intros p ino (x & HS & <-). destruct (Hk x ino HS) as [w E]. exists w. rewrite E. do 2 f_equal.
    unfold move. destruct (below f x) eqn:Ex; [|done]. unfold mask_of.
    rewrite (bool_decide_eq_false_2 (Some x ∈ roots)) by (intros Hr%Hf; congruence).
    rewrite (bool_decide_eq_false_2 (Some (rebase f g x) ∈ roots)); [done|]. intros Hr%Hg. by rewrite rebase_below in Hr.
  - intros ino x Hx. destruct (Hb ino x Hx) as [p Hp]. exists (move f g p), p. done.
Qed.

Lemma does_rewriteCachedPaths c l i S p n q nm (Q : unit -> core -> Prop) :
  tied S (c_roots c) l i ->
  Z.of_nat (length (join p n)) < PATH_MAX -> Z.of_nat (length (join q nm)) < PATH_MAX ->
  (forall x ino, S x ino -> Z.of_nat (length (move (join p n) (join q nm) x)) < PATH_MAX) ->
  (forall x, Some x ∈ c_roots c -> below (join p n) x = false) -> (forall x, Some x ∈ c_roots c -> below (join q nm) x = false) ->
  (forall l', tied (moved S (join p n) (join q nm)) (c_roots c) l' i -> Q tt (at_ c l' i)) ->
  does (rewriteCachedPaths p n q nm) (at_ c l i) Q.
Proof.
  intros (mp & Hl & Hm) Hf Hg Hshort Hrf Hrg HQ. unfold rewriteCachedPaths.
  assert (forall t, Z.of_nat (length t) < PATH_MAX -> fit PATH_MAX t = t) as Hfit
    by (intros t Ht; unfold fit; apply take_ge; unfold PATH_MAX in *; lia).
  rewrite !Hfit by done. do 2 does_step. cbn [at_ c_cache]. apply (does_rewrite_loop c l i _ _ _ 0); [|done|].
  - intros x [j Hx]%list_elem_of_lookup. destruct (h_slot _ _ Hl j x Hx) as [->|[_ Hw]]; [cbn; by rewrite move_nil|].
    apply (r_map _ _ _ _ Hm) in Hw as (ino & k & HS & _). by eapply Hshort.
  - apply (HQ (map (rename_slot (join p n) (join q nm)) l)). exists (move (join p n) (join q nm) <$> mp). split.
    + apply (holds_fmap l mp); [done|apply move_nil].
    + by apply mirror_moved.
Qed.

(** ** Removing a tree *)

Definition minus_tree (S : path -> Z -> Prop) (p : path) : path -> Z -> Prop :=
  fun q ino => S q ino /\ below p q = false.

Lemma watched_spec S roots m i ino w k :
  mirror S roots m i -> i_watches i !! ino = Some (w, k) -> watched w i = Some ino.
Proof.
  intros Hm Hw. unfold watched.
  destruct (find _ _) as [[ino' [w' k']]|] eqn:E.
  - apply find_some in E as [Hin E%Z.eqb_eq]. subst w'. apply list_elem_of_In, elem_of_map_to_list in Hin. cbn. f_equal.
    by eapply (r_inj _ _ _ _ Hm).
  - exfalso. apply elem_of_map_to_list, list_elem_of_In in Hw. eapply find_none in E; [|exact Hw]. cbn in E. lia.
Qed.

(** A directory less, in the cache and in the instance. *)
Lemma tied_less S roots l i j x :
  one_to_one S -> tied S roots l i -> l !! j = Some x -> 0 <= wd x ->
  exists ino k, S (wpath x) ino /\ i_watches i !! ino = Some (wd x, k) /\ watched (wd x) i = Some ino /\
  forall q, tied (fun p y => S p y /\ y <> ino) roots (<[j := empty_slot]> l) (mk_inst (delete ino (i_watches i)) (i_next i) q).
Proof.
  intros H11 (m & Hl & Hm) Hj Hx. destruct (h_slot _ _ Hl j x Hj) as [->|[_ E]]; [cbn in Hx; lia|].
  apply (r_map _ _ _ _ Hm) in E as (ino & k & HS & Ew). exists ino, k. split; [done|]. split; [done|].
  split; [by eapply watched_spec|]. intros q. exists (delete (wd x) m). split; [by eapply holds_delete|]. by eapply mirror_less.
Qed.

Lemma does_zap_loop c l i S p n k cnt (Q : Z -> core -> Prop) :
  one_to_one S -> tied S (c_roots c) l i -> (k + n = length l)%nat -> 0 <= cnt ->
  (forall j x, (j < k)%nat -> l !! j = Some x -> 0 <= wd x -> below p (wpath x) = false) ->
  (forall v l' i' ws, 0 <= v -> tied (minus_tree S p) (c_roots c) l' i' -> i_queue i' = i_queue i ++ map ignored ws -> Q v (at_ c l' i')) ->
  does (zap_loop n (Z.of_nat k) cnt (Some p)) (at_ c l i) Q.
Proof.
  revert S l i k cnt. induction n as [|n IH]; intros S l i k cnt H11 Ht Hl Hc Hdone HQ; cbn.
  - apply does_ret, (HQ cnt l i []); [done| |by rewrite app_nil_r]. eapply tied_ext; [|exact Ht]. intros q ino. unfold minus_tree.
    split; [|by intros []]. intros HS. split; [done|]. destruct Ht as (m & Hh & Hm). destruct (r_mask _ _ _ _ Hm q ino HS) as [w Ew].
    assert (m !! w = Some q) as Hw by (apply (r_map _ _ _ _ Hm); by exists ino, (mask_of (c_roots c) q)).
    destruct (h_entry _ _ Hh w q Hw) as [Hp [j Hj]]. apply (Hdone j (mk_watch w q)); [apply lookup_lt_Some in Hj; lia|done..].
  - destruct (lookup_lt_is_Some_2 l k) as [x Hx]; [lia|]. apply does_bind. eapply does_slot_at; [exact Hx|].
    assert (forall l', length l' = length l -> (forall j, (j < k)%nat -> l' !! j = l !! j) ->
      (forall y, l' !! k = Some y -> 0 <= wd y -> below p (wpath y) = false) ->
      forall j y, (j < Datatypes.S k)%nat -> l' !! j = Some y -> 0 <= wd y -> below p (wpath y) = false) as Hnext.
    { intros l' _ He Hk j y Hj Hy. destruct (decide (j = k)) as [->|Hne]; [by apply Hk|]. apply (Hdone j); [lia|]. rewrite <- He; [done|lia]. }
    replace (Z.of_nat k + 1) with (Z.of_nat (Datatypes.S k)) by lia. destruct (Z.leb_spec 0 (wd x)) as [Hw|Hw].
    + does_step. destruct (below p (wpath x)) eqn:Eb.
      * destruct (tied_less _ _ _ _ _ _ H11 Ht Hx Hw) as (ino & a & HS & Ew & Eo & Hless).
        do 2 does_step. unfold sys_rm_watch. cbn [at_ c_sys s_inst set_s_inst]. rewrite Eo. cbn [fst snd]. apply does_bind.
        apply (does_mark c l (mk_inst (delete ino (i_watches i)) (i_next i) (i_queue i ++ [ignored (wd x)])) k x); [done|].
        eapply (IH _ _ _ (Datatypes.S k)); [|apply Hless|rewrite length_insert; lia|lia| |].
        { eapply one_to_one_sub; [|exact H11]. by intros q y []. }
        { apply Hnext; [by rewrite length_insert|intros j Hj; apply list_lookup_insert_ne; lia|]. intros y.
          rewrite list_lookup_insert_eq by (by eapply lookup_lt_Some). intros [= <-]. cbn. lia. }
        intros v l' i' ws Hv Ht' Hq. apply (HQ v l' i' (wd x :: ws)); [done| |rewrite Hq; cbn; by rewrite <- app_assoc].
        eapply tied_ext; [|exact Ht']. intros q y. unfold minus_tree. split; [by intros [[? ?] ?]|]. intros [Hq' Hb]. split; [|done].
        split; [done|]. intros ->. rewrite (proj2 H11 q (wpath x) ino Hq' HS) in Hb. congruence.
      * eapply (IH S l i (Datatypes.S k)); [done|done|lia|done| |done]. apply Hnext; [done..|]. intros y Hy. rewrite Hx in Hy. by injection Hy as <-.
    + eapply (IH S l i (Datatypes.S k)); [done|done|lia|done| |done]. apply Hnext; [done..|]. intros y Hy. rewrite Hx in Hy. injection Hy as <-. lia.
Qed.

Lemma does_zapSubtree c l i S p (Q : Z -> core -> Prop) :
  s_script (c_sys c) = [] -> one_to_one S -> tied S (c_roots c) l i ->
  (forall v l' i' ws, 0 <= v -> tied (minus_tree S p) (c_roots c) l' i' -> i_queue i' = i_queue i ++ map ignored ws -> Q v (at_ c l' i')) ->
  does (zapSubtree p) (at_ c l i) Q.
Proof.
  intros Hs H11 Ht HQ. unfold zapSubtree. do 2 does_step. unfold next_error. cbn [at_ c_sys s_script set_s_inst].
  rewrite Hs. cbn [fst snd Z.eqb]. does_step. apply (does_zap_loop c l i S p _ 0); [done|done|done|done|lia|done].
Qed.

End Functions.
