(* ===== verification/DtSync.v ===== *)
(** * inotify_dtree: the cache follows the directories *)

From stdpp Require Import prelude list_numbers strings gmap.
From Stdlib Require Import ZArith Lia.
From S2P Require Import Prelude CLib Vfs TlpiLib DtWorld DtFiles DtCache DtProg DtMain DtSpec DtTree.
Open Scope Z_scope.
Set Warnings "-clear-no-such-hyp".

(** No command was typed, no call fails, and the options that look at the cache are
    off; reads ask for room for any event and not for more than there is. *)
Record calm (c : core) : Prop := {
  calm_check : checkCache (c_opt c) = false;
  calm_dump : dumpCache (c_opt c) = false;
  calm_buffer : readBufferSize (c_opt c) <= 0 \/ EVENT_SIZE + NAME_MAX + 1 <= readBufferSize (c_opt c) <= INOTIFY_READ_BUF_LEN;
  calm_script : s_script (c_sys c) = [];
  calm_lines : c_lines c = []
}.

(** A test that comes out as [b] on what is known. *)
Ltac branch b :=
  cbv zeta; match goal with |- does (if ?t then _ else _) _ _ => replace t with b by done; cbv iota end.

Section Events.
Context `{libc} `{nftw_order} (garbage : Z -> watch) (pointer : list Z -> list Z).
Implicit Types (c : core) (l : list watch) (i : inst) (p : path) (T : path -> Z -> Prop).

Local Abbreviation process := (processNextInotifyEvent garbage pointer).

Lemma does_display ev c (Q : unit -> core -> Prop) : Q tt c -> does (displayInotifyEvent ev) c Q.
Proof.
  intros HQ. unfold displayInotifyEvent.
  assert (forall b v t k (R : unit -> core -> Prop), R tt k -> does (mwhen b (logMessage v t)) k R) as Hw
    by (intros b v t k R HR; apply does_when; destruct b; [by apply does_log|done]).
  does_step. apply does_bind, Hw. does_step. apply does_bind.
  assert (forall ms (R : unit -> core -> Prop), R tt c -> does (display_mask (e_mask ev) ms) c R) as Hd.
  { induction ms as [|[b t] ms IH]; intros R HR; cbn; [by apply does_ret|]. apply does_bind, Hw. by apply IH. }
  apply Hd. does_step. by apply Hw.
Qed.

Lemma does_finish c fd t (Q : Z * consumed -> core -> Prop) : calm c -> Q (fd, t) c -> does (finish fd t) c Q.
Proof.
  intros Hc HQ. unfold finish. does_step. rewrite (calm_check _ Hc), (calm_dump _ Hc). do 2 (apply does_bind, does_when; cbv beta iota). by apply does_ret.
Qed.

Lemma calm_at c l i : calm c -> calm (at_ c l i).
Proof. by intros []. Qed.

(** The event's watch descriptor is the one of a directory in [T]. *)
Definition known T i (w : Z) (p : path) : Prop := exists ino k, T p ino /\ i_watches i !! ino = Some (w, k).

Lemma known_cached T roots i m w p : mirror T roots m i -> known T i w p -> m !! w = Some p /\ 1 <= w.
Proof.
  intros Hm (ino & k & HT & E). split; [apply (r_map _ _ _ _ Hm); by exists ino, k|]. apply (r_next _ _ _ _ Hm) in E. lia.
Qed.

(** Finding the slot of an event that is not [IN_IGNORED]. *)
Lemma does_process fd ev rest first c m p (Q : Z * consumed -> core -> Prop) :
  holds (c_cache c) m -> m !! e_wd ev = Some p -> flag (e_mask ev) IN_IGNORED = false ->
  (forall j, c_cache c !! j = Some (mk_watch (e_wd ev) p) ->
    let slot := Some (Z.of_nat j) in
    let mask := e_mask ev in
    does (if flag mask IN_ISDIR && flag mask (Z.lor IN_CREATE IN_MOVED_TO) then
      created_event garbage ev slot ;;; finish fd (Took 1)
    else if flag mask IN_DELETE_SELF then
      deleted_event ev slot ;;; finish fd (Took 1)
    else if Z.land mask (Z.lor IN_MOVED_FROM IN_ISDIR) =? Z.lor IN_MOVED_FROM IN_ISDIR then
      moved_event garbage pointer fd ev slot rest first
    else if flag mask IN_Q_OVERFLOW then overflow_event garbage fd
    else if flag mask IN_UNMOUNT then unmounted_event slot ;;; finish fd (Took 1)
    else if flag mask IN_MOVE_SELF then
      let* x := event_slot slot in
      let* root := isRootDirPath (wpath x) in
      if root then root_moved_event garbage fd slot else finish fd (Took 1)
    else finish fd (Took 1)) c Q) ->
  does (process fd ev rest first) c Q.
Proof.
  intros Hl Hw Hi HQ. unfold processNextInotifyEvent. apply does_bind, does_display.
  destruct (h_entry _ _ Hl _ _ Hw) as [Hp _]. rewrite Hi. destruct (Z.eqb_spec (e_wd ev) (-1)); [lia|]. cbn [negb andb].
  do 2 apply does_bind. eapply does_findWatchChecked; [done|done|]. intros j Hj. apply does_ret.
  rewrite bool_decide_eq_false_2 by (intros [= E]; lia). by apply HQ.
Qed.

Lemma does_event_slot c j x (Q : watch -> core -> Prop) : c_cache c !! j = Some x -> Q x c -> does (event_slot (Some (Z.of_nat j))) c Q.
Proof. intros Hj HQ. unfold event_slot. does_step. by eapply does_slot_at. Qed.

(** *** Events that change nothing *)

Definition inert T i (ev : event) : Prop :=
  e_mask ev = IN_IGNORED \/
  (exists p, known T i (e_wd ev) p) /\ (e_mask ev = IN_CREATE \/ e_mask ev = IN_MOVED_FROM \/ e_mask ev = IN_MOVED_TO).

Lemma does_inert fd ev rest first c l i T (Q : Z * consumed -> core -> Prop) :
  calm c -> tied T (c_roots c) l i -> inert T i ev -> Q (fd, Took 1) (at_ c l i) ->
  does (process fd ev rest first) (at_ c l i) Q.
Proof.
  intros Hc (m & Hl & Hm) [E|[[p Hk] E]] HQ.
  - unfold processNextInotifyEvent. apply does_bind, does_display. rewrite E. rewrite andb_false_r. does_step. do 7 branch false.
    apply does_finish; [by apply calm_at|done].
  - destruct (known_cached _ _ _ _ _ _ Hm Hk) as [Hw _].
    eapply does_process; [done|exact Hw|by destruct E as [-> |[-> | ->]]|]. intros j _.
    destruct E as [-> |[-> | ->]]; do 6 branch false; (apply does_finish; [by apply calm_at|done]).
Qed.

(** *** A new directory *)

Definition entry_event (w mask cookie : Z) (n : list Z) : event := mk_event w mask cookie (padded n) n.

Lemma does_created fd w mask ck n p rest first c l i T (Q : Z * consumed -> core -> Prop) :
  calm c -> files_ok (s_files (c_sys c)) (s_next_ino (c_sys c)) -> tied T (c_roots c) l i ->
  (forall q ino, T q ino -> dir_at (s_files (c_sys c)) q ino) -> known T i w p ->
  mask = Z.lor IN_CREATE IN_ISDIR \/ mask = Z.lor IN_MOVED_TO IN_ISDIR ->
  Z.of_nat (length (join p n)) < PATH_MAX -> (forall ino, ~ T (join p n) ino) ->
  (forall l' i', tied (plus_tree (s_files (c_sys c)) T (join p n)) (c_roots c) l' i' -> i_queue i' = i_queue i -> Q (fd, Took 1) (at_ c l' i')) ->
  does (process fd (entry_event w mask ck n) rest first) (at_ c l i) Q.
Proof.
  intros Hc Hok Ht HT Hk E Hs Hnew HQ. pose proof Ht as (m & Hl & Hm). destruct (known_cached _ _ _ _ _ _ Hm Hk) as [Hw _].
  eapply does_process; [done|exact Hw|by destruct E as [-> | ->]|]. intros j Hj. cbn [e_mask entry_event].
  replace (flag mask IN_ISDIR && flag mask (Z.lor IN_CREATE IN_MOVED_TO)) with true by (by destruct E as [-> | ->]).
  apply does_bind. unfold created_event. apply does_bind. eapply does_event_slot; [exact Hj|]. cbn [wpath e_name e_wd entry_event]; cbv zeta.
  assert (fit (PATH_MAX + NAME_MAX) (join p n) = join p n) as ->
    by (unfold fit; apply take_ge; unfold PATH_MAX, NAME_MAX in *; lia).
  does_step. apply does_bind. eapply does_pathnameInCache; [exact Hl|]. intros b Hb.
  destruct b.
  { destruct (proj1 Hb eq_refl) as [w' Hw']. apply (r_map _ _ _ _ Hm) in Hw' as (ino & k & HT' & _). by destruct (Hnew ino). }
  cbn [negb mwhen]. eapply does_watchSubtree; [by apply calm_script|done|exact Ht|done|]. intros l' i' Ht' Hq.
  apply does_finish; [by apply calm_at|]. by apply HQ.
Qed.

(** *** A directory that was removed *)

(** The instance has no watch of it any more, the cache does. *)
Lemma does_deleted fd w ino k p rest first c l i q T (Q : Z * consumed -> core -> Prop) :
  calm c -> one_to_one T -> tied T (c_roots c) l i -> T p ino -> i_watches i !! ino = Some (w, k) -> Some p ∉ c_roots c ->
  let i1 := mk_inst (delete ino (i_watches i)) (i_next i) q in
  (forall l', tied (fun x y => T x y /\ y <> ino) (c_roots c) l' i1 -> Q (fd, Took 1) (at_ c l' i1)) ->
  does (process fd (mk_event w IN_DELETE_SELF 0 0 []) rest first) (at_ c l i1) Q.
Proof.
  intros Hc H11 Ht Hp Ew Hr i1 HQ. pose proof Ht as (m & Hl & Hm).
  destruct (known_cached _ _ _ _ w p Hm) as [Hw _]; [by exists ino, k|].
  eapply does_process; [exact Hl|exact Hw|done|]. intros j Hj. cbn [e_wd] in Hj. branch false. branch true.
  destruct (h_entry _ _ Hl _ _ Hw) as [Hpos _].
  destruct (tied_less _ _ _ _ _ _ H11 Ht Hj Hpos) as (ino' & k' & HT' & Ew' & _ & Hless).
  assert (ino' = ino) as -> by (by eapply (proj1 H11)).
  apply does_bind. unfold deleted_event. apply does_bind. eapply does_event_slot; [exact Hj|]. cbn [wpath]. does_step.
  apply does_bind, does_isRootDirPath. rewrite bool_decide_eq_false_2 by done. apply does_bind, does_ret. does_step.
  apply (does_mark c l i1 j _ _ Hj). apply does_finish; [by apply calm_at|]. apply HQ, Hless.
Qed.

(** *** A directory that was renamed *)

Lemma does_renamed fd w w' ck n nm p q rest first c l i T (Q : Z * consumed -> core -> Prop) :
  calm c -> tied T (c_roots c) l i -> known T i w p -> known T i w' q ->
  Z.of_nat (length (join p n)) < PATH_MAX -> Z.of_nat (length (join q nm)) < PATH_MAX ->
  (forall x ino, T x ino -> Z.of_nat (length (move (join p n) (join q nm) x)) < PATH_MAX) ->
  (forall x, Some x ∈ c_roots c -> below (join p n) x = false) -> (forall x, Some x ∈ c_roots c -> below (join q nm) x = false) ->
  (forall l', tied (moved T (join p n) (join q nm)) (c_roots c) l' i -> Q (fd, Took 2) (at_ c l' i)) ->
  does (process fd (entry_event w (Z.lor IN_MOVED_FROM IN_ISDIR) ck n)
    (entry_event w' (Z.lor IN_MOVED_TO IN_ISDIR) ck nm :: rest) first) (at_ c l i) Q.
Proof.
  intros Hc Ht Hp Hq Hs Hs' Hs2 Hr Hr' HQ. pose proof Ht as (m & Hl & Hm).
  destruct (known_cached _ _ _ _ _ _ Hm Hp) as [Hw _]. destruct (known_cached _ _ _ _ _ _ Hm Hq) as [Hw' _].
  eapply does_process; [done|exact Hw|done|]. intros j Hj. do 2 branch false. branch true. unfold moved_event. cbv zeta.
  replace (flag _ _ && _) with true by (cbn; by rewrite Z.eqb_refl). cbv iota.
  apply does_bind. eapply does_findWatchChecked; [exact Hl|exact Hw'|]. intros j' Hj'.
  destruct (Z.eqb_spec (Z.of_nat j') (-1)); [lia|]. apply does_bind. eapply does_event_slot; [exact Hj|].
  apply does_bind. eapply does_slot_at; [exact Hj'|]. cbn [wpath]. apply does_bind.
  eapply does_rewriteCachedPaths; [exact Ht|done..|]. intros l' Ht'. apply does_finish; [by apply calm_at|]. by apply HQ.
Qed.

(** A directory that was moved out is known only when nothing else comes. *)
Lemma does_hanging fd w ck n p c l i T (Q : Z * consumed -> core -> Prop) :
  tied T (c_roots c) l i -> known T i w p -> Q (fd, Again) (at_ c l i) ->
  does (process fd (entry_event w (Z.lor IN_MOVED_FROM IN_ISDIR) ck n) [] true) (at_ c l i) Q.
Proof.
  intros (m & Hl & Hm) Hp HQ. destruct (known_cached _ _ _ _ _ _ Hm Hp) as [Hw _].
  eapply does_process; [done|exact Hw|done|]. intros j Hj. do 2 branch false. branch true. unfold moved_event. cbn [negb]. does_step. by apply does_ret.
Qed.

Lemma does_moved_out fd w ck n p c l i T (Q : Z * consumed -> core -> Prop) :
  calm c -> one_to_one T -> tied T (c_roots c) l i -> known T i w p -> Z.of_nat (length (join p n)) < PATH_MAX ->
  (forall l' i' ws, tied (minus_tree T (join p n)) (c_roots c) l' i' -> i_queue i' = i_queue i ++ map ignored ws -> Q (fd, Took 1) (at_ c l' i')) ->
  does (process fd (entry_event w (Z.lor IN_MOVED_FROM IN_ISDIR) ck n) [] false) (at_ c l i) Q.
Proof.
  intros Hc H11 Ht Hp Hs HQ. pose proof Ht as (m & Hl & Hm). destruct (known_cached _ _ _ _ _ _ Hm Hp) as [Hw _].
  eapply does_process; [done|exact Hw|done|]. intros j Hj. do 2 branch false. branch true. unfold moved_event. cbn [negb]. apply does_bind. eapply does_event_slot; [exact Hj|]. cbn [wpath e_name e_wd entry_event]; cbv zeta.
  do 2 does_step. assert (fit (PATH_MAX + NAME_MAX) (join p n) = join p n) as ->
    by (unfold fit; apply take_ge; unfold PATH_MAX, NAME_MAX in *; lia).
  apply does_bind. eapply does_zapSubtree; [by apply calm_script|done|exact Ht|]. intros v l' i' ws Hv Ht' Hq.
  destruct (Z.eqb_spec v (-1)); [lia|]. apply does_finish; [by apply calm_at|]. by eapply HQ.
Qed.

(** ** Reading *)

Definition small (ev : event) : Prop := EVENT_SIZE <= e_size ev <= EVENT_SIZE + NAME_MAX + 1.

Lemma fitting_spec n q a b :
  fitting n q = (a, b) -> 0 <= n -> q = a ++ b /\ sizes a <= n /\ (b = [] \/ exists e b', b = e :: b' /\ n < sizes a + e_size e).
Proof.
  revert n a. induction q as [|e q IH]; intros n a; cbn; [intros [= <- <-] ?; by repeat split; [|left]|].
  destruct (Z.leb_spec (e_size e) n) as [Hle|Hgt].
  - destruct (fitting (n - e_size e) q) as [a' b'] eqn:E. intros [= <- <-] Hn.
    destruct (IH _ _ E) as (-> & Hs & Hb); [lia|]. split; [done|]. unfold sizes, sumZ in *. cbn in *. split; [lia|].
    destruct Hb as [->|(e' & b2 & -> & Hlt)]; [by left|right]. exists e', b2. split; [done|]. unfold sizes, sumZ in *. cbn in *. lia.
  - intros [= <- <-] Hn. split; [done|]. split; [unfold sizes; cbn; lia|]. right. exists e, q. split; [done|]. unfold sizes. cbn. lia.
Qed.

Lemma sizes_app a b : sizes (a ++ b) = sizes a + sizes b.
Proof. unfold sizes. by rewrite map_app, sumZ_app. Qed.

Lemma sizes_length q : Forall small q -> EVENT_SIZE * Z.of_nat (length q) <= sizes q.
Proof. unfold sizes, small, sumZ. induction 1 as [|e q ? _ IH]; cbn in *; lia. Qed.

Lemma does_read n c l i q (Q : Z + list event -> core -> Prop) :
  calm c -> i_queue i = q -> q <> [] -> Forall small q -> EVENT_SIZE + NAME_MAX + 1 <= n ->
  (forall a b, q = a ++ b -> a <> [] -> sizes a <= n -> (b = [] \/ exists e b', b = e :: b' /\ n < sizes a + e_size e) ->
     Q (inr a) (at_ c l (set_i_queue b i))) ->
  does (sys_read_events n) (at_ c l i) Q.
Proof.
  intros Hc <- Hne Hs Hn HQ. unfold sys_read_events, next_error. does_step. cbn [at_ c_sys s_script set_s_inst].
  rewrite (calm_script _ Hc). cbn [fst snd]. branch false. does_step. cbn [with_sys at_ c_sys s_inst set_s_inst].
  destruct (i_queue i) as [|e q] eqn:Eq; [done|]. destruct (fitting n (e :: q)) as [a b] eqn:E.
  assert (0 <= n) as Hn0 by (unfold EVENT_SIZE, NAME_MAX in Hn; lia).
  destruct (fitting_spec _ _ _ _ E Hn0) as (Ea & Hsz & Hb). apply Forall_cons in Hs as [[_ He] _].
  destruct a as [|x a].
  - exfalso. cbn in E. destruct (Z.leb_spec (e_size e) n); [|lia]. by destruct (fitting (n - e_size e) q).
  - apply does_bind. apply does_modify with (g := fun c => with_sys (set_s_inst (Some (set_i_queue b i)) (c_sys c)) c); [done|].
    apply does_ret. by apply HQ.
Qed.

Lemma does_processInotifyEvents fuel fd c l i q (Q : Z -> core -> Prop) :
  calm c -> i_queue i = q -> q <> [] -> Forall small q ->
  (forall a b, q = a ++ b -> a <> [] -> sizes a <= INOTIFY_READ_BUF_LEN ->
     does (events_loop garbage pointer fuel fd a true) (at_ c l (set_i_queue b i)) Q) ->
  does (processInotifyEvents garbage pointer fuel fd) (at_ c l i) Q.
Proof.
  intros Hc Hi Hne Hs HQ. unfold processInotifyEvents, next_error. does_step. cbn [at_ c_sys s_script set_s_inst].
  rewrite (calm_script _ Hc). cbn [fst snd]. branch false. does_step. apply does_bind.
  set (n := if 0 <? readBufferSize _ then _ else _).
  assert (EVENT_SIZE + NAME_MAX + 1 <= n <= INOTIFY_READ_BUF_LEN) as Hn.
  { unfold n. cbn [with_sys c_opt at_]. pose proof (calm_buffer _ Hc). destruct (Z.ltb_spec 0 (readBufferSize (c_opt c))); [lia|].
    unfold INOTIFY_READ_BUF_LEN, EVENT_SIZE, NAME_MAX. lia. }
  apply (does_read n c l i q); [done..|lia|]. intros a b Ea Ha Hsz _. apply does_bind.
  destruct (Z.ltb_spec INOTIFY_READ_BUF_LEN (sizes a)); [lia|]. apply does_ret, does_bind.
  apply does_modify with (g := id); [done|]. unfold id. apply does_bind, does_gets_any. intros k. does_step. apply HQ; [done..|lia].
Qed.

Lemma does_inert_loop fuel fd evs c l i T (Q : Z -> core -> Prop) :
  calm c -> tied T (c_roots c) l i -> Forall (inert T i) evs -> (length evs <= fuel)%nat -> Q fd (at_ c l i) ->
  does (events_loop garbage pointer fuel fd evs true) (at_ c l i) Q.
Proof.
  intros Hc Ht Hin. revert fuel. induction Hin as [|ev evs Hev _ IH]; intros fuel Hf HQ; destruct fuel as [|fuel]; cbn in Hf |- *;
    [by apply does_ret|by apply does_ret|lia|].
  apply does_bind. eapply does_inert; [done|exact Ht|done|]. change (drop 1 (ev :: evs)) with evs. apply IH; [lia|done].
Qed.

(** ** Turns of the main loop *)

Lemma does_select c l i (Q : bool * bool -> core -> Prop) :
  calm c -> i_queue i <> [] -> Q (false, true) (at_ c l i) -> does sys_select (at_ c l i) Q.
Proof.
  intros Hc Hne HQ. unfold sys_select, next_error. does_step. cbn [at_ c_sys s_script set_s_inst]. rewrite (calm_script _ Hc). cbn [fst snd].
  branch false. intros d Hd. destruct d. unfold core_of in Hd. cbn in Hd. injection Hd as -> -> -> -> -> -> ->.
  unfold bind, get. cbn. rewrite (calm_lines _ Hc). rewrite (bool_decide_eq_true_2 ([] = [])), (bool_decide_eq_false_2 (i_queue i = [])) by done.
  cbn. eexists _, _. split; [reflexivity|]. unfold at_ in HQ. by rewrite (calm_lines _ Hc) in HQ.
Qed.

Context (fuel : nat) (a0 : list Z).

(** After some turns there is nothing to do any more, and [P] holds. *)
Definition settles (P : core -> Prop) (fd : Z) (c : core) : Prop :=
  forall d, core_of d = c -> exists turns fd' d',
    main_loop garbage pointer turns fuel a0 fd d = (Ret fd', d') /\ P (core_of d').

Lemma settles_done (P : core -> Prop) fd c : P c -> settles P fd c.
Proof. intros HP d <-. by exists O, fd, d. Qed.

Lemma settles_turn P fd c l i :
  calm c -> i_queue i <> [] -> does (processInotifyEvents garbage pointer fuel fd) (at_ c l i) (settles P) -> settles P fd (at_ c l i).
Proof.
  intros Hc Hne Hp d Hd.
  destruct (does_bind sys_select (fun '(_, events) => if events : bool then processInotifyEvents garbage pointer fuel fd else ret fd)
    (at_ c l i) (settles P)) with (d := d) as (fd1 & d1 & E1 & H1); [by apply does_select|done|].
  destruct (H1 d1 eq_refl) as (turns & fd2 & d2 & E2 & HP). exists (S turns), fd2, d2. split; [|done].
  destruct (does_select c l i (fun r c' => r = (false, true) /\ c' = at_ c l i) Hc Hne ltac:(done) d Hd) as (r & d3 & E3 & -> & _).
  rewrite (bind_ret _ _ _ _ _ E3) in E1. cbn. rewrite (bind_ret _ _ _ _ _ E3). rewrite bind_ret with (a := fd) (w' := d3) by done.
  by rewrite (bind_ret _ _ _ _ _ E1).
Qed.

Definition enough : Prop := 2000 <= Z.of_nat fuel.

(** What changes nothing is read until the queue is empty. *)
Lemma settles_inert (P : core -> Prop) fd c l i T :
  enough -> calm c -> tied T (c_roots c) l i -> Forall (inert T i) (i_queue i) -> Forall small (i_queue i) ->
  P (at_ c l (set_i_queue [] i)) -> settles P fd (at_ c l i).
Proof.
  intros Hf Hc. remember (length (i_queue i)) as n eqn:En. revert i En fd. induction n as [n IH] using lt_wf_ind. intros i En fd Ht Hin Hs HP.
  destruct (decide (i_queue i = [])) as [E|Hne].
  { apply settles_done. destruct i. cbn in *. by subst. }
  apply settles_turn; [done|done|]. eapply does_processInotifyEvents; [done|done|done|done|]. intros a b Eq Ha Hsz.
  rewrite Eq in Hin, Hs. apply Forall_app in Hin as [Hina Hinb]. apply Forall_app in Hs as [Hsa Hsb].
  eapply (does_inert_loop fuel fd a c l (set_i_queue b i) T); [done|by apply tied_queue|done| |].
  - pose proof (sizes_length a Hsa) as Hl. unfold enough, INOTIFY_READ_BUF_LEN, EVENT_SIZE, NAME_MAX in *. lia.
  - apply (IH (length b)) with (i := set_i_queue b i); [|done|by apply tied_queue|done|done|done].
    rewrite En, Eq, length_app. destruct a; [done|cbn; lia].
Qed.

Lemma does_read_more_none n c l i (Q : Z + list event -> core -> Prop) :
  calm c -> i_queue i = [] -> Q (inl EINTR) (at_ c l i) -> does (sys_read_more n) (at_ c l i) Q.
Proof.
  intros Hc Hi HQ. unfold sys_read_more, next_error. does_step. cbn [at_ c_sys s_inst set_s_inst]. destruct i. cbn in Hi. subst.
  does_step. cbn [at_ c_sys s_script set_s_inst]. rewrite (calm_script _ Hc). cbn [fst snd]. by apply does_ret.
Qed.

Lemma does_read_more_some n c l i e (Q : Z + list event -> core -> Prop) :
  calm c -> i_queue i = [e] -> small e -> EVENT_SIZE + NAME_MAX + 1 <= n -> Q (inr [e]) (at_ c l (set_i_queue [] i)) ->
  does (sys_read_more n) (at_ c l i) Q.
Proof.
  intros Hc Hi He Hn HQ. unfold sys_read_more. does_step. cbn [at_ c_sys s_inst set_s_inst].
  assert (does (sys_read_events n) (at_ c l i) Q) as Hr.
  { apply (does_read n c l i [e]); [done|done|done|by constructor|done|]. intros a b Eq Ha _ _.
    destruct a as [|x [|y a]]; [done| |done]. injection Eq as -> <-. exact HQ. }
  destruct i as [ws nx [|x q]]; [done|exact Hr].
Qed.

(** The first event is what changes the cache to [T]. *)
Lemma settles_one (P : core -> Prop) fd c l i e q T :
  enough -> calm c -> i_queue i = e :: q -> Forall small (e :: q) ->
  (forall b rest (Q : Z * consumed -> core -> Prop),
     (forall l' i', tied T (c_roots c) l' i' -> i_queue i' = b -> Forall (inert T i') q -> Q (fd, Took 1) (at_ c l' i')) ->
     does (process fd e rest true) (at_ c l (set_i_queue b i)) Q) ->
  (forall l' i', tied T (c_roots c) l' i' -> i_queue i' = [] -> P (at_ c l' i')) -> settles P fd (at_ c l i).
Proof.
  intros Hf Hc Eq Hs He HP. apply settles_turn; [done|by rewrite Eq|].
  apply (does_processInotifyEvents fuel fd c l i (e :: q)); [done..|]. intros a b Ea Ha Hsz.
  destruct a as [|x a]; [done|]. injection Ea as <- ->. apply Forall_cons in Hs as [He' Hs]. apply Forall_app in Hs as [Hsa Hsb].
  assert (S (length a) <= fuel)%nat as Hfuel.
  { assert (Forall small (e :: a)) as Hl by (by constructor). apply sizes_length in Hl. cbn [length] in Hl.
    unfold enough, INOTIFY_READ_BUF_LEN, EVENT_SIZE, NAME_MAX in *. lia. }
  destruct fuel as [|f] eqn:Ef; [lia|]. cbn [events_loop]. apply does_bind, He. intros l' i' Ht Hq Hin.
  apply Forall_app in Hin as [Hina Hinb]. change (drop 1 (e :: a)) with a.
  eapply does_inert_loop; [done|exact Ht|done|lia|]. rewrite <- Ef in *.
  eapply settles_inert; [done|done|exact Ht|by rewrite Hq|by rewrite Hq|]. apply HP; [by apply tied_queue|done].
Qed.

Lemma settles_renamed (P : core -> Prop) fd c l i w w' ck n nm p q T :
  enough -> calm c -> tied T (c_roots c) l i -> known T i w p -> known T i w' q ->
  i_queue i = [entry_event w (Z.lor IN_MOVED_FROM IN_ISDIR) ck n; entry_event w' (Z.lor IN_MOVED_TO IN_ISDIR) ck nm] ->
  Forall small (i_queue i) ->
  Z.of_nat (length (join p n)) < PATH_MAX -> Z.of_nat (length (join q nm)) < PATH_MAX ->
  (forall x ino, T x ino -> Z.of_nat (length (move (join p n) (join q nm) x)) < PATH_MAX) ->
  (forall x, Some x ∈ c_roots c -> below (join p n) x = false) -> (forall x, Some x ∈ c_roots c -> below (join q nm) x = false) ->
  (forall l' i', tied (moved T (join p n) (join q nm)) (c_roots c) l' i' -> i_queue i' = [] -> P (at_ c l' i')) ->
  settles P fd (at_ c l i).
Proof.
  intros Hf Hc Ht Hp Hq Eq Hs Hn Hnm Hshort Hr Hr' HP.
  set (e := entry_event w _ ck n) in *. set (e' := entry_event w' _ ck nm) in *.
  assert (forall f first, (0 < f)%nat -> does (events_loop garbage pointer f fd [e; e'] first) (at_ c l (set_i_queue [] i)) (settles P)) as Hboth.
  { intros [|f] first Hlt; [lia|]. cbn [events_loop]. apply does_bind.
    eapply (does_renamed fd w w' ck n nm p q [] first c l (set_i_queue [] i) T); [done|by apply tied_queue|done..|].
    intros l' Ht'. destruct f; apply does_ret, settles_done, HP; done. }
  apply settles_turn; [done|by rewrite Eq|]. apply (does_processInotifyEvents fuel fd c l i _ _ Hc Eq); [done|by rewrite <- Eq|].
  rewrite Eq in Hs. apply Forall_cons in Hs as [Hse Hs]. apply Forall_cons in Hs as [Hse' _].
  intros a b Ea Ha _. destruct a as [|x a]; [done|]. injection Ea as <- Ea. destruct a as [|y a].
  - cbn in Ea. subst b.
    assert (forall f, (2 <= f)%nat -> does (events_loop garbage pointer f fd [e] true) (at_ c l (set_i_queue [e'] i)) (settles P)) as Hloop;
      [|apply Hloop; unfold enough in Hf; lia].
    intros [|f] Hlt; [lia|]. cbn [events_loop]. apply does_bind.
    eapply does_hanging; [by apply tied_queue|exact Hp|]. apply does_bind.
    apply (does_read_more_some _ c l (set_i_queue [e'] i) e'); [done|done|done| |].
    { unfold sizes, small, INOTIFY_READ_BUF_LEN, EVENT_SIZE, NAME_MAX, sumZ in *. cbn in *. lia. }
    apply does_bind. apply does_modify with (g := id); [done|]. unfold id. apply does_bind, does_gets_any. intros k. does_step.
    apply Hboth. lia.
  - injection Ea as <- Ea. symmetry in Ea. apply app_nil in Ea as [-> ->]. apply Hboth. unfold enough in Hf. lia.
Qed.

Lemma settles_moved_out (P : core -> Prop) fd c l i w ck n p T :
  enough -> calm c -> one_to_one T -> tied T (c_roots c) l i -> known T i w p ->
  i_queue i = [entry_event w (Z.lor IN_MOVED_FROM IN_ISDIR) ck n] -> Forall small (i_queue i) ->
  Z.of_nat (length (join p n)) < PATH_MAX ->
  (forall l' i', tied (minus_tree T (join p n)) (c_roots c) l' i' -> i_queue i' = [] -> P (at_ c l' i')) ->
  settles P fd (at_ c l i).
Proof.
  intros Hf Hc H11 Ht Hp Eq Hs Hn HP. set (e := entry_event w _ ck n) in *.
  apply settles_turn; [done|by rewrite Eq|]. apply (does_processInotifyEvents fuel fd c l i _ _ Hc Eq); [done|by rewrite <- Eq|].
  intros a b Ea Ha _. destruct a as [|x [|y a]]; [done| |done]. injection Ea as <- <-.
  assert (forall f, (2 <= f)%nat -> does (events_loop garbage pointer f fd [e] true) (at_ c l (set_i_queue [] i)) (settles P)) as Hloop;
    [|apply Hloop; unfold enough in Hf; lia].
  intros [|[|f]] Hlt; [lia|lia|]. remember (S f) as f1 eqn:Ef1. cbn [events_loop]. apply does_bind.
  eapply does_hanging; [by apply tied_queue|exact Hp|]. apply does_bind, does_read_more_none; [done|done|]. branch false. does_step.
  rewrite Ef1. cbn [events_loop]. apply does_bind. eapply does_moved_out; [done|exact H11|by apply tied_queue|exact Hp|done|].
  intros l' i' ws Ht' Hq. change (drop 1 [e]) with (@nil event). cbn in Hq.
  assert (settles P fd (at_ c l' i')) as Hset; [|by destruct f; apply does_ret].
  eapply settles_inert; [done|done|exact Ht'| | |].
  - rewrite Hq. apply Forall_map, Forall_forall. intros v _. by left.
  - rewrite Hq. apply Forall_map, Forall_forall. intros v _. done.
  - apply HP; [by apply tied_queue|done].
Qed.

End Events.
