(* ===== verification/DtFollow.v ===== *)
(** * inotify_dtree: operations on directories *)

From stdpp Require Import prelude list_numbers strings gmap.
From Stdlib Require Import ZArith Lia.
From S2P Require Import Prelude CLib Vfs TlpiLib DtWorld DtFiles DtCache DtProg DtMain DtSpec DtTree DtSync.
Open Scope Z_scope.
Set Warnings "-clear-no-such-hyp".

(** ** What operations do to a tree *)

Definition short (fs : files) : Prop := forall p x, fs !! p = Some x -> Z.of_nat (length p) < PATH_MAX.

Lemma join_length p n : length (join p n) = (length p + S (length n))%nat.
Proof. unfold join. by rewrite length_app. Qed.

Lemma join_ne p n : join p n <> p.
Proof. intros E. apply (f_equal length) in E. rewrite join_length in E. lia. Qed.

Lemma create_ok fs next p n kd :
  files_ok fs next -> is_dir fs p -> ~ (47 ∈ n) -> fs !! join p n = None -> short (<[join p n := (next, kd)]> fs) ->
  files_ok (<[join p n := (next, kd)]> fs) (next + 1).
Proof.
  intros Hok [pino Hp] Hn Hnew Hs. split; [| | |done].
  - intros x y v [[E _]|[Hne E]]%lookup_insert_Some Hy.
    + destruct (join_inj _ _ _ _ E Hn Hy) as [<- <-]. exists pino. rewrite lookup_insert_ne; [done|apply join_ne].
    + destruct (f_parent _ _ Hok x y v E Hy) as [ino Hi]. exists ino. rewrite lookup_insert_ne; [done|congruence].
  - intros x y ino k [[<- E]|[Hne E]]%lookup_insert_Some [[<- E']|[Hne' E']]%lookup_insert_Some; [done| | |by eapply (f_inode _ _ Hok)].
    + injection E as <- _. apply (f_next _ _ Hok) in E'. lia.
    + injection E' as <- _. apply (f_next _ _ Hok) in E. lia.
  - intros x ino k [[<- [= <- <-]]|[_ E]]%lookup_insert_Some; [lia|]. apply (f_next _ _ Hok) in E. lia.
Qed.

Lemma remove_ok fs next p :
  files_ok fs next -> (forall x, is_Some (fs !! x) -> below p x = true -> x = p) -> files_ok (delete p fs) next.
Proof.
  intros Hok Hempty. split.
  - intros x y v [Hne E]%lookup_delete_Some Hy. destruct (f_parent _ _ Hok x y v E Hy) as [ino Hi].
    exists ino. rewrite lookup_delete_ne; [done|]. intros ->. assert (join x y = x) as E'; [|by apply join_ne in E'].
    apply Hempty; [by exists v|apply below_join].
  - intros x y ino k [_ E]%lookup_delete_Some [_ E']%lookup_delete_Some. by eapply (f_inode _ _ Hok).
  - intros x ino k [_ E]%lookup_delete_Some. by eapply (f_next _ _ Hok).
  - intros x v [_ E]%lookup_delete_Some. by eapply (f_short _ _ Hok).
Qed.

Lemma move_out old new x : below old x = false -> move old new x = x.
Proof. unfold move. by intros ->. Qed.

Lemma move_join old new x n :
  ~ (47 ∈ n) -> join x n <> old -> move old new (join x n) = join (move old new x) n.
Proof.
  intros Hn Hne. unfold move. destruct (below old x) eqn:Ex.
  - rewrite (below_trans _ _ _ Ex (below_join x n)). by apply rebase_join.
  - destruct (below old (join x n)) eqn:E; [|done]. apply below_join_inv in E as [E|E]; [by symmetry in E|congruence|done].
Qed.

Lemma rename_ok fs next p n q nm :
  files_ok fs next -> is_dir fs q -> fs !! join q nm = None -> ~ (47 ∈ n) -> ~ (47 ∈ nm) ->
  below (join p n) q = false -> short (renamed (join p n) (join q nm) fs) ->
  files_ok (renamed (join p n) (join q nm) fs) next.
Proof.
  intros Hok [qino Hq] Hnew Hn Hnm Hb Hs. pose proof (renamed_lookup fs next (join p n) (join q nm)) as Hl. split; [| | |done].
  - intros z y v Hz Hy. apply Hl in Hz as (x & Hx & E); [|done..]. unfold is_dir. setoid_rewrite (Hl _ _ Hok Hnew).
    destruct (decide (x = join p n)) as [->|Hne].
    + unfold move in E. rewrite below_refl in E. unfold rebase in E. rewrite drop_all, app_nil_r in E.
      destruct (join_inj _ _ _ _ E Hnm Hy) as [<- <-]. exists qino, q. split; [done|by apply move_out].
    + assert (exists x0, x = join x0 y /\ move (join p n) (join q nm) x0 = z) as (x0 & -> & <-).
      { destruct (below (join p n) x) eqn:Ex.
        - destruct (below_last _ _ Ex Hne) as (x0 & y0 & -> & Hy0 & Hb0). rewrite move_join in E by done.
          destruct (join_inj _ _ _ _ E Hy0 Hy) as [Ez ->]. by exists x0.
        - rewrite move_out in E by done. subst x. exists z. split; [done|]. apply move_out.
          destruct (below (join p n) z) eqn:Ez; [|done]. by rewrite (below_trans _ _ _ Ez (below_join z y)) in Ex. }
      destruct (f_parent _ _ Hok x0 y v Hx Hy) as [ino Hi]. by exists ino, x0.
  - intros x y ino k Hx Hy. apply Hl in Hx as (a & Ha & <-); [|done..]. apply Hl in Hy as (b & Hb' & <-); [|done..].
    by rewrite (f_inode _ _ Hok a b ino k Ha Hb').
  - intros x ino k Hx. apply Hl in Hx as (a & Ha & _); [|done..]. by eapply (f_next _ _ Hok).
Qed.

Lemma emit_entry_watches ino k ck kd n i : i_watches (emit_entry ino k ck kd n i) = i_watches i.
Proof. unfold emit_entry. destruct (i_watches i !! ino) as [[w m]|]; [|done]. by destruct (flag m k). Qed.

Lemma emit_unwatched ino mask ck n i :
  (forall w k, i_watches i !! ino = Some (w, k) -> flag k mask = false) -> emit ino mask ck n i = i.
Proof. intros H. unfold emit. destruct (i_watches i !! ino) as [[w k]|] eqn:E; [|done]. by rewrite (H w k). Qed.

(** ** Events of an operation *)

(** The operation leaves the roots where they are. *)
Definition spares (roots : list (option path)) (op : fs_op) : Prop :=
  match op with
  | Create _ _ _ => True
  | Remove p n => Some (join p n) ∉ roots
  | Rename p n _ _ => forall r, Some r ∈ roots -> below (join p n) r = false
  end.

(** All is well, and there is nothing to do. *)
Record synced (c : core) : Prop := {
  sy_calm : calm c;
  sy_files : files_ok (s_files (c_sys c)) (s_next_ino (c_sys c));
  sy_roots : forall r, Some r ∈ c_roots c -> is_dir (s_files (c_sys c)) r;
  sy_inst : exists i, s_inst (c_sys c) = Some i /\ i_queue i = [] /\
    tied (tracked_dir (s_files (c_sys c)) (c_roots c)) (c_roots c) (c_cache c) i
}.

Section Steps.
Context (fs : files) (next : Z) (roots : list (option path)) (l : list watch) (i : inst).
Hypotheses (Hok : files_ok fs next) (Hroots : forall r, Some r ∈ roots -> is_dir fs r)
  (Ht : tied (tracked_dir fs roots) roots l i).

Lemma tracked_one : one_to_one (tracked_dir fs roots).
Proof. eapply one_to_one_sub; [|by eapply dirs_one_to_one]. by intros p ino []. Qed.

(** A directory is watched when it is tracked. *)
Lemma watch_cases p ino :
  dir_at fs p ino ->
  (exists w, i_watches i !! ino = Some (w, mask_of roots p) /\ tracked roots p /\ known (tracked_dir fs roots) i w p) \/
  (i_watches i !! ino = None /\ ~ tracked roots p).
Proof.
  intros Hd. destruct Ht as (m & Hl & Hm). destruct (i_watches i !! ino) as [x|] eqn:E.
  - left. destruct (r_back _ _ _ _ Hm _ _ E) as [p' [Hp' Hd']].
    assert (p' = p) as -> by (by eapply (proj2 (dirs_one_to_one _ _ Hok))).
    destruct (r_mask _ _ _ _ Hm p ino) as [w Ew]; [by split|]. exists w. split; [congruence|]. split; [done|].
    exists ino, (mask_of roots p). split; [by split|congruence].
  - right. split; [done|]. intros Hp. destruct (r_mask _ _ _ _ Hm p ino) as [w Ew]; [by split|]. congruence.
Qed.

Lemma file_unwatched p ino : fs !! p = Some (ino, File) -> i_watches i !! ino = None.
Proof.
  intros Hp. destruct Ht as (m & Hl & Hm). destruct (i_watches i !! ino) as [x|] eqn:E; [exfalso|done].
  destruct (r_back _ _ _ _ Hm _ _ E) as [p' [_ Hd]]. unfold dir_at in Hd. rewrite (f_inode _ _ Hok p' p ino File Hd Hp) in Hp. congruence.
Qed.

(** A name that is not used is tracked when its directory is. *)
Lemma tracked_new p n : ~ (47 ∈ n) -> fs !! join p n = None -> tracked roots (join p n) <-> tracked roots p.
Proof.
  intros Hn Hnew. split; intros (r & Hr & Hb).
  - apply below_join_inv in Hb as [->|Hb]; [|by exists r|done]. destruct (Hroots _ Hr). congruence.
  - exists r. split; [done|]. eapply below_trans; [exact Hb|apply below_join].
Qed.

Lemma tracked_old p n : ~ (47 ∈ n) -> Some (join p n) ∉ roots -> tracked roots (join p n) <-> tracked roots p.
Proof.
  intros Hn Hnew. split; intros (r & Hr & Hb).
  - apply below_join_inv in Hb as [->|Hb]; [done|by exists r|done].
  - exists r. split; [done|]. eapply below_trans; [exact Hb|apply below_join].
Qed.

End Steps.

Lemma mask_has roots p b :
  b = IN_CREATE \/ b = IN_MOVED_FROM \/ b = IN_MOVED_TO \/ b = IN_DELETE_SELF -> flag (mask_of roots p) b = true.
Proof. unfold mask_of. intros [-> |[-> |[-> | ->]]]; by case_bool_decide. Qed.

Lemma mask_move_self roots p : Some p ∉ roots -> flag (mask_of roots p) IN_MOVE_SELF = false.
Proof. intros H. unfold mask_of. by rewrite bool_decide_eq_false_2. Qed.

Lemma padded_small n : name_ok n -> 0 <= padded n <= NAME_MAX + 1.
Proof.
  intros (Hne & _ & _ & Hl). unfold padded, NAME_MAX in *. destruct n as [|x n]; [done|]. set (k := Z.of_nat (length (x :: n))) in *.
  pose proof (Z.div_le_mono (k + 16) 271 16 ltac:(lia) ltac:(lia)). change (271 / 16) with 16 in *.
  pose proof (Z.div_pos (k + 16) 16 ltac:(lia) ltac:(lia)). lia.
Qed.

Lemma entry_small w mask ck n : name_ok n -> small (entry_event w mask ck n).
Proof. intros Hn%padded_small. unfold small, e_size, entry_event. cbn. lia. Qed.

(** ** The tracked directories after a renaming *)

(** After a renaming the directories have the names that follow it. *)
Lemma moved_dirs fs next old new x y :
  files_ok fs next -> fs !! new = None ->
  dir_at (renamed old new fs) x y <-> exists z, dir_at fs z y /\ move old new z = x.
Proof. intros Hok Hnew. unfold dir_at. by apply renamed_lookup with (next := next). Qed.

Lemma tracked_below roots p q : tracked roots p -> below p q = true -> tracked roots q.
Proof. intros (r & Hr & Hb) Hq. exists r. split; [done|]. by eapply below_trans. Qed.

(** What is below a name that has no root below it is tracked when it is. *)
Lemma tracked_above roots p q :
  (forall r, Some r ∈ roots -> below p r = false) -> tracked roots q -> below p q = true -> tracked roots p.
Proof.
  intros Hno (r & Hr & Hb) Hq. destruct (below_linear r p q Hb Hq) as [|Hpr]; [by exists r|]. rewrite Hno in Hpr; done.
Qed.

Section Rename.
Context (fs : files) (next : Z) (roots : list (option path)) (p n q nm : path) (ino : Z) (kd : kind).
Hypotheses (Hok : files_ok fs next) (Hroots : forall r, Some r ∈ roots -> is_dir fs r)
  (Hn : ~ (47 ∈ n)) (Hnm : ~ (47 ∈ nm))
  (Hi : fs !! join p n = Some (ino, kd)) (Hnew : fs !! join q nm = None)
  (Hno : forall r, Some r ∈ roots -> below (join p n) r = false).

Local Abbreviation old := (join p n).
Local Abbreviation new := (join q nm).
Local Abbreviation fs1 := (renamed old new fs).

Lemma rename_roots x : Some x ∈ roots -> below new x = false.
Proof.
  intros Hx. destruct (below new x) eqn:E; [|done]. exfalso. destruct (Hroots x Hx) as [y Hy].
  destruct (decide (x = new)) as [->|Hne]; [congruence|]. rewrite (nothing_below fs next new x Hok) in Hy; [done| |done|done].
  intros [z Hz]. congruence.
Qed.

Lemma rename_keeps_roots r : Some r ∈ roots -> is_dir fs1 r.
Proof.
  intros Hr. destruct (Hroots r Hr) as [y E]. exists y. apply (moved_dirs fs next); [done|done|]. exists r. split; [done|]. by apply move_out, Hno.
Qed.

Lemma move_self : move old new old = new.
Proof. unfold move, rebase. by rewrite below_refl, drop_all, app_nil_r. Qed.

Lemma rename_new : fs1 !! new = Some (ino, kd).
Proof. apply renamed_lookup with (next := next); [done..|]. exists old. split; [done|apply move_self]. Qed.

Lemma rename_old_tracked : tracked roots old <-> tracked roots p.
Proof. apply tracked_old; [done|]. intros Hx. specialize (Hno _ Hx). by rewrite below_refl in Hno. Qed.

Lemma rename_new_tracked : tracked roots new <-> tracked roots q.
Proof. by apply tracked_new with (fs := fs). Qed.

Lemma below_old_tracked x : below old x = true -> tracked roots x <-> tracked roots p.
Proof.
  intros Hb. rewrite <- rename_old_tracked. split; [intros Hx; by eapply tracked_above|intros Ho; by eapply tracked_below].
Qed.

Lemma below_new_tracked x : below new x = true -> tracked roots x <-> tracked roots q.
Proof.
  intros Hb. rewrite <- rename_new_tracked. split; [intros Hx; by eapply tracked_above, Hb; [apply rename_roots|]|intros Ho; by eapply tracked_below].
Qed.

(** A tracked directory afterwards: one that was renamed, or not. *)
Lemma rename_tracked x y :
  tracked_dir fs1 roots x y <->
    (tracked_dir fs roots x y /\ below old x = false) \/
    (tracked roots q /\ exists z, dir_at fs z y /\ below old z = true /\ x = rebase old new z).
Proof.
  unfold tracked_dir. rewrite (moved_dirs fs next) by done. split.
  - intros [Hx (z & Hz & <-)]. unfold move in *. destruct (below old z) eqn:Ez; [right|by left].
    split; [|by exists z]. by apply (below_new_tracked (rebase old new z)); [apply rebase_below|].
  - intros [[[Hx Hd] Hb]|[Hq (z & Hz & Hb & ->)]].
    + split; [done|]. exists x. split; [done|by apply move_out].
    + split; [by apply below_new_tracked; [apply rebase_below|]|]. exists z. split; [done|]. unfold move. by rewrite Hb.
Qed.

Lemma rename_both x y : tracked roots p -> tracked roots q -> tracked_dir fs1 roots x y <-> moved (tracked_dir fs roots) old new x y.
Proof.
  intros Hp Hq. rewrite rename_tracked. unfold moved, move. split.
  - intros [[H1 Hb]|[_ (z & Hz & Hb & ->)]]; [exists x; by rewrite Hb|]. exists z. rewrite Hb. split; [|done]. split; [|done].
    by apply below_old_tracked.
  - intros (z & Hz & <-). destruct (below old z) eqn:Hb; [right|by left]. split; [done|]. exists z. by destruct Hz.
Qed.

Lemma rename_out x y : ~ tracked roots q -> tracked_dir fs1 roots x y <-> minus_tree (tracked_dir fs roots) old x y.
Proof. intros Hq. rewrite rename_tracked. unfold minus_tree. tauto. Qed.

Lemma rename_in x y : ~ tracked roots p -> tracked roots q -> tracked_dir fs1 roots x y <-> plus_tree fs1 (tracked_dir fs roots) new x y.
Proof.
  intros Hp Hq. rewrite rename_tracked. unfold plus_tree. rewrite (moved_dirs fs next) by done. split.
  - intros [[H1 _]|[_ (z & Hz & Hb & ->)]]; [by left|right]. split; [by apply rebase_below|]. exists z. unfold move. by rewrite Hb.
  - intros [[Hx Hd]|[Hb (z & Hz & <-)]].
    + left. split; [done|]. destruct (below old x) eqn:Hb; [|done]. by apply (below_old_tracked x Hb) in Hx.
    + unfold move in *. destruct (below old z) eqn:Ez; [right; split; [done|by exists z]|left]. split; [|done].
      split; [|done]. by apply below_new_tracked.
Qed.

Lemma rename_none x y : ~ tracked roots p -> ~ tracked roots q -> tracked_dir fs1 roots x y <-> tracked_dir fs roots x y.
Proof.
  intros Hp Hq. rewrite rename_tracked. split; [tauto|]. intros [Hx Hd]. left. split; [done|].
  destruct (below old x) eqn:Hb; [|done]. by apply (below_old_tracked x Hb) in Hx.
Qed.

Lemma rename_file x y : kd = File -> tracked_dir fs1 roots x y <-> tracked_dir fs roots x y.
Proof.
  intros Hkd. assert (forall z w, dir_at fs z w -> below old z = false) as Hnb.
  { intros z w Hz. destruct (below old z) eqn:E; [|done]. exfalso. destruct (decide (z = old)) as [->|Hne].
    - unfold dir_at in Hz. congruence.
    - unfold dir_at in Hz. rewrite (nothing_below fs next old z Hok) in Hz; [done| |done|done]. intros [v Hv]. congruence. }
  rewrite rename_tracked. split.
  - intros [?|[_ (z & Hz & Hb & _)]]; [tauto|]. rewrite (Hnb _ _ Hz) in Hb. done.
  - intros [Hx Hd]. left. split; [done|]. by eapply Hnb.
Qed.

Lemma rename_shortens x y :
  short fs1 -> tracked_dir fs roots x y -> Z.of_nat (length (move old new x)) < PATH_MAX.
Proof.
  intros Hs [_ Hx]. apply (Hs _ (y, Dir)). apply (moved_dirs fs next); [done|done|]. by exists x.
Qed.

End Rename.

(** ** The program follows *)

Section Follow.
Context `{libc} `{nftw_order} (garbage : Z -> watch) (pointer : list Z -> list Z) (fuel : nat) (a0 : list Z).
Hypothesis Hfuel : enough fuel.

Local Abbreviation settles := (settles garbage pointer fuel a0).

(** The state [c] but for the cache and the instance, and in order. *)
Definition followed (c c' : core) : Prop := synced c' /\ exists l i, c' = at_ c l i.

Lemma followed_at c l i :
  calm c -> files_ok (s_files (c_sys c)) (s_next_ino (c_sys c)) -> (forall r, Some r ∈ c_roots c -> is_dir (s_files (c_sys c)) r) ->
  tied (tracked_dir (s_files (c_sys c)) (c_roots c)) (c_roots c) l i -> i_queue i = [] -> followed c (at_ c l i).
Proof. intros Hc Hok Hr Ht Hq. split; [|by exists l, i]. split; [by apply calm_at|done|done|by exists i]. Qed.

(** Nothing was put into the queue. *)
Lemma settles_quiet c l i fd :
  calm c -> files_ok (s_files (c_sys c)) (s_next_ino (c_sys c)) -> (forall r, Some r ∈ c_roots c -> is_dir (s_files (c_sys c)) r) ->
  tied (tracked_dir (s_files (c_sys c)) (c_roots c)) (c_roots c) l i -> i_queue i = [] -> settles (followed c) fd (at_ c l i).
Proof. intros. by apply settles_done, followed_at. Qed.

Lemma create_settles c l i kd p pino n fd (fs := s_files (c_sys c)) :
  let c1 := with_sys (set_s_next_ino (s_next_ino (c_sys c) + 1) (set_s_files (<[join p n := (s_next_ino (c_sys c), kd)]> fs) (c_sys c))) c in
  calm c -> files_ok fs (s_next_ino (c_sys c)) -> (forall r, Some r ∈ c_roots c -> is_dir fs r) ->
  tied (tracked_dir fs (c_roots c)) (c_roots c) l i -> i_queue i = [] ->
  fs !! p = Some (pino, Dir) -> name_ok n -> fs !! join p n = None -> short (s_files (c_sys c1)) ->
  settles (followed c1) fd (at_ c1 l (emit_entry pino IN_CREATE 0 kd n i)).
Proof.
  intros c1 Hc Hok Hr Ht Hq Hp Hn Hnew Hs. pose proof (proj1 (proj2 Hn)) as Hsl.
  assert (files_ok (s_files (c_sys c1)) (s_next_ino (c_sys c1))) as Hok1 by (apply create_ok; [done|by exists pino|done..]).
  set (fs1 := s_files (c_sys c1)) in *.
  assert (forall r, Some r ∈ c_roots c -> is_dir fs1 r) as Hr1.
  { intros r Hr'. destruct (Hr r Hr') as [ino E]. exists ino. unfold fs1. cbn. rewrite lookup_insert_ne; [done|]. intros <-. fold fs in Hnew. congruence. }
  assert (calm c1) as Hc1 by (by destruct Hc).
  assert (forall x y, dir_at fs1 x y <-> dir_at fs x y \/ (kd = Dir /\ x = join p n /\ y = s_next_ino (c_sys c))) as Hdirs.
  { intros x y. unfold dir_at, fs1. cbn. rewrite lookup_insert_Some. destruct (decide (join p n = x)) as [<-|Hne]; naive_solver. }
  unfold emit_entry. destruct (watch_cases fs _ (c_roots c) l i Hok Ht p pino Hp) as [(w & Ew & Htr & Hk)|[Ew Htr]]; rewrite Ew.
  - rewrite mask_has by tauto. destruct kd.
    + eapply (settles_one _ _ _ _ _ _ c1 l _ _ [] (tracked_dir fs1 (c_roots c))); [done|done|cbn; rewrite Hq; reflexivity| | |].
      { constructor; [by apply entry_small|done]. }
      { intros b rest Q HQ. eapply (does_created _ _ fd w _ 0 n p rest true c1 l _ (tracked_dir fs (c_roots c)));
          [done|done|by do 2 apply tied_queue| |exact Hk|by left| | |].
        - intros x y [_ Hx]. apply Hdirs. by left.
        - apply (Hs _ (s_next_ino (c_sys c), Dir)). apply lookup_insert_eq.
        - intros y [_ Hy]. unfold dir_at in Hy. congruence.
        - intros l' i' Ht' Hq'. apply HQ; [|exact Hq'|done]. eapply tied_ext; [|exact Ht']. intros x y. fold fs1.
          unfold plus_tree, tracked_dir. rewrite !Hdirs. split.
          + intros [[? ?]|[Hb Hd]]; [tauto|]. split; [|done]. apply (tracked_new fs (c_roots c) Hr p n Hsl Hnew) in Htr.
            destruct Htr as (r & ? & ?). exists r. split; [done|]. by eapply below_trans.
          + intros [? [?|(_ & -> & ->)]]; [by left; split|right]. split; [apply below_refl|tauto]. }
      { intros l' i' Ht' Hq'. by apply followed_at. }
    + eapply (settles_inert _ _ _ _ _ _ c1 l _ (tracked_dir fs (c_roots c))); [done|done|by apply tied_queue| | |].
      * cbn. rewrite Hq. constructor; [|done]. right. split; [by exists p|by left].
      * cbn. rewrite Hq. constructor; [by apply entry_small|done].
      * apply followed_at; [done..| |done]. apply tied_queue, tied_queue. eapply tied_ext; [|exact Ht]. intros x y.
        unfold tracked_dir. fold fs1. rewrite Hdirs. naive_solver.
  - apply settles_quiet; [done..| |done]. eapply tied_ext; [|exact Ht]. intros x y. unfold tracked_dir. fold fs1. rewrite Hdirs.
    split; [tauto|]. intros [Hx [?|(_ & -> & _)]]; [done|]. by apply (tracked_new fs (c_roots c) Hr p n Hsl Hnew) in Hx.
Qed.

Lemma remove_settles c l i kd p n ino fd (fs := s_files (c_sys c)) :
  let c1 := with_sys (set_s_files (delete (join p n) fs) (c_sys c)) c in
  calm c -> files_ok fs (s_next_ino (c_sys c)) -> (forall r, Some r ∈ c_roots c -> is_dir fs r) ->
  tied (tracked_dir fs (c_roots c)) (c_roots c) l i -> i_queue i = [] ->
  fs !! join p n = Some (ino, kd) -> Some (join p n) ∉ c_roots c ->
  (forall x, is_Some (fs !! x) -> below (join p n) x = true -> x = join p n) ->
  settles (followed c1) fd (at_ c1 l (emit_deleted ino i)).
Proof.
  intros c1 Hc Hok Hr Ht Hq Hp Hroot Hempty.
  assert (files_ok (s_files (c_sys c1)) (s_next_ino (c_sys c1))) as Hok1 by (by apply remove_ok).
  set (fs1 := s_files (c_sys c1)) in *.
  assert (forall r, Some r ∈ c_roots c -> is_dir fs1 r) as Hr1.
  { intros r Hr'. destruct (Hr r Hr') as [y E]. exists y. unfold fs1. cbn. rewrite lookup_delete_ne; [done|congruence]. }
  assert (calm c1) as Hc1 by (by destruct Hc).
  assert (forall x y, dir_at fs1 x y <-> dir_at fs x y /\ x <> join p n) as Hdirs.
  { intros x y. unfold dir_at, fs1. cbn. rewrite lookup_delete_Some. naive_solver. }
  assert (forall j, i_watches j !! ino = None -> emit_deleted ino j = j) as Hnone by (intros j E; unfold emit_deleted; by rewrite E).
  destruct kd.
  - destruct (watch_cases fs _ (c_roots c) l i Hok Ht (join p n) ino Hp) as [(w & Ew & Htr & Hk)|[Ew Htr]].
    + unfold emit_deleted, emit. rewrite Ew, mask_has by tauto. cbn. rewrite Hq. cbn.
      eapply (settles_one _ _ _ _ _ _ c1 l (mk_inst _ _ [_; _]) _ _ (fun x y => tracked_dir fs (c_roots c) x y /\ y <> ino));
        [done|done|reflexivity|by repeat constructor| |].
      * intros b rest Q HQ. eapply (does_deleted garbage pointer fd w ino _ (join p n) rest true c1 l i b (tracked_dir fs (c_roots c)));
          [done|by eapply tracked_one|exact Ht|by split|exact Ew|done|]. intros l' Ht'. apply HQ; [exact Ht'|done|]. constructor; [by left|done].
      * intros l' i' Ht' Hq'. apply followed_at; [done..| |done]. eapply tied_ext; [|exact Ht']. intros x y.
        unfold tracked_dir. fold fs1. rewrite Hdirs. split; intros [H1 H2]; (split; [tauto|]).
        { split; [tauto|]. intros ->. apply H2. destruct H1 as [_ Hd]. unfold dir_at in *. congruence. }
        { intros ->. apply (proj2 H2). eapply (proj2 (dirs_one_to_one _ _ Hok)); [apply (proj1 H2)|done]. }
    + rewrite Hnone by done. apply settles_quiet; [done..| |done]. eapply tied_ext; [|exact Ht]. intros x y.
      unfold tracked_dir. fold fs1. rewrite Hdirs. split; [|tauto]. intros [Hx Hd]. split; [done|]. split; [done|]. by intros ->.
  - rewrite Hnone by exact (file_unwatched fs _ (c_roots c) l i Hok Ht _ ino Hp). apply settles_quiet; [done..| |done]. eapply tied_ext; [|exact Ht]. intros x y.
    unfold tracked_dir. fold fs1. rewrite Hdirs. split; [|tauto]. intros [Hx Hd]. split; [done|]. split; [done|]. intros ->.
    unfold dir_at in Hd. congruence.
Qed.

(** Renaming, the event of the directory itself aside. *)
Lemma rename_settles c l i kd p pino n q qino nm ino fd (fs := s_files (c_sys c)) :
  let fs1 := renamed (join p n) (join q nm) fs in
  let c1 := with_sys (set_s_cookie (s_cookie (c_sys c) + 1) (set_s_files fs1 (c_sys c))) c in
  calm c -> files_ok fs (s_next_ino (c_sys c)) -> (forall r, Some r ∈ c_roots c -> is_dir fs r) ->
  tied (tracked_dir fs (c_roots c)) (c_roots c) l i -> i_queue i = [] ->
  fs !! p = Some (pino, Dir) -> fs !! q = Some (qino, Dir) -> fs !! join p n = Some (ino, kd) -> fs !! join q nm = None ->
  name_ok n -> name_ok nm -> below (join p n) q = false ->
  (forall r, Some r ∈ c_roots c -> below (join p n) r = false) -> short fs1 ->
  settles (followed c1) fd (at_ c1 l
    (emit_entry qino IN_MOVED_TO (s_cookie (c_sys c)) kd nm (emit_entry pino IN_MOVED_FROM (s_cookie (c_sys c)) kd n i))).
Proof.
  intros fs1 c1 Hc Hok Hr Ht Hq Hp Hqd Hi Hnew Hn Hnm Hb Hno Hs.
  pose proof (proj1 (proj2 Hn)) as Hsl. pose proof (proj1 (proj2 Hnm)) as Hsl'.
  assert (files_ok fs1 (s_next_ino (c_sys c1))) as Hok1 by (apply rename_ok; [done|by exists qino|done..]).
  assert (forall r, Some r ∈ c_roots c -> is_dir fs1 r) as Hr1 by (by eapply rename_keeps_roots).
  assert (calm c1) as Hc1 by (by destruct Hc).
  assert (forall l' i', tied (tracked_dir fs1 (c_roots c)) (c_roots c) l' i' -> i_queue i' = [] -> followed c1 (at_ c1 l' i')) as Hdone
    by (intros l' i' Ht' Hq'; by apply followed_at).
  assert (forall T l' i', (forall x y, tracked_dir fs1 (c_roots c) x y <-> T x y) -> tied T (c_roots c) l' i' ->
    tied (tracked_dir fs1 (c_roots c)) (c_roots c) l' i') as Hext by (intros T l' i' HT; apply tied_ext; intros x y; by rewrite HT).
  assert (forall q', tied (tracked_dir fs (c_roots c)) (c_roots c) l (set_i_queue q' i)) as Htq by (intros; by apply tied_queue).
  assert (kd = File -> forall q', Forall (inert (tracked_dir fs (c_roots c)) i) q' -> Forall small q' ->
    settles (followed c1) fd (at_ c1 l (set_i_queue q' i))) as Hfile.
  { intros -> q' Hin Hsm. eapply settles_inert; [done|done|apply Htq|done|done|]. apply Hdone; [|done]. eapply Hext; [|apply Htq].
    intros x y. by eapply rename_file. }
  pose proof (entry_small) as Hsmall. unfold emit_entry.
  destruct (watch_cases fs _ (c_roots c) l i Hok Ht p pino Hp) as [(w & Ew & Htr & Hk)|[Ew Htr]];
    destruct (watch_cases fs _ (c_roots c) l i Hok Ht q qino Hqd) as [(w' & Ew' & Htr' & Hk')|[Ew' Htr']];
    repeat (cbn; rewrite ?Ew, ?Ew', ?mask_has by tauto); cbn; rewrite ?Hq; cbn; destruct kd.
  - eapply (settles_renamed _ _ fuel a0 _ _ c1 l (set_i_queue _ (set_i_queue _ i)) w w' _ n nm p q (tracked_dir fs (c_roots c)));
      [done|done|apply Htq|exact Hk|exact Hk'|reflexivity|by repeat (constructor; [by apply Hsmall|])|by eapply (f_short _ _ Hok)| | |exact Hno| |].
    + apply (Hs _ (ino, Dir)). by eapply rename_new.
    + intros x y. by eapply rename_shortens.
    + intros x. by apply (rename_roots fs (s_next_ino (c_sys c)) (c_roots c)).
    + intros l' i' Ht' Hq'. apply Hdone; [|done]. eapply Hext; [|exact Ht']. intros x y. by eapply rename_both.
  - apply Hfile; [done| |by repeat (constructor; [by apply Hsmall|])]. constructor; [right; split; [by exists p|tauto]|].
    constructor; [right; split; [by exists q|tauto]|done].
  - eapply (settles_moved_out _ _ fuel a0 _ _ c1 l (set_i_queue _ i) w _ n p (tracked_dir fs (c_roots c)));
      [done|done|by eapply tracked_one|apply Htq|exact Hk|reflexivity|by repeat (constructor; [by apply Hsmall|])|by eapply (f_short _ _ Hok)|].
    intros l' i' Ht' Hq'. apply Hdone; [|done]. eapply Hext; [|exact Ht']. intros x y. by eapply rename_out.
  - apply Hfile; [done| |by repeat (constructor; [by apply Hsmall|])]. constructor; [right; split; [by exists p|tauto]|done].
  - eapply (settles_one _ _ fuel a0 _ _ c1 l (set_i_queue _ i) _ [] (tracked_dir fs1 (c_roots c)));
      [done|done|reflexivity|by repeat (constructor; [by apply Hsmall|])| |done].
    intros b rest Q HQ. eapply (does_created _ _ fd w' _ _ nm q rest true c1 l _ (tracked_dir fs (c_roots c)));
      [done|done|apply (tied_queue _ _ _ (set_i_queue _ i)), Htq| |exact Hk'|by right| | |].
    + intros x y Hx. assert (tracked_dir fs1 (c_roots c) x y) as [_ Hd]; [|exact Hd]. eapply rename_in; last (by left); try done.
    + apply (Hs _ (ino, Dir)). by eapply rename_new.
    + intros y [_ Hy]. unfold dir_at in Hy. congruence.
    + intros l' i' Ht' Hq'. apply HQ; [|exact Hq'|done]. eapply Hext; [|exact Ht']. intros x y. by eapply rename_in.
  - apply Hfile; [done| |by repeat (constructor; [by apply Hsmall|])]. constructor; [right; split; [by exists q|tauto]|done].
  - apply settles_done, Hdone; [|done]. eapply Hext; [|exact Ht]. intros x y. by eapply rename_none.
  - apply settles_done, Hdone; [|done]. eapply Hext; [|exact Ht]. intros x y. by eapply rename_file.
Qed.

End Follow.
