(* ===== verification/DtMirror.v ===== *)
(** * inotify_dtree: the cache mirrors the directories

    What the program promises: after its start, after operations on the
    directories and after events are lost, the cache and the kernel's watches are
    those of the directories below the roots. *)

From stdpp Require Import prelude list_numbers strings gmap.
From Stdlib Require Import ZArith Lia.
From S2P Require Import Prelude CLib Vfs TlpiLib DtWorld DtFiles DtCache DtProg DtMain DtSpec DtTree DtSync DtFollow.
Open Scope Z_scope.
Set Warnings "-clear-no-such-hyp".

(** A slot of the cache holds the name with a watch. *)
Definition cached (d : dtree) (w : Z) (p : path) : Prop := 0 <= w /\ mk_watch w p ∈ wlCache d.

(** The cache has exactly the directories below the roots, each once, with the watch
    descriptor that the kernel has for it, and the kernel has no other watches. *)
Record mirrored (d : dtree) (i : inst) : Prop := {
  mir_cache : forall p w, cached d w p <-> tracked (rootDirPaths d) p /\
    exists ino, s_files (sysk d) !! p = Some (ino, Dir) /\ i_watches i !! ino = Some (w, mask_of (rootDirPaths d) p);
  mir_once : forall j j' x x', wlCache d !! j = Some x -> wlCache d !! j' = Some x' -> wd x = wd x' -> 0 <= wd x -> j = j';
  mir_all : forall p ino, tracked (rootDirPaths d) p -> s_files (sysk d) !! p = Some (ino, Dir) -> is_Some (i_watches i !! ino);
  mir_only : forall ino x, i_watches i !! ino = Some x -> exists p, tracked (rootDirPaths d) p /\ s_files (sysk d) !! p = Some (ino, Dir)
}.

(** The program waits with nothing to do. *)
Definition waiting (d : dtree) : Prop := synced (core_of d).

Lemma waiting_mirrored d : waiting d -> exists i, s_inst (sysk d) = Some i /\ i_queue i = [] /\ mirrored d i.
Proof.
  intros [_ _ _ (i & Hi & Hq & m & Hl & Hm)]. exists i. do 2 (split; [done|]). cbn in *.
  assert (forall w p, cached d w p <-> m !! w = Some p) as Hc.
  { intros w p. unfold cached. split.
    - intros [Hw [j Hj]%list_elem_of_lookup]. destruct (h_slot _ _ Hl j _ Hj) as [[= -> _]|[_ E]]; [lia|done].
    - intros [Hw [j Hj]]%(h_entry _ _ Hl). split; [done|]. by eapply list_elem_of_lookup_2. }
  split.
  - intros p w. rewrite Hc, (r_map _ _ _ _ Hm). split.
    + intros (ino & k & [Hp Hd] & E). destruct (r_mask _ _ _ _ Hm p ino) as [w' E']; [by split|]. split; [done|]. exists ino. split; [done|congruence].
    + intros [Hp (ino & Hd & E)]. exists ino, (mask_of (rootDirPaths d) p). split; [by split|done].
  - intros j j' x x'. apply (h_once _ _ Hl).
  - intros p ino Hp Hd. destruct (r_mask _ _ _ _ Hm p ino) as [w E]; [by split|]. by exists (w, mask_of (rootDirPaths d) p).
  - intros ino x E. destruct (r_back _ _ _ _ Hm ino x E) as [p [Hp Hd]]. by exists p.
Qed.

Section Mirror.
Context `{libc} `{nftw_order} (garbage : Z -> watch) (pointer : list Z -> list Z) (fuel : nat) (a0 : list Z).
Hypothesis Hfuel : enough fuel.

Lemma main_loop_add n k fd d fd' d' :
  main_loop garbage pointer n fuel a0 fd d = (Ret fd', d') ->
  main_loop garbage pointer (n + k) fuel a0 fd d = main_loop garbage pointer k fuel a0 fd' d'.
Proof.
  revert fd d. induction n as [|n IH]; intros fd d E; cbn in *; [by injection E as -> ->|].
  apply bind_inv_ret in E as ([ty ev] & d1 & E1 & E). rewrite (bind_ret _ _ _ _ _ E1).
  apply bind_inv_ret in E as (fd2 & d2 & E2 & E). rewrite (bind_ret _ _ _ _ _ E2).
  apply bind_inv_ret in E as (fd3 & d3 & E3 & E). rewrite (bind_ret _ _ _ _ _ E3). by apply IH.
Qed.

Lemma waiting_blocks n fd d : waiting d -> main_loop garbage pointer (S n) fuel a0 fd d = (Blocked, d).
Proof.
  intros [Hc _ _ (i & Hi & Hq & _)]. pose proof (calm_script _ Hc) as Hs. pose proof (calm_lines _ Hc) as Hl. cbn in *.
  apply bind_blocked. unfold sys_select, bind, ksys, next_error, get. rewrite Hs. cbn. rewrite Hl, Hi. cbn.
  rewrite (bool_decide_eq_true_2 (i_queue i = [])) by done. by destruct d.
Qed.

(** *** One operation *)

Lemma step_settles c op k' fd :
  synced c -> fs_step op (c_sys c) k' -> spares (c_roots c) op -> short (s_files k') ->
  settles garbage pointer fuel a0 (followed (with_sys k' c)) fd (with_sys k' c).
Proof.
  intros [Hc Hok Hr (i & Hi & Hq & Ht)] Hst Hsp Hs.
  assert (forall k f, s_inst k = Some i -> with_sys (on_inst f k) c = at_ (with_sys k c) (c_cache c) (f i)) as Hat
    by (intros k f E; unfold on_inst; by rewrite E).
  assert (forall k f, s_inst k = Some i -> followed (with_sys k c) = followed (with_sys (on_inst f k) c)) as Hfo
    by (intros k f E; unfold on_inst; by rewrite E).
  inversion Hst as [kd p n pino k Hp Hn Hnew|p n ino kd k Hp Hn He|p n q nm pino qino ino kd k Hp Hq' Hi' Hnew Hn Hnm Hb]; subst;
    rewrite <- Hfo, Hat by done.
  - by apply (create_settles garbage pointer fuel a0 Hfuel c (c_cache c) i kd p pino n fd).
  - by apply (remove_settles garbage pointer fuel a0 Hfuel c (c_cache c) i kd p n ino fd).
  - pose proof (rename_settles garbage pointer fuel a0 Hfuel c (c_cache c) i kd p pino n q qino nm ino fd) as Hren.
    cbn in Hsp, Hs. rewrite emit_unwatched; [by apply Hren|]. intros w a. rewrite !emit_entry_watches. intros Ew.
    destruct kd; [|by rewrite (file_unwatched _ _ _ _ _ Hok Ht _ _ Hi') in Ew].
    destruct (watch_cases _ _ _ _ _ Hok Ht _ _ Hi') as [(w' & Ew' & _)|[Ew' _]]; [|congruence].
    assert (a = mask_of (c_roots c) (join p n)) as -> by congruence. apply mask_move_self. intros Hx.
    specialize (Hsp _ Hx). by rewrite below_refl in Hsp.
Qed.

Lemma main_loop_blocked n k fd d d' :
  main_loop garbage pointer n fuel a0 fd d = (Blocked, d') -> main_loop garbage pointer (n + k) fuel a0 fd d = (Blocked, d').
Proof.
  revert fd d. induction n as [|n IH]; intros fd d; cbn; [done|]. unfold bind.
  destruct (sys_select d) as [[[ty ev]| | |] d1]; [|done..]. destruct ty.
  - destruct (executeCommand garbage fd d1) as [[fd2| | |] d2]; [|done..]. cbn. destruct ev; [|apply IH].
    destruct (processInotifyEvents _ _ _ _ _) as [[fd3| | |] d3]; [apply IH|done..].
  - cbn. destruct ev; [|apply IH]. destruct (processInotifyEvents _ _ _ _ _) as [[fd3| | |] d3]; [apply IH|done..].
Qed.

(** The same files and the same roots, and the cache was not built anew. *)
Definition same_watch (d d' : dtree) : Prop :=
  s_files (sysk d') = s_files (sysk d) /\ rootDirPaths d' = rootDirPaths d /\ opt d' = opt d /\ reinitCnt d' = reinitCnt d /\
  s_next_ino (sysk d') = s_next_ino (sysk d).

End Mirror.

(** One operation, and the turns of the main loop after it. *)
Lemma operation_comes_back `{libc} `{nftw_order} garbage pointer fuel a0 fd d op k' :
  enough fuel -> waiting d -> fs_step op (sysk d) k' -> spares (rootDirPaths d) op -> short (s_files k') ->
  exists turns d', waiting d' /\ same_watch (set_sysk k' d) d' /\
    forall more, main_loop garbage pointer (turns + S more) fuel a0 fd (set_sysk k' d) = (Blocked, d').
Proof.
  intros Hf Hd Hst Hsp Hs.
  destruct (step_settles garbage pointer fuel a0 Hf (core_of d) op k' fd Hd Hst Hsp Hs (set_sysk k' d) eq_refl) as (turns & fd' & d' & E & Hw & l & i & Hc).
  exists turns, d'. split; [done|]. split.
  - unfold core_of, at_, with_sys in Hc. cbn in Hc. injection Hc as E1 _ E3 _ E5 _ E7. unfold same_watch. by rewrite E1, E3, E5, E7.
  - intros more. rewrite (main_loop_add garbage pointer fuel a0 _ _ _ _ _ _ E). by apply waiting_blocks.
Qed.

(** C2: in a state where the program waits with the cache in step, no command typed, no
    call failing, the checks and dumps of the cache off and a read buffer of the default
    size or of 272 to 27200 bytes ([waiting]), another process creates, removes or
    renames a file or a directory that is not a root and has none below it, and all
    paths stay below [PATH_MAX].  The main loop then comes back to where it waits, with
    the same roots and without having built the cache anew, and the cache mirrors the
    new directories. *)
Theorem operation_followed `{libc} `{nftw_order} garbage pointer fuel a0 fd d op k' :
  enough fuel -> waiting d -> fs_step op (sysk d) k' -> spares (rootDirPaths d) op -> short (s_files k') ->
  exists turns d', waiting d' /\ same_watch (set_sysk k' d) d' /\
    forall more, main_loop garbage pointer (turns + S more) fuel a0 fd (set_sysk k' d) = (Blocked, d').
Proof. apply operation_comes_back. Qed.

(** A sequence of operations, each of which the program catches up with. *)
Inductive session `{libc} `{nftw_order} garbage pointer fuel a0 fd : list fs_op -> dtree -> dtree -> Prop :=
| session_nil d : session garbage pointer fuel a0 fd [] d d
| session_cons op ops turns d k' d1 d2 :
    fs_step op (sysk d) k' -> spares (rootDirPaths d) op -> short (s_files k') ->
    main_loop garbage pointer turns fuel a0 fd (set_sysk k' d) = (Blocked, d1) ->
    session garbage pointer fuel a0 fd ops d1 d2 -> session garbage pointer fuel a0 fd (op :: ops) d d2.

(** C5: the program never loses track: after any sequence of such operations, each
    followed by the turns of the main loop until it blocks, it waits with the cache
    mirroring the directories, below the same roots. *)
Theorem session_followed `{libc} `{nftw_order} garbage pointer fuel a0 fd ops d d' :
  enough fuel -> waiting d -> session garbage pointer fuel a0 fd ops d d' ->
  waiting d' /\ rootDirPaths d' = rootDirPaths d /\ reinitCnt d' = reinitCnt d.
Proof.
  intros Hf Hd Hses. induction Hses as [d|op ops turns d k' d1 d2 Hst Hsp Hs Hb _ IH]; [done|].
  destruct (operation_comes_back garbage pointer fuel a0 fd d op k' Hf Hd Hst Hsp Hs) as (n & d1' & Hw & (_ & Hr & _ & Hn & _) & Hm).
  pose proof (main_loop_blocked garbage pointer fuel a0 turns (n + 1) fd _ _ Hb) as E1. specialize (Hm turns).
  replace (turns + (n + 1))%nat with (n + S turns)%nat in E1 by lia. assert (d1' = d1) as -> by congruence.
  cbn in Hr, Hn. destruct (IH Hw) as (Hw2 & Hr2 & Hn2). split; [done|]. split; congruence.
Qed.

(** ** Building the cache *)

(** A state that is in order but for the cache and the instance. *)
Record sound (d : dtree) : Prop := {
  so_calm : calm (core_of d);
  so_files : files_ok (s_files (sysk d)) (s_next_ino (sysk d));
  so_roots : forall r, Some r ∈ rootDirPaths d -> is_dir (s_files (sysk d)) r
}.

Section Build.
Context `{libc} `{nftw_order} (garbage : Z -> watch) (pointer : list Z -> list Z).

Lemma does_rebuild c fd (Q : Z -> core -> Prop) :
  calm c -> files_ok (s_files (c_sys c)) (s_next_ino (c_sys c)) -> (forall r, Some r ∈ c_roots c -> is_dir (s_files (c_sys c)) r) ->
  (forall n l i, synced (at_ (with_reinit n c) l i) -> Q (s_fd (c_sys c)) (at_ (with_reinit n c) l i)) -> does (reinitialize garbage fd) c Q.
Proof.
  intros Hc Hok Hr HQ. apply does_reinitialize; [by apply calm_script|done|]. intros n l i Ht Hq. apply HQ.
  split; [|done|done|by exists i]. by destruct Hc.
Qed.

(** The files, the roots and the options are the same. *)
Definition same_tree (d d' : dtree) : Prop :=
  s_files (sysk d') = s_files (sysk d) /\ rootDirPaths d' = rootDirPaths d /\ opt d' = opt d.

Lemma core_same_tree d d' n l i : core_of d' = at_ (with_reinit n (core_of d)) l i -> same_tree d d'.
Proof.
  intros E. unfold core_of, at_, with_reinit in E. cbn in E. injection E as E1 _ E3 _ _ _ E7. unfold same_tree. by rewrite E1, E3, E7.
Qed.

End Build.

(** Whatever the cache and the instance hold, reinitialize makes the cache mirror
    the directories below the roots. *)
Theorem reinitialize_mirrors `{libc} `{nftw_order} garbage fd d :
  sound d -> exists d', reinitialize garbage fd d = (Ret (s_fd (sysk d)), d') /\ waiting d' /\ same_tree d d'.
Proof.
  intros [Hc Hok Hr].
  destruct (does_rebuild garbage (core_of d) fd (fun v c' => v = s_fd (sysk d) /\ synced c' /\ exists n l i, c' = at_ (with_reinit n (core_of d)) l i)
    Hc Hok Hr) with (d := d) as (v & d' & E & -> & Hw & n & l & i & Hd); [|done|].
  - intros n l i Hw. split; [done|]. split; [done|]. by exists n, l, i.
  - exists d'. split; [done|]. split; [done|]. by eapply core_same_tree.
Qed.

(** Events that say that the cache is out of step: one for a watch descriptor that
    is not in the cache, and the one for a full queue. *)
Definition out_of_step (d : dtree) (ev : event) : Prop :=
  (e_wd ev <> -1 /\ flag (e_mask ev) IN_IGNORED = false /\ (forall x, x ∈ wlCache d -> wd x <> e_wd ev) /\
     abortOnCacheProblem (opt d) = false) \/
  (e_wd ev = -1 /\ e_mask ev = IN_Q_OVERFLOW).

(** C14: such an event makes the program build the cache anew and drop the events it
    has read: whatever was wrong, the cache mirrors the directories again. *)
Theorem out_of_step_recovers `{libc} `{nftw_order} garbage pointer fd ev rest first d :
  sound d -> out_of_step d ev ->
  exists d', processNextInotifyEvent garbage pointer fd ev rest first d = (Ret (s_fd (sysk d), All), d') /\ waiting d' /\ same_tree d d'.
Proof.
  intros [Hc Hok Hr] Hev.
  set (Q := fun (v : Z * consumed) c' => v = (s_fd (sysk d), All) /\ synced c' /\ exists n l i, c' = at_ (with_reinit n (core_of d)) l i).
  assert (does (processNextInotifyEvent garbage pointer fd ev rest first) (core_of d) Q) as Hp.
  { unfold processNextInotifyEvent. apply does_bind, does_display. destruct Hev as [(Hne & Hi & Hno & Hab)|[-> ->]].
    - rewrite Hi. destruct (Z.eqb_spec (e_wd ev) (-1)); [done|]. cbn [negb andb]. do 2 apply does_bind.
      unfold findWatchChecked. apply does_bind, does_findWatch. cbn [c_cache core_of].
      destruct (slot_loop_spec (fun x => wd x =? e_wd ev) 0 (wlCache d) ltac:(lia)) as [(j & x & _ & Hj & E)|[-> _]].
      { exfalso. apply (Hno x); [by eapply list_elem_of_lookup_2|by apply Z.eqb_eq]. }
      cbn [Z.leb Z.compare]. do 2 does_step. cbn [c_opt core_of]. rewrite Hab. do 2 apply does_ret. rewrite bool_decide_eq_true_2 by done.
      unfold rebuild. apply does_bind. apply does_rebuild; [done..|]. intros n' l i Hw. apply does_ret. split; [done|]. split; [done|]. by exists n', l, i.
    - apply does_bind. branch false. apply does_ret. do 4 branch false. branch true.
      unfold overflow_event. apply does_bind. apply does_modify with (g := id); [done|]. unfold id.
      apply does_bind. intros d1 Hd1. exists d1, d1. split; [done|]. rewrite Hd1. does_step. apply does_bind, does_rebuild; [done..|].
      intros n l i Hw. apply does_finish; [apply (sy_calm _ Hw)|]. split; [done|]. split; [done|]. by exists n, l, i. }
  destruct (Hp d eq_refl) as (v & d' & E & -> & Hw & n & l & i & Hd).
  exists d'. split; [done|]. split; [done|]. by eapply core_same_tree.
Qed.
(** ** The start *)

(** Arguments that are not options. *)
Definition plain (a : list Z) : Prop := head a <> Some 45.

Lemma parse_plain n l : Forall plain l -> (length l <= n)%nat -> parse_options n l = ([], Some l).
Proof.
  intros Hl. revert n. induction Hl as [|a l Ha _ IH]; intros n Hn; [by destruct n|]. destruct n as [|n]; cbn in Hn; [lia|]. cbn.
  rewrite bool_decide_eq_false_2 by (by intros ->). rewrite IH by lia.
  unfold plain in Ha. destruct a as [|x a]; [done|]. cbn in Ha.
  destruct x as [|x|x]; try done; do 6 (destruct x as [x|x|]; try done).
Qed.

Section Start.
Context `{libc} `{nftw_order} (garbage : Z -> watch) (pointer : list Z -> list Z).

Definition with_roots r c := mk_core (c_opt c) (c_cache c) r (c_ignore c) (c_reinit c) (c_lines c) (c_sys c).

Lemma does_lstat_of c p (Q : option (Z * kind) -> core -> Prop) : Q (s_files (c_sys c) !! p) c -> does (lstat_of p) c Q.
Proof. by apply does_gets with (g := fun c => s_files (c_sys c) !! p). Qed.

Lemma does_count_roots c dirs (Q : unit -> core -> Prop) :
  Forall (is_dir (s_files (c_sys c))) dirs -> Q tt c -> does (count_roots dirs) c Q.
Proof.
  induction 1 as [|p dirs [ino Hp] _ IH]; intros HQ; cbn; [by apply does_ret|].
  apply does_bind, does_lstat_of. rewrite Hp. by apply IH.
Qed.

Lemma does_no_error c (Q : Z -> core -> Prop) : s_script (c_sys c) = [] -> Q 0 c -> does (ksys next_error) c Q.
Proof. intros Hs HQ. apply does_ksys. unfold next_error. rewrite Hs. by destruct c. Qed.

Lemma does_duplicate c p ino seen (Q : unit -> core -> Prop) :
  Forall (fun '(_, k) => ino <> k) seen -> Q tt c -> does (duplicate_loop p ino seen) c Q.
Proof.
  induction 1 as [|[q k] seen Hk _ IH]; intros HQ; cbn; [by apply does_ret|]. destruct (Z.eqb_spec ino k); [done|]. by apply IH.
Qed.

Lemma does_copy_loop c seen dirs (Q : unit -> core -> Prop) :
  s_script (c_sys c) = [] -> files_ok (s_files (c_sys c)) (s_next_ino (c_sys c)) ->
  Forall (is_dir (s_files (c_sys c))) dirs -> Forall (fun '(q, k) => s_files (c_sys c) !! q = Some (k, Dir)) seen -> NoDup (seen.*1 ++ dirs) ->
  Q tt (with_roots (c_roots c ++ map Some dirs) c) -> does (copy_loop seen dirs) c Q.
Proof.
  intros Hs Hok Hd. revert c seen Hs Hok Hd. induction dirs as [|p dirs IH]; intros c seen Hs Hok Hd Hseen Hnd HQ; cbn.
  - apply does_ret. rewrite app_nil_r in HQ. by destruct c.
  - apply Forall_cons in Hd as [[ino Hp] Hd]. apply does_bind, does_no_error; [done|]. branch false.
    apply does_bind. apply does_modify with (g := fun c => with_roots (c_roots c ++ [Some p]) c); [done|].
    apply does_bind, does_lstat_of. cbn [with_roots c_sys]. rewrite Hp. apply does_bind, does_duplicate.
    + apply Forall_forall. intros [q k] Hq. rewrite Forall_forall in Hseen. specialize (Hseen _ Hq). cbn in Hseen. intros <-.
      assert (q = p) as -> by (by eapply (f_inode _ _ Hok)). apply NoDup_app in Hnd as (_ & Hno & _).
      apply (Hno p); [apply list_elem_of_fmap; by exists (p, ino)|by left].
    + apply IH; [done|done|done| | |].
      * apply Forall_app. split; [done|by repeat constructor].
      * rewrite fmap_app, <- app_assoc. exact Hnd.
      * unfold with_roots in *. cbn. rewrite <- app_assoc. exact HQ.
Qed.

Lemma does_copyRootDirPaths c dirs (Q : unit -> core -> Prop) :
  s_script (c_sys c) = [] -> files_ok (s_files (c_sys c)) (s_next_ino (c_sys c)) ->
  Forall (is_dir (s_files (c_sys c))) dirs -> NoDup dirs ->
  (forall c', c_opt c' = c_opt c -> c_sys c' = c_sys c -> c_lines c' = c_lines c -> c_roots c' = map Some dirs -> Q tt c') ->
  does (copyRootDirPaths dirs) c Q.
Proof.
  intros Hs Hok Hd Hnd HQ. unfold copyRootDirPaths. apply does_bind, does_count_roots; [done|].
  do 2 (apply does_bind, does_no_error; [done|]; branch false). apply does_bind. apply does_modify with (g := with_roots []); [done|].
  apply does_bind, does_copy_loop; [done|done|done|done|done|].
  apply does_modify with (g := fun c => mk_core (c_opt c) (c_cache c) (c_roots c) 0 (c_reinit c) (c_lines c) (c_sys c)); [done|].
  by apply HQ.
Qed.

End Start.

(** C15: started on different directories, and no options, the program comes to wait
    with the cache mirroring what is below them. *)
Theorem main_mirrors `{libc} `{nftw_order} garbage pointer fuel a0 dirs d :
  s_script (sysk d) = [] -> lines d = [] -> files_ok (s_files (sysk d)) (s_next_ino (sysk d)) ->
  dirs <> [] -> NoDup dirs -> Forall plain dirs -> Forall (is_dir (s_files (sysk d))) dirs ->
  exists d', waiting d' /\ rootDirPaths d' = map Some dirs /\ s_files (sysk d') = s_files (sysk d) /\
    forall turns, main garbage pointer (S turns) fuel (a0 :: dirs) d = (Blocked, d').
Proof.
  intros Hs Hl Hok Hne Hnd Hpl Hd.
  set (c := mk_core (mk_opts 0 false false 0 None false) (wlCache d) (rootDirPaths d) (ignoreRootDirs d) (reinitCnt d) [] (sysk d)).
  assert (does (copyRootDirPaths dirs ;;; let* fd := reinitialize garbage (-1) in printf (a0 ++ lit "> ") ;;; ret fd) c
    (fun _ c' => synced c' /\ c_roots c' = map Some dirs /\ s_files (c_sys c') = s_files (sysk d))) as Hstart.
  { apply does_bind, does_copyRootDirPaths; [done..|]. intros c1 Eo Ek El Er.
    apply does_bind, does_rebuild; [| | |intros n l i Hw; apply does_bind, does_printf, does_ret; (split; [exact Hw|split; [exact Er|cbn; by rewrite Ek]])].
    - split; rewrite ?Eo, ?Ek, ?El; cbn; [done|done|by left|done|done].
    - by rewrite Ek.
    - rewrite Er, Ek. intros r Hr. apply list_elem_of_fmap in Hr as (r' & [= <-] & Hr). rewrite Forall_forall in Hd. by apply Hd. }
  destruct (Hstart (set_opt (mk_opts 0 false false 0 None false) d)) as (fd & d' & E & Hw & Hr & Hf).
  { unfold core_of, c. cbn. by rewrite Hl. }
  exists d'. do 3 (split; [done|]). intros turns. unfold main.
  rewrite bind_ret with (a := tt) (w' := set_opt (mk_opts 0 false false 0 None false) d) by done.
  rewrite bind_ret with (a := a0) (w' := set_opt (mk_opts 0 false false 0 None false) d) by done.
  cbn [tail]. rewrite parse_plain by (try done; cbn; lia). cbn [set_options]. rewrite bind_ret with (a := tt) (w' := set_opt (mk_opts 0 false false 0 None false) d) by done.
  destruct dirs as [|p dirs]; [done|]. apply bind_inv_ret in E as (u & d1 & E1 & E). rewrite (bind_ret _ _ _ _ _ E1).
  apply bind_inv_ret in E as (fd1 & d2 & E2 & E). rewrite (bind_ret _ _ _ _ _ E2).
  apply bind_inv_ret in E as (u' & d3 & E3 & E). rewrite (bind_ret _ _ _ _ _ E3). injection E as -> ->. by apply waiting_blocks.
Qed.

(** ** An example

    The directory w holds r, which is watched, and o, which is not; r holds the
    directory a and the file f. *)

Definition demo_libc : libc := {| strerror := fun _ => []; ename := [] |}.
Definition demo_nftw : nftw_order := {| walk := subtree; walk_subtree := fun _ _ => reflexivity _ |}.
Definition demo_garbage (j : Z) : watch := mk_watch 77 (lit "junk").

Definition w_r : path := join (lit "w") (lit "r").
Definition w_o : path := join (lit "w") (lit "o").

Definition demo_files : files :=
  <[join w_r (lit "f") := (5, File)]> (<[join w_r (lit "a") := (4, Dir)]> (<[w_o := (3, Dir)]> (<[w_r := (2, Dir)]> {[lit "w" := (1, Dir)]}))).

Definition demo_opts : opts := mk_opts 0 false false 0 None false.

Definition demo_start : dtree :=
  mk_dt demo_opts None 0 [] [Some w_r] 0 0 0 0 [] [] [] [] (mk_sysw demo_files 6 1 None 3 []).

(** It has been started. *)
Definition demo_waiting : dtree := snd (reinitialize (H := demo_libc) (H0 := demo_nftw) demo_garbage (-1) demo_start).

Lemma short_files fs : bool_decide (map_Forall (fun p _ => Z.of_nat (length p) < PATH_MAX) fs) = true -> short fs.
Proof. intros H%bool_decide_eq_true. exact H. Qed.

Lemma no_slash (n : list Z) : bool_decide (47 ∈ n) = false -> ~ (47 ∈ n).
Proof. apply bool_decide_eq_false. Qed.

Lemma demo_files_ok : files_ok demo_files 6.
Proof.
  assert (files_ok {[lit "w" := (1, Dir)]} 2) as H1.
  { split.
    - intros p n x [E _]%lookup_singleton_Some _. exfalso. assert (47 ∈ lit "w") as Hin by (rewrite E; unfold join; set_solver).
      revert Hin. by apply no_slash.
    - intros p q ino kd [<- _]%lookup_singleton_Some [<- _]%lookup_singleton_Some. done.
    - intros p ino kd [_ [= <- _]]%lookup_singleton_Some. lia.
    - by apply short_files. }
  apply (create_ok _ 5); [|by eexists|by apply no_slash|done|by apply short_files].
  apply (create_ok _ 4); [|by eexists|by apply no_slash|done|by apply short_files].
  apply (create_ok _ 3); [|by eexists|by apply no_slash|done|by apply short_files].
  apply (create_ok _ 2); [done|by eexists|by apply no_slash|done|by apply short_files].
Qed.

Lemma demo_sound : sound demo_start.
Proof.
  split; [by constructor; try done; left|exact demo_files_ok|]. intros r [[= ->]|Hr%elem_of_nil]%elem_of_cons; [|done].
  exists 2. by vm_compute.
Qed.

Lemma demo_waits : waiting demo_waiting.
Proof.
  destruct demo_sound as [Hc Hok Hr].
  destruct (does_rebuild (H := demo_libc) (H0 := demo_nftw) demo_garbage (core_of demo_start) (-1) (fun _ c' => synced c') Hc Hok Hr)
    with (d := demo_start) as (v & d' & E & Hw); [by intros n l i|done|]. unfold demo_waiting. by rewrite E.
Qed.

(** Another process moves a out of what is watched. *)
Definition demo_op : fs_op := Rename w_r (lit "a") w_o (lit "b").

Definition demo_moved : sysw :=
  let k := sysk demo_waiting in
  on_inst (fun i => emit 4 IN_MOVE_SELF 0 [] (emit_entry 3 IN_MOVED_TO (s_cookie k) Dir (lit "b") (emit_entry 2 IN_MOVED_FROM (s_cookie k) Dir (lit "a") i)))
    (set_s_cookie (s_cookie k + 1) (set_s_files (renamed (join w_r (lit "a")) (join w_o (lit "b")) (s_files k)) k)).

Lemma name_ok_dec (n : list Z) :
  bool_decide (n <> []) && bool_decide (47 ∉ n) && bool_decide (0 ∉ n) && bool_decide (Z.of_nat (length n) <= NAME_MAX) = true -> name_ok n.
Proof. rewrite !andb_true_iff, !bool_decide_eq_true. by intros [[[? ?] ?] ?]. Qed.

Lemma demo_step : fs_step demo_op (sysk demo_waiting) demo_moved.
Proof. apply step_rename; try (by vm_compute); by apply name_ok_dec. Qed.

Lemma demo_spares : spares (rootDirPaths demo_waiting) demo_op.
Proof. intros r Hr. vm_compute in Hr. apply elem_of_cons in Hr as [[= ->]|Hr%elem_of_nil]; [by vm_compute|done]. Qed.

Definition demo_fuel : nat := Z.to_nat 2000.

Lemma demo_enough : enough demo_fuel.
Proof. unfold enough, demo_fuel. lia. Qed.

Lemma operation_followed_witness :
  enough demo_fuel /\ waiting demo_waiting /\ fs_step demo_op (sysk demo_waiting) demo_moved /\
  exists turns d', waiting d' /\
    main_loop (H := demo_libc) (H0 := demo_nftw) demo_garbage (fun p => p) (turns + 1) demo_fuel [] 3 (set_sysk demo_moved demo_waiting) = (Blocked, d').
Proof.
  split; [exact demo_enough|]. split; [exact demo_waits|]. split; [exact demo_step|].
  destruct (@operation_followed demo_libc demo_nftw demo_garbage (fun p => p) demo_fuel [] 3 demo_waiting demo_op demo_moved
    demo_enough demo_waits demo_step demo_spares) as (turns & d' & Hw & _ & Hm); [by apply short_files|].
  exists turns, d'. split; [exact Hw|apply Hm].
Defined.

(** Where the main loop stops. *)
Definition demo_after : dtree :=
  snd (main_loop (H := demo_libc) (H0 := demo_nftw) demo_garbage (fun p => p) 3 demo_fuel [] 3 (set_sysk demo_moved demo_waiting)).

Lemma demo_blocks :
  main_loop (H := demo_libc) (H0 := demo_nftw) demo_garbage (fun p => p) 3 demo_fuel [] 3 (set_sysk demo_moved demo_waiting) = (Blocked, demo_after).
Proof. unfold demo_after. destruct (main_loop _ _ _ _ _ _ _) as [[v|c| |] d] eqn:E; [exfalso|exfalso|done|exfalso];
  apply (f_equal fst) in E; vm_compute in E; discriminate. Qed.

Lemma session_followed_witness :
  session (H := demo_libc) (H0 := demo_nftw) demo_garbage (fun p => p) demo_fuel [] 3 [demo_op] demo_waiting demo_after /\ waiting demo_after.
Proof.
  assert (session (H := demo_libc) (H0 := demo_nftw) demo_garbage (fun p => p) demo_fuel [] 3 [demo_op] demo_waiting demo_after) as Hs.
  { apply (session_cons (H := demo_libc) (H0 := demo_nftw) demo_garbage (fun p => p) demo_fuel [] 3 demo_op [] 3 demo_waiting demo_moved demo_after demo_after
      demo_step demo_spares); [by apply short_files|exact demo_blocks|exact (session_nil _ _ _ _ _ demo_after)]. }
  split; [exact Hs|].
  apply (@session_followed demo_libc demo_nftw demo_garbage (fun p => p) demo_fuel [] 3 [demo_op] demo_waiting demo_after demo_enough demo_waits Hs).
Defined.

Lemma reinitialize_mirrors_witness :
  sound demo_start /\ exists d', reinitialize (H := demo_libc) (H0 := demo_nftw) demo_garbage (-1) demo_start = (Ret 3, d') /\ waiting d'.
Proof.
  split; [exact demo_sound|].
  destruct (@reinitialize_mirrors demo_libc demo_nftw demo_garbage (-1) demo_start demo_sound) as (d' & E & Hw & _). exists d'. split; [exact E|exact Hw].
Defined.

Definition overflow : event := mk_event (-1) IN_Q_OVERFLOW 0 0 [].

Lemma out_of_step_recovers_witness :
  out_of_step demo_start overflow /\
  exists d', processNextInotifyEvent (H := demo_libc) (H0 := demo_nftw) demo_garbage (fun p => p) 3 overflow [] true demo_start = (Ret (3, All), d') /\ waiting d'.
Proof.
  assert (out_of_step demo_start overflow) as Ho by (by right). split; [exact Ho|].
  destruct (@out_of_step_recovers demo_libc demo_nftw demo_garbage (fun p => p) 3 overflow [] true demo_start demo_sound Ho) as (d' & E & Hw & _). exists d'. split; [exact E|exact Hw].
Defined.

Lemma main_mirrors_witness :
  NoDup [w_r; w_o] /\
  exists d', waiting d' /\ rootDirPaths d' = [Some w_r; Some w_o] /\
    main (H := demo_libc) (H0 := demo_nftw) demo_garbage (fun p => p) 5 demo_fuel (lit "dt" :: [w_r; w_o]) demo_start = (Blocked, d').
Proof.
  assert (NoDup [w_r; w_o]) as Hnd by (by apply (bool_decide_eq_true_1 (NoDup [w_r; w_o])); vm_compute). split; [exact Hnd|].
  destruct (@main_mirrors demo_libc demo_nftw demo_garbage (fun p => p) demo_fuel (lit "dt") [w_r; w_o] demo_start)
    as (d' & Hw & Hr & _ & Hm); [done|done|exact demo_files_ok|done|exact Hnd|by repeat constructor| |].
  - constructor; [exists 2; by vm_compute|constructor; [exists 3; by vm_compute|constructor]].
  - exists d'. split; [exact Hw|]. split; [exact Hr|apply Hm].
Defined.
