(* ===== verification/TbTables.v ===== *)
(** * life/termbox2.h: its constant tables

    The terminfo indexes, the capabilities of the built-in terminals, the
    modified keys, the UTF-8 tables and the width table, entry for entry as the
    source has them; string literals keep the source's escapes and are decoded
    by [cs]. *)

From stdpp Require Import prelude strings.
From Stdlib Require Import ZArith Lia.
From S2P Require Import Prelude CLib.
Open Scope Z_scope.

(** ** Keys and capability numbers *)

Definition tb_key_i (i : Z) : Z := 65535 - i.
Definition TB_KEY_F1 : Z := 65535 - 0.
Definition TB_KEY_F2 : Z := 65535 - 1.
Definition TB_KEY_F3 : Z := 65535 - 2.
Definition TB_KEY_F4 : Z := 65535 - 3.
Definition TB_KEY_F5 : Z := 65535 - 4.
Definition TB_KEY_F6 : Z := 65535 - 5.
Definition TB_KEY_F7 : Z := 65535 - 6.
Definition TB_KEY_F8 : Z := 65535 - 7.
Definition TB_KEY_F9 : Z := 65535 - 8.
Definition TB_KEY_F10 : Z := 65535 - 9.
Definition TB_KEY_F11 : Z := 65535 - 10.
Definition TB_KEY_F12 : Z := 65535 - 11.
Definition TB_KEY_INSERT : Z := 65535 - 12.
Definition TB_KEY_DELETE : Z := 65535 - 13.
Definition TB_KEY_HOME : Z := 65535 - 14.
Definition TB_KEY_END : Z := 65535 - 15.
Definition TB_KEY_PGUP : Z := 65535 - 16.
Definition TB_KEY_PGDN : Z := 65535 - 17.
Definition TB_KEY_ARROW_UP : Z := 65535 - 18.
Definition TB_KEY_ARROW_DOWN : Z := 65535 - 19.
Definition TB_KEY_ARROW_LEFT : Z := 65535 - 20.
Definition TB_KEY_ARROW_RIGHT : Z := 65535 - 21.
Definition TB_KEY_BACK_TAB : Z := 65535 - 22.
Definition TB_KEY_MOUSE_LEFT : Z := 65535 - 23.
Definition TB_KEY_MOUSE_RIGHT : Z := 65535 - 24.
Definition TB_KEY_MOUSE_MIDDLE : Z := 65535 - 25.
Definition TB_KEY_MOUSE_RELEASE : Z := 65535 - 26.
Definition TB_KEY_MOUSE_WHEEL_UP : Z := 65535 - 27.
Definition TB_KEY_MOUSE_WHEEL_DOWN : Z := 65535 - 28.
Definition TB_KEY_CTRL_A : Z := 1.
Definition TB_KEY_TAB : Z := 9.
Definition TB_KEY_ENTER : Z := 13.
Definition TB_KEY_ESC : Z := 27.
Definition TB_KEY_SPACE : Z := 32.
Definition TB_KEY_BACKSPACE2 : Z := 127.
Definition TB_CAP_F1 : Z := 0.
Definition TB_CAP_F2 : Z := 1.
Definition TB_CAP_F3 : Z := 2.
Definition TB_CAP_F4 : Z := 3.
Definition TB_CAP_F5 : Z := 4.
Definition TB_CAP_F6 : Z := 5.
Definition TB_CAP_F7 : Z := 6.
Definition TB_CAP_F8 : Z := 7.
Definition TB_CAP_F9 : Z := 8.
Definition TB_CAP_F10 : Z := 9.
Definition TB_CAP_F11 : Z := 10.
Definition TB_CAP_F12 : Z := 11.
Definition TB_CAP_INSERT : Z := 12.
Definition TB_CAP_DELETE : Z := 13.
Definition TB_CAP_HOME : Z := 14.
Definition TB_CAP_END : Z := 15.
Definition TB_CAP_PGUP : Z := 16.
Definition TB_CAP_PGDN : Z := 17.
Definition TB_CAP_ARROW_UP : Z := 18.
Definition TB_CAP_ARROW_DOWN : Z := 19.
Definition TB_CAP_ARROW_LEFT : Z := 20.
Definition TB_CAP_ARROW_RIGHT : Z := 21.
Definition TB_CAP_BACK_TAB : Z := 22.
Definition TB_CAP__COUNT_KEYS : Z := 23.
Definition TB_CAP_ENTER_CA : Z := 23.
Definition TB_CAP_EXIT_CA : Z := 24.
Definition TB_CAP_SHOW_CURSOR : Z := 25.
Definition TB_CAP_HIDE_CURSOR : Z := 26.
Definition TB_CAP_CLEAR_SCREEN : Z := 27.
Definition TB_CAP_SGR0 : Z := 28.
Definition TB_CAP_UNDERLINE : Z := 29.
Definition TB_CAP_BOLD : Z := 30.
Definition TB_CAP_BLINK : Z := 31.
Definition TB_CAP_ITALIC : Z := 32.
Definition TB_CAP_REVERSE : Z := 33.
Definition TB_CAP_ENTER_KEYPAD : Z := 34.
Definition TB_CAP_EXIT_KEYPAD : Z := 35.
Definition TB_CAP_DIM : Z := 36.
Definition TB_CAP_INVISIBLE : Z := 37.
Definition TB_CAP__COUNT : Z := 38.
Definition TB_HARDCAP_ENTER_MOUSE : list Z := cs "\x1b[?1000h\x1b[?1002h\x1b[?1015h\x1b[?1006h".
Definition TB_HARDCAP_EXIT_MOUSE : list Z := cs "\x1b[?1006l\x1b[?1015l\x1b[?1002l\x1b[?1000l".
Definition TB_HARDCAP_STRIKEOUT : list Z := cs "\x1b[9m".
Definition TB_HARDCAP_UNDERLINE_2 : list Z := cs "\x1b[21m".
Definition TB_HARDCAP_OVERLINE : list Z := cs "\x1b[53m".
Definition TB_MOD_ALT : Z := 1.
Definition TB_MOD_CTRL : Z := 2.
Definition TB_MOD_SHIFT : Z := 4.
Definition TB_MOD_MOTION : Z := 8.

(** ** Terminfo and built-in terminals *)

Definition terminfo_cap_indexes : list Z :=
  [66; 68; 69; 70; 71; 72; 73; 74; 75; 67; 216; 217; 77; 59; 76; 164; 82; 81; 87; 61; 79; 83; 148; 28; 40; 16; 13; 5; 39; 36; 27; 26; 311; 34; 89; 88; 30; 32].

Definition xterm_caps : list (list Z) :=
  cs <$> [
    "\033OP";
    "\033OQ";
    "\033OR";
    "\033OS";
    "\033[15~";
    "\033[17~";
    "\033[18~";
    "\033[19~";
    "\033[20~";
    "\033[21~";
    "\033[23~";
    "\033[24~";
    "\033[2~";
    "\033[3~";
    "\033OH";
    "\033OF";
    "\033[5~";
    "\033[6~";
    "\033OA";
    "\033OB";
    "\033OD";
    "\033OC";
    "\033[Z";
    "\033[?1049h\033[22;0;0t";
    "\033[?1049l\033[23;0;0t";
    "\033[?12l\033[?25h";
    "\033[?25l";
    "\033[H\033[2J";
    "\033(B\033[m";
    "\033[4m";
    "\033[1m";
    "\033[5m";
    "\033[3m";
    "\033[7m";
    "\033[?1h\033=";
    "\033[?1l\033>";
    "\033[2m";
    "\033[8m"].

Definition linux_caps : list (list Z) :=
  cs <$> [
    "\033[[A";
    "\033[[B";
    "\033[[C";
    "\033[[D";
    "\033[[E";
    "\033[17~";
    "\033[18~";
    "\033[19~";
    "\033[20~";
    "\033[21~";
    "\033[23~";
    "\033[24~";
    "\033[2~";
    "\033[3~";
    "\033[1~";
    "\033[4~";
    "\033[5~";
    "\033[6~";
    "\033[A";
    "\033[B";
    "\033[D";
    "\033[C";
    "\033\011";
    EmptyString;
    EmptyString;
    "\033[?25h\033[?0c";
    "\033[?25l\033[?1c";
    "\033[H\033[J";
    "\033[m\017";
    "\033[4m";
    "\033[1m";
    "\033[5m";
    EmptyString;
    "\033[7m";
    EmptyString;
    EmptyString;
    "\033[2m";
    EmptyString].

Definition screen_caps : list (list Z) :=
  cs <$> [
    "\033OP";
    "\033OQ";
    "\033OR";
    "\033OS";
    "\033[15~";
    "\033[17~";
    "\033[18~";
    "\033[19~";
    "\033[20~";
    "\033[21~";
    "\033[23~";
    "\033[24~";
    "\033[2~";
    "\033[3~";
    "\033[1~";
    "\033[4~";
    "\033[5~";
    "\033[6~";
    "\033OA";
    "\033OB";
    "\033OD";
    "\033OC";
    "\033[Z";
    "\033[?1049h";
    "\033[?1049l";
    "\033[34h\033[?25h";
    "\033[?25l";
    "\033[H\033[J";
    "\033[m\017";
    "\033[4m";
    "\033[1m";
    "\033[5m";
    EmptyString;
    "\033[7m";
    "\033[?1h\033=";
    "\033[?1l\033>";
    "\033[2m";
    EmptyString].

Definition rxvt_256color_caps : list (list Z) :=
  cs <$> [
    "\033[11~";
    "\033[12~";
    "\033[13~";
    "\033[14~";
    "\033[15~";
    "\033[17~";
    "\033[18~";
    "\033[19~";
    "\033[20~";
    "\033[21~";
    "\033[23~";
    "\033[24~";
    "\033[2~";
    "\033[3~";
    "\033[7~";
    "\033[8~";
    "\033[5~";
    "\033[6~";
    "\033[A";
    "\033[B";
    "\033[D";
    "\033[C";
    "\033[Z";
    "\0337\033[?47h";
    "\033[2J\033[?47l\0338";
    "\033[?25h";
    "\033[?25l";
    "\033[H\033[2J";
    "\033[m\017";
    "\033[4m";
    "\033[1m";
    "\033[5m";
    EmptyString;
    "\033[7m";
    "\033=";
    "\033>";
    EmptyString;
    EmptyString].

Definition rxvt_unicode_caps : list (list Z) :=
  cs <$> [
    "\033[11~";
    "\033[12~";
    "\033[13~";
    "\033[14~";
    "\033[15~";
    "\033[17~";
    "\033[18~";
    "\033[19~";
    "\033[20~";
    "\033[21~";
    "\033[23~";
    "\033[24~";
    "\033[2~";
    "\033[3~";
    "\033[7~";
    "\033[8~";
    "\033[5~";
    "\033[6~";
    "\033[A";
    "\033[B";
    "\033[D";
    "\033[C";
    "\033[Z";
    "\033[?1049h";
    "\033[r\033[?1049l";
    "\033[?12l\033[?25h";
    "\033[?25l";
    "\033[H\033[2J";
    "\033[m\033(B";
    "\033[4m";
    "\033[1m";
    "\033[5m";
    "\033[3m";
    "\033[7m";
    "\033=";
    "\033>";
    EmptyString;
    EmptyString].

Definition eterm_caps : list (list Z) :=
  cs <$> [
    "\033[11~";
    "\033[12~";
    "\033[13~";
    "\033[14~";
    "\033[15~";
    "\033[17~";
    "\033[18~";
    "\033[19~";
    "\033[20~";
    "\033[21~";
    "\033[23~";
    "\033[24~";
    "\033[2~";
    "\033[3~";
    "\033[7~";
    "\033[8~";
    "\033[5~";
    "\033[6~";
    "\033[A";
    "\033[B";
    "\033[D";
    "\033[C";
    EmptyString;
    "\0337\033[?47h";
    "\033[2J\033[?47l\0338";
    "\033[?25h";
    "\033[?25l";
    "\033[H\033[2J";
    "\033[m\017";
    "\033[4m";
    "\033[1m";
    "\033[5m";
    EmptyString;
    "\033[7m";
    EmptyString;
    EmptyString;
    EmptyString;
    EmptyString].

(** Name, capabilities and alias. *)
Definition builtin_terms : list (list Z * list (list Z) * list Z) :=
  [ (cs "xterm", xterm_caps, cs EmptyString);
    (cs "linux", linux_caps, cs EmptyString);
    (cs "screen", screen_caps, cs "tmux");
    (cs "rxvt-256color", rxvt_256color_caps, cs EmptyString);
    (cs "rxvt-unicode", rxvt_unicode_caps, cs "rxvt");
    (cs "Eterm", eterm_caps, cs EmptyString) ].

Definition builtin_mod_caps_1 : list (list Z * Z * Z) :=
  [ (cs "\x1b[1;2A", TB_KEY_ARROW_UP, TB_MOD_SHIFT);
    (cs "\x1b[1;3A", TB_KEY_ARROW_UP, TB_MOD_ALT);
    (cs "\x1b[1;4A", TB_KEY_ARROW_UP, Z.lor TB_MOD_ALT TB_MOD_SHIFT);
    (cs "\x1b[1;5A", TB_KEY_ARROW_UP, TB_MOD_CTRL);
    (cs "\x1b[1;6A", TB_KEY_ARROW_UP, Z.lor TB_MOD_CTRL TB_MOD_SHIFT);
    (cs "\x1b[1;7A", TB_KEY_ARROW_UP, Z.lor TB_MOD_CTRL TB_MOD_ALT);
    (cs "\x1b[1;8A", TB_KEY_ARROW_UP, Z.lor (Z.lor TB_MOD_CTRL TB_MOD_ALT) TB_MOD_SHIFT);
    (cs "\x1b[1;2B", TB_KEY_ARROW_DOWN, TB_MOD_SHIFT);
    (cs "\x1b[1;3B", TB_KEY_ARROW_DOWN, TB_MOD_ALT);
    (cs "\x1b[1;4B", TB_KEY_ARROW_DOWN, Z.lor TB_MOD_ALT TB_MOD_SHIFT);
    (cs "\x1b[1;5B", TB_KEY_ARROW_DOWN, TB_MOD_CTRL);
    (cs "\x1b[1;6B", TB_KEY_ARROW_DOWN, Z.lor TB_MOD_CTRL TB_MOD_SHIFT);
    (cs "\x1b[1;7B", TB_KEY_ARROW_DOWN, Z.lor TB_MOD_CTRL TB_MOD_ALT);
    (cs "\x1b[1;8B", TB_KEY_ARROW_DOWN, Z.lor (Z.lor TB_MOD_CTRL TB_MOD_ALT) TB_MOD_SHIFT);
    (cs "\x1b[1;2C", TB_KEY_ARROW_RIGHT, TB_MOD_SHIFT);
    (cs "\x1b[1;3C", TB_KEY_ARROW_RIGHT, TB_MOD_ALT);
    (cs "\x1b[1;4C", TB_KEY_ARROW_RIGHT, Z.lor TB_MOD_ALT TB_MOD_SHIFT);
    (cs "\x1b[1;5C", TB_KEY_ARROW_RIGHT, TB_MOD_CTRL);
    (cs "\x1b[1;6C", TB_KEY_ARROW_RIGHT, Z.lor TB_MOD_CTRL TB_MOD_SHIFT);
    (cs "\x1b[1;7C", TB_KEY_ARROW_RIGHT, Z.lor TB_MOD_CTRL TB_MOD_ALT);
    (cs "\x1b[1;8C", TB_KEY_ARROW_RIGHT, Z.lor (Z.lor TB_MOD_CTRL TB_MOD_ALT) TB_MOD_SHIFT);
    (cs "\x1b[1;2D", TB_KEY_ARROW_LEFT, TB_MOD_SHIFT);
    (cs "\x1b[1;3D", TB_KEY_ARROW_LEFT, TB_MOD_ALT);
    (cs "\x1b[1;4D", TB_KEY_ARROW_LEFT, Z.lor TB_MOD_ALT TB_MOD_SHIFT);
    (cs "\x1b[1;5D", TB_KEY_ARROW_LEFT, TB_MOD_CTRL);
    (cs "\x1b[1;6D", TB_KEY_ARROW_LEFT, Z.lor TB_MOD_CTRL TB_MOD_SHIFT);
    (cs "\x1b[1;7D", TB_KEY_ARROW_LEFT, Z.lor TB_MOD_CTRL TB_MOD_ALT);
    (cs "\x1b[1;8D", TB_KEY_ARROW_LEFT, Z.lor (Z.lor TB_MOD_CTRL TB_MOD_ALT) TB_MOD_SHIFT);
    (cs "\x1b[1;2H", TB_KEY_HOME, TB_MOD_SHIFT);
    (cs "\x1b[1;3H", TB_KEY_HOME, TB_MOD_ALT);
    (cs "\x1b[1;4H", TB_KEY_HOME, Z.lor TB_MOD_ALT TB_MOD_SHIFT);
    (cs "\x1b[1;5H", TB_KEY_HOME, TB_MOD_CTRL);
    (cs "\x1b[1;6H", TB_KEY_HOME, Z.lor TB_MOD_CTRL TB_MOD_SHIFT);
    (cs "\x1b[1;7H", TB_KEY_HOME, Z.lor TB_MOD_CTRL TB_MOD_ALT);
    (cs "\x1b[1;8H", TB_KEY_HOME, Z.lor (Z.lor TB_MOD_CTRL TB_MOD_ALT) TB_MOD_SHIFT);
    (cs "\x1b[1;2F", TB_KEY_END, TB_MOD_SHIFT);
    (cs "\x1b[1;3F", TB_KEY_END, TB_MOD_ALT);
    (cs "\x1b[1;4F", TB_KEY_END, Z.lor TB_MOD_ALT TB_MOD_SHIFT);
    (cs "\x1b[1;5F", TB_KEY_END, TB_MOD_CTRL);
    (cs "\x1b[1;6F", TB_KEY_END, Z.lor TB_MOD_CTRL TB_MOD_SHIFT);
    (cs "\x1b[1;7F", TB_KEY_END, Z.lor TB_MOD_CTRL TB_MOD_ALT);
    (cs "\x1b[1;8F", TB_KEY_END, Z.lor (Z.lor TB_MOD_CTRL TB_MOD_ALT) TB_MOD_SHIFT);
    (cs "\x1b[2;2~", TB_KEY_INSERT, TB_MOD_SHIFT);
    (cs "\x1b[2;3~", TB_KEY_INSERT, TB_MOD_ALT);
    (cs "\x1b[2;4~", TB_KEY_INSERT, Z.lor TB_MOD_ALT TB_MOD_SHIFT);
    (cs "\x1b[2;5~", TB_KEY_INSERT, TB_MOD_CTRL);
    (cs "\x1b[2;6~", TB_KEY_INSERT, Z.lor TB_MOD_CTRL TB_MOD_SHIFT);
    (cs "\x1b[2;7~", TB_KEY_INSERT, Z.lor TB_MOD_CTRL TB_MOD_ALT);
    (cs "\x1b[2;8~", TB_KEY_INSERT, Z.lor (Z.lor TB_MOD_CTRL TB_MOD_ALT) TB_MOD_SHIFT);
    (cs "\x1b[3;2~", TB_KEY_DELETE, TB_MOD_SHIFT);
    (cs "\x1b[3;3~", TB_KEY_DELETE, TB_MOD_ALT);
    (cs "\x1b[3;4~", TB_KEY_DELETE, Z.lor TB_MOD_ALT TB_MOD_SHIFT);
    (cs "\x1b[3;5~", TB_KEY_DELETE, TB_MOD_CTRL);
    (cs "\x1b[3;6~", TB_KEY_DELETE, Z.lor TB_MOD_CTRL TB_MOD_SHIFT);
    (cs "\x1b[3;7~", TB_KEY_DELETE, Z.lor TB_MOD_CTRL TB_MOD_ALT);
    (cs "\x1b[3;8~", TB_KEY_DELETE, Z.lor (Z.lor TB_MOD_CTRL TB_MOD_ALT) TB_MOD_SHIFT);
    (cs "\x1b[5;2~", TB_KEY_PGUP, TB_MOD_SHIFT);
    (cs "\x1b[5;3~", TB_KEY_PGUP, TB_MOD_ALT);
    (cs "\x1b[5;4~", TB_KEY_PGUP, Z.lor TB_MOD_ALT TB_MOD_SHIFT);
    (cs "\x1b[5;5~", TB_KEY_PGUP, TB_MOD_CTRL);
    (cs "\x1b[5;6~", TB_KEY_PGUP, Z.lor TB_MOD_CTRL TB_MOD_SHIFT);
    (cs "\x1b[5;7~", TB_KEY_PGUP, Z.lor TB_MOD_CTRL TB_MOD_ALT);
    (cs "\x1b[5;8~", TB_KEY_PGUP, Z.lor (Z.lor TB_MOD_CTRL TB_MOD_ALT) TB_MOD_SHIFT);
    (cs "\x1b[6;2~", TB_KEY_PGDN, TB_MOD_SHIFT);
    (cs "\x1b[6;3~", TB_KEY_PGDN, TB_MOD_ALT);
    (cs "\x1b[6;4~", TB_KEY_PGDN, Z.lor TB_MOD_ALT TB_MOD_SHIFT);
    (cs "\x1b[6;5~", TB_KEY_PGDN, TB_MOD_CTRL);
    (cs "\x1b[6;6~", TB_KEY_PGDN, Z.lor TB_MOD_CTRL TB_MOD_SHIFT);
    (cs "\x1b[6;7~", TB_KEY_PGDN, Z.lor TB_MOD_CTRL TB_MOD_ALT);
    (cs "\x1b[6;8~", TB_KEY_PGDN, Z.lor (Z.lor TB_MOD_CTRL TB_MOD_ALT) TB_MOD_SHIFT);
    (cs "\x1b[1;2P", TB_KEY_F1, TB_MOD_SHIFT);
    (cs "\x1b[1;3P", TB_KEY_F1, TB_MOD_ALT);
    (cs "\x1b[1;4P", TB_KEY_F1, Z.lor TB_MOD_ALT TB_MOD_SHIFT);
    (cs "\x1b[1;5P", TB_KEY_F1, TB_MOD_CTRL);
    (cs "\x1b[1;6P", TB_KEY_F1, Z.lor TB_MOD_CTRL TB_MOD_SHIFT);
    (cs "\x1b[1;7P", TB_KEY_F1, Z.lor TB_MOD_CTRL TB_MOD_ALT);
    (cs "\x1b[1;8P", TB_KEY_F1, Z.lor (Z.lor TB_MOD_CTRL TB_MOD_ALT) TB_MOD_SHIFT);
    (cs "\x1b[1;2Q", TB_KEY_F2, TB_MOD_SHIFT);
    (cs "\x1b[1;3Q", TB_KEY_F2, TB_MOD_ALT);
    (cs "\x1b[1;4Q", TB_KEY_F2, Z.lor TB_MOD_ALT TB_MOD_SHIFT);
    (cs "\x1b[1;5Q", TB_KEY_F2, TB_MOD_CTRL);
    (cs "\x1b[1;6Q", TB_KEY_F2, Z.lor TB_MOD_CTRL TB_MOD_SHIFT);
    (cs "\x1b[1;7Q", TB_KEY_F2, Z.lor TB_MOD_CTRL TB_MOD_ALT);
    (cs "\x1b[1;8Q", TB_KEY_F2, Z.lor (Z.lor TB_MOD_CTRL TB_MOD_ALT) TB_MOD_SHIFT);
    (cs "\x1b[1;2R", TB_KEY_F3, TB_MOD_SHIFT);
    (cs "\x1b[1;3R", TB_KEY_F3, TB_MOD_ALT);
    (cs "\x1b[1;4R", TB_KEY_F3, Z.lor TB_MOD_ALT TB_MOD_SHIFT);
    (cs "\x1b[1;5R", TB_KEY_F3, TB_MOD_CTRL);
    (cs "\x1b[1;6R", TB_KEY_F3, Z.lor TB_MOD_CTRL TB_MOD_SHIFT);
    (cs "\x1b[1;7R", TB_KEY_F3, Z.lor TB_MOD_CTRL TB_MOD_ALT);
    (cs "\x1b[1;8R", TB_KEY_F3, Z.lor (Z.lor TB_MOD_CTRL TB_MOD_ALT) TB_MOD_SHIFT);
    (cs "\x1b[1;2S", TB_KEY_F4, TB_MOD_SHIFT);
    (cs "\x1b[1;3S", TB_KEY_F4, TB_MOD_ALT);
    (cs "\x1b[1;4S", TB_KEY_F4, Z.lor TB_MOD_ALT TB_MOD_SHIFT);
    (cs "\x1b[1;5S", TB_KEY_F4, TB_MOD_CTRL);
    (cs "\x1b[1;6S", TB_KEY_F4, Z.lor TB_MOD_CTRL TB_MOD_SHIFT);
    (cs "\x1b[1;7S", TB_KEY_F4, Z.lor TB_MOD_CTRL TB_MOD_ALT);
    (cs "\x1b[1;8S", TB_KEY_F4, Z.lor (Z.lor TB_MOD_CTRL TB_MOD_ALT) TB_MOD_SHIFT);
    (cs "\x1b[15;2~", TB_KEY_F5, TB_MOD_SHIFT);
    (cs "\x1b[15;3~", TB_KEY_F5, TB_MOD_ALT);
    (cs "\x1b[15;4~", TB_KEY_F5, Z.lor TB_MOD_ALT TB_MOD_SHIFT);
    (cs "\x1b[15;5~", TB_KEY_F5, TB_MOD_CTRL);
    (cs "\x1b[15;6~", TB_KEY_F5, Z.lor TB_MOD_CTRL TB_MOD_SHIFT);
    (cs "\x1b[15;7~", TB_KEY_F5, Z.lor TB_MOD_CTRL TB_MOD_ALT);
    (cs "\x1b[15;8~", TB_KEY_F5, Z.lor (Z.lor TB_MOD_CTRL TB_MOD_ALT) TB_MOD_SHIFT);
    (cs "\x1b[17;2~", TB_KEY_F6, TB_MOD_SHIFT);
    (cs "\x1b[17;3~", TB_KEY_F6, TB_MOD_ALT);
    (cs "\x1b[17;4~", TB_KEY_F6, Z.lor TB_MOD_ALT TB_MOD_SHIFT);
    (cs "\x1b[17;5~", TB_KEY_F6, TB_MOD_CTRL);
    (cs "\x1b[17;6~", TB_KEY_F6, Z.lor TB_MOD_CTRL TB_MOD_SHIFT);
    (cs "\x1b[17;7~", TB_KEY_F6, Z.lor TB_MOD_CTRL TB_MOD_ALT);
    (cs "\x1b[17;8~", TB_KEY_F6, Z.lor (Z.lor TB_MOD_CTRL TB_MOD_ALT) TB_MOD_SHIFT);
    (cs "\x1b[18;2~", TB_KEY_F7, TB_MOD_SHIFT);
    (cs "\x1b[18;3~", TB_KEY_F7, TB_MOD_ALT);
    (cs "\x1b[18;4~", TB_KEY_F7, Z.lor TB_MOD_ALT TB_MOD_SHIFT);
    (cs "\x1b[18;5~", TB_KEY_F7, TB_MOD_CTRL) ].

Definition builtin_mod_caps_2 : list (list Z * Z * Z) :=
  [ (cs "\x1b[18;6~", TB_KEY_F7, Z.lor TB_MOD_CTRL TB_MOD_SHIFT);
    (cs "\x1b[18;7~", TB_KEY_F7, Z.lor TB_MOD_CTRL TB_MOD_ALT);
    (cs "\x1b[18;8~", TB_KEY_F7, Z.lor (Z.lor TB_MOD_CTRL TB_MOD_ALT) TB_MOD_SHIFT);
    (cs "\x1b[19;2~", TB_KEY_F8, TB_MOD_SHIFT);
    (cs "\x1b[19;3~", TB_KEY_F8, TB_MOD_ALT);
    (cs "\x1b[19;4~", TB_KEY_F8, Z.lor TB_MOD_ALT TB_MOD_SHIFT);
    (cs "\x1b[19;5~", TB_KEY_F8, TB_MOD_CTRL);
    (cs "\x1b[19;6~", TB_KEY_F8, Z.lor TB_MOD_CTRL TB_MOD_SHIFT);
    (cs "\x1b[19;7~", TB_KEY_F8, Z.lor TB_MOD_CTRL TB_MOD_ALT);
    (cs "\x1b[19;8~", TB_KEY_F8, Z.lor (Z.lor TB_MOD_CTRL TB_MOD_ALT) TB_MOD_SHIFT);
    (cs "\x1b[20;2~", TB_KEY_F9, TB_MOD_SHIFT);
    (cs "\x1b[20;3~", TB_KEY_F9, TB_MOD_ALT);
    (cs "\x1b[20;4~", TB_KEY_F9, Z.lor TB_MOD_ALT TB_MOD_SHIFT);
    (cs "\x1b[20;5~", TB_KEY_F9, TB_MOD_CTRL);
    (cs "\x1b[20;6~", TB_KEY_F9, Z.lor TB_MOD_CTRL TB_MOD_SHIFT);
    (cs "\x1b[20;7~", TB_KEY_F9, Z.lor TB_MOD_CTRL TB_MOD_ALT);
    (cs "\x1b[20;8~", TB_KEY_F9, Z.lor (Z.lor TB_MOD_CTRL TB_MOD_ALT) TB_MOD_SHIFT);
    (cs "\x1b[21;2~", TB_KEY_F10, TB_MOD_SHIFT);
    (cs "\x1b[21;3~", TB_KEY_F10, TB_MOD_ALT);
    (cs "\x1b[21;4~", TB_KEY_F10, Z.lor TB_MOD_ALT TB_MOD_SHIFT);
    (cs "\x1b[21;5~", TB_KEY_F10, TB_MOD_CTRL);
    (cs "\x1b[21;6~", TB_KEY_F10, Z.lor TB_MOD_CTRL TB_MOD_SHIFT);
    (cs "\x1b[21;7~", TB_KEY_F10, Z.lor TB_MOD_CTRL TB_MOD_ALT);
    (cs "\x1b[21;8~", TB_KEY_F10, Z.lor (Z.lor TB_MOD_CTRL TB_MOD_ALT) TB_MOD_SHIFT);
    (cs "\x1b[23;2~", TB_KEY_F11, TB_MOD_SHIFT);
    (cs "\x1b[23;3~", TB_KEY_F11, TB_MOD_ALT);
    (cs "\x1b[23;4~", TB_KEY_F11, Z.lor TB_MOD_ALT TB_MOD_SHIFT);
    (cs "\x1b[23;5~", TB_KEY_F11, TB_MOD_CTRL);
    (cs "\x1b[23;6~", TB_KEY_F11, Z.lor TB_MOD_CTRL TB_MOD_SHIFT);
    (cs "\x1b[23;7~", TB_KEY_F11, Z.lor TB_MOD_CTRL TB_MOD_ALT);
    (cs "\x1b[23;8~", TB_KEY_F11, Z.lor (Z.lor TB_MOD_CTRL TB_MOD_ALT) TB_MOD_SHIFT);
    (cs "\x1b[24;2~", TB_KEY_F12, TB_MOD_SHIFT);
    (cs "\x1b[24;3~", TB_KEY_F12, TB_MOD_ALT);
    (cs "\x1b[24;4~", TB_KEY_F12, Z.lor TB_MOD_ALT TB_MOD_SHIFT);
    (cs "\x1b[24;5~", TB_KEY_F12, TB_MOD_CTRL);
    (cs "\x1b[24;6~", TB_KEY_F12, Z.lor TB_MOD_CTRL TB_MOD_SHIFT);
    (cs "\x1b[24;7~", TB_KEY_F12, Z.lor TB_MOD_CTRL TB_MOD_ALT);
    (cs "\x1b[24;8~", TB_KEY_F12, Z.lor (Z.lor TB_MOD_CTRL TB_MOD_ALT) TB_MOD_SHIFT);
    (cs "\x1b[a", TB_KEY_ARROW_UP, TB_MOD_SHIFT);
    (cs "\x1b\x1b[A", TB_KEY_ARROW_UP, TB_MOD_ALT);
    (cs "\x1b\x1b[a", TB_KEY_ARROW_UP, Z.lor TB_MOD_ALT TB_MOD_SHIFT);
    (cs "\x1bOa", TB_KEY_ARROW_UP, TB_MOD_CTRL);
    (cs "\x1b\x1bOa", TB_KEY_ARROW_UP, Z.lor TB_MOD_CTRL TB_MOD_ALT);
    (cs "\x1b[b", TB_KEY_ARROW_DOWN, TB_MOD_SHIFT);
    (cs "\x1b\x1b[B", TB_KEY_ARROW_DOWN, TB_MOD_ALT);
    (cs "\x1b\x1b[b", TB_KEY_ARROW_DOWN, Z.lor TB_MOD_ALT TB_MOD_SHIFT);
    (cs "\x1bOb", TB_KEY_ARROW_DOWN, TB_MOD_CTRL);
    (cs "\x1b\x1bOb", TB_KEY_ARROW_DOWN, Z.lor TB_MOD_CTRL TB_MOD_ALT);
    (cs "\x1b[c", TB_KEY_ARROW_RIGHT, TB_MOD_SHIFT);
    (cs "\x1b\x1b[C", TB_KEY_ARROW_RIGHT, TB_MOD_ALT);
    (cs "\x1b\x1b[c", TB_KEY_ARROW_RIGHT, Z.lor TB_MOD_ALT TB_MOD_SHIFT);
    (cs "\x1bOc", TB_KEY_ARROW_RIGHT, TB_MOD_CTRL);
    (cs "\x1b\x1bOc", TB_KEY_ARROW_RIGHT, Z.lor TB_MOD_CTRL TB_MOD_ALT);
    (cs "\x1b[d", TB_KEY_ARROW_LEFT, TB_MOD_SHIFT);
    (cs "\x1b\x1b[D", TB_KEY_ARROW_LEFT, TB_MOD_ALT);
    (cs "\x1b\x1b[d", TB_KEY_ARROW_LEFT, Z.lor TB_MOD_ALT TB_MOD_SHIFT);
    (cs "\x1bOd", TB_KEY_ARROW_LEFT, TB_MOD_CTRL);
    (cs "\x1b\x1bOd", TB_KEY_ARROW_LEFT, Z.lor TB_MOD_CTRL TB_MOD_ALT);
    (cs "\x1b[7$", TB_KEY_HOME, TB_MOD_SHIFT);
    (cs "\x1b\x1b[7~", TB_KEY_HOME, TB_MOD_ALT);
    (cs "\x1b\x1b[7$", TB_KEY_HOME, Z.lor TB_MOD_ALT TB_MOD_SHIFT);
    (cs "\x1b[7^", TB_KEY_HOME, TB_MOD_CTRL);
    (cs "\x1b[7@", TB_KEY_HOME, Z.lor TB_MOD_CTRL TB_MOD_SHIFT);
    (cs "\x1b\x1b[7^", TB_KEY_HOME, Z.lor TB_MOD_CTRL TB_MOD_ALT);
    (cs "\x1b\x1b[7@", TB_KEY_HOME, Z.lor (Z.lor TB_MOD_CTRL TB_MOD_ALT) TB_MOD_SHIFT);
    (cs "\x1b\x1b[8~", TB_KEY_END, TB_MOD_ALT);
    (cs "\x1b\x1b[8$", TB_KEY_END, Z.lor TB_MOD_ALT TB_MOD_SHIFT);
    (cs "\x1b[8^", TB_KEY_END, TB_MOD_CTRL);
    (cs "\x1b\x1b[8^", TB_KEY_END, Z.lor TB_MOD_CTRL TB_MOD_ALT);
    (cs "\x1b\x1b[8@", TB_KEY_END, Z.lor (Z.lor TB_MOD_CTRL TB_MOD_ALT) TB_MOD_SHIFT);
    (cs "\x1b[8@", TB_KEY_END, Z.lor TB_MOD_CTRL TB_MOD_SHIFT);
    (cs "\x1b[8$", TB_KEY_END, TB_MOD_SHIFT);
    (cs "\x1b\x1b[2~", TB_KEY_INSERT, TB_MOD_ALT);
    (cs "\x1b\x1b[2$", TB_KEY_INSERT, Z.lor TB_MOD_ALT TB_MOD_SHIFT);
    (cs "\x1b[2^", TB_KEY_INSERT, TB_MOD_CTRL);
    (cs "\x1b\x1b[2^", TB_KEY_INSERT, Z.lor TB_MOD_CTRL TB_MOD_ALT);
    (cs "\x1b\x1b[2@", TB_KEY_INSERT, Z.lor (Z.lor TB_MOD_CTRL TB_MOD_ALT) TB_MOD_SHIFT);
    (cs "\x1b[2@", TB_KEY_INSERT, Z.lor TB_MOD_CTRL TB_MOD_SHIFT);
    (cs "\x1b[2$", TB_KEY_INSERT, TB_MOD_SHIFT);
    (cs "\x1b\x1b[3~", TB_KEY_DELETE, TB_MOD_ALT);
    (cs "\x1b\x1b[3$", TB_KEY_DELETE, Z.lor TB_MOD_ALT TB_MOD_SHIFT);
    (cs "\x1b[3^", TB_KEY_DELETE, TB_MOD_CTRL);
    (cs "\x1b\x1b[3^", TB_KEY_DELETE, Z.lor TB_MOD_CTRL TB_MOD_ALT);
    (cs "\x1b\x1b[3@", TB_KEY_DELETE, Z.lor (Z.lor TB_MOD_CTRL TB_MOD_ALT) TB_MOD_SHIFT);
    (cs "\x1b[3@", TB_KEY_DELETE, Z.lor TB_MOD_CTRL TB_MOD_SHIFT);
    (cs "\x1b[3$", TB_KEY_DELETE, TB_MOD_SHIFT);
    (cs "\x1b\x1b[5~", TB_KEY_PGUP, TB_MOD_ALT);
    (cs "\x1b\x1b[5$", TB_KEY_PGUP, Z.lor TB_MOD_ALT TB_MOD_SHIFT);
    (cs "\x1b[5^", TB_KEY_PGUP, TB_MOD_CTRL);
    (cs "\x1b\x1b[5^", TB_KEY_PGUP, Z.lor TB_MOD_CTRL TB_MOD_ALT);
    (cs "\x1b\x1b[5@", TB_KEY_PGUP, Z.lor (Z.lor TB_MOD_CTRL TB_MOD_ALT) TB_MOD_SHIFT);
    (cs "\x1b[5@", TB_KEY_PGUP, Z.lor TB_MOD_CTRL TB_MOD_SHIFT);
    (cs "\x1b[5$", TB_KEY_PGUP, TB_MOD_SHIFT);
    (cs "\x1b\x1b[6~", TB_KEY_PGDN, TB_MOD_ALT);
    (cs "\x1b\x1b[6$", TB_KEY_PGDN, Z.lor TB_MOD_ALT TB_MOD_SHIFT);
    (cs "\x1b[6^", TB_KEY_PGDN, TB_MOD_CTRL);
    (cs "\x1b\x1b[6^", TB_KEY_PGDN, Z.lor TB_MOD_CTRL TB_MOD_ALT);
    (cs "\x1b\x1b[6@", TB_KEY_PGDN, Z.lor (Z.lor TB_MOD_CTRL TB_MOD_ALT) TB_MOD_SHIFT);
    (cs "\x1b[6@", TB_KEY_PGDN, Z.lor TB_MOD_CTRL TB_MOD_SHIFT);
    (cs "\x1b[6$", TB_KEY_PGDN, TB_MOD_SHIFT);
    (cs "\x1b\x1b[11~", TB_KEY_F1, TB_MOD_ALT);
    (cs "\x1b\x1b[23~", TB_KEY_F1, Z.lor TB_MOD_ALT TB_MOD_SHIFT);
    (cs "\x1b[11^", TB_KEY_F1, TB_MOD_CTRL);
    (cs "\x1b\x1b[11^", TB_KEY_F1, Z.lor TB_MOD_CTRL TB_MOD_ALT);
    (cs "\x1b\x1b[23^", TB_KEY_F1, Z.lor (Z.lor TB_MOD_CTRL TB_MOD_ALT) TB_MOD_SHIFT);
    (cs "\x1b[23^", TB_KEY_F1, Z.lor TB_MOD_CTRL TB_MOD_SHIFT);
    (cs "\x1b[23~", TB_KEY_F1, TB_MOD_SHIFT);
    (cs "\x1b\x1b[12~", TB_KEY_F2, TB_MOD_ALT);
    (cs "\x1b\x1b[24~", TB_KEY_F2, Z.lor TB_MOD_ALT TB_MOD_SHIFT);
    (cs "\x1b[12^", TB_KEY_F2, TB_MOD_CTRL);
    (cs "\x1b\x1b[12^", TB_KEY_F2, Z.lor TB_MOD_CTRL TB_MOD_ALT);
    (cs "\x1b\x1b[24^", TB_KEY_F2, Z.lor (Z.lor TB_MOD_CTRL TB_MOD_ALT) TB_MOD_SHIFT);
    (cs "\x1b[24^", TB_KEY_F2, Z.lor TB_MOD_CTRL TB_MOD_SHIFT);
    (cs "\x1b[24~", TB_KEY_F2, TB_MOD_SHIFT);
    (cs "\x1b\x1b[13~", TB_KEY_F3, TB_MOD_ALT);
    (cs "\x1b\x1b[25~", TB_KEY_F3, Z.lor TB_MOD_ALT TB_MOD_SHIFT);
    (cs "\x1b[13^", TB_KEY_F3, TB_MOD_CTRL);
    (cs "\x1b\x1b[13^", TB_KEY_F3, Z.lor TB_MOD_CTRL TB_MOD_ALT);
    (cs "\x1b\x1b[25^", TB_KEY_F3, Z.lor (Z.lor TB_MOD_CTRL TB_MOD_ALT) TB_MOD_SHIFT);
    (cs "\x1b[25^", TB_KEY_F3, Z.lor TB_MOD_CTRL TB_MOD_SHIFT) ].

Definition builtin_mod_caps_3 : list (list Z * Z * Z) :=
  [ (cs "\x1b[25~", TB_KEY_F3, TB_MOD_SHIFT);
    (cs "\x1b\x1b[14~", TB_KEY_F4, TB_MOD_ALT);
    (cs "\x1b\x1b[26~", TB_KEY_F4, Z.lor TB_MOD_ALT TB_MOD_SHIFT);
    (cs "\x1b[14^", TB_KEY_F4, TB_MOD_CTRL);
    (cs "\x1b\x1b[14^", TB_KEY_F4, Z.lor TB_MOD_CTRL TB_MOD_ALT);
    (cs "\x1b\x1b[26^", TB_KEY_F4, Z.lor (Z.lor TB_MOD_CTRL TB_MOD_ALT) TB_MOD_SHIFT);
    (cs "\x1b[26^", TB_KEY_F4, Z.lor TB_MOD_CTRL TB_MOD_SHIFT);
    (cs "\x1b[26~", TB_KEY_F4, TB_MOD_SHIFT);
    (cs "\x1b\x1b[15~", TB_KEY_F5, TB_MOD_ALT);
    (cs "\x1b\x1b[28~", TB_KEY_F5, Z.lor TB_MOD_ALT TB_MOD_SHIFT);
    (cs "\x1b[15^", TB_KEY_F5, TB_MOD_CTRL);
    (cs "\x1b\x1b[15^", TB_KEY_F5, Z.lor TB_MOD_CTRL TB_MOD_ALT);
    (cs "\x1b\x1b[28^", TB_KEY_F5, Z.lor (Z.lor TB_MOD_CTRL TB_MOD_ALT) TB_MOD_SHIFT);
    (cs "\x1b[28^", TB_KEY_F5, Z.lor TB_MOD_CTRL TB_MOD_SHIFT);
    (cs "\x1b[28~", TB_KEY_F5, TB_MOD_SHIFT);
    (cs "\x1b\x1b[17~", TB_KEY_F6, TB_MOD_ALT);
    (cs "\x1b\x1b[29~", TB_KEY_F6, Z.lor TB_MOD_ALT TB_MOD_SHIFT);
    (cs "\x1b[17^", TB_KEY_F6, TB_MOD_CTRL);
    (cs "\x1b\x1b[17^", TB_KEY_F6, Z.lor TB_MOD_CTRL TB_MOD_ALT);
    (cs "\x1b\x1b[29^", TB_KEY_F6, Z.lor (Z.lor TB_MOD_CTRL TB_MOD_ALT) TB_MOD_SHIFT);
    (cs "\x1b[29^", TB_KEY_F6, Z.lor TB_MOD_CTRL TB_MOD_SHIFT);
    (cs "\x1b[29~", TB_KEY_F6, TB_MOD_SHIFT);
    (cs "\x1b\x1b[18~", TB_KEY_F7, TB_MOD_ALT);
    (cs "\x1b\x1b[31~", TB_KEY_F7, Z.lor TB_MOD_ALT TB_MOD_SHIFT);
    (cs "\x1b[18^", TB_KEY_F7, TB_MOD_CTRL);
    (cs "\x1b\x1b[18^", TB_KEY_F7, Z.lor TB_MOD_CTRL TB_MOD_ALT);
    (cs "\x1b\x1b[31^", TB_KEY_F7, Z.lor (Z.lor TB_MOD_CTRL TB_MOD_ALT) TB_MOD_SHIFT);
    (cs "\x1b[31^", TB_KEY_F7, Z.lor TB_MOD_CTRL TB_MOD_SHIFT);
    (cs "\x1b[31~", TB_KEY_F7, TB_MOD_SHIFT);
    (cs "\x1b\x1b[19~", TB_KEY_F8, TB_MOD_ALT);
    (cs "\x1b\x1b[32~", TB_KEY_F8, Z.lor TB_MOD_ALT TB_MOD_SHIFT);
    (cs "\x1b[19^", TB_KEY_F8, TB_MOD_CTRL);
    (cs "\x1b\x1b[19^", TB_KEY_F8, Z.lor TB_MOD_CTRL TB_MOD_ALT);
    (cs "\x1b\x1b[32^", TB_KEY_F8, Z.lor (Z.lor TB_MOD_CTRL TB_MOD_ALT) TB_MOD_SHIFT);
    (cs "\x1b[32^", TB_KEY_F8, Z.lor TB_MOD_CTRL TB_MOD_SHIFT);
    (cs "\x1b[32~", TB_KEY_F8, TB_MOD_SHIFT);
    (cs "\x1b\x1b[20~", TB_KEY_F9, TB_MOD_ALT);
    (cs "\x1b\x1b[33~", TB_KEY_F9, Z.lor TB_MOD_ALT TB_MOD_SHIFT);
    (cs "\x1b[20^", TB_KEY_F9, TB_MOD_CTRL);
    (cs "\x1b\x1b[20^", TB_KEY_F9, Z.lor TB_MOD_CTRL TB_MOD_ALT);
    (cs "\x1b\x1b[33^", TB_KEY_F9, Z.lor (Z.lor TB_MOD_CTRL TB_MOD_ALT) TB_MOD_SHIFT);
    (cs "\x1b[33^", TB_KEY_F9, Z.lor TB_MOD_CTRL TB_MOD_SHIFT);
    (cs "\x1b[33~", TB_KEY_F9, TB_MOD_SHIFT);
    (cs "\x1b\x1b[21~", TB_KEY_F10, TB_MOD_ALT);
    (cs "\x1b\x1b[34~", TB_KEY_F10, Z.lor TB_MOD_ALT TB_MOD_SHIFT);
    (cs "\x1b[21^", TB_KEY_F10, TB_MOD_CTRL);
    (cs "\x1b\x1b[21^", TB_KEY_F10, Z.lor TB_MOD_CTRL TB_MOD_ALT);
    (cs "\x1b\x1b[34^", TB_KEY_F10, Z.lor (Z.lor TB_MOD_CTRL TB_MOD_ALT) TB_MOD_SHIFT);
    (cs "\x1b[34^", TB_KEY_F10, Z.lor TB_MOD_CTRL TB_MOD_SHIFT);
    (cs "\x1b[34~", TB_KEY_F10, TB_MOD_SHIFT);
    (cs "\x1b\x1b[23~", TB_KEY_F11, TB_MOD_ALT);
    (cs "\x1b\x1b[23$", TB_KEY_F11, Z.lor TB_MOD_ALT TB_MOD_SHIFT);
    (cs "\x1b[23^", TB_KEY_F11, TB_MOD_CTRL);
    (cs "\x1b\x1b[23^", TB_KEY_F11, Z.lor TB_MOD_CTRL TB_MOD_ALT);
    (cs "\x1b\x1b[23@", TB_KEY_F11, Z.lor (Z.lor TB_MOD_CTRL TB_MOD_ALT) TB_MOD_SHIFT);
    (cs "\x1b[23@", TB_KEY_F11, Z.lor TB_MOD_CTRL TB_MOD_SHIFT);
    (cs "\x1b[23$", TB_KEY_F11, TB_MOD_SHIFT);
    (cs "\x1b\x1b[24~", TB_KEY_F12, TB_MOD_ALT);
    (cs "\x1b\x1b[24$", TB_KEY_F12, Z.lor TB_MOD_ALT TB_MOD_SHIFT);
    (cs "\x1b[24^", TB_KEY_F12, TB_MOD_CTRL);
    (cs "\x1b\x1b[24^", TB_KEY_F12, Z.lor TB_MOD_CTRL TB_MOD_ALT);
    (cs "\x1b\x1b[24@", TB_KEY_F12, Z.lor (Z.lor TB_MOD_CTRL TB_MOD_ALT) TB_MOD_SHIFT);
    (cs "\x1b[24@", TB_KEY_F12, Z.lor TB_MOD_CTRL TB_MOD_SHIFT);
    (cs "\x1b[24$", TB_KEY_F12, TB_MOD_SHIFT);
    (cs "\x1b[A", TB_KEY_ARROW_UP, TB_MOD_SHIFT);
    (cs "\x1b[B", TB_KEY_ARROW_DOWN, TB_MOD_SHIFT);
    (cs "\x1b[C", TB_KEY_ARROW_RIGHT, TB_MOD_SHIFT);
    (cs "\x1b[D", TB_KEY_ARROW_LEFT, TB_MOD_SHIFT);
    (cs "\x1bOA", TB_KEY_ARROW_UP, TB_MOD_CTRL);
    (cs "\x1b\x1bOA", TB_KEY_ARROW_UP, Z.lor TB_MOD_CTRL TB_MOD_ALT);
    (cs "\x1bOB", TB_KEY_ARROW_DOWN, TB_MOD_CTRL);
    (cs "\x1b\x1bOB", TB_KEY_ARROW_DOWN, Z.lor TB_MOD_CTRL TB_MOD_ALT);
    (cs "\x1bOC", TB_KEY_ARROW_RIGHT, TB_MOD_CTRL);
    (cs "\x1b\x1bOC", TB_KEY_ARROW_RIGHT, Z.lor TB_MOD_CTRL TB_MOD_ALT);
    (cs "\x1bOD", TB_KEY_ARROW_LEFT, TB_MOD_CTRL);
    (cs "\x1b\x1bOD", TB_KEY_ARROW_LEFT, Z.lor TB_MOD_CTRL TB_MOD_ALT) ].

(** Sequence, key and modifiers. *)
Definition builtin_mod_caps : list (list Z * Z * Z) :=
  builtin_mod_caps_1 ++ builtin_mod_caps_2 ++ builtin_mod_caps_3.

(** ** UTF-8 *)

Definition utf8_length : list Z :=
  [1; 1; 1; 1; 1; 1; 1; 1; 1; 1; 1; 1; 1; 1; 1; 1; 1; 1; 1; 1; 1; 1; 1; 1; 1; 1; 1; 1; 1; 1; 1; 1;
   1; 1; 1; 1; 1; 1; 1; 1; 1; 1; 1; 1; 1; 1; 1; 1; 1; 1; 1; 1; 1; 1; 1; 1; 1; 1; 1; 1; 1; 1; 1; 1;
   1; 1; 1; 1; 1; 1; 1; 1; 1; 1; 1; 1; 1; 1; 1; 1; 1; 1; 1; 1; 1; 1; 1; 1; 1; 1; 1; 1; 1; 1; 1; 1;
   1; 1; 1; 1; 1; 1; 1; 1; 1; 1; 1; 1; 1; 1; 1; 1; 1; 1; 1; 1; 1; 1; 1; 1; 1; 1; 1; 1; 1; 1; 1; 1;
   1; 1; 1; 1; 1; 1; 1; 1; 1; 1; 1; 1; 1; 1; 1; 1; 1; 1; 1; 1; 1; 1; 1; 1; 1; 1; 1; 1; 1; 1; 1; 1;
   1; 1; 1; 1; 1; 1; 1; 1; 1; 1; 1; 1; 1; 1; 1; 1; 1; 1; 1; 1; 1; 1; 1; 1; 1; 1; 1; 1; 1; 1; 1; 1;
   2; 2; 2; 2; 2; 2; 2; 2; 2; 2; 2; 2; 2; 2; 2; 2; 2; 2; 2; 2; 2; 2; 2; 2; 2; 2; 2; 2; 2; 2; 2; 2;
   3; 3; 3; 3; 3; 3; 3; 3; 3; 3; 3; 3; 3; 3; 3; 3; 4; 4; 4; 4; 4; 4; 4; 4; 5; 5; 5; 5; 6; 6; 1; 1].

Definition utf8_mask : list Z := [127; 31; 15; 7; 3; 1].

(** ** Widths

    First and last codepoint of a range, and its width. *)

Definition wcwidth_table_1 : list (Z * Z * Z) :=
  [ (1, 31, -1); (32, 126, 1); (127, 159, -1); (160, 767, 1);
    (768, 879, 0); (880, 887, 1); (888, 889, -1); (890, 895, 1);
    (896, 899, -1); (900, 906, 1); (907, 907, -1); (908, 908, 1);
    (909, 909, -1); (910, 929, 1); (930, 930, -1); (931, 1154, 1);
    (1155, 1161, 0); (1162, 1327, 1); (1328, 1328, -1); (1329, 1366, 1);
    (1367, 1368, -1); (1369, 1418, 1); (1419, 1420, -1); (1421, 1423, 1);
    (1424, 1424, -1); (1425, 1469, 0); (1470, 1470, 1); (1471, 1471, 0);
    (1472, 1472, 1); (1473, 1474, 0); (1475, 1475, 1); (1476, 1477, 0);
    (1478, 1478, 1); (1479, 1479, 0); (1480, 1487, -1); (1488, 1514, 1);
    (1515, 1518, -1); (1519, 1524, 1); (1525, 1535, -1); (1536, 1551, 1);
    (1552, 1562, 0); (1563, 1563, 1); (1564, 1564, 0); (1565, 1610, 1);
    (1611, 1631, 0); (1632, 1647, 1); (1648, 1648, 0); (1649, 1749, 1);
    (1750, 1756, 0); (1757, 1758, 1); (1759, 1764, 0); (1765, 1766, 1);
    (1767, 1768, 0); (1769, 1769, 1); (1770, 1773, 0); (1774, 1805, 1);
    (1806, 1806, -1); (1807, 1808, 1); (1809, 1809, 0); (1810, 1839, 1);
    (1840, 1866, 0); (1867, 1868, -1); (1869, 1957, 1); (1958, 1968, 0);
    (1969, 1969, 1); (1970, 1983, -1); (1984, 2026, 1); (2027, 2035, 0);
    (2036, 2042, 1); (2043, 2044, -1); (2045, 2045, 0); (2046, 2069, 1);
    (2070, 2073, 0); (2074, 2074, 1); (2075, 2083, 0); (2084, 2084, 1);
    (2085, 2087, 0); (2088, 2088, 1); (2089, 2093, 0); (2094, 2095, -1);
    (2096, 2110, 1); (2111, 2111, -1); (2112, 2136, 1); (2137, 2139, 0);
    (2140, 2141, -1); (2142, 2142, 1); (2143, 2143, -1); (2144, 2154, 1);
    (2155, 2159, -1); (2160, 2190, 1); (2191, 2191, -1); (2192, 2193, 1);
    (2194, 2198, -1); (2199, 2207, 0); (2208, 2249, 1); (2250, 2273, 0);
    (2274, 2274, 1); (2275, 2306, 0); (2307, 2361, 1); (2362, 2362, 0);
    (2363, 2363, 1); (2364, 2364, 0); (2365, 2368, 1); (2369, 2376, 0);
    (2377, 2380, 1); (2381, 2381, 0); (2382, 2384, 1); (2385, 2391, 0);
    (2392, 2401, 1); (2402, 2403, 0); (2404, 2432, 1); (2433, 2433, 0);
    (2434, 2435, 1); (2436, 2436, -1); (2437, 2444, 1); (2445, 2446, -1);
    (2447, 2448, 1); (2449, 2450, -1); (2451, 2472, 1); (2473, 2473, -1);
    (2474, 2480, 1); (2481, 2481, -1); (2482, 2482, 1); (2483, 2485, -1);
    (2486, 2489, 1); (2490, 2491, -1); (2492, 2492, 0); (2493, 2496, 1);
    (2497, 2500, 0); (2501, 2502, -1); (2503, 2504, 1); (2505, 2506, -1);
    (2507, 2508, 1); (2509, 2509, 0); (2510, 2510, 1); (2511, 2518, -1);
    (2519, 2519, 1); (2520, 2523, -1); (2524, 2525, 1); (2526, 2526, -1);
    (2527, 2529, 1); (2530, 2531, 0); (2532, 2533, -1); (2534, 2557, 1);
    (2558, 2558, 0); (2559, 2560, -1); (2561, 2562, 0); (2563, 2563, 1);
    (2564, 2564, -1); (2565, 2570, 1); (2571, 2574, -1); (2575, 2576, 1);
    (2577, 2578, -1); (2579, 2600, 1); (2601, 2601, -1); (2602, 2608, 1);
    (2609, 2609, -1); (2610, 2611, 1); (2612, 2612, -1); (2613, 2614, 1);
    (2615, 2615, -1); (2616, 2617, 1); (2618, 2619, -1); (2620, 2620, 0);
    (2621, 2621, -1); (2622, 2624, 1); (2625, 2626, 0); (2627, 2630, -1);
    (2631, 2632, 0); (2633, 2634, -1); (2635, 2637, 0); (2638, 2640, -1);
    (2641, 2641, 0); (2642, 2648, -1); (2649, 2652, 1); (2653, 2653, -1);
    (2654, 2654, 1); (2655, 2661, -1); (2662, 2671, 1); (2672, 2673, 0);
    (2674, 2676, 1); (2677, 2677, 0); (2678, 2678, 1); (2679, 2688, -1);
    (2689, 2690, 0); (2691, 2691, 1); (2692, 2692, -1); (2693, 2701, 1);
    (2702, 2702, -1); (2703, 2705, 1); (2706, 2706, -1); (2707, 2728, 1);
    (2729, 2729, -1); (2730, 2736, 1); (2737, 2737, -1); (2738, 2739, 1);
    (2740, 2740, -1); (2741, 2745, 1); (2746, 2747, -1); (2748, 2748, 0);
    (2749, 2752, 1); (2753, 2757, 0); (2758, 2758, -1); (2759, 2760, 0);
    (2761, 2761, 1); (2762, 2762, -1); (2763, 2764, 1); (2765, 2765, 0);
    (2766, 2767, -1); (2768, 2768, 1); (2769, 2783, -1); (2784, 2785, 1);
    (2786, 2787, 0); (2788, 2789, -1); (2790, 2801, 1); (2802, 2808, -1);
    (2809, 2809, 1); (2810, 2815, 0); (2816, 2816, -1); (2817, 2817, 0);
    (2818, 2819, 1); (2820, 2820, -1); (2821, 2828, 1); (2829, 2830, -1);
    (2831, 2832, 1); (2833, 2834, -1); (2835, 2856, 1); (2857, 2857, -1);
    (2858, 2864, 1); (2865, 2865, -1); (2866, 2867, 1); (2868, 2868, -1);
    (2869, 2873, 1); (2874, 2875, -1); (2876, 2876, 0); (2877, 2878, 1);
    (2879, 2879, 0); (2880, 2880, 1); (2881, 2884, 0); (2885, 2886, -1);
    (2887, 2888, 1); (2889, 2890, -1); (2891, 2892, 1); (2893, 2893, 0);
    (2894, 2900, -1); (2901, 2902, 0); (2903, 2903, 1); (2904, 2907, -1);
    (2908, 2909, 1); (2910, 2910, -1); (2911, 2913, 1); (2914, 2915, 0);
    (2916, 2917, -1); (2918, 2935, 1); (2936, 2945, -1); (2946, 2946, 0);
    (2947, 2947, 1); (2948, 2948, -1); (2949, 2954, 1); (2955, 2957, -1);
    (2958, 2960, 1); (2961, 2961, -1); (2962, 2965, 1); (2966, 2968, -1);
    (2969, 2970, 1); (2971, 2971, -1); (2972, 2972, 1); (2973, 2973, -1);
    (2974, 2975, 1); (2976, 2978, -1); (2979, 2980, 1); (2981, 2983, -1);
    (2984, 2986, 1); (2987, 2989, -1); (2990, 3001, 1); (3002, 3005, -1);
    (3006, 3007, 1); (3008, 3008, 0); (3009, 3010, 1); (3011, 3013, -1);
    (3014, 3016, 1); (3017, 3017, -1); (3018, 3020, 1); (3021, 3021, 0);
    (3022, 3023, -1); (3024, 3024, 1); (3025, 3030, -1); (3031, 3031, 1);
    (3032, 3045, -1); (3046, 3066, 1); (3067, 3071, -1); (3072, 3072, 0);
    (3073, 3075, 1); (3076, 3076, 0); (3077, 3084, 1); (3085, 3085, -1);
    (3086, 3088, 1); (3089, 3089, -1); (3090, 3112, 1); (3113, 3113, -1);
    (3114, 3129, 1); (3130, 3131, -1); (3132, 3132, 0); (3133, 3133, 1);
    (3134, 3136, 0); (3137, 3140, 1); (3141, 3141, -1); (3142, 3144, 0);
    (3145, 3145, -1); (3146, 3149, 0); (3150, 3156, -1); (3157, 3158, 0);
    (3159, 3159, -1); (3160, 3162, 1); (3163, 3164, -1); (3165, 3165, 1);
    (3166, 3167, -1); (3168, 3169, 1); (3170, 3171, 0); (3172, 3173, -1);
    (3174, 3183, 1); (3184, 3190, -1); (3191, 3200, 1); (3201, 3201, 0);
    (3202, 3212, 1); (3213, 3213, -1); (3214, 3216, 1); (3217, 3217, -1);
    (3218, 3240, 1); (3241, 3241, -1); (3242, 3251, 1); (3252, 3252, -1);
    (3253, 3257, 1); (3258, 3259, -1); (3260, 3260, 0); (3261, 3262, 1);
    (3263, 3263, 0); (3264, 3268, 1); (3269, 3269, -1); (3270, 3270, 0);
    (3271, 3272, 1); (3273, 3273, -1); (3274, 3275, 1); (3276, 3277, 0);
    (3278, 3284, -1); (3285, 3286, 1); (3287, 3292, -1); (3293, 3294, 1);
    (3295, 3295, -1); (3296, 3297, 1); (3298, 3299, 0); (3300, 3301, -1);
    (3302, 3311, 1); (3312, 3312, -1); (3313, 3315, 1); (3316, 3327, -1);
    (3328, 3329, 0); (3330, 3340, 1); (3341, 3341, -1); (3342, 3344, 1);
    (3345, 3345, -1); (3346, 3386, 1); (3387, 3388, 0); (3389, 3392, 1);
    (3393, 3396, 0); (3397, 3397, -1); (3398, 3400, 1); (3401, 3401, -1);
    (3402, 3404, 1); (3405, 3405, 0); (3406, 3407, 1); (3408, 3411, -1);
    (3412, 3425, 1); (3426, 3427, 0); (3428, 3429, -1); (3430, 3455, 1);
    (3456, 3456, -1); (3457, 3457, 0); (3458, 3459, 1); (3460, 3460, -1);
    (3461, 3478, 1); (3479, 3481, -1); (3482, 3505, 1); (3506, 3506, -1);
    (3507, 3515, 1); (3516, 3516, -1); (3517, 3517, 1); (3518, 3519, -1);
    (3520, 3526, 1); (3527, 3529, -1); (3530, 3530, 0); (3531, 3534, -1);
    (3535, 3537, 1); (3538, 3540, 0); (3541, 3541, -1); (3542, 3542, 0);
    (3543, 3543, -1); (3544, 3551, 1); (3552, 3557, -1); (3558, 3567, 1);
    (3568, 3569, -1); (3570, 3572, 1); (3573, 3584, -1); (3585, 3632, 1);
    (3633, 3633, 0); (3634, 3635, 1); (3636, 3642, 0); (3643, 3646, -1);
    (3647, 3654, 1); (3655, 3662, 0); (3663, 3675, 1); (3676, 3712, -1);
    (3713, 3714, 1); (3715, 3715, -1); (3716, 3716, 1); (3717, 3717, -1);
    (3718, 3722, 1); (3723, 3723, -1); (3724, 3747, 1); (3748, 3748, -1);
    (3749, 3749, 1); (3750, 3750, -1); (3751, 3760, 1); (3761, 3761, 0);
    (3762, 3763, 1); (3764, 3772, 0) ].

Definition wcwidth_table_2 : list (Z * Z * Z) :=
  [ (3773, 3773, 1); (3774, 3775, -1); (3776, 3780, 1); (3781, 3781, -1);
    (3782, 3782, 1); (3783, 3783, -1); (3784, 3790, 0); (3791, 3791, -1);
    (3792, 3801, 1); (3802, 3803, -1); (3804, 3807, 1); (3808, 3839, -1);
    (3840, 3863, 1); (3864, 3865, 0); (3866, 3892, 1); (3893, 3893, 0);
    (3894, 3894, 1); (3895, 3895, 0); (3896, 3896, 1); (3897, 3897, 0);
    (3898, 3911, 1); (3912, 3912, -1); (3913, 3948, 1); (3949, 3952, -1);
    (3953, 3966, 0); (3967, 3967, 1); (3968, 3972, 0); (3973, 3973, 1);
    (3974, 3975, 0); (3976, 3980, 1); (3981, 3991, 0); (3992, 3992, -1);
    (3993, 4028, 0); (4029, 4029, -1); (4030, 4037, 1); (4038, 4038, 0);
    (4039, 4044, 1); (4045, 4045, -1); (4046, 4058, 1); (4059, 4095, -1);
    (4096, 4140, 1); (4141, 4144, 0); (4145, 4145, 1); (4146, 4151, 0);
    (4152, 4152, 1); (4153, 4154, 0); (4155, 4156, 1); (4157, 4158, 0);
    (4159, 4183, 1); (4184, 4185, 0); (4186, 4189, 1); (4190, 4192, 0);
    (4193, 4208, 1); (4209, 4212, 0); (4213, 4225, 1); (4226, 4226, 0);
    (4227, 4228, 1); (4229, 4230, 0); (4231, 4236, 1); (4237, 4237, 0);
    (4238, 4252, 1); (4253, 4253, 0); (4254, 4293, 1); (4294, 4294, -1);
    (4295, 4295, 1); (4296, 4300, -1); (4301, 4301, 1); (4302, 4303, -1);
    (4304, 4351, 1); (4352, 4447, 2); (4448, 4607, 0); (4608, 4680, 1);
    (4681, 4681, -1); (4682, 4685, 1); (4686, 4687, -1); (4688, 4694, 1);
    (4695, 4695, -1); (4696, 4696, 1); (4697, 4697, -1); (4698, 4701, 1);
    (4702, 4703, -1); (4704, 4744, 1); (4745, 4745, -1); (4746, 4749, 1);
    (4750, 4751, -1); (4752, 4784, 1); (4785, 4785, -1); (4786, 4789, 1);
    (4790, 4791, -1); (4792, 4798, 1); (4799, 4799, -1); (4800, 4800, 1);
    (4801, 4801, -1); (4802, 4805, 1); (4806, 4807, -1); (4808, 4822, 1);
    (4823, 4823, -1); (4824, 4880, 1); (4881, 4881, -1); (4882, 4885, 1);
    (4886, 4887, -1); (4888, 4954, 1); (4955, 4956, -1); (4957, 4959, 0);
    (4960, 4988, 1); (4989, 4991, -1); (4992, 5017, 1); (5018, 5023, -1);
    (5024, 5109, 1); (5110, 5111, -1); (5112, 5117, 1); (5118, 5119, -1);
    (5120, 5788, 1); (5789, 5791, -1); (5792, 5880, 1); (5881, 5887, -1);
    (5888, 5905, 1); (5906, 5908, 0); (5909, 5909, 1); (5910, 5918, -1);
    (5919, 5937, 1); (5938, 5939, 0); (5940, 5942, 1); (5943, 5951, -1);
    (5952, 5969, 1); (5970, 5971, 0); (5972, 5983, -1); (5984, 5996, 1);
    (5997, 5997, -1); (5998, 6000, 1); (6001, 6001, -1); (6002, 6003, 0);
    (6004, 6015, -1); (6016, 6067, 1); (6068, 6069, 0); (6070, 6070, 1);
    (6071, 6077, 0); (6078, 6085, 1); (6086, 6086, 0); (6087, 6088, 1);
    (6089, 6099, 0); (6100, 6108, 1); (6109, 6109, 0); (6110, 6111, -1);
    (6112, 6121, 1); (6122, 6127, -1); (6128, 6137, 1); (6138, 6143, -1);
    (6144, 6154, 1); (6155, 6159, 0); (6160, 6169, 1); (6170, 6175, -1);
    (6176, 6264, 1); (6265, 6271, -1); (6272, 6276, 1); (6277, 6278, 0);
    (6279, 6312, 1); (6313, 6313, 0); (6314, 6314, 1); (6315, 6319, -1);
    (6320, 6389, 1); (6390, 6399, -1); (6400, 6430, 1); (6431, 6431, -1);
    (6432, 6434, 0); (6435, 6438, 1); (6439, 6440, 0); (6441, 6443, 1);
    (6444, 6447, -1); (6448, 6449, 1); (6450, 6450, 0); (6451, 6456, 1);
    (6457, 6459, 0); (6460, 6463, -1); (6464, 6464, 1); (6465, 6467, -1);
    (6468, 6509, 1); (6510, 6511, -1); (6512, 6516, 1); (6517, 6527, -1);
    (6528, 6571, 1); (6572, 6575, -1); (6576, 6601, 1); (6602, 6607, -1);
    (6608, 6618, 1); (6619, 6621, -1); (6622, 6678, 1); (6679, 6680, 0);
    (6681, 6682, 1); (6683, 6683, 0); (6684, 6685, -1); (6686, 6741, 1);
    (6742, 6742, 0); (6743, 6743, 1); (6744, 6750, 0); (6751, 6751, -1);
    (6752, 6752, 0); (6753, 6753, 1); (6754, 6754, 0); (6755, 6756, 1);
    (6757, 6764, 0); (6765, 6770, 1); (6771, 6780, 0); (6781, 6782, -1);
    (6783, 6783, 0); (6784, 6793, 1); (6794, 6799, -1); (6800, 6809, 1);
    (6810, 6815, -1); (6816, 6829, 1); (6830, 6831, -1); (6832, 6862, 0);
    (6863, 6911, -1); (6912, 6915, 0); (6916, 6963, 1); (6964, 6964, 0);
    (6965, 6965, 1); (6966, 6970, 0); (6971, 6971, 1); (6972, 6972, 0);
    (6973, 6977, 1); (6978, 6978, 0); (6979, 6988, 1); (6989, 6989, -1);
    (6990, 7018, 1); (7019, 7027, 0); (7028, 7039, 1); (7040, 7041, 0);
    (7042, 7073, 1); (7074, 7077, 0); (7078, 7079, 1); (7080, 7081, 0);
    (7082, 7082, 1); (7083, 7085, 0); (7086, 7141, 1); (7142, 7142, 0);
    (7143, 7143, 1); (7144, 7145, 0); (7146, 7148, 1); (7149, 7149, 0);
    (7150, 7150, 1); (7151, 7153, 0); (7154, 7155, 1); (7156, 7163, -1);
    (7164, 7211, 1); (7212, 7219, 0); (7220, 7221, 1); (7222, 7223, 0);
    (7224, 7226, -1); (7227, 7241, 1); (7242, 7244, -1); (7245, 7306, 1);
    (7307, 7311, -1); (7312, 7354, 1); (7355, 7356, -1); (7357, 7367, 1);
    (7368, 7375, -1); (7376, 7378, 0); (7379, 7379, 1); (7380, 7392, 0);
    (7393, 7393, 1); (7394, 7400, 0); (7401, 7404, 1); (7405, 7405, 0);
    (7406, 7411, 1); (7412, 7412, 0); (7413, 7415, 1); (7416, 7417, 0);
    (7418, 7418, 1); (7419, 7423, -1); (7424, 7615, 1); (7616, 7679, 0);
    (7680, 7957, 1); (7958, 7959, -1); (7960, 7965, 1); (7966, 7967, -1);
    (7968, 8005, 1); (8006, 8007, -1); (8008, 8013, 1); (8014, 8015, -1);
    (8016, 8023, 1); (8024, 8024, -1); (8025, 8025, 1); (8026, 8026, -1);
    (8027, 8027, 1); (8028, 8028, -1); (8029, 8029, 1); (8030, 8030, -1);
    (8031, 8061, 1); (8062, 8063, -1); (8064, 8116, 1); (8117, 8117, -1);
    (8118, 8132, 1); (8133, 8133, -1); (8134, 8147, 1); (8148, 8149, -1);
    (8150, 8155, 1); (8156, 8156, -1); (8157, 8175, 1); (8176, 8177, -1);
    (8178, 8180, 1); (8181, 8181, -1); (8182, 8190, 1); (8191, 8191, -1);
    (8192, 8202, 1); (8203, 8207, 0); (8208, 8231, 1); (8232, 8233, -1);
    (8234, 8238, 0); (8239, 8287, 1); (8288, 8292, 0); (8293, 8293, -1);
    (8294, 8303, 0); (8304, 8305, 1); (8306, 8307, -1); (8308, 8334, 1);
    (8335, 8335, -1); (8336, 8348, 1); (8349, 8351, -1); (8352, 8384, 1);
    (8385, 8399, -1); (8400, 8432, 0); (8433, 8447, -1); (8448, 8587, 1);
    (8588, 8591, -1); (8592, 8985, 1); (8986, 8987, 2); (8988, 9000, 1);
    (9001, 9002, 2); (9003, 9192, 1); (9193, 9196, 2); (9197, 9199, 1);
    (9200, 9200, 2); (9201, 9202, 1); (9203, 9203, 2); (9204, 9257, 1);
    (9258, 9279, -1); (9280, 9290, 1); (9291, 9311, -1); (9312, 9724, 1);
    (9725, 9726, 2); (9727, 9747, 1); (9748, 9749, 2); (9750, 9775, 1);
    (9776, 9783, 2); (9784, 9799, 1); (9800, 9811, 2); (9812, 9854, 1);
    (9855, 9855, 2); (9856, 9865, 1); (9866, 9871, 2); (9872, 9874, 1);
    (9875, 9875, 2); (9876, 9888, 1); (9889, 9889, 2); (9890, 9897, 1);
    (9898, 9899, 2); (9900, 9916, 1); (9917, 9918, 2); (9919, 9923, 1);
    (9924, 9925, 2); (9926, 9933, 1); (9934, 9934, 2); (9935, 9939, 1);
    (9940, 9940, 2); (9941, 9961, 1); (9962, 9962, 2); (9963, 9969, 1);
    (9970, 9971, 2); (9972, 9972, 1); (9973, 9973, 2); (9974, 9977, 1);
    (9978, 9978, 2); (9979, 9980, 1); (9981, 9981, 2); (9982, 9988, 1);
    (9989, 9989, 2); (9990, 9993, 1); (9994, 9995, 2); (9996, 10023, 1);
    (10024, 10024, 2); (10025, 10059, 1); (10060, 10060, 2); (10061, 10061, 1);
    (10062, 10062, 2); (10063, 10066, 1); (10067, 10069, 2); (10070, 10070, 1);
    (10071, 10071, 2); (10072, 10132, 1); (10133, 10135, 2); (10136, 10159, 1);
    (10160, 10160, 2); (10161, 10174, 1); (10175, 10175, 2); (10176, 11034, 1);
    (11035, 11036, 2); (11037, 11087, 1); (11088, 11088, 2); (11089, 11092, 1);
    (11093, 11093, 2); (11094, 11123, 1); (11124, 11125, -1); (11126, 11157, 1);
    (11158, 11158, -1); (11159, 11502, 1); (11503, 11505, 0); (11506, 11507, 1);
    (11508, 11512, -1); (11513, 11557, 1); (11558, 11558, -1); (11559, 11559, 1);
    (11560, 11564, -1); (11565, 11565, 1); (11566, 11567, -1); (11568, 11623, 1);
    (11624, 11630, -1); (11631, 11632, 1); (11633, 11646, -1); (11647, 11647, 0);
    (11648, 11670, 1); (11671, 11679, -1); (11680, 11686, 1); (11687, 11687, -1);
    (11688, 11694, 1); (11695, 11695, -1); (11696, 11702, 1); (11703, 11703, -1);
    (11704, 11710, 1); (11711, 11711, -1); (11712, 11718, 1); (11719, 11719, -1);
    (11720, 11726, 1); (11727, 11727, -1); (11728, 11734, 1); (11735, 11735, -1);
    (11736, 11742, 1); (11743, 11743, -1); (11744, 11775, 0); (11776, 11869, 1);
    (11870, 11903, -1); (11904, 11929, 2); (11930, 11930, -1); (11931, 12019, 2) ].

Definition wcwidth_table_3 : list (Z * Z * Z) :=
  [ (12020, 12031, -1); (12032, 12245, 2); (12246, 12271, -1); (12272, 12329, 2);
    (12330, 12333, 0); (12334, 12350, 2); (12351, 12351, 1); (12352, 12352, -1);
    (12353, 12438, 2); (12439, 12440, -1); (12441, 12442, 0); (12443, 12543, 2);
    (12544, 12548, -1); (12549, 12591, 2); (12592, 12592, -1); (12593, 12643, 2);
    (12644, 12644, 0); (12645, 12686, 2); (12687, 12687, -1); (12688, 12773, 2);
    (12774, 12782, -1); (12783, 12830, 2); (12831, 12831, -1); (12832, 42124, 2);
    (42125, 42127, -1); (42128, 42182, 2); (42183, 42191, -1); (42192, 42539, 1);
    (42540, 42559, -1); (42560, 42606, 1); (42607, 42610, 0); (42611, 42611, 1);
    (42612, 42621, 0); (42622, 42653, 1); (42654, 42655, 0); (42656, 42735, 1);
    (42736, 42737, 0); (42738, 42743, 1); (42744, 42751, -1); (42752, 42957, 1);
    (42958, 42959, -1); (42960, 42961, 1); (42962, 42962, -1); (42963, 42963, 1);
    (42964, 42964, -1); (42965, 42972, 1); (42973, 42993, -1); (42994, 43009, 1);
    (43010, 43010, 0); (43011, 43013, 1); (43014, 43014, 0); (43015, 43018, 1);
    (43019, 43019, 0); (43020, 43044, 1); (43045, 43046, 0); (43047, 43051, 1);
    (43052, 43052, 0); (43053, 43055, -1); (43056, 43065, 1); (43066, 43071, -1);
    (43072, 43127, 1); (43128, 43135, -1); (43136, 43203, 1); (43204, 43205, 0);
    (43206, 43213, -1); (43214, 43225, 1); (43226, 43231, -1); (43232, 43249, 0);
    (43250, 43262, 1); (43263, 43263, 0); (43264, 43301, 1); (43302, 43309, 0);
    (43310, 43334, 1); (43335, 43345, 0); (43346, 43347, 1); (43348, 43358, -1);
    (43359, 43359, 1); (43360, 43388, 2); (43389, 43391, -1); (43392, 43394, 0);
    (43395, 43442, 1); (43443, 43443, 0); (43444, 43445, 1); (43446, 43449, 0);
    (43450, 43451, 1); (43452, 43453, 0); (43454, 43469, 1); (43470, 43470, -1);
    (43471, 43481, 1); (43482, 43485, -1); (43486, 43492, 1); (43493, 43493, 0);
    (43494, 43518, 1); (43519, 43519, -1); (43520, 43560, 1); (43561, 43566, 0);
    (43567, 43568, 1); (43569, 43570, 0); (43571, 43572, 1); (43573, 43574, 0);
    (43575, 43583, -1); (43584, 43586, 1); (43587, 43587, 0); (43588, 43595, 1);
    (43596, 43596, 0); (43597, 43597, 1); (43598, 43599, -1); (43600, 43609, 1);
    (43610, 43611, -1); (43612, 43643, 1); (43644, 43644, 0); (43645, 43695, 1);
    (43696, 43696, 0); (43697, 43697, 1); (43698, 43700, 0); (43701, 43702, 1);
    (43703, 43704, 0); (43705, 43709, 1); (43710, 43711, 0); (43712, 43712, 1);
    (43713, 43713, 0); (43714, 43714, 1); (43715, 43738, -1); (43739, 43755, 1);
    (43756, 43757, 0); (43758, 43765, 1); (43766, 43766, 0); (43767, 43776, -1);
    (43777, 43782, 1); (43783, 43784, -1); (43785, 43790, 1); (43791, 43792, -1);
    (43793, 43798, 1); (43799, 43807, -1); (43808, 43814, 1); (43815, 43815, -1);
    (43816, 43822, 1); (43823, 43823, -1); (43824, 43883, 1); (43884, 43887, -1);
    (43888, 44004, 1); (44005, 44005, 0); (44006, 44007, 1); (44008, 44008, 0);
    (44009, 44012, 1); (44013, 44013, 0); (44014, 44015, -1); (44016, 44025, 1);
    (44026, 44031, -1); (44032, 55203, 2); (55204, 55215, -1); (55216, 55238, 0);
    (55239, 55242, -1); (55243, 55291, 0); (55292, 57343, -1); (57344, 63743, 1);
    (63744, 64109, 2); (64110, 64111, -1); (64112, 64217, 2); (64218, 64255, -1);
    (64256, 64262, 1); (64263, 64274, -1); (64275, 64279, 1); (64280, 64284, -1);
    (64285, 64285, 1); (64286, 64286, 0); (64287, 64310, 1); (64311, 64311, -1);
    (64312, 64316, 1); (64317, 64317, -1); (64318, 64318, 1); (64319, 64319, -1);
    (64320, 64321, 1); (64322, 64322, -1); (64323, 64324, 1); (64325, 64325, -1);
    (64326, 64450, 1); (64451, 64466, -1); (64467, 64911, 1); (64912, 64913, -1);
    (64914, 64967, 1); (64968, 64974, -1); (64975, 64975, 1); (64976, 65007, -1);
    (65008, 65023, 1); (65024, 65039, 0); (65040, 65049, 2); (65050, 65055, -1);
    (65056, 65071, 0); (65072, 65106, 2); (65107, 65107, -1); (65108, 65126, 2);
    (65127, 65127, -1); (65128, 65131, 2); (65132, 65135, -1); (65136, 65140, 1);
    (65141, 65141, -1); (65142, 65276, 1); (65277, 65278, -1); (65279, 65279, 0);
    (65280, 65280, -1); (65281, 65376, 2); (65377, 65439, 1); (65440, 65440, 0);
    (65441, 65470, 1); (65471, 65473, -1); (65474, 65479, 1); (65480, 65481, -1);
    (65482, 65487, 1); (65488, 65489, -1); (65490, 65495, 1); (65496, 65497, -1);
    (65498, 65500, 1); (65501, 65503, -1); (65504, 65510, 2); (65511, 65511, -1);
    (65512, 65518, 1); (65519, 65528, -1); (65529, 65533, 1); (65534, 65535, -1);
    (65536, 65547, 1); (65548, 65548, -1); (65549, 65574, 1); (65575, 65575, -1);
    (65576, 65594, 1); (65595, 65595, -1); (65596, 65597, 1); (65598, 65598, -1);
    (65599, 65613, 1); (65614, 65615, -1); (65616, 65629, 1); (65630, 65663, -1);
    (65664, 65786, 1); (65787, 65791, -1); (65792, 65794, 1); (65795, 65798, -1);
    (65799, 65843, 1); (65844, 65846, -1); (65847, 65934, 1); (65935, 65935, -1);
    (65936, 65948, 1); (65949, 65951, -1); (65952, 65952, 1); (65953, 65999, -1);
    (66000, 66044, 1); (66045, 66045, 0); (66046, 66175, -1); (66176, 66204, 1);
    (66205, 66207, -1); (66208, 66256, 1); (66257, 66271, -1); (66272, 66272, 0);
    (66273, 66299, 1); (66300, 66303, -1); (66304, 66339, 1); (66340, 66348, -1);
    (66349, 66378, 1); (66379, 66383, -1); (66384, 66421, 1); (66422, 66426, 0);
    (66427, 66431, -1); (66432, 66461, 1); (66462, 66462, -1); (66463, 66499, 1);
    (66500, 66503, -1); (66504, 66517, 1); (66518, 66559, -1); (66560, 66717, 1);
    (66718, 66719, -1); (66720, 66729, 1); (66730, 66735, -1); (66736, 66771, 1);
    (66772, 66775, -1); (66776, 66811, 1); (66812, 66815, -1); (66816, 66855, 1);
    (66856, 66863, -1); (66864, 66915, 1); (66916, 66926, -1); (66927, 66938, 1);
    (66939, 66939, -1); (66940, 66954, 1); (66955, 66955, -1); (66956, 66962, 1);
    (66963, 66963, -1); (66964, 66965, 1); (66966, 66966, -1); (66967, 66977, 1);
    (66978, 66978, -1); (66979, 66993, 1); (66994, 66994, -1); (66995, 67001, 1);
    (67002, 67002, -1); (67003, 67004, 1); (67005, 67007, -1); (67008, 67059, 1);
    (67060, 67071, -1); (67072, 67382, 1); (67383, 67391, -1); (67392, 67413, 1);
    (67414, 67423, -1); (67424, 67431, 1); (67432, 67455, -1); (67456, 67461, 1);
    (67462, 67462, -1); (67463, 67504, 1); (67505, 67505, -1); (67506, 67514, 1);
    (67515, 67583, -1); (67584, 67589, 1); (67590, 67591, -1); (67592, 67592, 1);
    (67593, 67593, -1); (67594, 67637, 1); (67638, 67638, -1); (67639, 67640, 1);
    (67641, 67643, -1); (67644, 67644, 1); (67645, 67646, -1); (67647, 67669, 1);
    (67670, 67670, -1); (67671, 67742, 1); (67743, 67750, -1); (67751, 67759, 1);
    (67760, 67807, -1); (67808, 67826, 1); (67827, 67827, -1); (67828, 67829, 1);
    (67830, 67834, -1); (67835, 67867, 1); (67868, 67870, -1); (67871, 67897, 1);
    (67898, 67902, -1); (67903, 67903, 1); (67904, 67967, -1); (67968, 68023, 1);
    (68024, 68027, -1); (68028, 68047, 1); (68048, 68049, -1); (68050, 68096, 1);
    (68097, 68099, 0); (68100, 68100, -1); (68101, 68102, 0); (68103, 68107, -1);
    (68108, 68111, 0); (68112, 68115, 1); (68116, 68116, -1); (68117, 68119, 1);
    (68120, 68120, -1); (68121, 68149, 1); (68150, 68151, -1); (68152, 68154, 0);
    (68155, 68158, -1); (68159, 68159, 0); (68160, 68168, 1); (68169, 68175, -1);
    (68176, 68184, 1); (68185, 68191, -1); (68192, 68255, 1); (68256, 68287, -1);
    (68288, 68324, 1); (68325, 68326, 0); (68327, 68330, -1); (68331, 68342, 1);
    (68343, 68351, -1); (68352, 68405, 1); (68406, 68408, -1); (68409, 68437, 1);
    (68438, 68439, -1); (68440, 68466, 1); (68467, 68471, -1); (68472, 68497, 1);
    (68498, 68504, -1); (68505, 68508, 1); (68509, 68520, -1); (68521, 68527, 1);
    (68528, 68607, -1); (68608, 68680, 1); (68681, 68735, -1); (68736, 68786, 1);
    (68787, 68799, -1); (68800, 68850, 1); (68851, 68857, -1); (68858, 68899, 1);
    (68900, 68903, 0); (68904, 68911, -1); (68912, 68921, 1); (68922, 68927, -1);
    (68928, 68965, 1); (68966, 68968, -1); (68969, 68973, 0); (68974, 68997, 1);
    (68998, 69005, -1); (69006, 69007, 1); (69008, 69215, -1); (69216, 69246, 1);
    (69247, 69247, -1); (69248, 69289, 1); (69290, 69290, -1); (69291, 69292, 0);
    (69293, 69293, 1); (69294, 69295, -1); (69296, 69297, 1); (69298, 69313, -1);
    (69314, 69316, 1); (69317, 69371, -1); (69372, 69375, 0); (69376, 69415, 1);
    (69416, 69423, -1); (69424, 69445, 1); (69446, 69456, 0); (69457, 69465, 1);
    (69466, 69487, -1); (69488, 69505, 1); (69506, 69509, 0); (69510, 69513, 1);
    (69514, 69551, -1); (69552, 69579, 1); (69580, 69599, -1); (69600, 69622, 1);
    (69623, 69631, -1); (69632, 69632, 1); (69633, 69633, 0); (69634, 69687, 1);
    (69688, 69702, 0); (69703, 69709, 1); (69710, 69713, -1); (69714, 69743, 1);
    (69744, 69744, 0); (69745, 69746, 1); (69747, 69748, 0); (69749, 69749, 1);
    (69750, 69758, -1); (69759, 69761, 0); (69762, 69810, 1); (69811, 69814, 0);
    (69815, 69816, 1); (69817, 69818, 0); (69819, 69825, 1); (69826, 69826, 0);
    (69827, 69836, -1); (69837, 69837, 1); (69838, 69839, -1); (69840, 69864, 1) ].

Definition wcwidth_table_4 : list (Z * Z * Z) :=
  [ (69865, 69871, -1); (69872, 69881, 1); (69882, 69887, -1); (69888, 69890, 0);
    (69891, 69926, 1); (69927, 69931, 0); (69932, 69932, 1); (69933, 69940, 0);
    (69941, 69941, -1); (69942, 69959, 1); (69960, 69967, -1); (69968, 70002, 1);
    (70003, 70003, 0); (70004, 70006, 1); (70007, 70015, -1); (70016, 70017, 0);
    (70018, 70069, 1); (70070, 70078, 0); (70079, 70088, 1); (70089, 70092, 0);
    (70093, 70094, 1); (70095, 70095, 0); (70096, 70111, 1); (70112, 70112, -1);
    (70113, 70132, 1); (70133, 70143, -1); (70144, 70161, 1); (70162, 70162, -1);
    (70163, 70190, 1); (70191, 70193, 0); (70194, 70195, 1); (70196, 70196, 0);
    (70197, 70197, 1); (70198, 70199, 0); (70200, 70205, 1); (70206, 70206, 0);
    (70207, 70208, 1); (70209, 70209, 0); (70210, 70271, -1); (70272, 70278, 1);
    (70279, 70279, -1); (70280, 70280, 1); (70281, 70281, -1); (70282, 70285, 1);
    (70286, 70286, -1); (70287, 70301, 1); (70302, 70302, -1); (70303, 70313, 1);
    (70314, 70319, -1); (70320, 70366, 1); (70367, 70367, 0); (70368, 70370, 1);
    (70371, 70378, 0); (70379, 70383, -1); (70384, 70393, 1); (70394, 70399, -1);
    (70400, 70401, 0); (70402, 70403, 1); (70404, 70404, -1); (70405, 70412, 1);
    (70413, 70414, -1); (70415, 70416, 1); (70417, 70418, -1); (70419, 70440, 1);
    (70441, 70441, -1); (70442, 70448, 1); (70449, 70449, -1); (70450, 70451, 1);
    (70452, 70452, -1); (70453, 70457, 1); (70458, 70458, -1); (70459, 70460, 0);
    (70461, 70463, 1); (70464, 70464, 0); (70465, 70468, 1); (70469, 70470, -1);
    (70471, 70472, 1); (70473, 70474, -1); (70475, 70477, 1); (70478, 70479, -1);
    (70480, 70480, 1); (70481, 70486, -1); (70487, 70487, 1); (70488, 70492, -1);
    (70493, 70499, 1); (70500, 70501, -1); (70502, 70508, 0); (70509, 70511, -1);
    (70512, 70516, 0); (70517, 70527, -1); (70528, 70537, 1); (70538, 70538, -1);
    (70539, 70539, 1); (70540, 70541, -1); (70542, 70542, 1); (70543, 70543, -1);
    (70544, 70581, 1); (70582, 70582, -1); (70583, 70586, 1); (70587, 70592, 0);
    (70593, 70593, -1); (70594, 70594, 1); (70595, 70596, -1); (70597, 70597, 1);
    (70598, 70598, -1); (70599, 70602, 1); (70603, 70603, -1); (70604, 70605, 1);
    (70606, 70606, 0); (70607, 70607, 1); (70608, 70608, 0); (70609, 70609, 1);
    (70610, 70610, 0); (70611, 70613, 1); (70614, 70614, -1); (70615, 70616, 1);
    (70617, 70624, -1); (70625, 70626, 0); (70627, 70655, -1); (70656, 70711, 1);
    (70712, 70719, 0); (70720, 70721, 1); (70722, 70724, 0); (70725, 70725, 1);
    (70726, 70726, 0); (70727, 70747, 1); (70748, 70748, -1); (70749, 70749, 1);
    (70750, 70750, 0); (70751, 70753, 1); (70754, 70783, -1); (70784, 70834, 1);
    (70835, 70840, 0); (70841, 70841, 1); (70842, 70842, 0); (70843, 70846, 1);
    (70847, 70848, 0); (70849, 70849, 1); (70850, 70851, 0); (70852, 70855, 1);
    (70856, 70863, -1); (70864, 70873, 1); (70874, 71039, -1); (71040, 71089, 1);
    (71090, 71093, 0); (71094, 71095, -1); (71096, 71099, 1); (71100, 71101, 0);
    (71102, 71102, 1); (71103, 71104, 0); (71105, 71131, 1); (71132, 71133, 0);
    (71134, 71167, -1); (71168, 71218, 1); (71219, 71226, 0); (71227, 71228, 1);
    (71229, 71229, 0); (71230, 71230, 1); (71231, 71232, 0); (71233, 71236, 1);
    (71237, 71247, -1); (71248, 71257, 1); (71258, 71263, -1); (71264, 71276, 1);
    (71277, 71295, -1); (71296, 71338, 1); (71339, 71339, 0); (71340, 71340, 1);
    (71341, 71341, 0); (71342, 71343, 1); (71344, 71349, 0); (71350, 71350, 1);
    (71351, 71351, 0); (71352, 71353, 1); (71354, 71359, -1); (71360, 71369, 1);
    (71370, 71375, -1); (71376, 71395, 1); (71396, 71423, -1); (71424, 71450, 1);
    (71451, 71452, -1); (71453, 71453, 0); (71454, 71454, 1); (71455, 71455, 0);
    (71456, 71457, 1); (71458, 71461, 0); (71462, 71462, 1); (71463, 71467, 0);
    (71468, 71471, -1); (71472, 71494, 1); (71495, 71679, -1); (71680, 71726, 1);
    (71727, 71735, 0); (71736, 71736, 1); (71737, 71738, 0); (71739, 71739, 1);
    (71740, 71839, -1); (71840, 71922, 1); (71923, 71934, -1); (71935, 71942, 1);
    (71943, 71944, -1); (71945, 71945, 1); (71946, 71947, -1); (71948, 71955, 1);
    (71956, 71956, -1); (71957, 71958, 1); (71959, 71959, -1); (71960, 71989, 1);
    (71990, 71990, -1); (71991, 71992, 1); (71993, 71994, -1); (71995, 71996, 0);
    (71997, 71997, 1); (71998, 71998, 0); (71999, 72002, 1); (72003, 72003, 0);
    (72004, 72006, 1); (72007, 72015, -1); (72016, 72025, 1); (72026, 72095, -1);
    (72096, 72103, 1); (72104, 72105, -1); (72106, 72147, 1); (72148, 72151, 0);
    (72152, 72153, -1); (72154, 72155, 0); (72156, 72159, 1); (72160, 72160, 0);
    (72161, 72164, 1); (72165, 72191, -1); (72192, 72192, 1); (72193, 72202, 0);
    (72203, 72242, 1); (72243, 72248, 0); (72249, 72250, 1); (72251, 72254, 0);
    (72255, 72262, 1); (72263, 72263, 0); (72264, 72271, -1); (72272, 72272, 1);
    (72273, 72278, 0); (72279, 72280, 1); (72281, 72283, 0); (72284, 72329, 1);
    (72330, 72342, 0); (72343, 72343, 1); (72344, 72345, 0); (72346, 72354, 1);
    (72355, 72367, -1); (72368, 72440, 1); (72441, 72447, -1); (72448, 72457, 1);
    (72458, 72639, -1); (72640, 72673, 1); (72674, 72687, -1); (72688, 72697, 1);
    (72698, 72703, -1); (72704, 72712, 1); (72713, 72713, -1); (72714, 72751, 1);
    (72752, 72758, 0); (72759, 72759, -1); (72760, 72765, 0); (72766, 72766, 1);
    (72767, 72767, 0); (72768, 72773, 1); (72774, 72783, -1); (72784, 72812, 1);
    (72813, 72815, -1); (72816, 72847, 1); (72848, 72849, -1); (72850, 72871, 0);
    (72872, 72872, -1); (72873, 72873, 1); (72874, 72880, 0); (72881, 72881, 1);
    (72882, 72883, 0); (72884, 72884, 1); (72885, 72886, 0); (72887, 72959, -1);
    (72960, 72966, 1); (72967, 72967, -1); (72968, 72969, 1); (72970, 72970, -1);
    (72971, 73008, 1); (73009, 73014, 0); (73015, 73017, -1); (73018, 73018, 0);
    (73019, 73019, -1); (73020, 73021, 0); (73022, 73022, -1); (73023, 73029, 0);
    (73030, 73030, 1); (73031, 73031, 0); (73032, 73039, -1); (73040, 73049, 1);
    (73050, 73055, -1); (73056, 73061, 1); (73062, 73062, -1); (73063, 73064, 1);
    (73065, 73065, -1); (73066, 73102, 1); (73103, 73103, -1); (73104, 73105, 0);
    (73106, 73106, -1); (73107, 73108, 1); (73109, 73109, 0); (73110, 73110, 1);
    (73111, 73111, 0); (73112, 73112, 1); (73113, 73119, -1); (73120, 73129, 1);
    (73130, 73439, -1); (73440, 73458, 1); (73459, 73460, 0); (73461, 73464, 1);
    (73465, 73471, -1); (73472, 73473, 0); (73474, 73488, 1); (73489, 73489, -1);
    (73490, 73525, 1); (73526, 73530, 0); (73531, 73533, -1); (73534, 73535, 1);
    (73536, 73536, 0); (73537, 73537, 1); (73538, 73538, 0); (73539, 73561, 1);
    (73562, 73562, 0); (73563, 73647, -1); (73648, 73648, 1); (73649, 73663, -1);
    (73664, 73713, 1); (73714, 73726, -1); (73727, 74649, 1); (74650, 74751, -1);
    (74752, 74862, 1); (74863, 74863, -1); (74864, 74868, 1); (74869, 74879, -1);
    (74880, 75075, 1); (75076, 77711, -1); (77712, 77810, 1); (77811, 77823, -1);
    (77824, 78911, 1); (78912, 78912, 0); (78913, 78918, 1); (78919, 78933, 0);
    (78934, 78943, -1); (78944, 82938, 1); (82939, 82943, -1); (82944, 83526, 1);
    (83527, 90367, -1); (90368, 90397, 1); (90398, 90409, 0); (90410, 90412, 1);
    (90413, 90415, 0); (90416, 90425, 1); (90426, 92159, -1); (92160, 92728, 1);
    (92729, 92735, -1); (92736, 92766, 1); (92767, 92767, -1); (92768, 92777, 1);
    (92778, 92781, -1); (92782, 92862, 1); (92863, 92863, -1); (92864, 92873, 1);
    (92874, 92879, -1); (92880, 92909, 1); (92910, 92911, -1); (92912, 92916, 0);
    (92917, 92917, 1); (92918, 92927, -1); (92928, 92975, 1); (92976, 92982, 0);
    (92983, 92997, 1); (92998, 93007, -1); (93008, 93017, 1); (93018, 93018, -1);
    (93019, 93025, 1); (93026, 93026, -1); (93027, 93047, 1); (93048, 93052, -1);
    (93053, 93071, 1); (93072, 93503, -1); (93504, 93561, 1); (93562, 93759, -1);
    (93760, 93850, 1); (93851, 93951, -1); (93952, 94026, 1); (94027, 94030, -1);
    (94031, 94031, 0); (94032, 94087, 1); (94088, 94094, -1); (94095, 94098, 0);
    (94099, 94111, 1); (94112, 94175, -1); (94176, 94179, 2); (94180, 94180, 0);
    (94181, 94191, -1); (94192, 94193, 2); (94194, 94207, -1); (94208, 100343, 2);
    (100344, 100351, -1); (100352, 101589, 2); (101590, 101630, -1); (101631, 101640, 2);
    (101641, 110575, -1); (110576, 110579, 2); (110580, 110580, -1); (110581, 110587, 2);
    (110588, 110588, -1); (110589, 110590, 2); (110591, 110591, -1); (110592, 110882, 2);
    (110883, 110897, -1); (110898, 110898, 2); (110899, 110927, -1); (110928, 110930, 2);
    (110931, 110932, -1); (110933, 110933, 2); (110934, 110947, -1); (110948, 110951, 2);
    (110952, 110959, -1); (110960, 111355, 2); (111356, 113663, -1); (113664, 113770, 1);
    (113771, 113775, -1); (113776, 113788, 1); (113789, 113791, -1); (113792, 113800, 1);
    (113801, 113807, -1); (113808, 113817, 1); (113818, 113819, -1); (113820, 113820, 1);
    (113821, 113822, 0); (113823, 113823, 1); (113824, 113827, 0); (113828, 117759, -1);
    (117760, 118009, 1); (118010, 118015, -1); (118016, 118451, 1); (118452, 118527, -1) ].

Definition wcwidth_table_5 : list (Z * Z * Z) :=
  [ (118528, 118573, 0); (118574, 118575, -1); (118576, 118598, 0); (118599, 118607, -1);
    (118608, 118723, 1); (118724, 118783, -1); (118784, 119029, 1); (119030, 119039, -1);
    (119040, 119078, 1); (119079, 119080, -1); (119081, 119142, 1); (119143, 119145, 0);
    (119146, 119154, 1); (119155, 119170, 0); (119171, 119172, 1); (119173, 119179, 0);
    (119180, 119209, 1); (119210, 119213, 0); (119214, 119274, 1); (119275, 119295, -1);
    (119296, 119361, 1); (119362, 119364, 0); (119365, 119365, 1); (119366, 119487, -1);
    (119488, 119507, 1); (119508, 119519, -1); (119520, 119539, 1); (119540, 119551, -1);
    (119552, 119638, 2); (119639, 119647, -1); (119648, 119670, 2); (119671, 119672, 1);
    (119673, 119807, -1); (119808, 119892, 1); (119893, 119893, -1); (119894, 119964, 1);
    (119965, 119965, -1); (119966, 119967, 1); (119968, 119969, -1); (119970, 119970, 1);
    (119971, 119972, -1); (119973, 119974, 1); (119975, 119976, -1); (119977, 119980, 1);
    (119981, 119981, -1); (119982, 119993, 1); (119994, 119994, -1); (119995, 119995, 1);
    (119996, 119996, -1); (119997, 120003, 1); (120004, 120004, -1); (120005, 120069, 1);
    (120070, 120070, -1); (120071, 120074, 1); (120075, 120076, -1); (120077, 120084, 1);
    (120085, 120085, -1); (120086, 120092, 1); (120093, 120093, -1); (120094, 120121, 1);
    (120122, 120122, -1); (120123, 120126, 1); (120127, 120127, -1); (120128, 120132, 1);
    (120133, 120133, -1); (120134, 120134, 1); (120135, 120137, -1); (120138, 120144, 1);
    (120145, 120145, -1); (120146, 120485, 1); (120486, 120487, -1); (120488, 120779, 1);
    (120780, 120781, -1); (120782, 121343, 1); (121344, 121398, 0); (121399, 121402, 1);
    (121403, 121452, 0); (121453, 121460, 1); (121461, 121461, 0); (121462, 121475, 1);
    (121476, 121476, 0); (121477, 121483, 1); (121484, 121498, -1); (121499, 121503, 0);
    (121504, 121504, -1); (121505, 121519, 0); (121520, 122623, -1); (122624, 122654, 1);
    (122655, 122660, -1); (122661, 122666, 1); (122667, 122879, -1); (122880, 122886, 0);
    (122887, 122887, -1); (122888, 122904, 0); (122905, 122906, -1); (122907, 122913, 0);
    (122914, 122914, -1); (122915, 122916, 0); (122917, 122917, -1); (122918, 122922, 0);
    (122923, 122927, -1); (122928, 122989, 1); (122990, 123022, -1); (123023, 123023, 0);
    (123024, 123135, -1); (123136, 123180, 1); (123181, 123183, -1); (123184, 123190, 0);
    (123191, 123197, 1); (123198, 123199, -1); (123200, 123209, 1); (123210, 123213, -1);
    (123214, 123215, 1); (123216, 123535, -1); (123536, 123565, 1); (123566, 123566, 0);
    (123567, 123583, -1); (123584, 123627, 1); (123628, 123631, 0); (123632, 123641, 1);
    (123642, 123646, -1); (123647, 123647, 1); (123648, 124111, -1); (124112, 124139, 1);
    (124140, 124143, 0); (124144, 124153, 1); (124154, 124367, -1); (124368, 124397, 1);
    (124398, 124399, 0); (124400, 124410, 1); (124411, 124414, -1); (124415, 124415, 1);
    (124416, 124895, -1); (124896, 124902, 1); (124903, 124903, -1); (124904, 124907, 1);
    (124908, 124908, -1); (124909, 124910, 1); (124911, 124911, -1); (124912, 124926, 1);
    (124927, 124927, -1); (124928, 125124, 1); (125125, 125126, -1); (125127, 125135, 1);
    (125136, 125142, 0); (125143, 125183, -1); (125184, 125251, 1); (125252, 125258, 0);
    (125259, 125259, 1); (125260, 125263, -1); (125264, 125273, 1); (125274, 125277, -1);
    (125278, 125279, 1); (125280, 126064, -1); (126065, 126132, 1); (126133, 126208, -1);
    (126209, 126269, 1); (126270, 126463, -1); (126464, 126467, 1); (126468, 126468, -1);
    (126469, 126495, 1); (126496, 126496, -1); (126497, 126498, 1); (126499, 126499, -1);
    (126500, 126500, 1); (126501, 126502, -1); (126503, 126503, 1); (126504, 126504, -1);
    (126505, 126514, 1); (126515, 126515, -1); (126516, 126519, 1); (126520, 126520, -1);
    (126521, 126521, 1); (126522, 126522, -1); (126523, 126523, 1); (126524, 126529, -1);
    (126530, 126530, 1); (126531, 126534, -1); (126535, 126535, 1); (126536, 126536, -1);
    (126537, 126537, 1); (126538, 126538, -1); (126539, 126539, 1); (126540, 126540, -1);
    (126541, 126543, 1); (126544, 126544, -1); (126545, 126546, 1); (126547, 126547, -1);
    (126548, 126548, 1); (126549, 126550, -1); (126551, 126551, 1); (126552, 126552, -1);
    (126553, 126553, 1); (126554, 126554, -1); (126555, 126555, 1); (126556, 126556, -1);
    (126557, 126557, 1); (126558, 126558, -1); (126559, 126559, 1); (126560, 126560, -1);
    (126561, 126562, 1); (126563, 126563, -1); (126564, 126564, 1); (126565, 126566, -1);
    (126567, 126570, 1); (126571, 126571, -1); (126572, 126578, 1); (126579, 126579, -1);
    (126580, 126583, 1); (126584, 126584, -1); (126585, 126588, 1); (126589, 126589, -1);
    (126590, 126590, 1); (126591, 126591, -1); (126592, 126601, 1); (126602, 126602, -1);
    (126603, 126619, 1); (126620, 126624, -1); (126625, 126627, 1); (126628, 126628, -1);
    (126629, 126633, 1); (126634, 126634, -1); (126635, 126651, 1); (126652, 126703, -1);
    (126704, 126705, 1); (126706, 126975, -1); (126976, 126979, 1); (126980, 126980, 2);
    (126981, 127019, 1); (127020, 127023, -1); (127024, 127123, 1); (127124, 127135, -1);
    (127136, 127150, 1); (127151, 127152, -1); (127153, 127167, 1); (127168, 127168, -1);
    (127169, 127182, 1); (127183, 127183, 2); (127184, 127184, -1); (127185, 127221, 1);
    (127222, 127231, -1); (127232, 127373, 1); (127374, 127374, 2); (127375, 127376, 1);
    (127377, 127386, 2); (127387, 127405, 1); (127406, 127461, -1); (127462, 127487, 1);
    (127488, 127490, 2); (127491, 127503, -1); (127504, 127547, 2); (127548, 127551, -1);
    (127552, 127560, 2); (127561, 127567, -1); (127568, 127569, 2); (127570, 127583, -1);
    (127584, 127589, 2); (127590, 127743, -1); (127744, 127776, 2); (127777, 127788, 1);
    (127789, 127797, 2); (127798, 127798, 1); (127799, 127868, 2); (127869, 127869, 1);
    (127870, 127891, 2); (127892, 127903, 1); (127904, 127946, 2); (127947, 127950, 1);
    (127951, 127955, 2); (127956, 127967, 1); (127968, 127984, 2); (127985, 127987, 1);
    (127988, 127988, 2); (127989, 127991, 1); (127992, 128062, 2); (128063, 128063, 1);
    (128064, 128064, 2); (128065, 128065, 1); (128066, 128252, 2); (128253, 128254, 1);
    (128255, 128317, 2); (128318, 128330, 1); (128331, 128334, 2); (128335, 128335, 1);
    (128336, 128359, 2); (128360, 128377, 1); (128378, 128378, 2); (128379, 128404, 1);
    (128405, 128406, 2); (128407, 128419, 1); (128420, 128420, 2); (128421, 128506, 1);
    (128507, 128591, 2); (128592, 128639, 1); (128640, 128709, 2); (128710, 128715, 1);
    (128716, 128716, 2); (128717, 128719, 1); (128720, 128722, 2); (128723, 128724, 1);
    (128725, 128727, 2); (128728, 128731, -1); (128732, 128735, 2); (128736, 128746, 1);
    (128747, 128748, 2); (128749, 128751, -1); (128752, 128755, 1); (128756, 128764, 2);
    (128765, 128767, -1); (128768, 128886, 1); (128887, 128890, -1); (128891, 128985, 1);
    (128986, 128991, -1); (128992, 129003, 2); (129004, 129007, -1); (129008, 129008, 2);
    (129009, 129023, -1); (129024, 129035, 1); (129036, 129039, -1); (129040, 129095, 1);
    (129096, 129103, -1); (129104, 129113, 1); (129114, 129119, -1); (129120, 129159, 1);
    (129160, 129167, -1); (129168, 129197, 1); (129198, 129199, -1); (129200, 129211, 1);
    (129212, 129215, -1); (129216, 129217, 1); (129218, 129279, -1); (129280, 129291, 1);
    (129292, 129338, 2); (129339, 129339, 1); (129340, 129349, 2); (129350, 129350, 1);
    (129351, 129535, 2); (129536, 129619, 1); (129620, 129631, -1); (129632, 129645, 1);
    (129646, 129647, -1); (129648, 129660, 2); (129661, 129663, -1); (129664, 129673, 2);
    (129674, 129678, -1); (129679, 129734, 2); (129735, 129741, -1); (129742, 129756, 2);
    (129757, 129758, -1); (129759, 129769, 2); (129770, 129775, -1); (129776, 129784, 2);
    (129785, 129791, -1); (129792, 129938, 1); (129939, 129939, -1); (129940, 130041, 1);
    (130042, 131071, -1); (131072, 173791, 2); (173792, 173823, -1); (173824, 177977, 2);
    (177978, 177983, -1); (177984, 178205, 2); (178206, 178207, -1); (178208, 183969, 2);
    (183970, 183983, -1); (183984, 191456, 2); (191457, 191471, -1); (191472, 192093, 2);
    (192094, 194559, -1); (194560, 195101, 2); (195102, 196607, -1); (196608, 201546, 2);
    (201547, 201551, -1); (201552, 205743, 2); (205744, 917504, -1); (917505, 917505, 0);
    (917506, 917535, -1); (917536, 917631, 0); (917632, 917759, -1); (917760, 917999, 0);
    (918000, 983039, -1); (983040, 1048573, 1); (1048574, 1048575, -1); (1048576, 1114109, 1);
    (1114110, 1114111, -1) ].

Definition wcwidth_table : list (Z * Z * Z) :=
  wcwidth_table_1 ++ wcwidth_table_2 ++ wcwidth_table_3 ++ wcwidth_table_4 ++ wcwidth_table_5.

Definition WCWIDTH_TABLE_LENGTH : Z := 2143.
