(* ===== verification/TbText.v ===== *)
(** * life/termbox2.h: UTF-8 and character widths

    [tb_utf8_char_to_unicode] reads a byte array ([mem], at least the object
    the pointer points into): [None] is a read outside it.  [uint32_t] values
    are integers in [0, 2^32). *)

From stdpp Require Import prelude list_numbers.
From Stdlib Require Import ZArith Lia.
From S2P Require Import Prelude CLib TbTables.
Open Scope Z_scope.

(** ** UTF-8 *)

Definition tb_utf8_char_length (c : Z) : Z := default 0 (zlookup utf8_length (wrapu 8 c)).

(** [for (i = 1; i < len && c[i] != 0; ++i)]: the final [i] and [result]. *)
Fixpoint utf8_loop (fuel : nat) (mem : list Z) (i len result : Z) : option (Z * Z) :=
  if i <? len then
    match fuel with
    | O => None
    | S f =>
        match zlookup mem i with
        | None => None
        | Some b =>
            if b =? 0 then Some (i, result)
            else utf8_loop f mem (i + 1) len
                   (Z.lor (wrapu 32 (Z.shiftl result 6)) (Z.land b 63))
        end
    end
  else Some (i, result).

(** The result, and what is stored through [out]. *)
Definition tb_utf8_char_to_unicode (mem : list Z) : option (Z * option Z) :=
  match zlookup mem 0 with
  | None => None
  | Some c0 =>
      if c0 =? 0 then Some (0, None) else
      let len := tb_utf8_char_length c0 in
      match zlookup utf8_mask (len - 1) with
      | None => None
      | Some mask =>
          match utf8_loop 6 mem 1 len (Z.land c0 mask) with
          | None => None
          | Some (i, result) =>
              if negb (i =? len) then Some (i * -1, None) else Some (len, Some result)
          end
      end
  end.

(** [first] and [len] for a codepoint. *)
Definition utf8_first (c : Z) : Z * Z :=
  if c <? 128 then (0, 1)
  else if c <? 2048 then (192, 2)
  else if c <? 65536 then (224, 3)
  else if c <? 2097152 then (240, 4)
  else if c <? 67108864 then (248, 5)
  else (252, 6).

(** [for (i = len - 1; i > 0; --i)], [n] iterations left. *)
Fixpoint utf8_tail (n : nat) (c : Z) (acc : list Z) : Z * list Z :=
  match n with
  | O => (c, acc)
  | S n' => utf8_tail n' (Z.shiftr c 6) (Z.lor (Z.land c 63) 128 :: acc)
  end.

(** The bytes before the terminator; their number is the result. *)
Definition tb_utf8_unicode_to_char (c : Z) : list Z :=
  let '(first, len) := utf8_first c in
  let '(c', tail) := utf8_tail (Z.to_nat (len - 1)) c [] in
  wrapu 8 (Z.lor c' first) :: tail.

(** ** Widths *)

Definition range_start (e : Z * Z * Z) : Z := fst (fst e).
Definition range_end (e : Z * Z * Z) : Z := snd (fst e).
Definition width (e : Z * Z * Z) : Z := snd e.

(** [while (lo <= hi)]: the width of the entry that is found, [-1] when there
    is none. [None]: no fuel, or a read outside the table. *)
Fixpoint width_search (fuel : nat) (ch lo hi : Z) : option Z :=
  if lo <=? hi then
    match fuel with
    | O => None
    | S f =>
        let i := Z.quot (lo + hi) 2 in
        match zlookup wcwidth_table i with
        | None => None
        | Some e =>
            if ch <? range_start e then width_search f ch lo (i - 1)
            else if range_end e <? ch then width_search f ch (i + 1) hi
            else Some (width e)
        end
    end
  else Some (-1).

(** The result, and the width stored through [w]. *)
Definition tb_iswprint_ex (ch : Z) : option (bool * Z) :=
  if ((32 <=? ch) && (ch <=? 126)) || ((160 <=? ch) && (ch <=? 255)) then Some (true, 1)
  else if ch <=? 255 then Some (false, if ch =? 0 then 0 else -1)
  else
    match width_search 12 ch 0 (WCWIDTH_TABLE_LENGTH - 1) with
    | None => None
    | Some w => Some (0 <=? w, w)
    end.

Definition tb_iswprint (ch : Z) : option bool := fst <$> tb_iswprint_ex ch.
Definition tb_wcwidth (ch : Z) : option Z := snd <$> tb_iswprint_ex ch.

Record cluster_acc := mk_acc { wmax : Z; vs15 : Z; vs16 : Z; ri : Z; zwj : Z }.

(** The body of the loop of [tb_cluster_width]. *)
Definition cluster_step (a : cluster_acc) (c : Z) : option cluster_acc :=
  let a :=
    if c =? 65038 then mk_acc (wmax a) (vs15 a + 1) (vs16 a) (ri a) (zwj a)
    else if c =? 65039 then mk_acc (wmax a) (vs15 a) (vs16 a + 1) (ri a) (zwj a)
    else if c =? 8205 then mk_acc (wmax a) (vs15 a) (vs16 a) (ri a) (zwj a + 1)
    else if (127462 <=? c) && (c <=? 127487)
    then mk_acc (wmax a) (vs15 a) (vs16 a) (ri a + 1) (zwj a)
    else a in
  match tb_wcwidth c with
  | None => None
  | Some w =>
      Some (if wmax a <? w then mk_acc w (vs15 a) (vs16 a) (ri a) (zwj a) else a)
  end.

Definition tb_cluster_width (ch : list Z) : option Z :=
  match foldM cluster_step (mk_acc (-1) 0 0 0 0) ch with
  | None => None
  | Some a =>
      Some (if 1 <=? wmax a then
        if negb (vs15 a =? 0) then 1
        else if negb (vs16 a =? 0) || negb (zwj a =? 0) || (2 <=? ri a) then 2
        else wmax a
      else wmax a)
  end.

(** ** Specifications *)

(** The entry of the table whose range contains a codepoint, by linear search. *)
Definition in_range (ch : Z) (e : Z * Z * Z) : Prop := range_start e <= ch <= range_end e.
#[export] Instance in_range_dec ch e : Decision (in_range ch e).
Proof. unfold in_range. apply _. Defined.

Definition width_spec (ch : Z) : Z :=
  if ch =? 0 then 0
  else match list_find (in_range ch) wcwidth_table with
       | Some (_, e) => width e
       | None => -1
       end.

(** Consecutive ranges, without gaps. *)
Fixpoint contiguous (from : Z) (l : list (Z * Z * Z)) : bool :=
  match l with
  | [] => true
  | e :: l' => (range_start e =? from) && (range_start e <=? range_end e) &&
               contiguous (range_end e + 1) l'
  end.

(** ** Lemmas *)

(** *** Encoding *)

Lemma lor_low r x : 0 <= x < 64 -> Z.lor (Z.shiftl r 6) x = r * 64 + x.
Proof.
  intros Hx. pose proof (Z.add_lor_land (Z.shiftl r 6) x) as H.
  assert (Z.land (Z.shiftl r 6) x = 0) as E; [|rewrite Z.shiftl_mul_pow2 in *; lia].
  apply Z.bits_inj'. intros n Hn. rewrite Z.land_spec, Z.bits_0.
  destruct (Z.ltb_spec n 6); [by rewrite Z.shiftl_spec_low|].
  rewrite andb_false_iff. right.
  destruct (decide (x = 0)) as [->|]; [apply Z.bits_0|].
  apply Z.bits_above_log2; [lia|]. apply Z.log2_lt_pow2; [lia|].
  assert (2 ^ 6 <= 2 ^ n) by (apply Z.pow_le_mono_r; lia).
  change (2 ^ 6) with 64 in *. lia.
Qed.

Lemma land_63 c : Z.land c 63 = c mod 64.
Proof. change 63 with (Z.ones 6). by rewrite Z.land_ones. Qed.

(** A continuation byte and the six bits it carries. *)
Lemma tail_byte c :
  0 <= c -> let b := Z.lor (Z.land c 63) 128 in
  128 <= b < 192 /\ Z.land b 63 = c mod 64.
Proof.
  intros Hc. cbv zeta. rewrite land_63. pose proof (Z.mod_pos_bound c 64 ltac:(lia)) as Hm.
  assert (Z.lor (c mod 64) 128 = 2 * 64 + c mod 64) as ->.
  { rewrite Z.lor_comm. exact (lor_low 2 (c mod 64) Hm). }
  split; [lia|]. rewrite land_63, Z.add_comm, Z.mod_add, Z.mod_mod by lia. done.
Qed.

Definition tail_bytes (n : nat) (c : Z) : list Z := snd (utf8_tail n c []).

Lemma utf8_tail_acc n c acc :
  utf8_tail n c acc = (fst (utf8_tail n c []), tail_bytes n c ++ acc).
Proof.
  unfold tail_bytes. revert c acc. induction n as [|n IH]; intros c acc; [done|]. simpl.
  rewrite (IH _ (_ :: acc)), (IH _ [_]). cbn [fst snd]. by rewrite <- app_assoc.
Qed.

Lemma tail_bytes_S n c :
  tail_bytes (S n) c = tail_bytes n (Z.shiftr c 6) ++ [Z.lor (Z.land c 63) 128].
Proof. unfold tail_bytes at 1. simpl. by rewrite utf8_tail_acc. Qed.

Lemma shiftr6 c : Z.shiftr c 6 = c / 64.
Proof. by rewrite Z.shiftr_div_pow2. Qed.

Lemma utf8_tail_head n c acc : fst (utf8_tail n c acc) = c / 64 ^ Z.of_nat n.
Proof.
  revert c acc. induction n as [|n IH]; intros c acc; cbn [utf8_tail].
  - simpl. by rewrite Z.div_1_r.
  - rewrite IH, shiftr6, Z.div_div by lia. f_equal.
    rewrite Nat2Z.inj_succ, Z.pow_succ_r; lia.
Qed.

Lemma tail_bytes_length n c : length (tail_bytes n c) = n.
Proof.
  revert c. induction n as [|n IH]; intros c; [done|].
  rewrite tail_bytes_S, length_app, IH. simpl. lia.
Qed.

Lemma tail_bytes_range n c : 0 <= c -> Forall (fun b => 128 <= b < 192) (tail_bytes n c).
Proof.
  revert c. induction n as [|n IH]; intros c Hc; [constructor|].
  rewrite tail_bytes_S. apply Forall_app. split.
  - apply IH. rewrite shiftr6. by apply Z.div_pos.
  - constructor; [|done]. apply tail_byte. done.
Qed.

(** *** Decoding *)

Lemma utf8_loop_done f mem i result : utf8_loop f mem i i result = Some (i, result).
Proof. destruct f; simpl; by rewrite Z.ltb_irrefl. Qed.

(** The [k]-th continuation byte from the end. *)
Definition cont_byte (c : Z) (k : nat) : Z := Z.lor (Z.land (c / 64 ^ Z.of_nat k) 63) 128.

Lemma div_64_S c (n : nat) : c / 64 ^ Z.of_nat (S n) = c / 64 ^ Z.of_nat n / 64.
Proof.
  rewrite Z.div_div by (try apply Z.pow_pos_nonneg; lia). f_equal.
  rewrite Nat2Z.inj_succ, Z.pow_succ_r; lia.
Qed.

Lemma tail_bytes_lookup n c k :
  (k < n)%nat -> tail_bytes n c !! k = Some (cont_byte c (n - 1 - k)).
Proof.
  revert c k. induction n as [|n IH]; intros c k Hk; [lia|].
  rewrite tail_bytes_S. destruct (decide (k = n)) as [->|].
  - rewrite lookup_app_r by (rewrite tail_bytes_length; lia).
    rewrite tail_bytes_length, Nat.sub_diag. replace (S n - 1 - n)%nat with 0%nat by lia.
    unfold cont_byte. simpl. by rewrite Z.div_1_r.
  - rewrite lookup_app_l by (rewrite tail_bytes_length; lia). rewrite IH by lia.
    unfold cont_byte. rewrite shiftr6. do 3 f_equal.
    replace (S n - 1 - k)%nat with (S (n - 1 - k)) by lia.
    rewrite div_64_S, !Z.div_div by (try apply Z.pow_pos_nonneg; lia). f_equal. lia.
Qed.

(** The loop over continuation bytes [m-1 .. 0] of [c], from the bits above
    them, stops before the last [stop] of them if there is a NUL there. *)
Lemma utf8_loop_tail m f mem i c :
  0 <= c < 2 ^ 32 -> (m <= f)%nat -> 0 <= i ->
  (forall k, (k < m)%nat -> zlookup mem (i + Z.of_nat k) = Some (cont_byte c (m - 1 - k))) ->
  utf8_loop f mem i (i + Z.of_nat m) (c / 64 ^ Z.of_nat m) = Some (i + Z.of_nat m, c).
Proof.
  revert f i. induction m as [|m IH]; intros f i Hc Hf Hi Hm.
  { rewrite Z.add_0_r. simpl. rewrite Z.div_1_r. apply utf8_loop_done. }
  destruct f as [|f]; [lia|]. cbn [utf8_loop].
  rewrite (proj2 (Z.ltb_lt i (i + Z.of_nat (S m)))) by lia.
  pose proof (Hm 0%nat ltac:(lia)) as H0. rewrite Z.add_0_r in H0. rewrite H0.
  replace (S m - 1 - 0)%nat with m by lia.
  assert (0 <= c / 64 ^ Z.of_nat m < 2 ^ 32) as Hd.
  { split; [apply Z.div_pos; [lia|apply Z.pow_pos_nonneg; lia]|].
    apply Z.le_lt_trans with c; [|lia]. apply Z.div_le_upper_bound; [apply Z.pow_pos_nonneg; lia|].
    pose proof (Z.pow_pos_nonneg 64 (Z.of_nat m)). nia. }
  destruct (tail_byte (c / 64 ^ Z.of_nat m)) as [Hb Hl]; [lia|].
  unfold cont_byte. rewrite (proj2 (Z.eqb_neq _ 0)) by lia. rewrite Hl.
  rewrite div_64_S. set (q := c / 64 ^ Z.of_nat m) in *.
  pose proof (Z.div_mod q 64 ltac:(lia)) as Hdm. pose proof (Z.mod_pos_bound q 64 ltac:(lia)).
  assert (wrapu 32 (Z.shiftl (q / 64) 6) = Z.shiftl (q / 64) 6) as ->.
  { rewrite Z.shiftl_mul_pow2 by lia. change (2 ^ 6) with 64. apply wrapu_id.
    pose proof (Z.div_pos q 64). lia. }
  rewrite lor_low by done. replace (q / 64 * 64 + q mod 64) with q by lia. subst q.
  replace (i + Z.of_nat (S m)) with (i + 1 + Z.of_nat m) by lia.
  apply IH; [done|lia|lia|]. intros k Hk. replace (i + 1 + Z.of_nat k) with (i + Z.of_nat (S k)) by lia.
  rewrite Hm by lia. do 2 f_equal. lia.
Qed.

(** A NUL before the last continuation byte stops the loop there. *)
Lemma utf8_loop_nul m f mem i len r :
  i + Z.of_nat m < len -> (m < f)%nat -> 0 <= i ->
  (forall k, (k < m)%nat -> exists b, zlookup mem (i + Z.of_nat k) = Some b /\ b <> 0) ->
  zlookup mem (i + Z.of_nat m) = Some 0 ->
  exists r', utf8_loop f mem i len r = Some (i + Z.of_nat m, r').
Proof.
  revert f i r. induction m as [|m IH]; intros f i r Hl Hf Hi Hm H0;
    (destruct f as [|f]; [lia|]); cbn [utf8_loop];
    rewrite (proj2 (Z.ltb_lt i len)) by lia.
  - rewrite Z.add_0_r in H0 |- *. rewrite H0. by eexists.
  - destruct (Hm 0%nat ltac:(lia)) as (b & Hb & Hnz). rewrite Z.add_0_r in Hb.
    rewrite Hb, (proj2 (Z.eqb_neq b 0)) by done.
    replace (i + Z.of_nat (S m)) with (i + 1 + Z.of_nat m) in * by lia.
    apply IH; [lia|lia|lia| |done]. intros k Hk.
    replace (i + 1 + Z.of_nat k) with (i + Z.of_nat (S k)) by lia. apply Hm. lia.
Qed.

(** First byte, number of bytes, and the bound of the bits in the first byte. *)
Definition utf8_forms : list (Z * Z * Z) :=
  [(0, 1, 128); (192, 2, 32); (224, 3, 16); (240, 4, 8); (248, 5, 4); (252, 6, 2)].

Definition form_ok (f : Z * Z * Z) (h : Z) : bool :=
  let '(first, len, _) := f in
  let b := wrapu 8 (Z.lor h first) in
  (tb_utf8_char_length b =? len) && (0 <=? b) && (b <? 256) &&
  ((h + first =? 0) || negb (b =? 0)) &&
  match zlookup utf8_mask (len - 1) with Some m => Z.land b m =? h | None => false end.

Lemma forms_ok :
  forallb (fun f => forallb (form_ok f) (seqZ 0 (snd f))) utf8_forms = true.
Proof. vm_compute. reflexivity. Qed.

Lemma form_ok_in f h : f ∈ utf8_forms -> 0 <= h < snd f -> form_ok f h = true.
Proof.
  intros Hf Hh. pose proof forms_ok as H. rewrite forallb_forall in H.
  specialize (H f (proj1 (list_elem_of_In _ _) Hf)). rewrite forallb_forall in H.
  apply H, list_elem_of_In, elem_of_seqZ. lia.
Qed.

Lemma div_bound c p k : 0 < p -> 0 <= c < p * k -> 0 <= c / p < k.
Proof.
  intros Hp Hc. split; [apply Z.div_pos; lia|]. apply Z.div_lt_upper_bound; lia.
Qed.

Ltac form_case Hgo a b c :=
  apply (Hgo a b c); [apply list_elem_of_In; vm_compute; tauto|lia|cbn; lia].

(** The form of a codepoint: its first byte carries the top bits. *)
Lemma utf8_form c :
  0 <= c < 2 ^ 31 ->
  exists first len lim, utf8_first c = (first, len) /\ (first, len, lim) ∈ utf8_forms /\
    1 <= len <= 6 /\ 0 <= c / 64 ^ (len - 1) < lim.
Proof.
  intros Hc. change (2 ^ 31) with 2147483648 in Hc. unfold utf8_first.
  assert (forall first len lim, (first, len, lim) ∈ utf8_forms -> 1 <= len <= 6 ->
    c < 64 ^ (len - 1) * lim ->
    exists f l m, (first, len) = (f, l) /\ (f, l, m) ∈ utf8_forms /\
      1 <= l <= 6 /\ 0 <= c / 64 ^ (l - 1) < m) as Hgo.
  { intros first len lim Hin Hlen Hlt. exists first, len, lim.
    split; [done|]. split; [done|]. split; [done|].
    apply div_bound; [apply Z.pow_pos_nonneg; lia|lia]. }
  destruct (Z.ltb_spec c 128); [form_case Hgo 0 1 128|].
  destruct (Z.ltb_spec c 2048); [form_case Hgo 192 2 32|].
  destruct (Z.ltb_spec c 65536); [form_case Hgo 224 3 16|].
  destruct (Z.ltb_spec c 2097152); [form_case Hgo 240 4 8|].
  destruct (Z.ltb_spec c 67108864); [form_case Hgo 248 5 4|form_case Hgo 252 6 2].
Qed.

(** The bytes of a codepoint: the first byte, then the continuation bytes. *)
Lemma unicode_to_char_form c first len :
  utf8_first c = (first, len) -> 1 <= len <= 6 ->
  tb_utf8_unicode_to_char c =
    wrapu 8 (Z.lor (c / 64 ^ (len - 1)) first) :: tail_bytes (Z.to_nat (len - 1)) c.
Proof.
  intros Hf Hl. unfold tb_utf8_unicode_to_char. rewrite Hf.
  rewrite utf8_tail_acc, app_nil_r, utf8_tail_head. by rewrite Z2Nat.id by lia.
Qed.

Lemma cont_byte_range c k : 0 <= c -> 128 <= cont_byte c k < 192.
Proof. intros Hc. apply tail_byte, Z.div_pos; [lia|]. apply Z.pow_pos_nonneg; lia. Qed.

(** What the decoder knows after the first byte. *)
Lemma decode_first c first len lim mem :
  utf8_first c = (first, len) -> (first, len, lim) ∈ utf8_forms -> 1 <= len <= 6 ->
  0 <= c / 64 ^ (len - 1) < lim -> 0 < c ->
  zlookup mem 0 = Some (wrapu 8 (Z.lor (c / 64 ^ (len - 1)) first)) ->
  tb_utf8_char_to_unicode mem =
    match utf8_loop 6 mem 1 len (c / 64 ^ (len - 1)) with
    | None => None
    | Some (i, result) =>
        if negb (i =? len) then Some (i * -1, None) else Some (len, Some result)
    end.
Proof.
  intros Hf Hin Hl Hh Hc H0. pose proof (form_ok_in _ _ Hin Hh) as Hok.
  unfold form_ok in Hok. unfold tb_utf8_char_to_unicode. rewrite H0.
  set (b := wrapu 8 _) in *. set (h := c / _) in *. zbool.
  assert (h + first <> 0) as Hne.
  { intros E. assert (first = 0 /\ h = 0) as [-> Eh].
    { assert (0 <= first); [|lia]. unfold utf8_forms in Hin.
      apply list_elem_of_In in Hin. simpl in Hin.
      destruct Hin as [|[|[|[|[|[|[]]]]]]]; simplify_eq; lia. }
    assert (len = 1) as ->.
    { apply list_elem_of_In in Hin. simpl in Hin.
      destruct Hin as [|[|[|[|[|[|[]]]]]]]; simplify_eq; done. }
    subst h. rewrite Z.sub_diag, Z.pow_0_r, Z.div_1_r in Eh. lia. }
  match goal with H : _ || _ = true |- _ => apply orb_true_iff in H as [H|H]; zbool; [done|] end.
  rewrite (proj2 (Z.eqb_neq b 0)) by done.
  match goal with H : tb_utf8_char_length b = len |- _ => rewrite H end.
  destruct (zlookup utf8_mask (len - 1)) as [m|]; [|done]. zbool.
  by match goal with H : Z.land b m = h |- _ => rewrite H end.
Qed.

(** The bytes of [c] as the decoder meets them. *)
Lemma encoded_lookup c first len rest :
  0 <= c -> utf8_first c = (first, len) -> 1 <= len <= 6 ->
  zlookup (tb_utf8_unicode_to_char c ++ rest) 0 = Some (wrapu 8 (Z.lor (c / 64 ^ (len - 1)) first)) /\
  forall k, (k < Z.to_nat (len - 1))%nat ->
    zlookup (tb_utf8_unicode_to_char c ++ rest) (1 + Z.of_nat k) =
      Some (cont_byte c (Z.to_nat (len - 1) - 1 - k)).
Proof.
  intros Hc Hf Hl. rewrite (unicode_to_char_form _ _ _ Hf Hl). split; [done|]. intros k Hk.
  rewrite zlookup_nonneg by lia. replace (Z.to_nat (1 + Z.of_nat k)) with (S k) by lia.
  simpl. rewrite lookup_app_l by (rewrite tail_bytes_length; lia).
  by apply tail_bytes_lookup.
Qed.

Lemma length_encoded c first len :
  utf8_first c = (first, len) -> 1 <= len <= 6 ->
  Z.of_nat (length (tb_utf8_unicode_to_char c)) = len.
Proof.
  intros Hf Hl. rewrite (unicode_to_char_form _ _ _ Hf Hl). simpl.
  rewrite tail_bytes_length. lia.
Qed.

Lemma utf8_first_len c : 1 <= snd (utf8_first c) <= 6.
Proof. unfold utf8_first. repeat case_match; simpl; lia. Qed.

Lemma utf8_decode_encode c rest :
  0 < c < 2 ^ 31 ->
  tb_utf8_char_to_unicode (tb_utf8_unicode_to_char c ++ rest) =
    Some (Z.of_nat (length (tb_utf8_unicode_to_char c)), Some c).
Proof.
  intros Hc. destruct (utf8_form c) as (first & len & lim & Hf & Hin & Hl & Hh); [lia|].
  destruct (encoded_lookup c first len rest) as [H0 Hk]; [lia|done|done|].
  rewrite (decode_first _ _ _ _ _ Hf Hin Hl Hh ltac:(lia) H0).
  rewrite (length_encoded _ _ _ Hf Hl).
  pose proof (utf8_loop_tail (Z.to_nat (len - 1)) 6
    (tb_utf8_unicode_to_char c ++ rest) 1 c) as H.
  rewrite Z2Nat.id in H by lia. replace (1 + (len - 1)) with len in H by lia.
  rewrite H; [by rewrite Z.eqb_refl|lia|lia|lia|done].
Qed.

(** *** The width table *)

Lemma table_contiguous : contiguous 1 wcwidth_table = true.
Proof. vm_compute. reflexivity. Qed.

Lemma table_length : Z.of_nat (length wcwidth_table) = WCWIDTH_TABLE_LENGTH.
Proof. vm_compute. reflexivity. Qed.

Lemma contiguous_end from l i e :
  contiguous from l = true -> l !! i = Some e -> from <= range_start e <= range_end e.
Proof.
  revert from i. induction l as [|a l IH]; intros from i H Hi; [done|].
  simpl in H. zbool. destruct i as [|i]; simpl in Hi.
  - injection Hi as ->. lia.
  - pose proof (IH _ _ ltac:(done) Hi). lia.
Qed.

Lemma contiguous_lt from l i j a b :
  contiguous from l = true -> l !! i = Some a -> l !! j = Some b -> (i < j)%nat ->
  range_end a < range_start b.
Proof.
  revert from i j. induction l as [|e l IH]; intros from i j H Hi Hj Hij; [done|].
  simpl in H. zbool. destruct j as [|j]; [lia|]. destruct i as [|i]; simpl in *.
  - injection Hi as ->.
    match goal with H : contiguous _ _ = true |- _ =>
      pose proof (contiguous_end _ _ _ _ H Hj) end. lia.
  - eapply IH; [done|done|done|lia].
Qed.

(** The linear search finds the only range that contains [ch]. *)
Lemma find_unique from l i e ch :
  contiguous from l = true -> l !! i = Some e -> in_range ch e ->
  list_find (in_range ch) l = Some (i, e).
Proof.
  intros Hc Hi Hr. apply list_find_Some. split; [done|]. split; [done|].
  intros j y Hj Hlt Hy. pose proof (contiguous_lt _ _ _ _ _ _ Hc Hj Hi Hlt).
  unfold in_range in *. lia.
Qed.

(** The binary search between [lo] and [hi], when no entry outside contains [ch]. *)
Lemma width_search_spec f ch lo hi :
  0 <= lo -> lo <= hi + 1 -> hi < WCWIDTH_TABLE_LENGTH -> hi - lo + 1 < 2 ^ Z.of_nat f ->
  (forall i e, wcwidth_table !! i = Some e -> Z.of_nat i < lo -> range_end e < ch) ->
  (forall i e, wcwidth_table !! i = Some e -> hi < Z.of_nat i -> ch < range_start e) ->
  width_search f ch lo hi =
    Some (match list_find (in_range ch) wcwidth_table with
          | Some (_, e) => width e | None => -1 end).
Proof.
  revert lo hi. induction f as [|f IH]; intros lo hi Hlo Hlh Hhi Hf Hbelow Habove.
  - simpl in Hf. assert (lo = hi + 1) as -> by lia. cbn [width_search].
    rewrite (proj2 (Z.leb_gt (hi + 1) hi)) by lia. f_equal.
    destruct (list_find _ _) as [[i e]|] eqn:E; [|done].
    apply list_find_Some in E as (Hi & Hr & _). unfold in_range in Hr.
    destruct (Z.lt_ge_cases (Z.of_nat i) (hi + 1)).
    + pose proof (Hbelow i e Hi). lia.
    + pose proof (Habove i e Hi). lia.
  - cbn [width_search]. destruct (Z.leb_spec lo hi).
    + assert (Z.quot (lo + hi) 2 = (lo + hi) / 2) as -> by (apply Z.quot_div_nonneg; lia).
      pose proof (Z.div_mod (lo + hi) 2 ltac:(lia)).
      pose proof (Z.mod_pos_bound (lo + hi) 2 ltac:(lia)).
      set (m := (lo + hi) / 2) in *.
      rewrite Nat2Z.inj_succ, Z.pow_succ_r in Hf by lia.
      destruct (zlookup_is_Some wcwidth_table m) as [e He]; [rewrite table_length; lia|].
      rewrite He. rewrite zlookup_nonneg in He by lia.
      pose proof table_contiguous as Hct.
      pose proof (contiguous_end _ _ _ _ Hct He).
      destruct (Z.ltb_spec ch (range_start e)); [|destruct (Z.ltb_spec (range_end e) ch)].
      * apply IH; [lia|lia|lia|lia|done|]. intros i a Hi Hmi.
        destruct (decide (i = Z.to_nat m)) as [->|]; [rewrite He in Hi; by simplify_eq|].
        pose proof (contiguous_lt _ _ (Z.to_nat m) i _ _ Hct He Hi ltac:(lia)).
        lia.
      * apply IH; [lia|lia|lia|lia| |done]. intros i a Hi Hmi.
        destruct (decide (i = Z.to_nat m)) as [->|]; [rewrite He in Hi; by simplify_eq|].
        pose proof (contiguous_lt _ _ i (Z.to_nat m) _ _ Hct Hi He ltac:(lia)).
        lia.
      * erewrite find_unique; [done|exact Hct|exact He|]. unfold in_range. lia.
    + f_equal. destruct (list_find _ _) as [[i e]|] eqn:E; [|done].
      apply list_find_Some in E as (Hi & Hr & _). unfold in_range in Hr.
      destruct (Z.lt_ge_cases (Z.of_nat i) lo).
      * pose proof (Hbelow i e Hi). lia.
      * pose proof (Habove i e Hi). lia.
Qed.

Lemma width_search_total ch :
  width_search 12 ch 0 (WCWIDTH_TABLE_LENGTH - 1) =
    Some (match list_find (in_range ch) wcwidth_table with
          | Some (_, e) => width e | None => -1 end).
Proof.
  apply width_search_spec; [lia| | | | |].
  - vm_compute. discriminate.
  - lia.
  - vm_compute. reflexivity.
  - lia.
  - intros i e Hi Hlt. apply lookup_lt_Some in Hi. pose proof table_length. lia.
Qed.

(** The fast path agrees with the table. *)
Lemma fast_path :
  forallb (fun ch => let w := width_spec ch in
    if ((32 <=? ch) && (ch <=? 126)) || ((160 <=? ch) && (ch <=? 255)) then w =? 1
    else w =? (if ch =? 0 then 0 else -1)) (seqZ 0 256) = true.
Proof. vm_compute. reflexivity. Qed.

Lemma iswprint_ex_spec ch :
  0 <= ch -> tb_iswprint_ex ch = Some ((0 <=? width_spec ch) && negb (ch =? 0), width_spec ch).
Proof.
  intros Hch. unfold tb_iswprint_ex. destruct (Z.le_gt_cases ch 255) as [Hle|Hgt].
  - pose proof fast_path as H0. rewrite forallb_forall in H0.
    specialize (H0 ch (proj1 (list_elem_of_In _ _) (proj2 (elem_of_seqZ 0 256 ch) ltac:(lia)))).
    cbv zeta in H0. destruct (_ || _) eqn:E; zbool; rewrite H0.
    + assert (ch <> 0) by (intros ->; done). by rewrite (proj2 (Z.eqb_neq ch 0)).
    + rewrite (proj2 (Z.leb_le ch 255)) by done. by destruct (ch =? 0).
  - rewrite width_search_total.
    assert (((32 <=? ch) && (ch <=? 126)) || ((160 <=? ch) && (ch <=? 255)) = false) as E
      by (zcases; simpl; try done; lia).
    rewrite E, (proj2 (Z.leb_gt ch 255)) by lia.
    unfold width_spec. rewrite (proj2 (Z.eqb_neq ch 0)) by lia.
    by rewrite andb_true_r.
Qed.

Lemma wcwidth_spec ch : 0 <= ch -> tb_wcwidth ch = Some (width_spec ch).
Proof. intros H. unfold tb_wcwidth. by rewrite iswprint_ex_spec. Qed.

Lemma widths_bounded : forallb (fun e => (-1 <=? width e) && (width e <=? 2)) wcwidth_table = true.
Proof. vm_compute. reflexivity. Qed.

Lemma width_spec_range ch : -1 <= width_spec ch <= 2.
Proof.
  unfold width_spec. case_match; [lia|]. destruct (list_find _ _) as [[i e]|] eqn:E; [|lia].
  apply list_find_Some in E as (Hi & _). pose proof widths_bounded as H0.
  rewrite forallb_forall in H0.
  specialize (H0 e (proj1 (list_elem_of_In _ _) (list_elem_of_lookup_2 _ _ _ Hi))). zbool. lia.
Qed.

(** *** Clusters *)

(** What the loop of [tb_cluster_width] has counted. *)
Definition count (P : Z -> bool) (l : list Z) : Z := Z.of_nat (length (filter (fun c => P c = true) l)).
Definition max_width (l : list Z) : Z := foldl (fun m c => Z.max m (width_spec c)) (-1) l.
Definition is_ri (c : Z) : bool := (127462 <=? c) && (c <=? 127487).

Definition cluster_counts (l : list Z) : cluster_acc :=
  mk_acc (max_width l) (count (Z.eqb 65038) l) (count (Z.eqb 65039) l) (count is_ri l)
    (count (Z.eqb 8205) l).

Lemma count_snoc P l c : count P (l ++ [c]) = count P l + if P c then 1 else 0.
Proof.
  unfold count. rewrite filter_app, length_app, filter_cons, filter_nil.
  destruct (P c); [rewrite decide_True by done|rewrite decide_False by done]; simpl; lia.
Qed.

Lemma max_width_snoc l c : max_width (l ++ [c]) = Z.max (max_width l) (width_spec c).
Proof. unfold max_width. by rewrite foldl_app. Qed.

Lemma max_width_range l : -1 <= max_width l <= 2.
Proof.
  induction l as [|c l IH] using rev_ind; [done|].
  rewrite max_width_snoc. pose proof (width_spec_range c). lia.
Qed.

Lemma cluster_fold l :
  Forall (fun c => 0 <= c) l ->
  foldM cluster_step (mk_acc (-1) 0 0 0 0) l = Some (cluster_counts l).
Proof.
  induction l as [|c l IH] using rev_ind; intros H; [done|].
  apply Forall_app in H as [Hl Hc]. rewrite Forall_singleton in Hc.
  rewrite foldM_app, IH by done. cbn [foldM]. unfold cluster_step.
  rewrite wcwidth_spec by exact Hc. unfold cluster_counts.
  rewrite max_width_snoc, !count_snoc. unfold is_ri.
  rewrite (Z.eqb_sym 65038), (Z.eqb_sym 65039), (Z.eqb_sym 8205).
  assert (forall m, (if m <? width_spec c then width_spec c else m) = Z.max m (width_spec c)) as Hmax
    by (intros m; destruct (Z.ltb_spec m (width_spec c)); lia).
  rewrite <- Hmax. clear Hmax. generalize (width_spec c). intros w.
  destruct (Z.eqb_spec c 65038) as [E|]; [rewrite E|destruct (Z.eqb_spec c 65039) as [E|];
    [rewrite E|destruct (Z.eqb_spec c 8205) as [E|];
      [rewrite E|destruct ((127462 <=? c) && (c <=? 127487))]]];
    cbn [wmax vs15 vs16 ri zwj]; case_match; cbn; rewrite ?Z.add_0_r; done.
Qed.

(** The bytes of a codepoint decode to it whatever follows, and a prefix of
    them that ends early is recognised as truncated. *)
Lemma utf8_truncated c k rest :
  0 < c < 2 ^ 31 -> 0 < k < Z.of_nat (length (tb_utf8_unicode_to_char c)) ->
  tb_utf8_char_to_unicode (take (Z.to_nat k) (tb_utf8_unicode_to_char c) ++ 0 :: rest) =
    Some (- k, None).
Proof.
  intros Hc Hk. destruct (utf8_form c) as (first & len & lim & Hf & Hin & Hl & Hh); [lia|].
  rewrite (length_encoded _ _ _ Hf Hl) in Hk.
  pose proof (encoded_lookup c first len [] ltac:(lia) Hf Hl) as [H0 Hcb].
  rewrite app_nil_r in H0, Hcb.
  pose proof (length_encoded _ _ _ Hf Hl) as Hlen.
  set (e := tb_utf8_unicode_to_char c) in *. set (mem := take (Z.to_nat k) e ++ 0 :: rest).
  assert (forall i, 0 <= i < k -> zlookup mem i = zlookup e i) as Hm.
  { intros i Hi. rewrite !zlookup_nonneg by lia. subst mem.
    rewrite lookup_app_l by (rewrite length_take; lia). apply lookup_take_lt. lia. }
  assert (zlookup mem k = Some 0) as Hz.
  { rewrite zlookup_nonneg by lia. subst mem.
    rewrite lookup_app_r by (rewrite length_take; lia).
    rewrite length_take, Nat.min_l, Nat.sub_diag by lia. done. }
  rewrite (decode_first _ _ _ lim _ Hf Hin Hl Hh) by (lia || by rewrite Hm by lia).
  destruct (utf8_loop_nul (Z.to_nat (k - 1)) 6 mem 1 len (c / 64 ^ (len - 1))) as (r & Hr);
    [lia|lia|lia| |by replace (1 + Z.of_nat (Z.to_nat (k - 1))) with k by lia|].
  - intros j Hj. eexists. split; [rewrite Hm by lia; apply Hcb; lia|].
    pose proof (cont_byte_range c (Z.to_nat (len - 1) - 1 - j) ltac:(lia)). lia.
  - rewrite Hr. replace (1 + Z.of_nat (Z.to_nat (k - 1))) with k by lia.
    rewrite (proj2 (Z.eqb_neq k len)) by lia. simpl. do 2 f_equal. lia.
Qed.

(** The first byte of an encoding tells its length, and only codepoints below
    128 have a first byte below 192. *)
Lemma forms_high :
  forallb (fun f => forallb (fun h => (snd (fst f) =? 1) || (192 <=? wrapu 8 (Z.lor h (fst (fst f)))))
    (seqZ 0 (snd f))) utf8_forms = true.
Proof. vm_compute. reflexivity. Qed.

Lemma utf8_head c :
  0 < c < 2 ^ 31 ->
  exists b t, tb_utf8_unicode_to_char c = b :: t /\ 0 <= b < 256 /\
    tb_utf8_char_length b = Z.of_nat (length (tb_utf8_unicode_to_char c)) /\
    (c < 128 -> b = c) /\ (128 <= c -> 192 <= b).
Proof.
  intros Hc. destruct (utf8_form c) as (first & len & lim & Hf & Hin & Hl & Hh); [lia|].
  rewrite (length_encoded c first len Hf Hl), (unicode_to_char_form c first len Hf Hl).
  pose proof (form_ok_in _ _ Hin Hh) as Hok. unfold form_ok in Hok.
  pose proof forms_high as Hhigh. rewrite forallb_forall in Hhigh.
  specialize (Hhigh _ (proj1 (list_elem_of_In _ _) Hin)). cbn [fst snd] in Hhigh.
  rewrite forallb_forall in Hhigh.
  assert (c / 64 ^ (len - 1) ∈ seqZ 0 lim) as Hs by (apply elem_of_seqZ; lia).
  specialize (Hhigh _ (proj1 (list_elem_of_In _ _) Hs)).
  eexists _, _. split; [reflexivity|]. zbool. split; [lia|]. split; [lia|].
  unfold utf8_first in Hf. split.
  - intros Hlt. rewrite (proj2 (Z.ltb_lt c 128)) in Hf by lia. injection Hf as <- <-.
    rewrite Z.lor_0_r. change (64 ^ (1 - 1)) with 1. rewrite Z.div_1_r. apply wrapu_id. simpl. lia.
  - intros Hge. apply orb_true_iff in Hhigh as [E|E]; zbool; [|done].
    rewrite (proj2 (Z.ltb_ge c 128)) in Hf by lia. exfalso. repeat case_match; injection Hf as <- <-; lia.
Qed.

(** *** Decoding any string *)

(** [mem] holds a string of [n] bytes. *)
Definition nul_at (mem : list Z) (n : nat) : Prop :=
  mem !! n = Some 0 /\ forall j, (j < n)%nat -> exists b, mem !! j = Some b /\ b <> 0.

Lemma nul_at_drop mem n k : nul_at mem n -> (k <= n)%nat -> nul_at (drop k mem) (n - k).
Proof.
  intros [H0 Hn] Hk. split; [rewrite lookup_drop; by replace (k + (n - k))%nat with n by lia|].
  intros j Hj. rewrite lookup_drop. apply Hn. lia.
Qed.

Lemma nul_at_app s rest : Forall (fun b => b <> 0) s -> nul_at (s ++ 0 :: rest) (length s).
Proof.
  intros Hs. split; [by rewrite list_lookup_middle|]. intros j Hj.
  destruct (lookup_lt_is_Some_2 s j Hj) as [b Eb]. exists b.
  split; [by apply lookup_app_l_Some|]. rewrite Forall_lookup in Hs. by eapply Hs.
Qed.

Lemma utf8_loop_total f mem i len r (n : nat) :
  nul_at mem n -> 0 <= i <= Z.of_nat n -> len - i <= Z.of_nat f -> 0 <= r ->
  exists i' r', utf8_loop f mem i len r = Some (i', r') /\ i <= i' <= Z.of_nat n /\ 0 <= r'.
Proof.
  intros [H0 Hn]. revert i r. induction f as [|f IH]; intros i r Hi Hl Hr; cbn [utf8_loop].
  - rewrite (proj2 (Z.ltb_ge i len)) by lia. exists i, r. split; [done|lia].
  - destruct (Z.ltb_spec i len); [|exists i, r; split; [done|lia]].
    rewrite zlookup_nonneg by lia.
    destruct (decide (i = Z.of_nat n)) as [->|].
    + rewrite Nat2Z.id, H0. exists (Z.of_nat n), r. split; [done|lia].
    + destruct (Hn (Z.to_nat i)) as (b & -> & Hb); [lia|]. rewrite (proj2 (Z.eqb_neq b 0)) by done.
      destruct (IH (i + 1) (Z.lor (wrapu 32 (Z.shiftl r 6)) (Z.land b 63))) as (i' & r' & E & Hi' & Hr');
        [lia|lia| |exists i', r'; split; [done|lia]].
      apply Z.lor_nonneg. split; [apply wrapu_range; lia|apply Z.land_nonneg; lia].
Qed.

Lemma utf8_length_range c : 1 <= tb_utf8_char_length c <= 6.
Proof.
  unfold tb_utf8_char_length. pose proof (wrapu_range 8 c ltac:(lia)) as Hc.
  assert (forallb (fun n => (1 <=? n) && (n <=? 6)) utf8_length = true) as Hf by (vm_compute; done).
  rewrite forallb_forall in Hf.
  destruct (zlookup_is_Some utf8_length (wrapu 8 c)) as [n En]; [exact Hc|]. rewrite En. simpl.
  rewrite zlookup_nonneg in En by lia. apply list_elem_of_lookup_2, list_elem_of_In in En.
  specialize (Hf _ En). zbool. lia.
Qed.

(** Decoding never leaves the string and always advances. *)
Lemma utf8_decode_total mem n :
  nul_at mem n -> (0 < n)%nat ->
  exists rv o, tb_utf8_char_to_unicode mem = Some (rv, o) /\ rv <> 0 /\ Z.abs rv <= Z.of_nat n /\
    (0 < rv -> exists u, o = Some u /\ 0 <= u).
Proof.
  intros Hnul Hn. unfold tb_utf8_char_to_unicode. pose proof (proj2 Hnul 0%nat Hn) as (c0 & E0 & Hc0).
  change (zlookup mem 0) with (mem !! 0%nat). rewrite E0, (proj2 (Z.eqb_neq c0 0)) by done.
  pose proof (utf8_length_range c0) as Hlen. set (len := tb_utf8_char_length c0) in *. clearbody len.
  destruct (zlookup_is_Some utf8_mask (len - 1)) as [mask Em]; [simpl; lia|]. rewrite Em.
  assert (0 <= mask) as Hm.
  { assert (forallb (fun m => 0 <=? m) utf8_mask = true) as Hf by (vm_compute; done).
    rewrite forallb_forall in Hf. rewrite zlookup_nonneg in Em by lia.
    apply list_elem_of_lookup_2, list_elem_of_In in Em. specialize (Hf _ Em). lia. }
  destruct (utf8_loop_total 6 mem 1 len (Z.land c0 mask) n Hnul) as (i & r & -> & Hi & Hr);
    [lia|lia|apply Z.land_nonneg; lia|].
  destruct (Z.eqb_spec i len) as [->|Hne]; cbn [negb].
  - exists len, (Some r). split; [done|]. split; [lia|]. split; [lia|]. intros _. by exists r.
  - exists (i * -1), None. split; [done|]. split; [lia|]. split; [lia|]. lia.
Qed.

(** ** Properties *)

(** C30: encoding a codepoint and decoding it gives it back, and consumes
    exactly the bytes of the encoding, for every codepoint below 2^31; a string
    that ends inside the encoding is reported as truncated, with the number of
    bytes it had. *)
Theorem utf8_roundtrip c rest :
  0 < c < 2 ^ 31 ->
  let e := tb_utf8_unicode_to_char c in
  Forall (fun b => 0 < b < 256) e /\ 1 <= Z.of_nat (length e) <= 6 /\
  tb_utf8_char_to_unicode (e ++ rest) = Some (Z.of_nat (length e), Some c) /\
  forall k, 0 < k < Z.of_nat (length e) ->
    tb_utf8_char_to_unicode (take (Z.to_nat k) e ++ 0 :: rest) = Some (- k, None).
Proof.
  intros Hc. cbv zeta.
  destruct (utf8_form c) as (first & len & lim & Hf & Hin & Hl & Hh); [lia|].
  split; [|split; [by rewrite (length_encoded _ _ _ Hf Hl)|
    split; [by apply utf8_decode_encode|intros k; by apply utf8_truncated]]].
  rewrite (unicode_to_char_form _ _ _ Hf Hl). constructor.
  - pose proof (wrapu_range 8 (Z.lor (c / 64 ^ (len - 1)) first) ltac:(lia)) as Hr.
    pose proof (utf8_decode_encode c [] Hc) as Hd.
    rewrite (unicode_to_char_form _ _ _ Hf Hl) in Hd. set (b := wrapu 8 _) in *.
    destruct (Z.eq_dec b 0) as [E|]; [|change (2 ^ 8) with 256 in Hr; lia].
    rewrite E in Hd. discriminate Hd.
  - eapply Forall_impl; [apply tail_bytes_range; lia|]. simpl. lia.
Qed.

Lemma utf8_roundtrip_witness :
  let e := tb_utf8_unicode_to_char 8364 in
  Forall (fun b => 0 < b < 256) e /\ 1 <= Z.of_nat (length e) <= 6 /\
  tb_utf8_char_to_unicode (e ++ [65]) = Some (Z.of_nat (length e), Some 8364) /\
  forall k, 0 < k < Z.of_nat (length e) ->
    tb_utf8_char_to_unicode (take (Z.to_nat k) e ++ 0 :: [65]) = Some (- k, None).
Proof. apply (utf8_roundtrip 8364 [65]). lia. Defined.

(** The binary search of [tb_iswprint_ex] stays inside its table, ends, and
    finds what a linear search of the ranges finds; the fast path for one-byte
    codepoints agrees with the table; every width is between -1 and 2. *)
Theorem width_search_correct ch :
  0 <= ch < 2 ^ 32 ->
  tb_iswprint_ex ch = Some ((0 <=? width_spec ch) && negb (ch =? 0), width_spec ch) /\
  -1 <= width_spec ch <= 2.
Proof. intros H. split; [apply iswprint_ex_spec; lia|apply width_spec_range]. Qed.

Lemma width_search_correct_witness :
  tb_iswprint_ex 12354 = Some ((0 <=? width_spec 12354) && negb (12354 =? 0), width_spec 12354) /\
  -1 <= width_spec 12354 <= 2.
Proof. apply (width_search_correct 12354). lia. Defined.

(** The width of a cluster is the largest width in it, except that a text
    presentation selector (VS15) makes a visible cluster one column and, without
    it, an emoji selector, a joiner or two regional indicators make it two. *)
Theorem cluster_width_correct l :
  Forall (fun c => 0 <= c) l ->
  tb_cluster_width l = Some (
    if max_width l <? 1 then max_width l
    else if bool_decide (65038 ∈ l) then 1
    else if bool_decide (65039 ∈ l) || bool_decide (8205 ∈ l) || (2 <=? count is_ri l) then 2
    else max_width l) /\ -1 <= max_width l <= 2.
Proof.
  intros Hl. unfold tb_cluster_width. rewrite cluster_fold by done.
  assert (forall c, (count (Z.eqb c) l =? 0) = negb (bool_decide (c ∈ l))) as Hin.
  { intros c. unfold count. case_bool_decide as Hc; cbn [negb].
    - apply Z.eqb_neq. intros E. assert (filter (fun x => (c =? x) = true) l = []) as En.
      { apply length_zero_iff_nil. lia. }
      assert (c ∈ filter (fun x => (c =? x) = true) l) as H.
      { apply list_elem_of_filter. split; [by rewrite Z.eqb_refl|done]. }
      rewrite En in H. by apply not_elem_of_nil in H.
    - destruct (filter _ l) as [|x t] eqn:E; [done|].
      assert (x ∈ filter (fun x => (c =? x) = true) l) as H by (rewrite E; by left).
      apply list_elem_of_filter in H as [Hx Hin]. zbool. congruence. }
  split.
  - unfold cluster_counts. cbn [wmax vs15 vs16 ri zwj]. rewrite !Hin, !negb_involutive.
    zcases; try lia; done.
  - apply max_width_range.
Qed.

Lemma cluster_width_correct_witness :
  tb_cluster_width [128104; 8205; 128105] = Some (
    if max_width [128104; 8205; 128105] <? 1 then max_width [128104; 8205; 128105]
    else if bool_decide (65038 ∈ [128104; 8205; 128105]) then 1
    else if bool_decide (65039 ∈ [128104; 8205; 128105]) ||
            bool_decide (8205 ∈ [128104; 8205; 128105]) ||
            (2 <=? count is_ri [128104; 8205; 128105]) then 2
    else max_width [128104; 8205; 128105]) /\ -1 <= max_width [128104; 8205; 128105] <= 2.
Proof. apply (cluster_width_correct [128104; 8205; 128105]). repeat constructor; lia. Defined.
