(* ===== verification/TbBuf.v ===== *)
(** * life/termbox2.h: byte buffers, cells and cell buffers

    A pointer to heap memory is an [option] of its contents, [None] for NULL.
    Each function that writes through a pointer to a structure returns the new
    structure with its [int] result.  Indeterminate bytes are zero in the model;
    no function reads them. *)

From stdpp Require Import prelude list_numbers.
From Stdlib Require Import ZArith Lia.
From S2P Require Import Prelude CLib Posix.
Open Scope Z_scope.

(** ** Results *)

Definition TB_OK : Z := 0.
Definition TB_ERR : Z := -1.
Definition TB_ERR_NEED_MORE : Z := -2.
Definition TB_ERR_INIT_ALREADY : Z := -3.
Definition TB_ERR_INIT_OPEN : Z := -4.
Definition TB_ERR_MEM : Z := -5.
Definition TB_ERR_NO_EVENT : Z := -6.
Definition TB_ERR_NO_TERM : Z := -7.
Definition TB_ERR_NOT_INIT : Z := -8.
Definition TB_ERR_OUT_OF_BOUNDS : Z := -9.
Definition TB_ERR_READ : Z := -10.
Definition TB_ERR_RESIZE_IOCTL : Z := -11.
Definition TB_ERR_RESIZE_PIPE : Z := -12.
Definition TB_ERR_RESIZE_SIGACTION : Z := -13.
Definition TB_ERR_POLL : Z := -14.
Definition TB_ERR_TCGETATTR : Z := -15.
Definition TB_ERR_TCSETATTR : Z := -16.
Definition TB_ERR_UNSUPPORTED_TERM : Z := -17.
Definition TB_ERR_RESIZE_WRITE : Z := -18.
Definition TB_ERR_RESIZE_POLL : Z := -19.
Definition TB_ERR_RESIZE_READ : Z := -20.
Definition TB_ERR_RESIZE_SSCANF : Z := -21.
Definition TB_ERR_CAP_COLLISION : Z := -22.

(** ** Compile-time options *)

Inductive attr_width := W16 | W32 | W64.

(** [TB_OPT_EGC] and [TB_OPT_ATTR_W]; the built-in width functions are used
    ([TB_OPT_LIBC_WCHAR] unset). *)
Class config := { egc : bool; attr_w : attr_width }.

Definition attr_bits `{config} : Z :=
  match attr_w with W16 => 16 | W32 => 32 | W64 => 64 end.

(** [sizeof (struct tb_cell)] *)
Definition cell_size `{config} : Z :=
  match attr_w, egc with
  | W16, false => 8 | W32, false => 12 | W64, false => 24
  | W16, true => 32 | W32, true => 40 | W64, true => 48
  end.

(** ** Memory *)

(** [malloc]/[realloc] of [n] bytes; sizes above [PTRDIFF_MAX] always fail. *)
Definition PTRDIFF_MAX : Z := 2 ^ 63 - 1.
Definition tb_malloc (n : Z) : M sys bool :=
  if PTRDIFF_MAX <? n then ret false else sys_alloc.

(** [memcpy (mem + off, bs, length bs)] *)
Definition mem_write {A} (mem : list A) (off : Z) (bs : list A) : option (list A) :=
  if (0 <=? off) && (off + Z.of_nat (length bs) <=? Z.of_nat (length mem))
  then Some (take (Z.to_nat off) mem ++ bs ++ drop (Z.to_nat off + length bs) mem)
  else None.

(** A loop whose body returns an [int]: it stops at the first result that is
    not [TB_OK] and returns it. *)
Fixpoint loop_err {W S I} (f : I -> S -> M W (Z * S)) (l : list I) (s : S) : M W (Z * S) :=
  match l with
  | [] => ret (TB_OK, s)
  | i :: l' =>
      let* ' (rv, s) := f i s in
      if rv =? TB_OK then loop_err f l' s else ret (rv, s)
  end.

(** ** Byte buffers *)

Record bytebuf := mk_bytebuf { bb_buf : option (list Z); bb_len : Z; bb_cap : Z }.
Definition bytebuf_zero : bytebuf := mk_bytebuf None 0 0.

(** [while (newcap < sz) newcap *= 2;]: without fuel it would not end. *)
Fixpoint grow (fuel : nat) (newcap sz : Z) : option Z :=
  if newcap <? sz then
    match fuel with O => None | S f => grow f (wrapu 64 (newcap * 2)) sz end
  else Some newcap.

Definition bytebuf_reserve (b : bytebuf) (sz : Z) : M sys (Z * bytebuf) :=
  if sz <=? bb_cap b then ret (TB_OK, b) else
  match grow 64 (if 0 <? bb_cap b then bb_cap b else 1) sz with
  | None => blocked
  | Some newcap =>
      let* ok := tb_malloc newcap in
      if ok : bool then
        let old := default [] (bb_buf b) in
        ret (TB_OK, mk_bytebuf
          (Some (take (Z.to_nat newcap) old ++ replicate (Z.to_nat newcap - length old) 0))
          (bb_len b) newcap)
      else ret (TB_ERR_MEM, b)
  end.

Definition bytebuf_nputs (b : bytebuf) (str : list Z) : M sys (Z * bytebuf) :=
  let nstr := Z.of_nat (length str) in
  let* ' (rv, b) := bytebuf_reserve b (wrapu 64 (bb_len b + nstr + 1)) in
  if negb (rv =? TB_OK) then ret (rv, b) else
  let* mem := deref (bb_buf b) in
  let* mem := deref (mem_write mem (bb_len b) str) in
  let len := wrapu 64 (bb_len b + nstr) in
  let* mem := deref (zupdate mem len 0) in
  ret (TB_OK, mk_bytebuf (Some mem) len (bb_cap b)).

Definition bytebuf_puts (b : bytebuf) (str : option (list Z)) : M sys (Z * bytebuf) :=
  match str with
  | None => ret (TB_OK, b)
  | Some s =>
      if Z.of_nat (length (cstr s)) <=? 0 then ret (TB_OK, b) else bytebuf_nputs b (cstr s)
  end.

Definition bytebuf_shift (b : bytebuf) (n : Z) : M sys bytebuf :=
  let n := if bb_len b <? n then bb_len b else n in
  let nmove := bb_len b - n in
  match bb_buf b with
  | None => if nmove =? 0 then ret (mk_bytebuf None (bb_len b - n) (bb_cap b)) else fault
  | Some mem =>
      let moved := take (Z.to_nat nmove) (drop (Z.to_nat n) mem) in
      let* mem := deref (if Z.of_nat (length moved) =? nmove then mem_write mem 0 moved else None) in
      ret (mk_bytebuf (Some mem) (bb_len b - n) (bb_cap b))
  end.

(** The result, the buffer, and what is stored in [global.last_errno]. *)
Definition bytebuf_flush (b : bytebuf) : M sys (Z * bytebuf * option Z) :=
  if bb_len b <=? 0 then ret (TB_OK, b, None) else
  let* mem := deref (bb_buf b) in
  let* write_rv := sys_write (take (Z.to_nat (bb_len b)) mem) in
  if (write_rv <? 0) || negb (write_rv =? bb_len b) then
    let* e := sys_errno in ret (TB_ERR, b, Some e)
  else ret (TB_OK, mk_bytebuf (bb_buf b) 0 (bb_cap b), None).

Definition bytebuf_free (b : bytebuf) : bytebuf := bytebuf_zero.

(** ** Cells *)

(** The last three fields exist when [TB_OPT_EGC] is set. *)
Record tb_cell := mk_cell {
  ch : Z;
  fg : Z;
  bg : Z;
  ech : option (list Z);
  nech : Z;
  cech : Z
}.
Definition cell_zero : tb_cell := mk_cell 0 0 0 None 0 0.

Section Cells.
Context `{config}.

Definition cell_reserve_ech (cell : tb_cell) (n : Z) : M sys (Z * tb_cell) :=
  if negb egc then ret (TB_ERR, cell) else
  if n <=? cech cell then ret (TB_OK, cell) else
  let* ok := tb_malloc (n * 4) in
  if ok : bool then
    let old := default [] (ech cell) in
    ret (TB_OK, mk_cell (ch cell) (fg cell) (bg cell)
      (Some (take (Z.to_nat n) old ++ replicate (Z.to_nat n - length old) 0)) (nech cell) n)
  else ret (TB_ERR_MEM, mk_cell (ch cell) (fg cell) (bg cell) None (nech cell) (cech cell)).

(** [c] is the array the pointer [ch] points into, [None] for NULL. *)
Definition cell_set (cell : tb_cell) (c : option (list Z)) (nch fg bg : Z) : M sys (Z * tb_cell) :=
  let* c0 := match c with None => ret 0 | Some l => deref (l !! 0%nat) end in
  let cell := mk_cell c0 fg bg (ech cell) (nech cell) (cech cell) in
  if negb egc then ret (TB_OK, cell) else
  if nch <=? 1 then ret (TB_OK, mk_cell c0 fg bg (ech cell) 0 (cech cell)) else
  let* ' (rv, cell) := cell_reserve_ech cell (nch + 1) in
  if negb (rv =? TB_OK) then ret (rv, cell) else
  let* src := deref c in
  let bs := take (Z.to_nat nch) src in
  let* mem := deref (if Z.of_nat (length bs) =? nch then ech cell else None) in
  let* mem := deref (mem_write mem 0 bs) in
  let* mem := deref (zupdate mem nch 0) in
  ret (TB_OK, mk_cell c0 fg bg (Some mem) nch (cech cell)).

Definition cell_copy (dst src : tb_cell) : M sys (Z * tb_cell) :=
  if egc && (0 <? nech src) then cell_set dst (ech src) (nech src) (fg src) (bg src)
  else cell_set dst (Some [ch src]) 1 (fg src) (bg src).

(** Non-zero when the cells differ (the sign of [memcmp] is not used). *)
Definition cell_cmp (a b : tb_cell) : option Z :=
  if negb (ch a =? ch b) || negb (fg a =? fg b) || negb (bg a =? bg b) then Some 1 else
  if negb egc then Some 0 else
  if negb (nech a =? nech b) then Some 1
  else if 0 <? nech a then
    match ech a, ech b with
    | Some ea, Some eb =>
        let n := Z.to_nat (nech a) in
        if (n <=? length ea)%nat && (n <=? length eb)%nat
        then Some (if bool_decide (take n ea = take n eb) then 0 else 1)
        else None
    | _, _ => None
    end
  else Some 0.

Definition cell_free (cell : tb_cell) : tb_cell := cell_zero.

(** ** Cell buffers *)

Record cellbuf := mk_cellbuf { cb_width : Z; cb_height : Z; cells : option (list tb_cell) }.
Definition cellbuf_zero : cellbuf := mk_cellbuf 0 0 None.

(** The size of the allocation is computed in [size_t]. *)
Definition cellbuf_init (c : cellbuf) (w h : Z) : M sys (Z * cellbuf) :=
  let size := wrapu 64 (cell_size * w * h) in
  let* ok := tb_malloc size in
  if ok : bool
  then ret (TB_OK, mk_cellbuf w h (Some (replicate (Z.to_nat (size / cell_size)) cell_zero)))
  else ret (TB_ERR_MEM, mk_cellbuf (cb_width c) (cb_height c) None).

Definition cellbuf_free (c : cellbuf) : M sys cellbuf :=
  match cells c with
  | None => ret cellbuf_zero
  | Some l =>
      let* n := deref (imul (cb_width c) (cb_height c)) in
      if n <=? Z.of_nat (length l) then ret cellbuf_zero else fault
  end.

(** One iteration of [cellbuf_clear]. *)
Definition clear_cell (gfg gbg i : Z) (l : list tb_cell) : M sys (Z * list tb_cell) :=
  let* cell := deref (zlookup l i) in
  let* ' (rv, cell) := cell_set cell (Some [32]) 1 gfg gbg in
  let* l := deref (zupdate l i cell) in
  ret (rv, l).

(** [gfg] and [gbg] are [global.fg] and [global.bg]. *)
Definition cellbuf_clear (gfg gbg : Z) (c : cellbuf) : M sys (Z * cellbuf) :=
  let* n := deref (imul (cb_width c) (cb_height c)) in
  if n <=? 0 then ret (TB_OK, c) else
  let* l := deref (cells c) in
  let* ' (rv, l) := loop_err (clear_cell gfg gbg) (seqZ 0 n) l in
  ret (rv, mk_cellbuf (cb_width c) (cb_height c) (Some l)).

Definition cellbuf_in_bounds (c : cellbuf) (x y : Z) : bool :=
  negb ((x <? 0) || (cb_width c <=? x) || (y <? 0) || (cb_height c <=? y)).

(** The result, and the index of the cell [*out] points to. *)
Definition cellbuf_get (c : cellbuf) (x y : Z) : Z * option Z :=
  if negb (cellbuf_in_bounds c x y) then (TB_ERR_OUT_OF_BOUNDS, None)
  else (TB_OK, Some (y * cb_width c + x)).

(** One iteration of the copy in [cellbuf_resize]. *)
Definition resize_cell (prev : list tb_cell) (ow x y : Z) (c : cellbuf) : M sys (Z * cellbuf) :=
  let* src := deref (zlookup prev (y * ow + x)) in
  match cellbuf_get c x y with
  | (rv, None) => ret (rv, c)
  | (rv, Some i) =>
      let* l := deref (cells c) in
      let* dst := deref (zlookup l i) in
      let* ' (rv, dst) := cell_copy dst src in
      let* l := deref (zupdate l i dst) in
      ret (rv, mk_cellbuf (cb_width c) (cb_height c) (Some l))
  end.

Definition cellbuf_resize (gfg gbg : Z) (c : cellbuf) (w h : Z) : M sys (Z * cellbuf) :=
  let ow := cb_width c in
  let oh := cb_height c in
  if (ow =? w) && (oh =? h) then ret (TB_OK, c) else
  let w := if w <? 1 then 1 else w in
  let h := if h <? 1 then 1 else h in
  let minw := if w <? ow then w else ow in
  let minh := if h <? oh then h else oh in
  let prev := cells c in
  let* ' (rv, c) := cellbuf_init c w h in
  if negb (rv =? TB_OK) then ret (rv, c) else
  let* ' (rv, c) := cellbuf_clear gfg gbg c in
  if negb (rv =? TB_OK) then ret (rv, c) else
  let* ' (rv, c) := loop_err (fun x => loop_err (fun y c =>
      let* p := deref prev in resize_cell p ow x y c) (seqZ 0 minh)) (seqZ 0 minw) c in
  if negb (rv =? TB_OK) then ret (rv, c) else
  cellbuf_free (mk_cellbuf ow oh prev) ;;;
  ret (TB_OK, c).

End Cells.

(** ** Specifications *)

(** The contents of a byte buffer, and when its fields are consistent. *)
Definition bb_bytes (b : bytebuf) : list Z := take (Z.to_nat (bb_len b)) (default [] (bb_buf b)).

Definition bb_wf (b : bytebuf) : Prop :=
  match bb_buf b with
  | None => bb_len b = 0 /\ bb_cap b = 0
  | Some m => Z.of_nat (length m) = bb_cap b /\ 0 <= bb_len b <= bb_cap b /\
              0 < bb_cap b <= PTRDIFF_MAX
  end.

(** The queue of bytes a buffer implements. *)
Inductive bb_op := Put (bs : list Z) | Shift (n : Z).

Definition queue_op (q : list Z) (o : bb_op) : list Z :=
  match o with Put bs => q ++ bs | Shift n => drop (Z.to_nat n) q end.

Definition bb_run_op (o : bb_op) (b : bytebuf) : M sys (Z * bytebuf) :=
  match o with
  | Put bs => bytebuf_nputs b bs
  | Shift n => let* b := bytebuf_shift b n in ret (TB_OK, b)
  end.

Definition op_size (o : bb_op) : Z := match o with Put bs => Z.of_nat (length bs) | Shift _ => 0 end.
Definition op_ok (o : bb_op) : Prop := match o with Put _ => True | Shift n => 0 <= n end.

(** ** Lemmas *)

(** *** Growing *)

Lemma grow_spec f c sz :
  0 < c -> 0 < sz <= PTRDIFF_MAX -> sz <= c * 2 ^ Z.of_nat f ->
  exists n, grow f c sz = Some n /\ sz <= n /\ (n = c \/ n < 2 * sz) /\ c <= n.
Proof.
  revert c. induction f as [|f IH]; intros c Hc Hsz Hf; cbn [grow].
  - rewrite (proj2 (Z.ltb_ge c sz)) by lia. exists c. split; [done|lia].
  - destruct (Z.ltb_spec c sz).
    + rewrite wrapu_id by (unfold PTRDIFF_MAX in *; change (2 ^ 64) with (2 * 2 ^ 63); lia).
      rewrite Nat2Z.inj_succ, Z.pow_succ_r in Hf by lia.
      destruct (IH (c * 2)) as (n & E & Hn & Hc2 & Hcn); [lia|done|lia|].
      exists n. split; [done|]. lia.
    + exists c. split; [done|lia].
Qed.

(** Allocation never faults, and only succeeds for sizes that fit. *)
Lemma tb_malloc_ret n s :
  exists ok s', tb_malloc n s = (Ret ok, s') /\ (ok = true -> n <= PTRDIFF_MAX) /\
    (s_alloc s = [] -> n <= PTRDIFF_MAX -> ok = true /\ s' = s).
Proof.
  unfold tb_malloc. destruct (Z.ltb_spec PTRDIFF_MAX n); [exists false, s; split; [done|lia]|].
  unfold sys_alloc. destruct (s_alloc s) as [|b t] eqn:E; [by exists true, s|].
  by exists b, (set_alloc t s).
Qed.

Lemma bb_bytes_length b : bb_wf b -> Z.of_nat (length (bb_bytes b)) = bb_len b.
Proof.
  unfold bb_wf, bb_bytes. destruct (bb_buf b) as [m|]; simpl; [|intros [-> _]; by destruct (Z.to_nat 0)].
  intros (Hl & Hn & _). rewrite length_take. lia.
Qed.

Lemma bytebuf_reserve_spec b sz s :
  bb_wf b -> 0 < sz <= PTRDIFF_MAX ->
  exists rv b' s', bytebuf_reserve b sz s = (Ret (rv, b'), s') /\
    (rv = TB_OK /\ bb_wf b' /\ bb_bytes b' = bb_bytes b /\ bb_len b' = bb_len b /\
       sz <= bb_cap b' /\ bb_cap b <= bb_cap b' /\ is_Some (bb_buf b') \/
     rv = TB_ERR_MEM /\ b' = b) /\
    (s_alloc s = [] -> 2 * sz <= PTRDIFF_MAX -> rv = TB_OK /\ s' = s).
Proof.
  intros Hw Hsz. unfold bytebuf_reserve. destruct (Z.leb_spec sz (bb_cap b)).
  - exists TB_OK, b, s. split; [done|]. split; [|done]. left. split; [done|].
    split; [done|]. split; [done|]. split; [done|]. split; [done|]. split; [done|].
    unfold bb_wf in Hw. destruct (bb_buf b); [by eexists|lia].
  - assert (0 <= bb_cap b <= PTRDIFF_MAX) as Hcap.
    { unfold bb_wf in Hw. destruct (bb_buf b); [lia|]. unfold PTRDIFF_MAX. lia. }
    destruct (grow_spec 64 (if 0 <? bb_cap b then bb_cap b else 1) sz)
      as (n & -> & Hn1 & Hn2 & Hn3); [case_match; lia|done| |].
    { unfold PTRDIFF_MAX in *. change (2 ^ 63) with 9223372036854775808 in *.
      change (2 ^ Z.of_nat 64) with 18446744073709551616. case_match; zbool; lia. }
    destruct (tb_malloc_ret n s) as (ok & s' & E & Hok & Hnil).
    mrun E. destruct ok.
    + specialize (Hok eq_refl). eexists _, _, s'. split; [done|]. split.
      * left. split; [done|].
        set (old := default [] (bb_buf b)).
        assert (Z.of_nat (length old) <= n /\ bb_len b <= Z.of_nat (length old)) as [Ho Hl].
        { subst old. unfold bb_wf in Hw. destruct (bb_buf b); simpl; [|lia].
          revert Hn3. case_match; zbool; lia. }
        assert (0 <= bb_len b) as H0 by (unfold bb_wf in Hw; destruct (bb_buf b); lia).
        split; [|split; [|split; [done|split; [done|split; [|by eexists]]]]].
        -- unfold bb_wf. cbn [bb_buf bb_len bb_cap].
           rewrite length_app, length_take, length_replicate. lia.
        -- unfold bb_bytes. cbn [bb_buf bb_len from_option]. unfold id. fold old.
           rewrite (take_ge old (Z.to_nat n)) by lia. by rewrite take_app_le by lia.
        -- cbn [bb_cap]. revert Hn3. case_match; zbool; lia.
      * intros Ha H2. assert (n <= PTRDIFF_MAX) by lia. destruct (Hnil Ha ltac:(done)) as [_ ->]. done.
    + eexists _, _, s'. split; [done|]. split; [by right|].
      intros Ha H2. assert (n <= PTRDIFF_MAX) as Hle.
      { revert Hn2. case_match; zbool; lia. }
      by destruct (Hnil Ha Hle).
Qed.

Lemma mem_write_spec {A} (mem : list A) off bs :
  0 <= off -> off + Z.of_nat (length bs) <= Z.of_nat (length mem) ->
  exists mem', mem_write mem off bs = Some mem' /\ length mem' = length mem /\
    take (Z.to_nat off + length bs) mem' = take (Z.to_nat off) mem ++ bs.
Proof.
  intros Ho Hl. unfold mem_write.
  rewrite (proj2 (Z.leb_le 0 off)), (proj2 (Z.leb_le _ _)) by lia. simpl.
  eexists. split; [done|]. split.
  - rewrite !length_app, length_take, length_drop. lia.
  - rewrite app_assoc. rewrite take_app_le by (rewrite length_app, length_take; lia).
    apply take_ge. rewrite length_app, length_take. lia.
Qed.

(** *** The buffer as a queue *)

Lemma nputs_spec b bs s :
  bb_wf b -> bb_len b + Z.of_nat (length bs) + 1 <= PTRDIFF_MAX ->
  exists rv b' s', bytebuf_nputs b bs s = (Ret (rv, b'), s') /\
    (rv = TB_OK /\ bb_wf b' /\ bb_bytes b' = bb_bytes b ++ bs \/ rv = TB_ERR_MEM /\ b' = b) /\
    (s_alloc s = [] -> 2 * (bb_len b + Z.of_nat (length bs) + 1) <= PTRDIFF_MAX ->
       rv = TB_OK /\ s' = s).
Proof.
  intros Hw Hl. unfold bytebuf_nputs.
  assert (0 <= bb_len b) as H0 by (pose proof (bb_bytes_length b Hw); lia).
  rewrite (wrapu_id 64 (bb_len b + _ + 1)) by (unfold PTRDIFF_MAX in Hl;
    change (2 ^ 64) with (2 * 2 ^ 63); lia).
  destruct (bytebuf_reserve_spec b (bb_len b + Z.of_nat (length bs) + 1) s Hw ltac:(lia))
    as (rv & b1 & s1 & E & Hcase & Hnil). mrun E.
  destruct Hcase as [(-> & Hw1 & Hb1 & Hlen1 & Hcap & _ & [mem Hmem])|[-> ->]].
  - rewrite Z.eqb_refl. cbn [negb].
    rewrite Hmem. mrun (eq_refl : deref (Some mem) s1 = (Ret mem, s1)).
    pose proof Hw1 as Hw1'. unfold bb_wf in Hw1'. rewrite Hmem in Hw1'.
    destruct (mem_write_spec mem (bb_len b1) bs) as (mem1 & E1 & Hl1 & Ht1); [lia|lia|].
    rewrite E1. mrun (eq_refl : deref (Some mem1) s1 = (Ret mem1, s1)).
    rewrite wrapu_id by (unfold PTRDIFF_MAX in Hl; change (2 ^ 64) with (2 * 2 ^ 63); lia).
    rewrite zupdate_range by lia.
    match goal with |- context [bind (deref (Some ?m)) _ s1] =>
      mrun (eq_refl : deref (Some m) s1 = (Ret m, s1)) end.
    eexists _, _, s1. split; [done|]. split.
    + left. split; [done|]. split.
      * unfold bb_wf. cbn [bb_buf bb_len bb_cap]. rewrite length_insert. lia.
      * unfold bb_bytes at 1. cbn [bb_buf bb_len from_option]. unfold id.
        rewrite take_insert_ge by lia.
        replace (Z.to_nat (bb_len b1 + Z.of_nat (length bs)))
          with (Z.to_nat (bb_len b1) + length bs)%nat by lia.
        rewrite Ht1. rewrite <- Hb1. unfold bb_bytes. by rewrite Hmem.
    + intros Ha H2. by destruct (Hnil Ha H2).
  - change (negb (TB_ERR_MEM =? TB_OK)) with true. cbv iota.
    eexists _, _, s1. split; [done|]. split; [by right|]. intros Ha H2. by destruct (Hnil Ha H2).
Qed.

Lemma shift_spec b n s :
  bb_wf b -> 0 <= n ->
  exists b', bytebuf_shift b n s = (Ret b', s) /\ bb_wf b' /\
    bb_bytes b' = drop (Z.to_nat n) (bb_bytes b).
Proof.
  intros Hw Hn. pose proof (bb_bytes_length b Hw) as Hlen. unfold bytebuf_shift.
  set (k := if bb_len b <? n then bb_len b else n).
  assert (0 <= k <= bb_len b /\ drop (Z.to_nat k) (bb_bytes b) = drop (Z.to_nat n) (bb_bytes b))
    as [Hk Hd].
  { subst k. destruct (Z.ltb_spec (bb_len b) n); [|split; [lia|done]].
    split; [lia|]. by rewrite !drop_ge by lia. }
  rewrite <- Hd. clear Hd. unfold bb_wf in Hw. unfold bb_bytes in *.
  destruct (bb_buf b) as [mem|] eqn:Eb; cbn [from_option] in *; unfold id in *.
  - destruct Hw as (Hm & Hl & Hc).
    rewrite length_take, length_drop, Nat.min_l, Z2Nat.id, Z.eqb_refl by lia.
    set (moved := take (Z.to_nat (bb_len b - k)) (drop (Z.to_nat k) mem)).
    assert (length moved = Z.to_nat (bb_len b - k)) as Hml
      by (subst moved; rewrite length_take, length_drop; lia).
    destruct (mem_write_spec mem 0 moved) as (m' & -> & Hm' & Ht); [lia|lia|].
    mrun (eq_refl : deref (Some m') s = (Ret m', s)).
    eexists. split; [done|]. cbn [bb_buf bb_len bb_cap from_option]. unfold id.
    split; [unfold bb_wf; cbn [bb_buf bb_len bb_cap]; lia|].
    rewrite <- Hml. change (take (length moved) m' = moved) in Ht.
    rewrite Ht. subst moved. rewrite skipn_firstn_comm. f_equal. lia.
  - destruct Hw as [Hl Hc]. rewrite Hl in *. assert (k = 0) as -> by lia.
    exists (mk_bytebuf None (0 - 0) (bb_cap b)). split; [done|]. split; [|done].
    unfold bb_wf. simpl. done.
Qed.

Lemma flush_spec b s :
  bb_wf b ->
  exists rv b' e s', bytebuf_flush b s = (Ret (rv, b', e), s') /\ bb_wf b' /\
    (rv = TB_OK /\ bb_bytes b' = [] /\ s_out s' = s_out s ++ bb_bytes b \/
     rv = TB_ERR /\ b' = b) /\
    (s_write s = [] -> rv = TB_OK /\ e = None /\ s' = set_out (s_out s ++ bb_bytes b) s).
Proof.
  intros Hw. pose proof (bb_bytes_length b Hw) as Hlen. unfold bytebuf_flush.
  destruct (Z.leb_spec (bb_len b) 0).
  - assert (bb_bytes b = []) as Hb by (apply length_zero_iff_nil; lia).
    exists TB_OK, b, None, s. rewrite Hb, app_nil_r. split; [done|]. split; [done|].
    split; [by left|]. intros _. split; [done|]. split; [done|]. by destruct s.
  - unfold bb_wf in Hw. destruct (bb_buf b) as [m|] eqn:Eb; [|lia].
    mrun (eq_refl : deref (Some m) s = (Ret m, s)).
    assert (take (Z.to_nat (bb_len b)) m = bb_bytes b) as -> by (unfold bb_bytes; by rewrite Eb).
    unfold bind at 1, sys_write. destruct (s_write s) as [|ev t] eqn:Ews.
    + rewrite Hlen, Z.eqb_refl. cbn [negb]. rewrite (proj2 (Z.ltb_ge (bb_len b) 0)) by lia.
      cbn [orb]. eexists _, _, _, _. split; [done|].
      split; [unfold bb_wf; cbn [bb_buf bb_len bb_cap]; lia|]. split; [|done].
      left. split; [done|]. split; [|done]. unfold bb_bytes. simpl. apply take_0.
    + destruct ev as [e|n]; [|set (k := Z.max 0 (Z.min n (Z.of_nat (length (bb_bytes b)))))];
        cbn [fst snd].
      * cbn [Z.ltb Z.compare orb]. eexists _, _, _, _. split; [done|].
        split; [unfold bb_wf; by rewrite Eb|]. split; [by right|done].
      * rewrite (proj2 (Z.ltb_ge k 0)) by lia. cbn [orb].
        destruct (Z.eqb_spec k (bb_len b)) as [Ek|]; cbn [negb].
        -- eexists _, _, _, _. split; [done|].
           split; [unfold bb_wf; cbn [bb_buf bb_len bb_cap]; lia|]. split; [|done].
           left. split; [done|]. split; [unfold bb_bytes; simpl; apply take_0|].
           cbn [s_out set_out]. by rewrite take_ge by lia.
        -- eexists _, _, _, _. split; [done|].
           split; [unfold bb_wf; by rewrite Eb|]. split; [by right|done].
Qed.

Lemma wf_zero : bb_wf bytebuf_zero.
Proof. done. Qed.

(** A run of operations, as long as they succeed. *)
Fixpoint bb_run (ops : list bb_op) (b : bytebuf) : M sys (Z * bytebuf) :=
  match ops with
  | [] => ret (TB_OK, b)
  | o :: ops' =>
      let* ' (rv, b) := bb_run_op o b in
      if rv =? TB_OK then bb_run ops' b else ret (rv, b)
  end.

Definition ops_size (ops : list bb_op) : Z := sumZ (op_size <$> ops).

Lemma op_size_nonneg o : 0 <= op_size o.
Proof. destruct o; simpl; lia. Qed.

Lemma ops_size_nonneg ops : 0 <= ops_size ops.
Proof.
  induction ops as [|o ops IH]; [done|].
  change (0 <= op_size o + ops_size ops). pose proof (op_size_nonneg o). lia.
Qed.

Lemma bb_run_refines ops b s :
  bb_wf b -> Forall op_ok ops -> bb_len b + ops_size ops + 1 <= PTRDIFF_MAX ->
  exists rv b' s', bb_run ops b s = (Ret (rv, b'), s') /\ bb_wf b' /\
    (rv = TB_OK /\ bb_bytes b' = foldl queue_op (bb_bytes b) ops \/
     rv = TB_ERR_MEM /\ exists done_ todo, ops = done_ ++ todo /\
       bb_bytes b' = foldl queue_op (bb_bytes b) done_).
Proof.
  intros Hw Ho. revert b s Hw. induction Ho as [|o ops Hop Ho IH]; intros b s Hw Hsz.
  { exists TB_OK, b, s. split; [done|]. split; [done|]. by left. }
  pose proof (bb_bytes_length b Hw) as Hlen. pose proof (ops_size_nonneg ops).
  assert (ops_size (o :: ops) = op_size o + ops_size ops) as Es by done.
  assert (forall b1, bb_bytes b1 = queue_op (bb_bytes b) o -> bb_wf b1 ->
    bb_len b1 <= bb_len b + op_size o) as Hgrow.
  { intros b1 E Hw1. rewrite <- (bb_bytes_length b1 Hw1), E. destruct o; simpl.
    - rewrite length_app. lia.
    - rewrite length_drop. lia. }
  assert (exists rv b1 s1, bb_run_op o b s = (Ret (rv, b1), s1) /\
    (rv = TB_OK /\ bb_wf b1 /\ bb_bytes b1 = queue_op (bb_bytes b) o \/ rv = TB_ERR_MEM /\ b1 = b))
    as (rv & b1 & s1 & E & Hc).
  { destruct o as [bs|n]; simpl.
    - destruct (nputs_spec b bs s Hw) as (rv & b1 & s1 & E & Hc & _); [simpl in *; lia|].
      by exists rv, b1, s1.
    - destruct (shift_spec b n s Hw Hop) as (b1 & E & Hw1 & Hb1). rewrite (bind_ret _ _ _ _ _ E).
      exists TB_OK, b1, s. split; [done|]. by left. }
  cbn [bb_run]. mrun E. destruct Hc as [(-> & Hw1 & Hb1)|[-> ->]].
  - rewrite Z.eqb_refl. pose proof (Hgrow b1 Hb1 Hw1).
    destruct (IH b1 s1 Hw1) as (rv & b2 & s2 & E2 & Hw2 & Hc2); [lia|].
    exists rv, b2, s2. split; [done|]. split; [done|]. simpl. rewrite <- Hb1.
    destruct Hc2 as [Hc2|(-> & d & t & -> & Hd)]; [by left|right].
    split; [done|]. exists (o :: d), t. split; [done|]. simpl. by rewrite <- Hb1.
  - change (TB_ERR_MEM =? TB_OK) with false. exists TB_ERR_MEM, b, s1.
    split; [done|]. split; [done|]. right. split; [done|]. by exists [], (o :: ops).
Qed.

(** *** Loops that do not fail *)

Lemma loop_err_app {W S I} (f : I -> S -> M W (Z * S)) l1 l2 st w :
  loop_err f (l1 ++ l2) st w =
    bind (loop_err f l1 st) (fun r =>
      match r with (rv, st) => if rv =? TB_OK then loop_err f l2 st else ret (rv, st) end) w.
Proof.
  revert st w. induction l1 as [|i l1 IH]; intros st w; [done|]. cbn [app loop_err].
  rewrite bind_assoc. destruct (f i st w) as [[[rv st1]|c| |] w1] eqn:E.
  - rewrite !(bind_ret _ _ _ _ _ E). destruct (rv =? TB_OK) eqn:Er; [apply IH|].
    unfold bind, ret. by rewrite Er.
  - by rewrite !(bind_exit _ _ _ _ _ E).
  - by rewrite !(bind_blocked _ _ _ _ E).
  - unfold bind. by rewrite E.
Qed.

Lemma loop_seqZ {W S} (f : Z -> S -> M W (Z * S)) (P : Z -> S -> Prop) n st w :
  P 0 st ->
  (forall i st, 0 <= i < n -> P i st ->
     exists st', f i st w = (Ret (TB_OK, st'), w) /\ P (i + 1) st') ->
  exists st', loop_err f (seqZ 0 n) st w = (Ret (TB_OK, st'), w) /\ P (Z.max 0 n) st'.
Proof.
  intros H0 Hs. destruct (Z.leb_spec n 0).
  { rewrite seqZ_nil by done. exists st. by rewrite Z.max_l by lia. }
  rewrite Z.max_r by lia.
  assert (forall k : nat, Z.of_nat k <= n ->
    exists st', loop_err f (seqZ 0 (Z.of_nat k)) st w = (Ret (TB_OK, st'), w) /\ P (Z.of_nat k) st')
    as Hk.
  { induction k as [|k IH]; intros Hk; [by exists st|].
    destruct IH as (st1 & E1 & P1); [lia|].
    destruct (Hs (Z.of_nat k) st1) as (st2 & E2 & P2); [lia|done|].
    exists st2. rewrite seqZ_S, loop_err_app. mrun E1. rewrite Z.eqb_refl.
    cbn [loop_err]. rewrite Z.add_0_l. mrun E2. rewrite Z.eqb_refl. split; [done|].
    by replace (Z.of_nat (Datatypes.S k)) with (Z.of_nat k + 1) by lia. }
  destruct (Hk (Z.to_nat n)) as (st' & E & HP); [lia|]. rewrite Z2Nat.id in E, HP by lia.
  by exists st'.
Qed.

(** *** Cells *)

Section CellLemmas.
Context `{config}.

(** The cluster a cell stands for, when it is not just [ch]. *)
Definition cell_cluster (c : tb_cell) : list Z :=
  if 0 <? nech c then take (Z.to_nat (nech c)) (default [] (ech c)) else [].

(** What a cell shows. *)
Definition cell_view (c : tb_cell) : Z * Z * Z * list Z := (ch c, fg c, bg c, cell_cluster c).

Definition cell_wf (c : tb_cell) : Prop :=
  match ech c with
  | None => cech c = 0 /\ nech c = 0
  | Some m => Z.of_nat (length m) = cech c /\
      (nech c = 0 \/ egc = true /\ 2 <= nech c < cech c /\ m !! 0%nat = Some (ch c))
  end.

(** The cluster fits in an allocation. *)
Definition cell_small (c : tb_cell) : Prop := (nech c + 1) * 4 <= PTRDIFF_MAX.

Lemma cell_wf_zero : cell_wf cell_zero.
Proof. done. Qed.

Lemma cell_set_1 cell c f b s :
  cell_wf cell ->
  exists cell', cell_set cell (Some [c]) 1 f b s = (Ret (TB_OK, cell'), s) /\
    cell_wf cell' /\ cell_view cell' = (c, f, b, []) /\ nech cell' = 0.
Proof.
  intros Hw. unfold cell_set.
  mrun (eq_refl : deref (Some c) s = (Ret c, s)).
  assert (cell_wf (mk_cell c f b (ech cell) 0 (cech cell))) as Hw'.
  { unfold cell_wf in *. cbn [ech nech cech ch]. destruct (ech cell); intuition. }
  destruct egc eqn:Eg; cbn [negb].
  - eexists. split; [done|]. done.
  - assert (nech cell = 0) as En.
    { unfold cell_wf in Hw. rewrite Eg in Hw. destruct (ech cell); [|lia].
      destruct Hw as [_ [?|[? _]]]; done. }
    eexists. split; [done|]. rewrite En. done.
Qed.

(** The memory of a cell has its recorded size. *)
Definition cell_mem (c : tb_cell) : Prop := Z.of_nat (length (default [] (ech c))) = cech c.

Lemma cell_wf_mem c : cell_wf c -> cell_mem c.
Proof. unfold cell_wf, cell_mem. destruct (ech c); simpl; lia. Qed.

Lemma cell_reserve_spec cell n s :
  cell_mem cell -> egc = true -> s_alloc s = [] -> 3 <= n ->
  n * 4 <= PTRDIFF_MAX ->
  exists m, cell_reserve_ech cell n s =
    (Ret (TB_OK, mk_cell (ch cell) (fg cell) (bg cell) (Some m) (nech cell) (Z.of_nat (length m))), s) /\
    n <= Z.of_nat (length m) /\
    take (Z.to_nat (cech cell)) m = default [] (ech cell).
Proof.
  intros Hw Eg Ha H3 Hsz. unfold cell_reserve_ech. rewrite Eg. cbn [negb].
  unfold cell_mem in Hw. destruct (Z.leb_spec n (cech cell)).
  - destruct (ech cell) as [m|] eqn:Ee; simpl in Hw; [|lia]. exists m.
    rewrite Hw, <- Ee. split; [by destruct cell|]. split; [done|].
    rewrite Ee. simpl. by rewrite take_ge by lia.
  - destruct (tb_malloc_ret (n * 4) s) as (ok & s' & E & _ & Hok).
    destruct (Hok Ha ltac:(done)) as [-> ->]. mrun E.
    set (old := default [] (ech cell)).
    fold old in Hw.
    set (m := take (Z.to_nat n) old ++ replicate (Z.to_nat n - length old) 0).
    assert (Z.of_nat (length m) = n) as Hm.
    { subst m. rewrite length_app, length_take, length_replicate. lia. }
    exists m. rewrite Hm. split; [done|]. split; [lia|]. subst m.
    rewrite (take_ge old (Z.to_nat n)) by lia. rewrite take_app_le by lia. apply take_ge. lia.
Qed.

Lemma cell_set_cluster cell l nch f b s :
  cell_wf cell -> egc = true -> s_alloc s = [] -> 2 <= nch <= Z.of_nat (length l) ->
  (nch + 1) * 4 <= PTRDIFF_MAX ->
  exists cell', cell_set cell (Some l) nch f b s = (Ret (TB_OK, cell'), s) /\
    cell_wf cell' /\ nech cell' = nch /\
    Some (cell_view cell') = (fun c => (c, f, b, take (Z.to_nat nch) l)) <$> l !! 0%nat.
Proof.
  intros Hw Eg Ha Hn Hsz. destruct l as [|c l]; [simpl in Hn; lia|].
  unfold cell_set. mrun (eq_refl : deref (Some c) s = (Ret c, s)). rewrite Eg. cbn [negb].
  rewrite (proj2 (Z.leb_gt nch 1)) by lia.
  destruct (cell_reserve_spec (mk_cell c f b (ech cell) (nech cell) (cech cell)) (nch + 1) s
    (cell_wf_mem cell Hw) Eg Ha ltac:(lia) Hsz) as (m & E1 & Hm & _).
  cbn [ch fg bg nech cech ech] in E1.
  mrun E1. change (TB_OK =? TB_OK) with true. cbn [negb].
  mrun (eq_refl : deref (Some (c :: l)) s = (Ret (c :: l), s)).
  rewrite length_take, Nat.min_l, Z2Nat.id, Z.eqb_refl by lia. cbn [ech].
  mrun (eq_refl : deref (Some m) s = (Ret m, s)).
  destruct (mem_write_spec m 0 (take (Z.to_nat nch) (c :: l))) as (m1 & -> & Hl1 & Ht1);
    [lia|rewrite length_take; lia|].
  mrun (eq_refl : deref (Some m1) s = (Ret m1, s)).
  rewrite zupdate_range by lia.
  match goal with |- context [bind (deref (Some ?x)) _ s] =>
    mrun (eq_refl : deref (Some x) s = (Ret x, s)) end.
  rewrite length_take, Nat.min_l in Ht1 by lia.
  change (take (Z.to_nat nch) m1 = take (Z.to_nat nch) (c :: l)) in Ht1.
  assert (take (Z.to_nat nch) (<[Z.to_nat nch:=0]> m1) = take (Z.to_nat nch) (c :: l)) as Ht
    by (by rewrite take_insert_ge by lia).
  eexists. split; [done|]. split; [|split; [done|]].
  - unfold cell_wf. cbn [ech nech cech ch]. rewrite length_insert, Hl1. split; [done|].
    right. split; [done|]. split; [lia|].
    assert (take (Z.to_nat nch) (<[Z.to_nat nch:=0]> m1) !! 0%nat = Some c) as H0.
    { rewrite Ht. rewrite lookup_take_lt by lia. done. }
    by rewrite lookup_take_lt in H0 by lia.
  - simpl. unfold cell_view, cell_cluster. cbn [ech nech cech ch fg bg from_option]. unfold id.
    rewrite (proj2 (Z.ltb_lt 0 nch)) by lia. by rewrite Ht.
Qed.

Lemma cell_copy_spec dst src s :
  cell_wf dst -> cell_wf src -> cell_small src -> s_alloc s = [] ->
  exists dst', cell_copy dst src s = (Ret (TB_OK, dst'), s) /\ cell_wf dst' /\
    nech dst' = nech src /\ cell_view dst' = cell_view src.
Proof.
  intros Hd Hs Hsm Ha. unfold cell_copy. unfold cell_wf in Hs.
  destruct (Z.ltb_spec 0 (nech src)).
  - destruct (ech src) as [m|] eqn:Ee; [|lia]. destruct Hs as [Hl [?|(Eg & Hn & Hh)]]; [lia|].
    rewrite Eg. cbn [andb].
    destruct (cell_set_cluster dst m (nech src) (fg src) (bg src) s Hd Eg Ha) as (c & E & Hw & Hn' & Hv);
      [lia|done|].
    exists c. split; [done|]. split; [done|]. split; [done|]. rewrite Hh in Hv. simpl in Hv.
    apply (inj Some) in Hv. rewrite Hv. unfold cell_view, cell_cluster.
    by rewrite (proj2 (Z.ltb_lt 0 (nech src))), Ee by lia.
  - rewrite andb_false_r. assert (nech src = 0) as En by (destruct (ech src); lia).
    destruct (cell_set_1 dst (ch src) (fg src) (bg src) s Hd) as (c & E & Hw & Hv & Hn').
    exists c. split; [done|]. split; [done|]. split; [congruence|]. rewrite Hv.
    unfold cell_view, cell_cluster. by rewrite (proj2 (Z.ltb_ge 0 (nech src))) by lia.
Qed.

(** [cell_cmp] tells whether two cells show the same. *)
Lemma cell_cmp_spec a b :
  cell_wf a -> cell_wf b ->
  exists r, cell_cmp a b = Some r /\ (r = 0 <-> cell_view a = cell_view b).
Proof.
  intros Ha Hb. unfold cell_cmp, cell_view.
  destruct (Z.eqb_spec (ch a) (ch b)), (Z.eqb_spec (fg a) (fg b)), (Z.eqb_spec (bg a) (bg b));
    cbn [negb orb]; try (exists 1; split; [done|]; split; [done|congruence]).
  assert (forall c, cell_wf c -> 0 <= nech c /\ (0 < nech c -> egc = true /\ exists m, ech c = Some m /\
    nech c < Z.of_nat (length m))) as Hw.
  { intros c. unfold cell_wf. destruct (ech c) as [m|]; [|lia].
    intros [Hl [->|(-> & Hn & _)]]; [lia|]. split; [lia|]. intros _. split; [done|].
    exists m. split; [done|lia]. }
  destruct (Hw a Ha) as [Ha0 Ha1], (Hw b Hb) as [Hb0 Hb1]. clear Hw.
  assert (Z.of_nat (length (cell_cluster a)) = nech a /\
          Z.of_nat (length (cell_cluster b)) = nech b) as [La Lb].
  { assert (forall c, 0 <= nech c -> (0 < nech c -> egc = true /\ exists m, ech c = Some m /\
      nech c < Z.of_nat (length m)) -> Z.of_nat (length (cell_cluster c)) = nech c) as HL.
    { intros c H0 H1. unfold cell_cluster. destruct (Z.ltb_spec 0 (nech c)).
      - destruct H1 as (_ & m & -> & Hm); [done|]. simpl. rewrite length_take. lia.
      - simpl. lia. }
    auto. }
  destruct egc eqn:Eg; cbn [negb].
  - destruct (Z.eqb_spec (nech a) (nech b)) as [En|Hne]; cbn [negb].
    + destruct (Z.ltb_spec 0 (nech a)).
      * destruct Ha1 as (_ & ma & Ea & Hma); [done|]. destruct Hb1 as (_ & mb & Eb & Hmb); [lia|].
        rewrite Ea, Eb. rewrite (proj2 (Nat.leb_le _ _)), (proj2 (Nat.leb_le _ _)) by lia.
        cbn [andb]. eexists. split; [done|]. unfold cell_cluster. rewrite Ea, Eb, <- En.
        rewrite (proj2 (Z.ltb_lt 0 (nech a))) by lia. simpl.
        case_bool_decide as Ht; split; intros; try done; [by rewrite Ht; congruence|congruence].
      * exists 0. split; [done|]. split; [|done]. intros _.
        unfold cell_cluster. rewrite !(proj2 (Z.ltb_ge 0 _)) by lia. congruence.
    + exists 1. split; [done|]. split; [done|]. intros E. exfalso. apply Hne.
      rewrite <- La, <- Lb. congruence.
  - exists 0. split; [done|]. split; [|done]. intros _.
    assert (nech a = 0 /\ nech b = 0) as [Za Zb].
    { destruct (Z.ltb_spec 0 (nech a)); [by destruct (Ha1 ltac:(done))|].
      destruct (Z.ltb_spec 0 (nech b)); [by destruct (Hb1 ltac:(done))|]. lia. }
    unfold cell_cluster. rewrite Za, Zb. simpl. congruence.
Qed.

(** *** Cell buffers *)

(** A grid of consistent cells. *)
Definition cb_wf (c : cellbuf) : Prop :=
  exists l, cells c = Some l /\ 0 <= cb_width c /\ 0 <= cb_height c /\
    is_int (cb_width c * cb_height c) /\
    Z.of_nat (length l) = cb_width c * cb_height c /\ Forall cell_wf l.

Definition in_grid (w h x y : Z) : Prop := 0 <= x < w /\ 0 <= y < h.

(** The cell at column [x] of row [y]. *)
Definition cb_at (c : cellbuf) (x y : Z) : option tb_cell :=
  if cellbuf_in_bounds c x y
  then match cells c with Some l => zlookup l (y * cb_width c + x) | None => None end
  else None.

Definition view_at (c : cellbuf) (x y : Z) : option (Z * Z * Z * list Z) := cell_view <$> cb_at c x y.

Definition blank (f b : Z) : Z * Z * Z * list Z := (32, f, b, []).

Lemma in_bounds_grid c x y :
  cellbuf_in_bounds c x y = true <-> in_grid (cb_width c) (cb_height c) x y.
Proof.
  unfold cellbuf_in_bounds, in_grid. rewrite negb_true_iff.
  zcases; cbn [orb]; split; intros; try done; lia.
Qed.

Lemma grid_index w h x y : in_grid w h x y -> 0 <= y * w + x < w * h.
Proof. unfold in_grid. intros [Hx Hy]. nia. Qed.

Lemma grid_index_inj w h x y x' y' :
  in_grid w h x y -> in_grid w h x' y' -> y * w + x = y' * w + x' -> x = x' /\ y = y'.
Proof. unfold in_grid. intros [Hx Hy] [Hx' Hy'] E. assert (y = y') by nia. subst. lia. Qed.

Lemma cb_at_wf c x y :
  cb_wf c -> in_grid (cb_width c) (cb_height c) x y ->
  exists l cell, cells c = Some l /\ zlookup l (y * cb_width c + x) = Some cell /\
    cb_at c x y = Some cell /\ cell_wf cell.
Proof.
  intros (l & El & Hw & Hh & Hi & Hl & Hf) Hg. pose proof (grid_index _ _ _ _ Hg) as Hidx.
  destruct (zlookup_is_Some l (y * cb_width c + x)) as [cell Ec]; [lia|].
  exists l, cell. split; [done|]. split; [done|]. unfold cb_at.
  rewrite (proj2 (in_bounds_grid c x y)), El by done. split; [done|].
  rewrite zlookup_nonneg in Ec by lia. rewrite Forall_lookup in Hf. by eapply Hf.
Qed.

(** Replacing the cell at a position. *)
Definition cb_set (c : cellbuf) (l : list tb_cell) (i : Z) (cell : tb_cell) : cellbuf :=
  mk_cellbuf (cb_width c) (cb_height c) (Some (<[Z.to_nat i := cell]> l)).

Lemma cb_set_wf c l x y cell :
  cb_wf c -> cells c = Some l -> in_grid (cb_width c) (cb_height c) x y -> cell_wf cell ->
  cb_wf (cb_set c l (y * cb_width c + x) cell).
Proof.
  intros (l' & El & Hw & Hh & Hi & Hl & Hf) E Hg Hc. rewrite E in El. injection El as <-.
  eexists. split; [done|]. cbn [cb_width cb_height cb_set].
  split; [done|]. split; [done|]. split; [done|]. rewrite length_insert. split; [done|].
  by apply Forall_insert.
Qed.

Lemma cb_set_at c l x y cell x' y' :
  cb_wf c -> cells c = Some l -> in_grid (cb_width c) (cb_height c) x y ->
  cb_at (cb_set c l (y * cb_width c + x) cell) x' y' =
    if decide (x' = x /\ y' = y) then Some cell else cb_at c x' y'.
Proof.
  intros (l' & El & Hw & Hh & Hi & Hl & Hf) E Hg. rewrite E in El. injection El as <-.
  pose proof (grid_index _ _ _ _ Hg) as Hidx. unfold cb_at. rewrite E.
  change (cellbuf_in_bounds (cb_set c l (y * cb_width c + x) cell) x' y')
    with (cellbuf_in_bounds c x' y').
  cbn [cells cb_set cb_width]. case_decide as Hd.
  - destruct Hd as [-> ->]. rewrite (proj2 (in_bounds_grid c x y)) by done.
    apply zlookup_insert_eq. lia.
  - destruct (cellbuf_in_bounds c x' y') eqn:Eb; [|done].
    apply in_bounds_grid in Eb. apply zlookup_insert_ne; [lia|].
    intros Ei. apply Hd. pose proof (grid_index_inj _ _ _ _ _ _ Hg Eb Ei). lia.
Qed.

Lemma cellbuf_get_in c x y :
  in_grid (cb_width c) (cb_height c) x y -> cellbuf_get c x y = (TB_OK, Some (y * cb_width c + x)).
Proof. intros Hg. unfold cellbuf_get. by rewrite (proj2 (in_bounds_grid c x y)). Qed.

(** [cellbuf_clear] makes every cell blank. *)
Lemma cellbuf_clear_spec f b c s :
  cb_wf c ->
  exists c', cellbuf_clear f b c s = (Ret (TB_OK, c'), s) /\ cb_wf c' /\
    cb_width c' = cb_width c /\ cb_height c' = cb_height c /\
    forall x y, in_grid (cb_width c) (cb_height c) x y -> view_at c' x y = Some (blank f b).
Proof.
  intros Hwf. pose proof Hwf as (l & El & Hw & Hh & Hi & Hl & Hf). unfold cellbuf_clear.
  rewrite imul_int by done.
  mrun (eq_refl : deref (Some (cb_width c * cb_height c)) s = (Ret _, s)).
  destruct (Z.leb_spec (cb_width c * cb_height c) 0).
  { exists c. split; [done|]. split; [done|]. split; [done|]. split; [done|].
    intros x y Hg. pose proof (grid_index _ _ _ _ Hg). lia. }
  rewrite El. mrun (eq_refl : deref (Some l) s = (Ret l, s)).
  set (n := cb_width c * cb_height c) in *.
  destruct (loop_seqZ (clear_cell f b) (fun i l' => length l' = length l /\ Forall cell_wf l' /\
    forall j, 0 <= j < i -> cell_view <$> zlookup l' j = Some (blank f b)) n l s)
    as (l' & E & Hl' & Hf' & Hv).
  - split; [done|]. split; [done|]. lia.
  - intros i st Hin (Hls & Hfs & Hvs). unfold clear_cell.
    destruct (zlookup_is_Some st i) as [cell Ec]; [lia|]. rewrite Ec.
    mrun (eq_refl : deref (Some cell) s = (Ret cell, s)).
    rewrite zlookup_nonneg in Ec by lia. rewrite Forall_lookup in Hfs.
    destruct (cell_set_1 cell 32 f b s (Hfs _ _ Ec)) as (cell' & E & Hw' & Hv' & _). mrun E.
    rewrite zupdate_range by lia.
    mrun (eq_refl : deref (Some (<[Z.to_nat i:=cell']> st)) s = (Ret _, s)).
    eexists. split; [done|]. split; [by rewrite length_insert|].
    split; [apply Forall_insert; [by apply Forall_lookup|done]|].
    intros j Hj. destruct (decide (j = i)) as [->|].
    + rewrite zlookup_insert_eq by lia. simpl. by rewrite Hv'.
    + rewrite zlookup_insert_ne by lia. apply Hvs. lia.
  - mrun E. eexists. split; [done|]. rewrite Z.max_r in Hv by lia.
    assert (cb_wf (mk_cellbuf (cb_width c) (cb_height c) (Some l'))) as Hwf'.
    { exists l'. cbn [cells cb_width cb_height]. rewrite Hl'. done. }
    split; [done|]. split; [done|]. split; [done|]. intros x y Hg.
    unfold view_at, cb_at. cbn [cells cb_width].
    rewrite (proj2 (in_bounds_grid _ x y)) by done. apply Hv.
    by apply grid_index.
Qed.

Lemma cell_size_pos : 0 < cell_size.
Proof. unfold cell_size. by destruct attr_w, egc. Qed.

Lemma cellbuf_init_spec c w h s :
  0 <= w -> 0 <= h -> is_int (w * h) -> s_alloc s = [] ->
  exists c', cellbuf_init c w h s = (Ret (TB_OK, c'), s) /\ cb_wf c' /\
    cb_width c' = w /\ cb_height c' = h.
Proof.
  intros Hw Hh Hi Ha. unfold cellbuf_init.
  assert (cell_size <= 48) as Hc by (unfold cell_size; by destruct attr_w, egc).
  pose proof cell_size_pos as Hp.
  assert (0 <= cell_size * w * h <= 48 * INT_MAX) as Hs.
  { unfold is_int in Hi. rewrite <- Z.mul_assoc. nia. }
  rewrite wrapu_id by (unfold INT_MAX in Hs; change (2 ^ 64) with 18446744073709551616; lia).
  destruct (tb_malloc_ret (cell_size * w * h) s) as (ok & s' & E & _ & Hok).
  destruct (Hok Ha) as [-> ->]; [unfold PTRDIFF_MAX, INT_MAX in *; lia|]. mrun E.
  eexists. split; [done|]. split; [|done].
  assert (cell_size * w * h / cell_size = w * h) as ->.
  { rewrite <- Z.mul_assoc, Z.mul_comm. apply Z.div_mul. lia. }
  eexists. split; [done|]. cbn [cb_width cb_height]. split; [done|]. split; [done|].
  split; [done|]. rewrite length_replicate. split; [rewrite Z2Nat.id; [done|nia]|].
  apply Forall_replicate, cell_wf_zero.
Qed.

Lemma view_at_set c l x y cell x' y' :
  cb_wf c -> cells c = Some l -> in_grid (cb_width c) (cb_height c) x y ->
  view_at (cb_set c l (y * cb_width c + x) cell) x' y' =
    if decide (x' = x /\ y' = y) then Some (cell_view cell) else view_at c x' y'.
Proof. intros Hw E Hg. unfold view_at. rewrite cb_set_at by done. by case_decide. Qed.

(** One copied cell. *)
Lemma resize_cell_spec prev l0 c x y s :
  cb_wf prev -> cells prev = Some l0 -> Forall cell_small l0 -> s_alloc s = [] -> cb_wf c ->
  in_grid (cb_width prev) (cb_height prev) x y -> in_grid (cb_width c) (cb_height c) x y ->
  exists c', resize_cell l0 (cb_width prev) x y c s = (Ret (TB_OK, c'), s) /\ cb_wf c' /\
    cb_width c' = cb_width c /\ cb_height c' = cb_height c /\
    forall x' y', view_at c' x' y' =
      if decide (x' = x /\ y' = y) then view_at prev x y else view_at c x' y'.
Proof.
  intros Hp El Hsm Ha Hw Hgp Hg. unfold resize_cell.
  destruct (cb_at_wf prev x y Hp Hgp) as (l1 & src & El1 & Es & Eat & Hws).
  rewrite El in El1. injection El1 as <-. rewrite Es.
  mrun (eq_refl : deref (Some src) s = (Ret src, s)).
  rewrite cellbuf_get_in by done.
  destruct (cb_at_wf c x y Hw Hg) as (l & dst & Elc & Ed & _ & Hwd). rewrite Elc.
  mrun (eq_refl : deref (Some l) s = (Ret l, s)). rewrite Ed.
  mrun (eq_refl : deref (Some dst) s = (Ret dst, s)).
  assert (cell_small src) as Hss.
  { pose proof (grid_index _ _ _ _ Hgp). rewrite zlookup_nonneg in Es by lia.
    rewrite Forall_lookup in Hsm. by eapply Hsm. }
  destruct (cell_copy_spec dst src s Hwd Hws Hss Ha) as (dst' & Ec & Hwd' & _ & Hv). mrun Ec.
  pose proof (zlookup_Some_range _ _ _ Ed). rewrite zupdate_range by lia.
  mrun (eq_refl : deref (Some (<[Z.to_nat (y * cb_width c + x):=dst']> l)) s = (Ret _, s)).
  eexists. split; [done|]. split; [by apply cb_set_wf|]. split; [done|]. split; [done|].
  intros x' y'. change (mk_cellbuf _ _ _) with (cb_set c l (y * cb_width c + x) dst').
  rewrite view_at_set by done. case_decide; [|done].
  unfold view_at. by rewrite Eat, Hv.
Qed.

(** A column of copies, then all of them. *)
Lemma resize_column_spec prev l0 x h c s :
  cb_wf prev -> cells prev = Some l0 -> Forall cell_small l0 -> s_alloc s = [] -> cb_wf c ->
  0 <= x < cb_width prev -> x < cb_width c -> 0 <= h <= cb_height prev -> h <= cb_height c ->
  exists c', loop_err (fun y c => let* p := deref (Some l0) in
        resize_cell p (cb_width prev) x y c) (seqZ 0 h) c s = (Ret (TB_OK, c'), s) /\
    cb_wf c' /\ cb_width c' = cb_width c /\ cb_height c' = cb_height c /\
    forall x' y', view_at c' x' y' =
      if decide (x' = x /\ 0 <= y' < h) then view_at prev x' y' else view_at c x' y'.
Proof.
  intros Hp El Hsm Ha Hw Hx Hxc Hh Hhc.
  destruct (loop_seqZ (fun y c => let* p := deref (Some l0) in resize_cell p (cb_width prev) x y c)
    (fun y c' => cb_wf c' /\ cb_width c' = cb_width c /\ cb_height c' = cb_height c /\
      forall x' y', view_at c' x' y' =
        if decide (x' = x /\ 0 <= y' < y) then view_at prev x' y' else view_at c x' y') h c s)
    as (c' & E & H1).
  - split; [done|]. split; [done|]. split; [done|]. intros x' y'. by rewrite decide_False by lia.
  - intros y c1 Hy (Hw1 & Hwd & Hht & Hv).
    destruct (resize_cell_spec prev l0 c1 x y s Hp El Hsm Ha Hw1) as (c2 & E & Hw2 & Hwd2 & Hht2 & Hv2);
      [split; lia|split; lia|].
    exists c2. split; [done|]. split; [done|]. split; [congruence|]. split; [congruence|].
    intros x' y'. rewrite Hv2, Hv. repeat case_decide; try done; try lia.
    by destruct_and?; subst.
  - exists c'. rewrite Z.max_r in H1 by lia. done.
Qed.

Lemma cellbuf_resize_spec f b c w h s :
  cb_wf c -> (forall l, cells c = Some l -> Forall cell_small l) -> s_alloc s = [] ->
  is_int (Z.max 1 w * Z.max 1 h) ->
  exists c', cellbuf_resize f b c w h s = (Ret (TB_OK, c'), s) /\ cb_wf c' /\
    (c' = c /\ cb_width c = w /\ cb_height c = h \/
     cb_width c' = Z.max 1 w /\ cb_height c' = Z.max 1 h) /\
    forall x y, in_grid (cb_width c') (cb_height c') x y ->
      view_at c' x y =
        if cellbuf_in_bounds c x y then view_at c x y else Some (blank f b).
Proof.
  intros Hw Hsm Ha Hi. unfold cellbuf_resize.
  destruct ((cb_width c =? w) && (cb_height c =? h)) eqn:Esame.
  { zbool. exists c. split; [done|]. split; [done|]. split; [by left|].
    intros x y Hg. by rewrite (proj2 (in_bounds_grid c x y)). }
  clear Esame. pose proof Hw as (l0 & El & Hcw & Hch & Hci & Hl & Hf).
  assert ((if w <? 1 then 1 else w) = Z.max 1 w) as -> by (case_match; zbool; lia).
  assert ((if h <? 1 then 1 else h) = Z.max 1 h) as -> by (case_match; zbool; lia).
  set (w1 := Z.max 1 w) in *. set (h1 := Z.max 1 h) in *.
  assert ((if w1 <? cb_width c then w1 else cb_width c) = Z.min w1 (cb_width c)) as ->
    by (case_match; zbool; lia).
  assert ((if h1 <? cb_height c then h1 else cb_height c) = Z.min h1 (cb_height c)) as ->
    by (case_match; zbool; lia).
  destruct (cellbuf_init_spec c w1 h1 s ltac:(lia) ltac:(lia) Hi Ha) as (c1 & E1 & Hw1 & Hd1 & Hd1').
  mrun E1. change (negb (TB_OK =? TB_OK)) with false. cbv iota.
  destruct (cellbuf_clear_spec f b c1 s Hw1) as (c2 & E2 & Hw2 & Hd2 & Hd2' & Hv2).
  mrun E2. change (negb (TB_OK =? TB_OK)) with false. cbv iota. rewrite El.
  destruct (loop_seqZ (fun x => loop_err (fun y c0 => let* p := deref (Some l0) in
        resize_cell p (cb_width c) x y c0) (seqZ 0 (Z.min h1 (cb_height c))))
    (fun x c' => cb_wf c' /\ cb_width c' = w1 /\ cb_height c' = h1 /\
      forall x' y', view_at c' x' y' =
        if decide (0 <= x' < x /\ 0 <= y' < Z.min h1 (cb_height c))
        then view_at c x' y' else view_at c2 x' y') (Z.min w1 (cb_width c)) c2 s)
    as (c3 & E3 & Hw3 & Hd3 & Hd3' & Hv3).
  - split; [done|]. split; [congruence|]. split; [congruence|]. intros x' y'.
    by rewrite decide_False by lia.
  - intros x ca Hx (Hwa & Hda & Hda' & Hva).
    destruct (resize_column_spec c l0 x (Z.min h1 (cb_height c)) ca s Hw El (Hsm _ El) Ha Hwa)
      as (cb & Eb & Hwb & Hdb & Hdb' & Hvb); [lia|lia|lia|lia|].
    exists cb. split; [done|]. split; [done|]. split; [congruence|]. split; [congruence|].
    intros x' y'. rewrite Hvb, Hva. repeat case_decide; try done; lia.
  - mrun E3. change (negb (TB_OK =? TB_OK)) with false. cbv iota.
    unfold cellbuf_free. cbn [cells cb_width cb_height].
    assert (cellbuf_free (mk_cellbuf (cb_width c) (cb_height c) (Some l0)) s = (Ret cellbuf_zero, s)) as Efree.
    { unfold cellbuf_free. cbn [cells cb_width cb_height]. rewrite imul_int by done.
      mrun (eq_refl : deref (Some (cb_width c * cb_height c)) s = (Ret _, s)).
      by rewrite (proj2 (Z.leb_le _ _)) by lia. }
    unfold cellbuf_free in Efree. cbn [cells cb_width cb_height] in Efree. mrun Efree.
    exists c3. split; [done|]. split; [done|]. split; [by right|].
    intros x y Hg. rewrite Hv3. rewrite Hd3, Hd3' in Hg. unfold in_grid in Hg.
    destruct (cellbuf_in_bounds c x y) eqn:Eb.
    + apply in_bounds_grid in Eb. unfold in_grid in Eb. by rewrite decide_True by lia.
    + rewrite decide_False; [apply Hv2; rewrite Hd1, Hd1'; exact Hg|].
      intros Hd. apply not_true_iff_false in Eb. apply Eb, in_bounds_grid. unfold in_grid. lia.
Qed.

End CellLemmas.

(** The options of a plain build, and of the shared library. *)
Definition default_config : config := {| egc := false; attr_w := W16 |}.
Definition lib_config : config := {| egc := true; attr_w := W64 |}.

(** A system where every call succeeds. *)
Definition calm : sys := mk_sys 0 [] [] [] [] [] [] (mk_termios 0 0 0 0 []) [].

(** ** Properties *)

(** C31: a byte buffer is a queue: whatever allocations fail, a sequence of
    [bytebuf_nputs] and [bytebuf_shift] never leaves the buffer's memory, always
    ends, and leaves the bytes a queue would hold after the operations that
    were carried out; it stops early only with [TB_ERR_MEM]. *)
Theorem bytebuf_refines_queue ops s :
  Forall op_ok ops -> ops_size ops + 1 <= PTRDIFF_MAX ->
  exists rv b' s', bb_run ops bytebuf_zero s = (Ret (rv, b'), s') /\ bb_wf b' /\
    (rv = TB_OK /\ bb_bytes b' = foldl queue_op [] ops \/
     rv = TB_ERR_MEM /\ exists done_ todo, ops = done_ ++ todo /\
       bb_bytes b' = foldl queue_op [] done_).
Proof. intros Ho Hs. apply (bb_run_refines ops bytebuf_zero s wf_zero Ho Hs). Qed.

Lemma bytebuf_refines_queue_witness :
  let ops := [Put [1; 2; 3]; Shift 2; Put (replicate 9 7); Shift 1] in
  exists rv b' s', bb_run ops bytebuf_zero calm = (Ret (rv, b'), s') /\ bb_wf b' /\
    (rv = TB_OK /\ bb_bytes b' = foldl queue_op [] ops \/
     rv = TB_ERR_MEM /\ exists done_ todo, ops = done_ ++ todo /\
       bb_bytes b' = foldl queue_op [] done_).
Proof.
  intros ops. apply (bytebuf_refines_queue ops calm).
  - repeat constructor. discriminate. discriminate.
  - vm_compute. discriminate.
Defined.

(** [bytebuf_flush] writes the whole contents with one [write] and empties
    the buffer, or reports [TB_ERR] and keeps the contents, also when a part
    of them has been written. *)
Theorem bytebuf_flush_all_or_error b s :
  bb_wf b ->
  exists rv b' e s', bytebuf_flush b s = (Ret (rv, b', e), s') /\ bb_wf b' /\
    (rv = TB_OK /\ bb_bytes b' = [] /\ s_out s' = s_out s ++ bb_bytes b \/
     rv = TB_ERR /\ b' = b).
Proof.
  intros Hw. destruct (flush_spec b s Hw) as (rv & b' & e & s' & E & Hw' & Hc & _).
  by exists rv, b', e, s'.
Qed.

Lemma bytebuf_flush_all_or_error_witness :
  let b := mk_bytebuf (Some [72; 105; 0; 0]) 2 4 in
  exists rv b' e s', bytebuf_flush b calm = (Ret (rv, b', e), s') /\ bb_wf b' /\
    (rv = TB_OK /\ bb_bytes b' = [] /\ s_out s' = s_out calm ++ bb_bytes b \/
     rv = TB_ERR /\ b' = b).
Proof.
  intros b. apply (bytebuf_flush_all_or_error b calm). vm_compute. intuition discriminate.
Defined.

(** C20: resizing a cell buffer keeps what the cells in the common area show,
    clusters included, and makes the other cells blank; the new size is the
    requested one, at least one by one. *)
Theorem cellbuf_resize_keeps `{config} f b c w h s :
  cb_wf c -> (forall l, cells c = Some l -> Forall cell_small l) -> s_alloc s = [] ->
  is_int (Z.max 1 w * Z.max 1 h) ->
  exists c', cellbuf_resize f b c w h s = (Ret (TB_OK, c'), s) /\ cb_wf c' /\
    (c' = c /\ cb_width c = w /\ cb_height c = h \/
     cb_width c' = Z.max 1 w /\ cb_height c' = Z.max 1 h) /\
    forall x y, in_grid (cb_width c') (cb_height c') x y ->
      view_at c' x y = if cellbuf_in_bounds c x y then view_at c x y else Some (blank f b).
Proof. apply cellbuf_resize_spec. Qed.

(** A two by two buffer with a cluster in its last cell. *)
Definition demo_cells : cellbuf :=
  mk_cellbuf 2 2 (Some [mk_cell 65 1 2 None 0 0; cell_zero; cell_zero;
                        mk_cell 101 3 0 (Some [101; 769; 0]) 2 3]).

Lemma cellbuf_resize_keeps_witness :
  exists c', @cellbuf_resize lib_config 0 0 demo_cells 3 1 calm = (Ret (TB_OK, c'), calm) /\
    @cb_wf lib_config c' /\
    (c' = demo_cells /\ cb_width demo_cells = 3 /\ cb_height demo_cells = 1 \/
     cb_width c' = Z.max 1 3 /\ cb_height c' = Z.max 1 1) /\
    forall x y, in_grid (cb_width c') (cb_height c') x y ->
      view_at c' x y = if cellbuf_in_bounds demo_cells x y
        then view_at demo_cells x y else Some (blank 0 0).
Proof.
  apply (@cellbuf_resize_keeps lib_config 0 0 demo_cells 3 1 calm).
  - eexists. split; [reflexivity|]. split; [discriminate|]. split; [discriminate|].
    split; [split; discriminate|]. split; [reflexivity|].
    apply Forall_cons. split; [split; reflexivity|]. apply Forall_cons. split; [split; reflexivity|].
    apply Forall_cons. split; [split; reflexivity|]. apply Forall_cons. split; [|constructor].
    split; [reflexivity|]. right.
    split; [reflexivity|]. split; [split; [discriminate|reflexivity]|reflexivity].
  - intros l [= <-]. repeat constructor; vm_compute; discriminate.
  - reflexivity.
  - split; discriminate.
Defined.
