(* ===== verification/TbTrie.v ===== *)
(** * life/termbox2.h: the trie of escape sequences

    A node keeps its character, its array of children ([None] for NULL), the
    number of children, and what a leaf means.  Characters are bytes. *)

From stdpp Require Import prelude list_numbers strings.
From Stdlib Require Import ZArith Lia.
From S2P Require Import Prelude CLib Posix TbTables TbBuf.
Open Scope Z_scope.

#[warnings="-register-all"]
Inductive cap_trie : Type := mk_trie {
  tc : Z;
  children : option (list cap_trie);
  nchildren : Z;
  is_leaf : bool;
  tkey : Z;
  tmod : Z
}.

Definition trie_zero : cap_trie := mk_trie 0 None 0 false 0 0.

(** The elements of an array of children. *)
Definition kids (ch : option (list cap_trie)) : list cap_trie :=
  match ch with Some l => l | None => [] end.

(** [sizeof (struct cap_trie)] *)
Definition trie_size : Z := 32.

(** [for (j = 0; j < nchildren; j++) if (children[j].c == c) ...]: the index
    found; [None] is a read outside [children]. *)
Fixpoint find_child (l : list cap_trie) (n : nat) (c : Z) (j : nat) : option (option nat) :=
  match n with
  | O => Some None
  | S n' =>
      match l with
      | [] => None
      | t :: l' => if tc t =? c then Some (Some j) else find_child l' n' c (S j)
      end
  end.

Definition child_index (t : cap_trie) (c : Z) : option (option nat) :=
  find_child (kids (children t)) (Z.to_nat (nchildren t)) c 0.

(** The loop of [cap_trie_add] from a node, then the leaf. *)
Fixpoint trie_add (cap : list Z) (key mod_ : Z) (node : cap_trie) : M sys (Z * cap_trie) :=
  match cap with
  | [] =>
      if is_leaf node then ret (TB_ERR_CAP_COLLISION, node)
      else ret (TB_OK, mk_trie (tc node) (children node) (nchildren node) true key mod_)
  | c :: cap' =>
      let* found := deref (child_index node c) in
      match found with
      | Some j =>
          let l := kids (children node) in
          let* next := deref (l !! j) in
          let* ' (rv, next) := trie_add cap' key mod_ next in
          ret (rv, mk_trie (tc node) (Some (<[j := next]> l)) (nchildren node)
                     (is_leaf node) (tkey node) (tmod node))
      | None =>
          let n := nchildren node + 1 in
          let* ok := tb_malloc (trie_size * n) in
          if ok : bool then
            let l := kids (children node) in
            let* ' (rv, next) := trie_add cap' key mod_ (mk_trie c None 0 false 0 0) in
            ret (rv, mk_trie (tc node) (Some (l ++ [next])) n
                       (is_leaf node) (tkey node) (tmod node))
          else ret (TB_ERR_MEM, mk_trie (tc node) None n (is_leaf node) (tkey node) (tmod node))
      end
  end.

(** [root] is [global.cap_trie]. *)
Definition cap_trie_add (cap : option (list Z)) (key mod_ : Z) (root : cap_trie) : M sys (Z * cap_trie) :=
  match cap with
  | None => ret (TB_OK, root)
  | Some s =>
      if Z.of_nat (length (cstr s)) <=? 0 then ret (TB_OK, root)
      else trie_add (cstr s) key mod_ root
  end.

(** The loop of [cap_trie_find]: the last node and the depth. *)
Fixpoint find_loop (buf : list Z) (node : cap_trie) (depth : Z) : option (cap_trie * Z) :=
  match buf with
  | [] => Some (node, depth)
  | c :: buf' =>
      match child_index node c with
      | None => None
      | Some None => Some (node, depth)
      | Some (Some j) =>
          match kids (children node) !! j with
          | None => None
          | Some next =>
              if is_leaf next && (nchildren next <? 1) then Some (next, depth + 1)
              else find_loop buf' next (depth + 1)
          end
      end
  end.

Definition cap_trie_find (buf : list Z) (root : cap_trie) : option (cap_trie * Z) :=
  find_loop buf root 0.

(** Whether [cap_trie_deinit] only visits nodes that exist; it leaves the node
    zeroed. *)
Fixpoint deinit_ok (t : cap_trie) : bool :=
  match t with
  | mk_trie _ ch n _ _ _ =>
      match ch with
      | None => n <=? 0
      | Some l => (n <=? Z.of_nat (length l)) && forallb deinit_ok l
      end
  end.

Definition cap_trie_deinit (node : cap_trie) : M sys cap_trie :=
  if deinit_ok node then ret trie_zero else fault.

(** [init_cap_trie]: a loop that goes on after collisions. *)
Fixpoint add_all (l : list (option (list Z) * Z * Z)) (root : cap_trie) : M sys (Z * cap_trie) :=
  match l with
  | [] => ret (TB_OK, root)
  | (cap, key, mod_) :: l' =>
      let* ' (rv, root) := cap_trie_add cap key mod_ root in
      if negb (rv =? TB_OK) && negb (rv =? TB_ERR_CAP_COLLISION) then ret (rv, root)
      else add_all l' root
  end.

(** The sequences of the keys in the order of the [TB_CAP_*] numbers, then the
    modified ones. *)
Definition key_caps (caps : list (option (list Z))) : list (option (list Z) * Z * Z) :=
  imap (fun i cap => (cap, tb_key_i (Z.of_nat i), 0)) (take (Z.to_nat TB_CAP__COUNT_KEYS) caps).

Definition mod_caps : list (option (list Z) * Z * Z) :=
  (fun '(cap, key, m) => (Some cap, key, m)) <$> builtin_mod_caps.

Definition init_cap_trie (caps : list (option (list Z))) (root : cap_trie) : M sys (Z * cap_trie) :=
  add_all (key_caps caps ++ mod_caps) root.

(** ** Specification *)

(** Following a sequence from a node, and what it means. *)
Definition child_of (t : cap_trie) (c : Z) : option cap_trie :=
  snd <$> list_find (fun n => tc n = c) (kids (children t)).

Fixpoint walk (t : cap_trie) (s : list Z) : option cap_trie :=
  match s with
  | [] => Some t
  | c :: s' => match child_of t c with Some n => walk n s' | None => None end
  end.

Definition meaning (t : cap_trie) : option (Z * Z) :=
  if is_leaf t then Some (tkey t, tmod t) else None.

Definition trie_lookup (t : cap_trie) (s : list Z) : option (Z * Z) :=
  match walk t s with Some n => meaning n | None => None end.

(** The first entry of a list of sequences. *)
Fixpoint first_entry (l : list (option (list Z) * Z * Z)) (s : list Z) : option (Z * Z) :=
  match l with
  | [] => None
  | (cap, key, m) :: l' =>
      if bool_decide (cstr <$> cap = Some s) then Some (key, m) else first_entry l' s
  end.

#[warnings="-register-all"]
Inductive trie_wf : cap_trie -> Prop :=
| trie_wf_intro c ch n leaf k m :
    n = Z.of_nat (length (kids ch)) ->
    NoDup (tc <$> kids ch) -> Forall (fun t => 0 <= tc t < 256 /\ trie_wf t) (kids ch) ->
    trie_wf (mk_trie c ch n leaf k m).

(** ** Lemmas *)

Lemma find_child_spec l c j :
  find_child l (length l) c j =
    Some ((fun p => (j + fst p)%nat) <$> list_find (fun n => tc n = c) l).
Proof.
  revert j. induction l as [|t l IH]; intros j; [done|]. cbn [find_child length list_find].
  destruct (Z.eqb_spec (tc t) c).
  - rewrite decide_True by done. simpl. by rewrite Nat.add_0_r.
  - rewrite decide_False by done. rewrite IH. f_equal.
    destruct (list_find _ l) as [[i x]|]; [|done]. simpl. f_equal. lia.
Qed.

Lemma child_index_spec t c :
  trie_wf t ->
  child_index t c = Some (fst <$> list_find (fun n => tc n = c) (kids (children t))).
Proof.
  intros Hw. inversion Hw as [c0 ch n leaf k m Hn _ _]; subst. unfold child_index.
  cbn [children nchildren]. by rewrite Nat2Z.id, find_child_spec.
Qed.

Lemma child_of_wf t c n : trie_wf t -> child_of t c = Some n -> trie_wf n /\ tc n = c.
Proof.
  intros Hw. inversion Hw as [c0 ch k leaf ky m Hn _ Hf]; subst. unfold child_of.
  cbn [children]. destruct (list_find _ _) as [[i x]|] eqn:E; [|done]. intros [= <-].
  apply list_find_Some in E as (Hi & Hx & _). rewrite Forall_lookup in Hf.
  split; [by eapply Hf|done].
Qed.

Lemma walk_wf t s n : trie_wf t -> walk t s = Some n -> trie_wf n.
Proof.
  revert t. induction s as [|c s IH]; intros t Hw; simpl; [by intros [= <-]|].
  destruct (child_of t c) as [x|] eqn:E; [|done]. apply IH. by eapply child_of_wf.
Qed.

Lemma walk_app t s1 s2 :
  walk t (s1 ++ s2) = match walk t s1 with Some n => walk n s2 | None => None end.
Proof. revert t. induction s1 as [|c s1 IH]; intros t; [done|]. simpl. by destruct (child_of t c). Qed.

Lemma trie_wf_zero c : trie_wf (mk_trie c None 0 false 0 0).
Proof. by constructor; [|constructor|constructor]. Qed.

(** A list of children, indexed by its characters. *)
Lemma list_find_tc l c i x :
  NoDup (tc <$> l) -> l !! i = Some x -> tc x = c ->
  list_find (fun n => tc n = c) l = Some (i, x).
Proof.
  intros Hn Hi Hx. apply list_find_Some. split; [done|]. split; [done|].
  intros j y Hj Hlt Hy. assert (i = j); [|lia].
  apply (NoDup_lookup (tc <$> l) i j c); [done| |]; rewrite list_lookup_fmap, ?Hi, ?Hj; simpl; congruence.
Qed.

Lemma list_find_insert l c j x y :
  NoDup (tc <$> l) -> l !! j = Some x -> tc y = tc x ->
  list_find (fun n => tc n = c) (<[j := y]> l) =
    if decide (c = tc x) then Some (j, y) else list_find (fun n => tc n = c) l.
Proof.
  intros Hn Hj Hy.
  assert (tc <$> <[j := y]> l = tc <$> l) as Hf.
  { rewrite list_fmap_insert, Hy. apply list_insert_id. by rewrite list_lookup_fmap, Hj. }
  pose proof (lookup_lt_Some _ _ _ Hj). case_decide as Hc.
  - subst c. apply list_find_tc; [by rewrite Hf|by apply list_lookup_insert_eq|done].
  - destruct (list_find (fun n => tc n = c) l) as [[i z]|] eqn:E.
    + apply list_find_Some in E as (Hi & Hz & _).
      apply list_find_tc; [by rewrite Hf| |done].
      rewrite list_lookup_insert_ne; [done|]. intros ->. congruence.
    + apply list_find_None in E. apply list_find_None. apply Forall_insert; [done|]. congruence.
Qed.

Lemma list_find_snoc l c y :
  list_find (fun n => tc n = c) (l ++ [y]) =
    match list_find (fun n => tc n = c) l with
    | Some p => Some p
    | None => if decide (tc y = c) then Some (length l, y) else None
    end.
Proof.
  induction l as [|t l IH]; cbn [list_find app]; [by case_decide|].
  destruct (decide (tc t = c)); [done|]. rewrite IH.
  destruct (list_find _ l) as [[]|]; simpl; [done|]. by case_decide.
Qed.

Lemma children_bound l :
  NoDup (tc <$> l) -> Forall (fun t => 0 <= tc t < 256 /\ trie_wf t) l -> (length l <= 256)%nat.
Proof.
  intros Hn Hf. rewrite <- (length_fmap tc).
  change 256%nat with (length (seqZ 0 256)). apply submseteq_length, NoDup_submseteq; [done|].
  intros c (t & -> & Ht)%list_elem_of_fmap. rewrite Forall_forall in Hf.
  destruct (Hf t Ht) as [? _]. apply elem_of_seqZ. lia.
Qed.

(** Children after a replacement and after an addition. *)
Lemma child_of_insert t j x y c l0 :
  trie_wf t -> children t = Some l0 -> l0 !! j = Some x -> tc y = tc x ->
  child_of (mk_trie (tc t) (Some (<[j := y]> l0)) (nchildren t) (is_leaf t) (tkey t) (tmod t)) c =
    if decide (c = tc x) then Some y else child_of t c.
Proof.
  intros Hw El Hj Hy. inversion Hw; subst. cbn [children] in *. subst. unfold child_of.
  cbn [children kids]. rewrite (list_find_insert _ c j x y); [|done|done|done]. by case_decide.
Qed.

Lemma trie_add_wf_insert t j x y l0 :
  trie_wf t -> children t = Some l0 -> l0 !! j = Some x -> tc y = tc x -> trie_wf y ->
  trie_wf (mk_trie (tc t) (Some (<[j := y]> l0)) (nchildren t) (is_leaf t) (tkey t) (tmod t)).
Proof.
  intros Hw El Hj Hy Hwy. inversion Hw as [c ch n leaf k m Hn Hnd Hf]; subst.
  cbn [children tc nchildren is_leaf tkey tmod] in *. subst. cbn [kids] in *.
  constructor; cbn [kids].
  - by rewrite length_insert.
  - rewrite list_fmap_insert, Hy, list_insert_id; [done|]. by rewrite list_lookup_fmap, Hj.
  - apply Forall_insert; [done|]. rewrite Hy. rewrite Forall_lookup in Hf.
    destruct (Hf _ _ Hj). done.
Qed.

Lemma trie_lookup_cons t c s :
  trie_lookup t (c :: s) = match child_of t c with Some n => trie_lookup n s | None => None end.
Proof. unfold trie_lookup. simpl. by destruct (child_of t c). Qed.

Lemma child_of_snoc t y c :
  trie_wf t ->
  child_of (mk_trie (tc t) (Some (kids (children t) ++ [y])) (nchildren t + 1)
    (is_leaf t) (tkey t) (tmod t)) c =
    match child_of t c with Some n => Some n | None => if decide (c = tc y) then Some y else None end.
Proof.
  intros Hw. unfold child_of. cbn [children kids]. rewrite list_find_snoc.
  destruct (list_find _ (kids (children t))) as [[]|]; [done|].
  destruct (decide (tc y = c)), (decide (c = tc y)); simpl; congruence.
Qed.

Lemma trie_wf_snoc t y :
  trie_wf t -> child_of t (tc y) = None -> 0 <= tc y < 256 -> trie_wf y ->
  trie_wf (mk_trie (tc t) (Some (kids (children t) ++ [y])) (nchildren t + 1)
    (is_leaf t) (tkey t) (tmod t)).
Proof.
  intros Hw Hno Hb Hy. inversion Hw as [c ch n leaf k m Hn Hnd Hf]; subst.
  cbn [children tc nchildren is_leaf tkey tmod] in *. constructor; cbn [kids].
  - rewrite length_app. simpl. lia.
  - rewrite fmap_app. apply NoDup_app. split; [done|]. split; [|apply NoDup_singleton].
    intros x Hx ->%list_elem_of_singleton.
    apply list_elem_of_fmap in Hx as (t & Ht & Hin).
    unfold child_of in Hno. cbn [children] in Hno.
    destruct (list_find _ _) as [[]|] eqn:E; [done|]. apply list_find_None in E.
    rewrite Forall_forall in E. by apply (E t).
  - apply Forall_app. split; [done|]. by apply Forall_singleton.
Qed.

Lemma wf_nchildren t : trie_wf t -> 0 <= nchildren t <= 256.
Proof.
  intros Hw. inversion Hw as [c ch n leaf k m Hn Hnd Hf]; subst. cbn [nchildren].
  pose proof (children_bound _ Hnd Hf). lia.
Qed.

(** What adding a sequence does to a node: the sequence gets its meaning unless
    it already had one, every other meaning is kept, and the prefixes of the
    sequence become paths. *)
Definition added (cap : list Z) (v : Z * Z) (t t' : cap_trie) (rv : Z) : Prop :=
  trie_wf t' /\ tc t' = tc t /\
  rv = match trie_lookup t cap with Some _ => TB_ERR_CAP_COLLISION | None => TB_OK end /\
  (forall q, trie_lookup t' q =
    if decide (q = cap) then Some (default v (trie_lookup t cap)) else trie_lookup t q) /\
  (forall q, is_Some (walk t' q) <-> is_Some (walk t q) \/ q `prefix_of` cap).

Lemma added_here t v :
  trie_wf t -> is_leaf t = false ->
  added [] v t (mk_trie (tc t) (children t) (nchildren t) true (fst v) (snd v)) TB_OK.
Proof.
  intros Hw El. split; [by inversion Hw; subst; constructor|]. split; [done|].
  assert (trie_lookup t [] = None) as E0 by (unfold trie_lookup; simpl; unfold meaning; by rewrite El).
  rewrite E0. split; [done|].
  assert (forall q n, walk t (n :: q) =
    walk (mk_trie (tc t) (children t) (nchildren t) true (fst v) (snd v)) (n :: q)) as Hwalk by done.
  split.
  - intros q. case_decide; [subst q; by destruct v|]. destruct q as [|n q]; [done|].
    unfold trie_lookup. by rewrite Hwalk.
  - intros [|n q]; [split; [by left|by eexists]|]. rewrite <- Hwalk.
    split; [by left|]. intros [?|Hq]; [done|]. by apply prefix_nil_inv in Hq.
Qed.

Lemma added_already t v : trie_wf t -> is_leaf t = true -> added [] v t t TB_ERR_CAP_COLLISION.
Proof.
  intros Hw El. assert (trie_lookup t [] = Some (tkey t, tmod t)) as E0
    by (unfold trie_lookup; simpl; unfold meaning; by rewrite El).
  split; [done|]. split; [done|]. rewrite E0. split; [done|]. split.
  - intros q. case_decide; [by subst q|done].
  - intros q. split; [by left|]. intros [?|Hq]; [done|]. apply prefix_nil_inv in Hq. subst. by eexists.
Qed.

Lemma added_below t j x x' c cap v rv l0 :
  trie_wf t -> children t = Some l0 -> list_find (fun n => tc n = c) l0 = Some (j, x) ->
  added cap v x x' rv ->
  added (c :: cap) v t
    (mk_trie (tc t) (Some (<[j := x']> l0)) (nchildren t) (is_leaf t) (tkey t) (tmod t)) rv.
Proof.
  intros Hw El Ef (Hwx' & Htc & Hrv & Hl & Hp).
  pose proof Ef as (Hj & Hx & _)%list_find_Some.
  assert (child_of t c = Some x) as Hch by (unfold child_of; by rewrite El; simpl; rewrite Ef).
  pose proof (fun c' => child_of_insert t j x x' c' l0 Hw El Hj Htc) as Hci.
  split; [by eapply trie_add_wf_insert|]. split; [done|].
  split; [rewrite trie_lookup_cons, Hch; done|]. split; intros [|c' q].
  - rewrite decide_False by done. done.
  - rewrite trie_lookup_cons, Hci. rewrite trie_lookup_cons, Hch.
    case_decide as Hd; [|rewrite decide_False by congruence; by rewrite trie_lookup_cons].
    assert (c' = c) as -> by congruence. rewrite trie_lookup_cons, Hch, Hl.
    destruct (decide (q = cap)), (decide (c :: q = c :: cap)); congruence.
  - split; [by left|by eexists].
  - cbn [walk]. rewrite Hci. case_decide as Hd.
    + assert (c' = c) as -> by congruence. rewrite Hch, Hp.
      split; (intros [?|Hq]; [by left|right]); [by apply prefix_cons|by apply prefix_cons_inv_2 in Hq].
    + split; [by left|]. intros [?|Hq]; [done|]. apply prefix_cons_inv_1 in Hq. congruence.
Qed.

Lemma added_new t x' c cap v rv :
  trie_wf t -> child_of t c = None -> 0 <= c < 256 ->
  added cap v (mk_trie c None 0 false 0 0) x' rv ->
  added (c :: cap) v t
    (mk_trie (tc t) (Some (kids (children t) ++ [x'])) (nchildren t + 1)
       (is_leaf t) (tkey t) (tmod t)) rv.
Proof.
  intros Hw Hch Hc (Hwx' & Htc & Hrv & Hl & Hp). cbn [tc] in Htc.
  assert (forall q, trie_lookup (mk_trie c None 0 false 0 0) q = None) as Hz by (intros [|]; done).
  rewrite Hz in Hrv, Hl.
  split; [apply trie_wf_snoc; rewrite ?Htc; done|]. split; [done|].
  split; [rewrite trie_lookup_cons, Hch; done|]. split; intros [|c' q].
  - rewrite decide_False by done. done.
  - rewrite trie_lookup_cons, child_of_snoc by done. rewrite trie_lookup_cons, Hch.
    rewrite trie_lookup_cons, Htc. cbn [default from_option].
    destruct (child_of t c') eqn:Ec'; [rewrite decide_False; [done|congruence]|].
    destruct (decide (c' = c)) as [->|]; [|by rewrite decide_False by congruence].
    rewrite Hl, Hz. destruct (decide (q = cap)), (decide (c :: q = c :: cap)); done || congruence.
  - split; [by left|by eexists].
  - cbn [walk]. rewrite child_of_snoc, Htc by done. destruct (child_of t c') eqn:Ec'.
    { split; [by left|]. intros [?|Hq]; [done|]. apply prefix_cons_inv_1 in Hq. congruence. }
    destruct (decide (c' = c)) as [->|].
    + rewrite Hp. split; (intros [Hs|Hq]; [|right]).
      * destruct q; [|by destruct Hs]. right. by apply prefix_cons, prefix_nil.
      * by apply prefix_cons.
      * by destruct Hs.
      * by apply prefix_cons_inv_2 in Hq.
    + split; [by intros []|]. intros [[]|Hq]; [done|]. apply prefix_cons_inv_1 in Hq. congruence.
Qed.

Lemma trie_add_spec cap key m node s :
  trie_wf node -> s_alloc s = [] -> Forall is_byte cap ->
  exists rv node', trie_add cap key m node s = (Ret (rv, node'), s) /\
    added cap (key, m) node node' rv.
Proof.
  intros Hw Ha Hb. revert node Hw. induction Hb as [|c cap Hc Hb IH]; intros node Hw; cbn [trie_add].
  - destruct (is_leaf node) eqn:El; (eexists _, _; split; [done|]).
    + by apply added_already.
    + by apply (added_here node (key, m)).
  - rewrite child_index_spec by done.
    match goal with |- context [bind (deref (Some ?x)) _ s] =>
      mrun (eq_refl : deref (Some x) s = (Ret x, s)) end.
    destruct (list_find (fun n => tc n = c) (kids (children node))) as [[j x]|] eqn:Ef;
      cbn [fmap option_fmap option_map fst].
    + pose proof Ef as (Hj & Hx & _)%list_find_Some.
      assert (child_of node c = Some x) as Hch by (unfold child_of; by rewrite Ef).
      destruct (child_of_wf _ _ _ Hw Hch) as [Hwx _].
      rewrite Hj. mrun (eq_refl : deref (Some x) s = (Ret x, s)).
      destruct (IH x Hwx) as (rv & x' & E & Hadd). mrun E.
      destruct (children node) as [l0|] eqn:El0; [|done].
      eexists _, _. split; [done|]. by eapply added_below.
    + assert (child_of node c = None) as Hch by (unfold child_of; by rewrite Ef).
      pose proof (wf_nchildren _ Hw) as Hn.
      destruct (tb_malloc_ret (trie_size * (nchildren node + 1)) s) as (ok & s' & Em & _ & Hok).
      destruct (Hok Ha) as [-> ->]; [unfold trie_size, PTRDIFF_MAX; lia|]. mrun Em.
      destruct (IH _ (trie_wf_zero c)) as (rv & x' & E & Hadd). mrun E.
      eexists _, _. split; [done|]. by apply added_new.
Qed.

(** *** Adding all the sequences *)

Definition entry_seq (e : option (list Z) * Z * Z) : list Z :=
  match fst (fst e) with Some s => cstr s | None => [] end.

Definition entry_val (e : option (list Z) * Z * Z) : Z * Z := (snd (fst e), snd e).

Definition entries_ok (l : list (option (list Z) * Z * Z)) : Prop :=
  Forall (fun e => Forall is_byte (entry_seq e)) l.

Lemma first_entry_cons e l q :
  q <> [] ->
  first_entry (e :: l) q = if decide (entry_seq e = q) then Some (entry_val e) else first_entry l q.
Proof.
  intros Hq. destruct e as [[[s|] k] m]; unfold entry_seq, entry_val; cbn [first_entry fst snd].
  - simpl. case_bool_decide as H; case_decide; try done; congruence.
  - rewrite decide_False by congruence. by rewrite bool_decide_false.
Qed.

(** An addition, skipped when the sequence is empty. *)
Lemma cap_trie_add_spec e root s :
  trie_wf root -> s_alloc s = [] -> Forall is_byte (entry_seq e) ->
  exists rv root', cap_trie_add (fst (fst e)) (snd (fst e)) (snd e) root s = (Ret (rv, root'), s) /\
    (rv = TB_OK \/ rv = TB_ERR_CAP_COLLISION) /\ trie_wf root' /\
    trie_lookup root' [] = trie_lookup root [] /\
    (forall q, q <> [] -> trie_lookup root' q =
       if decide (entry_seq e = q) then Some (default (entry_val e) (trie_lookup root q))
       else trie_lookup root q) /\
    (forall q, q <> [] -> (is_Some (walk root' q) <-> is_Some (walk root q) \/ q `prefix_of` entry_seq e)).
Proof.
  intros Hw Ha Hb. destruct e as [[cap k] m]. unfold entry_seq, entry_val, cap_trie_add in *.
  cbn [fst snd] in *.
  assert (forall q : list Z, q <> [] -> ~ q `prefix_of` []) as Hnil
    by (intros q Hq Hp; by apply prefix_nil_inv in Hp).
  destruct cap as [s0|].
  - destruct (Z.leb_spec (Z.of_nat (length (cstr s0))) 0) as [Hle|].
    + assert (cstr s0 = []) as -> by (apply length_zero_iff_nil; lia).
      exists TB_OK, root. split; [done|]. split; [by left|]. split; [done|]. split; [done|]. split.
      * intros q Hq. by rewrite decide_False.
      * intros q Hq. split; [by left|]. intros [?|Hp]; [done|]. by apply Hnil in Hp.
    + destruct (trie_add_spec (cstr s0) k m root s Hw Ha Hb) as (rv & r' & E & Hw' & _ & Hrv & Hl & Hp).
      exists rv, r'. split; [done|]. split; [destruct (trie_lookup root (cstr s0)); auto|].
      split; [done|]. split.
      { rewrite Hl. case_decide as H0; [|done]. by rewrite <- H0 in *. }
      split; [|intros q _; apply Hp]. intros q _. rewrite Hl.
      destruct (decide (q = cstr s0)), (decide (cstr s0 = q)); congruence.
  - exists TB_OK, root. split; [done|]. split; [by left|]. split; [done|]. split; [done|]. split.
    + intros q Hq. by rewrite decide_False.
    + intros q Hq. split; [by left|]. intros [?|Hp]; [done|]. by apply Hnil in Hp.
Qed.

Lemma add_all_spec l root s :
  trie_wf root -> s_alloc s = [] -> entries_ok l ->
  exists root', add_all l root s = (Ret (TB_OK, root'), s) /\ trie_wf root' /\
    trie_lookup root' [] = trie_lookup root [] /\
    (forall q, q <> [] -> trie_lookup root' q =
       match trie_lookup root q with Some v => Some v | None => first_entry l q end) /\
    (forall q, q <> [] -> (is_Some (walk root' q) <->
       is_Some (walk root q) \/ exists e, e ∈ l /\ q `prefix_of` entry_seq e)).
Proof.
  intros Hw Ha Ho. revert root Hw. induction Ho as [|e l He Ho IH]; intros root Hw.
  - exists root. split; [done|]. split; [done|]. split; [done|]. split.
    + intros q _. by destruct (trie_lookup root q).
    + intros q _. split; [by left|]. intros [?|(e & He & _)]; [done|]. by apply not_elem_of_nil in He.
  - destruct (cap_trie_add_spec e root s Hw Ha He) as (rv & r1 & E & Hrv & Hw1 & H01 & Hl1 & Hp1).
    destruct (IH r1 Hw1) as (r2 & E2 & Hw2 & H02 & Hl2 & Hp2).
    exists r2. destruct e as [[cap k] m]. cbn [add_all]. cbn [fst snd] in E. mrun E. split.
    { destruct Hrv as [-> | ->]; exact E2. }
    split; [done|]. split; [congruence|]. split.
    + intros q Hq. rewrite Hl2, Hl1, first_entry_cons by done.
      case_decide; destruct (trie_lookup root q); done.
    + intros q Hq. rewrite Hp2, Hp1 by done. split.
      * intros [[?|?]|(e' & ? & ?)]; [by left|right; by eexists; split; [left|]|].
        right. exists e'. split; [by right|done].
      * intros [?|(e' & Hin & Hpre)]; [by left; left|].
        apply elem_of_cons in Hin as [->|?]; [by left; right|right; by exists e'].
Qed.

(** *** Finding *)

Lemma child_nchildren t c n : trie_wf t -> child_of t c = Some n -> 0 < nchildren t.
Proof.
  intros Hw. inversion Hw as [c0 ch k leaf ky m Hn _ _]; subst. unfold child_of. cbn [children nchildren].
  destruct (kids ch); simpl; [done|lia].
Qed.

Lemma nchildren_child t : trie_wf t -> 0 < nchildren t -> exists c n, 0 <= c < 256 /\ child_of t c = Some n.
Proof.
  intros Hw. inversion Hw as [c0 ch k leaf ky m Hn Hnd Hf]; subst. unfold child_of.
  cbn [children nchildren]. destruct (kids ch) as [|x l]; simpl; [lia|]. intros _.
  apply Forall_cons in Hf as [[Hx _] _]. exists (tc x), x. split; [done|]. by rewrite decide_True.
Qed.

(** Where the search stops: at the end of the buffer, at a character that is no
    child, or at a leaf without children. *)
Lemma find_loop_spec buf t d :
  trie_wf t ->
  exists k n, find_loop buf t d = Some (n, d + Z.of_nat k) /\ (k <= length buf)%nat /\
    walk t (take k buf) = Some n /\
    (k = length buf \/ (exists c, buf !! k = Some c /\ child_of n c = None) \/
     is_leaf n = true /\ nchildren n < 1).
Proof.
  revert t d. induction buf as [|c buf IH]; intros t d Hw; cbn [find_loop].
  - exists 0%nat, t. rewrite Z.add_0_r. split; [done|]. split; [done|]. split; [done|]. by left.
  - rewrite child_index_spec by done.
    destruct (list_find (fun n => tc n = c) (kids (children t))) as [[j x]|] eqn:Ef; simpl.
    + assert (child_of t c = Some x) as Hch by (unfold child_of; by rewrite Ef).
      pose proof Ef as (Hj & _ & _)%list_find_Some. rewrite Hj.
      destruct (is_leaf x && (nchildren x <? 1)) eqn:El.
      * zbool. exists 1%nat, x. split; [done|]. split; [lia|].
        split; [simpl; by rewrite Hch|]. by right; right.
      * destruct (IH x (d + 1)) as (k & n & E & Hk & Hwk & Hs); [by eapply child_of_wf|].
        exists (S k), n. rewrite E. split; [do 2 f_equal; lia|]. split; [lia|].
        split; [simpl; by rewrite Hch|].
        destruct Hs as [->|[(c' & ? & ?)|?]]; [by left|right; left; by exists c'|by right; right].
    + exists 0%nat, t. rewrite Z.add_0_r. split; [done|]. split; [lia|]. split; [done|].
      right. left. exists c. split; [done|]. unfold child_of. by rewrite Ef.
Qed.

(** No sequence of the list is a proper prefix of another. *)
Definition prefix_free (l : list (option (list Z) * Z * Z)) : Prop :=
  forall e1 e2, e1 ∈ l -> e2 ∈ l -> entry_seq e1 <> [] ->
    entry_seq e1 `prefix_of` entry_seq e2 -> entry_seq e1 = entry_seq e2.

Lemma first_entry_in l q v :
  q <> [] -> first_entry l q = Some v -> exists e, e ∈ l /\ entry_seq e = q /\ entry_val e = v.
Proof.
  intros Hq. induction l as [|e l IH]; [done|]. rewrite first_entry_cons by done.
  case_decide; [intros [= <-]; exists e; split; [by left|done]|].
  intros H1. destruct (IH H1) as (e' & ? & ?). exists e'. split; [by right|done].
Qed.

Lemma entry_first l e : e ∈ l -> entry_seq e <> [] -> first_entry l (entry_seq e) <> None.
Proof.
  intros He Hne. induction l as [|e' l IH]; [by apply not_elem_of_nil in He|].
  rewrite first_entry_cons by done. apply elem_of_cons in He as [->|?]; case_decide; auto; done.
Qed.

Lemma walk_prefix t s1 s2 : is_Some (walk t (s1 ++ s2)) -> is_Some (walk t s1).
Proof. rewrite walk_app. destruct (walk t s1); [by eexists|by intros []]. Qed.

Lemma walk_zero q : q <> [] -> walk trie_zero q = None.
Proof. by destruct q. Qed.

Lemma lookup_zero q : trie_lookup trie_zero q = None.
Proof. by destruct q. Qed.

(** A trie that holds exactly the sequences of a list. *)
Definition paths_of (l : list (option (list Z) * Z * Z)) (t : cap_trie) : Prop :=
  forall p, p <> [] -> (is_Some (walk t p) <-> exists e, e ∈ l /\ p `prefix_of` entry_seq e).

Definition meanings_of (l : list (option (list Z) * Z * Z)) (t : cap_trie) : Prop :=
  forall p, p <> [] -> trie_lookup t p = first_entry l p.

(** A child that continues a path makes the path a proper prefix of an entry. *)
Lemma child_extends l t q n c x :
  paths_of l t ->
  walk t q = Some n -> child_of n c = Some x ->
  exists e, e ∈ l /\ (q ++ [c]) `prefix_of` entry_seq e.
Proof.
  intros Hp Hq Hc. apply Hp; [by destruct q|].
  rewrite walk_app, Hq. simpl. rewrite Hc. by eexists.
Qed.

(** A sequence of the list, and whatever bytes follow it, is found and nothing
    more than it is consumed. *)
Lemma find_entry l t q v rest :
  trie_wf t -> prefix_free l ->
  meanings_of l t ->
  paths_of l t ->
  q <> [] -> first_entry l q = Some v ->
  exists n, cap_trie_find (q ++ rest) t = Some (n, Z.of_nat (length q)) /\ meaning n = Some v.
Proof.
  intros Hw Hpf Hl Hp Hq Hv. unfold cap_trie_find.
  destruct (find_loop_spec (q ++ rest) t 0 Hw) as (k & n & -> & Hk & Hwk & Hstop).
  rewrite <- Hl in Hv by done. unfold trie_lookup in Hv.
  destruct (walk t q) as [nq|] eqn:Eq; [|done].
  assert (forall c x, child_of nq c = Some x -> False) as Hleaf.
  { intros c x Hc. destruct (child_extends l t q nq c x Hp Eq Hc) as (e & He & Hpre).
    destruct (first_entry_in l q v Hq) as (e1 & He1 & Hs1 & _).
    { rewrite <- Hl by done. unfold trie_lookup. by rewrite Eq. }
    assert (entry_seq e1 = entry_seq e) as E.
    { apply Hpf; [done|done|congruence|]. rewrite Hs1. etransitivity; [|exact Hpre]. by eexists. }
    rewrite Hs1 in E. rewrite <- E in Hpre. apply prefix_length in Hpre.
    rewrite length_app in Hpre. simpl in Hpre. lia. }
  assert (k = length q) as ->.
  { destruct (Nat.lt_trichotomy k (length q)) as [Hlt|[?|Hgt]]; [|done|]; exfalso.
    - rewrite take_app_le in Hwk by lia.
      destruct (lookup_lt_is_Some_2 q k Hlt) as [c Hc].
      assert (walk t (take k q ++ c :: drop (S k) q) = Some nq) as Hall by (by rewrite take_drop_middle).
      rewrite walk_app, Hwk in Hall. simpl in Hall.
      destruct (child_of n c) as [x|] eqn:Ec; [|done].
      pose proof (child_nchildren n c x (walk_wf _ _ _ Hw Hwk) Ec).
      destruct Hstop as [->|[(c' & Hc' & Hno)|[_ ?]]]; [rewrite length_app in *; lia| |lia].
      rewrite lookup_app_l in Hc' by lia. congruence.
    - rewrite take_app_ge, walk_app, Eq in Hwk by lia.
      destruct rest as [|c rest]; [rewrite length_app in Hk; simpl in Hk; lia|].
      destruct (k - length q)%nat as [|d] eqn:Ed; [lia|]. simpl in Hwk.
      destruct (child_of nq c) as [x|] eqn:Ec; [|done]. by eapply Hleaf. }
  exists n. split; [by rewrite Z.add_0_l|].
  rewrite take_app_length in Hwk. congruence.
Qed.

(** A proper prefix of an entry that is no entry itself ends at a node with
    children: more input is needed. *)
Lemma find_partial l t q e :
  trie_wf t ->
  meanings_of l t ->
  paths_of l t ->
  q <> [] -> e ∈ l -> q `prefix_of` entry_seq e -> q <> entry_seq e -> first_entry l q = None ->
  exists n, cap_trie_find q t = Some (n, Z.of_nat (length q)) /\ is_leaf n = false /\ 0 < nchildren n.
Proof.
  intros Hw Hl Hp Hq He Hpre Hne Hno. unfold cap_trie_find.
  destruct (find_loop_spec q t 0 Hw) as (k & n & -> & Hk & Hwk & Hstop).
  destruct Hpre as [[|c r] Er]; [by rewrite app_nil_r in Er|].
  assert (is_Some (walk t (entry_seq e))) as [ne Hne'].
  { apply Hp; [rewrite Er; by destruct q|]. by exists e. }
  assert (forall j, (j < length (entry_seq e))%nat -> forall m, walk t (take j (entry_seq e)) = Some m ->
    exists c' x, entry_seq e !! j = Some c' /\ child_of m c' = Some x) as Hchild.
  { intros j Hj m Hm. destruct (lookup_lt_is_Some_2 _ _ Hj) as [c' Hc']. exists c'.
    rewrite <- (take_drop_middle _ _ _ Hc'), walk_app, Hm in Hne'. simpl in Hne'.
    destruct (child_of m c') as [x|]; [by exists x|done]. }
  assert (length (entry_seq e) = length q + S (length r))%nat as Hlen
    by (rewrite Er, length_app; done).
  assert (k = length q) as ->.
  { destruct (decide (k = length q)); [done|]. exfalso.
    assert (take k q = take k (entry_seq e)) as Et by (by rewrite Er, take_app_le by lia).
    rewrite Et in Hwk. destruct (Hchild k ltac:(lia) n Hwk) as (c' & x & Hc' & Hx).
    pose proof (child_nchildren n c' x (walk_wf _ _ _ Hw Hwk) Hx).
    destruct Hstop as [->|[(c2 & Hc2 & Hn2)|[_ ?]]]; [done| |lia].
    rewrite Er, lookup_app_l in Hc' by lia. congruence. }
  rewrite take_ge in Hwk by lia. exists n. split; [by rewrite Z.add_0_l|]. split.
  - rewrite <- Hl in Hno by done. unfold trie_lookup in Hno. rewrite Hwk in Hno.
    unfold meaning in Hno. by destruct (is_leaf n).
  - assert (take (length q) (entry_seq e) = q) as Et by (rewrite Er; apply take_app_length).
    destruct (Hchild (length q) ltac:(lia) n) as (c' & x & _ & Hx); [by rewrite Et|].
    by eapply child_nchildren, Hx; eapply walk_wf, Hwk.
Qed.

(** What a search of any bytes finds: an entry at their beginning and no more
    than its bytes, or that there is none; then all of them are taken exactly
    when an entry goes on from them. *)
Definition finds_exactly (l : list (option (list Z) * Z * Z)) (t : cap_trie) (buf : list Z) : Prop :=
  exists n d, cap_trie_find buf t = Some (n, d) /\
    (forall v, meaning n = Some v -> exists q rest,
       q <> [] /\ buf = q ++ rest /\ d = Z.of_nat (length q) /\ first_entry l q = Some v) /\
    (meaning n = None ->
       (forall q, q <> [] -> q `prefix_of` buf -> first_entry l q = None) /\
       (d = Z.of_nat (length buf) <-> exists e, e ∈ l /\ buf `prefix_of` entry_seq e)).

Lemma find_exactly l t buf :
  trie_wf t -> prefix_free l -> meanings_of l t -> paths_of l t -> is_leaf t = false -> buf <> [] ->
  finds_exactly l t buf.
Proof.
  intros Hw Hpf Hl Hp Ht Hb. unfold finds_exactly.
  destruct (find_loop_spec buf t 0 Hw) as (k & n & E & Hk & Hwk & _). rewrite Z.add_0_l in E.
  exists n, (Z.of_nat k). split; [exact E|]. split.
  - intros v Hv. assert (take k buf <> []) as Hq.
    { intros E0. rewrite E0 in Hwk. injection Hwk as <-. unfold meaning in Hv. by rewrite Ht in Hv. }
    exists (take k buf), (drop k buf). split; [done|]. split; [by rewrite take_drop|].
    rewrite length_take, Nat.min_l by done. split; [done|]. rewrite <- Hl by done. unfold trie_lookup. by rewrite Hwk.
  - intros Hn. assert (forall q, q <> [] -> q `prefix_of` buf -> first_entry l q = None) as Hno.
    { intros q Hq [rest ->]. destruct (first_entry l q) as [v|] eqn:Ev; [|done].
      destruct (find_entry l t q v rest Hw Hpf Hl Hp Hq Ev) as (n' & E' & Hm).
      unfold cap_trie_find in E'. congruence. }
    split; [done|]. split.
    + intros Hd. rewrite take_ge in Hwk by lia. apply Hp; [done|by eexists].
    + intros (e & He & Hpre). specialize (Hno buf Hb ltac:(done)).
      assert (buf <> entry_seq e) as Hne by (intros ->; by apply (entry_first _ _ He) in Hno).
      destruct (find_partial l t buf e Hw Hl Hp Hb He Hpre Hne Hno) as (n' & E' & _).
      unfold cap_trie_find in E'. congruence.
Qed.

(** *** The built-in terminals *)

Definition prefix_freeb (l : list (list Z)) : bool :=
  forallb (fun q1 => bool_decide (q1 = []) ||
    forallb (fun q2 => negb (bool_decide (q1 `prefix_of` q2)) || bool_decide (q1 = q2)) l) l.

Lemma prefix_freeb_correct l : prefix_freeb (entry_seq <$> l) = true -> prefix_free l.
Proof.
  unfold prefix_freeb. rewrite forallb_forall. intros H e1 e2 H1 H2 Hne Hp.
  specialize (H (entry_seq e1) (proj1 (list_elem_of_In _ _) (list_elem_of_fmap_2 _ _ _ H1))).
  rewrite bool_decide_false in H by done. cbn [orb] in H. rewrite forallb_forall in H.
  specialize (H (entry_seq e2) (proj1 (list_elem_of_In _ _) (list_elem_of_fmap_2 _ _ _ H2))).
  rewrite bool_decide_true in H by done. cbn [negb orb] in H. by apply bool_decide_eq_true in H.
Qed.

(** The sequences of a terminal: its keys, then the modified keys. *)
Definition term_entries (caps : list (list Z)) : list (option (list Z) * Z * Z) :=
  key_caps (Some <$> caps) ++ mod_caps.

Lemma builtin_tables_ok :
  forallb (fun '(_, caps, _) =>
    prefix_freeb (entry_seq <$> term_entries caps) &&
    forallb (fun e => forallb (fun b => bool_decide (is_byte b)) (entry_seq e)) (term_entries caps))
    builtin_terms = true.
Proof. vm_compute. reflexivity. Qed.

Lemma builtin_entries name caps alias :
  (name, caps, alias) ∈ builtin_terms ->
  prefix_free (term_entries caps) /\ entries_ok (term_entries caps).
Proof.
  intros Hin. pose proof builtin_tables_ok as H. rewrite forallb_forall in H.
  specialize (H _ (proj1 (list_elem_of_In _ _) Hin)). cbn beta iota in H. zbool.
  split; [by apply prefix_freeb_correct|].
  apply Forall_forall. intros e He. apply Forall_forall. intros b Hb.
  match goal with H : forallb _ (term_entries caps) = true |- _ => rewrite forallb_forall in H;
    specialize (H e (proj1 (list_elem_of_In _ _) He)); rewrite forallb_forall in H;
    specialize (H b (proj1 (list_elem_of_In _ _) Hb)); by apply bool_decide_eq_true in H end.
Qed.

(** What [init_cap_trie] builds from a list of sequences. *)
Lemma init_cap_trie_spec caps s :
  s_alloc s = [] -> entries_ok (term_entries caps) ->
  exists root, init_cap_trie (Some <$> caps) trie_zero s = (Ret (TB_OK, root), s) /\
    trie_wf root /\ paths_of (term_entries caps) root /\ meanings_of (term_entries caps) root /\
    is_leaf root = false.
Proof.
  intros Ha Ho. destruct (add_all_spec _ _ s (trie_wf_zero 0) Ha Ho) as (root & E & Hw & H0 & Hl & Hp).
  exists root. split; [exact E|]. split; [done|]. split; [|split].
  - intros p Hne. rewrite Hp by done. change (mk_trie 0 None 0 false 0 0) with trie_zero.
    rewrite walk_zero by done. split; [intros [[? ?]|?]; done|by right].
  - intros p Hne. rewrite Hl by done. change (mk_trie 0 None 0 false 0 0) with trie_zero.
    by rewrite lookup_zero.
  - unfold trie_lookup in H0. cbn in H0. unfold meaning in H0. by destruct (is_leaf root).
Qed.

Lemma deinit_ok_wf t : trie_wf t -> deinit_ok t = true.
Proof.
  revert t. fix IH 1. intros [c ch n leaf k m] Hw.
  assert (n = Z.of_nat (length (kids ch)) /\ Forall trie_wf (kids ch)) as [-> Hf].
  { inversion Hw as [c' ch' n' leaf' k' m' Hn _ Hf]; subst. split; [done|].
    eapply Forall_impl; [exact Hf|]. intros t Ht. apply Ht. }
  clear Hw. destruct ch as [l|]; [|done]. cbn [deinit_ok kids] in *.
  rewrite Z.leb_refl. cbn [andb]. induction l as [|t l IHl]; [done|].
  apply Forall_cons in Hf as [Ht Hf]. cbn [forallb]. rewrite (IH t Ht). by apply IHl.
Qed.

(** ** Properties *)

(** C22: with the capabilities of any built-in terminal, [init_cap_trie] succeeds
    and the trie decodes every key: the bytes of a key, or of a modified key,
    whatever follows them, are matched exactly, with the meaning of the first
    entry that has them (the terminal's own keys before the modified ones), and
    a proper prefix of a key that is not a key itself asks for more input.  It
    decodes nothing else: on any bytes a meaning that is found is that of an
    entry at their beginning, of whose length the depth is, and when none is
    found the bytes begin with no entry, and the depth is that of all of them
    exactly when they are the beginning of an entry.  Releasing the trie only
    visits nodes that exist. *)
Theorem builtin_keys_decode name caps alias s :
  (name, caps, alias) ∈ builtin_terms -> s_alloc s = [] ->
  exists root, init_cap_trie (Some <$> caps) trie_zero s = (Ret (TB_OK, root), s) /\
    cap_trie_deinit root s = (Ret trie_zero, s) /\
    (forall q v rest, q <> [] -> first_entry (term_entries caps) q = Some v ->
      exists n, cap_trie_find (q ++ rest) root = Some (n, Z.of_nat (length q)) /\ meaning n = Some v) /\
    (forall q e, q <> [] -> e ∈ term_entries caps -> q `prefix_of` entry_seq e ->
      first_entry (term_entries caps) q = None ->
      exists n, cap_trie_find q root = Some (n, Z.of_nat (length q)) /\
        is_leaf n = false /\ 0 < nchildren n) /\
    (forall buf, buf <> [] -> finds_exactly (term_entries caps) root buf).
Proof.
  intros Hin Ha. destruct (builtin_entries _ _ _ Hin) as [Hpf Ho].
  destruct (init_cap_trie_spec caps s Ha Ho) as (root & E & Hw & Hp & Hm & Hr).
  exists root. split; [done|]. split; [unfold cap_trie_deinit; by rewrite deinit_ok_wf|]. split; [|split].
  - intros q v rest Hq Hv. by eapply find_entry.
  - intros q e Hq He Hpre Hno. eapply find_partial; try done.
    intros ->. by apply (entry_first _ _ He) in Hno.
  - intros buf Hb. by apply find_exactly.
Qed.

Lemma builtin_keys_decode_witness :
  exists root, init_cap_trie (Some <$> xterm_caps) trie_zero calm = (Ret (TB_OK, root), calm) /\
    cap_trie_deinit root calm = (Ret trie_zero, calm) /\
    (forall q v rest, q <> [] -> first_entry (term_entries xterm_caps) q = Some v ->
      exists n, cap_trie_find (q ++ rest) root = Some (n, Z.of_nat (length q)) /\ meaning n = Some v) /\
    (forall q e, q <> [] -> e ∈ term_entries xterm_caps -> q `prefix_of` entry_seq e ->
      first_entry (term_entries xterm_caps) q = None ->
      exists n, cap_trie_find q root = Some (n, Z.of_nat (length q)) /\
        is_leaf n = false /\ 0 < nchildren n) /\
    (forall buf, buf <> [] -> finds_exactly (term_entries xterm_caps) root buf).
Proof.
  apply (builtin_keys_decode (cs "xterm") xterm_caps (cs EmptyString) calm); [by left|reflexivity].
Defined.

(** A failed allocation in [cap_trie_add] leaves a node that counts a child
    it does not have; releasing the trie, as [tb_init] does next, then reads
    through a null pointer. *)
Theorem failed_add_breaks_deinit cap key m s t :
  s_alloc s = false :: t -> cstr cap <> [] ->
  exists root, cap_trie_add (Some cap) key m trie_zero s = (Ret (TB_ERR_MEM, root), set_alloc t s) /\
    fst (cap_trie_deinit root (set_alloc t s)) = Fault.
Proof.
  intros Ha Hc. unfold cap_trie_add. destruct (cstr cap) as [|c q] eqn:Eq; [done|].
  rewrite (proj2 (Z.leb_gt _ 0)) by (simpl; lia). cbn [trie_add].
  mrun (eq_refl : deref (child_index trie_zero c) s = (Ret None, s)).
  assert (tb_malloc (trie_size * (nchildren trie_zero + 1)) s = (Ret false, set_alloc t s)) as E
    by (unfold tb_malloc; change (PTRDIFF_MAX <? _) with false; cbv iota; unfold sys_alloc; by rewrite Ha).
  cbv zeta. mrun E. eexists. split; done.
Qed.

Lemma failed_add_breaks_deinit_witness :
  exists root, cap_trie_add (Some (esc "OP")) TB_KEY_F1 0 trie_zero (set_alloc [false] calm) =
      (Ret (TB_ERR_MEM, root), set_alloc [] (set_alloc [false] calm)) /\
    fst (cap_trie_deinit root (set_alloc [] (set_alloc [false] calm))) = Fault.
Proof.
  apply (failed_add_breaks_deinit (esc "OP") TB_KEY_F1 0 (set_alloc [false] calm) []);
    [reflexivity|vm_compute; discriminate].
Defined.
