(* ===== verification/TbGlobal.v ===== *)
(** * life/termbox2.h: the library's state

    [struct tb_global] is a record with one setter per field.  A computation of
    the library runs on [tbw]: the global, the system calls of [Posix], and what
    else the library asks of its environment (the files, the variables, the
    descriptors it opens). *)

From stdpp Require Import prelude list_numbers strings.
From Stdlib Require Import ZArith Lia.
From S2P Require Import Prelude CLib Posix TbTables TbText TbBuf TbTrie.
Open Scope Z_scope.

(** [struct tb_event] *)
Record tb_event := mk_event {
  ev_type : Z;
  ev_mod : Z;
  ev_key : Z;
  ev_ch : Z;
  ev_w : Z;
  ev_h : Z;
  ev_x : Z;
  ev_y : Z
}.
Definition event_zero : tb_event := mk_event 0 0 0 0 0 0 0 0.

Definition set_ev_type v e := mk_event v (ev_mod e) (ev_key e) (ev_ch e) (ev_w e) (ev_h e) (ev_x e) (ev_y e).
Definition set_ev_mod v e := mk_event (ev_type e) v (ev_key e) (ev_ch e) (ev_w e) (ev_h e) (ev_x e) (ev_y e).
Definition set_ev_key v e := mk_event (ev_type e) (ev_mod e) v (ev_ch e) (ev_w e) (ev_h e) (ev_x e) (ev_y e).
Definition set_ev_ch v e := mk_event (ev_type e) (ev_mod e) (ev_key e) v (ev_w e) (ev_h e) (ev_x e) (ev_y e).
Definition set_ev_wh w h e := mk_event (ev_type e) (ev_mod e) (ev_key e) (ev_ch e) w h (ev_x e) (ev_y e).
Definition set_ev_xy x y e := mk_event (ev_type e) (ev_mod e) (ev_key e) (ev_ch e) (ev_w e) (ev_h e) x y.

Definition TB_EVENT_KEY : Z := 1.
Definition TB_EVENT_RESIZE : Z := 2.
Definition TB_EVENT_MOUSE : Z := 3.
Definition TB_INPUT_CURRENT : Z := 0.
Definition TB_INPUT_ESC : Z := 1.
Definition TB_INPUT_ALT : Z := 2.
Definition TB_INPUT_MOUSE : Z := 4.
Definition TB_OUTPUT_CURRENT : Z := 0.
Definition TB_OUTPUT_NORMAL : Z := 1.
Definition TB_OUTPUT_256 : Z := 2.
Definition TB_OUTPUT_216 : Z := 3.
Definition TB_OUTPUT_GRAYSCALE : Z := 4.
Definition TB_OUTPUT_TRUECOLOR : Z := 5.
Definition TB_DEFAULT : Z := 0.
Definition TB_OPT_READ_BUF : Z := 64.
Definition TB_OPT_PRINTF_BUF : Z := 4096.

(** The attributes, by the width of [uintattr_t]. *)
Section Attributes.
Context `{config}.
Definition attr_flag (a16 a32 : Z) : Z := match attr_w with W16 => a16 | _ => a32 end.
Definition TB_BOLD : Z := attr_flag 256 16777216.
Definition TB_UNDERLINE : Z := attr_flag 512 33554432.
Definition TB_REVERSE : Z := attr_flag 1024 67108864.
Definition TB_ITALIC : Z := attr_flag 2048 134217728.
Definition TB_BLINK : Z := attr_flag 4096 268435456.
Definition TB_HI_BLACK : Z := attr_flag 8192 536870912.
Definition TB_BRIGHT : Z := attr_flag 16384 1073741824.
Definition TB_DIM : Z := attr_flag 32768 2147483648.
End Attributes.
Definition TB_STRIKEOUT : Z := 4294967296.
Definition TB_UNDERLINE_2 : Z := 8589934592.
Definition TB_OVERLINE : Z := 17179869184.
Definition TB_INVISIBLE : Z := 34359738368.

(** ** The global *)

Record tb_global := mk_global {
  ttyfd : Z;
  rfd : Z;
  wfd : Z;
  ttyfd_open : bool;
  resize_rfd : Z;
  resize_wfd : Z;
  g_width : Z;
  g_height : Z;
  cursor_x : Z;
  cursor_y : Z;
  last_x : Z;
  last_y : Z;
  g_fg : Z;
  g_bg : Z;
  last_fg : Z;
  last_bg : Z;
  input_mode : Z;
  output_mode : Z;
  terminfo : option (list Z);
  nterminfo : Z;
  caps : list (option (list Z));
  g_trie : cap_trie;
  g_in : bytebuf;
  g_out : bytebuf;
  back : cellbuf;
  front : cellbuf;
  orig_tios : termios;
  has_orig_tios : bool;
  last_errno : Z;
  initialized : bool;
  fn_extract_esc_pre : option (tb_event -> Z * tb_event * Z);
  fn_extract_esc_post : option (tb_event -> Z * tb_event * Z)
}.

Definition set_ttyfd v g := mk_global v (rfd g) (wfd g) (ttyfd_open g) (resize_rfd g)
  (resize_wfd g) (g_width g) (g_height g) (cursor_x g) (cursor_y g) (last_x g) (last_y g) (g_fg
  g) (g_bg g) (last_fg g) (last_bg g) (input_mode g) (output_mode g) (terminfo g) (nterminfo g)
  (caps g) (g_trie g) (g_in g) (g_out g) (back g) (front g) (orig_tios g) (has_orig_tios g)
  (last_errno g) (initialized g) (fn_extract_esc_pre g) (fn_extract_esc_post g).
Definition set_rfd v g := mk_global (ttyfd g) v (wfd g) (ttyfd_open g) (resize_rfd g)
  (resize_wfd g) (g_width g) (g_height g) (cursor_x g) (cursor_y g) (last_x g) (last_y g) (g_fg
  g) (g_bg g) (last_fg g) (last_bg g) (input_mode g) (output_mode g) (terminfo g) (nterminfo g)
  (caps g) (g_trie g) (g_in g) (g_out g) (back g) (front g) (orig_tios g) (has_orig_tios g)
  (last_errno g) (initialized g) (fn_extract_esc_pre g) (fn_extract_esc_post g).
Definition set_wfd v g := mk_global (ttyfd g) (rfd g) v (ttyfd_open g) (resize_rfd g)
  (resize_wfd g) (g_width g) (g_height g) (cursor_x g) (cursor_y g) (last_x g) (last_y g) (g_fg
  g) (g_bg g) (last_fg g) (last_bg g) (input_mode g) (output_mode g) (terminfo g) (nterminfo g)
  (caps g) (g_trie g) (g_in g) (g_out g) (back g) (front g) (orig_tios g) (has_orig_tios g)
  (last_errno g) (initialized g) (fn_extract_esc_pre g) (fn_extract_esc_post g).
Definition set_ttyfd_open v g := mk_global (ttyfd g) (rfd g) (wfd g) v (resize_rfd g)
  (resize_wfd g) (g_width g) (g_height g) (cursor_x g) (cursor_y g) (last_x g) (last_y g) (g_fg
  g) (g_bg g) (last_fg g) (last_bg g) (input_mode g) (output_mode g) (terminfo g) (nterminfo g)
  (caps g) (g_trie g) (g_in g) (g_out g) (back g) (front g) (orig_tios g) (has_orig_tios g)
  (last_errno g) (initialized g) (fn_extract_esc_pre g) (fn_extract_esc_post g).
Definition set_resize_rfd v g := mk_global (ttyfd g) (rfd g) (wfd g) (ttyfd_open g) v
  (resize_wfd g) (g_width g) (g_height g) (cursor_x g) (cursor_y g) (last_x g) (last_y g) (g_fg
  g) (g_bg g) (last_fg g) (last_bg g) (input_mode g) (output_mode g) (terminfo g) (nterminfo g)
  (caps g) (g_trie g) (g_in g) (g_out g) (back g) (front g) (orig_tios g) (has_orig_tios g)
  (last_errno g) (initialized g) (fn_extract_esc_pre g) (fn_extract_esc_post g).
Definition set_resize_wfd v g := mk_global (ttyfd g) (rfd g) (wfd g) (ttyfd_open g) (resize_rfd
  g) v (g_width g) (g_height g) (cursor_x g) (cursor_y g) (last_x g) (last_y g) (g_fg g) (g_bg
  g) (last_fg g) (last_bg g) (input_mode g) (output_mode g) (terminfo g) (nterminfo g) (caps g)
  (g_trie g) (g_in g) (g_out g) (back g) (front g) (orig_tios g) (has_orig_tios g) (last_errno
  g) (initialized g) (fn_extract_esc_pre g) (fn_extract_esc_post g).
Definition set_g_width v g := mk_global (ttyfd g) (rfd g) (wfd g) (ttyfd_open g) (resize_rfd g)
  (resize_wfd g) v (g_height g) (cursor_x g) (cursor_y g) (last_x g) (last_y g) (g_fg g) (g_bg
  g) (last_fg g) (last_bg g) (input_mode g) (output_mode g) (terminfo g) (nterminfo g) (caps g)
  (g_trie g) (g_in g) (g_out g) (back g) (front g) (orig_tios g) (has_orig_tios g) (last_errno
  g) (initialized g) (fn_extract_esc_pre g) (fn_extract_esc_post g).
Definition set_g_height v g := mk_global (ttyfd g) (rfd g) (wfd g) (ttyfd_open g) (resize_rfd g)
  (resize_wfd g) (g_width g) v (cursor_x g) (cursor_y g) (last_x g) (last_y g) (g_fg g) (g_bg g)
  (last_fg g) (last_bg g) (input_mode g) (output_mode g) (terminfo g) (nterminfo g) (caps g)
  (g_trie g) (g_in g) (g_out g) (back g) (front g) (orig_tios g) (has_orig_tios g) (last_errno
  g) (initialized g) (fn_extract_esc_pre g) (fn_extract_esc_post g).
Definition set_cursor_x v g := mk_global (ttyfd g) (rfd g) (wfd g) (ttyfd_open g) (resize_rfd g)
  (resize_wfd g) (g_width g) (g_height g) v (cursor_y g) (last_x g) (last_y g) (g_fg g) (g_bg g)
  (last_fg g) (last_bg g) (input_mode g) (output_mode g) (terminfo g) (nterminfo g) (caps g)
  (g_trie g) (g_in g) (g_out g) (back g) (front g) (orig_tios g) (has_orig_tios g) (last_errno
  g) (initialized g) (fn_extract_esc_pre g) (fn_extract_esc_post g).
Definition set_cursor_y v g := mk_global (ttyfd g) (rfd g) (wfd g) (ttyfd_open g) (resize_rfd g)
  (resize_wfd g) (g_width g) (g_height g) (cursor_x g) v (last_x g) (last_y g) (g_fg g) (g_bg g)
  (last_fg g) (last_bg g) (input_mode g) (output_mode g) (terminfo g) (nterminfo g) (caps g)
  (g_trie g) (g_in g) (g_out g) (back g) (front g) (orig_tios g) (has_orig_tios g) (last_errno
  g) (initialized g) (fn_extract_esc_pre g) (fn_extract_esc_post g).
Definition set_last_x v g := mk_global (ttyfd g) (rfd g) (wfd g) (ttyfd_open g) (resize_rfd g)
  (resize_wfd g) (g_width g) (g_height g) (cursor_x g) (cursor_y g) v (last_y g) (g_fg g) (g_bg
  g) (last_fg g) (last_bg g) (input_mode g) (output_mode g) (terminfo g) (nterminfo g) (caps g)
  (g_trie g) (g_in g) (g_out g) (back g) (front g) (orig_tios g) (has_orig_tios g) (last_errno
  g) (initialized g) (fn_extract_esc_pre g) (fn_extract_esc_post g).
Definition set_last_y v g := mk_global (ttyfd g) (rfd g) (wfd g) (ttyfd_open g) (resize_rfd g)
  (resize_wfd g) (g_width g) (g_height g) (cursor_x g) (cursor_y g) (last_x g) v (g_fg g) (g_bg
  g) (last_fg g) (last_bg g) (input_mode g) (output_mode g) (terminfo g) (nterminfo g) (caps g)
  (g_trie g) (g_in g) (g_out g) (back g) (front g) (orig_tios g) (has_orig_tios g) (last_errno
  g) (initialized g) (fn_extract_esc_pre g) (fn_extract_esc_post g).
Definition set_g_fg v g := mk_global (ttyfd g) (rfd g) (wfd g) (ttyfd_open g) (resize_rfd g)
  (resize_wfd g) (g_width g) (g_height g) (cursor_x g) (cursor_y g) (last_x g) (last_y g) v
  (g_bg g) (last_fg g) (last_bg g) (input_mode g) (output_mode g) (terminfo g) (nterminfo g)
  (caps g) (g_trie g) (g_in g) (g_out g) (back g) (front g) (orig_tios g) (has_orig_tios g)
  (last_errno g) (initialized g) (fn_extract_esc_pre g) (fn_extract_esc_post g).
Definition set_g_bg v g := mk_global (ttyfd g) (rfd g) (wfd g) (ttyfd_open g) (resize_rfd g)
  (resize_wfd g) (g_width g) (g_height g) (cursor_x g) (cursor_y g) (last_x g) (last_y g) (g_fg
  g) v (last_fg g) (last_bg g) (input_mode g) (output_mode g) (terminfo g) (nterminfo g) (caps
  g) (g_trie g) (g_in g) (g_out g) (back g) (front g) (orig_tios g) (has_orig_tios g)
  (last_errno g) (initialized g) (fn_extract_esc_pre g) (fn_extract_esc_post g).
Definition set_last_fg v g := mk_global (ttyfd g) (rfd g) (wfd g) (ttyfd_open g) (resize_rfd g)
  (resize_wfd g) (g_width g) (g_height g) (cursor_x g) (cursor_y g) (last_x g) (last_y g) (g_fg
  g) (g_bg g) v (last_bg g) (input_mode g) (output_mode g) (terminfo g) (nterminfo g) (caps g)
  (g_trie g) (g_in g) (g_out g) (back g) (front g) (orig_tios g) (has_orig_tios g) (last_errno
  g) (initialized g) (fn_extract_esc_pre g) (fn_extract_esc_post g).
Definition set_last_bg v g := mk_global (ttyfd g) (rfd g) (wfd g) (ttyfd_open g) (resize_rfd g)
  (resize_wfd g) (g_width g) (g_height g) (cursor_x g) (cursor_y g) (last_x g) (last_y g) (g_fg
  g) (g_bg g) (last_fg g) v (input_mode g) (output_mode g) (terminfo g) (nterminfo g) (caps g)
  (g_trie g) (g_in g) (g_out g) (back g) (front g) (orig_tios g) (has_orig_tios g) (last_errno
  g) (initialized g) (fn_extract_esc_pre g) (fn_extract_esc_post g).
Definition set_input_mode v g := mk_global (ttyfd g) (rfd g) (wfd g) (ttyfd_open g) (resize_rfd
  g) (resize_wfd g) (g_width g) (g_height g) (cursor_x g) (cursor_y g) (last_x g) (last_y g)
  (g_fg g) (g_bg g) (last_fg g) (last_bg g) v (output_mode g) (terminfo g) (nterminfo g) (caps
  g) (g_trie g) (g_in g) (g_out g) (back g) (front g) (orig_tios g) (has_orig_tios g)
  (last_errno g) (initialized g) (fn_extract_esc_pre g) (fn_extract_esc_post g).
Definition set_output_mode v g := mk_global (ttyfd g) (rfd g) (wfd g) (ttyfd_open g) (resize_rfd
  g) (resize_wfd g) (g_width g) (g_height g) (cursor_x g) (cursor_y g) (last_x g) (last_y g)
  (g_fg g) (g_bg g) (last_fg g) (last_bg g) (input_mode g) v (terminfo g) (nterminfo g) (caps g)
  (g_trie g) (g_in g) (g_out g) (back g) (front g) (orig_tios g) (has_orig_tios g) (last_errno
  g) (initialized g) (fn_extract_esc_pre g) (fn_extract_esc_post g).
Definition set_terminfo v g := mk_global (ttyfd g) (rfd g) (wfd g) (ttyfd_open g) (resize_rfd g)
  (resize_wfd g) (g_width g) (g_height g) (cursor_x g) (cursor_y g) (last_x g) (last_y g) (g_fg
  g) (g_bg g) (last_fg g) (last_bg g) (input_mode g) (output_mode g) v (nterminfo g) (caps g)
  (g_trie g) (g_in g) (g_out g) (back g) (front g) (orig_tios g) (has_orig_tios g) (last_errno
  g) (initialized g) (fn_extract_esc_pre g) (fn_extract_esc_post g).
Definition set_nterminfo v g := mk_global (ttyfd g) (rfd g) (wfd g) (ttyfd_open g) (resize_rfd
  g) (resize_wfd g) (g_width g) (g_height g) (cursor_x g) (cursor_y g) (last_x g) (last_y g)
  (g_fg g) (g_bg g) (last_fg g) (last_bg g) (input_mode g) (output_mode g) (terminfo g) v (caps
  g) (g_trie g) (g_in g) (g_out g) (back g) (front g) (orig_tios g) (has_orig_tios g)
  (last_errno g) (initialized g) (fn_extract_esc_pre g) (fn_extract_esc_post g).
Definition set_caps v g := mk_global (ttyfd g) (rfd g) (wfd g) (ttyfd_open g) (resize_rfd g)
  (resize_wfd g) (g_width g) (g_height g) (cursor_x g) (cursor_y g) (last_x g) (last_y g) (g_fg
  g) (g_bg g) (last_fg g) (last_bg g) (input_mode g) (output_mode g) (terminfo g) (nterminfo g)
  v (g_trie g) (g_in g) (g_out g) (back g) (front g) (orig_tios g) (has_orig_tios g) (last_errno
  g) (initialized g) (fn_extract_esc_pre g) (fn_extract_esc_post g).
Definition set_g_trie v g := mk_global (ttyfd g) (rfd g) (wfd g) (ttyfd_open g) (resize_rfd g)
  (resize_wfd g) (g_width g) (g_height g) (cursor_x g) (cursor_y g) (last_x g) (last_y g) (g_fg
  g) (g_bg g) (last_fg g) (last_bg g) (input_mode g) (output_mode g) (terminfo g) (nterminfo g)
  (caps g) v (g_in g) (g_out g) (back g) (front g) (orig_tios g) (has_orig_tios g) (last_errno
  g) (initialized g) (fn_extract_esc_pre g) (fn_extract_esc_post g).
Definition set_g_in v g := mk_global (ttyfd g) (rfd g) (wfd g) (ttyfd_open g) (resize_rfd g)
  (resize_wfd g) (g_width g) (g_height g) (cursor_x g) (cursor_y g) (last_x g) (last_y g) (g_fg
  g) (g_bg g) (last_fg g) (last_bg g) (input_mode g) (output_mode g) (terminfo g) (nterminfo g)
  (caps g) (g_trie g) v (g_out g) (back g) (front g) (orig_tios g) (has_orig_tios g) (last_errno
  g) (initialized g) (fn_extract_esc_pre g) (fn_extract_esc_post g).
Definition set_g_out v g := mk_global (ttyfd g) (rfd g) (wfd g) (ttyfd_open g) (resize_rfd g)
  (resize_wfd g) (g_width g) (g_height g) (cursor_x g) (cursor_y g) (last_x g) (last_y g) (g_fg
  g) (g_bg g) (last_fg g) (last_bg g) (input_mode g) (output_mode g) (terminfo g) (nterminfo g)
  (caps g) (g_trie g) (g_in g) v (back g) (front g) (orig_tios g) (has_orig_tios g) (last_errno
  g) (initialized g) (fn_extract_esc_pre g) (fn_extract_esc_post g).
Definition set_back v g := mk_global (ttyfd g) (rfd g) (wfd g) (ttyfd_open g) (resize_rfd g)
  (resize_wfd g) (g_width g) (g_height g) (cursor_x g) (cursor_y g) (last_x g) (last_y g) (g_fg
  g) (g_bg g) (last_fg g) (last_bg g) (input_mode g) (output_mode g) (terminfo g) (nterminfo g)
  (caps g) (g_trie g) (g_in g) (g_out g) v (front g) (orig_tios g) (has_orig_tios g) (last_errno
  g) (initialized g) (fn_extract_esc_pre g) (fn_extract_esc_post g).
Definition set_front v g := mk_global (ttyfd g) (rfd g) (wfd g) (ttyfd_open g) (resize_rfd g)
  (resize_wfd g) (g_width g) (g_height g) (cursor_x g) (cursor_y g) (last_x g) (last_y g) (g_fg
  g) (g_bg g) (last_fg g) (last_bg g) (input_mode g) (output_mode g) (terminfo g) (nterminfo g)
  (caps g) (g_trie g) (g_in g) (g_out g) (back g) v (orig_tios g) (has_orig_tios g) (last_errno
  g) (initialized g) (fn_extract_esc_pre g) (fn_extract_esc_post g).
Definition set_orig_tios v g := mk_global (ttyfd g) (rfd g) (wfd g) (ttyfd_open g) (resize_rfd
  g) (resize_wfd g) (g_width g) (g_height g) (cursor_x g) (cursor_y g) (last_x g) (last_y g)
  (g_fg g) (g_bg g) (last_fg g) (last_bg g) (input_mode g) (output_mode g) (terminfo g)
  (nterminfo g) (caps g) (g_trie g) (g_in g) (g_out g) (back g) (front g) v (has_orig_tios g)
  (last_errno g) (initialized g) (fn_extract_esc_pre g) (fn_extract_esc_post g).
Definition set_has_orig_tios v g := mk_global (ttyfd g) (rfd g) (wfd g) (ttyfd_open g)
  (resize_rfd g) (resize_wfd g) (g_width g) (g_height g) (cursor_x g) (cursor_y g) (last_x g)
  (last_y g) (g_fg g) (g_bg g) (last_fg g) (last_bg g) (input_mode g) (output_mode g) (terminfo
  g) (nterminfo g) (caps g) (g_trie g) (g_in g) (g_out g) (back g) (front g) (orig_tios g) v
  (last_errno g) (initialized g) (fn_extract_esc_pre g) (fn_extract_esc_post g).
Definition set_last_errno v g := mk_global (ttyfd g) (rfd g) (wfd g) (ttyfd_open g) (resize_rfd
  g) (resize_wfd g) (g_width g) (g_height g) (cursor_x g) (cursor_y g) (last_x g) (last_y g)
  (g_fg g) (g_bg g) (last_fg g) (last_bg g) (input_mode g) (output_mode g) (terminfo g)
  (nterminfo g) (caps g) (g_trie g) (g_in g) (g_out g) (back g) (front g) (orig_tios g)
  (has_orig_tios g) v (initialized g) (fn_extract_esc_pre g) (fn_extract_esc_post g).
Definition set_initialized v g := mk_global (ttyfd g) (rfd g) (wfd g) (ttyfd_open g) (resize_rfd
  g) (resize_wfd g) (g_width g) (g_height g) (cursor_x g) (cursor_y g) (last_x g) (last_y g)
  (g_fg g) (g_bg g) (last_fg g) (last_bg g) (input_mode g) (output_mode g) (terminfo g)
  (nterminfo g) (caps g) (g_trie g) (g_in g) (g_out g) (back g) (front g) (orig_tios g)
  (has_orig_tios g) (last_errno g) v (fn_extract_esc_pre g) (fn_extract_esc_post g).
Definition set_fn_extract_esc_pre v g := mk_global (ttyfd g) (rfd g) (wfd g) (ttyfd_open g)
  (resize_rfd g) (resize_wfd g) (g_width g) (g_height g) (cursor_x g) (cursor_y g) (last_x g)
  (last_y g) (g_fg g) (g_bg g) (last_fg g) (last_bg g) (input_mode g) (output_mode g) (terminfo
  g) (nterminfo g) (caps g) (g_trie g) (g_in g) (g_out g) (back g) (front g) (orig_tios g)
  (has_orig_tios g) (last_errno g) (initialized g) v (fn_extract_esc_post g).
Definition set_fn_extract_esc_post v g := mk_global (ttyfd g) (rfd g) (wfd g) (ttyfd_open g)
  (resize_rfd g) (resize_wfd g) (g_width g) (g_height g) (cursor_x g) (cursor_y g) (last_x g)
  (last_y g) (g_fg g) (g_bg g) (last_fg g) (last_bg g) (input_mode g) (output_mode g) (terminfo
  g) (nterminfo g) (caps g) (g_trie g) (g_in g) (g_out g) (back g) (front g) (orig_tios g)
  (has_orig_tios g) (last_errno g) (initialized g) (fn_extract_esc_pre g) v.

(** ** The environment *)

(** [open], [pipe] and [sigaction] answer from scripts; an exhausted script
    means success with fresh descriptors.  [e_opened] and [e_closed] record the
    descriptors that were opened and closed. *)
Record env := mk_env {
  e_var : list Z -> option (list Z);
  e_file : list Z -> option (list Z);
  e_isatty : Z -> bool;
  e_open : list (Z + Z);
  e_pipe : list (Z + Z * Z);
  e_sigaction : list (option Z);
  e_opened : list Z;
  e_closed : list Z;
  e_handler : bool;
  e_pipe_data : list Z
}.

Definition set_e_open v e := mk_env (e_var e) (e_file e) (e_isatty e) v (e_pipe e)
  (e_sigaction e) (e_opened e) (e_closed e) (e_handler e) (e_pipe_data e).
Definition set_e_pipe v e := mk_env (e_var e) (e_file e) (e_isatty e) (e_open e) v
  (e_sigaction e) (e_opened e) (e_closed e) (e_handler e) (e_pipe_data e).
Definition set_e_sigaction v e := mk_env (e_var e) (e_file e) (e_isatty e) (e_open e) (e_pipe e)
  v (e_opened e) (e_closed e) (e_handler e) (e_pipe_data e).
Definition set_e_opened v e := mk_env (e_var e) (e_file e) (e_isatty e) (e_open e) (e_pipe e)
  (e_sigaction e) v (e_closed e) (e_handler e) (e_pipe_data e).
Definition set_e_closed v e := mk_env (e_var e) (e_file e) (e_isatty e) (e_open e) (e_pipe e)
  (e_sigaction e) (e_opened e) v (e_handler e) (e_pipe_data e).
Definition set_e_handler v e := mk_env (e_var e) (e_file e) (e_isatty e) (e_open e) (e_pipe e)
  (e_sigaction e) (e_opened e) (e_closed e) v (e_pipe_data e).
Definition set_e_pipe_data v e := mk_env (e_var e) (e_file e) (e_isatty e) (e_open e) (e_pipe e)
  (e_sigaction e) (e_opened e) (e_closed e) (e_handler e) v.

Record tbw := mk_tbw { G : tb_global; T : sys; X : env }.
Definition set_G g w := mk_tbw g (T w) (X w).
Definition set_T t w := mk_tbw (G w) t (X w).
Definition set_X x w := mk_tbw (G w) (T w) x.

Definition upd (f : tb_global -> tb_global) : M tbw unit := modify (fun w => set_G (f (G w)) w).
Definition glob {A} (f : tb_global -> A) : M tbw A := gets (fun w => f (G w)).
Definition tsys {A} (m : M sys A) : M tbw A := zoom T set_T m.

(** [if_err_return (rv, m)] followed by [k]. *)
Definition if_err_return (m k : M tbw Z) : M tbw Z :=
  let* rv := m in if negb (rv =? TB_OK) then ret rv else k.
Notation "m >>! k" := (if_err_return m k) (at level 199, right associativity) : prog_scope.

Definition if_not_init_return (k : M tbw Z) : M tbw Z :=
  let* i := glob initialized in if negb i then ret TB_ERR_NOT_INIT else k.

(** ** Writing to [global.out] *)

Definition out_op (f : bytebuf -> M sys (Z * bytebuf)) : M tbw Z :=
  let* b := glob g_out in
  let* ' (rv, b) := tsys (f b) in
  upd (set_g_out b) ;;;
  ret rv.

Definition out_nputs (bs : list Z) : M tbw Z := out_op (fun b => bytebuf_nputs b bs).
Definition out_puts (s : option (list Z)) : M tbw Z := out_op (fun b => bytebuf_puts b s).

(** [bytebuf_puts (&global.out, global.caps[i])] *)
Definition out_cap (i : Z) : M tbw Z :=
  let* l := glob caps in
  let* c := deref (zlookup l i) in
  out_puts c.

(** [bytebuf_flush (&global.out, global.wfd)] *)
Definition out_flush : M tbw Z :=
  let* b := glob g_out in
  let* ' (rv, b, e) := tsys (bytebuf_flush b) in
  upd (set_g_out b) ;;;
  match e with Some e => upd (set_last_errno e) | None => ret tt end ;;;
  ret rv.

(** [send_literal] *)
Definition send_literal (s : list Z) : M tbw Z := out_nputs s.

(** [do ... while (num)] of [convert_num]: the digits, lowest first, in an array
    of 32. *)
Fixpoint digits_loop (fuel : nat) (num : Z) (buf : list Z) : option (list Z) :=
  match fuel with
  | O => None
  | S f =>
      let buf := buf ++ [48 + num mod 10] in
      let num := num / 10 in
      if num =? 0 then Some buf else digits_loop f num buf
  end.

(** The swaps of [convert_num]. *)
Definition swap_ends (buf : list Z) (i : Z) : option (list Z) :=
  let j := Z.of_nat (length buf) - 1 - i in
  match zlookup buf i, zlookup buf j with
  | Some ch, Some cj =>
      match zupdate buf i cj with Some buf => zupdate buf j ch | None => None end
  | _, _ => None
  end.

Definition convert_num (num : Z) : option (list Z) :=
  match digits_loop 32 num [] with
  | None => None
  | Some buf => foldM swap_ends buf (seqZ 0 (Z.of_nat (length buf) / 2))
  end.

(** [send_num]: [n] is converted to [uint32_t]. *)
Definition send_num (n : Z) : M tbw Z :=
  let* s := deref (convert_num (wrapu 32 n)) in
  out_nputs s.

Definition send_cursor_if (x y : Z) : M tbw Z :=
  if (x <? 0) || (y <? 0) then ret TB_OK else
  send_literal (esc "[") >>!
  send_num (y + 1) >>!
  send_literal (lit ";") >>!
  send_num (x + 1) >>!
  send_literal (lit "H") >>!
  ret TB_OK.

(** ** Lemmas *)

(** *** Numbers *)

Lemma digits_loop_S f n buf :
  digits_loop (S f) n buf =
    if n / 10 =? 0 then Some (buf ++ [48 + n mod 10]) else digits_loop f (n / 10) (buf ++ [48 + n mod 10]).
Proof. done. Qed.

Lemma udec_fuel_S f n acc :
  udec_fuel (S f) n acc =
    if n <? 10 then (48 + n mod 10) :: acc else udec_fuel f (n / 10) ((48 + n mod 10) :: acc).
Proof. done. Qed.

Lemma digits_loop_spec f f' n buf :
  0 <= n < 10 ^ Z.of_nat (S f) -> n < 2 ^ Z.of_nat (S f') ->
  digits_loop (S f) n buf = Some (buf ++ rev (udec_fuel (S f') n [])).
Proof.
  revert f' n buf. induction f as [|f IH]; intros f' n buf Hn Hn'.
  - assert (n < 10) by (change (10 ^ Z.of_nat 1) with 10 in Hn; lia).
    rewrite digits_loop_S, udec_fuel_S, (Z.div_small n 10), (proj2 (Z.ltb_lt n 10)) by lia. done.
  - rewrite digits_loop_S, udec_fuel_S. destruct (Z.ltb_spec n 10).
    + rewrite (Z.div_small n 10) by lia. done.
    + assert (0 < n / 10) by (apply Z.div_str_pos; lia).
      rewrite (proj2 (Z.eqb_neq (n / 10) 0)) by lia.
      destruct f' as [|f']; [simpl in Hn'; lia|].
      rewrite udec_fuel_app, rev_app_distr. cbn [rev app].
      assert (n / 10 < 10 ^ Z.of_nat (S f)).
      { apply Z.div_lt_upper_bound; [lia|]. rewrite <- Z.pow_succ_r by lia.
        replace (Z.succ (Z.of_nat (S f))) with (Z.of_nat (S (S f))) by lia. lia. }
      assert (n / 10 < 2 ^ Z.of_nat (S f')).
      { apply Z.div_lt_upper_bound; [lia|].
        replace (Z.of_nat (S (S f'))) with (Z.succ (Z.of_nat (S f'))) in Hn' by lia.
        rewrite Z.pow_succ_r in Hn' by lia. pose proof (Z.pow_pos_nonneg 2 (Z.of_nat (S f'))). lia. }
      rewrite (IH f') by lia. by rewrite <- app_assoc.
Qed.

(** What the swaps have done after [k] of them. *)
Definition half_rev (buf l : list Z) (k : nat) : Prop :=
  length l = length buf /\
  forall j, (j < length buf)%nat ->
    l !! j = if decide (j < k \/ length buf - k <= j)%nat then buf !! (length buf - 1 - j)%nat else buf !! j.

Lemma swaps_spec buf (k : nat) :
  (2 * k <= length buf)%nat ->
  exists l, foldM swap_ends buf (seqZ 0 (Z.of_nat k)) = Some l /\ half_rev buf l k.
Proof.
  induction k as [|k IH]; intros Hk.
  - exists buf. split; [done|]. split; [done|]. intros j Hj. by rewrite decide_False by lia.
  - destruct IH as (l & E & Hl & Hv); [lia|]. rewrite seqZ_S, foldM_app, E. cbn [foldM].
    unfold swap_ends. rewrite Z.add_0_l.
    destruct (zlookup_is_Some l (Z.of_nat k)) as [a Ea]; [lia|].
    destruct (zlookup_is_Some l (Z.of_nat (length l) - 1 - Z.of_nat k)) as [b Eb]; [lia|].
    rewrite Ea, Eb, zupdate_range, zupdate_range by (rewrite ?length_insert; lia).
    eexists. split; [done|]. split; [by rewrite !length_insert|]. intros j Hj.
    rewrite zlookup_nonneg in Ea, Eb by lia.
    replace (Z.to_nat (Z.of_nat (length l) - 1 - Z.of_nat k)) with (length buf - 1 - k)%nat in * by lia.
    rewrite Nat2Z.id in Ea |- *. pose proof (Hv k ltac:(lia)) as Hvk.
    pose proof (Hv (length buf - 1 - k)%nat ltac:(lia)) as Hvk'.
    rewrite decide_False in Hvk by lia. rewrite decide_False in Hvk' by lia.
    destruct (decide (j = (length buf - 1 - k)%nat)) as [->|Hj1].
    + rewrite list_lookup_insert_eq by (rewrite length_insert; lia).
      rewrite decide_True by lia. rewrite <- Ea, Hvk. f_equal. lia.
    + rewrite list_lookup_insert_ne by done.
      destruct (decide (j = k)) as [->|Hj2].
      * rewrite list_lookup_insert_eq by lia. rewrite decide_True by lia. congruence.
      * rewrite list_lookup_insert_ne by done. rewrite Hv by done.
        destruct (decide (j < k \/ length buf - k <= j)%nat), (decide (j < S k \/ length buf - S k <= j)%nat); done || lia.
Qed.

Lemma swaps_rev buf :
  foldM swap_ends buf (seqZ 0 (Z.of_nat (length buf) / 2)) = Some (rev buf).
Proof.
  assert (Z.of_nat (length buf) / 2 = Z.of_nat (length buf / 2)) as -> by (rewrite Nat2Z.inj_div; done).
  pose proof (Nat.div_mod (length buf) 2 ltac:(done)) as Hd.
  pose proof (Nat.mod_upper_bound (length buf) 2 ltac:(done)).
  destruct (swaps_spec buf (length buf / 2)) as (l & -> & Hl & Hv); [lia|].
  f_equal. rewrite rev_alt. change (rev_append buf []) with (reverse buf).
  apply list_eq. intros j. destruct (decide (j < length buf)%nat) as [Hj|Hj].
  - rewrite Hv, reverse_lookup by done.
    replace (length buf - S j)%nat with (length buf - 1 - j)%nat by lia.
    case_decide; [done|]. f_equal. lia.
  - rewrite !lookup_ge_None_2; [done|rewrite length_reverse; lia|lia].
Qed.

Lemma convert_num_spec n : 0 <= n < 2 ^ 32 -> convert_num n = Some (udec n).
Proof.
  intros Hn. unfold convert_num.
  assert (n < 2 ^ Z.of_nat (S (Z.to_nat (Z.log2 n)))) as Hlog by (apply udec_fuel_enough; lia).
  rewrite (digits_loop_spec 31 (Z.to_nat (Z.log2 n))); [| |done].
  - cbn [app]. rewrite swaps_rev. by rewrite rev_involutive.
  - change (10 ^ Z.of_nat 32) with 100000000000000000000000000000000.
    change (2 ^ 32) with 4294967296 in Hn. lia.
Qed.

(** *** What is appended to [global.out] *)

Definition put_out (b : bytebuf) (w : tbw) : tbw := set_G (set_g_out b (G w)) w.

(** Allocations succeed and there is room for [n] more bytes. *)
Definition room (w : tbw) (n : Z) : Prop :=
  bb_wf (g_out (G w)) /\ s_alloc (T w) = [] /\
  2 * (bb_len (g_out (G w)) + n + 1) <= PTRDIFF_MAX.

(** [m] returns [TB_OK], appends [bs] to the output buffer and changes nothing
    else, from every state whose global is [g] but for its output buffer. *)
Definition emits (g : tb_global) (m : M tbw Z) (bs : list Z) : Prop :=
  forall w, set_g_out bytebuf_zero (G w) = set_g_out bytebuf_zero g -> room w (Z.of_nat (length bs)) ->
  exists b, m w = (Ret TB_OK, put_out b w) /\ bb_wf b /\
    bb_bytes b = bb_bytes (g_out (G w)) ++ bs.

Lemma put_out_same g b w :
  set_g_out bytebuf_zero (G w) = set_g_out bytebuf_zero g ->
  set_g_out bytebuf_zero (G (put_out b w)) = set_g_out bytebuf_zero g.
Proof. intros H. exact H. Qed.

Lemma put_out_id w : put_out (g_out (G w)) w = w.
Proof. by destruct w as [[] ? ?]. Qed.

Lemma emits_ret g : emits g (ret TB_OK) [].
Proof.
  intros w _ [Hw _]. exists (g_out (G w)). by rewrite put_out_id, app_nil_r.
Qed.

Lemma tsys_ret {A} (m : M sys A) w a s : m (T w) = (Ret a, s) -> tsys m w = (Ret a, set_T s w).
Proof. intros H. by apply zoom_ret. Qed.

Lemma set_T_id w : set_T (T w) w = w.
Proof. by destruct w. Qed.

Lemma out_op_ret f w rv b :
  f (g_out (G w)) (T w) = (Ret (rv, b), T w) -> out_op f w = (Ret rv, put_out b w).
Proof.
  intros H. unfold out_op. mrun (eq_refl : glob g_out w = (Ret (g_out (G w)), w)).
  mrun (tsys_ret _ _ _ _ H). by rewrite set_T_id.
Qed.

Lemma emits_nputs g bs : emits g (out_nputs bs) bs.
Proof.
  intros w _ (Hw & Ha & Hr).
  destruct (nputs_spec (g_out (G w)) bs (T w) Hw) as (rv & b & s & E & Hc & Hn); [unfold PTRDIFF_MAX in *; lia|].
  destruct (Hn Ha ltac:(lia)) as [-> ->]. exists b. split; [by apply out_op_ret|].
  destruct Hc as [(_ & ? & ?)|[? _]]; done.
Qed.

Lemma emits_puts g s : emits g (out_puts (Some s)) (cstr s).
Proof.
  intros w Hg Hr. unfold out_puts, bytebuf_puts.
  destruct (Z.leb_spec (Z.of_nat (length (cstr s))) 0).
  - exists (g_out (G w)). split; [by apply out_op_ret|]. destruct Hr as [Hw _]. split; [done|].
    assert (cstr s = []) as -> by (apply length_zero_iff_nil; lia). by rewrite app_nil_r.
  - destruct (emits_nputs g (cstr s) w Hg Hr) as (b & E & Hb). by exists b.
Qed.

Lemma emits_seq g m k bs1 bs2 : emits g m bs1 -> emits g k bs2 -> emits g (m >>! k) (bs1 ++ bs2).
Proof.
  intros Hm Hk w Hg (Hw & Ha & Hr). rewrite length_app in Hr.
  destruct (Hm w Hg) as (b1 & E1 & Hw1 & Hb1); [by repeat split; [| |lia]|].
  destruct (Hk (put_out b1 w) Hg) as (b2 & E2 & Hw2 & Hb2).
  - split; [done|]. split; [done|]. pose proof (bb_bytes_length b1 Hw1) as L1.
    pose proof (bb_bytes_length _ Hw) as L. rewrite Hb1, length_app in L1. cbn. lia.
  - exists b2. unfold if_err_return. mrun E1. cbn [negb Z.eqb TB_OK]. split; [exact E2|].
    split; [done|]. rewrite Hb2. cbn. by rewrite Hb1, <- app_assoc.
Qed.

Lemma emits_eq g m bs bs' : emits g m bs -> bs = bs' -> emits g m bs'.
Proof. by intros ? <-. Qed.

Lemma emits_num g n : emits g (send_num n) (udec (wrapu 32 n)).
Proof.
  intros w Hg Hr. unfold send_num. rewrite convert_num_spec by (apply wrapu_range; lia).
  match goal with |- context [bind (deref (Some ?x)) _ w] =>
    mrun (eq_refl : deref (Some x) w = (Ret x, w)) end.
  by apply (emits_nputs g).
Qed.

(** The bytes of a cursor move. *)
Definition cursor_bytes (x y : Z) : list Z :=
  if (x <? 0) || (y <? 0) then []
  else esc "[" ++ udec (wrapu 32 (y + 1)) ++ lit ";" ++ udec (wrapu 32 (x + 1)) ++ lit "H".

Lemma emits_cursor g x y : emits g (send_cursor_if x y) (cursor_bytes x y).
Proof.
  unfold send_cursor_if, cursor_bytes. destruct (_ || _); [apply emits_ret|].
  repeat (apply emits_seq; [apply emits_nputs || apply emits_num|]).
  eapply emits_eq; [apply emits_seq; [apply emits_nputs|apply emits_ret]|by rewrite app_nil_r].
Qed.

(** The text of a capability. *)
Definition cap_text (g : tb_global) (i : Z) : list Z :=
  match zlookup (caps g) i with Some (Some s) => cstr s | _ => [] end.

Definition caps_ok (g : tb_global) : Prop :=
  length (caps g) = Z.to_nat TB_CAP__COUNT /\ Forall is_Some (caps g).

Lemma emits_cap g i :
  caps_ok g -> 0 <= i < TB_CAP__COUNT -> emits g (out_cap i) (cap_text g i).
Proof.
  intros [Hl Hf] Hi w Hg Hr. unfold out_cap, cap_text in *.
  assert (caps (G w) = caps g) as Ec by (apply (f_equal caps) in Hg; exact Hg).
  mrun (eq_refl : glob caps w = (Ret (caps (G w)), w)). rewrite Ec.
  destruct (zlookup_is_Some (caps g) i) as [c E]; [rewrite Hl; unfold TB_CAP__COUNT in *; lia|]. rewrite E in Hr |- *.
  rewrite zlookup_nonneg in E by lia. rewrite Forall_lookup in Hf. destruct (Hf _ _ E) as [s ->].
  mrun (eq_refl : deref (Some (Some s)) w = (Ret (Some s), w)).
  by apply (emits_puts g).
Qed.

Lemma same_but_out g w :
  set_g_out bytebuf_zero (G w) = set_g_out bytebuf_zero g -> G w = set_g_out (g_out (G w)) g.
Proof. intros H. apply (f_equal (set_g_out (g_out (G w)))) in H. destruct (G w). exact H. Qed.

Lemma emits_glob {A} g (f : tb_global -> A) k bs :
  (forall b, f (set_g_out b g) = f g) -> emits g (k (f g)) bs -> emits g (bind (glob f) k) bs.
Proof.
  intros Hf Hk w Hg Hr. mrun (eq_refl : glob f w = (Ret (f (G w)), w)).
  assert (f (G w) = f g) as -> by (rewrite (same_but_out g w Hg); apply Hf). by apply Hk.
Qed.

(** The same, with an update [F] of the state at the end. *)
Definition ends (g : tb_global) (m : M tbw Z) (bs : list Z) (F : tbw -> tbw) : Prop :=
  forall w, set_g_out bytebuf_zero (G w) = set_g_out bytebuf_zero g -> room w (Z.of_nat (length bs)) ->
  exists b, m w = (Ret TB_OK, F (put_out b w)) /\ bb_wf b /\
    bb_bytes b = bb_bytes (g_out (G w)) ++ bs.

Lemma ends_emits g m bs : emits g m bs -> ends g m bs id.
Proof. intros H. exact H. Qed.

Lemma ends_seq g m k bs1 bs2 F : emits g m bs1 -> ends g k bs2 F -> ends g (m >>! k) (bs1 ++ bs2) F.
Proof.
  intros Hm Hk w Hg (Hw & Ha & Hr). rewrite length_app in Hr.
  destruct (Hm w Hg) as (b1 & E1 & Hw1 & Hb1); [by repeat split; [| |lia]|].
  destruct (Hk (put_out b1 w) Hg) as (b2 & E2 & Hw2 & Hb2).
  - split; [done|]. split; [done|]. pose proof (bb_bytes_length b1 Hw1) as L1.
    pose proof (bb_bytes_length _ Hw) as L. rewrite Hb1, length_app in L1. cbn. lia.
  - exists b2. unfold if_err_return. mrun E1. cbn [negb Z.eqb TB_OK]. split; [exact E2|].
    split; [done|]. rewrite Hb2. cbn. by rewrite Hb1, <- app_assoc.
Qed.

Lemma ends_pure g m F : (forall w, m w = (Ret TB_OK, F w)) -> ends g m [] F.
Proof.
  intros H w _ [Hw _]. exists (g_out (G w)). by rewrite put_out_id, app_nil_r.
Qed.

Lemma ends_glob {A} g (f : tb_global -> A) k bs F :
  (forall b, f (set_g_out b g) = f g) -> ends g (k (f g)) bs F -> ends g (bind (glob f) k) bs F.
Proof.
  intros Hf Hk w Hg Hr. mrun (eq_refl : glob f w = (Ret (f (G w)), w)).
  assert (f (G w) = f g) as -> by (rewrite (same_but_out g w Hg); apply Hf). by apply Hk.
Qed.

Lemma ends_eq g m bs bs' F : ends g m bs F -> bs = bs' -> ends g m bs' F.
Proof. by intros ? <-. Qed.
