(* ===== verification/TbOutput.v ===== *)
(** * life/termbox2.h: sending attributes and characters, drawing the screen

    [int]-valued functions whose result the source ignores are run for their
    effect.  A [uintattr_t] is an integer in [0, 2^attr_bits). *)

From stdpp Require Import prelude list_numbers strings gmap.
From Stdlib Require Import ZArith Lia.
From S2P Require Import Prelude CLib Posix TbTables TbText TbBuf TbTrie TbGlobal.
Open Scope Z_scope.

Section Output.
Context `{opts : config}.

(** [fg & FLAG] as a condition. *)
Definition has (a flag : Z) : bool := negb (Z.land a flag =? 0).

Definition wide_attr : bool := match attr_w with W16 => false | _ => true end.

(** ** Attributes *)

(** The switch of [send_attr]: [cfg] and [cbg]. *)
Definition attr_colors (mode fg bg : Z) : Z * Z :=
  if mode =? TB_OUTPUT_256 then
    (if has fg TB_HI_BLACK then 0 else Z.land fg 255,
     if has bg TB_HI_BLACK then 0 else Z.land bg 255)
  else if mode =? TB_OUTPUT_216 then
    let clamp c := if 216 <? c then 216 else c in
    (clamp (Z.land fg 255) + 15, clamp (Z.land bg 255) + 15)
  else if mode =? TB_OUTPUT_GRAYSCALE then
    let clamp c := if 24 <? c then 24 else c in
    (clamp (Z.land fg 255) + 231, clamp (Z.land bg 255) + 231)
  else if wide_attr && (mode =? TB_OUTPUT_TRUECOLOR) then
    (if has fg TB_HI_BLACK then 0 else Z.land fg 16777215,
     if has bg TB_HI_BLACK then 0 else Z.land bg 16777215)
  else
    (wrapu 32 ((if has fg TB_BRIGHT then 90 else 30) + Z.land fg 15 - 1),
     wrapu 32 ((if has bg TB_BRIGHT then 100 else 40) + Z.land bg 15 - 1)).

(** [fg_is_default] or [bg_is_default]. *)
Definition is_default (mode a : Z) : bool :=
  if wide_attr && (mode =? TB_OUTPUT_TRUECOLOR) then
    (Z.land a 16777215 =? 0) && (Z.land a TB_HI_BLACK =? 0)
  else if (mode =? TB_OUTPUT_256) && has a TB_HI_BLACK then false
  else Z.land a 255 =? 0.

(** [if (c) if_err_return (rv, m)] *)
Definition send_if (c : bool) (m : M tbw Z) : M tbw Z := if c then m else ret TB_OK.

Definition send_sgr (cfg cbg : Z) (fg_is_default bg_is_default : bool) : M tbw Z :=
  if fg_is_default && bg_is_default then ret TB_OK else
  let* mode := glob output_mode in
  if (mode =? TB_OUTPUT_256) || (mode =? TB_OUTPUT_216) || (mode =? TB_OUTPUT_GRAYSCALE) then
    send_literal (esc "[") >>!
    send_if (negb fg_is_default)
      (send_literal (lit "38;5;") >>!
       send_num cfg >>!
       send_if (negb bg_is_default) (send_literal (lit ";"))) >>!
    send_if (negb bg_is_default)
      (send_literal (lit "48;5;") >>! send_num cbg) >>!
    send_literal (lit "m") >>!
    ret TB_OK
  else if wide_attr && (mode =? TB_OUTPUT_TRUECOLOR) then
    send_literal (esc "[") >>!
    send_if (negb fg_is_default)
      (send_literal (lit "38;2;") >>!
       send_num (Z.land (Z.shiftr cfg 16) 255) >>!
       send_literal (lit ";") >>!
       send_num (Z.land (Z.shiftr cfg 8) 255) >>!
       send_literal (lit ";") >>!
       send_num (Z.land cfg 255) >>!
       send_if (negb bg_is_default) (send_literal (lit ";"))) >>!
    send_if (negb bg_is_default)
      (send_literal (lit "48;2;") >>!
       send_num (Z.land (Z.shiftr cbg 16) 255) >>!
       send_literal (lit ";") >>!
       send_num (Z.land (Z.shiftr cbg 8) 255) >>!
       send_literal (lit ";") >>!
       send_num (Z.land cbg 255)) >>!
    send_literal (lit "m") >>!
    ret TB_OK
  else
    send_literal (esc "[") >>!
    send_if (negb fg_is_default)
      (send_num cfg >>!
       send_if (negb bg_is_default) (send_literal (lit ";"))) >>!
    send_if (negb bg_is_default) (send_num cbg) >>!
    send_literal (lit "m") >>!
    ret TB_OK.

Definition is_w64 : bool := match attr_w with W64 => true | _ => false end.

Definition send_attr (fg bg : Z) : M tbw Z :=
  let* g := gets G in
  if (fg =? last_fg g) && (bg =? last_bg g) then ret TB_OK else
  out_cap TB_CAP_SGR0 >>!
  let '(cfg, cbg) := attr_colors (output_mode g) fg bg in
  send_if (has fg TB_BOLD) (out_cap TB_CAP_BOLD) >>!
  send_if (has fg TB_BLINK) (out_cap TB_CAP_BLINK) >>!
  send_if (has fg TB_UNDERLINE) (out_cap TB_CAP_UNDERLINE) >>!
  send_if (has fg TB_ITALIC) (out_cap TB_CAP_ITALIC) >>!
  send_if (has fg TB_DIM) (out_cap TB_CAP_DIM) >>!
  send_if (is_w64 && has fg TB_STRIKEOUT) (out_puts (Some TB_HARDCAP_STRIKEOUT)) >>!
  send_if (is_w64 && has fg TB_UNDERLINE_2) (out_puts (Some TB_HARDCAP_UNDERLINE_2)) >>!
  send_if (is_w64 && has fg TB_OVERLINE) (out_puts (Some TB_HARDCAP_OVERLINE)) >>!
  send_if (is_w64 && has fg TB_INVISIBLE) (out_cap TB_CAP_INVISIBLE) >>!
  send_if (has fg TB_REVERSE || has bg TB_REVERSE) (out_cap TB_CAP_REVERSE) >>!
  send_sgr cfg cbg (is_default (output_mode g) fg) (is_default (output_mode g) bg) >>!
  (upd (set_last_fg fg) ;;; upd (set_last_bg bg) ;;; ret TB_OK).

(** ** Characters *)

(** The loop of [send_cluster]. *)
Fixpoint send_codepoints (l : list Z) : M tbw Z :=
  match l with
  | [] => ret TB_OK
  | c :: l' =>
      let* p := deref (tb_iswprint c) in
      let c := if p : bool then c else 65533 in
      out_nputs (tb_utf8_unicode_to_char c) >>!
      send_codepoints l'
  end.

(** [ch] is the array of [nch] codepoints. *)
Definition send_cluster (x y : Z) (ch : list Z) : M tbw Z :=
  let* g := gets G in
  send_if (negb (last_x g =? x - 1) || negb (last_y g =? y)) (send_cursor_if x y) >>!
  (upd (set_last_x x) ;;;
   upd (set_last_y y) ;;;
   send_codepoints ch).

Definition send_char (x y ch : Z) : M tbw Z := send_cluster x y [ch].

Definition send_clear : M tbw Z :=
  let* g := gets G in
  send_attr (g_fg g) (g_bg g) >>!
  out_cap TB_CAP_CLEAR_SCREEN >>!
  send_cursor_if (cursor_x g) (cursor_y g) >>!
  out_flush >>!
  (upd (set_last_x (-1)) ;;;
   upd (set_last_y (-1)) ;;;
   ret TB_OK).

(** ** Cells *)

(** The cell buffers of the global: [true] is [global.back]. *)
Definition buf_of (is_back : bool) (g : tb_global) : cellbuf := if is_back then back g else front g.
Definition set_buf (is_back : bool) (c : cellbuf) : M tbw unit :=
  upd (if is_back then set_back c else set_front c).

(** Reading and writing the cell a pointer of [cellbuf_get] points to. *)
Definition read_cell (is_back : bool) (i : Z) : M tbw tb_cell :=
  let* c := glob (buf_of is_back) in
  let* l := deref (cells c) in
  deref (zlookup l i).

Definition write_cell (is_back : bool) (i : Z) (cell : tb_cell) : M tbw unit :=
  let* c := glob (buf_of is_back) in
  let* l := deref (cells c) in
  let* l := deref (zupdate l i cell) in
  set_buf is_back (mk_cellbuf (cb_width c) (cb_height c) (Some l)).

(** An update of the cell at an index by a function that may allocate. *)
Definition on_cell (is_back : bool) (i : Z) (f : tb_cell -> M sys (Z * tb_cell)) : M tbw Z :=
  let* cell := read_cell is_back i in
  let* ' (rv, cell) := tsys (f cell) in
  write_cell is_back i cell ;;;
  ret rv.

(** The codepoints of a cell that is drawn as a cluster: [ech] and [nech]. *)
Definition cluster_of (c : tb_cell) : option (list Z) :=
  let l := take (Z.to_nat (nech c)) (default [] (ech c)) in
  if Z.of_nat (length l) =? nech c then Some l else None.

Definition is_cluster (c : tb_cell) : bool := egc && (0 <? nech c).

(** The width [tb_present] gives to a cell. *)
Definition cell_width (c : tb_cell) : option Z :=
  let w := if is_cluster c
    then match cluster_of c with Some l => tb_cluster_width l | None => None end
    else tb_wcwidth (ch c) in
  match w with Some w => Some (if w <? 1 then 1 else w) | None => None end.

(** [uintattr_t] of -1. *)
Definition attr_all : Z := wrapu attr_bits (-1).

(** [for (i = 1; i < w; i++)]: marking the cells a wide character hides. *)
Fixpoint mark_hidden (l : list Z) (x y : Z) : M tbw Z :=
  match l with
  | [] => ret TB_OK
  | i :: l' =>
      let* f := glob front in
      match cellbuf_get f (x + i) y with
      | (rv, None) => ret rv
      | (_, Some idx) =>
          on_cell false idx (fun c => cell_set c (Some [2 ^ 32 - 1]) 1 attr_all attr_all) >>!
          mark_hidden l' x y
      end
  end.

(** [for (i = x; i < width; i++) send_char (i, y, ' ')] *)
Fixpoint send_spaces (l : list Z) (y : Z) : M tbw unit :=
  match l with
  | [] => ret tt
  | i :: l' => send_char i y 32 ;;; send_spaces l' y
  end.

(** The part of an iteration of [tb_present] for a cell that changed. *)
Definition present_changed (x y fi : Z) (b : tb_cell) (w : Z) : M tbw Z :=
  on_cell false fi (fun f => cell_copy f b) ;;;
  send_attr (fg b) (bg b) ;;;
  let* fr := glob front in
  if (1 <? w) && (cb_width fr - (w - 1) <=? x) then
    send_spaces (seqZ x (cb_width fr - x)) y ;;;
    ret TB_OK
  else
    let* l := deref (if is_cluster b then cluster_of b else Some [ch b]) in
    send_cluster x y l ;;;
    mark_hidden (seqZ 1 (w - 1)) x y.

(** An iteration of the inner loop of [tb_present]: the result, and [w]. *)
Definition present_cell (x y : Z) : M tbw (Z * Z) :=
  let* g := gets G in
  match cellbuf_get (back g) x y, cellbuf_get (front g) x y with
  | (rv, None), _ => ret (rv, 0)
  | (_, Some _), (rv, None) => ret (rv, 0)
  | (_, Some bi), (_, Some fi) =>
      let* b := read_cell true bi in
      let* f := read_cell false fi in
      let* w := deref (cell_width b) in
      let* d := deref (cell_cmp b f) in
      if d =? 0 then ret (TB_OK, w) else
      let* rv := present_changed x y fi b w in
      ret (rv, w)
  end.

(** [for (x = 0; x < global.front.width;)]: [x] grows by at least one. *)
Fixpoint present_row (fuel : nat) (x y : Z) : M tbw Z :=
  let* f := glob front in
  if x <? cb_width f then
    match fuel with
    | O => blocked
    | S n =>
        let* ' (rv, w) := present_cell x y in
        if negb (rv =? TB_OK) then ret rv else present_row n (x + w) y
    end
  else ret TB_OK.

(** [for (y = 0; y < global.front.height; y++)], over the rows that are left. *)
Fixpoint present_rows (l : list Z) : M tbw Z :=
  match l with
  | [] => ret TB_OK
  | y :: l' =>
      let* f := glob front in
      present_row (Z.to_nat (cb_width f)) 0 y >>! present_rows l'
  end.

Definition tb_present : M tbw Z :=
  if_not_init_return (
    upd (set_last_x (-1)) ;;;
    upd (set_last_y (-1)) ;;;
    let* f := glob front in
    present_rows (seqZ 0 (cb_height f)) >>!
    let* g := gets G in
    send_cursor_if (cursor_x g) (cursor_y g) >>!
    out_flush >>!
    ret TB_OK).

(** ** Specifications *)

(** What a terminal writes with: the styles that are on, by their number in
    "select graphic rendition", and the two colors. *)
Inductive color := Default | Ansi (n : Z) (bright : bool) | Palette (n : Z) | Rgb (r g b : Z).

Record pen := mk_pen { p_styles : gset Z; p_fg : color; p_bg : color }.
Definition set_p_fg c p := mk_pen (p_styles p) c (p_bg p).
Definition set_p_bg c p := mk_pen (p_styles p) (p_fg p) c.
Definition plain_pen : pen := mk_pen ∅ Default Default.

(** Bold, dim, italic, underlined, blinking, reverse, invisible, crossed out,
    doubly underlined, overlined. *)
Definition sgr_styles : list Z := [1; 2; 3; 4; 5; 7; 8; 9; 21; 53].

(** "Select graphic rendition" with its parameters; others change nothing. *)
Fixpoint sgr_apply (fuel : nat) (ps : list Z) (st : pen) : pen :=
  match fuel, ps with
  | S f, p :: ps' =>
      if (p =? 38) || (p =? 48) then
        let set c := if p =? 38 then set_p_fg c st else set_p_bg c st in
        match ps' with
        | k :: n :: r =>
            if k =? 5 then sgr_apply f r (set (Palette n))
            else match r with g :: b :: r' => sgr_apply f r' (set (Rgb n g b)) | _ => st end
        | _ => st
        end
      else if (30 <=? p) && (p <=? 37) then sgr_apply f ps' (set_p_fg (Ansi (p - 30) false) st)
      else if (90 <=? p) && (p <=? 97) then sgr_apply f ps' (set_p_fg (Ansi (p - 90) true) st)
      else if (40 <=? p) && (p <=? 47) then sgr_apply f ps' (set_p_bg (Ansi (p - 40) false) st)
      else if (100 <=? p) && (p <=? 107) then sgr_apply f ps' (set_p_bg (Ansi (p - 100) true) st)
      else if p =? 0 then sgr_apply f ps' plain_pen
      else if bool_decide (p ∈ sgr_styles) then sgr_apply f ps' (mk_pen ({[p]} ∪ p_styles st) (p_fg st) (p_bg st))
      else sgr_apply f ps' st
  | _, _ => st
  end.

(** The parameters of [ESC [ p ; p ; ... m]. *)
Fixpoint parse_params (fuel : nat) (bs : list Z) : option (list Z) :=
  match fuel with
  | O => None
  | S f =>
      let '(ds, r) := span isdigit bs in
      match ds, r with
      | _ :: _, [c] => if c =? 109 then Some [undec ds] else None
      | _ :: _, c :: r' => if c =? 59 then cons (undec ds) <$> parse_params f r' else None
      | _, _ => None
      end
  end.

Definition read_sgr (bs : list Z) (st : pen) : option pen :=
  match bs with
  | [] => Some st
  | 27 :: 91 :: r => (fun ps => sgr_apply (length ps) ps st) <$> parse_params (length r) r
  | _ => None
  end.

(** The color an attribute stands for, as the header documents the modes. *)
Definition doc_color (mode a : Z) : color :=
  if mode =? TB_OUTPUT_256 then
    if has a TB_HI_BLACK then Palette 0
    else if Z.land a 255 =? 0 then Default else Palette (Z.land a 255)
  else if mode =? TB_OUTPUT_216 then
    if Z.land a 255 =? 0 then Default else Palette (Z.min (Z.land a 255) 216 + 15)
  else if mode =? TB_OUTPUT_GRAYSCALE then
    if Z.land a 255 =? 0 then Default else Palette (Z.min (Z.land a 255) 24 + 231)
  else if wide_attr && (mode =? TB_OUTPUT_TRUECOLOR) then
    if has a TB_HI_BLACK then Rgb 0 0 0
    else if Z.land a 16777215 =? 0 then Default
    else Rgb (Z.land (Z.shiftr (Z.land a 16777215) 16) 255)
             (Z.land (Z.shiftr (Z.land a 16777215) 8) 255) (Z.land (Z.land a 16777215) 255)
  else if Z.land a 255 =? 0 then Default
  else Ansi (Z.land a 255 - 1) (has a TB_BRIGHT).

(** The modes with their own color numbers; the others are the normal mode,
    where only eight colors are documented. *)
Definition palette_mode (mode : Z) : bool :=
  (mode =? TB_OUTPUT_256) || (mode =? TB_OUTPUT_216) || (mode =? TB_OUTPUT_GRAYSCALE).
Definition rgb_mode (mode : Z) : bool := wide_attr && (mode =? TB_OUTPUT_TRUECOLOR).

Definition doc_attr (mode a : Z) : Prop :=
  palette_mode mode = false -> rgb_mode mode = false -> Z.land a 255 <= 8.

(** The bytes [send_sgr] appends. *)
Definition sgr_num (mode c : Z) (lead normal : list Z) : list Z :=
  if (mode =? TB_OUTPUT_256) || (mode =? TB_OUTPUT_216) || (mode =? TB_OUTPUT_GRAYSCALE)
  then lead ++ lit "5;" ++ udec (wrapu 32 c)
  else if wide_attr && (mode =? TB_OUTPUT_TRUECOLOR)
  then lead ++ lit "2;" ++ udec (wrapu 32 (Z.land (Z.shiftr c 16) 255)) ++ lit ";" ++
       udec (wrapu 32 (Z.land (Z.shiftr c 8) 255)) ++ lit ";" ++ udec (wrapu 32 (Z.land c 255))
  else normal.

Definition sgr_bytes (mode cfg cbg : Z) (fd bd : bool) : list Z :=
  if fd && bd then []
  else esc "[" ++
    (if fd then [] else sgr_num mode cfg (lit "38;") (udec (wrapu 32 cfg)) ++
       (if bd then [] else lit ";")) ++
    (if bd then [] else sgr_num mode cbg (lit "48;") (udec (wrapu 32 cbg))) ++
    lit "m".

(** The bytes [send_attr] appends when the attributes change: a reset, the
    styles that are set, the colors. *)
Definition style_bytes (g : tb_global) (fg bg : Z) : list Z :=
  let on (c : bool) (s : list Z) := if c then s else [] in
  cap_text g TB_CAP_SGR0 ++
  on (has fg TB_BOLD) (cap_text g TB_CAP_BOLD) ++
  on (has fg TB_BLINK) (cap_text g TB_CAP_BLINK) ++
  on (has fg TB_UNDERLINE) (cap_text g TB_CAP_UNDERLINE) ++
  on (has fg TB_ITALIC) (cap_text g TB_CAP_ITALIC) ++
  on (has fg TB_DIM) (cap_text g TB_CAP_DIM) ++
  on (is_w64 && has fg TB_STRIKEOUT) (cstr TB_HARDCAP_STRIKEOUT) ++
  on (is_w64 && has fg TB_UNDERLINE_2) (cstr TB_HARDCAP_UNDERLINE_2) ++
  on (is_w64 && has fg TB_OVERLINE) (cstr TB_HARDCAP_OVERLINE) ++
  on (is_w64 && has fg TB_INVISIBLE) (cap_text g TB_CAP_INVISIBLE) ++
  on (has fg TB_REVERSE || has bg TB_REVERSE) (cap_text g TB_CAP_REVERSE).

Definition color_bytes (mode fg bg : Z) : list Z :=
  let '(cfg, cbg) := attr_colors mode fg bg in
  sgr_bytes mode cfg cbg (is_default mode fg) (is_default mode bg).

Definition attr_bytes (g : tb_global) (fg bg : Z) : list Z :=
  style_bytes g fg bg ++ color_bytes (output_mode g) fg bg.

(** ** Lemmas *)

(** *** Attributes *)

Lemma emits_if g c m bs : emits g m bs -> emits g (send_if c m) (if c then bs else []).
Proof. intros H. destruct c; [done|apply emits_ret]. Qed.

Lemma emits_ok_end g m bs : emits g m bs -> emits g (m >>! ret TB_OK) bs.
Proof.
  intros H. eapply emits_eq; [apply emits_seq; [exact H|apply emits_ret]|by rewrite app_nil_r].
Qed.

Ltac emits :=
  repeat match goal with
  | |- emits _ (_ >>! ret TB_OK) _ => apply emits_ok_end
  | |- emits _ (_ >>! _) _ => apply emits_seq
  | |- emits _ (send_literal _) _ => apply emits_nputs
  | |- emits _ (send_num _) _ => apply emits_num
  | |- emits _ (send_cursor_if _ _) _ => apply emits_cursor
  | |- emits _ (send_if _ _) _ => apply emits_if
  | |- emits _ (out_puts (Some _)) _ => apply emits_puts
  end.

Lemma emits_sgr g cfg cbg fd bd :
  emits g (send_sgr cfg cbg fd bd) (sgr_bytes (output_mode g) cfg cbg fd bd).
Proof.
  unfold send_sgr, sgr_bytes. destruct (fd && bd) eqn:Ed; [apply emits_ret|].
  apply emits_glob; [done|]. unfold sgr_num.
  destruct (_ || _ || _); [|destruct (wide_attr && _)].
  all: eapply emits_eq; [emits|].
  all: destruct fd, bd; cbn [negb].
  all: by rewrite ?app_nil_l, ?app_nil_r, <- ?app_assoc.
Qed.

(** The state once the attributes have been recorded. *)
Definition with_attr (fg bg : Z) (w : tbw) : tbw := set_G (set_last_bg bg (set_last_fg fg (G w))) w.

Lemma ends_attr g fg bg :
  caps_ok g -> (fg =? last_fg g) && (bg =? last_bg g) = false ->
  ends g (send_attr fg bg) (attr_bytes g fg bg) (with_attr fg bg).
Proof.
  intros Hc Hne w Hg Hr. unfold send_attr.
  mrun (eq_refl : gets G w = (Ret (G w), w)).
  assert (last_fg (G w) = last_fg g /\ last_bg (G w) = last_bg g /\ output_mode (G w) = output_mode g)
    as (-> & -> & ->) by (rewrite (same_but_out g w Hg); done).
  rewrite Hne. revert w Hg Hr.
  match goal with |- forall w, _ -> _ -> exists b, ?m w = _ /\ _ /\ _ =>
    change (ends g m (attr_bytes g fg bg) (with_attr fg bg)) end.
  unfold attr_bytes, style_bytes, color_bytes.
  destruct (attr_colors (output_mode g) fg bg) as [cfg cbg].
  assert (forall i, 0 <= i < TB_CAP__COUNT -> emits g (out_cap i) (cap_text g i)) as Hcap
    by (intros; by apply emits_cap).
  eapply ends_eq.
  - repeat (apply ends_seq; [first [apply emits_if, Hcap; done|apply Hcap; done|
      apply emits_if, emits_puts|apply emits_sgr]|]).
    by apply (ends_pure _ _ (with_attr fg bg)).
  - by rewrite app_nil_r, <- !app_assoc.
Qed.

Lemma send_attr_same fg bg w :
  fg = last_fg (G w) -> bg = last_bg (G w) -> send_attr fg bg w = (Ret TB_OK, w).
Proof.
  intros -> ->. unfold send_attr. mrun (eq_refl : gets G w = (Ret (G w), w)).
  by rewrite !Z.eqb_refl.
Qed.

(** *** What the terminal makes of a color sequence *)

Fixpoint join_params (ps : list Z) : list Z :=
  match ps with
  | [] => []
  | [p] => udec p ++ [109]
  | p :: ps' => udec p ++ 59 :: join_params ps'
  end.

Lemma span_udec n c r : 0 <= n -> isdigit c = false -> span isdigit (udec n ++ c :: r) = (udec n, c :: r).
Proof. intros Hn Hc. apply span_all; [by apply udec_digits|done]. Qed.

Lemma parse_join ps f :
  ps <> [] -> Forall (fun p => 0 <= p) ps -> (length ps <= f)%nat ->
  parse_params f (join_params ps) = Some ps.
Proof.
  intros Hne Hp. revert f Hne. induction Hp as [|p ps Hp Hps IH]; intros f Hne Hf; [done|].
  destruct f as [|f]; [simpl in Hf; lia|]. cbn [parse_params].
  destruct (udec p) as [|d ds] eqn:Ed; [by apply udec_nonnil in Ed|].
  destruct ps as [|q ps].
  - cbn [join_params]. rewrite span_udec, Ed by done. rewrite <- Ed, undec_udec by done. done.
  - change (join_params (p :: q :: ps)) with (udec p ++ 59 :: join_params (q :: ps)).
    rewrite span_udec, Ed by done. rewrite <- Ed, undec_udec by done.
    rewrite IH by (done || (simpl in *; lia)).
    destruct (join_params (q :: ps)) eqn:Ej; [|done].
    destruct ps; simpl in Ej; by apply app_eq_nil in Ej as [_ ?].
Qed.

Lemma join_app ps qs :
  ps <> [] -> qs <> [] -> exists l, join_params ps = l ++ [109] /\
    join_params (ps ++ qs) = l ++ 59 :: join_params qs.
Proof.
  intros Hp Hq. induction ps as [|p ps IH]; [done|]. destruct ps as [|p' ps].
  - exists (udec p). split; [done|]. destruct qs; done.
  - destruct IH as (l & E1 & E2); [done|]. exists (udec p ++ 59 :: l).
    change (join_params (p :: p' :: ps)) with (udec p ++ 59 :: join_params (p' :: ps)).
    change (join_params ((p :: p' :: ps) ++ qs)) with (udec p ++ 59 :: join_params ((p' :: ps) ++ qs)).
    rewrite E1, E2. by rewrite <- !app_assoc.
Qed.

(** The parameters for one color. *)
Definition color_params (mode lead c : Z) : list Z :=
  if palette_mode mode then [lead; 5; wrapu 32 c]
  else if rgb_mode mode then
    [lead; 2; wrapu 32 (Z.land (Z.shiftr c 16) 255); wrapu 32 (Z.land (Z.shiftr c 8) 255);
     wrapu 32 (Z.land c 255)]
  else [wrapu 32 c].

Lemma sgr_num_join mode c (fore : bool) :
  sgr_num mode c (if fore then lit "38;" else lit "48;") (udec (wrapu 32 c)) ++ [109] =
    join_params (color_params mode (if fore then 38 else 48) c).
Proof.
  unfold sgr_num, color_params, palette_mode, rgb_mode.
  destruct (_ || _ || _); [|destruct (wide_attr && _)]; destruct fore; cbn [join_params];
    change (udec 38) with (lit "38"); change (udec 48) with (lit "48");
    change (udec 5) with (lit "5"); change (udec 2) with (lit "2");
    repeat match goal with |- context [udec (wrapu 32 ?z)] => generalize (udec (wrapu 32 z)); intros end.
  all: rewrite <- ?app_assoc; reflexivity.
Qed.

Lemma color_params_nonnil mode lead c : color_params mode lead c <> [].
Proof. unfold color_params. by repeat case_match. Qed.

Lemma sgr_bytes_join mode cfg cbg fd bd :
  fd && bd = false ->
  sgr_bytes mode cfg cbg fd bd =
    esc "[" ++ join_params ((if fd then [] else color_params mode 38 cfg) ++
                            (if bd then [] else color_params mode 48 cbg)).
Proof.
  intros Hd. unfold sgr_bytes. rewrite Hd. f_equal.
  pose proof (sgr_num_join mode cfg true) as Hf. pose proof (sgr_num_join mode cbg false) as Hb.
  cbv iota in Hf, Hb.
  destruct fd, bd; [done| | |]; rewrite ?app_nil_l, ?app_nil_r.
  - exact Hb.
  - exact Hf.
  - destruct (join_app (color_params mode 38 cfg) (color_params mode 48 cbg)) as (l & E1 & E2);
      [apply color_params_nonnil|apply color_params_nonnil|].
    rewrite E2, <- Hb. rewrite <- Hf in E1. apply app_inj_tail in E1 as [<- _].
    by rewrite <- !app_assoc.
Qed.

Lemma color_params_nonneg mode lead c : 0 <= lead -> Forall (fun p => 0 <= p) (color_params mode lead c).
Proof.
  intros Hl. assert (forall z, 0 <= wrapu 32 z) by (intros z; apply wrapu_range; lia).
  unfold color_params. repeat case_match; repeat constructor; auto; lia.
Qed.

Lemma length_join ps : ps <> [] -> Forall (fun p => 0 <= p) ps -> (length ps <= length (join_params ps))%nat.
Proof.
  intros Hne Hp. induction Hp as [|p ps Hp Hps IH]; [done|].
  destruct ps as [|q ps]; [simpl; rewrite length_app; simpl; lia|].
  change (join_params (p :: q :: ps)) with (udec p ++ 59 :: join_params (q :: ps)).
  rewrite length_app. specialize (IH ltac:(done)). simpl in *. lia.
Qed.

Lemma land_255 a : 0 <= Z.land a 255 < 256.
Proof. change 255 with (Z.ones 8). rewrite Z.land_ones by lia. by apply Z.mod_pos_bound. Qed.

Lemma wrapu_byte z : wrapu 32 (Z.land z 255) = Z.land z 255.
Proof. pose proof (land_255 z). apply wrapu_id. change (2 ^ 32) with 4294967296. lia. Qed.

Lemma if_same {A} (b : bool) (x : A) : (if b then x else x) = x.
Proof. by destruct b. Qed.

(** One color: its parameters, applied, set it to the documented color. *)
Lemma apply_color mode a (fore : bool) f ps st cfg :
  doc_attr mode a -> is_default mode a = false ->
  cfg = (if fore then fst (attr_colors mode a a) else snd (attr_colors mode a a)) ->
  sgr_apply (S f) (color_params mode (if fore then 38 else 48) cfg ++ ps) st =
    sgr_apply f ps (if fore then set_p_fg (doc_color mode a) st else set_p_bg (doc_color mode a) st).
Proof.
  intros Hd Hdef ->. unfold color_params, doc_color, attr_colors, is_default, doc_attr, palette_mode, rgb_mode in *.
  pose proof (land_255 a) as Ha. assert (2 ^ 32 = 4294967296) as E32 by done.
  destruct (Z.eqb_spec mode TB_OUTPUT_256) as [->|]; [|destruct (Z.eqb_spec mode TB_OUTPUT_216) as [->|];
    [|destruct (Z.eqb_spec mode TB_OUTPUT_GRAYSCALE) as [->|]]].
  - change (TB_OUTPUT_256 =? TB_OUTPUT_TRUECOLOR) with false in *. rewrite andb_false_r in Hdef.
    cbn [orb andb fst snd]. destruct (has a TB_HI_BLACK); [by destruct fore|]. cbn [andb] in Hdef.
    rewrite Hdef, if_same, wrapu_byte. by destruct fore.
  - change (TB_OUTPUT_216 =? TB_OUTPUT_TRUECOLOR) with false in *. rewrite andb_false_r in Hdef.
    cbn [orb andb fst snd] in *. rewrite Hdef.
    assert ((if 216 <? Z.land a 255 then 216 else Z.land a 255) = Z.min (Z.land a 255) 216) as ->
      by (case_match; zbool; lia).
    rewrite if_same, wrapu_id by (rewrite E32; lia). by destruct fore.
  - change (TB_OUTPUT_GRAYSCALE =? TB_OUTPUT_TRUECOLOR) with false in *. rewrite andb_false_r in Hdef.
    cbn [orb andb fst snd] in *. rewrite Hdef.
    assert ((if 24 <? Z.land a 255 then 24 else Z.land a 255) = Z.min (Z.land a 255) 24) as ->
      by (case_match; zbool; lia).
    rewrite if_same, wrapu_id by (rewrite E32; lia). by destruct fore.
  - cbn [orb] in *. destruct (wide_attr && (mode =? TB_OUTPUT_TRUECOLOR)) eqn:Ew; cbn [andb fst snd] in *.
    + unfold has. destruct (Z.land a TB_HI_BLACK =? 0); cbn [negb andb] in *; [|by destruct fore].
      rewrite andb_true_r in Hdef. rewrite Hdef, if_same, !wrapu_byte. by destruct fore.
    + rewrite Hdef. specialize (Hd eq_refl eq_refl). zbool.
      assert (Z.land a 15 = Z.land a 255) as ->.
      { assert (Z.land a 15 = Z.land (Z.land a 255) 15) as -> by (by rewrite <- Z.land_assoc).
        change 15 with (Z.ones 4). rewrite Z.land_ones by lia. apply Z.mod_small.
        change (2 ^ 4) with 16. lia. }
      set (k := Z.land a 255) in *. clearbody k.
      assert (1 <= k <= 8) as Hk by lia. clear - Hk.
      assert (k = 1 \/ k = 2 \/ k = 3 \/ k = 4 \/ k = 5 \/ k = 6 \/ k = 7 \/ k = 8) as Hcase by lia.
      clear Hk. destruct fore, (has a TB_BRIGHT).
      all: repeat destruct Hcase as [->|Hcase]; [..|rewrite Hcase]; reflexivity.
Qed.

Lemma attr_colors_fst mode fg bg : fst (attr_colors mode fg bg) = fst (attr_colors mode fg fg).
Proof. unfold attr_colors. by repeat case_match. Qed.

Lemma attr_colors_snd mode fg bg : snd (attr_colors mode fg bg) = snd (attr_colors mode bg bg).
Proof. unfold attr_colors. by repeat case_match. Qed.

Lemma default_color mode a : is_default mode a = true -> doc_color mode a = Default.
Proof.
  unfold is_default, doc_color.
  destruct (Z.eqb_spec mode TB_OUTPUT_256) as [->|]; [|destruct (Z.eqb_spec mode TB_OUTPUT_216) as [->|];
    [|destruct (Z.eqb_spec mode TB_OUTPUT_GRAYSCALE) as [->|]]].
  - change (TB_OUTPUT_256 =? TB_OUTPUT_TRUECOLOR) with false. rewrite andb_false_r. cbn [andb].
    destruct (has a TB_HI_BLACK); [done|]. by intros ->.
  - change (TB_OUTPUT_216 =? TB_OUTPUT_TRUECOLOR) with false. rewrite andb_false_r. cbn [andb]. by intros ->.
  - change (TB_OUTPUT_GRAYSCALE =? TB_OUTPUT_TRUECOLOR) with false. rewrite andb_false_r. cbn [andb]. by intros ->.
  - destruct (wide_attr && _); cbn [andb]; [|by intros ->]. unfold has.
    intros [H1 H2]%andb_true_iff. by rewrite H1, H2.
Qed.

(** The color sequence shows the documented colors. *)
Lemma color_params_read mode fg bg s :
  doc_attr mode fg -> doc_attr mode bg -> is_default mode fg && is_default mode bg = false ->
  let ps := (if is_default mode fg then [] else color_params mode 38 (fst (attr_colors mode fg fg))) ++
            (if is_default mode bg then [] else color_params mode 48 (snd (attr_colors mode bg bg))) in
  sgr_apply (length ps) ps (mk_pen s Default Default) = mk_pen s (doc_color mode fg) (doc_color mode bg).
Proof.
  intros Hf Hb Ed. cbv zeta.
  set (cfg := fst (attr_colors mode fg fg)). set (cbg := snd (attr_colors mode bg bg)).
  assert (forall l c, exists k, length (color_params mode l c) = S k) as Hlen
    by (intros l c; unfold color_params; repeat case_match; by eexists).
  assert (forall f st, sgr_apply f [] st = st) as Hend by (by intros [|f] st).
  pose proof (fun a fore f ps st cfg Hd H1 H2 => apply_color mode a fore f ps st cfg Hd H1 H2) as Happ.
  destruct (Hlen 38 cfg) as [kf Ekf], (Hlen 48 cbg) as [kb Ekb].
  destruct (is_default mode fg) eqn:Edf, (is_default mode bg) eqn:Edb; try done;
    rewrite ?app_nil_l, ?app_nil_r, ?length_app, ?Ekf, ?Ekb.
  - pose proof (Happ bg false kb [] (mk_pen s Default Default) cbg Hb Edb eq_refl) as H1.
    rewrite app_nil_r, Hend in H1. rewrite H1. by rewrite (default_color mode fg).
  - pose proof (Happ fg true kf [] (mk_pen s Default Default) cfg Hf Edf eq_refl) as H1.
    rewrite app_nil_r, Hend in H1. rewrite H1. by rewrite (default_color mode bg).
  - cbn [Nat.add].
    pose proof (Happ fg true (kf + S kb)%nat (color_params mode 48 cbg) (mk_pen s Default Default) cfg Hf Edf eq_refl)
      as H1.
    cbv iota in H1. rewrite H1. rewrite Nat.add_succ_r.
    pose proof (Happ bg false (kf + kb)%nat [] (mk_pen s (doc_color mode fg) Default) cbg Hb Edb eq_refl) as H2.
    rewrite app_nil_r, Hend in H2. exact H2.
Qed.

(** The bytes of the colors: nothing, or one sequence with their parameters. *)
Lemma color_bytes_join mode fg bg :
  doc_attr mode fg -> doc_attr mode bg ->
  is_default mode fg && is_default mode bg = true /\ color_bytes mode fg bg = [] \/
  is_default mode fg && is_default mode bg = false /\
  exists ps, color_bytes mode fg bg = esc "[" ++ join_params ps /\ ps <> [] /\ Forall (fun p => 0 <= p) ps /\
    forall s, sgr_apply (length ps) ps (mk_pen s Default Default) = mk_pen s (doc_color mode fg) (doc_color mode bg).
Proof.
  intros Hf Hb. unfold color_bytes.
  destruct (attr_colors mode fg bg) as [cfg cbg] eqn:Ec.
  assert (cfg = fst (attr_colors mode fg fg) /\ cbg = snd (attr_colors mode bg bg)) as [Ef Eb].
  { by rewrite <- (attr_colors_fst mode fg bg), <- (attr_colors_snd mode fg bg), Ec. }
  destruct (is_default mode fg && is_default mode bg) eqn:Ed.
  { left. unfold sgr_bytes. by rewrite Ed. }
  right. split; [done|]. rewrite sgr_bytes_join by done. eexists. split; [reflexivity|].
  split; [|split].
  - destruct (is_default mode fg), (is_default mode bg); [done| | |];
      rewrite ?app_nil_l, ?app_nil_r; [apply color_params_nonnil|apply color_params_nonnil|].
    intros E. apply app_eq_nil in E as [E _]. by eapply color_params_nonnil.
  - apply Forall_app. split; [destruct (is_default mode fg)|destruct (is_default mode bg)];
      (constructor || (apply color_params_nonneg; lia)).
  - intros s. rewrite Ef, Eb. by apply color_params_read.
Qed.

Lemma color_bytes_read mode fg bg s :
  doc_attr mode fg -> doc_attr mode bg ->
  read_sgr (color_bytes mode fg bg) (mk_pen s Default Default) =
    Some (mk_pen s (doc_color mode fg) (doc_color mode bg)).
Proof.
  intros Hf Hb. destruct (color_bytes_join mode fg bg Hf Hb) as [[Ed ->]|(Ed & ps & -> & Hne & Hnn & Hps)].
  - zbool. simpl. by rewrite (default_color mode fg), (default_color mode bg) by done.
  - change (read_sgr (esc "[" ++ join_params ps) (mk_pen s Default Default)) with
      ((fun ps => sgr_apply (length ps) ps (mk_pen s Default Default)) <$>
         parse_params (length (join_params ps)) (join_params ps)).
    rewrite parse_join; [|done|done|by apply length_join]. simpl. by rewrite Hps.
Qed.

End Output.

(** ** Properties *)

(** C29: [send_attr] sends nothing when the attributes are the current ones;
    otherwise it records them and appends a reset, exactly the styles that are
    set, and a color sequence that a terminal reads as the colors the header
    documents for the output mode (none for the default color). *)
Theorem send_attr_shows_documented_colors `{config} fg bg w :
  let g := G w in
  caps_ok g -> doc_attr (output_mode g) fg -> doc_attr (output_mode g) bg ->
  room w (Z.of_nat (length (attr_bytes g fg bg))) ->
  (fg = last_fg g /\ bg = last_bg g -> send_attr fg bg w = (Ret TB_OK, w)) /\
  (~ (fg = last_fg g /\ bg = last_bg g) ->
   exists b sgr, send_attr fg bg w = (Ret TB_OK, with_attr fg bg (put_out b w)) /\
     bb_bytes b = bb_bytes (g_out g) ++ style_bytes g fg bg ++ sgr /\
     read_sgr sgr plain_pen = Some (mk_pen ∅ (doc_color (output_mode g) fg) (doc_color (output_mode g) bg))).
Proof.
  intros g Hc Hf Hb Hr. split; [intros [? ?]; by apply send_attr_same|]. intros Hne.
  destruct (ends_attr g fg bg Hc) with (w := w) as (b & E & _ & Hbb); [|done|done|].
  - apply not_true_iff_false. intros [? ?]%andb_true_iff. zbool. by apply Hne.
  - exists b, (color_bytes (output_mode g) fg bg). split; [done|].
    split; [done|by apply color_bytes_read].
Qed.

(** [convert_num] writes the decimal digits of its argument, most
    significant first, for every [uint32_t], inside its array of 32. *)
Theorem convert_num_decimal n :
  0 <= n < 2 ^ 32 ->
  exists l, convert_num n = Some l /\ (1 <= length l <= 10)%nat /\
    Forall (fun b => isdigit b = true) l /\ undec l = n.
Proof.
  intros Hn. exists (udec n). split; [by apply convert_num_spec|].
  split; [|split; [apply udec_digits; lia|apply undec_udec; lia]].
  split; [destruct (udec n) eqn:E; [by apply udec_nonnil in E|simpl; lia]|].
  apply udec_length. change (10 ^ Z.of_nat 10) with 10000000000.
  change (2 ^ 32) with 4294967296 in Hn. lia.
Qed.

Lemma convert_num_decimal_witness :
  exists l, convert_num 4294967295 = Some l /\ (1 <= length l <= 10)%nat /\
    Forall (fun b => isdigit b = true) l /\ undec l = 4294967295.
Proof. apply (convert_num_decimal 4294967295). lia. Defined.

(** A global with the capabilities of xterm, in 256-color mode. *)
Definition global_zero : tb_global :=
  mk_global 0 0 0 false 0 0 0 0 0 0 0 0 0 0 0 0 0 0 None 0 (replicate 38 None) trie_zero
    bytebuf_zero bytebuf_zero cellbuf_zero cellbuf_zero (mk_termios 0 0 0 0 []) false 0 false None None.
Definition demo_global : tb_global :=
  set_output_mode TB_OUTPUT_256 (set_caps (Some <$> xterm_caps)
    (set_last_fg 65535 (set_last_bg 65535 (set_initialized true global_zero)))).
Definition calm_env : env :=
  mk_env (fun _ => None) (fun _ => None) (fun _ => true) [] [] [] [] [] false [].
Definition demo_tbw : tbw := mk_tbw demo_global calm calm_env.

Lemma xterm_caps_ok : caps_ok demo_global.
Proof. split; [vm_compute; reflexivity|]. repeat constructor; by eexists. Qed.

Lemma send_attr_shows_documented_colors_witness :
  exists b sgr, @send_attr default_config 257 3 demo_tbw =
      (Ret TB_OK, with_attr 257 3 (put_out b demo_tbw)) /\
    bb_bytes b = bb_bytes (g_out demo_global) ++
      @style_bytes default_config demo_global 257 3 ++ sgr /\
    read_sgr sgr plain_pen = Some (mk_pen ∅ (@doc_color default_config TB_OUTPUT_256 257)
                                            (@doc_color default_config TB_OUTPUT_256 3)).
Proof.
  apply (@send_attr_shows_documented_colors default_config 257 3 demo_tbw).
  - exact xterm_caps_ok.
  - intros H. discriminate H.
  - intros H. discriminate H.
  - split; [exact wf_zero|]. split; [reflexivity|]. vm_compute. discriminate.
  - intros [H _]. discriminate H.
Defined.
