(* ===== verification/TbPresent.v ===== *)
(** * life/termbox2.h: what [tb_present] guarantees

    The functions that send bytes only touch the output buffer and the record
    of the last position and attributes; a redraw brings every cell that is
    drawn from the back to the front buffer, so that a second redraw has nothing
    to send. *)

From stdpp Require Import prelude list_numbers strings.
From Stdlib Require Import ZArith Lia.
From S2P Require Import Prelude CLib Posix TbTables TbText TbBuf TbTrie TbGlobal TbOutput.
Open Scope Z_scope.

(** The global without what drawing changes. *)
Definition erase (g : tb_global) : tb_global :=
  set_front cellbuf_zero (set_g_out bytebuf_zero
    (set_last_x 0 (set_last_y 0 (set_last_fg 0 (set_last_bg 0 g))))).

(** [w'] is [w] after drawing that appended at most [n] bytes. *)
Definition drawn (w w' : tbw) (n : Z) : Prop :=
  erase (G w') = erase (G w) /\ T w' = T w /\ X w' = X w /\
  bb_wf (g_out (G w')) /\ bb_len (g_out (G w')) <= bb_len (g_out (G w)) + n.

Lemma drawn_refl w : bb_wf (g_out (G w)) -> drawn w w 0.
Proof. intros H. repeat split; [done|lia]. Qed.

Lemma drawn_trans w1 w2 w3 n m : drawn w1 w2 n -> drawn w2 w3 m -> drawn w1 w3 (n + m).
Proof.
  intros (E1 & T1 & X1 & _ & L1) (E2 & T2 & X2 & H2 & L2).
  repeat split; [congruence|congruence|congruence|done|lia].
Qed.

Lemma drawn_le w w' n m : drawn w w' n -> n <= m -> drawn w w' m.
Proof. intros (E1 & T1 & X1 & H1 & L1) H. repeat split; try done. lia. Qed.

Lemma drawn_room w w' n m : drawn w w' n -> room w (n + m) -> room w' m.
Proof.
  intros (E1 & T1 & X1 & H1 & L1) (Hw & Ha & Hr). split; [done|].
  split; [by rewrite T1|lia].
Qed.

Lemma erased_field {A} (f : tb_global -> A) g g' : (forall g, f (erase g) = f g) -> erase g' = erase g -> f g' = f g.
Proof. intros Hf E. by rewrite <- (Hf g'), E, Hf. Qed.

Lemma erase_field {A} (f : tb_global -> A) w w' n :
  (forall g, f (erase g) = f g) -> drawn w w' n -> f (G w') = f (G w).
Proof. intros Hf (E & _). by apply erased_field. Qed.

Lemma room_le w n m : room w n -> 0 <= m <= n -> room w m.
Proof. intros (Hw & Ha & Hr) H. split; [done|]. split; [done|lia]. Qed.

Section Present.
Context `{opts : config}.

(** [m] sends at most [n] bytes and leaves the front buffer alone. *)
Definition draws (C : list (option (list Z))) (n : Z) (m : M tbw Z) : Prop :=
  forall w, caps (G w) = C -> room w n ->
  exists w', m w = (Ret TB_OK, w') /\ drawn w w' n /\ front (G w') = front (G w).

Lemma draws_ret C : draws C 0 (ret TB_OK).
Proof. intros w _ (Hw & _). exists w. split; [done|]. split; [by apply drawn_refl|done]. Qed.

Lemma draws_le C n m k : draws C n k -> n <= m -> 0 <= n -> draws C m k.
Proof.
  intros H Hnm Hn w Hc Hr. destruct (H w Hc) as (w' & E & Hd & Hf); [eapply room_le; [done|lia]|].
  exists w'. split; [done|]. split; [by eapply drawn_le|done].
Qed.

(** Sequencing, with the test of the result or without it. *)
Lemma draws_seq C n1 n2 m k :
  0 <= n1 -> 0 <= n2 -> draws C n1 m -> draws C n2 k -> draws C (n1 + n2) (m >>! k).
Proof.
  intros H1 H2 Hm Hk w Hc Hr.
  destruct (Hm w Hc) as (w1 & E1 & Hd1 & Hf1); [eapply room_le; [done|lia]|].
  destruct (Hk w1) as (w2 & E2 & Hd2 & Hf2).
  - rewrite <- Hc. by eapply (erase_field caps).
  - by eapply drawn_room.
  - exists w2. unfold if_err_return. mrun E1. cbn [negb Z.eqb TB_OK]. split; [exact E2|].
    split; [by eapply drawn_trans|congruence].
Qed.

Lemma draws_then C n1 n2 m k :
  0 <= n1 -> 0 <= n2 -> draws C n1 m -> draws C n2 k -> draws C (n1 + n2) (m ;;; k).
Proof.
  intros H1 H2 Hm Hk w Hc Hr. destruct (draws_seq C n1 n2 m k H1 H2 Hm Hk w Hc Hr) as (w' & E & H).
  exists w'. split; [|done]. unfold if_err_return, bind in *.
  destruct (Hm w Hc) as (w1 & E1 & _); [eapply room_le; [done|lia]|].
  rewrite E1 in E |- *. exact E.
Qed.

(** What [emits] establishes. *)
Lemma draws_emits C n m :
  (forall g, caps g = C -> exists bs, emits g m bs /\ Z.of_nat (length bs) <= n) -> draws C n m.
Proof.
  intros H w Hc Hr. destruct (H (G w) Hc) as (bs & He & Hl).
  destruct (He w eq_refl) as (b & E & Hw & Hb); [eapply room_le; [done|lia]|].
  exists (put_out b w). split; [done|]. split; [|done].
  split; [done|]. split; [done|]. split; [done|]. split; [done|]. cbn.
  rewrite <- (bb_bytes_length b Hw), Hb, length_app.
  destruct Hr as [Hw' _]. rewrite <- (bb_bytes_length _ Hw'). lia.
Qed.

Lemma udec32_length n : (length (udec (wrapu 32 n)) <= 10)%nat.
Proof.
  apply udec_length. pose proof (wrapu_range 32 n ltac:(lia)) as H.
  change (2 ^ 32) with 4294967296 in H. change (10 ^ Z.of_nat 10) with 10000000000. lia.
Qed.

Lemma cursor_bytes_length x y : (length (cursor_bytes x y) <= 24)%nat.
Proof.
  unfold cursor_bytes. destruct (_ || _); [simpl; lia|]. rewrite !length_app.
  pose proof (udec32_length (y + 1)). pose proof (udec32_length (x + 1)). simpl. lia.
Qed.

Lemma draws_cursor C x y : draws C 24 (send_cursor_if x y).
Proof.
  apply draws_emits. intros g _. exists (cursor_bytes x y). split; [apply emits_cursor|].
  pose proof (cursor_bytes_length x y). lia.
Qed.

(** The length of all the capabilities together bounds each of them. *)
Definition caps_length (C : list (option (list Z))) : Z :=
  sumZ ((fun c => match c with Some s => Z.of_nat (length (cstr s)) | None => 0 end) <$> C).

Lemma caps_length_cons c C :
  caps_length (c :: C) =
    (match c with Some s => Z.of_nat (length (cstr s)) | None => 0 end) + caps_length C.
Proof. done. Qed.

Lemma caps_length_nonneg C : 0 <= caps_length C.
Proof. induction C as [|c C IH]; [done|]. rewrite caps_length_cons. destruct c; lia. Qed.

Lemma cap_text_length g i : Z.of_nat (length (cap_text g i)) <= caps_length (caps g).
Proof.
  unfold cap_text. destruct (zlookup (caps g) i) as [[s|]|] eqn:E; try apply caps_length_nonneg.
  unfold zlookup in E. case_match; [done|]. clear -E.
  revert i E. generalize (caps g). intros C. intros i. generalize (Z.to_nat i). clear i.
  induction C as [|c C IH]; intros i E; [done|].
  pose proof (caps_length_nonneg C). rewrite caps_length_cons.
  destruct i as [|i]; simpl in E; [injection E as ->; lia|]. specialize (IH i E). destruct c; lia.
Qed.

Lemma sgr_bytes_length mode cfg cbg fd bd : (length (sgr_bytes mode cfg cbg fd bd) <= 100)%nat.
Proof.
  assert (forall c (lead : list Z), length lead = 3%nat ->
    (length (sgr_num mode c lead (udec (wrapu 32 c))) <= 40)%nat) as H.
  { intros c lead Hl. unfold sgr_num. pose proof (udec32_length c).
    pose proof (udec32_length (Z.land (Z.shiftr c 16) 255)).
    pose proof (udec32_length (Z.land (Z.shiftr c 8) 255)).
    pose proof (udec32_length (Z.land c 255)).
    destruct (_ || _ || _); [|destruct (wide_attr && _)]; rewrite ?length_app; simpl; lia. }
  pose proof (H cfg (lit "38;") eq_refl). pose proof (H cbg (lit "48;") eq_refl).
  unfold sgr_bytes. destruct (fd && bd); [simpl; lia|].
  rewrite !length_app. destruct fd, bd; rewrite ?length_app; simpl in *; lia.
Qed.

Definition attr_cost (C : list (option (list Z))) : Z := 8 * caps_length C + 120.

Lemma attr_bytes_length g fg bg : Z.of_nat (length (attr_bytes g fg bg)) <= attr_cost (caps g).
Proof.
  unfold attr_bytes, attr_cost, color_bytes. destruct (attr_colors (output_mode g) fg bg) as [cfg cbg].
  pose proof (sgr_bytes_length (output_mode g) cfg cbg (is_default (output_mode g) fg)
    (is_default (output_mode g) bg)).
  pose proof (caps_length_nonneg (caps g)). pose proof (cap_text_length g) as Hc.
  assert (forall (c : bool) (l : list Z) n, Z.of_nat (length l) <= n -> 0 <= n ->
    Z.of_nat (length (if c then l else [])) <= n) as Hif by (intros []; simpl; lia).
  unfold style_bytes. rewrite !length_app, !Nat2Z.inj_add.
  repeat match goal with
  | |- context [length (if ?c then cap_text g ?i else [])] =>
      pose proof (Hif c (cap_text g i) _ (Hc i) ltac:(lia));
      generalize dependent (length (if c then cap_text g i else [])); intros
  | |- context [length (if ?c then cstr ?i else [])] =>
      pose proof (Hif c (cstr i) 6 ltac:(vm_compute; discriminate) ltac:(lia));
      generalize dependent (length (if c then cstr i else [])); intros
  end.
  pose proof (Hc TB_CAP_SGR0). lia.
Qed.

Lemma draws_attr C fg bg :
  length C = Z.to_nat TB_CAP__COUNT -> Forall is_Some C -> draws C (attr_cost C) (send_attr fg bg).
Proof.
  intros HC1 HC2 w Hc Hr. pose proof (caps_length_nonneg C) as Hn.
  destruct ((fg =? last_fg (G w)) && (bg =? last_bg (G w))) eqn:E.
  - zbool. exists w. split; [by apply send_attr_same|]. split; [|done].
    eapply drawn_le; [apply drawn_refl, Hr|]. unfold attr_cost. lia.
  - assert (caps_ok (G w)) as Hok by (split; by rewrite Hc).
    pose proof (attr_bytes_length (G w) fg bg) as Hl. rewrite Hc in Hl.
    destruct (ends_attr (G w) fg bg Hok E w eq_refl) as (b & Eb & Hw & Hb);
      [eapply room_le; [done|lia]|].
    eexists. split; [exact Eb|]. split; [|done].
    split; [done|]. split; [done|]. split; [done|]. split; [done|]. cbn.
    rewrite <- (bb_bytes_length b Hw), Hb, length_app.
    destruct Hr as [Hw' _]. rewrite <- (bb_bytes_length _ Hw'). lia.
Qed.

(** *** Characters *)

Lemma encoded_length c : (length (tb_utf8_unicode_to_char c) <= 6)%nat.
Proof.
  pose proof (utf8_first_len c). destruct (utf8_first c) as [first len] eqn:E. cbn [snd] in *.
  pose proof (length_encoded c first len E ltac:(lia)). lia.
Qed.

Lemma draws_codepoints C l :
  Forall (fun c => 0 <= c) l -> draws C (6 * Z.of_nat (length l)) (send_codepoints l).
Proof.
  induction 1 as [|c l Hc Hl IH]; [apply draws_ret|]. cbn [send_codepoints].
  intros w Hw Hr. destruct (tb_iswprint c) as [p|] eqn:Ep.
  - mrun (eq_refl : deref (Some p) w = (Ret p, w)). revert w Hw Hr.
    match goal with |- forall w, _ -> _ -> exists w', ?m w = _ /\ _ /\ _ =>
      change (draws C (6 * Z.of_nat (length (c :: l))) m) end.
    eapply (draws_le C (6 + 6 * Z.of_nat (length l))); [|simpl; lia|lia].
    apply draws_seq; [lia|lia| |done]. apply draws_emits. intros g _.
    eexists. split; [apply emits_nputs|].
    pose proof (encoded_length (if p then c else 65533)). lia.
  - unfold tb_iswprint in Ep. rewrite iswprint_ex_spec in Ep by done. done.
Qed.

Definition cluster_cost (l : list Z) : Z := 24 + 6 * Z.of_nat (length l).

Lemma draws_cluster C x y l :
  Forall (fun c => 0 <= c) l -> draws C (cluster_cost l) (send_cluster x y l).
Proof.
  intros Hl w Hc Hr. unfold send_cluster. mrun (eq_refl : gets G w = (Ret (G w), w)).
  set (c := _ || _). clearbody c. revert w Hc Hr.
  match goal with |- forall w, _ -> _ -> exists w', ?m w = _ /\ _ /\ _ =>
    change (draws C (cluster_cost l) m) end.
  apply draws_seq; [lia|lia| |].
  - destruct c; [apply draws_cursor|]. eapply draws_le; [apply draws_ret|lia|lia].
  - intros w Hc Hr.
    destruct (draws_codepoints C l Hl (set_G (set_last_y y (set_last_x x (G w))) w)) as (w' & E & Hd & Hf);
      [done|exact Hr|].
    exists w'. split; [exact E|]. split; [|exact Hf].
    destruct Hd as (H1 & H2 & H3 & H4 & H5). by repeat split.
Qed.

(** ** One cell *)

(** The cells a caller may draw: codepoints are unsigned, clusters have at most
    [K] codepoints. *)
Definition cell_drawable (K : Z) (c : tb_cell) : Prop :=
  0 <= ch c /\ Forall (fun p => 0 <= p) (cell_cluster c) /\ cell_small c /\ nech c <= K.

Definition back_ok (K : Z) (B : cellbuf) : Prop :=
  cb_wf B /\ forall l, cells B = Some l -> Forall (cell_drawable K) l.

Lemma wf_nech c : cell_wf c -> 0 <= nech c.
Proof. unfold cell_wf. destruct (ech c); lia. Qed.

Lemma cluster_of_wf c : cell_wf c -> 0 < nech c -> cluster_of c = Some (cell_cluster c).
Proof.
  intros Hw Hn. unfold cluster_of, cell_cluster. rewrite (proj2 (Z.ltb_lt 0 (nech c))) by done.
  assert (Z.of_nat (length (take (Z.to_nat (nech c)) (default [] (ech c)))) = nech c) as ->;
    [|by rewrite Z.eqb_refl].
  unfold cell_wf in Hw. destruct (ech c) as [m|]; [|lia]. simpl. rewrite length_take. lia.
Qed.

Lemma cluster_width_range l w :
  Forall (fun c => 0 <= c) l -> tb_cluster_width l = Some w -> w <= 2.
Proof.
  intros Hl. unfold tb_cluster_width. rewrite cluster_fold by done. intros [= <-].
  unfold cluster_counts. cbn [wmax]. pose proof (max_width_range l).
  repeat case_match; lia.
Qed.

Lemma cell_width_spec K c :
  cell_wf c -> cell_drawable K c -> exists w, cell_width c = Some w /\ 1 <= w <= 2.
Proof.
  intros Hw (Hch & Hcl & _). unfold cell_width.
  assert (forall o, (exists w, o = Some w /\ w <= 2) -> exists w,
    match o with Some w => Some (if w <? 1 then 1 else w) | None => None end = Some w /\ 1 <= w <= 2)
    as Hgo.
  { intros o (w & -> & Hle). eexists. split; [done|]. case_match; zbool; lia. }
  apply Hgo. unfold is_cluster. destruct (egc && (0 <? nech c)) eqn:E.
  - zbool. rewrite cluster_of_wf by done.
    destruct (tb_cluster_width (cell_cluster c)) as [w|] eqn:Ew.
    + exists w. split; [done|]. by eapply cluster_width_range.
    + unfold tb_cluster_width in Ew. by rewrite cluster_fold in Ew.
  - rewrite wcwidth_spec by done. eexists. split; [done|]. apply width_spec_range.
Qed.

(** The position of a cell in a grid and its contents in a state. *)
Definition buf_dims (F B : cellbuf) : Prop := cb_width F = cb_width B /\ cb_height F = cb_height B.

Lemma read_cell_spec is_back i w l cell :
  cells (buf_of is_back (G w)) = Some l -> zlookup l i = Some cell ->
  read_cell is_back i w = (Ret cell, w).
Proof.
  intros El Ec. unfold read_cell.
  mrun (eq_refl : glob (buf_of is_back) w = (Ret (buf_of is_back (G w)), w)). rewrite El.
  mrun (eq_refl : deref (Some l) w = (Ret l, w)). by rewrite Ec.
Qed.

(** The state with another cell buffer. *)
Definition put_buf (is_back : bool) (F : cellbuf) (w : tbw) : tbw :=
  set_G ((if is_back then set_back F else set_front F) (G w)) w.
Abbreviation put_front := (put_buf false).

Lemma on_cell_at is_back w l i cell f rv cell' :
  cells (buf_of is_back (G w)) = Some l -> zlookup l i = Some cell ->
  f cell (T w) = (Ret (rv, cell'), T w) ->
  on_cell is_back i f w = (Ret rv, put_buf is_back (cb_set (buf_of is_back (G w)) l i cell') w).
Proof.
  intros El Ec Ef. unfold on_cell.
  mrun (read_cell_spec is_back i w l cell El Ec). mrun (tsys_ret _ _ _ _ Ef). rewrite set_T_id.
  unfold write_cell. rewrite bind_assoc.
  mrun (eq_refl : glob (buf_of is_back) w = (Ret (buf_of is_back (G w)), w)). rewrite El.
  rewrite bind_assoc. mrun (eq_refl : deref (Some l) w = (Ret l, w)).
  pose proof (zlookup_Some_range _ _ _ Ec). rewrite zupdate_range by done.
  by rewrite bind_assoc.
Qed.

Lemma on_front_cell w l i cell f rv cell' :
  cells (front (G w)) = Some l -> zlookup l i = Some cell ->
  f cell (T w) = (Ret (rv, cell'), T w) ->
  on_cell false i f w = (Ret rv, put_front (cb_set (front (G w)) l i cell') w).
Proof. apply (on_cell_at false). Qed.

(** The front buffer after [mark_hidden]: other cells keep what they show. *)
Lemma mark_hidden_spec l x y w :
  cb_wf (front (G w)) -> Forall (fun i => in_grid (cb_width (front (G w))) (cb_height (front (G w))) (x + i) y) l ->
  exists F, mark_hidden l x y w = (Ret TB_OK, put_front F w) /\ cb_wf F /\ buf_dims F (front (G w)) /\
    (forall i, i ∈ l -> view_at F (x + i) y = Some (2 ^ 32 - 1, attr_all, attr_all, [])) /\
    forall x' y', (forall i, i ∈ l -> ~ (x' = x + i /\ y' = y)) -> view_at F x' y' = view_at (front (G w)) x' y'.
Proof.
  revert w. induction l as [|i l IH]; intros w Hw Hl; cbn [mark_hidden].
  - exists (front (G w)). split; [by destruct w as [[] ? ?]|]. split; [done|]. split; [done|].
    split; [|done]. intros i Hi. by apply elem_of_nil in Hi.
  - apply Forall_cons in Hl as [Hi Hl]. mrun (eq_refl : glob front w = (Ret (front (G w)), w)).
    rewrite cellbuf_get_in by done.
    destruct (cb_at_wf _ _ _ Hw Hi) as (lf & cell & El & Ec & _ & Hcw).
    destruct (cell_set_1 cell (2 ^ 32 - 1) attr_all attr_all (T w) Hcw) as (cell' & E & Hcw' & Hv' & _).
    unfold if_err_return.
    mrun (on_front_cell w lf _ cell (fun c => cell_set c (Some [2 ^ 32 - 1]) 1 attr_all attr_all)
      TB_OK cell' El Ec E). change (negb (TB_OK =? TB_OK)) with false. cbv iota.
    set (F1 := cb_set _ _ _ _).
    assert (cb_wf F1) as Hw1 by (by apply cb_set_wf).
    destruct (IH (put_front F1 w) Hw1) as (F & EF & HwF & Hd & Hm & Hv).
    { eapply Forall_impl; [exact Hl|]. done. }
    exists F. split; [exact EF|]. split; [done|]. split; [exact Hd|]. split.
    { intros j Hj. destruct (decide (j ∈ l)) as [Hjl|Hjl]; [by apply Hm|].
      apply elem_of_cons in Hj as [->|?]; [|done]. rewrite Hv by (intros k Hk [Ek _]; apply Hjl; by replace i with k by lia).
      cbn [put_buf set_G G front set_front]. subst F1. rewrite view_at_set, decide_True by done. by rewrite Hv'. }
    intros x' y' Hn. rewrite Hv by (intros j Hj; apply Hn; by right).
    cbn [put_buf set_G G front set_front]. subst F1. rewrite view_at_set by done.
    rewrite decide_False; [done|]. apply Hn. by left.
Qed.

Lemma drawn_put_front F w : bb_wf (g_out (G w)) -> drawn w (put_front F w) 0.
Proof. intros H. split; [done|]. split; [done|]. split; [done|]. split; [done|]. simpl. lia. Qed.

(** The bytes a cell can cost. *)
Definition cell_cost (C : list (option (list Z))) (K : Z) : Z :=
  attr_cost C + (24 + 6 * Z.max 1 K).

Lemma attr_cost_nonneg C : 0 <= attr_cost C.
Proof. unfold attr_cost. pose proof (caps_length_nonneg C). lia. Qed.

Definition caps_full (C : list (option (list Z))) : Prop :=
  length C = Z.to_nat TB_CAP__COUNT /\ Forall is_Some C.

(** What is written for a cell: its characters, or a space for a wide one that
    does not fit. *)
Lemma shown_length K c l :
  cell_wf c -> cell_drawable K c ->
  (if is_cluster c then cluster_of c else Some [ch c]) = Some l ->
  Forall (fun p => 0 <= p) l /\ Z.of_nat (length l) <= Z.max 1 K.
Proof.
  intros Hw (Hch & Hcl & _ & HK). unfold is_cluster. destruct (egc && (0 <? nech c)) eqn:E.
  - zbool. rewrite cluster_of_wf by done. intros [= <-]. split; [done|].
    unfold cell_cluster. rewrite (proj2 (Z.ltb_lt 0 (nech c))) by done. rewrite length_take. lia.
  - intros [= <-]. split; [by constructor|]. simpl. lia.
Qed.

Lemma shown_some c : cell_wf c -> exists l, (if is_cluster c then cluster_of c else Some [ch c]) = Some l.
Proof.
  intros Hw. unfold is_cluster. destruct (egc && (0 <? nech c)) eqn:E; [|by eexists].
  zbool. by rewrite cluster_of_wf by done; eexists.
Qed.

(** The front buffer [F'] agrees with [F] outside columns [x .. x + n) of row [y]. *)
Definition same_outside (F F' : cellbuf) (x n y : Z) : Prop :=
  buf_dims F' F /\
  forall x' y', ~ (y' = y /\ x <= x' < x + n) -> view_at F' x' y' = view_at F x' y'.

(** One changed cell: it is copied to the front buffer and the cells it hides
    are marked. *)
Lemma present_changed_spec C K x y b wd w :
  caps (G w) = C -> caps_full C -> room w (cell_cost C K) -> cb_wf (front (G w)) ->
  in_grid (cb_width (front (G w))) (cb_height (front (G w))) x y ->
  cell_wf b -> cell_drawable K b -> 1 <= wd <= 2 ->
  exists w', present_changed x y (y * cb_width (front (G w)) + x) b wd w = (Ret TB_OK, w') /\
    drawn w w' (cell_cost C K) /\ cb_wf (front (G w')) /\
    view_at (front (G w')) x y = Some (cell_view b) /\
    same_outside (front (G w)) (front (G w')) x wd y.
Proof.
  intros HC [HC1 HC2] Hr HF Hg Hwb Hdb Hwd. unfold present_changed.
  pose proof (attr_cost_nonneg C) as Hac.
  destruct (cb_at_wf _ _ _ HF Hg) as (lf & cf & El & Ec & _ & Hcf).
  destruct (cell_copy_spec cf b (T w) Hcf Hwb) as (cf' & Ecopy & Hcf' & _ & Hv);
    [apply Hdb|apply Hr|].
  mrun (on_front_cell w lf _ cf (fun f => cell_copy f b) TB_OK cf' El Ec Ecopy).
  set (F1 := cb_set _ _ _ _). set (w1 := put_front F1 w).
  assert (cb_wf F1) as HF1 by (by apply cb_set_wf).
  assert (drawn w w1 0) as Hd1 by (apply drawn_put_front, Hr).
  destruct (draws_attr C (fg b) (bg b) HC1 HC2 w1 HC) as (w2 & E2 & Hd2 & Hf2).
  { eapply room_le; [exact Hr|]. unfold cell_cost. lia. }
  mrun E2. mrun (eq_refl : glob front w2 = (Ret (front (G w2)), w2)). rewrite Hf2.
  assert (caps (G w2) = C) as HC' by (rewrite <- HC; by eapply (erase_field caps w1)).
  assert (room w2 (24 + 6 * Z.max 1 K)) as Hr2.
  { eapply drawn_room; [exact Hd2|]. exact Hr. }
  assert (forall w3, drawn w2 w3 (24 + 6 * Z.max 1 K) -> drawn w w3 (cell_cost C K)) as Hdall.
  { intros w3 Hd3. replace (cell_cost C K) with (0 + (attr_cost C + (24 + 6 * Z.max 1 K)))
      by (unfold cell_cost; lia). eapply drawn_trans; [exact Hd1|]. by eapply drawn_trans. }
  assert (view_at F1 x y = Some (cell_view b) /\ same_outside (front (G w)) F1 x 1 y) as [Hv1 Ho1].
  { split; [|split; [done|]; intros x' y' Hn]; subst F1; rewrite view_at_set by done.
    - rewrite decide_True by done. by rewrite Hv.
    - rewrite decide_False; [done|lia]. }
  change (cb_width (front (G w1))) with (cb_width (front (G w))). unfold in_grid in Hg.
  destruct ((1 <? wd) && (cb_width (front (G w)) - (wd - 1) <=? x)) eqn:Ew; zbool.
  - replace (cb_width (front (G w)) - x) with 1 by lia. change (seqZ x 1) with [0 + x].
    cbn [send_spaces]. rewrite bind_assoc.
    destruct (draws_cluster C (0 + x) y [32]) with (w := w2) as (w3 & E3 & Hd3 & Hf3);
      [apply Forall_singleton; lia|done|eapply room_le; [done|unfold cluster_cost; simpl; lia]|].
    change (send_char (0 + x) y 32) with (send_cluster (0 + x) y [32]). mrun E3.
    exists w3. split; [done|]. split; [apply Hdall; eapply drawn_le; [exact Hd3|unfold cluster_cost; simpl; lia]|].
    rewrite Hf3, Hf2. change (front (G w1)) with F1. split; [done|]. split; [done|].
    destruct Ho1 as [Hdim Ho1]. split; [done|]. intros x' y' Hn. apply Ho1. lia.
  - destruct (shown_some b Hwb) as [l Hl]. rewrite Hl.
    destruct (shown_length K b l Hwb Hdb Hl) as [Hl1 Hl2].
    mrun (eq_refl : deref (Some l) w2 = (Ret l, w2)).
    destruct (draws_cluster C x y l Hl1 w2 HC') as (w3 & E3 & Hd3 & Hf3);
      [eapply room_le; [done|unfold cluster_cost; lia]|].
    mrun E3. assert (front (G w3) = F1) as HF3 by (by rewrite Hf3, Hf2).
    destruct (mark_hidden_spec (seqZ 1 (wd - 1)) x y w3) as (F & EF & HwF & Hdim & _ & Hv3).
    + by rewrite HF3.
    + rewrite HF3. apply Forall_forall. intros i Hi%elem_of_seqZ. unfold in_grid.
      change (cb_width F1) with (cb_width (front (G w))). change (cb_height F1) with (cb_height (front (G w))).
      assert (i = 1 /\ wd = 2) as [-> ->] by lia.
      apply andb_false_iff in Ew as [Ew|Ew]; zbool; lia.
    + exists (put_front F w3). split; [done|]. split; [|split; [done|]].
      * apply Hdall. eapply drawn_le; [eapply drawn_trans; [exact Hd3|apply drawn_put_front; apply Hd3]|].
        unfold cluster_cost. lia.
      * change (front (G (put_front F w3))) with F. rewrite HF3 in Hv3, Hdim.
        destruct Ho1 as [Hdim1 Ho1]. split; [|split].
        -- rewrite Hv3; [done|]. intros i Hi%elem_of_seqZ. lia.
        -- unfold buf_dims in *. lia.
        -- intros x' y' Hn. rewrite Hv3; [apply Ho1; lia|]. intros i Hi%elem_of_seqZ. lia.
Qed.

(** ** Rows and the screen *)

(** A state whose back buffer [B] can be drawn. *)
Record presentable (C : list (option (list Z))) (K : Z) (B : cellbuf) (w : tbw) : Prop := {
  p_caps : caps (G w) = C;
  p_full : caps_full C;
  p_back : back (G w) = B;
  p_ok : back_ok K B;
  p_front : cb_wf (front (G w));
  p_dims : buf_dims (front (G w)) B
}.

Lemma presentable_drawn C K B w w' n :
  presentable C K B w -> drawn w w' n -> cb_wf (front (G w')) -> buf_dims (front (G w')) B ->
  presentable C K B w'.
Proof.
  intros [H1 H2 H3 H4 H5 H6] Hd Hw Hb. constructor; try done.
  - rewrite <- H1. by eapply (erase_field caps).
  - rewrite <- H3. by eapply (erase_field back).
Qed.

Lemma back_cell K B x y :
  back_ok K B -> in_grid (cb_width B) (cb_height B) x y ->
  exists l b wd, cells B = Some l /\ zlookup l (y * cb_width B + x) = Some b /\
    cb_at B x y = Some b /\ cell_wf b /\ cell_drawable K b /\ cell_width b = Some wd /\ 1 <= wd <= 2.
Proof.
  intros [Hw Hd] Hg. destruct (cb_at_wf _ _ _ Hw Hg) as (l & b & El & Eb & Eat & Hwb).
  assert (cell_drawable K b) as Hdb.
  { specialize (Hd _ El). pose proof (zlookup_Some_range _ _ _ Eb). rewrite zlookup_nonneg in Eb by lia.
    rewrite Forall_lookup in Hd. by eapply Hd. }
  destruct (cell_width_spec K b Hwb Hdb) as (wd & Ew & Hwd).
  exists l, b, wd. done.
Qed.

(** An iteration does nothing, or draws the cell. *)
Lemma present_cell_eq C K B x y w :
  presentable C K B w -> in_grid (cb_width B) (cb_height B) x y ->
  exists b wd, cb_at B x y = Some b /\ cell_wf b /\ cell_drawable K b /\ cell_width b = Some wd /\ 1 <= wd <= 2 /\
    in_grid (cb_width (front (G w))) (cb_height (front (G w))) x y /\
    (view_at (front (G w)) x y = Some (cell_view b) /\ present_cell x y w = (Ret (TB_OK, wd), w) \/
     view_at (front (G w)) x y <> Some (cell_view b) /\
     present_cell x y w =
       (let* rv := present_changed x y (y * cb_width (front (G w)) + x) b wd in ret (rv, wd)) w).
Proof.
  intros Hp Hg. pose proof (p_back _ _ _ _ Hp) as HB. pose proof (p_dims _ _ _ _ Hp) as [Dw Dh].
  destruct (back_cell K B x y (p_ok _ _ _ _ Hp) Hg) as (lb & b & wd & Elb & Eb & Eat & Hwb & Hdb & Ew & Hwd).
  assert (in_grid (cb_width (front (G w))) (cb_height (front (G w))) x y) as Hgf by (by rewrite Dw, Dh).
  destruct (cb_at_wf _ _ _ (p_front _ _ _ _ Hp) Hgf) as (lf & f & Elf & Ef & Eatf & Hwf).
  exists b, wd. do 6 (split; [done|]).
  unfold present_cell. mrun (eq_refl : gets G w = (Ret (G w), w)). rewrite HB.
  rewrite !cellbuf_get_in by done.
  assert (cells (buf_of true (G w)) = Some lb) as Elb' by (cbn [buf_of]; by rewrite HB).
  mrun (read_cell_spec true _ w lb b Elb' Eb).
  mrun (read_cell_spec false _ w lf f Elf Ef). rewrite Ew.
  mrun (eq_refl : deref (Some wd) w = (Ret wd, w)).
  destruct (cell_cmp_spec b f Hwb Hwf) as (d & -> & Hd).
  mrun (eq_refl : deref (Some d) w = (Ret d, w)).
  assert (view_at (front (G w)) x y = Some (cell_view f)) as EvF by (unfold view_at; by rewrite Eatf).
  rewrite EvF. destruct (Z.eqb_spec d 0) as [E0|Hne]; [left|right].
  - apply Hd in E0. by rewrite E0.
  - split; [|done]. intros E1. apply Hne, Hd. symmetry. by apply (inj Some).
Qed.

Lemma present_cell_spec C K B x y w :
  presentable C K B w -> room w (cell_cost C K) -> in_grid (cb_width B) (cb_height B) x y ->
  exists w' b wd, cb_at B x y = Some b /\ cell_width b = Some wd /\ 1 <= wd <= 2 /\
    present_cell x y w = (Ret (TB_OK, wd), w') /\ drawn w w' (cell_cost C K) /\
    presentable C K B w' /\ view_at (front (G w')) x y = view_at B x y /\
    same_outside (front (G w)) (front (G w')) x wd y /\
    (view_at (front (G w)) x y = view_at B x y -> w' = w).
Proof.
  intros Hp Hr Hg. pose proof (p_dims _ _ _ _ Hp) as [Dw Dh].
  destruct (present_cell_eq C K B x y w Hp Hg) as (b & wd & Eat & Hwb & Hdb & Ew & Hwd & Hgf & Hcase).
  assert (view_at B x y = Some (cell_view b)) as -> by (unfold view_at; by rewrite Eat).
  destruct Hcase as [[EvF ->]|[Hne ->]].
  - exists w, b, wd. repeat (split; [done|]).
    split; [eapply drawn_le; [apply drawn_refl, Hr|unfold cell_cost; pose proof (attr_cost_nonneg C); lia]|].
    split; [done|]. split; [done|]. done.
  - destruct (present_changed_spec C K x y b wd w (p_caps _ _ _ _ Hp) (p_full _ _ _ _ Hp) Hr
      (p_front _ _ _ _ Hp) Hgf Hwb Hdb Hwd) as (w' & E & Hdr & HF & Hv & Ho).
    mrun E. exists w', b, wd. do 4 (split; [done|]). split; [done|].
    split; [eapply presentable_drawn; [done..|]; destruct Ho as [Ho _]; unfold buf_dims in *; lia|].
    split; [done|]. split; [done|]. done.
Qed.

(** The columns of row [y] at which the loop of [tb_present] stops, from column
    [x] on: the width of a cell leads to the next one. *)
Inductive stops (B : cellbuf) (y : Z) : Z -> Z -> Prop :=
| stops_here x : stops B y x x
| stops_next x b wd x' : cb_at B x y = Some b -> cell_width b = Some wd ->
    stops B y (x + wd) x' -> stops B y x x'.

(** Where the loop stops, the buffer [F] shows what [B] shows. *)
Definition synced (F B : cellbuf) (x y : Z) : Prop :=
  forall x', stops B y x x' -> x' < cb_width B -> view_at F x' y = view_at B x' y.

Lemma stops_cell B y x b wd x' :
  cb_at B x y = Some b -> cell_width b = Some wd -> stops B y x x' -> x' = x \/ stops B y (x + wd) x'.
Proof. intros Eb Ew H. inversion H; [by left|]. simplify_eq. by right. Qed.

Lemma stops_le K B y x x' :
  back_ok K B -> stops B y x x' -> x <= x'.
Proof.
  intros HB. induction 1 as [|x b wd x' Eb Ew _ IH]; [lia|].
  assert (in_grid (cb_width B) (cb_height B) x y) as Hg.
  { unfold cb_at in Eb. destruct (cellbuf_in_bounds B x y) eqn:E; [|done]. by apply in_bounds_grid. }
  destruct (back_cell K B x y HB Hg) as (l & b' & wd' & _ & _ & Eb' & _ & _ & Ew' & Hwd).
  simplify_eq. lia.
Qed.

Lemma present_row_spec C K B y fuel x w :
  presentable C K B w -> 0 <= x -> 0 <= y < cb_height B -> cb_width B - x <= Z.of_nat fuel ->
  room w (Z.of_nat fuel * cell_cost C K) ->
  exists w', present_row fuel x y w = (Ret TB_OK, w') /\ drawn w w' (Z.of_nat fuel * cell_cost C K) /\
    presentable C K B w' /\ synced (front (G w')) B x y /\
    (forall x' y', ~ (y' = y /\ x <= x') -> view_at (front (G w')) x' y' = view_at (front (G w)) x' y') /\
    (synced (front (G w)) B x y -> w' = w).
Proof.
  assert (0 <= cell_cost C K) as Hcc by (unfold cell_cost; pose proof (attr_cost_nonneg C); lia).
  revert x w. induction fuel as [|fuel IH]; intros x w Hp Hx Hy Hf Hr; cbn [present_row];
    mrun (eq_refl : glob front w = (Ret (front (G w)), w)); pose proof (p_dims _ _ _ _ Hp) as [Dw Dh];
    rewrite Dw; destruct (Z.ltb_spec x (cb_width B)) as [Hlt|Hge]; try lia.
  1,3: exists w; split; [done|]; split; [eapply drawn_le; [apply drawn_refl, Hr|lia]|];
    split; [done|]; split; [|done]; intros x' Hs Hlt;
    pose proof (stops_le K B y x x' (p_ok _ _ _ _ Hp) Hs); lia.
  rewrite Nat2Z.inj_succ, Z.mul_succ_l, Z.add_comm in Hr |- *.
  destruct (present_cell_spec C K B x y w Hp) as (w1 & b & wd & Eb & Ew & Hwd & E & Hd & Hp1 & Hv & Ho & Hid);
    [eapply room_le; [exact Hr|lia]|by split|].
  mrun E. change (negb (TB_OK =? TB_OK)) with false. cbv iota.
  destruct (IH (x + wd) w1 Hp1) as (w2 & E2 & Hd2 & Hp2 & Hs2 & Ho2 & Hid2); [lia|done|lia|by eapply drawn_room|].
  exists w2. split; [exact E2|]. split; [by eapply drawn_trans|]. split; [done|].
  destruct Ho as [_ Ho]. split; [|split].
  - intros x' Hs Hx'. destruct (stops_cell B y x b wd x' Eb Ew Hs) as [->|Hs']; [|by apply Hs2].
    rewrite Ho2 by lia. done.
  - intros x' y' Hn. rewrite Ho2, Ho by lia. done.
  - intros Hsy. assert (w1 = w) as ->.
    { apply Hid, Hsy; [constructor|done]. }
    apply Hid2. intros x' Hs Hx'. apply Hsy; [|done]. by eapply stops_next.
Qed.

Lemma present_rows_spec C K B l w :
  presentable C K B w -> NoDup l -> Forall (fun y => 0 <= y < cb_height B) l ->
  room w (Z.of_nat (length l) * (cb_width B * cell_cost C K)) ->
  exists w', present_rows l w = (Ret TB_OK, w') /\
    drawn w w' (Z.of_nat (length l) * (cb_width B * cell_cost C K)) /\
    presentable C K B w' /\ (forall y, y ∈ l -> synced (front (G w')) B 0 y) /\
    (forall x' y', y' ∉ l \/ x' < 0 -> view_at (front (G w')) x' y' = view_at (front (G w)) x' y') /\
    ((forall y, y ∈ l -> synced (front (G w)) B 0 y) -> w' = w).
Proof.
  assert (0 <= cell_cost C K) as Hcc by (unfold cell_cost; pose proof (attr_cost_nonneg C); lia).
  revert w. induction l as [|y l IH]; intros w Hp Hnd Hl Hr; cbn [present_rows].
  { exists w. split; [done|]. split; [apply drawn_refl, Hr|]. split; [done|].
    split; [intros y Hy; by apply elem_of_nil in Hy|done]. }
  apply NoDup_cons in Hnd as [Hny Hnd]. apply Forall_cons in Hl as [Hy Hl].
  assert (0 <= cb_width B) as HwB by (destruct (p_ok _ _ _ _ Hp) as [(? & _ & ? & _) _]; done).
  cbn [length] in *. rewrite Nat2Z.inj_succ, Z.mul_succ_l, Z.add_comm in Hr |- *.
  mrun (eq_refl : glob front w = (Ret (front (G w)), w)). pose proof (p_dims _ _ _ _ Hp) as [Dw Dh].
  rewrite Dw. unfold if_err_return.
  destruct (present_row_spec C K B y (Z.to_nat (cb_width B)) 0 w Hp) as (w1 & E1 & Hd1 & Hp1 & Hs1 & Ho1 & Hid1);
    [lia|done|lia|rewrite Z2Nat.id by done; eapply room_le; [exact Hr|nia]|].
  rewrite Z2Nat.id in Hd1 by done.
  mrun E1. change (negb (TB_OK =? TB_OK)) with false. cbv iota.
  destruct (IH w1 Hp1 Hnd Hl) as (w2 & E2 & Hd2 & Hp2 & Hs2 & Ho2 & Hid2); [by eapply drawn_room|].
  exists w2. split; [exact E2|]. split; [by eapply drawn_trans|]. split; [done|]. split; [|split].
  - intros y' [->|Hy']%elem_of_cons; [|by apply Hs2]. intros x' Hs Hx'.
    rewrite Ho2 by (by left). by apply Hs1.
  - intros x' y' Hn. rewrite elem_of_cons in Hn. rewrite Ho2, Ho1; [done|lia|tauto].
  - intros Hsy. assert (w1 = w) as -> by (apply Hid1, Hsy; by left).
    apply Hid2. intros y' Hy'. apply Hsy. by right.
Qed.

(** [bytebuf_flush] when the terminal takes everything. *)
Lemma out_flush_calm w :
  bb_wf (g_out (G w)) -> s_write (T w) = [] ->
  exists b, out_flush w = (Ret TB_OK, mk_tbw (set_g_out b (G w))
      (set_out (s_out (T w) ++ bb_bytes (g_out (G w))) (T w)) (X w)) /\ bb_wf b /\ bb_bytes b = [].
Proof.
  intros Hw Hs. destruct (flush_spec (g_out (G w)) (T w) Hw) as (rv & b & e & s & E & Hwb & Hc & Hn).
  destruct (Hn Hs) as (-> & -> & Es). exists b. unfold out_flush.
  mrun (eq_refl : glob g_out w = (Ret (g_out (G w)), w)). mrun (tsys_ret _ _ _ _ E).
  split; [by rewrite Es|]. split; [done|]. by destruct Hc as [(_ & ? & _)|[? _]].
Qed.

(** The bytes a redraw can cost. *)
Definition present_cost (C : list (option (list Z))) (K : Z) (B : cellbuf) : Z :=
  cb_height B * (cb_width B * cell_cost C K) + 24.

Definition all_synced (F B : cellbuf) : Prop := forall y, 0 <= y < cb_height B -> synced F B 0 y.

Lemma tb_present_spec C K B w :
  initialized (G w) = true -> presentable C K B w -> s_write (T w) = [] ->
  room w (present_cost C K B) ->
  exists w' sent, tb_present w = (Ret TB_OK, w') /\ presentable C K B w' /\
    erase (G w') = erase (G w) /\ all_synced (front (G w')) B /\ bb_wf (g_out (G w')) /\ bb_bytes (g_out (G w')) = [] /\
    T w' = set_out (s_out (T w) ++ sent) (T w) /\
    (all_synced (front (G w)) B -> front (G w') = front (G w) /\
       sent = bb_bytes (g_out (G w)) ++ cursor_bytes (cursor_x (G w)) (cursor_y (G w))).
Proof.
  intros Hi Hp Hs Hr. unfold tb_present, if_not_init_return, present_cost in *.
  mrun (eq_refl : glob initialized w = (Ret (initialized (G w)), w)). rewrite Hi. cbn [negb].
  set (w0 := set_G (set_last_y (-1) (set_last_x (-1) (G w))) w).
  mrun (eq_refl : upd (set_last_x (-1)) w = (Ret tt, set_G (set_last_x (-1) (G w)) w)).
  mrun (eq_refl : upd (set_last_y (-1)) (set_G (set_last_x (-1) (G w)) w) = (Ret tt, w0)).
  mrun (eq_refl : glob front w0 = (Ret (front (G w)), w0)).
  destruct (p_dims _ _ _ _ Hp) as [_ ->].
  assert (presentable C K B w0) as Hp0 by (by destruct Hp).
  assert (0 <= cb_height B) as HhB by (destruct (p_ok _ _ _ _ Hp) as [(? & _ & _ & ? & _) _]; done).
  unfold if_err_return.
  assert (0 <= cb_height B * (cb_width B * cell_cost C K)) as Hnn.
  { destruct (p_ok _ _ _ _ Hp) as [(? & _ & ? & _) _]. pose proof (attr_cost_nonneg C).
    unfold cell_cost. repeat apply Z.mul_nonneg_nonneg; lia. }
  destruct (present_rows_spec C K B (seqZ 0 (cb_height B)) w0 Hp0) as (w1 & E1 & Hd1 & Hp1 & Hs1 & _ & Hid1).
  { apply NoDup_seqZ. }
  { apply Forall_forall. intros y Hy%elem_of_seqZ. lia. }
  { rewrite length_seqZ, Z2Nat.id by done. eapply room_le; [exact Hr|lia]. }
  rewrite length_seqZ, Z2Nat.id in Hd1 by done.
  mrun E1. change (negb (TB_OK =? TB_OK)) with false. cbv iota.
  mrun (eq_refl : gets G w1 = (Ret (G w1), w1)).
  destruct (emits_cursor (G w1) (cursor_x (G w1)) (cursor_y (G w1)) w1 eq_refl) as (b & E2 & Hwb & Hb).
  { eapply drawn_room; [exact Hd1|]. eapply room_le; [exact Hr|].
    pose proof (cursor_bytes_length (cursor_x (G w1)) (cursor_y (G w1))). lia. }
  mrun E2. change (negb (TB_OK =? TB_OK)) with false. cbv iota.
  assert (T w1 = T w) as HT by (by destruct Hd1 as (_ & ? & _)).
  destruct (out_flush_calm (put_out b w1) Hwb) as (b' & E3 & Hwb' & Hb').
  { cbn [put_out set_G T]. by rewrite HT. }
  mrun E3. change (negb (TB_OK =? TB_OK)) with false. cbv iota.
  eexists _, (bb_bytes b). split; [done|]. cbn [G T put_out set_G].
  split; [by destruct Hp1; constructor|].
  split; [by destruct Hd1|].
  split; [intros y Hy; apply Hs1, elem_of_seqZ; lia|].
  split; [done|]. split; [done|]. split; [by rewrite HT|]. intros Hsy.
  assert (w1 = w0) as Ew by (apply Hid1; intros y Hy%elem_of_seqZ; apply Hsy; lia).
  rewrite Hb, Ew. done.
Qed.

End Present.

(** ** Properties *)

(** C18: [tb_present] always ends, never leaves the buffers, and returns
    [TB_OK] when the terminal takes what is written; then the front buffer shows
    what the back buffer shows in every cell where the loop stops (the columns
    that are not covered by a wide character), nothing is left unsent, and a
    second [tb_present] sends the position of the cursor and nothing else. *)
Theorem present_synchronizes `{config} C K B w :
  initialized (G w) = true -> presentable C K B w -> s_write (T w) = [] ->
  room w (present_cost C K B) ->
  exists w', tb_present w = (Ret TB_OK, w') /\
    back (G w') = B /\ all_synced (front (G w')) B /\ bb_bytes (g_out (G w')) = [] /\
    exists w2, tb_present w' = (Ret TB_OK, w2) /\ front (G w2) = front (G w') /\
      s_out (T w2) = s_out (T w') ++ cursor_bytes (cursor_x (G w)) (cursor_y (G w)).
Proof.
  intros Hi Hp Hs Hr.
  destruct (tb_present_spec C K B w Hi Hp Hs Hr)
    as (w1 & sent & E1 & Hp1 & He & Hs1 & Hw1 & Hb1 & HT1 & _).
  pose proof (erased_field initialized (G w) (G w1) (fun _ => eq_refl) He) as Hi1. rewrite Hi in Hi1.
  exists w1. split; [done|]. split; [apply Hp1|]. split; [done|]. split; [done|].
  destruct (tb_present_spec C K B w1 Hi1 Hp1)
    as (w2 & sent2 & E2 & _ & _ & _ & _ & _ & HT2 & Hidle).
  - by rewrite HT1.
  - destruct Hr as (Hw & Ha & Hr). split; [done|]. split; [by rewrite HT1|].
    rewrite <- (bb_bytes_length _ Hw1), Hb1. rewrite <- (bb_bytes_length _ Hw) in Hr. simpl. lia.
  - destruct (Hidle Hs1) as [Hf Hsent]. exists w2. split; [done|]. split; [done|].
    rewrite HT2, Hsent, Hb1. cbn [app].
    by rewrite (erased_field cursor_x _ _ (fun _ => eq_refl) He), (erased_field cursor_y _ _ (fun _ => eq_refl) He).
Qed.

(** A screen of four by one: a wide character, the column it covers, a letter,
    and a wide character that does not fit. *)
Definition demo_back : cellbuf :=
  mk_cellbuf 4 1 (Some [mk_cell 26085 2 0 None 0 0; mk_cell 32 0 0 None 0 0;
                        mk_cell 97 2 0 None 0 0; mk_cell 26412 1 0 None 0 0]).
Definition demo_front : cellbuf := mk_cellbuf 4 1 (Some (replicate 4 (mk_cell 32 0 0 None 0 0))).
Definition demo_screen : tbw :=
  mk_tbw (set_back demo_back (set_front demo_front demo_global)) calm calm_env.

Lemma demo_presentable :
  @presentable default_config (Some <$> xterm_caps) 0 demo_back demo_screen.
Proof.
  assert (forall c, ech c = None -> nech c = 0 -> cech c = 0 -> @cell_wf default_config c) as Hc
    by (intros c H1 H2 H3; unfold cell_wf; by rewrite H1).
  constructor; [done|exact xterm_caps_ok|done| | |done].
  - split.
    + eexists. split; [done|]. do 3 (split; [done|]). split; [done|].
      repeat (apply Forall_cons; split; [by apply Hc|]). constructor.
    + intros l [= <-]. repeat (apply Forall_cons; split; [split; [vm_compute; discriminate|]; split; [constructor|]; split; vm_compute; discriminate|]). constructor.
  - eexists. split; [done|]. do 3 (split; [done|]). split; [done|].
    repeat (apply Forall_cons; split; [by apply Hc|]). constructor.
Qed.

Lemma present_synchronizes_witness :
  exists w', @tb_present default_config demo_screen = (Ret TB_OK, w') /\
    back (G w') = demo_back /\ @all_synced default_config (front (G w')) demo_back /\
    bb_bytes (g_out (G w')) = [] /\
    exists w2, @tb_present default_config w' = (Ret TB_OK, w2) /\ front (G w2) = front (G w') /\
      s_out (T w2) = s_out (T w') ++ cursor_bytes 0 0.
Proof.
  apply (@present_synchronizes default_config (Some <$> xterm_caps) 0 demo_back demo_screen).
  - reflexivity.
  - exact demo_presentable.
  - reflexivity.
  - split; [exact wf_zero|]. split; [reflexivity|]. vm_compute. discriminate.
Defined.

(** The wide character at the edge is replaced by a space. *)
Example demo_present_bytes :
  s_out (T (snd (@tb_present default_config demo_screen))) =
    esc "(B" ++ esc "[m" ++ esc "[38;5;2m" ++ esc "[1;1H" ++ [230; 151; 165] ++
    esc "[1;3H" ++ lit "a" ++ esc "(B" ++ esc "[m" ++ esc "[38;5;1m" ++ lit " " ++ esc "[1;1H".
Proof. vm_compute. reflexivity. Qed.
