(* ===== verification/TbTerm.v ===== *)
(** * life/termbox2.h: what the terminal shows

    A model of the terminal the library writes to: a grid of cells, a cursor and
    a pen, driven by the bytes it receives.  It knows the control sequences the
    capabilities of the built-in terminals and the hard-coded sequences use, and
    gives no result for any other, so that a theorem that says it has one also
    says that nothing else is sent.  It advances by the widths of the library's
    own table, which is what the library assumes of its terminal. *)

From stdpp Require Import prelude list_numbers strings gmap.
From Stdlib Require Import ZArith Lia.
From S2P Require Import Prelude CLib Posix TbTables TbText TbBuf TbTrie TbGlobal TbOutput TbPresent.
Open Scope Z_scope.

(** ** The terminal *)

(** A wide character takes two cells; a cell whose other half was overwritten
    shows nothing definite. *)
Inductive glyph := Narrow (c : Z) | Left (c : Z) | Right | Broken.

Record vcell := mk_vcell { v_glyph : glyph; v_pen : pen }.

(** Between sequences; after an escape; after [ESC (]; in a control sequence,
    with its parameter bytes; in a character, with the number of bytes to come
    after the next one. *)
Inductive vstate := Ground | Escape | Charset | Csi (acc : list Z) | Utf8 (n : nat) (acc : Z).

Record vt := mk_vt {
  vt_cols : Z;
  vt_rows : Z;
  vt_grid : Z -> Z -> vcell;
  vt_x : Z;
  vt_y : Z;
  vt_pen : pen;
  vt_state : vstate
}.

Definition set_vt_state s v := mk_vt (vt_cols v) (vt_rows v) (vt_grid v) (vt_x v) (vt_y v) (vt_pen v) s.
Definition set_vt_pen p v := mk_vt (vt_cols v) (vt_rows v) (vt_grid v) (vt_x v) (vt_y v) p (vt_state v).
Definition set_vt_pos x y v := mk_vt (vt_cols v) (vt_rows v) (vt_grid v) x y (vt_pen v) (vt_state v).
Definition set_vt_grid g v := mk_vt (vt_cols v) (vt_rows v) g (vt_x v) (vt_y v) (vt_pen v) (vt_state v).

Definition grid_set (x y : Z) (c : vcell) (g : Z -> Z -> vcell) : Z -> Z -> vcell :=
  fun x' y' => if (x' =? x) && (y' =? y) then c else g x' y'.

(** Before a cell is overwritten: the other half of a wide character goes. *)
Definition break_at (x y : Z) (g : Z -> Z -> vcell) : Z -> Z -> vcell :=
  match v_glyph (g x y) with
  | Left _ => grid_set (x + 1) y (mk_vcell Broken (v_pen (g x y))) g
  | Right => grid_set (x - 1) y (mk_vcell Broken (v_pen (g x y))) g
  | _ => g
  end.

(** A character that fits in the row; after the last column the cursor stays
    behind it. *)
Definition vt_print (c : Z) (v : vt) : option vt :=
  let w := width_spec c in
  let x := vt_x v in
  let y := vt_y v in
  if vt_cols v <? x + w then None
  else if w =? 1 then
    Some (set_vt_pos (x + 1) y
      (set_vt_grid (grid_set x y (mk_vcell (Narrow c) (vt_pen v)) (break_at x y (vt_grid v))) v))
  else if w =? 2 then
    Some (set_vt_pos (x + 2) y
      (set_vt_grid (grid_set (x + 1) y (mk_vcell Right (vt_pen v))
        (grid_set x y (mk_vcell (Left c) (vt_pen v)) (break_at (x + 1) y (break_at x y (vt_grid v))))) v))
  else None.

(** Erased cells are spaces in the background color. *)
Definition erased (p : pen) : vcell := mk_vcell (Narrow 32) (mk_pen ∅ Default (p_bg p)).

Definition vt_erase_below (v : vt) : vt :=
  set_vt_grid (fun x y => if (vt_y v <? y) || (y =? vt_y v) && (vt_x v <=? x)
    then erased (vt_pen v) else vt_grid v x y) v.

Definition vt_params (acc : list Z) : option (list Z) :=
  match acc with [] => Some [] | _ => parse_params (S (length acc)) (acc ++ [109]) end.

Definition vt_clamp (n m : Z) : Z := Z.min (Z.max n 1) m - 1.

(** Control sequences: [m], [H], [J]; those that set modes, the cursor's shape
    or the window's title ([h], [l], [c], [t]) change nothing that is shown. *)
Definition vt_csi (acc : list Z) (final : Z) (v : vt) : option vt :=
  if final =? 109 then
    ps ← vt_params acc;
    Some (set_vt_pen (match ps with [] => plain_pen | _ => sgr_apply (length ps) ps (vt_pen v) end) v)
  else if final =? 72 then
    ps ← vt_params acc;
    match ps with
    | [] => Some (set_vt_pos 0 0 v)
    | [r; c] => Some (set_vt_pos (vt_clamp c (vt_cols v)) (vt_clamp r (vt_rows v)) v)
    | _ => None
    end
  else if final =? 74 then
    ps ← vt_params acc;
    match ps with
    | [] => Some (vt_erase_below v)
    | [2] => Some (set_vt_grid (fun _ _ => erased (vt_pen v)) v)
    | _ => None
    end
  else if bool_decide (final ∈ [104; 108; 99; 116]) then Some v
  else None.

(** The first byte of a character of several bytes: how many follow, and its bits. *)
Definition utf8_lead (b : Z) : option (nat * Z) :=
  if (192 <=? b) && (b <? 224) then Some (0%nat, b - 192)
  else if (224 <=? b) && (b <? 240) then Some (1%nat, b - 224)
  else if (240 <=? b) && (b <? 248) then Some (2%nat, b - 240)
  else if (248 <=? b) && (b <? 252) then Some (3%nat, b - 248)
  else if (252 <=? b) && (b <? 254) then Some (4%nat, b - 252)
  else None.

(** One byte.  [SI], which only selects a character set, is ignored, like the
    keypad modes and the saving of the cursor. *)
Definition vt_byte (b : Z) (v : vt) : option vt :=
  match vt_state v with
  | Ground =>
      if b =? 27 then Some (set_vt_state Escape v)
      else if b =? 15 then Some v
      else if (32 <=? b) && (b <? 127) then vt_print b v
      else '(n, a) ← utf8_lead b; Some (set_vt_state (Utf8 n a) v)
  | Escape =>
      if b =? 91 then Some (set_vt_state (Csi []) v)
      else if b =? 40 then Some (set_vt_state Charset v)
      else if bool_decide (b ∈ [61; 62; 55]) then Some (set_vt_state Ground v)
      else None
  | Charset => Some (set_vt_state Ground v)
  | Csi acc =>
      if (48 <=? b) && (b <? 64) then Some (set_vt_state (Csi (acc ++ [b])) v)
      else if (64 <=? b) && (b <? 127) then vt_csi acc b (set_vt_state Ground v)
      else None
  | Utf8 n a =>
      if (128 <=? b) && (b <? 192) then
        let a := a * 64 + (b - 128) in
        match n with
        | O => vt_print a (set_vt_state Ground v)
        | S n => Some (set_vt_state (Utf8 n a) v)
        end
      else None
  end.

Fixpoint vt_run (bs : list Z) (v : vt) : option vt :=
  match bs with
  | [] => Some v
  | b :: bs' => v' ← vt_byte b v; vt_run bs' v'
  end.

(** ** Running sequences *)

Lemma vt_run_cons b bs v : vt_run (b :: bs) v = vt_byte b v ≫= vt_run bs.
Proof. done. Qed.

Lemma vt_run_app a b v : vt_run (a ++ b) v = vt_run a v ≫= vt_run b.
Proof.
  revert v. induction a as [|x a IH]; intros v; [done|]. cbn [vt_run app].
  destruct (vt_byte x v) as [v'|]; [apply IH|done].
Qed.

Lemma vt_run_cat a b v v1 v2 : vt_run a v = Some v1 -> vt_run b v1 = Some v2 -> vt_run (a ++ b) v = Some v2.
Proof. intros Ha Hb. by rewrite vt_run_app, Ha. Qed.

Lemma set_ground v : vt_state v = Ground -> set_vt_state Ground v = v.
Proof. destruct v. by intros [= ->]. Qed.

Definition param_byte (b : Z) : Prop := 48 <= b < 64.

Lemma vt_run_params acc bs r v :
  Forall param_byte bs ->
  vt_run (bs ++ r) (set_vt_state (Csi acc) v) = vt_run r (set_vt_state (Csi (acc ++ bs)) v).
Proof.
  intros Hb. revert acc. induction Hb as [|b bs Hb Hbs IH]; intros acc; cbn [app vt_run]; [by rewrite app_nil_r|].
  unfold vt_byte at 1. cbn [vt_state set_vt_state].
  rewrite (proj2 (Z.leb_le 48 b)), (proj2 (Z.ltb_lt b 64)) by (unfold param_byte in Hb; lia). cbn [andb mbind option_bind].
  change (set_vt_state (Csi (acc ++ [b])) (set_vt_state (Csi acc) v)) with (set_vt_state (Csi (acc ++ [b])) v).
  rewrite IH. by rewrite <- app_assoc.
Qed.

(** A whole control sequence. *)
Lemma vt_run_csi acc final v :
  vt_state v = Ground -> Forall param_byte acc -> 64 <= final < 127 ->
  vt_run (27 :: 91 :: acc ++ [final]) v = vt_csi acc final v.
Proof.
  intros Hv Hacc Hf. rewrite vt_run_cons. unfold vt_byte. rewrite Hv.
  change (vt_run (27 :: 91 :: ?l) v) with (vt_run (91 :: l) (set_vt_state Escape v)).
  change (27 =? 27) with true. cbv iota. cbn [mbind option_bind].
  change (vt_run (91 :: ?l) (set_vt_state Escape v)) with (vt_run l (set_vt_state (Csi []) v)).
  rewrite vt_run_params by done. cbn [app vt_run]. unfold vt_byte. cbn [vt_state set_vt_state].
  rewrite (proj2 (Z.ltb_ge final 64)), andb_false_r, (proj2 (Z.leb_le 64 final)), (proj2 (Z.ltb_lt final 127)) by lia.
  cbn [andb]. change (set_vt_state Ground (set_vt_state (Csi acc) v)) with (set_vt_state Ground v).
  rewrite set_ground by done. by destruct (vt_csi acc final v).
Qed.

Lemma join_param_bytes ps :
  ps <> [] -> Forall (fun p => 0 <= p) ps ->
  exists acc, join_params ps = acc ++ [109] /\ acc <> [] /\ Forall param_byte acc.
Proof.
  intros Hne Hp. assert (forall p, 0 <= p -> Forall param_byte (udec p)) as Hd.
  { intros p H. eapply Forall_impl; [by apply udec_digits|]. intros b Hb. apply isdigit_spec in Hb.
    unfold param_byte. lia. }
  induction Hp as [|p ps Hp Hps IH]; [done|]. destruct ps as [|q ps].
  - exists (udec p). split; [done|]. split; [by apply udec_nonnil|by apply Hd].
  - destruct IH as (acc & E & _ & Hacc); [done|]. exists (udec p ++ 59 :: acc).
    change (join_params (p :: q :: ps)) with (udec p ++ 59 :: join_params (q :: ps)).
    rewrite E, <- app_assoc. split; [done|]. split; [by destruct (udec p)|].
    apply Forall_app. split; [by apply Hd|]. constructor; [unfold param_byte; lia|done].
Qed.

(** A sequence of numbers, whatever ends it. *)
Lemma vt_run_numbers ps final v :
  vt_state v = Ground -> ps <> [] -> Forall (fun p => 0 <= p) ps -> 64 <= final < 127 ->
  exists acc, join_params ps = acc ++ [109] /\ vt_params acc = Some ps /\
    vt_run (27 :: 91 :: acc ++ [final]) v = vt_csi acc final v.
Proof.
  intros Hv Hne Hp Hf. destruct (join_param_bytes ps Hne Hp) as (acc & E & Hnil & Hacc).
  exists acc. split; [done|]. split; [|by apply vt_run_csi].
  unfold vt_params. destruct acc as [|b acc]; [done|]. rewrite <- E. apply parse_join; [done..|].
  pose proof (length_join ps Hne Hp) as H. rewrite E, length_app in H. simpl in *. lia.
Qed.

Lemma vt_run_sgr ps v :
  vt_state v = Ground -> ps <> [] -> Forall (fun p => 0 <= p) ps ->
  vt_run (esc "[" ++ join_params ps) v = Some (set_vt_pen (sgr_apply (length ps) ps (vt_pen v)) v).
Proof.
  intros Hv Hne Hp. destruct (vt_run_numbers ps 109 v Hv Hne Hp) as (acc & E & Hps & Hrun); [lia|].
  change (esc "[" ++ join_params ps) with (27 :: 91 :: join_params ps). rewrite E, Hrun.
  unfold vt_csi. cbn [Z.eqb Pos.eqb]. rewrite Hps. by destruct ps.
Qed.

Lemma vt_run_cursor x y v :
  vt_state v = Ground -> 0 <= x < vt_cols v -> 0 <= y < vt_rows v -> vt_cols v < 2 ^ 31 -> vt_rows v < 2 ^ 31 ->
  vt_run (cursor_bytes x y) v = Some (set_vt_pos x y v).
Proof.
  intros Hv Hx Hy Hc Hr. unfold cursor_bytes.
  rewrite (proj2 (Z.ltb_ge x 0)), (proj2 (Z.ltb_ge y 0)) by lia. cbn [orb].
  change (2 ^ 31) with 2147483648 in *.
  rewrite !wrapu_id by (change (2 ^ 32) with 4294967296; lia).
  destruct (vt_run_numbers [y + 1; x + 1] 72 v Hv) as (acc & E & Hps & Hrun);
    [done|repeat constructor; lia|lia|].
  assert (acc = udec (y + 1) ++ 59 :: udec (x + 1)) as ->.
  { cbn [join_params] in E. change (udec (y + 1) ++ 59 :: udec (x + 1) ++ [109])
      with (udec (y + 1) ++ (59 :: udec (x + 1)) ++ [109]) in E. rewrite app_assoc in E.
    by apply app_inj_tail in E as [<- _]. }
  change (esc "[" ++ ?a) with (27 :: 91 :: a).
  replace (udec (y + 1) ++ lit ";" ++ udec (x + 1) ++ lit "H") with
    ((udec (y + 1) ++ 59 :: udec (x + 1)) ++ [72]) by (by rewrite <- app_assoc).
  rewrite Hrun. unfold vt_csi. cbn [Z.eqb Pos.eqb]. rewrite Hps. cbn [mbind option_bind].
  unfold vt_clamp. do 2 f_equal; lia.
Qed.

(** *** Characters *)

Lemma tail_bytes_cons n c : tail_bytes (S n) c = cont_byte c n :: tail_bytes n c.
Proof.
  revert c. induction n as [|n IH]; intros c.
  - rewrite tail_bytes_S. unfold cont_byte. simpl. by rewrite Z.div_1_r.
  - rewrite tail_bytes_S, IH, (tail_bytes_S n c), shiftr6. cbn [app]. f_equal.
    unfold cont_byte. rewrite Z.div_div by (try apply Z.pow_pos_nonneg; lia). do 3 f_equal.
    rewrite Nat2Z.inj_succ, Z.pow_succ_r by lia. lia.
Qed.

Lemma cont_byte_value c k : 0 <= c -> cont_byte c k = 128 + (c / 64 ^ Z.of_nat k) mod 64.
Proof.
  intros Hc. assert (0 <= c / 64 ^ Z.of_nat k) as Hd by (apply Z.div_pos; [lia|apply Z.pow_pos_nonneg; lia]).
  destruct (tail_byte _ Hd) as [Hb E]. fold (cont_byte c k) in Hb, E. rewrite <- E, land_63.
  pose proof (Z.div_mod (cont_byte c k) 64 ltac:(lia)).
  assert (cont_byte c k / 64 = 2); [|lia]. symmetry. apply (Z.div_unique _ 64 2 (cont_byte c k - 128)); lia.
Qed.

Lemma vt_run_tail n c v :
  0 <= c -> vt_state v = Ground ->
  vt_run (tail_bytes (S n) c) (set_vt_state (Utf8 n (c / 64 ^ Z.of_nat (S n))) v) = vt_print c v.
Proof.
  intros Hc Hv. induction n as [|n IH]; rewrite tail_bytes_cons, vt_run_cons; unfold vt_byte;
    cbn [vt_state set_vt_state]; pose proof (cont_byte_range c) as Hr.
  - specialize (Hr 0%nat Hc). rewrite (proj2 (Z.leb_le _ _)), (proj2 (Z.ltb_lt _ 192)) by lia. cbn [andb].
    change (set_vt_state Ground (set_vt_state ?s v)) with (set_vt_state Ground v).
    rewrite set_ground by done.
    assert (c / 64 ^ Z.of_nat 1 * 64 + (cont_byte c 0 - 128) = c) as ->.
    { rewrite cont_byte_value by done. change (64 ^ Z.of_nat 1) with 64. change (64 ^ Z.of_nat 0) with 1.
      rewrite Z.div_1_r. pose proof (Z.div_mod c 64). lia. }
    by destruct (vt_print c v).
  - specialize (Hr (S n) Hc). rewrite (proj2 (Z.leb_le _ _)), (proj2 (Z.ltb_lt _ 192)) by lia. cbn [andb].
    assert (c / 64 ^ Z.of_nat (S (S n)) * 64 + (cont_byte c (S n) - 128) = c / 64 ^ Z.of_nat (S n)) as ->.
    { rewrite cont_byte_value, (div_64_S c (S n)) by done.
      pose proof (Z.div_mod (c / 64 ^ Z.of_nat (S n)) 64). lia. }
    exact IH.
Qed.

(** The first byte of a longer character, and the ASCII characters that print. *)
Lemma leads_ok :
  forallb (fun f => let '(first, len, lim) := f in (len =? 1) || forallb (fun h =>
    bool_decide (utf8_lead (wrapu 8 (Z.lor h first)) = Some (Z.to_nat (len - 2), h)) &&
    (192 <=? wrapu 8 (Z.lor h first))) (seqZ 0 lim)) utf8_forms = true.
Proof. vm_compute. reflexivity. Qed.

Lemma ascii_ok :
  forallb (fun c => (width_spec c <? 1) || ((32 <=? c) && (c <? 127))) (seqZ 0 128) = true.
Proof. vm_compute. reflexivity. Qed.

Lemma vt_run_char c v :
  0 <= c < 2 ^ 31 -> 1 <= width_spec c -> vt_state v = Ground ->
  vt_run (tb_utf8_unicode_to_char c) v = vt_print c v.
Proof.
  intros Hc Hw Hv. destruct (utf8_form c Hc) as (first & len & lim & Hf & Hin & Hl & Hh).
  rewrite (unicode_to_char_form c first len Hf Hl).
  destruct (Z.lt_ge_cases c 128) as [Hlt|Hge].
  - unfold utf8_first in Hf. rewrite (proj2 (Z.ltb_lt c 128)) in Hf by done. injection Hf as <- <-.
    change (64 ^ (1 - 1)) with 1. rewrite Z.div_1_r, Z.lor_0_r, wrapu_id by (change (2 ^ 8) with 256; lia).
    pose proof ascii_ok as H. rewrite forallb_forall in H.
    specialize (H c (proj1 (list_elem_of_In _ _) (proj2 (elem_of_seqZ 0 128 c) ltac:(lia)))).
    rewrite (proj2 (Z.ltb_ge (width_spec c) 1)) in H by done. cbn [orb] in H. zbool.
    cbn [Z.sub Z.add Z.opp Z.pos_sub Z.to_nat]. change (tail_bytes 0 c) with (@nil Z).
    rewrite vt_run_cons. unfold vt_byte. rewrite Hv.
    rewrite (proj2 (Z.eqb_neq c 27)), (proj2 (Z.eqb_neq c 15)), (proj2 (Z.leb_le 32 c)), (proj2 (Z.ltb_lt c 127)) by lia.
    cbn [andb]. by destruct (vt_print c v).
  - assert (len <> 1) as Hn1.
    { unfold utf8_first in Hf. rewrite (proj2 (Z.ltb_ge c 128)) in Hf by done.
      repeat case_match; injection Hf as <- <-; lia. }
    pose proof leads_ok as H. rewrite forallb_forall in H.
    specialize (H _ (proj1 (list_elem_of_In _ _) Hin)). cbv beta iota in H.
    rewrite (proj2 (Z.eqb_neq len 1)) in H by done. cbn [orb] in H. rewrite forallb_forall in H.
    specialize (H (c / 64 ^ (len - 1)) (proj1 (list_elem_of_In _ _) (proj2 (elem_of_seqZ 0 lim (c / 64 ^ (len - 1))) ltac:(lia)))).
    set (b := wrapu 8 _) in *. apply andb_true_iff in H as [H1 H2]. apply bool_decide_eq_true in H1. zbool.
    rewrite vt_run_cons. unfold vt_byte. rewrite Hv.
    rewrite (proj2 (Z.eqb_neq b 27)), (proj2 (Z.eqb_neq b 15)), (proj2 (Z.ltb_ge b 127)), andb_false_r, H1 by lia.
    cbn [mbind option_bind]. replace (Z.to_nat (len - 1)) with (S (Z.to_nat (len - 2))) by lia.
    replace (len - 1) with (Z.of_nat (S (Z.to_nat (len - 2)))) by lia. apply vt_run_tail; [lia|done].
Qed.

(** *** Attributes *)

Section Attributes.
Context `{opts : config}.

(** What an attribute of the library looks like: the styles the terminal has a
    capability for, and the documented colors. *)
Definition style_if (c : bool) (s : list Z) (n : Z) : gset Z :=
  if c && negb (bool_decide (s = [])) then {[n]} else ∅.

Definition doc_styles (g : tb_global) (fg bg : Z) : gset Z :=
  ⋃ [style_if (has fg TB_REVERSE || has bg TB_REVERSE) (cap_text g TB_CAP_REVERSE) 7;
     style_if (is_w64 && has fg TB_INVISIBLE) (cap_text g TB_CAP_INVISIBLE) 8;
     style_if (is_w64 && has fg TB_OVERLINE) (cstr TB_HARDCAP_OVERLINE) 53;
     style_if (is_w64 && has fg TB_UNDERLINE_2) (cstr TB_HARDCAP_UNDERLINE_2) 21;
     style_if (is_w64 && has fg TB_STRIKEOUT) (cstr TB_HARDCAP_STRIKEOUT) 9;
     style_if (has fg TB_DIM) (cap_text g TB_CAP_DIM) 2;
     style_if (has fg TB_ITALIC) (cap_text g TB_CAP_ITALIC) 3;
     style_if (has fg TB_UNDERLINE) (cap_text g TB_CAP_UNDERLINE) 4;
     style_if (has fg TB_BLINK) (cap_text g TB_CAP_BLINK) 5;
     style_if (has fg TB_BOLD) (cap_text g TB_CAP_BOLD) 1].

Definition doc_pen (g : tb_global) (fg bg : Z) : pen :=
  mk_pen (doc_styles g fg bg) (doc_color (output_mode g) fg) (doc_color (output_mode g) bg).

(** The capabilities say what the terminal understands. *)
Definition style_cap (s : list Z) (n : Z) : bool :=
  bool_decide (s = []) || bool_decide (s = esc "[" ++ join_params [n]).

Definition caps_understood (g : tb_global) : bool :=
  (bool_decide (cap_text g TB_CAP_SGR0 = esc "(B" ++ esc "[m") ||
   bool_decide (cap_text g TB_CAP_SGR0 = esc "[m" ++ esc "(B") ||
   bool_decide (cap_text g TB_CAP_SGR0 = esc "[m" ++ [15])) &&
  forallb (fun '(i, n) => style_cap (cap_text g i) n)
    [(TB_CAP_BOLD, 1); (TB_CAP_DIM, 2); (TB_CAP_ITALIC, 3); (TB_CAP_UNDERLINE, 4); (TB_CAP_BLINK, 5);
     (TB_CAP_REVERSE, 7); (TB_CAP_INVISIBLE, 8)].

Definition add_styles (s : gset Z) (v : vt) : vt :=
  set_vt_pen (mk_pen (s ∪ p_styles (vt_pen v)) (p_fg (vt_pen v)) (p_bg (vt_pen v))) v.

Lemma vt_run_style (c : bool) s n v :
  style_cap s n = true -> n ∈ sgr_styles -> vt_state v = Ground ->
  vt_run (if c then s else []) v = Some (add_styles (style_if c s n) v).
Proof.
  intros Hs Hn Hv. assert (Some v = Some (add_styles ∅ v)) as Hnone.
  { unfold add_styles. rewrite union_empty_l_L. by destruct v as [? ? ? ? ? [] ?]. }
  unfold style_if, style_cap in *. destruct c; [|exact Hnone]. cbn [andb].
  case_bool_decide as E1; cbn [orb negb] in *; [rewrite E1; exact Hnone|].
  apply bool_decide_eq_true in Hs as ->. rewrite vt_run_sgr; [|done|done|].
  - unfold add_styles. do 2 f_equal. unfold sgr_styles in Hn.
    rewrite !elem_of_cons, elem_of_nil in Hn.
    destruct Hn as [->|[->|[->|[->|[->|[->|[->|[->|[->|[->|[]]]]]]]]]]]; reflexivity.
  - constructor; [|done]. unfold sgr_styles in Hn. rewrite !elem_of_cons, elem_of_nil in Hn. lia.
Qed.

Lemma vt_run_reset g v :
  caps_understood g = true -> vt_state v = Ground ->
  vt_run (cap_text g TB_CAP_SGR0) v = Some (set_vt_pen plain_pen v).
Proof.
  intros [H _]%andb_true_iff Hv.
  apply orb_true_iff in H as [[H|H]%orb_true_iff|H]; apply bool_decide_eq_true in H as ->;
    destruct v as [? ? ? ? ? ? st]; simpl in Hv; rewrite Hv; reflexivity.
Qed.

Lemma add_styles_ground s v : vt_state v = Ground -> vt_state (add_styles s v) = Ground.
Proof. done. Qed.

Lemma vt_run_styles g fg bg v :
  caps_understood g = true -> vt_state v = Ground ->
  vt_run (style_bytes g fg bg) v = Some (set_vt_pen (mk_pen (doc_styles g fg bg) Default Default) v).
Proof.
  intros Hc Hv. pose proof Hc as [_ Hs]%andb_true_iff. cbn [forallb] in Hs. zbool.
  unfold style_bytes. eapply vt_run_cat; [by apply vt_run_reset|].
  assert (style_cap (cstr TB_HARDCAP_OVERLINE) 53 = true) by done.
  assert (style_cap (cstr TB_HARDCAP_UNDERLINE_2) 21 = true) by done.
  assert (style_cap (cstr TB_HARDCAP_STRIKEOUT) 9 = true) by done.
  assert (forall n, bool_decide (n ∈ sgr_styles) = true -> n ∈ sgr_styles) as Hin
    by (intros n; apply bool_decide_eq_true).
  repeat (eapply vt_run_cat; [apply vt_run_style; [eassumption|apply Hin; reflexivity|done]|]).
  rewrite (vt_run_style _ _ 7); [|assumption|apply Hin; reflexivity|done]. unfold doc_styles. cbn [union_list].
  done.
Qed.

Lemma vt_run_attr g fg bg v :
  caps_understood g = true -> doc_attr (output_mode g) fg -> doc_attr (output_mode g) bg ->
  vt_state v = Ground -> vt_run (attr_bytes g fg bg) v = Some (set_vt_pen (doc_pen g fg bg) v).
Proof.
  intros Hc Hf Hb Hv. unfold attr_bytes. eapply vt_run_cat; [by apply vt_run_styles|].
  destruct (color_bytes_join (output_mode g) fg bg Hf Hb) as [[Ed ->]|(Ed & ps & -> & Hne & Hnn & Hps)].
  - apply andb_true_iff in Ed as [E1 E2]. unfold doc_pen. by rewrite !default_color by done.
  - rewrite vt_run_sgr by done. cbn [vt_pen set_vt_pen]. by rewrite Hps.
Qed.

End Attributes.

(** The built-in terminals understand their capabilities. *)
Lemma builtin_caps_understood name caps alias g :
  (name, caps, alias) ∈ builtin_terms -> TbGlobal.caps g = Some <$> caps -> caps_understood g = true.
Proof.
  intros Hin Hg. assert (caps_understood (set_caps (Some <$> caps) g) = true) as H.
  { pose proof (eq_refl : forallb (fun t => let '(_, c, _) := t in
      caps_understood (set_caps (Some <$> c) global_zero)) builtin_terms = true) as H.
    rewrite forallb_forall in H. exact (H _ (proj1 (list_elem_of_In _ _) Hin)). }
  revert H. unfold caps_understood, cap_text. cbn [TbGlobal.caps set_caps]. by rewrite Hg.
Qed.

(** ** The terminal and the front buffer *)

Section Displays.
Context `{opts : config}.

(** The codepoint [mark_hidden] puts into the cells a wide character covers. *)
Definition hidden : Z := 2 ^ 32 - 1.

(** What is sent for a codepoint, and the width the library gives its cell. *)
Definition shown (c : Z) : Z := if (0 <=? width_spec c) && negb (c =? 0) then c else 65533.
Definition is_wide (c : Z) : bool := 1 <? width_spec c.

(** The terminal shows a cell: a wide character that does not fit in the row is
    a space. *)
Definition cell_shown (g : tb_global) (v : vt) (x y c f b : Z) : Prop :=
  let p := doc_pen g f b in
  if is_wide c then
    if vt_cols v <=? x + 1 then vt_grid v x y = mk_vcell (Narrow 32) p
    else vt_grid v x y = mk_vcell (Left c) p /\ vt_grid v (x + 1) y = mk_vcell Right p
  else vt_grid v x y = mk_vcell (Narrow (shown c)) p.

(** Every cell of the front buffer that is not covered is shown; covered cells
    follow wide characters; the halves of wide characters belong together. *)
Record displays (g : tb_global) (F : cellbuf) (v : vt) : Prop := {
  d_size : vt_cols v = cb_width F /\ vt_rows v = cb_height F;
  d_cell : forall x y c f b l, view_at F x y = Some (c, f, b, l) -> c <> hidden ->
    cell_shown g v x y c f b /\
    (is_wide c = true -> x + 1 < cb_width F -> exists f' b' l', view_at F (x + 1) y = Some (hidden, f', b', l'));
  d_left : forall x y c, v_glyph (vt_grid v x y) = Left c ->
    exists c' f b l, view_at F x y = Some (c', f, b, l) /\ c' <> hidden;
  d_right : forall x y, v_glyph (vt_grid v x y) = Right -> exists c, v_glyph (vt_grid v (x - 1) y) = Left c
}.

(** Column [x] does not follow the first half of a wide character. *)
Definition left_ok (F : cellbuf) (x y : Z) : Prop :=
  forall c f b l, view_at F (x - 1) y = Some (c, f, b, l) -> c = hidden \/ is_wide c = false.

Lemma shown_left g F v x y c :
  displays g F v -> v_glyph (vt_grid v x y) = Left c ->
  v_glyph (vt_grid v (x + 1) y) = Right /\
  exists c' f b l, view_at F x y = Some (c', f, b, l) /\ c' <> hidden /\ is_wide c' = true /\ x + 1 < cb_width F.
Proof.
  intros Hd Hl. destruct (d_left _ _ _ Hd _ _ _ Hl) as (c' & f & b & l & Ev & Hne).
  destruct (d_cell _ _ _ Hd _ _ _ _ _ _ Ev Hne) as [Hs _]. unfold cell_shown in Hs.
  destruct (is_wide c') eqn:Ew; [|by rewrite Hs in Hl].
  destruct (Z.leb_spec (vt_cols v) (x + 1)) as [|Hlt]; [by rewrite Hs in Hl|].
  destruct Hs as [_ ->]. split; [done|]. exists c', f, b, l. rewrite (proj1 (d_size _ _ _ Hd)) in Hlt. done.
Qed.

Lemma not_right g F v x y : displays g F v -> left_ok F x y -> v_glyph (vt_grid v x y) <> Right.
Proof.
  intros Hd Hleft Hr. destruct (d_right _ _ _ Hd _ _ Hr) as [c Hl].
  destruct (shown_left _ _ _ _ _ _ Hd Hl) as (_ & c' & f & b & l & Ev & Hne & Hw & _).
  destruct (Hleft _ _ _ _ Ev) as [|]; congruence.
Qed.

Lemma grid_set_at x y c g : grid_set x y c g x y = c.
Proof. unfold grid_set. by rewrite !Z.eqb_refl. Qed.

Lemma grid_set_other x y c g x' y' : ~ (x' = x /\ y' = y) -> grid_set x y c g x' y' = g x' y'.
Proof.
  intros H. unfold grid_set. destruct (Z.eqb_spec x' x), (Z.eqb_spec y' y); cbn [andb]; try done. exfalso. by apply H.
Qed.

(** What the grid is after a character was written over a cell that is not a
    second half: only the second half of what was there is lost. *)
Lemma write_narrow g F v x y cell x' y' :
  displays g F v -> left_ok F x y -> ~ (x' = x /\ y' = y) ->
  let g' := grid_set x y cell (break_at x y (vt_grid v)) in
  g' x' y' = vt_grid v x' y' \/
  x' = x + 1 /\ y' = y /\ v_glyph (g' x' y') = Broken /\ exists c, v_glyph (vt_grid v x y) = Left c.
Proof.
  intros Hd Hl Hne. cbv zeta. rewrite grid_set_other by done. pose proof (not_right _ _ _ _ _ Hd Hl) as Hr.
  unfold break_at. destruct (v_glyph (vt_grid v x y)) as [| c | |] eqn:Eg; [by left| |done|by left].
  destruct (decide (x' = x + 1 /\ y' = y)) as [[-> ->]|Hn].
  - right. rewrite grid_set_at. split; [done|]. split; [done|]. split; [done|by exists c].
  - left. by apply grid_set_other.
Qed.

Lemma write_wide g F v x y c1 c2 x' y' :
  displays g F v -> left_ok F x y -> ~ (x' = x /\ y' = y) -> ~ (x' = x + 1 /\ y' = y) ->
  let g' := grid_set (x + 1) y c2 (grid_set x y c1 (break_at (x + 1) y (break_at x y (vt_grid v)))) in
  g' x' y' = vt_grid v x' y' \/
  x' = x + 2 /\ y' = y /\ v_glyph (g' x' y') = Broken /\ exists c, v_glyph (vt_grid v (x + 1) y) = Left c.
Proof.
  intros Hd Hl Hn1 Hn2. cbv zeta. rewrite !grid_set_other by done.
  pose proof (not_right _ _ _ _ _ Hd Hl) as Hr.
  assert (forall x' y', ~ (x' = x + 1 /\ y' = y) -> break_at x y (vt_grid v) x' y' = vt_grid v x' y') as E1.
  { intros x1 y1 H1. unfold break_at. destruct (v_glyph (vt_grid v x y)); try done. by apply grid_set_other. }
  assert (v_glyph (break_at x y (vt_grid v) (x + 1) y) = v_glyph (vt_grid v (x + 1) y) \/
    v_glyph (break_at x y (vt_grid v) (x + 1) y) = Broken) as E2.
  { unfold break_at. destruct (v_glyph (vt_grid v x y)); try (by left); try done.
    right. by rewrite grid_set_at. }
  unfold break_at at 1 3. destruct (v_glyph (break_at x y (vt_grid v) (x + 1) y)) as [| c | |] eqn:Eg.
  - left. by apply E1.
  - destruct (decide (x' = x + 1 + 1 /\ y' = y)) as [[-> ->]|Hn].
    + right. rewrite grid_set_at. split; [lia|]. split; [done|]. split; [done|]. exists c.
      by destruct E2 as [E2|].
    + left. rewrite grid_set_other by done. by apply E1.
  - left. rewrite grid_set_other by lia. by apply E1.
  - left. by apply E1.
Qed.

(** A cell of the row that is neither rewritten nor covered keeps what it shows. *)
Lemma cell_shown_same g v v' x y c f b :
  vt_cols v' = vt_cols v -> vt_grid v' x y = vt_grid v x y ->
  (is_wide c = true -> x + 1 < vt_cols v -> vt_grid v' (x + 1) y = vt_grid v (x + 1) y) ->
  cell_shown g v x y c f b -> cell_shown g v' x y c f b.
Proof.
  intros Hc E1 E2. unfold cell_shown. rewrite Hc, E1. destruct (is_wide c); [|done].
  destruct (Z.leb_spec (vt_cols v) (x + 1)); [done|]. by rewrite E2.
Qed.

(** [F'] is [F] with one cell, and perhaps the one it covers, replaced. *)
Definition replaced (F F' : cellbuf) (x y n c f b : Z) : Prop :=
  buf_dims F' F /\ view_at F' x y = Some (c, f, b, []) /\
  (n = 2 -> exists f' b' l', view_at F' (x + 1) y = Some (hidden, f', b', l')) /\
  forall x' y', ~ (y' = y /\ x <= x' < x + n) -> view_at F' x' y' = view_at F x' y'.

Lemma displays_narrow g F F' v x y c f b p :
  displays g F v -> left_ok F x y -> replaced F F' x y 1 c f b -> c <> hidden ->
  width_spec p = 1 -> vt_pen v = doc_pen g f b -> vt_x v = x -> vt_y v = y -> x + 1 <= vt_cols v ->
  (is_wide c = false /\ p = shown c \/ is_wide c = true /\ x + 1 = vt_cols v /\ p = 32) ->
  exists v', vt_print p v = Some v' /\ displays g F' v' /\
    vt_state v' = vt_state v /\ vt_pen v' = vt_pen v /\ vt_x v' = x + 1 /\ vt_y v' = y.
Proof.
  intros Hd Hl (Hdim & Hx & _ & Ho) Hc Hp Hpen Ex Ey Hin Hcase.
  unfold vt_print. rewrite Hp, Ex, Ey, (proj2 (Z.ltb_ge _ _)) by done. change (1 =? 1) with true. cbv iota.
  eexists. split; [reflexivity|]. split; [|done].
  set (cell := mk_vcell (Narrow p) (vt_pen v)).
  pose proof (fun x' y' => write_narrow g F v x y cell x' y' Hd Hl) as Hw. cbv zeta in Hw.
  set (g' := grid_set x y cell (break_at x y (vt_grid v))) in *.
  assert (forall x' y' c1 f1 b1 l1, ~ (x' = x /\ y' = y) ->
    view_at F x' y' = Some (c1, f1, b1, l1) -> c1 <> hidden -> g' x' y' = vt_grid v x' y') as Hkeep.
  { intros x' y' c1 f1 b1 l1 Hne Ev H1. destruct (Hw x' y' Hne) as [|(-> & -> & _ & cc & Hcc)]; [done|].
    destruct (shown_left _ _ _ _ _ _ Hd Hcc) as (_ & c2 & f2 & b2 & l2 & Ev2 & Hn2 & Hw2 & Hlt).
    destruct (d_cell _ _ _ Hd _ _ _ _ _ _ Ev2 Hn2) as [_ Hh]. destruct (Hh Hw2 Hlt) as (? & ? & ? & Eh).
    rewrite Ev in Eh. congruence. }
  constructor; cbn [vt_cols vt_rows vt_grid set_vt_pos set_vt_grid].
  - destruct (d_size _ _ _ Hd). destruct Hdim. split; congruence.
  - intros x' y' c1 f1 b1 l1 Ev Hn. destruct (decide (x' = x /\ y' = y)) as [[-> ->]|Hne].
    + rewrite Hx in Ev. injection Ev as <- <- <- <-. split.
      * unfold cell_shown. cbn [vt_cols vt_grid set_vt_pos set_vt_grid]. subst g'. rewrite grid_set_at.
        subst cell. rewrite Hpen. destruct Hcase as [[-> ->]|(-> & <- & ->)]; [done|]. by rewrite Z.leb_refl.
      * intros Hwide Hlt. destruct Hdim as [Dw _]. destruct (d_size _ _ _ Hd) as [Sw _].
        destruct Hcase as [[? _]|(_ & ? & _)]; [congruence|lia].
    + rewrite Ho in Ev by lia. destruct (d_cell _ _ _ Hd _ _ _ _ _ _ Ev Hn) as [Hs Hh]. split.
      * refine (cell_shown_same g v _ x' y' c1 f1 b1 _ _ _ Hs); [done| |].
        -- by eapply Hkeep.
        -- intros Hwide Hlt. cbn [vt_grid set_vt_pos set_vt_grid].
           unfold cell_shown in Hs. rewrite Hwide, (proj2 (Z.leb_gt _ _)) in Hs by done. destruct Hs as [_ Hr].
           assert (~ (x' + 1 = x /\ y' = y)) as Hne'.
           { intros [<- ->]. eapply (not_right g F v (x' + 1) y Hd Hl). by rewrite Hr. }
           destruct (Hw (x' + 1) y' Hne') as [|(E1 & -> & _)]; [done|]. exfalso. apply Hne. lia.
      * intros Hwide Hlt. destruct Hdim as [Dw _]. rewrite Dw in Hlt.
        rewrite Ho; [by apply Hh|]. intros [-> Hr]. assert (x' + 1 = x) by lia.
        destruct (Hl c1 f1 b1 l1) as [|]; [by replace (x - 1) with x' by lia|done|congruence].
  - intros x' y' cc Hcc. destruct (decide (x' = x /\ y' = y)) as [[-> ->]|Hne].
    + subst g'. by rewrite grid_set_at in Hcc.
    + destruct (Hw x' y' Hne) as [E|(_ & _ & E & _)]; [|by rewrite E in Hcc]. rewrite E in Hcc.
      rewrite Ho by lia. by eapply d_left.
  - intros x' y' Hr. destruct (decide (x' = x /\ y' = y)) as [[-> ->]|Hne].
    { subst g'. by rewrite grid_set_at in Hr. }
    destruct (Hw x' y' Hne) as [E|(_ & _ & E & _)]; [|by rewrite E in Hr]. rewrite E in Hr.
    destruct (d_right _ _ _ Hd _ _ Hr) as [cc Hcc]. exists cc.
    destruct (decide (x' - 1 = x /\ y' = y)) as [[<- ->]|Hne1].
    + destruct (Hw x' y Hne) as [E'|(_ & _ & E' & _)].
      * exfalso. subst g'. rewrite grid_set_other in E' by done. unfold break_at in E'. rewrite Hcc in E'.
        replace (x' - 1 + 1) with x' in E' by lia. rewrite grid_set_at in E'. rewrite <- E' in Hr. done.
      * rewrite <- E in Hr. by rewrite E' in Hr.
    + destruct (Hw (x' - 1) y' Hne1) as [->|(E1 & -> & _ & c2 & Hc2)]; [done|].
      destruct (shown_left _ _ _ _ _ _ Hd Hc2) as [Hr2 _]. rewrite <- E1, Hcc in Hr2. done.
Qed.

Lemma displays_wide g F F' v x y c f b :
  displays g F v -> left_ok F x y -> replaced F F' x y 2 c f b -> c <> hidden ->
  width_spec c = 2 -> vt_pen v = doc_pen g f b -> vt_x v = x -> vt_y v = y -> x + 2 <= vt_cols v ->
  exists v', vt_print c v = Some v' /\ displays g F' v' /\
    vt_state v' = vt_state v /\ vt_pen v' = vt_pen v /\ vt_x v' = x + 2 /\ vt_y v' = y.
Proof.
  intros Hd Hl (Hdim & Hx & Hx1 & Ho) Hc Hp Hpen Ex Ey Hin.
  destruct (Hx1 eq_refl) as (fh & bh & lh & Eh). clear Hx1.
  assert (is_wide c = true) as Hwc by (unfold is_wide; by rewrite Hp).
  unfold vt_print. rewrite Hp, Ex, Ey, (proj2 (Z.ltb_ge _ _)) by done.
  change (2 =? 1) with false. change (2 =? 2) with true. cbv iota.
  eexists. split; [reflexivity|]. split; [|done].
  set (c1 := mk_vcell (Left c) (vt_pen v)). set (c2 := mk_vcell Right (vt_pen v)).
  pose proof (fun x' y' => write_wide g F v x y c1 c2 x' y' Hd Hl) as Hw. cbv zeta in Hw.
  set (g' := grid_set (x + 1) y c2 _) in *.
  assert (g' x y = c1) as Eg1 by (subst g'; rewrite grid_set_other by lia; apply grid_set_at).
  assert (g' (x + 1) y = c2) as Eg2 by apply grid_set_at.
  assert (forall x' y' c1 f1 b1 l1, ~ (x' = x /\ y' = y) -> ~ (x' = x + 1 /\ y' = y) ->
    view_at F x' y' = Some (c1, f1, b1, l1) -> c1 <> hidden -> g' x' y' = vt_grid v x' y') as Hkeep.
  { intros x' y' c0 f1 b1 l1 Hn1 Hn2 Ev H1. destruct (Hw x' y' Hn1 Hn2) as [|(-> & -> & _ & cc & Hcc)]; [done|].
    destruct (shown_left _ _ _ _ _ _ Hd Hcc) as (_ & c3 & f2 & b2 & l2 & Ev2 & Hn3 & Hw2 & Hlt).
    destruct (d_cell _ _ _ Hd _ _ _ _ _ _ Ev2 Hn3) as [_ Hh]. destruct (Hh Hw2 Hlt) as (? & ? & ? & E).
    replace (x + 1 + 1) with (x + 2) in E by lia. congruence. }
  constructor; cbn [vt_cols vt_rows vt_grid set_vt_pos set_vt_grid].
  - destruct (d_size _ _ _ Hd). destruct Hdim. split; congruence.
  - intros x' y' c0 f1 b1 l1 Ev Hn. destruct (decide (x' = x /\ y' = y)) as [[-> ->]|Hne].
    + rewrite Hx in Ev. injection Ev as <- <- <- <-. split; [|by intros; eexists _, _, _].
      unfold cell_shown. rewrite Hwc. cbn [vt_cols vt_grid set_vt_pos set_vt_grid].
      rewrite (proj2 (Z.leb_gt _ _)) by lia. by rewrite Eg1, Eg2, <- Hpen.
    + destruct (decide (x' = x + 1 /\ y' = y)) as [[-> ->]|Hne1]; [rewrite Eh in Ev; congruence|].
      rewrite Ho in Ev by lia. destruct (d_cell _ _ _ Hd _ _ _ _ _ _ Ev Hn) as [Hs Hh].
      assert (is_wide c0 = true -> ~ (x' + 1 = x /\ y' = y)) as Hleft.
      { intros Hw0 [<- ->]. destruct (Hl c0 f1 b1 l1) as [|]; [by replace (x' + 1 - 1) with x' by lia|done|congruence]. }
      split.
      * refine (cell_shown_same g v _ x' y' c0 f1 b1 _ _ _ Hs); [done|by eapply Hkeep|].
        intros Hwide Hlt. cbn [vt_grid set_vt_pos set_vt_grid].
        assert (~ (x' + 1 = x + 1 /\ y' = y)) as Hne2 by (intros [? ?]; apply Hne; lia).
        destruct (Hw (x' + 1) y' (Hleft Hwide) Hne2) as [|(E1 & -> & _)]; [done|]. exfalso. apply Hne1. lia.
      * intros Hwide Hlt. destruct Hdim as [Dw _]. rewrite Dw in Hlt.
        rewrite Ho; [by apply Hh|]. specialize (Hleft Hwide). lia.
  - intros x' y' cc Hcc. destruct (decide (x' = x /\ y' = y)) as [[-> ->]|Hne]; [by exists c, f, b, []|].
    destruct (decide (x' = x + 1 /\ y' = y)) as [[-> ->]|Hne1]; [by rewrite Eg2 in Hcc|].
    destruct (Hw x' y' Hne Hne1) as [E|(_ & _ & E & _)]; [|by rewrite E in Hcc]. rewrite E in Hcc.
    rewrite Ho by lia. by eapply d_left.
  - intros x' y' Hr. destruct (decide (x' = x /\ y' = y)) as [[-> ->]|Hne]; [by rewrite Eg1 in Hr|].
    destruct (decide (x' = x + 1 /\ y' = y)) as [[-> ->]|Hne1].
    { exists c. replace (x + 1 - 1) with x by lia. by rewrite Eg1. }
    destruct (Hw x' y' Hne Hne1) as [E|(_ & _ & E & _)]; [|by rewrite E in Hr]. pose proof Hr as Hr0. rewrite E in Hr.
    destruct (d_right _ _ _ Hd _ _ Hr) as [cc Hcc]. exists cc.
    assert (~ (x' - 1 = x /\ y' = y)) as Hn3 by (intros [? ?]; apply Hne1; lia).
    destruct (decide (x' - 1 = x + 1 /\ y' = y)) as [[E1 ->]|Hn4].
    + exfalso. subst g'. rewrite !grid_set_other in Hr0 by lia. unfold break_at at 1 in Hr0.
      assert (v_glyph (break_at x y (vt_grid v) (x + 1) y) = Left cc) as E2.
      { unfold break_at. destruct (v_glyph (vt_grid v x y)) eqn:E3; try (by rewrite <- E1).
        - destruct (shown_left _ _ _ _ _ _ Hd E3) as [E4 _]. rewrite <- E1 in E4. congruence.
        - by destruct (not_right _ _ _ _ _ Hd Hl E3). }
      rewrite E2 in Hr0. replace x' with (x + 1 + 1) in Hr0 by lia. by rewrite grid_set_at in Hr0.
    + destruct (Hw (x' - 1) y' Hn3 Hn4) as [->|(E1 & -> & _ & c3 & Hc3)]; [done|].
      destruct (shown_left _ _ _ _ _ _ Hd Hc3) as [Hr2 _]. replace (x + 1 + 1) with (x' - 1) in Hr2 by lia. congruence.
Qed.

(** ** Drawing *)

Abbreviation put_front := (put_buf false).

(** What was sent, and what is still in the buffer, has brought the terminal from
    [D] to [v]. *)
Definition sent_to (D : vt) (b : bytebuf) (v : vt) : Prop := vt_run (bb_bytes b) D = Some v.

Lemma vt_pos_id v : set_vt_pos (vt_x v) (vt_y v) v = v.
Proof. by destruct v. Qed.

Lemma paints_attr D f b w v :
  caps_understood (G w) = true -> caps_ok (G w) ->
  doc_attr (output_mode (G w)) f -> doc_attr (output_mode (G w)) b ->
  room w (Z.of_nat (length (attr_bytes (G w) f b))) -> vt_state v = Ground ->
  vt_pen v = doc_pen (G w) (last_fg (G w)) (last_bg (G w)) -> sent_to D (g_out (G w)) v ->
  exists ob, send_attr f b w = (Ret TB_OK, with_attr f b (put_out ob w)) /\ bb_wf ob /\
    sent_to D ob (set_vt_pen (doc_pen (G w) f b) v).
Proof.
  intros Hu Hc Hf Hb Hr Hv Hpen Hs.
  destruct ((f =? last_fg (G w)) && (b =? last_bg (G w))) eqn:E.
  - zbool. subst f b. exists (g_out (G w)). rewrite send_attr_same by done. split; [|split; [apply Hr|]].
    + by destruct w as [[] ? ?].
    + rewrite <- Hpen. unfold sent_to. rewrite Hs. by destruct v.
  - destruct (ends_attr (G w) f b Hc E w eq_refl Hr) as (ob & Es & Hw & Hbb).
    exists ob. split; [done|]. split; [done|]. unfold sent_to. rewrite Hbb.
    eapply vt_run_cat; [exact Hs|]. by apply vt_run_attr.
Qed.

(** The cursor is where the library believes it is, if it goes on at ([x], [y]). *)
Definition pos_ok (w : tbw) (v : vt) (x y : Z) : Prop :=
  last_y (G w) <= y /\
  (last_y (G w) = y -> last_x (G w) < x /\ (last_x (G w) = x - 1 -> vt_x v = x /\ vt_y v = y)).

Lemma shown_width c : 0 <= c -> c = 0 \/ width_spec c <> 0 -> width_spec (shown c) = Z.max 1 (width_spec c).
Proof.
  intros Hc Hw. unfold shown. pose proof (width_spec_range c).
  destruct (Z.leb_spec 0 (width_spec c)), (Z.eqb_spec c 0) as [->|]; cbn [andb negb].
  - done.
  - lia.
  - done.
  - transitivity 1; [by vm_compute|lia].
Qed.

Lemma paints_char D x y c w v :
  0 <= c < 2 ^ 31 -> c = 0 \/ width_spec c <> 0 -> room w (cluster_cost [c]) ->
  0 <= x < vt_cols v -> 0 <= y < vt_rows v -> vt_cols v < 2 ^ 31 -> vt_rows v < 2 ^ 31 ->
  vt_state v = Ground -> pos_ok w v x y -> sent_to D (g_out (G w)) v ->
  exists ob, send_cluster x y [c] w =
      (Ret TB_OK, set_G (set_last_y y (set_last_x x (set_g_out ob (G w)))) w) /\ bb_wf ob /\
    vt_run (bb_bytes ob) D = vt_print (shown c) (set_vt_pos x y v).
Proof.
  intros Hc Hwc Hr Hx Hy HW HH Hv [_ Hpos] Hs. unfold send_cluster.
  mrun (eq_refl : gets G w = (Ret (G w), w)).
  set (t := negb (last_x (G w) =? x - 1) || negb (last_y (G w) =? y)).
  destruct (emits_if (G w) t _ _ (emits_cursor (G w) x y) w eq_refl) as (b1 & E1 & Hw1 & Hb1).
  { eapply room_le; [exact Hr|]. pose proof (cursor_bytes_length x y). unfold cluster_cost.
    destruct t; simpl; lia. }
  unfold if_err_return at 1. mrun E1. change (negb (TB_OK =? TB_OK)) with false. cbv iota.
  assert (sent_to D b1 (set_vt_pos x y v)) as Hs1.
  { unfold sent_to. rewrite Hb1. eapply vt_run_cat; [exact Hs|]. destruct t eqn:Et; [by apply vt_run_cursor|].
    subst t. apply orb_false_iff in Et as [Ex Ey]. zbool. destruct (Hpos ltac:(done)) as [_ Hp].
    destruct (Hp ltac:(done)) as [<- <-]. by rewrite vt_pos_id. }
  set (w1 := put_out b1 w).
  mrun (eq_refl : upd (set_last_x x) w1 = (Ret tt, set_G (set_last_x x (G w1)) w1)).
  set (w2 := set_G (set_last_y y (set_last_x x (G w1))) w1).
  mrun (eq_refl : upd (set_last_y y) (set_G (set_last_x x (G w1)) w1) = (Ret tt, w2)).
  cbn [send_codepoints].
  assert (tb_iswprint c = Some ((0 <=? width_spec c) && negb (c =? 0))) as ->
    by (unfold tb_iswprint; by rewrite iswprint_ex_spec by lia).
  mrun (eq_refl : deref (Some ((0 <=? width_spec c) && negb (c =? 0))) w2 =
    (Ret ((0 <=? width_spec c) && negb (c =? 0)), w2)).
  fold (shown c).
  destruct (emits_ok_end (G w2) _ _ (emits_nputs (G w2) (tb_utf8_unicode_to_char (shown c))) w2 eq_refl)
    as (b2 & E2 & Hw2 & Hb2).
  { destruct Hr as (Hw & Ha & Hr). split; [done|]. split; [done|]. cbn [w2 w1 put_out set_G G g_out set_last_y set_last_x set_g_out].
    rewrite <- (bb_bytes_length b1 Hw1), Hb1, length_app. pose proof (bb_bytes_length _ Hw).
    pose proof (cursor_bytes_length x y). pose proof (encoded_length (shown c)). unfold cluster_cost in Hr.
    destruct t; simpl in *; lia. }
  rewrite E2. exists b2. split; [by destruct w as [[] ? ?]|]. split; [done|].
  rewrite Hb2. change (bb_bytes (g_out (G w2))) with (bb_bytes b1). rewrite vt_run_app.
  unfold sent_to in Hs1. rewrite Hs1. cbn [mbind option_bind].
  pose proof (shown_width c (proj1 Hc) Hwc). apply vt_run_char; [|lia|done].
  unfold shown. destruct (_ && _); [done|]. change (2 ^ 31) with 2147483648. lia.
Qed.

(** The terminal and the library agree. *)
Record linked (w : tbw) (v : vt) : Prop := {
  k_ground : vt_state v = Ground;
  k_pen : vt_pen v = doc_pen (G w) (last_fg (G w)) (last_bg (G w));
  k_disp : displays (G w) (front (G w)) v;
  k_small : vt_cols v < 2 ^ 31 /\ vt_rows v < 2 ^ 31
}.

(** A cell with a single codepoint that takes a column of its own, or that cannot
    be printed, and documented attributes. *)
Definition plain (mode : Z) (s : Z * Z * Z * list Z) : Prop :=
  let '(c, f, b, l) := s in
  0 <= c < 2 ^ 31 /\ (c = 0 \/ width_spec c <> 0) /\ l = [] /\ doc_attr mode f /\ doc_attr mode b.

Lemma plain_not_hidden mode c f b l : plain mode (c, f, b, l) -> c <> hidden.
Proof. intros [[_ H] _] ->. revert H. by vm_compute. Qed.

Lemma plain_single mode c : cell_wf c -> plain mode (cell_view c) -> is_cluster c = false.
Proof.
  intros Hw (_ & _ & Hl & _). unfold is_cluster. destruct egc eqn:Eg; [|done]. cbn [andb].
  apply Z.ltb_ge. destruct (Z.le_gt_cases (nech c) 0); [done|]. exfalso. unfold cell_cluster in Hl.
  rewrite (proj2 (Z.ltb_lt _ _)) in Hl by lia. unfold cell_wf in Hw. destruct (ech c) as [m|]; [|lia].
  simpl in Hl. apply (f_equal length) in Hl. rewrite length_take in Hl. simpl in Hl. lia.
Qed.

Lemma plain_width mode c :
  cell_wf c -> plain mode (cell_view c) -> cell_width c = Some (Z.max 1 (width_spec (ch c))).
Proof.
  intros Hw Hp. unfold cell_width. rewrite (plain_single mode c Hw Hp). destruct Hp as [Hc _].
  rewrite wcwidth_spec by lia. f_equal. case_match; zbool; lia.
Qed.

Lemma wide_width c : is_wide c = (1 <? Z.max 1 (width_spec c)).
Proof. unfold is_wide. destruct (Z.ltb_spec 1 (width_spec c)), (Z.ltb_spec 1 (Z.max 1 (width_spec c))); lia. Qed.

(** The copy into the front buffer and the attributes, before [k]. *)
Lemma paints_copy C K D x y b w v (k : M tbw Z) :
  caps (G w) = C -> caps_full C -> caps_understood (G w) = true -> room w (cell_cost C K) ->
  cb_wf (front (G w)) -> in_grid (cb_width (front (G w))) (cb_height (front (G w))) x y ->
  cell_wf b -> cell_small b -> plain (output_mode (G w)) (cell_view b) ->
  linked w v -> sent_to D (g_out (G w)) v ->
  exists F1 ob, let w2 := with_attr (fg b) (bg b) (put_out ob (put_front F1 w)) in
    (on_cell false (y * cb_width (front (G w)) + x) (fun f => cell_copy f b) ;;; send_attr (fg b) (bg b) ;;; k) w
      = k w2 /\
    cb_wf F1 /\ replaced (front (G w)) F1 x y 1 (ch b) (fg b) (bg b) /\ room w2 (cluster_cost [0]) /\
    sent_to D ob (set_vt_pen (doc_pen (G w) (fg b) (bg b)) v).
Proof.
  intros HC [HC1 HC2] Hu Hr HF Hg Hwb Hsm Hpl Hk Hs. pose proof (attr_cost_nonneg C) as Hac.
  destruct (cb_at_wf _ _ _ HF Hg) as (lf & cf & El & Ec & _ & Hcf).
  destruct (cell_copy_spec cf b (T w) Hcf Hwb Hsm) as (cf' & Ecopy & Hcf' & _ & Hv); [apply Hr|].
  mrun (on_front_cell w lf _ cf (fun f => cell_copy f b) TB_OK cf' El Ec Ecopy).
  set (F1 := cb_set _ _ _ _). set (w1 := put_front F1 w).
  pose proof (attr_bytes_length (G w1) (fg b) (bg b)) as Hlen.
  change (caps (G w1)) with (caps (G w)) in Hlen. rewrite HC in Hlen.
  destruct (paints_attr D (fg b) (bg b) w1 v) as (ob & E2 & Hwo & Hso);
    [exact Hu|split; change (caps (G w1)) with (caps (G w)); by rewrite HC|apply Hpl|apply Hpl|
     eapply room_le; [exact Hr|unfold cell_cost; lia]|apply Hk|apply Hk|exact Hs|].
  mrun E2. exists F1, ob. split; [done|]. split; [by apply cb_set_wf|]. split; [|split; [|exact Hso]].
  - assert (cell_view cf' = (ch b, fg b, bg b, [])) as Hview
      by (rewrite Hv; unfold cell_view; by rewrite (proj1 (proj2 (proj2 Hpl)))).
    assert (forall x' y', view_at F1 x' y' = if decide (x' = x /\ y' = y) then Some (cell_view cf')
      else view_at (front (G w)) x' y') as Hv1 by (intros; by apply view_at_set).
    split; [done|]. split; [by rewrite Hv1, decide_True, Hview by done|]. split; [done|].
    intros x' y' Hn. rewrite Hv1, decide_False by lia. done.
  - destruct (draws_attr C (fg b) (bg b) HC1 HC2 w1 HC) as (w2' & E2' & Hd2 & _);
      [eapply room_le; [exact Hr|unfold cell_cost; lia]|].
    rewrite E2 in E2'. injection E2' as <-. eapply room_le; [eapply drawn_room; [exact Hd2|exact Hr]|].
    unfold cluster_cost. simpl. lia.
Qed.

(** One character of one column. *)
Lemma paints_narrow D F x y c f b p w v :
  displays (G w) F v -> left_ok F x y -> replaced F (front (G w)) x y 1 c f b -> c <> hidden ->
  0 <= p < 2 ^ 31 -> p = 0 \/ width_spec p <> 0 -> width_spec (shown p) = 1 -> room w (cluster_cost [p]) ->
  0 <= x < vt_cols v -> 0 <= y < vt_rows v -> vt_cols v < 2 ^ 31 -> vt_rows v < 2 ^ 31 ->
  vt_state v = Ground -> vt_pen v = doc_pen (G w) f b -> last_fg (G w) = f -> last_bg (G w) = b ->
  pos_ok w v x y -> sent_to D (g_out (G w)) v ->
  (is_wide c = false /\ shown p = shown c \/ is_wide c = true /\ x + 1 = vt_cols v /\ shown p = 32) ->
  exists w' v', send_cluster x y [p] w = (Ret TB_OK, w') /\ linked w' v' /\ sent_to D (g_out (G w')) v' /\
    last_x (G w') = x /\ last_y (G w') = y /\ vt_x v' = x + 1 /\ vt_y v' = y.
Proof.
  intros Hd Hl Hrep Hc Hp Hw1 Hw Hr Hx Hy HW HH Hg Hpen Hlf Hlb Hpos Hs Hcase.
  destruct (paints_char D x y p w v) as (ob & E & Hwo & Hso); [done..|].
  assert (displays (G w) F (set_vt_pos x y v)) as Hd' by (by destruct Hd).
  destruct (displays_narrow (G w) F (front (G w)) (set_vt_pos x y v) x y c f b (shown p)) as
    (v' & Ev & Hd2 & Hst & Hpn & Hvx & Hvy); try done; [cbn; lia|].
  eexists _, v'. split; [exact E|]. split; [|split; [unfold sent_to; rewrite <- Ev; exact Hso|done]].
  constructor.
  - by rewrite Hst.
  - rewrite Hpn. cbn [vt_pen set_vt_pos]. rewrite Hpen. cbn [set_G G last_fg last_bg set_last_x set_last_y set_g_out].
    by rewrite Hlf, Hlb.
  - by destruct Hd2.
  - destruct (d_size _ _ _ Hd2) as [-> ->]. destruct Hrep as ([-> ->] & _). destruct (d_size _ _ _ Hd) as [<- <-]. done.
Qed.

(** A wide character and the cell it covers. *)
Lemma paints_wide D F x y c f b w v :
  displays (G w) F v -> left_ok F x y -> replaced F (front (G w)) x y 1 c f b ->
  cb_wf (front (G w)) -> in_grid (cb_width (front (G w))) (cb_height (front (G w))) x y ->
  0 <= c < 2 ^ 31 -> width_spec c = 2 -> room w (cluster_cost [c]) -> x + 2 <= vt_cols v ->
  vt_cols v < 2 ^ 31 -> vt_rows v < 2 ^ 31 ->
  vt_state v = Ground -> vt_pen v = doc_pen (G w) f b -> last_fg (G w) = f -> last_bg (G w) = b ->
  pos_ok w v x y -> sent_to D (g_out (G w)) v ->
  exists w' v', (send_cluster x y [c] ;;; mark_hidden (seqZ 1 1) x y) w = (Ret TB_OK, w') /\
    linked w' v' /\ sent_to D (g_out (G w')) v' /\
    last_x (G w') = x /\ last_y (G w') = y /\ vt_x v' = x + 2 /\ vt_y v' = y.
Proof.
  intros Hd Hl Hrep HF Hgr Hc Hwid Hr Hx HW HH Hg Hpen Hlf Hlb Hpos Hs.
  destruct (d_size _ _ _ Hd) as [Dw Dh]. pose proof Hrep as ([Ew Eh] & Hat & _ & Ho).
  unfold in_grid in Hgr. rewrite Ew, Eh, <- Dw, <- Dh in Hgr.
  assert (shown c = c) as Esh.
  { unfold shown. rewrite Hwid. destruct (Z.eqb_spec c 0) as [->|]; [by vm_compute in Hwid|done]. }
  destruct (paints_char D x y c w v) as (ob & E & Hwo & Hso); [done|right; lia|done|lia|lia|done..|].
  mrun E.
  set (w1 := set_G (set_last_y y (set_last_x x (set_g_out ob (G w)))) w).
  destruct (mark_hidden_spec (seqZ 1 1) x y w1) as (F2 & EF & HwF & Hdim & Hm & Hv); [done| |].
  { apply Forall_forall. intros i Hi%elem_of_seqZ. change (front (G w1)) with (front (G w)).
    unfold in_grid. rewrite Ew, Eh, <- Dw, <- Dh. lia. }
  change (front (G w1)) with (front (G w)) in Hdim, Hv.
  assert (replaced F F2 x y 2 c f b) as Hrep2.
  { split; [unfold buf_dims in *; lia|]. split; [|split].
    - rewrite Hv; [done|]. intros i Hi%elem_of_seqZ. lia.
    - intros _. eexists _, _, _. apply (Hm 1), elem_of_seqZ. lia.
    - intros x' y' Hn. rewrite Hv; [apply Ho; lia|]. intros i Hi%elem_of_seqZ. lia. }
  assert (displays (G w) F (set_vt_pos x y v)) as Hd' by (by destruct Hd).
  destruct (displays_wide (G w) F F2 (set_vt_pos x y v) x y c f b) as
    (v' & Ev & Hd2 & Hst & Hpn & Hvx & Hvy); try done.
  { intros ->. revert Hc. unfold hidden. lia. }
  exists (put_front F2 w1), v'. split; [exact EF|].
  split; [|split; [unfold sent_to; rewrite <- Ev, <- Esh; exact Hso|done]].
  constructor.
  - by rewrite Hst.
  - rewrite Hpn. cbn [vt_pen set_vt_pos]. rewrite Hpen, <- Hlf, <- Hlb. done.
  - by destruct Hd2.
  - destruct (d_size _ _ _ Hd2) as [-> ->]. destruct Hdim as [-> ->]. by rewrite Ew, Eh, <- Dw, <- Dh.
Qed.

Lemma paints_changed C K D x y b wd w v :
  caps (G w) = C -> caps_full C -> caps_understood (G w) = true -> room w (cell_cost C K) ->
  cb_wf (front (G w)) -> in_grid (cb_width (front (G w))) (cb_height (front (G w))) x y ->
  cell_wf b -> cell_small b -> cell_width b = Some wd -> plain (output_mode (G w)) (cell_view b) ->
  linked w v -> left_ok (front (G w)) x y -> pos_ok w v x y -> sent_to D (g_out (G w)) v ->
  exists w' v', present_changed x y (y * cb_width (front (G w)) + x) b wd w = (Ret TB_OK, w') /\
    linked w' v' /\ sent_to D (g_out (G w')) v' /\ pos_ok w' v' (x + wd) y.
Proof.
  intros HC Hfull Hu Hr HF Hg Hwb Hsm Ewd Hpl Hk Hleft Hpos Hs.
  rewrite (plain_width _ _ Hwb Hpl) in Ewd. injection Ewd as <-.
  pose proof (k_disp _ _ Hk) as Hd. destruct (d_size _ _ _ Hd) as [Dw Dh]. destruct (k_small _ _ Hk) as [Sw Sh].
  assert (0 <= x < vt_cols v /\ 0 <= y < vt_rows v) as [Hx Hy] by (rewrite Dw, Dh; exact Hg).
  unfold present_changed.
  match goal with |- context [bind (send_attr _ _) (fun _ => ?k)] =>
    destruct (paints_copy C K D x y b w v k) as (F1 & ob & E & HF1 & Hrep & Hr2 & Hso); try done end.
  rewrite E. set (w2 := with_attr _ _ _) in *. set (v2 := set_vt_pen _ v) in *.
  mrun (eq_refl : glob front w2 = (Ret F1, w2)). pose proof Hrep as ([Ew Eh] & _).
  pose proof (plain_not_hidden _ _ _ _ _ Hpl) as Hnh. pose proof (width_spec_range (ch b)) as Hwr.
  pose proof (plain_single _ _ Hwb Hpl) as Hsingle. destruct Hpl as (Hc & Hcw & Hpl).
  rewrite Ew, <- Dw, <- (wide_width (ch b)). destruct (is_wide (ch b)) eqn:Ewide; cbn [andb]; unfold is_wide in Ewide; zbool.
  - assert (width_spec (ch b) = 2) as Hw2 by lia. rewrite Hw2. change (Z.max 1 2) with 2.
    destruct (Z.leb_spec (vt_cols v - (2 - 1)) x) as [He|He].
    + replace (vt_cols v - x) with 1 by lia. change (seqZ x 1) with [0 + x]. change (0 + x) with x.
      destruct (paints_narrow D (front (G w)) x y (ch b) (fg b) (bg b) 32 w2 v2) as
        (w3 & v3 & E3 & Hk3 & Hs3 & Hlx & Hly & Hvx & Hvy);
        [by destruct Hd|exact Hleft|exact Hrep|exact Hnh|vm_compute; split; congruence|right; vm_compute; congruence|
         vm_compute; reflexivity|exact Hr2|exact Hx|exact Hy|exact Sw|exact Sh|apply Hk|reflexivity..|exact Hpos|
         exact Hso| |].
      { right. split; [unfold is_wide; by rewrite Hw2|]. split; [cbn; lia|vm_compute; reflexivity]. }
      cbn [send_spaces]. rewrite bind_assoc. unfold send_char. mrun E3. exists w3, v3.
      split; [done|]. split; [done|]. split; [done|]. split; [lia|]. intros _. lia.
    + rewrite Hsingle. mrun (eq_refl : deref (Some [ch b]) w2 = (Ret [ch b], w2)). change (2 - 1) with 1.
      destruct (paints_wide D (front (G w)) x y (ch b) (fg b) (bg b) w2 v2) as
        (w3 & v3 & E3 & Hk3 & Hs3 & Hlx & Hly & Hvx & Hvy);
        [by destruct Hd|exact Hleft|exact Hrep|exact HF1| |exact Hc|exact Hw2|exact Hr2|cbn; lia|exact Sw|exact Sh|
         apply Hk|reflexivity..|exact Hpos|exact Hso|].
      { change (in_grid (cb_width F1) (cb_height F1) x y). by rewrite Ew, Eh. }
      exists w3, v3. split; [exact E3|]. split; [done|]. split; [done|]. split; [lia|]. intros _. lia.
  - rewrite Hsingle. mrun (eq_refl : deref (Some [ch b]) w2 = (Ret [ch b], w2)).
    replace (Z.max 1 (width_spec (ch b))) with 1 by lia.
    destruct (paints_narrow D (front (G w)) x y (ch b) (fg b) (bg b) (ch b) w2 v2) as
      (w3 & v3 & E3 & Hk3 & Hs3 & Hlx & Hly & Hvx & Hvy);
      [by destruct Hd|exact Hleft|exact Hrep|exact Hnh|exact Hc|exact Hcw| |exact Hr2|exact Hx|exact Hy|exact Sw|exact Sh|
       apply Hk|reflexivity..|exact Hpos|exact Hso| |].
    { rewrite shown_width by (try done; lia). lia. }
    { left. split; [unfold is_wide; apply Z.ltb_ge; lia|done]. }
    mrun E3. exists w3, v3.
    split; [done|]. split; [done|]. split; [done|]. split; [lia|]. intros _. split; [lia|]. intros _. lia.
Qed.

(** ** Rows and the screen *)

Definition plain_back (mode : Z) (B : cellbuf) : Prop :=
  forall x y s, view_at B x y = Some s -> plain mode s.

(** After a cell of the back buffer, its width on, [left_ok] holds again. *)
Lemma left_ok_next g F v mode x y b :
  displays g F v -> view_at F x y = Some (cell_view b) -> plain mode (cell_view b) ->
  left_ok F (x + Z.max 1 (width_spec (ch b))) y.
Proof.
  intros Hd Ev Hpl c f b' l E. pose proof (plain_not_hidden _ _ _ _ _ Hpl) as Hn.
  destruct (is_wide (ch b)) eqn:Ew.
  - pose proof (width_spec_range (ch b)). assert (width_spec (ch b) = 2) as Ew2 by (unfold is_wide in Ew; zbool; lia).
    rewrite Ew2 in E. change (Z.max 1 2) with 2 in E. replace (x + 2 - 1) with (x + 1) in E by lia.
    destruct (d_cell _ _ _ Hd _ _ _ _ _ _ Ev Hn) as [_ Hh].
    destruct (Z.lt_ge_cases (x + 1) (cb_width F)) as [Hlt|Hge].
    + destruct (Hh Ew Hlt) as (? & ? & ? & E'). left. congruence.
    + exfalso. unfold view_at, cb_at in E. destruct (cellbuf_in_bounds F (x + 1) y) eqn:Eb; [|done].
      apply in_bounds_grid in Eb. unfold in_grid in Eb. lia.
  - right. unfold is_wide in Ew. zbool. replace (x + Z.max 1 (width_spec (ch b)) - 1) with x in E by lia.
    rewrite Ev in E. injection E as <- _ _ _. unfold is_wide. by apply Z.ltb_ge.
Qed.

Lemma paints_cell C K B D mode x y w v :
  presentable C K B w -> room w (cell_cost C K) -> in_grid (cb_width B) (cb_height B) x y ->
  caps_understood (G w) = true -> output_mode (G w) = mode -> plain_back mode B ->
  linked w v -> left_ok (front (G w)) x y -> pos_ok w v x y -> sent_to D (g_out (G w)) v ->
  exists w' b wd v', cb_at B x y = Some b /\ cell_width b = Some wd /\ 1 <= wd <= 2 /\
    present_cell x y w = (Ret (TB_OK, wd), w') /\ drawn w w' (cell_cost C K) /\ presentable C K B w' /\
    linked w' v' /\ sent_to D (g_out (G w')) v' /\ pos_ok w' v' (x + wd) y /\ left_ok (front (G w')) (x + wd) y.
Proof.
  intros Hp Hr Hg Hu Hm Hpl Hk Hleft Hpos Hs.
  destruct (present_cell_eq C K B x y w Hp Hg) as (b & wd & Eat & Hwb & Hdb & Ew & Hwd & Hgf & Hcase).
  destruct (present_cell_spec C K B x y w Hp Hr Hg) as (w' & b' & wd' & Eat' & Ew' & _ & E & Hdr & Hp' & Hv & _ & Hid).
  rewrite Eat in Eat'. injection Eat' as <-. rewrite Ew in Ew'. injection Ew' as <-.
  assert (view_at B x y = Some (cell_view b)) as EvB by (unfold view_at; by rewrite Eat).
  pose proof (Hpl _ _ _ EvB) as Hplb. rewrite EvB in Hv, Hid.
  assert (forall v', linked w' v' -> left_ok (front (G w')) (x + wd) y) as Hnext.
  { intros v' Hk'. rewrite (plain_width _ _ Hwb Hplb) in Ew. injection Ew as <-.
    by eapply left_ok_next; [apply Hk'|exact Hv|]. }
  exists w', b, wd. destruct Hcase as [[EvF _]|[Hne Eq]].
  - assert (w' = w) as -> by auto. exists v. do 8 (split; [done|]). split; [|by eapply Hnext].
    destruct Hpos as [Hy Hpos]. split; [done|]. intros Ey. destruct (Hpos Ey). split; lia.
  - destruct (paints_changed C K D x y b wd w v) as (w2 & v2 & E2 & Hk2 & Hs2 & Hp2); try done.
    + apply Hp.
    + apply Hp.
    + apply Hp.
    + apply Hdb.
    + by rewrite Hm.
    + assert (w' = w2) as -> by (rewrite Eq, (bind_ret _ _ _ _ _ E2) in E; by injection E).
      exists v2. do 8 (split; [done|]). split; [done|by eapply Hnext].
Qed.

(** A row from column [x] on. *)
Lemma paints_row C K B D mode y fuel x w v :
  presentable C K B w -> caps_understood (G w) = true -> output_mode (G w) = mode -> plain_back mode B ->
  0 <= x -> 0 <= y < cb_height B -> cb_width B - x <= Z.of_nat fuel ->
  room w (Z.of_nat fuel * cell_cost C K) ->
  linked w v -> left_ok (front (G w)) x y -> pos_ok w v x y -> sent_to D (g_out (G w)) v ->
  exists w' v', present_row fuel x y w = (Ret TB_OK, w') /\ linked w' v' /\ sent_to D (g_out (G w')) v' /\
    last_y (G w') <= y.
Proof.
  assert (0 <= cell_cost C K) as Hcc by (unfold cell_cost; pose proof (attr_cost_nonneg C); lia).
  revert x w v. induction fuel as [|fuel IH]; intros x w v Hp Hu Hm Hpl Hx Hy Hf Hr Hk Hl Hpos Hs; cbn [present_row];
    mrun (eq_refl : glob front w = (Ret (front (G w)), w)); pose proof (p_dims _ _ _ _ Hp) as [Dw Dh];
    rewrite Dw; destruct (Z.ltb_spec x (cb_width B)) as [Hlt|Hge]; try lia.
  1,3: by exists w, v; split_and!; [| | |apply Hpos].
  rewrite Nat2Z.inj_succ, Z.mul_succ_l, Z.add_comm in Hr.
  destruct (paints_cell C K B D mode x y w v Hp) as (w1 & b & wd & v1 & Eb & Ew & Hwd & E & Hd & Hp1 & Hk1 & Hs1 & Hpos1 & Hl1);
    [eapply room_le; [exact Hr|lia]|by split|done..|].
  mrun E. change (negb (TB_OK =? TB_OK)) with false. cbv iota.
  apply (IH (x + wd) w1 v1); try done; [|by rewrite <- Hm; eapply (erase_field output_mode)|lia|lia|by eapply drawn_room].
  rewrite <- Hu. by eapply (erase_field caps_understood).
Qed.

Lemma paints_rows C K B D mode n y w v :
  presentable C K B w -> caps_understood (G w) = true -> output_mode (G w) = mode -> plain_back mode B ->
  0 <= y -> y + Z.of_nat n = cb_height B -> room w (Z.of_nat n * (cb_width B * cell_cost C K)) ->
  linked w v -> last_y (G w) < y -> sent_to D (g_out (G w)) v ->
  exists w' v', present_rows (seqZ y (Z.of_nat n)) w = (Ret TB_OK, w') /\ linked w' v' /\ sent_to D (g_out (G w')) v'.
Proof.
  assert (0 <= cell_cost C K) as Hcc by (unfold cell_cost; pose proof (attr_cost_nonneg C); lia).
  revert y w v. induction n as [|n IH]; intros y w v Hp Hu Hm Hpl Hy Hn Hr Hk Hly Hs.
  { by exists w, v. }
  rewrite seqZ_cons by lia. cbn [present_rows]. replace (Z.pred (Z.of_nat (S n))) with (Z.of_nat n) by lia.
  assert (0 <= cb_width B) as HwB by (destruct (p_ok _ _ _ _ Hp) as [(? & _ & ? & _) _]; done).
  rewrite Nat2Z.inj_succ, Z.mul_succ_l, Z.add_comm in Hr.
  mrun (eq_refl : glob front w = (Ret (front (G w)), w)). pose proof (p_dims _ _ _ _ Hp) as [Dw Dh].
  rewrite Dw. unfold if_err_return.
  assert (room w (Z.of_nat (Z.to_nat (cb_width B)) * cell_cost C K)) as Hrow
    by (rewrite Z2Nat.id by done; eapply room_le; [exact Hr|nia]).
  destruct (present_row_spec C K B y (Z.to_nat (cb_width B)) 0 w Hp) as (w1 & E1 & Hd1 & Hp1 & _);
    [lia|lia|lia|done|]. rewrite Z2Nat.id in Hd1 by done.
  destruct (paints_row C K B D mode y (Z.to_nat (cb_width B)) 0 w v) as (w1' & v1 & E1' & Hk1 & Hs1 & Hly1);
    try done; try lia; [split; lia|].
  rewrite E1 in E1'. injection E1' as <-. mrun E1. change (negb (TB_OK =? TB_OK)) with false. cbv iota.
  apply (IH (Z.succ y) w1 v1); try done; [| |lia|lia|by eapply drawn_room|lia].
  - rewrite <- Hu. by eapply (erase_field caps_understood).
  - rewrite <- Hm. by eapply (erase_field output_mode).
Qed.

(** The cursor of the library is hidden, or a cell of the screen. *)
Definition cursor_in (g : tb_global) (v : vt) : Prop :=
  cursor_x g < 0 \/ cursor_y g < 0 \/ 0 <= cursor_x g < vt_cols v /\ 0 <= cursor_y g < vt_rows v.

Lemma linked_size w v w' v' :
  linked w v -> linked w' v' -> buf_dims (front (G w')) (front (G w)) -> vt_cols v' = vt_cols v /\ vt_rows v' = vt_rows v.
Proof.
  intros H H' [E1 E2]. destruct (d_size _ _ _ (k_disp _ _ H)) as [-> ->].
  destruct (d_size _ _ _ (k_disp _ _ H')) as [-> ->]. done.
Qed.

Lemma linked_move w v x y : linked w v -> linked w (set_vt_pos x y v).
Proof. intros []. constructor; try done. by destruct k_disp0. Qed.

Lemma paints_cursor D w v :
  linked w v -> cursor_in (G w) v -> room w 24 -> sent_to D (g_out (G w)) v ->
  exists ob v', send_cursor_if (cursor_x (G w)) (cursor_y (G w)) w = (Ret TB_OK, put_out ob w) /\ bb_wf ob /\
    sent_to D ob v' /\ linked w v' /\
    (0 <= cursor_x (G w) -> 0 <= cursor_y (G w) -> vt_x v' = cursor_x (G w) /\ vt_y v' = cursor_y (G w)).
Proof.
  intros Hk Hc Hr Hs. destruct (emits_cursor (G w) (cursor_x (G w)) (cursor_y (G w)) w eq_refl) as (ob & E & Hw & Hb).
  { eapply room_le; [exact Hr|]. pose proof (cursor_bytes_length (cursor_x (G w)) (cursor_y (G w))). lia. }
  destruct (decide (0 <= cursor_x (G w) /\ 0 <= cursor_y (G w))) as [[Hx Hy]|Hn].
  - exists ob, (set_vt_pos (cursor_x (G w)) (cursor_y (G w)) v). split; [done|]. split; [done|].
    split; [|split; [by apply linked_move|done]]. unfold sent_to. rewrite Hb. eapply vt_run_cat; [exact Hs|].
    destruct Hc as [?|[?|[? ?]]]; [lia|lia|]. apply vt_run_cursor; [apply Hk|done|done|apply Hk|apply Hk].
  - exists ob, v. split; [done|]. split; [done|]. split; [|split; [done|lia]]. unfold sent_to. rewrite Hb.
    unfold cursor_bytes. destruct (Z.ltb_spec (cursor_x (G w)) 0), (Z.ltb_spec (cursor_y (G w)) 0); cbn [orb];
      [by rewrite app_nil_r..|lia].
Qed.

Lemma tb_present_paints C K B D mode w v :
  initialized (G w) = true -> presentable C K B w -> s_write (T w) = [] -> room w (present_cost C K B) ->
  caps_understood (G w) = true -> output_mode (G w) = mode -> plain_back mode B ->
  linked w v -> cursor_in (G w) v -> sent_to D (g_out (G w)) v ->
  exists w' v' sent, tb_present w = (Ret TB_OK, w') /\ s_out (T w') = s_out (T w) ++ sent /\
    vt_run sent D = Some v' /\ linked w' v' /\ bb_bytes (g_out (G w')) = [] /\
    (0 <= cursor_x (G w) -> 0 <= cursor_y (G w) -> vt_x v' = cursor_x (G w) /\ vt_y v' = cursor_y (G w)).
Proof.
  intros Hi Hp Hsw Hr Hu Hm Hpl Hk Hc Hs. unfold tb_present, if_not_init_return, present_cost in *.
  mrun (eq_refl : glob initialized w = (Ret (initialized (G w)), w)). rewrite Hi. cbn [negb].
  set (w0 := set_G (set_last_y (-1) (set_last_x (-1) (G w))) w).
  mrun (eq_refl : upd (set_last_x (-1)) w = (Ret tt, set_G (set_last_x (-1) (G w)) w)).
  mrun (eq_refl : upd (set_last_y (-1)) (set_G (set_last_x (-1) (G w)) w) = (Ret tt, w0)).
  mrun (eq_refl : glob front w0 = (Ret (front (G w)), w0)). destruct (p_dims _ _ _ _ Hp) as [_ ->].
  assert (presentable C K B w0) as Hp0 by (by destruct Hp).
  destruct (p_ok _ _ _ _ Hp) as [(? & _ & HwB & HhB & _) _]. pose proof (attr_cost_nonneg C) as Hac.
  assert (0 <= cb_height B * (cb_width B * cell_cost C K)) as Hnn
    by (unfold cell_cost; repeat apply Z.mul_nonneg_nonneg; lia).
  assert (room w0 (Z.of_nat (Z.to_nat (cb_height B)) * (cb_width B * cell_cost C K))) as Hr0
    by (rewrite Z2Nat.id by done; eapply room_le; [exact Hr|lia]).
  destruct (present_rows_spec C K B (seqZ 0 (cb_height B)) w0 Hp0) as (w1 & E1 & Hd1 & Hp1 & _).
  { apply NoDup_seqZ. }
  { apply Forall_forall. intros y Hy%elem_of_seqZ. lia. }
  { by rewrite length_seqZ. }
  rewrite length_seqZ, Z2Nat.id in Hd1 by done.
  destruct (paints_rows C K B D mode (Z.to_nat (cb_height B)) 0 w0 v Hp0) as (w1' & v1 & E1' & Hk1 & Hs1);
    [exact Hu|exact Hm|done|lia|lia|exact Hr0|by destruct Hk; constructor; try done; destruct k_disp0|cbn; lia|exact Hs|].
  rewrite Z2Nat.id, E1 in E1' by done. injection E1' as <-.
  unfold if_err_return. mrun E1. change (negb (TB_OK =? TB_OK)) with false. cbv iota.
  mrun (eq_refl : gets G w1 = (Ret (G w1), w1)).
  assert (forall A (f : tb_global -> A), (forall g, f (erase g) = f g) -> f (G w1) = f (G w)) as Hkeep.
  { intros A f Hf. by rewrite (erase_field f w0 w1 _ Hf Hd1), <- (Hf (G w0)), <- (Hf (G w)). }
  pose proof (Hkeep _ cursor_x (fun _ => eq_refl)) as Ecx. pose proof (Hkeep _ cursor_y (fun _ => eq_refl)) as Ecy.
  assert (cursor_in (G w1) v1) as Hc1.
  { destruct (linked_size w v w1 v1 Hk Hk1) as [E2 E3].
    - destruct (p_dims _ _ _ _ Hp1), (p_dims _ _ _ _ Hp). unfold buf_dims. lia.
    - unfold cursor_in. rewrite Ecx, Ecy, E2, E3. exact Hc. }
  destruct (paints_cursor D w1 v1 Hk1 Hc1) as (ob & v2 & E2 & Hwb & Hs2 & Hk2 & Hpos2); [|done|].
  { eapply drawn_room; [exact Hd1|]. eapply room_le; [exact Hr|lia]. }
  mrun E2. change (negb (TB_OK =? TB_OK)) with false. cbv iota.
  assert (T w1 = T w) as HT by (by destruct Hd1 as (_ & ? & _)).
  destruct (out_flush_calm (put_out ob w1) Hwb) as (b' & E3 & Hwb' & Hb').
  { cbn [put_out set_G T]. by rewrite HT. }
  mrun E3. change (negb (TB_OK =? TB_OK)) with false. cbv iota.
  eexists _, v2, (bb_bytes ob). split; [done|]. cbn [G T put_out set_G]. split; [by rewrite HT|]. split; [done|].
  split; [by destruct Hk2 as [? ? [] ?]|]. split; [done|]. by rewrite <- Ecx, <- Ecy.
Qed.

End Displays.

(** ** A terminal that shows a blank screen *)

(** No half of a wide character is at ([x], [y]). *)
Definition no_half (v : vt) (x y : Z) : Prop :=
  match v_glyph (vt_grid v x y) with Left _ | Right => False | _ => True end.

Definition vt_blank (v : vt) (p : pen) : Prop :=
  (forall x y, in_grid (vt_cols v) (vt_rows v) x y -> vt_grid v x y = mk_vcell (Narrow 32) p) /\
  (forall x y, ~ in_grid (vt_cols v) (vt_rows v) x y -> no_half v x y).

Lemma blank_displays `{config} g F v f b :
  vt_cols v = cb_width F -> vt_rows v = cb_height F -> vt_blank v (doc_pen g f b) ->
  (forall x y, in_grid (cb_width F) (cb_height F) x y -> view_at F x y = Some (blank f b)) -> displays g F v.
Proof.
  intros Hc Hr [Hin Hout] HF.
  assert (forall x y, no_half v x y) as Hall.
  { intros x y. destruct (decide (in_grid (vt_cols v) (vt_rows v) x y)) as [Hg|Hg]; [|by apply Hout].
    unfold no_half. by rewrite Hin. }
  assert (is_wide 32 = false /\ shown 32 = 32) as [W32 S32] by (split; vm_compute; reflexivity).
  constructor.
  - done.
  - intros x y c f' b' l Ev _. assert (in_grid (cb_width F) (cb_height F) x y) as Hg.
    { unfold view_at, cb_at in Ev. destruct (cellbuf_in_bounds F x y) eqn:Eb; [|done]. by apply in_bounds_grid. }
    rewrite HF in Ev by done. injection Ev as <- <- <- <-. unfold cell_shown. rewrite W32, S32.
    split; [|done]. apply Hin. by rewrite Hc, Hr.
  - intros x y c Hl. specialize (Hall x y). unfold no_half in Hall. by rewrite Hl in Hall.
  - intros x y Hl. specialize (Hall x y). unfold no_half in Hall. by rewrite Hl in Hall.
Qed.

Definition blank_vt (cols rows : Z) (p q : pen) : vt :=
  mk_vt cols rows (fun x y => if decide (in_grid cols rows x y) then mk_vcell (Narrow 32) p else mk_vcell Broken p)
    0 0 q Ground.

Lemma blank_vt_blank cols rows p q : vt_blank (blank_vt cols rows p q) p.
Proof. split; intros x y Hg; unfold no_half; cbn [vt_grid blank_vt vt_cols vt_rows] in *;
  [by rewrite decide_True|by rewrite decide_False]. Qed.

Lemma plain_back_list `{config} mode B l :
  cells B = Some l -> Forall (fun c => plain mode (cell_view c)) l -> plain_back mode B.
Proof.
  intros E Hl x y s Ev. unfold view_at, cb_at in Ev. destruct (cellbuf_in_bounds B x y) eqn:Eb; [|done].
  rewrite E in Ev. unfold zlookup in Ev. destruct (y * cb_width B + x <? 0); [done|].
  destruct (l !! Z.to_nat (y * cb_width B + x)) as [c|] eqn:Ec; [|done]. injection Ev as <-.
  rewrite Forall_lookup in Hl. by eapply Hl.
Qed.

(** ** Properties *)

(** C17: when the terminal shows what the front buffer says, a [tb_present] sends
    bytes the terminal understands, and they make it show the back buffer: in
    every cell where the loop stops the character of the back buffer (a space
    for a wide one that does not fit) with the styles and colors its attributes
    are documented to have, and the cursor where the program set it.  Then the
    terminal again shows what the front buffer says. *)
Theorem present_shows_back `{config} C K B D w v :
  initialized (G w) = true -> presentable C K B w -> s_write (T w) = [] -> room w (present_cost C K B) ->
  caps_understood (G w) = true -> plain_back (output_mode (G w)) B ->
  linked w v -> cursor_in (G w) v -> sent_to D (g_out (G w)) v ->
  exists w' v' sent, tb_present w = (Ret TB_OK, w') /\ s_out (T w') = s_out (T w) ++ sent /\
    vt_run sent D = Some v' /\ linked w' v' /\ bb_bytes (g_out (G w')) = [] /\
    (forall x y c f b l, 0 <= y < cb_height B -> stops B y 0 x -> view_at B x y = Some (c, f, b, l) ->
       cell_shown (G w') v' x y c f b) /\
    (0 <= cursor_x (G w) -> 0 <= cursor_y (G w) -> vt_x v' = cursor_x (G w) /\ vt_y v' = cursor_y (G w)).
Proof.
  intros Hi Hp Hsw Hr Hu Hpl Hk Hc Hs.
  destruct (tb_present_paints C K B D _ w v Hi Hp Hsw Hr Hu eq_refl Hpl Hk Hc Hs)
    as (w' & v' & sent & E & Ho & Hrun & Hk' & Hb & Hcur).
  destruct (tb_present_spec C K B w Hi Hp Hsw Hr) as (w2 & sent2 & E2 & _ & _ & Hsync & _).
  rewrite E in E2. injection E2 as <-. exists w', v', sent. do 5 (split; [done|]). split; [|done].
  intros x y c f b l Hy Hst Ev. pose proof (plain_not_hidden _ _ _ _ _ (Hpl _ _ _ Ev)) as Hn.
  rewrite <- (Hsync y Hy x Hst) in Ev.
  - apply (d_cell _ _ _ (k_disp _ _ Hk') _ _ _ _ _ _ Ev Hn).
  - unfold view_at, cb_at in Ev. destruct (cellbuf_in_bounds B x y) eqn:Eb; [|done].
    apply in_bounds_grid in Eb. apply Eb.
Qed.

Definition demo_vt : vt :=
  blank_vt 4 1 (@doc_pen default_config demo_global 0 0) (@doc_pen default_config demo_global 65535 65535).

Lemma demo_linked : @linked default_config demo_screen demo_vt.
Proof.
  constructor; [done|done| |split; vm_compute; done].
  apply (blank_displays _ _ _ 0 0); [done|done|apply blank_vt_blank|].
  intros x y [Hx Hy]. cbn in Hx, Hy. assert (y = 0) as -> by lia.
  assert (x = 0 \/ x = 1 \/ x = 2 \/ x = 3) as [->|[->|[->| ->]]] by lia; reflexivity.
Qed.

Lemma demo_plain : @plain_back default_config TB_OUTPUT_256 demo_back.
Proof.
  eapply plain_back_list; [reflexivity|].
  assert (forall a, @doc_attr default_config TB_OUTPUT_256 a) as Hd by (intros a H; discriminate H).
  repeat (apply Forall_cons; split; [split; [split; vm_compute; congruence|]; split; [right; vm_compute; congruence|]; split; [done|split; apply Hd]|]).
  constructor.
Qed.

Lemma present_shows_back_witness :
  exists w' v' sent, @tb_present default_config demo_screen = (Ret TB_OK, w') /\
    s_out (T w') = s_out (T demo_screen) ++ sent /\
    vt_run sent demo_vt = Some v' /\ @linked default_config w' v' /\ bb_bytes (g_out (G w')) = [] /\
    (forall x y c f b l, 0 <= y < cb_height demo_back -> @stops default_config demo_back y 0 x ->
       @view_at demo_back x y = Some (c, f, b, l) -> @cell_shown default_config (G w') v' x y c f b) /\
    (0 <= cursor_x (G demo_screen) -> 0 <= cursor_y (G demo_screen) ->
       vt_x v' = cursor_x (G demo_screen) /\ vt_y v' = cursor_y (G demo_screen)).
Proof.
  apply (@present_shows_back default_config (Some <$> xterm_caps) 0 demo_back demo_vt demo_screen demo_vt).
  - reflexivity.
  - exact demo_presentable.
  - reflexivity.
  - split; [exact wf_zero|]. split; [reflexivity|]. vm_compute. discriminate.
  - vm_compute. reflexivity.
  - exact demo_plain.
  - exact demo_linked.
  - right. right. vm_compute. split; split; congruence.
  - reflexivity.
Defined.
