(* ===== verification/TbApi.v ===== *)
(** * life/termbox2.h: the functions a program calls to draw

    The guards, cell access, printing, modes and accessors of the public
    interface.  A string argument is the object its pointer points into. *)

From stdpp Require Import prelude list_numbers strings.
From Stdlib Require Import ZArith Lia.
From S2P Require Import Prelude CLib Posix TbTables TbText TbBuf TbTrie TbGlobal TbOutput TbPresent.
Open Scope Z_scope.

Definition TB_FUNC_EXTRACT_PRE : Z := 0.
Definition TB_FUNC_EXTRACT_POST : Z := 1.
Definition TB_VERSION_STR : list Z := lit "2.7.0-dev".

Section Api.
Context `{opts : config}.

(** [~a] of a [uintattr_t]. *)
Definition attr_not (a : Z) : Z := wrapu attr_bits (Z.lnot a).

(** ** Size, clearing, cursor *)

Definition tb_width : M tbw Z := if_not_init_return (glob g_width).
Definition tb_height : M tbw Z := if_not_init_return (glob g_height).

(** An operation on a cell buffer of the global that reads its attributes. *)
Definition buf_op (is_back : bool) (f : Z -> Z -> cellbuf -> M sys (Z * cellbuf)) : M tbw Z :=
  let* g := gets G in
  let* ' (rv, c) := tsys (f (g_fg g) (g_bg g) (buf_of is_back g)) in
  set_buf is_back c ;;;
  ret rv.

Definition tb_clear : M tbw Z := if_not_init_return (buf_op true cellbuf_clear).

Definition tb_set_clear_attrs (fg bg : Z) : M tbw Z :=
  if_not_init_return (upd (set_g_fg fg) ;;; upd (set_g_bg bg) ;;; ret TB_OK).

Definition resize_cellbufs : M tbw Z :=
  let* g := gets G in
  buf_op true (fun f b c => cellbuf_resize f b c (g_width g) (g_height g)) >>!
  buf_op false (fun f b c => cellbuf_resize f b c (g_width g) (g_height g)) >>!
  buf_op false cellbuf_clear >>!
  send_clear >>!
  ret TB_OK.

Definition tb_invalidate : M tbw Z := if_not_init_return (resize_cellbufs >>! ret TB_OK).

Definition tb_set_cursor (cx cy : Z) : M tbw Z :=
  if_not_init_return (
    let cx := if cx <? 0 then 0 else cx in
    let cy := if cy <? 0 then 0 else cy in
    let* c := glob cursor_x in
    send_if (c =? -1) (out_cap TB_CAP_SHOW_CURSOR) >>!
    send_cursor_if cx cy >>!
    (upd (set_cursor_x cx) ;;; upd (set_cursor_y cy) ;;; ret TB_OK)).

Definition tb_hide_cursor : M tbw Z :=
  if_not_init_return (
    let* c := glob cursor_x in
    send_if (0 <=? c) (out_cap TB_CAP_HIDE_CURSOR) >>!
    (upd (set_cursor_x (-1)) ;;; upd (set_cursor_y (-1)) ;;; ret TB_OK)).

(** ** Cells *)

(** [ch] is the array the pointer points into, [None] for NULL. *)
Definition tb_set_cell_ex (x y : Z) (ch : option (list Z)) (nch fg bg : Z) : M tbw Z :=
  if_not_init_return (
    let* b := glob back in
    match cellbuf_get b x y with
    | (rv, None) => ret rv
    | (_, Some i) => on_cell true i (fun c => cell_set c ch nch fg bg) >>! ret TB_OK
    end).

Definition tb_set_cell (x y ch fg bg : Z) : M tbw Z := tb_set_cell_ex x y (Some [ch]) 1 fg bg.

(** The result, and the index of the cell that is returned. *)
Definition tb_get_cell (x y : Z) (is_back : bool) : M tbw (Z * option Z) :=
  let* i := glob initialized in
  if negb i then ret (TB_ERR_NOT_INIT, None) else
  let* c := glob (buf_of is_back) in
  ret (cellbuf_get c x y).

(** The part of [tb_extend_cell] for the cell it finds. *)
Definition extend_cell (cell : tb_cell) (c : Z) : M sys (Z * tb_cell) :=
  let n := if 0 <? nech cell then nech cell + 1 else 2 in
  let* ' (rv, cell') := cell_reserve_ech cell (n + 1) in
  if negb (rv =? TB_OK) then ret (rv, cell') else
  let* mem := deref (ech cell') in
  let* mem := deref (if 0 <? nech cell then zupdate mem (n - 1) c
                     else match zupdate mem 0 (ch cell') with
                          | Some m => zupdate m 1 c | None => None end) in
  let* mem := deref (zupdate mem n 0) in
  ret (TB_OK, mk_cell (ch cell') (fg cell') (bg cell') (Some mem) n (cech cell')).

Definition tb_extend_cell (x y c : Z) : M tbw Z :=
  if_not_init_return (
    if egc then
      let* b := glob back in
      match cellbuf_get b x y with
      | (rv, None) => ret rv
      | (_, Some i) => on_cell true i (fun cell => extend_cell cell c)
      end
    else ret TB_ERR).

(** ** Modes *)

Definition tb_set_input_mode (mode : Z) : M tbw Z :=
  if_not_init_return (
    if mode =? TB_INPUT_CURRENT then glob input_mode else
    let esc_or_alt := Z.lor TB_INPUT_ESC TB_INPUT_ALT in
    let mode :=
      if Z.land mode esc_or_alt =? 0 then Z.lor mode TB_INPUT_ESC
      else if Z.land mode esc_or_alt =? esc_or_alt then Z.land mode (Z.lnot TB_INPUT_ALT)
      else mode in
    out_puts (Some (if has mode TB_INPUT_MOUSE then TB_HARDCAP_ENTER_MOUSE
                    else TB_HARDCAP_EXIT_MOUSE)) ;;;
    out_flush ;;;
    upd (set_input_mode mode) ;;;
    ret TB_OK).

Definition tb_set_output_mode (mode : Z) : M tbw Z :=
  if_not_init_return (
    if mode =? TB_OUTPUT_CURRENT then glob output_mode else
    if (mode =? TB_OUTPUT_NORMAL) || (mode =? TB_OUTPUT_256) || (mode =? TB_OUTPUT_216) ||
       (mode =? TB_OUTPUT_GRAYSCALE) || (wide_attr && (mode =? TB_OUTPUT_TRUECOLOR)) then
      let* g := gets G in
      upd (set_last_fg (attr_not (g_fg g))) ;;;
      upd (set_last_bg (attr_not (g_bg g))) ;;;
      upd (set_output_mode mode) ;;;
      ret TB_OK
    else ret TB_ERR).

(** The result, and what is stored through [ttyfd] and [resizefd]. *)
Definition tb_get_fds : M tbw (Z * option (Z * Z)) :=
  let* g := gets G in
  if negb (initialized g) then ret (TB_ERR_NOT_INIT, None)
  else ret (TB_OK, Some (rfd g, resize_rfd g)).

(** ** Printing *)

(** [while ( *str)]: the result and [*out_w]. *)
Fixpoint print_loop (fuel : nat) (str : list Z) (ix x x_prev y fg bg out_w : Z) : M tbw (Z * Z) :=
  let* b := deref (str !! 0%nat) in
  if b =? 0 then ret (TB_OK, out_w) else
  match fuel with
  | O => blocked
  | S f =>
      let* ' (rv, out) := deref (tb_utf8_char_to_unicode str) in
      if rv =? 0 then ret (TB_OK, out_w) else
      let* uni := deref (if rv <? 0 then Some 65533 else out) in
      let str := drop (Z.to_nat (Z.abs rv)) str in
      if uni =? 10 then
        let* y := deref (iadd y 1) in
        print_loop f str ix ix ix y fg bg out_w
      else
        let* ' (p, w) := deref (tb_iswprint_ex uni) in
        let uni := if p then uni else 65533 in
        let w := if p then w else 1 in
        if w <? 0 then ret (TB_ERR, out_w) else
        let* g := gets G in
        if w =? 0 then
          let* rv := (if egc && cellbuf_in_bounds (back g) x_prev y
                      then tb_extend_cell x_prev y uni else ret TB_OK) in
          if negb (rv =? TB_OK) then ret (rv, out_w) else
          print_loop f str ix x x_prev y fg bg out_w
        else
          let* rv := (if cellbuf_in_bounds (back g) x y
                      then tb_set_cell x y uni fg bg else ret TB_OK) in
          if negb (rv =? TB_OK) then ret (rv, out_w) else
          let* x' := deref (iadd x w) in
          print_loop f str ix x' x y fg bg (wrapu 64 (out_w + w))
  end.

(** The result, and what is stored through [out_w] ([None]: nothing is). *)
Definition tb_print_ex (x y fg bg : Z) (str : list Z) : M tbw (Z * option Z) :=
  let* g := gets G in
  if negb (initialized g) then ret (TB_ERR_NOT_INIT, None) else
  if negb (cellbuf_in_bounds (back g) x y) then ret (TB_ERR_OUT_OF_BOUNDS, None) else
  let* ' (rv, w) := print_loop (length str) str x x x y fg bg 0 in
  ret (rv, Some w).

Definition tb_print (x y fg bg : Z) (str : list Z) : M tbw Z :=
  let* ' (rv, _) := tb_print_ex x y fg bg str in ret rv.

(** [text] is what [vsnprintf] formats, [None] when it fails. *)
Definition formatted (text : option (list Z)) : Z :=
  match text with None => -1 | Some t => Z.of_nat (length t) end.

Definition tb_printf_inner (x y fg bg : Z) (text : option (list Z)) : M tbw (Z * option Z) :=
  if (formatted text <? 0) || (TB_OPT_PRINTF_BUF <=? formatted text) then ret (TB_ERR, None)
  else tb_print_ex x y fg bg (default [] text ++ [0]).

Definition tb_printf (x y fg bg : Z) (text : option (list Z)) : M tbw Z :=
  let* ' (rv, _) := tb_printf_inner x y fg bg text in ret rv.

Definition tb_printf_ex (x y fg bg : Z) (text : option (list Z)) : M tbw (Z * option Z) :=
  tb_printf_inner x y fg bg text.

Definition tb_send (buf : list Z) : M tbw Z := if_not_init_return (out_nputs buf).

Definition tb_sendf (text : option (list Z)) : M tbw Z :=
  if (formatted text <? 0) || (TB_OPT_PRINTF_BUF <=? formatted text) then ret TB_ERR
  else tb_send (default [] text).

(** ** Accessors *)

Definition tb_set_func (fn_type : Z) (fn : option (tb_event -> Z * tb_event * Z)) : M tbw Z :=
  if fn_type =? TB_FUNC_EXTRACT_PRE then upd (set_fn_extract_esc_pre fn) ;;; ret TB_OK
  else if fn_type =? TB_FUNC_EXTRACT_POST then upd (set_fn_extract_esc_post fn) ;;; ret TB_OK
  else ret TB_ERR.

Definition tb_cell_buffer : M tbw (option (list tb_cell)) :=
  let* g := gets G in ret (if negb (initialized g) then None else cells (back g)).

Definition tb_last_errno : M tbw Z := glob last_errno.

(** [strerror_r] is the C library's. *)
Definition tb_strerror (strerror_r : Z -> list Z) (err : Z) : M tbw (list Z) :=
  let* e := glob last_errno in
  ret (if err =? TB_OK then lit "Success"
       else if err =? TB_ERR_NEED_MORE then lit "Not enough input"
       else if err =? TB_ERR_INIT_ALREADY then lit "Termbox initialized already"
       else if err =? TB_ERR_MEM then lit "Out of memory"
       else if err =? TB_ERR_NO_EVENT then lit "No event"
       else if err =? TB_ERR_NO_TERM then lit "No TERM in environment"
       else if err =? TB_ERR_NOT_INIT then lit "Termbox not initialized"
       else if err =? TB_ERR_OUT_OF_BOUNDS then lit "Out of bounds"
       else if err =? TB_ERR_UNSUPPORTED_TERM then lit "Unsupported terminal"
       else if err =? TB_ERR_CAP_COLLISION then lit "Termcaps collision"
       else if err =? TB_ERR_RESIZE_SSCANF then
         lit "Terminal width/height not received by sscanf() after resize"
       else strerror_r e).

Definition tb_has_truecolor : Z := if wide_attr then 1 else 0.
Definition tb_has_egc : Z := if egc then 1 else 0.
Definition tb_attr_width : Z := attr_bits.
Definition tb_version : list Z := TB_VERSION_STR.

End Api.

(** ** Lemmas *)

Section ApiLemmas.
Context `{opts : config}.

Lemma not_init k w : initialized (G w) = false -> if_not_init_return k w = (Ret TB_ERR_NOT_INIT, w).
Proof.
  intros H. unfold if_not_init_return.
  mrun (eq_refl : glob initialized w = (Ret (initialized (G w)), w)). by rewrite H.
Qed.

Lemma is_init k w : initialized (G w) = true -> if_not_init_return k w = k w.
Proof.
  intros H. unfold if_not_init_return.
  mrun (eq_refl : glob initialized w = (Ret (initialized (G w)), w)). by rewrite H.
Qed.

Abbreviation put_back := (put_buf true).

(** The back buffer [B'] is [B] with another view at one position. *)
Definition view_put (B B' : cellbuf) (x y : Z) (v : Z * Z * Z * list Z) : Prop :=
  cb_wf B' /\ buf_dims B' B /\ view_at B' x y = Some v /\
  forall x' y', ~ (x' = x /\ y' = y) -> view_at B' x' y' = view_at B x' y'.

(** Any operation on a cell of the back buffer. *)
Lemma back_cell_op w x y f v :
  cb_wf (back (G w)) -> in_grid (cb_width (back (G w))) (cb_height (back (G w))) x y ->
  (forall cell, cb_at (back (G w)) x y = Some cell -> cell_wf cell ->
     exists cell', f cell (T w) = (Ret (TB_OK, cell'), T w) /\ cell_wf cell' /\ cell_view cell' = v) ->
  exists B', on_cell true (y * cb_width (back (G w)) + x) f w = (Ret TB_OK, put_back B' w) /\
    view_put (back (G w)) B' x y v.
Proof.
  intros Hw Hg Hf. destruct (cb_at_wf _ _ _ Hw Hg) as (l & cell & El & Ec & Eat & Hc).
  destruct (Hf cell Eat Hc) as (cell' & E & Hc' & Hv).
  eexists. split; [exact (on_cell_at true w l _ cell f TB_OK cell' El Ec E)|].
  split; [by apply cb_set_wf|]. split; [done|].
  split; [|intros x' y' Hn]; rewrite view_at_set by done.
  - rewrite decide_True by done. by rewrite Hv.
  - by rewrite decide_False.
Qed.

Lemma put_buf_put is_back F F' w : put_buf is_back F (put_buf is_back F' w) = put_buf is_back F w.
Proof. by destruct is_back. Qed.

(** What [cell_set] makes a cell show. *)
Definition set_view (c0 f b : Z) (l : list Z) (nch : Z) : Z * Z * Z * list Z :=
  (c0, f, b, if egc && (1 <? nch) then take (Z.to_nat nch) l else []).

Lemma cell_set_spec cell l nch f b c0 s :
  cell_wf cell -> s_alloc s = [] -> l !! 0%nat = Some c0 -> nch <= Z.of_nat (length l) ->
  (nch + 1) * 4 <= PTRDIFF_MAX ->
  exists cell', cell_set cell (Some l) nch f b s = (Ret (TB_OK, cell'), s) /\
    cell_wf cell' /\ cell_view cell' = set_view c0 f b l nch.
Proof.
  intros Hw Ha H0 Hn Hsz. unfold set_view. destruct (egc && (1 <? nch)) eqn:E.
  - zbool. destruct (cell_set_cluster cell l nch f b s Hw) as (c & E1 & Hw1 & _ & Hv); [done|done|lia|done|].
    exists c. split; [done|]. split; [done|]. rewrite H0 in Hv. by apply (inj Some) in Hv.
  - assert (cell_set cell (Some l) nch f b s = cell_set cell (Some [c0]) 1 f b s) as ->.
    { unfold cell_set. rewrite H0. change ([c0] !! 0%nat) with (Some c0).
      rewrite !(bind_ret (deref (Some c0)) _ s c0 s) by done.
      destruct egc; [|done]. cbn [andb negb] in *. zbool. by rewrite (proj2 (Z.leb_le nch 1)) by lia. }
    destruct (cell_set_1 cell c0 f b s Hw) as (c & E1 & Hw1 & Hv & _). by exists c.
Qed.

Lemma set_cell_ex_spec w x y l nch f b c0 :
  initialized (G w) = true -> cb_wf (back (G w)) ->
  in_grid (cb_width (back (G w))) (cb_height (back (G w))) x y ->
  s_alloc (T w) = [] -> l !! 0%nat = Some c0 -> nch <= Z.of_nat (length l) ->
  (nch + 1) * 4 <= PTRDIFF_MAX ->
  exists B', tb_set_cell_ex x y (Some l) nch f b w = (Ret TB_OK, put_back B' w) /\
    view_put (back (G w)) B' x y (set_view c0 f b l nch).
Proof.
  intros Hi Hw Hg Ha H0 Hn Hsz. unfold tb_set_cell_ex. rewrite is_init by done.
  mrun (eq_refl : glob back w = (Ret (back (G w)), w)). rewrite cellbuf_get_in by done.
  destruct (back_cell_op w x y (fun c => cell_set c (Some l) nch f b) (set_view c0 f b l nch) Hw Hg)
    as (B' & E & HB).
  - intros cell _ Hc. by apply cell_set_spec.
  - exists B'. unfold if_err_return. mrun E. done.
Qed.

Lemma set_cell_spec w x y c f b :
  initialized (G w) = true -> cb_wf (back (G w)) ->
  in_grid (cb_width (back (G w))) (cb_height (back (G w))) x y ->
  exists B', tb_set_cell x y c f b w = (Ret TB_OK, put_back B' w) /\
    view_put (back (G w)) B' x y (c, f, b, []).
Proof.
  intros Hi Hw Hg. unfold tb_set_cell, tb_set_cell_ex. rewrite is_init by done.
  mrun (eq_refl : glob back w = (Ret (back (G w)), w)). rewrite cellbuf_get_in by done.
  destruct (back_cell_op w x y (fun cell => cell_set cell (Some [c]) 1 f b) (c, f, b, []) Hw Hg)
    as (B' & E & HB).
  - intros cell _ Hc. destruct (cell_set_1 cell c f b (T w) Hc) as (c' & E1 & Hw1 & Hv & _). by exists c'.
  - exists B'. unfold if_err_return. mrun E. done.
Qed.

(** [tb_extend_cell] appends to the cluster of a cell. *)
Definition extended (v : Z * Z * Z * list Z) (c : Z) : Z * Z * Z * list Z :=
  let '(c0, f, b, l) := v in (c0, f, b, match l with [] => [c0; c] | _ => l ++ [c] end).

Lemma extend_cell_spec cell c s :
  egc = true -> cell_wf cell -> s_alloc s = [] -> (nech cell + 3) * 4 <= PTRDIFF_MAX ->
  exists cell', extend_cell cell c s = (Ret (TB_OK, cell'), s) /\ cell_wf cell' /\
    cell_view cell' = extended (cell_view cell) c.
Proof.
  intros Eg Hw Ha Hsz. pose proof (wf_nech cell Hw) as Hn0. unfold extend_cell.
  set (n := if 0 <? nech cell then nech cell + 1 else 2).
  assert (2 <= n /\ (n + 1) * 4 <= PTRDIFF_MAX) as [Hn Hn4].
  { unfold cell_wf in Hw. subst n. destruct (Z.ltb_spec 0 (nech cell)); unfold PTRDIFF_MAX in *; [|lia].
    destruct (ech cell); lia. }
  destruct (cell_reserve_spec cell (n + 1) s (cell_wf_mem cell Hw) Eg Ha ltac:(lia) Hn4)
    as (m & E & Hm & Ht).
  mrun E. change (negb (TB_OK =? TB_OK)) with false. cbv iota. cbn [ech ch fg bg cech].
  mrun (eq_refl : deref (Some m) s = (Ret m, s)). subst n.
  unfold cell_wf in Hw. unfold cell_view, extended, cell_cluster.
  destruct (Z.ltb_spec 0 (nech cell)) as [Hpos|Hz].
  - destruct (ech cell) as [l|] eqn:El; [|lia]. destruct Hw as [Hl [?|(_ & Hne & H0)]]; [lia|].
    cbn [default] in Ht. unfold id in Ht. rewrite !zupdate_range by (rewrite ?length_insert; lia).
    match goal with |- context [deref (Some ?x)] => mrun (eq_refl : deref (Some x) s = (Ret x, s)) end.
    rewrite zupdate_range by (rewrite ?length_insert; lia).
    match goal with |- context [deref (Some ?x)] => mrun (eq_refl : deref (Some x) s = (Ret x, s)) end.
    set (k := Z.to_nat (nech cell)). replace (Z.to_nat (nech cell + 1 - 1)) with k by lia.
    replace (Z.to_nat (nech cell + 1)) with (S k) by lia.
    assert (take k m = take k l) as Htk.
    { rewrite <- Ht, take_take. f_equal. lia. }
    assert (take (S k) (<[S k:=0]> (<[k:=c]> m)) = take k l ++ [c]) as Htake.
    { rewrite take_insert_ge by lia. rewrite (take_S_r _ k c) by (apply list_lookup_insert_eq; lia).
      by rewrite take_insert_ge, Htk by lia. }
    eexists. split; [done|]. split.
    + unfold cell_wf. cbn [ech cech nech ch]. rewrite !length_insert. split; [done|].
      right. split; [done|]. split; [lia|]. rewrite !list_lookup_insert_ne by lia.
      rewrite <- (lookup_take_lt m k 0), Htk, lookup_take_lt by lia. done.
    + cbn [ech nech ch fg bg default]. unfold id. rewrite (proj2 (Z.ltb_lt 0 (nech cell + 1))) by lia.
      replace (Z.to_nat (nech cell + 1)) with (S k) by lia. rewrite Htake.
      destruct (take k l) eqn:Etk; [|done].
      apply (f_equal length) in Etk. rewrite length_take in Etk. simpl in Etk. lia.
  - rewrite !zupdate_range by (rewrite ?length_insert; lia).
    match goal with |- context [deref (Some ?x)] => mrun (eq_refl : deref (Some x) s = (Ret x, s)) end.
    rewrite zupdate_range by (rewrite ?length_insert; lia).
    match goal with |- context [deref (Some ?x)] => mrun (eq_refl : deref (Some x) s = (Ret x, s)) end.
    destruct m as [|m0 [|m1 [|m2 m]]]; [simpl in Hm; lia..|]. simpl.
    eexists. split; [done|]. split.
    + unfold cell_wf. cbn [ech cech nech ch]. split; [done|]. right. split; [done|].
      split; [simpl; lia|done].
    + done.
Qed.

Lemma extend_spec w x y c v :
  egc = true -> initialized (G w) = true -> cb_wf (back (G w)) -> s_alloc (T w) = [] ->
  in_grid (cb_width (back (G w))) (cb_height (back (G w))) x y ->
  view_at (back (G w)) x y = Some v -> (Z.of_nat (length (snd v)) + 3) * 4 <= PTRDIFF_MAX ->
  exists B', tb_extend_cell x y c w = (Ret TB_OK, put_back B' w) /\
    view_put (back (G w)) B' x y (extended v c).
Proof.
  intros Eg Hi Hw Ha Hg Hv Hsz. unfold tb_extend_cell. rewrite is_init, Eg by done.
  mrun (eq_refl : glob back w = (Ret (back (G w)), w)). rewrite cellbuf_get_in by done.
  apply back_cell_op; [done|done|]. intros cell Eat Hc. unfold view_at in Hv. rewrite Eat in Hv.
  apply (inj Some) in Hv. subst v. apply extend_cell_spec; [done|done|done|].
  revert Hsz. cbn [snd cell_view]. unfold cell_cluster. pose proof (wf_nech cell Hc).
  destruct (Z.ltb_spec 0 (nech cell)); [|simpl; unfold PTRDIFF_MAX; lia].
  unfold cell_wf in Hc. destruct (ech cell); [|lia]. simpl. rewrite length_take. lia.
Qed.

End ApiLemmas.

(** ** What printing shows *)

Section Print.
Context `{opts : config}.

(** The codepoints [tb_print] writes as they are: newlines, and printable ones
    that are not combining. *)
Definition printable (c : Z) : Prop := 0 < c < 2 ^ 31 /\ (c = 10 \/ 1 <= width_spec c).

Definition utf8 (cs : list Z) : list Z := concat (tb_utf8_unicode_to_char <$> cs).

(** Where the codepoints go: [ix] is the column of the start of a line. *)
Fixpoint layout (ix x y : Z) (cs : list Z) : list (Z * Z * Z) :=
  match cs with
  | [] => []
  | c :: cs' =>
      if c =? 10 then layout ix ix (y + 1) cs'
      else (x, y, c) :: layout ix (x + width_spec c) y cs'
  end.

(** The width of the text as if it were on one line. *)
Definition text_width (cs : list Z) : Z := sumZ ((fun c => if c =? 10 then 0 else width_spec c) <$> cs).

(** [B'] is [B] with the text of a layout. *)
Definition shows_layout (fg bg : Z) (L : list (Z * Z * Z)) (B B' : cellbuf) : Prop :=
  (forall px py c, (px, py, c) ∈ L -> in_grid (cb_width B) (cb_height B) px py ->
     view_at B' px py = Some (c, fg, bg, [])) /\
  (forall px py, (forall c, (px, py, c) ∉ L) -> view_at B' px py = view_at B px py).

(** Later codepoints go further: to the right on the row, or to a lower row. *)
Lemma layout_after ix x y cs px py c :
  Forall printable cs -> (px, py, c) ∈ layout ix x y cs -> y < py \/ py = y /\ x <= px.
Proof.
  intros Hp. revert x y. induction Hp as [|c0 cs [_ Hc] Hp IH]; intros x y; cbn [layout].
  - by intros ?%not_elem_of_nil.
  - destruct (Z.eqb_spec c0 10).
    + intros H%IH. lia.
    + intros [[= -> -> ->]|H%IH]%elem_of_cons; [lia|]. destruct Hc; lia.
Qed.

Lemma layout_head_fresh ix x y c cs c' :
  printable c -> c <> 10 -> Forall printable cs -> (x, y, c') ∉ layout ix (x + width_spec c) y cs.
Proof.
  intros [_ Hc] Hne Hp H. pose proof (layout_after _ _ _ _ _ _ _ Hp H). destruct Hc; [done|lia].
Qed.

Lemma decode_printable c rest :
  printable c -> exists b l, tb_utf8_unicode_to_char c ++ rest = b :: l /\ b <> 0 /\
    tb_utf8_char_to_unicode (tb_utf8_unicode_to_char c ++ rest) =
      Some (Z.of_nat (length (tb_utf8_unicode_to_char c)), Some c).
Proof.
  intros [Hc _]. pose proof (utf8_decode_encode c rest Hc) as Hd.
  destruct (tb_utf8_unicode_to_char c ++ rest) as [|b l] eqn:E; [done|].
  exists b, l. split; [done|]. split; [|done]. intros ->. done.
Qed.

Lemma printable_width c :
  printable c -> c <> 10 -> tb_iswprint_ex c = Some (true, width_spec c) /\ 1 <= width_spec c <= 2.
Proof.
  intros [Hc [?|Hw]] Hne; [done|]. rewrite iswprint_ex_spec by lia.
  rewrite (proj2 (Z.leb_le 0 _)), (proj2 (Z.eqb_neq c 0)) by lia. split; [done|].
  pose proof (width_spec_range c). lia.
Qed.

Lemma shows_layout_cons fg bg x y c L B B1 B2 :
  (forall c', (x, y, c') ∉ L) ->
  (in_grid (cb_width B) (cb_height B) x y -> view_at B1 x y = Some (c, fg, bg, [])) ->
  (forall x' y', ~ (x' = x /\ y' = y) -> view_at B1 x' y' = view_at B x' y') ->
  buf_dims B1 B -> shows_layout fg bg L B1 B2 -> shows_layout fg bg ((x, y, c) :: L) B B2.
Proof.
  intros Hfresh Hv Ho [Dw Dh] [H1 H2]. rewrite Dw, Dh in H1. split.
  - intros px py c' [[= -> -> ->]|H]%elem_of_cons Hg; [|by apply (H1 px py)].
    rewrite H2 by done. by apply Hv.
  - intros px py Hn. rewrite H2, Ho; [done| |].
    + intros [-> ->]. apply (Hn c). by left.
    + intros c' Hc'. apply (Hn c'). by right.
Qed.

(** The bounds that keep the coordinates in an [int]. *)
Definition coords_ok (ix x y n : Z) : Prop :=
  INT_MIN <= x /\ x + 2 * n <= INT_MAX /\ INT_MIN <= ix /\ ix + 2 * n <= INT_MAX /\
  INT_MIN <= y /\ y + n <= INT_MAX.

(** The step of the loop for one printable codepoint. *)
Lemma place_spec w x y c fg bg :
  initialized (G w) = true -> cb_wf (back (G w)) ->
  exists B1, (if cellbuf_in_bounds (back (G w)) x y then tb_set_cell x y c fg bg else ret TB_OK) w =
      (Ret TB_OK, put_buf true B1 w) /\ cb_wf B1 /\ buf_dims B1 (back (G w)) /\
    (in_grid (cb_width (back (G w))) (cb_height (back (G w))) x y ->
       view_at B1 x y = Some (c, fg, bg, [])) /\
    (forall x' y', ~ (x' = x /\ y' = y) -> view_at B1 x' y' = view_at (back (G w)) x' y').
Proof.
  intros Hi Hw. destruct (cellbuf_in_bounds (back (G w)) x y) eqn:Eb.
  - apply in_bounds_grid in Eb. destruct (set_cell_spec w x y c fg bg Hi Hw Eb) as (B1 & E & H1 & H2 & H3 & H4).
    by exists B1.
  - exists (back (G w)). split; [by destruct w as [[] ? ?]|]. split; [done|]. split; [done|].
    split; [|done]. intros Hg. by rewrite (proj2 (in_bounds_grid _ x y)) in Eb.
Qed.

Lemma print_loop_shows cs fuel ix x xp y fg bg ow w :
  Forall printable cs -> (length cs <= fuel)%nat -> coords_ok ix x y (Z.of_nat (length cs)) ->
  initialized (G w) = true -> cb_wf (back (G w)) -> 0 <= ow -> ow + 2 * Z.of_nat (length cs) < 2 ^ 64 ->
  exists B', print_loop fuel (utf8 cs ++ [0]) ix x xp y fg bg ow w =
      (Ret (TB_OK, ow + text_width cs), put_buf true B' w) /\ cb_wf B' /\ buf_dims B' (back (G w)) /\
    shows_layout fg bg (layout ix x y cs) (back (G w)) B'.
Proof.
  intros Hp. revert fuel x xp y ow w.
  induction Hp as [|c cs Hc Hp IH]; intros fuel x xp y ow w Hf Hco Hi Hw Ho Hob.
  - exists (back (G w)). split; [|split; [done|split; [done|split; [intros ??? ?%not_elem_of_nil; done|done]]]].
    replace (put_buf true (back (G w)) w) with w by (by destruct w as [[] ? ?]).
    rewrite Z.add_0_r. by destruct fuel.
  - destruct fuel as [|fuel]; [simpl in Hf; lia|].
    assert (utf8 (c :: cs) ++ [0] = tb_utf8_unicode_to_char c ++ (utf8 cs ++ [0])) as ->
      by (unfold utf8; simpl; by rewrite <- app_assoc).
    destruct (decode_printable c (utf8 cs ++ [0]) Hc) as (b & l & El & Hb & Hd).
    pose proof (utf8_first_len c) as Hfl. destruct (utf8_first c) as [f0 len] eqn:Ef. cbn [snd] in Hfl.
    pose proof (length_encoded c f0 len Ef ltac:(lia)) as Hlen.
    cbn [print_loop]. assert ((tb_utf8_unicode_to_char c ++ utf8 cs ++ [0]) !! 0%nat = Some b) as ->
      by (by rewrite El).
    mrun (eq_refl : deref (Some b) w = (Ret b, w)). rewrite (proj2 (Z.eqb_neq b 0)) by done.
    rewrite Hd, Hlen. mrun (eq_refl : deref (Some (len, Some c)) w = (Ret (len, Some c), w)).
    rewrite (proj2 (Z.eqb_neq len 0)), (proj2 (Z.ltb_ge len 0)) by lia.
    mrun (eq_refl : deref (Some c) w = (Ret c, w)).
    rewrite (drop_app_length' _ _ (Z.to_nat (Z.abs len))) by lia. cbn [layout length] in *.
    unfold coords_ok, INT_MIN, INT_MAX in Hco.
    assert (text_width (c :: cs) = (if c =? 10 then 0 else width_spec c) + text_width cs) as -> by done.
    destruct (Z.eqb_spec c 10) as [->|Hne].
    + unfold iadd. rewrite decide_True by (unfold is_int, INT_MIN, INT_MAX; lia).
      mrun (eq_refl : deref (Some (y + 1)) w = (Ret (y + 1), w)).
      destruct (IH fuel ix ix (y + 1) ow w) as (B' & E & H); [lia|unfold coords_ok, INT_MIN, INT_MAX; lia|done|done|done|lia|].
      exists B'. rewrite E. by rewrite Z.add_0_l.
    + destruct (printable_width c Hc Hne) as [-> Hwd].
      mrun (eq_refl : deref (Some (true, width_spec c)) w = (Ret (true, width_spec c), w)).
      rewrite (proj2 (Z.ltb_ge (width_spec c) 0)), (proj2 (Z.eqb_neq (width_spec c) 0)) by lia.
      mrun (eq_refl : gets G w = (Ret (G w), w)).
      destruct (place_spec w x y c fg bg Hi Hw) as (B1 & E1 & Hw1 & Hd1 & Hv1 & Ho1). mrun E1.
      change (negb (TB_OK =? TB_OK)) with false. cbv iota. unfold iadd.
      rewrite decide_True by (unfold is_int, INT_MIN, INT_MAX; lia).
      match goal with |- context [deref (Some ?z)] => mrun (eq_refl : deref (Some z) (put_buf true B1 w) = (Ret z, put_buf true B1 w)) end.
      rewrite wrapu_id by lia.
      destruct (IH fuel (x + width_spec c) x y (ow + width_spec c) (put_buf true B1 w))
        as (B2 & E2 & Hw2 & Hd2 & Hs2); [lia|unfold coords_ok, INT_MIN, INT_MAX; lia|done|done|lia|lia|].
      change (back (G (put_buf true B1 w))) with B1 in *.
      exists B2. rewrite E2, put_buf_put. split; [by rewrite Z.add_assoc|]. split; [done|].
      split; [unfold buf_dims in *; lia|].
      apply (shows_layout_cons fg bg x y c _ _ B1); [|done|done|done|done].
      intros c'. by apply layout_head_fresh.
Qed.

(** *** Any string *)

(** No cluster has more than [K] codepoints. *)
Definition clusters_le (K : Z) (B : cellbuf) : Prop :=
  forall x y v, view_at B x y = Some v -> Z.of_nat (length (snd v)) <= K.

Lemma clusters_le_cells K B l :
  cells B = Some l -> Forall (fun c => Z.of_nat (length (cell_cluster c)) <= K) l -> clusters_le K B.
Proof.
  intros El Hl x y v. unfold view_at, cb_at. rewrite El. destruct (cellbuf_in_bounds B x y); [|done].
  destruct (zlookup l (y * cb_width B + x)) as [c|] eqn:E; [|done]. intros Ev. apply (inj Some) in Ev.
  subst v. cbn [snd cell_view]. pose proof (zlookup_Some_range _ _ _ E). rewrite zlookup_nonneg in E by lia.
  rewrite Forall_lookup in Hl. by eapply Hl.
Qed.

Lemma clusters_put K K' B B' x y v :
  clusters_le K B -> view_put B B' x y v -> K <= K' -> Z.of_nat (length (snd v)) <= K' ->
  clusters_le K' B'.
Proof.
  intros HB (_ & _ & Hv & Ho) HK Hl x' y' v' E.
  destruct (decide (x' = x /\ y' = y)) as [[-> ->]|Hn].
  - rewrite Hv in E. apply (inj Some) in E. by subst.
  - rewrite Ho in E by done. apply HB in E. lia.
Qed.

(** What one codepoint of a string can do to the back buffer. *)
Lemma combine_spec K w x y c :
  initialized (G w) = true -> cb_wf (back (G w)) -> s_alloc (T w) = [] ->
  clusters_le K (back (G w)) -> 2 <= K -> (K + 3) * 4 <= PTRDIFF_MAX ->
  exists B1, (if egc && cellbuf_in_bounds (back (G w)) x y then tb_extend_cell x y c else ret TB_OK) w =
      (Ret TB_OK, put_buf true B1 w) /\ cb_wf B1 /\ buf_dims B1 (back (G w)) /\ clusters_le (K + 1) B1.
Proof.
  intros Hi Hw Ha HK H2 Hsz. destruct (egc && cellbuf_in_bounds (back (G w)) x y) eqn:Eb.
  - apply andb_true_iff in Eb as [Eg Eb]. apply in_bounds_grid in Eb.
    destruct (cb_at_wf _ _ _ Hw Eb) as (l & cell & _ & _ & Eat & _).
    assert (view_at (back (G w)) x y = Some (cell_view cell)) as Ev by (unfold view_at; by rewrite Eat).
    pose proof (HK _ _ _ Ev) as Hl.
    destruct (extend_spec w x y c _ Eg Hi Hw Ha Eb Ev) as (B1 & E & HB); [lia|].
    exists B1. split; [done|]. split; [apply HB|]. split; [apply HB|].
    apply (clusters_put K (K + 1) _ _ _ _ _ HK HB); [lia|]. revert Hl. unfold extended.
    destruct (cell_view cell) as [[[c0 f] b] [|z l']]; cbn [snd].
    + simpl. lia.
    + rewrite length_app. simpl. lia.
  - exists (back (G w)). split; [by destruct w as [[] ? ?]|]. split; [done|]. split; [done|].
    intros x' y' v E. apply HK in E. lia.
Qed.

Lemma place_clusters K w x y c fg bg :
  initialized (G w) = true -> cb_wf (back (G w)) -> clusters_le K (back (G w)) -> 0 <= K ->
  exists B1, (if cellbuf_in_bounds (back (G w)) x y then tb_set_cell x y c fg bg else ret TB_OK) w =
      (Ret TB_OK, put_buf true B1 w) /\ cb_wf B1 /\ buf_dims B1 (back (G w)) /\ clusters_le K B1.
Proof.
  intros Hi Hw HK H0. destruct (place_spec w x y c fg bg Hi Hw) as (B1 & E & Hw1 & Hd & Hv & Ho).
  exists B1. split; [done|]. split; [done|]. split; [done|]. intros x' y' v Ev.
  destruct (decide (x' = x /\ y' = y)) as [[-> ->]|Hn]; [|rewrite Ho in Ev by done; by apply HK in Ev].
  assert (in_grid (cb_width (back (G w))) (cb_height (back (G w))) x y) as Hg.
  { destruct Hd as [<- <-]. apply in_bounds_grid. unfold view_at, cb_at in Ev.
    by destruct (cellbuf_in_bounds B1 x y). }
  rewrite Hv in Ev by done. apply (inj Some) in Ev. subst v. done.
Qed.

(** The loop on whatever the string holds. *)
Lemma print_loop_total fuel str n K ix x xp y fg bg ow w :
  nul_at str n -> (n <= fuel)%nat -> coords_ok ix x y (Z.of_nat n) ->
  initialized (G w) = true -> cb_wf (back (G w)) -> s_alloc (T w) = [] ->
  clusters_le K (back (G w)) -> 2 <= K -> (K + Z.of_nat n + 3) * 4 <= PTRDIFF_MAX ->
  exists B' ow', print_loop fuel str ix x xp y fg bg ow w = (Ret (TB_OK, ow'), put_buf true B' w) /\
    cb_wf B' /\ buf_dims B' (back (G w)).
Proof.
  revert str n K x xp y ow w.
  induction fuel as [|fuel IH]; intros str n K x xp y ow w Hn Hf Hco Hi Hw Ha HK H2 Hsz; cbn [print_loop];
    (destruct (decide (n = 0%nat)) as [->|Hn0];
    [exists (back (G w)), ow; split; [|done]; rewrite (proj1 Hn);
     by destruct w as [[] ? ?]|]); [lia|].
  destruct (proj2 Hn 0%nat) as (b & -> & Hb); [lia|].
  mrun (eq_refl : deref (Some b) w = (Ret b, w)). rewrite (proj2 (Z.eqb_neq b 0)) by done.
  destruct (utf8_decode_total str n Hn) as (rv & o & -> & Hrv & Habs & Hpos); [lia|].
  mrun (eq_refl : deref (Some (rv, o)) w = (Ret (rv, o), w)).
  rewrite (proj2 (Z.eqb_neq rv 0)) by done.
  assert (exists u, (if rv <? 0 then Some 65533 else o) = Some u /\ 0 <= u) as (u & -> & Hu).
  { destruct (Z.ltb_spec rv 0); [exists 65533; split; [done|lia]|]. apply Hpos. lia. }
  mrun (eq_refl : deref (Some u) w = (Ret u, w)).
  set (k := Z.to_nat (Z.abs rv)). pose proof (nul_at_drop str n k Hn ltac:(lia)) as Hn'.
  unfold coords_ok, INT_MIN, INT_MAX in Hco.
  destruct (Z.eqb_spec u 10).
  { unfold iadd. rewrite decide_True by (unfold is_int, INT_MIN, INT_MAX; lia).
    mrun (eq_refl : deref (Some (y + 1)) w = (Ret (y + 1), w)).
    apply (IH (drop k str) (n - k)%nat K); try done; [lia|unfold coords_ok, INT_MIN, INT_MAX; lia|lia]. }
  rewrite iswprint_ex_spec by done.
  match goal with |- context [bind (deref (Some ?z)) _ w] =>
    mrun (eq_refl : deref (Some z) w = (Ret z, w)) end.
  set (p := (0 <=? width_spec u) && negb (u =? 0)).
  pose proof (width_spec_range u) as Hwr.
  assert (0 <= (if p then width_spec u else 1) <= 2) as Hwd by (destruct p eqn:E; subst p; zbool; lia).
  set (wd := if p then width_spec u else 1) in *. set (u' := if p then u else 65533).
  rewrite (proj2 (Z.ltb_ge wd 0)) by lia. mrun (eq_refl : gets G w = (Ret (G w), w)).
  assert (forall B2 B1, buf_dims B1 (back (G w)) -> buf_dims B2 B1 -> buf_dims B2 (back (G w))) as Htr
    by (unfold buf_dims; intros; lia).
  destruct (Z.eqb_spec wd 0).
  - destruct (combine_spec K w xp y u' Hi Hw Ha HK H2) as (B1 & E1 & Hw1 & Hd1 & HK1); [lia|]. mrun E1.
    change (negb (TB_OK =? TB_OK)) with false. cbv iota.
    destruct (IH (drop k str) (n - k)%nat (K + 1) x xp y ow (put_buf true B1 w))
      as (B2 & ow' & E2 & Hw2 & Hd2); try done; [lia|unfold coords_ok, INT_MIN, INT_MAX; lia|lia|lia|].
    exists B2, ow'. rewrite E2, put_buf_put. split; [done|]. split; [done|]. by apply (Htr B2 B1).
  - destruct (place_clusters K w x y u' fg bg Hi Hw HK) as (B1 & E1 & Hw1 & Hd1 & HK1); [lia|]. mrun E1.
    change (negb (TB_OK =? TB_OK)) with false. cbv iota. unfold iadd.
    rewrite decide_True by (unfold is_int, INT_MIN, INT_MAX; lia).
    match goal with |- context [deref (Some ?z)] =>
      mrun (eq_refl : deref (Some z) (put_buf true B1 w) = (Ret z, put_buf true B1 w)) end.
    destruct (IH (drop k str) (n - k)%nat K (x + wd) x y (wrapu 64 (ow + wd)) (put_buf true B1 w))
      as (B2 & ow' & E2 & Hw2 & Hd2); try done; [lia|unfold coords_ok, INT_MIN, INT_MAX; lia|lia|].
    exists B2, ow'. rewrite E2, put_buf_put. split; [done|]. split; [done|]. by apply (Htr B2 B1).
Qed.

End Print.

(** ** Clearing and resizing *)

Section Resize.
Context `{opts : config}.

(** [w'] is [w] after output that left nothing unsent. *)
Definition flushed (w w' : tbw) : Prop :=
  erase (G w') = erase (G w) /\ X w' = X w /\ bb_wf (g_out (G w')) /\ bb_bytes (g_out (G w')) = [] /\
  exists bs, T w' = set_out (s_out (T w) ++ bs) (T w).

Lemma draws_cap C i : caps_full C -> 0 <= i < TB_CAP__COUNT -> draws C (caps_length C) (out_cap i).
Proof.
  intros [H1 H2] Hi. apply draws_emits. intros g Hg. exists (cap_text g i). split.
  - apply emits_cap; [|done]. split; by rewrite Hg.
  - rewrite <- Hg. apply cap_text_length.
Qed.

Definition clear_cost (C : list (option (list Z))) : Z := attr_cost C + (caps_length C + 24).

Lemma draws_flush C n m k w :
  draws C n m -> caps (G w) = C -> room w n -> s_write (T w) = [] ->
  exists w1 w2, m w = (Ret TB_OK, w1) /\ out_flush w1 = (Ret TB_OK, w2) /\ flushed w w2 /\
    front (G w2) = front (G w) /\ (m >>! (out_flush >>! k)) w = k w2.
Proof.
  intros Hm Hc Hr Hs. destruct (Hm w Hc Hr) as (w1 & E1 & (He & HT & HX & Hw1 & _) & Hf1).
  destruct (out_flush_calm w1 Hw1) as (b & E2 & Hwb & Hb); [by rewrite HT|].
  eexists w1, _. split; [done|]. split; [exact E2|]. split; [|split].
  - split; [exact He|]. split; [exact HX|]. split; [done|]. split; [done|].
    cbn [T]. rewrite HT. by eexists.
  - exact Hf1.
  - unfold if_err_return. mrun E1. change (negb (TB_OK =? TB_OK)) with false. cbv iota. by mrun E2.
Qed.

Lemma send_clear_spec C w :
  caps (G w) = C -> caps_full C -> room w (clear_cost C) -> s_write (T w) = [] ->
  exists w', send_clear w = (Ret TB_OK, w') /\ flushed w w' /\ front (G w') = front (G w).
Proof.
  intros Hc HC Hr Hs. unfold send_clear. mrun (eq_refl : gets G w = (Ret (G w), w)).
  pose proof (attr_cost_nonneg C). pose proof (caps_length_nonneg C).
  set (fin := upd (set_last_x (-1)) ;;; upd (set_last_y (-1)) ;;; ret TB_OK).
  destruct (draws_flush C (clear_cost C)
    (send_attr (g_fg (G w)) (g_bg (G w)) >>! (out_cap TB_CAP_CLEAR_SCREEN >>!
      send_cursor_if (cursor_x (G w)) (cursor_y (G w)))) fin w) as (w1 & w2 & _ & _ & Hfl & Hf & E);
    [|done|done|done|].
  - apply draws_seq; [lia|lia|apply draws_attr; apply HC|].
    apply draws_seq; [lia|lia|by apply draws_cap|apply draws_cursor].
  - exists (set_G (set_last_y (-1) (set_last_x (-1) (G w2))) w2).
    assert (forall (m1 m2 m3 k : M tbw Z) w, ((m1 >>! (m2 >>! m3)) >>! k) w = (m1 >>! (m2 >>! (m3 >>! k))) w)
      as Hassoc.
    { clear. intros m1 m2 m3 k w. unfold if_err_return, bind.
      destruct (m1 w) as [[r1| | |] w1]; [|done..]. destruct (negb (r1 =? TB_OK)) eqn:E1; [unfold ret; by rewrite E1|].
      destruct (m2 w1) as [[r2| | |] w2]; [|done..]. destruct (negb (r2 =? TB_OK)) eqn:E2; [unfold ret; by rewrite E2|].
      done. }
    rewrite Hassoc in E. split; [rewrite E; done|]. split; [exact Hfl|exact Hf].
Qed.

(** The buffers after a change of size: the back buffer keeps the common area,
    the front buffer is blank. *)
Definition resized (w w' : tbw) : Prop :=
  let f := g_fg (G w) in let b := g_bg (G w) in
  let W := Z.max 1 (g_width (G w)) in let H := Z.max 1 (g_height (G w)) in
  cb_wf (back (G w')) /\ cb_wf (front (G w')) /\
  cb_width (back (G w')) = W /\ cb_height (back (G w')) = H /\
  cb_width (front (G w')) = W /\ cb_height (front (G w')) = H /\
  (forall x y, in_grid W H x y -> view_at (front (G w')) x y = Some (blank f b)) /\
  (forall x y, in_grid W H x y -> view_at (back (G w')) x y =
     if cellbuf_in_bounds (back (G w)) x y then view_at (back (G w)) x y else Some (blank f b)).

Definition small (B : cellbuf) : Prop := forall l, cells B = Some l -> Forall cell_small l.

Lemma buf_op_ret is_back f w c' :
  f (g_fg (G w)) (g_bg (G w)) (buf_of is_back (G w)) (T w) = (Ret (TB_OK, c'), T w) ->
  buf_op is_back f w = (Ret TB_OK, put_buf is_back c' w).
Proof.
  intros E. unfold buf_op. mrun (eq_refl : gets G w = (Ret (G w), w)).
  mrun (tsys_ret _ _ _ _ E). by destruct is_back, w.
Qed.

Lemma resize_dims f b c w h s :
  cb_wf c -> small c -> s_alloc s = [] -> is_int (Z.max 1 w * Z.max 1 h) -> 1 <= cb_width c -> 1 <= cb_height c ->
  exists c', cellbuf_resize f b c w h s = (Ret (TB_OK, c'), s) /\ cb_wf c' /\
    cb_width c' = Z.max 1 w /\ cb_height c' = Z.max 1 h /\
    forall x y, in_grid (Z.max 1 w) (Z.max 1 h) x y -> view_at c' x y =
      if cellbuf_in_bounds c x y then view_at c x y else Some (blank f b).
Proof.
  intros Hw Hs Ha Hi H1 H2.
  destruct (cellbuf_resize_spec f b c w h s Hw Hs Ha Hi) as (c' & E & Hw' & Hd & Hv).
  assert (cb_width c' = Z.max 1 w /\ cb_height c' = Z.max 1 h) as [Ew Eh].
  { destruct Hd as [(-> & Ew & Eh)|[Ew Eh]]; lia. }
  exists c'. rewrite Ew, Eh in Hv. done.
Qed.

Lemma resize_cellbufs_spec C w :
  cb_wf (back (G w)) -> cb_wf (front (G w)) -> small (back (G w)) -> small (front (G w)) ->
  1 <= cb_width (back (G w)) -> 1 <= cb_height (back (G w)) ->
  1 <= cb_width (front (G w)) -> 1 <= cb_height (front (G w)) ->
  is_int (Z.max 1 (g_width (G w)) * Z.max 1 (g_height (G w))) ->
  caps (G w) = C -> caps_full C -> room w (clear_cost C) -> s_write (T w) = [] ->
  exists w', resize_cellbufs w = (Ret TB_OK, w') /\ resized w w' /\
    bb_bytes (g_out (G w')) = [] /\ bb_wf (g_out (G w')) /\
    set_back cellbuf_zero (erase (G w')) = set_back cellbuf_zero (erase (G w)) /\
    (exists bs, T w' = set_out (s_out (T w) ++ bs) (T w)).
Proof.
  intros HB HF SB SF B1 B2 F1 F2 Hi Hc HC Hr Hs. unfold resize_cellbufs.
  mrun (eq_refl : gets G w = (Ret (G w), w)). destruct Hr as (Hwo & Ha & Hr).
  destruct (resize_dims (g_fg (G w)) (g_bg (G w)) _ _ _ (T w) HB SB Ha Hi B1 B2)
    as (cB & EB & HwB & WB & HB' & VB).
  unfold if_err_return at 1.
  mrun (buf_op_ret true (fun f b c => cellbuf_resize f b c (g_width (G w)) (g_height (G w))) w cB EB).
  change (negb (TB_OK =? TB_OK)) with false. cbv iota. set (w1 := put_buf true cB w).
  destruct (resize_dims (g_fg (G w)) (g_bg (G w)) _ _ _ (T w) HF SF Ha Hi F1 F2)
    as (cF & EF & HwF & WF & HF' & _).
  unfold if_err_return at 1.
  mrun (buf_op_ret false (fun f b c => cellbuf_resize f b c (g_width (G w)) (g_height (G w))) w1 cF EF).
  change (negb (TB_OK =? TB_OK)) with false. cbv iota. set (w2 := put_buf false cF w1).
  destruct (cellbuf_clear_spec (g_fg (G w)) (g_bg (G w)) cF (T w) HwF) as (cE & EE & HwE & WE & HE & VE).
  unfold if_err_return at 1. mrun (buf_op_ret false cellbuf_clear w2 cE EE).
  change (negb (TB_OK =? TB_OK)) with false. cbv iota. set (w3 := put_buf false cE w2).
  destruct (send_clear_spec C w3 Hc HC) as (w4 & E4 & (He & HX & Hwb & Hbb & HT) & Hf4); [by split|done|].
  unfold if_err_return at 1. mrun E4. exists w4. split; [done|].
  assert (back (G w4) = cB) as EqB by (apply (f_equal back) in He; exact He).
  split; [|split; [done|split; [done|split; [by rewrite He|done]]]].
  unfold resized. rewrite EqB, Hf4. change (front (G w3)) with cE.
  rewrite WE, HE, WF, HF', WB, HB'. repeat (split; [done|]). split; [|exact VB].
  intros x y Hg. apply VE. rewrite WF, HF'. exact Hg.
Qed.

End Resize.

(** ** Properties *)

Lemma length_utf8 cs : (length cs <= length (utf8 cs))%nat.
Proof.
  induction cs as [|c cs IH]; [done|].
  change (utf8 (c :: cs)) with (tb_utf8_unicode_to_char c ++ utf8 cs). rewrite length_app. cbn [length].
  pose proof (utf8_first_len c) as Hf. destruct (utf8_first c) as [f0 len] eqn:E. cbn [snd] in Hf.
  pose proof (length_encoded c f0 len E ltac:(lia)). lia.
Qed.

(** [tb_print_ex] of printable codepoints and newlines puts each codepoint
    where the layout says (a newline starts the next row at the first column, a
    codepoint advances by its width), leaves the other cells alone, ignores what
    is outside the screen, and reports the width of the text on one line. *)
Theorem print_shows_text `{config} cs x y fg bg w :
  initialized (G w) = true -> cb_wf (back (G w)) ->
  in_grid (cb_width (back (G w))) (cb_height (back (G w))) x y ->
  Forall printable cs -> coords_ok x x y (Z.of_nat (length cs)) ->
  exists B', tb_print_ex x y fg bg (utf8 cs ++ [0]) w =
      (Ret (TB_OK, Some (text_width cs)), put_buf true B' w) /\
    cb_wf B' /\ buf_dims B' (back (G w)) /\
    shows_layout fg bg (layout x x y cs) (back (G w)) B'.
Proof.
  intros Hi Hw Hg Hp Hco. unfold tb_print_ex. mrun (eq_refl : gets G w = (Ret (G w), w)).
  rewrite Hi, (proj2 (in_bounds_grid _ x y) Hg). cbn [negb].
  destruct (print_loop_shows cs (length (utf8 cs ++ [0])) x x x y fg bg 0 w Hp) as (B' & E & H1).
  - rewrite length_app. pose proof (length_utf8 cs). lia.
  - done.
  - done.
  - done.
  - done.
  - unfold coords_ok, INT_MIN, INT_MAX in Hco. lia.
  - exists B'. mrun E. done.
Qed.

Lemma demo_back_wf : @cb_wf default_config demo_back.
Proof. apply (p_ok _ _ _ _ demo_presentable). Qed.

Lemma print_shows_text_witness :
  exists B', @tb_print_ex default_config 1 0 7 0 (utf8 [65; 26085; 66; 10; 67] ++ [0]) demo_screen =
      (Ret (TB_OK, Some (text_width [65; 26085; 66; 10; 67])), put_buf true B' demo_screen) /\
    @cb_wf default_config B' /\ buf_dims B' demo_back /\
    shows_layout 7 0 (layout 1 1 0 [65; 26085; 66; 10; 67]) demo_back B'.
Proof.
  apply (@print_shows_text default_config [65; 26085; 66; 10; 67] 1 0 7 0 demo_screen).
  - reflexivity.
  - exact demo_back_wf.
  - split; split; [discriminate|reflexivity|discriminate|reflexivity].
  - repeat (apply Forall_cons; split;
      [split; [split; reflexivity|first [left; reflexivity|right; vm_compute; discriminate]]|]).
    constructor.
  - repeat split; vm_compute; discriminate.
Defined.

(** Printing any string, valid UTF-8 or not, ends, reads nothing behind its
    terminator, writes inside the back buffer only, keeps its cells consistent,
    and fails only as documented: before [tb_init] and for a start outside the
    screen. *)
Theorem print_total `{config} K s rest x y fg bg w :
  cb_wf (back (G w)) -> s_alloc (T w) = [] -> clusters_le K (back (G w)) -> 2 <= K ->
  (K + Z.of_nat (length s) + 3) * 4 <= PTRDIFF_MAX ->
  Forall (fun b => b <> 0) s -> coords_ok x x y (Z.of_nat (length s)) ->
  (initialized (G w) = false ->
     tb_print x y fg bg (s ++ 0 :: rest) w = (Ret TB_ERR_NOT_INIT, w)) /\
  (initialized (G w) = true -> cellbuf_in_bounds (back (G w)) x y = false ->
     tb_print x y fg bg (s ++ 0 :: rest) w = (Ret TB_ERR_OUT_OF_BOUNDS, w)) /\
  (initialized (G w) = true -> cellbuf_in_bounds (back (G w)) x y = true ->
     exists B', tb_print x y fg bg (s ++ 0 :: rest) w = (Ret TB_OK, put_buf true B' w) /\
       cb_wf B' /\ buf_dims B' (back (G w))).
Proof.
  intros Hw Ha HK H2 Hsz Hs Hco. unfold tb_print, tb_print_ex. repeat split; intros Hi; [|intros Hb..].
  - rewrite bind_assoc. mrun (eq_refl : gets G w = (Ret (G w), w)). by rewrite Hi.
  - rewrite bind_assoc. mrun (eq_refl : gets G w = (Ret (G w), w)). by rewrite Hi, Hb.
  - rewrite bind_assoc. mrun (eq_refl : gets G w = (Ret (G w), w)). rewrite Hi, Hb. cbn [negb].
    rewrite bind_assoc.
    destruct (print_loop_total (length (s ++ 0 :: rest)) (s ++ 0 :: rest) (length s) K x x x y fg bg 0 w)
      as (B' & ow & E & HB); try done; [by apply nul_at_app|rewrite length_app; simpl; lia|].
    exists B'. mrun E. done.
Qed.

Lemma print_total_witness :
  let s := [27; 128; 10; 195; 204; 129; 65] in
  (initialized (G demo_screen) = false ->
     @tb_print default_config 1 0 7 0 (s ++ 0 :: []) demo_screen = (Ret TB_ERR_NOT_INIT, demo_screen)) /\
  (initialized (G demo_screen) = true -> cellbuf_in_bounds demo_back 1 0 = false ->
     @tb_print default_config 1 0 7 0 (s ++ 0 :: []) demo_screen =
       (Ret TB_ERR_OUT_OF_BOUNDS, demo_screen)) /\
  (initialized (G demo_screen) = true -> cellbuf_in_bounds demo_back 1 0 = true ->
     exists B', @tb_print default_config 1 0 7 0 (s ++ 0 :: []) demo_screen =
         (Ret TB_OK, put_buf true B' demo_screen) /\
       @cb_wf default_config B' /\ buf_dims B' demo_back).
Proof.
  intros s. apply (@print_total default_config 2 s [] 1 0 7 0 demo_screen).
  - exact demo_back_wf.
  - reflexivity.
  - apply (clusters_le_cells 2 demo_back _ eq_refl).
    repeat (apply Forall_cons; split; [vm_compute; discriminate|]). constructor.
  - lia.
  - vm_compute. discriminate.
  - repeat (apply Forall_cons; split; [discriminate|]). constructor.
  - repeat split; vm_compute; discriminate.
Defined.

(** [tb_set_cell_ex] changes what one cell shows: its codepoint or cluster
    and attributes, and no other cell; outside the screen, or before [tb_init],
    it reports the documented error and changes nothing. *)
Theorem set_cell_ex_correct `{config} x y l c0 nch fg bg w :
  cb_wf (back (G w)) -> s_alloc (T w) = [] -> l !! 0%nat = Some c0 -> nch <= Z.of_nat (length l) ->
  (nch + 1) * 4 <= PTRDIFF_MAX ->
  (initialized (G w) = false ->
     tb_set_cell_ex x y (Some l) nch fg bg w = (Ret TB_ERR_NOT_INIT, w)) /\
  (initialized (G w) = true -> cellbuf_in_bounds (back (G w)) x y = false ->
     tb_set_cell_ex x y (Some l) nch fg bg w = (Ret TB_ERR_OUT_OF_BOUNDS, w)) /\
  (initialized (G w) = true -> cellbuf_in_bounds (back (G w)) x y = true ->
     exists B', tb_set_cell_ex x y (Some l) nch fg bg w = (Ret TB_OK, put_buf true B' w) /\
       view_put (back (G w)) B' x y (set_view c0 fg bg l nch)).
Proof.
  intros Hw Ha H0 Hn Hsz. repeat split; intros Hi; [|intros Hb..].
  - unfold tb_set_cell_ex. by rewrite not_init.
  - unfold tb_set_cell_ex. rewrite is_init by done.
    mrun (eq_refl : glob back w = (Ret (back (G w)), w)). unfold cellbuf_get. by rewrite Hb.
  - apply in_bounds_grid in Hb. by apply set_cell_ex_spec.
Qed.

Definition lib_cells : cellbuf := demo_cells.
Definition lib_screen : tbw :=
  mk_tbw (set_back lib_cells (set_front lib_cells demo_global)) calm calm_env.

Lemma lib_cells_wf : @cb_wf lib_config lib_cells.
Proof.
  eexists. split; [reflexivity|]. do 3 (split; [done|]). split; [reflexivity|].
  repeat (apply Forall_cons; split; [done|]). apply Forall_singleton.
  split; [done|]. right. split; [done|]. split; [split; done|done].
Qed.

Lemma set_cell_ex_correct_witness :
  exists B', @tb_set_cell_ex lib_config 0 1 (Some [110; 771; 7]) 2 4 5 lib_screen =
      (Ret TB_OK, put_buf true B' lib_screen) /\
    @view_put lib_config lib_cells B' 0 1 (110, 4, 5, [110; 771]).
Proof.
  apply (@set_cell_ex_correct lib_config 0 1 [110; 771; 7] 110 2 4 5 lib_screen).
  - exact lib_cells_wf.
  - reflexivity.
  - reflexivity.
  - vm_compute. discriminate.
  - vm_compute. discriminate.
  - reflexivity.
  - reflexivity.
Defined.

(** [tb_extend_cell] appends one codepoint to the cluster of a cell, making
    a cluster of the cell's codepoint when it has none, and changes no other
    cell. *)
Theorem extend_cell_appends `{config} x y c v w :
  egc = true -> initialized (G w) = true -> cb_wf (back (G w)) -> s_alloc (T w) = [] ->
  in_grid (cb_width (back (G w))) (cb_height (back (G w))) x y ->
  view_at (back (G w)) x y = Some v -> (Z.of_nat (length (snd v)) + 3) * 4 <= PTRDIFF_MAX ->
  exists B', tb_extend_cell x y c w = (Ret TB_OK, put_buf true B' w) /\
    view_put (back (G w)) B' x y (extended v c).
Proof. apply extend_spec. Qed.

Lemma extend_cell_appends_witness :
  exists B', @tb_extend_cell lib_config 1 1 770 lib_screen = (Ret TB_OK, put_buf true B' lib_screen) /\
    @view_put lib_config lib_cells B' 1 1 (101, 3, 0, [101; 769; 770]).
Proof.
  apply (@extend_cell_appends lib_config 1 1 770 (101, 3, 0, [101; 769]) lib_screen).
  - reflexivity.
  - reflexivity.
  - exact lib_cells_wf.
  - reflexivity.
  - split; split; [discriminate|reflexivity|discriminate|reflexivity].
  - reflexivity.
  - vm_compute. discriminate.
Defined.

(** *** Modes *)

Lemma land_pow2 a k : 0 <= k -> Z.land a (2 ^ k) = if Z.testbit a k then 2 ^ k else 0.
Proof.
  intros Hk. apply Z.bits_inj'. intros n Hn. rewrite Z.land_spec, Z.pow2_bits_eqb by done.
  destruct (Z.eqb_spec k n) as [->|Hne].
  - rewrite andb_true_r. destruct (Z.testbit a n); [|by rewrite Z.bits_0].
    by rewrite Z.pow2_bits_true.
  - rewrite andb_false_r. destruct (Z.testbit a k); [|by rewrite Z.bits_0].
    by rewrite Z.pow2_bits_false.
Qed.

(** A flag is a bit. *)
Lemma has_bit a k : 0 <= k -> has a (2 ^ k) = Z.testbit a k.
Proof.
  intros Hk. unfold has. rewrite land_pow2 by done. destruct (Z.testbit a k); [|done].
  by rewrite (proj2 (Z.eqb_neq (2 ^ k) 0)) by (pose proof (Z.pow_pos_nonneg 2 k); lia).
Qed.

(** The bits of the mode [tb_set_input_mode] stores: ESC unless only ALT is
    asked for, the others as they are. *)
Definition input_bits (mode mode' : Z) : Prop :=
  Z.testbit mode' 0 = negb (Z.testbit mode 1 && negb (Z.testbit mode 0)) /\
  Z.testbit mode' 1 = Z.testbit mode 1 && negb (Z.testbit mode 0) /\
  forall k, 2 <= k -> Z.testbit mode' k = Z.testbit mode k.

Lemma input_bits_stored mode :
  input_bits mode (if Z.land mode 3 =? 0 then Z.lor mode 1
    else if Z.land mode 3 =? 3 then Z.land mode (Z.lnot 2) else mode).
Proof.
  assert (Z.land mode 3 = (if Z.testbit mode 0 then 1 else 0) + (if Z.testbit mode 1 then 2 else 0)) as ->.
  { change 3 with (Z.lor (2 ^ 0) (2 ^ 1)). rewrite Z.land_lor_distr_r, !land_pow2 by lia.
    by destruct (Z.testbit mode 0), (Z.testbit mode 1). }
  assert (forall n k, 2 <= k -> 0 <= n < 4 -> Z.testbit n k = false) as Hhigh.
  { intros n k Hk Hn. rewrite <- (Z.mod_small n (2 ^ 2)) by (simpl; lia). apply Z.mod_pow2_bits_high; lia. }
  unfold input_bits. destruct (Z.testbit mode 0) eqn:E0, (Z.testbit mode 1) eqn:E1;
    match goal with |- context [if ?b then _ else if ?c then _ else _] =>
      let b' := eval vm_compute in b in let c' := eval vm_compute in c in
      change b with b'; change c with c' end; cbv iota.
  - rewrite !Z.land_spec, !Z.lnot_spec, E0, E1 by lia. split; [done|]. split; [done|].
    intros k Hk. rewrite Z.land_spec, Z.lnot_spec, (Hhigh 2) by lia. apply andb_true_r.
  - rewrite E0, E1. done.
  - rewrite E0, E1. done.
  - rewrite !Z.lor_spec, E0, E1. split; [done|]. split; [done|].
    intros k Hk. rewrite Z.lor_spec, (Hhigh 1) by lia. apply orb_false_r.
Qed.

(** [tb_set_input_mode] stores a mode with exactly one of the escape and alt
    modes (escape unless alt alone was asked for) and the mouse bit as given,
    and turns mouse reporting of the terminal on or off accordingly. *)
Theorem input_mode_normalized mode w :
  initialized (G w) = true -> mode <> TB_INPUT_CURRENT -> s_write (T w) = [] ->
  room w 64 -> bb_bytes (g_out (G w)) = [] ->
  exists w', tb_set_input_mode mode w = (Ret TB_OK, w') /\ input_bits mode (input_mode (G w')) /\
    s_out (T w') = s_out (T w) ++
      (if Z.testbit mode 2 then TB_HARDCAP_ENTER_MOUSE else TB_HARDCAP_EXIT_MOUSE).
Proof.
  intros Hi Hm Hs Hr Hb. unfold tb_set_input_mode. rewrite is_init by done.
  rewrite (proj2 (Z.eqb_neq mode _)) by done. cbv zeta.
  change (Z.lor TB_INPUT_ESC TB_INPUT_ALT) with 3. change TB_INPUT_ESC with 1. change TB_INPUT_ALT with 2.
  pose proof (input_bits_stored mode) as Hbits. set (m := if Z.land mode 3 =? 0 then _ else _) in *.
  change TB_INPUT_MOUSE with (2 ^ 2). rewrite has_bit by lia.
  rewrite (proj2 (proj2 Hbits) 2) by lia.
  set (cap := if Z.testbit mode 2 then _ else _).
  assert (cstr cap = cap /\ (length cap <= 64)%nat) as [Hcap Hlen].
  { subst cap. destruct (Z.testbit mode 2); split; vm_compute; try reflexivity; lia. }
  destruct (emits_puts (G w) cap w eq_refl) as (b & E & Hwb & Hbb).
  { rewrite Hcap. eapply room_le; [exact Hr|lia]. }
  mrun E. destruct (out_flush_calm (put_out b w) Hwb Hs) as (b' & E2 & Hwb' & _). mrun E2.
  eexists. split; [reflexivity|]. split; [exact Hbits|].
  cbn. rewrite Hbb, Hb, Hcap. done.
Qed.

Lemma input_mode_normalized_witness :
  exists w', tb_set_input_mode 7 demo_screen = (Ret TB_OK, w') /\
    input_bits 7 (input_mode (G w')) /\ s_out (T w') = s_out (T demo_screen) ++
      (if Z.testbit 7 2 then TB_HARDCAP_ENTER_MOUSE else TB_HARDCAP_EXIT_MOUSE).
Proof.
  apply (input_mode_normalized 7 demo_screen).
  - reflexivity.
  - discriminate.
  - reflexivity.
  - split; [exact wf_zero|]. split; [reflexivity|]. vm_compute. discriminate.
  - reflexivity.
Defined.

Lemma attr_not_ne `{config} a : attr_not a <> a.
Proof.
  unfold attr_not. intros E.
  pose proof (f_equal (fun z => Z.testbit z 0) E) as E0. cbv beta in E0. unfold wrapu in E0.
  rewrite Z.mod_pow2_bits_low, Z.lnot_spec in E0 by (unfold attr_bits; destruct attr_w; lia).
  by destruct (Z.testbit a 0).
Qed.

(** [tb_set_output_mode] accepts exactly the modes the build documents; it
    then forgets the current attributes, so that the next use of the clear
    attributes is sent again in the new mode.  Other modes are refused and change
    nothing. *)
Theorem output_mode_accepts `{config} mode w :
  initialized (G w) = true -> mode <> TB_OUTPUT_CURRENT ->
  (1 <= mode <= 4 \/ mode = 5 /\ attr_w <> W16 ->
     exists w', tb_set_output_mode mode w = (Ret TB_OK, w') /\ output_mode (G w') = mode /\
       last_fg (G w') <> g_fg (G w') /\ last_bg (G w') <> g_bg (G w') /\
       back (G w') = back (G w) /\ front (G w') = front (G w) /\ T w' = T w) /\
  (~ (1 <= mode <= 4 \/ mode = 5 /\ attr_w <> W16) -> tb_set_output_mode mode w = (Ret TB_ERR, w)).
Proof.
  intros Hi Hm. unfold tb_set_output_mode. rewrite is_init by done.
  rewrite (proj2 (Z.eqb_neq mode _)) by done.
  set (ok := _ || _ || _ || _ || _).
  assert (ok = true <-> 1 <= mode <= 4 \/ mode = 5 /\ attr_w <> W16) as Hok.
  { subst ok. rewrite !orb_true_iff, andb_true_iff, !Z.eqb_eq. unfold wide_attr.
    unfold TB_OUTPUT_NORMAL, TB_OUTPUT_256, TB_OUTPUT_216, TB_OUTPUT_GRAYSCALE, TB_OUTPUT_TRUECOLOR.
    destruct attr_w; intuition (try discriminate; lia). }
  rewrite <- Hok. split.
  - intros ->. eexists. split; [reflexivity|]. cbn. split; [done|]. split; [apply attr_not_ne|].
    split; [apply attr_not_ne|]. done.
  - intros Hn. apply not_true_iff_false in Hn. by rewrite Hn.
Qed.

Lemma output_mode_accepts_witness :
  @tb_set_output_mode default_config 5 demo_screen = (Ret TB_ERR, demo_screen).
Proof.
  apply (@output_mode_accepts default_config 5 demo_screen).
  - reflexivity.
  - discriminate.
  - intros [[_ H]|[_ H]]; [apply H; reflexivity|apply H; reflexivity].
Defined.

(** After a change of size the buffers have the new size, at least one by
    one; the back buffer keeps what its common area shows, the front buffer is
    blank like the cleared terminal, and nothing is left unsent. *)
Theorem resize_cellbufs_correct `{config} C w :
  cb_wf (back (G w)) -> cb_wf (front (G w)) -> small (back (G w)) -> small (front (G w)) ->
  1 <= cb_width (back (G w)) -> 1 <= cb_height (back (G w)) ->
  1 <= cb_width (front (G w)) -> 1 <= cb_height (front (G w)) ->
  is_int (Z.max 1 (g_width (G w)) * Z.max 1 (g_height (G w))) ->
  caps (G w) = C -> caps_full C -> room w (clear_cost C) -> s_write (T w) = [] ->
  exists w', resize_cellbufs w = (Ret TB_OK, w') /\ resized w w' /\ bb_bytes (g_out (G w')) = [].
Proof.
  intros. destruct (resize_cellbufs_spec C w) as (w' & E & Hr & Hb & _); try done. by exists w'.
Qed.

Lemma resize_cellbufs_correct_witness :
  let w := set_G (set_g_width 3 (set_g_height 2 (G demo_screen))) demo_screen in
  exists w', @resize_cellbufs default_config w = (Ret TB_OK, w') /\ @resized default_config w w' /\
    bb_bytes (g_out (G w')) = [].
Proof.
  intros w. apply (@resize_cellbufs_correct default_config (Some <$> xterm_caps) w).
  - exact demo_back_wf.
  - exact (p_front _ _ _ _ demo_presentable).
  - intros l [= <-]. repeat (apply Forall_cons; split; [vm_compute; discriminate|]). constructor.
  - intros l [= <-]. repeat (apply Forall_cons; split; [vm_compute; discriminate|]). constructor.
  - vm_compute. discriminate.
  - vm_compute. discriminate.
  - vm_compute. discriminate.
  - vm_compute. discriminate.
  - split; vm_compute; discriminate.
  - reflexivity.
  - exact xterm_caps_ok.
  - split; [exact wf_zero|]. split; [reflexivity|]. vm_compute. discriminate.
  - reflexivity.
Defined.
