(* ===== verification/TbInput.v ===== *)
(** * life/termbox2.h: from input bytes to events

    The event a function fills through its pointer is passed and returned.  The
    bytes of [global.in] are read through a [char], which is signed. *)

From stdpp Require Import prelude list_numbers strings.
From Stdlib Require Import ZArith Lia.
From S2P Require Import Prelude CLib Posix TbTables TbText TbBuf TbTrie TbGlobal TbOutput TbPresent TbApi.
Open Scope Z_scope.

(** [in->buf[i]] *)
Definition in_at (i : Z) : M tbw Z :=
  let* b := glob g_in in
  let* mem := deref (bb_buf b) in
  deref (zlookup mem i).

(** [bytebuf_shift (in, n)] *)
Definition in_shift (n : Z) : M tbw unit :=
  let* b := glob g_in in
  let* b := tsys (bytebuf_shift b n) in
  upd (set_g_in b).

(** [if_ok_or_need_more_return (rv, m)] followed by [k]; the event is kept. *)
Definition if_ok_or_need_more (m : M tbw (Z * tb_event)) (k : tb_event -> M tbw (Z * tb_event)) :
    M tbw (Z * tb_event) :=
  let* ' (rv, e) := m in
  if (rv =? TB_OK) || (rv =? TB_ERR_NEED_MORE) then ret (rv, e) else k e.

Definition extract_esc_user (event : tb_event) (is_post : bool) : M tbw (Z * tb_event) :=
  let* fn := glob (if is_post then fn_extract_esc_post else fn_extract_esc_pre) in
  match fn with
  | None => ret (TB_ERR, event)
  | Some fn =>
      let '(rv, event, consumed) := fn event in
      (if rv =? TB_OK then in_shift consumed else ret tt) ;;;
      if (rv =? TB_OK) || (rv =? TB_ERR_NEED_MORE) then ret (rv, event) else ret (TB_ERR, event)
  end.

Definition extract_esc_cap (event : tb_event) : M tbw (Z * tb_event) :=
  let* b := glob g_in in
  let* root := glob g_trie in
  let* mem := deref (bb_buf b) in
  let* ' (node, depth) := deref (cap_trie_find (take (Z.to_nat (bb_len b)) mem) root) in
  if is_leaf node then
    let event := set_ev_mod (tmod node) (set_ev_key (tkey node) (set_ev_ch 0 (set_ev_type TB_EVENT_KEY event))) in
    in_shift depth ;;;
    ret (TB_OK, event)
  else if (0 <? nchildren node) && (bb_len b <=? depth) then ret (TB_ERR_NEED_MORE, event)
  else ret (TB_ERR, event).

(** The switch on the button, [b & 3]. *)
Definition mouse_key (b : Z) : Z :=
  if Z.land b 3 =? 0 then (if has b 64 then TB_KEY_MOUSE_WHEEL_UP else TB_KEY_MOUSE_LEFT)
  else if Z.land b 3 =? 1 then (if has b 64 then TB_KEY_MOUSE_WHEEL_DOWN else TB_KEY_MOUSE_MIDDLE)
  else if Z.land b 3 =? 2 then TB_KEY_MOUSE_RIGHT
  else TB_KEY_MOUSE_RELEASE.

(** [while (i < in->len && num_i < 3)]: [num] is the array up to [num_i].  The
    result is [i], [num] and [trail]; [Some None] is [return TB_ERR]; [None] is
    the overflow of an [int]. *)
Fixpoint mouse_nums (fuel : nat) (mem : list Z) (len i : Z) (num : list Z) (cur_num trail : Z) :
    option (option (Z * list Z * Z)) :=
  if (i <? len) && (Z.of_nat (length num) <? 3) then
    match fuel with
    | O => None
    | S f =>
        match zlookup mem i with
        | None => None
        | Some c =>
            let num_i := Z.of_nat (length num) in
            if (48 <=? c) && (c <=? 57) then
              match imul (if cur_num =? -1 then 0 else cur_num) 10 with
              | None => None
              | Some n =>
                  match iadd n (c - 48) with
                  | None => None
                  | Some n => mouse_nums f mem len (i + 1) num n trail
                  end
              end
            else if negb (cur_num =? -1) &&
                    (((num_i <? 2) && (c =? 59)) || ((num_i =? 2) && ((c =? 109) || (c =? 77)))) then
              mouse_nums f mem len (i + 1) (num ++ [cur_num]) (-1) c
            else Some None
        end
    end
  else Some (Some (i, num, trail)).

Definition mouse_event (key x y : Z) (motion : bool) (event : tb_event) : tb_event :=
  set_ev_xy x y
    (set_ev_mod (if motion then Z.lor (ev_mod event) TB_MOD_MOTION else ev_mod event)
      (set_ev_key key event)).

(** The case [TYPE_VT200]. *)
Definition mouse_vt200 (event : tb_event) (len : Z) : M tbw (Z * tb_event * Z) :=
  if len <? 6 then ret (TB_ERR_NEED_MORE, event, 0) else
  let* c := in_at 3 in
  let b := schar c - 32 in
  let* cx := in_at 4 in
  let* cy := in_at 5 in
  ret (TB_OK, mouse_event (mouse_key b) (cx - 33) (cy - 33) (has b 32) event, 6).

(** The cases [TYPE_1006] and [TYPE_1015]. *)
Definition mouse_numbers (event : tb_event) (mem : list Z) (len : Z) (is_1006 : bool) :
    M tbw (Z * tb_event * Z) :=
  let* r := deref (mouse_nums (Z.to_nat len) mem len (if is_1006 then 3 else 2) [] (-1) 32) in
  match r with
  | None => ret (TB_ERR, event, 0)
  | Some (i, num, trail) =>
      match num with
      | [n0; n1; n2] =>
          let b := if is_1006 then n0 else n0 - 32 in
          let key := if trail =? 109 then TB_KEY_MOUSE_RELEASE else mouse_key b in
          ret (TB_OK,
            mouse_event key (if n1 - 1 <? 0 then 0 else n1 - 1) (if n2 - 1 <? 0 then 0 else n2 - 1)
              (has b 32) event, i)
      | _ => ret (TB_ERR_NEED_MORE, event, 0)
      end
  end.

Definition extract_esc_mouse (event : tb_event) : M tbw (Z * tb_event) :=
  let* b := glob g_in in
  let len := bb_len b in
  if len <? 2 then ret (TB_ERR_NEED_MORE, event) else
  let* c1 := in_at 1 in
  if negb (c1 =? 91) then ret (TB_ERR, event) else
  if len <? 3 then ret (TB_ERR_NEED_MORE, event) else
  let* c2 := in_at 2 in
  let* mem := deref (bb_buf b) in
  let* ' (rv, event, buf_shift) :=
    (if c2 =? 77 then mouse_vt200 event len else mouse_numbers event mem len (c2 =? 60)) in
  if negb (rv =? TB_OK) then ret (rv, event) else
  (if 0 <? buf_shift then in_shift buf_shift else ret tt) ;;;
  ret (TB_OK, set_ev_type TB_EVENT_MOUSE event).

Definition extract_esc (event : tb_event) : M tbw (Z * tb_event) :=
  if_ok_or_need_more (extract_esc_user event false) (fun event =>
  if_ok_or_need_more (extract_esc_cap event) (fun event =>
  if_ok_or_need_more (extract_esc_mouse event) (fun event =>
  if_ok_or_need_more (extract_esc_user event true) (fun event =>
  ret (TB_ERR, event))))).

(** What follows the test for an escape sequence. *)
Definition extract_char (event : tb_event) (len c0 : Z) : M tbw (Z * tb_event) :=
  let u := wrapu 16 (schar c0) in
  if (u <? TB_KEY_SPACE) || (c0 =? TB_KEY_BACKSPACE2) then
    let event := set_ev_mod (Z.lor (ev_mod event) TB_MOD_CTRL)
      (set_ev_key u (set_ev_ch 0 (set_ev_type TB_EVENT_KEY event))) in
    in_shift 1 ;;;
    ret (TB_OK, event)
  else if tb_utf8_char_length c0 <=? len then
    let* b := glob g_in in
    let* mem := deref (bb_buf b) in
    let* ' (_, out) := deref (tb_utf8_char_to_unicode mem) in
    let event := set_ev_key 0
      (set_ev_ch (default (ev_ch event) out) (set_ev_type TB_EVENT_KEY event)) in
    in_shift (tb_utf8_char_length c0) ;;;
    ret (TB_OK, event)
  else ret (TB_ERR, event).

(** The recursion for the alt key takes a byte off the buffer each time. *)
Fixpoint extract_event (fuel : nat) (event : tb_event) : M tbw (Z * tb_event) :=
  let* b := glob g_in in
  let* mode := glob input_mode in
  if bb_len b =? 0 then ret (TB_ERR, event) else
  let* c0 := in_at 0 in
  if c0 =? 27 then
    let after event :=
      if has mode TB_INPUT_ESC then
        let event := set_ev_mod 0 (set_ev_key TB_KEY_ESC (set_ev_ch 0 (set_ev_type TB_EVENT_KEY event))) in
        in_shift 1 ;;;
        ret (TB_OK, event)
      else
        let event := set_ev_mod (Z.lor (ev_mod event) TB_MOD_ALT) event in
        in_shift 1 ;;;
        match fuel with O => blocked | S f => extract_event f event end in
    if has mode TB_INPUT_ESC && (bb_len b =? 1) then after event
    else if_ok_or_need_more (extract_esc event) after
  else extract_char event (bb_len b) c0.

(** With enough fuel for the buffer. *)
Definition extract (event : tb_event) : M tbw (Z * tb_event) :=
  let* b := glob g_in in extract_event (Z.to_nat (bb_len b)) event.

(** ** Lemmas *)

(** The input buffer holds [l]. *)
Definition in_ok (w : tbw) (l : list Z) : Prop := bb_wf (g_in (G w)) /\ bb_bytes (g_in (G w)) = l.

Definition put_in (b : bytebuf) (w : tbw) : tbw := set_G (set_g_in b (G w)) w.

(** [w'] is [w] after [n] bytes have been taken off the input buffer. *)
Definition eats (w : tbw) (n : Z) (w' : tbw) : Prop :=
  exists b, w' = put_in b w /\ bb_wf b /\ bb_bytes b = drop (Z.to_nat n) (bb_bytes (g_in (G w))).

Lemma in_ok_len w l : in_ok w l -> bb_len (g_in (G w)) = Z.of_nat (length l).
Proof. intros [Hw <-]. by rewrite bb_bytes_length. Qed.

Lemma in_ok_mem w l :
  in_ok w l -> l <> [] -> exists mem, bb_buf (g_in (G w)) = Some mem /\ take (length l) mem = l.
Proof.
  intros [Hw Hl] Hne. pose proof (bb_bytes_length _ Hw) as Hlen. rewrite Hl in Hlen.
  unfold bb_bytes in Hl. destruct (bb_buf (g_in (G w))) as [mem|]; [|by destruct (Z.to_nat _)].
  exists mem. split; [done|]. rewrite <- Hl at 2. cbn [default]. unfold id. f_equal. lia.
Qed.

Lemma eats_ok w n w' l : in_ok w l -> eats w n w' -> in_ok w' (drop (Z.to_nat n) l).
Proof. intros [_ Hl] (b & -> & Hw & Hb). split; [done|]. cbn. by rewrite Hb, Hl. Qed.

Lemma in_shift_spec w n :
  bb_wf (g_in (G w)) -> 0 <= n -> exists w', in_shift n w = (Ret tt, w') /\ eats w n w'.
Proof.
  intros Hw Hn. destruct (shift_spec (g_in (G w)) n (T w) Hw Hn) as (b & E & Hwb & Hb).
  exists (put_in b w). split; [|by exists b]. unfold in_shift.
  mrun (eq_refl : glob g_in w = (Ret (g_in (G w)), w)). mrun (tsys_ret _ _ _ _ E). by rewrite set_T_id.
Qed.

Lemma in_at_spec w l (i : nat) c : in_ok w l -> l !! i = Some c -> in_at (Z.of_nat i) w = (Ret c, w).
Proof.
  intros Hin Hc. destruct (in_ok_mem w l Hin) as (mem & Em & Ht); [by intros ->|].
  unfold in_at. mrun (eq_refl : glob g_in w = (Ret (g_in (G w)), w)). rewrite Em.
  mrun (eq_refl : deref (Some mem) w = (Ret mem, w)).
  rewrite zlookup_nonneg, Nat2Z.id by lia.
  assert (mem !! i = Some c) as ->; [|done].
  rewrite <- Ht in Hc. apply lookup_lt_Some in Hc as Hlt. rewrite length_take in Hlt.
  by rewrite lookup_take_lt in Hc by lia.
Qed.

Lemma extract_event_unfold fuel e w l c0 :
  in_ok w l -> l !! 0%nat = Some c0 -> c0 <> 27 ->
  extract_event fuel e w = extract_char e (Z.of_nat (length l)) c0 w.
Proof.
  intros Hin H0 Hne. assert (l <> []) as Hl by (by intros ->).
  destruct fuel; cbn [extract_event];
    mrun (eq_refl : glob g_in w = (Ret (g_in (G w)), w));
    mrun (eq_refl : glob input_mode w = (Ret (input_mode (G w)), w));
    rewrite (in_ok_len w l Hin), (proj2 (Z.eqb_neq _ 0)) by (destruct l; [done|simpl; lia]);
    mrun (in_at_spec w l 0 c0 Hin H0); by rewrite (proj2 (Z.eqb_neq c0 27)).
Qed.

(** *** Characters *)

Definition key_event (mod_ key c : Z) (e : tb_event) : tb_event :=
  set_ev_mod mod_ (set_ev_key key (set_ev_ch c (set_ev_type TB_EVENT_KEY e))).

Lemma event_char c e :
  set_ev_key 0 (set_ev_ch c (set_ev_type TB_EVENT_KEY e)) = key_event (ev_mod e) 0 c e.
Proof. by destruct e. Qed.

Lemma ctrl_test c0 : 0 <= c0 < 256 -> (wrapu 16 (schar c0) <? TB_KEY_SPACE) = (c0 <? 32).
Proof.
  intros Hc. unfold TB_KEY_SPACE. destruct (Z.ltb_spec c0 128).
  - rewrite schar_small, wrapu_id by (simpl; lia). done.
  - rewrite schar_large by lia. unfold wrapu. change (2 ^ 16) with 65536.
    rewrite <- (Z_mod_plus_full _ 1), Z.mod_small by lia.
    rewrite (proj2 (Z.ltb_ge _ _)), (proj2 (Z.ltb_ge _ _)) by lia. done.
Qed.

(** A printable character is an event with its codepoint, and takes exactly the
    bytes of its encoding. *)
Lemma extract_codepoint fuel e w c rest :
  32 <= c < 2 ^ 31 -> c <> 127 -> in_ok w (tb_utf8_unicode_to_char c ++ rest) ->
  exists w', extract_event fuel e w = (Ret (TB_OK, key_event (ev_mod e) 0 c e), w') /\
    eats w (Z.of_nat (length (tb_utf8_unicode_to_char c))) w'.
Proof.
  intros Hc Hne Hin. destruct (utf8_head c) as (b & t & Et & Hb & Hlen & Hlow & Hhigh); [lia|].
  set (n := Z.of_nat (length (tb_utf8_unicode_to_char c))) in *.
  assert ((tb_utf8_unicode_to_char c ++ rest) !! 0%nat = Some b) as H0 by (by rewrite Et).
  assert (b <> 27 /\ 32 <= b /\ b <> 127) as (Hb1 & Hb2 & Hb3).
  { destruct (decide (c < 128)); [rewrite Hlow by done|specialize (Hhigh ltac:(lia))]; lia. }
  rewrite (extract_event_unfold fuel e w _ b Hin H0 Hb1). unfold extract_char.
  rewrite ctrl_test, (proj2 (Z.ltb_ge b 32)) by lia. unfold TB_KEY_BACKSPACE2.
  rewrite (proj2 (Z.eqb_neq b 127)) by done. cbn [orb]. rewrite Hlen.
  rewrite (proj2 (Z.leb_le _ _)) by (rewrite length_app; lia).
  mrun (eq_refl : glob g_in w = (Ret (g_in (G w)), w)).
  destruct (in_ok_mem w _ Hin) as (mem & Em & Ht); [by rewrite Et|]. rewrite Em.
  mrun (eq_refl : deref (Some mem) w = (Ret mem, w)).
  assert (exists tail, mem = tb_utf8_unicode_to_char c ++ tail) as [tail Etail].
  { exists (drop (length (tb_utf8_unicode_to_char c)) mem).
    rewrite <- (take_drop (length (tb_utf8_unicode_to_char c)) mem) at 1. f_equal.
    apply (f_equal (take (length (tb_utf8_unicode_to_char c)))) in Ht.
    rewrite take_app_length, take_take, Nat.min_l in Ht by (rewrite length_app; lia). done. }
  rewrite Etail, utf8_decode_encode by lia.
  match goal with |- context [deref (Some ?p)] => mrun (eq_refl : deref (Some p) w = (Ret p, w)) end.
  destruct (in_shift_spec w n (proj1 Hin)) as (w' & E & He); [lia|]. mrun E.
  exists w'. split; [|done]. by rewrite event_char.
Qed.

Lemma extract_control fuel e w c rest :
  0 <= c < 32 \/ c = 127 -> c <> 27 -> in_ok w (c :: rest) ->
  exists w', extract_event fuel e w =
      (Ret (TB_OK, key_event (Z.lor (ev_mod e) TB_MOD_CTRL) c 0 e), w') /\ eats w 1 w'.
Proof.
  intros Hc Hne Hin. rewrite (extract_event_unfold fuel e w _ c Hin eq_refl Hne). unfold extract_char.
  rewrite ctrl_test by lia.
  assert ((c <? 32) || (c =? TB_KEY_BACKSPACE2) = true) as ->.
  { apply orb_true_iff. unfold TB_KEY_BACKSPACE2. rewrite Z.ltb_lt, Z.eqb_eq. lia. }
  destruct (in_shift_spec w 1 (proj1 Hin)) as (w' & E & He); [lia|]. mrun E.
  exists w'. split; [|done]. rewrite schar_small, wrapu_id by (simpl; lia). by destruct e.
Qed.

(** *** Escape sequences *)

Lemma cap_call w l root :
  in_ok w l -> l <> [] -> g_trie (G w) = root -> forall e,
  extract_esc_cap e w =
    match cap_trie_find l root with
    | None => (Fault, w)
    | Some (node, depth) =>
        if is_leaf node then bind (in_shift depth) (fun _ => ret (TB_OK, key_event (tmod node) (tkey node) 0 e)) w
        else if (0 <? nchildren node) && (Z.of_nat (length l) <=? depth) then (Ret (TB_ERR_NEED_MORE, e), w)
        else (Ret (TB_ERR, e), w)
    end.
Proof.
  intros Hin Hne Ht e. unfold extract_esc_cap.
  mrun (eq_refl : glob g_in w = (Ret (g_in (G w)), w)).
  mrun (eq_refl : glob g_trie w = (Ret (g_trie (G w)), w)). rewrite Ht.
  destruct (in_ok_mem w l Hin Hne) as (mem & Em & Etk). rewrite Em.
  mrun (eq_refl : deref (Some mem) w = (Ret mem, w)).
  rewrite (in_ok_len w l Hin), Nat2Z.id, Etk.
  destruct (cap_trie_find l root) as [[node depth]|]; [|done].
  mrun (eq_refl : deref (Some (node, depth)) w = (Ret (node, depth), w)).
  destruct (is_leaf node); [done|]. by destruct (_ && _).
Qed.

(** The functions a program may install with [tb_set_func] are not installed. *)
Definition no_user (w : tbw) : Prop :=
  fn_extract_esc_pre (G w) = None /\ fn_extract_esc_post (G w) = None.

Lemma user_none e is_post w : no_user w -> extract_esc_user e is_post w = (Ret (TB_ERR, e), w).
Proof.
  intros [H1 H2]. unfold extract_esc_user. destruct is_post.
  - mrun (eq_refl : glob fn_extract_esc_post w = (Ret (fn_extract_esc_post (G w)), w)). by rewrite H2.
  - mrun (eq_refl : glob fn_extract_esc_pre w = (Ret (fn_extract_esc_pre (G w)), w)). by rewrite H1.
Qed.

Lemma if_need_more_go m k (e' : tb_event) (w w' : tbw) :
  m w = (Ret (TB_ERR, e'), w') -> if_ok_or_need_more m k w = k e' w'.
Proof. intros E. unfold if_ok_or_need_more. by mrun E. Qed.

Lemma if_need_more_stop m k rv (e' : tb_event) (w w' : tbw) :
  rv = TB_OK \/ rv = TB_ERR_NEED_MORE -> m w = (Ret (rv, e'), w') ->
  if_ok_or_need_more m k w = (Ret (rv, e'), w').
Proof. intros Hrv E. unfold if_ok_or_need_more. mrun E. by destruct Hrv as [->| ->]. Qed.

Lemma if_need_more_fault m k (w w' : tbw) :
  m w = (Fault, w') -> if_ok_or_need_more m k w = (Fault, w').
Proof. intros E. unfold if_ok_or_need_more, bind. by rewrite E. Qed.

(** Where an escape sequence starts in the buffer. *)
Lemma extract_event_esc fuel e w l :
  in_ok w (27 :: l) -> l <> [] \/ has (input_mode (G w)) TB_INPUT_ESC = false ->
  extract_event fuel e w =
    if_ok_or_need_more (extract_esc e) (fun event =>
      if has (input_mode (G w)) TB_INPUT_ESC then
        bind (in_shift 1) (fun _ => ret (TB_OK, key_event 0 TB_KEY_ESC 0 event))
      else bind (in_shift 1) (fun _ => match fuel with O => blocked | S f =>
        extract_event f (set_ev_mod (Z.lor (ev_mod event) TB_MOD_ALT) event) end)) w.
Proof.
  intros Hin Hl.
  destruct fuel; cbn [extract_event];
    mrun (eq_refl : glob g_in w = (Ret (g_in (G w)), w));
    mrun (eq_refl : glob input_mode w = (Ret (input_mode (G w)), w));
    rewrite (in_ok_len w _ Hin), (proj2 (Z.eqb_neq _ 0)) by (simpl; lia);
    mrun (in_at_spec w _ 0 27 Hin eq_refl); change (27 =? 27) with true; cbv iota;
    (replace (has (input_mode (G w)) TB_INPUT_ESC && (Z.of_nat (length (27 :: l)) =? 1)) with false; [done|]);
    symmetry; apply andb_false_iff; destruct Hl as [Hl|Hl]; auto; right; apply Z.eqb_neq;
    destruct l; [done|simpl; lia|done|simpl; lia].
Qed.

(** A sequence the trie knows, whatever follows it. *)
Lemma extract_cap fuel e w q rest n key m :
  no_user w -> in_ok w (27 :: q ++ rest) -> q <> [] ->
  cap_trie_find (27 :: q ++ rest) (g_trie (G w)) = Some (n, Z.of_nat (S (length q))) ->
  meaning n = Some (key, m) ->
  exists w', extract_event fuel e w = (Ret (TB_OK, key_event m key 0 e), w') /\
    eats w (Z.of_nat (S (length q))) w'.
Proof.
  intros Hu Hin Hq Hf Hm.
  rewrite (extract_event_esc fuel e w _ Hin) by (left; by destruct q).
  unfold extract_esc.
  destruct (in_shift_spec w (Z.of_nat (S (length q))) (proj1 Hin)) as (w' & E & He); [lia|].
  exists w'. split; [|done].
  assert (extract_esc_cap e w = (Ret (TB_OK, key_event m key 0 e), w')) as Ecap.
  { rewrite (cap_call w _ _ Hin ltac:(done) eq_refl), Hf. unfold meaning in Hm.
    destruct (is_leaf n); [|done]. injection Hm as -> ->. by mrun E. }
  apply if_need_more_stop; [by left|]. rewrite (if_need_more_go _ _ _ _ _ (user_none e false w Hu)).
  apply if_need_more_stop; [by left|done].
Qed.

(** *** Sequences that are not keys *)

(** The trie of the global decodes exactly the sequences of [E]. *)
Record decodes (E : list (option (list Z) * Z * Z)) (w : tbw) : Prop := {
  d_wf : trie_wf (g_trie (G w));
  d_paths : paths_of E (g_trie (G w));
  d_meanings : meanings_of E (g_trie (G w));
  d_root : is_leaf (g_trie (G w)) = false;
  d_user : no_user w
}.

(** No sequence of [E] is a prefix of [l], and [l] is not a prefix of one. *)
Definition apart (E : list (option (list Z) * Z * Z)) (l : list Z) : Prop :=
  forall e, e ∈ E -> entry_seq e <> [] -> ~ entry_seq e `prefix_of` l /\ ~ l `prefix_of` entry_seq e.

(** The last node of a search that no sequence ends. *)
Lemma find_no_leaf E w l :
  decodes E w -> (forall x, x ∈ E -> entry_seq x <> [] -> ~ entry_seq x `prefix_of` l) ->
  exists k n, cap_trie_find l (g_trie (G w)) = Some (n, Z.of_nat k) /\ (k <= length l)%nat /\
    walk (g_trie (G w)) (take k l) = Some n /\ is_leaf n = false.
Proof.
  intros [Hw Hp Hm Hr Hu] Ha. unfold cap_trie_find.
  destruct (find_loop_spec l (g_trie (G w)) 0 Hw) as (k & n & -> & Hk & Hwk & _).
  exists k, n. split; [by rewrite Z.add_0_l|]. split; [done|]. split; [done|].
  destruct (is_leaf n) eqn:El; [|done]. exfalso. destruct k as [|k].
  - simpl in Hwk. injection Hwk as <-. congruence.
  - assert (take (S k) l <> []) as Ht by (destruct l; [simpl in Hk; lia|done]).
    pose proof (Hm _ Ht) as HE. unfold trie_lookup in HE. rewrite Hwk in HE.
    unfold meaning in HE. rewrite El in HE. symmetry in HE.
    apply first_entry_in in HE as (x & Hx & Hs & _); [|done].
    apply (Ha x Hx); [by rewrite Hs|]. rewrite Hs.
    exists (drop (S k) l). by rewrite take_drop.
Qed.

Lemma cap_apart E w l e :
  decodes E w -> apart E l -> in_ok w l -> l <> [] -> extract_esc_cap e w = (Ret (TB_ERR, e), w).
Proof.
  intros Hd Ha Hin Hl. rewrite (cap_call w l _ Hin Hl eq_refl).
  destruct (find_no_leaf E w l Hd) as (k & n & -> & Hk & Hwk & ->); [intros x Hx Hne; by apply Ha|].
  assert (k <> length l) as Hne.
  { intros ->. rewrite take_ge in Hwk by lia.
    destruct (proj1 (d_paths _ _ Hd l Hl)) as (x & Hx & Hpre); [by rewrite Hwk|].
    destruct (Ha x Hx) as [_ H]; [|done]. intros E0. rewrite E0 in Hpre. by apply prefix_nil_inv in Hpre. }
  rewrite (proj2 (Z.leb_gt _ _)), andb_false_r by lia. done.
Qed.

(** No sequence is a prefix of [l]: [l] is not a key yet. *)
Lemma cap_not_yet E w l e :
  decodes E w -> (forall x, x ∈ E -> entry_seq x <> [] -> ~ entry_seq x `prefix_of` l) ->
  in_ok w l -> l <> [] ->
  exists rv, (rv = TB_ERR \/ rv = TB_ERR_NEED_MORE) /\ extract_esc_cap e w = (Ret (rv, e), w).
Proof.
  intros Hd Ha Hin Hl. rewrite (cap_call w l _ Hin Hl eq_refl).
  destruct (find_no_leaf E w l Hd Ha) as (k & n & -> & _ & _ & ->).
  destruct (_ && _); eexists; (split; [|reflexivity]); auto.
Qed.

(** A sequence that only the mouse decoder takes. *)
Lemma extract_mouse E fuel e w l rv e' w' :
  decodes E w -> apart E (27 :: l) -> in_ok w (27 :: l) -> l <> [] ->
  extract_esc_mouse e w = (Ret (rv, e'), w') -> rv = TB_OK \/ rv = TB_ERR_NEED_MORE ->
  extract_event fuel e w = (Ret (rv, e'), w').
Proof.
  intros Hd Ha Hin Hl Em Hrv. rewrite (extract_event_esc fuel e w _ Hin (or_introl Hl)).
  apply if_need_more_stop; [done|]. unfold extract_esc.
  rewrite (if_need_more_go _ _ _ _ _ (user_none e false w (d_user _ _ Hd))).
  rewrite (if_need_more_go _ _ _ _ _ (cap_apart E w _ e Hd Ha Hin ltac:(done))).
  by apply if_need_more_stop.
Qed.

(** *** Mouse reports *)

Lemma mouse_nums_take fuel mem len i num cur trail :
  0 <= i -> mouse_nums fuel mem len i num cur trail =
    mouse_nums fuel (take (Z.to_nat len) mem) len i num cur trail.
Proof.
  revert i num cur trail. induction fuel as [|f IH]; intros i num cur trail Hi; [done|].
  cbn [mouse_nums]. destruct (Z.ltb_spec i len); [|done]. cbn [andb].
  destruct (_ <? 3); [|done].
  rewrite !zlookup_nonneg, lookup_take_lt by lia. destruct (mem !! Z.to_nat i) as [c|]; [|done].
  destruct ((48 <=? c) && (c <=? 57)).
  - destruct (imul _ 10) as [n|]; [|done]. destruct (iadd n _); [|done]. apply IH. lia.
  - destruct (_ && _); [|done]. apply IH. lia.
Qed.

Lemma undec_nonneg ds : Forall (fun b => isdigit b = true) ds -> 0 <= undec ds.
Proof.
  induction ds as [|x ds IH] using rev_ind; intros H; [done|].
  apply Forall_app in H as [H1 H2]. apply (proj1 (Forall_singleton _ _)) in H2. apply isdigit_spec in H2.
  rewrite undec_snoc. unfold digit_val. specialize (IH H1). lia.
Qed.

(** The digits of a number. *)
Lemma mouse_digits ds fuel l i num cur trail :
  Forall (fun b => isdigit b = true) ds -> take (length ds) (drop (Z.to_nat i) l) = ds -> 0 <= i ->
  (length num < 3)%nat -> -1 <= cur ->
  (if cur =? -1 then 0 else cur) * 10 ^ Z.of_nat (length ds) + undec ds <= INT_MAX ->
  mouse_nums (length ds + fuel) l (Z.of_nat (length l)) i num cur trail =
    mouse_nums fuel l (Z.of_nat (length l)) (i + Z.of_nat (length ds)) num
      (match ds with [] => cur | _ =>
         (if cur =? -1 then 0 else cur) * 10 ^ Z.of_nat (length ds) + undec ds end) trail.
Proof.
  intros Hds. revert i cur. induction Hds as [|d ds Hd Hds IH]; intros i cur Ht Hi Hn Hc Hb.
  { by rewrite Z.add_0_r. }
  destruct (drop (Z.to_nat i) l) as [|d' r] eqn:Er; [done|]. cbn [length take] in Ht.
  injection Ht as -> Ht.
  assert (l !! Z.to_nat i = Some d) as Hl.
  { rewrite <- (Nat.add_0_r (Z.to_nat i)), <- lookup_drop, Er. done. }
  assert (drop (Z.to_nat (i + 1)) l = r) as Er'.
  { replace (Z.to_nat (i + 1)) with (Z.to_nat i + 1)%nat by lia. by rewrite <- drop_drop, Er. }
  apply isdigit_spec in Hd as Hd'. set (v := if cur =? -1 then 0 else cur) in *.
  assert (0 <= v) as Hv by (subst v; destruct (Z.eqb_spec cur (-1)); lia).
  assert (undec (d :: ds) = (d - 48) * 10 ^ Z.of_nat (length ds) + undec ds) as Eu.
  { change (d :: ds) with ([d] ++ ds). rewrite undec_app. by unfold undec at 1. }
  assert (10 ^ Z.of_nat (length (d :: ds)) = 10 * 10 ^ Z.of_nat (length ds)) as Ep.
  { cbn [length]. rewrite Nat2Z.inj_succ, Z.pow_succ_r by lia. done. }
  rewrite Eu, Ep in Hb.
  assert (1 <= 10 ^ Z.of_nat (length ds)) as Hp by (pose proof (Z.pow_pos_nonneg 10 (Z.of_nat (length ds))); lia).
  pose proof (undec_nonneg ds Hds) as Hu.
  assert (v * 10 + (d - 48) <= INT_MAX) as Hstep by nia.
  change (length (d :: ds) + fuel)%nat with (S (length ds + fuel)). cbn [mouse_nums].
  apply lookup_lt_Some in Hl as Hlt.
  rewrite (proj2 (Z.ltb_lt i _)), (proj2 (Z.ltb_lt (Z.of_nat (length num)) 3)) by lia. cbn [andb].
  rewrite zlookup_nonneg, Hl by done.
  rewrite (proj2 (Z.leb_le 48 d)), (proj2 (Z.leb_le d 57)) by lia. cbn [andb]. fold v.
  unfold imul, iadd. unfold is_int, INT_MIN, INT_MAX in *.
  rewrite decide_True by lia. rewrite decide_True by lia.
  rewrite IH; [|by rewrite Er'|lia|done|lia|].
  - rewrite (proj2 (Z.eqb_neq _ (-1))) by lia. rewrite Eu, Ep.
    replace (i + 1 + Z.of_nat (length ds)) with (i + Z.of_nat (length (d :: ds))) by (simpl; lia).
    f_equal. destruct ds as [|x ds']; [|lia]. change (Z.of_nat (length [])) with 0.
    change (undec []) with 0. lia.
  - rewrite (proj2 (Z.eqb_neq _ (-1))) by lia. lia.
Qed.

(** A number and the character after it. *)
Lemma mouse_number pre n c r fuel num trail :
  0 <= n <= INT_MAX -> (length num < 3)%nat ->
  ((length num < 2)%nat /\ c = 59 \/ length num = 2%nat /\ (c = 109 \/ c = 77)) ->
  let l := pre ++ udec n ++ c :: r in
  mouse_nums (length (udec n) + S fuel) l (Z.of_nat (length l)) (Z.of_nat (length pre)) num (-1) trail =
    mouse_nums fuel l (Z.of_nat (length l)) (Z.of_nat (length (pre ++ udec n ++ [c]))) (num ++ [n]) (-1) c.
Proof.
  intros Hn Hnum Hc l. assert (drop (length pre) l = udec n ++ c :: r) as Hd by apply drop_app_length.
  rewrite mouse_digits; [|apply udec_digits; lia| |lia|done|lia|].
  - change (-1 =? -1) with true. cbv iota. rewrite Z.mul_0_l, Z.add_0_l, undec_udec by lia.
    assert (match udec n with [] => -1 | _ => n end = n) as ->
      by (pose proof (udec_nonnil n); by destruct (udec n)).
    cbn [mouse_nums]. set (i := Z.of_nat (length pre) + Z.of_nat (length (udec n))).
    assert (l !! Z.to_nat i = Some c) as Hl.
    { subst l. rewrite app_assoc. replace (Z.to_nat i) with (length (pre ++ udec n))
        by (rewrite length_app; lia). by apply list_lookup_middle. }
    apply lookup_lt_Some in Hl as Hlt.
    rewrite (proj2 (Z.ltb_lt i _)), (proj2 (Z.ltb_lt (Z.of_nat (length num)) 3)) by lia. cbn [andb].
    rewrite zlookup_nonneg, Hl by lia.
    assert ((48 <=? c) && (c <=? 57) = false) as ->
      by (destruct Hc as [[_ ->]|[_ [->| ->]]]; reflexivity).
    rewrite (proj2 (Z.eqb_neq n (-1))) by lia. cbn [negb andb].
    assert (((Z.of_nat (length num) <? 2) && (c =? 59)
      || (Z.of_nat (length num) =? 2) && ((c =? 109) || (c =? 77))) = true) as ->.
    { destruct Hc as [[H ->]|[-> [->| ->]]]; [|reflexivity|reflexivity].
      by rewrite (proj2 (Z.ltb_lt _ 2)) by lia. }
    f_equal. rewrite !length_app. simpl. lia.
  - rewrite Nat2Z.id, Hd. apply take_app_length.
  - change (-1 =? -1) with true. cbv iota. rewrite undec_udec; lia.
Qed.

(** The three numbers of a report. *)
Lemma mouse_three pre b x y c r fuel :
  0 <= b <= INT_MAX -> 0 <= x <= INT_MAX -> 0 <= y <= INT_MAX -> c = 109 \/ c = 77 ->
  let l := pre ++ udec b ++ 59 :: udec x ++ 59 :: udec y ++ c :: r in
  (length l <= fuel)%nat ->
  mouse_nums fuel l (Z.of_nat (length l)) (Z.of_nat (length pre)) [] (-1) 32 =
    Some (Some (Z.of_nat (length (pre ++ udec b ++ 59 :: udec x ++ 59 :: udec y ++ [c])), [b; x; y], c)).
Proof.
  intros Hb Hx Hy Hc l Hf.
  assert (length l = length pre + (length (udec b) + S (length (udec x) + S (length (udec y) + S (length r)))))%nat
    as Hlen by (subst l; rewrite !length_app; simpl; rewrite !length_app; simpl; rewrite !length_app; done).
  replace fuel with (length (udec b) + S (length (udec x) + S (length (udec y) + S
    (fuel - length (udec b) - length (udec x) - length (udec y) - 3))))%nat by lia.
  pose proof (mouse_number pre b 59 (udec x ++ 59 :: udec y ++ c :: r)) as H1. cbv zeta in H1. subst l.
  rewrite H1 by (simpl; lia || (left; split; [simpl; lia|done])).
  assert (pre ++ udec b ++ 59 :: udec x ++ 59 :: udec y ++ c :: r =
    (pre ++ udec b ++ [59]) ++ udec x ++ 59 :: udec y ++ c :: r) as -> by (by rewrite <- !app_assoc).
  pose proof (mouse_number (pre ++ udec b ++ [59]) x 59 (udec y ++ c :: r)) as H2. cbv zeta in H2.
  rewrite H2 by (simpl; lia || (left; split; [simpl; lia|done])).
  assert ((pre ++ udec b ++ [59]) ++ udec x ++ 59 :: udec y ++ c :: r =
    ((pre ++ udec b ++ [59]) ++ udec x ++ [59]) ++ udec y ++ c :: r) as -> by (by rewrite <- !app_assoc).
  pose proof (mouse_number ((pre ++ udec b ++ [59]) ++ udec x ++ [59]) y c r) as H3. cbv zeta in H3.
  rewrite H3 by (simpl; lia || (right; split; [done|done])).
  assert (((pre ++ udec b ++ [59]) ++ udec x ++ [59]) ++ udec y ++ [c] =
    pre ++ udec b ++ 59 :: udec x ++ 59 :: udec y ++ [c]) as -> by (by rewrite <- !app_assoc).
  match goal with |- mouse_nums ?f _ _ _ _ _ _ = _ => generalize f end.
  intros f. destruct f; cbn [mouse_nums]; by rewrite andb_false_r.
Qed.

(** The mouse protocols of xterm (X10 and 1006) and urxvt (1015). *)
Inductive button := Left_button | Middle_button | Right_button | Wheel_up | Wheel_down.

Record report := {
  rp_button : button; rp_released : bool; rp_motion : bool;
  rp_shift : bool; rp_meta : bool; rp_ctrl : bool; rp_x : Z; rp_y : Z
}.

Definition button_code (b : button) : Z :=
  match b with
  | Left_button => 0 | Middle_button => 1 | Right_button => 2 | Wheel_up => 64 | Wheel_down => 65
  end.

(** [low] is the number of the button. *)
Definition state_code (low : Z) (r : report) : Z :=
  low + (if rp_shift r then 4 else 0) + (if rp_meta r then 8 else 0) + (if rp_ctrl r then 16 else 0)
  + (if rp_motion r then 32 else 0).

(** The older protocols only say that some button was released. *)
Definition old_code (r : report) : Z :=
  state_code (if rp_released r then 3 else button_code (rp_button r)) r.

Inductive protocol := X10 | Xterm1006 | Urxvt1015.
#[export] Instance protocol_dec : EqDecision protocol.
Proof. solve_decision. Defined.

Definition encode_report (p : protocol) (r : report) : list Z :=
  match p with
  | X10 => [27; 91; 77; 32 + old_code r; 33 + rp_x r; 33 + rp_y r]
  | Xterm1006 => [27; 91; 60] ++ udec (state_code (button_code (rp_button r)) r) ++ 59 :: udec (1 + rp_x r)
      ++ 59 :: udec (1 + rp_y r) ++ [if rp_released r then 109 else 77]
  | Urxvt1015 => [27; 91] ++ udec (32 + old_code r) ++ 59 :: udec (1 + rp_x r) ++ 59 :: udec (1 + rp_y r) ++ [77]
  end.

(** The coordinates the protocol can express. *)
Definition report_ok (p : protocol) (r : report) : Prop :=
  let m := match p with X10 => 223 | _ => INT_MAX end in 0 <= rp_x r < m /\ 0 <= rp_y r < m.

Definition report_key (r : report) : Z :=
  if rp_released r then TB_KEY_MOUSE_RELEASE else
  match rp_button r with
  | Left_button => TB_KEY_MOUSE_LEFT | Middle_button => TB_KEY_MOUSE_MIDDLE
  | Right_button => TB_KEY_MOUSE_RIGHT | Wheel_up => TB_KEY_MOUSE_WHEEL_UP
  | Wheel_down => TB_KEY_MOUSE_WHEEL_DOWN
  end.

Definition report_event (r : report) (e : tb_event) : tb_event :=
  set_ev_type TB_EVENT_MOUSE (mouse_event (report_key r) (rp_x r) (rp_y r) (rp_motion r) e).

Lemma old_code_range r : 0 <= old_code r < 126.
Proof. destruct r as [[] [] [] [] [] [] x y]; vm_compute; intuition congruence. Qed.

Lemma state_code_range r : 0 <= state_code (button_code (rp_button r)) r < 126.
Proof. destruct r as [[] b [] [] [] [] x y]; vm_compute; intuition congruence. Qed.

Lemma old_code_key r : mouse_key (old_code r) = report_key r /\ has (old_code r) 32 = rp_motion r.
Proof. by destruct r as [[] [] [] [] [] [] x y]. Qed.

Lemma old_code_char r :
  mouse_key (schar (32 + old_code r) - 32) = report_key r /\ has (schar (32 + old_code r) - 32) 32 = rp_motion r.
Proof. by destruct r as [[] [] [] [] [] [] x y]. Qed.

Lemma state_code_key r :
  (if rp_released r then TB_KEY_MOUSE_RELEASE else mouse_key (state_code (button_code (rp_button r)) r))
    = report_key r /\
  has (state_code (button_code (rp_button r)) r) 32 = rp_motion r.
Proof. by destruct r as [[] [] [] [] [] [] x y]. Qed.

Definition report_head (p : protocol) (r : report) : list Z :=
  match p with
  | X10 => [27; 91; 77]
  | Xterm1006 => [27; 91; 60]
  | Urxvt1015 => [27; 91] ++ udec (32 + old_code r) ++ [59]
  end.

Definition apartb (E : list (option (list Z) * Z * Z)) (l : list Z) : bool :=
  forallb (fun e => bool_decide (entry_seq e = []) ||
    negb (bool_decide (entry_seq e `prefix_of` l)) && negb (bool_decide (l `prefix_of` entry_seq e))) E.

Lemma apartb_correct E l r : apartb E l = true -> apart E (l ++ r).
Proof.
  unfold apartb. rewrite forallb_forall. intros H e He Hne.
  specialize (H e (proj1 (list_elem_of_In _ _) He)). rewrite bool_decide_false in H by done.
  cbn [orb] in H. apply andb_true_iff in H as [H1 H2].
  apply negb_true_iff, bool_decide_eq_false in H1, H2. split.
  - intros Hp. destruct (prefix_weak_total (entry_seq e) l (l ++ r) Hp ltac:(by exists r));
      contradiction.
  - intros Hp. apply H2. by eapply prefix_app_l.
Qed.

Lemma reports_apart :
  forallb (fun '(_, caps, _) => let E := term_entries caps in
    apartb E [27; 91; 77] && apartb E [27; 91; 60] &&
    forallb (fun c => apartb E ([27; 91] ++ udec (32 + Z.of_nat c) ++ [59])) (seq 0 126)) builtin_terms = true.
Proof. vm_compute. reflexivity. Qed.

Lemma report_apart name caps alias p r rest :
  (name, caps, alias) ∈ builtin_terms -> apart (term_entries caps) (encode_report p r ++ rest).
Proof.
  intros Hin. pose proof reports_apart as H. rewrite forallb_forall in H.
  specialize (H _ (proj1 (list_elem_of_In _ _) Hin)). cbn beta iota zeta in H.
  apply andb_true_iff in H as [[H1 H2]%andb_true_iff H3].
  assert (exists t, encode_report p r = report_head p r ++ t) as [t ->].
  { destruct p; cbn [encode_report report_head]; [by exists [32 + old_code r; 33 + rp_x r; 33 + rp_y r]|by eexists|].
    eexists. rewrite <- !app_assoc. reflexivity. }
  rewrite <- app_assoc. apply apartb_correct. destruct p; [done|done|].
  cbn [report_head]. rewrite forallb_forall in H3. pose proof (old_code_range r).
  specialize (H3 (Z.to_nat (old_code r))). rewrite Z2Nat.id in H3 by lia.
  apply H3, in_seq. lia.
Qed.

(** What [mouse_numbers] reads from a report whose numbers are [b], [x], [y]. *)
Lemma mouse_numbers_spec e w pre b x y c r (is_1006 : bool) mem :
  let l := pre ++ udec b ++ 59 :: udec x ++ 59 :: udec y ++ c :: r in
  0 <= b <= INT_MAX -> 1 <= x <= INT_MAX -> 1 <= y <= INT_MAX -> c = 109 \/ c = 77 ->
  take (length l) mem = l -> Z.of_nat (length pre) = (if is_1006 then 3 else 2) ->
  let v := if is_1006 then b else b - 32 in
  mouse_numbers e mem (Z.of_nat (length l)) is_1006 w =
    (Ret (TB_OK, mouse_event (if c =? 109 then TB_KEY_MOUSE_RELEASE else mouse_key v) (x - 1) (y - 1) (has v 32) e,
       Z.of_nat (length (pre ++ udec b ++ 59 :: udec x ++ 59 :: udec y ++ [c]))), w).
Proof.
  intros l Hb Hx Hy Hc Hm Hp v. unfold mouse_numbers. rewrite <- Hp.
  rewrite mouse_nums_take, !Nat2Z.id, Hm by lia.
  pose proof (mouse_three pre b x y c r (length l) Hb ltac:(lia) ltac:(lia) Hc (le_n _)) as E.
  cbv zeta in E. fold l in E. rewrite E.
  match goal with |- bind (deref (Some ?p)) _ _ = _ => mrun (eq_refl : deref (Some p) w = (Ret p, w)) end.
  cbv beta iota zeta. rewrite (proj2 (Z.ltb_ge (x - 1) 0)), (proj2 (Z.ltb_ge (y - 1) 0)) by lia. done.
Qed.

Lemma esc_mouse_call e w l c0 c2 t :
  l = c0 :: 91 :: c2 :: t -> in_ok w l ->
  exists mem, take (length l) mem = l /\
  extract_esc_mouse e w =
    bind (if c2 =? 77 then mouse_vt200 e (Z.of_nat (length l))
          else mouse_numbers e mem (Z.of_nat (length l)) (c2 =? 60))
      (fun ' (rv, event, buf_shift) =>
        if negb (rv =? TB_OK) then ret (rv, event) else
        bind (if 0 <? buf_shift then in_shift buf_shift else ret tt)
          (fun _ => ret (TB_OK, set_ev_type TB_EVENT_MOUSE event))) w.
Proof.
  intros El Hin. destruct (in_ok_mem w l Hin) as (mem & Em & Ht); [by subst|].
  exists mem. split; [done|]. unfold extract_esc_mouse.
  mrun (eq_refl : glob g_in w = (Ret (g_in (G w)), w)). cbv zeta. rewrite (in_ok_len w l Hin).
  rewrite (proj2 (Z.ltb_ge _ 2)) by (subst l; simpl; lia).
  mrun (in_at_spec w l 1 91 Hin ltac:(by subst)). change (negb (91 =? 91)) with false. cbv iota.
  rewrite (proj2 (Z.ltb_ge _ 3)) by (subst l; simpl; lia).
  mrun (in_at_spec w l 2 c2 Hin ltac:(by subst)). rewrite Em.
  by mrun (eq_refl : deref (Some mem) w = (Ret mem, w)).
Qed.

(** What is left when the bytes of a report have been read. *)
Lemma mouse_finish e e' w n l (m : M tbw (Z * tb_event * Z)) :
  in_ok w l -> 0 < n -> m w = (Ret (TB_OK, e', n), w) ->
  extract_esc_mouse e w = bind m
      (fun ' (rv, event, buf_shift) =>
        if negb (rv =? TB_OK) then ret (rv, event) else
        bind (if 0 <? buf_shift then in_shift buf_shift else ret tt)
          (fun _ => ret (TB_OK, set_ev_type TB_EVENT_MOUSE event))) w ->
  exists w', extract_esc_mouse e w = (Ret (TB_OK, set_ev_type TB_EVENT_MOUSE e'), w') /\ eats w n w'.
Proof.
  intros Hin Hn Em ->. destruct (in_shift_spec w n (proj1 Hin)) as (w' & E & He); [lia|].
  exists w'. split; [|done]. mrun Em. cbv beta iota.
  change (negb (TB_OK =? TB_OK)) with false. cbv iota.
  rewrite (proj2 (Z.ltb_lt 0 n)) by done. by mrun E.
Qed.

Lemma report_split (pre u v z : list Z) c rest :
  (pre ++ u ++ 59 :: v ++ 59 :: z ++ [c]) ++ rest = pre ++ u ++ 59 :: v ++ 59 :: z ++ c :: rest.
Proof.
  rewrite <- !app_assoc. do 2 f_equal. cbn [app]. f_equal. rewrite <- app_assoc. f_equal. cbn [app].
  f_equal. by rewrite <- app_assoc.
Qed.

Lemma esc_mouse_report p r e w rest :
  report_ok p r -> in_ok w (encode_report p r ++ rest) ->
  exists w', extract_esc_mouse e w = (Ret (TB_OK, report_event r e), w') /\
    eats w (Z.of_nat (length (encode_report p r))) w'.
Proof.
  intros [Hx Hy] Hin. pose proof (old_code_range r) as Ho. pose proof (state_code_range r) as Hs.
  assert (exists t, encode_report p r ++ rest = 27 :: 91 ::
    (match p with X10 => 77 | Xterm1006 => 60 | Urxvt1015 => nth 0 (udec (32 + old_code r)) 0 end) :: t)
    as [t Et].
  { destruct p; [by eexists|by eexists|]. cbn [encode_report nth].
    destruct (udec_head (32 + old_code r)) as (d & ds & -> & _); [lia|]. by eexists. }
  destruct (esc_mouse_call e w _ _ _ _ Et Hin) as (mem & Ht & E).
  eapply mouse_finish; [exact Hin|destruct p; simpl; lia| |exact E]. clear E t Et.
  destruct p; cbn [encode_report] in *.
  - change (77 =? 77) with true. cbv iota. unfold mouse_vt200.
    rewrite (proj2 (Z.ltb_ge _ 6)) by (rewrite length_app; simpl; lia).
    mrun (in_at_spec w _ 3 _ Hin eq_refl). mrun (in_at_spec w _ 4 _ Hin eq_refl).
    mrun (in_at_spec w _ 5 _ Hin eq_refl).
    destruct (old_code_char r) as [Hk Hm]. unfold report_event. rewrite Hk, Hm.
    replace (33 + rp_x r - 33) with (rp_x r) by lia. by replace (33 + rp_y r - 33) with (rp_y r) by lia.
  - change (60 =? 77) with false. change (60 =? 60) with true. cbv iota.
    rewrite report_split in Ht |- *. cbv iota in Hx, Hy.
    rewrite (mouse_numbers_spec e w [27; 91; 60] _ _ _ _ rest true mem);
      [|unfold INT_MAX; lia|lia|lia| |done|done].
    + destruct (state_code_key r) as [Hk Hm]. unfold report_event. rewrite Hm, <- Hk.
      replace (1 + rp_x r - 1) with (rp_x r) by lia. replace (1 + rp_y r - 1) with (rp_y r) by lia.
      by destruct (rp_released r).
    + destruct (rp_released r); auto.
  - cbv iota in Hx, Hy. destruct (udec_head (32 + old_code r)) as (d & ds & Ed & Hd); [lia|].
    rewrite Ed. cbn [nth]. rewrite <- Ed.
    rewrite (proj2 (Z.eqb_neq d 77)), (proj2 (Z.eqb_neq d 60)) by lia.
    rewrite report_split in Ht |- *.
    rewrite (mouse_numbers_spec e w [27; 91] _ _ _ _ rest false mem);
      [|unfold INT_MAX; lia|lia|lia|by right|done|done].
    destruct (old_code_key r) as [Hk Hm]. unfold report_event.
    replace (32 + old_code r - 32) with (old_code r) by lia. rewrite Hk, Hm.
    replace (1 + rp_x r - 1) with (rp_x r) by lia. by replace (1 + rp_y r - 1) with (rp_y r) by lia.
Qed.

(** *** The built-in terminals *)

(** The trie of the global is the one [init_cap_trie] builds from [caps]. *)
Definition term_ready (caps : list (list Z)) (w : tbw) : Prop :=
  no_user w /\ exists s s', s_alloc s = [] /\
    init_cap_trie (Some <$> caps) trie_zero s = (Ret (TB_OK, g_trie (G w)), s').

Lemma ready_decodes name caps alias w :
  (name, caps, alias) ∈ builtin_terms -> term_ready caps w -> decodes (term_entries caps) w.
Proof.
  intros Hin [Hu (s & s' & Ha & E)]. destruct (builtin_entries _ _ _ Hin) as [_ Ho].
  destruct (init_cap_trie_spec caps s Ha Ho) as (root & E' & Hw & Hp & Hm & Hr).
  rewrite E' in E. injection E as -> _. by constructor.
Qed.

Lemma builtin_escapes_ok :
  forallb (fun '(_, caps, _) => forallb (fun e =>
    match entry_seq e with [] => true | c :: t => (c =? 27) && negb (bool_decide (t = [])) end)
    (term_entries caps)) builtin_terms = true.
Proof. vm_compute. reflexivity. Qed.

Lemma builtin_escapes name caps alias e :
  (name, caps, alias) ∈ builtin_terms -> e ∈ term_entries caps -> entry_seq e <> [] ->
  exists t, entry_seq e = 27 :: t /\ t <> [].
Proof.
  intros Hin He Hne. pose proof builtin_escapes_ok as H. rewrite forallb_forall in H.
  specialize (H _ (proj1 (list_elem_of_In _ _) Hin)). cbn beta iota in H. rewrite forallb_forall in H.
  specialize (H e (proj1 (list_elem_of_In _ _) He)). destruct (entry_seq e) as [|c t]; [done|].
  apply andb_true_iff in H as [->%Z.eqb_eq Ht%negb_true_iff%bool_decide_eq_false]. by eexists.
Qed.

(** *** Progress *)

Fixpoint digit_run (k : nat) (l : list Z) : bool :=
  match k with
  | O => true
  | S k => match l with c :: l => isdigit c && digit_run k l | [] => false end
  end.

(** No number of the input has ten digits. *)
Fixpoint short_numbers (l : list Z) : bool :=
  negb (digit_run 10 l) && match l with [] => true | _ :: l => short_numbers l end.

Lemma digit_run_snoc k l c :
  digit_run k l = true -> l !! k = Some c -> isdigit c = true -> digit_run (S k) l = true.
Proof.
  revert l. induction k as [|k IH]; intros [|d l]; try done.
  - intros _ [= ->] Hc. cbn [digit_run]. by rewrite Hc.
  - intros H Hl Hc. apply andb_true_iff in H as [Hd H]. cbn [digit_run] in Hd |- *.
    rewrite Hd. by apply IH.
Qed.

Lemma short_numbers_drop l i : short_numbers l = true -> digit_run 10 (drop i l) = false /\ short_numbers (drop i l) = true.
Proof.
  revert i. induction l as [|c l IH]; intros i H.
  - rewrite drop_nil. done.
  - cbn [short_numbers] in H. apply andb_true_iff in H as H'. destruct H' as [H1%negb_true_iff H2].
    destruct i as [|i]; [done|]. cbn [drop skipn]. by apply IH.
Qed.

(** The number read so far and the digits it was read from. *)
Definition reading (l : list Z) (i : nat) (cur : Z) : Prop :=
  cur = -1 \/ exists k, (k <= 9)%nat /\ (k <= i)%nat /\ 0 <= cur < 10 ^ Z.of_nat k /\
    digit_run k (drop (i - k) l) = true.

Lemma reading_digit l i cur c :
  short_numbers l = true -> reading l i cur -> l !! i = Some c -> isdigit c = true ->
  let v := (if cur =? -1 then 0 else cur) * 10 in
  is_int v /\ is_int (v + (c - 48)) /\ reading l (S i) (v + (c - 48)).
Proof.
  intros Hs Hr Hc Hd v. pose proof Hd as Hd'%isdigit_spec.
  assert (exists k, (k <= 9)%nat /\ (k <= i)%nat /\ 0 <= (if cur =? -1 then 0 else cur) < 10 ^ Z.of_nat k /\
    digit_run k (drop (i - k) l) = true) as (k & Hk & Hki & Hv & Hrun).
  { destruct Hr as [->|(k & Hk)]; [exists 0%nat; cbn; lia || (split; [lia|]; split; [lia|]; split; [lia|done])|].
    exists k. rewrite (proj2 (Z.eqb_neq cur (-1))) by lia. done. }
  assert (digit_run (S k) (drop (i - k) l) = true) as Hrun'.
  { eapply digit_run_snoc; [done| |done]. rewrite lookup_drop. by replace (i - k + k)%nat with i by lia. }
  assert (k <> 9)%nat as H9.
  { intros ->. rewrite (proj1 (short_numbers_drop l (i - 9) Hs)) in Hrun'. done. }
  assert (10 ^ Z.of_nat (S k) = 10 ^ Z.of_nat k * 10) as Ep
    by (rewrite Nat2Z.inj_succ, Z.pow_succ_r by lia; lia).
  assert (10 ^ Z.of_nat (S k) <= 10 ^ 9) as Hle by (apply Z.pow_le_mono_r; lia).
  change (10 ^ 9) with 1000000000 in Hle.
  unfold is_int, INT_MIN, INT_MAX. subst v. split; [lia|]. split; [lia|]. right. exists (S k).
  split; [lia|]. split; [lia|]. split; [lia|]. by replace (S i - S k)%nat with (i - k)%nat by lia.
Qed.

Lemma mouse_nums_total fuel l (i : nat) num cur trail :
  short_numbers l = true -> (length l <= i + fuel)%nat -> (i <= length l)%nat -> reading l i cur ->
  exists r, mouse_nums fuel l (Z.of_nat (length l)) (Z.of_nat i) num cur trail = Some r /\
    forall i' num' t, r = Some (i', num', t) -> Z.of_nat i <= i' <= Z.of_nat (length l).
Proof.
  intros Hs. revert i num cur trail. induction fuel as [|f IH]; intros i num cur trail Hf Hi Hr;
    cbn [mouse_nums].
  { rewrite (proj2 (Z.ltb_ge _ _)) by lia. eexists. split; [done|]. intros ??? [= <- _ _]. lia. }
  destruct (Z.ltb_spec (Z.of_nat i) (Z.of_nat (length l))); cbn [andb];
    [|eexists; split; [done|]; intros ??? [= <- _ _]; lia].
  destruct (_ <? 3); [|eexists; split; [done|]; intros ??? [= <- _ _]; lia].
  rewrite zlookup_nonneg, Nat2Z.id by lia.
  destruct (lookup_lt_is_Some_2 l i) as [c Hc]; [lia|]. rewrite Hc.
  assert (forall num' cur' t', reading l (S i) cur' ->
    exists r, mouse_nums f l (Z.of_nat (length l)) (Z.of_nat i + 1) num' cur' t' = Some r /\
      forall i' n' t, r = Some (i', n', t) -> Z.of_nat i <= i' <= Z.of_nat (length l)) as Hnext.
  { intros num' cur' t' Hr'. destruct (IH (S i) num' cur' t') as (r & E & H'); [lia|lia|done|].
    replace (Z.of_nat i + 1) with (Z.of_nat (S i)) by lia. exists r. split; [done|].
    intros i' n' t E'. specialize (H' _ _ _ E'). lia. }
  destruct ((48 <=? c) && (c <=? 57)) eqn:Ed.
  - destruct (reading_digit l i cur c Hs Hr Hc Ed) as (H1 & H2 & H3).
    unfold imul, iadd. rewrite decide_True by done. rewrite decide_True by done. by apply Hnext.
  - match goal with |- context [if ?b then _ else Some None] => destruct b end;
      [apply Hnext; by left|by exists None].
Qed.

(** Either some of the [len] bytes of the buffer make an event and are taken, or
    nothing changes. *)
Definition takes (w : tbw) (len : Z) (x : outcome (Z * tb_event) * tbw) : Prop :=
  (exists e n w', x = (Ret (TB_OK, e), w') /\ 0 < n <= len /\ eats w n w') \/
  (exists rv e, x = (Ret (rv, e), w) /\ (rv = TB_ERR \/ rv = TB_ERR_NEED_MORE)).

Lemma takes_or m k w len :
  takes w len (m w) -> (forall e, takes w len (k e w)) -> takes w len (if_ok_or_need_more m k w).
Proof.
  unfold if_ok_or_need_more. intros [(e & n & w' & E & Hn & He)|(rv & e & E & Hrv)] Hk; mrun E.
  - left. by exists e, n, w'.
  - destruct Hrv as [->| ->]; [apply Hk|]. right. by exists TB_ERR_NEED_MORE, e; auto.
Qed.

Lemma cap_takes e w l :
  in_ok w l -> l <> [] -> trie_wf (g_trie (G w)) -> is_leaf (g_trie (G w)) = false ->
  takes w (Z.of_nat (length l)) (extract_esc_cap e w).
Proof.
  intros Hin Hl Hw Hr. rewrite (cap_call w l _ Hin Hl eq_refl). unfold cap_trie_find.
  destruct (find_loop_spec l (g_trie (G w)) 0 Hw) as (k & n & -> & Hk & Hwk & _).
  destruct (is_leaf n) eqn:El.
  - assert (k <> 0)%nat as H0. { intros ->. simpl in Hwk. congruence. }
    destruct (in_shift_spec w (0 + Z.of_nat k) (proj1 Hin)) as (w' & E & He); [lia|]. mrun E.
    left. eexists _, _, w'. split; [reflexivity|]. split; [|exact He]. lia.
  - right. destruct (_ && _); eexists _, _; (split; [reflexivity|auto]).
Qed.

Lemma mouse_body e w l c2 t mem c0 :
  l = c0 :: 91 :: c2 :: t -> in_ok w l -> take (length l) mem = l -> short_numbers l = true ->
  exists rv e' n,
    (if c2 =? 77 then mouse_vt200 e (Z.of_nat (length l))
     else mouse_numbers e mem (Z.of_nat (length l)) (c2 =? 60)) w = (Ret (rv, e', n), w) /\
    (rv = TB_OK /\ 0 < n <= Z.of_nat (length l) \/ rv = TB_ERR \/ rv = TB_ERR_NEED_MORE).
Proof.
  intros El Hin Ht Hs. destruct (c2 =? 77).
  - unfold mouse_vt200. destruct (Z.ltb_spec (Z.of_nat (length l)) 6) as [|H6];
      [eexists _, _, _; split; [reflexivity|auto]|].
    destruct (lookup_lt_is_Some_2 l 3) as [b3 H3]; [lia|].
    destruct (lookup_lt_is_Some_2 l 4) as [b4 H4]; [lia|].
    destruct (lookup_lt_is_Some_2 l 5) as [b5 H5]; [lia|].
    mrun (in_at_spec w l 3 b3 Hin H3). mrun (in_at_spec w l 4 b4 Hin H4). mrun (in_at_spec w l 5 b5 Hin H5).
    eexists _, _, _. split; [reflexivity|]. left. split; [done|lia].
  - unfold mouse_numbers. rewrite mouse_nums_take, !Nat2Z.id, Ht by (destruct (c2 =? 60); lia).
    set (i := if c2 =? 60 then 3%nat else 2%nat).
    replace (if c2 =? 60 then 3 else 2) with (Z.of_nat i) by (subst i; by destruct (c2 =? 60)).
    assert (i <= length l)%nat as Hi by (subst l i; destruct (c2 =? 60); simpl; lia).
    assert (0 < i)%nat as Hi0 by (subst i; destruct (c2 =? 60); lia).
    destruct (mouse_nums_total (length l) l i [] (-1) 32 Hs) as (r & Er & Hr); [lia|done|by left|].
    rewrite Er. mrun (eq_refl : deref (Some r) w = (Ret r, w)).
    destruct r as [[[i' num] tr]|]; [|eexists _, _, _; split; [reflexivity|auto]].
    specialize (Hr _ _ _ eq_refl).
    destruct num as [|n0 [|n1 [|n2 [|n3 num]]]]; eexists _, _, _; (split; [reflexivity|]); auto.
    left. split; [done|lia].
Qed.

Lemma mouse_takes e w l :
  in_ok w l -> short_numbers l = true -> takes w (Z.of_nat (length l)) (extract_esc_mouse e w).
Proof.
  intros Hin Hs.
  assert (forall rv, rv = TB_ERR \/ rv = TB_ERR_NEED_MORE -> takes w (Z.of_nat (length l)) (Ret (rv, e), w))
    as Hno by (intros rv Hrv; right; by exists rv, e).
  destruct l as [|c0 [|c1 [|c2 t]]].
  1-3: unfold extract_esc_mouse; mrun (eq_refl : glob g_in w = (Ret (g_in (G w)), w));
    cbv zeta; rewrite (in_ok_len w _ Hin); cbn [length].
  1-2: rewrite (proj2 (Z.ltb_lt _ 2)) by lia; by apply Hno; right.
  { rewrite (proj2 (Z.ltb_ge _ 2)) by lia. mrun (in_at_spec w _ 1 c1 Hin eq_refl).
    destruct (negb _); [apply Hno; by left|]. rewrite (proj2 (Z.ltb_lt _ 3)) by lia. by apply Hno; right. }
  destruct (decide (c1 = 91)) as [->|Hne].
  2: { unfold extract_esc_mouse; mrun (eq_refl : glob g_in w = (Ret (g_in (G w)), w)).
    cbv zeta; rewrite (in_ok_len w _ Hin), (proj2 (Z.ltb_ge _ 2)) by (simpl; lia).
    mrun (in_at_spec w _ 1 c1 Hin eq_refl). rewrite (proj2 (Z.eqb_neq c1 91)) by done. by apply Hno; left. }
  destruct (esc_mouse_call e w _ c0 c2 t eq_refl Hin) as (mem & Ht & ->).
  destruct (mouse_body e w _ c2 t mem c0 eq_refl Hin Ht Hs) as (rv & e' & n & E & Hrv). mrun E.
  destruct Hrv as [[-> Hn]|Hrv].
  - cbv beta iota. change (negb (TB_OK =? TB_OK)) with false. cbv iota.
    rewrite (proj2 (Z.ltb_lt 0 n)) by lia.
    destruct (in_shift_spec w n (proj1 Hin)) as (w' & E' & He); [lia|]. mrun E'.
    left. by eexists _, n, w'.
  - right. exists rv, e'. split; [|done]. by destruct Hrv as [->| ->].
Qed.

(** A buffer that holds a whole sequence is decoded. *)
Lemma utf8_within mem c0 :
  mem !! 0%nat = Some c0 -> tb_utf8_char_length c0 <= Z.of_nat (length mem) ->
  is_Some (tb_utf8_char_to_unicode mem).
Proof.
  intros H0 Hlen. unfold tb_utf8_char_to_unicode. change (zlookup mem 0) with (mem !! 0%nat).
  rewrite H0. destruct (c0 =? 0); [done|]. pose proof (utf8_length_range c0) as Hr.
  set (len := tb_utf8_char_length c0) in *. clearbody len. cbv zeta.
  destruct (zlookup_is_Some utf8_mask (len - 1)) as [mask Em]; [simpl; lia|]. rewrite Em.
  assert (forall f i r, 0 <= i -> len - i <= Z.of_nat f -> exists i' r', utf8_loop f mem i len r = Some (i', r'))
    as Hloop.
  { induction f as [|f IH]; intros i r Hi Hf; cbn [utf8_loop];
      (destruct (Z.ltb_spec i len); [|by eexists _, _]); [lia|].
    destruct (zlookup_is_Some mem i) as [b ->]; [lia|]. destruct (b =? 0); [by eexists _, _|].
    apply IH; lia. }
  destruct (Hloop 6%nat 1 (Z.land c0 mask)) as (i' & r' & ->); [lia|lia|]. by destruct (negb _).
Qed.

Lemma char_takes e w l c0 :
  in_ok w l -> l !! 0%nat = Some c0 -> takes w (Z.of_nat (length l)) (extract_char e (Z.of_nat (length l)) c0 w).
Proof.
  intros Hin H0. apply lookup_lt_Some in H0 as Hlen. unfold extract_char.
  destruct (_ || _).
  { destruct (in_shift_spec w 1 (proj1 Hin)) as (w' & E & He); [lia|]. mrun E.
    left. eexists _, 1, w'. split; [reflexivity|]. split; [lia|done]. }
  destruct (Z.leb_spec (tb_utf8_char_length c0) (Z.of_nat (length l))) as [Hle|];
    [|by right; exists TB_ERR, e; auto].
  mrun (eq_refl : glob g_in w = (Ret (g_in (G w)), w)).
  destruct (in_ok_mem w l Hin) as (mem & Em & Ht); [by intros ->|]. rewrite Em.
  mrun (eq_refl : deref (Some mem) w = (Ret mem, w)).
  destruct (utf8_within mem c0) as [[rv out] Eu].
  { rewrite <- Ht in H0. by rewrite lookup_take_lt in H0 by lia. }
  { rewrite <- Ht, length_take in Hle. lia. }
  rewrite Eu. mrun (eq_refl : deref (Some (rv, out)) w = (Ret (rv, out), w)).
  pose proof (utf8_length_range c0) as Hr.
  destruct (in_shift_spec w (tb_utf8_char_length c0) (proj1 Hin)) as (w' & E & He); [lia|]. mrun E.
  left. eexists _, _, w'. split; [reflexivity|]. split; [|exact He]. lia.
Qed.

Lemma eats_zero w : bb_wf (g_in (G w)) -> eats w 0 w.
Proof. intros Hw. exists (g_in (G w)). split; [by destruct w as [[] ?]|done]. Qed.

Lemma eats_trans w n w1 m w2 : 0 <= n -> 0 <= m -> eats w n w1 -> eats w1 m w2 -> eats w (n + m) w2.
Proof.
  intros Hn Hm (b1 & -> & _ & E1) (b2 & -> & Hb2 & E2). exists b2. split; [done|]. split; [done|].
  rewrite E2. cbn. rewrite E1, drop_drop. f_equal. lia.
Qed.

(** What [extract_event] leaves: an event takes some of the bytes, and without
    one nothing is lost but the escapes taken for the alt key. *)
Definition extracted (w : tbw) (l : list Z) (x : outcome (Z * tb_event) * tbw) : Prop :=
  exists rv e n w', x = (Ret (rv, e), w') /\ eats w n w' /\ 0 <= n <= Z.of_nat (length l) /\
    (rv = TB_OK /\ 0 < n \/
     (rv = TB_ERR \/ rv = TB_ERR_NEED_MORE) /\ take (Z.to_nat n) l = replicate (Z.to_nat n) 27 /\
       (has (input_mode (G w)) TB_INPUT_ESC = true -> n = 0)).

Lemma takes_extracted w l x : bb_wf (g_in (G w)) -> takes w (Z.of_nat (length l)) x -> extracted w l x.
Proof.
  intros Hw [(e & n & w' & -> & Hn & He)|(rv & e & -> & Hrv)].
  - exists TB_OK, e, n, w'. split; [done|]. split; [done|]. split; [lia|]. left. split; [done|lia].
  - exists rv, e, 0, w. split; [done|]. split; [by apply eats_zero|]. split; [lia|]. right. done.
Qed.

Lemma if_takes w l m k :
  bb_wf (g_in (G w)) -> takes w (Z.of_nat (length l)) (m w) -> (forall e, extracted w l (k e w)) ->
  extracted w l (if_ok_or_need_more m k w).
Proof.
  intros Hw Hm Hk. destruct Hm as [(e & n & w' & E & Hn & He)|(rv & e & E & [->| ->])].
  - apply takes_extracted; [done|]. left. exists e, n, w'. split; [|done].
    apply if_need_more_stop; [by left|done].
  - rewrite (if_need_more_go _ _ _ _ _ E). apply Hk.
  - apply takes_extracted; [done|]. right. exists TB_ERR_NEED_MORE, e. split; [|by right].
    apply if_need_more_stop; [by right|done].
Qed.

Section Total.
Variables (E : list (option (list Z) * Z * Z)).

Lemma esc_takes e w l :
  decodes E w -> in_ok w l -> l <> [] -> short_numbers l = true ->
  takes w (Z.of_nat (length l)) (extract_esc e w).
Proof.
  intros [Hw _ _ Hr Hu] Hin Hl Hs. unfold extract_esc.
  rewrite (if_need_more_go _ _ _ _ _ (user_none e false w Hu)).
  apply takes_or; [by apply cap_takes|]. intros e1. apply takes_or; [by apply mouse_takes|]. intros e2.
  rewrite (if_need_more_go _ _ _ _ _ (user_none e2 true w Hu)). right. by eexists _, _; auto.
Qed.

Lemma extract_total fuel e w l :
  decodes E w -> in_ok w l -> short_numbers l = true -> (length l <= fuel)%nat ->
  extracted w l (extract_event fuel e w).
Proof.
  revert e w l. induction fuel as [|f IH]; intros e w l Hd Hin Hs Hf.
  all: destruct l as [|c0 l].
  1, 3: cbn [extract_event]; mrun (eq_refl : glob g_in w = (Ret (g_in (G w)), w));
    mrun (eq_refl : glob input_mode w = (Ret (input_mode (G w)), w)); rewrite (in_ok_len w [] Hin);
    apply takes_extracted; [apply Hin|]; right; by eexists _, _; auto.
  { simpl in Hf. lia. }
  destruct (decide (c0 = 27)) as [->|Hne].
  2: { rewrite (extract_event_unfold (S f) e w _ c0 Hin eq_refl Hne).
    apply takes_extracted; [apply Hin|]. by apply char_takes. }
  assert (forall e', extracted w (27 :: l) ((if has (input_mode (G w)) TB_INPUT_ESC then
        bind (in_shift 1) (fun _ => ret (TB_OK, key_event 0 TB_KEY_ESC 0 e'))
      else bind (in_shift 1) (fun _ => 
        extract_event f (set_ev_mod (Z.lor (ev_mod e') TB_MOD_ALT) e'))) w)) as Hafter.
  { intros e'. destruct (in_shift_spec w 1 (proj1 Hin)) as (w1 & E1 & He1); [lia|].
    destruct (has (input_mode (G w)) TB_INPUT_ESC) eqn:Emode; mrun E1.
    - apply takes_extracted; [apply Hin|]. left. eexists _, 1, w1. split; [reflexivity|].
      split; [simpl; lia|done].
    - pose proof (eats_ok _ _ _ _ Hin He1) as Hin1. change (drop (Z.to_nat 1) (27 :: l)) with l in Hin1.
      assert (decodes E w1) as Hd1 by (destruct He1 as (b & -> & _); by destruct Hd).
      cbn [short_numbers] in Hs. apply andb_true_iff in Hs as [_ Hs].
      destruct (IH (set_ev_mod (Z.lor (ev_mod e') TB_MOD_ALT) e') w1 l Hd1 Hin1 Hs)
        as (rv & e2 & n & w2 & E2 & He2 & Hn & Hcase); [simpl in Hf; lia|].
      exists rv, e2, (1 + n), w2. split; [done|]. split; [by eapply eats_trans; [lia|lia|done|done]|].
      split; [simpl; lia|]. destruct Hcase as [[-> ?]|(Hrv & Ht & Hm)]; [left; split; [done|lia]|right].
      split; [done|]. split; [|congruence].
      replace (Z.to_nat (1 + n)) with (S (Z.to_nat n)) by lia. simpl. by rewrite Ht. }
  destruct l as [|c1 l].
  - cbn [extract_event]; mrun (eq_refl : glob g_in w = (Ret (g_in (G w)), w));
      mrun (eq_refl : glob input_mode w = (Ret (input_mode (G w)), w)).
    rewrite (in_ok_len w _ Hin). cbn [length]. change (Z.of_nat 1 =? 0) with false. cbv iota.
    mrun (in_at_spec w _ 0 27 Hin eq_refl). change (27 =? 27) with true. cbv iota.
    change (Z.of_nat 1 =? 1) with true. rewrite andb_true_r.
    destruct (has (input_mode (G w)) TB_INPUT_ESC) eqn:Em; [by apply Hafter|].
    apply if_takes; [apply Hin|by apply esc_takes|done].
  - rewrite (extract_event_esc (S f) e w _ Hin) by (by left).
    apply if_takes; [apply Hin|by apply esc_takes|done].
Qed.
End Total.

(** *** Numbers that do not fit *)

Lemma mouse_digits_overflow ds fuel l i num cur trail :
  Forall (fun b => isdigit b = true) ds -> take (length ds) (drop (Z.to_nat i) l) = ds -> 0 <= i ->
  (length num < 3)%nat -> -1 <= cur <= INT_MAX ->
  INT_MAX < (if cur =? -1 then 0 else cur) * 10 ^ Z.of_nat (length ds) + undec ds ->
  mouse_nums (length ds + fuel) l (Z.of_nat (length l)) i num cur trail = None.
Proof.
  intros Hds. revert i cur. induction Hds as [|d ds Hd Hds IH]; intros i cur Ht Hi Hn Hc Hb.
  { exfalso. revert Hb. change (undec []) with 0. simpl.
    destruct (Z.eqb_spec cur (-1)); unfold INT_MAX in *; lia. }
  destruct (drop (Z.to_nat i) l) as [|d' r] eqn:Er; [done|]. cbn [length take] in Ht.
  injection Ht as -> Ht.
  assert (l !! Z.to_nat i = Some d) as Hl.
  { rewrite <- (Nat.add_0_r (Z.to_nat i)), <- lookup_drop, Er. done. }
  assert (drop (Z.to_nat (i + 1)) l = r) as Er'.
  { replace (Z.to_nat (i + 1)) with (Z.to_nat i + 1)%nat by lia. by rewrite <- drop_drop, Er. }
  apply isdigit_spec in Hd as Hd'. set (v := if cur =? -1 then 0 else cur) in *.
  assert (0 <= v) as Hv by (subst v; destruct (Z.eqb_spec cur (-1)); lia).
  assert (undec (d :: ds) = (d - 48) * 10 ^ Z.of_nat (length ds) + undec ds) as Eu.
  { change (d :: ds) with ([d] ++ ds). rewrite undec_app. by unfold undec at 1. }
  assert (10 ^ Z.of_nat (length (d :: ds)) = 10 * 10 ^ Z.of_nat (length ds)) as Ep.
  { cbn [length]. rewrite Nat2Z.inj_succ, Z.pow_succ_r by lia. done. }
  rewrite Eu, Ep in Hb. change (length (d :: ds) + fuel)%nat with (S (length ds + fuel)). cbn [mouse_nums].
  apply lookup_lt_Some in Hl as Hlt.
  rewrite (proj2 (Z.ltb_lt i _)), (proj2 (Z.ltb_lt (Z.of_nat (length num)) 3)) by lia. cbn [andb].
  rewrite zlookup_nonneg, Hl by done.
  rewrite (proj2 (Z.leb_le 48 d)), (proj2 (Z.leb_le d 57)) by lia. cbn [andb]. fold v.
  unfold imul, iadd. case_decide as H1; [|done]. case_decide as H2; [|done].
  unfold is_int in H1, H2. apply IH; [by rewrite Er'|lia|done|lia|].
  rewrite (proj2 (Z.eqb_neq _ (-1))) by lia. lia.
Qed.

(** ** Properties *)

(** What [w] has to be for input [l]: the terminal is set up with the keys of
    [caps] and [l] is in the buffer. *)
Definition typed (caps : list (list Z)) (l : list Z) (w : tbw) : Prop := term_ready caps w /\ in_ok w l.

Lemma extract_unfold e w l : in_ok w l -> extract e w = extract_event (length l) e w.
Proof.
  intros Hin. unfold extract. mrun (eq_refl : glob g_in w = (Ret (g_in (G w)), w)).
  by rewrite (in_ok_len w l Hin), Nat2Z.id.
Qed.

(** A mouse report at the front of the buffer. *)
Lemma report_extracts name caps alias p r rest e w :
  (name, caps, alias) ∈ builtin_terms -> report_ok p r -> typed caps (encode_report p r ++ rest) w ->
  exists w', extract e w = (Ret (TB_OK, report_event r e), w') /\
    eats w (Z.of_nat (length (encode_report p r))) w'.
Proof.
  intros Ht Hr [Hw Hin]. destruct (esc_mouse_report p r e w rest Hr Hin) as (w' & E & He).
  exists w'. split; [|done]. rewrite (extract_unfold e w _ Hin).
  assert (exists t, encode_report p r ++ rest = 27 :: t /\ t <> []) as (t & Et & Htn)
    by (destruct p; eexists; (split; [reflexivity|done])).
  pose proof (report_apart name caps alias p r rest Ht) as Ha. rewrite Et in Hin, Ha |- *.
  eapply extract_mouse; [by eapply ready_decodes| |exact Hin|done|exact E|by left]. exact Ha.
Qed.

(** The loop of the numbers on a part of a report stops with the part. *)
Lemma mouse_nums_part f f' l L L' i num cur tr j nums t :
  mouse_nums f l L i num cur tr = Some (Some (j, nums, t)) -> i <= L' < j -> L' <= L ->
  (Z.to_nat (L' - i) <= f')%nat ->
  exists nums' t', mouse_nums f' l L' i num cur tr = Some (Some (L', nums', t')) /\ (length nums' < 3)%nat.
Proof.
  revert f' i num cur tr. induction f as [|f IH]; intros f' i num cur tr E Hi HL Hf; cbn [mouse_nums] in E.
  { destruct (_ && _); [done|]. injection E as -> _ _. lia. }
  destruct (Z.ltb_spec i L) as [HiL|]; cbn [andb] in E; [|injection E as -> _ _; lia].
  destruct (Z.ltb_spec (Z.of_nat (length num)) 3) as [H3|]; [|injection E as -> _ _; lia].
  destruct (decide (i = L')) as [->|Hne].
  { exists num, tr. split; [|lia]. destruct f'; cbn [mouse_nums]; by rewrite Z.ltb_irrefl. }
  destruct f' as [|f']; [lia|]. cbn [mouse_nums].
  rewrite (proj2 (Z.ltb_lt i L')), (proj2 (Z.ltb_lt (Z.of_nat (length num)) 3)) by lia. cbn [andb].
  destruct (zlookup l i) as [c|]; [|done].
  destruct ((48 <=? c) && (c <=? 57)).
  - destruct (imul _ 10) as [v|]; [|done]. destruct (iadd v _) as [v'|]; [|done].
    eapply IH; [exact E|lia|done|lia].
  - match goal with |- context [if ?b then _ else Some None] => destruct b end; [|done].
    eapply IH; [exact E|lia|done|lia].
Qed.

(** What the loop of the numbers reads from a whole report. *)
Lemma report_nums p r :
  p <> X10 -> report_ok p r ->
  let l := encode_report p r in
  exists num t, mouse_nums (length l) l (Z.of_nat (length l)) (if bool_decide (p = Xterm1006) then 3 else 2) [] (-1) 32 =
    Some (Some (Z.of_nat (length l), num, t)).
Proof.
  intros Hp [Hx Hy] l. pose proof (old_code_range r) as Ho. pose proof (state_code_range r) as Hs.
  destruct p; [done| |]; cbn [encode_report] in l; cbv iota in Hx, Hy.
  - rewrite bool_decide_true by done.
    pose proof (mouse_three [27; 91; 60] (state_code (button_code (rp_button r)) r) (1 + rp_x r) (1 + rp_y r)
      (if rp_released r then 109 else 77) [] (length l)) as E. cbv zeta in E. fold l in E.
    eexists _, _. apply E; [unfold INT_MAX; lia|lia|lia| |done]. destruct (rp_released r); auto.
  - rewrite bool_decide_false by done.
    pose proof (mouse_three [27; 91] (32 + old_code r) (1 + rp_x r) (1 + rp_y r) 77 [] (length l)) as E.
    cbv zeta in E. fold l in E. eexists _, _. apply E; [unfold INT_MAX; lia|lia|lia|by right|done].
Qed.

(** The beginning of a mouse report. *)
Lemma esc_mouse_partial p r q e w :
  report_ok p r -> q `prefix_of` encode_report p r -> q <> encode_report p r -> (1 < length q)%nat ->
  in_ok w q -> extract_esc_mouse e w = (Ret (TB_ERR_NEED_MORE, e), w).
Proof.
  intros [Hx Hy] [t Et] Hne Hlen Hin. pose proof (old_code_range r) as Ho.
  pose proof (state_code_range r) as Hs.
  assert (t <> []) as Htn by (intros ->; by rewrite app_nil_r in Et).
  assert (exists d ds, udec (32 + old_code r) = d :: ds /\ 48 <= d <= 57) as (d & ds & Ed & Hd)
    by (apply udec_head; lia).
  assert (exists c2 u, encode_report p r = 27 :: 91 :: c2 :: u /\
    c2 = match p with X10 => 77 | Xterm1006 => 60 | Urxvt1015 => d end) as (c2 & u & Eu & Ec2).
  { destruct p; cbn [encode_report]; [by eexists _, _|by eexists _, _|]. rewrite Ed. by eexists _, _. }
  rewrite Eu in Et. destruct q as [|q0 [|q1 q]]; [simpl in Hlen; lia..|].
  injection Et as <- <- Et. destruct q as [|q2 q].
  { unfold extract_esc_mouse. mrun (eq_refl : glob g_in w = (Ret (g_in (G w)), w)).
    cbv zeta. rewrite (in_ok_len w _ Hin). change (Z.of_nat (length [27; 91]) <? 2) with false. cbv iota.
    by mrun (in_at_spec w _ 1 91 Hin eq_refl). }
  injection Et as <- Et. set (l := 27 :: 91 :: c2 :: q) in *.
  destruct (esc_mouse_call e w l 27 c2 q eq_refl Hin) as (mem & Hmem & ->).
  destruct (decide (p = X10)) as [->|Hp].
  { rewrite Ec2. change (77 =? 77) with true. cbv iota. unfold mouse_vt200.
    assert (length l < 6)%nat as H6.
    { apply (f_equal length) in Eu. subst u. cbn [encode_report] in Eu. revert Eu. subst l. simpl.
      rewrite length_app. destruct t; [done|]. simpl. lia. }
    by rewrite (proj2 (Z.ltb_lt _ 6)) by lia. }
  assert ((c2 =? 77) = false /\ (c2 =? 60) = bool_decide (p = Xterm1006)) as [-> ->].
  { rewrite Ec2. destruct p; [done|by rewrite bool_decide_true|]. rewrite bool_decide_false by done.
    by rewrite (proj2 (Z.eqb_neq d 77)), (proj2 (Z.eqb_neq d 60)) by lia. }
  set (full := encode_report p r) in *. set (is_1006 := bool_decide (p = Xterm1006)).
  assert (full = l ++ t) as Efull by (rewrite Eu, Et; done).
  destruct (report_nums p r Hp) as (nums & tr & E); [done|]. fold full in E. fold is_1006 in E.
  destruct (mouse_nums_part _ (length l) full (Z.of_nat (length full)) (Z.of_nat (length l)) _ _ _ _ _ _ _ E)
    as (nums' & tr' & E' & Hn).
  - rewrite Efull, length_app. assert (length t <> 0)%nat by (by destruct t).
    subst l is_1006. case_bool_decide; simpl; lia.
  - rewrite Efull, length_app. lia.
  - subst is_1006. case_bool_decide; lia.
  - unfold mouse_numbers. rewrite mouse_nums_take, !Nat2Z.id, Hmem by (subst is_1006; case_bool_decide; lia).
    rewrite mouse_nums_take, Nat2Z.id, Efull, take_app_length in E' by (subst is_1006; case_bool_decide; lia).
    rewrite E'. rewrite !bind_assoc. match goal with |- context [deref (Some ?p)] => mrun (eq_refl : deref (Some p) w = (Ret p, w)) end.
    by destruct nums' as [|? [|? [|? ?]]]; [..|simpl in Hn; lia].
Qed.

Lemma report_partial name caps alias p r q e w :
  (name, caps, alias) ∈ builtin_terms -> report_ok p r -> q `prefix_of` encode_report p r ->
  q <> encode_report p r -> (1 < length q)%nat -> typed caps q w ->
  extract e w = (Ret (TB_ERR_NEED_MORE, e), w).
Proof.
  intros Ht Hr Hpre Hne Hlen [Hw Hin]. pose proof (ready_decodes _ _ _ _ Ht Hw) as Hd.
  assert (q <> []) as Hq by (intros ->; simpl in Hlen; lia).
  pose proof (esc_mouse_partial p r q e w Hr Hpre Hne Hlen Hin) as Em.
  assert (exists q', q = 27 :: q' /\ q' <> []) as (q' & Eq & Hq').
  { destruct Hpre as [t Et]. destruct q as [|c [|c2 q]]; [done|simpl in Hlen; lia|].
    exists (c2 :: q). destruct p; injection Et as <- _; done. }
  assert (forall x, x ∈ term_entries caps -> entry_seq x <> [] -> ~ entry_seq x `prefix_of` q) as Hno.
  { intros x Hx Hxn Hp. destruct (report_apart name caps alias p r [] Ht x Hx Hxn) as [H _].
    apply H. rewrite app_nil_r. by etransitivity. }
  rewrite (extract_unfold e w _ Hin). rewrite Eq in Hin |- *.
  rewrite (extract_event_esc _ e w _ Hin) by (by left). rewrite <- Eq in *.
  apply if_need_more_stop; [by right|]. unfold extract_esc.
  rewrite (if_need_more_go _ _ _ _ _ (user_none e false w (d_user _ _ Hd))).
  destruct (cap_not_yet _ w q e Hd Hno Hin Hq) as (rv & [->| ->] & E).
  - rewrite (if_need_more_go _ _ _ _ _ E). by apply if_need_more_stop; [right|].
  - by apply if_need_more_stop; [right|].
Qed.

(** The beginning of a character. *)
Lemma char_partial fuel e w c q :
  32 <= c < 2 ^ 31 -> q `prefix_of` tb_utf8_unicode_to_char c -> q <> tb_utf8_unicode_to_char c -> q <> [] ->
  in_ok w q -> extract_event fuel e w = (Ret (TB_ERR, e), w).
Proof.
  intros Hc [t Et] Hne Hq Hin. destruct (utf8_head c) as (b & u & Eb & Hb & Hlen & Hlow & Hhigh); [lia|].
  assert (length q < length (tb_utf8_unicode_to_char c))%nat as Hlt.
  { rewrite Et, length_app. destruct t; [by rewrite app_nil_r in Et|simpl; lia]. }
  assert (128 <= c) as H128.
  { destruct (decide (c < 128)) as [H|]; [|lia]. exfalso.
    assert (length (tb_utf8_unicode_to_char c) = 1%nat) as E1.
    { unfold tb_utf8_unicode_to_char, utf8_first. by rewrite (proj2 (Z.ltb_lt c 128)). }
    destruct q; [done|simpl in Hlt; lia]. }
  specialize (Hhigh H128). destruct q as [|b' q]; [done|].
  rewrite Eb in Et. injection Et as <- Et.
  rewrite (extract_event_unfold fuel e w _ b Hin eq_refl) by lia. unfold extract_char.
  rewrite ctrl_test, (proj2 (Z.ltb_ge b 32)) by lia. unfold TB_KEY_BACKSPACE2.
  rewrite (proj2 (Z.eqb_neq b 127)) by lia. cbn [orb].
  by rewrite (proj2 (Z.leb_gt _ _)) by lia.
Qed.

(** A key at the front of the buffer. *)
Lemma key_extracts name caps alias q rest v e w :
  (name, caps, alias) ∈ builtin_terms -> first_entry (term_entries caps) q = Some v -> q <> [] ->
  typed caps (q ++ rest) w ->
  exists w', extract e w = (Ret (TB_OK, key_event (snd v) (fst v) 0 e), w') /\ eats w (Z.of_nat (length q)) w'.
Proof.
  intros Ht. destruct (builtin_entries _ _ _ Ht) as [Hpf _]. revert v.
  intros [key m] Hv Hq [Hr Hin]. destruct (ready_decodes _ _ _ _ Ht Hr) as [Hw Hp Hm _ Hu].
  destruct (first_entry_in _ _ _ Hq Hv) as (x & Hx & Hs & _).
  destruct (builtin_escapes _ _ _ _ Ht Hx) as (t & Et & Htn); [by rewrite Hs|].
  rewrite Hs in Et.
  destruct (find_entry _ _ _ _ rest Hw Hpf Hm Hp Hq Hv) as (n & Hf & Hmean).
  rewrite (extract_unfold e w _ Hin). rewrite Et in *. by eapply extract_cap.
Qed.

(** The beginning of a key. *)
Lemma key_partial name caps alias q x e w :
  (name, caps, alias) ∈ builtin_terms -> x ∈ term_entries caps -> q `prefix_of` entry_seq x ->
  first_entry (term_entries caps) q = None -> (1 < length q)%nat -> typed caps q w ->
  extract e w = (Ret (TB_ERR_NEED_MORE, e), w).
Proof.
  intros Ht. destruct (builtin_entries _ _ _ Ht) as [Hpf _]. revert x.
  intros x Hx Hpre Hno Hlen [Hr Hin].
  destruct (ready_decodes _ _ _ _ Ht Hr) as [Hw Hp Hm _ Hu].
  assert (q <> []) as Hq by (intros ->; simpl in Hlen; lia).
  destruct (builtin_escapes _ _ _ _ Ht Hx) as (t & Et & _);
    [intros E0; rewrite E0 in Hpre; by apply prefix_nil_inv in Hpre|].
  destruct q as [|c q]; [done|].
  assert (c = 27) as -> by (rewrite Et in Hpre; by apply prefix_cons_inv_1 in Hpre).
  assert (27 :: q <> entry_seq x) as Hne by (intros E0; rewrite E0 in Hno; apply (entry_first _ _ Hx) in Hno; [done|by rewrite Et]).
  destruct (find_partial _ _ _ _ Hw Hm Hp Hq Hx Hpre Hne Hno) as (n & Hf & Hl & Hn).
  rewrite (extract_unfold e w _ Hin), (extract_event_esc _ e w q Hin)
    by (left; intros ->; simpl in Hlen; lia).
  apply if_need_more_stop; [by right|]. unfold extract_esc.
  rewrite (if_need_more_go _ _ _ _ _ (user_none e false w Hu)).
  apply if_need_more_stop; [by right|]. rewrite (cap_call w _ _ Hin Hq eq_refl), Hf, Hl.
  by rewrite (proj2 (Z.ltb_lt 0 _)), (proj2 (Z.leb_le _ _)) by lia.
Qed.

(** *** An xterm with [l] typed *)

Definition demo_trie : cap_trie :=
  match init_cap_trie (Some <$> xterm_caps) trie_zero calm with (Ret (_, root), _) => root | _ => trie_zero end.

Definition keyboard (mode : Z) (l : list Z) : tbw :=
  let b := mk_bytebuf (Some l) (Z.of_nat (length l)) (Z.of_nat (length l)) in
  mk_tbw (set_input_mode mode (set_g_trie demo_trie (set_g_in b demo_global))) calm calm_env.

Lemma demo_trie_ready : init_cap_trie (Some <$> xterm_caps) trie_zero calm = (Ret (TB_OK, demo_trie), calm).
Proof. vm_compute. reflexivity. Qed.

Lemma keyboard_typed mode l :
  l <> [] -> Z.of_nat (length l) <= PTRDIFF_MAX -> typed xterm_caps l (keyboard mode l).
Proof.
  intros Hl Hlen. split; split.
  - done.
  - exists calm, calm. split; [done|]. exact demo_trie_ready.
  - assert (0 < length l)%nat by (destruct l; [done|simpl; lia]). unfold bb_wf. simpl. lia.
  - unfold bb_bytes. simpl. rewrite Nat2Z.id. apply take_ge. lia.
Qed.

(** C28: a mouse report in any of the three protocols, whatever follows it, is
    decoded to the button, the coordinates and the motion it stands for, whatever
    the modifier keys, and exactly its bytes are taken. *)
Theorem mouse_reports_decode name caps alias p r rest e w :
  (name, caps, alias) ∈ builtin_terms -> report_ok p r -> typed caps (encode_report p r ++ rest) w ->
  exists w', extract e w = (Ret (TB_OK, report_event r e), w') /\
    eats w (Z.of_nat (length (encode_report p r))) w'.
Proof. apply report_extracts. Qed.

Definition demo_report : report :=
  {| rp_button := Wheel_down; rp_released := false; rp_motion := false;
     rp_shift := true; rp_meta := false; rp_ctrl := true; rp_x := 9; rp_y := 19 |}.

Lemma mouse_reports_decode_witness :
  let w := keyboard TB_INPUT_ESC (encode_report Urxvt1015 demo_report ++ [97]) in
  exists w', extract event_zero w = (Ret (TB_OK, report_event demo_report event_zero), w') /\
    eats w (Z.of_nat (length (encode_report Urxvt1015 demo_report))) w'.
Proof.
  intros w. apply (mouse_reports_decode (cs "xterm") xterm_caps (cs EmptyString) Urxvt1015 demo_report [97]).
  - by left.
  - split; split; vm_compute; done.
  - apply keyboard_typed; [discriminate|vm_compute; discriminate].
Defined.

(** The sequence of a key of a built-in terminal, whatever follows it, is an
    event with the key and the modifiers of that sequence, and exactly its bytes
    are taken; a proper prefix of it that is not a key itself waits for more
    input and changes nothing. *)
Theorem builtin_keys_are_events name caps alias q rest e w :
  (name, caps, alias) ∈ builtin_terms ->
  (forall v, first_entry (term_entries caps) q = Some v -> q <> [] -> typed caps (q ++ rest) w ->
     exists w', extract e w = (Ret (TB_OK, key_event (snd v) (fst v) 0 e), w') /\
       eats w (Z.of_nat (length q)) w') /\
  (forall x, x ∈ term_entries caps -> q `prefix_of` entry_seq x ->
     first_entry (term_entries caps) q = None -> (1 < length q)%nat -> typed caps q w ->
     extract e w = (Ret (TB_ERR_NEED_MORE, e), w)).
Proof.
  intros Ht. split; intros; [by eapply key_extracts|by eapply key_partial].
Qed.

(** Shift with the up arrow, and its first four bytes. *)
Lemma builtin_keys_are_events_witness :
  let q := [27; 91; 49; 59; 50; 65] in
  (exists w', extract event_zero (keyboard TB_INPUT_ESC (q ++ [97])) =
       (Ret (TB_OK, key_event TB_MOD_SHIFT TB_KEY_ARROW_UP 0 event_zero), w') /\
     eats (keyboard TB_INPUT_ESC (q ++ [97])) 6 w') /\
  extract event_zero (keyboard TB_INPUT_ESC (take 4 q)) =
    (Ret (TB_ERR_NEED_MORE, event_zero), keyboard TB_INPUT_ESC (take 4 q)).
Proof.
  intros q. split.
  - apply (proj1 (builtin_keys_are_events (cs "xterm") xterm_caps (cs EmptyString) q [97] event_zero
      (keyboard TB_INPUT_ESC (q ++ [97])) ltac:(by left)) (TB_KEY_ARROW_UP, TB_MOD_SHIFT)).
    + vm_compute. reflexivity.
    + discriminate.
    + apply keyboard_typed; [discriminate|vm_compute; discriminate].
  - apply (proj2 (builtin_keys_are_events (cs "xterm") xterm_caps (cs EmptyString) (take 4 q) [] event_zero
      (keyboard TB_INPUT_ESC (take 4 q)) ltac:(by left)) (Some q, TB_KEY_ARROW_UP, TB_MOD_SHIFT)).
    + apply (list_elem_of_lookup_2 _ 23). vm_compute. reflexivity.
    + by exists [50; 65].
    + vm_compute. reflexivity.
    + vm_compute. lia.
    + apply keyboard_typed; [discriminate|vm_compute; discriminate].
Defined.

Lemma escape_second_ok :
  forallb (fun '(_, caps, _) => forallb (fun e =>
    match entry_seq e with _ :: c :: _ => (c <? 32) || (c =? 79) || (c =? 91) | _ => true end)
    (term_entries caps)) builtin_terms = true.
Proof. vm_compute. reflexivity. Qed.

(** No key starts with an escape and a printable character other than [O] and
    the opening bracket. *)
Lemma alt_apart name caps alias b l :
  (name, caps, alias) ∈ builtin_terms -> 32 <= b -> b <> 79 -> b <> 91 ->
  apart (term_entries caps) (27 :: b :: l).
Proof.
  intros Hin H1 H2 H3 e He Hne.
  destruct (builtin_escapes _ _ _ _ Hin He Hne) as (t & Et & Htn).
  pose proof escape_second_ok as H. rewrite forallb_forall in H.
  specialize (H _ (proj1 (list_elem_of_In _ _) Hin)). cbn beta iota in H. rewrite forallb_forall in H.
  specialize (H e (proj1 (list_elem_of_In _ _) He)). rewrite Et in *.
  destruct t as [|c t]; [done|]. cbv beta iota in H.
  apply orb_true_iff in H as [[H%Z.ltb_lt|H%Z.eqb_eq]%orb_true_iff|H%Z.eqb_eq];
  split; intros Hp; apply prefix_cons_inv_2 in Hp; apply prefix_cons_inv_1 in Hp; lia.
Qed.

(** An escape before a character that starts no sequence. *)
Lemma alt_skips name caps alias fuel e w b l :
  (name, caps, alias) ∈ builtin_terms -> typed caps (27 :: b :: l) w -> 32 <= b -> b <> 79 -> b <> 91 ->
  exists w', eats w 1 w' /\
  extract_event fuel e w =
    if has (input_mode (G w)) TB_INPUT_ESC then (Ret (TB_OK, key_event 0 TB_KEY_ESC 0 e), w')
    else match fuel with O => (Blocked, w') | S f =>
      extract_event f (set_ev_mod (Z.lor (ev_mod e) TB_MOD_ALT) e) w' end.
Proof.
  intros Ht [Hr Hin] H1 H2 H3. pose proof (ready_decodes _ _ _ _ Ht Hr) as Hd.
  destruct (in_shift_spec w 1 (proj1 Hin)) as (w' & E & He); [lia|]. exists w'. split; [done|].
  rewrite (extract_event_esc fuel e w _ Hin) by (by left).
  assert (extract_esc e w = (Ret (TB_ERR, e), w)) as Eesc.
  { unfold extract_esc. rewrite (if_need_more_go _ _ _ _ _ (user_none e false w (d_user _ _ Hd))).
    rewrite (if_need_more_go _ _ _ _ _ (cap_apart _ w _ e Hd (alt_apart _ _ _ b l Ht H1 H2 H3) Hin ltac:(done))).
    rewrite (if_need_more_go _ _ e w w).
    - by rewrite (if_need_more_go _ _ _ _ _ (user_none e true w (d_user _ _ Hd))).
    - unfold extract_esc_mouse. mrun (eq_refl : glob g_in w = (Ret (g_in (G w)), w)).
      cbv zeta; rewrite (in_ok_len w _ Hin), (proj2 (Z.ltb_ge _ 2)) by (simpl; lia).
      mrun (in_at_spec w _ 1 b Hin eq_refl). by rewrite (proj2 (Z.eqb_neq b 91)). }
  rewrite (if_need_more_go _ _ _ _ _ Eesc).
  destruct (has _ _); mrun E; [done|]. by destruct fuel.
Qed.

(** The UTF-8 bytes of a printable character are an event with its code
    point.  With an escape before them, and unless they start a sequence, they
    are that event with [TB_MOD_ALT] in [TB_INPUT_ALT] mode; in [TB_INPUT_ESC]
    mode the escape is an event of its own.  Exactly the bytes of the event are
    taken. *)
Theorem characters_are_events name caps alias c rest e w :
  (name, caps, alias) ∈ builtin_terms -> 32 <= c < 2 ^ 31 -> c <> 127 ->
  let bytes := tb_utf8_unicode_to_char c in
  (typed caps (bytes ++ rest) w ->
     exists w', extract e w = (Ret (TB_OK, key_event (ev_mod e) 0 c e), w') /\
       eats w (Z.of_nat (length bytes)) w') /\
  (typed caps (27 :: bytes ++ rest) w -> c <> 79 -> c <> 91 ->
     exists w',
       if has (input_mode (G w)) TB_INPUT_ESC then
         extract e w = (Ret (TB_OK, key_event 0 TB_KEY_ESC 0 e), w') /\ eats w 1 w'
       else
         extract e w = (Ret (TB_OK, key_event (Z.lor (ev_mod e) TB_MOD_ALT) 0 c e), w') /\
         eats w (1 + Z.of_nat (length bytes)) w').
Proof.
  intros Ht Hc H127 bytes. split.
  - intros [_ Hin]. rewrite (extract_unfold e w _ Hin). by apply (extract_codepoint _ e w c rest).
  - intros [Hr Hin] HO Hb. rewrite (extract_unfold e w _ Hin).
    destruct (utf8_head c) as (b & t & Et & Hb8 & _ & Hlow & Hhigh); [lia|]. fold bytes in Et.
    assert (32 <= b /\ b <> 79 /\ b <> 91) as (N1 & N2 & N3).
    { destruct (decide (c < 128)); [rewrite Hlow by done|specialize (Hhigh ltac:(lia))]; lia. }
    assert (27 :: bytes ++ rest = 27 :: b :: (t ++ rest)) as El by (by rewrite Et).
    destruct (alt_skips name caps alias (length (27 :: bytes ++ rest)) e w b (t ++ rest) Ht)
      as (w1 & He1 & E); [rewrite <- El; by split|done|done|done|].
    rewrite E. destruct (has _ _); [by exists w1|].
    pose proof (eats_ok _ _ _ _ Hin He1) as Hin1. change (drop (Z.to_nat 1) (27 :: bytes ++ rest))
      with (bytes ++ rest) in Hin1.
    destruct (extract_codepoint (length (bytes ++ rest)) (set_ev_mod (Z.lor (ev_mod e) TB_MOD_ALT) e) w1 c rest)
      as (w2 & E2 & He2); [done|done|done|].
    exists w2. split; [|by eapply eats_trans; [lia|lia|done|done]].
    change (length (27 :: bytes ++ rest)) with (S (length (bytes ++ rest))). cbv iota. rewrite E2.
    by destruct e.
Qed.

(** The euro sign with the alt key. *)
Lemma characters_are_events_witness :
  let w := keyboard TB_INPUT_ALT (27 :: tb_utf8_unicode_to_char 8364 ++ [98]) in
  exists w', extract event_zero w = (Ret (TB_OK, key_event TB_MOD_ALT 0 8364 event_zero), w') /\ eats w 4 w'.
Proof.
  intros w.
  apply (proj2 (characters_are_events (cs "xterm") xterm_caps (cs EmptyString) 8364 [98] event_zero w
    ltac:(by left) ltac:(lia) ltac:(lia))).
  - apply keyboard_typed; [discriminate|vm_compute; discriminate].
  - lia.
  - lia.
Defined.

(** C33: whatever is typed, short of numbers of ten digits, decoding ends
    without reading outside the buffer: it makes an event of at least one byte,
    or takes nothing but escapes read as the alt key, none in [TB_INPUT_ESC]
    mode. *)
Theorem decoding_progresses name caps alias l e w :
  (name, caps, alias) ∈ builtin_terms -> typed caps l w -> short_numbers l = true ->
  extracted w l (extract e w).
Proof.
  intros Ht [Hr Hin] Hs. rewrite (extract_unfold e w _ Hin).
  by apply (extract_total (term_entries caps)); [eapply ready_decodes| | |].
Qed.

Lemma decoding_progresses_witness :
  let l := [27; 27; 91; 60; 49; 59; 200; 0] in
  extracted (keyboard TB_INPUT_ALT l) l (extract event_zero (keyboard TB_INPUT_ALT l)).
Proof.
  intros l. apply (decoding_progresses (cs "xterm") xterm_caps (cs EmptyString) l event_zero).
  - by left.
  - apply keyboard_typed; [discriminate|vm_compute; discriminate].
  - reflexivity.
Defined.

(** A number above [INT_MAX] in a mouse report overflows the [int] it is
    read into, which is undefined. *)
Theorem mouse_number_overflows name caps alias n rest e w :
  (name, caps, alias) ∈ builtin_terms -> typed caps ([27; 91; 60] ++ udec n ++ rest) w -> INT_MAX < n ->
  extract e w = (Fault, w).
Proof.
  intros Ht [Hr Hin] Hn. pose proof (ready_decodes _ _ _ _ Ht Hr) as Hd.
  rewrite (extract_unfold e w _ Hin).
  assert (apart (term_entries caps) ([27; 91; 60] ++ udec n ++ rest)) as Ha.
  { pose proof reports_apart as H. rewrite forallb_forall in H.
    specialize (H _ (proj1 (list_elem_of_In _ _) Ht)). cbn beta iota zeta in H.
    apply andb_true_iff in H as [[_ H]%andb_true_iff _]. by apply apartb_correct. }
  set (l := [27; 91; 60] ++ udec n ++ rest) in *.
  assert (extract_esc_mouse e w = (Fault, w)) as Em.
  { destruct (esc_mouse_call e w l 27 60 (udec n ++ rest) eq_refl Hin) as (mem & Hm & ->).
    change (60 =? 77) with false. change (60 =? 60) with true. cbv iota. unfold mouse_numbers.
    rewrite mouse_nums_take, Nat2Z.id, Hm by lia.
    assert (length l = length (udec n) + (length rest + 3))%nat as Hlen
      by (subst l; rewrite !length_app; simpl; lia).
    rewrite Hlen at 1. rewrite mouse_digits_overflow; [done| | |lia|simpl; lia|unfold INT_MAX; lia|].
    - apply udec_digits. unfold INT_MAX in Hn. lia.
    - change (drop (Z.to_nat 3) l) with (udec n ++ rest). apply take_app_length.
    - change (-1 =? -1) with true. cbv iota. rewrite undec_udec by (unfold INT_MAX in Hn; lia). lia. }
  change l with (27 :: drop 1 l) in Hin. rewrite (extract_event_esc _ e w _ Hin) by (by left).
  apply if_need_more_fault. unfold extract_esc.
  rewrite (if_need_more_go _ _ _ _ _ (user_none e false w (d_user _ _ Hd))).
  rewrite (if_need_more_go _ _ _ _ _ (cap_apart _ w _ e Hd Ha Hin ltac:(done))).
  by apply if_need_more_fault.
Qed.

Lemma mouse_number_overflows_witness :
  let w := keyboard TB_INPUT_ESC ([27; 91; 60] ++ udec 9999999999 ++ [59]) in
  extract event_zero w = (Fault, w).
Proof.
  intros w. apply (mouse_number_overflows (cs "xterm") xterm_caps (cs EmptyString) 9999999999 [59]).
  - by left.
  - apply keyboard_typed; [discriminate|vm_compute; discriminate].
  - unfold INT_MAX. lia.
Defined.
