(* ===== verification/TbEvent.v ===== *)
(** * life/termbox2.h: the size of the terminal and waiting for events

    A signal only writes to the resize pipe ([handle_resize]); everything else
    happens where the source waits.  [select] and [read] answer from the scripts
    of [Posix]; [e_pipe_data] is what the resize pipe holds. *)

From stdpp Require Import prelude list_numbers strings.
From Stdlib Require Import ZArith Lia.
From S2P Require Import Prelude CLib Posix TbTables TbText TbBuf TbTrie TbGlobal TbOutput TbPresent TbApi TbInput.
Open Scope Z_scope.

(** [write (global.resize_pipefd[1], &sig, sizeof (sig))]; [errno] is put back. *)
Definition handle_resize (sig : Z) : M tbw unit :=
  modify (fun w => set_X (set_e_pipe_data
    (e_pipe_data (X w) ++ ((fun i => wrapu 8 (Z.shiftr sig (8 * i))) <$> [0; 1; 2; 3])) (X w)) w).

(** [read (global.resize_pipefd[0], &ignore, sizeof (ignore))] *)
Definition pipe_read : M tbw unit :=
  let* x := gets X in
  match e_pipe_data x with
  | [] => blocked
  | d => modify (fun w => set_X (set_e_pipe_data (drop 4 d) (X w)) w)
  end.

(** [FD_SET]: outside the set is undefined. *)
Definition FD_SETSIZE : Z := 1024.
Definition fd_set (fd : Z) : M tbw unit := if (0 <=? fd) && (fd <? FD_SETSIZE) then ret tt else fault.

(** [global.last_errno = errno] *)
Definition save_errno : M tbw unit := let* e := tsys sys_errno in upd (set_last_errno e).

(** [sscanf (s, "\x1b[%d;%dR", &rh, &rw)] *)
Definition sscanf_report (s : list Z) : Z * option Z * option Z :=
  match s with
  | 27 :: 91 :: t => sscanf_d_d t
  | _ => (0, None, None)
  end.

Definition update_term_size_via_esc : M tbw Z :=
  let move_and_report := esc "[9999;9999H" ++ esc "[6n" in
  let* write_rv := tsys (sys_write move_and_report) in
  if negb (write_rv =? Z.of_nat (length move_and_report)) then ret TB_ERR_RESIZE_WRITE else
  let* fd := glob rfd in
  fd_set fd ;;;
  let* ' (n, tty, _) := tsys sys_select in
  let select_rv := if n <? 0 then n else if tty : bool then 1 else 0 in
  if negb (select_rv =? 1) then save_errno ;;; ret TB_ERR_RESIZE_POLL else
  let* ' (read_rv, bs) := tsys (sys_read (TB_OPT_READ_BUF - 1)) in
  if read_rv <? 1 then save_errno ;;; ret TB_ERR_RESIZE_READ else
  match sscanf_report (cstr (bs ++ [0])) with
  | (2, Some rh, Some rw) =>
      upd (fun g => set_g_height rh (set_g_width rw g)) ;;;
      ret TB_OK
  | _ => ret TB_ERR_RESIZE_SSCANF
  end.

Definition update_term_size : M tbw Z :=
  let* fd := glob ttyfd in
  if fd <? 0 then ret TB_OK else
  let* ' (r, (ws_row, ws_col)) := tsys sys_winsize in
  if r =? 0 then
    upd (fun g => set_g_height (wrapu 16 ws_row) (set_g_width (wrapu 16 ws_col) g)) ;;;
    ret TB_OK
  else
  let* ioctl_errno := tsys sys_errno in
  let* rv := update_term_size_via_esc in
  if rv =? TB_OK then ret rv else
  upd (set_last_errno ioctl_errno) ;;;
  ret TB_ERR_RESIZE_IOCTL.

Section Event.
Context `{opts : config}.

(** The body of the loop of [wait_event]: [inl] is its [return], [inr] the
    event and the [rv] with which it goes on. *)
Definition wait_body (event : tb_event) : M tbw (Z * tb_event + Z * tb_event) :=
  let* fd := glob rfd in
  let* pfd := glob resize_rfd in
  fd_set fd ;;;
  fd_set pfd ;;;
  let* ' (select_rv, tty_has_events, resize_has_events) := tsys sys_select in
  if select_rv <? 0 then save_errno ;;; ret (inl (TB_ERR_POLL, event))
  else if select_rv =? 0 then ret (inl (TB_ERR_NO_EVENT, event)) else
  let* rd :=
    (if tty_has_events : bool then
       let* ' (read_rv, bs) := tsys (sys_read TB_OPT_READ_BUF) in
       if read_rv <? 0 then save_errno ;;; ret false
       else
         (if 0 <? read_rv then
            let* b := glob g_in in
            let* ' (_, b) := tsys (bytebuf_nputs b bs) in
            upd (set_g_in b)
          else ret tt) ;;;
         ret true
     else ret true) in
  if negb rd then ret (inl (TB_ERR_READ, event)) else
  if resize_has_events : bool then
    pipe_read ;;;
    let* rv := (update_term_size >>! resize_cellbufs >>! ret TB_OK) in
    if negb (rv =? TB_OK) then ret (inl (rv, event)) else
    let* g := gets G in
    ret (inl (TB_OK, set_ev_wh (g_width g) (g_height g) (set_ev_type TB_EVENT_RESIZE event)))
  else
    let* ' (rv, event) := extract event_zero in
    if rv =? TB_OK then ret (inl (rv, event)) else ret (inr (rv, event)).

(** [do ... while (timeout == -1)].  Each turn takes an answer of [select]: with
    as much fuel as the script is long the last turn would wait. *)
Fixpoint wait_loop (fuel : nat) (timeout : Z) (event : tb_event) : M tbw (Z * tb_event) :=
  let* r := wait_body event in
  match r with
  | inl res => ret res
  | inr (rv, event) =>
      if timeout =? -1 then match fuel with O => blocked | S f => wait_loop f timeout event end
      else ret (rv, event)
  end.

Definition wait_event (timeout : Z) : M tbw (Z * tb_event) :=
  let* ' (rv, event) := extract event_zero in
  if rv =? TB_OK then ret (rv, event) else
  let* n := gets (fun w => length (s_select (T w))) in
  wait_loop n timeout event.

(** [None]: the event is not written. *)
Definition tb_peek_event (timeout_ms : Z) : M tbw (Z * option tb_event) :=
  let* i := glob initialized in
  if negb i then ret (TB_ERR_NOT_INIT, None) else
  let* ' (rv, event) := wait_event timeout_ms in ret (rv, Some event).

Definition tb_poll_event : M tbw (Z * option tb_event) :=
  let* i := glob initialized in
  if negb i then ret (TB_ERR_NOT_INIT, None) else
  let* ' (rv, event) := wait_event (-1) in ret (rv, Some event).

End Event.

(** ** Lemmas *)

(** *** Reading input *)

(** The descriptors fit in a set, memory is not short, and [l] has been read. *)
Definition listening (caps : list (list Z)) (l : list Z) (w : tbw) : Prop :=
  typed caps l w /\ 0 <= rfd (G w) < FD_SETSIZE /\ 0 <= resize_rfd (G w) < FD_SETSIZE /\ s_alloc (T w) = [].

(** The terminal is going to send the chunks, each found by a [select]. *)
Definition sends (chunks : list (list Z)) (w : tbw) : Prop :=
  s_select (T w) = replicate (length chunks) (SelReady true false) /\ s_read (T w) = RData <$> chunks.

Definition chunk_ok (c : list Z) : Prop := (0 < length c <= 64)%nat.

(** [w] after one chunk has been put into the buffer. *)
Definition fed (b : bytebuf) (w : tbw) : tbw :=
  set_T (set_read (drop 1 (s_read (T w))) (set_select (drop 1 (s_select (T w))) (T w))) (put_in b w).

Lemma fd_set_ok fd (w : tbw) : 0 <= fd < FD_SETSIZE -> fd_set fd w = (Ret tt, w).
Proof. intros H. unfold fd_set. by rewrite (proj2 (Z.leb_le 0 fd)), (proj2 (Z.ltb_lt fd _)) by lia. Qed.

Lemma typed_fed caps l w b l' :
  typed caps l w -> bb_wf b -> bb_bytes b = l' -> typed caps l' (fed b w).
Proof. by intros [[Hu Hr] [Hw Hl]] Hb He. Qed.

Section Reading.
Context `{opts : config} (caps : list (list Z)).

Lemma wait_body_feeds e w l c cs :
  listening caps l w -> sends (c :: cs) w -> chunk_ok c -> Z.of_nat (length l) + 65 <= 2 ^ 60 ->
  exists b, listening caps (l ++ c) (fed b w) /\ sends cs (fed b w) /\
    wait_body e w =
      bind (extract event_zero) (fun ' (rv, event) =>
        if rv =? TB_OK then ret (inl (rv, event)) else ret (inr (rv, event))) (fed b w).
Proof.
  intros (Ht & Hf1 & Hf2 & Ha) [Hs Hr] Hc Hl. destruct Ht as [Hready Hin].
  unfold chunk_ok in Hc. pose proof (in_ok_len _ _ Hin) as Hlen.
  destruct (nputs_spec (g_in (G w)) c
    (set_read (drop 1 (s_read (T w))) (set_select (drop 1 (s_select (T w))) (T w))) (proj1 Hin))
    as (rv & b & s' & E & Hb & Hok); [rewrite Hlen; unfold PTRDIFF_MAX; lia|].
  destruct Hok as [-> ->]; [done|rewrite Hlen; unfold PTRDIFF_MAX; lia|].
  destruct Hb as [(_ & Hwb & Hbb)|[? _]]; [|done]. rewrite (proj2 Hin) in Hbb.
  exists b. split; [|split].
  - split; [by eapply typed_fed|]. done.
  - unfold sends, fed. cbn. by rewrite Hs, Hr.
  - unfold wait_body.
    mrun (eq_refl : glob rfd w = (Ret (rfd (G w)), w)).
    mrun (eq_refl : glob resize_rfd w = (Ret (resize_rfd (G w)), w)).
    mrun (fd_set_ok _ w Hf1). mrun (fd_set_ok _ w Hf2).
    assert (tsys sys_select w = (Ret (1, true, false), set_T (set_select (drop 1 (s_select (T w))) (T w)) w)) as Es.
    { apply tsys_ret. unfold sys_select. by rewrite Hs. }
    mrun Es. change (1 <? 0) with false. change (1 =? 0) with false. cbv iota.
    set (w1 := set_T _ w).
    assert (tsys (sys_read TB_OPT_READ_BUF) w1 = (Ret (Z.of_nat (length c), c),
      set_T (set_read (drop 1 (s_read (T w))) (set_select (drop 1 (s_select (T w))) (T w))) w)) as Er.
    { unfold w1. erewrite tsys_ret; [reflexivity|]. unfold sys_read. cbn [T set_T s_read set_select].
      rewrite Hr. cbn [fmap list_fmap drop skipn]. change (Z.to_nat TB_OPT_READ_BUF) with 64%nat.
      rewrite take_ge, drop_ge by lia. done. }
    rewrite bind_assoc. mrun Er. rewrite (proj2 (Z.ltb_ge _ 0)), (proj2 (Z.ltb_lt 0 _)) by lia.
    rewrite ?bind_assoc. set (w2 := set_T _ w). mrun (eq_refl : glob g_in w2 = (Ret (g_in (G w)), w2)).
    rewrite ?bind_assoc. mrun (tsys_ret _ w2 _ _ E). rewrite ?bind_assoc.
    set (w3 := set_T _ w2). mrun (eq_refl : upd (set_g_in b) w3 = (Ret tt, fed b w)). done.
Qed.

(** [p] is not an event, nor lost. *)
Definition waits (mode : Z) (p : list Z) : Prop :=
  forall w, typed caps p w -> input_mode (G w) = mode ->
    exists rv, extract event_zero w = (Ret (rv, event_zero), w) /\ (rv = TB_ERR \/ rv = TB_ERR_NEED_MORE).

(** [p] is the event [ev]. *)
Definition completes (mode : Z) (p : list Z) (ev : tb_event) : Prop :=
  forall w, typed caps p w -> input_mode (G w) = mode ->
    exists w', extract event_zero w = (Ret (TB_OK, ev), w') /\ eats w (Z.of_nat (length p)) w'.

Lemma wait_loop_collects mode cs l ev e w fuel :
  cs <> [] -> Forall chunk_ok cs -> (length cs <= fuel)%nat -> Z.of_nat (length (l ++ concat cs)) <= 2 ^ 59 ->
  listening caps l w -> sends cs w -> input_mode (G w) = mode ->
  (forall k, (0 < k < length cs)%nat -> waits mode (l ++ concat (take k cs))) ->
  completes mode (l ++ concat cs) ev ->
  exists w', wait_loop fuel (-1) e w = (Ret (TB_OK, ev), w') /\ in_ok w' [] /\ g_trie (G w') = g_trie (G w).
Proof.
  revert l e w fuel. induction cs as [|c cs IH]; intros l e w fuel Hne Hcs Hf Hl Hw Hs Hm Hwait Hdone; [done|].
  apply Forall_cons in Hcs as [Hc Hcs]. rewrite length_app in Hl. cbn [concat] in Hl.
  destruct (wait_body_feeds e w l c cs Hw Hs Hc) as (b & Hw1 & Hs1 & E); [lia|].
  destruct fuel as [|fuel]; [simpl in Hf; lia|]. cbn [wait_loop].
  destruct cs as [|c2 cs].
  - cbn [concat] in Hdone. rewrite app_nil_r in Hdone.
    destruct (Hdone (fed b w) (proj1 Hw1) Hm) as (w' & Ex & He).
    unfold bind at 1. rewrite E. rewrite (bind_ret _ _ _ _ _ Ex).
    exists w'. split; [done|]. split.
    + pose proof (eats_ok _ _ _ _ (proj2 (proj1 Hw1)) He) as H. by rewrite drop_ge in H by lia.
    + by destruct He as (b' & -> & _).
  - destruct (Hwait 1%nat ltac:(simpl; lia) (fed b w)) as (rv & Ex & Hrv); [|done|].
    { cbn [take concat]. rewrite app_nil_r. apply Hw1. }
    assert (wait_body e w = (Ret (inr (rv, event_zero)), fed b w)) as E1.
    { rewrite E. rewrite (bind_ret _ _ _ _ _ Ex). by destruct Hrv as [->| ->]. }
    mrun E1. change (-1 =? -1) with true. cbv iota.
    destruct (IH (l ++ c) event_zero (fed b w) fuel) as (w' & E2 & Hin & Ht); try done.
    + simpl in Hf |- *. lia.
    + rewrite <- app_assoc, !length_app in *. cbn [concat] in *. rewrite !length_app in *. lia.
    + intros k Hk. rewrite <- app_assoc. change (c ++ concat (take k (c2 :: cs)))
        with (concat (take (S k) (c :: c2 :: cs))). apply Hwait. simpl in Hk |- *. lia.
    + by rewrite <- app_assoc.
    + by exists w'.
Qed.
End Reading.

(** *** Whole and split events *)

(** What a terminal can send for one event: a character, a key of the terminal,
    or a mouse report. *)
Inductive sent (caps : list (list Z)) : list Z -> tb_event -> Prop :=
| sent_char c : 32 <= c < 2 ^ 31 -> c <> 127 ->
    sent caps (tb_utf8_unicode_to_char c) (key_event 0 0 c event_zero)
| sent_key q v : first_entry (term_entries caps) q = Some v -> q <> [] ->
    sent caps q (key_event (snd v) (fst v) 0 event_zero)
| sent_mouse p r : report_ok p r -> sent caps (encode_report p r) (report_event r event_zero).

(** A sequence that starts with an escape has to come with its second byte, or
    the escape is a key (or waits, in [TB_INPUT_ALT] mode). *)
Definition together (bytes : list Z) (chunks : list (list Z)) : Prop :=
  bytes !! 0%nat = Some 27 -> (1 < length (hd [] chunks))%nat.

Section Sent.
Variables (name : list Z) (caps : list (list Z)) (alias : list Z).
Hypothesis Hterm : (name, caps, alias) ∈ builtin_terms.

Lemma sent_completes bytes ev mode : sent caps bytes ev -> completes caps mode bytes ev.
Proof.
  intros [c Hc Hn|q v Hv Hq|p r Hr] w Ht Hm.
  - rewrite (extract_unfold _ w _ (proj2 Ht)).
    apply (extract_codepoint _ event_zero w c []); [done|done|]. rewrite app_nil_r. apply Ht.
  - apply (key_extracts name caps alias q [] v event_zero w Hterm Hv Hq). by rewrite app_nil_r.
  - apply (report_extracts name caps alias p r [] event_zero w Hterm Hr). by rewrite app_nil_r.
Qed.

Lemma sent_nonempty bytes ev : sent caps bytes ev -> bytes <> [].
Proof.
  intros [c Hc Hn|q v Hv Hq|p r Hr]; [|done|by destruct p].
  destruct (utf8_head c) as (b & t & -> & _); [lia|done].
Qed.

Lemma sent_waits bytes ev mode q :
  sent caps bytes ev -> q `prefix_of` bytes -> q <> bytes -> q <> [] ->
  (bytes !! 0%nat = Some 27 -> (1 < length q)%nat) -> waits caps mode q.
Proof.
  intros Hs Hpre Hne Hq Hlen w Ht Hm. destruct Hs as [c Hc Hn|q' v Hv Hq'|p r Hr].
  - exists TB_ERR. split; [|by left]. rewrite (extract_unfold _ w _ (proj2 Ht)).
    by eapply char_partial; [| | | |apply Ht].
  - destruct (first_entry_in _ _ _ Hq' Hv) as (x & Hx & Hsx & _).
    destruct (builtin_escapes _ _ _ x Hterm Hx) as (t & Et & Htn); [by rewrite Hsx|].
    exists TB_ERR_NEED_MORE. split; [|by right].
    eapply (key_partial name caps alias q x); try done.
    + by rewrite Hsx.
    + destruct (first_entry (term_entries caps) q) as [v'|] eqn:Eq; [|done]. exfalso.
      destruct (first_entry_in _ _ _ Hq Eq) as (x' & Hx' & Hsx' & _).
      destruct (builtin_entries _ _ _ Hterm) as [Hpf _]. apply Hne.
      rewrite <- Hsx', <- Hsx. apply Hpf; [done|done|by rewrite Hsx'|by rewrite Hsx', Hsx].
    + apply Hlen. rewrite <- Hsx, Et. done.
  - exists TB_ERR_NEED_MORE. split; [|by right].
    eapply (report_partial name caps alias p r); try done. apply Hlen. by destruct p.
Qed.

End Sent.

(** The library waits: it is initialised and the input buffer is empty. *)
Definition idle (caps : list (list Z)) (w : tbw) : Prop := initialized (G w) = true /\ listening caps [] w.

Lemma extract_nothing e w : in_ok w [] -> extract e w = (Ret (TB_ERR, e), w).
Proof.
  intros Hin. rewrite (extract_unfold e w [] Hin). cbn [extract_event length].
  mrun (eq_refl : glob g_in w = (Ret (g_in (G w)), w)).
  mrun (eq_refl : glob input_mode w = (Ret (input_mode (G w)), w)).
  by rewrite (in_ok_len w [] Hin).
Qed.

Lemma wait_event_idle `{config} caps timeout w :
  idle caps w ->
  wait_event timeout w = wait_loop (length (s_select (T w))) timeout event_zero w.
Proof.
  intros (_ & (_ & Hin) & _). unfold wait_event. mrun (extract_nothing event_zero w Hin).
  change (TB_ERR =? TB_OK) with false. cbv iota.
  by mrun (eq_refl : gets (fun w => length (s_select (T w))) w = (Ret (length (s_select (T w))), w)).
Qed.

(** *** An initialised xterm that waits *)

Definition waiting (mode : Z) (selects : list select_ev) (reads : list read_ev) (sizes : list (Z + Z * Z)) : tbw :=
  mk_tbw (set_back demo_back (set_front demo_front (set_input_mode mode (set_g_trie demo_trie demo_global))))
    (set_select selects (set_read reads (set_winsz sizes calm)))
    (set_e_pipe_data [28; 0; 0; 0] calm_env).

Definition incoming (mode : Z) (chunks : list (list Z)) : tbw :=
  waiting mode (replicate (length chunks) (SelReady true false)) (RData <$> chunks) [].

Lemma waiting_idle mode selects reads sizes : idle xterm_caps (waiting mode selects reads sizes).
Proof.
  split; [done|]. split; [split; [split; [done|]|split; done]|].
  - exists calm, calm. split; [done|]. exact demo_trie_ready.
  - by split.
Qed.

Lemma incoming_idle mode chunks : idle xterm_caps (incoming mode chunks).
Proof. unfold incoming. apply waiting_idle. Qed.

(** ** Properties *)

(** C19: what the terminal sends for one event, split over any number of reads,
    as long as an escape that begins it arrives in the same read as the byte
    after it, is returned by one call of [tb_poll_event], and nothing is left in
    the input buffer.  (An escape that arrives alone is the escape key in
    [TB_INPUT_ESC] mode.) *)
Theorem poll_event_split `{config} name caps alias bytes ev chunks w :
  (name, caps, alias) ∈ builtin_terms -> sent caps bytes ev ->
  concat chunks = bytes -> Forall chunk_ok chunks -> together bytes chunks ->
  Z.of_nat (length bytes) <= 2 ^ 59 ->
  idle caps w -> sends chunks w ->
  exists w', tb_poll_event w = (Ret (TB_OK, Some ev), w') /\ in_ok w' [].
Proof.
  intros Ht Hs Hc Hok Htog Hlen Hw Hsend. unfold tb_poll_event.
  mrun (eq_refl : glob initialized w = (Ret (initialized (G w)), w)). rewrite (proj1 Hw). cbn [negb].
  pose proof (sent_nonempty caps bytes ev Hs) as Hbn.
  destruct (wait_loop_collects caps (input_mode (G w)) chunks [] ev event_zero w (length (s_select (T w))))
    as (w' & E & Hin & _).
  - intros ->. by rewrite <- Hc in Hbn.
  - done.
  - rewrite (proj1 Hsend), length_replicate. done.
  - simpl. by rewrite Hc.
  - apply Hw.
  - done.
  - done.
  - intros k Hk. cbn [app]. eapply (sent_waits name caps alias Ht bytes ev); [done| | | |].
    + exists (concat (drop k chunks)). by rewrite <- concat_app, take_drop.
    + intros E. apply (f_equal length) in E. rewrite <- Hc in E.
      pose proof (f_equal (fun l => length (concat l)) (take_drop k chunks)) as El. cbv beta in El.
      rewrite concat_app, length_app in El.
      assert (concat (drop k chunks) = []) as E0 by (apply length_zero_iff_nil; lia).
      destruct (drop k chunks) as [|c cs] eqn:Ed.
      { apply (f_equal length) in Ed. rewrite length_drop in Ed. simpl in Ed. lia. }
      assert (chunk_ok c) as Hck.
      { rewrite Forall_forall in Hok. apply Hok, (list_elem_of_lookup_2 _ k).
        rewrite <- (Nat.add_0_r k), <- lookup_drop, Ed. done. }
      unfold chunk_ok in Hck. simpl in E0. apply app_eq_nil in E0 as [-> _]. simpl in Hck. lia.
    + destruct chunks as [|c cs]; [simpl in Hk; lia|]. destruct k as [|k]; [lia|].
      apply Forall_cons in Hok as [Hck _]. unfold chunk_ok in Hck. simpl. destruct c; [simpl in Hck; lia|done].
    + intros H27. specialize (Htog H27). destruct chunks as [|c cs]; [simpl in Hk; lia|].
      destruct k as [|k]; [lia|]. simpl in Htog |- *. rewrite length_app. lia.
  - cbn [app]. rewrite Hc. by apply (sent_completes name caps alias Ht).
  - exists w'. split; [|done].
    assert (wait_event (-1) w = (Ret (TB_OK, ev), w')) as Ew by (by rewrite (wait_event_idle caps)).
    by mrun Ew.
Qed.

(** The euro sign in three reads. *)
Lemma poll_event_split_witness :
  let w := incoming TB_INPUT_ESC [[226]; [130]; [172]] in
  exists w', @tb_poll_event default_config w = (Ret (TB_OK, Some (key_event 0 0 8364 event_zero)), w') /\ in_ok w' [].
Proof.
  intros w. pose proof (incoming_idle TB_INPUT_ESC [[226]; [130]; [172]]) as Hi.
  apply (@poll_event_split default_config (cs "xterm") xterm_caps (cs EmptyString)
    (tb_utf8_unicode_to_char 8364) (key_event 0 0 8364 event_zero) [[226]; [130]; [172]]).
  - by left.
  - constructor; lia.
  - reflexivity.
  - repeat constructor.
  - intros H. discriminate.
  - vm_compute. discriminate.
  - exact Hi.
  - split; reflexivity.
Defined.

(** *** Waiting without an event *)

Section Errors.
Context `{opts : config} (caps : list (list Z)).

Lemma wait_body_select e w n tty rz s' :
  listening caps [] w -> sys_select (T w) = (Ret (n, tty, rz), s') ->
  wait_body e w =
    (if n <? 0 then bind save_errno (fun _ => ret (inl (TB_ERR_POLL, e)))
     else if n =? 0 then ret (inl (TB_ERR_NO_EVENT, e))
     else bind
       (if tty then
          bind (tsys (sys_read TB_OPT_READ_BUF)) (fun ' (read_rv, bs) =>
            if read_rv <? 0 then bind save_errno (fun _ => ret false)
            else bind (if 0 <? read_rv then
                bind (glob g_in) (fun b => bind (tsys (bytebuf_nputs b bs)) (fun ' (_, b) => upd (set_g_in b)))
              else ret tt) (fun _ => ret true))
        else ret true) (fun rd =>
       if negb rd then ret (inl (TB_ERR_READ, e)) else
       if rz then
         bind pipe_read (fun _ =>
         bind (if_err_return update_term_size (if_err_return resize_cellbufs (ret TB_OK))) (fun rv =>
         if negb (rv =? TB_OK) then ret (inl (rv, e)) else
         bind (gets G) (fun g =>
         ret (inl (TB_OK, set_ev_wh (g_width g) (g_height g) (set_ev_type TB_EVENT_RESIZE e))))))
       else
         bind (extract event_zero) (fun ' (rv, event) =>
         if rv =? TB_OK then ret (inl (rv, event)) else ret (inr (rv, event))))) (set_T s' w).
Proof.
  intros (_ & Hf1 & Hf2 & _) Es. unfold wait_body.
  mrun (eq_refl : glob rfd w = (Ret (rfd (G w)), w)).
  mrun (eq_refl : glob resize_rfd w = (Ret (resize_rfd (G w)), w)).
  mrun (fd_set_ok _ w Hf1). mrun (fd_set_ok _ w Hf2). mrun (tsys_ret _ w _ _ Es). done.
Qed.

Lemma peek_idle timeout w :
  idle caps w ->
  tb_peek_event timeout w =
    bind (wait_loop (length (s_select (T w))) timeout event_zero) (fun ' (rv, event) => ret (rv, Some event)) w.
Proof.
  intros Hw. unfold tb_peek_event.
  mrun (eq_refl : glob initialized w = (Ret (initialized (G w)), w)). rewrite (proj1 Hw). cbn [negb].
  unfold bind. by rewrite (wait_event_idle caps timeout w Hw).
Qed.

(** A turn that ends the wait. *)
Lemma peek_stops timeout w r w' :
  idle caps w -> wait_body event_zero w = (Ret (inl r), w') ->
  tb_peek_event timeout w = (Ret (fst r, Some (snd r)), w').
Proof.
  intros Hw E. rewrite (peek_idle timeout w Hw). destruct r as [rv ev].
  assert (forall f, wait_loop f timeout event_zero w = (Ret (rv, ev), w')) as El
    by (intros [|f]; cbn [wait_loop]; by mrun E).
  by mrun (El (length (s_select (T w)))).
Qed.

End Errors.

(** A wait that is interrupted, that times out, or whose read fails returns
    the error documented for it with an empty event, keeps [errno] in
    [tb_last_errno], and touches neither the buffers nor the pending input. *)
Theorem wait_errors `{config} caps timeout w :
  idle caps w ->
  (forall err ss, s_select (T w) = SelErr err :: ss ->
     tb_peek_event timeout w = (Ret (TB_ERR_POLL, Some event_zero),
       mk_tbw (set_last_errno err (G w)) (set_errno err (set_select ss (T w))) (X w))) /\
  (forall ss, s_select (T w) = SelTimeout :: ss ->
     tb_peek_event timeout w = (Ret (TB_ERR_NO_EVENT, Some event_zero), set_T (set_select ss (T w)) w)) /\
  (forall rz err ss rs, s_select (T w) = SelReady true rz :: ss -> s_read (T w) = RErr err :: rs ->
     tb_peek_event timeout w = (Ret (TB_ERR_READ, Some event_zero),
       mk_tbw (set_last_errno err (G w)) (set_errno err (set_read rs (set_select ss (T w)))) (X w))).
Proof.
  intros Hw. split; [|split].
  - intros err ss Hs. apply (peek_stops caps timeout w (TB_ERR_POLL, event_zero) _ Hw).
    rewrite (wait_body_select caps event_zero w (-1) false false (set_errno err (set_select ss (T w))) (proj2 Hw));
      [done|unfold sys_select; by rewrite Hs].
  - intros ss Hs. apply (peek_stops caps timeout w (TB_ERR_NO_EVENT, event_zero) _ Hw).
    rewrite (wait_body_select caps event_zero w 0 false false (set_select ss (T w)) (proj2 Hw));
      [done|unfold sys_select; by rewrite Hs].
  - intros rz err ss rs Hs Hr. apply (peek_stops caps timeout w (TB_ERR_READ, event_zero) _ Hw).
    rewrite (wait_body_select caps event_zero w (if rz then 2 else 1) true rz (set_select ss (T w)) (proj2 Hw));
      [|unfold sys_select; rewrite Hs; by destruct rz].
    assert (((if rz then 2 else 1) <? 0) = false /\ ((if rz then 2 else 1) =? 0) = false) as [-> ->] by by destruct rz.
    assert (tsys (sys_read TB_OPT_READ_BUF) (set_T (set_select ss (T w)) w) = (Ret (-1, []),
      set_T (set_errno err (set_read rs (set_select ss (T w)))) w)) as Er.
    { erewrite tsys_ret; [reflexivity|]. unfold sys_read. cbn [T set_T s_read set_select]. by rewrite Hr. }
    rewrite bind_assoc. mrun Er. done.
Qed.

Lemma wait_errors_witness :
  let w := waiting TB_INPUT_ESC [SelErr 4] [] [] in
  @tb_peek_event default_config 100 w = (Ret (TB_ERR_POLL, Some event_zero),
    mk_tbw (set_last_errno 4 (G w)) (set_errno 4 (set_select [] (T w))) (X w)).
Proof.
  intros w. apply (proj1 (@wait_errors default_config xterm_caps 100 w (waiting_idle TB_INPUT_ESC [SelErr 4] [] []))).
  reflexivity.
Defined.

(** When only a part of an event has come, [tb_peek_event] returns the
    result of the decoder, [TB_ERR] or [TB_ERR_NEED_MORE], where
    [TB_ERR_NO_EVENT] is documented. *)
Theorem peek_partial `{config} name caps alias bytes ev q w timeout :
  (name, caps, alias) ∈ builtin_terms -> sent caps bytes ev -> q `prefix_of` bytes -> q <> bytes ->
  (0 < length q <= 64)%nat -> (bytes !! 0%nat = Some 27 -> (1 < length q)%nat) ->
  timeout <> -1 -> idle caps w -> sends [q] w ->
  exists rv w', tb_peek_event timeout w = (Ret (rv, Some event_zero), w') /\
    (rv = TB_ERR \/ rv = TB_ERR_NEED_MORE) /\ in_ok w' q.
Proof.
  intros Ht Hs Hpre Hne Hlen H27 Htime Hw Hsend.
  destruct (wait_body_feeds caps event_zero w [] q [] (proj2 Hw) Hsend) as (b & Hl & _ & E);
    [unfold chunk_ok; lia|simpl; lia|].
  destruct (sent_waits name caps alias Ht bytes ev (input_mode (G w)) q Hs Hpre Hne) with (w := fed b w)
    as (rv & Ex & Hrv); [intros ->; simpl in Hlen; lia|done|apply Hl|done|].
  exists rv, (fed b w). split; [|split; [done|apply Hl]].
  assert (wait_body event_zero w = (Ret (inr (rv, event_zero)), fed b w)) as Eb.
  { rewrite E, (bind_ret _ _ _ _ _ Ex). by destruct Hrv as [->| ->]. }
  rewrite (peek_idle caps timeout w Hw).
  assert (forall f, wait_loop f timeout event_zero w = (Ret (rv, event_zero), fed b w)) as El.
  { intros f. destruct f; cbn [wait_loop]; mrun Eb; by rewrite (proj2 (Z.eqb_neq timeout (-1))). }
  by mrun (El (length (s_select (T w)))).
Qed.

Lemma peek_partial_witness :
  let w := incoming TB_INPUT_ESC [[226; 130]] in
  exists rv w', @tb_peek_event default_config 100 w = (Ret (rv, Some event_zero), w') /\
    (rv = TB_ERR \/ rv = TB_ERR_NEED_MORE) /\ in_ok w' [226; 130].
Proof.
  intros w. apply (@peek_partial default_config (cs "xterm") xterm_caps (cs EmptyString)
    (tb_utf8_unicode_to_char 8364) (key_event 0 0 8364 event_zero) [226; 130]).
  - by left.
  - constructor; lia.
  - by exists [172].
  - discriminate.
  - simpl. lia.
  - intros H. discriminate.
  - discriminate.
  - apply incoming_idle.
  - split; reflexivity.
Defined.

Lemma multibyte_length c : 128 <= c -> (2 <= length (tb_utf8_unicode_to_char c) <= 6)%nat.
Proof.
  intros Hc. destruct (utf8_first c) as [first len] eqn:Ef.
  assert (2 <= len <= 6) as Hl.
  { revert Ef. unfold utf8_first. rewrite (proj2 (Z.ltb_ge c 128)) by lia.
    repeat (destruct (_ <? _); [intros [= _ <-]; lia|]). intros [= _ <-]. lia. }
  pose proof (length_encoded c first len Ef ltac:(lia)). lia.
Qed.

(** In [TB_INPUT_ALT] mode, when the bytes of an alt character come in two
    reads, the escape is taken with the first, and the event has no modifier. *)
Theorem alt_lost_when_split `{config} name caps alias c b t w :
  (name, caps, alias) ∈ builtin_terms -> 128 <= c < 2 ^ 31 -> tb_utf8_unicode_to_char c = b :: t ->
  has (input_mode (G w)) TB_INPUT_ESC = false -> idle caps w -> sends [[27; b]; t] w ->
  exists w', tb_poll_event w = (Ret (TB_OK, Some (key_event 0 0 c event_zero)), w').
Proof.
  intros Ht Hc Et Hmode Hw Hsend.
  destruct (utf8_head c) as (b' & t' & Et' & Hb8 & _ & _ & Hhigh); [lia|].
  rewrite Et in Et'. injection Et' as <- <-. specialize (Hhigh ltac:(lia)).
  pose proof (multibyte_length c ltac:(lia)) as Hlen. rewrite Et in Hlen. simpl in Hlen.
  destruct (wait_body_feeds caps event_zero w [] [27; b] [t] (proj2 Hw) Hsend) as (b1 & Hl1 & Hs1 & E1);
    [unfold chunk_ok; simpl; lia|simpl; lia|].
  destruct (alt_skips name caps alias 2 event_zero (fed b1 w) b [] Ht (proj1 Hl1)) as (w1 & He1 & Ex1);
    [lia|lia|lia|].
  change (has (input_mode (G (fed b1 w))) TB_INPUT_ESC) with (has (input_mode (G w)) TB_INPUT_ESC) in Ex1.
  rewrite Hmode in Ex1. pose proof (eats_ok _ _ _ _ (proj2 (proj1 Hl1)) He1) as Hin1.
  change (drop (Z.to_nat 1) ([] ++ [27; b])) with [b] in Hin1.
  set (e1 := set_ev_mod (Z.lor (ev_mod event_zero) TB_MOD_ALT) event_zero) in Ex1.
  rewrite (char_partial 1 e1 w1 c [b]) in Ex1;
    [|lia|rewrite Et; by exists t|rewrite Et; intros [= <-]; simpl in Hlen; lia|done|done].
  assert (wait_body event_zero w = (Ret (inr (TB_ERR, e1)), w1)) as Eb1.
  { rewrite E1. unfold bind at 1. rewrite (extract_unfold _ _ _ (proj2 (proj1 Hl1))). cbn [app length].
    by rewrite Ex1. }
  assert (listening caps [b] w1 /\ sends [t] w1) as [Hl2 Hs2].
  { destruct He1 as (b2 & -> & _). destruct Hl1 as ((Hr & _) & H1). split; [split; [split; [exact Hr|done]|exact H1]|exact Hs1]. }
  destruct (wait_body_feeds caps e1 w1 [b] t [] Hl2 Hs2) as (b3 & Hl3 & _ & E3);
    [unfold chunk_ok; lia|simpl; lia|].
  change ([b] ++ t) with (b :: t) in Hl3. rewrite <- Et in Hl3.
  destruct (extract_codepoint (length (tb_utf8_unicode_to_char c)) event_zero (fed b3 w1) c [])
    as (w3 & Ex3 & _); [lia|lia|rewrite app_nil_r; apply Hl3|].
  exists w3. unfold tb_poll_event.
  mrun (eq_refl : glob initialized w = (Ret (initialized (G w)), w)). rewrite (proj1 Hw). cbn [negb].
  assert (wait_event (-1) w = (Ret (TB_OK, key_event 0 0 c event_zero), w3)) as E.
  { rewrite (wait_event_idle caps _ w Hw), (proj1 Hsend). cbn [length replicate wait_loop]. mrun Eb1.
    change (-1 =? -1) with true. cbv iota. cbn [wait_loop]. unfold bind at 1. rewrite E3.
    unfold bind at 1. by rewrite (extract_unfold _ _ _ (proj2 (proj1 Hl3))), Ex3. }
  by mrun E.
Qed.

Lemma alt_lost_when_split_witness :
  exists w', @tb_poll_event default_config (incoming TB_INPUT_ALT [[27; 226]; [130; 172]]) =
    (Ret (TB_OK, Some (key_event 0 0 8364 event_zero)), w').
Proof.
  apply (@alt_lost_when_split default_config (cs "xterm") xterm_caps (cs EmptyString) 8364 226 [130; 172]).
  - by left.
  - lia.
  - reflexivity.
  - reflexivity.
  - apply incoming_idle.
  - split; reflexivity.
Defined.

(** *** The size of the terminal *)

Definition sized (width height : Z) (w : tbw) : tbw := set_G (set_g_height height (set_g_width width (G w))) w.

(** The report of a cursor in the last column and row. *)
Definition size_report (width height : Z) : list Z := esc "[" ++ udec height ++ 59 :: udec width ++ [82].

Definition size_request : list Z := esc "[9999;9999H" ++ esc "[6n".

Lemma via_esc_report width height w r ss rs :
  0 <= rfd (G w) < FD_SETSIZE -> 0 <= width <= INT_MAX -> 0 <= height <= INT_MAX ->
  s_write (T w) = [] -> s_select (T w) = SelReady true r :: ss ->
  s_read (T w) = RData (size_report width height) :: rs ->
  update_term_size_via_esc w = (Ret TB_OK, sized width height
    (set_T (set_read rs (set_select ss (set_out (s_out (T w) ++ size_request) (T w)))) w)).
Proof.
  intros Hf Hw Hh Hwr Hs Hr. unfold update_term_size_via_esc. fold size_request.
  mrun (tsys_ret _ w _ _ (sys_write_nil size_request (T w) Hwr)). rewrite Z.eqb_refl. cbn [negb].
  set (w1 := set_T _ w). mrun (eq_refl : glob rfd w1 = (Ret (rfd (G w)), w1)).
  mrun (fd_set_ok _ w1 Hf).
  assert (tsys sys_select w1 = (Ret ((if r then 2 else 1), true, r), set_T (set_select ss (T w1)) w1)) as Es.
  { apply tsys_ret. unfold sys_select. cbn [T w1 set_T s_select set_out]. rewrite Hs. by destruct r. }
  mrun Es. assert (((if r then 2 else 1) <? 0) = false) as -> by by destruct r.
  change (negb (1 =? 1)) with false. cbv iota. set (w2 := set_T _ w1).
  assert (length (size_report width height) <= 63)%nat as Hlen.
  { unfold size_report. rewrite !length_app. change (length (esc "[")) with 2%nat. simpl. rewrite !length_app.
    pose proof (udec_length height 9). pose proof (udec_length width 9). unfold INT_MAX in *. simpl in *. lia. }
  assert (tsys (sys_read (TB_OPT_READ_BUF - 1)) w2 = (Ret (Z.of_nat (length (size_report width height)),
    size_report width height), set_T (set_read rs (T w2)) w2)) as Er.
  { erewrite tsys_ret; [reflexivity|]. unfold sys_read. cbn [T w2 w1 set_T s_read set_select set_out]. rewrite Hr.
    change (Z.to_nat (TB_OPT_READ_BUF - 1)) with 63%nat. rewrite take_ge, drop_ge by lia. done. }
  mrun Er. rewrite (proj2 (Z.ltb_ge _ 1))
    by (unfold size_report; rewrite length_app; change (length (esc "[")) with 2%nat; lia).
  assert (Forall (fun b => b <> 0) (size_report width height)) as Hnz.
  { unfold size_report. apply Forall_app. split; [vm_compute; repeat constructor; discriminate|].
    assert (forall n, 0 <= n -> Forall (fun b => b <> 0) (udec n)) as Hd.
    { intros n Hn. eapply Forall_impl; [by apply udec_digits|]. intros b Hb%isdigit_spec. lia. }
    apply Forall_app. split; [apply Hd; lia|]. constructor; [done|].
    apply Forall_app. split; [apply Hd; lia|]. by repeat constructor. }
  rewrite Forall_forall in Hnz. rewrite cstr_app_nul by (intros b Hb; by apply Hnz).
  unfold size_report. change (esc "[") with [27; 91]. cbn [app sscanf_report].
  by rewrite (sscanf_d_d_print height width [82]) by done.
Qed.

(** What the failures of the fallback leave alone. *)
Definition size_of (w : tbw) : Z * Z := (g_width (G w), g_height (G w)).

Lemma via_esc_fails w rv w' :
  update_term_size_via_esc w = (Ret rv, w') -> rv = TB_OK \/ size_of w' = size_of w.
Proof.
  unfold update_term_size_via_esc. intros E.
  destruct (sys_write_ret (esc "[9999;9999H" ++ esc "[6n") (T w)) as (n & s1 & E1).
  rewrite (bind_ret _ _ _ _ _ (tsys_ret _ w _ _ E1)) in E.
  destruct (negb (n =? _)); [injection E as <- <-; by right|].
  set (w1 := set_T s1 w) in E. rewrite (bind_ret _ _ _ _ _ (eq_refl : glob rfd w1 = (Ret (rfd (G w1)), w1))) in E.
  unfold fd_set in E. destruct (_ && _); [|done].
  rewrite (bind_ret _ _ _ _ _ (eq_refl : ret tt w1 = (Ret tt, w1))) in E.
  unfold tsys, zoom, bind in E. destruct (sys_select (T w1)) as [[[[m tty] rz]| | |] s2]; try done.
  destruct (negb _); [injection E as <- <-; by right|].
  set (w2 := set_T s2 w1) in E.
  destruct (sys_read (TB_OPT_READ_BUF - 1) (T w2)) as [[[k bs]| | |] s3]; try done.
  destruct (k <? 1); [injection E as <- <-; by right|].
  destruct (sscanf_report _) as [[c rh] rw].
  set (w3 := set_T s3 w2) in E. change (size_of w) with (size_of w3).
  destruct (decide (rv = TB_OK)) as [|Hrv]; [by left|right].
  destruct c as [|p|p]; [by injection E as _ <-| |by injection E as _ <-].
  destruct p as [p|p|]; [by injection E as _ <-| |by injection E as _ <-].
  destruct p as [p|p|]; [by injection E as _ <-|by injection E as _ <-|].
  destruct rh as [h|], rw as [wd|]; injection E as <- <-; done.
Qed.

(** The size is the one [ioctl] gives; when [ioctl] fails, the one of the
    cursor report the terminal sends for a cursor moved beyond any corner; and
    every other way to fail is [TB_ERR_RESIZE_IOCTL], with the [errno] of
    [ioctl] and the size left as it was. *)
Theorem term_size_correct w :
  0 <= rfd (G w) < FD_SETSIZE -> 0 <= ttyfd (G w) ->
  (forall rows cols zs, s_winsz (T w) = inr (rows, cols) :: zs ->
     update_term_size w = (Ret TB_OK, sized (wrapu 16 cols) (wrapu 16 rows) (set_T (set_winsz zs (T w)) w))) /\
  (forall err zs width height r ss rs, s_winsz (T w) = inl err :: zs ->
     0 <= width <= INT_MAX -> 0 <= height <= INT_MAX -> s_write (T w) = [] ->
     s_select (T w) = SelReady true r :: ss -> s_read (T w) = RData (size_report width height) :: rs ->
     update_term_size w = (Ret TB_OK, sized width height
       (set_T (set_read rs (set_select ss (set_out (s_out (T w) ++ size_request)
         (set_errno err (set_winsz zs (T w)))))) w))) /\
  (forall err zs rv w', s_winsz (T w) = inl err :: zs -> update_term_size w = (Ret rv, w') ->
     rv = TB_OK \/ rv = TB_ERR_RESIZE_IOCTL /\ size_of w' = size_of w /\ last_errno (G w') = err).
Proof.
  intros Hf Ht.
  assert (forall r rc s', sys_winsize (T w) = (Ret (r, rc), s') ->
    update_term_size w = (let '(ws_row, ws_col) := rc in
      if r =? 0 then
        bind (upd (fun g => set_g_height (wrapu 16 ws_row) (set_g_width (wrapu 16 ws_col) g))) (fun _ => ret TB_OK)
      else bind (tsys sys_errno) (fun ioctl_errno => bind update_term_size_via_esc (fun rv =>
        if rv =? TB_OK then ret rv else
        bind (upd (set_last_errno ioctl_errno)) (fun _ => ret TB_ERR_RESIZE_IOCTL)))) (set_T s' w)) as Hstart.
  { intros r [a b] s' E. unfold update_term_size.
    mrun (eq_refl : glob ttyfd w = (Ret (ttyfd (G w)), w)). rewrite (proj2 (Z.ltb_ge _ 0)) by lia.
    by mrun (tsys_ret _ w _ _ E). }
  split; [|split].
  - intros rows cols zs Hz. rewrite (Hstart 0 (rows, cols) (set_winsz zs (T w))) by (unfold sys_winsize; by rewrite Hz).
    done.
  - intros err zs width height r ss rs Hz Hw Hh Hwr Hs Hr.
    rewrite (Hstart (-1) (0, 0) (set_errno err (set_winsz zs (T w)))) by (unfold sys_winsize; by rewrite Hz).
    cbv beta iota. change (-1 =? 0) with false. cbv iota. set (w1 := set_T _ w).
    mrun (eq_refl : tsys sys_errno w1 = (Ret err, w1)).
    mrun (via_esc_report width height w1 r ss rs Hf Hw Hh Hwr Hs Hr). done.
  - intros err zs rv w' Hz E.
    rewrite (Hstart (-1) (0, 0) (set_errno err (set_winsz zs (T w)))) in E by (unfold sys_winsize; by rewrite Hz).
    cbv beta iota in E. change (-1 =? 0) with false in E. cbv iota in E. set (w1 := set_T _ w) in E.
    rewrite (bind_ret _ _ _ _ _ (eq_refl : tsys sys_errno w1 = (Ret err, w1))) in E.
    unfold bind at 1 in E. destruct (update_term_size_via_esc w1) as [[rv1| | |] w2] eqn:E2; [|done..].
    destruct (Z.eqb_spec rv1 TB_OK) as [->|Hrv]; [injection E as <- _; by left|].
    injection E as <- <-. right. split; [done|]. split; [|done].
    destruct (via_esc_fails w1 rv1 w2 E2) as [|Hsz]; [done|]. exact Hsz.
Qed.

Lemma term_size_correct_witness :
  let w := waiting TB_INPUT_ESC [SelReady true false] [RData (size_report 132 43)] [inl 25] in
  update_term_size w = (Ret TB_OK, sized 132 43
    (set_T (set_read [] (set_select [] (set_out (s_out (T w) ++ size_request)
      (set_errno 25 (set_winsz [] (T w)))))) w)).
Proof.
  intros w. apply (proj1 (proj2 (term_size_correct w ltac:(split; vm_compute; done) ltac:(vm_compute; done))) 25 []
    132 43 false [] []).
  - reflexivity.
  - unfold INT_MAX. lia.
  - unfold INT_MAX. lia.
  - reflexivity.
  - reflexivity.
  - reflexivity.
Defined.

(** When the resize pipe is readable, a wait takes one signal from it, reads
    the new size, resizes the buffers and redraws nothing but a blank screen,
    and returns the resize event with that size. *)
Theorem resize_event_correct `{config} capsT C timeout w rows cols zs ss :
  idle capsT w -> s_select (T w) = SelReady false true :: ss -> e_pipe_data (X w) <> [] ->
  0 <= ttyfd (G w) -> s_winsz (T w) = inr (rows, cols) :: zs ->
  cb_wf (back (G w)) -> cb_wf (front (G w)) -> small (back (G w)) -> small (front (G w)) ->
  1 <= cb_width (back (G w)) -> 1 <= cb_height (back (G w)) ->
  1 <= cb_width (front (G w)) -> 1 <= cb_height (front (G w)) ->
  is_int (Z.max 1 (wrapu 16 cols) * Z.max 1 (wrapu 16 rows)) ->
  caps (G w) = C -> caps_full C -> room w (clear_cost C) -> s_write (T w) = [] ->
  exists w', tb_peek_event timeout w =
      (Ret (TB_OK, Some (mk_event TB_EVENT_RESIZE 0 0 0 (wrapu 16 cols) (wrapu 16 rows) 0 0)), w') /\
    resized (sized (wrapu 16 cols) (wrapu 16 rows) w) w' /\ size_of w' = (wrapu 16 cols, wrapu 16 rows) /\
    bb_bytes (g_out (G w')) = [].
Proof.
  intros Hw Hs Hd Ht Hz HB HF SB SF B1 B2 F1 F2 Hi HC Hfull Hroom Hwr.
  set (w1 := set_X (set_e_pipe_data (drop 4 (e_pipe_data (X w))) (X w))
    (set_T (set_select ss (T w)) w)).
  set (w2 := sized (wrapu 16 cols) (wrapu 16 rows) (set_T (set_winsz zs (T w1)) w1)).
  destruct (resize_cellbufs_spec C w2) as (w3 & E3 & Hres & Hbb & _ & He & _); try done.
  exists w3.
  assert (size_of w3 = (wrapu 16 cols, wrapu 16 rows)) as Hsz.
  { unfold size_of. apply (f_equal (fun g => (g_width g, g_height g))) in He. exact He. }
  split; [|split; [exact Hres|split; [exact Hsz|exact Hbb]]].
  apply (peek_stops capsT timeout w
    (TB_OK, mk_event TB_EVENT_RESIZE 0 0 0 (wrapu 16 cols) (wrapu 16 rows) 0 0) w3 Hw).
  rewrite (wait_body_select capsT event_zero w 1 false true (set_select ss (T w)) (proj2 Hw))
    by (unfold sys_select; by rewrite Hs).
  change (1 <? 0) with false. change (1 =? 0) with false. cbv iota.
  set (w0 := set_T _ w). mrun (eq_refl : ret true w0 = (Ret true, w0)). cbn [negb].
  assert (pipe_read w0 = (Ret tt, w1)) as Ep.
  { unfold pipe_read. mrun (eq_refl : gets X w0 = (Ret (X w0), w0)). change (X w0) with (X w).
    subst w1. by destruct (e_pipe_data (X w)). }
  mrun Ep.
  assert (update_term_size w1 = (Ret TB_OK, w2)) as Eu.
  { unfold update_term_size. mrun (eq_refl : glob ttyfd w1 = (Ret (ttyfd (G w)), w1)).
    rewrite (proj2 (Z.ltb_ge _ 0)) by lia.
    assert (tsys sys_winsize w1 = (Ret (0, (rows, cols)), set_T (set_winsz zs (T w1)) w1)) as Ew.
    { apply tsys_ret. unfold sys_winsize. change (s_winsz (T w1)) with (s_winsz (T w)). by rewrite Hz. }
    by mrun Ew. }
  assert ((if_err_return update_term_size (if_err_return resize_cellbufs (ret TB_OK))) w1 = (Ret TB_OK, w3)) as E.
  { unfold if_err_return at 1. mrun Eu. change (negb (TB_OK =? TB_OK)) with false. cbv iota.
    unfold if_err_return at 1. by mrun E3. }
  mrun E. change (negb (TB_OK =? TB_OK)) with false. cbv iota.
  mrun (eq_refl : gets G w3 = (Ret (G w3), w3)). unfold size_of in Hsz. injection Hsz as -> ->. done.
Qed.

Lemma resize_event_correct_witness :
  let w := waiting TB_INPUT_ESC [SelReady false true] [] [inr (2, 3)] in
  exists w', @tb_peek_event default_config (-1) w =
      (Ret (TB_OK, Some (mk_event TB_EVENT_RESIZE 0 0 0 (wrapu 16 3) (wrapu 16 2) 0 0)), w') /\
    @resized default_config (sized (wrapu 16 3) (wrapu 16 2) w) w' /\ size_of w' = (wrapu 16 3, wrapu 16 2) /\
    bb_bytes (g_out (G w')) = [].
Proof.
  intros w. apply (@resize_event_correct default_config xterm_caps (Some <$> xterm_caps) (-1) w 2 3 [] []).
  - apply waiting_idle.
  - reflexivity.
  - discriminate.
  - vm_compute. discriminate.
  - reflexivity.
  - exact demo_back_wf.
  - exact (p_front _ _ _ _ demo_presentable).
  - intros l [= <-]. repeat (apply Forall_cons; split; [vm_compute; discriminate|]). constructor.
  - intros l [= <-]. repeat (apply Forall_cons; split; [vm_compute; discriminate|]). constructor.
  - vm_compute. discriminate.
  - vm_compute. discriminate.
  - vm_compute. discriminate.
  - vm_compute. discriminate.
  - split; vm_compute; discriminate.
  - reflexivity.
  - exact xterm_caps_ok.
  - split; [exact wf_zero|]. split; [reflexivity|]. vm_compute. discriminate.
  - reflexivity.
Defined.
