(* ===== verification/TbTerminfo.v ===== *)
(** * life/termbox2.h: the capabilities of the terminal

    A capability is the object its pointer points into, from the pointer on:
    [Some] of the rest of the terminfo entry, or of a string literal.  A file
    that cannot be opened or read is one [e_file] does not have. *)

From stdpp Require Import prelude list_numbers strings.
From Stdlib Require Import ZArith Zquot Lia.
From S2P Require Import Prelude CLib Posix TbTables TbText TbBuf TbTrie TbGlobal TbOutput TbPresent TbApi.
Open Scope Z_scope.

Definition TB_PATH_MAX : Z := 4096.

Definition getenv (v : list Z) : M tbw (option (list Z)) := let* x := gets X in ret (e_var x v).

(** [snprintf_or_return (rv, tmp, sizeof (tmp), ...)] of the text [s], then [k]. *)
Definition snprintf_or_return (s : list Z) (k : list Z -> M tbw Z) : M tbw Z :=
  if TB_PATH_MAX <=? Z.of_nat (length s) then ret TB_ERR else k s.

(** [if_ok_return (rv, m)] followed by [k]. *)
Definition if_ok_return (m k : M tbw Z) : M tbw Z :=
  let* rv := m in if rv =? TB_OK then ret rv else k.

Definition read_terminfo_path (path : list Z) : M tbw Z :=
  let* x := gets X in
  match e_file x (cstr path) with
  | None => ret TB_ERR
  | Some data =>
      let fsize := Z.of_nat (length data) in
      let* ok := tsys (tb_malloc (fsize + 1)) in
      if ok : bool then
        upd (fun g => set_nterminfo fsize (set_terminfo (Some (data ++ [0])) g)) ;;;
        ret TB_OK
      else ret TB_ERR
  end.

(** [term[0]] of an empty string is its terminator. *)
Definition load_terminfo_from_path (path term : list Z) : M tbw Z :=
  snprintf_or_return (path ++ lit "/" ++ [default 0 (term !! 0%nat)] ++ lit "/" ++ term) (fun tmp =>
  if_ok_return (read_terminfo_path tmp) (ret TB_ERR)).

(** [strtok (s, ":")] until it returns NULL: it never returns an empty token. *)
Fixpoint strtok_colon (cur s : list Z) : list (list Z) :=
  let done_ := match cur with [] => [] | _ => [cur] end in
  match s with
  | [] => done_
  | c :: s' => if c =? 58 then done_ ++ strtok_colon [] s' else strtok_colon (cur ++ [c]) s'
  end.

Fixpoint load_from_dirs (dirs : list (list Z)) (term : list Z) (k : M tbw Z) : M tbw Z :=
  match dirs with
  | [] => k
  | d :: dirs' => if_ok_return (load_terminfo_from_path d term) (load_from_dirs dirs' term k)
  end.

Definition common_dirs : list (list Z) :=
  [lit "/usr/local/etc/terminfo"; lit "/usr/local/share/terminfo"; lit "/usr/local/lib/terminfo";
   lit "/etc/terminfo"; lit "/usr/share/terminfo"; lit "/usr/lib/terminfo";
   lit "/usr/share/lib/terminfo"; lit "/lib/terminfo"].

Definition load_terminfo : M tbw Z :=
  let* term := getenv (lit "TERM") in
  match term with
  | None => ret TB_ERR
  | Some term =>
      let* terminfo := getenv (lit "TERMINFO") in
      load_from_dirs (match terminfo with Some d => [d] | None => [] end) term (
      let* home := getenv (lit "HOME") in
      let after_home : M tbw Z :=
        let* dirs := getenv (lit "TERMINFO_DIRS") in
        let common := load_from_dirs common_dirs term (ret TB_ERR) in
        match dirs with
        | Some dirs => snprintf_or_return dirs (fun tmp => load_from_dirs (strtok_colon [] tmp) term common)
        | None => common
        end in
      match home with
      | Some home => snprintf_or_return (home ++ lit "/.terminfo") (fun tmp =>
          if_ok_return (load_terminfo_from_path tmp term) after_home)
      | None => after_home
      end)
  end.

(** The result and [*val]; the host is little-endian. *)
Definition get_terminfo_int16 (offset : Z) : M tbw (Z * Z) :=
  let* n := glob nterminfo in
  if (offset <? 0) || (n <? offset + 2) then ret (TB_ERR, -1) else
  let* t := glob terminfo in
  let* data := deref t in
  let* b0 := deref (zlookup data offset) in
  let* b1 := deref (zlookup data (offset + 1)) in
  ret (TB_OK, wraps 16 (b0 + 256 * b1)).

(** A pointer before the entry is undefined. *)
Definition get_terminfo_string (offsets_pos offsets_len table_pos table_size index : Z) :
    M tbw (option (list Z)) :=
  let offsets_pos := wraps 16 offsets_pos in
  let table_pos := wraps 16 table_pos in
  if offsets_len <=? index then ret (Some [0]) else
  let* ' (rv, table_offset) := get_terminfo_int16 (offsets_pos + index * 2) in
  if negb (rv =? TB_OK) then ret None else
  if (table_offset <? 0) || (table_size <=? table_offset) then ret (Some [0]) else
  let str_offset := table_pos + table_offset in
  let* n := glob nterminfo in
  if wraps 32 n <=? str_offset then ret None else
  let* t := glob terminfo in
  let* data := deref t in
  if str_offset <? 0 then fault else ret (Some (drop (Z.to_nat str_offset) data)).

(** [for (i = 0; i < TB_CAP__COUNT; i++)] *)
Fixpoint load_caps (idx : list Z) (i : Z) (get : Z -> M tbw (option (list Z))) : M tbw Z :=
  match idx with
  | [] => ret TB_OK
  | index :: idx' =>
      let* cap := get index in
      match cap with
      | None => ret TB_ERR
      | Some cap =>
          let* l := glob caps in
          let* l := deref (zupdate l i (Some cap)) in
          upd (set_caps l) ;;;
          load_caps idx' (i + 1) get
      end
  end.

Definition parse_terminfo_caps : M tbw Z :=
  let* n := glob nterminfo in
  if n <? 12 then ret TB_ERR else
  let* ' (_, magic_number) := get_terminfo_int16 0 in
  let* ' (_, nbytes_names) := get_terminfo_int16 2 in
  let* ' (_, nbytes_bools) := get_terminfo_int16 4 in
  let* ' (_, num_ints) := get_terminfo_int16 6 in
  let* ' (_, num_offsets) := get_terminfo_int16 8 in
  let* ' (_, nbytes_strings) := get_terminfo_int16 10 in
  let bytes_per_int := if magic_number =? 542 then 4 else 2 in
  let align_offset := if negb (Z.rem (nbytes_names + nbytes_bools) 2 =? 0) then 1 else 0 in
  let pos_str_offsets := wraps 32 (12 + nbytes_names + nbytes_bools + align_offset + num_ints * bytes_per_int) in
  let pos_str_table := wraps 32 (pos_str_offsets + num_offsets * 2) in
  load_caps terminfo_cap_indexes 0
    (get_terminfo_string pos_str_offsets num_offsets pos_str_table nbytes_strings).

(** [strstr (s, p) != NULL] *)
Fixpoint strstr (s p : list Z) : bool :=
  bool_decide (p `prefix_of` s) || match s with [] => false | _ :: s' => strstr s' p end.

Definition load_builtin_caps : M tbw Z :=
  let* term := getenv (lit "TERM") in
  match term with
  | None => ret TB_ERR_NO_TERM
  | Some term =>
      let exact := find (fun '(name, _, _) => bool_decide (term = name)) builtin_terms in
      let partial := find (fun '(name, _, alias) =>
        strstr term name || negb (bool_decide (alias = [])) && strstr term alias) builtin_terms in
      match match exact with Some t => Some t | None => partial end with
      | Some (_, c, _) => upd (set_caps (Some <$> c)) ;;; ret TB_OK
      | None => ret TB_ERR_UNSUPPORTED_TERM
      end
  end.

Definition init_term_caps : M tbw Z :=
  let* rv := load_terminfo in
  if rv =? TB_OK then parse_terminfo_caps else load_builtin_caps.

(** ** Lemmas *)

(** *** Compiled entries *)

Definition le16 (z : Z) : list Z := [z mod 256; z / 256 mod 256].
Definition le32 (z : Z) : list Z := [z mod 256; z / 256 mod 256; z / 65536 mod 256; z / 16777216 mod 256].

Record entry := {
  en_wide : bool;
  en_names : list Z;
  en_bools : list Z;
  en_ints : list Z;
  en_strs : list (option (list Z))
}.

(** The offsets of the strings and the table they point into. *)
Fixpoint en_layout (off : Z) (strs : list (option (list Z))) : list Z * list Z :=
  match strs with
  | [] => ([], [])
  | None :: l => let '(os, t) := en_layout off l in (-1 :: os, t)
  | Some s :: l =>
      let '(os, t) := en_layout (off + Z.of_nat (length s) + 1) l in (off :: os, s ++ 0 :: t)
  end.

Definition en_table (e : entry) : list Z := snd (en_layout 0 (en_strs e)).

Definition en_header (e : entry) : list Z :=
  concat (le16 <$> [if en_wide e then 542 else 282; Z.of_nat (length (en_names e)); Z.of_nat (length (en_bools e));
    Z.of_nat (length (en_ints e)); Z.of_nat (length (en_strs e)); Z.of_nat (length (en_table e))]).

Definition en_sections (e : entry) : list Z :=
  en_names e ++ en_bools e ++
  (if Z.odd (Z.of_nat (length (en_names e) + length (en_bools e))) then [0] else []) ++
  concat ((if en_wide e then le32 else le16) <$> en_ints e).

(** term(5), legacy and extended number formats. *)
Definition encode_entry (e : entry) : list Z :=
  en_header e ++ en_sections e ++ concat (le16 <$> fst (en_layout 0 (en_strs e))) ++ en_table e.

Definition entry_ok (e : entry) : Prop :=
  Z.of_nat (length (encode_entry e)) < 32768 /\
  forall s, Some s ∈ en_strs e -> Forall (fun b => b <> 0) s.

Definition entry_str (e : entry) (index : Z) : list Z := default [] (mjoin (zlookup (en_strs e) index)).

Lemma layout_length off strs : length (fst (en_layout off strs)) = length strs.
Proof.
  revert off. induction strs as [|[s|] l IH]; intros off; [done| |]; cbn [en_layout].
  - specialize (IH (off + Z.of_nat (length s) + 1)). destruct (en_layout _ l). simpl in *. by rewrite IH.
  - specialize (IH off). destruct (en_layout _ l). simpl in *. by rewrite IH.
Qed.

(** The offset of a string that is present leads to it. *)
Lemma layout_some off strs k s :
  strs !! k = Some (Some s) ->
  exists o t, fst (en_layout off strs) !! k = Some o /\ off <= o /\
    drop (Z.to_nat (o - off)) (snd (en_layout off strs)) = s ++ 0 :: t.
Proof.
  revert off k. induction strs as [|[s0|] l IH]; intros off k; [done| |]; cbn [en_layout].
  - destruct k as [|k].
    + intros [= <-]. destruct (en_layout _ l) as [os t]. exists off, t. split; [done|]. split; [lia|].
      by rewrite Z.sub_diag.
    + intros Hk. destruct (IH (off + Z.of_nat (length s0) + 1) k Hk) as (o & t & Ho & Hle & Hd).
      destruct (en_layout _ l) as [os tb]. exists o, t. cbn [fst snd] in *. split; [done|]. split; [lia|].
      replace (Z.to_nat (o - off)) with (length (s0 ++ [0%Z]) + Z.to_nat (o - (off + Z.of_nat (length s0) + 1)))%nat
        by (rewrite length_app; simpl; lia).
      rewrite <- drop_drop. change (s0 ++ 0 :: tb) with (s0 ++ [0] ++ tb). rewrite app_assoc, drop_app_length.
      done.
  - destruct k as [|k]; [done|]. intros Hk. destruct (IH off k Hk) as (o & t & Ho & Hle & Hd).
    destruct (en_layout _ l) as [os tb]. by exists o, t.
Qed.

Lemma layout_none off strs k :
  strs !! k = Some None -> fst (en_layout off strs) !! k = Some (-1).
Proof.
  revert off k. induction strs as [|[s0|] l IH]; intros off k; [done| |]; cbn [en_layout]; destruct k as [|k].
  - done.
  - intros Hk. specialize (IH (off + Z.of_nat (length s0) + 1) k Hk). by destruct (en_layout _ l).
  - by destruct (en_layout _ l).
  - intros Hk. specialize (IH off k Hk). by destruct (en_layout _ l).
Qed.

Lemma length_le16s (l : list Z) : length (concat (le16 <$> l)) = (2 * length l)%nat.
Proof. induction l as [|z l IH]; [done|]. rewrite fmap_cons. cbn [concat]. rewrite length_app, IH. simpl. lia. Qed.

Lemma drop_le16s (l : list Z) k o r :
  l !! k = Some o -> drop (2 * k) (concat (le16 <$> l) ++ r) = le16 o ++ drop (2 * S k) (concat (le16 <$> l) ++ r).
Proof.
  revert k. induction l as [|z l IH]; intros k Hk; [done|]. destruct k as [|k].
  - injection Hk as ->. done.
  - replace (2 * S k)%nat with (2 + 2 * k)%nat by lia. replace (2 * S (S k))%nat with (2 + 2 * S k)%nat by lia.
    rewrite <- !drop_drop. apply (IH k Hk).
Qed.

(** *** Reading *)

(** The entry that has been loaded. *)
Definition loaded (data : list Z) (w : tbw) : Prop :=
  terminfo (G w) = Some (data ++ [0]) /\ nterminfo (G w) = Z.of_nat (length data) /\
  Z.of_nat (length data) <= INT_MAX.

Lemma wraps16_le z : -32768 <= z < 32768 -> wraps 16 (z mod 256 + 256 * (z / 256 mod 256)) = z.
Proof.
  intros Hz. unfold wraps. change (2 ^ (16 - 1)) with 32768. change (2 ^ 16) with 65536.
  assert (z mod 256 + 256 * (z / 256 mod 256) = z mod 65536) as ->.
  { change 65536 with (256 * 256). rewrite (Z.rem_mul_r z 256 256) by lia. lia. }
  rewrite Zplus_mod_idemp_l, Z.mod_small by lia. lia.
Qed.

Lemma get_int16_spec data w (off : nat) z r :
  loaded data w -> drop off data = le16 z ++ r -> -32768 <= z < 32768 ->
  get_terminfo_int16 (Z.of_nat off) w = (Ret (TB_OK, z), w).
Proof.
  intros (Ht & Hn & _) Hd Hz. unfold get_terminfo_int16.
  mrun (eq_refl : glob nterminfo w = (Ret (nterminfo (G w)), w)). rewrite Hn.
  assert (off + 2 <= length data)%nat as Hlen.
  { apply (f_equal length) in Hd. rewrite length_drop, length_app in Hd. simpl in Hd. lia. }
  rewrite (proj2 (Z.ltb_ge (Z.of_nat off) 0)), (proj2 (Z.ltb_ge _ (Z.of_nat off + 2))) by lia. cbn [orb].
  mrun (eq_refl : glob terminfo w = (Ret (terminfo (G w)), w)). rewrite Ht.
  mrun (eq_refl : deref (Some (data ++ [0])) w = (Ret (data ++ [0]), w)).
  assert (forall j, (j < 2)%nat -> zlookup (data ++ [0]) (Z.of_nat off + Z.of_nat j) = le16 z !! j) as Hl.
  { intros j Hj. rewrite zlookup_nonneg by lia. replace (Z.to_nat (Z.of_nat off + Z.of_nat j)) with (off + j)%nat by lia.
    rewrite lookup_app_l by lia. rewrite <- lookup_drop, Hd. apply lookup_app_l. simpl. lia. }
  pose proof (Hl 0%nat ltac:(lia)) as H0. rewrite Z.add_0_r in H0. rewrite H0.
  mrun (eq_refl : deref (le16 z !! 0%nat) w = (Ret (z mod 256), w)).
  pose proof (Hl 1%nat ltac:(lia)) as H1. change (Z.of_nat 1) with 1 in H1. rewrite H1.
  mrun (eq_refl : deref (le16 z !! 1%nat) w = (Ret (z / 256 mod 256), w)).
  by rewrite wraps16_le.
Qed.

Definition with_caps (l : list (option (list Z))) (w : tbw) : tbw := set_G (set_caps l (G w)) w.

Lemma loaded_caps data l w : loaded data w -> loaded data (with_caps l w).
Proof. done. Qed.

Lemma load_caps_spec idx pre post w get (c : Z -> list Z) :
  (forall l index, index ∈ idx -> get index (with_caps l w) = (Ret (Some (c index)), with_caps l w)) ->
  length post = length idx ->
  load_caps idx (Z.of_nat (length pre)) get (with_caps (pre ++ post) w) =
    (Ret TB_OK, with_caps (pre ++ ((fun i => Some (c i)) <$> idx)) w).
Proof.
  intros Hget. revert pre post. induction idx as [|index idx IH]; intros pre post Hlen.
  - destruct post; [done|done].
  - destruct post as [|x post]; [done|]. cbn [load_caps].
    mrun (Hget (pre ++ x :: post) index ltac:(by left)).
    mrun (eq_refl : glob caps (with_caps (pre ++ x :: post) w) =
      (Ret (pre ++ x :: post), with_caps (pre ++ x :: post) w)).
    assert (zupdate (pre ++ x :: post) (Z.of_nat (length pre)) (Some (c index)) =
      Some ((pre ++ [Some (c index)]) ++ post)) as ->.
    { rewrite zupdate_range by (rewrite length_app; simpl; lia). rewrite Nat2Z.id, <- app_assoc.
      f_equal. by rewrite insert_app_r_alt, Nat.sub_diag by lia. }
    match goal with |- context [deref (Some ?p)] =>
      mrun (eq_refl : deref (Some p) (with_caps (pre ++ x :: post) w) = (Ret p, with_caps (pre ++ x :: post) w)) end.
    match goal with |- context [upd (set_caps ?l)] =>
      mrun (eq_refl : upd (set_caps l) (with_caps (pre ++ x :: post) w) = (Ret tt, with_caps l w)) end.
    replace (Z.of_nat (length pre) + 1) with (Z.of_nat (length (pre ++ [Some (c index)])))
      by (rewrite length_app; simpl; lia).
    rewrite IH; [|intros l i Hi; apply Hget; by right|by injection Hlen].
    by rewrite <- app_assoc.
Qed.

(** The header of an entry. *)
Lemma header_read e rest w (k : nat) z :
  loaded (encode_entry e ++ rest) w ->
  [if en_wide e then 542 else 282; Z.of_nat (length (en_names e)); Z.of_nat (length (en_bools e));
    Z.of_nat (length (en_ints e)); Z.of_nat (length (en_strs e)); Z.of_nat (length (en_table e))] !! k = Some z ->
  -32768 <= z < 32768 -> get_terminfo_int16 (2 * Z.of_nat k) w = (Ret (TB_OK, z), w).
Proof.
  intros Hl Hk Hz. replace (2 * Z.of_nat k) with (Z.of_nat (2 * k)) by lia.
  eapply get_int16_spec; [done| |done]. unfold encode_entry. rewrite <- app_assoc. by apply drop_le16s.
Qed.

Definition pos_offsets (e : entry) : Z := Z.of_nat (length (en_header e ++ en_sections e)).
Definition pos_table (e : entry) : Z := pos_offsets e + 2 * Z.of_nat (length (en_strs e)).

Lemma entry_sizes e :
  Z.of_nat (length (encode_entry e)) = pos_table e + Z.of_nat (length (en_table e)) /\
  length (en_header e) = 12%nat /\
  pos_offsets e = 12 + Z.of_nat (length (en_names e)) + Z.of_nat (length (en_bools e)) +
    (if Z.odd (Z.of_nat (length (en_names e) + length (en_bools e))) then 1 else 0) +
    Z.of_nat (length (en_ints e)) * (if en_wide e then 4 else 2).
Proof.
  assert (length (en_header e) = 12%nat) as Hh by done.
  assert (length (concat ((if en_wide e then le32 else le16) <$> en_ints e)) =
    (length (en_ints e) * (if en_wide e then 4 else 2))%nat) as Hi.
  { induction (en_ints e) as [|z l IH]; [done|]. rewrite fmap_cons. cbn [concat].
    rewrite length_app, IH. destruct (en_wide e); simpl; lia. }
  split; [|split; [done|]].
  - unfold encode_entry, pos_table, pos_offsets. rewrite !length_app, length_le16s, layout_length. lia.
  - unfold pos_offsets, en_sections. rewrite !length_app, Hh, Hi. destruct (Z.odd _), (en_wide e); simpl; lia.
Qed.

(** A capability of an entry. *)
Lemma get_string_spec e rest w index :
  entry_ok e -> loaded (encode_entry e ++ rest) w -> 0 <= index ->
  exists c, cstr c = entry_str e index /\
    forall l, get_terminfo_string (pos_offsets e) (Z.of_nat (length (en_strs e))) (pos_table e)
      (Z.of_nat (length (en_table e))) index (with_caps l w) = (Ret (Some c), with_caps l w).
Proof.
  intros [Hsz Hnz] Hl Hi. destruct (entry_sizes e) as (Hlen & Hh & _).
  set (os := fst (en_layout 0 (en_strs e))).
  assert (length os = length (en_strs e)) as Hos by apply layout_length.
  unfold get_terminfo_string, entry_str. rewrite !wraps_id by (simpl; unfold pos_table, pos_offsets in *; lia).
  destruct (Z.leb_spec (Z.of_nat (length (en_strs e))) index) as [Hge|Hlt].
  { exists [0]. split; [|done]. rewrite zlookup_nonneg, lookup_ge_None_2 by lia. done. }
  destruct (lookup_lt_is_Some_2 (en_strs e) (Z.to_nat index)) as [so Hso]; [lia|].
  rewrite zlookup_nonneg, Hso by lia.
  assert (forall o, os !! Z.to_nat index = Some o -> -32768 <= o < 32768 -> forall l,
    get_terminfo_int16 (pos_offsets e + index * 2) (with_caps l w) = (Ret (TB_OK, o), with_caps l w)) as Hread.
  { intros o Ho Hr l. unfold pos_offsets.
    replace (Z.of_nat (length (en_header e ++ en_sections e)) + index * 2)
      with (Z.of_nat (length (en_header e ++ en_sections e) + 2 * Z.to_nat index)) by lia.
    eapply get_int16_spec; [by apply loaded_caps| |done].
    unfold encode_entry. rewrite <- !app_assoc, (app_assoc (en_header e)), <- drop_drop, drop_app_length.
    by apply drop_le16s. }
  destruct so as [s|].
  - destruct (layout_some 0 (en_strs e) (Z.to_nat index) s Hso) as (o & t & Ho & Ho0 & Hd).
    fold os in Ho. rewrite Z.sub_0_r in Hd. fold (en_table e) in Hd.
    assert (Z.to_nat o < length (en_table e))%nat as Hot.
    { apply (f_equal length) in Hd. rewrite length_drop, length_app in Hd. simpl in Hd. lia. }
    exists (s ++ 0 :: t ++ rest ++ [0]). split.
    { simpl. apply cstr_app_stop. apply Hnz. by eapply list_elem_of_lookup_2. }
    intros l. mrun (Hread o Ho ltac:(unfold pos_table, pos_offsets in *; lia) l).
    change (negb (TB_OK =? TB_OK)) with false. cbv iota.
    rewrite (proj2 (Z.ltb_ge o 0)), (proj2 (Z.leb_gt _ o)) by lia. cbn [orb].
    mrun (eq_refl : glob nterminfo (with_caps l w) = (Ret (nterminfo (G w)), with_caps l w)).
    destruct Hl as (Ht & Hn & Hmax). rewrite Hn, wraps32_id by (unfold is_int, INT_MIN, INT_MAX in *; lia).
    rewrite length_app, (proj2 (Z.leb_gt _ _)) by lia.
    mrun (eq_refl : glob terminfo (with_caps l w) = (Ret (terminfo (G w)), with_caps l w)). rewrite Ht.
    match goal with |- context [deref (Some ?p)] => mrun (eq_refl : deref (Some p) (with_caps l w) = (Ret p, with_caps l w)) end.
    rewrite (proj2 (Z.ltb_ge _ 0)) by (unfold pos_table, pos_offsets; lia).
    unfold ret. do 3 f_equal.
    replace (Z.to_nat (pos_table e + o)) with
      (length (en_header e ++ en_sections e ++ concat (le16 <$> os)) + Z.to_nat o)%nat
      by (unfold pos_table, pos_offsets; rewrite !length_app, length_le16s; lia).
    unfold encode_entry. fold os. rewrite <- !app_assoc.
    replace (en_header e ++ en_sections e ++ concat (le16 <$> os) ++ en_table e ++ rest ++ [0])
      with ((en_header e ++ en_sections e ++ concat (le16 <$> os)) ++ en_table e ++ rest ++ [0])
      by (by rewrite <- !app_assoc).
    rewrite <- drop_drop, drop_app_length, drop_app_le, Hd by lia. by rewrite <- app_assoc.
  - exists [0]. split; [done|]. intros l.
    mrun (Hread (-1) (layout_none 0 (en_strs e) (Z.to_nat index) Hso) ltac:(lia) l). done.
Qed.

Lemma caps_indexes : length terminfo_cap_indexes = Z.to_nat TB_CAP__COUNT /\ Forall (fun i => 0 <= i < 16384) terminfo_cap_indexes.
Proof. split; [reflexivity|]. repeat (apply Forall_cons; split; [lia|]). constructor. Qed.

Lemma choose_caps {B} (P : Z -> B -> Prop) (idx : list Z) :
  (forall i, i ∈ idx -> exists c, P i c) -> inhabited B -> exists f : Z -> B, forall i, i ∈ idx -> P i (f i).
Proof.
  intros H [b]. induction idx as [|x idx IH]; [exists (fun _ => b); by intros i ?%not_elem_of_nil|].
  destruct IH as [f Hf]; [intros i Hi; apply H; by right|]. destruct (H x) as [c Hc]; [by left|].
  exists (fun i => if decide (i = x) then c else f i). intros i Hi. case_decide as E; [by subst|].
  apply elem_of_cons in Hi as [->|Hi]; [done|by apply Hf].
Qed.

(** *** Any file *)

(** A field of the header of any file of at least that length. *)
Definition field (data : list Z) (k : nat) : Z :=
  wraps 16 (default 0 (data !! (2 * k)%nat) + 256 * default 0 (data !! (2 * k + 1)%nat)).

Definition file_offsets (data : list Z) : Z :=
  12 + field data 1 + field data 2 + (if Z.odd (field data 1 + field data 2) then 1 else 0) +
  field data 3 * (if field data 0 =? 542 then 4 else 2).

Definition file_table (data : list Z) : Z := file_offsets data + field data 4 * 2.

Lemma field_range data k : -32768 <= field data k < 32768.
Proof. apply (wraps_range 16). lia. Qed.

Lemma get_int16_total data w off :
  loaded data w ->
  (off < 0 \/ Z.of_nat (length data) < off + 2) /\ get_terminfo_int16 off w = (Ret (TB_ERR, -1), w) \/
  0 <= off /\ off + 2 <= Z.of_nat (length data) /\ exists b0 b1,
    data !! Z.to_nat off = Some b0 /\ data !! Z.to_nat (off + 1) = Some b1 /\
    get_terminfo_int16 off w = (Ret (TB_OK, wraps 16 (b0 + 256 * b1)), w).
Proof.
  intros (Ht & Hn & _). unfold get_terminfo_int16.
  mrun (eq_refl : glob nterminfo w = (Ret (nterminfo (G w)), w)). rewrite Hn.
  destruct (Z.ltb_spec off 0); [by left; auto|].
  destruct (Z.ltb_spec (Z.of_nat (length data)) (off + 2)); [by left; auto|].
  right. split; [done|]. split; [lia|].
  destruct (lookup_lt_is_Some_2 data (Z.to_nat off)) as [b0 E0]; [lia|].
  destruct (lookup_lt_is_Some_2 data (Z.to_nat (off + 1))) as [b1 E1]; [lia|].
  exists b0, b1. split; [done|]. split; [done|]. cbn [orb].
  mrun (eq_refl : glob terminfo w = (Ret (terminfo (G w)), w)). rewrite Ht.
  mrun (eq_refl : deref (Some (data ++ [0])) w = (Ret (data ++ [0]), w)).
  rewrite !zlookup_nonneg, !lookup_app_l, E0 by lia.
  mrun (eq_refl : deref (Some b0) w = (Ret b0, w)). rewrite E1. done.
Qed.

Lemma field_read data w (k : nat) :
  loaded data w -> (2 * k + 2 <= length data)%nat ->
  get_terminfo_int16 (2 * Z.of_nat k) w = (Ret (TB_OK, field data k), w).
Proof.
  intros Hl Hk. destruct (get_int16_total data w (2 * Z.of_nat k) Hl) as [[? _]|(_ & _ & b0 & b1 & H0 & H1 & E)].
  - lia.
  - rewrite E. unfold field.
    replace (Z.to_nat (2 * Z.of_nat k)) with (2 * k)%nat in H0 by lia.
    replace (Z.to_nat (2 * Z.of_nat k + 1)) with (2 * k + 1)%nat in H1 by lia.
    by rewrite H0, H1.
Qed.

Definition ends (o : option (list Z)) : Prop := forall c, o = Some c -> 0 ∈ c.

Lemma get_string_total data w pos size index :
  loaded data w -> -32768 <= pos -> pos + field data 4 * 2 <= 32767 -> 0 <= index ->
  exists o, get_terminfo_string pos (field data 4) (pos + field data 4 * 2) size index w = (Ret o, w) /\ ends o.
Proof.
  intros Hl Hp Ht Hi. unfold get_terminfo_string.
  destruct (Z.leb_spec (field data 4) index); [eexists; split; [done|]; intros c [= <-]; by left|].
  pose proof (field_range data 4).
  rewrite !wraps_id by (simpl; lia).
  destruct (get_int16_total data w (pos + index * 2) Hl) as [[_ E]|(Ho & _ & b0 & b1 & _ & _ & E)]; mrun E.
  { by exists None. }
  change (negb (TB_OK =? TB_OK)) with false. cbv iota. set (o := wraps 16 (b0 + 256 * b1)).
  destruct (Z.ltb_spec o 0); [eexists; split; [done|]; intros c [= <-]; by left|].
  destruct (Z.leb_spec size o); [eexists; split; [done|]; intros c [= <-]; by left|]. cbn [orb].
  destruct Hl as (Htm & Hn & Hmax).
  mrun (eq_refl : glob nterminfo w = (Ret (nterminfo (G w)), w)).
  rewrite Hn, wraps32_id by (unfold is_int, INT_MIN, INT_MAX in *; lia).
  destruct (Z.leb_spec (Z.of_nat (length data)) (pos + field data 4 * 2 + o)); [by exists None|].
  mrun (eq_refl : glob terminfo w = (Ret (terminfo (G w)), w)). rewrite Htm.
  mrun (eq_refl : deref (Some (data ++ [0])) w = (Ret (data ++ [0]), w)).
  rewrite (proj2 (Z.ltb_ge _ 0)) by lia. eexists. split; [done|]. intros c [= <-].
  rewrite drop_app_le by lia. apply elem_of_app. right. by left.
Qed.

Lemma load_caps_total data idx i w get :
  (forall w' index, index ∈ idx -> loaded data w' -> exists o, get index w' = (Ret o, w') /\ ends o) ->
  loaded data w -> (i + length idx <= length (caps (G w)))%nat ->
  exists rv l, load_caps idx (Z.of_nat i) get w = (Ret rv, with_caps l w) /\ (rv = TB_OK \/ rv = TB_ERR) /\
    length l = length (caps (G w)) /\ take i l = take i (caps (G w)) /\
    (rv = TB_OK -> forall j, (i <= j < i + length idx)%nat -> exists c, l !! j = Some (Some c) /\ 0 ∈ c).
Proof.
  intros Hget. revert i w. induction idx as [|index idx IH]; intros i w Hl Hlen; cbn [load_caps].
  { exists TB_OK, (caps (G w)). split; [by destruct w as [[] ? ?]|]. split; [by left|]. split; [done|].
    split; [done|]. intros _ j Hj. simpl in Hj. lia. }
  destruct (Hget w index ltac:(by left) Hl) as (o & E & Ho). mrun E. destruct o as [c|].
  2: { exists TB_ERR, (caps (G w)). split; [by destruct w as [[] ? ?]|]. split; [by right|]. done. }
  simpl in Hlen. mrun (eq_refl : glob caps w = (Ret (caps (G w)), w)).
  rewrite zupdate_range, Nat2Z.id by lia. set (l1 := <[i := Some c]> (caps (G w))).
  mrun (eq_refl : deref (Some l1) w = (Ret l1, w)).
  mrun (eq_refl : upd (set_caps l1) w = (Ret tt, with_caps l1 w)).
  replace (Z.of_nat i + 1) with (Z.of_nat (S i)) by lia.
  destruct (IH ltac:(intros w' j Hj; apply Hget; by right) (S i) (with_caps l1 w)) as (rv & l & E2 & Hrv & Hll & Ht & Hok).
  - done.
  - cbn. unfold l1. rewrite length_insert. lia.
  - exists rv, l. split; [exact E2|]. split; [done|].
    assert (length l = length (caps (G w))) as Hll' by (rewrite Hll; apply length_insert).
    split; [done|]. change (caps (G (with_caps l1 w))) with l1 in Ht.
    assert (forall j, (j < S i)%nat -> l !! j = l1 !! j) as Hlk.
    { intros j Hj. rewrite <- (lookup_take_lt l (S i) j), Ht, lookup_take_lt by lia. done. }
    split.
    + apply list_eq. intros j. destruct (decide (j < i)%nat).
      * rewrite !lookup_take_lt, Hlk by lia. apply list_lookup_insert_ne. lia.
      * by rewrite !lookup_take_ge by lia.
    + intros Hrv' j Hj. simpl in Hj. destruct (decide (j = i)) as [->|]; [|apply Hok; [done|lia]].
      exists c. split; [|by apply Ho]. rewrite Hlk by lia. apply list_lookup_insert_eq. lia.
Qed.

(** *** Where the entry is looked for *)

(** Strings without empty ones, separated by colons. *)
Definition entry_path (term dir : list Z) : list Z :=
  dir ++ lit "/" ++ [default 0 (term !! 0%nat)] ++ lit "/" ++ term.

(** The directories of terminfo(5), in its order. *)
Definition search_dirs (x : env) : list (list Z) :=
  match e_var x (lit "TERMINFO") with Some d => [d] | None => [] end ++
  match e_var x (lit "HOME") with Some h => [h ++ lit "/.terminfo"] | None => [] end ++
  match e_var x (lit "TERMINFO_DIRS") with Some ds => strtok_colon [] ds | None => [] end ++
  common_dirs.

Definition files (x : env) (term : list Z) (dirs : list (list Z)) : list (list Z) :=
  omap (fun d => e_file x (cstr (entry_path term d))) dirs.

Definition with_entry (data : list Z) (w : tbw) : tbw :=
  set_G (set_nterminfo (Z.of_nat (length data)) (set_terminfo (Some (data ++ [0])) (G w))) w.

Definition path_fits (term d : list Z) : Prop := Z.of_nat (length (entry_path term d)) < TB_PATH_MAX.

Lemma load_path_spec w term d :
  path_fits term d -> s_alloc (T w) = [] ->
  (forall p data, e_file (X w) p = Some data -> Z.of_nat (length data) < PTRDIFF_MAX) ->
  load_terminfo_from_path d term w =
    match e_file (X w) (cstr (entry_path term d)) with
    | Some data => (Ret TB_OK, with_entry data w)
    | None => (Ret TB_ERR, w)
    end.
Proof.
  intros Hp Ha Hf. unfold load_terminfo_from_path, snprintf_or_return. fold (entry_path term d).
  rewrite (proj2 (Z.leb_gt _ _)) by exact Hp. unfold if_ok_return, read_terminfo_path. rewrite bind_assoc.
  mrun (eq_refl : gets X w = (Ret (X w), w)).
  destruct (e_file (X w) (cstr (entry_path term d))) as [data|] eqn:E; [|done]. rewrite bind_assoc.
  destruct (tb_malloc_ret (Z.of_nat (length data) + 1) (T w)) as (ok & s' & Em & _ & Hok).
  destruct (Hok Ha) as [-> ->]; [specialize (Hf _ _ E); lia|].
  mrun (tsys_ret _ w _ _ Em). by rewrite set_T_id.
Qed.

Lemma load_dirs_spec w term dirs k :
  Forall (path_fits term) dirs -> s_alloc (T w) = [] ->
  (forall p data, e_file (X w) p = Some data -> Z.of_nat (length data) < PTRDIFF_MAX) ->
  load_from_dirs dirs term k w =
    match files (X w) term dirs with data :: _ => (Ret TB_OK, with_entry data w) | [] => k w end.
Proof.
  intros Hd Ha Hf. induction Hd as [|d dirs Hp Hd IH]; [done|]. cbn [load_from_dirs files omap list_omap].
  unfold if_ok_return, bind. rewrite load_path_spec by done.
  destruct (e_file (X w) (cstr (entry_path term d))) as [data|]; [done|]. exact IH.
Qed.

(** An entry with the first function key, and a library that has loaded a file. *)
Definition demo_entry : entry :=
  {| en_wide := true; en_names := cs "ansi" ++ [0]; en_bools := [1; 0]; en_ints := [80; -1];
     en_strs := replicate 66 None ++ [Some [27; 79; 80]; Some []; None] |}.

Definition file_world (data : list Z) : tbw := with_entry data demo_tbw.

Lemma file_world_loaded data : Z.of_nat (length data) <= INT_MAX -> loaded data (file_world data).
Proof. done. Qed.

(** ** Properties *)

(** C23: from a compiled entry in either number format, whatever extended section
    follows it, [parse_terminfo_caps] gets every capability: its string, or the
    empty string where the entry has none. *)
Theorem terminfo_roundtrip e rest w :
  entry_ok e -> loaded (encode_entry e ++ rest) w -> length (caps (G w)) = Z.to_nat TB_CAP__COUNT ->
  exists l, parse_terminfo_caps w = (Ret TB_OK, with_caps l w) /\ length l = Z.to_nat TB_CAP__COUNT /\
    forall i index, terminfo_cap_indexes !! i = Some index ->
      exists c, l !! i = Some (Some c) /\ cstr c = entry_str e index.
Proof.
  intros He Hl Hcaps. destruct caps_indexes as [Hci Hidx]. rewrite Forall_forall in Hidx.
  destruct (choose_caps (fun index c => cstr c = entry_str e index /\
    forall l, get_terminfo_string (pos_offsets e) (Z.of_nat (length (en_strs e))) (pos_table e)
      (Z.of_nat (length (en_table e))) index (with_caps l w) = (Ret (Some c), with_caps l w)) terminfo_cap_indexes)
    as [f Hf]; [intros i Hi; apply (get_string_spec e rest); [done|done|apply Hidx in Hi; lia]|by constructor; exact []|].
  exists ((fun i => Some (f i)) <$> terminfo_cap_indexes). split; [|split].
  - destruct (entry_sizes e) as (Hlen & Hh & Hpos). destruct He as [Hsz _].
    assert (pos_offsets e <= pos_table e /\ 12 <= pos_offsets e) as [Hle H12].
    { split; [unfold pos_table; lia|]. unfold pos_offsets. rewrite length_app. lia. }
    assert (Z.of_nat (length (en_names e)) < 32768 /\ Z.of_nat (length (en_bools e)) < 32768 /\
      Z.of_nat (length (en_ints e)) < 32768 /\ Z.of_nat (length (en_strs e)) < 32768 /\
      Z.of_nat (length (en_table e)) < 32768) as (Hb1 & Hb2 & Hb3 & Hb4 & Hb5).
    { unfold pos_table in Hlen. destruct (en_wide e), (Z.odd _); lia. }
    pose proof (header_read e rest w) as Hread.
    unfold parse_terminfo_caps.
    mrun (eq_refl : glob nterminfo w = (Ret (nterminfo (G w)), w)).
    rewrite (proj1 (proj2 Hl)), length_app, (proj2 (Z.ltb_ge _ 12)) by lia.
    mrun (Hread 0%nat _ Hl eq_refl ltac:(destruct (en_wide e); lia)).
    mrun (Hread 1%nat _ Hl eq_refl ltac:(lia)). mrun (Hread 2%nat _ Hl eq_refl ltac:(lia)).
    mrun (Hread 3%nat _ Hl eq_refl ltac:(lia)). mrun (Hread 4%nat _ Hl eq_refl ltac:(lia)).
    mrun (Hread 5%nat _ Hl eq_refl ltac:(lia)). cbv zeta.
    assert (((if en_wide e then 542 else 282) =? 542) = en_wide e) as -> by by destruct (en_wide e).
    assert ((if negb (Z.rem (Z.of_nat (length (en_names e)) + Z.of_nat (length (en_bools e))) 2 =? 0) then 1 else 0) =
      (if Z.odd (Z.of_nat (length (en_names e) + length (en_bools e))) then 1 else 0)) as ->.
    { rewrite Nat2Z.inj_add, Z.rem_mod_nonneg, Zmod_odd by lia.
      by destruct (Z.odd (Z.of_nat (length (en_names e)) + Z.of_nat (length (en_bools e)))). }
    assert (wraps 32 (12 + Z.of_nat (length (en_names e)) + Z.of_nat (length (en_bools e)) +
      (if Z.odd (Z.of_nat (length (en_names e) + length (en_bools e))) then 1 else 0) +
      Z.of_nat (length (en_ints e)) * (if en_wide e then 4 else 2)) = pos_offsets e) as ->.
    { rewrite <- Hpos. apply wraps32_id. unfold is_int, INT_MIN, INT_MAX. unfold pos_table, pos_offsets in *. lia. }
    replace (pos_offsets e + Z.of_nat (length (en_strs e)) * 2) with (pos_table e) by (unfold pos_table; lia).
    rewrite wraps32_id by (unfold is_int, INT_MIN, INT_MAX, pos_table, pos_offsets in *; lia).
    pose proof (load_caps_spec terminfo_cap_indexes [] (caps (G w)) w
      (get_terminfo_string (pos_offsets e) (Z.of_nat (length (en_strs e))) (pos_table e) (Z.of_nat (length (en_table e))))
      f) as E.
    assert (with_caps ([] ++ caps (G w)) w = w) as Ew by (destruct w as [[] ? ?]; done).
    rewrite Ew in E. apply E; [intros l i Hi; by apply Hf|by rewrite Hcaps, Hci].
  - by rewrite length_fmap, Hci.
  - intros i index Hi. exists (f index). rewrite list_lookup_fmap, Hi. split; [done|].
    apply Hf. by eapply list_elem_of_lookup_2.
Qed.

Lemma terminfo_roundtrip_witness :
  let w := file_world (encode_entry demo_entry ++ [1; 2; 3]) in
  exists l, parse_terminfo_caps w = (Ret TB_OK, with_caps l w) /\ length l = Z.to_nat TB_CAP__COUNT /\
    forall i index, terminfo_cap_indexes !! i = Some index ->
      exists c, l !! i = Some (Some c) /\ cstr c = entry_str demo_entry index.
Proof.
  intros w. apply (terminfo_roundtrip demo_entry [1; 2; 3]).
  - split; [vm_compute; done|]. intros s Hs. apply list_elem_of_In in Hs. simpl in Hs.
    repeat (destruct Hs as [Hs|Hs];
      [try discriminate Hs; injection Hs as <-; repeat constructor; discriminate|]).
    contradiction.
  - apply file_world_loaded. vm_compute. discriminate.
  - reflexivity.
Defined.

(** C32: whatever a file holds, as long as its sections end within the first
    32767 bytes, [parse_terminfo_caps] reads nothing outside it, and when it
    succeeds every capability is a terminated string. *)
Theorem parse_terminfo_safe data w :
  loaded data w -> length (caps (G w)) = Z.to_nat TB_CAP__COUNT ->
  -32768 <= file_offsets data -> file_table data <= 32767 ->
  exists rv l, parse_terminfo_caps w = (Ret rv, with_caps l w) /\ (rv = TB_OK \/ rv = TB_ERR) /\
    (rv = TB_OK -> length l = Z.to_nat TB_CAP__COUNT /\
       forall i, (i < Z.to_nat TB_CAP__COUNT)%nat -> exists c, l !! i = Some (Some c) /\ 0 ∈ c).
Proof.
  intros Hl Hc Hlo Hhi. destruct caps_indexes as [Hci Hidx]. rewrite Forall_forall in Hidx.
  unfold parse_terminfo_caps. mrun (eq_refl : glob nterminfo w = (Ret (nterminfo (G w)), w)).
  rewrite (proj1 (proj2 Hl)). destruct (Z.ltb_spec (Z.of_nat (length data)) 12) as [Hs|Hs].
  { exists TB_ERR, (caps (G w)). split; [by destruct w as [[] ? ?]|]. split; [by right|done]. }
  pose proof (field_read data w) as Hr.
  mrun (Hr 0%nat Hl ltac:(lia)). mrun (Hr 1%nat Hl ltac:(lia)). mrun (Hr 2%nat Hl ltac:(lia)).
  mrun (Hr 3%nat Hl ltac:(lia)). mrun (Hr 4%nat Hl ltac:(lia)). mrun (Hr 5%nat Hl ltac:(lia)). cbv zeta.
  assert ((if negb (Z.rem (field data 1 + field data 2) 2 =? 0) then 1 else 0) =
    (if Z.odd (field data 1 + field data 2) then 1 else 0)) as ->.
  { rewrite Zrem_odd. destruct (Z.odd _) eqn:Eo; [|done].
    by destruct (field data 1 + field data 2). }
  fold (file_offsets data).
  assert (is_int (file_offsets data) /\ is_int (file_table data)) as [Hi1 Hi2].
  { pose proof (field_range data 1). pose proof (field_range data 2). pose proof (field_range data 3).
    pose proof (field_range data 4). unfold is_int, INT_MIN, INT_MAX, file_table, file_offsets in *.
    destruct (Z.odd _), (field data 0 =? 542); lia. }
  rewrite (wraps32_id (file_offsets data)) by done. fold (file_table data).
  rewrite (wraps32_id (file_table data)) by done.
  destruct (load_caps_total data terminfo_cap_indexes 0 w
    (get_terminfo_string (file_offsets data) (field data 4) (file_table data) (field data 5)))
    as (rv & l & E & Hrv & Hlen & _ & Hok).
  - intros w' index Hin Hlw. apply Hidx in Hin. apply get_string_total; [done|done|done|lia].
  - done.
  - rewrite Hci, Hc. simpl. lia.
  - exists rv, l. split; [exact E|]. split; [done|]. intros Hrv'. split; [congruence|].
    intros i Hi. apply Hok; [done|]. rewrite Hci. lia.
Qed.

Lemma parse_terminfo_safe_witness :
  let data := [30; 2; 255; 255; 7; 0; 9; 0; 3; 0; 40; 0; 1; 2; 3; 4] in
  let w := file_world data in
  exists rv l, parse_terminfo_caps w = (Ret rv, with_caps l w) /\ (rv = TB_OK \/ rv = TB_ERR) /\
    (rv = TB_OK -> length l = Z.to_nat TB_CAP__COUNT /\
       forall i, (i < Z.to_nat TB_CAP__COUNT)%nat -> exists c, l !! i = Some (Some c) /\ 0 ∈ c).
Proof.
  intros data w. apply (parse_terminfo_safe data).
  - apply file_world_loaded. vm_compute. discriminate.
  - reflexivity.
  - vm_compute. discriminate.
  - vm_compute. discriminate.
Defined.

(** [load_terminfo] loads the first entry there is in the directories
    terminfo(5) names, in their order: [TERMINFO], [~/.terminfo], those of
    [TERMINFO_DIRS], the common ones; without one it changes nothing. *)
Theorem load_terminfo_first term w :
  e_var (X w) (lit "TERM") = Some term -> Forall (path_fits term) (search_dirs (X w)) ->
  (forall v d, e_var (X w) v = Some d -> Z.of_nat (length d) < TB_PATH_MAX) -> s_alloc (T w) = [] ->
  (forall p data, e_file (X w) p = Some data -> Z.of_nat (length data) < PTRDIFF_MAX) ->
  load_terminfo w =
    match files (X w) term (search_dirs (X w)) with
    | data :: _ => (Ret TB_OK, with_entry data w)
    | [] => (Ret TB_ERR, w)
    end.
Proof.
  intros Ht Hp Hv Ha Hf. unfold load_terminfo, search_dirs in *.
  assert (forall v, getenv v w = (Ret (e_var (X w) v), w)) as Hget by done.
  mrun (Hget (lit "TERM")). rewrite Ht. mrun (Hget (lit "TERMINFO")).
  apply Forall_app in Hp as [Hp1 [Hp2 [Hp3 Hp4]%Forall_app]%Forall_app].
  unfold files. rewrite !omap_app. rewrite load_dirs_spec by done. unfold files.
  destruct (omap _ (match e_var (X w) (lit "TERMINFO") with Some d => [d] | None => [] end)); [|done]. cbn [app].
  mrun (Hget (lit "HOME")).
  set (after := bind (getenv (lit "TERMINFO_DIRS")) _).
  assert (after w = match files (X w) term (match e_var (X w) (lit "TERMINFO_DIRS") with
      | Some ds => strtok_colon [] ds | None => [] end ++ common_dirs) with
    | data :: _ => (Ret TB_OK, with_entry data w) | [] => (Ret TB_ERR, w) end) as Eafter.
  { subst after. mrun (Hget (lit "TERMINFO_DIRS")). unfold files. rewrite omap_app.
    assert (load_from_dirs common_dirs term (ret TB_ERR) w = match files (X w) term common_dirs with
      | data :: _ => (Ret TB_OK, with_entry data w) | [] => (Ret TB_ERR, w) end) as Ec
      by (by rewrite load_dirs_spec).
    destruct (e_var (X w) (lit "TERMINFO_DIRS")) as [ds|] eqn:Eds; [|exact Ec].
    unfold snprintf_or_return. rewrite (proj2 (Z.leb_gt _ _)) by (by eapply Hv).
    rewrite load_dirs_spec by done. unfold files. destruct (omap _ (strtok_colon [] ds)); [exact Ec|done]. }
  unfold files in Eafter. rewrite omap_app in Eafter.
  destruct (e_var (X w) (lit "HOME")) as [home|]; [|exact Eafter].
  apply (proj1 (Forall_singleton _ _)) in Hp2. unfold snprintf_or_return.
  rewrite (proj2 (Z.leb_gt _ _))
    by (unfold path_fits, entry_path in Hp2; rewrite (length_app (home ++ _)) in Hp2; lia).
  unfold if_ok_return, bind at 1. rewrite load_path_spec by done. cbn [omap list_omap].
  destruct (e_file (X w) (cstr (entry_path term (home ++ lit "/.terminfo")))) as [data|]; [done|exact Eafter].
Qed.

(** An entry in [~/.terminfo] and another in the common directories. *)
Definition home_env : env :=
  mk_env (fun v => if bool_decide (v = lit "TERM") then Some (lit "ansi")
                   else if bool_decide (v = lit "HOME") then Some (lit "/root") else None)
    (fun p => if bool_decide (p = lit "/root/.terminfo/a/ansi") then Some [1]
              else if bool_decide (p = lit "/lib/terminfo/a/ansi") then Some [2] else None)
    (fun _ => true) [] [] [] [] [] false [].

Lemma load_terminfo_first_witness :
  let w := mk_tbw demo_global calm home_env in
  load_terminfo w =
    match files (X w) (lit "ansi") (search_dirs (X w)) with
    | data :: _ => (Ret TB_OK, with_entry data w)
    | [] => (Ret TB_ERR, w)
    end.
Proof.
  intros w. apply (load_terminfo_first (lit "ansi") w).
  - reflexivity.
  - repeat (apply Forall_cons; split; [vm_compute; reflexivity|]). constructor.
  - intros v d. cbn. do 2 (destruct (bool_decide _); [intros [= <-]; vm_compute; reflexivity|]). discriminate.
  - reflexivity.
  - intros p d. cbn. do 2 (destruct (bool_decide _); [intros [= <-]; vm_compute; reflexivity|]). discriminate.
Defined.

(** A small file with the largest number of offsets: the position of its string
    table is 32780. *)
Definition wrapping_file : list Z := concat (le16 <$> [282; 0; 0; 0; 16384; 1]) ++ replicate 640 0.

(** Positions in a file are passed as [int16_t]: the table of this file
    wraps to a negative position, and its strings to pointers before the file. *)
Theorem terminfo_table_wraps w :
  loaded wrapping_file w -> parse_terminfo_caps w = (Fault, w).
Proof.
  intros Hl. unfold parse_terminfo_caps. mrun (eq_refl : glob nterminfo w = (Ret (nterminfo (G w)), w)).
  rewrite (proj1 (proj2 Hl)). change (Z.of_nat (length wrapping_file) <? 12) with false. cbv iota.
  pose proof (field_read wrapping_file w) as Hr.
  mrun (Hr 0%nat Hl ltac:(vm_compute; lia)). mrun (Hr 1%nat Hl ltac:(vm_compute; lia)).
  mrun (Hr 2%nat Hl ltac:(vm_compute; lia)). mrun (Hr 3%nat Hl ltac:(vm_compute; lia)).
  mrun (Hr 4%nat Hl ltac:(vm_compute; lia)). mrun (Hr 5%nat Hl ltac:(vm_compute; lia)). cbv zeta.
  change (field wrapping_file 0) with 282. change (field wrapping_file 1) with 0.
  change (field wrapping_file 2) with 0. change (field wrapping_file 3) with 0.
  change (field wrapping_file 4) with 16384. change (field wrapping_file 5) with 1.
  match goal with |- context [get_terminfo_string _ _ ?t _] => change t with 32780 end.
  match goal with |- context [get_terminfo_string ?p _ _ _] => change p with 12 end. unfold terminfo_cap_indexes. cbn [load_caps].
  assert (get_terminfo_string 12 16384 32780 1 66 w = (Fault, w)) as E.
  { unfold get_terminfo_string. change (16384 <=? 66) with false. cbv iota.
    change (wraps 16 12 + 66 * 2) with (Z.of_nat 144).
    assert (drop 144 wrapping_file = le16 0 ++ replicate 506 0) as Ed by (vm_compute; reflexivity).
    mrun (get_int16_spec wrapping_file w 144 0 _ Hl Ed ltac:(lia)).
    change (negb (TB_OK =? TB_OK)) with false. change ((0 <? 0) || (1 <=? 0)) with false. cbv iota zeta.
    mrun (eq_refl : glob nterminfo w = (Ret (nterminfo (G w)), w)). rewrite (proj1 (proj2 Hl)).
    change (wraps 32 (Z.of_nat (length wrapping_file)) <=? wraps 16 32780 + 0) with false. cbv iota.
    mrun (eq_refl : glob terminfo w = (Ret (terminfo (G w)), w)). rewrite (proj1 Hl).
    mrun (eq_refl : deref (Some (wrapping_file ++ [0])) w = (Ret (wrapping_file ++ [0]), w)).
    change (wraps 16 32780 + 0 <? 0) with true. done. }
  unfold bind at 1. by rewrite E.
Qed.

Lemma terminfo_table_wraps_witness :
  parse_terminfo_caps (file_world wrapping_file) = (Fault, file_world wrapping_file).
Proof. apply terminfo_table_wraps. apply file_world_loaded. vm_compute. discriminate. Defined.
