(* ===== verification/TbInit.v ===== *)
(** * life/termbox2.h: starting and ending

    [open], [pipe] and [sigaction] answer from the scripts of [env]; an exhausted
    script means success.  The descriptors that are opened and closed are recorded. *)

From stdpp Require Import prelude list_numbers strings.
From Stdlib Require Import ZArith Lia.
From S2P Require Import Prelude CLib Posix TbTables TbText TbBuf TbTrie TbGlobal TbOutput TbPresent TbApi TbInput TbEvent TbTerminfo.
Open Scope Z_scope.

(** ** Calls *)

Definition set_sys_errno (e : Z) : M tbw unit := modify (fun w => set_T (set_errno e (T w)) w).

(** The descriptors a call opens. *)
Definition record_open (fds : list Z) : M tbw unit :=
  modify (fun w => set_X (set_e_opened (e_opened (X w) ++ fds) (X w)) w).

Definition sys_open : M tbw Z :=
  let* x := gets X in
  match e_open x with
  | [] => record_open [3] ;;; ret 3
  | inl e :: l => modify (fun w => set_X (set_e_open l (X w)) w) ;;; set_sys_errno e ;;; ret (-1)
  | inr fd :: l => modify (fun w => set_X (set_e_open l (X w)) w) ;;; record_open [fd] ;;; ret fd
  end.

Definition sys_close (fd : Z) : M tbw unit :=
  modify (fun w => set_X (set_e_closed (e_closed (X w) ++ [fd]) (X w)) w).

Definition sys_pipe : M tbw (option (Z * Z)) :=
  let* x := gets X in
  match e_pipe x with
  | [] => record_open [4; 5] ;;; ret (Some (4, 5))
  | inl e :: l => modify (fun w => set_X (set_e_pipe l (X w)) w) ;;; set_sys_errno e ;;; ret None
  | inr (a, b) :: l => modify (fun w => set_X (set_e_pipe l (X w)) w) ;;; record_open [a; b] ;;; ret (Some (a, b))
  end.

(** [sigaction (SIGWINCH, ...)]: [true] installs [handle_resize], [false] the
    default. *)
Definition sys_sigaction (handler : bool) : M tbw Z :=
  let* x := gets X in
  match e_sigaction x with
  | Some e :: l => modify (fun w => set_X (set_e_sigaction l (X w)) w) ;;; set_sys_errno e ;;; ret (-1)
  | l => modify (fun w => set_X (set_e_handler handler (set_e_sigaction (drop 1 l) (X w))) w) ;;; ret 0
  end.

(** [cfmakeraw] of the C library. *)
Definition IGNBRK : Z := 1.
Definition BRKINT : Z := 2.
Definition PARMRK : Z := 8.
Definition ISTRIP : Z := 32.
Definition INLCR : Z := 64.
Definition IGNCR : Z := 128.
Definition ICRNL : Z := 256.
Definition IXON : Z := 1024.
Definition OPOST : Z := 1.
Definition ECHO : Z := 8.
Definition ECHONL : Z := 64.
Definition ICANON : Z := 2.
Definition ISIG : Z := 1.
Definition IEXTEN : Z := 32768.
Definition CSIZE : Z := 48.
Definition PARENB : Z := 256.
Definition CS8 : Z := 48.
Definition VTIME : Z := 5.
Definition VMIN : Z := 6.

Definition flags (l : list Z) : Z := fold_right Z.lor 0 l.

Definition cfmakeraw (t : termios) : termios :=
  mk_termios
    (Z.land (c_iflag t) (Z.lnot (flags [IGNBRK; BRKINT; PARMRK; ISTRIP; INLCR; IGNCR; ICRNL; IXON])))
    (Z.land (c_oflag t) (Z.lnot OPOST))
    (Z.lor (Z.land (c_cflag t) (Z.lnot (flags [CSIZE; PARENB]))) CS8)
    (Z.land (c_lflag t) (Z.lnot (flags [ECHO; ECHONL; ICANON; ISIG; IEXTEN])))
    (c_cc t).

(** [tios.c_cc[i] = v] *)
Definition set_cc (i v : Z) (t : termios) : option termios :=
  match zupdate (c_cc t) i v with
  | Some cc => Some (mk_termios (c_iflag t) (c_oflag t) (c_cflag t) (c_lflag t) cc)
  | None => None
  end.

Definition raw_tios (t : termios) : option termios :=
  match set_cc VMIN 1 (cfmakeraw t) with Some t => set_cc VTIME 0 t | None => None end.

Section Init.
Context `{opts : config}.

(** ** Starting *)

(** [memset (&global, 0, sizeof (global))] *)
Definition global_memset : tb_global :=
  mk_global 0 0 0 false 0 0 0 0 0 0 0 0 0 0 0 0 0 0 None 0 (replicate (Z.to_nat TB_CAP__COUNT) None) trie_zero
    bytebuf_zero bytebuf_zero cellbuf_zero cellbuf_zero (mk_termios 0 0 0 0 (replicate 32 0)) false 0 false None None.

Definition reset_global (ttyfd_open : bool) : tb_global :=
  mk_global (-1) (-1) (-1) ttyfd_open (-1) (-1) (-1) (-1) (-1) (-1) (-1) (-1) TB_DEFAULT TB_DEFAULT
    (attr_not TB_DEFAULT) (attr_not TB_DEFAULT) TB_INPUT_ESC TB_OUTPUT_NORMAL
    (terminfo global_memset) (nterminfo global_memset) (caps global_memset) (g_trie global_memset)
    (g_in global_memset) (g_out global_memset) (back global_memset) (front global_memset)
    (orig_tios global_memset) (has_orig_tios global_memset) (last_errno global_memset)
    (initialized global_memset) (fn_extract_esc_pre global_memset) (fn_extract_esc_post global_memset).

Definition tb_reset : M tbw unit := upd (fun g => reset_global (ttyfd_open g)).

Definition init_term_attrs : M tbw Z :=
  let* fd := glob ttyfd in
  if fd <? 0 then ret TB_OK else
  let* ' (r, t) := tsys sys_tcgetattr in
  if negb (r =? 0) then save_errno ;;; ret TB_ERR_TCGETATTR else
  upd (set_orig_tios t) ;;;
  upd (set_has_orig_tios true) ;;;
  let* tios := deref (raw_tios t) in
  let* r := tsys (sys_tcsetattr tios) in
  if negb (r =? 0) then save_errno ;;; ret TB_ERR_TCSETATTR else ret TB_OK.

(** [init_cap_trie] on the trie and the capabilities of the global. *)
Definition init_trie : M tbw Z :=
  let* c := glob caps in
  let* root := glob g_trie in
  let* ' (rv, root) := tsys (init_cap_trie c root) in
  upd (set_g_trie root) ;;;
  ret rv.

Definition init_resize_handler : M tbw Z :=
  let* p := sys_pipe in
  match p with
  | None => save_errno ;;; ret TB_ERR_RESIZE_PIPE
  | Some (r, w) =>
      upd (fun g => set_resize_wfd w (set_resize_rfd r g)) ;;;
      let* rv := sys_sigaction true in
      if negb (rv =? 0) then save_errno ;;; ret TB_ERR_RESIZE_SIGACTION else ret TB_OK
  end.

Definition send_init_escape_codes : M tbw Z :=
  out_cap TB_CAP_ENTER_CA >>!
  out_cap TB_CAP_ENTER_KEYPAD >>!
  out_cap TB_CAP_HIDE_CURSOR >>!
  ret TB_OK.

Definition init_cellbuf : M tbw Z :=
  let* g := gets G in
  buf_op true (fun _ _ c => cellbuf_init c (g_width g) (g_height g)) >>!
  buf_op false (fun _ _ c => cellbuf_init c (g_width g) (g_height g)) >>!
  buf_op true cellbuf_clear >>!
  buf_op false cellbuf_clear >>!
  ret TB_OK.

(** ** Ending *)

Definition tb_deinit : M tbw unit :=
  let* g := gets G in
  let* c0 := deref (zlookup (caps g) 0) in
  (if bool_decide (c0 <> None) && (0 <=? wfd g) then
     out_cap TB_CAP_SHOW_CURSOR ;;;
     out_cap TB_CAP_SGR0 ;;;
     out_cap TB_CAP_CLEAR_SCREEN ;;;
     out_cap TB_CAP_EXIT_CA ;;;
     out_cap TB_CAP_EXIT_KEYPAD ;;;
     out_puts (Some TB_HARDCAP_EXIT_MOUSE) ;;;
     out_flush ;;;
     ret tt
   else ret tt) ;;;
  (if has_orig_tios g && (0 <=? ttyfd g) then
     let* _ := tsys (sys_tcsetattr (orig_tios g)) in ret tt
   else ret tt) ;;;
  (if ttyfd_open g then
     sys_close (if 0 <=? ttyfd g then ttyfd g else rfd g) ;;;
     upd (set_ttyfd_open false)
   else ret tt) ;;;
  let* _ := sys_sigaction false in
  (if 0 <=? resize_rfd g then sys_close (resize_rfd g) else ret tt) ;;;
  (if 0 <=? resize_wfd g then sys_close (resize_wfd g) else ret tt) ;;;
  let* b := glob back in
  let* _ := tsys (cellbuf_free b) in
  let* f := glob front in
  let* _ := tsys (cellbuf_free f) in
  let* root := glob g_trie in
  let* _ := tsys (cap_trie_deinit root) in
  tb_reset.

Definition tb_shutdown : M tbw Z := if_not_init_return (tb_deinit ;;; ret TB_OK).

Definition tb_init_rwfd (rfd_ wfd_ : Z) : M tbw Z :=
  tb_reset ;;;
  let* x := gets X in
  let tty := if e_isatty x rfd_ then rfd_ else if negb (wfd_ =? rfd_) && e_isatty x wfd_ then wfd_ else -1 in
  upd (fun g => set_wfd wfd_ (set_rfd rfd_ (set_ttyfd tty g))) ;;;
  let* rv :=
    (init_term_attrs >>!
     init_term_caps >>!
     init_trie >>!
     init_resize_handler >>!
     send_init_escape_codes >>!
     send_clear >>!
     update_term_size >>!
     init_cellbuf >>!
     (upd (set_initialized true) ;;; ret TB_OK)) in
  (if negb (rv =? TB_OK) then tb_deinit else ret tt) ;;;
  ret rv.

Definition tb_init_fd (ttyfd : Z) : M tbw Z := tb_init_rwfd ttyfd ttyfd.

(** The path only matters to [open]. *)
Definition tb_init_file : M tbw Z :=
  let* i := glob initialized in
  if i then ret TB_ERR_INIT_ALREADY else
  let* ttyfd := sys_open in
  if ttyfd <? 0 then save_errno ;;; ret TB_ERR_INIT_OPEN else
  upd (set_ttyfd_open true) ;;;
  tb_init_fd ttyfd.

Definition tb_init : M tbw Z := tb_init_file.

End Init.

(** ** Lemmas *)

(** *** Ending *)

Section Ending.
Context `{opts : config}.

Lemma emits_then g m k bs1 bs2 : emits g m bs1 -> emits g k bs2 -> emits g (m ;;; k) (bs1 ++ bs2).
Proof.
  intros Hm Hk w Hg Hr. destruct (emits_seq g m k bs1 bs2 Hm Hk w Hg Hr) as (b & E & H).
  exists b. split; [|done]. destruct Hr as (Hw & Ha & Hr). rewrite length_app in Hr.
  destruct (Hm w Hg) as (b1 & E1 & _); [by repeat split; [| |lia]|].
  unfold if_err_return in E. rewrite (bind_ret _ _ _ _ _ E1) in E. by mrun E1.
Qed.

(** What is sent to leave the terminal as it was. *)
Definition farewell (g : tb_global) : list Z :=
  cap_text g TB_CAP_SHOW_CURSOR ++ cap_text g TB_CAP_SGR0 ++ cap_text g TB_CAP_CLEAR_SCREEN ++
  cap_text g TB_CAP_EXIT_CA ++ cap_text g TB_CAP_EXIT_KEYPAD ++ cstr TB_HARDCAP_EXIT_MOUSE.

Definition freeable (c : cellbuf) : Prop := cells c = None \/ cb_wf c.

Lemma free_spec c s : freeable c -> cellbuf_free c s = (Ret cellbuf_zero, s).
Proof.
  unfold cellbuf_free. intros [->|(l & -> & Hw & Hh & Hi & Hl & _)]; [done|].
  rewrite imul_int by done.
  mrun (eq_refl : deref (Some (cb_width c * cb_height c)) s = (Ret (cb_width c * cb_height c), s)).
  by rewrite (proj2 (Z.leb_le _ _)) by lia.
Qed.

(** The capabilities have been loaded, or not at all. *)
Definition caps_state (g : tb_global) : Prop :=
  caps_ok g \/ caps g = replicate (Z.to_nat TB_CAP__COUNT) None.

Record endable (w : tbw) : Prop := {
  en_caps : caps_state (G w);
  en_room : room w (Z.of_nat (length (farewell (G w))));
  en_back : freeable (back (G w));
  en_front : freeable (front (G w));
  en_trie : trie_wf (g_trie (G w));
  en_write : s_write (T w) = []
}.

Definition loaded_caps_b (g : tb_global) : bool :=
  match zlookup (caps g) 0 with Some (Some _) => true | _ => false end.

(** The descriptors that are closed. *)
Definition to_close (g : tb_global) : list Z :=
  (if ttyfd_open g then [if 0 <=? ttyfd g then ttyfd g else rfd g] else []) ++
  (if 0 <=? resize_rfd g then [resize_rfd g] else []) ++ (if 0 <=? resize_wfd g then [resize_wfd g] else []).

Lemma farewell_spec w :
  endable w -> 
  exists w1, (if loaded_caps_b (G w) && (0 <=? wfd (G w)) then
     out_cap TB_CAP_SHOW_CURSOR ;;; out_cap TB_CAP_SGR0 ;;; out_cap TB_CAP_CLEAR_SCREEN ;;;
     out_cap TB_CAP_EXIT_CA ;;; out_cap TB_CAP_EXIT_KEYPAD ;;; out_puts (Some TB_HARDCAP_EXIT_MOUSE) ;;;
     out_flush ;;; ret tt
   else ret tt) w = (Ret tt, w1) /\
    set_g_out bytebuf_zero (G w1) = set_g_out bytebuf_zero (G w) /\ X w1 = X w /\
    T w1 = if loaded_caps_b (G w) && (0 <=? wfd (G w))
           then set_out (s_out (T w) ++ bb_bytes (g_out (G w)) ++ farewell (G w)) (T w) else T w.
Proof.
  intros [Hc Hr _ _ _ Hs]. unfold loaded_caps_b in *.
  destruct (zlookup (caps (G w)) 0) as [[c0|]|] eqn:E0; cbn [andb]; try (by exists w).
  destruct (0 <=? wfd (G w)); [|by exists w].
  assert (caps_ok (G w)) as Hok.
  { destruct Hc as [Hc|Hc]; [done|]. rewrite Hc in E0. vm_compute in E0. done. }
  assert (emits (G w) (out_cap TB_CAP_SHOW_CURSOR ;;; out_cap TB_CAP_SGR0 ;;; out_cap TB_CAP_CLEAR_SCREEN ;;;
     out_cap TB_CAP_EXIT_CA ;;; out_cap TB_CAP_EXIT_KEYPAD ;;; out_puts (Some TB_HARDCAP_EXIT_MOUSE)) (farewell (G w))) as He.
  { repeat (apply emits_then; [apply emits_cap; [done|vm_compute; intuition congruence]|]). apply emits_puts. }
  destruct (He w eq_refl Hr) as (b & E & Hwb & Hb).
  destruct (out_flush_calm (put_out b w) Hwb Hs) as (b2 & E2 & _).
  eexists. split.
  { rewrite <- !bind_assoc. rewrite <- !bind_assoc in E. rewrite bind_assoc. mrun E. by mrun E2. }
  split; [done|]. split; [done|]. cbn. by rewrite Hb.
Qed.

Lemma set_ttyfd_open_id g : ttyfd_open g = false -> set_ttyfd_open false g = g.
Proof. destruct g. cbn. by intros ->. Qed.

Definition closing (fd : Z) (w : tbw) : tbw := set_X (set_e_closed (e_closed (X w) ++ [fd]) (X w)) w.

Lemma sigaction_ret h w :
  exists rv w', sys_sigaction h w = (Ret rv, w') /\ G w' = G w /\
    (T w' = T w \/ exists e, T w' = set_errno e (T w)) /\
    (e_closed (X w') = e_closed (X w) /\ e_pipe_data (X w') = e_pipe_data (X w)) /\
    e_opened (X w') = e_opened (X w) /\
    (rv = 0 -> e_handler (X w') = h /\ T w' = T w) /\
    (Forall (fun a => a = None) (e_sigaction (X w)) -> rv = 0 /\ Forall (fun a => a = None) (e_sigaction (X w'))).
Proof.
  unfold sys_sigaction. mrun (eq_refl : gets X w = (Ret (X w), w)).
  destruct (e_sigaction (X w)) as [|[e|] l]; eexists _, _; (split; [reflexivity|]); cbn; (split; [done|]);
    (split; [eauto|]); (split; [done|]); (split; [done|]); (split; [done|]);
    rewrite ?Forall_cons; try done; (by intros [? _]) || (by intros [_ ?]).
Qed.

Lemma deinit_spec w :
  endable w -> s_tc (T w) = [] ->
  exists w', tb_deinit w = (Ret tt, w') /\ G w' = reset_global false /\
    s_tios (T w') = (if has_orig_tios (G w) && (0 <=? ttyfd (G w)) then orig_tios (G w) else s_tios (T w)) /\
    e_closed (X w') = e_closed (X w) ++ to_close (G w) /\
    s_out (T w') = (if loaded_caps_b (G w) && (0 <=? wfd (G w))
      then s_out (T w) ++ bb_bytes (g_out (G w)) ++ farewell (G w) else s_out (T w)) /\
    e_opened (X w') = e_opened (X w) /\
    (Forall (fun a => a = None) (e_sigaction (X w)) -> e_handler (X w') = false).
Proof.
  intros Hw Htc. unfold tb_deinit. mrun (eq_refl : gets G w = (Ret (G w), w)).
  destruct (farewell_spec w Hw) as (w1 & E1 & HG & HX & HT).
  assert (exists c0, zlookup (caps (G w)) 0 = Some c0) as [c0 Ec0].
  { destruct (en_caps w Hw) as [[Hl _]| ->]; [|by vm_compute; eexists].
    apply zlookup_is_Some. rewrite Hl. vm_compute. done. }
  assert (bool_decide (c0 <> None) = loaded_caps_b (G w)) as Eb.
  { unfold loaded_caps_b. rewrite Ec0. by destruct c0. }
  rewrite Ec0. mrun (eq_refl : deref (Some c0) w = (Ret c0, w)). rewrite Eb. mrun E1.
  assert (forall A (f : tb_global -> A), (forall g, f (set_g_out bytebuf_zero g) = f g) -> f (G w1) = f (G w)) as Hf.
  { intros A f H. by rewrite <- (H (G w1)), HG, H. }
  (* the attributes *)
  assert (s_tc (T w1) = []) as Htc1 by (rewrite HT; by destruct (_ && _)).
  assert (s_tios (T w1) = s_tios (T w)) as Ht1 by (rewrite HT; by destruct (_ && _)).
  set (w2 := if has_orig_tios (G w) && (0 <=? ttyfd (G w)) then set_T (set_tios (orig_tios (G w)) (T w1)) w1 else w1).
  assert ((if has_orig_tios (G w) && (0 <=? ttyfd (G w)) then bind (tsys (sys_tcsetattr (orig_tios (G w)))) (fun _ => ret tt)
    else ret tt) w1 = (Ret tt, w2)) as E2.
  { subst w2. destruct (has_orig_tios (G w) && (0 <=? ttyfd (G w))); [|reflexivity].
    by mrun (tsys_ret _ w1 0 _ (ltac:(unfold sys_tcsetattr; by rewrite Htc1) :
      sys_tcsetattr (orig_tios (G w)) (T w1) = (Ret 0, set_tios (orig_tios (G w)) (T w1)))). }
  mrun E2.
  set (w3 := if ttyfd_open (G w) then set_G (set_ttyfd_open false (G w2)) (set_X (set_e_closed (e_closed (X w2) ++
    [if 0 <=? ttyfd (G w) then ttyfd (G w) else rfd (G w)]) (X w2)) w2) else w2).
  assert ((if ttyfd_open (G w) then bind (sys_close (if 0 <=? ttyfd (G w) then ttyfd (G w) else rfd (G w)))
    (fun _ => upd (set_ttyfd_open false)) else ret tt) w2 = (Ret tt, w3)) as E3 by (subst w3; by destruct (ttyfd_open (G w))).
  mrun E3.
  destruct (sigaction_ret false w3) as (rv & w4 & E4 & HG4 & HT4 & HX4 & Ho4 & Hh4 & Hh4'). mrun E4.
  set (w5 := if 0 <=? resize_rfd (G w) then closing (resize_rfd (G w)) w4 else w4).
  assert ((if 0 <=? resize_rfd (G w) then sys_close (resize_rfd (G w)) else ret tt) w4 = (Ret tt, w5)) as E5
    by (subst w5; by destruct (0 <=? resize_rfd (G w))). mrun E5.
  set (w6 := if 0 <=? resize_wfd (G w) then closing (resize_wfd (G w)) w5 else w5).
  assert ((if 0 <=? resize_wfd (G w) then sys_close (resize_wfd (G w)) else ret tt) w5 = (Ret tt, w6)) as E6
    by (subst w6; by destruct (0 <=? resize_wfd (G w))). mrun E6.
  assert (G w6 = G w3) as HG6.
  { transitivity (G w5); [subst w6; by destruct (0 <=? resize_wfd (G w))|].
    transitivity (G w4); [subst w5; by destruct (0 <=? resize_rfd (G w))|done]. }
  assert (T w6 = T w4) as HT6.
  { transitivity (T w5); [subst w6; by destruct (0 <=? resize_wfd (G w))|].
    subst w5; by destruct (0 <=? resize_rfd (G w)). }
  assert (G w3 = set_ttyfd_open false (G w1)) as HG3.
  { assert (ttyfd_open (G w1) = ttyfd_open (G w)) as Eo by by apply (Hf _ ttyfd_open).
    assert (G w2 = G w1) as HG2 by (subst w2; by destruct (has_orig_tios (G w) && (0 <=? ttyfd (G w)))).
    subst w3. rewrite <- HG2. destruct (ttyfd_open (G w)); [reflexivity|]. symmetry.
    apply set_ttyfd_open_id. by rewrite HG2. }
  assert (T w3 = T w2) as HT3 by (subst w3; by destruct (ttyfd_open (G w))).
  mrun (eq_refl : glob back w6 = (Ret (back (G w6)), w6)).
  assert (back (G w6) = back (G w) /\ front (G w6) = front (G w) /\ g_trie (G w6) = g_trie (G w)) as (-> & EF & ET).
  { rewrite HG6, HG3. cbn. split; [by apply (Hf _ back)|]. split; [by apply (Hf _ front)|by apply (Hf _ g_trie)]. }
  mrun (tsys_ret _ w6 _ _ (free_spec (back (G w)) (T w6) (en_back w Hw))). rewrite set_T_id.
  mrun (eq_refl : glob front w6 = (Ret (front (G w6)), w6)). rewrite EF.
  mrun (tsys_ret _ w6 _ _ (free_spec (front (G w)) (T w6) (en_front w Hw))). rewrite set_T_id.
  mrun (eq_refl : glob g_trie w6 = (Ret (g_trie (G w6)), w6)). rewrite ET.
  assert (cap_trie_deinit (g_trie (G w)) (T w6) = (Ret trie_zero, T w6)) as Ed
    by (unfold cap_trie_deinit; by rewrite (deinit_ok_wf _ (en_trie w Hw))).
  mrun (tsys_ret _ w6 _ _ Ed). rewrite set_T_id.
  eexists. split; [reflexivity|]. cbn [G T X set_G].
  split; [rewrite HG6, HG3; done|].
  assert (s_tios (T w6) = s_tios (T w2) /\ s_out (T w6) = s_out (T w2)) as [-> ->].
  { rewrite HT6, <- HT3. by destruct HT4 as [->|[e ->]]. }
  split; [|split; [|split; [|split]]].
  - subst w2. destruct (has_orig_tios (G w) && (0 <=? ttyfd (G w))); [done|exact Ht1].
  - assert (e_closed (X w4) = e_closed (X w3)) as Hc4 by apply HX4.
    assert (X w2 = X w) as HX2.
    { subst w2. destruct (has_orig_tios (G w) && (0 <=? ttyfd (G w))); exact HX. }
    subst w6 w5. unfold to_close.
    assert (e_closed (X w3) = e_closed (X w) ++ (if ttyfd_open (G w)
      then [if 0 <=? ttyfd (G w) then ttyfd (G w) else rfd (G w)] else [])) as Hc3.
    { subst w3. destruct (ttyfd_open (G w)); cbn; rewrite HX2; [done|by rewrite app_nil_r]. }
    destruct (0 <=? resize_rfd (G w)), (0 <=? resize_wfd (G w)); cbn; rewrite Hc4, Hc3;
      rewrite ?app_nil_r, <- ?app_assoc; done.
  - subst w2. destruct (has_orig_tios (G w) && (0 <=? ttyfd (G w))); cbn; rewrite HT;
      by destruct (loaded_caps_b (G w) && (0 <=? wfd (G w))).
  - transitivity (e_opened (X w4)); [subst w6 w5; by destruct (0 <=? resize_rfd (G w)), (0 <=? resize_wfd (G w))|].
    rewrite Ho4. subst w3 w2. rewrite <- HX. by destruct (ttyfd_open (G w)), (has_orig_tios (G w) && (0 <=? ttyfd (G w))).
  - intros Hsa. assert (e_handler (X w6) = e_handler (X w4)) as ->.
    { subst w6 w5. by destruct (0 <=? resize_rfd (G w)), (0 <=? resize_wfd (G w)). }
    apply Hh4, Hh4'. subst w3 w2. rewrite <- HX in Hsa.
    destruct (ttyfd_open (G w)), (has_orig_tios (G w) && (0 <=? ttyfd (G w))); exact Hsa.
Qed.
End Ending.

(** *** Starting *)

(** Every descriptor set so far has room for [pipe]'s. *)
Definition next_pipe (x : env) : option (Z * Z) :=
  match e_pipe x with [] => Some (4, 5) | inl _ :: _ => None | inr p :: _ => Some p end.

Lemma builtin_caps_small :
  forallb (fun '(_, c, _) => (Z.of_nat (length c) =? TB_CAP__COUNT) && (caps_length (Some <$> c) <=? 2000)) builtin_terms = true.
Proof. vm_compute. reflexivity. Qed.

Lemma builtin_caps_full name c alias :
  (name, c, alias) ∈ builtin_terms -> caps_full (Some <$> c) /\ caps_length (Some <$> c) <= 2000.
Proof.
  intros Hin. pose proof builtin_caps_small as H. rewrite forallb_forall in H.
  specialize (H _ (proj1 (list_elem_of_In _ _) Hin)). cbn beta iota in H.
  apply andb_true_iff in H as [H1%Z.eqb_eq H2%Z.leb_le]. split; [|done]. split.
  - rewrite length_fmap. lia.
  - apply Forall_fmap, Forall_true. intros x. by eexists.
Qed.

Section Starting.
Context `{opts : config}.
Variables (w : tbw) (r wf : Z).

(** The resize pipe: not opened yet, or its descriptors are kept. *)
Definition pipe_open (wi : tbw) : Prop :=
  e_opened (X wi) = e_opened (X w) /\ resize_rfd (G wi) = -1 /\ resize_wfd (G wi) = -1 \/
  exists a b, 0 <= a /\ 0 <= b /\ e_opened (X wi) = e_opened (X w) ++ [a; b] /\
    resize_rfd (G wi) = a /\ resize_wfd (G wi) = b.

(** What every stage of the start keeps. *)
Record stage (wi : tbw) : Prop := {
  st_alloc : s_alloc (T wi) = [];
  st_tc : s_tc (T wi) = [];
  st_write : s_write (T wi) = [];
  st_tios : raw_tios (s_tios (T w)) = Some (s_tios (T wi));
  st_orig : orig_tios (G wi) = s_tios (T w);
  st_has : has_orig_tios (G wi) = true;
  st_tty : ttyfd (G wi) = r;
  st_rfd : rfd (G wi) = r;
  st_wfd : wfd (G wi) = wf;
  st_open : ttyfd_open (G wi) = ttyfd_open (G w);
  st_closed : e_closed (X wi) = e_closed (X w);
  st_fds : pipe_open wi;
  st_sig : Forall (fun a => a = None) (e_sigaction (X w)) -> Forall (fun a => a = None) (e_sigaction (X wi));
  st_out : bb_wf (g_out (G wi)) /\ bb_bytes (g_out (G wi)) = [];
  st_caps : caps_state (G wi) /\ caps_length (caps (G wi)) <= 2000;
  st_trie : trie_wf (g_trie (G wi));
  st_back : freeable (back (G wi));
  st_front : freeable (front (G wi))
}.

Lemma stage_room wi n : stage wi -> n <= 2 ^ 50 -> room wi n.
Proof.
  intros Hs Hn. destruct (st_out wi Hs) as [Hw Hb]. split; [done|]. split; [apply (st_alloc wi Hs)|].
  pose proof (bb_bytes_length _ Hw) as Hl. rewrite Hb in Hl. simpl in Hl. unfold PTRDIFF_MAX. lia.
Qed.

Lemma farewell_length g : Z.of_nat (length (farewell g)) <= 5 * caps_length (caps g) + 32.
Proof.
  unfold farewell. rewrite !length_app. change (length (cstr TB_HARDCAP_EXIT_MOUSE)) with 32%nat.
  pose proof (cap_text_length g TB_CAP_SHOW_CURSOR). pose proof (cap_text_length g TB_CAP_SGR0).
  pose proof (cap_text_length g TB_CAP_CLEAR_SCREEN). pose proof (cap_text_length g TB_CAP_EXIT_CA).
  pose proof (cap_text_length g TB_CAP_EXIT_KEYPAD). lia.
Qed.

Lemma stage_endable wi : stage wi -> endable wi.
Proof.
  intros Hs. constructor; try apply Hs. apply stage_room; [done|].
  pose proof (farewell_length (G wi)). destruct (st_caps wi Hs). lia.
Qed.

Definition after_reset : tbw :=
  set_G (set_wfd wf (set_rfd r (set_ttyfd r (reset_global (ttyfd_open (G w)))))) w.

Definition after_attrs (t : termios) : tbw :=
  mk_tbw (set_has_orig_tios true (set_orig_tios (s_tios (T w)) (G after_reset))) (set_tios t (T w)) (X w).

Hypothesis Hr : 0 <= r.
Hypothesis Halloc : s_alloc (T w) = [].
Hypothesis Htc : s_tc (T w) = [].
Hypothesis Hwrite : s_write (T w) = [].
Hypothesis Hcc : length (c_cc (s_tios (T w))) = 32%nat.

Lemma raw_some : exists t, raw_tios (s_tios (T w)) = Some t.
Proof.
  unfold raw_tios, set_cc. cbn [c_cc cfmakeraw]. rewrite zupdate_range by (rewrite Hcc; unfold VMIN; lia).
  cbn [c_cc]. rewrite zupdate_range by (rewrite length_insert, Hcc; unfold VTIME; lia). by eexists.
Qed.

Lemma attrs_step t :
  raw_tios (s_tios (T w)) = Some t ->
  init_term_attrs after_reset = (Ret TB_OK, after_attrs t) /\ stage (after_attrs t).
Proof.
  intros Ht. split.
  - unfold init_term_attrs. mrun (eq_refl : glob ttyfd after_reset = (Ret r, after_reset)).
    rewrite (proj2 (Z.ltb_ge r 0)) by done.
    mrun (tsys_ret sys_tcgetattr after_reset (0, s_tios (T w)) (T w)
      ltac:(unfold sys_tcgetattr; cbn; by rewrite Htc)).
    change (negb (0 =? 0)) with false. cbv iota. change (set_T (T w) after_reset) with after_reset.
    set (w1 := set_G (set_has_orig_tios true (set_orig_tios (s_tios (T w)) (G after_reset))) after_reset).
    rewrite (bind_ret _ _ after_reset tt (set_G (set_orig_tios (s_tios (T w)) (G after_reset)) after_reset)) by done.
    rewrite (bind_ret _ _ _ tt w1) by done.
    rewrite Ht. mrun (eq_refl : deref (Some t) w1 = (Ret t, w1)).
    mrun (tsys_ret (sys_tcsetattr t) w1 0 (set_tios t (T w)) ltac:(unfold sys_tcsetattr; cbn; by rewrite Htc)).
    done.
  - constructor; try done.
    + by left.
    + split; [by right|]. vm_compute. discriminate.
    + apply trie_wf_zero.
    + by left.
    + by left.
Qed.

(** No compiled entry is found. *)
Definition no_files (x : env) : Prop := forall p, e_file x p = None.

Lemma load_none wi : no_files (X wi) -> load_terminfo wi = (Ret TB_ERR, wi).
Proof.
  intros Hn. assert (forall d term, load_terminfo_from_path d term wi = (Ret TB_ERR, wi)) as Hp.
  { intros d term. unfold load_terminfo_from_path, snprintf_or_return. destruct (_ <=? _); [done|].
    unfold if_ok_return, read_terminfo_path. rewrite bind_assoc. mrun (eq_refl : gets X wi = (Ret (X wi), wi)).
    by rewrite Hn. }
  assert (forall dirs term k, load_from_dirs dirs term k wi = k wi) as Hd.
  { intros dirs term k. induction dirs as [|d dirs IH]; [done|]. cbn [load_from_dirs].
    unfold if_ok_return. by mrun (Hp d term). }
  unfold load_terminfo. assert (forall v, getenv v wi = (Ret (e_var (X wi) v), wi)) as Hget by done.
  mrun (Hget (lit "TERM")). destruct (e_var (X wi) (lit "TERM")) as [term|]; [|done].
  mrun (Hget (lit "TERMINFO")). rewrite Hd. mrun (Hget (lit "HOME")).
  set (after := bind (getenv (lit "TERMINFO_DIRS")) _).
  assert (after wi = (Ret TB_ERR, wi)) as Ea.
  { subst after. mrun (Hget (lit "TERMINFO_DIRS")). destruct (e_var (X wi) (lit "TERMINFO_DIRS")) as [ds|]; [|by rewrite Hd].
    unfold snprintf_or_return. destruct (_ <=? _); [done|]. by rewrite !Hd. }
  destruct (e_var (X wi) (lit "HOME")) as [h|]; [|done].
  unfold snprintf_or_return at 1. destruct (_ <=? _); [done|]. unfold if_ok_return.
  mrun (Hp (h ++ lit "/.terminfo") term). exact Ea.
Qed.

(** The built-in terminal a value of [TERM] stands for. *)
Definition terminal (term : list Z) (t : list Z * list (list Z) * list Z) : Prop :=
  let '(name, c, alias) := t in t ∈ builtin_terms /\
    (term = name \/ strstr term name = true \/ alias <> [] /\ strstr term alias = true).

Lemma find_In {A} f (l : list A) x : find f l = Some x -> x ∈ l /\ f x = true.
Proof. intros H%find_some. by rewrite list_elem_of_In. Qed.

Lemma builtin_found wi :
  (exists term t, e_var (X wi) (lit "TERM") = Some term /\ terminal term t /\
     load_builtin_caps wi = (Ret TB_OK, with_caps (Some <$> snd (fst t)) wi)) \/
  (exists rv, load_builtin_caps wi = (Ret rv, wi) /\ (rv = TB_ERR_NO_TERM \/ rv = TB_ERR_UNSUPPORTED_TERM)).
Proof.
  unfold load_builtin_caps. mrun (eq_refl : getenv (lit "TERM") wi = (Ret (e_var (X wi) (lit "TERM")), wi)).
  destruct (e_var (X wi) (lit "TERM")) as [term|]; [|by right; eexists; split; [|left]].
  destruct (find (fun '(name, _, _) => bool_decide (term = name)) builtin_terms) as [[[name c] alias]|] eqn:E1.
  - left. exists term, (name, c, alias). apply find_In in E1 as [Hin H%bool_decide_eq_true].
    split; [done|]. split; [by split; [|left]|done].
  - match goal with |- context [find ?f builtin_terms] => destruct (find f builtin_terms) as [[[name c] alias]|] eqn:E2 end;
      [|by right; eexists; split; [|right]].
    left. exists term, (name, c, alias). apply find_In in E2 as [Hin H].
    split; [done|]. split; [|done]. split; [done|]. right.
    apply orb_true_iff in H as [H|[Ha H]%andb_true_iff]; [by left|right]. split; [|done].
    by apply negb_true_iff, bool_decide_eq_false in Ha.
Qed.

Lemma stage_caps c wi : stage wi -> caps_full (Some <$> c) -> caps_length (Some <$> c) <= 2000 -> stage (with_caps (Some <$> c) wi).
Proof. intros [] Hf Hl. constructor; try done. split; [|done]. left. exact Hf. Qed.

Lemma caps_step wi :
  stage wi -> no_files (X wi) ->
  (exists term name c alias, e_var (X wi) (lit "TERM") = Some term /\ terminal term (name, c, alias) /\
     init_term_caps wi = (Ret TB_OK, with_caps (Some <$> c) wi) /\ stage (with_caps (Some <$> c) wi)) \/
  (exists rv, init_term_caps wi = (Ret rv, wi) /\ rv <> TB_OK).
Proof.
  intros Hs Hn. unfold init_term_caps. mrun (load_none wi Hn). change (TB_ERR =? TB_OK) with false. cbv iota.
  destruct (builtin_found wi) as [(term & [[name c] alias] & Hv & Ht & E)|(rv & E & Hrv)].
  - left. exists term, name, c, alias. split; [done|]. split; [done|]. split; [done|].
    destruct (builtin_caps_full name c alias (proj1 Ht)). by apply stage_caps.
  - right. exists rv. split; [done|]. by destruct Hrv as [->| ->].
Qed.

Lemma trie_step wi name c alias :
  stage wi -> (name, c, alias) ∈ builtin_terms -> caps (G wi) = Some <$> c -> g_trie (G wi) = trie_zero ->
  exists root, init_cap_trie (Some <$> c) trie_zero (T wi) = (Ret (TB_OK, root), T wi) /\
    init_trie wi = (Ret TB_OK, set_G (set_g_trie root (G wi)) wi) /\ stage (set_G (set_g_trie root (G wi)) wi).
Proof.
  intros Hs Hin Hc Hz. destruct (builtin_entries _ _ _ Hin) as [_ Ho].
  destruct (init_cap_trie_spec c (T wi) (st_alloc wi Hs) Ho) as (root & E & Hw & _).
  exists root. split; [done|]. split.
  - unfold init_trie. mrun (eq_refl : glob caps wi = (Ret (caps (G wi)), wi)).
    mrun (eq_refl : glob g_trie wi = (Ret (g_trie (G wi)), wi)). rewrite Hc, Hz.
    mrun (tsys_ret _ wi _ _ E). by rewrite set_T_id.
  - destruct Hs. by constructor.
Qed.

Lemma pipe_step wi :
  stage wi -> X wi = X w -> (forall a b, next_pipe (X w) = Some (a, b) -> 0 <= a /\ 0 <= b) ->
  exists rv wj, init_resize_handler wi = (Ret rv, wj) /\ stage wj /\
    (rv = TB_OK -> exists a b, next_pipe (X w) = Some (a, b) /\ T wj = T wi /\
       G wj = set_resize_wfd b (set_resize_rfd a (G wi))).
Proof.
  intros Hs HX Hab.
  assert (forall w1 a b, next_pipe (X w) = Some (a, b) -> G w1 = G wi -> T w1 = T wi -> e_closed (X w1) = e_closed (X w) ->
    e_opened (X w1) = e_opened (X w) ++ [a; b] -> e_sigaction (X w1) = e_sigaction (X w) -> exists rv wj,
    (bind (upd (fun g => set_resize_wfd b (set_resize_rfd a g))) (fun _ =>
     bind (sys_sigaction true) (fun rv =>
     if negb (rv =? 0) then bind save_errno (fun _ => ret TB_ERR_RESIZE_SIGACTION) else ret TB_OK))) w1 = (Ret rv, wj) /\
    stage wj /\ (rv = TB_OK -> exists a b, next_pipe (X w) = Some (a, b) /\ T wj = T wi /\
       G wj = set_resize_wfd b (set_resize_rfd a (G wi)))) as Hsig.
  { intros w1 a b Hp HG HT Hc Ho Hsg. destruct (Hab a b Hp) as [Ha Hb].
    set (w2 := set_G (set_resize_wfd b (set_resize_rfd a (G w1))) w1).
    mrun (eq_refl : upd (fun g => set_resize_wfd b (set_resize_rfd a g)) w1 = (Ret tt, w2)).
    destruct (sigaction_ret true w2) as (rv & w3 & E & HG3 & HT3 & (HX3 & _) & Ho3 & Hok & Hsg3). mrun E.
    assert (G w2 = set_resize_wfd b (set_resize_rfd a (G wi))) as HG2 by (cbn; by rewrite HG).
    assert (stage w3) as Hs3.
    { destruct Hs. constructor; rewrite ?HG3, ?HX3, ?HG2; try done; try (by destruct HT3 as [->|[e ->]]; cbn; rewrite HT).
      - right. exists a, b. rewrite Ho3, HG3, HG2. by repeat split.
      - intros Hf. apply Hsg3. cbn. by rewrite Hsg. }
    destruct (Z.eqb_spec rv 0) as [->|Hrv]; cbn [negb].
    - exists TB_OK, w3. split; [done|]. split; [done|]. intros _. exists a, b. rewrite HG3.
      destruct (Hok eq_refl) as [_ ->]. split; [done|]. split; [exact HT|exact HG2].
    - eexists _, _. split; [reflexivity|]. split; [destruct Hs3; by constructor|done]. }
  unfold init_resize_handler, sys_pipe, next_pipe in *. rewrite bind_assoc.
  mrun (eq_refl : gets X wi = (Ret (X wi), wi)). rewrite HX.
  destruct (e_pipe (X w)) as [|[e|[a b]] l].
  - apply (Hsig (set_X (set_e_opened (e_opened (X wi) ++ [4; 5]) (X wi)) wi)); try done; cbn; by rewrite HX.
  - eexists _, _. split; [reflexivity|]. split; [|done]. destruct Hs. by constructor.
  - set (w1 := set_X (set_e_pipe l (X wi)) wi).
    apply (Hsig (set_X (set_e_opened (e_opened (X w1) ++ [a; b]) (X w1)) w1)); try done; cbn; by rewrite HX.
Qed.

Lemma send_step wi C :
  stage wi -> caps (G wi) = C -> caps_full C ->
  exists wm wj, send_init_escape_codes wi = (Ret TB_OK, wm) /\ send_clear wm = (Ret TB_OK, wj) /\ stage wj /\
    erase (G wj) = erase (G wi) /\ front (G wj) = front (G wi) /\ X wj = X wi /\
    exists bs, T wj = set_out (s_out (T wi) ++ bs) (T wi).
Proof.
  intros Hs Hc HC. pose proof (caps_length_nonneg C) as Hn.
  assert (caps_length C <= 2000) as Hl by (rewrite <- Hc; apply (st_caps wi Hs)).
  assert (draws C (caps_length C + (caps_length C + (caps_length C + 0))) send_init_escape_codes) as Hd.
  { unfold send_init_escape_codes.
    repeat (apply draws_seq; [lia|lia|apply draws_cap; [done|vm_compute; intuition congruence]|]). apply draws_ret. }
  destruct (Hd wi Hc) as (wm & Em & Hdm & Hfm); [apply stage_room; [done|lia]|].
  pose proof Hdm as (Hem & HTm & HXm & Hwm & Hlm).
  assert (bb_len (g_out (G wi)) = 0) as H0.
  { destruct (st_out wi Hs) as [Hw Hb]. pose proof (bb_bytes_length _ Hw) as E. rewrite Hb in E. by rewrite <- E. }
  destruct (send_clear_spec C wm) as (wj & Ej & (He & HX & Hwj & Hbj & bs & HT) & Hf); [|done| | |].
  - rewrite <- Hc. apply (f_equal caps) in Hem. exact Hem.
  - split; [done|]. rewrite HTm. split; [apply Hs|]. unfold clear_cost, attr_cost, PTRDIFF_MAX. lia.
  - rewrite HTm. apply Hs.
  - rewrite HTm in HT.
    exists wm, wj. split; [done|]. split; [done|].
    assert (erase (G wj) = erase (G wi)) as He' by congruence.
    split; [|split; [done|split; [congruence|split; [congruence|by exists bs]]]].
    assert (forall A (f : tb_global -> A), (forall g, f (erase g) = f g) -> f (G wj) = f (G wi)) as Hfield.
    { intros A f H. by rewrite <- (H (G wj)), He', H. }
    destruct Hs. constructor; rewrite ?HT, ?HX, ?HXm; cbn; try done.
    + by rewrite (Hfield _ orig_tios).
    + by rewrite (Hfield _ has_orig_tios).
    + by rewrite (Hfield _ ttyfd).
    + by rewrite (Hfield _ rfd).
    + by rewrite (Hfield _ wfd).
    + by rewrite (Hfield _ ttyfd_open).
    + unfold pipe_open. by rewrite HX, HXm, (Hfield _ resize_rfd), (Hfield _ resize_wfd).
    + unfold caps_state, caps_ok. by rewrite (Hfield _ caps).
    + by rewrite (Hfield _ g_trie).
    + by rewrite (Hfield _ back).
    + by rewrite Hf, Hfm.
Qed.

(** The bytes of a start: the screen of the program, its keypad and no cursor,
    the attributes, and a clear screen. *)
Definition hello (g : tb_global) : list Z :=
  (cap_text g TB_CAP_ENTER_CA ++ cap_text g TB_CAP_ENTER_KEYPAD ++ cap_text g TB_CAP_HIDE_CURSOR) ++
  attr_bytes g (g_fg g) (g_bg g) ++ cap_text g TB_CAP_CLEAR_SCREEN ++ cursor_bytes (cursor_x g) (cursor_y g).

Lemma send_hello wi :
  stage wi -> caps_full (caps (G wi)) -> last_fg (G wi) <> g_fg (G wi) ->
  exists wm b, send_init_escape_codes wi = (Ret TB_OK, wm) /\
    send_clear wm = (Ret TB_OK, mk_tbw
      (set_last_y (-1) (set_last_x (-1) (set_g_out b (set_last_bg (g_bg (G wi)) (set_last_fg (g_fg (G wi)) (G wi))))))
      (set_out (s_out (T wi) ++ hello (G wi)) (T wi)) (X wi)) /\
    bb_bytes b = [].
Proof.
  intros Hs HC Hne. destruct (st_out wi Hs) as [Hw0 Hb0]. destruct (st_caps wi Hs) as [_ Hl].
  assert (forall i, 0 <= i < TB_CAP__COUNT -> emits (G wi) (out_cap i) (cap_text (G wi) i)) as Hcap
    by (intros; by apply emits_cap).
  pose proof (cap_text_length (G wi)) as Hct. pose proof (attr_bytes_length (G wi) (g_fg (G wi)) (g_bg (G wi))) as Hat.
  pose proof (cursor_bytes_length (cursor_x (G wi)) (cursor_y (G wi))) as Hcu. unfold attr_cost in Hat.
  assert (emits (G wi) send_init_escape_codes
    (cap_text (G wi) TB_CAP_ENTER_CA ++ cap_text (G wi) TB_CAP_ENTER_KEYPAD ++ cap_text (G wi) TB_CAP_HIDE_CURSOR)) as He.
  { unfold send_init_escape_codes. do 2 (apply emits_seq; [apply Hcap; vm_compute; intuition congruence|]).
    apply emits_ok_end, Hcap. vm_compute; intuition congruence. }
  set (h1 := _ ++ _ ++ _) in He.
  assert (Z.of_nat (length h1) <= 6000) as Hh1.
  { subst h1. rewrite !length_app. pose proof (Hct TB_CAP_ENTER_CA). pose proof (Hct TB_CAP_ENTER_KEYPAD).
    pose proof (Hct TB_CAP_HIDE_CURSOR). lia. }
  destruct (He wi eq_refl) as (b1 & E1 & Hw1 & Hb1); [apply stage_room; [done|lia]|].
  exists (put_out b1 wi). set (w1 := put_out b1 wi) in *.
  assert (forall n, n <= 100000 -> room w1 n) as Hr1.
  { intros n Hn. split; [done|]. split; [apply (st_alloc wi Hs)|]. change (g_out (G w1)) with b1.
    rewrite <- (bb_bytes_length b1 Hw1), Hb1, Hb0. simpl. unfold PTRDIFF_MAX. lia. }
  destruct (ends_attr (G wi) (g_fg (G wi)) (g_bg (G wi)) HC) with (w := w1) as (b2 & E2 & Hw2 & Hb2);
    [by rewrite (proj2 (Z.eqb_neq _ _)) by done|done|apply Hr1; lia|].
  set (w2 := with_attr _ _ (put_out b2 w1)) in *.
  assert (forall b bs, bb_wf b -> bb_bytes b = h1 ++ bs -> Z.of_nat (length bs) <= 40000 ->
    forall n, n <= 5000 -> room (put_out b w2) n) as Hr2.
  { intros b bs Hw Hb Hlen n Hn. split; [done|]. split; [apply (st_alloc wi Hs)|]. change (g_out (G (put_out b w2))) with b.
    rewrite <- (bb_bytes_length b Hw), Hb, length_app. unfold PTRDIFF_MAX. lia. }
  change (bb_bytes (g_out (G w1))) with (bb_bytes b1) in Hb2. rewrite Hb1, Hb0 in Hb2. cbn [app] in Hb2.
  pose proof (Hct TB_CAP_CLEAR_SCREEN) as Hcs.
  destruct (emits_cap (G w2) TB_CAP_CLEAR_SCREEN HC) with (w := w2) as (b3 & E3 & Hw3 & Hb3);
    [vm_compute; intuition congruence|done|apply (Hr2 b2 _ Hw2 Hb2); [lia|change (cap_text (G w2)) with (cap_text (G wi)); lia]|].
  change (bb_bytes (g_out (G w2))) with (bb_bytes b2) in Hb3. rewrite Hb2, <- app_assoc in Hb3.
  change (cap_text (G w2)) with (cap_text (G wi)) in Hb3.
  destruct (emits_cursor (G (put_out b3 w2)) (cursor_x (G wi)) (cursor_y (G wi)) (put_out b3 w2) eq_refl)
    as (b4 & E4 & Hw4 & Hb4); [apply (Hr2 b3 _ Hw3 Hb3); [rewrite length_app|]; lia|].
  change (bb_bytes (g_out (G (put_out b3 w2)))) with (bb_bytes b3) in Hb4.
  destruct (out_flush_calm (put_out b4 w2) Hw4 (st_write wi Hs)) as (b5 & E5 & Hw5 & Hb5).
  exists b5. split; [exact E1|]. split; [|exact Hb5].
  unfold send_clear, if_err_return. mrun (eq_refl : gets G w1 = (Ret (G w1), w1)).
  mrun E2. change (negb (TB_OK =? TB_OK)) with false. cbv iota.
  mrun E3. change (negb (TB_OK =? TB_OK)) with false. cbv iota.
  mrun E4. change (negb (TB_OK =? TB_OK)) with false. cbv iota.
  mrun E5. change (negb (TB_OK =? TB_OK)) with false. cbv iota.
  change (g_out (G (put_out b4 w2))) with b4. rewrite Hb4, Hb3, <- !app_assoc. unfold hello. fold h1.
  change (s_out (T w2)) with (s_out (T wi)). done.
Qed.

(** What the terminal answers when its size is asked for: a size, or nothing
    in time. *)
Definition size_answer (t : sys) : Prop :=
  (exists rows cols zs, s_winsz t = inr (rows, cols) :: zs /\ is_int (wrapu 16 cols * wrapu 16 rows)) \/
  (exists err zs ss, s_winsz t = inl err :: zs /\ s_select t = SelTimeout :: ss).

Lemma stage_T wi t :
  stage wi -> s_alloc t = s_alloc (T wi) -> s_tc t = s_tc (T wi) -> s_write t = s_write (T wi) ->
  s_tios t = s_tios (T wi) -> stage (set_T t wi).
Proof. intros [] Ha Hb Hc Hd. constructor; cbn; congruence || done. Qed.

Lemma stage_sized wi a b : stage wi -> stage (sized a b wi).
Proof. intros []. by constructor. Qed.

Lemma size_step wi :
  stage wi -> r < FD_SETSIZE -> size_answer (T wi) ->
  (exists rows cols zs, s_winsz (T wi) = inr (rows, cols) :: zs /\ is_int (wrapu 16 cols * wrapu 16 rows) /\
     update_term_size wi = (Ret TB_OK, sized (wrapu 16 cols) (wrapu 16 rows) (set_T (set_winsz zs (T wi)) wi)) /\
     stage (sized (wrapu 16 cols) (wrapu 16 rows) (set_T (set_winsz zs (T wi)) wi))) \/
  (exists rv wj, update_term_size wi = (Ret rv, wj) /\ rv <> TB_OK /\ stage wj).
Proof.
  intros Hs Hfd [(rows & cols & zs & Hz & Hi)|(err & zs & ss & Hz & Hss)]; unfold update_term_size.
  - left. exists rows, cols, zs. split; [done|]. split; [done|].
    mrun (eq_refl : glob ttyfd wi = (Ret (ttyfd (G wi)), wi)). rewrite (st_tty wi Hs), (proj2 (Z.ltb_ge r 0)) by done.
    mrun (tsys_ret sys_winsize wi (0, (rows, cols)) (set_winsz zs (T wi)) ltac:(unfold sys_winsize; by rewrite Hz)).
    split; [done|]. apply stage_sized. by apply stage_T.
  - right. mrun (eq_refl : glob ttyfd wi = (Ret (ttyfd (G wi)), wi)).
    rewrite (st_tty wi Hs), (proj2 (Z.ltb_ge r 0)) by done.
    mrun (tsys_ret sys_winsize wi (-1, (0, 0)) (set_errno err (set_winsz zs (T wi)))
      ltac:(unfold sys_winsize; by rewrite Hz)).
    change (-1 =? 0) with false. cbv iota. set (w1 := set_T _ wi).
    mrun (eq_refl : tsys sys_errno w1 = (Ret err, w1)).
    assert (stage w1) as Hs1 by by apply stage_T.
    set (w2 := set_T (set_select ss (set_out (s_out (T w1) ++ size_request) (T w1))) w1).
    assert (update_term_size_via_esc w1 = (Ret TB_ERR_RESIZE_POLL, set_G (set_last_errno (s_errno (T w2)) (G w2)) w2)) as E.
    { unfold update_term_size_via_esc. fold size_request.
      mrun (tsys_ret _ w1 _ _ (sys_write_nil size_request (T w1) (st_write w1 Hs1))). rewrite Z.eqb_refl. cbn [negb].
      set (w3 := set_T _ w1). mrun (eq_refl : glob rfd w3 = (Ret (rfd (G wi)), w3)).
      mrun (fd_set_ok (rfd (G wi)) w3 ltac:(rewrite (st_rfd wi Hs); lia)).
      mrun (tsys_ret sys_select w3 (0, false, false) (set_select ss (T w3))
        ltac:(unfold sys_select; change (s_select (T w3)) with (s_select (T wi)); by rewrite Hss)). done. }
    mrun E. change (TB_ERR_RESIZE_POLL =? TB_OK) with false. cbv iota.
    eexists _, _. split; [reflexivity|]. split; [done|].
    assert (stage w2) as Hs2 by (by apply stage_T). destruct Hs2. by constructor.
Qed.

Lemma cell_step wi :
  stage wi -> 0 <= g_width (G wi) -> 0 <= g_height (G wi) -> is_int (g_width (G wi) * g_height (G wi)) ->
  exists cB cF, init_cellbuf wi = (Ret TB_OK, set_G (set_front cF (set_back cB (G wi))) wi) /\
    (forall c, c = cB \/ c = cF -> cb_wf c /\ cb_width c = g_width (G wi) /\ cb_height c = g_height (G wi) /\
       forall x y, in_grid (cb_width c) (cb_height c) x y ->
         view_at c x y = Some (blank (g_fg (G wi)) (g_bg (G wi)))).
Proof.
  intros Hs Hw Hh Hi. unfold init_cellbuf. mrun (eq_refl : gets G wi = (Ret (G wi), wi)).
  set (init := fun (_ _ : Z) (c : cellbuf) => cellbuf_init c (g_width (G wi)) (g_height (G wi))).
  destruct (cellbuf_init_spec (back (G wi)) _ _ (T wi) Hw Hh Hi (st_alloc wi Hs)) as (c1 & E1 & W1 & D1 & D1').
  unfold if_err_return at 1. mrun (buf_op_ret true init wi c1 E1).
  change (negb (TB_OK =? TB_OK)) with false. cbv iota. set (w1 := put_buf true c1 wi).
  destruct (cellbuf_init_spec (front (G wi)) _ _ (T wi) Hw Hh Hi (st_alloc wi Hs)) as (c2 & E2 & W2 & D2 & D2').
  unfold if_err_return at 1. mrun (buf_op_ret false init w1 c2 E2).
  change (negb (TB_OK =? TB_OK)) with false. cbv iota. set (w2 := put_buf false c2 w1).
  destruct (cellbuf_clear_spec (g_fg (G wi)) (g_bg (G wi)) c1 (T wi) W1) as (c3 & E3 & W3 & D3 & D3' & V3).
  unfold if_err_return at 1. mrun (buf_op_ret true cellbuf_clear w2 c3 E3).
  change (negb (TB_OK =? TB_OK)) with false. cbv iota. set (w3 := put_buf true c3 w2).
  destruct (cellbuf_clear_spec (g_fg (G wi)) (g_bg (G wi)) c2 (T wi) W2) as (c4 & E4 & W4 & D4 & D4' & V4).
  unfold if_err_return at 1. mrun (buf_op_ret false cellbuf_clear w3 c4 E4).
  change (negb (TB_OK =? TB_OK)) with false. cbv iota.
  exists c3, c4. split; [done|]. intros c [->| ->].
  - split; [done|]. split; [congruence|]. split; [congruence|]. by rewrite D3, D3'.
  - split; [done|]. split; [congruence|]. split; [congruence|]. by rewrite D4, D4'.
Qed.
End Starting.

Lemma if_err_ok (m k : M tbw Z) w w1 : m w = (Ret TB_OK, w1) -> (m >>! k) w = k w1.
Proof. intros E. unfold if_err_return. by mrun E. Qed.

Lemma if_err_fail (m k : M tbw Z) w rv w1 : m w = (Ret rv, w1) -> rv <> TB_OK -> (m >>! k) w = (Ret rv, w1).
Proof. intros E H. unfold if_err_return. mrun E. by rewrite (proj2 (Z.eqb_neq rv TB_OK)). Qed.

Section Outcome.
Context `{opts : config}.

(** A buffer of blank cells. *)
Definition blank_screen (c : cellbuf) (w h f b : Z) : Prop :=
  cb_wf c /\ cb_width c = w /\ cb_height c = h /\
  forall x y, in_grid w h x y -> view_at c x y = Some (blank f b).

(** The library has been started on descriptor [r] of a terminal of the given
    size, with the capabilities [c]. *)
Record started (w : tbw) (r : Z) (c : list (list Z)) (width height : Z) (w' : tbw) : Prop := {
  sr_idle : idle c w';
  sr_end : endable w';
  sr_caps : caps (G w') = Some <$> c;
  sr_orig : orig_tios (G w') = s_tios (T w) /\ has_orig_tios (G w') = true /\ ttyfd (G w') = r;
  sr_raw : raw_tios (s_tios (T w)) = Some (s_tios (T w'));
  sr_size : size_of w' = (width, height);
  sr_back : blank_screen (back (G w')) width height TB_DEFAULT TB_DEFAULT;
  sr_front : blank_screen (front (G w')) width height TB_DEFAULT TB_DEFAULT;
  sr_modes : input_mode (G w') = TB_INPUT_ESC /\ output_mode (G w') = TB_OUTPUT_NORMAL;
  sr_calm : s_alloc (T w') = [] /\ s_tc (T w') = [] /\ s_write (T w') = [];
  sr_sent : s_out (T w') = s_out (T w) ++ hello (G w') /\ bb_bytes (g_out (G w')) = [];
  sr_attrs : g_fg (G w') = TB_DEFAULT /\ g_bg (G w') = TB_DEFAULT /\
    last_fg (G w') = TB_DEFAULT /\ last_bg (G w') = TB_DEFAULT;
  sr_cursor : cursor_x (G w') = -1 /\ cursor_y (G w') = -1
}.

(** Nothing of a start is left but what was sent to the terminal: the global is
    reset, the attributes are as before, every descriptor opened since has been
    closed (and the terminal's own, when the library had opened it), and the
    signal has its default action, unless [sigaction] fails. *)
Definition undone (w : tbw) (r : Z) (w' : tbw) : Prop :=
  G w' = reset_global false /\ s_tios (T w') = s_tios (T w) /\
  (exists opened, e_opened (X w') = e_opened (X w) ++ opened /\
     e_closed (X w') = e_closed (X w) ++ (if ttyfd_open (G w) then [r] else []) ++ opened) /\
  (Forall (fun a => a = None) (e_sigaction (X w)) -> e_handler (X w') = false).

Definition calm_start (w : tbw) (r : Z) : Prop :=
  0 <= r < FD_SETSIZE /\ e_isatty (X w) r = true /\ length (c_cc (s_tios (T w))) = 32%nat /\
  s_alloc (T w) = [] /\ s_tc (T w) = [] /\ s_write (T w) = [] /\ no_files (X w) /\
  (forall a b, next_pipe (X w) = Some (a, b) -> 0 <= a < FD_SETSIZE /\ 0 <= b) /\ size_answer (T w).

Lemma stage_undone w r wf wi :
  stage w r wf wi -> 0 <= r -> exists w', tb_deinit wi = (Ret tt, w') /\ undone w r w'.
Proof.
  intros Hs Hr. destruct (deinit_spec wi (stage_endable w r wf wi Hs) (st_tc _ _ _ _ Hs))
    as (w' & E & HG & Ht & Hc & _ & Ho & Hh). exists w'. split; [done|]. split; [done|].
  rewrite (st_has _ _ _ _ Hs), (st_tty _ _ _ _ Hs), (st_orig _ _ _ _ Hs), (proj2 (Z.leb_le 0 r)) in Ht by done.
  split; [exact Ht|]. split; [|intros Hf; by apply Hh, (st_sig _ _ _ _ Hs)].
  rewrite Hc, Ho, (st_closed _ _ _ _ Hs). unfold to_close.
  rewrite (st_open _ _ _ _ Hs), (st_tty _ _ _ _ Hs), (proj2 (Z.leb_le 0 r)) by done.
  destruct (st_fds _ _ _ _ Hs) as [(-> & -> & ->)|(a & b & Ha & Hb & -> & -> & ->)].
  - exists []. by rewrite app_nil_r.
  - rewrite (proj2 (Z.leb_le 0 a)), (proj2 (Z.leb_le 0 b)) by done. by exists [a; b].
Qed.

Lemma attr_not_default : attr_not TB_DEFAULT <> TB_DEFAULT.
Proof. unfold attr_not, TB_DEFAULT, attr_bits. by destruct attr_w. Qed.

Lemma init_outcome r wf w :
  calm_start w r ->
  exists rv w', tb_init_rwfd r wf w = (Ret rv, w') /\
    (rv = TB_OK /\ (exists term name c alias rows cols, e_var (X w) (lit "TERM") = Some term /\
       terminal term (name, c, alias) /\ started w r c (wrapu 16 cols) (wrapu 16 rows) w') \/
     rv <> TB_OK /\ undone w r w').
Proof.
  intros ([Hr Hfd] & Htty & Hcc & Ha & Htc & Hwr & Hnf & Hpipe & Hsz).
  destruct (raw_some w Hcc) as [t Ht].
  destruct (attrs_step w r wf Hr Ha Htc Hwr t Ht) as [E1 S1].
  unfold tb_init_rwfd.
  rewrite (bind_ret _ _ w tt (set_G (reset_global (ttyfd_open (G w))) w)) by done.
  rewrite (bind_ret _ _ _ (X w) (set_G (reset_global (ttyfd_open (G w))) w)) by done.
  cbv zeta. rewrite Htty. rewrite (bind_ret _ _ _ tt (after_reset w r wf)) by done.
  set (inner := if_err_return init_term_attrs _).
  assert (exists rv wi, inner (after_reset w r wf) = (Ret rv, wi) /\
    (rv = TB_OK /\ (exists term name c alias rows cols, e_var (X w) (lit "TERM") = Some term /\
       terminal term (name, c, alias) /\ started w r c (wrapu 16 cols) (wrapu 16 rows) wi) \/
     rv <> TB_OK /\ exists w', tb_deinit wi = (Ret tt, w') /\ undone w r w')) as (rv & wi & E & H).
  2: { unfold bind at 1. rewrite E. destruct H as [(-> & H)|(Hrv & w' & Ed & H)].
    - eexists _, wi. split; [reflexivity|]. by left.
    - exists rv, w'. rewrite (proj2 (Z.eqb_neq rv TB_OK)) by done. split; [by mrun Ed|]. by right. }
  subst inner. rewrite (if_err_ok _ _ _ _ E1).
  destruct (caps_step w r wf (after_attrs w r wf t) S1 Hnf)
    as [(term & name & c & alias & Hv & Hterm & E2 & S2)|(rv & E2 & Hrv)].
  2: { exists rv, (after_attrs w r wf t). split; [by rewrite (if_err_fail _ _ _ _ _ E2)|]. right. split; [done|].
    by eapply stage_undone. }
  rewrite (if_err_ok _ _ _ _ E2). set (w2 := with_caps (Some <$> c) (after_attrs w r wf t)) in *.
  destruct (trie_step w r wf w2 name c alias S2 (proj1 Hterm) eq_refl eq_refl) as (root & Eroot & E3 & S3).
  rewrite (if_err_ok _ _ _ _ E3). set (w3 := set_G (set_g_trie root (G w2)) w2) in *.
  destruct (pipe_step w r wf w3 S3 eq_refl) as (rv4 & w4 & E4 & S4 & Hok4).
  { intros a b Hab. destruct (Hpipe a b Hab). lia. }
  assert (forall rv wj, stage w r wf wj -> rv <> TB_OK ->
    exists rv0 wi, (Ret rv, wj) = (Ret rv0 : outcome Z, wi) /\
    (rv0 = TB_OK /\ (exists term name c alias rows cols, e_var (X w) (lit "TERM") = Some term /\
       terminal term (name, c, alias) /\ started w r c (wrapu 16 cols) (wrapu 16 rows) wi) \/
     rv0 <> TB_OK /\ exists w', tb_deinit wi = (Ret tt, w') /\ undone w r w')) as Hfail.
  { intros rv wj Sj Hrv. exists rv, wj. split; [done|]. right. split; [done|]. by eapply stage_undone. }
  destruct (decide (rv4 = TB_OK)) as [->|Hrv].
  2: { rewrite (if_err_fail _ _ _ _ _ E4 Hrv). by apply Hfail. }
  destruct (Hok4 eq_refl) as (a & b & Hab & HT4 & HG4). destruct (Hpipe a b Hab) as [Hpa Hpb]. rewrite (if_err_ok _ _ _ _ E4).
  destruct (builtin_caps_full name c alias (proj1 Hterm)) as [Hfull _].
  destruct (send_step w r wf Hcc w4 (Some <$> c) S4) as (wm & w5 & Em & E5 & S5 & He5 & Hf5 & _ & bs & HT5);
    [by rewrite HG4|done|].
  destruct (send_hello w r wf Hcc w4 S4) as (wm' & b5 & Em' & E5' & Hb5);
    [by rewrite HG4|rewrite HG4; apply attr_not_default|].
  rewrite Em in Em'. injection Em' as <-. rewrite E5 in E5'. injection E5' as Hw5.
  rewrite (if_err_ok _ _ _ _ Em), (if_err_ok _ _ _ _ E5).
  assert (forall A (f : tb_global -> A), (forall g, f (erase g) = f g) -> f (G w5) = f (G w4)) as Hfield.
  { intros A f H. by rewrite <- (H (G w5)), He5, H. }
  assert (size_answer (T w5)) as Hsz5 by (rewrite HT5, HT4; exact Hsz).
  destruct (size_step w r wf Hr Hcc w5 S5 Hfd Hsz5)
    as [(rows & cols & zs & _ & Hi & E6 & S6)|(rv6 & w6 & E6 & Hrv6 & S6)].
  2: { rewrite (if_err_fail _ _ _ _ _ E6 Hrv6). by apply Hfail. }
  rewrite (if_err_ok _ _ _ _ E6). set (w6 := sized _ _ _) in *.
  destruct (cell_step w r wf w6 S6) as (cB & cF & E7 & Hcells);
    [apply (wrapu_range 16); lia|apply (wrapu_range 16); lia|exact Hi|].
  rewrite (if_err_ok _ _ _ _ E7). set (w7 := set_G _ w6).
  eexists TB_OK, _. split; [reflexivity|]. left. split; [done|].
  exists term, name, c, alias, rows, cols. split; [done|]. split; [done|].
  assert (forall A (f : tb_global -> A), (forall g, f (erase g) = f g) -> f (G w5) =
    f (set_resize_wfd b (set_resize_rfd a (G w3)))) as Hg by (intros A f Hf; by rewrite (Hfield A f Hf), HG4).
  destruct (Hcells cB (or_introl eq_refl)) as (WB & DB & DB' & VB).
  destruct (Hcells cF (or_intror eq_refl)) as (WF & DF & DF' & VF).
  assert (g_fg (G w6) = TB_DEFAULT /\ g_bg (G w6) = TB_DEFAULT) as [Efg Ebg].
  { split; [change (g_fg (G w6)) with (g_fg (G w5)); by rewrite (Hg _ g_fg)|].
    change (g_bg (G w6)) with (g_bg (G w5)). by rewrite (Hg _ g_bg). }
  assert (caps (G w5) = Some <$> c) as Ec5 by by rewrite (Hg _ caps).
  assert (T w6 = set_winsz zs (T w5)) as ET6 by done.
  assert (stage w r wf w7) as S7.
  { destruct S6. constructor; try done; by right. }
  constructor.
  - split; [done|]. split; [split; [split; [split|]|split]|split; [|split]].
    + change (fn_extract_esc_pre (G w5) = None). by rewrite (Hg _ fn_extract_esc_pre).
    + change (fn_extract_esc_post (G w5) = None). by rewrite (Hg _ fn_extract_esc_post).
    + exists (T w2), (T w2). split; [apply (st_alloc _ _ _ _ S2)|].
      assert (g_trie (G w5) = root) as <- by by rewrite (Hg _ g_trie). exact Eroot.
    + change (bb_wf (g_in (G w5))). rewrite (Hg _ g_in) by done. exact wf_zero.
    + change (bb_bytes (g_in (G w5)) = []). by rewrite (Hg _ g_in).
    + change (0 <= rfd (G w5) < FD_SETSIZE). rewrite (st_rfd _ _ _ _ S5). lia.
    + change (0 <= resize_rfd (G w5) < FD_SETSIZE). by rewrite (Hg _ resize_rfd).
    + apply (st_alloc _ _ _ _ S7).
  - destruct (stage_endable w r wf w7 S7). by constructor.
  - exact Ec5.
  - split; [apply (st_orig _ _ _ _ S7)|]. split; [apply (st_has _ _ _ _ S7)|apply (st_tty _ _ _ _ S7)].
  - apply (st_tios _ _ _ _ S7).
  - done.
  - split; [exact WB|]. split; [exact DB|]. split; [exact DB'|]. 
    intros x y Hxy. 
    pose proof (VB x y ltac:(by rewrite DB, DB')) as E. by rewrite Efg, Ebg in E.
  - split; [exact WF|]. split; [exact DF|]. split; [exact DF'|].
    intros x y Hxy. 
    pose proof (VF x y ltac:(by rewrite DF, DF')) as E. by rewrite Efg, Ebg in E.
  - split; [change (input_mode (G w5) = TB_INPUT_ESC); by rewrite (Hg _ input_mode)|].
    change (output_mode (G w5) = TB_OUTPUT_NORMAL). by rewrite (Hg _ output_mode).
  - split; [apply (st_alloc _ _ _ _ S7)|]. split; [apply (st_tc _ _ _ _ S7)|apply (st_write _ _ _ _ S7)].
  - change (s_out (T w5) = s_out (T w) ++ hello (G w5) /\ bb_bytes (g_out (G w5)) = []).
    rewrite Hw5. split; [|exact Hb5]. cbn [T s_out set_out]. by rewrite HT4.
  - split; [exact Efg|]. split; [exact Ebg|].
    change (last_fg (G w5) = TB_DEFAULT /\ last_bg (G w5) = TB_DEFAULT). rewrite Hw5. cbn. by rewrite HG4.
  - split; [change (cursor_x (G w5) = -1); by rewrite (Hg _ cursor_x)|].
    change (cursor_y (G w5) = -1). by rewrite (Hg _ cursor_y).
Qed.
End Outcome.

(** *** A terminal to start on *)

Definition cooked : termios := mk_termios 17664 5 191 35387 (replicate 32 0).

Definition start_world (sizes : list (Z + Z * Z)) (term : list Z) : tbw :=
  mk_tbw global_zero (set_tios cooked (set_winsz sizes calm))
    (mk_env (fun v => if bool_decide (v = lit "TERM") then Some term else None) (fun _ => None) (fun _ => true)
      [] [] [] [] [] false []).

Lemma start_world_calm rows cols zs term :
  is_int (wrapu 16 cols * wrapu 16 rows) -> calm_start (start_world (inr (rows, cols) :: zs) term) 0.
Proof.
  intros Hi. split; [split; vm_compute; done|]. split; [done|]. split; [done|]. split; [done|]. split; [done|].
  split; [done|]. split; [done|]. split.
  - intros a b [= <- <-]. split; [split; vm_compute; done|vm_compute; done].
  - left. by exists rows, cols, zs.
Qed.

(** A start that fails when the size is asked for: the pipe is closed again and
    the signal has no handler. *)
Definition unsized : tbw :=
  let w := start_world [inl 25] (lit "xterm") in set_T (set_select [SelTimeout] (T w)) w.

Example unsized_undone :
  let '(rv, w') := @tb_init_rwfd default_config 0 0 unsized in
  rv = Ret TB_ERR_RESIZE_IOCTL /\ e_opened (X w') = [4; 5] /\ e_closed (X w') = [4; 5] /\
  e_handler (X w') = false /\ s_tios (T w') = cooked.
Proof. vm_compute. repeat split. Qed.

(** A start that succeeds. *)
Definition demo_before : tbw := start_world [inr (2, 3); inr (2, 3)] (lit "xterm").
Definition demo_started : tbw := snd (@tb_init_rwfd default_config 0 0 demo_before).

Lemma demo_before_calm : calm_start demo_before 0.
Proof. apply start_world_calm. split; vm_compute; discriminate. Qed.

Lemma run_eq {A B} (p : outcome A * B) (a : A) : fst p = Ret a -> p = (Ret a, snd p).
Proof. destruct p. cbn. by intros ->. Qed.

Lemma demo_started_eq : @tb_init_rwfd default_config 0 0 demo_before = (Ret TB_OK, demo_started).
Proof.
  apply (run_eq (@tb_init_rwfd default_config 0 0 demo_before)). vm_compute. reflexivity.
Qed.

Lemma demo_started_calm : calm_start demo_started 0.
Proof.
  split; [split; vm_compute; done|]. do 5 (split; [vm_compute; reflexivity|]).
  split; [intros p; vm_compute; reflexivity|]. split.
  - intros a b H. vm_compute in H. injection H as <- <-. split; [split; vm_compute; done|vm_compute; done].
  - left. exists 2, 3, []. split; [vm_compute; reflexivity|]. split; vm_compute; discriminate.
Qed.

Definition demo_restarted : tbw := snd (@tb_init_rwfd default_config 0 0 demo_started).

Lemma demo_restarted_eq : @tb_init_rwfd default_config 0 0 demo_started = (Ret TB_OK, demo_restarted).
Proof.
  apply (run_eq (@tb_init_rwfd default_config 0 0 demo_started)). vm_compute. reflexivity.
Qed.

Lemma started_endable `{config} r wf w w1 :
  calm_start w r -> tb_init_rwfd r wf w = (Ret TB_OK, w1) ->
  endable w1 /\ initialized (G w1) = true /\ s_tc (T w1) = [].
Proof.
  intros Hc E. destruct (init_outcome r wf w Hc) as (rv & w' & E' & Hcase).
  rewrite E in E'. injection E' as <- <-.
  destruct Hcase as [(_ & term & name & c & alias & rows & cols & _ & _ & Hs)|[? _]]; [|done].
  split; [apply (sr_end _ _ _ _ _ _ Hs)|]. split; [apply (sr_idle _ _ _ _ _ _ Hs)|apply (sr_calm _ _ _ _ _ _ Hs)].
Qed.

Lemma demo_started_endable :
  @endable default_config demo_started /\ initialized (G demo_started) = true /\ s_tc (T demo_started) = [].
Proof. exact (@started_endable default_config 0 0 demo_before demo_started demo_before_calm demo_started_eq). Qed.

(** ** Properties *)



(** C24: whatever the program did after a start, [tb_shutdown] gives the terminal
    the attributes it had before the start, sends what was pending and the
    sequences that leave the screen, and resets the global. *)
Theorem shutdown_restores `{config} r wf w w1 w2 :
  calm_start w r -> tb_init_rwfd r wf w = (Ret TB_OK, w1) ->
  initialized (G w2) = true -> endable w2 -> s_tc (T w2) = [] ->
  orig_tios (G w2) = orig_tios (G w1) -> has_orig_tios (G w2) = has_orig_tios (G w1) ->
  ttyfd (G w2) = ttyfd (G w1) ->
  exists w3, tb_shutdown w2 = (Ret TB_OK, w3) /\ s_tios (T w3) = s_tios (T w) /\ G w3 = reset_global false /\
    e_closed (X w3) = e_closed (X w2) ++ to_close (G w2) /\
    s_out (T w3) = (if loaded_caps_b (G w2) && (0 <=? wfd (G w2))
      then s_out (T w2) ++ bb_bytes (g_out (G w2)) ++ farewell (G w2) else s_out (T w2)).
Proof.
  intros Hc E Hi He Htc Ho Hh Ht. destruct (init_outcome r wf w Hc) as (rv & w' & E' & Hcase).
  rewrite E in E'. injection E' as <- <-.
  destruct Hcase as [(_ & term & name & c & alias & rows & cols & _ & _ & Hs)|[? _]]; [|done].
  destruct (sr_orig _ _ _ _ _ _ Hs) as (Ho1 & Hh1 & Ht1). destruct (proj1 Hc) as [Hr _].
  destruct (deinit_spec w2 He Htc) as (w3 & Ed & HG & Htios & Hclosed & Hout & _).
  exists w3. split.
  - unfold tb_shutdown, if_not_init_return.
    mrun (eq_refl : glob initialized w2 = (Ret (initialized (G w2)), w2)). rewrite Hi. cbn [negb]. by mrun Ed.
  - split; [|done]. rewrite Hh, Ht, Ho, Hh1, Ht1, Ho1, (proj2 (Z.leb_le 0 r)) in Htios by done. exact Htios.
Qed.

Lemma shutdown_restores_witness :
  exists w3, @tb_shutdown default_config demo_started = (Ret TB_OK, w3) /\
    s_tios (T w3) = s_tios (T demo_before) /\ G w3 = @reset_global default_config false /\
    e_closed (X w3) = e_closed (X demo_started) ++ to_close (G demo_started) /\
    s_out (T w3) = (if loaded_caps_b (G demo_started) && (0 <=? wfd (G demo_started))
      then s_out (T demo_started) ++ bb_bytes (g_out (G demo_started)) ++ farewell (G demo_started)
      else s_out (T demo_started)).
Proof.
  apply (@shutdown_restores default_config 0 0 demo_before demo_started demo_started).
  - exact demo_before_calm.
  - exact demo_started_eq.
  - exact (proj1 (proj2 demo_started_endable)).
  - exact (proj1 demo_started_endable).
  - exact (proj2 (proj2 demo_started_endable)).
  - reflexivity.
  - reflexivity.
  - reflexivity.
Defined.

(** A second start is not refused: the library saves the attributes it set
    itself, and [tb_shutdown] leaves the terminal raw. *)
Theorem second_start_loses_attributes `{config} r wf w w1 w2 :
  calm_start w r -> tb_init_rwfd r wf w = (Ret TB_OK, w1) ->
  calm_start w1 r -> tb_init_rwfd r wf w1 = (Ret TB_OK, w2) ->
  exists w3, tb_shutdown w2 = (Ret TB_OK, w3) /\ Some (s_tios (T w3)) = raw_tios (s_tios (T w)).
Proof.
  intros Hc1 E1 Hc2 E2.
  destruct (init_outcome r wf w Hc1) as (rv & w' & E' & Hcase). rewrite E1 in E'. injection E' as <- <-.
  destruct Hcase as [(_ & term & name & c & alias & rows & cols & _ & _ & Hs1)|[? _]]; [|done].
  destruct (init_outcome r wf w1 Hc2) as (rv & w' & E' & Hcase). rewrite E2 in E'. injection E' as <- <-.
  destruct Hcase as [(_ & term2 & name2 & c2 & alias2 & rows2 & cols2 & _ & _ & Hs2)|[? _]]; [|done].
  destruct (sr_orig _ _ _ _ _ _ Hs2) as (Ho & Hh & Ht). destruct (proj1 Hc1) as [Hr _].
  destruct (deinit_spec w2 (sr_end _ _ _ _ _ _ Hs2) (proj1 (proj2 (sr_calm _ _ _ _ _ _ Hs2))))
    as (w3 & Ed & _ & Htios & _).
  exists w3. split.
  - unfold tb_shutdown, if_not_init_return.
    mrun (eq_refl : glob initialized w2 = (Ret (initialized (G w2)), w2)).
    rewrite (proj1 (sr_idle _ _ _ _ _ _ Hs2)). cbn [negb]. by mrun Ed.
  - rewrite Hh, Ht, Ho, (proj2 (Z.leb_le 0 r)) in Htios by done. rewrite Htios.
    symmetry. apply (sr_raw _ _ _ _ _ _ Hs1).
Qed.

Lemma second_start_loses_attributes_witness :
  exists w3, @tb_shutdown default_config demo_restarted = (Ret TB_OK, w3) /\
    Some (s_tios (T w3)) = raw_tios (s_tios (T demo_before)).
Proof.
  apply (@second_start_loses_attributes default_config 0 0 demo_before demo_started).
  - exact demo_before_calm.
  - exact demo_started_eq.
  - exact demo_started_calm.
  - exact demo_restarted_eq.
Defined.
