(* ===== verification/TbSession.v ===== *)
(** * life/termbox2.h: a program that draws

    The terminal of [TbTerm] through the life of a program: from any screen a
    start makes it blank, and whatever cells the program then sets, clears and
    presents, the terminal shows what the program asked for. *)

From stdpp Require Import prelude list_numbers strings gmap.
From Stdlib Require Import ZArith Lia.
From S2P Require Import Prelude CLib Posix TbTables TbText TbBuf TbTrie TbGlobal TbOutput TbPresent TbTerm TbApi TbInput TbEvent TbTerminfo TbInit.
Open Scope Z_scope.

(** ** What a program draws *)

Inductive draw_op :=
| DrawCell (x y c f b : Z)
| DrawClear
| DrawCursor (x y : Z)
| DrawHide
| DrawPresent.

Section Session.
Context `{opts : config}.

Definition do_op (o : draw_op) : M tbw Z :=
  match o with
  | DrawCell x y c f b => tb_set_cell x y c f b
  | DrawClear => tb_clear
  | DrawCursor x y => tb_set_cursor x y
  | DrawHide => tb_hide_cursor
  | DrawPresent => tb_present
  end.

(** A program that ignores the results. *)
Fixpoint do_ops (l : list draw_op) : M tbw unit :=
  match l with
  | [] => ret tt
  | o :: l' => do_op o ;;; do_ops l'
  end.

(** What it asked for: the codepoint and the attributes of each cell. *)
Definition draw_spec (s : Z -> Z -> Z * Z * Z) (o : draw_op) : Z -> Z -> Z * Z * Z :=
  match o with
  | DrawCell x y c f b => fun x' y' => if decide (x' = x /\ y' = y) then (c, f, b) else s x' y'
  | DrawClear => fun _ _ => (32, TB_DEFAULT, TB_DEFAULT)
  | _ => s
  end.

(** Characters that can be drawn, and a cursor on the screen. *)
Definition draw_ok (width height mode : Z) (o : draw_op) : Prop :=
  match o with
  | DrawCell x y c f b => plain mode (c, f, b, [])
  | DrawCursor x y => Z.max 0 x < width /\ Z.max 0 y < height
  | _ => True
  end.

(** The back buffer is what the program asked for. *)
Definition asked (B : cellbuf) (s : Z -> Z -> Z * Z * Z) : Prop :=
  forall x y, in_grid (cb_width B) (cb_height B) x y ->
    view_at B x y = Some (let '(c, f, b) := s x y in (c, f, b, [])).

(** Showing and hiding the cursor changes nothing that is shown. *)
Definition quiet (s : list Z) : Prop := forall v, vt_state v = Ground -> vt_run s v = Some v.

Definition quiet_caps (g : tb_global) : Prop :=
  forall i, i ∈ [TB_CAP_SHOW_CURSOR; TB_CAP_HIDE_CURSOR; TB_CAP_ENTER_CA; TB_CAP_ENTER_KEYPAD] -> quiet (cap_text g i).

(** The program has been started on a terminal [D], has sent at most [n] bytes
    since the last present, and the terminal is now [v]. *)
Record session (C : list (option (list Z))) (D : vt) (before : list Z) (width height n : Z)
    (s : Z -> Z -> Z * Z * Z) (w : tbw) (v : vt) : Prop := {
  ss_init : initialized (G w) = true;
  ss_caps : caps (G w) = C /\ caps_full C /\ caps_length C <= 2000;
  ss_understood : caps_understood (G w) = true /\ quiet_caps (G w);
  ss_clear : g_fg (G w) = TB_DEFAULT /\ g_bg (G w) = TB_DEFAULT;
  ss_size : cb_width (back (G w)) = width /\ cb_height (back (G w)) = height;
  ss_wf : cb_wf (back (G w)) /\ cb_wf (front (G w)) /\ buf_dims (front (G w)) (back (G w));
  ss_plain : plain_back (output_mode (G w)) (back (G w));
  ss_asked : asked (back (G w)) s;
  ss_linked : linked w v;
  ss_cursor : cursor_in (G w) v;
  ss_calm : s_alloc (T w) = [] /\ s_write (T w) = [];
  ss_room : bb_wf (g_out (G w)) /\ bb_len (g_out (G w)) <= n;
  ss_sent : exists sent, s_out (T w) = before ++ sent /\ vt_run (sent ++ bb_bytes (g_out (G w))) D = Some v
}.

(** ** Lemmas *)

Lemma plain_drawable mode c : cell_wf c -> plain mode (cell_view c) -> cell_drawable 0 c.
Proof.
  intros Hw (Hc & _ & Hl & _). assert (nech c = 0) as Hn.
  { unfold cell_wf in Hw. destruct (ech c) as [m|] eqn:Em; [|lia]. destruct Hw as [Hlen [?|(_ & Hr & _)]]; [done|].
    exfalso. unfold cell_cluster in Hl. rewrite (proj2 (Z.ltb_lt _ _)), Em in Hl by lia.
    apply (f_equal length) in Hl. simpl in Hl. rewrite length_take in Hl. lia. }
  split; [lia|]. rewrite Hl. split; [done|]. unfold cell_small. rewrite Hn. split; [vm_compute; congruence|done].
Qed.

Lemma plain_back_ok mode B : cb_wf B -> plain_back mode B -> back_ok 0 B.
Proof.
  intros Hw Hp. split; [done|]. intros l El. pose proof Hw as (l' & El' & W & H & _ & Hlen & Hcw).
  rewrite El in El'. injection El' as <-. apply Forall_lookup. intros i c Ec.
  pose proof (lookup_lt_Some _ _ _ Ec) as Hi. rewrite Forall_lookup in Hcw. pose proof (Hcw _ _ Ec) as Hcwf.
  assert (0 < cb_width B) as Wpos by nia.
  pose proof (Z.mod_pos_bound (Z.of_nat i) (cb_width B) Wpos) as Hm.
  pose proof (Z.div_mod (Z.of_nat i) (cb_width B)) as Hdm.
  apply (plain_drawable mode); [done|]. apply (Hp (Z.of_nat i mod cb_width B) (Z.of_nat i / cb_width B)).
  unfold view_at, cb_at. rewrite (proj2 (in_bounds_grid _ _ _)), El.
  - rewrite zlookup_nonneg by lia. replace (Z.to_nat _) with i by lia. by rewrite Ec.
  - unfold in_grid. split; [lia|]. split; [apply Z.div_pos; lia|]. apply Z.div_lt_upper_bound; [lia|]. nia.
Qed.

Lemma session_presentable C D o width height n s w v :
  session C D o width height n s w v -> presentable C 0 (back (G w)) w.
Proof.
  intros Hs. constructor; try apply Hs; [done|]. eapply plain_back_ok; apply Hs.
Qed.

Lemma session_room C D o width height n s w v k :
  session C D o width height n s w v -> n <= 2 ^ 50 -> k <= 2 ^ 55 -> room w k.
Proof.
  intros Hs Hn Hk. destruct (ss_room _ _ _ _ _ _ _ _ _ Hs) as [Hw Hl]. split; [done|]. split; [apply Hs|].
  unfold PTRDIFF_MAX. lia.
Qed.

Lemma session_cost C D o width height n s w v :
  session C D o width height n s w v -> present_cost C 0 (back (G w)) <= 2 ^ 55.
Proof.
  intros Hs. destruct (ss_caps _ _ _ _ _ _ _ _ _ Hs) as (_ & _ & Hl).
  destruct (ss_wf _ _ _ _ _ _ _ _ _ Hs) as ((l & _ & W & H & [Hi1 Hi2] & _) & _).
  unfold present_cost, cell_cost, attr_cost in *. unfold INT_MAX in Hi2. pose proof (caps_length_nonneg C). nia.
Qed.

Lemma plain_blank mode : plain mode (blank TB_DEFAULT TB_DEFAULT).
Proof.
  assert (doc_attr mode TB_DEFAULT) as Hd by (intros _ _; vm_compute; discriminate).
  split; [split; vm_compute; congruence|]. split; [right; vm_compute; discriminate|done].
Qed.

Lemma if_err_assoc (m k l : M tbw Z) w : (m >>! (k >>! l)) w = ((m >>! k) >>! l) w.
Proof.
  unfold if_err_return, bind. destruct (m w) as [[rv|c| |] w']; try done.
  destruct (rv =? TB_OK) eqn:E; cbn [negb]; [done|]. cbn. by rewrite E.
Qed.

(** *** Between two presents *)

(** A quiet sequence, and a position for the cursor. *)
Lemma session_put C D o width height n k s w v b bs x y :
  session C D o width height n s w v -> bb_wf b -> bb_bytes b = bb_bytes (g_out (G w)) ++ bs ->
  Z.of_nat (length bs) <= k -> vt_run bs v = Some (set_vt_pos x y v) ->
  session C D o width height (n + k) s (put_out b w) (set_vt_pos x y v).
Proof.
  intros [] Hb Hbb Hk Hrun. constructor; try done.
  - destruct (linked_move w v x y ss_linked0) as [? ? [] ?]. by constructor.
  - split; [done|]. cbn [put_out G set_G g_out set_g_out]. rewrite <- bb_bytes_length, Hbb, length_app by done.
    destruct ss_room0 as [Hw Hl]. pose proof (bb_bytes_length _ Hw). lia.
  - destruct ss_sent0 as (sent & Ho & Hs). exists sent. split; [done|].
    cbn [put_out G set_G g_out set_g_out]. rewrite Hbb, app_assoc. by eapply vt_run_cat.
Qed.

(** Where the library remembers the cursor. *)
Lemma session_cursor C D o width height n s w v x y :
  session C D o width height n s w v ->
  x < 0 \/ y < 0 \/ 0 <= x < width /\ 0 <= y < height ->
  session C D o width height n s (set_G (set_cursor_y y (set_cursor_x x (G w))) w) v.
Proof.
  intros [] Hxy. destruct ss_size0 as [<- <-]. constructor; try done.
  - destruct ss_linked0 as [? ? [] ?]. by constructor.
  - unfold cursor_in. destruct (d_size _ _ _ (k_disp _ _ ss_linked0)) as [-> ->].
    destruct ss_wf0 as (_ & _ & -> & ->). exact Hxy.
Qed.

(** Another back buffer. *)
Lemma session_back C D o width height n s s' w v B :
  session C D o width height n s w v -> cb_wf B -> buf_dims B (back (G w)) ->
  plain_back (output_mode (G w)) B -> asked B s' ->
  session C D o width height n s' (put_buf true B w) v.
Proof.
  intros [] HB [E1 E2] Hp Ha. destruct ss_size0 as [<- <-]. constructor; try done.
  - destruct ss_wf0 as (_ & ? & ? & ?). cbn. split; [done|]. split; [done|]. split; congruence.
  - destruct ss_linked0 as [? ? [] ?]. by constructor.
Qed.

Lemma session_sends C D o width height n s w v m bs x y :
  session C D o width height n s w v -> n <= 2 ^ 50 -> emits (G w) m bs -> Z.of_nat (length bs) <= 5000 ->
  vt_run bs v = Some (set_vt_pos x y v) ->
  exists b, m w = (Ret TB_OK, put_out b w) /\ session C D o width height (n + 5000) s (put_out b w) (set_vt_pos x y v).
Proof.
  intros Hs Hn He Hl Hrun. destruct (He w eq_refl) as (b & E & Hw & Hb).
  { eapply session_room; [exact Hs|done|]. change (2 ^ 55) with 36028797018963968. lia. }
  exists b. split; [done|]. by eapply session_put.
Qed.

Lemma vt_run_quiet g i x y v bs :
  quiet_caps g -> i ∈ [TB_CAP_SHOW_CURSOR; TB_CAP_HIDE_CURSOR; TB_CAP_ENTER_CA; TB_CAP_ENTER_KEYPAD] ->
  vt_state v = Ground -> vt_run bs v = Some (set_vt_pos x y v) ->
  forall c : bool, vt_run ((if c then cap_text g i else []) ++ bs) v = Some (set_vt_pos x y v).
Proof. intros Hq Hi Hv Hrun c. eapply vt_run_cat; [|exact Hrun]. destruct c; [by apply (Hq i)|done]. Qed.

Lemma session_le C D o width height n m s w v :
  session C D o width height n s w v -> n <= m -> session C D o width height m s w v.
Proof. intros [] ?. destruct ss_room0. constructor; try done. split; [done|lia]. Qed.

(** *** One operation *)

Section Step.
Variables (C : list (option (list Z))) (D : vt) (before : list Z) (width height : Z).

Abbreviation here := (session C D before width height).

Lemma step_cell n s w v x y c f b :
  here n s w v -> draw_ok width height (output_mode (G w)) (DrawCell x y c f b) ->
  exists rv w', tb_set_cell x y c f b w = (Ret rv, w') /\ output_mode (G w') = output_mode (G w) /\
    here n (draw_spec s (DrawCell x y c f b)) w' v.
Proof.
  intros Hs Hok. pose proof Hs as []. destruct ss_size0 as [Sw Sh].
  destruct (cellbuf_in_bounds (back (G w)) x y) eqn:Eb.
  - apply in_bounds_grid in Eb. destruct (set_cell_spec w x y c f b) as (B' & E & HwB & Hd & Hv & Ho); [done|apply ss_wf0|done|].
    exists TB_OK, (put_buf true B' w). split; [exact E|]. split; [done|].
    eapply session_back; [exact Hs|done|done| |].
    + intros x' y' sv Ev. destruct (decide (x' = x /\ y' = y)) as [[-> ->]|Hn].
      * rewrite Hv in Ev. by injection Ev as <-.
      * rewrite Ho in Ev by done. by eapply ss_plain0.
    + intros x' y' Hg. cbn [draw_spec]. case_decide as Hn; [by destruct Hn as [-> ->]|]. rewrite Ho by done.
      apply ss_asked0. destruct Hd as [<- <-]. done.
  - assert (tb_set_cell x y c f b w = (Ret TB_ERR_OUT_OF_BOUNDS, w)) as E.
    { unfold tb_set_cell, tb_set_cell_ex. rewrite is_init by done.
      mrun (eq_refl : glob back w = (Ret (back (G w)), w)). unfold cellbuf_get. by rewrite Eb. }
    exists TB_ERR_OUT_OF_BOUNDS, w. split; [exact E|]. split; [done|]. constructor; try done.
    intros x' y' Hg. cbn [draw_spec]. case_decide as Hn; [|by apply ss_asked0]. destruct Hn as [-> ->].
    apply in_bounds_grid in Hg. congruence.
Qed.

Lemma step_clear n s w v :
  here n s w v ->
  exists w', tb_clear w = (Ret TB_OK, w') /\ output_mode (G w') = output_mode (G w) /\
    here n (draw_spec s DrawClear) w' v.
Proof.
  intros Hs. pose proof Hs as []. unfold tb_clear. rewrite is_init by done.
  destruct (cellbuf_clear_spec (g_fg (G w)) (g_bg (G w)) (back (G w)) (T w)) as (B' & E & Hw & Ed & Eh & Hv);
    [apply ss_wf0|].
  rewrite (buf_op_ret true cellbuf_clear w B' E). eexists. split; [reflexivity|]. split; [done|].
  destruct ss_clear0 as [Ef Eb]. rewrite Ef, Eb in Hv.
  eapply session_back; [exact Hs|done|done| |].
  - intros x y sv Ev. rewrite Hv in Ev; [injection Ev as <-; apply plain_blank|].
    unfold view_at, cb_at in Ev. destruct (cellbuf_in_bounds B' x y) eqn:E1; [|done].
    apply in_bounds_grid in E1. by rewrite Ed, Eh in E1.
  - intros x y Hg. rewrite Ed, Eh in Hg. by apply Hv.
Qed.

Lemma step_cursor n s w v x y :
  here n s w v -> n <= 2 ^ 50 -> Z.max 0 x < width -> Z.max 0 y < height ->
  exists w' v', tb_set_cursor x y w = (Ret TB_OK, w') /\ output_mode (G w') = output_mode (G w) /\
    here (n + 5000) s w' v'.
Proof.
  intros Hs Hn Hx Hy. pose proof Hs as []. destruct ss_caps0 as (EC & HC & HL). destruct ss_understood0 as [_ Hq].
  unfold tb_set_cursor. rewrite is_init by done.
  mrun (eq_refl : glob cursor_x w = (Ret (cursor_x (G w)), w)).
  replace (if x <? 0 then 0 else x) with (Z.max 0 x) by (destruct (Z.ltb_spec x 0); lia).
  replace (if y <? 0 then 0 else y) with (Z.max 0 y) by (destruct (Z.ltb_spec y 0); lia).
  assert (caps_ok (G w)) as Hok by (unfold caps_ok; by rewrite EC).
  assert (emits (G w) (send_if (cursor_x (G w) =? -1) (out_cap TB_CAP_SHOW_CURSOR) >>! send_cursor_if (Z.max 0 x) (Z.max 0 y))
    ((if cursor_x (G w) =? -1 then cap_text (G w) TB_CAP_SHOW_CURSOR else []) ++ cursor_bytes (Z.max 0 x) (Z.max 0 y))) as He.
  { apply emits_seq; [apply emits_if, emits_cap; [done|split; [discriminate|reflexivity]]|apply emits_cursor]. }
  destruct (session_sends _ _ _ _ _ _ _ _ _ _ _ (Z.max 0 x) (Z.max 0 y) Hs Hn He) as (b & E & Hs').
  - rewrite length_app. pose proof (cursor_bytes_length (Z.max 0 x) (Z.max 0 y)).
    pose proof (cap_text_length (G w) TB_CAP_SHOW_CURSOR) as Hc. rewrite EC in Hc.
    destruct (_ =? _); simpl; lia.
  - destruct ss_size0 as [<- <-]. destruct (d_size _ _ _ (k_disp _ _ ss_linked0)) as [Vw Vh].
    destruct ss_wf0 as (_ & _ & Dw & Dh). apply vt_run_quiet; [done|by left|apply ss_linked0|].
    apply vt_run_cursor; try apply ss_linked0; lia.
  - rewrite if_err_assoc. unfold if_err_return at 1. mrun E. eexists _, _. split; [reflexivity|]. split; [done|].
    apply (session_cursor _ _ _ _ _ _ _ _ _ (Z.max 0 x) (Z.max 0 y) Hs'). right. right. lia.
Qed.

Lemma step_hide n s w v :
  here n s w v -> n <= 2 ^ 50 ->
  exists w' v', tb_hide_cursor w = (Ret TB_OK, w') /\ output_mode (G w') = output_mode (G w) /\
    here (n + 5000) s w' v'.
Proof.
  intros Hs Hn. pose proof Hs as []. destruct ss_caps0 as (EC & HC & HL). destruct ss_understood0 as [_ Hq].
  unfold tb_hide_cursor. rewrite is_init by done.
  mrun (eq_refl : glob cursor_x w = (Ret (cursor_x (G w)), w)).
  assert (caps_ok (G w)) as Hok by (unfold caps_ok; by rewrite EC).
  assert (emits (G w) (send_if (0 <=? cursor_x (G w)) (out_cap TB_CAP_HIDE_CURSOR))
    ((if 0 <=? cursor_x (G w) then cap_text (G w) TB_CAP_HIDE_CURSOR else []) ++ [])) as He.
  { rewrite app_nil_r. apply emits_if, emits_cap; [done|split; [discriminate|reflexivity]]. }
  destruct (session_sends _ _ _ _ _ _ _ _ _ _ _ (vt_x v) (vt_y v) Hs Hn He) as (b & E & Hs').
  - rewrite length_app. pose proof (cap_text_length (G w) TB_CAP_HIDE_CURSOR) as Hc. rewrite EC in Hc.
    destruct (_ <=? _); simpl; lia.
  - apply vt_run_quiet; [done|by right; left|apply ss_linked0|]. by rewrite vt_pos_id.
  - unfold if_err_return at 1. mrun E. eexists _, _. split; [reflexivity|]. split; [done|].
    apply (session_cursor _ _ _ _ _ _ _ _ _ (-1) (-1) Hs'). by left.
Qed.

Lemma step_present n s w v :
  here n s w v -> n <= 2 ^ 50 ->
  exists w' v', tb_present w = (Ret TB_OK, w') /\ output_mode (G w') = output_mode (G w) /\ here 0 s w' v' /\
    back (G w') = back (G w) /\ all_synced (front (G w')) (back (G w)) /\
    (0 <= cursor_x (G w') -> 0 <= cursor_y (G w') -> vt_x v' = cursor_x (G w') /\ vt_y v' = cursor_y (G w')) /\
    bb_bytes (g_out (G w')) = [].
Proof.
  intros Hs Hn. pose proof Hs as []. pose proof (session_presentable _ _ _ _ _ _ _ _ _ Hs) as Hp.
  assert (room w (present_cost C 0 (back (G w)))) as Hr
    by (eapply session_room; [exact Hs|done|by eapply session_cost]).
  destruct ss_understood0 as [Hu Hq]. destruct ss_calm0 as [Ha Hw].
  destruct (tb_present_spec C 0 (back (G w)) w ss_init0 Hp Hw Hr)
    as (w1 & sent & E & Hp1 & He & Hsy & Hwo & Hbo & HT & _).
  destruct ss_sent0 as (sent0 & Ho & Hrun).
  rewrite vt_run_app in Hrun. destruct (vt_run sent0 D) as [D'|] eqn:ED; [|done].
  destruct (tb_present_paints C 0 (back (G w)) D' _ w v ss_init0 Hp Hw Hr Hu eq_refl ss_plain0 ss_linked0 ss_cursor0 Hrun)
    as (w1' & v' & sent' & E' & Ho' & Hrun' & Hk' & _ & Hcur).
  rewrite E in E'. injection E' as <-.
  assert (forall A (f : tb_global -> A), (forall g, f (erase g) = f g) -> f (G w1) = f (G w)) as Hf
    by (intros; by apply erased_field).
  pose proof (Hf _ back (fun _ => eq_refl)) as Eb. pose proof (Hf _ caps (fun _ => eq_refl)) as Ec.
  pose proof (Hf _ output_mode (fun _ => eq_refl)) as Em.
  exists w1, v'. split; [done|]. split; [done|]. split; [|by rewrite (Hf _ cursor_x), (Hf _ cursor_y)].
  destruct (p_dims _ _ _ _ Hp1) as [Dw Dh]. destruct ss_wf0 as (HwB & HwF & HdF).
  constructor; rewrite ?Eb, ?Ec, ?Em; try done.
  - by rewrite (Hf _ initialized).
  - split; [by rewrite (Hf _ caps_understood)|]. intros i Hi. unfold cap_text. rewrite Ec. by apply (Hq i).
  - by rewrite (Hf _ g_fg), (Hf _ g_bg).
  - split; [done|]. split; [apply Hp1|done].
  - unfold cursor_in. rewrite (Hf _ cursor_x), (Hf _ cursor_y) by done.
    destruct (linked_size w v w1 v' ss_linked0 Hk') as [-> ->]; [|done].
    destruct HdF. unfold buf_dims. lia.
  - by rewrite HT.
  - split; [done|]. rewrite <- bb_bytes_length, Hbo by done. done.
  - exists (sent0 ++ sent'). split; [by rewrite Ho', Ho, <- app_assoc|].
    rewrite Hbo, app_nil_r. by eapply vt_run_cat.
Qed.

Lemma step_any n s w v o :
  here n s w v -> n <= 2 ^ 50 -> draw_ok width height (output_mode (G w)) o ->
  exists rv w' v', do_op o w = (Ret rv, w') /\ output_mode (G w') = output_mode (G w) /\
    here (n + 5000) (draw_spec s o) w' v'.
Proof.
  intros Hs Hn Ho. destruct o as [x y c f b| |x y| |].
  - destruct (step_cell n s w v x y c f b Hs Ho) as (rv & w' & E & Em & Hs').
    exists rv, w', v. split; [done|]. split; [done|]. eapply session_le; [exact Hs'|lia].
  - destruct (step_clear n s w v Hs) as (w' & E & Em & Hs').
    exists TB_OK, w', v. split; [done|]. split; [done|]. eapply session_le; [exact Hs'|lia].
  - destruct (step_cursor n s w v x y Hs Hn) as (w' & v' & H); [apply Ho..|]. by exists TB_OK, w', v'.
  - destruct (step_hide n s w v Hs Hn) as (w' & v' & H). by exists TB_OK, w', v'.
  - destruct (step_present n s w v Hs Hn) as (w' & v' & E & Em & Hs' & _).
    exists TB_OK, w', v'. split; [done|]. split; [done|]. eapply session_le; [exact Hs'|].
    pose proof (ss_room _ _ _ _ _ _ _ _ _ Hs) as [Hw Hl]. pose proof (bb_bytes_length _ Hw). lia.
Qed.

Lemma steps ops n s w v :
  here n s w v -> n + 5000 * Z.of_nat (length ops) <= 2 ^ 50 ->
  Forall (draw_ok width height (output_mode (G w))) ops ->
  exists w' v', do_ops ops w = (Ret tt, w') /\ output_mode (G w') = output_mode (G w) /\
    here (n + 5000 * Z.of_nat (length ops)) (fold_left draw_spec ops s) w' v'.
Proof.
  revert n s w v. induction ops as [|o ops IH]; intros n s w v Hs Hn Ho; cbn [do_ops fold_left length].
  - exists w, v. split; [done|]. split; [done|]. eapply session_le; [exact Hs|lia].
  - apply Forall_cons in Ho as [H1 H2]. rewrite length_cons, Nat2Z.inj_succ in Hn.
    destruct (step_any n s w v o Hs) as (rv & w1 & v1 & E1 & Em & Hs1); [lia|done|]. mrun E1.
    destruct (IH _ _ _ _ Hs1) as (w' & v' & E & Em' & Hs'); [lia|by rewrite Em|].
    exists w', v'. split; [done|]. split; [congruence|]. eapply session_le; [exact Hs'|lia].
Qed.

End Step.

End Session.

(** ** The start *)

(** The capabilities a start and the cursor use change nothing that is shown, and
    clearing leaves a blank screen. *)
Lemma builtin_caps_quiet name c alias g :
  (name, c, alias) ∈ builtin_terms -> caps g = Some <$> c -> quiet_caps g.
Proof.
  intros Hin Hg i Hi. 
  assert (forall i, i ∈ [TB_CAP_SHOW_CURSOR; TB_CAP_HIDE_CURSOR; TB_CAP_ENTER_CA; TB_CAP_ENTER_KEYPAD] ->
    Forall (fun '(_, c, _) => quiet (cap_text (set_caps (Some <$> c) global_zero) i)) builtin_terms) as H.
  { clear. intros i Hi. unfold builtin_terms.
    rewrite !elem_of_cons, elem_of_nil in Hi.
    destruct Hi as [->|[->|[->|[->|[]]]]];
      repeat (apply Forall_cons; split; [intros [? ? ? ? ? ? ?] [= ->]; vm_compute; reflexivity|]); apply Forall_nil_2. }
  specialize (H i Hi). rewrite Forall_forall in H. specialize (H _ Hin). cbn beta iota in H.
  unfold cap_text in *. rewrite Hg. exact H.
Qed.

(** A terminal with nothing of a wide character outside the screen. *)
Definition tidy (v : vt) : Prop := forall x y, ~ in_grid (vt_cols v) (vt_rows v) x y -> no_half v x y.

Lemma vt_run_clear s v :
  s = esc "[H" ++ esc "[2J" \/ s = esc "[H" ++ esc "[J" -> vt_state v = Ground -> tidy v ->
  exists v', vt_run s v = Some v' /\ vt_blank v' (mk_pen ∅ Default (p_bg (vt_pen v))) /\
    vt_cols v' = vt_cols v /\ vt_rows v' = vt_rows v /\ vt_pen v' = vt_pen v /\ vt_state v' = Ground.
Proof.
  intros Hs Hv Ht. destruct v as [cols rows g x y p st]. cbn in Hv. subst st.
  destruct Hs as [->| ->]; (eexists; split; [reflexivity|]); (split; [|done]); split; intros x' y' Hg; cbn in *; try done.
  - unfold erased. destruct Hg as [Hx Hy]. destruct (Z.ltb_spec 0 y'); [done|].
    rewrite (proj2 (Z.eqb_eq y' 0)), (proj2 (Z.leb_le 0 x')) by lia. done.
  - unfold no_half. cbn. destruct ((0 <? y') || (y' =? 0) && (0 <=? x')); [done|]. by apply Ht.
Qed.

Lemma builtin_clear name c alias g :
  (name, c, alias) ∈ builtin_terms -> caps g = Some <$> c ->
  cap_text g TB_CAP_CLEAR_SCREEN = esc "[H" ++ esc "[2J" \/ cap_text g TB_CAP_CLEAR_SCREEN = esc "[H" ++ esc "[J".
Proof.
  intros Hin Hg.
  pose proof (eq_refl : forallb (fun '(_, c, _) =>
    let s := cap_text (set_caps (Some <$> c) global_zero) TB_CAP_CLEAR_SCREEN in
    bool_decide (s = esc "[H" ++ esc "[2J") || bool_decide (s = esc "[H" ++ esc "[J")) builtin_terms = true) as H.
  rewrite forallb_forall in H. specialize (H _ (proj1 (list_elem_of_In _ _) Hin)). cbn beta iota zeta in H.
  unfold cap_text in *. rewrite Hg. apply orb_true_iff in H as [H|H]; apply bool_decide_eq_true in H; auto.
Qed.

Section Start.
Context `{opts : config}.

Lemma default_pen g : output_mode g = TB_OUTPUT_NORMAL -> doc_pen g TB_DEFAULT TB_DEFAULT = plain_pen.
Proof.
  intros Hm. unfold doc_pen, doc_styles. rewrite Hm.
  assert (forall a, has TB_DEFAULT a = false) as Hh by (intros a; unfold has, TB_DEFAULT; by rewrite Z.land_0_l).
  rewrite !Hh, !andb_false_r, default_color by (unfold is_default; rewrite ?Hh; by destruct wide_attr).
  unfold plain_pen. f_equal.
Qed.

Lemma hello_blank name c alias g D :
  (name, c, alias) ∈ builtin_terms -> caps g = Some <$> c -> output_mode g = TB_OUTPUT_NORMAL ->
  g_fg g = TB_DEFAULT -> g_bg g = TB_DEFAULT -> cursor_x g = -1 -> vt_state D = Ground -> tidy D ->
  exists v, vt_run (hello g) D = Some v /\ vt_blank v plain_pen /\ vt_cols v = vt_cols D /\ vt_rows v = vt_rows D /\
    vt_pen v = plain_pen /\ vt_state v = Ground.
Proof.
  intros Hin Hc Hm Hf Hb Hx HD Ht. pose proof (builtin_caps_quiet _ _ _ g Hin Hc) as Hq.
  assert (caps_understood g = true) as Hu by by eapply builtin_caps_understood.
  unfold hello. rewrite Hf, Hb, Hx. change (cursor_bytes (-1) (cursor_y g)) with (@nil Z). rewrite app_nil_r.
  assert (doc_attr (output_mode g) TB_DEFAULT) as Hd by (intros _ _; vm_compute; discriminate).
  destruct (vt_run_clear _ (set_vt_pen plain_pen D) (builtin_clear _ _ _ g Hin Hc) HD Ht)
    as (v & E & Hbl & Hrest).
  exists v. split; [|by split; [exact Hbl|]].
  eapply vt_run_cat; [|eapply vt_run_cat; [rewrite (vt_run_attr g TB_DEFAULT TB_DEFAULT D) by done; by rewrite default_pen|exact E]].
  assert (forall i, bool_decide (i ∈ [TB_CAP_SHOW_CURSOR; TB_CAP_HIDE_CURSOR; TB_CAP_ENTER_CA; TB_CAP_ENTER_KEYPAD]) = true ->
    vt_run (cap_text g i) D = Some D) as Hqi by (intros i Hi; apply (Hq i); [by apply bool_decide_eq_true in Hi|exact HD]).
  repeat (eapply vt_run_cat; [by apply Hqi|]). by apply Hqi.
Qed.

Lemma session_start w r name c alias width height w1 D :
  (name, c, alias) ∈ builtin_terms -> started w r c width height w1 ->
  width < 2 ^ 31 -> height < 2 ^ 31 ->
  vt_state D = Ground -> tidy D -> vt_cols D = width -> vt_rows D = height ->
  exists v, session (Some <$> c) D (s_out (T w)) width height 0 (fun _ _ => (32, TB_DEFAULT, TB_DEFAULT)) w1 v.
Proof.
  intros Hin Hs Hw Hh HD Ht Dc Dr. destruct Hs.
  destruct sr_back as (WB & BW & BH & VB). destruct sr_front as (WF & FW & FH & VF).
  destruct sr_attrs as (Ef & Eb & Elf & Elb). destruct sr_sent as [So Sb]. destruct sr_modes as [_ Em].
  destruct sr_cursor as [Ex Ey]. destruct sr_calm as (Ca & _ & Cw).
  destruct (hello_blank _ _ _ (G w1) D Hin sr_caps Em Ef Eb Ex HD Ht) as (v & E & Hbl & Vc & Vr & Vp & Vs).
  destruct (builtin_caps_full _ _ _ Hin) as [HC HL].
  assert (bb_wf (g_out (G w1))) as Hwo by apply sr_end.
  exists v. constructor; try done.
  - apply sr_idle.
  - split; [by eapply builtin_caps_understood|by eapply builtin_caps_quiet].
  - split; [done|]. split; [done|]. split; congruence.
  - intros x y s Ev. rewrite VB in Ev; [injection Ev as <-; apply plain_blank|].
    unfold view_at, cb_at in Ev. destruct (cellbuf_in_bounds (back (G w1)) x y) eqn:E1; [|done].
    apply in_bounds_grid in E1. by rewrite BW, BH in E1.
  - intros x y Hg. rewrite BW, BH in Hg. by apply VB.
  - constructor; [done| | |split; congruence].
    + by rewrite Elf, Elb, default_pen.
    + apply (blank_displays _ _ _ TB_DEFAULT TB_DEFAULT); [congruence|congruence|by rewrite default_pen|].
      rewrite FW, FH. exact VF.
  - by left; rewrite Ex.
  - split; [done|]. rewrite <- bb_bytes_length, Sb by done. done.
  - exists (hello (G w1)). split; [done|]. by rewrite Sb, app_nil_r.
Qed.

End Start.

(** ** Properties *)

(** C16: from the start of the library on a terminal with a built-in description
    to any [tb_present], when no call fails, and whatever cells the program has
    set, cleared and presented before in normal mode, with code points of one or
    two columns (or 0) and the attributes documented for the mode, and wherever
    on the screen it has put the cursor ([draw_ok]): all that was sent is
    understood by the terminal, and the terminal then shows what the program
    asked for, in every cell of the screen that no wide character covers,
    whatever was on the screen before the start. *)
Theorem session_shows `{config} r wf w w1 D ops width height :
  calm_start w r -> tb_init_rwfd r wf w = (Ret TB_OK, w1) -> size_of w1 = (width, height) ->
  vt_state D = Ground -> tidy D -> vt_cols D = width -> vt_rows D = height ->
  Forall (draw_ok width height TB_OUTPUT_NORMAL) ops -> Z.of_nat (length ops) <= 2 ^ 32 ->
  exists w2 v sent, (do_ops ops ;;; tb_present) w1 = (Ret TB_OK, w2) /\
    s_out (T w2) = s_out (T w) ++ sent /\ vt_run sent D = Some v /\
    (let s := fold_left draw_spec ops (fun _ _ => (32, TB_DEFAULT, TB_DEFAULT)) in
     forall x y c f b, in_grid width height x y -> stops (back (G w2)) y 0 x -> s x y = (c, f, b) ->
       cell_shown (G w2) v x y c f b) /\
    (0 <= cursor_x (G w2) -> 0 <= cursor_y (G w2) -> vt_x v = cursor_x (G w2) /\ vt_y v = cursor_y (G w2)).
Proof.
  intros Hc E Hsz HD Ht Dc Dr Hops Hlen. destruct (init_outcome r wf w Hc) as (rv & w' & E' & Hcase).
  rewrite E in E'. injection E' as <- <-.
  destruct Hcase as [(_ & term & name & c & alias & rows & cols & _ & [Hin _] & Hs)|[? _]]; [|done].
  pose proof (sr_size _ _ _ _ _ _ Hs) as Hsz'. rewrite Hsz in Hsz'. injection Hsz' as -> ->.
  pose proof (wrapu_range 16 cols ltac:(lia)) as Rc. pose proof (wrapu_range 16 rows ltac:(lia)) as Rr.
  change (2 ^ 16) with 65536 in *.
  destruct (session_start w r name c alias _ _ w1 D Hin Hs) as (v0 & Hs0); [lia|lia|done..|].
  destruct (steps (Some <$> c) D (s_out (T w)) _ _ ops 0 _ w1 v0 Hs0) as (w' & v' & E1 & Em & Hs1).
  { lia. }
  { by rewrite (proj2 (sr_modes _ _ _ _ _ _ Hs)). }
  mrun E1. destruct (step_present _ _ _ _ _ _ _ _ _ Hs1) as (w2 & v & E2 & _ & Hs2 & EB & Hsy & Hcur & Hb).
  { lia. }
  destruct (ss_sent _ _ _ _ _ _ _ _ _ Hs2) as (sent & Ho & Hrun). rewrite Hb, app_nil_r in Hrun.
  exists w2, v, sent. do 3 (split; [done|]). split; [|done]. intros s x y c1 f b Hg Hst Es.
  destruct (ss_size _ _ _ _ _ _ _ _ _ Hs2) as [Sw Sh]. rewrite EB in *.
  pose proof (ss_asked _ _ _ _ _ _ _ _ _ Hs2 x y) as Ha. rewrite EB, Sw, Sh in Ha. specialize (Ha Hg).
  fold s in Ha. rewrite Es in Ha. pose proof (ss_plain _ _ _ _ _ _ _ _ _ Hs2) as Hp. rewrite EB in Hp.
  pose proof (plain_not_hidden _ _ _ _ _ (Hp _ _ _ Ha)) as Hn.
  rewrite <- (Hsy y ltac:(rewrite Sh; apply Hg) x Hst) in Ha by (rewrite Sw; apply Hg).
  by apply (d_cell _ _ _ (k_disp _ _ (ss_linked _ _ _ _ _ _ _ _ _ Hs2)) _ _ _ _ _ _ Ha).
Qed.

(** A program that puts a cursor, draws a wide character and two letters, the
    first time at the wrong place, and presents in between. *)
Definition demo_ops : list draw_op :=
  [DrawCell 2 0 98 1 0; DrawCursor 1 1; DrawPresent; DrawClear; DrawCell 0 0 26085 (Z.lor 2 256) 0; DrawCell 2 0 97 0 3;
   DrawCell 7 7 98 0 0; DrawHide].

Definition demo_vt_before : vt := blank_vt 3 2 (mk_pen {[7]} Default Default) plain_pen.

Lemma session_shows_witness :
  exists w2 v sent, (@do_ops default_config demo_ops ;;; @tb_present default_config) demo_started = (Ret TB_OK, w2) /\
    s_out (T w2) = s_out (T demo_before) ++ sent /\ vt_run sent demo_vt_before = Some v /\
    (let s := fold_left draw_spec demo_ops (fun _ _ => (32, TB_DEFAULT, TB_DEFAULT)) in
     forall x y c f b, in_grid 3 2 x y -> @stops default_config (back (G w2)) y 0 x -> s x y = (c, f, b) ->
       @cell_shown default_config (G w2) v x y c f b) /\
    (0 <= cursor_x (G w2) -> 0 <= cursor_y (G w2) -> vt_x v = cursor_x (G w2) /\ vt_y v = cursor_y (G w2)).
Proof.
  apply (@session_shows default_config 0 0 demo_before demo_started demo_vt_before demo_ops 3 2).
  - exact demo_before_calm.
  - exact demo_started_eq.
  - vm_compute. reflexivity.
  - reflexivity.
  - intros x y Hg. by apply (proj2 (blank_vt_blank 3 2 _ _)).
  - reflexivity.
  - reflexivity.
  - assert (forall c f b, 0 <= c < 2 ^ 31 -> width_spec c <> 0 -> Z.land f 255 <= 8 -> Z.land b 255 <= 8 ->
      @plain default_config TB_OUTPUT_NORMAL (c, f, b, [])) as Hp
      by (intros; split; [done|]; split; [by right|]; split; [done|]; split; intros _ _; done).
    repeat (apply Forall_cons; split; [first [exact I | apply Hp; vm_compute; split || idtac; congruence | split; vm_compute; congruence]|]).
    apply Forall_nil_2.
  - vm_compute. discriminate.
Defined.
